(* ===== verification/_CoqProject ===== *)
-Q . S2P
Prelude.v
Chain.v
Strings.v
Uart.v
Heap.v
Rtc.v
Ramdisk.v
Onescomp.v
Eth.v
Net.v
Def.v
Chksum.v
Ip4Addr.v
Alloc.v
Memp.v
Timeouts.v
Mem.v
Pbuf.v
PbufRef.v
PbufAlloc.v
PbufStore.v
PbufPool.v
PbufTrim.v
Ethernet.v
EthArp.v
EthArpOps.v
EthArpOut.v
LwipPort.v
ArpSpec.v
EthInput.v
Receive.v
Acd.v
AcdOps.v
AcdSpec.v
ArpPath.v
Ip4.v
Icmp.v
Ip4Input.v
HeadMem.v
Ip4Ops.v
IcmpOps.v
Ip4Recv.v
Ip4Spec.v
IpPath.v
UdpPcb.v
UdpTable.v
UdpOps.v
UdpSpec.v
Udp.v
UdpRecv.v
UdpSend.v
UdpPath.v
Http.v
Shell.v
