(* ===== verification/Prelude.v ===== *)
(** * ZanOS: a verification development

    ZanOS is a small kernel for an ARM Cortex-M3 board (LM3S6965): a shell on
    the serial line, a RAM disk, a bump allocator, an Ethernet driver and an
    HTTP client on top of the TCP/IP stack lwIP, which is in the tree under
    src/src/lwip and configured by src/include/lwipopts.h (no operating system,
    IPv4 only, 4-byte alignment, assertions on). This library models the
    kernel's own code completely and the parts of lwIP it runs on, from the
    memory up.

    ** How the program is put together

    [main] (main.c) initialises the console, the heap, the RAM disk, the clock
    and the stack, creates a demo file and then reads and runs command lines
    for ever. While it waits it calls [lwip_poll], which passes a received
    frame to the stack (lwip_port.c) and runs the timers of the stack that are
    due (timeouts.c). Everything in the stack lives in packet buffers (pbuf.c),
    whose memory comes from the pools (memp.c) and the heap (mem.c) of lwIP. A
    frame goes from the controller's FIFO (eth.c) into a pbuf chain
    (lwip_port.c), through ethernet_input (ethernet.c) to ARP (etharp.c), which
    shows every message to address conflict detection (acd.c), or to ip4_input
    (ip4.c), which passes the datagrams for us to ICMP (icmp.c), UDP (udp.c) or
    TCP; UDP calls the function registered for the port; a packet goes out through ip4_output, etharp_output, ethernet_output and
    low_level_output to the FIFO. The shell starts an HTTP request
    (http_client.c), whose callbacks the stack calls. net.c is an older packet
    handler of the kernel that nothing calls any more.

    ** Conventions

    - Integers are [Z]; every conversion or computation at a fixed width is
      written with [u8], [u16], [u32], [s8] or [s32] of this file.
    - Fallible code returns [res]: [Ok], or [Err] with what went wrong. An error
      is undefined behaviour of the C program (an access out of bounds, a
      dangling or null pointer) or a failed assertion, which stops the board; a
      theorem that a function returns [Ok] says that none of this happens. The
      error codes of the C functions are ordinary results.
    - [x ← e; k] is the bind of [res]. State is passed explicitly; a module's
      state is a record, and [Part] (below) lets a function that works on the
      state of one module run in the state of the modules above it.
    - Loops are structural where the code counts; otherwise they have fuel, and
      [Err OutOfFuel] when it runs out. The theorems about them say that they
      return [Ok], so the fuel given is shown to be enough: [chain_fuel], one
      more than the number of pbufs in the store, for loops over a chain; the
      length of the string or of the free list for those over them; a bound on
      the number of digits in the number printers. Loops that wait for the
      hardware, a key or the stack (uart_putc, getline, curl) take the fuel as
      an argument and the theorem says for which amount they return, given when
      the event happens.
    - What a device register delivers, what is in uninitialised memory and what
      the clock says is a parameter, so the theorems hold for all of it.

    ** The files

    The kernel's own code:
    - Strings.v (src/src/strings.c, the ctype macros of src/include): the memory
      and string functions, byte by byte.
    - Uart.v (uart.c): the register level and the class [Console] which it
      implements; everything that prints is proved against the class.
    - Heap.v (heap.c): kmalloc, the bump allocator.
    - Rtc.v (rtc.c, delay.c, kernel_log.c): clock, delay, diagnostics.
    - Ramdisk.v (ramdisk.c): the slots, and the abstract disk they refine.
    - Eth.v (eth.c, interrupt.c): the Ethernet controller driver.
    - Net.v (net.c): the ARP and ICMP replies of the old packet handler.
    - LwipPort.v (lwip_port.c, lwip_poll of main.c, the tick of interrupt.c):
      from a pbuf chain to the wire and back; the instance [port_link] of the
      class [LinkDriver].
    - Http.v (http_client.c): the callbacks, over the class [TcpApi].
    - Shell.v (main.c): boot, line editor, command interpreter.

    lwIP:
    - Onescomp.v, Chksum.v (inet_chksum.c): ones' complement sums, the three
      versions of the checksum routine, checksums over chains.
    - Def.v (def.c) and Ip4Addr.v (ip4_addr.c): byte order, string helpers,
      address classes, text and numbers.
    - Alloc.v: the class [PoolAlloc], what a pool of fixed-size elements
      promises; Memp.v (memp.c): the pools, which implement it.
    - Mem.v (mem.c): the first-fit heap with its block headers, and the abstract
      layout it refines.
    - Timeouts.v (timeouts.c): the sorted list of timeouts, the cyclic timers and
      the check of sys_check_timeouts for a request to free the out-of-sequence
      queues (PBUF_CHECK_FREE_OOSEQ of pbuf.h; pbuf_free_ooseq is in LwipPort.v).
    - Pbuf.v (pbuf.c): all operations; theorems about reading, writing,
      searching and copying. PbufRef.v: reference counts. PbufAlloc.v: what
      pbuf_alloc returns. PbufStore.v: the invariant of a store of well-formed
      packets, for the modules that keep packets; PbufPool.v: allocation from
      the pool keeps it; PbufTrim.v: so does pbuf_realloc, and what is left.
    - Ethernet.v (netif/ethernet.c): framing, over the class [LinkDriver];
      EthInput.v: the contract of ethernet_input.
    - EthArp.v (ipv4/etharp.c): all operations and the invariant [arp_ok];
      EthArpOps.v and EthArpOut.v: lemmas on the operations; ArpSpec.v: the
      theorems.
    - Acd.v (ipv4/acd.c): all operations, with the linked list of structs of
      every interface as it is and the clients behind their callbacks; AcdOps.v:
      the invariant, the class [AcdUser] of a state that contains both ARP and
      conflict detection, the tick as a function on one struct; AcdSpec.v: the
      theorems.
    - Receive.v: [ethernetif_input] with [ethernet_input] behind it, as main.c
      connects them; ArpPath.v: the same with ARP and conflict detection.
    - Ip4.v (ipv4/ip4.c: the state, routing and output), Ip4Input.v (ip4.c: input)
      and Icmp.v (ipv4/icmp.c): the operations. HeadMem.v: memory behind a pointer
      into the first pbuf. Ip4Ops.v: the class [IpUser] of a state that contains
      ARP and IPv4, headers, routes and output; IcmpOps.v: replies and error
      messages; Ip4Recv.v: input, against the contracts of the transports, of
      ip4_frag and of ip4_reass. Ip4Spec.v: the theorem about ip4_output;
      IpPath.v: the receive path with IPv4 behind it and its theorems.
    - UdpPcb.v (udp.c: the control blocks): binding, connecting, removing, the
      search for the receiver of a datagram, on structs from a pool that form a
      linked list (Chain.v, also for Acd.v). UdpTable.v: the abstract table of
      sockets; UdpOps.v: each call in memory does what the table does;
      UdpSpec.v: the theorems. Udp.v (udp.c): udp_input and sending; UdpRecv.v:
      the class [UdpUser], udp_input on a well-formed state; UdpSend.v: sending
      on a well-formed state, down to the frame; UdpPath.v: the
      receive path with UDP behind IPv4 and its theorems.

    ** What the theorems show

    - Memory safety under every client: [pbuf_refcount_safe] (reference counts
      are the number of pointers, over any sequence of operations),
      [mem_heap_refines] (the heap follows the abstract first-fit layout),
      [memp_pool_safe], [kmalloc_disjoint], [arp_safe] and [acd_safe] (no call
      into ARP or conflict detection faults or leaks, even when the clients call
      back), [kernel_frame_safe] (no incoming frame does, whatever its bytes),
      [http_client_safe] (over any sequence of callbacks), [udp_calls_refine]
      (the control blocks of UDP, over any sequence of calls).
    - Function against an abstract view: a packet is a byte string whatever its
      cuts (Pbuf.v), the three checksum routines compute the same sum of the
      data (Chksum.v), the RAM disk is an array of named contents (Ramdisk.v),
      the shell is an interpreter of lines (Shell.v), the timeouts are a sorted
      list (Timeouts.v).
    - Nothing is left undone for want of a reason: where a reply, a probe, an
      announcement or an error message may fail to be sent, the theorem says that
      the heap had no room for it ([has_ram], [arp_memory], [icmp_memory]) or
      that there was no route ([unsendable]); what the calls before it leave of
      that room is kept along the way ([keeps], [quiet_ram]). In Http.v the
      references that the stack itself holds are [stack_refs]; after every
      callback they are all there are.
    - The protocols: a request in the controller's FIFO is answered in the
      controller's FIFO ([arp_request_answered]); an address is probed, announced
      and defended as RFC 5227 says, at the times it says ([acd_claims_address],
      [acd_defends_address]); what is on the wire for every ARP message and
      every outgoing packet, that a waiting packet is delivered when its next hop
      answers, that no entry outlives its time (ArpSpec.v); a ping in the FIFO is
      answered in the FIFO ([ping_answered]); which datagrams reach their
      protocol, with which bytes ([datagram_delivered]), which are dropped
      ([malformed_datagram_dropped]) or reported ([unknown_protocol_reported]);
      route, header, checksum and frame of what is sent ([ip4_output_correct]);
      which function gets the data of a UDP datagram in the FIFO
      ([udp_datagram_received], [udp_unicast_receiver], [udp_ports_exclusive]), and
      what its sender is told if there is none ([udp_port_unreachable]); the datagram
      that sending one puts on the wire ([udp_sendto_correct]);
      the replies of Net.v; the HTTP request (Http.v).
    - The devices: the words written to the controller are the frame and nothing
      else, in both directions (Eth.v, LwipPort.v); the console transmits what
      is printed (Uart.v).
    - Where the code fails: PROJECT.json lists the findings; several are lemmas
      ([copy_partial_pbuf_offset_faults], [net_icmp_short_length],
      [itoa_int_min], [kmalloc_wraps], [mem_trim_asserts], ...).

    ** Not modelled

    - start.S and the linker script: assembly.
    - TCP: Http.v takes the functions of it that the kernel calls as the class
      [TcpApi]. DHCP, DNS, the functions registered with UDP, the cutting and joining of datagrams
      (ip4_frag.c) and the interface list: where the modelled code calls them
      they are parameters with the contract used as a hypothesis
      ([transport_contract], [recv_contract], [frag_contract],
      [reass_contract], [callback_contract], [layer_contract], ...).
    - The debug output and the statistics counters of lwIP, which nothing reads.
      Some of that output goes to the console (netif.c is built with NETIF_DEBUG
      on), so the theorems about the screen (Shell.v) allow lwip_poll and the
      set-up functions of the stack any of a set of texts [T]: they assume that
      these functions return ([poll_returns], [stack_call]) and leave the
      kernel's own data alone, not that they are silent.
    - The code that the configuration leaves out (IPv6, the sequential and the
      socket interface, PPP, SLIP, bridges, 6LoWPAN, IGMP, raw, AutoIP,
      altcp): those files compile to nothing. *)

From Stdlib Require Export ZArith Lia Bool.
From stdpp Require Export base tactics option list gmap strings.

#[export] Set Default Proof Using "Type".

Declare Scope zanos_scope.
Delimit Scope zanos_scope with zanos.
Open Scope Z_scope.
Open Scope zanos_scope.

Coercion Z.of_nat : nat >-> Z.

#[global] Arguments Z.eqb : simpl never.
#[global] Arguments Z.leb : simpl never.
#[global] Arguments Z.ltb : simpl never.
#[global] Arguments Z.add : simpl never.
#[global] Arguments Z.sub : simpl never.
#[global] Arguments Z.mul : simpl never.
#[global] Arguments Z.div : simpl never.
#[global] Arguments Z.modulo : simpl never.
#[global] Arguments Z.of_nat : simpl never.
#[global] Arguments Z.to_nat : simpl never.
#[global] Arguments Z.land : simpl never.
#[global] Arguments Z.lor : simpl never.
#[global] Arguments Z.shiftl : simpl never.
#[global] Arguments Z.shiftr : simpl never.
#[global] Arguments Z.testbit : simpl never.

(** ** Machine integers

    C integers are kept as [Z]; every place where the source converts to or
    computes in a fixed width is written with one of these conversions. *)

Definition u8 (z : Z) : Z := z mod 256.
Definition u16 (z : Z) : Z := z mod 65536.
Definition u32 (z : Z) : Z := z mod 4294967296.
Definition s8 (z : Z) : Z := (z + 128) mod 256 - 128.
Definition s32 (z : Z) : Z := (z + 2147483648) mod 4294967296 - 2147483648.

Definition is_u8 (z : Z) : Prop := 0 <= z < 256.
Definition is_u16 (z : Z) : Prop := 0 <= z < 65536.
Definition is_u32 (z : Z) : Prop := 0 <= z < 4294967296.

(** ** Faults and the error monad

    A C computation either returns or stops: an [LWIP_ASSERT] that fails
    halts the kernel ([LWIP_PLATFORM_ASSERT] spins), an access outside of an
    object is undefined behaviour. *)

Inductive fault : Type :=
  | AssertFail (msg : string)
  | OutOfBounds
  | BadPointer
  | OutOfFuel.

Inductive res (A : Type) : Type :=
  | Ok (a : A)
  | Err (f : fault).
Arguments Ok {A} a.
Arguments Err {A} f.

#[export] Instance res_ret : MRet res := fun A a => Ok a.
#[export] Instance res_bind : MBind res :=
  fun A B k m => match m with Ok a => k a | Err f => Err f end.

Definition lwip_assert (msg : string) (cond : bool) : res unit :=
  if cond then Ok tt else Err (AssertFail msg).

Definition of_option {A} (f : fault) (o : option A) : res A :=
  match o with Some a => Ok a | None => Err f end.

#[export] Instance fault_eq_dec : EqDecision fault.
Proof. solve_decision. Defined.

#[export] Instance res_eq_dec `{EqDecision A} : EqDecision (res A).
Proof. solve_decision. Defined.

(** ** Byte buffers *)

(** The characters of a literal, without and with the terminating NUL. *)
Definition str (s : string) : list Z :=
  (fun a => Z.of_N (Ascii.N_of_ascii a)) <$> String.list_ascii_of_string s.
Definition lit (s : string) : list Z := str s ++ [0].

#[global] Arguments str : simpl never.
#[global] Arguments lit : simpl never.

(** A literal without an embedded NUL. *)
Definition plain (s : string) : bool := forallb (fun c => negb (c =? 0)) (str s).

Definition buf_get (b : list Z) (i : Z) : res Z :=
  if (0 <=? i) then of_option OutOfBounds (b !! Z.to_nat i) else Err OutOfBounds.

Definition buf_set (b : list Z) (i v : Z) : res (list Z) :=
  if (0 <=? i) && (i <? Z.of_nat (length b))
  then Ok (<[Z.to_nat i := v]> b) else Err OutOfBounds.

(** Little-endian 16- and 32-bit objects at a byte offset. *)
Definition get16 (b : list Z) (i : Z) : res Z :=
  x0 ← buf_get b i; x1 ← buf_get b (i + 1); Ok (x0 + 256 * x1).
Definition get32 (b : list Z) (i : Z) : res Z :=
  x ← get16 b i; y ← get16 b (i + 2); Ok (x + 65536 * y).
Definition set16 (b : list Z) (i v : Z) : res (list Z) :=
  b ← buf_set b i (u8 v); buf_set b (i + 1) (u8 (v / 256)).
Definition set32 (b : list Z) (i v : Z) : res (list Z) :=
  b ← set16 b i v; set16 b (i + 2) (v / 65536).

Definition bytes_ok (b : list Z) : Prop := Forall is_u8 b.

(** A buffer holds the C string [s]: its characters, a NUL, anything after. *)
Definition cstring (b s : list Z) : Prop :=
  Forall (fun c => c <> 0) s /\ exists rest, b = s ++ 0 :: rest.

(** ** Tactics *)

Ltac Zify.zify_post_hook ::= Z.div_mod_to_equations.

Ltac solve_u :=
  unfold is_u8, is_u16, is_u32, u8, u16, u32, s8, s32 in *; lia.

(** Case analysis on the boolean tests of the source, as propositions. *)
Ltac bool_cases :=
  repeat match goal with
  | H : context [Z.eqb ?a ?b] |- _ => destruct (Z.eqb_spec a b)
  | |- context [Z.eqb ?a ?b] => destruct (Z.eqb_spec a b)
  | H : context [Z.leb ?a ?b] |- _ => destruct (Z.leb_spec a b)
  | |- context [Z.leb ?a ?b] => destruct (Z.leb_spec a b)
  | H : context [Z.ltb ?a ?b] |- _ => destruct (Z.ltb_spec a b)
  | |- context [Z.ltb ?a ?b] => destruct (Z.ltb_spec a b)
  end; cbn [negb andb orb] in *.

(** Peel the binds of a computation known to succeed. *)
Ltac res_inv :=
  repeat match goal with
  | H : Ok _ = Ok _ |- _ => injection H as H; try subst
  | H : Err _ = Ok _ |- _ => discriminate H
  | H : Ok _ = Err _ |- _ => discriminate H
  | H : mbind ?k ?m = Ok _ |- _ =>
      let E := fresh "E" in destruct m eqn:E; cbn in H; [ | discriminate H]
  end.

(** ** Shared lemmas *)

Create HintDb zanos.

Lemma u8_range z : is_u8 (u8 z).
Proof. solve_u. Qed.

Lemma u16_range z : is_u16 (u16 z).
Proof. solve_u. Qed.

Lemma u32_range z : is_u32 (u32 z).
Proof. solve_u. Qed.

Lemma u8_id z : is_u8 z -> u8 z = z.
Proof. solve_u. Qed.

Lemma u16_id z : is_u16 z -> u16 z = z.
Proof. solve_u. Qed.

Lemma u32_id z : is_u32 z -> u32 z = z.
Proof. solve_u. Qed.

#[export] Hint Resolve u8_range u16_range u32_range : zanos.
Create Rewrite HintDb zanos_rw.
#[export] Hint Rewrite u8_id u16_id u32_id using (solve [solve_u]) : zanos_rw.

Lemma bind_ok {A B} (k : A -> res B) a : mbind k (Ok a) = k a.
Proof. done. Qed.

Lemma bind_inv {A B} (k : A -> res B) m b : mbind k m = Ok b -> exists a, m = Ok a /\ k a = Ok b.
Proof. destruct m as [a|f]; [|done]. rewrite bind_ok. by exists a. Qed.

Lemma buf_get_ok b i c :
  0 <= i -> b !! Z.to_nat i = Some c -> buf_get b i = Ok c.
Proof. intros Hi Hc. unfold buf_get. bool_cases; [by rewrite Hc | lia]. Qed.

Lemma buf_get_oob b i :
  ~ 0 <= i < Z.of_nat (length b) -> buf_get b i = Err OutOfBounds.
Proof.
  intros Hi. unfold buf_get. bool_cases; [|done].
  rewrite lookup_ge_None_2; [done | lia].
Qed.

Lemma buf_get_lookup b i c :
  buf_get b i = Ok c <-> 0 <= i /\ b !! Z.to_nat i = Some c.
Proof.
  unfold buf_get. bool_cases; [|split; [done | lia]].
  destruct (b !! Z.to_nat i) eqn:E; simpl; split; naive_solver.
Qed.

Lemma buf_get_err b i f : buf_get b i = Err f -> f = OutOfBounds.
Proof. unfold buf_get. bool_cases; [|congruence]. destruct (b !! _); simpl; congruence. Qed.

Lemma buf_get_app a b i : 0 <= i -> buf_get (a ++ b) (length a + i) = buf_get b i.
Proof.
  intros Hi. unfold buf_get. bool_cases; try lia.
  rewrite lookup_app_r by lia. do 2 f_equal. lia.
Qed.

Lemma buf_set_ok b i v :
  0 <= i < Z.of_nat (length b) -> buf_set b i v = Ok (<[Z.to_nat i := v]> b).
Proof. intros Hi. unfold buf_set. bool_cases; (done || lia). Qed.

Lemma buf_set_oob b i v :
  ~ 0 <= i < Z.of_nat (length b) -> buf_set b i v = Err OutOfBounds.
Proof. intros Hi. unfold buf_set. bool_cases; (done || lia). Qed.

(** Writing past a block of inserts commutes with the block. *)
Lemma list_inserts_insert_ge {A} (k l : list A) (i j : nat) (x : A) :
  (j + length k <= i)%nat ->
  list_inserts j k (<[i:=x]> l) = <[i:=x]> (list_inserts j k l).
Proof.
  revert j. induction k as [|y k IH]; intros j H; simpl in *; [done|].
  rewrite IH by lia. rewrite list_insert_insert_ne by lia. done.
Qed.

Lemma list_inserts_insert_lt {A} (k l : list A) (i j : nat) (x : A) :
  (i < j)%nat -> list_inserts j k (<[i:=x]> l) = <[i:=x]> (list_inserts j k l).
Proof. intros H. symmetry. by apply list_insert_inserts_lt. Qed.

(** Inserting a block is cutting it in. *)
Lemma list_inserts_splice {A} (k l : list A) (i : nat) :
  (i + length k <= length l)%nat ->
  list_inserts i k l = take i l ++ k ++ drop (i + length k) l.
Proof.
  intros H. rewrite <- (take_drop i l) at 1.
  replace i with (length (take i l) + 0)%nat at 1
    by (rewrite length_take; lia).
  rewrite list_inserts_app_r. f_equal.
  rewrite <- (take_drop (length k) (drop i l)) at 1.
  rewrite list_inserts_0_r by (rewrite length_take, length_drop; lia).
  by rewrite drop_drop.
Qed.

Lemma drop_inserts_le {A} (k l : list A) (i n : nat) :
  (i + length k <= n)%nat -> drop n (list_inserts i k l) = drop n l.
Proof.
  revert i. induction k as [|x k IH]; intros i H; simpl in *; [done|].
  rewrite drop_insert_lt by lia. apply IH. lia.
Qed.

Lemma cstring_lookup_end b s : cstring b s -> b !! length s = Some 0.
Proof. intros [_ [r ->]]. by apply list_lookup_middle. Qed.

Lemma cstring_lookup b s i c :
  cstring b s -> s !! i = Some c -> b !! i = Some c /\ c <> 0.
Proof.
  intros [Hs [r ->]] Hc. split; [by apply lookup_app_l_Some|].
  exact (Forall_lookup_1 _ s i c Hs Hc).
Qed.

Lemma cstring_nil b : cstring (0 :: b) [].
Proof. split; [done | by exists b]. Qed.

Lemma cstring_cons c b s :
  c <> 0 -> cstring b s -> cstring (c :: b) (c :: s).
Proof. intros Hc [Hs [r ->]]. split; [by constructor | by exists r]. Qed.

Lemma lit_cstring s : plain s = true -> cstring (lit s) (str s).
Proof.
  intros H. split; [|by exists []]. unfold plain in H.
  induction (str s) as [|c l IH]; constructor; simpl in H;
    apply andb_true_iff in H as [Hc Hl]; [|by apply IH].
  intros ->. done.
Qed.

#[export] Hint Resolve cstring_nil cstring_cons : zanos.

(** Bit operations of the source as arithmetic. *)
Lemma land_255 x : Z.land x 255 = x mod 256.
Proof. change 255 with (Z.ones 8). by rewrite Z.land_ones. Qed.

Lemma land_65535 x : Z.land x 65535 = x mod 65536.
Proof. change 65535 with (Z.ones 16). by rewrite Z.land_ones. Qed.

(** A byte picked out by a mask. *)
Lemma land_field x k : 0 <= k -> Z.land x (255 * 2 ^ k) = x / 2 ^ k mod 256 * 2 ^ k.
Proof.
  intros Hk. rewrite <- !Z.shiftl_mul_pow2, <- Z.shiftr_div_pow2, <- land_255 by lia.
  apply Z.bits_inj'. intros n Hn. rewrite Z.land_spec, !Z.shiftl_spec by lia.
  destruct (decide (n < k)).
  - rewrite !(Z.testbit_neg_r _ (n - k)) by lia. by rewrite andb_false_r.
  - rewrite Z.land_spec, Z.shiftr_spec by lia. do 2 f_equal. lia.
Qed.

Lemma shiftr_8 x : Z.shiftr x 8 = x / 256.
Proof. by rewrite Z.shiftr_div_pow2. Qed.

Lemma shiftr_16 x : Z.shiftr x 16 = x / 65536.
Proof. by rewrite Z.shiftr_div_pow2. Qed.

Lemma shiftr_24 x : Z.shiftr x 24 = x / 16777216.
Proof. by rewrite Z.shiftr_div_pow2. Qed.

Lemma shiftl_8 x : Z.shiftl x 8 = x * 256.
Proof. by rewrite Z.shiftl_mul_pow2. Qed.

Lemma shiftl_16 x : Z.shiftl x 16 = x * 65536.
Proof. by rewrite Z.shiftl_mul_pow2. Qed.

Lemma shiftl_24 x : Z.shiftl x 24 = x * 16777216.
Proof. by rewrite Z.shiftl_mul_pow2. Qed.

(** A field placed above [k] occupied bits is added to them. *)
Lemma lor_disjoint k a b : 0 <= k -> 0 <= a < 2 ^ k -> Z.lor a (b * 2 ^ k) = a + b * 2 ^ k.
Proof.
  intros Hk Ha. rewrite <- Z.add_lor_land.
  assert (Z.land a (b * 2 ^ k) = 0) as ->; [|lia].
  rewrite <- Z.shiftl_mul_pow2 by lia. apply Z.bits_inj'. intros n Hn.
  rewrite Z.land_spec, Z.bits_0, Z.shiftl_spec by lia.
  destruct (decide (n < k)).
  - rewrite (Z.testbit_neg_r b) by lia. by rewrite andb_false_r.
  - destruct (decide (a = 0)) as [->|]; [by rewrite Z.bits_0|].
    rewrite (Z.bits_above_log2 a n); [done | lia |]. apply Z.log2_lt_pow2; [lia|].
    assert (2 ^ k <= 2 ^ n) by (apply Z.pow_le_mono_r; lia). lia.
Qed.

Lemma lor_8 a b : 0 <= a < 256 -> Z.lor a (b * 256) = a + b * 256.
Proof. apply (lor_disjoint 8). lia. Qed.

Lemma lor_16 a b : 0 <= a < 65536 -> Z.lor a (b * 65536) = a + b * 65536.
Proof. apply (lor_disjoint 16). lia. Qed.

Lemma lor_24 a b : 0 <= a < 16777216 -> Z.lor a (b * 16777216) = a + b * 16777216.
Proof. apply (lor_disjoint 24). lia. Qed.

#[export] Hint Rewrite land_255 land_65535 shiftr_8 shiftr_16 shiftr_24
  shiftl_8 shiftl_16 shiftl_24 : zanos_rw.

(** ** States with parts *)

(** A state [K] that has a state [N] of another component as a part. *)
Class Part (K N : Type) : Type :=
  { part : K -> N;
    set_part : N -> K -> K;
    part_set : forall n k, part (set_part n k) = n;
    set_part_part : forall k, set_part (part k) k = k;
    set_set_part : forall n n' k, set_part n (set_part n' k) = set_part n k }.
Arguments part {K N _} k.
Arguments set_part {K N _} n k.

#[export] Instance part_self N : Part N N.
Proof. by refine {| part := fun n => n; set_part := fun n _ => n |}. Defined.

(** The part of a part. *)
Definition part_compose {K L N} (p : Part K L) (q : Part L N) : Part K N.
Proof.
  refine {| part := fun k => part (part k); set_part := fun n k => set_part (set_part n (part k)) k |}; intros.
  - by rewrite !part_set.
  - by rewrite !set_part_part.
  - by rewrite part_set, !set_set_part.
Defined.

(** Two parts that do not overlap. *)
Class Apart {K N M} (p : Part K N) (q : Part K M) : Prop :=
  { apart_left : forall n k, @part K M q (@set_part K N p n k) = @part K M q k;
    apart_right : forall m k, @part K N p (@set_part K M q m k) = @part K N p k;
    apart_swap : forall n m k, @set_part K N p n (@set_part K M q m k) = @set_part K M q m (@set_part K N p n k) }.

(** An operation of the part, in the whole state. *)
Definition in_part {K N A} `{!Part K N} (f : N -> res (N * A)) (k : K) : res (K * A) :=
  '(n, a) ← f (part k); Ok (set_part n k, a).

(** The components of a pair. *)
Definition part_fst A B : Part (A * B) A.
Proof. refine {| part := fst; set_part := fun a k => (a, k.2) |}; by intros; destruct k. Defined.

Definition part_snd A B : Part (A * B) B.
Proof. refine {| part := snd; set_part := fun b k => (k.1, b) |}; by intros; destruct k. Defined.

#[export] Instance apart_pair A B : Apart (part_fst A B) (part_snd A B).
Proof. by split. Qed.
