(* ===== verification/Chain.v ===== *)
(** * Linked lists of structs

    The structs of a module are a finite map by address, each with a pointer to
    the next one; a list of them is described by its addresses. *)

From S2P Require Import Prelude.

(** ** Definitions *)

(** The list from a pointer on. *)
Fixpoint chain {A} (next : A -> option Z) (m : gmap Z A) (p : option Z) (l : list Z) : Prop :=
  match l with
  | [] => p = None
  | q :: l' => p = Some q /\ exists a, m !! q = Some a /\ chain next m (next a) l'
  end.

(** ** Lemmas *)

Section Chain.
Context {A : Type} {next : A -> option Z}.
Implicit Types (m : gmap Z A) (l la lb : list Z).

Notation chain := (chain next).

(** A chain only depends on the links of its own structs. *)
Lemma chain_links m m' l : forall p, (forall q a, q ∈ l -> m !! q = Some a -> exists a', m' !! q = Some a' /\ next a' = next a) ->
  chain m p l -> chain m' p l.
Proof.
  induction l as [|q l IH]; intros p Hs; [done|]. intros (-> & a & Ha & Hl). split; [done|].
  destruct (Hs q a) as (a' & Ha' & En); [by left | done |]. exists a'. rewrite En. split; [done|].
  apply IH; [|done]. intros r b Hr. apply Hs. by right.
Qed.

(** A struct that is not on the list does not matter. *)
Lemma chain_insert m p l q a : chain m p l -> q ∉ l -> chain (<[q := a]> m) p l.
Proof. intros Hc Hq. eapply chain_links; [|exact Hc]. intros r b Hr Hb. exists b. rewrite lookup_insert_ne; [done|]. by intros ->. Qed.

Lemma chain_delete m p l q : chain m p l -> q ∉ l -> chain (delete q m) p l.
Proof. intros Hc Hq. eapply chain_links; [|exact Hc]. intros r b Hr Hb. exists b. rewrite lookup_delete_ne; [done|]. by intros ->. Qed.

(** Neither do fields that are not the link. *)
Lemma chain_update m p l q a a' : chain m p l -> m !! q = Some a -> next a' = next a -> chain (<[q := a']> m) p l.
Proof.
  intros Hc Ha En. eapply chain_links; [|exact Hc]. intros r b _ Hb.
  destruct (decide (q = r)) as [<-|Hne]; [rewrite lookup_insert_eq; exists a'; split; congruence | rewrite lookup_insert_ne by done; by exists b].
Qed.

Lemma chain_det m l : forall l' p, chain m p l -> chain m p l' -> l = l'.
Proof.
  induction l as [|q l IH]; intros [|q' l'] p; cbn; [done | by intros -> [? _] | by intros [-> _] ? |].
  intros (-> & a & Ha & Hl) ([= <-] & a' & Ha' & Hl'). rewrite Ha in Ha'. injection Ha' as <-. f_equal. by eapply IH.
Qed.

Lemma chain_suffix m la r lb : forall h, chain m h (la ++ r :: lb) -> exists a, m !! r = Some a /\ chain m (next a) lb.
Proof.
  induction la as [|q la IH]; intros h; [intros (_ & a & Ha & Hc); by exists a|]. intros (_ & a & _ & Hc). by apply IH in Hc.
Qed.

Lemma chain_known m l p : forall h, chain m h l -> p ∈ l -> is_Some (m !! p).
Proof. intros h Hc (la & lb & ->)%list_elem_of_split. destruct (chain_suffix _ _ _ _ _ Hc) as (a & Ha & _). by exists a. Qed.

Lemma chain_size m l : forall p, chain m p l -> NoDup l -> (length l <= size m)%nat.
Proof.
  intros p Hc Hnd. rewrite <- size_dom, <- (size_list_to_set (C := gset Z) l) by done. apply subseteq_size.
  intros q Hq. apply elem_of_list_to_set in Hq. apply elem_of_dom. by eapply chain_known.
Qed.

(** A struct that is taken out, by a new link in the one before it. *)
Lemma chain_splice m p r la lb ar ap ar' : forall h, chain m h (la ++ r :: p :: lb) -> NoDup (la ++ r :: p :: lb) ->
  m !! r = Some ar -> m !! p = Some ap -> next ar' = next ap -> chain (<[r := ar']> m) h (la ++ r :: lb).
Proof.
  induction la as [|q la IH]; intros h Hc Hnd Hr Hp En.
  - destruct Hc as (-> & a & Ha & Hn & b & Hb & Hc). rewrite Hr in Ha. injection Ha as <-. rewrite Hp in Hb. injection Hb as <-.
    split; [done|]. eexists. rewrite lookup_insert_eq. split; [done|]. rewrite En. apply chain_insert; [done|].
    apply NoDup_cons in Hnd as [Hni _]. intros Hr'. apply Hni. by right.
  - destruct Hc as (-> & a & Ha & Hc). cbn in Hnd. apply NoDup_cons in Hnd as [Hni Hnd]. split; [done|]. exists a.
    rewrite lookup_insert_ne; [|intros ->; apply Hni, elem_of_app; right; by left]. split; [done|]. by apply IH.
Qed.

End Chain.
