(* ===== verification/Strings.v ===== *)
(** * The kernel's own libc: src/src/strings.c

    A read-only [char *] is the list of the bytes from the pointer to the end
    of the object it points into: [*s] is the head, [s++] the tail, and a
    dereference of the empty list is an access out of bounds. A pointer that is
    written through is a buffer and an offset in it. On the target (ARM EABI)
    [char] is unsigned, so a character is a byte 0..255. *)

From S2P Require Import Prelude.

(** ** Definitions *)

Fixpoint strcmp (a b : list Z) : res Z :=
  match a, b with
  | ca :: a', cb :: b' =>
      if negb (ca =? 0) && (ca =? cb) then strcmp a' b' else Ok (ca - cb)
  | _, _ => Err OutOfBounds
  end.

Fixpoint strcpy (dest : list Z) (d : Z) (src : list Z) : res (list Z) :=
  match src with
  | [] => Err OutOfBounds
  | c :: src' =>
      dest' ← buf_set dest d c;
      if c =? 0 then Ok dest' else strcpy dest' (d + 1) src'
  end.

Fixpoint strlen_loop (s : list Z) (i : Z) : res Z :=
  match s with
  | [] => Err OutOfBounds
  | c :: s' => if c =? 0 then Ok i else strlen_loop s' (i + 1)
  end.

Definition strlen (s : list Z) : res Z := strlen_loop s 0.

(** First loop of [strncpy]: [k] is [n - i]; returns the buffer and [i]. *)
Fixpoint strncpy_copy (k : nat) (dest : list Z) (d : Z) (src : list Z) (i : Z)
    : res (list Z * Z) :=
  match k with
  | O => Ok (dest, i)
  | S k' =>
      c ← buf_get src i;
      if c =? 0 then Ok (dest, i)
      else dest' ← buf_set dest (d + i) c; strncpy_copy k' dest' d src (i + 1)
  end.

Fixpoint strncpy_pad (k : nat) (dest : list Z) (d i : Z) : res (list Z) :=
  match k with
  | O => Ok dest
  | S k' => dest' ← buf_set dest (d + i) 0; strncpy_pad k' dest' d (i + 1)
  end.

Definition strncpy (dest : list Z) (d : Z) (src : list Z) (n : Z) : res (list Z) :=
  '(dest', i) ← strncpy_copy (Z.to_nat n) dest d src 0;
  strncpy_pad (Z.to_nat (n - i)) dest' d i.

Fixpoint strncmp_loop (k : nat) (a b : list Z) : res Z :=
  match k with
  | O => Ok 0
  | S k' =>
      match a, b with
      | ca :: a', cb :: b' =>
          if negb (ca =? cb) || (ca =? 0) || (cb =? 0) then Ok (ca - cb)
          else strncmp_loop k' a' b'
      | _, _ => Err OutOfBounds
      end
  end.

Definition strncmp (a b : list Z) (n : Z) : res Z := strncmp_loop (Z.to_nat n) a b.

(** [int] arithmetic is wrapped at 32 bits. *)
Fixpoint atoi_loop (s : list Z) (acc : Z) : res Z :=
  match s with
  | [] => Err OutOfBounds
  | c :: s' =>
      if (48 <=? c) && (c <=? 57) then atoi_loop s' (s32 (acc * 10 + (c - 48)))
      else Ok acc
  end.

Definition atoi (s : list Z) : res Z := atoi_loop s 0.

Fixpoint memcpy (dest : list Z) (d : Z) (src : list Z) (n : Z) : res (list Z) :=
  if n =? 0 then Ok dest
  else match src with
  | [] => Err OutOfBounds
  | c :: src' => dest' ← buf_set dest d c; memcpy dest' (d + 1) src' (n - 1)
  end.

(** [memmove] works inside one memory [m], where the areas may overlap. *)
Fixpoint memmove_up (fuel : nat) (m : list Z) (d s n : Z) : res (list Z) :=
  if n =? 0 then Ok m
  else match fuel with
  | O => Err OutOfFuel
  | S fuel' =>
      c ← buf_get m s; m' ← buf_set m d c;
      memmove_up fuel' m' (d + 1) (s + 1) (n - 1)
  end.

Fixpoint memmove_down (fuel : nat) (m : list Z) (d s n : Z) : res (list Z) :=
  if n =? 0 then Ok m
  else match fuel with
  | O => Err OutOfFuel
  | S fuel' =>
      c ← buf_get m (s - 1); m' ← buf_set m (d - 1) c;
      memmove_down fuel' m' (d - 1) (s - 1) (n - 1)
  end.

Definition memmove (m : list Z) (d s n : Z) : res (list Z) :=
  if d <? s then memmove_up (S (length m)) m d s n
  else memmove_down (S (length m)) m (d + n) (s + n) n.

Fixpoint memcmp (p1 p2 : list Z) (n : Z) : res Z :=
  if n =? 0 then Ok 0
  else match p1, p2 with
  | x :: p1', y :: p2' => if negb (x =? y) then Ok (x - y) else memcmp p1' p2' (n - 1)
  | _, _ => Err OutOfBounds
  end.

Fixpoint memset_loop (fuel : nat) (m : list Z) (p c n : Z) : res (list Z) :=
  if n =? 0 then Ok m
  else match fuel with
  | O => Err OutOfFuel
  | S fuel' => m' ← buf_set m p (u8 c); memset_loop fuel' m' (p + 1) c (n - 1)
  end.

Definition memset (m : list Z) (p c n : Z) : res (list Z) :=
  memset_loop (S (length m)) m p c n.

(** ctype.h *)
Definition isspace (c : Z) : bool :=
  (c =? 32) || (c =? 9) || (c =? 10) || (c =? 11) || (c =? 12) || (c =? 13).
Definition isdigit (c : Z) : bool := (48 <=? c) && (c <=? 57).
Definition isxdigit (c : Z) : bool :=
  isdigit c || ((97 <=? c) && (c <=? 102)) || ((65 <=? c) && (c <=? 70)).
Definition islower (c : Z) : bool := (97 <=? c) && (c <=? 122).
Definition isupper (c : Z) : bool := (65 <=? c) && (c <=? 90).
Definition isalpha (c : Z) : bool := islower c || isupper c.
Definition isalnum (c : Z) : bool := isalpha c || isdigit c.
Definition tolower (c : Z) : Z := if isupper c then c + 32 else c.

(** Lexicographic order on strings: a proper prefix, or smaller at the first
    difference. *)
Definition lex_lt (s t : list Z) : Prop :=
  exists p, (exists y t', s = p /\ t = p ++ y :: t') \/
            (exists x s' y t', s = p ++ x :: s' /\ t = p ++ y :: t' /\ x < y).

(** ** Lemmas *)

Lemma strlen_loop_cstring b s i :
  cstring b s -> strlen_loop b i = Ok (i + Z.of_nat (length s)).
Proof.
  intros [Hs [r ->]]. revert i. induction Hs as [|c s Hc Hs IH]; intros i; simpl.
  - f_equal. lia.
  - bool_cases; [done|]. rewrite IH. f_equal. lia.
Qed.

Lemma strlen_cstring b s : cstring b s -> strlen b = Ok (Z.of_nat (length s)).
Proof. apply strlen_loop_cstring. Qed.

Lemma memmove_up_spec fuel m (d s n : nat) :
  (n <= fuel)%nat -> (d < s)%nat -> (s + n <= length m)%nat ->
  memmove_up fuel m d s n = Ok (list_inserts d (take n (drop s m)) m).
Proof.
  revert m d s n. induction fuel as [|fuel IH]; intros m d s n Hf Hds Hs.
  - replace n with 0%nat by lia. done.
  - destruct n as [|n]; [done|]. cbn [memmove_up].
    destruct (lookup_lt_is_Some_2 m s) as [c Hc]; [lia|].
    rewrite (buf_get_ok _ _ c) by (rewrite ?Nat2Z.id; (lia || done)).
    cbn [mbind res_bind]. rewrite buf_set_ok by lia. cbn [mbind res_bind].
    rewrite Nat2Z.id.
    replace (Z.of_nat d + 1) with (Z.of_nat (S d)) by lia.
    replace (Z.of_nat s + 1) with (Z.of_nat (S s)) by lia.
    replace (Z.of_nat (S n) - 1) with (Z.of_nat n) by lia.
    bool_cases; [lia|].
    rewrite IH by (rewrite ?length_insert; lia).
    rewrite (drop_S m c s Hc), drop_insert_lt by lia. simpl.
    by rewrite list_inserts_insert_lt by lia.
Qed.

Lemma memmove_down_spec fuel m (d s n : nat) :
  (n <= fuel)%nat -> (s <= d)%nat -> (d + n <= length m)%nat ->
  memmove_down fuel m (d + n) (s + n) n = Ok (list_inserts d (take n (drop s m)) m).
Proof.
  revert m n. induction fuel as [|fuel IH]; intros m n Hf Hds Hd.
  - replace n with 0%nat by lia. done.
  - destruct n as [|n]; [done|]. cbn [memmove_down].
    destruct (lookup_lt_is_Some_2 m (s + n)) as [c Hc]; [lia|].
    replace (Z.of_nat s + Z.of_nat (S n) - 1) with (Z.of_nat (s + n)) by lia.
    replace (Z.of_nat d + Z.of_nat (S n) - 1) with (Z.of_nat (d + n)) by lia.
    rewrite (buf_get_ok _ _ c) by (rewrite ?Nat2Z.id; (lia || done)).
    cbn [mbind res_bind]. rewrite buf_set_ok by lia. cbn [mbind res_bind].
    rewrite Nat2Z.id.
    replace (Z.of_nat (S n) - 1) with (Z.of_nat n) by lia.
    replace (Z.of_nat (d + n)) with (Z.of_nat d + Z.of_nat n) by lia.
    replace (Z.of_nat (s + n)) with (Z.of_nat s + Z.of_nat n) by lia.
    bool_cases; [lia|].
    rewrite IH by (rewrite ?length_insert; lia). f_equal.
    assert (take (S n) (drop s m) = take n (drop s m) ++ [c]) as ->
      by (apply take_S_r; by rewrite lookup_drop).
    rewrite list_inserts_app_l. simpl.
    rewrite length_take, length_drop.
    replace (n `min` (length m - s) + d)%nat with (d + n)%nat by lia.
    rewrite drop_insert_ge, take_insert_ge by lia.
    apply list_inserts_insert_ge. rewrite length_take. lia.
Qed.

Lemma memcpy_spec dest (d : nat) src n :
  memcpy dest d src n =
  if (n =? 0) || ((0 <? n) && (n <=? length src) && (d + n <=? length dest))
  then Ok (list_inserts d (take (Z.to_nat n) src) dest) else Err OutOfBounds.
Proof.
  revert dest d n. induction src as [|c src IH]; intros dest d n; simpl.
  - bool_cases; subst; (done || lia).
  - destruct (Z.eqb_spec n 0) as [->|Hn]; [done|]. simpl.
    destruct (decide (Z.of_nat d < length dest)) as [Hd|Hd].
    + rewrite buf_set_ok by lia. cbn [mbind res_bind]. rewrite Nat2Z.id.
      replace (Z.of_nat d + 1) with (Z.of_nat (S d)) by lia.
      rewrite IH, length_insert.
      destruct (decide (0 < n)) as [H0|H0].
      * replace (Z.to_nat n) with (S (Z.to_nat (n - 1))) by lia. simpl.
        rewrite list_inserts_insert_lt by lia.
        bool_cases; (done || lia).
      * bool_cases; (done || lia).
    + rewrite buf_set_oob by lia. cbn [mbind res_bind]. bool_cases; (done || lia).
Qed.

Lemma memcpy_in_bounds dest (d : nat) src (n : nat) :
  (n <= length src)%nat -> (d + n <= length dest)%nat ->
  memcpy dest d src n = Ok (list_inserts d (take n src) dest).
Proof. intros Hs Hd. rewrite memcpy_spec, Nat2Z.id. bool_cases; (done || lia). Qed.

Lemma strcpy_spec dest (d : nat) src s :
  cstring src s ->
  strcpy dest d src =
  if d + length s + 1 <=? length dest
  then Ok (list_inserts d (s ++ [0]) dest) else Err OutOfBounds.
Proof.
  intros [Hs [r ->]]. revert dest d. induction Hs as [|c s Hc Hs IH]; intros dest d; simpl.
  - destruct (decide (Z.of_nat d < length dest)).
    + rewrite buf_set_ok, Nat2Z.id by lia. simpl. bool_cases; (done || lia).
    + rewrite buf_set_oob by lia. simpl. bool_cases; (done || lia).
  - destruct (decide (Z.of_nat d < length dest)).
    + rewrite buf_set_ok, Nat2Z.id by lia. simpl.
      destruct (Z.eqb_spec c 0); [done|].
      replace (Z.of_nat d + 1) with (Z.of_nat (S d)) by lia.
      rewrite IH, length_insert, list_inserts_insert_lt by lia.
      bool_cases; (done || lia).
    + rewrite buf_set_oob by lia. simpl. bool_cases; (done || lia).
Qed.

Lemma strncpy_copy_spec k dest (d i : nat) src s :
  cstring src s -> (i <= length s)%nat -> (d + i + k <= length dest)%nat ->
  strncpy_copy k dest d src i =
  Ok (list_inserts (d + i) (take k (drop i s)) dest,
      Z.of_nat (i + length (take k (drop i s)))).
Proof.
  intros Hs. revert dest i. induction k as [|k IH]; intros dest i Hi Hd; simpl.
  - by rewrite Nat.add_0_r.
  - destruct (decide (i < length s)%nat) as [Hlt|Hge].
    + destruct (lookup_lt_is_Some_2 s i Hlt) as [c Hc].
      destruct (cstring_lookup _ _ _ _ Hs Hc) as [Hb Hc0].
      rewrite (buf_get_ok _ _ c) by (rewrite ?Nat2Z.id; (lia || done)). simpl.
      destruct (Z.eqb_spec c 0); [done|].
      rewrite buf_set_ok by lia. simpl.
      replace (Z.to_nat (Z.of_nat d + Z.of_nat i)) with (d + i)%nat by lia.
      replace (Z.of_nat i + 1) with (Z.of_nat (S i)) by lia.
      rewrite IH by (rewrite ?length_insert; lia).
      rewrite (drop_S s c i Hc), Nat.add_succ_r. simpl.
      rewrite list_inserts_insert_lt by lia. f_equal. f_equal. lia.
    + replace i with (length s) by lia.
      rewrite (buf_get_ok _ _ 0)
        by (rewrite ?Nat2Z.id; (lia || by apply cstring_lookup_end)).
      simpl. rewrite drop_all, take_nil. simpl. f_equal. f_equal. lia.
Qed.

Lemma strncpy_pad_spec k dest (d i : nat) :
  (d + i + k <= length dest)%nat ->
  strncpy_pad k dest d i = Ok (list_inserts (d + i) (replicate k 0) dest).
Proof.
  revert dest i. induction k as [|k IH]; intros dest i Hd; simpl; [done|].
  rewrite buf_set_ok by lia. simpl.
  replace (Z.to_nat (Z.of_nat d + Z.of_nat i)) with (d + i)%nat by lia.
  replace (Z.of_nat i + 1) with (Z.of_nat (S i)) by lia.
  rewrite IH by (rewrite length_insert; lia).
  by rewrite Nat.add_succ_r, list_inserts_insert_lt by lia.
Qed.

Lemma strncpy_spec dest (d n : nat) src s :
  cstring src s -> (d + n <= length dest)%nat ->
  strncpy dest d src n =
  Ok (list_inserts d (take n s ++ replicate (n - length s) 0) dest).
Proof.
  intros Hs Hd. unfold strncpy. rewrite Nat2Z.id.
  change 0 with (Z.of_nat 0) at 1.
  rewrite (strncpy_copy_spec n dest d 0 src s) by (done || lia).
  cbn [mbind res_bind]. rewrite drop_0, Nat.add_0_r, Nat.add_0_l.
  rewrite strncpy_pad_spec by (rewrite length_inserts, length_take; lia).
  rewrite list_inserts_app_l, length_take. f_equal. f_equal; [lia|].
  f_equal. lia.
Qed.

Lemma lex_lt_cons c s t : lex_lt (c :: s) (c :: t) <-> lex_lt s t.
Proof.
  split.
  - intros (p & [(y & t' & <- & [=])|(x & s' & y & t' & Hs & Ht & Hxy)]).
    + exists s. left. by exists y, t'.
    + destruct p as [|c' p]; simplify_eq/=; [lia|].
      exists p. right. by exists x, s', y, t'.
  - intros (p & [(y & t' & -> & ->)|(x & s' & y & t' & -> & -> & Hxy)]).
    + exists (c :: p). left. by exists y, t'.
    + exists (c :: p). right. by exists x, s', y, t'.
Qed.

Lemma lex_lt_hd x s y t : x <> y -> lex_lt (x :: s) (y :: t) <-> x < y.
Proof.
  intros Hne. split.
  - intros (p & [(y' & t' & <- & [=])|(x' & s' & y' & t' & Hs & Ht & Hxy)]);
      [congruence|].
    destruct p; simplify_eq/=; lia.
  - intros H. exists []. right. by exists x, s, y, t.
Qed.

Lemma strcmp_spec a b s t :
  bytes_ok s -> bytes_ok t -> cstring a s -> cstring b t ->
  exists r, strcmp a b = Ok r /\ (r = 0 <-> s = t) /\ (r < 0 <-> lex_lt s t).
Proof.
  intros Hbs Hbt [Hs [ra ->]] [Ht [rb ->]]. revert t Hbt Ht.
  induction Hs as [|x s Hx Hs IH]; intros t Hbt Ht.
  - destruct Ht as [|y t Hy Ht]; simpl; eexists; (split; [done|]).
    + split; [done|]. split; [lia|].
      intros (p & [(y & t' & <- & [=])|(x & s' & y & t' & Hp & ? & ?)]).
      destruct p; discriminate.
    + apply Forall_cons in Hbt as [Hy' _]. unfold is_u8 in *.
      split; [split; [lia | done]|].
      split; [intros _; exists []; left; eauto | lia].
  - apply Forall_cons in Hbs as [Hx' Hbs]. unfold is_u8 in *.
    destruct Ht as [|y t Hy Ht]; simpl.
    + destruct (Z.eqb_spec x 0); [lia|]. destruct (Z.eqb_spec x 0); [lia|].
      eexists; (split; [done|]). split; [split; [lia | done]|].
      split; [lia|].
      intros (p & [(y & t' & <- & [=])|(x' & s' & y & t' & Hp & Hq & ?)]).
      destruct p; discriminate.
    + apply Forall_cons in Hbt as [Hy' Hbt].
      destruct (Z.eqb_spec x 0); [lia|]. destruct (Z.eqb_spec x y) as [->|Hne]; simpl.
      * destruct (IH Hbs t Hbt Ht) as (r & -> & H0 & Hlt). exists r. split; [done|].
        rewrite lex_lt_cons. split; [|done]. rewrite H0. split; congruence.
      * eexists; (split; [done|]). rewrite lex_lt_hd by done.
        split; [split; [lia | congruence] | lia].
Qed.

Lemma strcmp_eq a b s t :
  cstring a s -> cstring b t ->
  exists r, strcmp a b = Ok r /\ (r = 0 <-> s = t).
Proof.
  intros [Hs [ra ->]] [Ht [rb ->]]. revert t Ht.
  induction Hs as [|x s Hx Hs IH]; intros t Ht;
    destruct Ht as [|y t Hy Ht]; simpl; try (eexists; split; [done|]).
  - done.
  - split; [lia | done].
  - destruct (Z.eqb_spec x 0); [lia|]. simpl.
    eexists; split; [done|]. split; [lia | done].
  - destruct (Z.eqb_spec x 0); [lia|].
    destruct (Z.eqb_spec x y) as [->|Hne]; simpl.
    + destruct (IH t Ht) as (r & -> & H0). exists r. split; [done|].
      rewrite H0. split; congruence.
    + eexists; split; [done|]. split; [lia | congruence].
Qed.

Lemma strncmp_eq a b s t (n : nat) :
  cstring a s -> cstring b t ->
  exists r, strncmp a b n = Ok r /\ (r = 0 <-> take n s = take n t).
Proof.
  intros [Hs [ra ->]] [Ht [rb ->]]. unfold strncmp. rewrite Nat2Z.id.
  revert s t Hs Ht. induction n as [|n IH]; intros s t Hs Ht; simpl.
  - by exists 0.
  - destruct Hs as [|x s Hx Hs], Ht as [|y t Hy Ht]; simpl.
    + by exists 0.
    + destruct (Z.eqb_spec 0 y); [lia|]. simpl.
      eexists; split; [done|]. split; [lia | done].
    + destruct (Z.eqb_spec x 0); [lia|]. simpl.
      eexists; split; [done|]. split; [lia | done].
    + destruct (Z.eqb_spec x y) as [->|Hne]; simpl.
      * destruct (Z.eqb_spec y 0); [lia|]. simpl.
        destruct (IH s t Hs Ht) as (r & -> & H0). exists r. split; [done|].
        rewrite H0. split; congruence.
      * eexists; split; [done|]. split; [lia | congruence].
Qed.

Lemma memcmp_eq p q (n : nat) :
  (n <= length p)%nat -> (n <= length q)%nat ->
  exists r, memcmp p q n = Ok r /\ (r = 0 <-> take n p = take n q).
Proof.
  revert p q. induction n as [|n IH]; intros p q Hp Hq.
  - exists 0. by destruct p.
  - destruct p as [|x p], q as [|y q]; simpl in Hp, Hq; try lia. cbn [memcmp].
    destruct (Z.eqb_spec (Z.of_nat (S n)) 0); [lia|].
    destruct (Z.eqb_spec x y) as [->|Hne]; simpl.
    + replace (Z.of_nat (S n) - 1) with (Z.of_nat n) by lia.
      destruct (IH p q) as (r & -> & H0); [lia.. |].
      exists r. split; [done|]. rewrite H0. split; congruence.
    + eexists; split; [done|]. split; [lia | congruence].
Qed.

Lemma memset_loop_spec fuel m (p n : nat) c :
  (n <= fuel)%nat -> (p + n <= length m)%nat ->
  memset_loop fuel m p c n = Ok (list_inserts p (replicate n (u8 c)) m).
Proof.
  revert m p n. induction fuel as [|fuel IH]; intros m p n Hf Hp.
  - replace n with 0%nat by lia. done.
  - destruct n as [|n]; [done|]. cbn [memset_loop].
    destruct (Z.eqb_spec (Z.of_nat (S n)) 0); [lia|].
    rewrite buf_set_ok, Nat2Z.id by lia. simpl mbind.
    replace (Z.of_nat p + 1) with (Z.of_nat (S p)) by lia.
    replace (Z.of_nat (S n) - 1) with (Z.of_nat n) by lia.
    rewrite IH by (rewrite ?length_insert; lia). simpl.
    by rewrite list_inserts_insert_lt by lia.
Qed.

Lemma memset_spec m (p n : nat) c :
  (p + n <= length m)%nat ->
  memset m p c n = Ok (list_inserts p (replicate n (u8 c)) m).
Proof. intros H. apply memset_loop_spec; lia. Qed.

#[export] Hint Resolve strlen_cstring : zanos.

Lemma memmove_spec m (d s n : nat) :
  (d + n <= length m)%nat -> (s + n <= length m)%nat ->
  memmove m d s n = Ok (list_inserts d (take n (drop s m)) m).
Proof.
  intros Hd Hs. unfold memmove. destruct (Z.ltb_spec (Z.of_nat d) (Z.of_nat s)).
  - apply memmove_up_spec; lia.
  - apply memmove_down_spec; lia.
Qed.

(** ** Properties *)


(** [memmove] copies the [n] bytes at [s] to [d] for every pair of areas
    inside the memory, overlapping or not: the result is the old memory with
    the old contents of the source area cut in at [d]. *)
Theorem memmove_correct m (d s n : nat) :
  (d + n <= length m)%nat -> (s + n <= length m)%nat ->
  memmove m d s n = Ok (list_inserts d (take n (drop s m)) m).
Proof. apply memmove_spec. Qed.

Lemma memmove_correct_witness :
  memmove [1; 2; 3; 4; 5; 6] 2 0 4 = Ok [1; 2; 1; 2; 3; 4].
Proof. apply (memmove_correct [1; 2; 3; 4; 5; 6] 2 0 4); simpl; lia. Defined.

(** On any two C strings [strcmp] returns; the result is 0 exactly when the
    strings are equal and negative exactly when the first is lexicographically
    smaller as unsigned bytes. *)
Theorem strcmp_lexicographic a b s t :
  bytes_ok s -> bytes_ok t -> cstring a s -> cstring b t ->
  exists r, strcmp a b = Ok r /\ (r = 0 <-> s = t) /\ (r < 0 <-> lex_lt s t).
Proof. apply strcmp_spec. Qed.

Lemma strcmp_lexicographic_witness :
  exists r, strcmp (lit "hello") (lit "help") = Ok r /\
    (r = 0 <-> str "hello" = str "help") /\ (r < 0 <-> lex_lt (str "hello") (str "help")).
Proof.
  apply strcmp_lexicographic; try (by apply lit_cstring);
    repeat constructor; discriminate.
Defined.
