(* ===== verification/Uart.v ===== *)
(** * The console: src/src/uart.c

    Two layers. [Registers] is the code against the memory-mapped UART0
    registers: what successive reads of the flag and data registers return is
    the hardware's choice, so both are streams given as parameters. [Console]
    is the interface the rest of the kernel prints through, an output to which
    bytes are appended one by one; [uart_console] shows that the register code
    implements it whenever the transmit FIFO drains. The printing functions are
    written against the interface. *)

From S2P Require Import Prelude Strings.

(** ** Definitions *)

Class Console (W : Type) := {
  putc : Z -> W -> W;
  output : W -> list Z;
  putc_output : forall c w, output (putc c w) = output w ++ [c]
}.

(** The specification itself: a log of the bytes sent. *)
#[export] Instance log_console : Console (list Z) :=
  {| putc c w := w ++ [c]; output w := w; putc_output c w := eq_refl |}.

(** Device state: how often each register was read, and what was sent. *)
Record dev : Type := Dev { fr_reads : nat; dr_reads : nat; tx : list Z }.

Section Registers.

(** [UART0FR n], [UART0DR n]: the value of the [n]-th read of the register. *)
Variable UART0FR UART0DR : nat -> Z.

Definition read_fr (d : dev) : Z * dev :=
  (UART0FR (fr_reads d), Dev (S (fr_reads d)) (dr_reads d) (tx d)).

Definition read_dr (d : dev) : Z * dev :=
  (UART0DR (dr_reads d), Dev (fr_reads d) (S (dr_reads d)) (tx d)).

Definition write_dr (v : Z) (d : dev) : dev :=
  Dev (fr_reads d) (dr_reads d) (tx d ++ [v]).

(** [while (UART0FR & (1 << bit));] *)
Fixpoint wait_clear (fuel : nat) (bit : Z) (d : dev) : res dev :=
  match fuel with
  | O => Err OutOfFuel
  | S fuel' =>
      let '(v, d') := read_fr d in
      if negb (Z.land v (Z.shiftl 1 bit) =? 0) then wait_clear fuel' bit d' else Ok d'
  end.

Definition uart_getc (fuel : nat) (d : dev) : res (Z * dev) :=
  d1 ← wait_clear fuel 4 d;
  let '(v, d2) := read_dr d1 in Ok (Z.land v 255, d2).

Definition uart_has_data (d : dev) : bool * dev :=
  let '(v, d') := read_fr d in (Z.land v (Z.shiftl 1 4) =? 0, d').

Definition uart_putc (fuel : nat) (c : Z) (d : dev) : res dev :=
  d' ← wait_clear fuel 5 d; Ok (write_dr c d').

End Registers.

(** The transmit FIFO drains: among any [polls] consecutive reads of the flag
    register one has TXFF (bit 5) clear. *)
Definition tx_drains (FR : nat -> Z) (polls : nat) : Prop :=
  forall n, exists k, (k < polls)%nat /\ Z.land (FR (n + k)%nat) (Z.shiftl 1 5) = 0.

(** Arguments of a variadic call. *)
Inductive varg : Type :=
  | VStr (s : list Z)
  | VInt (n : Z).

Section Print.
Context `{Console W}.

Fixpoint uart_print (s : list Z) (w : W) : res W :=
  match s with
  | [] => Err OutOfBounds
  | c :: s' => if c =? 0 then Ok w else uart_print s' (putc c w)
  end.

Definition uart_println (s : list Z) (w : W) : res W :=
  w' ← uart_print s w; Ok (putc 10 w').

(** [while (n >= 10) { n -= 10; digit++; }] *)
Fixpoint sub10_loop (fuel : nat) (n digit : Z) : Z * Z :=
  if 10 <=? n then
    match fuel with
    | O => (n, digit)
    | S fuel' => sub10_loop fuel' (n - 10) (digit + 1)
    end
  else (n, digit).

(** [while (n > 0) ...]: fills [buf] and returns it with [i]. *)
Fixpoint int_digits_loop (fuel : nat) (n : Z) (buf : list Z) (i : Z) : res (list Z * Z) :=
  if 0 <? n then
    match fuel with
    | O => Err OutOfFuel
    | S fuel' =>
        let '(r, digit) := sub10_loop (Z.to_nat n) n 0 in
        buf' ← buf_set buf i (u8 (48 + r));
        int_digits_loop fuel' digit buf' (i + 1)
    end
  else Ok (buf, i).

(** [while (i--) uart_putc(buf[i]);] *)
Fixpoint put_rev_loop (i : nat) (buf : list Z) (w : W) : res W :=
  match i with
  | O => Ok w
  | S i' => c ← buf_get buf i'; put_rev_loop i' buf (putc c w)
  end.

Definition uart_print_int (n : Z) (w : W) : res W :=
  if n =? 0 then Ok (putc 48 w)
  else '(buf, i) ← int_digits_loop 17 n (replicate 16 0) 0;
       put_rev_loop (Z.to_nat i) buf w.

Definition hex_char (d : Z) : Z := default 0 (str "0123456789ABCDEF" !! Z.to_nat d).

(** [for (int i = 28; i >= 0; i -= 4)], [k] iterations left, [i = 4 * (k - 1)]. *)
Fixpoint uart_print_hex_loop (k : nat) (n : Z) (w : W) : W :=
  match k with
  | O => w
  | S k' => uart_print_hex_loop k' n (putc (hex_char (Z.land (Z.shiftr n (4 * k')) 15)) w)
  end.

Definition uart_print_hex (n : Z) (w : W) : W := uart_print_hex_loop 8 n w.

Fixpoint uart_printf (fmt : list Z) (args : list varg) (w : W) : res W :=
  match fmt with
  | [] => Err OutOfBounds
  | c :: fmt1 =>
      if c =? 0 then Ok w
      else if c =? 37 then
        match fmt1 with
        | [] => Err OutOfBounds
        | f :: fmt2 =>
            if f =? 115 then
              match args with
              | VStr s :: args' => w' ← uart_print s w; uart_printf fmt2 args' w'
              | _ => Err BadPointer
              end
            else if f =? 100 then
              match args with
              | VInt n :: args' => w' ← uart_print_int n w; uart_printf fmt2 args' w'
              | _ => Err BadPointer
              end
            else if (f =? 120) || (f =? 112) || (f =? 88) then
              match args with
              | VInt n :: args' => uart_printf fmt2 args' (uart_print_hex n w)
              | _ => Err BadPointer
              end
            else if f =? 37 then uart_printf fmt2 args (putc 37 w)
            else uart_printf fmt2 args w
        end
      else uart_printf fmt1 args (putc c w)
  end.

End Print.

#[global] Arguments uart_print : simpl never.
#[global] Arguments uart_println : simpl never.
#[global] Arguments uart_print_int : simpl never.
#[global] Arguments uart_print_hex : simpl never.

(** What a run of decimal digits denotes. *)
Definition dec_value (ds : list Z) : Z := foldl (fun acc c => acc * 10 + (c - 48)) 0 ds.
Definition is_digit_char (c : Z) : Prop := 48 <= c <= 57.

(** The register-level functions as a console. *)
Definition uart_putc_live (FR : nat -> Z) (polls : nat) (c : Z) (d : dev) : dev :=
  match uart_putc FR polls c d with Ok d' => d' | Err _ => d end.

(** A printing function that always returns and appends exactly [l]. *)
Definition prints `{Console W} (f : W -> res W) (l : list Z) : Prop :=
  forall w, exists w', f w = Ok w' /\ output w' = output w ++ l.

(** A line of output. *)
Definition line (s : string) : list Z := str s ++ [10].

(** Reference decimal notation, at most ten digits. *)
Fixpoint dec_loop (fuel : nat) (n : Z) : list Z :=
  match fuel with
  | O => []
  | S fuel' => if n <? 10 then [48 + n] else dec_loop fuel' (n / 10) ++ [48 + n mod 10]
  end.

Definition dec_string (n : Z) : list Z := dec_loop 10 n.

(** Reference hexadecimal notation: the [k] lowest digits, highest first. *)
Fixpoint hex_string (k : nat) (n : Z) : list Z :=
  match k with
  | O => []
  | S k' => hex_char ((n / 16 ^ k') mod 16) :: hex_string k' n
  end.

(** ** Lemmas *)

Section RegistersSpec.
Context (FR : nat -> Z).

Lemma wait_clear_ok fuel bit d k :
  (k < fuel)%nat -> Z.land (FR (fr_reads d + k)%nat) (Z.shiftl 1 bit) = 0 ->
  exists n, wait_clear FR fuel bit d = Ok (Dev n (dr_reads d) (tx d)).
Proof.
  revert d k. induction fuel as [|fuel IH]; intros d k Hk Hc; [lia|]. simpl.
  destruct (Z.eqb_spec (Z.land (FR (fr_reads d)) (Z.shiftl 1 bit)) 0) as [|Hne]; simpl.
  - by exists (S (fr_reads d)).
  - destruct k as [|k]; [by rewrite Nat.add_0_r in Hc|].
    apply (IH (Dev (S (fr_reads d)) (dr_reads d) (tx d)) k); [lia|].
    simpl. by rewrite <- Nat.add_succ_r.
Qed.

Lemma wait_clear_stuck fuel bit d :
  (forall n, Z.land (FR n) (Z.shiftl 1 bit) <> 0) ->
  wait_clear FR fuel bit d = Err OutOfFuel.
Proof.
  intros Hb. revert d. induction fuel as [|fuel IH]; intros d; [done|]. simpl.
  destruct (Z.eqb_spec (Z.land (FR (fr_reads d)) (Z.shiftl 1 bit)) 0) as [E|]; simpl.
  - by apply Hb in E.
  - apply IH.
Qed.

Lemma uart_putc_ok polls c d :
  tx_drains FR polls ->
  exists n, uart_putc FR polls c d = Ok (Dev n (dr_reads d) (tx d ++ [c])).
Proof.
  intros Hd. destruct (Hd (fr_reads d)) as (k & Hk & Hc).
  destruct (wait_clear_ok polls 5 d k Hk Hc) as [n Hn].
  exists n. unfold uart_putc. by rewrite Hn.
Qed.

Lemma uart_putc_live_output polls (Hd : tx_drains FR polls) c d :
  tx (uart_putc_live FR polls c d) = tx d ++ [c].
Proof.
  unfold uart_putc_live. by destruct (uart_putc_ok polls c d Hd) as [n ->].
Qed.

End RegistersSpec.

(** The register code behind a draining FIFO is a console. *)
Definition uart_console (FR : nat -> Z) (polls : nat) (Hd : tx_drains FR polls)
  : Console dev :=
  {| putc := uart_putc_live FR polls; output := tx;
     putc_output := uart_putc_live_output FR polls Hd |}.

Section PrintSpec.
Context `{Console W}.

Lemma prints_ret : prints Ok [].
Proof. intros w. exists w. by rewrite app_nil_r. Qed.

Lemma prints_putc c : prints (fun w => Ok (putc c w)) [c].
Proof. intros w. exists (putc c w). by rewrite putc_output. Qed.

Lemma prints_bind f g l1 l2 :
  prints f l1 -> prints g l2 -> prints (fun w => w' ← f w; g w') (l1 ++ l2).
Proof.
  intros Hf Hg w. destruct (Hf w) as (w1 & E1 & O1), (Hg w1) as (w2 & E2 & O2).
  exists w2. rewrite E1. cbn. by rewrite E2, O2, O1, app_assoc.
Qed.

Lemma prints_then_putc f l c :
  prints f l -> prints (fun w => w' ← f w; Ok (putc c w')) (l ++ [c]).
Proof. intros Hf. apply (prints_bind f (fun w => Ok (putc c w))); [done | apply prints_putc]. Qed.

Lemma prints_putc_then f l c :
  prints f l -> prints (fun w => f (putc c w)) (c :: l).
Proof.
  intros Hf w. destruct (Hf (putc c w)) as (w' & E & O).
  exists w'. rewrite E, O, putc_output, <- app_assoc. done.
Qed.

Lemma prints_det f l w w' : prints f l -> f w = Ok w' -> output w' = output w ++ l.
Proof. intros Hf E. destruct (Hf w) as (w2 & E2 & O). congruence. Qed.

Lemma uart_print_cons c s (w : W) :
  uart_print (c :: s) w = if c =? 0 then Ok w else uart_print s (putc c w).
Proof. reflexivity. Qed.

Lemma uart_print_prints b s : cstring b s -> prints (uart_print b) s.
Proof.
  intros [Hs [r ->]]. induction Hs as [|c s Hc Hs IH]; intros w; simpl app;
    rewrite uart_print_cons.
  - apply prints_ret.
  - destruct (Z.eqb_spec c 0); [done|]. by apply (prints_putc_then (uart_print (s ++ 0 :: r))).
Qed.

Lemma uart_println_prints b s : cstring b s -> prints (uart_println b) (s ++ [10]).
Proof. intros Hs. apply prints_then_putc. by apply uart_print_prints. Qed.

Lemma uart_print_lit s : plain s = true -> prints (uart_print (lit s)) (str s).
Proof. intros Hs. by apply uart_print_prints, lit_cstring. Qed.

Lemma uart_println_lit s : plain s = true -> prints (uart_println (lit s)) (line s).
Proof. intros Hs. by apply uart_println_prints, lit_cstring. Qed.

Lemma prints_runs f l w : prints f l -> exists w', f w = Ok w'.
Proof. intros Hf. destruct (Hf w) as (w' & E & _). by exists w'. Qed.

Lemma sub10_loop_spec fuel n digit :
  0 <= n -> (Z.to_nat (n / 10) <= fuel)%nat ->
  sub10_loop fuel n digit = (n mod 10, digit + n / 10).
Proof.
  revert n digit. induction fuel as [|fuel IH]; intros n digit Hn Hf; simpl.
  - bool_cases; [lia|]. f_equal; lia.
  - bool_cases; [|f_equal; lia]. rewrite IH by lia. f_equal; lia.
Qed.

Lemma dec_loop_length fuel n : (length (dec_loop fuel n) <= fuel)%nat.
Proof.
  revert n. induction fuel as [|fuel IH]; intros n; simpl; [lia|].
  destruct (n <? 10); simpl; [lia|]. rewrite length_app. simpl.
  specialize (IH (n / 10)). lia.
Qed.

Lemma int_digits_loop_spec f fuel n buf (i : nat) :
  0 < n < 10 ^ Z.of_nat f -> (f < fuel)%nat -> (i + f <= length buf)%nat ->
  int_digits_loop fuel n buf i =
  Ok (list_inserts i (rev (dec_loop f n)) buf, Z.of_nat (i + length (dec_loop f n))).
Proof.
  revert fuel n buf i. induction f as [|f IH]; intros fuel n buf i Hn Hf Hb; [lia|].
  destruct fuel as [|fuel]; [lia|]. cbn [int_digits_loop dec_loop].
  destruct (Z.ltb_spec 0 n); [|lia].
  rewrite sub10_loop_spec by lia. rewrite buf_set_ok by lia. cbn [mbind res_bind].
  rewrite Nat2Z.id. replace (Z.of_nat i + 1) with (Z.of_nat (S i)) by lia.
  assert (u8 (48 + n mod 10) = 48 + n mod 10) as -> by solve_u.
  rewrite Z.add_0_l. destruct (Z.ltb_spec n 10).
  - destruct fuel as [|fuel]; [lia|]. cbn [int_digits_loop].
    rewrite (Z.div_small n 10), (Z.mod_small n 10) by lia.
    destruct (Z.ltb_spec 0 0); [lia|]. simpl. do 2 f_equal. lia.
  - rewrite IH.
    + rewrite length_app, rev_app_distr. simpl.
      rewrite list_inserts_insert_lt by lia. do 2 f_equal. lia.
    + rewrite Nat2Z.inj_succ, Z.pow_succ_r in Hn by lia. split; [lia|].
      apply Z.div_lt_upper_bound; lia.
    + lia.
    + rewrite length_insert. lia.
Qed.

Lemma put_rev_loop_prints i buf :
  (i <= length buf)%nat -> prints (put_rev_loop i buf) (rev (take i buf)).
Proof.
  induction i as [|i IH]; intros Hi; [apply prints_ret|]. cbn [put_rev_loop].
  destruct (lookup_lt_is_Some_2 buf i) as [c Hc]; [lia|].
  rewrite (take_S_r _ _ _ Hc), rev_app_distr. simpl.
  intros w. rewrite (buf_get_ok _ _ c) by (rewrite ?Nat2Z.id; (lia || done)).
  apply (prints_putc_then (put_rev_loop i buf)). apply IH. lia.
Qed.

Lemma uart_print_int_prints n :
  0 <= n < 2147483648 -> prints (uart_print_int n) (dec_string n).
Proof.
  intros Hn. destruct (Z.eqb_spec n 0) as [->|Hn0].
  { apply (prints_putc 48). }
  intros w. unfold uart_print_int. destruct (Z.eqb_spec n 0); [done|].
  pose proof (int_digits_loop_spec 10 17 n (replicate 16 0) 0) as E.
  change (Z.of_nat 0) with 0 in E. rewrite E by (simpl; lia).
  clear E. cbn [mbind res_bind]. rewrite Nat2Z.id, Nat.add_0_l.
  change (dec_loop 10 n) with (dec_string n).
  pose proof (dec_loop_length 10 n : (length (dec_string n) <= 10)%nat) as Hl.
  rewrite list_inserts_splice by (rewrite length_rev, length_replicate; lia).
  rewrite take_0, app_nil_l, length_rev.
  destruct (put_rev_loop_prints (length (dec_string n))
    (rev (dec_string n) ++ drop (0 + length (dec_string n)) (replicate 16 0))) with (w := w)
    as (w' & E & O).
  { rewrite length_app, length_rev. lia. }
  exists w'. split; [exact E|].
  rewrite O, take_app_le, take_ge, rev_involutive by (rewrite length_rev; lia). done.
Qed.

Lemma uart_print_int_negative n : n < 0 -> prints (uart_print_int n) [].
Proof.
  intros Hn w. unfold uart_print_int, int_digits_loop. bool_cases; try lia.
  exists w. by rewrite app_nil_r.
Qed.

Lemma uart_print_hex_prints k n :
  prints (fun w => Ok (uart_print_hex_loop k n w)) (hex_string k n).
Proof.
  revert n. induction k as [|k IH]; intros n; [apply prints_ret|].
  cbn [uart_print_hex_loop hex_string].
  rewrite Z.shiftr_div_pow2 by lia.
  change 15 with (Z.ones 4). rewrite Z.land_ones by lia.
  rewrite Z.pow_mul_r by lia. change (2 ^ 4) with 16.
  apply (prints_putc_then (fun w => Ok (uart_print_hex_loop k n w))), IH.
Qed.

Lemma dec_value_app ds c : dec_value (ds ++ [c]) = dec_value ds * 10 + (c - 48).
Proof. unfold dec_value. by rewrite foldl_app. Qed.

Lemma dec_loop_value fuel n :
  0 <= n < 10 ^ Z.of_nat fuel -> (0 < fuel)%nat ->
  dec_value (dec_loop fuel n) = n /\ Forall is_digit_char (dec_loop fuel n).
Proof.
  revert n. induction fuel as [|fuel IH]; intros n Hn Hf; [lia|]. simpl.
  unfold is_digit_char in *. destruct (Z.ltb_spec n 10).
  - split; [unfold dec_value; simpl; lia|]. repeat constructor; lia.
  - destruct fuel as [|fuel]; [simpl in Hn; lia|].
    destruct (IH (n / 10)) as [Hv Hd].
    { rewrite (Nat2Z.inj_succ (S fuel)), Z.pow_succ_r in Hn by lia.
      split; [lia|]. apply Z.div_lt_upper_bound; lia. }
    { lia. }
    rewrite dec_value_app, Hv. split; [lia|].
    apply Forall_app. split; [done|]. repeat constructor; lia.
Qed.

Lemma dec_string_value n :
  0 <= n < 10000000000 ->
  dec_value (dec_string n) = n /\ Forall is_digit_char (dec_string n).
Proof. intros Hn. apply dec_loop_value; simpl; lia. Qed.

Lemma dec_string_no_nul n : 0 <= n < 10000000000 -> Forall (fun c => c <> 0) (dec_string n).
Proof.
  intros Hn. destruct (dec_string_value n Hn) as [_ Hd].
  eapply Forall_impl; [exact Hd|]. unfold is_digit_char. intros; lia.
Qed.

End PrintSpec.

(** Sequences of prints, piece by piece. *)
Ltac prints_leaf :=
  first [ eassumption
        | apply uart_print_lit; reflexivity
        | apply uart_println_lit; reflexivity
        | apply prints_putc ].
Ltac prints_auto := repeat (eapply prints_bind; [prints_leaf|]); prints_leaf.

(** ** Properties *)

(** Whatever the flag register returns, as long as the transmit FIFO drains
    within [polls] polls, [uart_print] on the UART0 registers returns and the
    data register receives exactly the characters of the string, in order. *)
Theorem uart_print_registers FR polls (Hd : tx_drains FR polls) b s d :
  cstring b s ->
  exists d', @uart_print dev (uart_console FR polls Hd) b d = Ok d' /\ tx d' = tx d ++ s.
Proof. intros Hs. apply (@uart_print_prints dev (uart_console FR polls Hd) b s Hs d). Qed.

Lemma uart_print_registers_witness :
  exists (Hd : tx_drains (fun n => if Nat.even n then 32 else 0) 2) d',
    @uart_print dev (uart_console (fun n => if Nat.even n then 32 else 0) 2 Hd) (lit "ok") (Dev 0 0 [])
      = Ok d' /\ tx d' = str "ok".
Proof.
  assert (Hd : tx_drains (fun n => if Nat.even n then 32 else 0) 2).
  { intros n. destruct (Nat.even n) eqn:E.
    - exists 1%nat. split; [lia|]. rewrite Nat.add_1_r, Nat.even_succ.
      unfold Nat.odd. by rewrite E.
    - exists 0%nat. split; [lia|]. by rewrite Nat.add_0_r, E. }
  exists Hd. apply (uart_print_registers _ 2 Hd (lit "ok") (str "ok") (Dev 0 0 [])).
  split; [repeat constructor; discriminate | by exists []].
Defined.

(** [uart_print_int] returns for every non-negative [int] and prints its
    decimal notation: digits only, denoting the number (the 16-byte buffer is
    never overrun and the repeated subtraction terminates). *)
Theorem uart_print_int_correct `{Console W} n w :
  0 <= n < 2147483648 ->
  exists w' ds, uart_print_int n w = Ok w' /\ output w' = output w ++ ds /\
    Forall is_digit_char ds /\ dec_value ds = n.
Proof.
  intros Hn. destruct (uart_print_int_prints n Hn w) as (w' & E & O).
  destruct (dec_string_value n) as [Hv Hd]; [lia|].
  by exists w', (dec_string n).
Qed.

Lemma uart_print_int_correct_witness :
  uart_print_int 1042 [] = Ok (str "1042") /\
  exists w' ds, uart_print_int 1042 [] = Ok w' /\ output w' = output [] ++ ds /\
    Forall is_digit_char ds /\ dec_value ds = 1042.
Proof. split; [reflexivity | apply (uart_print_int_correct 1042 []); lia]. Defined.

(** A negative [int] prints nothing at all. *)
Theorem uart_print_int_negative_silent `{Console W} n w :
  n < 0 -> exists w', uart_print_int n w = Ok w' /\ output w' = output w.
Proof.
  intros Hn. destruct (uart_print_int_negative n Hn w) as (w' & E & O).
  exists w'. by rewrite O, app_nil_r.
Qed.

Lemma uart_print_int_negative_silent_witness :
  exists w', uart_print_int (-8) (str "Error: ") = Ok w' /\ output w' = output (str "Error: ").
Proof. apply (uart_print_int_negative_silent (-8) (str "Error: ")). lia. Defined.
