(* ===== verification/Heap.v ===== *)
(** * The kernel heap: src/src/heap.c

    A bump allocator over a region of the 32-bit address space; there is no
    [kfree]. Pointers are 32-bit addresses, [NULL] is 0. *)

From S2P Require Import Prelude Strings Uart.

(** ** Definitions *)

Record heap : Type := Heap { heap_ptr : Z; heap_end : Z; used : Z }.

Section Ops.
Context `{Console W}.

Definition heap_init (start size : Z) (w : W) : res (heap * W) :=
  let h := Heap (u32 start) (u32 (start + size)) 0 in
  w' ← uart_println (lit "HEAP INIT") w; Ok (h, w').

Definition kmalloc (size : Z) (h : heap) (w : W) : res (Z * heap * W) :=
  if heap_end h <=? u32 (heap_ptr h + size) then Ok (0, h, w)
  else
    let p := heap_ptr h in
    let h' := Heap (u32 (heap_ptr h + size)) (heap_end h) (u32 (used h + size)) in
    w' ← uart_println (lit "KMALLOC") w; Ok (p, h', w').

Definition heap_used (h : heap) : Z := used h.

(** A sequence of allocations: the blocks handed out, as (address, size). *)
Fixpoint kmalloc_all (sizes : list Z) (h : heap) (w : W) : res (list (Z * Z) * heap * W) :=
  match sizes with
  | [] => Ok ([], h, w)
  | n :: sizes' =>
      '(p, h1, w1) ← kmalloc n h w;
      '(bs, h2, w2) ← kmalloc_all sizes' h1 w1;
      Ok (if p =? 0 then bs else (p, n) :: bs, h2, w2)
  end.

End Ops.

(** The region [start, heap_end) with everything below [heap_ptr] handed out. *)
Definition heap_inv (start : Z) (h : heap) : Prop :=
  0 < start /\ start <= heap_ptr h /\ heap_end h < 2147483648 /\
  used h = heap_ptr h - start.

(** Consecutive blocks packed upwards from [lo], staying below [hi]. *)
Fixpoint packed (lo hi : Z) (bs : list (Z * Z)) : Prop :=
  match bs with
  | [] => True
  | (p, n) :: bs' => p = lo /\ 0 <= n /\ lo + n < hi /\ packed (lo + n) hi bs'
  end.

(** ** Lemmas *)

Section HeapSpec.
Context `{Console W}.

Lemma kmalloc_ok start size h (w : W) :
  heap_inv start h -> 0 <= size < 2147483648 -> heap_ptr h + size < heap_end h ->
  exists w', kmalloc size h w =
    Ok (heap_ptr h, Heap (heap_ptr h + size) (heap_end h) (used h + size), w').
Proof.
  intros (Hs & Hp & He & Hu) Hsz Hfit. unfold kmalloc.
  rewrite !u32_id by solve_u. bool_cases; [lia|].
  destruct (prints_runs _ _ w (uart_println_lit "KMALLOC" eq_refl)) as [w' E].
  exists w'. rewrite E. done.
Qed.

Lemma kmalloc_fail start size h (w : W) :
  heap_inv start h -> heap_ptr h <= heap_end h -> 0 <= size < 2147483648 ->
  heap_end h <= heap_ptr h + size -> kmalloc size h w = Ok (0, h, w).
Proof.
  intros (Hs & Hp & He & Hu) Hpe Hsz Hfit. unfold kmalloc.
  rewrite !u32_id by solve_u. bool_cases; (done || lia).
Qed.

Lemma kmalloc_all_packed start sizes h (w : W) :
  heap_inv start h -> heap_ptr h <= heap_end h ->
  Forall (fun n => 0 <= n < 2147483648) sizes ->
  exists bs h' w', kmalloc_all sizes h w = Ok (bs, h', w') /\
    packed (heap_ptr h) (heap_end h) bs /\ heap_inv start h' /\
    used h' = used h + foldr (fun b acc => b.2 + acc) 0 bs.
Proof.
  intros Hi Hpe Hsz. revert h w Hi Hpe. induction Hsz as [|n sizes Hn Hsz IH]; intros h w Hi Hpe.
  { exists [], h, w. simpl. repeat split; try apply Hi. lia. }
  cbn [kmalloc_all]. destruct (decide (heap_ptr h + n < heap_end h)) as [Hfit|Hfit].
  - destruct (kmalloc_ok start n h w Hi Hn Hfit) as [w1 ->]. cbn [mbind res_bind].
    destruct Hi as (Hs & Hp & He & Hu).
    destruct (IH (Heap (heap_ptr h + n) (heap_end h) (used h + n)) w1)
      as (bs & h2 & w2 & -> & Hpk & Hi2 & Hu2); [unfold heap_inv; simpl; lia | simpl; lia |].
    cbn [mbind res_bind]. destruct (Z.eqb_spec (heap_ptr h) 0); [lia|].
    do 3 eexists. split; [done|]. simpl in *. split; [auto with lia|]. split; [done|]. lia.
  - rewrite (kmalloc_fail start n h w Hi Hpe Hn) by lia. cbn [mbind res_bind].
    destruct (IH h w Hi Hpe) as (bs & h2 & w2 & -> & Hpk & Hi2 & Hu2).
    cbn [mbind res_bind]. by do 3 eexists.
Qed.

End HeapSpec.

(** ** Properties *)

(** C35: after [heap_init] on a region below 2 GiB, any sequence of requests
    smaller than 2 GiB hands out blocks that are packed one after the other
    from the start of the region and end before its end, hence disjoint; a
    request that does not fit is refused and changes nothing; [heap_used]
    is the sum of the sizes handed out. *)
Theorem kmalloc_disjoint `{Console W} start size sizes (w : W) :
  0 < start -> 0 <= size -> start + size < 2147483648 ->
  Forall (fun n => 0 <= n < 2147483648) sizes ->
  exists h0 w0 bs h w', heap_init start size w = Ok (h0, w0) /\
    kmalloc_all sizes h0 w0 = Ok (bs, h, w') /\
    packed start (start + size) bs /\
    heap_used h = foldr (fun b acc => b.2 + acc) 0 bs.
Proof.
  intros Hs Hz Hsum Hall. unfold heap_init.
  destruct (prints_runs _ _ w (uart_println_lit "HEAP INIT" eq_refl)) as [w0 E].
  rewrite E. cbn [mbind res_bind]. rewrite !u32_id by solve_u.
  destruct (kmalloc_all_packed start sizes (Heap start (start + size) 0) w0)
    as (bs & h & w' & E2 & Hp & _ & Hu);
    [unfold heap_inv; simpl; lia | simpl; lia | done |].
  exists (Heap start (start + size) 0), w0, bs, h, w'. rewrite E2. simpl in *.
  unfold heap_used. rewrite Hu. auto with lia.
Qed.

Lemma kmalloc_disjoint_witness :
  exists h0 w0 bs h w', heap_init 536870912 8192 [] = Ok (h0, w0) /\
    kmalloc_all [100; 28; 9000] h0 w0 = Ok (bs, h, w') /\
    packed 536870912 (536870912 + 8192) bs /\
    heap_used h = foldr (fun b acc => b.2 + acc) 0 bs.
Proof.
  apply (kmalloc_disjoint 536870912 8192 [100; 28; 9000] []); [lia..|].
  repeat constructor; lia.
Defined.

(** The size check compares wrapped addresses: a request whose end wraps
    past the top of the address space is granted and moves [heap_ptr] down, so
    that memory already handed out is handed out again. *)
Theorem kmalloc_wraps `{Console W} (w : W) :
  exists h1 h2 w1 w2,
    kmalloc 4294967196 (Heap 536871012 536879104 100) w = Ok (536871012, h1, w1) /\
    heap_ptr h1 = 536870912 /\ kmalloc 16 h1 w1 = Ok (536870912, h2, w2).
Proof.
  pose proof (fun v : W => prints_runs _ _ v (uart_println_lit "KMALLOC" eq_refl)) as Hp.
  unfold kmalloc. destruct (Hp w) as [w1 E1], (Hp w1) as [w2 E2].
  do 2 eexists. exists w1, w2. cbn -[uart_println]. rewrite E1. cbn -[uart_println].
  split; [reflexivity|]. split; [reflexivity|]. cbn -[uart_println]. rewrite E2. done.
Qed.
