(* ===== verification/Rtc.v ===== *)
(** * Timer, clock and diagnostics: src/src/rtc.c, src/src/delay.c,
    src/src/kernel_log.c

    The GPTM registers are a finite map from addresses to 32-bit words; the
    value of the free-running down counter [TIMER0_TAV_R] at a read is the
    hardware's, an argument [tav]. *)

From S2P Require Import Prelude Strings Uart Heap.

(** ** Definitions *)

Definition regs : Type := gmap Z Z.
Definition reg_read (r : gmap Z Z) (a : Z) : Z := default 0 (r !! a).
Definition reg_write (a v : Z) (r : gmap Z Z) : gmap Z Z := <[a := u32 v]> r.

Definition SYSCTL_RCGC1_R : Z := 0x400FE104.
Definition TIMER0_CFG_R : Z := 0x40030000.
Definition TIMER0_TAMR_R : Z := 0x40030004.
Definition TIMER0_CTL_R : Z := 0x4003000C.
Definition TIMER0_TAILR_R : Z := 0x40030028.

(** Returns the registers and [start_time_seconds]. *)
Definition rtc_init (r0 : gmap Z Z) : gmap Z Z * Z :=
  let r1 := reg_write SYSCTL_RCGC1_R (Z.lor (reg_read r0 SYSCTL_RCGC1_R) 0x00010000) r0 in
  let r2 := reg_write TIMER0_CTL_R (Z.land (reg_read r1 TIMER0_CTL_R) (Z.lnot 1)) r1 in
  let r3 := reg_write TIMER0_CFG_R 0 r2 in
  let r4 := reg_write TIMER0_TAMR_R 2 r3 in
  let r5 := reg_write TIMER0_TAILR_R 0xFFFFFFFF r4 in
  let r6 := reg_write TIMER0_CTL_R (Z.lor (reg_read r5 TIMER0_CTL_R) 1) r5 in
  (r6, 0).

Definition rtc_get_seconds (tav : Z) : Z :=
  let elapsed_cycles := u32 (0xFFFFFFFF - tav) in
  elapsed_cycles / 50000000.

(** The fields [rtc_get_time] fills. *)
Record rtc_time : Type := RtcTime {
  tm_sec : Z; tm_min : Z; tm_hour : Z; tm_mday : Z; tm_mon : Z; tm_year : Z
}.

Definition rtc_get_time (tav : Z) : rtc_time :=
  let t0 := rtc_get_seconds tav in
  let t1 := t0 / 60 in
  let t2 := t1 / 60 in
  let t3 := t2 / 24 in
  RtcTime (t0 mod 60) (t1 mod 60) (t2 mod 24)
          (t3 mod 30 + 1) ((t3 / 30) mod 12) (t3 / 365 + 126).

(** [for (i = 0; i < t; i++);] returns the final [i]. *)
Fixpoint delay_loop (fuel : nat) (i t : Z) : res Z :=
  if i <? t then
    match fuel with O => Err OutOfFuel | S fuel' => delay_loop fuel' (u32 (i + 1)) t end
  else Ok i.

Definition delay (t : Z) : res Z := delay_loop (Z.to_nat t) 0 t.

(** kernel_log.c *)
Record diag : Type := Diag { uptime_sec : Z; file_count : Z }.

Definition diag_init : diag := Diag 0 0.
Definition diag_tick (d : diag) : diag := Diag (s32 (uptime_sec d + 1)) (file_count d).
Definition diag_file_created (d : diag) : diag := Diag (uptime_sec d) (s32 (file_count d + 1)).

Section Diag.
Context `{Console W}.

Definition diag_print (d : diag) (h : heap) (tav : Z) (w : W) : res W :=
  w ← uart_println (lit "=== System Diagnosis ===") w;
  w ← uart_print (lit "Uptime :") w;
  let current_uptime := rtc_get_seconds tav in
  let current_uptime := if current_uptime =? 0 then u32 (uptime_sec d) else current_uptime in
  w ← uart_print_int (s32 current_uptime) w;
  w ← uart_print (lit "s") w;
  w ← uart_print (lit "   ") w;
  w ← uart_print (lit "Files  :") w;
  w ← uart_print_int (file_count d) w;
  w ← uart_print (lit "   ") w;
  w ← uart_print (lit "Heap used : ") w;
  w ← uart_print_int (s32 (heap_used h)) w;
  w ← uart_println (lit " bytes") w;
  uart_println (lit "Kernel: ZanOS v0.4") w.

End Diag.

(** The report. *)
Definition diag_text (d : diag) (h : heap) (tav : Z) : list Z :=
  line "=== System Diagnosis ===" ++ str "Uptime :" ++
  dec_string (if rtc_get_seconds tav =? 0 then uptime_sec d else rtc_get_seconds tav) ++
  str "s" ++ str "   " ++ str "Files  :" ++ dec_string (file_count d) ++ str "   " ++
  str "Heap used : " ++ dec_string (used h) ++ line " bytes" ++ line "Kernel: ZanOS v0.4".

(** The counters are in the range that is printed. *)
Definition diag_ok (d : diag) (h : heap) : Prop :=
  0 <= uptime_sec d < 2147483648 /\ 0 <= file_count d < 2147483648 /\ 0 <= used h < 2147483648.

(** ** Lemmas *)

Lemma delay_loop_ok fuel i t :
  0 <= i <= t -> t < 4294967296 -> (Z.to_nat (t - i) <= fuel)%nat ->
  delay_loop fuel i t = Ok t.
Proof.
  revert i. induction fuel as [|fuel IH]; intros i Hi Ht Hf; cbn [delay_loop]; bool_cases.
  - lia.
  - f_equal; lia.
  - rewrite u32_id by solve_u. apply IH; lia.
  - f_equal; lia.
Qed.

Lemma rtc_seconds_range tav : is_u32 tav -> 0 <= rtc_get_seconds tav <= 85.
Proof. unfold rtc_get_seconds. solve_u. Qed.

Lemma diag_print_prints `{Console W} d h tav :
  is_u32 tav -> diag_ok d h -> prints (diag_print d h tav) (diag_text d h tav).
Proof.
  intros Ht (Hu & Hf & Hh). pose proof (rtc_seconds_range tav Ht) as Hs. unfold diag_text.
  set (up := if rtc_get_seconds tav =? 0 then uptime_sec d else rtc_get_seconds tav).
  assert (Hup : s32 (if rtc_get_seconds tav =? 0 then u32 (uptime_sec d)
                     else rtc_get_seconds tav) = up /\ 0 <= up < 2147483648).
  { unfold up. destruct (rtc_get_seconds tav =? 0); solve_u. }
  destruct Hup as [Eup Hup].
  assert (Eh : s32 (heap_used h) = used h) by (unfold heap_used; solve_u).
  pose proof (uart_print_int_prints up Hup) as P1.
  pose proof (uart_print_int_prints _ Hf) as P2.
  pose proof (uart_print_int_prints _ Hh) as P3.
  unfold diag_print. cbv zeta. rewrite Eup, Eh. prints_auto.
Qed.

(** ** Properties *)

(** The clock never advances beyond 85 seconds, whatever the 32-bit
    counter holds (it then starts again from 0), so the wall clock printed by
    the shell always shows hour 0 and minute 0 or 1, on the first day. *)
Theorem rtc_clock_wraps tav :
  is_u32 tav ->
  0 <= rtc_get_seconds tav <= 85 /\
  tm_hour (rtc_get_time tav) = 0 /\ 0 <= tm_min (rtc_get_time tav) <= 1 /\
  0 <= tm_sec (rtc_get_time tav) < 60 /\
  rtc_get_seconds tav = tm_sec (rtc_get_time tav) + 60 * tm_min (rtc_get_time tav) /\
  tm_mday (rtc_get_time tav) = 1 /\ tm_mon (rtc_get_time tav) = 0 /\
  tm_year (rtc_get_time tav) = 126.
Proof.
  intros Ht. pose proof (rtc_seconds_range tav Ht) as Hs. unfold rtc_get_time.
  cbn [tm_hour tm_min tm_sec tm_mday tm_mon tm_year].
  generalize dependent (rtc_get_seconds tav). intros s Hs. lia.
Qed.

Lemma rtc_clock_wraps_witness :
  tm_min (rtc_get_time 0) = 1 /\ 0 <= rtc_get_seconds 0 <= 85.
Proof. split; [reflexivity | apply (rtc_clock_wraps 0); unfold is_u32; lia]. Defined.

(** [diag_print] prints the report with the uptime (the clock, or the tick
    counter while the clock reads 0), the file count and the heap use in
    decimal, for all counters that are in range. *)
Theorem diag_print_correct `{Console W} d h tav (w : W) :
  is_u32 tav -> 0 <= uptime_sec d < 2147483648 -> 0 <= file_count d < 2147483648 ->
  0 <= used h < 2147483648 ->
  exists w', diag_print d h tav w = Ok w' /\
    output w' = output w ++ line "=== System Diagnosis ===" ++ str "Uptime :" ++
      dec_string (if rtc_get_seconds tav =? 0 then uptime_sec d else rtc_get_seconds tav) ++
      str "s" ++ str "   " ++ str "Files  :" ++ dec_string (file_count d) ++ str "   " ++
      str "Heap used : " ++ dec_string (used h) ++ line " bytes" ++
      line "Kernel: ZanOS v0.4".
Proof. intros Ht Hu Hf Hh. exact (diag_print_prints d h tav Ht (conj Hu (conj Hf Hh)) w). Qed.

Lemma diag_print_correct_witness :
  exists w', diag_print (Diag 7 2) (Heap 536871040 536879104 128) 4294967295 [] = Ok w' /\
    output w' = output [] ++ line "=== System Diagnosis ===" ++ str "Uptime :" ++
      dec_string (if rtc_get_seconds 4294967295 =? 0 then 7 else rtc_get_seconds 4294967295) ++
      str "s" ++ str "   " ++ str "Files  :" ++ dec_string 2 ++ str "   " ++
      str "Heap used : " ++ dec_string 128 ++ line " bytes" ++
      line "Kernel: ZanOS v0.4".
Proof.
  apply (diag_print_correct (Diag 7 2) (Heap 536871040 536879104 128) 4294967295 []);
    unfold is_u32; simpl; lia.
Defined.
