(* ===== verification/Ramdisk.v ===== *)
(** * The RAM disk: src/src/ramdisk.c

    Sixteen fixed slots. The concrete state is the array of [File] structs
    with their raw [name] and [data] arrays; the abstract one is the list of
    slots, each empty or holding a name and its contents. *)

From S2P Require Import Prelude Strings Uart Heap Rtc.

(** ** Definitions *)

Definition MAX_FILES : nat := 16.
Definition MAX_FILE_SIZE : nat := 256.

Record File : Type := MkFile { name : list Z; data : list Z; size : Z; fused : Z }.

(** The static array before any call: all zero. *)
Definition files_bss : list File :=
  replicate MAX_FILES (MkFile (replicate 32 0) (replicate MAX_FILE_SIZE 0) 0 0).

Definition ramdisk_init (fs : list File) : list File :=
  (fun f => MkFile (name f) (data f) (size f) 0) <$> fs.

(** The slot loop of [ramdisk_create]: [None] when no slot is free. *)
Fixpoint ramdisk_create_loop (fs : list File) (nm : list Z) : res (option (list File)) :=
  match fs with
  | [] => Ok None
  | f :: fs' =>
      if fused f =? 0 then
        n1 ← strncpy (name f) 0 nm 31;
        n2 ← buf_set n1 31 0;
        Ok (Some (MkFile n2 (data f) 0 1 :: fs'))
      else r ← ramdisk_create_loop fs' nm; Ok (option_map (cons f) r)
  end.

Definition ramdisk_create (nm : list Z) (fs : list File) (d : diag)
    : res (Z * list File * diag) :=
  r ← ramdisk_create_loop fs nm;
  match r with
  | Some fs' => Ok (0, fs', diag_file_created d)
  | None => Ok (-1, fs, d)
  end.

(** [for (j = 0; data[j] && j < MAX_FILE_SIZE - 1; j++)], [k] copies left. *)
Fixpoint write_loop (k : nat) (dst src : list Z) (j : Z) : res (list Z * Z) :=
  c ← buf_get src j;
  if c =? 0 then Ok (dst, j)
  else match k with
  | O => Ok (dst, j)
  | S k' => dst' ← buf_set dst j c; write_loop k' dst' src (j + 1)
  end.

#[global] Arguments write_loop : simpl never.

Fixpoint ramdisk_write_loop (fs : list File) (nm src : list Z) : res (option (list File)) :=
  match fs with
  | [] => Ok None
  | f :: fs' =>
      hit ← (if fused f =? 0 then Ok false
             else r ← strcmp (name f) nm; Ok (r =? 0));
      if (hit : bool) then
        '(d1, j) ← write_loop (MAX_FILE_SIZE - 1) (data f) src 0;
        d2 ← buf_set d1 j 0;
        Ok (Some (MkFile (name f) d2 (u32 j) (fused f) :: fs'))
      else r ← ramdisk_write_loop fs' nm src; Ok (option_map (cons f) r)
  end.

Definition ramdisk_write (nm src : list Z) (fs : list File) : res (Z * list File) :=
  r ← ramdisk_write_loop fs nm src;
  match r with Some fs' => Ok (0, fs') | None => Ok (-1, fs) end.

(** [for (int j = 0; j < files[i].size; j++) buffer[j] = files[i].data[j];] *)
Fixpoint read_loop (k : nat) (dat buffer : list Z) (j : Z) : res (list Z) :=
  match k with
  | O => Ok buffer
  | S k' => c ← buf_get dat j; b' ← buf_set buffer j c; read_loop k' dat b' (j + 1)
  end.

#[global] Arguments read_loop : simpl never.

Fixpoint ramdisk_read_loop (fs : list File) (nm buffer : list Z) : res (option (list Z)) :=
  match fs with
  | [] => Ok None
  | f :: fs' =>
      hit ← (if fused f =? 0 then Ok false
             else r ← strcmp (name f) nm; Ok (r =? 0));
      if (hit : bool) then
        b1 ← read_loop (Z.to_nat (size f)) (data f) buffer 0;
        b2 ← buf_set b1 (size f) 0;
        Ok (Some b2)
      else ramdisk_read_loop fs' nm buffer
  end.

Definition ramdisk_read (nm buffer : list Z) (fs : list File) : res (Z * list Z) :=
  r ← ramdisk_read_loop fs nm buffer;
  match r with Some b => Ok (0, b) | None => Ok (-1, buffer) end.

Section Ls.
Context `{Console W}.

Fixpoint ramdisk_ls_loop (fs : list File) (w : W) : res W :=
  match fs with
  | [] => Ok w
  | f :: fs' =>
      if fused f =? 0 then ramdisk_ls_loop fs' w
      else w ← uart_print (lit "- ") w; w ← uart_println (name f) w; ramdisk_ls_loop fs' w
  end.

Definition ramdisk_ls (fs : list File) (w : W) : res W :=
  w ← uart_println (lit "Files in RAM Disk:") w; ramdisk_ls_loop fs w.

End Ls.

(** *** Invariant and abstraction *)

Definition file_wf (f : File) : Prop :=
  length (name f) = 32%nat /\ length (data f) = 256%nat /\ 0 <= size f <= 255 /\
  (fused f = 0 \/ fused f = 1) /\ (fused f = 1 -> exists s, cstring (name f) s).

(** The characters before the first NUL. *)
Fixpoint cname (b : list Z) : list Z :=
  match b with [] => [] | c :: b' => if c =? 0 then [] else c :: cname b' end.

(** A slot: its name and contents. *)
Definition slot : Type := option (list Z * list Z).

Definition abs_file (f : File) : slot :=
  if fused f =? 0 then None else Some (cname (name f), take (Z.to_nat (size f)) (data f)).

Definition abs (fs : list File) : list slot := abs_file <$> fs.

(** *** Abstract operations *)

Fixpoint spec_create (nm : list Z) (ss : list slot) : option (list slot) :=
  match ss with
  | [] => None
  | None :: ss' => Some (Some (take 31 nm, []) :: ss')
  | s :: ss' => cons s <$> spec_create nm ss'
  end.

Fixpoint spec_write (nm dat : list Z) (ss : list slot) : option (list slot) :=
  match ss with
  | [] => None
  | Some (n, c) :: ss' =>
      if decide (n = nm) then Some (Some (n, take 255 dat) :: ss')
      else cons (Some (n, c)) <$> spec_write nm dat ss'
  | None :: ss' => cons None <$> spec_write nm dat ss'
  end.

Fixpoint spec_read (nm : list Z) (ss : list slot) : option (list Z) :=
  match ss with
  | [] => None
  | Some (n, c) :: ss' => if decide (n = nm) then Some c else spec_read nm ss'
  | None :: ss' => spec_read nm ss'
  end.

Fixpoint spec_ls (ss : list slot) : list Z :=
  match ss with
  | [] => []
  | Some (n, _) :: ss' => (str "- " ++ n ++ [10]) ++ spec_ls ss'
  | None :: ss' => spec_ls ss'
  end.

(** A file named [f] of [sz] characters, for the examples. *)
Definition sample_file (sz : Z) : File :=
  MkFile (lit "f" ++ replicate 30 0) (replicate 255 65 ++ [0]) sz 1.

(** ** Lemmas *)

Lemma cname_cstring b s : cstring b s -> cname b = s.
Proof.
  intros [Hs [r ->]]. induction Hs as [|c s Hc Hs IH]; simpl.
  - done.
  - destruct (Z.eqb_spec c 0); [done|]. by rewrite IH.
Qed.

Lemma file_hit f nm s :
  file_wf f -> cstring nm s ->
  (if fused f =? 0 then Ok false else r ← strcmp (name f) nm; Ok (r =? 0)) =
  Ok (match abs_file f with Some (n, _) => bool_decide (n = s) | None => false end).
Proof.
  intros (_ & _ & _ & Hu & Hn) Hs. unfold abs_file.
  destruct (Z.eqb_spec (fused f) 0); [done|].
  destruct Hn as [t Ht]; [lia|].
  destruct (strcmp_eq _ _ _ _ Ht Hs) as (r & -> & Hr). cbn [mbind res_bind].
  rewrite (cname_cstring _ _ Ht). f_equal.
  destruct (Z.eqb_spec r 0); symmetry; [apply bool_decide_eq_true | apply bool_decide_eq_false]; tauto.
Qed.

(** The name array after a creation holds the first 31 characters. *)
Lemma created_name n0 nm s :
  length n0 = 32%nat -> cstring nm s ->
  exists n2, (n1 ← strncpy n0 0 nm 31; buf_set n1 31 0) = Ok n2 /\
    length n2 = 32%nat /\ cstring n2 (take 31 s).
Proof.
  intros Hl Hs.
  pose proof (strncpy_spec n0 0 31 nm s Hs) as E.
  change (Z.of_nat 0) with 0 in E. change (Z.of_nat 31) with 31 in E.
  rewrite E by lia. clear E.
  cbn [mbind res_bind]. rewrite buf_set_ok by (rewrite length_inserts; simpl; lia).
  eexists. split; [done|]. rewrite length_insert, length_inserts. split; [done|].
  change (Z.to_nat 31) with 31%nat. destruct Hs as [Hs _]. split; [by apply Forall_take|].
  rewrite list_inserts_splice
    by (rewrite length_app, length_take, length_replicate; lia).
  rewrite take_0, app_nil_l, length_app, length_take, length_replicate.
  replace (0 + (31 `min` length s + (31 - length s)))%nat with 31%nat by lia.
  assert (Hd : length (drop 31 n0) = 1%nat) by (rewrite length_drop; lia).
  destruct (drop 31 n0) as [|x [|]]; try discriminate Hd.
  rewrite insert_app_r_alt by (rewrite length_app, length_take, length_replicate; lia).
  rewrite length_app, length_take, length_replicate.
  replace (31 - (31 `min` length s + (31 - length s)))%nat with 0%nat by lia.
  exists (replicate (31 - length s) 0). cbn [insert list_insert].
  by rewrite <- app_assoc, <- replicate_S_end.
Qed.

Lemma write_loop_spec k dst src (j : nat) s :
  cstring src s -> (j <= length s)%nat -> (j + k <= length dst)%nat ->
  write_loop k dst src j =
  Ok (list_inserts j (take k (drop j s)) dst, Z.of_nat (j + length (take k (drop j s)))).
Proof.
  intros Hs. revert dst j. induction k as [|k IH]; intros dst j Hj Hd;
    unfold write_loop; fold write_loop.
  all: destruct (decide (j < length s)%nat) as [Hlt|Hge].
  all: try (destruct (lookup_lt_is_Some_2 s j Hlt) as [c Hc];
    destruct (cstring_lookup _ _ _ _ Hs Hc) as [Hb Hc0];
    rewrite (buf_get_ok _ _ c) by (rewrite ?Nat2Z.id; (lia || done));
    cbn [mbind res_bind]; destruct (Z.eqb_spec c 0); [done|]).
  all: try (replace j with (length s) by lia; rewrite (buf_get_ok _ _ 0)
        by (rewrite ?Nat2Z.id; (lia || by apply cstring_lookup_end));
        cbn [mbind res_bind]; rewrite drop_all, take_nil; simpl; do 2 f_equal; lia).
  - simpl. do 2 f_equal. lia.
  - rewrite buf_set_ok, Nat2Z.id by lia. cbn [mbind res_bind].
    replace (Z.of_nat j + 1) with (Z.of_nat (S j)) by lia.
    rewrite IH by (rewrite ?length_insert; lia).
    rewrite (drop_S s c j Hc). simpl.
    rewrite list_inserts_insert_lt by lia. do 2 f_equal. lia.
Qed.

Lemma read_loop_spec k dat buffer (j : nat) :
  (j + k <= length dat)%nat -> (j + k <= length buffer)%nat ->
  read_loop k dat buffer j = Ok (list_inserts j (take k (drop j dat)) buffer).
Proof.
  revert buffer j. induction k as [|k IH]; intros buffer j Hd Hb; [done|].
  unfold read_loop; fold read_loop. destruct (lookup_lt_is_Some_2 dat j) as [c Hc]; [lia|].
  rewrite (buf_get_ok _ _ c) by (rewrite ?Nat2Z.id; (lia || done)). cbn [mbind res_bind].
  rewrite buf_set_ok, Nat2Z.id by lia. cbn [mbind res_bind].
  replace (Z.of_nat j + 1) with (Z.of_nat (S j)) by lia.
  rewrite IH by (rewrite ?length_insert; lia).
  rewrite (drop_S dat c j Hc). simpl. by rewrite list_inserts_insert_lt by lia.
Qed.

Lemma read_loop_oob k dat buffer (j : nat) :
  (j + k <= length dat)%nat -> (j <= length buffer < j + k)%nat ->
  read_loop k dat buffer j = Err OutOfBounds.
Proof.
  revert buffer j. induction k as [|k IH]; intros buffer j Hd Hb; [lia|].
  unfold read_loop; fold read_loop. destruct (lookup_lt_is_Some_2 dat j) as [c Hc]; [lia|].
  rewrite (buf_get_ok _ _ c) by (rewrite ?Nat2Z.id; (lia || done)). cbn [mbind res_bind].
  destruct (decide (j < length buffer)%nat).
  - rewrite buf_set_ok by lia. cbn [mbind res_bind].
    replace (Z.of_nat j + 1) with (Z.of_nat (S j)) by lia.
    apply IH; rewrite ?length_insert; lia.
  - rewrite buf_set_oob by lia. done.
Qed.

(** What a write leaves in the struct. *)
Lemma written_file f src s :
  file_wf f -> cstring src s ->
  exists d1 d2, write_loop 255 (data f) src 0 = Ok (d1, Z.of_nat (length (take 255 s))) /\
    buf_set d1 (Z.of_nat (length (take 255 s))) 0 = Ok d2 /\
    length d2 = 256%nat /\ take (length (take 255 s)) d2 = take 255 s.
Proof.
  intros (_ & Hd & _) Hs. set (l := take 255 s).
  assert (Hl : (length l <= 255)%nat) by (unfold l; rewrite length_take; lia).
  pose proof (write_loop_spec 255 (data f) src 0 s Hs) as E.
  change (Z.of_nat 0) with 0 in E. rewrite E by lia. rewrite drop_0, Nat.add_0_l.
  fold l. eexists _, _. split; [done|].
  rewrite buf_set_ok by (rewrite length_inserts; lia). split; [done|].
  rewrite Nat2Z.id, length_insert, length_inserts. split; [done|].
  rewrite take_insert_ge by lia. rewrite list_inserts_splice by lia.
  by rewrite take_0, app_nil_l, take_app_le, take_ge by lia.
Qed.

Lemma create_refines fs nm s :
  Forall file_wf fs -> cstring nm s ->
  exists r, ramdisk_create_loop fs nm = Ok r /\
    abs <$> r = spec_create s (abs fs) /\
    (forall fs', r = Some fs' -> Forall file_wf fs' /\ length fs' = length fs).
Proof.
  intros Hwf Hs. induction Hwf as [|f fs Hf Hwf IH]; simpl.
  { exists None. naive_solver. }
  unfold abs_file at 1. destruct (Z.eqb_spec (fused f) 0) as [Hu|Hu].
  - destruct Hf as (Hn & Hd & Hsz & _ & _).
    destruct (created_name (name f) nm s Hn Hs) as (n2 & E & Hl & Hc).
    destruct (strncpy (name f) 0 nm 31) as [n1|]; [|discriminate E].
    cbn [mbind res_bind] in E |- *. rewrite E. cbn [mbind res_bind].
    eexists. split; [done|]. split.
    + simpl. unfold abs_file at 1. cbn [name data size fused].
      rewrite (cname_cstring _ _ Hc), take_0. done.
    + intros fs' [= <-]. split; [|done]. constructor; [|done].
      unfold file_wf. cbn [name data size fused]. repeat split; try lia; eauto.
  - destruct IH as (r & -> & Ha & Hr). cbn [mbind res_bind].
    eexists. split; [done|]. split.
    + rewrite <- Ha. destruct r; simpl; [|done]. unfold abs_file.
      by destruct (Z.eqb_spec (fused f) 0).
    + intros fs' E. destruct r as [fs1|]; simplify_eq/=.
      destruct (Hr fs1 eq_refl) as [Hw Hlen]. split; [by constructor | by rewrite Hlen].
Qed.

Lemma write_refines fs nm n src s :
  Forall file_wf fs -> cstring nm n -> cstring src s ->
  exists r, ramdisk_write_loop fs nm src = Ok r /\
    abs <$> r = spec_write n s (abs fs) /\
    (forall fs', r = Some fs' -> Forall file_wf fs' /\ length fs' = length fs).
Proof.
  intros Hwf Hn Hs. induction Hwf as [|f fs Hf Hwf IH]; simpl.
  { exists None. naive_solver. }
  rewrite (file_hit f nm n Hf Hn). cbn [mbind res_bind].
  destruct (abs_file f) as [[m c]|] eqn:Ef; [case_bool_decide as Hm; simpl|].
  - rewrite decide_True by done.
    destruct (written_file f src s Hf Hs) as (d1 & d2 & E1 & E2 & Hl & Ht).
    change (MAX_FILE_SIZE - 1)%nat with 255%nat.
    rewrite E1. cbn [mbind res_bind]. rewrite E2. cbn [mbind res_bind].
    eexists. split; [done|].
    assert (Hsz : (length (take 255 s) <= 255)%nat) by (rewrite length_take; lia).
    rewrite u32_id by solve_u. split.
    + simpl. unfold abs_file in Ef |- *. cbn [name data size fused].
      destruct (Z.eqb_spec (fused f) 0); simplify_eq. by rewrite Nat2Z.id, Ht.
    + intros fs' [= <-]. split; [|done]. constructor; [|done].
      destruct Hf as (H1 & H2 & H3 & H4 & H5). unfold file_wf. cbn [name data size fused].
      repeat split; try lia; auto.
  - rewrite decide_False by done. destruct IH as (r & -> & Ha & Hr). cbn [mbind res_bind].
    eexists. split; [done|]. split.
    + rewrite <- Ha. destruct r; simpl; by rewrite ?Ef.
    + intros fs' E. destruct r as [fs1|]; simplify_eq/=.
      destruct (Hr fs1 eq_refl) as [Hw Hlen]. split; [by constructor | by rewrite Hlen].
  - destruct IH as (r & -> & Ha & Hr). cbn [mbind res_bind].
    eexists. split; [done|]. split.
    + rewrite <- Ha. destruct r; simpl; by rewrite ?Ef.
    + intros fs' E. destruct r as [fs1|]; simplify_eq/=.
      destruct (Hr fs1 eq_refl) as [Hw Hlen]. split; [by constructor | by rewrite Hlen].
Qed.

Lemma read_refines fs nm n buffer :
  Forall file_wf fs -> cstring nm n ->
  ramdisk_read_loop fs nm buffer =
  match spec_read n (abs fs) with
  | Some c => if decide (length c < length buffer)%nat
              then Ok (Some (list_inserts 0 (c ++ [0]) buffer)) else Err OutOfBounds
  | None => Ok None
  end.
Proof.
  intros Hwf Hn. induction Hwf as [|f fs Hf Hwf IH]; simpl; [done|].
  rewrite (file_hit f nm n Hf Hn). cbn [mbind res_bind].
  destruct (abs_file f) as [[m c]|] eqn:Ef; [case_bool_decide as Hm; simpl|].
  - rewrite decide_True by done. unfold abs_file in Ef.
    destruct (Z.eqb_spec (fused f) 0); [done|]. simplify_eq.
    destruct Hf as (H1 & H2 & H3 & H4 & H5).
    assert (Hl : length (take (Z.to_nat (size f)) (data f)) = Z.to_nat (size f))
      by (rewrite length_take; lia).
    rewrite Hl. change 0 with (Z.of_nat 0).
    destruct (decide (Z.to_nat (size f) < length buffer)%nat).
    + rewrite read_loop_spec by lia. cbn [mbind res_bind].
      rewrite buf_set_ok by (rewrite length_inserts; lia). cbn [mbind res_bind].
      rewrite list_inserts_app_l, Hl, drop_0. simpl. by rewrite Nat.add_0_r.
    + destruct (decide (length buffer < Z.to_nat (size f))%nat).
      * rewrite read_loop_oob by lia. done.
      * rewrite read_loop_spec by lia. cbn [mbind res_bind].
        rewrite buf_set_oob by (rewrite length_inserts; lia). done.
  - rewrite decide_False by done. exact IH.
  - exact IH.
Qed.

Lemma ls_prints `{Console W} fs :
  Forall file_wf fs -> prints (ramdisk_ls_loop fs) (spec_ls (abs fs)).
Proof.
  intros Hwf. induction Hwf as [|f fs Hf Hwf IH]; cbn [ramdisk_ls_loop]; [apply prints_ret|].
  destruct Hf as (_ & _ & _ & Hu & Hn).
  change (abs (f :: fs)) with (abs_file f :: abs fs). cbn [spec_ls]. unfold abs_file at 1.
  destruct (Z.eqb_spec (fused f) 0); [done|].
  destruct Hn as [t Ht]; [lia|]. rewrite (cname_cstring _ _ Ht), <- app_assoc.
  eapply prints_bind; [prints_leaf|].
  eapply prints_bind; [by apply uart_println_prints | done].
Qed.

Lemma spec_write_read n s ss ss' :
  spec_write n s ss = Some ss' -> spec_read n ss' = Some (take 255 s).
Proof.
  revert ss'. induction ss as [|[[m c]|] ss IH]; intros ss' E; simpl in *; [done|..].
  - case_decide; simplify_eq/=; [by rewrite decide_True|].
    destruct (spec_write n s ss); simplify_eq/=. rewrite decide_False by done. by apply IH.
  - destruct (spec_write n s ss); simplify_eq/=. by apply IH.
Qed.

Lemma spec_read_length fs n c :
  Forall file_wf fs -> spec_read n (abs fs) = Some c -> (length c <= 255)%nat.
Proof.
  intros Hwf. induction Hwf as [|f fs Hf Hwf IH]; simpl; [done|].
  destruct Hf as (_ & _ & Hsz & _ & _). unfold abs_file at 1.
  destruct (Z.eqb_spec (fused f) 0); [done|].
  case_decide; [|done]. intros [= <-]. rewrite length_take. lia.
Qed.

Lemma sample_file_wf sz : 0 <= sz <= 255 -> file_wf (sample_file sz).
Proof.
  intros H. unfold file_wf. cbn [name data size fused sample_file].
  repeat split; try (vm_compute; reflexivity); try lia; auto.
  intros _. exists (str "f"). split; [repeat constructor; discriminate | by eexists].
Qed.

Lemma files_bss_wf : Forall file_wf (ramdisk_init files_bss).
Proof.
  repeat constructor; cbn [name data size fused ramdisk_init]; try lia; try done; auto.
Qed.

(** ** Properties *)

(** C34: [ramdisk_create], [ramdisk_write] and [ramdisk_read] implement the
    abstract disk: on every well-formed array of slots and all C-string
    arguments, creation takes the first free slot with the first 31 characters
    of the name, a write replaces the contents of the first file of that name
    by the first 255 characters, and a read delivers the contents followed by a
    NUL; the results are 0 or -1 as the abstract operation succeeds or not, the
    slots stay well formed, and creation is the only step counted. *)
Theorem ramdisk_refines fs nm n src s buffer d :
  Forall file_wf fs -> cstring nm n -> cstring src s -> (256 <= length buffer)%nat ->
  (exists fs', ramdisk_create nm fs d =
     Ok (match spec_create n (abs fs) with Some _ => 0 | None => -1 end, fs',
         match spec_create n (abs fs) with Some _ => diag_file_created d | None => d end) /\
     Forall file_wf fs' /\ abs fs' = default (abs fs) (spec_create n (abs fs))) /\
  (exists fs', ramdisk_write nm src fs =
     Ok (match spec_write n s (abs fs) with Some _ => 0 | None => -1 end, fs') /\
     Forall file_wf fs' /\ abs fs' = default (abs fs) (spec_write n s (abs fs))) /\
  ramdisk_read nm buffer fs =
     Ok (match spec_read n (abs fs) with
         | Some c => (0, list_inserts 0 (c ++ [0]) buffer)
         | None => (-1, buffer)
         end).
Proof.
  intros Hwf Hn Hs Hb. split; [|split].
  - destruct (create_refines fs nm n Hwf Hn) as (r & E & Ha & Hr).
    unfold ramdisk_create. rewrite E, <- Ha. cbn [mbind res_bind].
    destruct r as [fs'|]; simpl; eexists; (split; [done|]); [|done].
    split; [by apply (Hr fs') | done].
  - destruct (write_refines fs nm n src s Hwf Hn Hs) as (r & E & Ha & Hr).
    unfold ramdisk_write. rewrite E, <- Ha. cbn [mbind res_bind].
    destruct r as [fs'|]; simpl; eexists; (split; [done|]); [|done].
    split; [by apply (Hr fs') | done].
  - unfold ramdisk_read. rewrite (read_refines fs nm n buffer Hwf Hn).
    destruct (spec_read n (abs fs)) as [c|] eqn:Ec; [|done].
    pose proof (spec_read_length fs n c Hwf Ec). rewrite decide_True by lia. done.
Qed.

Lemma ramdisk_refines_witness :
  (exists fs', ramdisk_create (lit "file1") (ramdisk_init files_bss) diag_init =
     Ok (0, fs', diag_file_created diag_init) /\
     Forall file_wf fs' /\ abs fs' = Some (str "file1", []) :: replicate 15 None).
Proof.
  apply (ramdisk_refines (ramdisk_init files_bss) (lit "file1") (str "file1")
           (lit "") (str "") (replicate 256 0) diag_init);
    [exact files_bss_wf | by apply lit_cstring.. | simpl; lia].
Defined.

(** What is written is read back: after a successful write of the C string
    [s], reading the same name into any buffer with room for it returns 0 and
    leaves the first 255 characters of [s] and a NUL at the front of the
    buffer, the rest of the buffer untouched. *)
Theorem ramdisk_write_read fs nm n src s buffer fs' :
  Forall file_wf fs -> cstring nm n -> cstring src s ->
  (Nat.min 255 (length s) < length buffer)%nat ->
  ramdisk_write nm src fs = Ok (0, fs') ->
  ramdisk_read nm buffer fs' =
    Ok (0, take 255 s ++ 0 :: drop (S (Nat.min 255 (length s))) buffer).
Proof.
  intros Hwf Hn Hs Hb E.
  destruct (write_refines fs nm n src s Hwf Hn Hs) as (r & Er & Ha & Hr).
  unfold ramdisk_write in E. rewrite Er in E. cbn [mbind res_bind] in E.
  destruct r as [fs1|]; [|discriminate E]. injection E as ->.
  destruct (Hr fs' eq_refl) as [Hwf' _]. symmetry in Ha. apply spec_write_read in Ha.
  unfold ramdisk_read. rewrite (read_refines fs' nm n buffer Hwf' Hn), Ha.
  rewrite decide_True by (rewrite length_take; lia). cbn [mbind res_bind].
  rewrite list_inserts_splice by (rewrite length_app, length_take; cbn [length]; lia).
  rewrite take_0, app_nil_l, <- app_assoc, length_app, length_take.
  cbn [length app]. do 5 f_equal. lia.
Qed.

Lemma ramdisk_write_read_witness :
  ramdisk_write (lit "f") (lit "abc") [sample_file 200] =
    Ok (0, [MkFile (lit "f" ++ replicate 30 0) (str "abc" ++ 0 :: replicate 251 65 ++ [0]) 3 1]) /\
  ramdisk_read (lit "f") (replicate 6 1)
    [MkFile (lit "f" ++ replicate 30 0) (str "abc" ++ 0 :: replicate 251 65 ++ [0]) 3 1] =
    Ok (0, take 255 (str "abc") ++ 0 :: drop 4 (replicate 6 1)).
Proof.
  split; [vm_compute; reflexivity|].
  apply (ramdisk_write_read [sample_file 200] (lit "f") (str "f") (lit "abc") (str "abc"));
    [|by apply lit_cstring..|vm_compute; lia|vm_compute; reflexivity].
  constructor; [apply sample_file_wf; lia | constructor].
Defined.

(** [ramdisk_read] does not know the size of the caller's buffer: it writes
    one byte more than the file size, and runs off the end of any buffer that
    is not larger than the file. *)
Theorem ramdisk_read_overflow fs nm n buffer c :
  Forall file_wf fs -> cstring nm n -> spec_read n (abs fs) = Some c ->
  (length buffer <= length c)%nat ->
  ramdisk_read nm buffer fs = Err OutOfBounds.
Proof.
  intros Hwf Hn Hc Hb. unfold ramdisk_read.
  rewrite (read_refines fs nm n buffer Hwf Hn), Hc, decide_False by lia. done.
Qed.

Lemma ramdisk_read_overflow_witness :
  ramdisk_read (lit "f") (replicate 128 0) [sample_file 200] = Err OutOfBounds.
Proof.
  apply (ramdisk_read_overflow _ (lit "f") (str "f") (replicate 128 0) (replicate 200 65));
    [|by apply lit_cstring | vm_compute; reflexivity | simpl; lia].
  constructor; [apply sample_file_wf; lia | constructor].
Defined.

(** [ramdisk_ls] lists exactly the files in use, in slot order, one line
    each. *)
Theorem ramdisk_ls_correct `{Console W} fs (w : W) :
  Forall file_wf fs ->
  exists w', ramdisk_ls fs w = Ok w' /\
    output w' = output w ++ line "Files in RAM Disk:" ++ spec_ls (abs fs).
Proof.
  intros Hwf. revert w.
  change (prints (ramdisk_ls fs) (line "Files in RAM Disk:" ++ spec_ls (abs fs))).
  eapply prints_bind; [prints_leaf | by apply ls_prints].
Qed.

Lemma ramdisk_ls_correct_witness :
  exists w', ramdisk_ls (ramdisk_init files_bss) [] = Ok w' /\
    output w' = output [] ++ line "Files in RAM Disk:" ++ spec_ls (abs (ramdisk_init files_bss)).
Proof. apply (ramdisk_ls_correct (ramdisk_init files_bss) []). exact files_bss_wf. Defined.
