(* ===== verification/Onescomp.v ===== *)
(** * Ones' complement arithmetic (RFC 1071)

    The checksum code of the kernel (net.c) and of lwIP (inet_chksum.c) adds
    16-bit words and folds the carries back. [oc v] is the value every such
    folding ends in; [wsum] is the sum of the little-endian words of a byte
    sequence. *)

From S2P Require Import Prelude.

(** ** Definitions *)

(** The 16-bit representative of [v] modulo 65535, 0 only for 0. *)
Definition oc (v : Z) : Z := if v =? 0 then 0 else (v - 1) mod 65535 + 1.

(** One folding step. *)
Definition fold16 (v : Z) : Z := v / 65536 + v mod 65536.

Definition swap16 (w : Z) : Z := (w mod 256) * 256 + w / 256.

(** The sum of the words; an odd trailing byte is a low byte. *)
Fixpoint wsum (bs : list Z) : Z :=
  match bs with
  | [] => 0
  | [b] => b
  | lo :: hi :: bs' => lo + 256 * hi + wsum bs'
  end.

(** The sum of the words in network order; an odd trailing byte is a high byte. *)
Fixpoint bsum (bs : list Z) : Z :=
  match bs with
  | [] => 0
  | [b] => 256 * b
  | hi :: lo :: bs' => 256 * hi + lo + bsum bs'
  end.

(** ** Lemmas *)

Lemma oc_range v : 0 <= oc v <= 65535.
Proof. unfold oc. bool_cases; lia. Qed.

Lemma oc_0 : oc 0 = 0.
Proof. reflexivity. Qed.

Lemma oc_zero v : oc v = 0 <-> v = 0.
Proof. unfold oc. bool_cases; lia. Qed.

Lemma oc_mod v : oc v mod 65535 = v mod 65535.
Proof. unfold oc. bool_cases; lia. Qed.

Lemma oc_unique r v :
  0 <= r <= 65535 -> r mod 65535 = v mod 65535 -> (r = 0 <-> v = 0) -> r = oc v.
Proof. unfold oc. intros Hr Hm Hz. bool_cases; lia. Qed.

Lemma oc_congr v v' :
  v mod 65535 = v' mod 65535 -> (v = 0 <-> v' = 0) -> oc v = oc v'.
Proof.
  intros Hm Hz. apply oc_unique; [apply oc_range | by rewrite oc_mod | by rewrite oc_zero].
Qed.

Lemma oc_id r : 0 <= r <= 65535 -> oc r = r.
Proof. intros Hr. symmetry. by apply oc_unique. Qed.

Lemma oc_oc v : oc (oc v) = oc v.
Proof. apply oc_id, oc_range. Qed.

Lemma oc_add_l a b : 0 <= a -> 0 <= b -> oc (oc a + b) = oc (a + b).
Proof.
  intros Ha Hb. pose proof (oc_range a). pose proof (oc_zero a).
  apply oc_congr; [|lia]. rewrite Z.add_mod, oc_mod, <- Z.add_mod; lia.
Qed.

Lemma oc_add_r a b : 0 <= a -> 0 <= b -> oc (a + oc b) = oc (a + b).
Proof. intros Ha Hb. rewrite Z.add_comm, oc_add_l, Z.add_comm; lia. Qed.

Lemma oc_mul_l k a : 0 < k -> 0 <= a -> oc (k * oc a) = oc (k * a).
Proof.
  intros Hk Ha. pose proof (oc_range a). pose proof (oc_zero a).
  apply oc_congr; [|nia]. rewrite Z.mul_mod, oc_mod, <- Z.mul_mod; lia.
Qed.

Lemma oc_fold v : 0 <= v -> oc (fold16 v) = oc v.
Proof. intros Hv. unfold fold16. apply oc_congr; lia. Qed.

Lemma fold16_bound v : 0 <= v < 4294967296 -> 0 <= fold16 v <= 131070.
Proof. unfold fold16. lia. Qed.

Lemma fold16_small v : 0 <= v <= 131070 -> 0 <= fold16 v <= 65535.
Proof. unfold fold16. lia. Qed.

(** Two foldings bring any 32-bit sum to 16 bits. *)
Lemma fold16_twice v : 0 <= v < 4294967296 -> fold16 (fold16 v) = oc v.
Proof.
  intros Hv. pose proof (fold16_bound v Hv) as H1. pose proof (fold16_small _ H1) as H2.
  rewrite <- (oc_id _ H2), oc_fold, oc_fold; lia.
Qed.

Lemma fold16_once v : 0 <= v <= 131070 -> fold16 v = oc v.
Proof. intros Hv. rewrite <- (oc_id _ (fold16_small v Hv)), oc_fold; lia. Qed.

Lemma swap16_range w : 0 <= w <= 65535 -> 0 <= swap16 w <= 65535.
Proof. unfold swap16. lia. Qed.

(** Swapping the bytes of a sum multiplies it by 256. *)
Lemma swap16_oc v : 0 <= v -> swap16 (oc v) = oc (256 * v).
Proof.
  intros Hv. rewrite <- oc_mul_l by lia.
  pose proof (oc_range v) as Hr. apply oc_unique; [by apply swap16_range| |];
    unfold swap16; lia.
Qed.

Lemma swap16_swap w : 0 <= w <= 65535 -> swap16 (swap16 w) = w.
Proof. unfold swap16. lia. Qed.

(** Induction two bytes at a time. *)
Lemma pair_ind (P : list Z -> Prop) :
  P [] -> (forall b, P [b]) -> (forall a b l, P l -> P (a :: b :: l)) -> forall l, P l.
Proof.
  intros H0 H1 H2. fix IH 1. intros [|a [|b l]]; [exact H0 | apply H1 | apply H2, IH].
Qed.

Lemma wsum_nonneg bs : bytes_ok bs -> 0 <= wsum bs.
Proof.
  unfold bytes_ok, is_u8. induction bs as [|b|a b l IH] using pair_ind; simpl; intros H.
  - lia.
  - apply Forall_cons in H. lia.
  - do 2 apply Forall_cons in H as [? H]. specialize (IH H). lia.
Qed.

Lemma wsum_bound bs : bytes_ok bs -> 2 * wsum bs <= 65535 * (Z.of_nat (length bs) + 1).
Proof.
  unfold bytes_ok, is_u8. induction bs as [|b|a b l IH] using pair_ind; simpl; intros H.
  - lia.
  - apply Forall_cons in H as [? _]. lia.
  - do 2 apply Forall_cons in H as [? H]. specialize (IH H). lia.
Qed.

Lemma wsum_app_even a b :
  Nat.even (length a) = true -> wsum (a ++ b) = wsum a + wsum b.
Proof.
  induction a as [|x|x y l IH] using pair_ind; simpl; intros H; [lia | done |].
  rewrite IH by done. lia.
Qed.

(** A byte in front exchanges high and low bytes. *)
Lemma wsum_cons x b :
  bytes_ok b -> 0 <= x ->
  wsum (x :: b) mod 65535 = (x + 256 * wsum b) mod 65535 /\
  (wsum (x :: b) = 0 <-> x = 0 /\ wsum b = 0).
Proof.
  revert x. unfold bytes_ok, is_u8.
  induction b as [|y|y z l IH] using pair_ind; intros x Hb Hx.
  - simpl. split; [f_equal|]; lia.
  - apply Forall_cons in Hb as [Hy _]. simpl. split; [f_equal|]; lia.
  - do 2 apply Forall_cons in Hb as [? Hb].
    pose proof (wsum_nonneg l Hb) as Hl.
    assert (0 <= wsum (z :: l)) by (apply wsum_nonneg; constructor; [done | exact Hb]).
    destruct (IH z Hb) as [Hm Hz]; [lia|].
    change (wsum (x :: y :: z :: l)) with (x + 256 * y + wsum (z :: l)).
    change (wsum (y :: z :: l)) with (y + 256 * z + wsum l).
    split; [|lia].
    rewrite (Z.add_mod (x + 256 * y)), Hm, <- Z.add_mod by lia. lia.
Qed.

Lemma wsum_app_odd a b :
  bytes_ok a -> bytes_ok b -> Nat.even (length a) = false ->
  wsum (a ++ b) mod 65535 = (wsum a + 256 * wsum b) mod 65535 /\
  (wsum (a ++ b) = 0 <-> wsum a = 0 /\ wsum b = 0).
Proof.
  intros Ha Hb. unfold bytes_ok, is_u8 in *.
  induction a as [|x|x y l IH] using pair_ind; intros H; [done|..].
  - apply Forall_cons in Ha as [Hx _]. exact (wsum_cons x b Hb (proj1 Hx)).
  - do 2 apply Forall_cons in Ha as [? Ha]. destruct (IH Ha H) as [Hm Hz].
    pose proof (wsum_nonneg l Ha). pose proof (wsum_nonneg b Hb).
    assert (0 <= wsum (l ++ b)) by (apply wsum_nonneg, Forall_app; done).
    cbn [app wsum]. split; [|lia].
    rewrite (Z.add_mod (x + 256 * y)), Hm, <- Z.add_mod by lia. f_equal. lia.
Qed.

Lemma oc_wsum_app_odd a b :
  bytes_ok a -> bytes_ok b -> Nat.even (length a) = false ->
  oc (wsum (a ++ b)) = oc (wsum a + 256 * wsum b).
Proof.
  intros Ha Hb He. destruct (wsum_app_odd a b Ha Hb He) as [Hm Hz].
  pose proof (wsum_nonneg a Ha). pose proof (wsum_nonneg b Hb).
  apply oc_congr; [done | lia].
Qed.

(** The checksum field makes the sum all ones. *)
Lemma oc_complement s : 0 <= s -> oc (s + (65535 - oc s)) = 65535.
Proof.
  intros Hs. pose proof (oc_range s). pose proof (oc_mod s). pose proof (oc_zero s).
  symmetry. apply oc_unique; lia.
Qed.

Lemma bsum_wsum bs :
  bytes_ok bs ->
  bsum bs mod 65535 = (256 * wsum bs) mod 65535 /\ (bsum bs = 0 <-> wsum bs = 0) /\
  0 <= bsum bs /\ 2 * bsum bs <= 65535 * (Z.of_nat (length bs) + 1).
Proof.
  unfold bytes_ok, is_u8. induction bs as [|b|a b l IH] using pair_ind; intros H.
  - simpl. lia.
  - apply Forall_cons in H as [? _]. simpl. lia.
  - pose proof H as H'. do 2 apply Forall_cons in H as [? H].
    destruct (IH H) as (Hm & Hz & Hl0 & Hu). pose proof (wsum_nonneg l H).
    cbn [bsum wsum length]. split; [|lia].
    rewrite (Z.add_mod (256 * a + b)), Hm, <- Z.add_mod by lia. lia.
Qed.

Lemma oc_bsum bs : bytes_ok bs -> oc (bsum bs) = oc (256 * wsum bs).
Proof. intros H. destruct (bsum_wsum bs H) as (Hm & Hz & _). apply oc_congr; lia. Qed.
