(* ===== verification/Eth.v ===== *)
(** * The Ethernet controller driver: src/src/eth.c, src/src/interrupt.c

    Memory-mapped registers: [REG a n] is what the [n]-th read of register [a]
    returns (the hardware's choice, a parameter), the writes are recorded in
    order. *)

From S2P Require Import Prelude Strings Uart.

(** ** Definitions *)

Definition ETH_BASE : Z := 0x40048000.
Definition ETH_MACRIS : Z := ETH_BASE + 0x000.
Definition ETH_MACIACK : Z := ETH_BASE + 0x008.
Definition ETH_MACIM : Z := ETH_BASE + 0x004.
Definition ETH_MACRCTL : Z := ETH_BASE + 0x00C.
Definition ETH_MACTCTL : Z := ETH_BASE + 0x010.
Definition ETH_MACDATA : Z := ETH_BASE + 0x014.
Definition ETH_MACIA0 : Z := ETH_BASE + 0x018.
Definition ETH_MACIA1 : Z := ETH_BASE + 0x01C.
Definition ETH_MACTR : Z := ETH_BASE + 0x038.
Definition ETH_MACNPV : Z := ETH_BASE + 0x020.

Definition MAC_RCTL_RSTFIFO : Z := 0x10.
Definition MAC_RCTL_RXEN : Z := 0x1.
Definition MAC_TCTL_PADEN : Z := 0x4.
Definition MAC_TCTL_CRC : Z := 0x2.
Definition MAC_TCTL_TXEN : Z := 0x1.
Definition MAC_INT_TXEMP : Z := 0x40.
Definition MAC_INT_RX : Z := 0x1.

Record mmio : Type := Mmio { nreads : gmap Z nat; writes : list (Z * Z) }.

Definition reads_of (m : mmio) (a : Z) : nat := default 0%nat (nreads m !! a).

Section Driver.
Variable REG : Z -> nat -> Z.

Definition rd (a : Z) (m : mmio) : Z * mmio :=
  (u32 (REG a (reads_of m a)), Mmio (<[a := S (reads_of m a)]> (nreads m)) (writes m)).

Definition wr (a v : Z) (m : mmio) : mmio := Mmio (nreads m) (writes m ++ [(a, u32 v)]).

Definition eth_init `{Console W} (mac : list Z) (m : mmio) (w : W) : res (mmio * W) :=
  w ← uart_println (lit "[ETH] Initializing Ethernet Controller...") w;
  let m := wr ETH_MACIM 0 m in
  let m := wr ETH_MACRCTL 0 m in
  let m := wr ETH_MACTCTL 0 m in
  a0 ← buf_get mac 0; a1 ← buf_get mac 1; a2 ← buf_get mac 2; a3 ← buf_get mac 3;
  a4 ← buf_get mac 4; a5 ← buf_get mac 5;
  let m := wr ETH_MACIA0 (Z.lor (Z.lor (Z.lor a0 (Z.shiftl a1 8)) (Z.shiftl a2 16)) (Z.shiftl a3 24)) m in
  let m := wr ETH_MACIA1 (Z.lor a4 (Z.shiftl a5 8)) m in
  let m := wr ETH_MACRCTL (Z.lor MAC_RCTL_RXEN MAC_RCTL_RSTFIFO) m in
  let m := wr ETH_MACTCTL (Z.lor (Z.lor MAC_TCTL_TXEN MAC_TCTL_PADEN) MAC_TCTL_CRC) m in
  let m := wr ETH_MACIM MAC_INT_RX m in
  w ← uart_println (lit "[ETH] Ethernet Initialized.") w;
  Ok (m, w).

(** [if (i+k < len) word |= (p[i+k] << 8*k);] *)
Definition or_byte (p : list Z) (i len k word : Z) : res Z :=
  if u32 (i + k) <? len then
    b ← buf_get p (u32 (i + k)); Ok (Z.lor word (Z.shiftl b (8 * k)))
  else Ok word.

(** [for (uint32_t i = 0; i < len; i += 4)] *)
Fixpoint send_words (fuel : nat) (p : list Z) (i len : Z) (m : mmio) : res mmio :=
  if i <? len then
    match fuel with
    | O => Err OutOfFuel
    | S fuel' =>
        w0 ← buf_get p i;
        w1 ← or_byte p i len 1 w0;
        w2 ← or_byte p i len 2 w1;
        w3 ← or_byte p i len 3 w2;
        send_words fuel' p (u32 (i + 4)) len (wr ETH_MACDATA w3 m)
    end
  else Ok m.

(** [for (i = 0; i < 1000; i++) if (REG(ETH_MACRIS) & MAC_INT_TXEMP) break;] *)
Fixpoint tx_wait (k : nat) (m : mmio) : mmio :=
  match k with
  | O => m
  | S k' =>
      let '(v, m') := rd ETH_MACRIS m in
      if negb (Z.land v MAC_INT_TXEMP =? 0) then m' else tx_wait k' m'
  end.

Definition eth_send (p : list Z) (len : Z) (m : mmio) : res mmio :=
  let m := wr ETH_MACDATA
    (Z.lor (Z.land len 0xFF) (Z.shiftl (Z.land (Z.shiftr len 8) 0xFF) 8)) m in
  m ← send_words (S (length p)) p 0 len m;
  let m := wr ETH_MACTR 1 m in
  let m := tx_wait 1000 m in
  Ok (wr ETH_MACIACK MAC_INT_TXEMP m).

(** Bytes [j], [j+1], ... of [word]; [k] of them are left. *)
Fixpoint recv_bytes (k : nat) (j word : Z) (p : list Z) (stored bytes_to_read max_len : Z)
    : res (list Z * Z) :=
  match k with
  | O => Ok (p, stored)
  | S k' =>
      if (stored <? bytes_to_read + 2) && (stored <? max_len) then
        p' ← buf_set p stored (Z.land (Z.shiftr word (j * 8)) 0xFF);
        recv_bytes k' (j + 1) word p' (stored + 1) bytes_to_read max_len
      else recv_bytes k' (j + 1) word p stored bytes_to_read max_len
  end.

Fixpoint recv_words (k : nat) (p : list Z) (stored bytes_to_read max_len : Z) (m : mmio)
    : res (list Z * Z * mmio) :=
  match k with
  | O => Ok (p, stored, m)
  | S k' =>
      let '(word, m') := rd ETH_MACDATA m in
      '(p', stored') ← recv_bytes 4 0 word p stored bytes_to_read max_len;
      recv_words k' p' stored' bytes_to_read max_len m'
  end.

(** Returns the length stored, the buffer and the device. *)
Definition eth_receive (p : list Z) (max_len : Z) (m : mmio) : res (Z * list Z * mmio) :=
  let '(npv, m) := rd ETH_MACNPV m in
  if Z.land npv 0xFF =? 0 then Ok (0, p, m)
  else
    let '(len_word, m) := rd ETH_MACDATA m in
    let len := Z.land len_word 0xFFFF in
    if (len =? 0) || (1522 <? len) then
      let '(v1, m) := rd ETH_MACRCTL m in
      let m := wr ETH_MACRCTL (Z.land v1 (Z.lnot MAC_RCTL_RXEN)) m in
      let '(v2, m) := rd ETH_MACRCTL m in
      let m := wr ETH_MACRCTL (Z.lor v2 MAC_RCTL_RSTFIFO) m in
      let '(v3, m) := rd ETH_MACRCTL m in
      let m := wr ETH_MACRCTL (Z.lor v3 MAC_RCTL_RXEN) m in
      Ok (0, p, m)
    else
      '(p, stored) ← (if 2 <=? max_len then
          p1 ← buf_set p 0 (Z.land (Z.shiftr len_word 16) 0xFF);
          p2 ← buf_set p1 1 (Z.land (Z.shiftr len_word 24) 0xFF);
          Ok (p2, 2)
        else Ok (p, 0));
      let bytes_to_read := if 2 <? len then len - 2 else 0 in
      let words_to_read := (bytes_to_read + 3) / 4 in
      '(p, stored, m) ← recv_words (Z.to_nat words_to_read) p stored bytes_to_read max_len m;
      Ok (stored, p, m).

(** interrupt.c: the receive flag and the device after the interrupt. *)
Definition ethernet_handler (eth_rx_flag : bool) (m : mmio) : bool * mmio :=
  let '(status, m) := rd ETH_MACRIS m in
  let flag := if negb (Z.land status MAC_INT_RX =? 0) then true else eth_rx_flag in
  (flag, wr ETH_MACIACK status m).

(** The next [k] words of the receive FIFO. *)
Definition fifo (m : mmio) (k : nat) : list Z :=
  (fun i => u32 (REG ETH_MACDATA (reads_of m ETH_MACDATA + i))) <$> seq 0 k.

End Driver.

(** The device after [k] more reads of register [a]. *)
Fixpoint skip_reads (REG : Z -> nat -> Z) (a : Z) (k : nat) (m : mmio) : mmio :=
  match k with O => m | S k' => skip_reads REG a k' (rd REG a m).2 end.

(** The bytes of a word, lowest first. *)
Definition le4 (w : Z) : list Z := [w mod 256; w / 256 mod 256; w / 65536 mod 256; w / 16777216 mod 256].
Definition words_bytes (ws : list Z) : list Z := ws ≫= le4.

(** Bytes packed four to a word, the last word padded with zeros. *)
Fixpoint pack_words (bs : list Z) : list Z :=
  match bs with
  | [] => []
  | [a] => [a]
  | [a; b] => [a + b * 256]
  | [a; b; c] => [a + b * 256 + c * 65536]
  | a :: b :: c :: d :: bs' => (a + b * 256 + c * 65536 + d * 16777216) :: pack_words bs'
  end.

(** The bytes [j .. j+k-1] of a word. *)
Fixpoint bytes_from (k : nat) (j word : Z) : list Z :=
  match k with
  | O => []
  | S k' => Z.land (Z.shiftr word (j * 8)) 255 :: bytes_from k' (j + 1) word
  end.

(** Storing bytes up to a limit: what the receive loops amount to. *)
Fixpoint store_capped (bs p : list Z) (stored lim : Z) : res (list Z * Z) :=
  match bs with
  | [] => Ok (p, stored)
  | b :: bs' =>
      if stored <? lim then p' ← buf_set p stored b; store_capped bs' p' (stored + 1) lim
      else store_capped bs' p stored lim
  end.

(** A pending packet of five bytes, AA BB 01 02 03. *)
Definition rx_demo (a : Z) (n : nat) : Z :=
  if a =? ETH_MACNPV then 1
  else match n with O => 0xBBAA0005 | _ => 0x00030201 end.

(** ** Lemmas *)

Lemma store_capped_app a b p stored lim :
  store_capped (a ++ b) p stored lim =
  ('(p', stored') ← store_capped a p stored lim; store_capped b p' stored' lim).
Proof.
  revert p stored. induction a as [|x a IH]; intros p stored; [done|]. simpl.
  destruct (stored <? lim); [|apply IH].
  destruct (buf_set p stored x); cbn [mbind res_bind]; [apply IH | done].
Qed.

Lemma store_capped_spec bs p (stored lim : nat) :
  (stored <= lim)%nat -> (lim <= length p)%nat ->
  store_capped bs p stored lim =
  Ok (list_inserts stored (take (lim - stored) bs) p,
      Z.of_nat (stored + length (take (lim - stored) bs))).
Proof.
  revert p stored. induction bs as [|b bs IH]; intros p stored Hs Hl; simpl.
  - rewrite take_nil. simpl. do 2 f_equal. lia.
  - destruct (Z.ltb_spec stored lim).
    + rewrite buf_set_ok, Nat2Z.id by lia. cbn [mbind res_bind].
      replace (Z.of_nat stored + 1) with (Z.of_nat (S stored)) by lia.
      rewrite IH by (rewrite ?length_insert; lia).
      replace (lim - stored)%nat with (S (lim - S stored)) by lia.
      cbn [take list_inserts length]. rewrite list_inserts_insert_lt by lia.
      do 2 f_equal. lia.
    + rewrite IH by lia. replace (lim - stored)%nat with 0%nat by lia. done.
Qed.

Lemma recv_bytes_store k j word p stored btr max_len :
  recv_bytes k j word p stored btr max_len =
  store_capped (bytes_from k j word) p stored (Z.min (btr + 2) max_len).
Proof.
  revert j p stored. induction k as [|k IH]; intros j p stored; [done|].
  cbn [recv_bytes bytes_from store_capped].
  destruct (Z.ltb_spec stored (Z.min (btr + 2) max_len)).
  - destruct (Z.ltb_spec stored (btr + 2)); [|lia].
    destruct (Z.ltb_spec stored max_len); [|lia]. cbn [andb].
    destruct (buf_set _ _ _); cbn [mbind res_bind]; [apply IH | done].
  - assert ((stored <? btr + 2) && (stored <? max_len) = false) as ->
      by (bool_cases; (done || lia)). apply IH.
Qed.

Lemma bytes_from_le4 word : bytes_from 4 0 word = le4 word.
Proof.
  unfold le4. cbn [bytes_from]. rewrite !land_255.
  change (0 * 8) with 0. change ((0 + 1) * 8) with 8.
  change ((0 + 1 + 1) * 8) with 16. change ((0 + 1 + 1 + 1) * 8) with 24.
  by rewrite Z.shiftr_0_r, shiftr_8, shiftr_16, shiftr_24.
Qed.

Lemma fifo_cons REG m k :
  fifo REG m (S k) =
  (rd REG ETH_MACDATA m).1 :: fifo REG (rd REG ETH_MACDATA m).2 k.
Proof.
  unfold fifo. cbn [seq fmap list_fmap]. rewrite Nat.add_0_r. f_equal.
  rewrite <- seq_shift. rewrite <- list_fmap_compose. apply list_fmap_ext.
  intros i x _. unfold compose, rd, reads_of at 2. cbn [snd nreads].
  rewrite lookup_insert_eq. cbn [default]. unfold id. do 2 f_equal. lia.
Qed.

Lemma skip_reads_writes REG a k m : writes (skip_reads REG a k m) = writes m.
Proof. revert m. induction k as [|k IH]; intros m; simpl; [done|]. by rewrite IH. Qed.

Lemma recv_words_store REG k p stored btr max_len m :
  recv_words REG k p stored btr max_len m =
  ('(p', s') ← store_capped (words_bytes (fifo REG m k)) p stored (Z.min (btr + 2) max_len);
   Ok (p', s', skip_reads REG ETH_MACDATA k m)).
Proof.
  revert p stored m. induction k as [|k IH]; intros p stored m; [done|].
  rewrite fifo_cons. unfold words_bytes. rewrite bind_cons. fold (words_bytes (fifo REG (rd REG ETH_MACDATA m).2 k)).
  rewrite store_capped_app. cbn [recv_words]. unfold rd at 1.
  rewrite recv_bytes_store, bytes_from_le4.
  unfold rd at 1. cbn [fst snd].
  destruct (store_capped (le4 _) _ _ _) as [[p1 s1]|]; cbn [mbind res_bind]; [|done].
  rewrite IH. done.
Qed.

Lemma le4_word b0 b1 b2 b3 :
  is_u8 b0 -> is_u8 b1 -> is_u8 b2 -> is_u8 b3 ->
  le4 (u32 (Z.lor (Z.lor (Z.lor b0 (Z.shiftl b1 8)) (Z.shiftl b2 16)) (Z.shiftl b3 24)))
  = [b0; b1; b2; b3].
Proof.
  unfold is_u8. intros. rewrite shiftl_8, shiftl_16, shiftl_24.
  rewrite lor_8, lor_16, lor_24 by lia. rewrite u32_id by solve_u.
  unfold le4. repeat f_equal; lia.
Qed.

Lemma quad_ind (P : list Z -> Prop) :
  P [] -> (forall a, P [a]) -> (forall a b, P [a; b]) -> (forall a b c, P [a; b; c]) ->
  (forall a b c d l, P l -> P (a :: b :: c :: d :: l)) -> forall l, P l.
Proof.
  intros H0 H1 H2 H3 H4. fix IH 1.
  intros [|a [|b [|c [|d l]]]]; [exact H0 | apply H1 | apply H2 | apply H3 | apply H4, IH].
Qed.

Lemma pack_words_bytes bs :
  bytes_ok bs ->
  exists pad, words_bytes (pack_words bs) = bs ++ replicate pad 0 /\ (pad < 4)%nat.
Proof.
  unfold bytes_ok, is_u8, words_bytes.
  induction bs as [|a|a b|a b c|a b c d l IH] using quad_ind; intros H;
    repeat apply Forall_cons in H as [? H].
  - exists 0%nat. split; [done | lia].
  - exists 3%nat. split; [|lia]. cbn. repeat f_equal; lia.
  - exists 2%nat. split; [|lia]. cbn. repeat f_equal; lia.
  - exists 1%nat. split; [|lia]. cbn. repeat f_equal; lia.
  - destruct (IH H) as (pad & E & Hp). exists pad. split; [|done].
    cbn [pack_words]. rewrite bind_cons, E. cbn. repeat f_equal; lia.
Qed.

Lemma or_byte_in pre l len k word b :
  0 <= k -> 0 <= length pre + k < 4294967296 -> length pre + k < len -> buf_get l k = Ok b ->
  or_byte (pre ++ l) (length pre) len k word = Ok (Z.lor word (Z.shiftl b (8 * k))).
Proof.
  intros Hk Hr Hl Hb. unfold or_byte. rewrite u32_id by solve_u. bool_cases; [|lia].
  rewrite buf_get_app, Hb by lia. done.
Qed.

Lemma or_byte_out p i len k word :
  0 <= i + k < 4294967296 -> len <= i + k -> or_byte p i len k word = Ok word.
Proof. intros Hr Hl. unfold or_byte. rewrite u32_id by solve_u. bool_cases; (done || lia). Qed.

Lemma word_quad a b c d :
  is_u8 a -> is_u8 b -> is_u8 c -> is_u8 d ->
  u32 (Z.lor (Z.lor (Z.lor a (Z.shiftl b (8 * 1))) (Z.shiftl c (8 * 2))) (Z.shiftl d (8 * 3)))
  = a + b * 256 + c * 65536 + d * 16777216.
Proof.
  unfold is_u8. intros. change (8 * 1) with 8. change (8 * 2) with 16. change (8 * 3) with 24.
  rewrite shiftl_8, shiftl_16, shiftl_24, lor_8, lor_16, lor_24 by lia.
  apply u32_id. solve_u.
Qed.

Lemma word_pair a b :
  is_u8 a -> is_u8 b -> u32 (Z.lor a (Z.shiftl b (8 * 1))) = a + b * 256.
Proof.
  unfold is_u8. intros. change (8 * 1) with 8. rewrite shiftl_8, lor_8 by lia.
  apply u32_id. solve_u.
Qed.

Lemma word_triple a b c :
  is_u8 a -> is_u8 b -> is_u8 c ->
  u32 (Z.lor (Z.lor a (Z.shiftl b (8 * 1))) (Z.shiftl c (8 * 2))) = a + b * 256 + c * 65536.
Proof.
  unfold is_u8. intros. change (8 * 1) with 8. change (8 * 2) with 16.
  rewrite shiftl_8, shiftl_16, lor_8, lor_16 by lia. apply u32_id. solve_u.
Qed.

Lemma send_words_done fuel p i len m : len <= i -> send_words fuel p i len m = Ok m.
Proof. intros H. destruct fuel; cbn [send_words]; bool_cases; (done || lia). Qed.

(** One iteration, with the word it assembles. *)
Lemma send_words_step fuel p (i : nat) len m w0 w1 w2 w3 :
  i < len -> i + 4 < 4294967296 -> buf_get p i = Ok w0 ->
  or_byte p i len 1 w0 = Ok w1 -> or_byte p i len 2 w1 = Ok w2 -> or_byte p i len 3 w2 = Ok w3 ->
  send_words (S fuel) p i len m =
  send_words fuel p (i + 4) len (wr ETH_MACDATA w3 m).
Proof.
  intros Hi Hr E0 E1 E2 E3. cbn [send_words]. bool_cases; [|lia].
  rewrite E0. cbn [mbind res_bind]. rewrite E1. cbn [mbind res_bind].
  rewrite E2. cbn [mbind res_bind]. rewrite E3. cbn [mbind res_bind].
  rewrite u32_id by solve_u. done.
Qed.

Lemma buf_get_head pre a l : buf_get (pre ++ a :: l) (length pre) = Ok a.
Proof. rewrite <- (Z.add_0_r (length pre)). by rewrite buf_get_app by lia. Qed.

Ltac or_bytes :=
  first [ apply or_byte_out; cbn [length]; lia
        | eapply or_byte_in; [lia | cbn [length]; lia | cbn [length]; lia | reflexivity] ].

Lemma send_words_spec l : forall fuel pre post m,
  bytes_ok l -> (length l <= 4 * fuel)%nat -> length pre + length l + 4 < 4294967296 ->
  exists m', send_words fuel (pre ++ l ++ post) (length pre) (length pre + length l) m = Ok m' /\
    writes m' = writes m ++ ((fun w => (ETH_MACDATA, w)) <$> pack_words l).
Proof.
  induction l as [|a|a b|a b c|a b c d l IH] using quad_ind; intros fuel pre post m Hb Hf Hr.
  all: pose proof Hb as Hb'; unfold bytes_ok in Hb'; repeat apply Forall_cons in Hb' as [? Hb'].
  { exists m. rewrite send_words_done by (simpl; lia). by rewrite app_nil_r. }
  all: destruct fuel as [|fuel]; [simpl in Hf; lia|]; cbn [length] in Hf, Hr |- *.
  all: cbn [app].
  all: erewrite send_words_step; [|lia|lia|apply buf_get_head|or_bytes|or_bytes|or_bytes].
  - rewrite send_words_done by lia. eexists. split; [done|]. cbn.
    by rewrite u32_id by solve_u.
  - rewrite send_words_done by lia. eexists. split; [done|]. cbn.
    by rewrite word_pair.
  - rewrite send_words_done by lia. eexists. split; [done|]. cbn.
    by rewrite word_triple.
  - destruct (IH fuel (pre ++ [a; b; c; d]) post
      (wr ETH_MACDATA (Z.lor (Z.lor (Z.lor a (Z.shiftl b (8 * 1))) (Z.shiftl c (8 * 2)))
        (Z.shiftl d (8 * 3))) m)) as (m' & E & Hw);
      [done | simpl in Hf; lia | rewrite length_app; simpl; lia |].
    exists m'. rewrite length_app in E. rewrite <- app_assoc in E. simpl in E.
    split; [rewrite <- E; f_equal; lia|]. rewrite Hw. cbn.
    rewrite word_quad, <- app_assoc by done. done.
Qed.

Lemma tx_wait_writes REG k m : writes (tx_wait REG k m) = writes m.
Proof.
  revert m. induction k as [|k IH]; intros m; [done|]. cbn [tx_wait]. unfold rd.
  destruct (negb _); [done|]. by rewrite IH.
Qed.

(** The two bytes that share the word of the length field. *)
Lemma recv_first_word w p :
  (2 <= length p)%nat ->
  (p1 ← buf_set p 0 (Z.land (Z.shiftr w 16) 0xFF);
   p2 ← buf_set p1 1 (Z.land (Z.shiftr w 24) 0xFF); Ok (p2, 2)) =
  Ok (list_inserts 0 [w / 65536 mod 256; w / 16777216 mod 256] p, 2).
Proof.
  intros H. rewrite !land_255, shiftr_16, shiftr_24. rewrite buf_set_ok by lia.
  cbn [mbind res_bind]. rewrite buf_set_ok by (rewrite length_insert; lia). cbn [mbind res_bind].
  change (Z.to_nat 0) with 0%nat. change (Z.to_nat 1) with 1%nat. cbn [list_inserts].
  by rewrite list_insert_insert_ne.
Qed.

Lemma fifo_tail REG m k w :
  (rd REG ETH_MACDATA m).1 = w ->
  drop 2 (words_bytes (fifo REG m (S k))) =
  w / 65536 mod 256 :: w / 16777216 mod 256 :: words_bytes (fifo REG (rd REG ETH_MACDATA m).2 k).
Proof. intros <-. rewrite fifo_cons. done. Qed.

Lemma words_bytes_length ws : length (words_bytes ws) = (4 * length ws)%nat.
Proof.
  unfold words_bytes. induction ws as [|w ws IH]; [done|].
  rewrite bind_cons, length_app, IH. simpl. lia.
Qed.

Lemma fifo_bytes_length REG m k : length (words_bytes (fifo REG m k)) = (4 * k)%nat.
Proof. rewrite words_bytes_length. unfold fifo. by rewrite length_fmap, length_seq. Qed.

Lemma eth_send_frame_lemma REG p (len : nat) m :
  bytes_ok p -> (len <= length p)%nat -> len < 65536 ->
  exists m' ws pad, eth_send REG p len m = Ok m' /\
    writes m' = writes m ++ (ETH_MACDATA, Z.of_nat len) ::
      ((fun w => (ETH_MACDATA, w)) <$> ws) ++ [(ETH_MACTR, 1); (ETH_MACIACK, MAC_INT_TXEMP)] /\
    words_bytes ws = take len p ++ replicate pad 0 /\ (pad < 4)%nat.
Proof.
  intros Hb Hl Hs. unfold eth_send.
  assert (E0 : u32 (Z.lor (Z.land len 255) (Z.shiftl (Z.land (Z.shiftr len 8) 255) 8)) = len).
  { rewrite !land_255, shiftr_8, shiftl_8, lor_8 by lia. solve_u. }
  assert (Hbt : bytes_ok (take len p)) by by apply Forall_take.
  assert (Hlt : length (take len p) = len) by (rewrite length_take; lia).
  destruct (send_words_spec (take len p) (S (length p)) [] (drop len p)
    (wr ETH_MACDATA (Z.lor (Z.land len 255) (Z.shiftl (Z.land (Z.shiftr len 8) 255) 8)) m))
    as (m1 & E & Hw); [done | rewrite Hlt; lia | rewrite Hlt; simpl; lia |].
  rewrite app_nil_l, take_drop, Hlt in E. cbn [length] in E.
  change (Z.of_nat 0) with 0 in E. rewrite Z.add_0_l in E. rewrite E. cbn [mbind res_bind].
  destruct (pack_words_bytes (take len p) Hbt) as (pad & Ep & Hp).
  eexists _, (pack_words (take len p)), pad. split; [done|].
  cbn [wr writes]. rewrite tx_wait_writes. cbn [wr writes].
  rewrite Hw. cbn [wr writes]. rewrite E0, <- !app_assoc. done.
Qed.

Lemma eth_send_ok REG p (len : nat) m :
  bytes_ok p -> (len <= length p)%nat -> len < 65536 -> exists m', eth_send REG p len m = Ok m'.
Proof.
  intros Hb Hl Hs. destruct (eth_send_frame_lemma REG p len m Hb Hl Hs) as (m' & _ & _ & E & _).
  by exists m'.
Qed.

Lemma eth_receive_pending REG p (max_len : nat) m :
  (2 <= max_len)%nat -> (max_len <= length p)%nat ->
  let m1 := (rd REG ETH_MACNPV m).2 in
  let len_word := u32 (REG ETH_MACDATA (reads_of m1 ETH_MACDATA)) in
  let len := Z.to_nat (len_word mod 65536) in
  u32 (REG ETH_MACNPV (reads_of m ETH_MACNPV)) mod 256 <> 0 -> (2 <= len <= 1522)%nat ->
  exists m', eth_receive REG p max_len m =
    Ok (Z.of_nat (Nat.min len max_len),
        list_inserts 0 (take (Nat.min len max_len)
          (drop 2 (words_bytes (fifo REG m1 (1 + (len + 1) / 4))))) p, m') /\
    writes m' = writes m.
Proof.
  intros Hm Hp m1 len_word len Hnpv Hlen. unfold eth_receive.
  rewrite (surjective_pairing (rd REG ETH_MACNPV m)). fold m1.
  rewrite (surjective_pairing (rd REG ETH_MACDATA m1)).
  change (rd REG ETH_MACDATA m1).1 with len_word.
  change (rd REG ETH_MACNPV m).1 with (u32 (REG ETH_MACNPV (reads_of m ETH_MACNPV))).
  assert (Hlw : 0 <= len_word mod 65536) by lia.
  rewrite land_255, land_65535. replace (len_word mod 65536) with (Z.of_nat len) by (unfold len; lia).
  destruct (Z.eqb_spec (u32 (REG ETH_MACNPV (reads_of m ETH_MACNPV)) mod 256) 0); [done|].
  assert ((Z.of_nat len =? 0) || (1522 <? Z.of_nat len) = false) as -> by (bool_cases; (done || lia)).
  destruct (Z.leb_spec 2 max_len); [|lia].
  rewrite recv_first_word by lia. cbn [mbind res_bind].
  assert ((if 2 <? Z.of_nat len then Z.of_nat len - 2 else 0) = Z.of_nat (len - 2)) as ->
    by (bool_cases; lia).
  replace (Z.to_nat ((Z.of_nat (len - 2) + 3) / 4)) with ((len + 1) / 4)%nat
    by (rewrite <- (Nat2Z.id ((len + 1) / 4)), Nat2Z.inj_div; f_equal; f_equal; lia).
  rewrite recv_words_store.
  replace (Z.min (Z.of_nat (len - 2) + 2) max_len) with (Z.of_nat (Nat.min len max_len)) by lia.
  set (k := ((len + 1) / 4)%nat). change (1 + k)%nat with (S k).
  change 2 with (Z.of_nat 2) at 1. rewrite store_capped_spec by (rewrite ?length_inserts; lia).
  cbn [mbind res_bind]. exists (skip_reads REG ETH_MACDATA k (rd REG ETH_MACDATA m1).2).
  split; [|by rewrite skip_reads_writes].
  rewrite (fifo_tail REG m1 k len_word eq_refl).
  destruct (Nat.min len max_len) as [|[|lim]] eqn:El; [lia | lia |].
  cbn [take list_inserts]. rewrite length_take, fifo_bytes_length.
  rewrite !list_inserts_insert_lt by lia.
  replace (S (S lim) - 2)%nat with lim by lia.
  assert (lim <= 4 * k)%nat by (pose proof (Nat.div_mod_eq (len + 1) 4);
    pose proof (Nat.mod_upper_bound (len + 1) 4); unfold k; lia).
  repeat f_equal. lia.
Qed.

(** [eth_init] reports twice and programs the address. *)
Lemma eth_init_prints `{Console W} a b c d e f m (w : W) :
  exists m' w', eth_init [a; b; c; d; e; f] m w = Ok (m', w') /\
    output w' = output w ++ line "[ETH] Initializing Ethernet Controller..." ++ line "[ETH] Ethernet Initialized.".
Proof.
  unfold eth_init.
  destruct (uart_println_lit "[ETH] Initializing Ethernet Controller..." eq_refl w) as (w1 & -> & O1). rewrite bind_ok. cbv zeta.
  change (buf_get [a; b; c; d; e; f] 0) with (Ok a). change (buf_get [a; b; c; d; e; f] 1) with (Ok b).
  change (buf_get [a; b; c; d; e; f] 2) with (Ok c). change (buf_get [a; b; c; d; e; f] 3) with (Ok d).
  change (buf_get [a; b; c; d; e; f] 4) with (Ok e). change (buf_get [a; b; c; d; e; f] 5) with (Ok f).
  rewrite !bind_ok.
  destruct (uart_println_lit "[ETH] Ethernet Initialized." eq_refl w1) as (w2 & -> & O2). rewrite bind_ok.
  eexists _, w2. split; [reflexivity|]. by rewrite O2, O1, <- app_assoc.
Qed.

(** ** Properties *)

(** [eth_send] puts exactly the packet on the wire: for [len] bytes inside
    the buffer it returns, and the data register receives the length followed
    by the words whose little-endian bytes are the packet, zero padded to a
    multiple of four; then transmission is started and acknowledged. The wait
    for completion is bounded whatever the status register says. *)
Theorem eth_send_frame REG p (len : nat) m :
  bytes_ok p -> (len <= length p)%nat -> len < 65536 ->
  exists m' ws pad, eth_send REG p len m = Ok m' /\
    writes m' = writes m ++ (ETH_MACDATA, Z.of_nat len) ::
      ((fun w => (ETH_MACDATA, w)) <$> ws) ++ [(ETH_MACTR, 1); (ETH_MACIACK, MAC_INT_TXEMP)] /\
    words_bytes ws = take len p ++ replicate pad 0 /\ (pad < 4)%nat.
Proof. exact (eth_send_frame_lemma REG p len m). Qed.

Lemma eth_send_frame_witness :
  exists m' ws pad, eth_send (fun _ _ => 0) [1; 2; 3; 4; 5] 5%nat (Mmio ∅ []) = Ok m' /\
    writes m' = [] ++ (ETH_MACDATA, Z.of_nat 5) ::
      ((fun w => (ETH_MACDATA, w)) <$> ws) ++ [(ETH_MACTR, 1); (ETH_MACIACK, MAC_INT_TXEMP)] /\
    words_bytes ws = take 5 [1; 2; 3; 4; 5] ++ replicate pad 0 /\ (pad < 4)%nat.
Proof.
  apply (eth_send_frame (fun _ _ => 0) [1; 2; 3; 4; 5] 5 (Mmio ∅ []));
    [repeat constructor; lia | simpl; lia | lia].
Defined.

(** A packet whose length field is 0 or above 1522 is not read: nothing
    is stored, 0 is returned, and the receiver is stopped, its FIFO reset and
    the receiver started again, in that order. *)
Theorem eth_receive_corrupt REG p max_len m :
  let m1 := (rd REG ETH_MACNPV m).2 in
  let len := u32 (REG ETH_MACDATA (reads_of m1 ETH_MACDATA)) mod 65536 in
  u32 (REG ETH_MACNPV (reads_of m ETH_MACNPV)) mod 256 <> 0 -> len = 0 \/ 1522 < len ->
  exists m' v1 v2 v3, eth_receive REG p max_len m = Ok (0, p, m') /\
    writes m' = writes m ++ [(ETH_MACRCTL, v1); (ETH_MACRCTL, v2); (ETH_MACRCTL, v3)] /\
    Z.testbit v1 0 = false /\ Z.testbit v2 4 = true /\ Z.testbit v3 0 = true.
Proof.
  intros m1 len Hnpv Hlen. unfold eth_receive.
  rewrite (surjective_pairing (rd REG ETH_MACNPV m)). fold m1.
  rewrite (surjective_pairing (rd REG ETH_MACDATA m1)).
  change (rd REG ETH_MACDATA m1).1 with (u32 (REG ETH_MACDATA (reads_of m1 ETH_MACDATA))).
  change (rd REG ETH_MACNPV m).1 with (u32 (REG ETH_MACNPV (reads_of m ETH_MACNPV))).
  rewrite land_255, land_65535. fold len.
  destruct (Z.eqb_spec (u32 (REG ETH_MACNPV (reads_of m ETH_MACNPV)) mod 256) 0); [done|].
  assert ((len =? 0) || (1522 <? len) = true) as -> by (bool_cases; (done || lia)).
  cbn -[u32 Z.land Z.lor]. eexists _, _, _, _. split; [done|]. split; [unfold wr; cbn [writes]; rewrite <- !app_assoc; reflexivity|].
  unfold u32. change 4294967296 with (2 ^ 32).
  rewrite !Z.mod_pow2_bits_low by lia. rewrite Z.land_spec, !Z.lor_spec.
  rewrite andb_false_r, !orb_true_r. done.
Qed.

(** A length field of 1 counts as 2: the two bytes of the first word are
    stored. *)
Lemma eth_receive_one REG p (max_len : nat) m :
  (2 <= max_len)%nat -> (max_len <= length p)%nat ->
  let m1 := (rd REG ETH_MACNPV m).2 in
  let len_word := u32 (REG ETH_MACDATA (reads_of m1 ETH_MACDATA)) in
  u32 (REG ETH_MACNPV (reads_of m ETH_MACNPV)) mod 256 <> 0 -> len_word mod 65536 = 1 ->
  exists m', eth_receive REG p max_len m =
    Ok (2, list_inserts 0 (take 2 (drop 2 (words_bytes (fifo REG m1 1)))) p, m') /\ writes m' = writes m.
Proof.
  intros Hm Hp m1 len_word Hnpv Hlen. unfold eth_receive.
  rewrite (surjective_pairing (rd REG ETH_MACNPV m)). fold m1.
  rewrite (surjective_pairing (rd REG ETH_MACDATA m1)).
  change (rd REG ETH_MACDATA m1).1 with len_word.
  change (rd REG ETH_MACNPV m).1 with (u32 (REG ETH_MACNPV (reads_of m ETH_MACNPV))).
  rewrite land_255, land_65535, Hlen.
  destruct (Z.eqb_spec (u32 (REG ETH_MACNPV (reads_of m ETH_MACNPV)) mod 256) 0); [done|].
  destruct (Z.leb_spec 2 max_len); [|lia].
  rewrite recv_first_word by lia. exists (rd REG ETH_MACDATA m1).2. split; [|reflexivity].
  rewrite (fifo_tail REG m1 0 len_word eq_refl). cbn [take].
  change ((1 =? 0) || (1522 <? 1)) with false. cbn [mbind res_bind]. reflexivity.
Qed.

(** C36: [eth_receive] is memory safe for every content of the FIFO: with a
    buffer of at least [max_len >= 2] bytes it returns [n] and changes the
    first [n] bytes of the buffer only, to the bytes that follow the length
    field in the FIFO words. [n] is 0 when no packet is pending or its length
    field [len] is 0 or above 1522, and otherwise [len] (2 if it is 1) cut at
    [max_len]. It writes to no register, save in the case of the wrong length,
    where it stops the receiver, resets its FIFO and starts it again, in that
    order. The comment in the code counts the length field in: by it [len - 2]
    bytes would follow. *)
Theorem eth_receive_packet REG p (max_len : nat) m :
  (2 <= max_len)%nat -> (max_len <= length p)%nat ->
  let m1 := (rd REG ETH_MACNPV m).2 in
  let pending := u32 (REG ETH_MACNPV (reads_of m ETH_MACNPV)) mod 256 <> 0 in
  let len := Z.to_nat (u32 (REG ETH_MACDATA (reads_of m1 ETH_MACDATA)) mod 65536) in
  let corrupt := (len = 0 \/ 1522 < len)%nat in
  let n := if decide (~ pending \/ corrupt) then 0%nat else Nat.min (Nat.max 2 len) max_len in
  exists m', eth_receive REG p max_len m =
    Ok (Z.of_nat n, list_inserts 0 (take n (drop 2 (words_bytes (fifo REG m1 (1 + (len + 1) / 4))))) p, m') /\
    if decide (pending /\ corrupt)
    then exists v1 v2 v3, writes m' = writes m ++ [(ETH_MACRCTL, v1); (ETH_MACRCTL, v2); (ETH_MACRCTL, v3)] /\
      Z.testbit v1 0 = false /\ Z.testbit v2 4 = true /\ Z.testbit v3 0 = true
    else writes m' = writes m.
Proof.
  intros Hm Hp m1 pending len corrupt n.
  assert (Hd : ~ pending \/ pending /\ corrupt \/ pending /\ ~ corrupt)
    by (destruct (decide pending), (decide corrupt); tauto).
  destruct Hd as [Hn|[[Hpd Hc]|[Hpd Hc]]].
  - assert (n = 0%nat) as -> by (unfold n; rewrite decide_True by tauto; done).
    exists m1. rewrite decide_False by tauto. split; [|done]. unfold eth_receive.
    rewrite (surjective_pairing (rd REG ETH_MACNPV m)). fold m1. rewrite land_255.
    change (rd REG ETH_MACNPV m).1 with (u32 (REG ETH_MACNPV (reads_of m ETH_MACNPV))).
    destruct (Z.eqb_spec (u32 (REG ETH_MACNPV (reads_of m ETH_MACNPV)) mod 256) 0); [done|by destruct Hn].
  - assert (n = 0%nat) as -> by (unfold n; rewrite decide_True by tauto; done).
    destruct (eth_receive_corrupt REG p max_len m Hpd) as (m' & v1 & v2 & v3 & E & Hw); [fold m1; unfold corrupt, len in Hc; lia|].
    exists m'. rewrite decide_True by tauto. split; [exact E|]. by exists v1, v2, v3.
  - assert (n = Nat.min (Nat.max 2 len) max_len) as -> by (unfold n; rewrite decide_False by tauto; done).
    assert (Hlen : (len = 1 \/ 2 <= len <= 1522)%nat) by (unfold corrupt in Hc; lia).
    destruct Hlen as [E1|Hlen].
    + destruct (eth_receive_one REG p max_len m Hm Hp Hpd) as (m' & E & Hw); [fold m1; unfold len in E1; lia|].
      exists m'. rewrite decide_False by tauto. split; [|exact Hw]. rewrite E1.
      replace (Nat.min (Nat.max 2 1) max_len) with 2%nat by lia. exact E.
    + destruct (eth_receive_pending REG p max_len m Hm Hp Hpd Hlen) as (m' & E & Hw).
      exists m'. rewrite decide_False by tauto. rewrite (Nat.max_r 2 len) by lia. by split.
Qed.

Lemma eth_receive_packet_witness :
  exists m', eth_receive rx_demo (replicate 8 0) 6%nat (Mmio ∅ []) =
    Ok (5, [0xAA; 0xBB; 1; 2; 3; 0; 0; 0], m') /\ writes m' = [].
Proof.
  destruct (eth_receive_packet rx_demo (replicate 8 0) 6 (Mmio ∅ [])) as (m' & E & Hw);
    [lia | simpl; lia |].
  exists m'. split; [|vm_compute in Hw; exact Hw]. etransitivity; [exact E|]. vm_compute. reflexivity.
Defined.
