(* ===== verification/Net.v ===== *)
(** * The kernel's own packet handler: src/src/net.c

    Answers ARP requests and ICMP echo requests for 192.168.1.2. A packet is
    its buffer; a header field is the little-endian object at its offset in the
    packed structs of include/net.h. *)

From S2P Require Import Prelude Strings Uart Onescomp Eth.

(** ** Definitions *)

Definition zanos_mac : list Z := [0xDE; 0xAD; 0xBE; 0xEF; 0x01; 0x02].
Definition zanos_ip : Z := 0x0201A8C0.

Definition ETHTYPE_ARP : Z := 0x0608.
Definition ETHTYPE_IP : Z := 0x0008.
Definition ARP_OP_REQUEST : Z := 0x0100.
Definition ARP_OP_REPLY : Z := 0x0200.
Definition IP_PROTO_ICMP : Z := 1.
Definition ICMP_TYPE_ECHO_REQUEST : Z := 8.
Definition ICMP_TYPE_ECHO_REPLY : Z := 0.

(** sizeof and offsetof of the packed structs. *)
Definition sizeof_eth_hdr : Z := 14.
Definition sizeof_arp_hdr : Z := 28.
Definition sizeof_ip_hdr : Z := 20.
Definition eth_dest : Z := 0.
Definition eth_src : Z := 6.
Definition eth_type : Z := 12.
Definition arp_hw_type : Z := 0.
Definition arp_proto_type : Z := 2.
Definition arp_hw_len : Z := 4.
Definition arp_proto_len : Z := 5.
Definition arp_opcode : Z := 6.
Definition arp_sender_mac : Z := 8.
Definition arp_sender_ip : Z := 14.
Definition arp_target_mac : Z := 18.
Definition arp_target_ip : Z := 24.
Definition ip_len : Z := 2.
Definition ip_proto : Z := 9.
Definition ip_chksum : Z := 10.
Definition ip_src_ip : Z := 12.
Definition ip_dest_ip : Z := 16.
Definition icmp_type : Z := 0.
Definition icmp_chksum : Z := 2.

Definition ntons (n : Z) : Z :=
  u16 (Z.lor (Z.shiftl (Z.land n 0xFF) 8) (Z.shiftr (Z.land n 0xFF00) 8)).

(** [for (i = 0; i < length / 2; i++) sum += data[i];] The fuel bounds the words
    inside the buffer. *)
Fixpoint sum_words (fuel : nat) (b : list Z) (data length2 i sum : Z) : res Z :=
  if i <? length2 then
    match fuel with
    | O => Err OutOfFuel
    | S fuel' =>
        w ← get16 b (data + 2 * i);
        sum_words fuel' b data length2 (i + 1) (u32 (sum + w))
    end
  else Ok sum.

(** [while (sum >> 16) sum = (sum & 0xFFFF) + (sum >> 16);] *)
Fixpoint fold_carries (fuel : nat) (sum : Z) : res Z :=
  if negb (Z.shiftr sum 16 =? 0) then
    match fuel with
    | O => Err OutOfFuel
    | S fuel' => fold_carries fuel' (u32 (Z.land sum 0xFFFF + Z.shiftr sum 16))
    end
  else Ok sum.

(** [vdata] points at offset [data] of the buffer. *)
Definition checksum (b : list Z) (data len : Z) : res Z :=
  sum ← sum_words (S (length b)) b data (len / 2) 0 0;
  sum ← (if negb (Z.land len 1 =? 0)
         then c ← buf_get b (data + (len - 1)); Ok (u32 (sum + c)) else Ok sum);
  sum ← fold_carries 3 sum;
  Ok (u16 (Z.lnot sum)).

(** [memcpy(b + d, s + o, n)] between different buffers. *)
Definition copy_field (b : list Z) (d : Z) (s : list Z) (o n : Z) : res (list Z) :=
  memcpy b d (drop (Z.to_nat o) s) n.

Section Handler.
Variable REG : Z -> nat -> Z.
Context `{Console W}.

(** The ARP reply; every byte of the uninitialised locals is assigned. *)
Definition arp_reply_packet (packet : list Z) (eth arp : Z) : res (list Z) :=
  let eth_reply := replicate 14 0 in
  let arp_reply := replicate 28 0 in
  eth_reply ← copy_field eth_reply eth_dest packet (eth + eth_src) 6;
  eth_reply ← copy_field eth_reply eth_src zanos_mac 0 6;
  eth_reply ← set16 eth_reply eth_type ETHTYPE_ARP;
  hw ← get16 packet (arp + arp_hw_type);
  arp_reply ← set16 arp_reply arp_hw_type hw;
  proto ← get16 packet (arp + arp_proto_type);
  arp_reply ← set16 arp_reply arp_proto_type proto;
  arp_reply ← buf_set arp_reply arp_hw_len 6;
  arp_reply ← buf_set arp_reply arp_proto_len 4;
  arp_reply ← set16 arp_reply arp_opcode ARP_OP_REPLY;
  arp_reply ← copy_field arp_reply arp_sender_mac zanos_mac 0 6;
  arp_reply ← set32 arp_reply arp_sender_ip zanos_ip;
  arp_reply ← copy_field arp_reply arp_target_mac packet (eth + eth_src) 6;
  sender ← get32 packet (arp + arp_sender_ip);
  arp_reply ← set32 arp_reply arp_target_ip sender;
  let reply_packet := replicate 42 0 in
  reply_packet ← copy_field reply_packet 0 eth_reply 0 sizeof_eth_hdr;
  copy_field reply_packet sizeof_eth_hdr arp_reply 0 sizeof_arp_hdr.

(** The request turned into the reply in place. *)
Definition icmp_reply_packet (packet : list Z) (eth ip icmp : Z) : res (list Z) :=
  src ← get32 packet (ip + ip_src_ip);
  packet ← set32 packet (ip + ip_dest_ip) src;
  packet ← set32 packet (ip + ip_src_ip) zanos_ip;
  packet ← set16 packet (ip + ip_chksum) 0;
  c ← checksum packet ip sizeof_ip_hdr;
  packet ← set16 packet (ip + ip_chksum) c;
  packet ← buf_set packet (icmp + icmp_type) ICMP_TYPE_ECHO_REPLY;
  packet ← set16 packet (icmp + icmp_chksum) 0;
  l ← get16 packet (ip + ip_len);
  let icmp_len := u32 (ntons l - sizeof_ip_hdr) in
  c ← checksum packet icmp icmp_len;
  packet ← set16 packet (icmp + icmp_chksum) c;
  packet ← copy_field packet (eth + eth_dest) packet (eth + eth_src) 6;
  copy_field packet (eth + eth_src) zanos_mac 0 6.

Definition net_handle_packet (packet : list Z) (len : Z) (m : mmio) (w : W)
    : res (list Z * mmio * W) :=
  if len <? sizeof_eth_hdr then Ok (packet, m, w) else
  let eth := 0 in
  type ← get16 packet (eth + eth_type);
  if type =? ETHTYPE_ARP then
    let arp := eth + sizeof_eth_hdr in
    opcode ← get16 packet (arp + arp_opcode);
    if negb (opcode =? ARP_OP_REQUEST) then Ok (packet, m, w) else
    target ← get32 packet (arp + arp_target_ip);
    if target =? zanos_ip then
      w ← uart_println (lit "[NET] Received ARP Request. Sending Reply...") w;
      reply ← arp_reply_packet packet eth arp;
      m ← eth_send REG reply 42 m;
      Ok (packet, m, w)
    else Ok (packet, m, w)
  else if type =? ETHTYPE_IP then
    let ip := eth + sizeof_eth_hdr in
    dest ← get32 packet (ip + ip_dest_ip);
    if negb (dest =? zanos_ip) then Ok (packet, m, w) else
    proto ← buf_get packet (ip + ip_proto);
    if proto =? IP_PROTO_ICMP then
      let icmp := eth + sizeof_eth_hdr + sizeof_ip_hdr in
      type ← buf_get packet (icmp + icmp_type);
      if type =? ICMP_TYPE_ECHO_REQUEST then
        w ← uart_println (lit "[NET] Received Ping (ICMP Echo). Sending Reply...") w;
        packet ← icmp_reply_packet packet eth ip icmp;
        m ← eth_send REG packet len m;
        Ok (packet, m, w)
      else Ok (packet, m, w)
    else Ok (packet, m, w)
  else Ok (packet, m, w).

End Handler.

(** A range of a buffer. *)
Definition range (b : list Z) (o n : nat) : list Z := take n (drop o b).

(** A checksummed range verifies: the words add up to all ones. *)
Definition verifies (bs : list Z) : Prop := oc (wsum bs) = 65535.

(** An ARP request and an echo request for 192.168.1.2. *)
Definition arp_request_demo : list Z :=
  replicate 6 255 ++ [2; 0; 0; 0; 0; 7; 8; 6; 0; 1; 8; 0; 6; 4; 0; 1; 2; 0; 0; 0; 0; 7;
   192; 168; 1; 9; 0; 0; 0; 0; 0; 0; 192; 168; 1; 2].
Definition echo_request_demo (len_lo : Z) : list Z :=
  [0xDE; 0xAD; 0xBE; 0xEF; 1; 2; 2; 0; 0; 0; 0; 7; 8; 0;
   0x45; 0; 0; len_lo; 0; 1; 0; 0; 64; 1; 0; 0; 192; 168; 1; 9; 192; 168; 1; 2;
   8; 0; 0; 0; 0; 1; 0; 1; 0x61; 0x62].

(** ** Lemmas *)

Lemma ntons_swap n : is_u16 n -> ntons n = swap16 n.
Proof.
  unfold is_u16, ntons, swap16. intros Hn. change 0xFF00 with (255 * 2 ^ 8).
  rewrite land_255, shiftl_8, land_field, shiftr_8, Z.lor_comm by lia.
  change (2 ^ 8) with 256. rewrite Z.div_mul, lor_8 by lia. solve_u.
Qed.

Lemma sum_words_spec l : forall fuel b pre post (off i : nat) n sum,
  b = pre ++ l ++ post -> length pre = (off + 2 * i)%nat -> length l = (2 * n)%nat ->
  (n <= fuel)%nat -> bytes_ok l -> 0 <= sum -> sum + wsum l < 4294967296 ->
  sum_words fuel b off (i + n)%nat i sum = Ok (sum + wsum l).
Proof.
  induction l as [|x|x y l IH] using pair_ind; intros fuel b pre post off i n sum -> Hp Hn Hf Hb Hs Hw.
  - destruct n; [|simpl in Hn; lia]. destruct fuel; cbn [sum_words]; bool_cases; try lia;
      simpl; f_equal; lia.
  - simpl in Hn. lia.
  - destruct n as [|n]; [simpl in Hn; lia|]. destruct fuel as [|fuel]; [lia|].
    cbn [sum_words]. destruct (Z.ltb_spec i (i + S n)%nat); [|lia].
    unfold bytes_ok, is_u8 in Hb. do 2 apply Forall_cons in Hb as [? Hb].
    pose proof (wsum_nonneg l Hb). cbn [wsum] in Hw |- *.
    replace (off + 2 * i) with (length pre + 0) by lia.
    unfold get16. rewrite !buf_get_app by lia.
    replace (length pre + 0 + 1) with (length pre + 1) by lia. rewrite buf_get_app by lia.
    cbn [app]. change (buf_get (x :: y :: l ++ post) 0) with (Ok x).
    change (buf_get (x :: y :: l ++ post) 1) with (Ok y). cbn [mbind res_bind].
    replace (Z.of_nat i + 1) with (Z.of_nat (S i)) by lia.
    replace (i + S n)%nat with (S i + n)%nat by lia.
    rewrite (IH fuel _ (pre ++ [x; y]) post); [rewrite u32_id by solve_u; f_equal; lia|..].
    + by rewrite <- app_assoc.
    + rewrite length_app. simpl. lia.
    + simpl in Hn. lia.
    + lia.
    + done.
    + solve_u.
    + rewrite u32_id by solve_u. lia.
Qed.

Lemma fold_carries_spec sum : 0 <= sum < 4294967296 -> fold_carries 3 sum = Ok (oc sum).
Proof.
  intros Hs.
  assert (Hstep : forall k v, 0 <= v < 4294967296 ->
    fold_carries (S k) v = if v <=? 65535 then Ok v else fold_carries k (fold16 v)).
  { intros k v Hv. cbn [fold_carries]. rewrite shiftr_16, land_65535.
    destruct (Z.eqb_spec (v / 65536) 0), (Z.leb_spec v 65535); cbn [negb]; try lia; [done|].
    rewrite u32_id by solve_u. unfold fold16. f_equal. lia. }
  assert (Hdone : forall k v, 0 <= v <= 65535 -> fold_carries k v = Ok (oc v)).
  { intros k v Hv. rewrite oc_id by lia.
    destruct k; cbn [fold_carries]; rewrite shiftr_16; bool_cases; (done || lia). }
  pose proof (fold16_bound sum Hs) as H1. pose proof (fold16_small _ H1) as H2.
  rewrite Hstep by lia. destruct (Z.leb_spec sum 65535); [by rewrite oc_id by lia|].
  rewrite Hstep by lia. destruct (Z.leb_spec (fold16 sum) 65535).
  - by rewrite <- (oc_id (fold16 sum)), oc_fold by lia.
  - rewrite Hdone by lia. by rewrite !oc_fold by lia.
Qed.

Lemma not_u16 v : 0 <= v <= 65535 -> u16 (Z.lnot v) = 65535 - v.
Proof. intros Hv. unfold Z.lnot. solve_u. Qed.

Lemma land_1 n : Z.land n 1 = n mod 2.
Proof. change 1 with (Z.ones 1). by rewrite Z.land_ones. Qed.

Lemma range_split b off n k : range b off (n + k) = range b off n ++ range b (off + n) k.
Proof.
  unfold range. rewrite <- drop_drop.
  rewrite <- (take_drop n (take (n + k) (drop off b))). rewrite take_take, skipn_firstn_comm.
  by repeat f_equal; lia.
Qed.

Lemma range_length b off n : (off + n <= length b)%nat -> length (range b off n) = n.
Proof. intros H. unfold range. rewrite length_take, length_drop. lia. Qed.

Lemma range_bytes b off n : bytes_ok b -> bytes_ok (range b off n).
Proof. intros H. by apply Forall_take, Forall_drop. Qed.

Lemma range_1 b off : (off < length b)%nat -> exists c, b !! off = Some c /\ range b off 1 = [c].
Proof.
  intros H. destruct (lookup_lt_is_Some_2 b off H) as [c Hc]. exists c. split; [done|].
  unfold range. by rewrite (drop_S b c off Hc).
Qed.

Lemma sum_words_range b (off n : nat) :
  bytes_ok b -> (off + 2 * n <= length b)%nat -> n <= 65535 ->
  sum_words (S (length b)) b off n 0 0 = Ok (wsum (range b off (2 * n))).
Proof.
  intros Hb Hr Hn. pose proof (range_bytes b off (2 * n) Hb) as Hl.
  pose proof (range_length b off (2 * n) Hr) as Hlen.
  pose proof (wsum_bound _ Hl). rewrite Hlen in *.
  pose proof (sum_words_spec (range b off (2 * n)) (S (length b)) b (take off b)
    (drop (2 * n) (drop off b)) off 0 n 0) as E.
  change (Z.of_nat 0) with 0 in E. change (0 + n)%nat with n in E. rewrite Z.add_0_l in E.
  apply E; [unfold range; by rewrite !take_drop | rewrite length_take | ..]; (done || lia).
Qed.

(** The checksum is the complement of the ones' complement sum of its range. *)
Lemma checksum_spec b (off len : nat) :
  bytes_ok b -> (off + len <= length b)%nat -> len <= 65535 ->
  checksum b off len = Ok (65535 - oc (wsum (range b off len))).
Proof.
  intros Hb Hr Hl. unfold checksum.
  assert (Hcases : exists n, len = (2 * n)%nat \/ len = (2 * n + 1)%nat).
  { exists (len / 2)%nat. pose proof (Nat.div_mod_eq len 2).
    pose proof (Nat.mod_upper_bound len 2). lia. }
  assert (Hw : 0 <= wsum (range b off len) < 4294967296).
  { pose proof (range_bytes b off len Hb) as Hbr. pose proof (wsum_nonneg _ Hbr).
    pose proof (wsum_bound _ Hbr). rewrite (range_length b off len Hr) in *. lia. }
  pose proof (oc_range (wsum (range b off len))).
  destruct Hcases as (n & Hn).
  replace (Z.of_nat len / 2) with (Z.of_nat n) by lia.
  rewrite sum_words_range by (done || lia). cbn [mbind res_bind]. rewrite land_1.
  destruct Hn as [->| ->].
  - destruct (Z.eqb_spec ((2 * n)%nat mod 2) 0); [|lia]. cbn [negb mbind res_bind].
    rewrite fold_carries_spec by done. cbn [mbind res_bind]. by rewrite not_u16.
  - destruct (Z.eqb_spec ((2 * n + 1)%nat mod 2) 0); [lia|]. cbn [negb].
    destruct (range_1 b (off + 2 * n)) as (c & Hc & Ec); [lia|].
    rewrite (buf_get_ok _ _ c); [|lia|].
    2: { rewrite <- Hc. f_equal. lia. }
    cbn [mbind res_bind].
    assert (Es : wsum (range b off (2 * n)) + c = wsum (range b off (2 * n + 1))).
    { rewrite range_split, Ec, wsum_app_even; [done|].
      rewrite range_length by lia. apply Nat.even_spec. by exists n. }
    rewrite Es, u32_id by solve_u. rewrite fold_carries_spec by done. cbn [mbind res_bind].
    by rewrite not_u16.
Qed.

(** Stores at constant offsets of a packet whose first bytes are known. *)
Lemma buf_set_nat b i v :
  0 <= i -> (Z.to_nat i <? length b)%nat = true -> buf_set b i v = Ok (<[Z.to_nat i := v]> b).
Proof. intros Hi Hl. apply Nat.ltb_lt in Hl. apply buf_set_ok. lia. Qed.

Lemma set16_nat b i v :
  0 <= i -> (Z.to_nat (i + 1) <? length b)%nat = true ->
  set16 b i v = Ok (<[Z.to_nat (i + 1) := u8 (v / 256)]> (<[Z.to_nat i := u8 v]> b)).
Proof.
  intros Hi Hl. apply Nat.ltb_lt in Hl. unfold set16.
  rewrite buf_set_ok by lia. cbn [mbind res_bind]. apply buf_set_ok. rewrite length_insert. lia.
Qed.

Lemma copy_field_nat b d s o n :
  0 <= d -> 0 <= n -> (Z.to_nat n <=? length (drop (Z.to_nat o) s))%nat = true ->
  (Z.to_nat d + Z.to_nat n <=? length b)%nat = true ->
  copy_field b d s o n = Ok (list_inserts (Z.to_nat d) (take (Z.to_nat n) (drop (Z.to_nat o) s)) b).
Proof.
  intros Hd Hn H1 H2. apply Nat.leb_le in H1, H2. unfold copy_field.
  pose proof (memcpy_in_bounds b (Z.to_nat d) (drop (Z.to_nat o) s) (Z.to_nat n) H1 H2) as E.
  rewrite !Z2Nat.id in E by lia. exact E.
Qed.

Lemma le16_bytes a b :
  is_u8 a -> is_u8 b -> u8 (a + 256 * b) = a /\ u8 ((a + 256 * b) / 256) = b.
Proof. solve_u. Qed.

Lemma le32_bytes a b c d :
  is_u8 a -> is_u8 b -> is_u8 c -> is_u8 d -> let v := a + 256 * b + 65536 * (c + 256 * d) in
  u8 v = a /\ u8 (v / 256) = b /\ u8 (v / 65536) = c /\ u8 (v / 65536 / 256) = d.
Proof. solve_u. Qed.

(** Symbolic execution of constant-offset accesses. *)
Ltac nat_literal n := lazymatch n with O => idtac | S ?k => nat_literal k end.

Ltac ground_nat :=
  repeat match goal with
  | |- context [Z.to_nat ?z] =>
      let n := eval vm_compute in (Z.to_nat z) in
      nat_literal n; change (Z.to_nat z) with n
  end.

Ltac pkt_get f b i :=
  let H := fresh "G" in
  eassert (H : f b i = Ok _) by reflexivity; rewrite H; clear H.

Ltac pkt_store := cbn [zanos_mac insert list_insert list_inserts take drop replicate].

Ltac pkt_step :=
  match goal with
  | |- context [mbind _ (get16 ?b ?i)] => pkt_get get16 b i
  | |- context [mbind _ (get32 ?b ?i)] => pkt_get get32 b i
  | |- context [mbind _ (buf_get ?b ?i)] => pkt_get buf_get b i
  | |- context [buf_set ?b ?i ?v] =>
      rewrite (buf_set_nat b i v) by first [reflexivity | vm_compute; discriminate]
  | |- context [set16 ?b ?i ?v] =>
      rewrite (set16_nat b i v) by first [reflexivity | vm_compute; discriminate]
  | |- context [set32 ?b ?i ?v] => unfold set32
  | |- context [copy_field ?b ?d ?s ?o ?n] =>
      rewrite (copy_field_nat b d s o n) by first [reflexivity | vm_compute; discriminate]
  end; ground_nat; pkt_store; rewrite ?bind_ok; cbv beta.

Ltac pkt_bytes :=
  repeat match goal with
  | |- context [u8 (?a + 256 * ?b + 65536 * (?c + 256 * ?d))] =>
      destruct (le32_bytes a b c d) as (-> & -> & -> & ->); [done..|]
  | |- context [u8 (?a + 256 * ?b)] => destruct (le16_bytes a b) as [-> ->]; [done..|]
  end.

Lemma arp_reply_packet_spec packet :
  bytes_ok packet -> (42 <= length packet)%nat ->
  arp_reply_packet packet 0 14 =
  Ok (range packet 6 6 ++ zanos_mac ++ [8; 6] ++ range packet 14 4 ++ [6; 4; 0; 2] ++
      zanos_mac ++ [192; 168; 1; 2] ++ range packet 6 6 ++ range packet 28 4).
Proof.
  intros Hb Hl.
  do 42 (destruct packet as [|? packet]; [exfalso; simpl in Hl; lia|]).
  unfold bytes_ok in Hb. repeat apply Forall_cons in Hb as [? Hb]. clear Hl.
  unfold arp_reply_packet. cbn [replicate].
  repeat pkt_step. unfold range. cbn [take drop app]. f_equal.
  pkt_bytes. reflexivity.
Qed.

(** Storing the checksum in a zeroed field makes the range verify. *)
Lemma checksum_verifies b (off len : nat) :
  bytes_ok b -> (off + len <= length b)%nat -> len <= 65535 ->
  exists c, checksum b off len = Ok c /\ is_u16 c /\ oc (wsum (range b off len) + c) = 65535.
Proof.
  intros Hb Hr Hl. eexists. split; [by apply checksum_spec|].
  pose proof (oc_range (wsum (range b off len))). split; [solve_u|].
  apply oc_complement, wsum_nonneg. by apply range_bytes.
Qed.

Ltac pkt_checksum off len c Hc Ec :=
  match goal with
  | |- context [checksum ?b _ _] =>
      destruct (checksum_verifies b off len) as (c & E & Hc & Ec);
      [ unfold bytes_ok; repeat (apply Forall_cons_2; [first [done | apply u8_range]|]); done
      | cbn [length]; lia | lia
      | match type of E with ?lhs = _ => match goal with
          | |- context [mbind _ (checksum b ?o ?n)] => change (checksum b o n) with lhs end end;
        rewrite E; clear E; rewrite bind_ok; cbv beta ]
  end.

Lemma get16_range b i v : bytes_ok b -> get16 b i = Ok v -> is_u16 v.
Proof.
  intros Hb. unfold get16. destruct (buf_get b i) as [x|] eqn:E1; [|done]. cbn [mbind res_bind].
  destruct (buf_get b (i + 1)) as [y|] eqn:E2; [|done]. cbn [mbind res_bind].
  apply buf_get_lookup in E1 as [_ E1], E2 as [_ E2]. intros [= <-].
  pose proof (Forall_lookup_1 _ _ _ _ Hb E1). pose proof (Forall_lookup_1 _ _ _ _ Hb E2). solve_u.
Qed.

(** What the in-place construction of the echo reply leaves in the buffer. *)
Lemma icmp_reply_packet_spec packet l :
  bytes_ok packet -> get16 packet 16 = Ok l -> 24 <= swap16 l ->
  14 + swap16 l <= length packet ->
  exists reply c k, icmp_reply_packet packet 0 14 34 = Ok reply /\ is_u16 c /\ is_u16 k /\
    reply = range packet 6 6 ++ zanos_mac ++ range packet 12 12 ++ [u8 c; u8 (c / 256)] ++
      [192; 168; 1; 2] ++ range packet 26 4 ++ 0 :: range packet 35 1 ++
      [u8 k; u8 (k / 256)] ++ drop 38 packet /\
    verifies (range reply 14 20) /\ verifies (range reply 34 (Z.to_nat (swap16 l) - 20)).
Proof.
  intros Hb Hil H24 Hl. pose proof (get16_range _ _ _ Hb Hil) as Hlr.
  assert (Hsw : 0 <= swap16 l <= 65535) by (apply swap16_range; solve_u).
  assert (Hu : u32 (swap16 l - sizeof_ip_hdr) = Z.of_nat (Z.to_nat (swap16 l) - 20))
    by (unfold sizeof_ip_hdr; solve_u).
  assert (Hl38 : (38 <= length packet)%nat) by lia.
  do 38 (destruct packet as [|? packet]; [exfalso; simpl in Hl38; lia|]).
  unfold bytes_ok in Hb. repeat apply Forall_cons in Hb as [? Hb].
  unfold icmp_reply_packet.
  assert (Hlb : length packet + 24 >= swap16 l) by (cbn [length] in Hl; lia).
  match type of Hil with ?g = _ => eassert (Hi : g = Ok _) by reflexivity end.
  rewrite Hi in Hil. injection Hil as Hil. clear Hi Hl Hl38. repeat pkt_step. pkt_bytes.
  pkt_checksum 14%nat 20%nat c Hc Ec. repeat pkt_step.
  rewrite Hil, ntons_swap by exact Hlr.
  rewrite Hu.
  remember (Z.to_nat (swap16 l) - 20)%nat as n eqn:En.
  pkt_checksum 34%nat n k Hk Ek. repeat pkt_step.
  eexists _, c, k. do 4 (split; [first [done | reflexivity]|]).
  split.
  - unfold verifies, range in *. cbn [take drop] in *. cbn [wsum] in *. rewrite <- Ec. f_equal.
    clear -Hc. solve_u.
  - destruct n as [|[|[|[|n]]]]; [lia..|].
    unfold verifies, range in *. cbn [take drop] in *. cbn [wsum] in *. rewrite <- Ek. f_equal.
    clear -Hk. solve_u.
Qed.

(** A word range that leaves the buffer is an access out of bounds. *)
Lemma sum_words_oob fuel b (off : nat) n (i : nat) sum :
  length b < off + 2 * n -> (off + 2 * i <= length b)%nat -> (length b < fuel + i)%nat ->
  sum_words fuel b off n i sum = Err OutOfBounds.
Proof.
  revert i sum. induction fuel as [|fuel IH]; intros i sum Hn Hi Hf; [lia|].
  cbn [sum_words]. destruct (Z.ltb_spec i n); [|lia]. unfold get16.
  destruct (decide (off + 2 * i + 1 < length b)%nat) as [Hin|Hout].
  - destruct (lookup_lt_is_Some_2 b (off + 2 * i)) as [x Hx]; [lia|].
    destruct (lookup_lt_is_Some_2 b (off + 2 * i + 1)) as [y Hy]; [lia|].
    rewrite (buf_get_ok b (off + 2 * i) x), bind_ok, (buf_get_ok b (off + 2 * i + 1) y), !bind_ok
      by (lia || (rewrite <- Hx || rewrite <- Hy; f_equal; lia)).
    replace (Z.of_nat i + 1) with (Z.of_nat (S i)) by lia. apply IH; lia.
  - destruct (buf_get b (off + 2 * i)) as [x|[]] eqn:E; rewrite ?bind_ok.
    + by rewrite buf_get_oob by lia.
    + by apply buf_get_err in E.
    + done.
    + by apply buf_get_err in E.
    + by apply buf_get_err in E.
Qed.

Lemma icmp_reply_packet_short packet l :
  bytes_ok packet -> (38 <= length packet)%nat -> length packet < 2147483648 ->
  get16 packet 16 = Ok l -> swap16 l < 20 ->
  icmp_reply_packet packet 0 14 34 = Err OutOfBounds.
Proof.
  intros Hb Hl38 Hbig Hil H20. pose proof (get16_range _ _ _ Hb Hil) as Hlr.
  assert (Hsw : 0 <= swap16 l <= 65535) by (apply swap16_range; solve_u).
  assert (Hu : u32 (swap16 l - sizeof_ip_hdr) = 4294967276 + swap16 l)
    by (unfold sizeof_ip_hdr; solve_u).
  do 38 (destruct packet as [|? packet]; [exfalso; simpl in Hl38; lia|]).
  unfold bytes_ok in Hb. repeat apply Forall_cons in Hb as [? Hb].
  match type of Hil with ?g = _ => eassert (Hi : g = Ok _) by reflexivity end.
  rewrite Hi in Hil. injection Hil as Hil. clear Hi Hl38.
  unfold icmp_reply_packet. repeat pkt_step.
  pkt_checksum 14%nat 20%nat c Hc Ec. repeat pkt_step.
  rewrite Hil, ntons_swap, Hu by exact Hlr. unfold checksum at 1.
  match goal with |- context [sum_words ?f ?b _ ?n _ _] =>
    pose proof (sum_words_oob f b 34 n 0 0) as Eo end.
  change (Z.of_nat 34) with 34 in Eo. change (Z.of_nat 0) with 0 in Eo.
  rewrite Eo; [done | cbn [length] in *; lia | cbn [length]; lia | cbn [length]; lia].
Qed.

(** The handler on an echo request: message, reply in place, transmission. *)
Lemma net_echo_request `{Console W} packet len REG m (w : W) :
  14 <= len -> get16 packet 12 = Ok ETHTYPE_IP -> get32 packet 30 = Ok zanos_ip ->
  packet !! 23%nat = Some IP_PROTO_ICMP -> packet !! 34%nat = Some ICMP_TYPE_ECHO_REQUEST ->
  exists w', output w' = output w ++ line "[NET] Received Ping (ICMP Echo). Sending Reply..." /\
    net_handle_packet REG packet len m w =
    (packet ← icmp_reply_packet packet 0 14 34; m ← eth_send REG packet len m; Ok (packet, m, w')).
Proof.
  intros Hlen Et Ed Ep Ety.
  destruct (uart_println_lit "[NET] Received Ping (ICMP Echo). Sending Reply..." eq_refl w)
    as (w' & Ew & Ho).
  exists w'. split; [done|].
  unfold net_handle_packet, sizeof_eth_hdr. destruct (Z.ltb_spec len 14); [lia|].
  change (0 + eth_type) with 12. rewrite Et, bind_ok.
  change (ETHTYPE_IP =? ETHTYPE_ARP) with false. change (ETHTYPE_IP =? ETHTYPE_IP) with true.
  cbn match. change (0 + 14 + ip_dest_ip) with 30. rewrite Ed, bind_ok.
  change (zanos_ip =? zanos_ip) with true. cbn [negb].
  rewrite (buf_get_ok _ (0 + 14 + ip_proto) _ ltac:(done) Ep), bind_ok.
  change (IP_PROTO_ICMP =? IP_PROTO_ICMP) with true. cbn match.
  rewrite (buf_get_ok _ (0 + 14 + sizeof_ip_hdr + icmp_type) _ ltac:(done) Ety), bind_ok.
  change (ICMP_TYPE_ECHO_REQUEST =? ICMP_TYPE_ECHO_REQUEST) with true. cbn match.
  rewrite Ew, bind_ok. change (0 + 14 + sizeof_ip_hdr) with 34. done.
Qed.

(** ** Properties *)

(** An ARP request for the kernel's address is answered: with the whole
    ARP header in the buffer, the handler prints its message and transmits the
    42-byte reply with the requester's hardware and protocol addresses as
    target and the kernel's own as sender; the request buffer is unchanged. *)
Theorem net_arp_reply `{Console W} REG packet len m (w : W) :
  bytes_ok packet -> (42 <= length packet)%nat -> 14 <= len ->
  get16 packet 12 = Ok ETHTYPE_ARP -> get16 packet 20 = Ok ARP_OP_REQUEST ->
  get32 packet 38 = Ok zanos_ip ->
  exists m' w', net_handle_packet REG packet len m w = Ok (packet, m', w') /\
    output w' = output w ++ line "[NET] Received ARP Request. Sending Reply..." /\
    eth_send REG (range packet 6 6 ++ zanos_mac ++ [8; 6] ++ range packet 14 4 ++ [6; 4; 0; 2] ++
      zanos_mac ++ [192; 168; 1; 2] ++ range packet 6 6 ++ range packet 28 4) 42 m = Ok m'.
Proof.
  intros Hb Hl Hlen Et Eo Ei. unfold net_handle_packet, sizeof_eth_hdr.
  destruct (Z.ltb_spec len 14); [lia|].
  change (0 + eth_type) with 12. rewrite Et. cbn [mbind res_bind].
  change (ETHTYPE_ARP =? ETHTYPE_ARP) with true. cbn match.
  change (0 + 14 + arp_opcode) with 20. change (0 + 14 + arp_target_ip) with 38.
  rewrite Eo, Ei. cbn [mbind res_bind].
  change (ARP_OP_REQUEST =? ARP_OP_REQUEST) with true.
  change (zanos_ip =? zanos_ip) with true. cbn [negb].
  destruct (uart_println_lit "[NET] Received ARP Request. Sending Reply..." eq_refl w)
    as (w' & -> & Ho).
  cbn [mbind res_bind]. change (0 + 14) with 14.
  rewrite arp_reply_packet_spec by done. cbn [mbind res_bind].
  destruct (eth_send_ok REG (range packet 6 6 ++ zanos_mac ++ [8; 6] ++ range packet 14 4 ++
    [6; 4; 0; 2] ++ zanos_mac ++ [192; 168; 1; 2] ++ range packet 6 6 ++ range packet 28 4) 42 m)
    as (m' & Em).
  { repeat apply Forall_app_2; try (by apply range_bytes); repeat constructor; vm_compute; done. }
  { rewrite !length_app, !range_length by lia. simpl. lia. }
  { lia. }
  change (Z.of_nat 42) with 42 in Em. rewrite Em. cbn [mbind res_bind]. eauto.
Qed.

Lemma net_arp_reply_witness :
  exists m' w', net_handle_packet (fun _ _ => 0) arp_request_demo 42 (Mmio ∅ []) (W := list Z) []
      = Ok (arp_request_demo, m', w') /\
    output w' = output (W := list Z) [] ++ line "[NET] Received ARP Request. Sending Reply..." /\
    eth_send (fun _ _ => 0) (range arp_request_demo 6 6 ++ zanos_mac ++ [8; 6] ++
      range arp_request_demo 14 4 ++ [6; 4; 0; 2] ++ zanos_mac ++ [192; 168; 1; 2] ++
      range arp_request_demo 6 6 ++ range arp_request_demo 28 4) 42 (Mmio ∅ []) = Ok m'.
Proof.
  apply (net_arp_reply (fun _ _ => 0) arp_request_demo 42 (Mmio ∅ []) (W := list Z) []);
    first [repeat constructor; done | vm_compute; lia | lia | reflexivity].
Defined.

(** An echo request for the kernel's address is answered: when the IP
    length field covers the ICMP checksum and lies inside the buffer, the
    handler turns the packet in place into the reply (hardware addresses and IP
    addresses exchanged, type 0, everything but the two checksums kept), both
    checksums of the reply verify, and exactly this packet is transmitted. *)
Theorem net_icmp_reply `{Console W} REG packet (len : nat) l m (w : W) :
  bytes_ok packet -> (len <= length packet)%nat -> 14 <= len < 65536 ->
  get16 packet 12 = Ok ETHTYPE_IP -> get32 packet 30 = Ok zanos_ip ->
  packet !! 23%nat = Some IP_PROTO_ICMP -> packet !! 34%nat = Some ICMP_TYPE_ECHO_REQUEST ->
  get16 packet 16 = Ok l -> 24 <= swap16 l -> 14 + swap16 l <= length packet ->
  exists reply c k m' w', net_handle_packet REG packet len m w = Ok (reply, m', w') /\
    output w' = output w ++ line "[NET] Received Ping (ICMP Echo). Sending Reply..." /\
    eth_send REG reply len m = Ok m' /\
    reply = range packet 6 6 ++ zanos_mac ++ range packet 12 12 ++ [u8 c; u8 (c / 256)] ++
      [192; 168; 1; 2] ++ range packet 26 4 ++ 0 :: range packet 35 1 ++
      [u8 k; u8 (k / 256)] ++ drop 38 packet /\
    verifies (range reply 14 20) /\ verifies (range reply 34 (Z.to_nat (swap16 l) - 20)).
Proof.
  intros Hb Hl Hlen Et Ed Ep Ety El H24 Hil.
  destruct (icmp_reply_packet_spec packet l Hb El H24 Hil)
    as (reply & c & k & Er & Hc & Hk & Hr & Hv1 & Hv2).
  assert (Hrb : bytes_ok reply).
  { rewrite Hr. repeat first [apply Forall_app_2 | apply Forall_cons_2 | apply Forall_nil_2];
      first [by apply range_bytes | by apply Forall_drop | apply u8_range | repeat constructor; done
            | solve_u]. }
  assert (Hrl : length reply = length packet).
  { rewrite Hr, !length_app. cbn [length]. rewrite !length_app, !range_length, length_drop by lia.
    cbn [length zanos_mac]. lia. }
  destruct (net_echo_request packet len REG m w ltac:(lia) Et Ed Ep Ety) as (w' & Ho & E).
  destruct (eth_send_ok REG reply len m) as (m' & Em); [done | lia | lia |].
  exists reply, c, k, m', w'. split; [|done]. by rewrite E, Er, bind_ok, Em, bind_ok.
Qed.

Lemma net_icmp_reply_witness :
  exists reply c k m' w', net_handle_packet (fun _ _ => 0) (echo_request_demo 30) 44%nat (Mmio ∅ [])
      (W := list Z) [] = Ok (reply, m', w') /\
    output w' = output (W := list Z) [] ++
      line "[NET] Received Ping (ICMP Echo). Sending Reply..." /\
    eth_send (fun _ _ => 0) reply 44%nat (Mmio ∅ []) = Ok m' /\
    reply = range (echo_request_demo 30) 6 6 ++ zanos_mac ++ range (echo_request_demo 30) 12 12 ++
      [u8 c; u8 (c / 256)] ++ [192; 168; 1; 2] ++ range (echo_request_demo 30) 26 4 ++
      0 :: range (echo_request_demo 30) 35 1 ++ [u8 k; u8 (k / 256)] ++
      drop 38 (echo_request_demo 30) /\
    verifies (range reply 14 20) /\ verifies (range reply 34 (Z.to_nat (swap16 7680) - 20)).
Proof.
  apply (net_icmp_reply (fun _ _ => 0) (echo_request_demo 30) 44 7680 (Mmio ∅ []) (W := list Z) []);
    first [repeat constructor; done | vm_compute; lia | reflexivity | vm_compute; discriminate].
Defined.

(** An echo request whose IP length field is below the size of the IP
    header makes the ICMP length wrap around to about 4 GiB: the checksum runs
    out of the buffer, whatever its size (below 2 GiB). *)
Theorem net_icmp_short_length `{Console W} REG packet len l m (w : W) :
  bytes_ok packet -> (38 <= length packet)%nat -> length packet < 2147483648 -> 14 <= len ->
  get16 packet 12 = Ok ETHTYPE_IP -> get32 packet 30 = Ok zanos_ip ->
  packet !! 23%nat = Some IP_PROTO_ICMP -> packet !! 34%nat = Some ICMP_TYPE_ECHO_REQUEST ->
  get16 packet 16 = Ok l -> swap16 l < 20 ->
  net_handle_packet REG packet len m w = Err OutOfBounds.
Proof.
  intros Hb Hl Hbig Hlen Et Ed Ep Ety El H20.
  destruct (net_echo_request packet len REG m w Hlen Et Ed Ep Ety) as (w' & Ho & ->).
  by rewrite (icmp_reply_packet_short packet l).
Qed.

Lemma net_icmp_short_length_witness :
  net_handle_packet (fun _ _ => 0) (echo_request_demo 19) 44 (Mmio ∅ []) (W := list Z) []
  = Err OutOfBounds.
Proof.
  apply (net_icmp_short_length (fun _ _ => 0) (echo_request_demo 19) 44 4864 (Mmio ∅ [])
    (W := list Z) []);
    first [repeat constructor; done | vm_compute; lia | reflexivity | vm_compute; discriminate].
Defined.
