(* ===== verification/Def.v ===== *)
(** * lwIP common functions: src/src/lwip/core/def.c

    Byte order conversion, bounded and case-insensitive string search and
    comparison, [lwip_itoa] and the constant-time comparison. Pointers into a
    buffer are offsets; a string argument is the list from the pointer on. *)

From S2P Require Import Prelude Strings Uart Onescomp.

(** ** Definitions *)

Definition PP_HTONS (x : Z) : Z :=
  u16 (Z.lor (Z.shiftl (Z.land x 0x00ff) 8) (Z.shiftr (Z.land x 0xff00) 8)).

Definition PP_HTONL (x : Z) : Z :=
  Z.lor (Z.lor (Z.lor (u32 (Z.shiftl (Z.land x 0x000000ff) 24))
                      (u32 (Z.shiftl (Z.land x 0x0000ff00) 8)))
               (Z.shiftr (Z.land x 0x00ff0000) 8))
        (Z.shiftr (Z.land x 0xff000000) 24).

Definition lwip_htons (n : Z) : Z := PP_HTONS n.
Definition lwip_htonl (n : Z) : Z := PP_HTONL n.

(** The loop of both searches, [p] at offset [i]; [matches] is the test of the
    loop body. *)
Fixpoint strn_search (matches : list Z -> res bool) (p : list Z) (tokenlen n i : Z)
    : res (option Z) :=
  match p with
  | [] => Err OutOfBounds
  | c :: p' =>
      if negb (c =? 0) && (i + tokenlen <=? n) then
        m ← matches p;
        if m : bool then Ok (Some i) else strn_search matches p' tokenlen n (i + 1)
      else Ok None
  end.

(** The result is the offset of the match, [None] for NULL. *)
Definition lwip_strnstr (buffer token : list Z) (n : Z) : res (option Z) :=
  tokenlen ← strlen token;
  if tokenlen =? 0 then Ok (Some 0) else
  strn_search (fun p =>
    c ← buf_get p 0; t ← buf_get token 0;
    if c =? t then r ← strncmp p token tokenlen; Ok (r =? 0) else Ok false)
    buffer tokenlen n 0.

(** One character of the case-insensitive comparisons: may they go on? *)
Definition chars_agree (c1 c2 : Z) : bool :=
  if negb (c1 =? c2) then
    let c1_upc := Z.lor c1 0x20 in
    if (97 <=? c1_upc) && (c1_upc <=? 122) then
      let c2_upc := Z.lor c2 0x20 in
      c1_upc =? c2_upc
    else false
  else true.

Fixpoint lwip_stricmp (str1 str2 : list Z) : res Z :=
  match str1, str2 with
  | c1 :: str1', c2 :: str2' =>
      if negb (chars_agree c1 c2) then Ok 1
      else if negb (c1 =? 0) then lwip_stricmp str1' str2' else Ok 0
  | _, _ => Err OutOfBounds
  end.

(** [len--] wraps at 32 bits. *)
Fixpoint lwip_strnicmp (str1 str2 : list Z) (len : Z) : res Z :=
  match str1, str2 with
  | c1 :: str1', c2 :: str2' =>
      if negb (chars_agree c1 c2) then Ok 1
      else
        let len := u32 (len - 1) in
        if negb (len =? 0) && negb (c1 =? 0) then lwip_strnicmp str1' str2' len else Ok 0
  | _, _ => Err OutOfBounds
  end.

Definition lwip_strnistr (buffer token : list Z) (n : Z) : res (option Z) :=
  tokenlen ← strlen token;
  if tokenlen =? 0 then Ok (Some 0) else
  strn_search (fun p => r ← lwip_strnicmp p token tokenlen; Ok (r =? 0)) buffer tokenlen n 0.

(** [while ((n != 0) && (tmp > res))], digits from the end of the buffer. *)
Fixpoint itoa_digits (fuel : nat) (buf : list Z) (out tmp n : Z) : res (list Z * Z * Z) :=
  if negb (n =? 0) && (out <? tmp) then
    match fuel with
    | O => Err OutOfFuel
    | S fuel' =>
        let val := u8 (48 + Z.rem n 10) in
        let tmp := tmp - 1 in
        buf ← buf_set buf tmp val;
        itoa_digits fuel' buf out tmp (Z.quot n 10)
    end
  else Ok (buf, tmp, n).

(** From the terminating NUL on: digits, then the move to the front. *)
Definition itoa_tail (result : list Z) (bufsize out n : Z) : res (list Z) :=
  let tmp := bufsize - 1 in
  result ← buf_set result tmp 0;
  '(result, tmp, n) ← itoa_digits 11 result out tmp n;
  if negb (n =? 0) then buf_set result 0 0
  else
    c ← buf_get result tmp;
    if c =? 0 then
      result ← buf_set result out 48;
      buf_set result (out + 1) 0
    else memmove result out tmp (bufsize - tmp).

Definition lwip_itoa (result : list Z) (bufsize number : Z) : res (list Z) :=
  let n := if 0 <=? number then number else s32 (- number) in
  if bufsize <? 2 then
    (if bufsize =? 1 then buf_set result 0 0 else Ok result)
  else
    '(result, out) ← (if number <? 0 then result ← buf_set result 0 45; Ok (result, 1)
                      else Ok (result, 0));
    itoa_tail result bufsize out n.

Fixpoint memcmp_consttime_loop (k : nat) (a1 a2 : list Z) (ret : Z) : res Z :=
  match k, a1, a2 with
  | O, _, _ => Ok ret
  | S k', x :: a1', y :: a2' => memcmp_consttime_loop k' a1' a2' (u8 (Z.lor ret (Z.lxor x y)))
  | _, _, _ => Err OutOfBounds
  end.

Definition lwip_memcmp_consttime (s1 s2 : list Z) (len : Z) : res Z :=
  memcmp_consttime_loop (Z.to_nat len) s1 s2 0.

(** The bytes of a 32-bit object in memory, and the big-endian reading. *)
Definition le_bytes (n : Z) : list Z := [n mod 256; n / 256 mod 256; n / 65536 mod 256; n / 16777216].
Definition be_value (bs : list Z) : Z := foldl (fun acc b => acc * 256 + b) 0 bs.

(** What the searches promise: the first offset at which the [k] characters
    agree with the token and end within [n]. *)
Definition finds (agree : list Z -> Prop) (s : list Z) (k n : Z) (r : option Z) : Prop :=
  let hit j := (0 <= j < length s /\ j + k <= n /\ agree (drop (Z.to_nat j) s)) in
  match r with
  | Some i => hit i /\ forall j, j < i -> ~ hit j
  | None => forall j, ~ hit j
  end.

(** The text of an [int]. *)
Definition int_string (number : Z) : list Z :=
  (if number <? 0 then [45] else []) ++ dec_string (Z.abs number).

(** Every byte. *)
Definition all_bytes : list Z := Z.of_nat <$> seq 0 256.

(** ** Lemmas *)

Lemma pp_htons_swap n : is_u16 n -> PP_HTONS n = swap16 n.
Proof.
  unfold is_u16, PP_HTONS, swap16. intros Hn. change 0xff00 with (255 * 2 ^ 8).
  rewrite land_255, shiftl_8, land_field, shiftr_8, Z.lor_comm by lia.
  change (2 ^ 8) with 256. rewrite Z.div_mul, lor_8 by lia. solve_u.
Qed.

(** A 32-bit number and its four bytes. *)
Lemma word_digits a b c d :
  is_u8 a -> is_u8 b -> is_u8 c -> is_u8 d ->
  let v := a + 256 * b + 65536 * c + 16777216 * d in
  is_u32 v /\ v mod 256 = a /\ v / 256 mod 256 = b /\ v / 65536 mod 256 = c /\ v / 16777216 = d.
Proof.
  unfold is_u8, is_u32. cbv zeta. intros Ha Hb Hc Hd.
  split; [lia|]. split; [lia|]. split; [lia|]. split; lia.
Qed.

Lemma word_split n :
  is_u32 n -> exists a b c d, is_u8 a /\ is_u8 b /\ is_u8 c /\ is_u8 d /\
    n = a + 256 * b + 65536 * c + 16777216 * d.
Proof.
  unfold is_u8, is_u32. intros Hn.
  exists (n mod 256), (n / 256 mod 256), (n / 65536 mod 256), (n / 16777216).
  split; [lia|]. split; [lia|]. split; [lia|]. split; lia.
Qed.

Lemma pp_htonl_bytes n :
  is_u32 n ->
  PP_HTONL n = n mod 256 * 16777216 + n / 256 mod 256 * 65536 + n / 65536 mod 256 * 256
    + n / 16777216.
Proof.
  unfold is_u32, PP_HTONL. intros Hn.
  change 0x0000ff00 with (255 * 2 ^ 8). change 0x00ff0000 with (255 * 2 ^ 16).
  change 0xff000000 with (255 * 2 ^ 24).
  rewrite land_255, !land_field by lia. rewrite shiftl_24, shiftl_8, shiftr_8, shiftr_24.
  change (2 ^ 8) with 256. change (2 ^ 16) with 65536. change (2 ^ 24) with 16777216.
  rewrite Z.div_mul by lia. rewrite (u32_id (_ * 16777216)) by solve_u.
  rewrite (u32_id (_ * 256 * 256)) by solve_u.
  replace (n / 65536 mod 256 * 65536 / 256) with (n / 65536 mod 256 * 256) by lia.
  rewrite Z.lor_comm, (Z.lor_comm _ (n / 65536 mod 256 * 256)), Z.lor_assoc, lor_8 by lia.
  rewrite (Z.lor_comm (n mod 256 * 16777216)), Z.lor_assoc.
  replace (n / 256 mod 256 * 256 * 256) with (n / 256 mod 256 * 65536) by lia.
  rewrite lor_16 by lia. rewrite lor_24 by lia. lia.
Qed.

Lemma all_bytes_in c : is_u8 c -> c ∈ all_bytes.
Proof.
  intros Hc. unfold all_bytes. apply list_elem_of_fmap. exists (Z.to_nat c).
  split; [solve_u|]. apply elem_of_seq. solve_u.
Qed.

Lemma pp_htonl_word a b c d :
  is_u8 a -> is_u8 b -> is_u8 c -> is_u8 d ->
  PP_HTONL (a + 256 * b + 65536 * c + 16777216 * d) = d + 256 * c + 65536 * b + 16777216 * a.
Proof.
  intros Ha Hb Hc Hd. destruct (word_digits a b c d Ha Hb Hc Hd) as (Hv & E1 & E2 & E3 & E4).
  rewrite pp_htonl_bytes, E1, E2, E3, E4 by done. lia.
Qed.

(** The case-insensitive test is equality of lower-case characters. *)
Lemma chars_agree_table :
  forallb (fun c1 => forallb (fun c2 =>
    Bool.eqb (chars_agree c1 c2) (tolower c1 =? tolower c2)) all_bytes) all_bytes = true.
Proof. vm_compute. reflexivity. Qed.

Lemma chars_agree_spec c1 c2 :
  is_u8 c1 -> is_u8 c2 -> chars_agree c1 c2 = (tolower c1 =? tolower c2).
Proof.
  intros H1 H2. pose proof chars_agree_table as T. rewrite forallb_forall in T.
  specialize (T c1 (proj1 (list_elem_of_In _ _) (all_bytes_in c1 H1))).
  rewrite forallb_forall in T.
  exact (Bool.eqb_prop _ _ (T c2 (proj1 (list_elem_of_In _ _) (all_bytes_in c2 H2)))).
Qed.

Lemma tolower_nul c : is_u8 c -> tolower c = 0 -> c = 0.
Proof. unfold tolower, isupper. intros Hc. bool_cases; solve_u. Qed.

(** [len] = 0 behaves as 2^32, since it is decremented before it is tested. *)
Lemma strnicmp_spec a b s t (n : nat) :
  bytes_ok s -> bytes_ok t -> cstring a s -> cstring b t -> 1 <= n <= 4294967296 ->
  exists r, lwip_strnicmp a b (u32 n) = Ok r /\
    (r = 0 <-> tolower <$> take n s = tolower <$> take n t).
Proof.
  intros Hsb Htb [Hs [ra ->]] [Ht [rb ->]]. revert s t n Hsb Htb Hs Ht.
  induction s as [|x s IH]; intros t n Hsb Htb Hs Ht Hn; destruct n as [|n]; try lia.
  - destruct t as [|y t]; cbn [app lwip_strnicmp].
    + change (chars_agree 0 0) with true. cbn [negb]. change (0 =? 0) with true. cbn [negb].
      rewrite andb_false_r. by exists 0.
    + apply Forall_cons in Htb as [Hy Htb], Ht as [Hy0 Ht].
      rewrite chars_agree_spec by (done || solve_u).
      destruct (Z.eqb_spec (tolower 0) (tolower y)) as [E|E]; cbn [negb].
      { symmetry in E. change (tolower 0) with 0 in E. by apply tolower_nul in E. }
      exists 1. split; [done|]. split; [lia | done].
  - apply Forall_cons in Hsb as [Hx Hsb], Hs as [Hx0 Hs]. destruct t as [|y t]; cbn [app lwip_strnicmp].
    + rewrite chars_agree_spec by (done || solve_u).
      destruct (Z.eqb_spec (tolower x) (tolower 0)) as [E|E]; cbn [negb].
      { change (tolower 0) with 0 in E. by apply tolower_nul in E. }
      exists 1. split; [done|]. split; [lia | done].
    + apply Forall_cons in Htb as [Hy Htb], Ht as [Hy0 Ht]. rewrite chars_agree_spec by done.
      cbn [take fmap list_fmap].
      destruct (Z.eqb_spec (tolower x) (tolower y)) as [E|E]; cbn [negb].
      * replace (u32 (u32 (S n) - 1)) with (Z.of_nat n) by solve_u.
        destruct (Z.eqb_spec x 0); [done|]. cbn [negb]. rewrite andb_true_r.
        destruct (Z.eqb_spec n 0) as [E0|E0]; cbn [negb].
        { exists 0. replace n with 0%nat by lia. rewrite !take_0, E. done. }
        destruct (IH t n Hsb Htb Hs Ht) as (r & Er & Hr); [lia|]. rewrite u32_id in Er by solve_u.
        exists r. split; [done|]. rewrite Hr, E. split; congruence.
      * exists 1. split; [done|]. split; [lia | congruence].
Qed.

Lemma stricmp_spec a b s t :
  bytes_ok s -> bytes_ok t -> cstring a s -> cstring b t ->
  exists r, lwip_stricmp a b = Ok r /\ (r = 0 <-> tolower <$> s = tolower <$> t).
Proof.
  intros Hsb Htb [Hs [ra ->]] [Ht [rb ->]]. revert t Hsb Htb Hs Ht.
  induction s as [|x s IH]; intros t Hsb Htb Hs Ht.
  - destruct t as [|y t]; cbn [app lwip_stricmp]; [by exists 0|].
    apply Forall_cons in Htb as [Hy Htb], Ht as [Hy0 Ht].
    rewrite chars_agree_spec by (done || solve_u).
    destruct (Z.eqb_spec (tolower 0) (tolower y)) as [E|E]; cbn [negb].
    { symmetry in E. by apply tolower_nul in E. }
    exists 1. split; [done|]. split; [lia | done].
  - apply Forall_cons in Hsb as [Hx Hsb], Hs as [Hx0 Hs].
    destruct t as [|y t]; cbn [app lwip_stricmp].
    + rewrite chars_agree_spec by (done || solve_u).
      destruct (Z.eqb_spec (tolower x) (tolower 0)) as [E|E]; cbn [negb].
      { by apply tolower_nul in E. }
      exists 1. split; [done|]. split; [lia | done].
    + apply Forall_cons in Htb as [Hy Htb], Ht as [Hy0 Ht]. rewrite chars_agree_spec by done.
      cbn [fmap list_fmap]. destruct (Z.eqb_spec (tolower x) (tolower y)) as [E|E]; cbn [negb].
      * destruct (Z.eqb_spec x 0); [done|]. cbn [negb].
        destruct (IH t Hsb Htb Hs Ht) as (r & Er & Hr). exists r. split; [done|].
        rewrite Hr, E. split; congruence.
      * exists 1. split; [done|]. split; [lia | congruence].
Qed.

Lemma strn_search_spec matches (agree : list Z -> Prop) s rest k n :
  Forall (fun c => c <> 0) s ->
  (forall j, (j < length s)%nat -> exists m, matches (drop j (s ++ 0 :: rest)) = Ok m /\
    (m = true <-> agree (drop j s))) ->
  exists r, strn_search matches (s ++ 0 :: rest) k n 0 = Ok r /\ finds agree s k n r.
Proof.
  intros Hs Hm.
  set (hit j := (0 <= j < length s /\ j + k <= n /\ agree (drop (Z.to_nat j) s))).
  assert (Hgen : forall d i, (i + d = length s)%nat ->
    exists r, strn_search matches (drop i (s ++ 0 :: rest)) k n i = Ok r /\
      match r with
      | Some x => hit x /\ forall j, i <= j < x -> ~ hit j
      | None => forall j, i <= j -> ~ hit j
      end).
  { induction d as [|d IH]; intros i Hi.
    - replace i with (length s) by lia. rewrite drop_app_length. cbn [strn_search].
      exists None. split; [done|]. unfold hit. lia.
    - destruct (lookup_lt_is_Some_2 s i) as [c Hc]; [lia|].
      assert (Hc' : (s ++ 0 :: rest) !! i = Some c) by by apply lookup_app_l_Some.
      destruct (Hm i) as (m & Em & Hag); [lia|].
      rewrite (drop_S _ _ _ Hc') in Em |- *. cbn [strn_search].
      pose proof (Forall_lookup_1 _ _ _ _ Hs Hc) as Hc0. cbv beta in Hc0.
      destruct (Z.eqb_spec c 0); [done|]. cbn [negb andb].
      destruct (Z.leb_spec (i + k) n).
      + rewrite Em, bind_ok. destruct m.
        * exists (Some (Z.of_nat i)). split; [done|]. split; [|lia].
          unfold hit. rewrite Nat2Z.id. split; [lia|]. split; [lia|]. by apply Hag.
        * replace (Z.of_nat i + 1) with (Z.of_nat (S i)) by lia.
          destruct (IH (S i)) as (r & -> & Hr); [lia|]. exists r. split; [done|].
          assert (Hni : ~ hit i).
          { unfold hit. rewrite Nat2Z.id. intros (_ & _ & Ha). by apply Hag in Ha. }
          destruct r as [x|].
          -- destruct Hr as [Hx Hj]. split; [done|]. intros j Hj2.
             destruct (decide (j = i)) as [->|]; [done | apply Hj; lia].
          -- intros j Hj2. destruct (decide (j = i)) as [->|]; [done | apply Hr; lia].
      + exists None. split; [done|]. unfold hit. lia. }
  destruct (Hgen (length s) 0%nat) as (r & Er & Hr); [lia|]. exists r.
  split; [exact Er|]. unfold finds. fold hit. destruct r as [x|].
  - destruct Hr as [Hx Hj]. split; [done|]. intros j Hj2 Hh. apply (Hj j); [|done].
    unfold hit in Hh. lia.
  - intros j Hh. apply (Hr j); [|done]. unfold hit in Hh. lia.
Qed.

Lemma dec_loop_nonempty f n : (0 < f)%nat -> (0 < length (dec_loop f n))%nat.
Proof.
  intros Hf. destruct f as [|f]; [lia|]. cbn [dec_loop]. destruct (n <? 10); [simpl; lia|].
  rewrite length_app. simpl. lia.
Qed.

(** The digits fill the buffer from [tmp] down, or stop at [out] with digits
    left over. *)
Lemma itoa_digits_spec f : forall fuel n buf (out tmp : nat),
  0 < n < 10 ^ Z.of_nat f -> (f < fuel)%nat -> (out <= tmp)%nat -> (tmp <= length buf)%nat ->
  if decide (length (dec_loop f n) <= tmp - out)%nat then
    itoa_digits fuel buf out tmp n =
    Ok (list_inserts (tmp - length (dec_loop f n)) (dec_loop f n) buf,
        Z.of_nat (tmp - length (dec_loop f n)), 0)
  else exists buf' n', itoa_digits fuel buf out tmp n = Ok (buf', Z.of_nat out, n') /\
    n' <> 0 /\ length buf' = length buf /\ drop tmp buf' = drop tmp buf.
Proof.
  induction f as [|f IH]; intros fuel n buf out tmp Hn Hf Ho Hb; [simpl in Hn; lia|].
  destruct fuel as [|fuel]; [lia|]. cbn [itoa_digits].
  pose proof (dec_loop_nonempty (S f) n ltac:(lia)) as Hne.
  destruct (Z.eqb_spec n 0); [lia|]. cbn [negb andb].
  destruct (Z.ltb_spec out tmp); cycle 1.
  { rewrite decide_False by lia. exists buf, n. replace tmp with out by lia. done. }
  rewrite Z.rem_mod_nonneg, Z.quot_div_nonneg by lia.
  assert (u8 (48 + n mod 10) = 48 + n mod 10) as -> by solve_u.
  rewrite buf_set_ok, bind_ok by lia.
  replace (Z.of_nat tmp - 1) with (Z.of_nat (tmp - 1)) by lia. rewrite Nat2Z.id.
  destruct (Z.ltb_spec n 10) as [Hn10|Hn10].
  - assert (Ed : dec_loop (S f) n = [48 + n]) by (cbn [dec_loop]; bool_cases; (done || lia)).
    rewrite Ed. cbn [length]. rewrite decide_True by lia.
    rewrite Z.div_small, Z.mod_small by lia. destruct fuel; cbn [itoa_digits]; done.
  - assert (Ed : dec_loop (S f) n = dec_loop f (n / 10) ++ [48 + n mod 10])
      by (cbn [dec_loop]; bool_cases; (done || lia)).
    specialize (IH fuel (n / 10) (<[(tmp - 1)%nat := 48 + n mod 10]> buf) out (tmp - 1)%nat).
    rewrite Ed, length_app. cbn [length].
    destruct (decide (length (dec_loop f (n / 10)) <= tmp - 1 - out)%nat).
    + rewrite decide_True by lia. rewrite IH; [|..]; rewrite ?length_insert; try lia.
      2: { rewrite Nat2Z.inj_succ, Z.pow_succ_r in Hn by lia. split; [lia|].
           apply Z.div_lt_upper_bound; lia. }
      rewrite list_inserts_insert_ge by lia. rewrite list_inserts_app_l. cbn [list_inserts].
      replace (tmp - (length (dec_loop f (n / 10)) + 1))%nat
        with (tmp - 1 - length (dec_loop f (n / 10)))%nat by lia.
      replace (length (dec_loop f (n / 10)) + (tmp - 1 - length (dec_loop f (n / 10))))%nat
        with (tmp - 1)%nat by lia. done.
    + rewrite decide_False by lia. destruct IH as (buf' & n' & E & Hn' & Hl & Hd);
        rewrite ?length_insert; try lia.
      { rewrite Nat2Z.inj_succ, Z.pow_succ_r in Hn by lia. split; [lia|].
        apply Z.div_lt_upper_bound; lia. }
      exists buf', n'. rewrite length_insert in Hl. split; [done|]. split; [done|].
      split; [done|]. apply (f_equal (drop 1)) in Hd. rewrite !drop_drop in Hd.
      replace (tmp - 1 + 1)%nat with tmp in Hd by lia. rewrite Hd. apply drop_insert_lt. lia.
Qed.

(** The decimal digits do not depend on the fuel beyond their number. *)
Lemma itoa_positive n result (out bufsize : nat) :
  0 < n < 2147483648 -> (out + 1 < bufsize)%nat \/ (out + 1 = bufsize)%nat ->
  (bufsize <= length result)%nat -> result !! (bufsize - 1)%nat = Some 0 ->
  if decide (out + length (dec_string n) + 1 <= bufsize)%nat then
    exists r', itoa_digits 11 result out (bufsize - 1) n =
        Ok (r', Z.of_nat (bufsize - 1 - length (dec_string n)), 0) /\
      length r' = length result /\ take out r' = take out result /\
      take (length (dec_string n) + 1) (drop (bufsize - 1 - length (dec_string n)) r') =
        dec_string n ++ [0] /\
      drop bufsize r' = drop bufsize result
  else exists buf' n', itoa_digits 11 result out (bufsize - 1) n = Ok (buf', Z.of_nat out, n') /\
    n' <> 0 /\ length buf' = length result /\ drop bufsize buf' = drop bufsize result.
Proof.
  intros Hn Hb Hl H0.
  pose proof (itoa_digits_spec 10 11 n result out (bufsize - 1)) as H.
  change (dec_loop 10 n) with (dec_string n) in H.
  replace (Z.of_nat (bufsize - 1)) with (Z.of_nat bufsize - 1) in H by lia.
  destruct (decide (out + length (dec_string n) + 1 <= bufsize)%nat).
  - rewrite decide_True in H by lia. rewrite H by lia. eexists. split; [done|].
    set (k := (bufsize - 1 - length (dec_string n))%nat).
    rewrite list_inserts_splice by (unfold k; lia).
    assert (Hk : length (take k result) = k) by (rewrite length_take; unfold k; lia).
    split; [|split; [|split]].
    + rewrite !length_app, length_drop, Hk. unfold k. lia.
    + rewrite take_app_le by (rewrite Hk; unfold k; lia). rewrite take_take. f_equal. unfold k. lia.
    + rewrite drop_app_ge, Hk, Nat.sub_diag, drop_0 by lia. rewrite take_app_ge by lia.
      replace (length (dec_string n) + 1 - length (dec_string n))%nat with 1%nat by lia.
      replace (k + length (dec_string n))%nat with (bufsize - 1)%nat by (unfold k; lia).
      by rewrite (drop_S _ _ _ H0).
    + rewrite drop_app_ge, Hk by (rewrite Hk; unfold k; lia). rewrite drop_app_ge, drop_drop by (unfold k; lia).
      f_equal. unfold k. lia.
  - rewrite decide_False in H by lia. destruct H as (buf' & n' & E & Hn' & Hlen & Hd); try lia.
    exists buf', n'. split; [done|]. split; [done|]. split; [done|].
    apply (f_equal (drop 1)) in Hd. rewrite !drop_drop in Hd.
    by replace (bufsize - 1 + 1)%nat with bufsize in Hd by lia.
Qed.

Lemma itoa_tail_positive result (bufsize out : nat) n :
  (out < bufsize)%nat -> (bufsize <= length result)%nat -> 0 < n < 2147483648 ->
  exists r', itoa_tail result bufsize out n = Ok r' /\ length r' = length result /\
    drop bufsize r' = drop bufsize result /\
    if decide (out + length (dec_string n) < bufsize)%nat
    then r' = take out result ++ dec_string n ++ 0 :: drop (out + length (dec_string n) + 1) r'
    else r' !! 0%nat = Some 0.
Proof.
  intros Ho Hb Hn. unfold itoa_tail. rewrite buf_set_ok, bind_ok by lia.
  replace (Z.to_nat (bufsize - 1)) with (bufsize - 1)%nat by lia.
  set (r1 := <[(bufsize - 1)%nat := 0]> result).
  assert (Hl1 : length r1 = length result) by apply length_insert.
  pose proof (itoa_positive n r1 out bufsize) as H.
  assert (Hd1 : drop bufsize r1 = drop bufsize result) by (apply drop_insert_lt; lia).
  assert (Ht1 : take out r1 = take out result) by (apply take_insert_ge; lia).
  destruct (decide (out + length (dec_string n) < bufsize)%nat).
  - rewrite decide_True in H by lia. destruct H as (r2 & E & Hl2 & Ht & Hdig & Hd);
      [done | lia | lia | apply list_lookup_insert_eq; lia |].
    rewrite E, bind_ok. change (0 =? 0) with true. cbn [negb].
    set (k := (bufsize - 1 - length (dec_string n))%nat) in *.
    destruct (dec_string_value n) as [_ Hdc]; [lia|].
    assert (Hne : (0 < length (dec_string n))%nat) by (apply dec_loop_nonempty; lia).
    destruct (dec_string n) as [|c ds] eqn:Eds; [simpl in Hne; lia|].
    assert (Hc : r2 !! k = Some c).
    { replace k with (k + 0)%nat by lia. rewrite <- lookup_drop.
      rewrite <- (lookup_take_lt (drop k r2) (length (c :: ds) + 1)), Hdig by (simpl; lia). done. }
    rewrite (buf_get_ok _ _ c) by (rewrite ?Nat2Z.id; (lia || done)). rewrite bind_ok.
    apply Forall_cons in Hdc as [Hdc _]. unfold is_digit_char in Hdc.
    destruct (Z.eqb_spec c 0); [lia|].
    replace (bufsize - Z.of_nat k) with (Z.of_nat (length (c :: ds) + 1)) by (unfold k; lia).
    rewrite memmove_spec by (unfold k; lia). rewrite Hdig. eexists. split; [done|].
    rewrite length_inserts. split; [lia|].
    assert (Hlc : length ((c :: ds) ++ [0]) = (length (c :: ds) + 1)%nat)
      by (rewrite length_app; simpl; lia).
    rewrite list_inserts_splice by (rewrite Hlc; lia).
    assert (Hlo : length (take out r2) = out) by (rewrite length_take; lia). split.
    + rewrite drop_app_ge, Hlo, drop_app_ge, Hlc, drop_drop by lia.
      rewrite <- Hd1, <- Hd. f_equal. lia.
    + rewrite (drop_app_ge (take out r2)) by (rewrite Hlo; lia).
      rewrite (drop_app_ge ((c :: ds) ++ [0])) by (rewrite Hlo, Hlc; lia).
      rewrite Hlo, Hlc. replace (out + length (c :: ds) + 1 - out - (length (c :: ds) + 1))%nat
        with 0%nat by lia. rewrite drop_0, Ht, Ht1, <- (app_assoc (c :: ds)). done.
  - rewrite decide_False in H by lia. destruct H as (r2 & n' & E & Hn' & Hl2 & Hd);
      [done | lia | lia | apply list_lookup_insert_eq; lia |].
    rewrite E, bind_ok. destruct (Z.eqb_spec n' 0); [done|]. cbn [negb].
    rewrite buf_set_ok by lia. eexists. split; [done|]. change (Z.to_nat 0) with 0%nat.
    rewrite length_insert, drop_insert_lt by lia. split; [lia|]. split; [congruence|].
    apply list_lookup_insert_eq. lia.
Qed.

Lemma itoa_tail_zero result (bufsize : nat) :
  (2 <= bufsize)%nat -> (bufsize <= length result)%nat ->
  exists r', itoa_tail result bufsize 0 0 = Ok r' /\ length r' = length result /\
    drop bufsize r' = drop bufsize result /\ cstring r' [48].
Proof.
  intros H2 Hb. unfold itoa_tail. rewrite buf_set_ok, bind_ok by lia.
  replace (Z.to_nat (bufsize - 1)) with (bufsize - 1)%nat by lia. cbn [itoa_digits].
  change (0 =? 0) with true. cbn [negb andb]. rewrite bind_ok. change (0 =? 0) with true. cbn [negb].
  rewrite (buf_get_ok _ _ 0), bind_ok; [|lia|].
  2: { replace (Z.to_nat (bufsize - 1)) with (bufsize - 1)%nat by lia.
       apply list_lookup_insert_eq. lia. }
  change (0 =? 0) with true. cbn match.
  rewrite buf_set_ok, bind_ok, buf_set_ok by (rewrite ?length_insert; lia).
  change (Z.to_nat 0) with 0%nat. change (Z.to_nat (0 + 1)) with 1%nat.
  eexists. split; [done|]. rewrite !length_insert, !drop_insert_lt by lia. split; [done|].
  split; [done|]. split; [by repeat constructor|].
  destruct result as [|x [|y result]]; [simpl in Hb; lia | simpl in Hb; lia |].
  destruct (bufsize - 1)%nat as [|[|k]] eqn:E; [lia | |]; by eexists.
Qed.

(** The string in front, after the sign, or the empty string. *)
Lemma itoa_string_front sign result r' (bufsize : nat) n :
  take (length sign) result = sign -> Forall (fun c => c <> 0) sign -> 0 <= n < 10000000000 ->
  (if decide (length sign + length (dec_string n) < bufsize)%nat
   then r' = take (length sign) result ++ dec_string n ++
          0 :: drop (length sign + length (dec_string n) + 1) r'
   else r' !! 0%nat = Some 0) ->
  cstring r' (if decide (length (sign ++ dec_string n) < bufsize)%nat
              then sign ++ dec_string n else []).
Proof.
  intros Ht Hs Hn. rewrite length_app, Ht.
  destruct (decide (length sign + length (dec_string n) < bufsize)%nat); intros H.
  - split; [apply Forall_app; split; [done | by apply dec_string_no_nul]|].
    exists (drop (length sign + length (dec_string n) + 1) r'). rewrite <- app_assoc. exact H.
  - destruct r' as [|x r']; [done|]. injection H as ->. apply cstring_nil.
Qed.

Lemma log2_u8 a : is_u8 a -> Z.log2 a < 8.
Proof.
  unfold is_u8. intros Ha. destruct (decide (a = 0)) as [->|]; [simpl; lia|].
  apply Z.log2_lt_pow2; lia.
Qed.

Lemma lor_u8 a b : is_u8 a -> is_u8 b -> is_u8 (Z.lor a b).
Proof.
  intros Ha Hb. pose proof (log2_u8 a Ha). pose proof (log2_u8 b Hb). unfold is_u8 in *.
  split; [apply Z.lor_nonneg; lia|]. apply Z.log2_lt_cancel. rewrite Z.log2_lor by lia.
  change (Z.log2 256) with 8. lia.
Qed.

Lemma lxor_u8 a b : is_u8 a -> is_u8 b -> is_u8 (Z.lxor a b).
Proof.
  intros Ha Hb. pose proof (log2_u8 a Ha). pose proof (log2_u8 b Hb). unfold is_u8 in *.
  split; [apply Z.lxor_nonneg; lia|]. apply Z.log2_lt_cancel. change (Z.log2 256) with 8.
  pose proof (Z.log2_lxor a b ltac:(lia) ltac:(lia)). lia.
Qed.

Lemma memcmp_consttime_spec k a1 a2 ret :
  bytes_ok a1 -> bytes_ok a2 -> is_u8 ret -> (k <= length a1)%nat -> (k <= length a2)%nat ->
  exists r, memcmp_consttime_loop k a1 a2 ret = Ok r /\
    (r = 0 <-> ret = 0 /\ take k a1 = take k a2).
Proof.
  revert a1 a2 ret. induction k as [|k IH]; intros a1 a2 ret H1 H2 Hr L1 L2.
  - exists ret. split; [by destruct a1, a2|]. rewrite !take_0. naive_solver.
  - destruct a1 as [|x a1], a2 as [|y a2]; simpl in L1, L2; try lia.
    apply Forall_cons in H1 as [Hx H1], H2 as [Hy H2]. cbn [memcmp_consttime_loop].
    pose proof (lxor_u8 x y Hx Hy) as Hxy. pose proof (lor_u8 ret _ Hr Hxy) as Ho.
    rewrite u8_id by done.
    destruct (IH a1 a2 (Z.lor ret (Z.lxor x y))) as (r & -> & E); [done..| lia | lia |].
    exists r. split; [done|]. rewrite E, Z.lor_eq_0_iff, Z.lxor_eq_0_iff. cbn [take].
    split; [intros ([-> ->] & ->); done | intros [-> [= -> ->]]; done].
Qed.

(** ** Properties *)

(** [lwip_htonl] and [lwip_htons] convert to network order and back: the
    bytes that the converted value has in memory, most significant first, are
    the original number, and the conversion is its own inverse. *)
Theorem byte_order_roundtrip n h :
  is_u32 n -> is_u16 h ->
  be_value (le_bytes (lwip_htonl n)) = n /\ lwip_htonl (lwip_htonl n) = n /\
  lwip_htons h = (h mod 256) * 256 + h / 256 /\ lwip_htons (lwip_htons h) = h.
Proof.
  intros Hn Hh. unfold lwip_htonl, lwip_htons.
  destruct (word_split n Hn) as (a & b & c & d & Ha & Hb & Hc & Hd & ->).
  rewrite !pp_htonl_word by done. split; [|split; [done|split]].
  - destruct (word_digits d c b a Hd Hc Hb Ha) as (_ & E1 & E2 & E3 & E4).
    unfold le_bytes, be_value. rewrite E1, E2, E3, E4. cbn [foldl]. lia.
  - by rewrite pp_htons_swap.
  - rewrite (pp_htons_swap h) by done.
    rewrite pp_htons_swap by (pose proof (swap16_range h); solve_u).
    apply swap16_swap. solve_u.
Qed.

Lemma byte_order_roundtrip_witness :
  be_value (le_bytes (lwip_htonl 0xC0A80102)) = 0xC0A80102 /\
  lwip_htonl (lwip_htonl 0xC0A80102) = 0xC0A80102 /\
  lwip_htons 80 = (80 mod 256) * 256 + 80 / 256 /\ lwip_htons (lwip_htons 80) = 80.
Proof. apply (byte_order_roundtrip 0xC0A80102 80); vm_compute; split; congruence. Defined.

(** [lwip_strnstr] and [lwip_strnistr] return on all C strings and find
    the first place where the token occurs (up to case for the second) and ends
    within the first [n] characters, and nothing if there is none. *)
Theorem strn_search_first buffer token s t n :
  bytes_ok s -> bytes_ok t -> cstring buffer s -> cstring token t ->
  (0 < length t)%nat -> length t < 4294967296 ->
  (exists r, lwip_strnstr buffer token n = Ok r /\
     finds (fun p => take (length t) p = t) s (length t) n r) /\
  (exists r, lwip_strnistr buffer token n = Ok r /\
     finds (fun p => tolower <$> take (length t) p = tolower <$> t) s (length t) n r).
Proof.
  intros Hsb Htb [Hs [rest ->]] Ht Hlt Hbig. unfold lwip_strnstr, lwip_strnistr.
  rewrite (strlen_cstring token t Ht), !bind_ok.
  destruct (Z.eqb_spec (length t) 0); [lia|].
  assert (Hd : forall j, (j < length s)%nat -> cstring (drop j (s ++ 0 :: rest)) (drop j s)).
  { intros j Hj. split; [by apply Forall_drop|]. exists rest. by rewrite drop_app_le by lia. }
  split; apply strn_search_spec; try done; intros j Hj.
  - destruct t as [|t0 t]; [simpl in Hlt; lia|].
    destruct (lookup_lt_is_Some_2 s j Hj) as [c Hc].
    destruct (strncmp_eq _ _ _ _ (length (t0 :: t)) (Hd j Hj) Ht) as (r & Er & Hr).
    assert (Et0 : buf_get token 0 = Ok t0) by (destruct Ht as [_ [rt ->]]; done).
    rewrite (take_ge (t0 :: t)) in Hr by lia.
    assert (Eh : drop j (s ++ 0 :: rest) = c :: drop (S j) (s ++ 0 :: rest))
      by (apply drop_S; by apply lookup_app_l_Some).
    rewrite Eh in Er |- *. change (buf_get (c :: drop (S j) (s ++ 0 :: rest)) 0) with (Ok c).
    rewrite Et0, !bind_ok. destruct (Z.eqb_spec c t0) as [->|Hne].
    + rewrite Er, bind_ok. eexists. split; [done|]. rewrite Z.eqb_eq. exact Hr.
    + exists false. split; [done|]. rewrite (drop_S _ _ _ Hc). simpl. split; [done | congruence].
  - destruct (strnicmp_spec _ _ _ _ (length t) (Forall_drop _ _ _ Hsb) Htb (Hd j Hj) Ht)
      as (r & Er & Hr); [lia|].
    rewrite u32_id in Er by solve_u. rewrite (take_ge t) in Hr by lia.
    rewrite Er, bind_ok. eexists. split; [done|]. rewrite Z.eqb_eq. exact Hr.
Qed.

Lemma strn_search_first_witness :
  (exists r, lwip_strnstr (lit "xxGeT") (lit "get") 5 = Ok r /\
     finds (fun p => take (length (str "get")) p = str "get") (str "xxGeT") (length (str "get")) 5 r) /\
  (exists r, lwip_strnistr (lit "xxGeT") (lit "get") 5 = Ok r /\
     finds (fun p => tolower <$> take (length (str "get")) p = tolower <$> str "get")
       (str "xxGeT") (length (str "get")) 5 r).
Proof.
  apply (strn_search_first (lit "xxGeT") (lit "get") (str "xxGeT") (str "get") 5);
    try (by apply lit_cstring); [repeat constructor; done.. | vm_compute; lia | vm_compute; done].
Defined.

(** The case-insensitive comparisons return on all C strings, with 0
    exactly for strings equal up to case: [lwip_stricmp] on the whole strings,
    [lwip_strnicmp] on the first [n] characters; a bound of 0 does not compare
    nothing but the whole strings, since it is decremented before its test. *)
Theorem case_insensitive_compare a b s t (n : nat) :
  bytes_ok s -> bytes_ok t -> cstring a s -> cstring b t ->
  length s < 4294967296 -> length t < 4294967296 -> n < 4294967296 ->
  (exists r, lwip_stricmp a b = Ok r /\ (r = 0 <-> tolower <$> s = tolower <$> t)) /\
  (exists r, lwip_strnicmp a b n = Ok r /\
    (r = 0 <-> if decide (n = 0%nat) then tolower <$> s = tolower <$> t
               else tolower <$> take n s = tolower <$> take n t)).
Proof.
  intros Hsb Htb Ha Hb Hs Ht Hn. split; [by apply stricmp_spec|].
  destruct (decide (n = 0%nat)) as [->|Hn0].
  - destruct (Z_of_nat_complete 4294967296) as [N HN]; [lia|].
    destruct (strnicmp_spec a b s t N) as (r & E & Hr); [done..| lia |].
    rewrite !take_ge in Hr by lia. rewrite <- HN in E. by exists r.
  - destruct (strnicmp_spec a b s t n) as (r & E & Hr); [done..| lia |].
    rewrite u32_id in E by solve_u. by exists r.
Qed.

Lemma case_insensitive_compare_witness :
  (exists r, lwip_stricmp (lit "Host") (lit "hOSTS") = Ok r /\
    (r = 0 <-> tolower <$> str "Host" = tolower <$> str "hOSTS")) /\
  (exists r, lwip_strnicmp (lit "Host") (lit "hOSTS") 4%nat = Ok r /\
    (r = 0 <-> if decide (4%nat = 0%nat) then tolower <$> str "Host" = tolower <$> str "hOSTS"
               else tolower <$> take 4 (str "Host") = tolower <$> take 4 (str "hOSTS"))).
Proof.
  apply (case_insensitive_compare (lit "Host") (lit "hOSTS") (str "Host") (str "hOSTS") 4);
    try (by apply lit_cstring); first [vm_compute; done | repeat constructor; done].
Defined.

(** [lwip_itoa] returns for every [int] but the smallest and every buffer
    of at least two bytes, writes inside the first [bufsize] bytes only, and
    leaves the C string of the number there if it fits with its NUL, the empty
    string if it does not. *)
Theorem itoa_correct result (bufsize : nat) number :
  (2 <= bufsize)%nat -> (bufsize <= length result)%nat -> -2147483648 < number < 2147483648 ->
  exists r', lwip_itoa result bufsize number = Ok r' /\ length r' = length result /\
    drop bufsize r' = drop bufsize result /\
    cstring r' (if decide (length (int_string number) < bufsize)%nat
                then int_string number else []).
Proof.
  intros H2 Hb Hn. unfold lwip_itoa, int_string. destruct (Z.ltb_spec bufsize 2); [lia|].
  destruct (Z.leb_spec 0 number) as [Hp|Hp], (Z.ltb_spec number 0); try lia; rewrite ?bind_ok.
  - destruct (decide (number = 0)) as [->|Hnz].
    + change (length ([] ++ dec_string (Z.abs 0))) with 1%nat. rewrite decide_True by lia.
      by apply itoa_tail_zero.
    + rewrite Z.abs_eq by lia. rewrite app_nil_l.
      destruct (itoa_tail_positive result bufsize 0 number) as (r' & E & Hl & Hd & Hc); [lia..|].
      exists r'. split; [exact E|]. split; [done|]. split; [done|].
      apply (itoa_string_front [] result r' bufsize number); [done | constructor | lia | exact Hc].
  - rewrite buf_set_ok, !bind_ok by lia. change (Z.to_nat 0) with 0%nat.
    replace (s32 (- number)) with (- number) by solve_u.
    rewrite (Z.abs_neq number) by lia.
    destruct (itoa_tail_positive (<[0%nat := 45]> result) bufsize 1 (- number))
      as (r' & E & Hl & Hd & Hc); [lia | rewrite length_insert; lia | lia |].
    rewrite length_insert in Hl. rewrite drop_insert_lt in Hd by lia.
    exists r'. split; [exact E|]. split; [done|]. split; [done|].
    apply (itoa_string_front [45] (<[0%nat := 45]> result) r' bufsize (- number)); [ | by repeat constructor | lia | exact Hc].
    destruct result; [simpl in Hb; lia | done].
Qed.

Lemma itoa_correct_witness :
  exists r', lwip_itoa (replicate 8 9) 6%nat (-1024) = Ok r' /\ length r' = length (replicate 8 9) /\
    drop 6 r' = drop 6 (replicate 8 9) /\
    cstring r' (if decide (length (int_string (-1024)) < 6)%nat then int_string (-1024) else []).
Proof. apply (itoa_correct (replicate 8 9) 6 (-1024)); [lia | simpl; lia | lia]. Defined.

(** For the smallest [int] the negation overflows and [lwip_itoa] prints
    characters that are not digits. *)
Theorem itoa_int_min :
  exists r', lwip_itoa (replicate 16 0) 16 (-2147483648) = Ok r' /\ cstring r' (str "-./,),(-*,(").
Proof. eexists. split; [vm_compute; reflexivity|]. split; [by repeat constructor|]. by eexists. Qed.

(** [lwip_memcmp_consttime] is 0 exactly for equal areas. *)
Theorem memcmp_consttime_correct a1 a2 (n : nat) :
  bytes_ok a1 -> bytes_ok a2 -> (n <= length a1)%nat -> (n <= length a2)%nat ->
  exists r, lwip_memcmp_consttime a1 a2 n = Ok r /\ (r = 0 <-> take n a1 = take n a2).
Proof.
  intros H1 H2 L1 L2. unfold lwip_memcmp_consttime. rewrite Nat2Z.id.
  destruct (memcmp_consttime_spec n a1 a2 0) as (r & -> & Hr); [done | done | solve_u | done | done |].
  exists r. split; [done|]. rewrite Hr. naive_solver.
Qed.

Lemma memcmp_consttime_correct_witness :
  exists r, lwip_memcmp_consttime [1; 2; 3] [1; 2; 4] 2%nat = Ok r /\
    (r = 0 <-> take 2 [1; 2; 3] = take 2 [1; 2; 4]).
Proof.
  apply (memcmp_consttime_correct [1; 2; 3] [1; 2; 4] 2);
    [repeat constructor; done.. | simpl; lia | simpl; lia].
Defined.
