(* ===== verification/Chksum.v ===== *)
(** * The Internet checksum of lwIP: src/src/lwip/core/inet_chksum.c

    The three versions of [lwip_standard_chksum] (the build compiles number 2,
    the others are the alternatives the file offers), the pseudo header
    checksums over pbuf chains, [inet_chksum] and [lwip_chksum_copy]. A data
    pointer is an address and the bytes from there on, since versions 2 and 3
    depend on the alignment; a pbuf chain is the list of its payloads. *)

From S2P Require Import Prelude Strings Onescomp Def.

(** ** Definitions *)

Definition FOLD_U32T (u : Z) : Z := u32 (Z.shiftr u 16 + Z.land u 0x0000ffff).
Definition SWAP_BYTES_IN_WORD (w : Z) : Z :=
  Z.lor (Z.shiftl (Z.land w 0xff) 8) (Z.shiftr (Z.land w 0xff00) 8).

Module Version1.

(** [while (len > 1)]: network order words. *)
Fixpoint sum_octets (octetptr : list Z) (len acc : Z) : res (Z * list Z * Z) :=
  if 1 <? len then
    match octetptr with
    | hi :: lo :: rest =>
        sum_octets rest (len - 2) (u32 (acc + Z.lor (u16 (Z.shiftl hi 8)) lo))
    | _ => Err OutOfBounds
    end
  else Ok (acc, octetptr, len).

Definition lwip_standard_chksum (dataptr : list Z) (len : Z) : res Z :=
  '(acc, octetptr, len) ← sum_octets dataptr len 0;
  acc ← (if 0 <? len then c ← buf_get octetptr 0; Ok (u32 (acc + u16 (Z.shiftl c 8))) else Ok acc);
  let acc := u32 (Z.shiftr acc 16 + Z.land acc 0x0000ffff) in
  let acc := if negb (Z.land acc 0xffff0000 =? 0)
             then u32 (Z.shiftr acc 16 + Z.land acc 0x0000ffff) else acc in
  Ok (lwip_htons (u16 acc)).

End Version1.

(** [while (len > 1) { sum += *ps++; len -= 2; }] *)
Fixpoint sum_halfwords (ps : list Z) (len sum : Z) : res (Z * list Z * Z) :=
  if 1 <? len then
    match ps with
    | b0 :: b1 :: rest => sum_halfwords rest (len - 2) (u32 (sum + (b0 + 256 * b1)))
    | _ => Err OutOfBounds
    end
  else Ok (sum, ps, len).

(** [if (odd && len > 0) { ((u8_t * )&t)[1] = *pb++; len--; }]: the byte, the
    rest of the data and its length. *)
Definition align_first (odd : bool) (pb : list Z) (len : Z) : res (Z * list Z * Z) :=
  if odd && (0 <? len) then
    match pb with b :: pb' => Ok (b, pb', len - 1) | [] => Err OutOfBounds end
  else Ok (0, pb, len).

(** The left-over byte, the end bytes, the foldings and the swap. *)
Definition finish (odd : bool) (ps : list Z) (len sum t1 : Z) : res Z :=
  t0 ← (if 0 <? len then buf_get ps 0 else Ok 0);
  let sum := u32 (sum + (t0 + 256 * t1)) in
  let sum := FOLD_U32T sum in
  let sum := FOLD_U32T sum in
  let sum := if odd then SWAP_BYTES_IN_WORD sum else sum in
  Ok (u16 sum).

Module Version2.

Definition lwip_standard_chksum (addr : Z) (dataptr : list Z) (len : Z) : res Z :=
  let odd := Z.odd addr in
  '(t1, pb, len) ← align_first odd dataptr len;
  '(sum, ps, len) ← sum_halfwords pb len 0;
  finish odd ps len sum t1.

End Version2.

Module Version3.

(** [tmp = sum + *pl++; if (tmp < sum) tmp++;] *)
Definition add_carry (sum w : Z) : Z :=
  let tmp := u32 (sum + w) in if tmp <? sum then u32 (tmp + 1) else tmp.

Fixpoint sum_words8 (fuel : nat) (pl : list Z) (len sum : Z) : res (Z * list Z * Z) :=
  if 7 <? len then
    match fuel with
    | O => Err OutOfFuel
    | S fuel' =>
        match pl with
        | a0 :: a1 :: a2 :: a3 :: b0 :: b1 :: b2 :: b3 :: rest =>
            let tmp := add_carry sum (a0 + 256 * a1 + 65536 * (a2 + 256 * a3)) in
            let sum := add_carry tmp (b0 + 256 * b1 + 65536 * (b2 + 256 * b3)) in
            sum_words8 fuel' rest (len - 8) sum
        | _ => Err OutOfBounds
        end
    end
  else Ok (sum, pl, len).

Definition lwip_standard_chksum (addr : Z) (dataptr : list Z) (len : Z) : res Z :=
  let odd := Z.odd addr in
  let addr := if odd && (0 <? len) then addr + 1 else addr in
  '(t1, ps, len) ← align_first odd dataptr len;
  '(sum, pl, len) ← (if negb (Z.land addr 3 =? 0) && (1 <? len) then
      match ps with
      | b0 :: b1 :: rest => Ok (u32 (0 + (b0 + 256 * b1)), rest, len - 2)
      | _ => Err OutOfBounds
      end
    else Ok (0, ps, len));
  '(sum, pl, len) ← sum_words8 (length pl) pl len sum;
  let sum := FOLD_U32T sum in
  '(sum, ps, len) ← sum_halfwords pl len sum;
  finish odd ps len sum t1.

End Version3.

(** [LWIP_CHKSUM] *)
Definition LWIP_CHKSUM (addr : Z) (dataptr : list Z) (len : Z) : res Z :=
  Version2.lwip_standard_chksum addr dataptr len.

(** What the checksum functions read of a pbuf: payload address, payload, len. *)
Record seg : Type := Seg { seg_addr : Z; seg_payload : list Z; seg_len : Z }.

(** The loop over the chain. *)
Fixpoint chksum_chain (p : list seg) (acc : Z) (swapped : bool) : res (Z * bool) :=
  match p with
  | [] => Ok (acc, swapped)
  | q :: p' =>
      c ← LWIP_CHKSUM (seg_addr q) (seg_payload q) (seg_len q);
      let acc := FOLD_U32T (u32 (acc + c)) in
      if negb (seg_len q mod 2 =? 0)
      then chksum_chain p' (SWAP_BYTES_IN_WORD acc) (negb swapped)
      else chksum_chain p' acc swapped
  end.

Definition not16 (acc : Z) : Z := u16 (Z.lnot (Z.land acc 0xffff)).

Definition inet_chksum_pbuf (p : list seg) : res Z :=
  '(acc, swapped) ← chksum_chain p 0 false;
  let acc := if swapped : bool then SWAP_BYTES_IN_WORD acc else acc in
  Ok (not16 acc).

(** The end of both pseudo checksums. *)
Definition add_proto (proto proto_len acc : Z) (swapped : bool) : Z :=
  let acc := if swapped then SWAP_BYTES_IN_WORD acc else acc in
  let acc := u32 (acc + lwip_htons (u16 proto)) in
  let acc := u32 (acc + lwip_htons proto_len) in
  let acc := FOLD_U32T acc in
  let acc := FOLD_U32T acc in
  not16 acc.

Definition inet_cksum_pseudo_base (p : list seg) (proto proto_len acc : Z) : res Z :=
  '(acc, swapped) ← chksum_chain p acc false;
  Ok (add_proto proto proto_len acc swapped).

(** [for (q = p; (q != NULL) && (chksum_len > 0); q = q->next)] *)
Fixpoint chksum_chain_partial (p : list seg) (chksum_len acc : Z) (swapped : bool)
    : res (Z * bool) :=
  match p with
  | [] => Ok (acc, swapped)
  | q :: p' =>
      if 0 <? chksum_len then
        let chklen := if chksum_len <? seg_len q then chksum_len else seg_len q in
        c ← LWIP_CHKSUM (seg_addr q) (seg_payload q) chklen;
        let chksum_len := u16 (chksum_len - chklen) in
        _ ← lwip_assert "delete me" (chksum_len <? 0x7fff);
        let acc := FOLD_U32T (u32 (acc + c)) in
        if negb (seg_len q mod 2 =? 0)
        then chksum_chain_partial p' chksum_len (SWAP_BYTES_IN_WORD acc) (negb swapped)
        else chksum_chain_partial p' chksum_len acc swapped
      else Ok (acc, swapped)
  end.

Definition inet_cksum_pseudo_partial_base (p : list seg) (proto proto_len chksum_len acc : Z)
    : res Z :=
  '(acc, swapped) ← chksum_chain_partial p chksum_len acc false;
  Ok (add_proto proto proto_len acc swapped).

(** The two addresses, already in network order. *)
Definition addr_acc (src dest : Z) : Z :=
  let acc := Z.land src 0xffff in
  let acc := u32 (acc + Z.land (Z.shiftr src 16) 0xffff) in
  let acc := u32 (acc + Z.land dest 0xffff) in
  let acc := u32 (acc + Z.land (Z.shiftr dest 16) 0xffff) in
  FOLD_U32T (FOLD_U32T acc).

Definition inet_chksum_pseudo (p : list seg) (proto proto_len src dest : Z) : res Z :=
  inet_cksum_pseudo_base p proto proto_len (addr_acc src dest).

Definition inet_chksum_pseudo_partial (p : list seg) (proto proto_len chksum_len src dest : Z)
    : res Z :=
  inet_cksum_pseudo_partial_base p proto proto_len chksum_len (addr_acc src dest).

(** With IPv4 only. *)
Definition ip_chksum_pseudo (p : list seg) (proto proto_len src dest : Z) : res Z :=
  inet_chksum_pseudo p proto proto_len src dest.

Definition ip_chksum_pseudo_partial (p : list seg) (proto proto_len chksum_len src dest : Z)
    : res Z :=
  inet_chksum_pseudo_partial p proto proto_len chksum_len src dest.

Definition inet_chksum (addr : Z) (dataptr : list Z) (len : Z) : res Z :=
  c ← LWIP_CHKSUM addr dataptr len; Ok (u16 (Z.lnot c)).

(** [dst] is the destination buffer at address [addr]. *)
Definition lwip_chksum_copy (addr : Z) (dst src : list Z) (len : Z) : res (list Z * Z) :=
  dst ← memcpy dst 0 src len;
  c ← LWIP_CHKSUM addr dst len;
  Ok (dst, c).

(** The data a chain carries, and the pseudo header of RFC 768/793. *)
Definition chain_bytes (p : list seg) : list Z :=
  p ≫= fun q => take (Z.to_nat (seg_len q)) (seg_payload q).

Definition pseudo_header (src dest proto proto_len : Z) : list Z :=
  le_bytes src ++ le_bytes dest ++ [0; proto; proto_len / 256; proto_len mod 256].

(** A chain as the network code builds it: bytes, lengths inside the payloads
    and below 64 KiB. *)
Definition seg_ok (q : seg) : Prop :=
  bytes_ok (seg_payload q) /\ 0 <= seg_len q <= length (seg_payload q) /\ seg_len q <= 65535.

(** The accumulator after a prefix [done] of the data, on top of [a]. *)
Definition acc_of (a : Z) (done : list Z) : Z :=
  if Nat.even (length done) then oc (a + wsum done) else oc (256 * (a + wsum done)).

(** ** Lemmas *)

Lemma fold_fold16 u : is_u32 u -> FOLD_U32T u = fold16 u.
Proof.
  intros Hu. unfold FOLD_U32T, fold16. rewrite shiftr_16, land_65535. apply u32_id. solve_u.
Qed.

Lemma fold_once u : 0 <= u <= 131070 -> FOLD_U32T u = oc u.
Proof. intros Hu. rewrite fold_fold16 by solve_u. by apply fold16_once. Qed.

Lemma fold_twice u : is_u32 u -> FOLD_U32T (FOLD_U32T u) = oc u.
Proof.
  intros Hu. pose proof (fold16_bound u Hu). rewrite (fold_fold16 u), fold_fold16 by solve_u.
  by apply fold16_twice.
Qed.

Lemma swap_bytes w : 0 <= w <= 65535 -> SWAP_BYTES_IN_WORD w = swap16 w.
Proof.
  intros Hw. rewrite <- pp_htons_swap by solve_u. unfold PP_HTONS, SWAP_BYTES_IN_WORD.
  symmetry. apply u16_id. change 0xff00 with (255 * 2 ^ 8).
  rewrite land_255, shiftl_8, land_field, shiftr_8, Z.lor_comm by lia.
  change (2 ^ 8) with 256. rewrite Z.div_mul, lor_8 by lia. solve_u.
Qed.

Lemma swap_oc v : 0 <= v -> SWAP_BYTES_IN_WORD (oc v) = oc (256 * v).
Proof. intros Hv. pose proof (oc_range v). rewrite swap_bytes by lia. by apply swap16_oc. Qed.

(** Multiplying by 256 twice comes back. *)
Lemma oc_65536 v : 0 <= v -> oc (256 * (256 * v)) = oc v.
Proof. intros Hv. apply oc_congr; lia. Qed.

Lemma oc_256_cons b bs :
  is_u8 b -> bytes_ok bs -> oc (256 * (256 * b + wsum bs)) = oc (wsum (b :: bs)).
Proof.
  intros Hb Hbs. pose proof (wsum_nonneg bs Hbs). unfold is_u8 in Hb.
  destruct (wsum_cons b bs Hbs ltac:(lia)) as [Hm Hz].
  assert (0 <= wsum (b :: bs)) by (apply wsum_nonneg; constructor; [done | exact Hbs]).
  apply oc_congr; [rewrite Hm|]; lia.
Qed.

Lemma sum_halfwords_spec bs : forall rest sum,
  bytes_ok bs -> 0 <= sum -> sum + wsum bs < 4294967296 ->
  exists tail sum', sum_halfwords (bs ++ rest) (length bs) sum =
      Ok (sum', tail ++ rest, Z.of_nat (length tail)) /\
    sum' + wsum tail = sum + wsum bs /\ (length tail <= 1)%nat /\
    bytes_ok tail /\ 0 <= sum' /\ Nat.even (length bs) = Nat.even (length tail).
Proof.
  induction bs as [|b|a b l IH] using pair_ind; intros rest sum Hb Hs Hw.
  - exists [], sum. split; [by destruct rest|]. split; [done|]. split; [simpl; lia | done].
  - exists [b], sum. split; [by destruct rest|]. split; [done|]. split; [simpl; lia | done].
  - unfold bytes_ok, is_u8 in Hb. do 2 apply Forall_cons in Hb as [? Hb].
    pose proof (wsum_nonneg l Hb). cbn [wsum] in Hw |- *.
    cbn [app sum_halfwords]. destruct (Z.ltb_spec 1 (length (a :: b :: l))); [|simpl in *; lia].
    replace (Z.of_nat (length (a :: b :: l)) - 2) with (Z.of_nat (length l)) by (simpl; lia).
    rewrite u32_id by solve_u.
    destruct (IH rest (sum + (a + 256 * b))) as (tail & sum' & E & Hsum & Ht);
      [done | lia | lia |].
    exists tail, sum'. split; [done|]. split; [lia|]. done.
Qed.

Lemma finish_spec odd tail rest sum t1 :
  bytes_ok tail -> (length tail <= 1)%nat -> is_u8 t1 -> 0 <= sum ->
  sum + wsum tail + 256 * t1 < 4294967296 ->
  finish odd (tail ++ rest) (length tail) sum t1 =
  Ok (if odd then oc (256 * (sum + wsum tail + 256 * t1)) else oc (sum + wsum tail + 256 * t1)).
Proof.
  intros Hb Hl Ht Hs Hw. unfold finish. unfold is_u8 in Ht.
  assert (E : (if 0 <? length tail then buf_get (tail ++ rest) 0 else Ok 0) = Ok (wsum tail)).
  { destruct tail as [|b [|]]; [done | done | simpl in Hl; lia]. }
  pose proof (wsum_nonneg tail Hb).
  rewrite E, bind_ok, u32_id by solve_u. rewrite fold_twice by solve_u.
  replace (sum + (wsum tail + 256 * t1)) with (sum + wsum tail + 256 * t1) by lia.
  set (v := sum + wsum tail + 256 * t1) in *.
  destruct odd; [rewrite swap_oc by lia|]; rewrite u16_id; try done.
  - pose proof (oc_range (256 * v)). solve_u.
  - pose proof (oc_range v). solve_u.
Qed.

(** Version 2 on [bs], at an even and at an odd address. *)
Lemma version2_spec addr bs rest :
  bytes_ok bs -> length bs <= 131072 ->
  Version2.lwip_standard_chksum addr (bs ++ rest) (length bs) = Ok (oc (wsum bs)).
Proof.
  intros Hb Hl. unfold Version2.lwip_standard_chksum, align_first.
  destruct (Z.odd addr); cbn [andb].
  - destruct bs as [|b bs]; [by destruct rest|].
    unfold bytes_ok in Hb. apply Forall_cons in Hb as [Hb0 Hb].
    destruct (Z.ltb_spec 0 (length (b :: bs))); [|simpl in *; lia]. cbn [app].
    rewrite bind_ok. replace (Z.of_nat (length (b :: bs)) - 1) with (Z.of_nat (length bs)) by (simpl; lia).
    pose proof (wsum_bound bs Hb). pose proof (wsum_nonneg bs Hb). cbn [length] in Hl.
    destruct (sum_halfwords_spec bs rest 0) as (tail & sum' & -> & Hs & Ht & Htb & Hs0 & _);
      [done | lia | lia |].
    rewrite bind_ok. rewrite finish_spec by (done || solve_u).
    replace (sum' + wsum tail + 256 * b) with (256 * b + wsum bs) by lia.
    by rewrite oc_256_cons.
  - rewrite bind_ok. pose proof (wsum_bound bs Hb). pose proof (wsum_nonneg bs Hb).
    destruct (sum_halfwords_spec bs rest 0) as (tail & sum' & -> & Hs & Ht & Htb & Hs0 & _);
      [done | lia | lia |].
    rewrite bind_ok. rewrite finish_spec by (done || solve_u).
    do 2 f_equal. lia.
Qed.

Lemma sum_octets_spec bs : forall rest acc,
  bytes_ok bs -> 0 <= acc -> acc + bsum bs < 4294967296 ->
  exists tail acc', Version1.sum_octets (bs ++ rest) (length bs) acc =
      Ok (acc', tail ++ rest, Z.of_nat (length tail)) /\
    acc' + bsum tail = acc + bsum bs /\ (length tail <= 1)%nat /\ bytes_ok tail /\ 0 <= acc'.
Proof.
  induction bs as [|b|a b l IH] using pair_ind; intros rest acc Hb Hs Hw.
  - exists [], acc. split; [by destruct rest|]. split; [done|]. split; [simpl; lia | done].
  - exists [b], acc. split; [by destruct rest|]. split; [done|]. split; [simpl; lia | done].
  - unfold bytes_ok, is_u8 in Hb. do 2 apply Forall_cons in Hb as [? Hb].
    destruct (bsum_wsum l Hb) as (_ & _ & ? & _). cbn [bsum] in Hw |- *.
    cbn [app Version1.sum_octets].
    destruct (Z.ltb_spec 1 (length (a :: b :: l))); [|simpl in *; lia].
    replace (Z.of_nat (length (a :: b :: l)) - 2) with (Z.of_nat (length l)) by (simpl; lia).
    rewrite shiftl_8, u16_id, Z.lor_comm, lor_8, u32_id by solve_u.
    destruct (IH rest (acc + (b + a * 256))) as (tail & acc' & E & Hsum & Ht); [done | lia | lia |].
    exists tail, acc'. split; [done|]. split; [lia|]. done.
Qed.

Lemma version1_spec bs rest :
  bytes_ok bs -> length bs <= 65535 ->
  Version1.lwip_standard_chksum (bs ++ rest) (length bs) = Ok (oc (wsum bs)).
Proof.
  intros Hb Hl. unfold Version1.lwip_standard_chksum.
  destruct (bsum_wsum bs Hb) as (_ & _ & H0 & Hu).
  destruct (sum_octets_spec bs rest 0) as (tail & acc & -> & Hs & Ht & Htb & Ha); [done | lia | lia |].
  rewrite bind_ok. pose proof (wsum_nonneg bs Hb).
  assert (E : (if 0 <? length tail then c ← buf_get (tail ++ rest) 0;
                 Ok (u32 (acc + u16 (Z.shiftl c 8))) else Ok acc) = Ok (bsum bs)).
  { destruct tail as [|b [|]]; [| | simpl in Ht; lia].
    - cbn in Hs |- *. f_equal. lia.
    - unfold bytes_ok, is_u8 in Htb. apply Forall_cons in Htb as [? _]. cbn [bsum] in Hs.
      destruct (Z.ltb_spec 0 (length [b])); [|simpl in *; lia].
      change (buf_get ([b] ++ rest) 0) with (Ok b). rewrite bind_ok, shiftl_8.
      rewrite u16_id, u32_id by solve_u. f_equal. lia. }
  rewrite E, bind_ok.
  change (u32 (Z.shiftr (bsum bs) 16 + Z.land (bsum bs) 65535)) with (FOLD_U32T (bsum bs)).
  pose proof (fold16_bound (bsum bs) ltac:(lia)) as Hf. rewrite (fold_fold16 (bsum bs)) by solve_u.
  change (u32 (Z.shiftr (fold16 (bsum bs)) 16 + Z.land (fold16 (bsum bs)) 65535))
    with (FOLD_U32T (fold16 (bsum bs))).
  assert (Ef : (if negb (Z.land (fold16 (bsum bs)) 4294901760 =? 0)
                then FOLD_U32T (fold16 (bsum bs)) else fold16 (bsum bs)) = oc (256 * wsum bs)).
  { rewrite <- oc_bsum, <- (oc_fold (bsum bs)) by done.
    destruct (negb _) eqn:En; [by apply fold_once|]. symmetry. apply oc_id.
    apply negb_false_iff, Z.eqb_eq in En. split; [lia|].
    destruct (decide (fold16 (bsum bs) <= 65535)); [done|].
    assert (Hbit : Z.testbit (Z.land (fold16 (bsum bs)) 4294901760) 16 = true).
    { rewrite Z.land_spec. change (Z.testbit 4294901760 16) with true. rewrite andb_true_r.
      rewrite <- (Z.shiftr_spec _ 16 0) by lia. rewrite shiftr_16.
      replace (fold16 (bsum bs) / 65536) with 1 by lia. done. }
    by rewrite En in Hbit. }
  rewrite Ef. pose proof (oc_range (256 * wsum bs)). rewrite u16_id by solve_u.
  unfold lwip_htons. rewrite pp_htons_swap by solve_u. rewrite swap16_oc by lia.
  by rewrite oc_65536.
Qed.

Lemma add_carry_spec sum w :
  is_u32 sum -> is_u32 w ->
  is_u32 (Version3.add_carry sum w) /\ oc (Version3.add_carry sum w) = oc (sum + w).
Proof.
  unfold Version3.add_carry, is_u32. intros Hs Hw.
  destruct (decide (sum + w < 4294967296)).
  - rewrite u32_id by solve_u. destruct (Z.ltb_spec (sum + w) sum); [lia|]. lia.
  - assert (u32 (sum + w) = sum + w - 4294967296) as -> by solve_u.
    destruct (Z.ltb_spec (sum + w - 4294967296) sum); [|lia].
    rewrite u32_id by solve_u. split; [lia|]. apply oc_congr; lia.
Qed.

Lemma oc_word a b c d sum :
  is_u8 a -> is_u8 b -> is_u8 c -> is_u8 d -> 0 <= sum ->
  oc (sum + (a + 256 * b + 65536 * (c + 256 * d))) = oc (sum + (a + 256 * b + (c + 256 * d))).
Proof. unfold is_u8. intros. apply oc_congr; lia. Qed.

(** Eight bytes per round, modulo the carries. *)
Lemma sum_words8_spec fuel : forall bs rest sum,
  bytes_ok bs -> is_u32 sum -> (length bs <= 8 * fuel + 7)%nat ->
  exists tail sum', Version3.sum_words8 fuel (bs ++ rest) (length bs) sum =
      Ok (sum', tail ++ rest, Z.of_nat (length tail)) /\
    (length tail <= 7)%nat /\ bytes_ok tail /\ is_u32 sum' /\
    oc (sum' + wsum tail) = oc (sum + wsum bs).
Proof.
  induction fuel as [|fuel IH]; intros bs rest sum Hb Hs Hf.
  - exists bs, sum. cbn [Version3.sum_words8].
    destruct (Z.ltb_spec 7 (length bs)); [lia|]. split; [done|]. split; [lia | done].
  - cbn [Version3.sum_words8]. destruct (Z.ltb_spec 7 (length bs)) as [H7|H7].
    2: { exists bs, sum. split; [done|]. split; [lia | done]. }
    do 8 (destruct bs as [|? bs]; [exfalso; simpl in H7; lia|]).
    unfold bytes_ok in Hb. repeat apply Forall_cons in Hb as [? Hb]. cbn [app].
    destruct (add_carry_spec sum (z + 256 * z0 + 65536 * (z1 + 256 * z2))) as [Hr1 E1];
      [done | solve_u |].
    set (s1 := Version3.add_carry sum _) in *.
    destruct (add_carry_spec s1 (z3 + 256 * z4 + 65536 * (z5 + 256 * z6))) as [Hr2 E2];
      [done | solve_u |].
    set (s2 := Version3.add_carry s1 _) in *.
    match goal with |- context [Version3.sum_words8 fuel _ ?n _] =>
      replace n with (Z.of_nat (length bs)) by (cbn [length]; lia) end.
    destruct (IH bs rest s2 Hb Hr2) as (tail & sum' & -> & Hl & Htb & Hr & Hoc);
      [cbn [length] in Hf; lia|].
    exists tail, sum'. split; [done|]. split; [done|]. split; [done|]. split; [done|].
    rewrite Hoc. pose proof (wsum_nonneg bs Hb). unfold is_u32 in *.
    rewrite <- oc_add_l, E2, oc_add_l by solve_u. rewrite <- Z.add_assoc, <- oc_add_l, E1 by solve_u.
    rewrite oc_word by (done || solve_u). rewrite oc_add_l by solve_u.
    match goal with |- oc (?x + (?w + ?t)) = _ => replace (x + (w + t)) with (x + t + w) by lia end.
    rewrite oc_word by (done || solve_u). f_equal. cbn [wsum]. lia.
Qed.

Lemma oc_split_add s t w :
  0 <= s -> 0 <= t -> 0 <= w -> oc (oc s + t + w) = oc (s + t + w).
Proof.
  intros Hs Ht Hw. replace (oc s + t + w) with (oc s + (t + w)) by lia.
  rewrite oc_add_l by lia. f_equal. lia.
Qed.

(** The tail of version 3: at most seven bytes and the first odd byte. *)
Lemma version3_tail odd tail rest sum t1 :
  bytes_ok tail -> (length tail <= 7)%nat -> is_u8 t1 -> is_u32 sum ->
  ('(sum, ps, len) ← sum_halfwords (tail ++ rest) (length tail) (FOLD_U32T sum);
   finish odd ps len sum t1) =
  Ok (if odd : bool then oc (256 * (sum + wsum tail + 256 * t1)) else oc (sum + wsum tail + 256 * t1)).
Proof.
  intros Hb Hl Ht Hs. rewrite fold_fold16 by done.
  pose proof (fold16_bound sum Hs) as Hf. pose proof (wsum_bound tail Hb). pose proof (wsum_nonneg tail Hb).
  destruct (sum_halfwords_spec tail rest (fold16 sum)) as (tl & s' & -> & Hsum & Htl & Htb & Hs0 & _);
    [done | lia | lia |].
  rewrite bind_ok, finish_spec by (done || solve_u). rewrite Hsum. unfold is_u32, is_u8 in *.
  assert (E : oc (fold16 sum + wsum tail + 256 * t1) = oc (sum + wsum tail + 256 * t1)).
  { rewrite <- (oc_split_add (fold16 sum)), oc_fold by lia. by apply oc_split_add; lia. }
  destruct odd; [|by rewrite E].
  by rewrite <- oc_mul_l, E, oc_mul_l by lia.
Qed.

Lemma version3_even a rest0 bs rest odd t1 :
  bytes_ok bs -> is_u8 t1 -> rest0 = bs ++ rest ->
  ('(sum, pl, len) ← (if negb (Z.land a 3 =? 0) && (1 <? length bs) then
      match rest0 with
      | b0 :: b1 :: rest => Ok (u32 (0 + (b0 + 256 * b1)), rest, Z.of_nat (length bs) - 2)
      | _ => Err OutOfBounds
      end
    else Ok (0, rest0, Z.of_nat (length bs)));
   '(sum, pl, len) ← Version3.sum_words8 (length pl) pl len sum;
   let sum := FOLD_U32T sum in
   '(sum, ps, len) ← sum_halfwords pl len sum;
   finish odd ps len sum t1) =
  Ok (if odd : bool then oc (256 * (wsum bs + 256 * t1)) else oc (wsum bs + 256 * t1)).
Proof.
  intros Hb Ht ->.
  assert (Hgo : forall bs sum, bytes_ok bs -> is_u32 sum ->
    ('(sum, pl, len) ← Version3.sum_words8 (length (bs ++ rest)) (bs ++ rest) (length bs) sum;
     let sum := FOLD_U32T sum in
     '(sum, ps, len) ← sum_halfwords pl len sum;
     finish odd ps len sum t1) =
    Ok (if odd : bool then oc (256 * (sum + wsum bs + 256 * t1)) else oc (sum + wsum bs + 256 * t1))).
  { clear bs Hb. intros bs sum Hb Hs.
    destruct (sum_words8_spec (length (bs ++ rest)) bs rest sum) as (tail & s' & -> & Hl & Htb & Hr & Hoc);
      [done | done | rewrite length_app; lia |].
    rewrite bind_ok, version3_tail by done. pose proof (wsum_nonneg bs Hb). pose proof (wsum_nonneg tail Htb).
    unfold is_u32, is_u8 in *.
    assert (E : oc (s' + wsum tail + 256 * t1) = oc (sum + wsum bs + 256 * t1)).
    { by rewrite <- oc_add_l, Hoc, oc_add_l by lia. }
    destruct odd; [|by rewrite E]. by rewrite <- oc_mul_l, E, oc_mul_l by lia. }
  destruct (negb _ && _) eqn:Ec.
  - apply andb_true_iff in Ec as [_ Ec]. apply Z.ltb_lt in Ec.
    destruct bs as [|b0 [|b1 bs]]; [simpl in Ec; lia | simpl in Ec; lia |]. cbn [app].
    unfold bytes_ok in Hb. do 2 apply Forall_cons in Hb as [? Hb].
    rewrite bind_ok. replace (Z.of_nat (length (b0 :: b1 :: bs)) - 2) with (Z.of_nat (length bs))
      by (cbn [length]; lia).
    rewrite Hgo by (done || solve_u). rewrite u32_id by solve_u. cbn [wsum].
    by rewrite Z.add_0_l.
  - rewrite bind_ok, Hgo by (done || solve_u). by rewrite Z.add_0_l.
Qed.

Lemma version3_spec addr bs rest :
  bytes_ok bs -> Version3.lwip_standard_chksum addr (bs ++ rest) (length bs) = Ok (oc (wsum bs)).
Proof.
  intros Hb. unfold Version3.lwip_standard_chksum, align_first.
  destruct (Z.odd addr); cbn [andb].
  - destruct bs as [|b bs].
    { change (0 <? Z.of_nat (length [])) with false. cbn match. rewrite bind_ok.
      by rewrite (version3_even _ _ [] rest) by (done || solve_u). }
    unfold bytes_ok in Hb. apply Forall_cons in Hb as [Hb0 Hb].
    destruct (Z.ltb_spec 0 (length (b :: bs))); [|simpl in *; lia]. cbn [app]. rewrite bind_ok.
    replace (Z.of_nat (length (b :: bs)) - 1) with (Z.of_nat (length bs)) by (cbn [length]; lia).
    rewrite (version3_even _ _ bs rest) by done. rewrite Z.add_comm. by rewrite oc_256_cons.
  - rewrite bind_ok, (version3_even _ _ bs rest) by (done || solve_u). do 2 f_equal. lia.
Qed.

Lemma seg_chksum q :
  seg_ok q ->
  LWIP_CHKSUM (seg_addr q) (seg_payload q) (seg_len q) =
  Ok (oc (wsum (take (Z.to_nat (seg_len q)) (seg_payload q)))).
Proof.
  intros (Hb & Hl & Hm). unfold LWIP_CHKSUM.
  pose proof (version2_spec (seg_addr q) (take (Z.to_nat (seg_len q)) (seg_payload q))
    (drop (Z.to_nat (seg_len q)) (seg_payload q)) (Forall_take _ _ _ Hb)) as E.
  rewrite length_take, take_drop in E.
  replace (Z.of_nat (Z.to_nat (seg_len q) `min` length (seg_payload q))) with (seg_len q) in E by lia.
  apply E. lia.
Qed.

Lemma chain_bytes_cons q p :
  chain_bytes (q :: p) = take (Z.to_nat (seg_len q)) (seg_payload q) ++ chain_bytes p.
Proof. done. Qed.

Lemma acc_of_range a bs : 0 <= acc_of a bs <= 65535.
Proof. unfold acc_of. destruct (Nat.even _); apply oc_range. Qed.

(** One pbuf: add its sum and fold, before the swap. *)
Lemma acc_add a prev bs :
  0 <= a -> bytes_ok prev -> bytes_ok bs ->
  FOLD_U32T (u32 (acc_of a prev + oc (wsum bs))) =
  if Nat.even (length prev) then oc (a + wsum (prev ++ bs)) else oc (256 * (a + wsum (prev ++ bs))).
Proof.
  intros Ha Hp Hb. pose proof (acc_of_range a prev). pose proof (oc_range (wsum bs)).
  pose proof (wsum_nonneg prev Hp). pose proof (wsum_nonneg bs Hb).
  rewrite u32_id, fold_once by solve_u. unfold acc_of. destruct (Nat.even (length prev)) eqn:Ev.
  - rewrite oc_add_l, oc_add_r, wsum_app_even by (done || lia). f_equal. lia.
  - rewrite oc_add_l, oc_add_r by lia.
    assert (0 <= wsum (prev ++ bs)) by by apply wsum_nonneg, Forall_app.
    destruct (wsum_app_odd prev bs Hp Hb Ev) as [Hm Hz]. apply oc_congr; [|lia].
    rewrite <- (Z.mul_mod_idemp_r 256 (a + wsum (prev ++ bs))), <- (Z.add_mod_idemp_r a), Hm by lia.
    lia.
Qed.

Lemma swap_acc a bs (b : bool) :
  0 <= a -> bytes_ok bs ->
  SWAP_BYTES_IN_WORD (if b then oc (a + wsum bs) else oc (256 * (a + wsum bs))) =
  if b then oc (256 * (a + wsum bs)) else oc (a + wsum bs).
Proof.
  intros Ha Hb. pose proof (wsum_nonneg bs Hb).
  destruct b; rewrite swap_oc by lia; [done | by rewrite oc_65536 by lia].
Qed.

Lemma nat_even_mod n : Nat.even n = (Z.of_nat n mod 2 =? 0).
Proof.
  destruct (Nat.even n) eqn:E.
  - apply Nat.even_spec in E as [k ->]. symmetry. apply Z.eqb_eq. lia.
  - rewrite <- Nat.negb_odd in E. apply negb_false_iff, Nat.odd_spec in E as [k ->].
    symmetry. apply Z.eqb_neq. lia.
Qed.

(** One round of the loops over the chain: [bs] is what is summed of the pbuf;
    the bytes change places when it is odd. *)
Lemma chain_round a prev bs (b : bool) :
  0 <= a -> bytes_ok prev -> bytes_ok bs -> b = Nat.even (length bs) ->
  (if b then FOLD_U32T (u32 (acc_of a prev + oc (wsum bs)))
   else SWAP_BYTES_IN_WORD (FOLD_U32T (u32 (acc_of a prev + oc (wsum bs))))) =
  acc_of a (prev ++ bs) /\
  (if b then negb (Nat.even (length prev)) else negb (negb (Nat.even (length prev)))) =
  negb (Nat.even (length (prev ++ bs))).
Proof.
  intros Ha Hp Hb ->. rewrite acc_add by done. unfold acc_of. rewrite length_app, Nat.even_add.
  assert (bytes_ok (prev ++ bs)) by by apply Forall_app.
  destruct (Nat.even (length bs)); [by destruct (Nat.even (length prev))|].
  rewrite swap_acc by done. by destruct (Nat.even (length prev)).
Qed.

Lemma seg_take q :
  seg_ok q -> bytes_ok (take (Z.to_nat (seg_len q)) (seg_payload q)) /\
  Nat.even (length (take (Z.to_nat (seg_len q)) (seg_payload q))) = (seg_len q mod 2 =? 0).
Proof.
  intros (Hb & Hl & _). split; [by apply Forall_take|]. rewrite nat_even_mod, length_take.
  do 2 f_equal. lia.
Qed.

Lemma chain_bytes_ok p : Forall seg_ok p -> bytes_ok (chain_bytes p).
Proof.
  induction 1 as [|q p Hq Hp IH]; [constructor|]. rewrite chain_bytes_cons.
  apply Forall_app. split; [apply (seg_take q Hq) | done].
Qed.

Lemma chksum_chain_spec p a : forall prev,
  Forall seg_ok p -> 0 <= a -> bytes_ok prev ->
  chksum_chain p (acc_of a prev) (negb (Nat.even (length prev))) =
  Ok (acc_of a (prev ++ chain_bytes p), negb (Nat.even (length (prev ++ chain_bytes p)))).
Proof.
  induction p as [|q p IH]; intros prev Hp Ha Hprev.
  - by rewrite app_nil_r.
  - apply Forall_cons in Hp as [Hq Hp]. cbn [chksum_chain]. rewrite seg_chksum, bind_ok by done.
    destruct (seg_take q Hq) as [Hb He].
    set (bs := take (Z.to_nat (seg_len q)) (seg_payload q)) in *.
    destruct (chain_round a prev bs _ Ha Hprev Hb (eq_sym He)) as [E1 E2].
    rewrite chain_bytes_cons. fold bs. rewrite app_assoc.
    assert (Hpb : bytes_ok (prev ++ bs)) by by apply Forall_app.
    rewrite <- IH by done. rewrite <- E1, <- E2. by destruct (seg_len q mod 2 =? 0).
Qed.

(** The last swap leaves the plain sum. *)
Lemma acc_final a bs :
  0 <= a -> bytes_ok bs ->
  (if negb (Nat.even (length bs)) then SWAP_BYTES_IN_WORD (acc_of a bs) else acc_of a bs) =
  oc (a + wsum bs).
Proof.
  intros Ha Hb. unfold acc_of. destruct (Nat.even (length bs)); [done|]. cbn [negb].
  exact (swap_acc a bs false Ha Hb).
Qed.

Lemma not16_oc v : not16 (oc v) = 65535 - oc v.
Proof.
  pose proof (oc_range v). unfold not16. rewrite land_65535, Z.mod_small by lia.
  unfold Z.lnot. solve_u.
Qed.

Lemma add_proto_spec proto proto_len acc (swapped : bool) v :
  is_u8 proto -> is_u16 proto_len -> 0 <= v ->
  (if swapped then SWAP_BYTES_IN_WORD acc else acc) = oc v ->
  add_proto proto proto_len acc swapped =
  65535 - oc (v + wsum [0; proto; proto_len / 256; proto_len mod 256]).
Proof.
  intros Hp Hl Hv E. unfold add_proto. rewrite E.
  pose proof (oc_range v). unfold lwip_htons.
  rewrite !pp_htons_swap by solve_u. rewrite u16_id by solve_u. unfold swap16.
  unfold is_u8, is_u16 in *.
  rewrite (u32_id (oc v + _)) by solve_u. rewrite u32_id by solve_u.
  rewrite fold_twice by solve_u. rewrite not16_oc. f_equal.
  rewrite <- (oc_add_l v) by (cbn [wsum]; lia). f_equal. cbn [wsum]. lia.
Qed.

Lemma addr_acc_spec src dest :
  is_u32 src -> is_u32 dest -> addr_acc src dest = oc (wsum (le_bytes src ++ le_bytes dest)).
Proof.
  intros Hs Hd. unfold addr_acc. rewrite !land_65535, !shiftr_16. unfold is_u32 in *.
  rewrite (u32_id (src mod 65536 + _)) by solve_u. rewrite (u32_id (_ + dest mod 65536)) by solve_u.
  rewrite u32_id by solve_u. rewrite fold_twice by solve_u. f_equal.
  unfold le_bytes. cbn [app wsum]. lia.
Qed.

(** The bytes a bounded checksum takes of one pbuf and leaves to the next. *)
Lemma take_chain n q p :
  seg_ok q -> (0 <= n) ->
  take (Z.to_nat n) (chain_bytes (q :: p)) =
  take (Z.to_nat (Z.min n (seg_len q))) (seg_payload q) ++
  take (Z.to_nat (n - Z.min n (seg_len q))) (chain_bytes p).
Proof.
  intros (_ & Hl & _) Hn. rewrite chain_bytes_cons, take_app, take_take, length_take.
  do 2 f_equal; lia.
Qed.

Lemma chksum_chain_partial_0 p acc sw : chksum_chain_partial p 0 acc sw = Ok (acc, sw).
Proof. by destruct p. Qed.

Lemma chksum_chain_partial_spec p a : forall prev n,
  Forall seg_ok p -> 0 <= a -> bytes_ok prev -> 0 <= n < 0x7fff ->
  exists acc swapped,
    chksum_chain_partial p n (acc_of a prev) (negb (Nat.even (length prev))) = Ok (acc, swapped) /\
    (if swapped : bool then SWAP_BYTES_IN_WORD acc else acc) =
    oc (a + wsum (prev ++ take (Z.to_nat n) (chain_bytes p))).
Proof.
  induction p as [|q p IH]; intros prev n Hp Ha Hprev Hn; cbn [chksum_chain_partial].
  - eexists _, _. split; [done|]. change (chain_bytes []) with (@nil Z).
    rewrite take_nil, app_nil_r. by apply acc_final.
  - apply Forall_cons in Hp as [Hq Hp]. destruct (Z.ltb_spec 0 n) as [Hn0|Hn0].
    2: { replace (Z.to_nat n) with 0%nat by lia. rewrite take_0, app_nil_r.
         eexists _, _. split; [done|]. by apply acc_final. }
    rewrite take_chain by (done || lia).
    replace (if n <? seg_len q then n else seg_len q) with (Z.min n (seg_len q)) by (bool_cases; lia).
    destruct Hq as (Hqb & Hql & Hqm).
    assert (Hq' : seg_ok (Seg (seg_addr q) (seg_payload q) (Z.min n (seg_len q))))
      by (split; [done|]; cbn [seg_len seg_payload]; lia).
    pose proof (seg_chksum _ Hq') as Ec. cbn [seg_addr seg_len seg_payload] in Ec.
    destruct (seg_take _ Hq') as [Hb He]. cbn [seg_addr seg_len seg_payload] in Hb, He.
    rewrite Ec, bind_ok. set (k := Z.min n (seg_len q)) in *.
    set (bs := take (Z.to_nat k) (seg_payload q)) in *.
    rewrite u16_id by solve_u. unfold lwip_assert.
    destruct (Z.ltb_spec (n - k) 0x7fff); [|lia]. rewrite bind_ok.
    assert (Hpb : bytes_ok (prev ++ bs)) by by apply Forall_app.
    rewrite app_assoc. destruct (decide (k = seg_len q)) as [Ek|Ek].
    + destruct (chain_round a prev bs _ Ha Hprev Hb (eq_sym He)) as [E1 E2]. rewrite Ek in E1, E2.
      destruct (IH (prev ++ bs) (n - k)) as (acc & sw & E & Hf); [done | done | done | lia |].
      exists acc, sw. rewrite <- E, <- E1, <- E2, Ek.
      destruct (seg_len q mod 2 =? 0); (split; [done | by rewrite <- Ek]).
    + assert (n - k = 0) as -> by lia. change (Z.to_nat 0) with 0%nat. rewrite take_0, app_nil_r.
      rewrite acc_add by done.
      destruct (negb (seg_len q mod 2 =? 0)); rewrite chksum_chain_partial_0;
        eexists _, _; (split; [done|]); rewrite ?swap_acc by done;
        pose proof (swap_acc a (prev ++ bs) true Ha Hpb); pose proof (swap_acc a (prev ++ bs) false Ha Hpb);
        by destruct (Nat.even (length prev)).
Qed.

Lemma le_bytes_ok n : is_u32 n -> bytes_ok (le_bytes n).
Proof. intros Hn. unfold le_bytes. repeat constructor; solve_u. Qed.

Lemma addr_wsum_nonneg src dest :
  is_u32 src -> is_u32 dest -> 0 <= wsum (le_bytes src ++ le_bytes dest).
Proof. intros Hs Hd. apply wsum_nonneg, Forall_app. split; by apply le_bytes_ok. Qed.

Lemma addr_acc_acc src dest :
  is_u32 src -> is_u32 dest ->
  addr_acc src dest = acc_of (wsum (le_bytes src ++ le_bytes dest)) [].
Proof.
  intros Hs Hd. rewrite addr_acc_spec by done. unfold acc_of.
  change (Nat.even (length [])) with true. cbn match. by rewrite Z.add_0_r.
Qed.

Lemma pseudo_sum src dest proto proto_len data :
  oc (wsum (le_bytes src ++ le_bytes dest) + wsum data +
      wsum [0; proto; proto_len / 256; proto_len mod 256]) =
  oc (wsum (pseudo_header src dest proto proto_len ++ data)).
Proof.
  f_equal.
  assert (pseudo_header src dest proto proto_len ++ data = (le_bytes src ++ le_bytes dest) ++
    [0; proto; proto_len / 256; proto_len mod 256] ++ data) as ->
    by (unfold pseudo_header; by rewrite <- !app_assoc).
  rewrite (wsum_app_even (_ ++ _)) by done. rewrite (wsum_app_even [0; proto; _; _]) by done. lia.
Qed.

Lemma lwip_chksum_data addr bs rest :
  bytes_ok bs -> length bs <= 65535 -> LWIP_CHKSUM addr (bs ++ rest) (length bs) = Ok (oc (wsum bs)).
Proof. intros Hb Hl. apply version2_spec; (done || lia). Qed.

Lemma inet_chksum_spec addr bs :
  bytes_ok bs -> length bs <= 65535 -> inet_chksum addr bs (length bs) = Ok (65535 - oc (wsum bs)).
Proof.
  intros Hb Hl. unfold inet_chksum. pose proof (lwip_chksum_data addr bs [] Hb Hl) as E.
  rewrite app_nil_r in E. rewrite E, bind_ok. pose proof (oc_range (wsum bs)).
  unfold Z.lnot. f_equal. solve_u.
Qed.

(** The copy is the data and the sum is that of the data. *)
Lemma lwip_chksum_copy_spec addr dst bs rest :
  bytes_ok bs -> length bs <= 65535 -> (length bs <= length dst)%nat ->
  lwip_chksum_copy addr dst (bs ++ rest) (length bs) =
  Ok (bs ++ drop (length bs) dst, oc (wsum bs)).
Proof.
  intros Hb Hl Hd. unfold lwip_chksum_copy.
  pose proof (memcpy_in_bounds dst 0 (bs ++ rest) (length bs)) as E.
  change (Z.of_nat 0) with 0 in E. rewrite E by (rewrite ?length_app; lia).
  rewrite bind_ok, take_app_length, list_inserts_splice by lia. rewrite take_0, app_nil_l.
  cbn [Nat.add]. by rewrite lwip_chksum_data, bind_ok.
Qed.

Lemma header_bytes_ok pre a b post :
  bytes_ok pre -> bytes_ok post -> is_u8 a -> is_u8 b -> bytes_ok (pre ++ [a; b] ++ post).
Proof. intros Hp Hq Ha Hb. apply Forall_app. split; [done|].
  apply Forall_cons. split; [done|]. apply Forall_cons. done. Qed.

Lemma inet_chksum_pbuf_spec p : Forall seg_ok p -> inet_chksum_pbuf p = Ok (65535 - oc (wsum (chain_bytes p))).
Proof.
  intros Hp. unfold inet_chksum_pbuf. pose proof (chksum_chain_spec p 0 [] Hp ltac:(lia) ltac:(constructor)) as E.
  change (acc_of 0 []) with 0 in E. change (negb (Nat.even (length []))) with false in E.
  rewrite E, bind_ok, app_nil_l, acc_final by (by apply chain_bytes_ok || lia). by rewrite not16_oc.
Qed.

(** ** Properties *)

(** C37: the three versions of [lwip_standard_chksum] agree: on data of up to
    64 KiB at any address, even or odd, each of them returns the ones'
    complement sum of the 16-bit words of the data as a byte sequence. *)
Theorem chksum_versions_agree addr bs rest :
  bytes_ok bs -> length bs <= 65535 ->
  Version1.lwip_standard_chksum (bs ++ rest) (length bs) = Ok (oc (wsum bs)) /\
  Version2.lwip_standard_chksum addr (bs ++ rest) (length bs) = Ok (oc (wsum bs)) /\
  Version3.lwip_standard_chksum addr (bs ++ rest) (length bs) = Ok (oc (wsum bs)).
Proof.
  intros Hb Hl. split; [by apply version1_spec|]. split; [apply version2_spec; (done || lia)|].
  by apply version3_spec.
Qed.

Lemma chksum_versions_agree_witness :
  Version1.lwip_standard_chksum ([69; 0; 0; 30; 7] ++ [1]) 5%nat = Ok (oc (wsum [69; 0; 0; 30; 7])) /\
  Version2.lwip_standard_chksum 0x20000001 ([69; 0; 0; 30; 7] ++ [1]) 5%nat
    = Ok (oc (wsum [69; 0; 0; 30; 7])) /\
  Version3.lwip_standard_chksum 0x20000001 ([69; 0; 0; 30; 7] ++ [1]) 5%nat
    = Ok (oc (wsum [69; 0; 0; 30; 7])).
Proof.
  apply (chksum_versions_agree 0x20000001 [69; 0; 0; 30; 7] [1]);
    [repeat constructor; done | vm_compute; done].
Defined.

(** However the data is cut into pbufs, at whatever addresses and with
    odd lengths in the middle of the chain, the checksums over the chain are
    those of the concatenated data: [inet_chksum_pbuf] of the data alone,
    [inet_chksum_pseudo] of the pseudo header followed by the data, and
    [inet_chksum_pseudo_partial] of the pseudo header followed by its first
    [chksum_len] bytes. *)
Theorem chksum_chain_correct p proto proto_len chksum_len src dest :
  Forall seg_ok p -> is_u8 proto -> is_u16 proto_len -> is_u32 src -> is_u32 dest ->
  0 <= chksum_len < 0x7fff ->
  let data := chain_bytes p in
  let hdr := pseudo_header src dest proto proto_len in
  inet_chksum_pbuf p = Ok (65535 - oc (wsum data)) /\
  inet_chksum_pseudo p proto proto_len src dest = Ok (65535 - oc (wsum (hdr ++ data))) /\
  inet_chksum_pseudo_partial p proto proto_len chksum_len src dest =
    Ok (65535 - oc (wsum (hdr ++ take (Z.to_nat chksum_len) data))).
Proof.
  intros Hp Hpr Hpl Hs Hd Hn data hdr. pose proof (chain_bytes_ok p Hp) as Hb. fold data in Hb.
  split; [|split].
  - by apply inet_chksum_pbuf_spec.
  - unfold inet_chksum_pseudo, inet_cksum_pseudo_base.
    rewrite addr_acc_acc by done.
    pose proof (chksum_chain_spec p (wsum (le_bytes src ++ le_bytes dest)) [] Hp
      (addr_wsum_nonneg src dest Hs Hd) ltac:(constructor)) as E.
    change (negb (Nat.even (length []))) with false in E. rewrite E, bind_ok, app_nil_l. fold data.
    erewrite add_proto_spec; [|done|done| |apply acc_final; [by apply addr_wsum_nonneg | done]].
    + f_equal. f_equal. apply pseudo_sum; done.
    + pose proof (addr_wsum_nonneg src dest Hs Hd). pose proof (wsum_nonneg data Hb). lia.
  - unfold inet_chksum_pseudo_partial, inet_cksum_pseudo_partial_base.
    rewrite addr_acc_acc by done.
    destruct (chksum_chain_partial_spec p (wsum (le_bytes src ++ le_bytes dest)) [] chksum_len Hp
      (addr_wsum_nonneg src dest Hs Hd) ltac:(constructor) Hn) as (acc & sw & E & Hf).
    change (negb (Nat.even (length []))) with false in E. rewrite E, bind_ok.
    rewrite app_nil_l in Hf. fold data in Hf.
    assert (Hbt : bytes_ok (take (Z.to_nat chksum_len) data)) by by apply Forall_take.
    erewrite add_proto_spec; [|done|done| |exact Hf].
    + f_equal. f_equal. apply pseudo_sum; done.
    + pose proof (addr_wsum_nonneg src dest Hs Hd). pose proof (wsum_nonneg _ Hbt). lia.
Qed.

Lemma chksum_chain_correct_witness :
  let p := [Seg 0x20000001 [1; 2; 3] 3; Seg 0x20000100 [4; 5; 6; 7] 2] in
  inet_chksum_pbuf p = Ok (65535 - oc (wsum [1; 2; 3; 4; 5])) /\
  inet_chksum_pseudo p 17 5 0x0201A8C0 0x0101A8C0 =
    Ok (65535 - oc (wsum (pseudo_header 0x0201A8C0 0x0101A8C0 17 5 ++ [1; 2; 3; 4; 5]))) /\
  inet_chksum_pseudo_partial p 17 5 4 0x0201A8C0 0x0101A8C0 =
    Ok (65535 - oc (wsum (pseudo_header 0x0201A8C0 0x0101A8C0 17 5 ++ [1; 2; 3; 4]))).
Proof.
  apply (chksum_chain_correct [Seg 0x20000001 [1; 2; 3] 3; Seg 0x20000100 [4; 5; 6; 7] 2]
    17 5 4 0x0201A8C0 0x0101A8C0); try (vm_compute; split; congruence).
  repeat constructor; cbn; lia.
Defined.

(** The checksum protects a header: storing what [inet_chksum] computes
    over a header with a zeroed checksum field into that field (at an even
    offset, lower byte first as the field is in memory) makes [inet_chksum] of
    the header 0, which is what the receiving side tests. *)
Theorem inet_chksum_verifies addr pre post c :
  bytes_ok pre -> bytes_ok post -> Nat.even (length pre) = true ->
  length (pre ++ [0; 0] ++ post) <= 65535 ->
  inet_chksum addr (pre ++ [0; 0] ++ post) (length (pre ++ [0; 0] ++ post)) = Ok c ->
  inet_chksum addr (pre ++ [c mod 256; c / 256] ++ post) (length (pre ++ [0; 0] ++ post)) = Ok 0.
Proof.
  intros Hp Hq He Hl Hc.
  assert (H0 : bytes_ok (pre ++ [0; 0] ++ post))
    by (apply header_bytes_ok; (done || solve_u)).
  rewrite inet_chksum_spec in Hc by done.
  assert (Hc' : 65535 - oc (wsum (pre ++ [0; 0] ++ post)) = c) by congruence. clear Hc.
  pose proof (oc_range (wsum (pre ++ [0; 0] ++ post))) as Hr.
  assert (H1 : bytes_ok (pre ++ [c mod 256; c / 256] ++ post))
    by (apply header_bytes_ok; (done || solve_u)).
  assert (El : length (pre ++ [0; 0] ++ post) = length (pre ++ [c mod 256; c / 256] ++ post))
    by by rewrite !length_app.
  rewrite El, inet_chksum_spec by (done || lia). f_equal.
  assert (Ew : wsum (pre ++ [c mod 256; c / 256] ++ post) = wsum (pre ++ [0; 0] ++ post) + c).
  { rewrite !wsum_app_even by done. cbn [app wsum]. lia. }
  rewrite Ew, <- Hc', oc_complement by by apply wsum_nonneg. lia.
Qed.

Lemma inet_chksum_verifies_witness :
  inet_chksum 0x20000000 ([69; 0; 0; 20] ++ [(65535 - oc (wsum [69; 0; 0; 20; 0; 0; 1; 2])) mod 256;
    (65535 - oc (wsum [69; 0; 0; 20; 0; 0; 1; 2])) / 256] ++ [1; 2]) 8%nat = Ok 0.
Proof.
  apply (inet_chksum_verifies 0x20000000 [69; 0; 0; 20] [1; 2]
    (65535 - oc (wsum [69; 0; 0; 20; 0; 0; 1; 2])));
    first [repeat constructor; done | reflexivity | vm_compute; congruence].
Defined.
