(* ===== verification/Ip4Addr.v ===== *)
(** * IPv4 addresses: src/src/lwip/core/ipv4/ip4_addr.c

    Addresses are 32-bit numbers in network order, as in [ip4_addr_t]. Text is
    a byte list that starts at the [char] pointer; [char] is unsigned on this
    target. *)

From S2P Require Import Prelude Strings Uart Onescomp Def.

(** ** Definitions *)

Definition IPADDR_ANY : Z := 0.
Definition IPADDR_BROADCAST : Z := 0xffffffff.
Definition IPADDR_NONE : Z := 0xffffffff.
Definition NETIF_FLAG_BROADCAST : Z := 0x02.
Definition IP4ADDR_STRLEN_MAX : Z := 16.

(** The fields of [struct netif] that the test reads. *)
Record netif4 : Type := Netif4 { nif_flags : Z; nif_ip_addr : Z; nif_netmask : Z }.

Definition not32 (x : Z) : Z := u32 (Z.lnot x).

Definition ip4_addr_net_eq (addr1 addr2 mask : Z) : bool :=
  Z.land addr1 mask =? Z.land addr2 mask.

Definition ip4_addr_isbroadcast_u32 (addr : Z) (netif : netif4) : Z :=
  if (not32 addr =? IPADDR_ANY) || (addr =? IPADDR_ANY) then 1
  else if Z.land (nif_flags netif) NETIF_FLAG_BROADCAST =? 0 then 0
  else if addr =? nif_ip_addr netif then 0
  else if ip4_addr_net_eq addr (nif_ip_addr netif) (nif_netmask netif)
          && (Z.land addr (not32 (nif_netmask netif)) =?
              Z.land IPADDR_BROADCAST (not32 (nif_netmask netif))) then 1
  else 0.

(** [for (mask = 1UL << 31; mask != 0; mask >>= 1) if ((nm & mask) == 0) break;] *)
Fixpoint first_zero (fuel : nat) (nm mask : Z) : res Z :=
  if negb (mask =? 0) then
    match fuel with
    | O => Err OutOfFuel
    | S fuel' => if Z.land nm mask =? 0 then Ok mask else first_zero fuel' nm (Z.shiftr mask 1)
    end
  else Ok mask.

Fixpoint no_more_ones (fuel : nat) (nm mask : Z) : res Z :=
  if negb (mask =? 0) then
    match fuel with
    | O => Err OutOfFuel
    | S fuel' =>
        if negb (Z.land nm mask =? 0) then Ok 0 else no_more_ones fuel' nm (Z.shiftr mask 1)
    end
  else Ok 1.

Definition ip4_addr_netmask_valid (netmask : Z) : res Z :=
  let nm_hostorder := lwip_htonl netmask in
  mask ← first_zero 32 nm_hostorder (Z.shiftl 1 31);
  no_more_ones 32 nm_hostorder mask.

(** The inner [for (;;)]: the value and the text from the terminator on. *)
Fixpoint aton_digits (base : Z) (cp : list Z) (val : Z) : res (Z * list Z) :=
  match cp with
  | [] => Err OutOfBounds
  | c :: cp' =>
      if isdigit c then
        if (base =? 8) && (8 <=? u32 (c - 48)) then Ok (val, cp)
        else aton_digits base cp' (u32 (u32 (val * base) + u32 (c - 48)))
      else if (base =? 16) && isxdigit c then
        aton_digits base cp'
          (Z.lor (u32 (Z.shiftl val 4)) (u32 (c + 10 - (if islower c then 97 else 65))))
      else Ok (val, cp)
  end.

(** One number: [None] when it does not start with a digit. *)
Definition aton_part (cp : list Z) : res (option (Z * list Z)) :=
  c ← buf_get cp 0;
  if negb (isdigit c) then Ok None else
  '(base, cp) ← (if c =? 48 then
      let cp := drop 1 cp in
      c ← buf_get cp 0;
      if (c =? 120) || (c =? 88) then Ok (16, drop 1 cp) else Ok (8, cp)
    else Ok (10, cp));
  '(val, cp) ← aton_digits base cp 0;
  Ok (Some (val, cp)).

(** The outer [for (;;)], [parts] stored so far; [None] for [return 0]. *)
Fixpoint aton_parts (fuel : nat) (cp parts : list Z) : res (option (list Z * Z * list Z)) :=
  match fuel with
  | O => Err OutOfFuel
  | S fuel' =>
      r ← aton_part cp;
      match r with
      | None => Ok None
      | Some (val, cp) =>
          c ← buf_get cp 0;
          if c =? 46 then
            if (3 <=? length parts)%nat then Ok None
            else aton_parts fuel' (drop 1 cp) (parts ++ [val])
          else Ok (Some (parts, val, cp))
      end
  end.

(** The [switch]: the address in host order. *)
Definition aton_concoct (parts : list Z) (val : Z) : res (option Z) :=
  match parts with
  | [] => Ok (Some val)
  | [p0] =>
      if (0xffffff <? val) || (0xff <? p0) then Ok None
      else Ok (Some (Z.lor val (u32 (Z.shiftl p0 24))))
  | [p0; p1] =>
      if (0xffff <? val) || ((0xff <? p0) || (0xff <? p1)) then Ok None
      else Ok (Some (Z.lor val (Z.lor (u32 (Z.shiftl p0 24)) (u32 (Z.shiftl p1 16)))))
  | [p0; p1; p2] =>
      if (0xff <? val) || ((0xff <? p0) || (0xff <? p1) || (0xff <? p2)) then Ok None
      else Ok (Some (Z.lor val (Z.lor (Z.lor (u32 (Z.shiftl p0 24)) (u32 (Z.shiftl p1 16)))
                                      (u32 (Z.shiftl p2 8)))))
  | _ => Err (AssertFail "unhandled")
  end.

(** [Some addr] for the return value 1 and the address stored, [None] for 0. *)
Definition ip4addr_aton (cp : list Z) : res (option Z) :=
  r ← aton_parts 4 cp [];
  match r with
  | None => Ok None
  | Some (parts, val, cp) =>
      c ← buf_get cp 0;
      if negb (c =? 0) && negb (isspace c) then Ok None
      else
        v ← aton_concoct parts val;
        Ok (option_map lwip_htonl v)
  end.

Definition ipaddr_addr (cp : list Z) : res Z :=
  v ← ip4addr_aton cp; Ok (default IPADDR_NONE v).

(** [do { rem = *ap % 10; *ap /= 10; inv[i++] = '0' + rem; } while ( *ap);] *)
Fixpoint ntoa_digits (fuel : nat) (ap : Z) (inv : list Z) (i : Z) : res (list Z * Z) :=
  match fuel with
  | O => Err OutOfFuel
  | S fuel' =>
      let rem := ap mod 10 in
      let ap := ap / 10 in
      inv ← buf_set inv i (u8 (48 + rem));
      if negb (ap =? 0) then ntoa_digits fuel' ap inv (i + 1) else Ok (inv, i + 1)
  end.

(** [while (i--)]; [None] for [return NULL]. *)
Fixpoint ntoa_put (i : nat) (inv buf : list Z) (rp len buflen : Z)
    : res (list Z * option (Z * Z)) :=
  match i with
  | O => Ok (buf, Some (rp, len))
  | S i' =>
      if buflen <=? len then Ok (buf, None)
      else
        c ← buf_get inv i';
        buf ← buf_set buf rp c;
        ntoa_put i' inv buf (rp + 1) (len + 1) buflen
  end.

(** [for (n = 0; n < 4; n++)] over the bytes of the address. *)
Fixpoint ntoa_bytes (aps : list Z) (buf : list Z) (rp len buflen : Z)
    : res (list Z * option (Z * Z)) :=
  match aps with
  | [] => Ok (buf, Some (rp, len))
  | ap :: aps' =>
      '(inv, i) ← ntoa_digits 4 ap [0; 0; 0] 0;
      '(buf, r) ← ntoa_put (Z.to_nat i) inv buf rp len buflen;
      match r with
      | None => Ok (buf, None)
      | Some (rp, len) =>
          if buflen <=? len then Ok (buf, None)
          else
            buf ← buf_set buf rp 46;
            ntoa_bytes aps' buf (rp + 1) (len + 1) buflen
      end
  end.

(** The buffer and whether a pointer to it is returned (NULL otherwise). *)
Definition ip4addr_ntoa_r (addr : Z) (buf : list Z) (buflen : Z) : res (list Z * bool) :=
  '(buf, r) ← ntoa_bytes (le_bytes addr) buf 0 0 buflen;
  match r with
  | None => Ok (buf, false)
  | Some (rp, _) => buf ← buf_set buf (rp - 1) 0; Ok (buf, true)
  end.

Definition ip4addr_ntoa (str : list Z) (addr : Z) : res (list Z * bool) :=
  ip4addr_ntoa_r addr str IP4ADDR_STRLEN_MAX.

(** Dotted decimal notation. *)
Definition dotted (addr : Z) : list Z :=
  match le_bytes addr with
  | [a; b; c; d] =>
      dec_string a ++ [46] ++ dec_string b ++ [46] ++ dec_string c ++ [46] ++ dec_string d
  | _ => []
  end.

(** The text that the loop over the bytes produces. *)
Definition dotted_dots (aps : list Z) : list Z := aps ≫= fun ap => dec_string ap ++ [46].

(** A netmask of [k] ones, in host order. *)
Definition prefix_mask (k : Z) : Z := 2 ^ 32 - 2 ^ (32 - k).

(** ** Lemmas *)

Lemma land_pow2_0 n i : 0 <= i -> (Z.land n (2 ^ i) =? 0) = negb (Z.testbit n i).
Proof.
  intros Hi. destruct (Z.testbit n i) eqn:E; cbn [negb].
  - apply Z.eqb_neq. intros H0. apply (f_equal (fun x => Z.testbit x i)) in H0.
    rewrite Z.land_spec, E, Z.pow2_bits_true, Z.bits_0 in H0 by lia. done.
  - apply Z.eqb_eq. apply Z.bits_inj'. intros m Hm. rewrite Z.land_spec, Z.bits_0.
    destruct (decide (m = i)) as [->|Hne]; [by rewrite E|].
    rewrite Z.pow2_bits_false by lia. apply andb_false_r.
Qed.

Lemma shiftr_pow2 i : Z.shiftr (2 ^ Z.of_nat i) 1 = match i with O => 0 | S j => 2 ^ Z.of_nat j end.
Proof.
  destruct i as [|i]; [done|]. rewrite Z.shiftr_div_pow2, Nat2Z.inj_succ, Z.pow_succ_r by lia.
  change (2 ^ 1) with 2. rewrite Z.mul_comm. by apply Z.div_mul.
Qed.

Lemma pow2_nonzero i : (2 ^ Z.of_nat i =? 0) = false.
Proof. apply Z.eqb_neq. pose proof (Z.pow_pos_nonneg 2 i). lia. Qed.

(** The first zero below a run of ones, if any. *)
Lemma first_zero_spec i : forall fuel nm, (i < fuel)%nat ->
  (first_zero fuel nm (2 ^ Z.of_nat i) = Ok 0 /\ forall m, 0 <= m <= i -> Z.testbit nm m = true) \/
  exists j : nat, (j <= i)%nat /\ first_zero fuel nm (2 ^ Z.of_nat i) = Ok (2 ^ Z.of_nat j) /\
    Z.testbit nm j = false /\ forall m, j < m <= i -> Z.testbit nm m = true.
Proof.
  induction i as [|i IH]; intros fuel nm Hf; (destruct fuel as [|fuel]; [lia|]);
    cbn [first_zero]; rewrite pow2_nonzero, land_pow2_0, shiftr_pow2 by lia; cbn [negb].
  - destruct (Z.testbit nm (Z.of_nat 0)) eqn:E; cbn [negb].
    + left. split; [by destruct fuel|]. intros m Hm. by replace m with (Z.of_nat 0) by lia.
    + right. exists 0%nat. split; [lia|]. split; [done|]. split; [done | lia].
  - destruct (Z.testbit nm (Z.of_nat (S i))) eqn:E; cbn [negb].
    + assert (Hm : forall m, m = Z.of_nat (S i) -> Z.testbit nm m = true) by congruence.
      destruct (IH fuel nm) as [[E1 Hones] | (j & Hj & E1 & Hz & Hones)]; [lia|left|right].
      * split; [done|]. intros m Hm'. destruct (decide (m = S i)); [by apply Hm | apply Hones; lia].
      * exists j. split; [lia|]. split; [done|]. split; [done|].
        intros m Hm'. destruct (decide (m = S i)); [by apply Hm | apply Hones; lia].
    + right. exists (S i). split; [lia|]. split; [done|]. split; [done | lia].
Qed.

Lemma no_more_ones_spec i : forall fuel nm, (i < fuel)%nat ->
  exists r, no_more_ones fuel nm (2 ^ Z.of_nat i) = Ok r /\ (r = 0 \/ r = 1) /\
    (r = 1 <-> forall m, 0 <= m <= i -> Z.testbit nm m = false).
Proof.
  induction i as [|i IH]; intros fuel nm Hf; (destruct fuel as [|fuel]; [lia|]);
    cbn [no_more_ones]; rewrite pow2_nonzero, land_pow2_0, shiftr_pow2 by lia; cbn [negb].
  - destruct (Z.testbit nm (Z.of_nat 0)) eqn:E; cbn [negb].
    + exists 0. split; [done|]. split; [lia|]. split; [lia|]. intros H.
      rewrite (H (Z.of_nat 0)) in E by lia. done.
    + exists 1. split; [by destruct fuel|]. split; [lia|]. split; [|done]. intros _ m Hm.
      by replace m with (Z.of_nat 0) by lia.
  - destruct (Z.testbit nm (Z.of_nat (S i))) eqn:E; cbn [negb].
    + exists 0. split; [done|]. split; [lia|]. split; [lia|]. intros H.
      rewrite (H (Z.of_nat (S i))) in E by lia. done.
    + destruct (IH fuel nm) as (r & E1 & Hr & Hz); [lia|]. exists r. split; [done|]. split; [done|].
      rewrite Hz. split; intros H m Hm; [|apply H; lia].
      destruct (decide (m = S i)) as [->|]; [done | apply H; lia].
Qed.

Lemma prefix_mask_bits k m :
  0 <= k <= 32 -> 0 <= m -> Z.testbit (prefix_mask k) m = (32 - k <=? m) && (m <? 32).
Proof.
  intros Hk Hm. unfold prefix_mask.
  assert (2 ^ 32 - 2 ^ (32 - k) = Z.shiftl (Z.ones k) (32 - k)) as ->.
  { rewrite Z.shiftl_mul_pow2, Z.ones_equiv by lia.
    assert (2 ^ 32 = 2 ^ k * 2 ^ (32 - k)) by (rewrite <- Z.pow_add_r by lia; f_equal; lia). lia. }
  rewrite Z.shiftl_spec by lia. destruct (Z.leb_spec (32 - k) m).
  - rewrite Z.testbit_ones_nonneg by lia. cbn [andb]. bool_cases; lia.
  - by rewrite Z.testbit_neg_r by lia.
Qed.

Lemma u32_bits_above n m : is_u32 n -> 32 <= m -> Z.testbit n m = false.
Proof.
  intros Hn Hm. rewrite <- (u32_id n Hn). unfold u32. change 4294967296 with (2 ^ 32).
  by apply Z.mod_pow2_bits_high; lia.
Qed.

Lemma netmask_valid_spec netmask :
  is_u32 (lwip_htonl netmask) ->
  exists r, ip4_addr_netmask_valid netmask = Ok r /\ (r = 0 \/ r = 1) /\
    (r = 1 <-> exists k, 0 <= k <= 32 /\ lwip_htonl netmask = prefix_mask k).
Proof.
  intros Hn. unfold ip4_addr_netmask_valid. set (nm := lwip_htonl netmask) in *.
  change (Z.shiftl 1 31) with (2 ^ Z.of_nat 31).
  destruct (first_zero_spec 31 32 nm) as [[E Hones] | (j & Hj & E & Hz & Hones)]; [lia|..];
    rewrite E, bind_ok.
  - exists 1. split; [done|]. split; [lia|]. split; [|done]. intros _. exists 32. split; [lia|].
    apply Z.bits_inj'. intros m Hm. rewrite prefix_mask_bits by lia.
    destruct (Z.ltb_spec m 32); [rewrite Hones by lia | rewrite u32_bits_above by (done || lia)];
      bool_cases; (done || lia).
  - destruct (no_more_ones_spec j 32 nm) as (r & E1 & Hr & Hrz); [lia|]. exists r.
    split; [done|]. split; [done|]. rewrite Hrz. split.
    + intros Hall. exists (31 - j). split; [lia|]. apply Z.bits_inj'. intros m Hm.
      rewrite prefix_mask_bits by lia. destruct (Z.ltb_spec m 32).
      * destruct (Z.leb_spec (32 - (31 - j)) m); cbn [andb]; [apply Hones; lia | apply Hall; lia].
      * rewrite andb_false_r. by apply u32_bits_above.
    + intros (k & Hk & Ek) m Hm. rewrite Ek in Hz |- *. rewrite prefix_mask_bits in Hz |- * by lia.
      bool_cases; (done || lia).
Qed.

(** The digits of every byte, by evaluation. *)
Lemma ntoa_digits_table :
  forallb (fun ap =>
    match ntoa_digits 4 ap [0; 0; 0] 0 with
    | Ok (inv, i) => (0 <=? i) && (i <=? 3) && (length inv =? 3)%nat
        && bool_decide (rev (take (Z.to_nat i) inv) = dec_string ap)
    | Err _ => false
    end) all_bytes = true.
Proof. vm_compute. reflexivity. Qed.

Lemma ntoa_digits_spec ap :
  is_u8 ap -> exists inv i, ntoa_digits 4 ap [0; 0; 0] 0 = Ok (inv, Z.of_nat i) /\
    (i <= length inv)%nat /\ rev (take i inv) = dec_string ap.
Proof.
  intros Hap. pose proof ntoa_digits_table as T. rewrite forallb_forall in T.
  specialize (T ap (proj1 (list_elem_of_In _ _) (all_bytes_in ap Hap))).
  destruct (ntoa_digits 4 ap [0; 0; 0] 0) as [[inv i]|]; [|done].
  rewrite !andb_true_iff, !Z.leb_le, Nat.eqb_eq, bool_decide_eq_true in T.
  destruct T as [[[H0 H3] Hl] Hd]. exists inv, (Z.to_nat i). rewrite Z2Nat.id by lia.
  split; [done|]. split; [lia | done].
Qed.

Lemma rev_take_S {A} (l : list A) i c : l !! i = Some c -> rev (take (S i) l) = c :: rev (take i l).
Proof. intros H. by rewrite (take_S_r _ _ _ H), rev_app_distr. Qed.

Lemma ntoa_put_spec i : forall inv buf (p buflen : nat),
  (i <= length inv)%nat -> (buflen <= length buf)%nat -> (p <= buflen)%nat ->
  if decide (p + i <= buflen)%nat then
    ntoa_put i inv buf p p buflen =
    Ok (list_inserts p (rev (take i inv)) buf, Some (Z.of_nat (p + i), Z.of_nat (p + i)))
  else exists buf', ntoa_put i inv buf p p buflen = Ok (buf', None) /\
    length buf' = length buf /\ drop buflen buf' = drop buflen buf.
Proof.
  induction i as [|i IH]; intros inv buf p buflen Hi Hb Hp; cbn [ntoa_put].
  - rewrite decide_True, take_0, Nat.add_0_r by lia. done.
  - destruct (Z.leb_spec buflen p).
    { rewrite decide_False by lia. by exists buf. }
    destruct (lookup_lt_is_Some_2 inv i) as [c Hc]; [lia|].
    rewrite (buf_get_ok _ _ c), bind_ok by (rewrite ?Nat2Z.id; (lia || done)).
    rewrite buf_set_ok, bind_ok, Nat2Z.id by lia.
    replace (Z.of_nat p + 1) with (Z.of_nat (S p)) by lia.
    specialize (IH inv (<[p := c]> buf) (S p) buflen ltac:(lia)).
    rewrite length_insert in IH. specialize (IH Hb ltac:(lia)).
    destruct (decide (p + S i <= buflen)%nat).
    + rewrite decide_True in IH by lia. rewrite IH, (rev_take_S inv i c Hc). cbn [list_inserts].
      rewrite list_inserts_insert_lt by lia. do 3 f_equal; f_equal; lia.
    + rewrite decide_False in IH by lia. destruct IH as (buf' & E & Hl & Hd).
      exists buf'. split; [done|]. split; [done|]. rewrite Hd. apply drop_insert_lt. lia.
Qed.

Lemma ntoa_bytes_spec aps : forall buf (p buflen : nat),
  bytes_ok aps -> (buflen <= length buf)%nat -> (p <= buflen)%nat ->
  if decide (p + length (dotted_dots aps) <= buflen)%nat then
    ntoa_bytes aps buf p p buflen =
    Ok (list_inserts p (dotted_dots aps) buf,
        Some (Z.of_nat (p + length (dotted_dots aps)), Z.of_nat (p + length (dotted_dots aps))))
  else exists buf', ntoa_bytes aps buf p p buflen = Ok (buf', None) /\
    length buf' = length buf /\ drop buflen buf' = drop buflen buf.
Proof.
  induction aps as [|ap aps IH]; intros buf p buflen Hb Hl Hp; cbn [ntoa_bytes].
  - rewrite decide_True by (simpl; lia). by rewrite Nat.add_0_r.
  - unfold bytes_ok in Hb. apply Forall_cons in Hb as [Hap Hb].
    destruct (ntoa_digits_spec ap Hap) as (inv & i & -> & Hi & Hr).
    rewrite bind_ok, Nat2Z.id.
    assert (Hlen : length (dec_string ap) = i)
      by (rewrite <- Hr, length_rev, length_take; lia).
    assert (Ed : dotted_dots (ap :: aps) = dec_string ap ++ [46] ++ dotted_dots aps)
      by (unfold dotted_dots; by rewrite bind_cons, <- app_assoc).
    assert (Edl : length (dotted_dots (ap :: aps)) = (i + 1 + length (dotted_dots aps))%nat)
      by (rewrite Ed, !length_app; simpl; lia).
    rewrite Edl. pose proof (ntoa_put_spec i inv buf p buflen Hi Hl Hp) as Hput.
    destruct (decide (p + i <= buflen)%nat).
    2: { destruct Hput as (buf' & -> & Hl' & Hd'). rewrite bind_ok, decide_False by lia.
         by exists buf'. }
    rewrite Hput, bind_ok, Hr. destruct (Z.leb_spec buflen (p + i)%nat).
    { rewrite decide_False by lia. eexists. split; [done|]. rewrite length_inserts.
      split; [done|]. apply drop_inserts_le. lia. }
    rewrite buf_set_ok, bind_ok, Nat2Z.id by (rewrite length_inserts; lia).
    replace (Z.of_nat (p + i) + 1) with (Z.of_nat (p + i + 1)) by lia.
    specialize (IH (<[(p + i)%nat := 46]> (list_inserts p (dec_string ap) buf)) (p + i + 1)%nat buflen Hb).
    rewrite length_insert, length_inserts in IH. specialize (IH Hl ltac:(lia)).
    destruct (decide (p + (i + 1 + length (dotted_dots aps)) <= buflen)%nat).
    + rewrite decide_True in IH by lia. rewrite IH. rewrite Ed, !list_inserts_app_l.
      cbn [list_inserts length]. rewrite Hlen.
      replace (i + p)%nat with (p + i)%nat by lia. replace (1 + (p + i))%nat with (p + i + 1)%nat by lia.
      do 3 f_equal; f_equal; lia.
    + rewrite decide_False in IH by lia. destruct IH as (buf' & E & Hl' & Hd). exists buf'.
      split; [done|]. split; [done|]. rewrite Hd, drop_insert_lt by lia.
      apply drop_inserts_le. lia.
Qed.

Lemma le_bytes_word n :
  is_u32 n -> exists a b c d, is_u8 a /\ is_u8 b /\ is_u8 c /\ is_u8 d /\
    le_bytes n = [a; b; c; d] /\ n = a + 256 * b + 65536 * c + 16777216 * d.
Proof.
  intros Hn. destruct (word_split n Hn) as (a & b & c & d & Ha & Hb & Hc & Hd & ->).
  destruct (word_digits a b c d Ha Hb Hc Hd) as (_ & E1 & E2 & E3 & E4).
  exists a, b, c, d. unfold le_bytes. by rewrite E1, E2, E3, E4.
Qed.

Lemma dotted_dots_dotted n : is_u32 n -> dotted_dots (le_bytes n) = dotted n ++ [46].
Proof.
  intros Hn. destruct (le_bytes_word n Hn) as (a & b & c & d & _ & _ & _ & _ & E & _).
  unfold dotted, dotted_dots. rewrite E, !bind_cons, <- !app_assoc. done.
Qed.

Lemma dec_string_byte_table :
  forallb (fun n => (length (dec_string n) <=? 3)%nat &&
    bool_decide (aton_part (dec_string n ++ [46]) = Ok (Some (n, [46]))) &&
    bool_decide (aton_part (dec_string n ++ [0]) = Ok (Some (n, [0])))) all_bytes = true.
Proof. vm_compute. reflexivity. Qed.

Lemma dec_string_byte n :
  is_u8 n -> (length (dec_string n) <= 3)%nat /\
  aton_part (dec_string n ++ [46]) = Ok (Some (n, [46])) /\
  aton_part (dec_string n ++ [0]) = Ok (Some (n, [0])).
Proof.
  intros Hn. pose proof dec_string_byte_table as T. rewrite forallb_forall in T.
  specialize (T n (proj1 (list_elem_of_In _ _) (all_bytes_in n Hn))).
  rewrite !andb_true_iff, Nat.leb_le, !bool_decide_eq_true in T. tauto.
Qed.

Lemma dotted_length n : is_u32 n -> (length (dotted n) <= 15)%nat.
Proof.
  intros Hn. destruct (le_bytes_word n Hn) as (a & b & c & d & Ha & Hb & Hc & Hd & E & _).
  unfold dotted. rewrite E, !length_app. cbn [length].
  destruct (dec_string_byte a Ha) as [? _], (dec_string_byte b Hb) as [? _],
    (dec_string_byte c Hc) as [? _], (dec_string_byte d Hd) as [? _]. lia.
Qed.

Lemma dotted_no_nul n : is_u32 n -> Forall (fun c => c <> 0) (dotted n).
Proof.
  intros Hn. destruct (le_bytes_word n Hn) as (a & b & c & d & Ha & Hb & Hc & Hd & E & _).
  unfold dotted, is_u8 in *. rewrite E.
  repeat (apply Forall_app; split); first [apply dec_string_no_nul; lia | by repeat constructor].
Qed.

(** [ip4addr_ntoa_r]: the text if it fits with its NUL, NULL otherwise. *)
Lemma ntoa_r_spec addr buf (buflen : nat) :
  is_u32 addr -> (buflen <= length buf)%nat ->
  if decide (length (dotted addr) < buflen)%nat then
    ip4addr_ntoa_r addr buf buflen =
    Ok (dotted addr ++ 0 :: drop (length (dotted addr) + 1) buf, true)
  else exists buf', ip4addr_ntoa_r addr buf buflen = Ok (buf', false) /\
    length buf' = length buf /\ drop buflen buf' = drop buflen buf.
Proof.
  intros Ha Hl. unfold ip4addr_ntoa_r.
  assert (Hb : bytes_ok (le_bytes addr)) by (unfold le_bytes; repeat constructor; solve_u).
  pose proof (ntoa_bytes_spec (le_bytes addr) buf 0 buflen Hb Hl ltac:(lia)) as H.
  rewrite dotted_dots_dotted, length_app in H by done. cbn [length Nat.add] in H.
  change (Z.of_nat 0) with 0 in H.
  destruct (decide (length (dotted addr) < buflen)%nat).
  - rewrite decide_True in H by lia. rewrite H, bind_ok.
    rewrite buf_set_ok by (rewrite length_inserts; lia). rewrite bind_ok.
    rewrite list_inserts_splice by (rewrite length_app; simpl; lia).
    rewrite take_0, app_nil_l, <- app_assoc. do 3 f_equal.
    replace (Z.to_nat ((length (dotted addr) + 1)%nat - 1)) with (length (dotted addr) + 0)%nat by lia.
    rewrite insert_app_r. cbn [app insert list_insert]. rewrite length_app. done.
  - rewrite decide_False in H by lia. destruct H as (buf' & -> & Hl' & Hd). rewrite bind_ok.
    by exists buf'.
Qed.

Lemma aton_digits_app base s x : forall val v r,
  aton_digits base s val = Ok (v, r) -> aton_digits base (s ++ x) val = Ok (v, r ++ x).
Proof.
  induction s as [|c s IH]; intros val v r; [done|]. cbn [app aton_digits].
  destruct (isdigit c).
  - destruct (_ && _); [by intros [= <- <-] | apply IH].
  - destruct (_ && _); [apply IH | by intros [= <- <-]].
Qed.

Lemma buf_get_0_app b x c : buf_get b 0 = Ok c -> buf_get (b ++ x) 0 = Ok c /\ drop 1 (b ++ x) = drop 1 b ++ x.
Proof. by destruct b. Qed.

Lemma aton_part_app s x v r :
  aton_part s = Ok (Some (v, r)) -> aton_part (s ++ x) = Ok (Some (v, r ++ x)).
Proof.
  unfold aton_part. destruct (buf_get s 0) as [c|] eqn:E0; [|done]. rewrite bind_ok.
  destruct (buf_get_0_app s x c E0) as [-> Ed]. rewrite bind_ok.
  destruct (negb (isdigit c)); [done|].
  assert (Hdig : forall base s', ('(val, cp) ← aton_digits base s' 0; Ok (Some (val, cp))) = Ok (Some (v, r)) ->
    ('(val, cp) ← aton_digits base (s' ++ x) 0; Ok (Some (val, cp))) = Ok (Some (v, r ++ x))).
  { intros base s'. destruct (aton_digits base s' 0) as [[v' r']|] eqn:E; [|done].
    rewrite bind_ok. intros [= -> ->]. by rewrite (aton_digits_app _ _ x _ _ _ E). }
  destruct (c =? 48); [|rewrite !bind_ok; apply Hdig]. rewrite Ed.
  destruct (buf_get (drop 1 s) 0) as [c1|] eqn:E1; [|done]. rewrite bind_ok.
  destruct (buf_get_0_app _ x c1 E1) as [-> Ed1]. rewrite bind_ok, Ed1.
  destruct (_ || _); rewrite !bind_ok; apply Hdig.
Qed.

Lemma aton_parts_dot f n x parts :
  is_u8 n -> (length parts < 3)%nat ->
  aton_parts (S f) (dec_string n ++ 46 :: x) parts = aton_parts f x (parts ++ [n]).
Proof.
  intros Hn Hp. destruct (dec_string_byte n Hn) as (_ & E & _).
  cbn [aton_parts]. replace (dec_string n ++ 46 :: x) with ((dec_string n ++ [46]) ++ x) by by rewrite <- app_assoc.
  rewrite (aton_part_app _ x _ _ E), bind_ok. cbn [app].
  change (buf_get (46 :: x) 0) with (Ok 46). rewrite bind_ok. change (46 =? 46) with true. cbn match.
  destruct (Nat.leb_spec 3 (length parts)); [lia|]. done.
Qed.

Lemma aton_parts_end f n x parts :
  is_u8 n -> aton_parts (S f) (dec_string n ++ 0 :: x) parts = Ok (Some (parts, n, 0 :: x)).
Proof.
  intros Hn. destruct (dec_string_byte n Hn) as (_ & _ & E).
  cbn [aton_parts]. replace (dec_string n ++ 0 :: x) with ((dec_string n ++ [0]) ++ x) by by rewrite <- app_assoc.
  by rewrite (aton_part_app _ x _ _ E), bind_ok.
Qed.

Lemma aton_concoct_bytes a b c d :
  is_u8 a -> is_u8 b -> is_u8 c -> is_u8 d ->
  aton_concoct [a; b; c] d = Ok (Some (d + 256 * c + 65536 * b + 16777216 * a)).
Proof.
  unfold is_u8. intros Ha Hb Hc Hd. cbn [aton_concoct].
  assert ((255 <? d) || ((255 <? a) || (255 <? b) || (255 <? c)) = false) as ->
    by (bool_cases; (done || lia)).
  rewrite shiftl_24, shiftl_16, shiftl_8, !u32_id by solve_u. do 2 f_equal.
  rewrite (Z.lor_comm _ (c * 256)), Z.lor_assoc, lor_8 by lia.
  rewrite (Z.lor_comm (a * 16777216)), Z.lor_assoc, lor_16, lor_24 by lia. lia.
Qed.

Lemma aton_dotted addr rest :
  is_u32 addr -> ip4addr_aton (dotted addr ++ 0 :: rest) = Ok (Some addr).
Proof.
  intros Haddr. destruct (le_bytes_word addr Haddr) as (a & b & c & d & Ha & Hb & Hc & Hd & E & Ew).
  unfold ip4addr_aton, dotted. rewrite E, <- !app_assoc. cbn [app].
  rewrite aton_parts_dot by (done || simpl; lia). rewrite aton_parts_dot by (done || simpl; lia).
  rewrite aton_parts_dot by (done || simpl; lia). rewrite aton_parts_end by done. rewrite bind_ok.
  change (buf_get (0 :: rest) 0) with (Ok 0). rewrite bind_ok.
  change (negb (0 =? 0) && negb (isspace 0)) with false. cbn match. cbn [app].
  rewrite aton_concoct_bytes, bind_ok by done. cbn [option_map]. unfold lwip_htonl.
  by rewrite pp_htonl_word, Ew.
Qed.

Lemma not32_bits x i : 0 <= i -> Z.testbit (not32 x) i = (i <? 32) && negb (Z.testbit x i).
Proof.
  intros Hi. unfold not32, u32. change 4294967296 with (2 ^ 32).
  destruct (Z.ltb_spec i 32); cbn [andb].
  - rewrite Z.mod_pow2_bits_low by lia. by rewrite Z.lnot_spec.
  - by rewrite Z.mod_pow2_bits_high by lia.
Qed.

Lemma not32_0 x : is_u32 x -> (not32 x =? 0) = (x =? 0xffffffff).
Proof. intros Hx. unfold not32, Z.lnot. bool_cases; (done || solve_u). Qed.

(** Same network and all host bits set: the directed broadcast address. *)
Lemma directed_broadcast addr ip mask :
  is_u32 addr -> is_u32 ip ->
  (Z.land addr mask = Z.land ip mask /\ Z.land addr (not32 mask) = Z.land 0xffffffff (not32 mask)) <->
  addr = Z.lor (Z.land ip mask) (not32 mask).
Proof.
  intros Ha Hip.
  assert (Hones : forall i, 0 <= i -> Z.testbit 0xffffffff i = (i <? 32)).
  { intros i Hi. change 0xffffffff with (Z.ones 32). rewrite Z.testbit_ones_nonneg by lia. done. }
  split.
  - intros [E1 E2]. apply Z.bits_inj'. intros i Hi. rewrite Z.lor_spec.
    pose proof (f_equal (fun x => Z.testbit x i) E1) as B1.
    pose proof (f_equal (fun x => Z.testbit x i) E2) as B2. cbv beta in B1, B2.
    rewrite !Z.land_spec in B1, B2. rewrite Z.land_spec, <- B1.
    rewrite not32_bits, Hones in B2 by done. rewrite not32_bits by done.
    destruct (Z.ltb_spec i 32); cbn [andb] in *.
    + destruct (Z.testbit addr i), (Z.testbit mask i); (done || congruence).
    + rewrite (u32_bits_above addr) by done. done.
  - intros ->. split; apply Z.bits_inj'; intros i Hi;
      rewrite ?Z.land_spec, ?Z.lor_spec, ?Z.land_spec, ?not32_bits, ?Hones by done.
    + destruct (Z.testbit ip i), (Z.testbit mask i), (i <? 32); done.
    + destruct (Z.ltb_spec i 32); cbn [andb].
      * destruct (Z.testbit ip i), (Z.testbit mask i); done.
      * by rewrite andb_false_r.
Qed.

(** ** Properties *)

(** C38: text and address are inverse: with a buffer of [buflen] bytes
    [ip4addr_ntoa_r] either writes the dotted decimal notation of the address
    and its NUL, from which [ip4addr_aton] reads back the same address, or
    returns NULL because it does not fit, and never writes past the buffer; 16
    bytes are always enough. *)
Theorem ip4_text_roundtrip addr buf (buflen : nat) :
  is_u32 addr -> (buflen <= length buf)%nat ->
  exists buf' ok, ip4addr_ntoa_r addr buf buflen = Ok (buf', ok) /\
    length buf' = length buf /\ drop buflen buf' = drop buflen buf /\
    (ok = true <-> (length (dotted addr) < buflen)%nat) /\
    (ok = true -> cstring buf' (dotted addr) /\ ip4addr_aton buf' = Ok (Some addr)) /\
    ((16 <= buflen)%nat -> ok = true).
Proof.
  intros Ha Hl. pose proof (ntoa_r_spec addr buf buflen Ha Hl) as H.
  pose proof (dotted_length addr Ha).
  destruct (decide (length (dotted addr) < buflen)%nat).
  - eexists _, true. split; [exact H|]. rewrite length_app. cbn [length]. rewrite length_drop.
    split; [lia|]. split.
    { rewrite drop_app_ge by lia. replace (buflen - length (dotted addr))%nat
        with (S (buflen - length (dotted addr) - 1)) by lia.
      cbn [drop]. rewrite drop_drop. f_equal. lia. }
    split; [done|]. split; [|done]. intros _. split; [|by apply aton_dotted].
    split; [by apply dotted_no_nul | by eexists].
  - destruct H as (buf' & E & Hl' & Hd). exists buf', false. split; [done|]. split; [done|].
    split; [done|]. split; [split; (done || lia)|]. split; [done | lia].
Qed.

Lemma ip4_text_roundtrip_witness :
  exists buf' ok, ip4addr_ntoa_r 0x0201A8C0 (replicate 16 0) 16%nat = Ok (buf', ok) /\
    length buf' = length (replicate 16 0) /\ drop 16 buf' = drop 16 (replicate 16 0) /\
    (ok = true <-> (length (dotted 0x0201A8C0) < 16)%nat) /\
    (ok = true -> cstring buf' (dotted 0x0201A8C0) /\ ip4addr_aton buf' = Ok (Some 0x0201A8C0)) /\
    ((16 <= 16)%nat -> ok = true).
Proof. apply (ip4_text_roundtrip 0x0201A8C0 (replicate 16 0) 16); [solve_u | simpl; lia]. Defined.

(** [ip4_addr_isbroadcast_u32] holds exactly for the limited broadcast
    address, the all-zeros address and, on an interface that supports
    broadcast, the address of the interface's network with all host bits set
    unless it is the interface's own address. *)
Theorem ip4_isbroadcast_correct addr netif :
  is_u32 addr -> is_u32 (nif_ip_addr netif) ->
  ip4_addr_isbroadcast_u32 addr netif = 1 <->
  addr = 0 \/ addr = 0xffffffff \/
  (Z.land (nif_flags netif) NETIF_FLAG_BROADCAST <> 0 /\ addr <> nif_ip_addr netif /\
   addr = Z.lor (Z.land (nif_ip_addr netif) (nif_netmask netif)) (not32 (nif_netmask netif))).
Proof.
  intros Ha Hip. pose proof (directed_broadcast addr _ (nif_netmask netif) Ha Hip) as Hd.
  unfold ip4_addr_isbroadcast_u32, ip4_addr_net_eq, IPADDR_ANY, IPADDR_BROADCAST.
  rewrite not32_0 by done.
  destruct (Z.eqb_spec addr 0xffffffff), (Z.eqb_spec addr 0); cbn [orb]; try tauto.
  destruct (Z.eqb_spec (Z.land (nif_flags netif) NETIF_FLAG_BROADCAST) 0); [split; [done | tauto]|].
  destruct (Z.eqb_spec addr (nif_ip_addr netif)); [split; [done | tauto]|].
  destruct (Z.eqb_spec (Z.land addr (nif_netmask netif)) (Z.land (nif_ip_addr netif) (nif_netmask netif)));
    destruct (Z.eqb_spec (Z.land addr (not32 (nif_netmask netif)))
                (Z.land 0xffffffff (not32 (nif_netmask netif)))); cbn [andb]; split; try done; tauto.
Qed.

Lemma ip4_isbroadcast_correct_witness :
  let netif := Netif4 0x02 0x0201A8C0 0x00FFFFFF in
  ip4_addr_isbroadcast_u32 0xFF01A8C0 netif = 1 <->
  0xFF01A8C0 = 0 \/ 0xFF01A8C0 = 0xffffffff \/
  (Z.land (nif_flags netif) NETIF_FLAG_BROADCAST <> 0 /\ 0xFF01A8C0 <> nif_ip_addr netif /\
   0xFF01A8C0 = Z.lor (Z.land (nif_ip_addr netif) (nif_netmask netif)) (not32 (nif_netmask netif))).
Proof.
  apply (ip4_isbroadcast_correct 0xFF01A8C0 (Netif4 0x02 0x0201A8C0 0x00FFFFFF));
    vm_compute; split; congruence.
Defined.

(** [ip4_addr_netmask_valid] returns for every argument, with 1 exactly
    for the 33 prefix masks. *)
Theorem ip4_netmask_valid_correct netmask :
  is_u32 netmask ->
  exists r, ip4_addr_netmask_valid netmask = Ok r /\ (r = 0 \/ r = 1) /\
    (r = 1 <-> exists k, 0 <= k <= 32 /\ lwip_htonl netmask = prefix_mask k).
Proof.
  intros Hn. apply netmask_valid_spec.
  destruct (word_split netmask Hn) as (a & b & c & d & Ha & Hb & Hc & Hd & ->).
  unfold lwip_htonl. rewrite pp_htonl_word by done. solve_u.
Qed.

Lemma ip4_netmask_valid_correct_witness :
  exists r, ip4_addr_netmask_valid 0x00FFFFFF = Ok r /\ (r = 0 \/ r = 1) /\
    (r = 1 <-> exists k, 0 <= k <= 32 /\ lwip_htonl 0x00FFFFFF = prefix_mask k).
Proof. apply (ip4_netmask_valid_correct 0x00FFFFFF). solve_u. Defined.

(** A number that does not fit 32 bits is not refused: it wraps around,
    so that [ip4addr_aton] accepts text that is no address. *)
Theorem aton_wraps :
  ip4addr_aton (lit "4294967488.168.1.2") = Ok (Some 0x0201A8C0) /\
  ip4addr_aton (lit "192.168.1.2") = Ok (Some 0x0201A8C0).
Proof. split; vm_compute; reflexivity. Qed.
