(* ===== verification/Alloc.v ===== *)
(** * What an allocator of fixed-size elements promises its clients

    The interface between memp.c and the modules that take their structs from
    a pool (timeouts.c, pbuf.c). A client only sees the set of the elements it
    holds; Memp.v shows that the pools implement it. *)

From S2P Require Import Prelude.

(** ** Definitions *)

Class PoolAlloc (P : Type) : Type :=
  { pool_malloc : P -> res (P * option Z);
    pool_free : P -> Z -> res P;
    pool_capacity : nat;
    pool_holds : P -> gset Z -> Prop;
    pool_malloc_spec : forall p U, pool_holds p U ->
      exists p' r, pool_malloc p = Ok (p', r) /\
        match r with
        | None => size U = pool_capacity /\ pool_holds p' U
        | Some x => x ∉ U /\ x <> 0 /\ pool_holds p' ({[x]} ∪ U)
        end;
    pool_free_spec : forall p U x, pool_holds p U -> x ∈ U ->
      exists p', pool_free p x = Ok p' /\ pool_holds p' (U ∖ {[x]});
    pool_aligned : forall p U x, pool_holds p U -> x ∈ U -> x mod 4 = 0;
    pool_bound : forall p U, pool_holds p U -> (size U <= pool_capacity)%nat }.

(** ** Lemmas *)

(** Below the capacity an allocation succeeds. *)
Lemma pool_malloc_some `{PoolAlloc P} p U :
  pool_holds p U -> (size U < pool_capacity)%nat ->
  exists p' x, pool_malloc p = Ok (p', Some x) /\ x ∉ U /\ x <> 0 /\ pool_holds p' ({[x]} ∪ U).
Proof.
  intros Hp Hs. destruct (pool_malloc_spec p U Hp) as (p' & [x|] & E & Hr).
  - exists p', x. tauto.
  - lia.
Qed.

(** Allocation fails exactly when the pool is used up. *)
Lemma pool_malloc_none `{PoolAlloc P} p U p' :
  pool_holds p U -> pool_malloc p = Ok (p', None) -> size U = pool_capacity /\ pool_holds p' U.
Proof.
  intros Hp E. destruct (pool_malloc_spec p U Hp) as (q & r & E' & Hr).
  rewrite E in E'. by injection E' as <- <-.
Qed.

(** An element taken and given back leaves the set as it was. *)
Lemma pool_malloc_free `{PoolAlloc P} p U p1 x :
  pool_holds p U -> pool_malloc p = Ok (p1, Some x) ->
  exists p2, pool_free p1 x = Ok p2 /\ pool_holds p2 U.
Proof.
  intros Hp E. destruct (pool_malloc_spec p U Hp) as (q & r & E' & Hr).
  rewrite E in E'. injection E' as <- <-. destruct Hr as (Hx & _ & Hq).
  destruct (pool_free_spec p1 _ x Hq) as (p2 & E2 & H2); [set_solver|].
  exists p2. split; [done|]. replace U with (({[x]} ∪ U) ∖ {[x]}) by set_solver. done.
Qed.
