(* ===== verification/Memp.v ===== *)
(** * Fixed-size memory pools: src/src/lwip/core/memp.c

    The free elements of a pool form a singly linked list through their first
    word ([MEMP_SIZE] is 0 without overflow checks), so the link word of an
    element is also the client's memory while the element is allocated. [words]
    is that memory: the first word of every element, by address; NULL is 0. *)

From S2P Require Import Prelude Alloc.

(** ** Definitions *)

Definition MEM_ALIGNMENT : Z := 4.
Definition MEMP_SIZE : Z := 0.
Definition LWIP_MEM_ALIGN (addr : Z) : Z :=
  Z.land (addr + MEM_ALIGNMENT - 1) (Z.lnot (MEM_ALIGNMENT - 1)).

Record stats_mem : Type := StatsMem
  { st_err : Z; st_avail : Z; st_used : Z; st_max : Z; st_illegal : Z }.

(** [struct memp_desc], with what it points to. *)
Record memp_desc : Type := MempDesc { md_size : Z; md_num : Z; md_base : Z }.
Record pool : Type := Pool { words : gmap Z Z; tab : Z; stats : stats_mem }.

Definition load (p : pool) (a : Z) : res Z := of_option BadPointer (words p !! a).
Definition store_next (p : pool) (a v : Z) : res pool :=
  _ ← load p a; Ok (Pool (<[a := v]> (words p)) (tab p) (stats p)).
Definition set_tab (p : pool) (v : Z) : pool := Pool (words p) v (stats p).
Definition set_stats (p : pool) (s : stats_mem) : pool := Pool (words p) (tab p) s.

(** [for (i = 0; i < desc->num; ++i)] *)
Fixpoint memp_init_loop (k : nat) (desc : memp_desc) (memp : Z) (p : pool) : res pool :=
  match k with
  | O => Ok p
  | S k' =>
      p ← store_next p memp (tab p);
      let p := set_tab p memp in
      memp_init_loop k' desc (memp + MEMP_SIZE + md_size desc) p
  end.

Definition memp_init_pool (desc : memp_desc) (p : pool) : res pool :=
  let p := set_tab p 0 in
  let memp := LWIP_MEM_ALIGN (md_base desc) in
  p ← memp_init_loop (Z.to_nat (md_num desc)) desc memp p;
  let s := stats p in
  Ok (set_stats p (StatsMem (st_err s) (md_num desc) (st_used s) (st_max s) (st_illegal s))).

(** The counters have 16 bits. *)
Definition stats_alloc (s : stats_mem) : stats_mem :=
  let used := u16 (st_used s + 1) in
  StatsMem (st_err s) (st_avail s) used (if st_max s <? used then used else st_max s) (st_illegal s).
Definition stats_error (s : stats_mem) : stats_mem :=
  StatsMem (u16 (st_err s + 1)) (st_avail s) (st_used s) (st_max s) (st_illegal s).
Definition stats_free (s : stats_mem) : stats_mem :=
  StatsMem (st_err s) (st_avail s) (u16 (st_used s - 1)) (st_max s) (st_illegal s).

(** The pool and the element, [None] for NULL. *)
Definition do_memp_malloc_pool (p : pool) : res (pool * option Z) :=
  let memp := tab p in
  if negb (memp =? 0) then
    next ← load p memp;
    let p := set_tab p next in
    _ ← lwip_assert "memp_malloc: memp properly aligned" (memp mod MEM_ALIGNMENT =? 0);
    let p := set_stats p (stats_alloc (stats p)) in
    Ok (p, Some (memp + MEMP_SIZE))
  else Ok (set_stats p (stats_error (stats p)), None).

Definition do_memp_free_pool (p : pool) (mem : Z) : res pool :=
  _ ← lwip_assert "memp_free: mem properly aligned" (mem mod MEM_ALIGNMENT =? 0);
  let memp := mem - MEMP_SIZE in
  let p := set_stats p (stats_free (stats p)) in
  p ← store_next p memp (tab p);
  Ok (set_tab p memp).

(** The custom pool interface; [None] is a NULL descriptor. *)
Definition memp_malloc_pool (desc : option pool) : res (option pool * option Z) :=
  _ ← lwip_assert "invalid pool desc" (bool_decide (is_Some desc));
  match desc with
  | None => Ok (None, None)
  | Some p => '(p, r) ← do_memp_malloc_pool p; Ok (Some p, r)
  end.

Definition memp_free_pool (desc : option pool) (mem : option Z) : res (option pool) :=
  _ ← lwip_assert "invalid pool desc" (bool_decide (is_Some desc));
  match desc, mem with
  | Some p, Some mem => p ← do_memp_free_pool p mem; Ok (Some p)
  | _, _ => Ok desc
  end.

(** The built-in pools, by [memp_t]. *)
Fixpoint memp_init (pools : list (memp_desc * pool)) : res (list (memp_desc * pool)) :=
  match pools with
  | [] => Ok []
  | (d, p) :: pools' =>
      p ← memp_init_pool d p;
      pools' ← memp_init pools';
      Ok ((d, p) :: pools')
  end.

(** A type that is not below [MEMP_MAX] is reported and gets NULL. *)
Definition memp_malloc (pools : list (memp_desc * pool)) (type : nat)
    : res (list (memp_desc * pool) * option Z) :=
  match pools !! type with
  | None => Ok (pools, None)
  | Some (d, p) => '(p, r) ← do_memp_malloc_pool p; Ok (<[type := (d, p)]> pools, r)
  end.

Definition memp_free (pools : list (memp_desc * pool)) (type : nat) (mem : option Z)
    : res (list (memp_desc * pool)) :=
  match pools !! type, mem with
  | Some (d, p), Some mem => p ← do_memp_free_pool p mem; Ok (<[type := (d, p)]> pools)
  | _, _ => Ok pools
  end.

(** [t->next], where [t] is not NULL in the code. *)
Fixpoint memp_sanity_loop (fuel : nat) (p : pool) (t h : Z) : res bool :=
  if negb (t =? 0) && negb (h =? 0) then
    match fuel with
    | O => Err OutOfFuel
    | S fuel' =>
        if t =? h then Ok false
        else
          t ← load p t;
          hn ← load p h;
          h ← (if negb (hn =? 0) then load p hn else Ok 0);
          memp_sanity_loop fuel' p t h
    end
  else Ok true.

Definition memp_sanity (fuel : nat) (p : pool) : res bool :=
  let t := tab p in
  if negb (t =? 0) then h ← load p t; memp_sanity_loop fuel p t h else Ok true.

(** ** The abstract pool

    The elements not handed out, as the stack the free list is, and the set of
    the elements handed out. *)

Definition elems (d : memp_desc) : list Z :=
  (fun i => LWIP_MEM_ALIGN (md_base d) + Z.of_nat i * md_size d) <$> seq 0 (Z.to_nat (md_num d)).

(** The descriptors the build makes: sizes and base give non-null, distinct,
    aligned elements. *)
Definition desc_ok (d : memp_desc) : Prop :=
  0 < md_size d /\ md_size d mod 4 = 0 /\ 0 <= md_num d < 65536 /\ 0 < md_base d.

(** The link words from [a] on spell the list [l]. *)
Fixpoint chained (w : gmap Z Z) (a : Z) (l : list Z) : Prop :=
  match l with
  | [] => a = 0
  | x :: l' => a = x /\ a <> 0 /\ exists n, w !! a = Some n /\ chained w n l'
  end.

Record pool_rep (d : memp_desc) (p : pool) (free : list Z) (used : gset Z) : Prop := PoolRep
  { rep_chain : chained (words p) (tab p) free;
    rep_dom : forall a, a ∈ elems d -> is_Some (words p !! a);
    rep_part : free ++ elements used ≡ₚ elems d;
    rep_count : st_used (stats p) = Z.of_nat (size used) }.

(** What the pool and its clients do: allocate, free an element handed out,
    write to the memory of an element handed out. *)
Inductive pool_step : pool * gset Z -> pool * gset Z -> Prop :=
  | step_malloc p used p' x :
      do_memp_malloc_pool p = Ok (p', Some x) -> pool_step (p, used) (p', {[x]} ∪ used)
  | step_malloc_fails p used p' :
      do_memp_malloc_pool p = Ok (p', None) -> pool_step (p, used) (p', used)
  | step_free p used p' x :
      x ∈ used -> do_memp_free_pool p x = Ok p' -> pool_step (p, used) (p', used ∖ {[x]})
  | step_write p used x v :
      x ∈ used -> pool_step (p, used) (Pool (<[x := v]> (words p)) (tab p) (stats p), used).

(** ** Lemmas *)

Lemma mem_align_spec a : LWIP_MEM_ALIGN a = (a + 3) / 4 * 4.
Proof.
  unfold LWIP_MEM_ALIGN, MEM_ALIGNMENT. change (4 - 1) with (Z.ones 2).
  rewrite <- Z.ldiff_land, Z.ldiff_ones_r, Z.shiftr_div_pow2, Z.shiftl_mul_pow2 by lia.
  change (2 ^ 2) with 4. do 2 f_equal. lia.
Qed.

Lemma chained_write w a l x v : x ∉ l -> chained w a l -> chained (<[x := v]> w) a l.
Proof.
  revert a. induction l as [|y l IH]; intros a Hx Hc; [done|].
  destruct Hc as (-> & H0 & n & Hn & Hc). split; [done|]. split; [done|]. exists n.
  rewrite lookup_insert_ne by set_solver. split; [done|]. apply IH; set_solver.
Qed.

Lemma load_in p a : is_Some (words p !! a) -> exists v, load p a = Ok v /\ words p !! a = Some v.
Proof. intros [v Hv]. exists v. unfold load. by rewrite Hv. Qed.

(** Pointers into the free list, by position; NULL past its end. *)
Definition ptr_at (l : list Z) (i : nat) : Z := default 0 (l !! i).

Lemma chained_ptr w l : forall a i x,
  chained w a l -> l !! i = Some x -> w !! x = Some (ptr_at l (S i)) /\ x <> 0.
Proof.
  induction l as [|y l IH]; intros a i x Hc Hx; [done|].
  destruct Hc as (-> & H0 & n & Hn & Hc). destruct i as [|i]; simpl in Hx.
  - injection Hx as <-. split; [|done]. rewrite Hn. f_equal. unfold ptr_at. simpl.
    destruct l as [|z l]; [done|]. by destruct Hc as (-> & _).
  - destruct (IH n i x Hc Hx) as [E ?]. split; [|done]. rewrite E. done.
Qed.

Lemma chained_head w a l : chained w a l -> a = ptr_at l 0.
Proof. destruct l; [done|]. by intros (-> & _). Qed.

Lemma memp_sanity_loop_ok p l a : chained (words p) a l -> NoDup l ->
  forall fuel i, (length l < fuel + (2 * i + 1))%nat ->
  memp_sanity_loop fuel p (ptr_at l i) (ptr_at l (2 * i + 1)) = Ok true.
Proof.
  intros Hc Hnd fuel. induction fuel as [|fuel IH]; intros i Hf; cbn [memp_sanity_loop].
  - assert (ptr_at l (2 * i + 1) = 0) as ->
      by (unfold ptr_at; rewrite lookup_ge_None_2 by lia; done).
    change (0 =? 0) with true. by rewrite andb_false_r.
  - destruct (l !! (2 * i + 1)%nat) as [h|] eqn:Eh; cycle 1.
    { unfold ptr_at at 2. rewrite Eh. simpl. change (0 =? 0) with true. by rewrite andb_false_r. }
    assert (Hlt : (2 * i + 1 < length l)%nat) by by eapply lookup_lt_Some.
    destruct (lookup_lt_is_Some_2 l i) as [t Et]; [lia|].
    destruct (chained_ptr _ _ _ _ _ Hc Eh) as [Lh Nh], (chained_ptr _ _ _ _ _ Hc Et) as [Lt Nt].
    assert (Eht : ptr_at l (2 * i + 1) = h /\ ptr_at l i = t) by (unfold ptr_at; by rewrite Eh, Et).
    destruct Eht as [-> ->].
    destruct (Z.eqb_spec t 0), (Z.eqb_spec h 0); try done. cbn [negb andb].
    destruct (Z.eqb_spec t h) as [->|].
    { pose proof (NoDup_lookup l i (2 * i + 1)%nat h Hnd Et Eh). lia. }
    unfold load. rewrite Lt, Lh. cbn [of_option]. rewrite !bind_ok.
    assert (E3 : (if negb (ptr_at l (S (2 * i + 1)) =? 0)
                  then of_option BadPointer (words p !! ptr_at l (S (2 * i + 1))) else Ok 0) =
                 Ok (ptr_at l (2 * (S i) + 1))).
    { destruct (l !! S (2 * i + 1)) as [h2|] eqn:Eh2.
      - destruct (chained_ptr _ _ _ _ _ Hc Eh2) as [Lh2 Nh2].
        assert (ptr_at l (S (2 * i + 1)) = h2) as -> by (unfold ptr_at; by rewrite Eh2).
        destruct (Z.eqb_spec h2 0); [done|]. cbn [negb]. rewrite Lh2.
        by replace (S (S (2 * i + 1))) with (2 * S i + 1)%nat by lia.
      - assert (ptr_at l (S (2 * i + 1)) = 0) as -> by (unfold ptr_at; by rewrite Eh2).
        apply lookup_ge_None_1 in Eh2. unfold ptr_at. rewrite lookup_ge_None_2 by lia. done. }
    rewrite E3, bind_ok. apply IH. lia.
Qed.

#[local] Set Default Proof Using "Type*".

Section PoolLemmas.
Context (d : memp_desc) (Hd : desc_ok d).

Definition elem (i : nat) : Z := LWIP_MEM_ALIGN (md_base d) + Z.of_nat i * md_size d.

Lemma elem_props i : elem i mod 4 = 0 /\ elem i <> 0.
Proof.
  destruct Hd as (Hs & Hs4 & _ & Hb). unfold elem. rewrite mem_align_spec. split; [|nia].
  rewrite Z.add_mod, Z.mod_mul, Z.mul_mod, Hs4, Z.mul_0_r by lia. done.
Qed.

Lemma elem_inj i j : elem i = elem j -> i = j.
Proof. destruct Hd as (Hs & _). unfold elem. nia. Qed.

Lemma elems_NoDup : NoDup (elems d).
Proof. apply NoDup_fmap_2_strong; [|apply NoDup_seq]. intros i j _ _. apply elem_inj. Qed.

Lemma elems_props x : x ∈ elems d -> x mod 4 = 0 /\ x <> 0.
Proof. intros Hx. apply list_elem_of_fmap in Hx as (i & -> & _). apply elem_props. Qed.

Lemma elems_length : length (elems d) = Z.to_nat (md_num d).
Proof. unfold elems. by rewrite length_fmap, length_seq. Qed.

(** The list the initialisation builds: the elements in reverse order. *)
Lemma memp_init_loop_spec k : forall i p l,
  chained (words p) (tab p) l -> (forall x, x ∈ l -> exists j, (j < i)%nat /\ x = elem j) ->
  (forall j, (i <= j < i + k)%nat -> is_Some (words p !! elem j)) ->
  exists p', memp_init_loop k d (elem i) p = Ok p' /\ stats p' = stats p /\
    chained (words p') (tab p') (rev (elem <$> seq i k) ++ l) /\
    forall a, is_Some (words p !! a) -> is_Some (words p' !! a).
Proof.
  induction k as [|k IH]; intros i p l Hc Hl Hw; cbn [memp_init_loop].
  - by exists p.
  - destruct (load_in p (elem i)) as (v & Hv & Hv'); [apply Hw; lia|].
    unfold store_next. rewrite Hv, bind_ok. unfold MEMP_SIZE.
    replace (elem i + 0 + md_size d) with (elem (S i)) by (unfold elem; lia).
    assert (Hi : elem i ∉ l).
    { intros Hin. destruct (Hl _ Hin) as (j & Hj & E). apply elem_inj in E. lia. }
    destruct (IH (S i) (set_tab (Pool (<[elem i := tab p]> (words p)) (tab p) (stats p)) (elem i))
      (elem i :: l)) as (p' & E & Hs & Hch & Hdom).
    + split; [done|]. split; [apply elem_props|]. exists (tab p). simpl.
      rewrite lookup_insert_eq. split; [done|]. by apply chained_write.
    + intros x [->|Hx]%elem_of_cons; [exists i; split; [lia | done]|].
      destruct (Hl x Hx) as (j & Hj & ->). exists j. split; [lia | done].
    + intros j Hj. simpl. rewrite lookup_insert_is_Some. destruct (decide (elem i = elem j)); [by left|].
      right. split; [done|]. apply Hw. lia.
    + exists p'. split; [exact E|]. split; [done|]. split.
      * cbn [seq fmap list_fmap rev]. rewrite <- app_assoc. exact Hch.
      * intros a Ha. apply Hdom. simpl. rewrite lookup_insert_is_Some.
        destruct (decide (elem i = a)); [by left | by right].
Qed.

Lemma memp_init_pool_rep p :
  (forall a, a ∈ elems d -> is_Some (words p !! a)) -> st_used (stats p) = 0 ->
  exists p', memp_init_pool d p = Ok p' /\ pool_rep d p' (rev (elems d)) ∅.
Proof.
  intros Hw Hu. unfold memp_init_pool. destruct Hd as (_ & _ & Hn & _).
  replace (LWIP_MEM_ALIGN (md_base d)) with (elem 0) by (unfold elem; lia).
  destruct (memp_init_loop_spec (Z.to_nat (md_num d)) 0 (set_tab p 0) []) as (p' & -> & Hs & Hc & Hdom).
  - done.
  - intros x Hx. by apply elem_of_nil in Hx.
  - intros j Hj. apply Hw, list_elem_of_fmap. exists j. split; [done|]. apply elem_of_seq. lia.
  - rewrite bind_ok. eexists. split; [done|]. rewrite app_nil_r in Hc. split; simpl.
    + exact Hc.
    + intros a Ha. by apply Hdom, Hw.
    + rewrite elements_empty, app_nil_r. symmetry. apply Permutation_rev.
    + rewrite Hs. exact Hu.
Qed.

Section Rep.
Context (p : pool) (free : list Z) (used : gset Z) (R : pool_rep d p free used).

Lemma rep_NoDup : NoDup (free ++ elements used).
Proof. rewrite (rep_part _ _ _ _ R). apply elems_NoDup. Qed.

Lemma rep_free x : x ∈ free -> x ∈ elems d /\ x ∉ used.
Proof.
  intros Hx. split.
  - rewrite <- (rep_part _ _ _ _ R). set_solver.
  - pose proof rep_NoDup as Hn. apply NoDup_app in Hn as (_ & Hn & _).
    specialize (Hn x Hx). by rewrite elem_of_elements in Hn.
Qed.

Lemma rep_used x : x ∈ used -> x ∈ elems d /\ x ∉ free.
Proof.
  intros Hx. split.
  - rewrite <- (rep_part _ _ _ _ R), elem_of_app, elem_of_elements. by right.
  - intros Hf. by apply rep_free in Hf as [_ ?].
Qed.

Lemma rep_size : Z.of_nat (length free) + Z.of_nat (size used) = md_num d.
Proof.
  pose proof (Permutation_length (rep_part _ _ _ _ R)) as E. rewrite length_app, elems_length in E.
  destruct Hd as (_ & _ & Hn & _). unfold size, set_size, compose. lia.
Qed.

(** Allocation takes the top of the stack, or fails on the empty one. *)
Lemma malloc_rep :
  match free with
  | [] => exists p', do_memp_malloc_pool p = Ok (p', None) /\ pool_rep d p' [] used
  | x :: free' =>
      exists p', do_memp_malloc_pool p = Ok (p', Some x) /\ pool_rep d p' free' ({[x]} ∪ used)
  end.
Proof.
  pose proof rep_free as Hfx. pose proof rep_size as Hsz.
  destruct R as [Hc Hdom Hp Hcnt]. unfold do_memp_malloc_pool.
  destruct free as [|x free'].
  - simpl in Hc. rewrite Hc. change (0 =? 0) with true. cbn [negb]. eexists. split; [done|]. by split.
  - destruct Hc as (Hx & H0 & n & Hn & Hc). destruct (Z.eqb_spec (tab p) 0); [done|]. cbn [negb].
    unfold load. rewrite Hn. cbn [of_option]. rewrite bind_ok.
    destruct (Hfx x ltac:(set_solver)) as [Hin Hout]. destruct (elems_props x Hin) as [H4 _].
    rewrite Hx. unfold lwip_assert, MEM_ALIGNMENT. rewrite H4. change (0 =? 0) with true. cbn match.
    rewrite bind_ok. unfold MEMP_SIZE. rewrite Z.add_0_r. eexists. split; [done|].
    simpl in Hsz. split; simpl.
    + done.
    + exact Hdom.
    + rewrite elements_union_singleton by done. rewrite <- Hp. by rewrite <- Permutation_middle.
    + rewrite Hcnt, size_union, size_singleton by set_solver.
      destruct Hd as (_ & _ & Hnum & _). solve_u.
Qed.

(** Freeing an element handed out pushes it. *)
Lemma free_rep x :
  x ∈ used -> exists p', do_memp_free_pool p x = Ok p' /\ pool_rep d p' (x :: free) (used ∖ {[x]}).
Proof.
  intros Hx. destruct (rep_used x Hx) as [Hin Hout]. destruct (elems_props x Hin) as [H4 H0].
  unfold do_memp_free_pool, lwip_assert, MEM_ALIGNMENT, MEMP_SIZE. rewrite H4.
  change (0 =? 0) with true. cbn match. rewrite bind_ok, Z.sub_0_r. unfold store_next.
  destruct (load_in p x) as (v & Hv & Hv'); [by apply (rep_dom _ _ _ _ R)|].
  unfold load in *. simpl. rewrite Hv' in *. cbn [of_option] in *. rewrite !bind_ok.
  eexists. split; [done|]. split; simpl.
  - split; [done|]. split; [done|]. exists (tab p). rewrite lookup_insert_eq. split; [done|].
    apply chained_write; [done | apply (rep_chain _ _ _ _ R)].
  - intros a Ha. rewrite lookup_insert_is_Some. destruct (decide (x = a)); [by left|].
    right. split; [done | by apply (rep_dom _ _ _ _ R)].
  - rewrite <- (rep_part _ _ _ _ R). rewrite (union_difference_L {[x]} used) at 2 by set_solver.
    rewrite elements_union_singleton by set_solver. by rewrite Permutation_middle.
  - rewrite (rep_count _ _ _ _ R).
    assert (size used = S (size (used ∖ {[x]}))) as ->.
    { rewrite (union_difference_L {[x]} used) at 1 by set_solver.
      rewrite size_union, size_singleton by set_solver. done. }
    pose proof rep_size. destruct Hd as (_ & _ & Hnum & _).
    assert (size (used ∖ {[x]}) < size used)%nat by (apply subset_size; set_solver).
    solve_u.
Qed.

(** Memory of an element handed out is the client's. *)
Lemma write_rep x v :
  x ∈ used -> pool_rep d (Pool (<[x := v]> (words p)) (tab p) (stats p)) free used.
Proof.
  intros Hx. destruct (rep_used x Hx) as [Hin Hout]. destruct R as [Hc Hdom Hp Hcnt]. split; simpl; try done.
  - by apply chained_write.
  - intros a Ha. rewrite lookup_insert_is_Some. destruct (decide (x = a)); [by left|].
    right. split; [done | by apply Hdom].
Qed.

End Rep.
End PoolLemmas.

Lemma memp_sanity_ok p l fuel :
  chained (words p) (tab p) l -> NoDup l -> (length l <= fuel)%nat -> memp_sanity fuel p = Ok true.
Proof.
  intros Hc Hnd Hf. unfold memp_sanity. pose proof (chained_head _ _ _ Hc) as Ht.
  destruct l as [|x l].
  - by rewrite Ht.
  - destruct (chained_ptr _ _ _ 0 x Hc eq_refl) as [Lx Nx].
    rewrite Ht. unfold ptr_at at 1 2 3. simpl. destruct (Z.eqb_spec x 0); [done|]. cbn [negb].
    unfold load. rewrite Lx. cbn [of_option]. rewrite bind_ok.
    apply (memp_sanity_loop_ok p (x :: l) (tab p) Hc Hnd fuel 0). simpl. simpl in Hf. lia.
Qed.

Lemma pool_step_rep d p used p' used' free :
  desc_ok d -> pool_rep d p free used -> pool_step (p, used) (p', used') ->
  exists free', pool_rep d p' free' used'.
Proof.
  intros Hd R Hs. inversion Hs as [a b c x E | a b c E | a b c x Hx E | a b x v Hx]; subst.
  - pose proof (malloc_rep d Hd p free used R) as Hm. destruct free as [|y free].
    + destruct Hm as (q & E' & _). congruence.
    + destruct Hm as (q & E' & Hq). rewrite E in E'. injection E' as -> ->. by exists free.
  - pose proof (malloc_rep d Hd p free used' R) as Hm. destruct free as [|y free].
    + destruct Hm as (q & E' & Hq). rewrite E in E'. injection E' as ->. by exists [].
    + destruct Hm as (q & E' & _). congruence.
  - destruct (free_rep d Hd p free used R x Hx) as (q & E' & Hq). rewrite E in E'.
    injection E' as ->. by exists (x :: free).
  - exists free. by apply write_rep.
Qed.

Lemma pool_steps_rep d s s' free :
  desc_ok d -> rtc pool_step s s' -> pool_rep d s.1 free s.2 -> exists free', pool_rep d s'.1 free' s'.2.
Proof.
  intros Hd Hs. revert free.
  induction Hs as [s|[p used] [p1 used1] s' Hstep Hrest IH]; intros free R; [by exists free|].
  destruct (pool_step_rep d p used p1 used1 free Hd R Hstep) as (free1 & R1).
  exact (IH free1 R1).
Qed.

(** A pool of the built-in kind implements the allocator interface. *)
#[export] Program Instance memp_alloc (d : memp_desc) (Hd : desc_ok d) : PoolAlloc pool :=
  {| pool_malloc := do_memp_malloc_pool;
     pool_free := do_memp_free_pool;
     pool_capacity := Z.to_nat (md_num d);
     pool_holds p U := exists free, pool_rep d p free U |}.
Next Obligation.
  intros d Hd p U [free R]. pose proof (malloc_rep d Hd p free U R) as Hm.
  pose proof (rep_free d Hd p free U R) as Hf. pose proof (rep_size d Hd p free U R) as Hs.
  destruct free as [|x free]; destruct Hm as (p' & E & R').
  - exists p', None. split; [done|]. split; [simpl in Hs; lia | by exists []].
  - exists p', (Some x). split; [done|]. destruct (Hf x ltac:(set_solver)) as [Hin Hx].
    split; [done|]. split; [by apply (elems_props d Hd) in Hin as [_ ?] | by exists free].
Qed.
Next Obligation.
  intros d Hd p U x [free R] Hx. destruct (free_rep d Hd p free U R x Hx) as (p' & E & R').
  exists p'. split; [done|]. by exists (x :: free).
Qed.
Next Obligation.
  intros d Hd p U x [free R] Hx. apply (rep_used d Hd p free U R) in Hx as [Hx _].
  by apply (elems_props d Hd) in Hx as [? _].
Qed.
Next Obligation.
  intros d Hd p U [free R]. pose proof (rep_size d Hd p free U R). lia.
Qed.

(** ** Properties *)

(** C30: whatever sequence of allocations, frees of elements handed out and
    client writes into elements handed out follows [memp_init_pool], the pool
    stays well formed and does not fault: the next allocation returns, with
    NULL exactly when all [num] elements are in use, and otherwise with an
    aligned element of the pool that is not in use; an element in use can be
    freed; the [used] statistic is the number of elements in use. *)
Theorem memp_pool_safe d p0 p1 p used :
  desc_ok d -> (forall a, a ∈ elems d -> is_Some (words p0 !! a)) -> st_used (stats p0) = 0 ->
  memp_init_pool d p0 = Ok p1 -> rtc pool_step (p1, ∅) (p, used) ->
  (exists p' r, do_memp_malloc_pool p = Ok (p', r) /\
     (r = None <-> Z.of_nat (size used) = md_num d) /\
     (forall x, r = Some x -> x ∈ elems d /\ x ∉ used /\ x mod 4 = 0)) /\
  (forall x, x ∈ used -> x ∈ elems d /\ exists p', do_memp_free_pool p x = Ok p') /\
  st_used (stats p) = Z.of_nat (size used) /\ Z.of_nat (size used) <= md_num d /\
  memp_sanity (Z.to_nat (md_num d)) p = Ok true.
Proof.
  intros Hd Hw Hu Hi Hs. destruct (memp_init_pool_rep d Hd p0 Hw Hu) as (q & E & R0).
  rewrite Hi in E. injection E as <-.
  destruct (pool_steps_rep d _ _ _ Hd Hs R0) as (free & R). simpl in R.
  pose proof (rep_size d Hd p free used R) as Hsz.
  split; [|split; [|split; [|split]]].
  - pose proof (malloc_rep d Hd p free used R) as Hm. pose proof (rep_free d Hd p free used R) as Hf.
    destruct free as [|x free]; destruct Hm as (p' & E & R').
    + exists p', None. split; [done|]. split; [|done]. simpl in Hsz. split; [lia | done].
    + exists p', (Some x). split; [done|]. simpl in Hsz. split; [split; [done | lia]|].
      intros y [= <-]. destruct (Hf x ltac:(set_solver)). pose proof (elems_props d Hd x). tauto.
  - intros x Hx. split; [by apply (rep_used d Hd p free used R)|].
    destruct (free_rep d Hd p free used R x Hx) as (p' & E & _). by exists p'.
  - apply (rep_count _ _ _ _ R).
  - lia.
  - apply (memp_sanity_ok p free); [apply (rep_chain _ _ _ _ R) | | lia].
    pose proof (rep_NoDup d Hd p free used R) as Hn. by apply NoDup_app in Hn as [? _].
Qed.

(** A pool of two elements, after its initialisation and one allocation. *)
Lemma memp_pool_safe_witness :
  let d := MempDesc 8 2 0x20000002 in
  let s0 := StatsMem 0 0 0 0 0 in
  let p0 := Pool {[0x20000004 := 7; 0x2000000C := 9]} 0 s0 in
  let p1 := Pool {[0x20000004 := 0; 0x2000000C := 0x20000004]} 0x2000000C (StatsMem 0 2 0 0 0) in
  let p := Pool {[0x20000004 := 0; 0x2000000C := 0x20000004]} 0x20000004 (StatsMem 0 2 1 1 0) in
  memp_init_pool d p0 = Ok p1 /\
  ((exists p' r, do_memp_malloc_pool p = Ok (p', r) /\
     (r = None <-> Z.of_nat (size ({[0x2000000C]} : gset Z)) = md_num d) /\
     (forall x, r = Some x -> x ∈ elems d /\ x ∉ ({[0x2000000C]} : gset Z) /\ x mod 4 = 0)) /\
   (forall x, x ∈ ({[0x2000000C]} : gset Z) -> x ∈ elems d /\ exists p', do_memp_free_pool p x = Ok p') /\
   st_used (stats p) = Z.of_nat (size ({[0x2000000C]} : gset Z)) /\
   Z.of_nat (size ({[0x2000000C]} : gset Z)) <= md_num d /\
   memp_sanity (Z.to_nat (md_num d)) p = Ok true).
Proof.
  intros d s0 p0 p1 p. assert (E : memp_init_pool d p0 = Ok p1) by (vm_compute; reflexivity).
  split; [exact E|].
  apply (memp_pool_safe d p0 p1 p {[0x2000000C]}).
  - unfold desc_ok. cbn. lia.
  - intros a Ha. apply list_elem_of_fmap in Ha as (i & -> & Hi). apply elem_of_seq in Hi.
    destruct i as [|[|i]]; [vm_compute; eauto | vm_compute; eauto | cbn in Hi; lia].
  - reflexivity.
  - exact E.
  - eapply rtc_l; [|apply rtc_refl]. rewrite <- (union_empty_r_L ({[0x2000000C]} : gset Z)).
    apply step_malloc. vm_compute. reflexivity.
Defined.
