(* ===== verification/Timeouts.v ===== *)
(** * Timers: src/src/lwip/core/timeouts.c

    The list of pending timeouts, sorted by due time under 32-bit wrap-around,
    the cyclic timers of the stack and the on-demand TCP timer. The list is the
    list of its nodes with their addresses in the pool MEMP_SYS_TIMEOUT; the
    pool is any implementation of the interface of Alloc.v. [now] is what
    [sys_now] returns; the timer functions of the other modules are a
    parameter. *)

From S2P Require Import Prelude Alloc Memp.

(** ** Definitions *)

Definition LWIP_MAX_TIMEOUT : Z := 0x7fffffff.
Definition LWIP_UINT32_MAX : Z := 0xffffffff.
Definition SYS_TIMEOUTS_SLEEPTIME_INFINITE : Z := 0xFFFFFFFF.
Definition MEMP_NUM_SYS_TIMEOUT : nat := 8.

Definition TIME_LESS_THAN (t compare_to : Z) : bool := LWIP_MAX_TIMEOUT <? u32 (t - compare_to).

(** Function pointers of type [sys_timeout_handler]. *)
Inductive sys_timeout_handler : Type :=
  | NULL_handler
  | lwip_cyclic_timer_ptr
  | tcpip_tcp_timer_ptr
  | client_handler (id : Z).

#[export] Instance handler_eq_dec : EqDecision sys_timeout_handler.
Proof. solve_decision. Defined.

Record sys_timeo : Type := SysTimeo { time : Z; h : sys_timeout_handler; arg : Z }.

(** [lwip_cyclic_timers]: the intervals; the handlers are called by index. *)
Definition TCP_TMR_INTERVAL : Z := 250.
Definition lwip_cyclic_timers : list Z :=
  [TCP_TMR_INTERVAL; 1000; 1000; 60000; 500; 100; 1000].

Section Timeouts.
Context {P C : Type} `{PoolAlloc P}.

Record tstate : Type := TState
  { next_timeout : list (Z * sys_timeo);
    timeo_pool : P;
    current_timeout_due_time : Z;
    tcpip_tcp_timer_active : bool;
    tcp_pcbs : bool;      (* tcp_active_pcbs || tcp_tw_pcbs *)
    now : Z;
    client : C }.           (* the state of the clients' callbacks *)

Definition set_list (l : list (Z * sys_timeo)) (s : tstate) : tstate :=
  TState l (timeo_pool s) (current_timeout_due_time s) (tcpip_tcp_timer_active s) (tcp_pcbs s) (now s) (client s).
Definition set_pool (p : P) (s : tstate) : tstate :=
  TState (next_timeout s) p (current_timeout_due_time s) (tcpip_tcp_timer_active s) (tcp_pcbs s) (now s) (client s).
Definition set_due (t : Z) (s : tstate) : tstate :=
  TState (next_timeout s) (timeo_pool s) t (tcpip_tcp_timer_active s) (tcp_pcbs s) (now s) (client s).
Definition set_active (b : bool) (s : tstate) : tstate :=
  TState (next_timeout s) (timeo_pool s) (current_timeout_due_time s) b (tcp_pcbs s) (now s) (client s).

Definition set_client (c : C) (s : tstate) : tstate :=
  TState (next_timeout s) (timeo_pool s) (current_timeout_due_time s) (tcpip_tcp_timer_active s)
    (tcp_pcbs s) (now s) c.

(** [for (t = next_timeout; t != NULL; t = t->next)] of [sys_timeout_abs]. *)
Fixpoint insert_after (timeout : Z * sys_timeo) (l : list (Z * sys_timeo)) : list (Z * sys_timeo) :=
  match l with
  | [] => []
  | t :: l' =>
      match l' with
      | [] => [t; timeout]
      | n :: _ =>
          if TIME_LESS_THAN (time timeout.2) (time n.2) then t :: timeout :: l'
          else t :: insert_after timeout l'
      end
  end.

Definition insert_timeout (timeout : Z * sys_timeo) (l : list (Z * sys_timeo)) : list (Z * sys_timeo) :=
  match l with
  | [] => [timeout]
  | n :: _ =>
      if TIME_LESS_THAN (time timeout.2) (time n.2) then timeout :: l else insert_after timeout l
  end.

Definition sys_timeout_abs (abs_time : Z) (handler : sys_timeout_handler) (arg : Z) (s : tstate)
    : res tstate :=
  '(p, timeout) ← pool_malloc (timeo_pool s);
  let s := set_pool p s in
  match timeout with
  | None => Err (AssertFail "sys_timeout: timeout != NULL, pool MEMP_SYS_TIMEOUT is empty")
  | Some a => Ok (set_list (insert_timeout (a, SysTimeo abs_time handler arg) (next_timeout s)) s)
  end.

Definition sys_timeout (msecs : Z) (handler : sys_timeout_handler) (arg : Z) (s : tstate)
    : res tstate :=
  _ ← lwip_assert "Timeout time too long, max is LWIP_UINT32_MAX/4 msecs"
        (msecs <=? LWIP_UINT32_MAX / 4);
  sys_timeout_abs (u32 (now s + msecs)) handler arg s.

Definition tcp_timer_needed (s : tstate) : res tstate :=
  if negb (tcpip_tcp_timer_active s) && tcp_pcbs s
  then sys_timeout TCP_TMR_INTERVAL tcpip_tcp_timer_ptr 0 (set_active true s)
  else Ok s.

(** The first node with the handler and argument is unlinked. *)
Fixpoint unlink (handler : sys_timeout_handler) (arg' : Z) (l : list (Z * sys_timeo))
    : option (Z * list (Z * sys_timeo)) :=
  match l with
  | [] => None
  | t :: l' =>
      if bool_decide (h t.2 = handler) && (arg t.2 =? arg') then Some (t.1, l')
      else match unlink handler arg' l' with
           | None => None
           | Some (a, l'') => Some (a, t :: l'')
           end
  end.

Definition sys_untimeout (handler : sys_timeout_handler) (arg : Z) (s : tstate) : res tstate :=
  match unlink handler arg (next_timeout s) with
  | None => Ok s
  | Some (a, l) => p ← pool_free (timeo_pool s) a; Ok (set_pool p (set_list l s))
  end.

(** [sys_timeouts_init]: the cyclic timers but the first. *)
Fixpoint init_cyclic (l : list Z) (i : Z) (s : tstate) : res tstate :=
  match l with
  | [] => Ok s
  | interval :: l' =>
      s ← sys_timeout interval lwip_cyclic_timer_ptr i s;
      init_cyclic l' (i + 1) s
  end.

Definition sys_timeouts_init (s : tstate) : res tstate :=
  init_cyclic (drop 1 lwip_cyclic_timers) 1 s.

Definition sys_restart_timeouts (s : tstate) : tstate :=
  match next_timeout s with
  | [] => s
  | n :: _ =>
      let base := time n.2 in
      set_list ((fun t => (t.1, SysTimeo (u32 (u32 (time t.2 - base) + now s)) (h t.2) (arg t.2)))
                <$> next_timeout s) s
  end.

Definition sys_timeouts_sleeptime (s : tstate) : res Z :=
  match next_timeout s with
  | [] => Ok SYS_TIMEOUTS_SLEEPTIME_INFINITE
  | t :: _ =>
      if TIME_LESS_THAN (time t.2) (now s) then Ok 0
      else
        let ret := u32 (time t.2 - now s) in
        _ ← lwip_assert "invalid sleeptime" (ret <=? LWIP_MAX_TIMEOUT);
        Ok ret
  end.

(** The functions behind the pointers: [tcp_tmr] and the handlers of the cyclic
    timers by index, and the callbacks of clients. *)
Variable cyclic_handler : Z -> tstate -> res tstate.
Variable call_client : Z -> Z -> tstate -> res tstate.

Definition lwip_cyclic_timer (arg : Z) (s : tstate) : res tstate :=
  interval_ms ← buf_get lwip_cyclic_timers arg;
  s ← cyclic_handler arg s;
  let next_timeout_time := u32 (current_timeout_due_time s + interval_ms) in
  if TIME_LESS_THAN next_timeout_time (now s)
  then sys_timeout_abs (u32 (now s + interval_ms)) lwip_cyclic_timer_ptr arg s
  else sys_timeout_abs next_timeout_time lwip_cyclic_timer_ptr arg s.

Definition tcpip_tcp_timer (s : tstate) : res tstate :=
  s ← cyclic_handler 0 s;
  if tcp_pcbs s then sys_timeout TCP_TMR_INTERVAL tcpip_tcp_timer_ptr 0 s
  else Ok (set_active false s).

Definition call_handler (handler : sys_timeout_handler) (arg : Z) (s : tstate) : res tstate :=
  match handler with
  | NULL_handler => Ok s
  | lwip_cyclic_timer_ptr => lwip_cyclic_timer arg s
  | tcpip_tcp_timer_ptr => tcpip_tcp_timer s
  | client_handler id => call_client id arg s
  end.

(** [pbuf_free_ooseq_pending] and [pbuf_free_ooseq] of pbuf.c. *)
Variable pbuf_free_ooseq_pending : tstate -> bool.
Variable pbuf_free_ooseq : tstate -> res tstate.

Definition PBUF_CHECK_FREE_OOSEQ (s : tstate) : res tstate :=
  if pbuf_free_ooseq_pending s then pbuf_free_ooseq s else Ok s.

(** The [do ... while (1)]; [now0] is the time at the start of the function. *)
Fixpoint check_loop (fuel : nat) (now0 : Z) (s : tstate) : res (Z * tstate) :=
  s ← PBUF_CHECK_FREE_OOSEQ s;
  match next_timeout s with
  | [] => Ok (SYS_TIMEOUTS_SLEEPTIME_INFINITE, s)
  | (a, t) :: l =>
      if TIME_LESS_THAN now0 (time t) then
        let ret := u32 (time t - now0) in
        _ ← lwip_assert "invalid sleeptime" (ret <=? LWIP_MAX_TIMEOUT);
        Ok (ret, s)
      else
        match fuel with
        | O => Err OutOfFuel
        | S fuel' =>
            let s := set_due (time t) (set_list l s) in
            p ← pool_free (timeo_pool s) a;
            s ← call_handler (h t) (arg t) (set_pool p s);
            check_loop fuel' now0 s
        end
  end.

Definition sys_check_timeouts (fuel : nat) (s : tstate) : res (Z * tstate) :=
  check_loop fuel (now s) s.

End Timeouts.

Arguments tstate : clear implicits.

(** Distance of a time from a reference point, modulo 2^32. *)
Definition since (b t : Z) : Z := u32 (t - b).

(** All times lie in the half of the clock that follows [b]: comparing them
    with [TIME_LESS_THAN] is comparing their distances. *)
Definition in_window (b : Z) (l : list (Z * sys_timeo)) : Prop :=
  Forall (fun t => since b (time t.2) < 0x80000000) l.

(** Sorted by due time. *)
Fixpoint sorted_from (b : Z) (l : list (Z * sys_timeo)) : Prop :=
  match l with
  | [] => True
  | t :: l' => Forall (fun t' => since b (time t.2) <= since b (time t'.2)) l' /\ sorted_from b l'
  end.

(** Stable insertion, the reference: after every entry that is due no later. *)
Fixpoint insert_sorted (b : Z) (t : Z * sys_timeo) (l : list (Z * sys_timeo)) : list (Z * sys_timeo) :=
  match l with
  | [] => [t]
  | n :: l' =>
      if since b (time t.2) <? since b (time n.2) then t :: l else n :: insert_sorted b t l'
  end.

(** The list and the pool agree: the nodes are the elements held. *)
Definition nodes_ok {P C} `{PoolAlloc P} (s : tstate P C) : Prop :=
  NoDup (next_timeout s).*1 /\ pool_holds (timeo_pool s) (list_to_set (next_timeout s).*1).

Definition keys {P C} (s : tstate P C) : list (sys_timeout_handler * Z) :=
  (fun t => (h t.2, arg t.2)) <$> next_timeout s.

(** The timers of the stack itself: the cyclic timers 1 to 6, each at most
    once, and the TCP timer when it is marked active. *)
Definition stack_keys : list (sys_timeout_handler * Z) :=
  (tcpip_tcp_timer_ptr, 0) :: ((fun i => (lwip_cyclic_timer_ptr, Z.of_nat i)) <$> seq 1 6).

Definition stack_timers {P C} `{PoolAlloc P} (s : tstate P C) : Prop :=
  nodes_ok s /\ NoDup (keys s) /\ keys s ⊆ stack_keys /\
  ((tcpip_tcp_timer_ptr, 0) ∈ keys s <-> tcpip_tcp_timer_active s = true).

(** Within 2^29 ms of [t0], before or after. *)
Definition near (t0 t : Z) : Prop := u32 (t - t0 + 0x20000000) <= 0x40000000.

(** How often an entry can still fire in a pass that started at [t0]: not
    expired, due right now, overdue. *)
Definition due_weight (t0 t : Z) : nat :=
  if TIME_LESS_THAN t0 t then 0 else if t =? t0 then 1 else 2.

Fixpoint total_weight (t0 : Z) (l : list (Z * sys_timeo)) : nat :=
  match l with [] => 0 | t :: l' => due_weight t0 (time t.2) + total_weight t0 l' end.

Definition near_list (t0 : Z) (l : list (Z * sys_timeo)) : Prop :=
  Forall (fun t => is_u32 (time t.2) /\ near t0 (time t.2)) l.

(** A handler of the stack that leaves the timers alone and returns before the
    clock is 2^28 ms past [t0]. *)
Definition quiet {P C} (t0 : Z) (f : tstate P C -> res (tstate P C)) : Prop :=
  forall s, is_u32 (now s) -> since t0 (now s) < 0x10000000 ->
  exists s', f s = Ok s' /\ next_timeout s' = next_timeout s /\ timeo_pool s' = timeo_pool s /\
    tcpip_tcp_timer_active s' = tcpip_tcp_timer_active s /\
    current_timeout_due_time s' = current_timeout_due_time s /\
    is_u32 (now s') /\ since t0 (now s') < 0x10000000.

(** The pool as the build declares it, 8 elements of 16 bytes, at some address;
    its memory is zero at boot. *)
Definition timeo_desc : memp_desc := MempDesc 16 (Z.of_nat MEMP_NUM_SYS_TIMEOUT) 0x20001000.
Definition timeo_pool_boot : pool :=
  Pool (list_to_map ((fun a => (a, 0)) <$> elems timeo_desc)) 0 (StatsMem 0 0 0 0 0).
Definition timeo_pool_init : pool :=
  match memp_init_pool timeo_desc timeo_pool_boot with Ok p => p | Err _ => timeo_pool_boot end.

(** ** Lemmas *)

Lemma timeo_desc_ok : desc_ok timeo_desc.
Proof. unfold desc_ok, timeo_desc, MEMP_NUM_SYS_TIMEOUT. cbn. lia. Qed.

#[export] Instance timeo_pool_alloc : PoolAlloc pool := memp_alloc timeo_desc timeo_desc_ok.

Lemma timeo_pool_init_holds : pool_holds timeo_pool_init ∅.
Proof.
  destruct (memp_init_pool_rep timeo_desc timeo_desc_ok timeo_pool_boot) as (p & E & R).
  - intros a Ha. unfold timeo_pool_boot. cbn [words].
    destruct (list_to_map ((fun a => (a, 0)) <$> elems timeo_desc) !! a) as [v|] eqn:Ev; [eauto|].
    exfalso. apply not_elem_of_list_to_map_2 in Ev. apply Ev.
    rewrite <- list_fmap_compose. apply list_elem_of_fmap. by exists a.
  - done.
  - exists (rev (elems timeo_desc)). unfold timeo_pool_init. by rewrite E.
Qed.

Lemma timeo_pool_capacity : pool_capacity = MEMP_NUM_SYS_TIMEOUT.
Proof. done. Qed.

Lemma tlt_since b t c :
  since b t < 0x80000000 -> since b c < 0x80000000 -> TIME_LESS_THAN t c = (since b t <? since b c).
Proof. unfold TIME_LESS_THAN, LWIP_MAX_TIMEOUT, since. intros Ht Hc. bool_cases; (done || solve_u). Qed.

Lemma insert_after_sorted b t n l :
  since b (time t.2) < 0x80000000 -> in_window b (n :: l) -> since b (time n.2) <= since b (time t.2) ->
  insert_after t (n :: l) = n :: insert_sorted b t l.
Proof.
  intros Ht. revert n. induction l as [|m l IH]; intros n Hw Hn; [done|].
  apply Forall_cons in Hw as [_ Hw]. pose proof Hw as Hw'. apply Forall_cons in Hw as [Hm _].
  change (insert_after t (n :: m :: l)) with
    (if TIME_LESS_THAN (time t.2) (time m.2) then n :: t :: m :: l else n :: insert_after t (m :: l)).
  rewrite (tlt_since b) by done. cbn [insert_sorted].
  destruct (Z.ltb_spec (since b (time t.2)) (since b (time m.2))); [done|].
  f_equal. by apply IH.
Qed.

(** The insertion of the code is the stable insertion. *)
Lemma insert_timeout_sorted b t l :
  since b (time t.2) < 0x80000000 -> in_window b l -> insert_timeout t l = insert_sorted b t l.
Proof.
  intros Ht Hw. destruct l as [|n l]; [done|]. cbn [insert_timeout insert_sorted].
  pose proof Hw as Hw'. apply Forall_cons in Hw as [Hn _]. rewrite (tlt_since b) by done.
  destruct (Z.ltb_spec (since b (time t.2)) (since b (time n.2))); [done|].
  by apply insert_after_sorted.
Qed.

Lemma insert_after_perm t n l : insert_after t (n :: l) ≡ₚ t :: n :: l.
Proof.
  revert n. induction l as [|m l IH]; intros n; [apply perm_swap|].
  change (insert_after t (n :: m :: l)) with
    (if TIME_LESS_THAN (time t.2) (time m.2) then n :: t :: m :: l else n :: insert_after t (m :: l)).
  destruct (TIME_LESS_THAN _ _); [apply perm_swap|]. rewrite IH. apply perm_swap.
Qed.

(** Whatever the times are, a timeout is added and none is lost. *)
Lemma insert_timeout_perm t l : insert_timeout t l ≡ₚ t :: l.
Proof.
  destruct l as [|n l]; [done|]. cbn [insert_timeout].
  destruct (TIME_LESS_THAN _ _); [done | apply insert_after_perm].
Qed.

Lemma insert_sorted_perm b t l : insert_sorted b t l ≡ₚ t :: l.
Proof.
  induction l as [|n l IH]; [done|]. cbn [insert_sorted]. destruct (_ <? _); [done|].
  rewrite IH. apply perm_swap.
Qed.

Lemma insert_sorted_ok b t l : sorted_from b l -> sorted_from b (insert_sorted b t l).
Proof.
  induction l as [|n l IH]; cbn [insert_sorted sorted_from]; [done|]. intros [Hn Hs].
  destruct (Z.ltb_spec (since b (time t.2)) (since b (time n.2))).
  - cbn [sorted_from]. split; [|done]. constructor; [lia|].
    eapply Forall_impl; [exact Hn|]. intros x Hx. cbv beta in Hx. lia.
  - cbn [sorted_from]. split; [|by apply IH].
    rewrite (insert_sorted_perm b t l). by constructor.
Qed.

Lemma unlink_spec hd a l :
  match unlink hd a l with
  | None => Forall (fun t => ~ (h t.2 = hd /\ arg t.2 = a)) l
  | Some (x, l') => exists l1 t l2, l = l1 ++ (x, t) :: l2 /\ l' = l1 ++ l2 /\ h t = hd /\ arg t = a /\
      Forall (fun t => ~ (h t.2 = hd /\ arg t.2 = a)) l1
  end.
Proof.
  induction l as [|[x t] l IH]; cbn [unlink]; [constructor|]. cbn [fst snd].
  destruct (bool_decide_reflect (h t = hd)) as [Eh|Eh]; cbn [andb].
  - destruct (Z.eqb_spec (arg t) a) as [Ea|Ea].
    + exists [], t, l. done.
    + destruct (unlink hd a l) as [[y l']|]; [|by constructor; [naive_solver|]].
      destruct IH as (l1 & t' & l2 & -> & -> & ? & ? & Hf). exists ((x, t) :: l1), t', l2.
      repeat split; try done. constructor; [naive_solver | done].
  - destruct (unlink hd a l) as [[y l']|]; [|by constructor; [naive_solver|]].
    destruct IH as (l1 & t' & l2 & -> & -> & ? & ? & Hf). exists ((x, t) :: l1), t', l2.
    repeat split; try done. constructor; [naive_solver | done].
Qed.

Section TimeoutLemmas.
Context {P C : Type} `{PoolAlloc P}.
Implicit Types s : tstate P C.

(** The size of the list is the number of pool elements in use. *)
Lemma nodes_size s : nodes_ok s ->
  size (list_to_set (C := gset Z) (next_timeout s).*1) = length (next_timeout s).
Proof. intros [Hn _]. rewrite size_list_to_set by done. by rewrite length_fmap. Qed.

Lemma sys_timeout_abs_ok t hd a s :
  nodes_ok s -> (length (next_timeout s) < pool_capacity)%nat ->
  exists s' x, sys_timeout_abs t hd a s = Ok s' /\ nodes_ok s' /\
    next_timeout s' = insert_timeout (x, SysTimeo t hd a) (next_timeout s) /\
    now s' = now s /\ tcpip_tcp_timer_active s' = tcpip_tcp_timer_active s /\
    tcp_pcbs s' = tcp_pcbs s /\ client s' = client s /\
    current_timeout_due_time s' = current_timeout_due_time s.
Proof.
  intros Hok Hl. destruct (pool_malloc_some (timeo_pool s) _ (proj2 Hok)) as (p & x & E & Hx & H0 & Hp).
  { by rewrite nodes_size. }
  unfold sys_timeout_abs. rewrite E, bind_ok. eexists _, x. split; [done|].
  split; [|done]. cbn. destruct Hok as [Hn _].
  pose proof (insert_timeout_perm (x, SysTimeo t hd a) (next_timeout s)) as Hperm. split; cbn.
  - rewrite Hperm. cbn. constructor; [|done]. by rewrite elem_of_list_to_set in Hx.
  - replace (list_to_set (C := gset Z) (insert_timeout (x, SysTimeo t hd a) (next_timeout s)).*1)
      with ({[x]} ∪ list_to_set (C := gset Z) (next_timeout s).*1); [done|].
    apply set_eq. intros y. rewrite elem_of_list_to_set, Hperm. cbn. set_solver.
Qed.

(** Taking the head out. *)
Lemma pop_ok x t l s :
  nodes_ok s -> next_timeout s = (x, t) :: l ->
  exists p, pool_free (timeo_pool s) x = Ok p /\ nodes_ok (set_pool p (set_due (time t) (set_list l s))).
Proof.
  intros [Hn Hp] El. rewrite El in Hn, Hp. cbn in Hn, Hp. apply NoDup_cons in Hn as [Hx Hn].
  destruct (pool_free_spec _ _ x Hp) as (p & E & Hp'); [set_solver|].
  exists p. split; [done|]. split; cbn; [done|].
  replace (list_to_set (C := gset Z) l.*1) with (({[x]} ∪ list_to_set l.*1) ∖ {[x]} : gset Z); [done|].
  apply set_eq. intros y. rewrite elem_of_difference, elem_of_union, elem_of_list_to_set, elem_of_singleton.
  split; [tauto|]. intros Hy. split; [by right|]. intros ->. done.
Qed.

Lemma sys_untimeout_ok hd a s :
  nodes_ok s -> exists s', sys_untimeout hd a s = Ok s' /\ nodes_ok s' /\
    match unlink hd a (next_timeout s) with
    | None => s' = s
    | Some (_, l') => next_timeout s' = l'
    end.
Proof.
  intros [Hn Hp]. unfold sys_untimeout. pose proof (unlink_spec hd a (next_timeout s)) as Hu.
  destruct (unlink hd a (next_timeout s)) as [[x l']|]; [|by exists s].
  destruct Hu as (l1 & t & l2 & El & -> & _). rewrite El in Hn, Hp.
  destruct (pool_free_spec _ _ x Hp) as (p & E & Hp').
  { apply elem_of_list_to_set. rewrite fmap_app. cbn. set_solver. }
  rewrite E, bind_ok. eexists. split; [done|]. split; [|done].
  assert (Hperm : (l1 ++ (x, t) :: l2).*1 ≡ₚ x :: (l1 ++ l2).*1)
    by by rewrite <- Permutation_middle.
  rewrite Hperm in Hn. apply NoDup_cons in Hn as [Hx Hn]. split; cbn; [done|].
  replace (list_to_set (C := gset Z) (l1 ++ l2).*1)
    with (list_to_set (l1 ++ (x, t) :: l2).*1 ∖ {[x]} : gset Z); [done|].
  apply set_eq. intros y. rewrite elem_of_difference, !elem_of_list_to_set, Hperm, elem_of_cons, elem_of_singleton.
  split; [tauto|]. intros Hy. split; [by right|]. intros ->. done.
Qed.

End TimeoutLemmas.

(** Times as distances from [t0]. *)
Lemma near_offset t0 t :
  is_u32 t -> near t0 t -> exists e, -0x20000000 <= e <= 0x20000000 /\ t = u32 (t0 + e).
Proof.
  unfold near. intros Ht Hn. exists (u32 (t - t0 + 0x20000000) - 0x20000000). split; [solve_u|].
  replace (t0 + (u32 (t - t0 + 0x20000000) - 0x20000000)) with (t0 - 0x20000000 + u32 (t - t0 + 0x20000000))
    by lia.
  generalize dependent (0x20000000). unfold is_u32, u32 in *. intros z Hn.
  rewrite Z.add_mod_idemp_r by lia. replace (t0 - z + (t - t0 + z)) with t by lia.
  symmetry. apply Z.mod_small. lia.
Qed.

Lemma since_offset t0 t : is_u32 t -> since t0 t < 0x10000000 -> exists y, 0 <= y < 0x10000000 /\ t = u32 (t0 + y).
Proof.
  unfold since. intros Ht Hs. exists (u32 (t - t0)). split; [solve_u|]. unfold is_u32, u32 in *.
  rewrite Z.add_mod_idemp_r by lia. replace (t0 + (t - t0)) with t by lia. symmetry. apply Z.mod_small. lia.
Qed.

Lemma u32_sub a b : u32 (u32 a - u32 b) = u32 (a - b).
Proof. unfold u32. rewrite Zminus_mod_idemp_l, Zminus_mod_idemp_r. done. Qed.

Lemma u32_add a b : u32 (u32 a + b) = u32 (a + b).
Proof. unfold u32. by rewrite Zplus_mod_idemp_l. Qed.

Lemma tlt_offset t0 e f :
  -0x40000000 <= e - f <= 0x40000000 -> TIME_LESS_THAN (u32 (t0 + e)) (u32 (t0 + f)) = (e <? f).
Proof.
  intros He. unfold TIME_LESS_THAN, LWIP_MAX_TIMEOUT. rewrite u32_sub.
  replace (t0 + e - (t0 + f)) with (e - f) by lia. bool_cases; (done || solve_u).
Qed.

Lemma near_intro t0 e : -0x20000000 <= e <= 0x20000000 -> near t0 (u32 (t0 + e)).
Proof.
  intros He. unfold near. replace (u32 (t0 + e) - t0 + 0x20000000) with (u32 (t0 + e) + (0x20000000 - t0)) by lia.
  rewrite u32_add. replace (t0 + e + (0x20000000 - t0)) with (e + 0x20000000) by lia. solve_u.
Qed.

Lemma due_weight_offset t0 e :
  is_u32 t0 -> -0x20000000 <= e <= 0x20000000 ->
  due_weight t0 (u32 (t0 + e)) = if 0 <? e then 0%nat else if e =? 0 then 1%nat else 2%nat.
Proof.
  intros H0 He. unfold due_weight.
  assert (E : TIME_LESS_THAN t0 (u32 (t0 + e)) = (0 <? e)).
  { rewrite <- (tlt_offset t0 0 e) by lia. by rewrite Z.add_0_r, (u32_id t0). }
  rewrite E. destruct (Z.ltb_spec 0 e); [done|].
  destruct (Z.eqb_spec e 0) as [->|]; [rewrite Z.add_0_r, u32_id by done; by rewrite Z.eqb_refl|].
  destruct (Z.eqb_spec (u32 (t0 + e)) t0) as [E2|]; [|done]. exfalso.
  assert (u32 (t0 + e - t0) = 0).
  { replace (t0 + e - t0) with (t0 + e + - t0) by lia.
    rewrite <- (u32_add (t0 + e)), E2. by replace (t0 + - t0) with 0 by lia. }
  replace (t0 + e - t0) with e in * by lia. solve_u.
Qed.

(** The next due time of a cyclic timer that fires: nothing is left to fire if
    it was due now, and at most one firing if it was overdue. *)
Lemma next_due_decreases t0 d iv nw :
  is_u32 t0 -> is_u32 d -> near t0 d -> TIME_LESS_THAN t0 d = false -> 0 < iv <= 60000 ->
  is_u32 nw -> since t0 nw < 0x10000000 ->
  let nx := u32 (d + iv) in
  let d' := if TIME_LESS_THAN nx nw then u32 (nw + iv) else nx in
  is_u32 d' /\ near t0 d' /\ (due_weight t0 d' < due_weight t0 d)%nat.
Proof.
  intros H0 Hd Hn Hexp Hiv Hnw Hs nx d'. subst nx d'.
  destruct (near_offset t0 d Hd Hn) as (e & He & ->).
  destruct (since_offset t0 nw Hnw Hs) as (y & Hy & ->).
  rewrite !u32_add, <- !Z.add_assoc. rewrite tlt_offset by lia.
  assert (He0 : e <= 0).
  { pose proof (tlt_offset t0 0 e ltac:(lia)) as E. rewrite Z.add_0_r, u32_id, Hexp in E by done.
    symmetry in E. apply Z.ltb_ge in E. lia. }
  split; [by destruct (_ <? _); apply u32_range|].
  rewrite (due_weight_offset t0 e) by (done || lia).
  destruct (Z.ltb_spec (e + iv) y).
  - split; [apply near_intro; lia|]. rewrite due_weight_offset by (done || lia). bool_cases; lia.
  - split; [apply near_intro; lia|]. rewrite due_weight_offset by (done || lia). bool_cases; lia.
Qed.

Lemma fresh_due t0 iv nw :
  is_u32 t0 -> 0 < iv <= 60000 -> is_u32 nw -> since t0 nw < 0x10000000 ->
  is_u32 (u32 (nw + iv)) /\ near t0 (u32 (nw + iv)) /\ due_weight t0 (u32 (nw + iv)) = 0%nat.
Proof.
  intros H0 Hiv Hnw Hs. destruct (since_offset t0 nw Hnw Hs) as (y & Hy & ->).
  rewrite u32_add, <- Z.add_assoc. split; [apply u32_range|]. split; [apply near_intro; lia|].
  rewrite due_weight_offset by (done || lia). bool_cases; (done || lia).
Qed.

Lemma total_weight_perm t0 l l' : l ≡ₚ l' -> total_weight t0 l = total_weight t0 l'.
Proof. induction 1; simpl; lia. Qed.

Lemma total_weight_bound t0 l : (total_weight t0 l <= 2 * length l)%nat.
Proof.
  induction l as [|t l IH]; cbn [total_weight length]; [lia|].
  unfold due_weight. destruct (TIME_LESS_THAN _ _), (time t.2 =? t0); lia.
Qed.

Lemma stack_keys_length : length stack_keys = 7%nat.
Proof. done. Qed.

Lemma stack_keys_cases k : k ∈ stack_keys ->
  k = (tcpip_tcp_timer_ptr, 0) \/
  exists i iv, k = (lwip_cyclic_timer_ptr, Z.of_nat i) /\ buf_get lwip_cyclic_timers i = Ok iv /\
    0 < iv <= 60000.
Proof.
  intros [->|Hk]%elem_of_cons; [by left|]. right.
  apply list_elem_of_fmap in Hk as (i & -> & Hi). exists i.
  apply elem_of_seq in Hi.
  do 7 (destruct i as [|i]; [first [lia | eexists; split; [done|]; split; [reflexivity | lia]]|]). lia.
Qed.

Lemma keys_length_bound (l : list (sys_timeout_handler * Z)) :
  NoDup l -> l ⊆ stack_keys -> (length l <= 7)%nat.
Proof.
  intros Hn Hs. rewrite <- stack_keys_length. apply submseteq_length, NoDup_submseteq; done.
Qed.

Section StackTimers.
Context {P C : Type} `{PoolAlloc P}.
Implicit Types s : tstate P C.
Context (cyclic_handler : Z -> tstate P C -> res (tstate P C)).
Context (call_client : Z -> Z -> tstate P C -> res (tstate P C)).
Context (pbuf_free_ooseq_pending : tstate P C -> bool) (pbuf_free_ooseq : tstate P C -> res (tstate P C)).
Context (Hcap : pool_capacity = MEMP_NUM_SYS_TIMEOUT).
Context (t0 : Z) (Ht0 : is_u32 t0) (Hquiet : forall i, quiet t0 (cyclic_handler i)).
Context (Hooseq : quiet t0 pbuf_free_ooseq).
Context (Hclears : forall s s', pbuf_free_ooseq s = Ok s' -> pbuf_free_ooseq_pending s' = false).

#[local] Set Default Proof Using "Type*".

(** What a pass keeps. *)
Definition pass_inv s : Prop :=
  stack_timers s /\ near_list t0 (next_timeout s) /\ is_u32 (now s) /\ since t0 (now s) < 0x10000000.

(** A handler that puts its own timer back: [k] is the key taken out. *)
Lemma rearm_ok s t k :
  nodes_ok s -> NoDup (k :: keys s) -> k :: keys s ⊆ stack_keys -> near_list t0 (next_timeout s) ->
  ((tcpip_tcp_timer_ptr, 0) ∈ k :: keys s <-> tcpip_tcp_timer_active s = true) ->
  is_u32 (now s) -> since t0 (now s) < 0x10000000 -> is_u32 t -> near t0 t ->
  exists s', sys_timeout_abs t k.1 k.2 s = Ok s' /\ pass_inv s' /\
    total_weight t0 (next_timeout s') = (due_weight t0 t + total_weight t0 (next_timeout s))%nat /\
    keys s' ≡ₚ k :: keys s /\ now s' = now s /\
    tcpip_tcp_timer_active s' = tcpip_tcp_timer_active s.
Proof using Hcap.
  clear Hclears Hooseq Hquiet pbuf_free_ooseq pbuf_free_ooseq_pending call_client cyclic_handler.
  intros Hok Hnd Hsub Hnear Htcp Hnow Hs Ht Hnt.
  assert (Hlen : (length (next_timeout s) < pool_capacity)%nat).
  { rewrite Hcap. pose proof (keys_length_bound _ Hnd Hsub) as Hl. unfold keys in Hl.
    cbn [length] in Hl. rewrite length_fmap in Hl. unfold MEMP_NUM_SYS_TIMEOUT. lia. }
  destruct (sys_timeout_abs_ok t k.1 k.2 s Hok Hlen) as (s' & x & E & Hok' & El & En & Ea & _).
  exists s'. split; [done|].
  pose proof (insert_timeout_perm (x, SysTimeo t k.1 k.2) (next_timeout s)) as Hperm.
  rewrite <- El in Hperm.
  assert (Hk : keys s' ≡ₚ k :: keys s) by (unfold keys; rewrite Hperm; by destruct k).
  split; [|by rewrite (total_weight_perm _ _ _ Hperm)].
  split; [split; [done|split; [by rewrite Hk|split]]|split; [|by rewrite En]].
  - intros y Hy. apply Hsub. by rewrite <- Hk.
  - by rewrite Hk, Htcp, Ea.
  - unfold near_list. rewrite Hperm. by constructor.
Qed.

(** One firing keeps the invariant and uses up weight. *)
Lemma fire_ok s x t l :
  pass_inv s -> next_timeout s = (x, t) :: l -> TIME_LESS_THAN t0 (time t) = false ->
  exists p s', pool_free (timeo_pool s) x = Ok p /\
    call_handler cyclic_handler call_client (h t) (arg t) (set_pool p (set_due (time t) (set_list l s)))
      = Ok s' /\
    pass_inv s' /\ (total_weight t0 (next_timeout s') < total_weight t0 (next_timeout s))%nat.
Proof.
  clear Hclears Hooseq pbuf_free_ooseq pbuf_free_ooseq_pending.
  intros ((Hok & Hnd & Hsub & Htcp) & Hnear & Hnow & Hs) El Hexp.
  destruct (pop_ok x t l s Hok El) as (p & Ep & Hok1). exists p.
  set (s1 := set_pool p (set_due (time t) (set_list l s))) in *.
  assert (Hk : keys s = (h t, arg t) :: keys s1) by (unfold keys; by rewrite El).
  rewrite Hk in Hnd, Hsub, Htcp. unfold near_list in Hnear. rewrite El in Hnear.
  apply Forall_cons in Hnear as [[Hu Hn] Hnear]. cbn [fst snd] in Hu, Hn.
  assert (Hw : (0 < due_weight t0 (time t))%nat).
  { unfold due_weight. rewrite Hexp. destruct (_ =? _); lia. }
  rewrite El. cbn [total_weight snd].
  pose proof (Hsub (h t, arg t) ltac:(by constructor)) as Hcase.
  destruct (stack_keys_cases _ Hcase) as [E|(i & iv & E & Ei & Hiv)];
    injection E as Eh Ea; rewrite Eh, Ea in *; cbn [call_handler].
  - destruct (Hquiet 0 s1 Hnow Hs) as (s2 & E2 & El2 & Epl2 & Eac2 & Edu2 & Hn2 & Hs2).
    assert (Hok2 : nodes_ok s2) by (unfold nodes_ok; by rewrite El2, Epl2).
    assert (Hk2 : keys s2 = keys s1) by (unfold keys; by rewrite El2).
    unfold tcpip_tcp_timer. rewrite E2, bind_ok. destruct (tcp_pcbs s2).
    + destruct (fresh_due t0 TCP_TMR_INTERVAL (now s2) Ht0) as (Hu' & Hn' & Hw'); [unfold TCP_TMR_INTERVAL; lia|done..|].
      destruct (rearm_ok s2 (u32 (now s2 + TCP_TMR_INTERVAL)) (tcpip_tcp_timer_ptr, 0))
        as (s3 & E3 & Hinv & Hw3 & _); try done; rewrite ?Hk2, ?El2, ?Eac2; try done.
      exists s3. split; [done|]. split; [exact E3|]. split; [done|]. rewrite Hw3, Hw', El2. cbn. lia.
    + exists (set_active false s2). split; [done|]. split; [done|].
      split; [|cbn; rewrite El2; cbn; lia]. apply NoDup_cons in Hnd as [Hnk Hnd].
      split; [split; [done|split; [|split]]|split; [|done]].
      * change (keys (set_active false s2)) with (keys s2). by rewrite Hk2.
      * change (keys (set_active false s2)) with (keys s2). rewrite Hk2. set_solver.
      * change (keys (set_active false s2)) with (keys s2). rewrite Hk2. cbn. split; done.
      * cbn. by rewrite El2.
  - destruct (Hquiet (Z.of_nat i) s1 Hnow Hs) as (s2 & E2 & El2 & Epl2 & Eac2 & Edu2 & Hn2 & Hs2).
    assert (Hok2 : nodes_ok s2) by (unfold nodes_ok; by rewrite El2, Epl2).
    assert (Hk2 : keys s2 = keys s1) by (unfold keys; by rewrite El2).
    unfold lwip_cyclic_timer. rewrite Ei, bind_ok, E2, bind_ok, Edu2.
    change (current_timeout_due_time s1) with (time t).
    destruct (next_due_decreases t0 (time t) iv (now s2) Ht0 Hu Hn Hexp Hiv Hn2 Hs2) as (Hu' & Hn' & Hw').
    set (d' := if TIME_LESS_THAN (u32 (time t + iv)) (now s2) then u32 (now s2 + iv)
               else u32 (time t + iv)) in *.
    destruct (rearm_ok s2 d' (lwip_cyclic_timer_ptr, Z.of_nat i))
      as (s3 & E3 & Hinv & Hw3 & _); try done; rewrite ?Hk2, ?El2, ?Eac2; try done.
    exists s3. split; [done|]. split.
    { unfold d' in E3. cbn [fst snd] in E3. clear -E3.
      destruct (TIME_LESS_THAN (u32 (time t + iv)) (now s2)); exact E3. }
    split; [done|]. rewrite Hw3, El2. cbn. lia.
Qed.

(** The out-of-sequence queue is looked after, and the timers stay. *)
Lemma check_ooseq_ok s : pass_inv s ->
  exists s', PBUF_CHECK_FREE_OOSEQ pbuf_free_ooseq_pending pbuf_free_ooseq s = Ok s' /\ pass_inv s' /\
    next_timeout s' = next_timeout s /\ pbuf_free_ooseq_pending s' = false.
Proof using Hooseq Hclears.
  clear Hquiet Hcap call_client cyclic_handler. intros Hinv. unfold PBUF_CHECK_FREE_OOSEQ.
  destruct (pbuf_free_ooseq_pending s) eqn:Ep; [|by exists s]. destruct Hinv as ((Hok & Hkeys) & Hnear & Hnow & Hs).
  destruct (Hooseq s Hnow Hs) as (s' & E & El & Epl & Eac & _ & Hn' & Hs'). exists s'. split; [done|]. split; [|by split; [|eapply Hclears]].
  unfold pass_inv, stack_timers, nodes_ok, keys in *. by rewrite El, Epl, Eac.
Qed.

Lemma check_loop_ok fuel : forall s,
  pass_inv s -> (total_weight t0 (next_timeout s) <= fuel)%nat ->
  exists ret s', check_loop cyclic_handler call_client pbuf_free_ooseq_pending pbuf_free_ooseq fuel t0 s = Ok (ret, s') /\ pass_inv s' /\
    pbuf_free_ooseq_pending s' = false /\
    match next_timeout s' with
    | [] => ret = SYS_TIMEOUTS_SLEEPTIME_INFINITE
    | t :: _ => TIME_LESS_THAN t0 (time t.2) = true /\ ret = u32 (time t.2 - t0)
    end.
Proof.
  induction fuel as [|fuel IH]; intros s0 Hinv0 Hf; cbn [check_loop];
    destruct (check_ooseq_ok s0 Hinv0) as (s & -> & Hinv & E0 & Hp); rewrite bind_ok; rewrite <- E0 in Hf;
    destruct (next_timeout s) as [|[x t] l] eqn:El;
    try (exists SYS_TIMEOUTS_SLEEPTIME_INFINITE, s; split; [done|]; split; [done|]; split; [done|]; by rewrite El).
  all: destruct (TIME_LESS_THAN t0 (time t)) eqn:Et.
  1, 3: exists (u32 (time t - t0)), s; unfold lwip_assert;
    destruct (Z.leb_spec (u32 (time t - t0)) LWIP_MAX_TIMEOUT) as [Hle|Hgt];
    [split; [done|]; split; [done|]; split; [done|]; rewrite El; done | exfalso].
  1, 2: unfold TIME_LESS_THAN, LWIP_MAX_TIMEOUT in *; apply Z.ltb_lt in Et;
    destruct Hinv as (_ & Hnear & _); rewrite El in Hnear; apply Forall_cons in Hnear as [[Hu Hn] _];
    cbn [snd] in *; destruct (near_offset t0 _ Hu Hn) as (e & He & Ee);
    rewrite Ee in *; unfold u32 in *; rewrite ?Zminus_mod_idemp_l, ?Zminus_mod_idemp_r in *;
    replace (t0 + e - t0) with e in * by lia; replace (t0 - (t0 + e)) with (- e) in * by lia; lia.
  - exfalso. cbn [total_weight snd] in Hf. unfold due_weight in Hf. rewrite Et in Hf.
    destruct (_ =? _); lia.
  - destruct (fire_ok s x t l Hinv El Et) as (p & s' & Ep & Ec & Hinv' & Hw).
    rewrite El in Hw. cbn [timeo_pool set_due set_list]. rewrite Ep, bind_ok, Ec, bind_ok. apply IH; [done | lia].
Qed.

(** The cyclic timers 1 to [i - 1] are armed, [l] is the rest. *)
Lemma init_cyclic_ok l : forall (i : nat) s,
  pass_inv s -> tcpip_tcp_timer_active s = false -> Forall (fun iv => 0 < iv <= 60000) l ->
  (1 <= i)%nat -> (i + length l = 7)%nat ->
  keys s ⊆ ((fun j => (lwip_cyclic_timer_ptr, Z.of_nat j)) <$> seq 1 (i - 1)) ->
  exists s', init_cyclic l i s = Ok s' /\ pass_inv s' /\ length (next_timeout s') =
    (length (next_timeout s) + length l)%nat.
Proof using Hcap Ht0.
  clear Hclears Hooseq Hquiet pbuf_free_ooseq pbuf_free_ooseq_pending call_client cyclic_handler.
  induction l as [|iv l IH]; intros i s Hinv Ha Hl Hi Hlen Hk; cbn [init_cyclic].
  - exists s. split; [done|]. split; [done|]. cbn [length]. lia.
  - apply Forall_cons in Hl as [Hiv Hl]. pose proof Hinv as ((Hok & Hnd & Hsub & Htcp) & Hnear & Hnow & Hs).
    unfold sys_timeout, lwip_assert. cbn [length] in Hlen.
    destruct (Z.leb_spec iv (LWIP_UINT32_MAX / 4)) as [_|Hbad];
      [|unfold LWIP_UINT32_MAX in Hbad; lia]. rewrite bind_ok.
    destruct (fresh_due t0 iv (now s) Ht0 Hiv Hnow Hs) as (Hu' & Hn' & Hw').
    destruct (rearm_ok s (u32 (now s + iv)) (lwip_cyclic_timer_ptr, Z.of_nat i))
      as (s' & E & Hinv' & Hw & Hk' & Hn'' & Ha'); try done.
    + constructor; [|done]. intros Hin. apply Hk, list_elem_of_fmap in Hin as (j & [= Ej] & Hj).
      apply elem_of_seq in Hj. lia.
    + intros k [->|Hin]%elem_of_cons; [|by apply Hsub]. right.
      apply list_elem_of_fmap. exists i. split; [done|]. apply elem_of_seq. lia.
    + rewrite elem_of_cons, Htcp. naive_solver.
    + cbn [fst snd] in E. rewrite E, bind_ok. replace (Z.of_nat i + 1) with (Z.of_nat (S i)) by lia.
      destruct (IH (S i) s') as (s2 & E2 & Hinv2 & Hlen2); try done; [congruence | lia | lia | |].
      * intros k Hin. rewrite Hk' in Hin. apply elem_of_cons in Hin as [->|Hin].
        -- apply list_elem_of_fmap. exists i. split; [done|]. apply elem_of_seq. lia.
        -- apply Hk, list_elem_of_fmap in Hin as (j & -> & Hj). apply list_elem_of_fmap.
           exists j. split; [done|]. apply elem_of_seq in Hj. apply elem_of_seq. lia.
      * exists s2. split; [done|]. split; [done|]. rewrite Hlen2.
        apply Permutation_length in Hk'. unfold keys in Hk'. cbn [length] in Hk'.
        rewrite !length_fmap in Hk'. cbn [length]. lia.
Qed.

End StackTimers.

(** ** Properties *)

(** C29: [sys_timeout] keeps the timeout list sorted by due time across the
    wrap-around of the clock: with all due times in the half of the 32-bit
    range that follows a reference point [b], the new timeout is placed after
    every timeout that is due no later (so timeouts with equal due times keep
    their order) and before every later one. [sys_untimeout] then removes the
    first entry with the given handler and argument and gives its memory back,
    or changes nothing. *)
Theorem sys_timeout_sorted {P C} `{PoolAlloc P} b msecs hd a hd' a' (s : tstate P C) :
  nodes_ok s -> (length (next_timeout s) < pool_capacity)%nat -> msecs <= 0x3fffffff ->
  in_window b (next_timeout s) -> sorted_from b (next_timeout s) ->
  since b (u32 (now s + msecs)) < 0x80000000 ->
  exists s1 x s2, sys_timeout msecs hd a s = Ok s1 /\ nodes_ok s1 /\
    next_timeout s1 = insert_sorted b (x, SysTimeo (u32 (now s + msecs)) hd a) (next_timeout s) /\
    sorted_from b (next_timeout s1) /\ in_window b (next_timeout s1) /\
    sys_untimeout hd' a' s1 = Ok s2 /\ nodes_ok s2 /\
    ((s2 = s1 /\ Forall (fun t => ~ (h t.2 = hd' /\ arg t.2 = a')) (next_timeout s1)) \/
     exists l1 y t l2, next_timeout s1 = l1 ++ (y, t) :: l2 /\ next_timeout s2 = l1 ++ l2 /\
       h t = hd' /\ arg t = a' /\ Forall (fun t => ~ (h t.2 = hd' /\ arg t.2 = a')) l1).
Proof.
  intros Hok Hl Hm Hw Hsort Hb. unfold sys_timeout, lwip_assert.
  destruct (Z.leb_spec msecs (LWIP_UINT32_MAX / 4)) as [_|Hbad];
    [|unfold LWIP_UINT32_MAX in Hbad; lia]. rewrite bind_ok.
  destruct (sys_timeout_abs_ok (u32 (now s + msecs)) hd a s Hok Hl) as (s1 & x & E & Hok1 & El & _).
  rewrite (insert_timeout_sorted b) in El by done.
  destruct (sys_untimeout_ok hd' a' s1 Hok1) as (s2 & E2 & Hok2 & Hu).
  exists s1, x, s2. split; [done|]. split; [done|]. split; [done|].
  split; [rewrite El; by apply insert_sorted_ok|].
  split; [unfold in_window; rewrite El, (insert_sorted_perm b); by constructor|].
  split; [done|]. split; [done|].
  pose proof (unlink_spec hd' a' (next_timeout s1)) as Hsp.
  destruct (unlink hd' a' (next_timeout s1)) as [[y l']|].
  - right. destruct Hsp as (l1 & t & l2 & E1 & -> & Hrest). exists l1, y, t, l2. by rewrite Hu.
  - left. done.
Qed.

(** A timeout due across the wrap-around of the clock. *)
Lemma sys_timeout_sorted_witness :
  let s := TState [] timeo_pool_init 0 false false 0xfffffff0 tt in
  exists s1 x s2, sys_timeout 100 (client_handler 1) 7 s = Ok s1 /\ nodes_ok s1 /\
    next_timeout s1 = insert_sorted 0xfffffff0
      (x, SysTimeo (u32 (now s + 100)) (client_handler 1) 7) (next_timeout s) /\
    sorted_from 0xfffffff0 (next_timeout s1) /\ in_window 0xfffffff0 (next_timeout s1) /\
    sys_untimeout (client_handler 1) 8 s1 = Ok s2 /\ nodes_ok s2 /\
    ((s2 = s1 /\ Forall (fun t => ~ (h t.2 = client_handler 1 /\ arg t.2 = 8)) (next_timeout s1)) \/
     exists l1 y t l2, next_timeout s1 = l1 ++ (y, t) :: l2 /\ next_timeout s2 = l1 ++ l2 /\
       h t = client_handler 1 /\ arg t = 8 /\
       Forall (fun t => ~ (h t.2 = client_handler 1 /\ arg t.2 = 8)) l1).
Proof.
  intros s. apply (sys_timeout_sorted 0xfffffff0 100 (client_handler 1) 7 (client_handler 1) 8 s).
  - split; [constructor | exact timeo_pool_init_holds].
  - rewrite timeo_pool_capacity. unfold MEMP_NUM_SYS_TIMEOUT. simpl. lia.
  - lia.
  - constructor.
  - exact I.
  - vm_compute. reflexivity.
Defined.

(** C28: the timers of the stack never exhaust their pool and every pass of
    [sys_check_timeouts] ends. [sys_timeouts_init] arms the six cyclic timers;
    from any state in which each cyclic timer is armed at most once and the TCP
    timer exactly when it is marked active, with due times within 2^29 ms of
    the clock, a pass returns after at most 14 firings - never failing the
    assertion that the pool is empty - in such a state again, and its result is
    the time to the first timeout, which is not due. A request to free the
    out-of-sequence queues is served before every firing and at the end: none is
    pending when the pass returns. The handlers themselves and pbuf_free_ooseq
    are any functions that leave the timer list alone and let less than 2^28 ms
    pass; pbuf_free_ooseq takes the request back. *)
Theorem stack_timers_pass {P C} `{PoolAlloc P} (cyclic_handler : Z -> tstate P C -> res (tstate P C))
    call_client (pending : tstate P C -> bool) (pbuf_free_ooseq : tstate P C -> res (tstate P C)) (s0 s : tstate P C) :
  pool_capacity = MEMP_NUM_SYS_TIMEOUT ->
  next_timeout s0 = [] -> pool_holds (timeo_pool s0) ∅ -> tcpip_tcp_timer_active s0 = false ->
  is_u32 (now s0) ->
  stack_timers s -> near_list (now s) (next_timeout s) -> is_u32 (now s) ->
  (forall i, quiet (now s) (cyclic_handler i)) -> quiet (now s) pbuf_free_ooseq ->
  (forall s1 s2, pbuf_free_ooseq s1 = Ok s2 -> pending s2 = false) ->
  (exists s1, sys_timeouts_init s0 = Ok s1 /\ stack_timers s1 /\
     near_list (now s0) (next_timeout s1) /\ length (next_timeout s1) = 6%nat) /\
  (exists ret s', sys_check_timeouts cyclic_handler call_client pending pbuf_free_ooseq 14 s = Ok (ret, s') /\
     stack_timers s' /\ near_list (now s) (next_timeout s') /\ pending s' = false /\
     match next_timeout s' with
     | [] => ret = SYS_TIMEOUTS_SLEEPTIME_INFINITE
     | t :: _ => TIME_LESS_THAN (now s) (time t.2) = true /\ ret = u32 (time t.2 - now s)
     end).
Proof.
  intros Hcap E0 Hp0 Ha0 Hn0 Hst Hnear Hn Hq Hooseq Hclears. split.
  - assert (Hinv0 : pass_inv (now s0) s0).
    { split; [split; [split|]|split; [rewrite E0; constructor|]].
      - rewrite E0. constructor.
      - by rewrite E0.
      - unfold keys. rewrite E0. split; [constructor|]. split; [by intros k Hk%elem_of_nil|].
        rewrite Ha0. split; [by intros Hk%elem_of_nil | done].
      - split; [done|]. unfold since. rewrite Z.sub_diag. done. }
    destruct (init_cyclic_ok Hcap (now s0) Hn0 (drop 1 lwip_cyclic_timers) 1 s0 Hinv0 Ha0)
      as (s1 & E & (Hst1 & Hnear1 & _) & Hl1).
    + repeat (constructor; [lia|]). constructor.
    + lia.
    + done.
    + unfold keys. rewrite E0. by intros k Hk%elem_of_nil.
    + exists s1. rewrite E0 in Hl1. done.
  - assert (Hinv : pass_inv (now s) s).
    { split; [done|]. split; [done|]. split; [done|]. unfold since. rewrite Z.sub_diag. done. }
    assert (Hw : (total_weight (now s) (next_timeout s) <= 14)%nat).
    { destruct Hst as (_ & Hnd & Hsub & _). pose proof (keys_length_bound _ Hnd Hsub) as Hl.
      unfold keys in Hl. rewrite length_fmap in Hl. pose proof (total_weight_bound (now s) (next_timeout s)). lia. }
    destruct (check_loop_ok cyclic_handler call_client pending pbuf_free_ooseq Hcap (now s) Hn Hq Hooseq Hclears 14 s Hinv Hw)
      as (ret & s' & E & (Hst' & Hnear' & _) & Hpend & Hret).
    exists ret, s'. done.
Qed.

(** The timers after boot, a second later, with a request pending: the timers
    that are due fire, each rearms itself, and the next is due in 100 ms. *)
Definition armed (clock : Z) : tstate pool bool :=
  match sys_timeouts_init (TState [] timeo_pool_init 0 false false 0 true) with
  | Ok s => TState (next_timeout s) (timeo_pool s) (current_timeout_due_time s) (tcpip_tcp_timer_active s) (tcp_pcbs s) clock (client s)
  | Err _ => TState [] timeo_pool_init 0 false false clock true
  end.

Lemma stack_timers_pass_witness :
  let s0 : tstate pool bool := TState [] timeo_pool_init 0 false false 0 true in
  let served (s : tstate pool bool) : res (tstate pool bool) := Ok (set_client false s) in
  length (next_timeout (armed 1000)) = 6%nat /\ TIME_LESS_THAN 1000 (time (hd (0, SysTimeo 0 NULL_handler 0) (next_timeout (armed 1000))).2) = false /\
  exists ret s', sys_check_timeouts (fun _ s => Ok s) (fun _ _ s => Ok s) client served 14 (armed 1000) = Ok (ret, s') /\
    stack_timers s' /\ client s' = false /\ ret = 100.
Proof.
  intros s0 served. split; [reflexivity|]. split; [reflexivity|].
  assert (Hq : forall t, quiet t (fun s : tstate pool bool => Ok s)) by (intros t s Hn Hs; exists s; by split_and!).
  assert (Hs0 : quiet 0 served /\ quiet 1000 served) by (split; intros s Hn Hs; exists (set_client false s); by split_and!).
  assert (Hc : forall s1 s2, served s1 = Ok s2 -> client s2 = false) by (by intros s1 s2 [= <-]).
  assert (H0 : stack_timers s0).
  { split; [split; [constructor | exact timeo_pool_init_holds]|]. split; [constructor|].
    split; [intros k Hk; inversion Hk|]. split; [intros Hk; inversion Hk | discriminate]. }
  assert (Hn : forall z, 0 <= z < 2000 -> is_u32 z) by (intros z ?; unfold is_u32; lia).
  destruct (stack_timers_pass (fun _ s => Ok s) (fun _ _ s => Ok s) client served s0 s0 timeo_pool_capacity eq_refl timeo_pool_init_holds eq_refl
    (Hn 0 ltac:(lia)) H0 (List.Forall_nil _) (Hn 0 ltac:(lia)) (fun _ => Hq 0) (proj1 Hs0) Hc) as [(s1 & E1 & H1 & _) _].
  assert (Ha : stack_timers (armed 1000)) by (unfold armed; fold s0; rewrite E1; exact H1).
  assert (Hnear : near_list 1000 (next_timeout (armed 1000))).
  { set (l := next_timeout (armed 1000)). vm_compute in l. unfold l. repeat (constructor; [repeat split; vm_compute; congruence|]). constructor. }
  destruct (stack_timers_pass (fun _ s => Ok s) (fun _ _ s => Ok s) client served s0 (armed 1000) timeo_pool_capacity eq_refl timeo_pool_init_holds eq_refl
    (Hn 0 ltac:(lia)) Ha Hnear (Hn 1000 ltac:(lia)) (fun _ => Hq 1000) (proj2 Hs0) Hc) as [_ (ret & s' & E & H' & _ & Hp & _)].
  exists ret, s'. split; [exact E|]. split; [exact H'|]. split; [exact Hp|].
  assert (E2 : ('(r, _) ← sys_check_timeouts (fun _ s => Ok s) (fun _ _ s => Ok s) client served 14 (armed 1000); Ok r) = Ok 100) by (by vm_compute).
  rewrite E, bind_ok in E2. by injection E2.
Defined.
