(* ===== verification/Mem.v ===== *)
(** * The lwIP heap: src/src/lwip/core/mem.c

    First-fit allocation in a heap of MEM_SIZE bytes whose blocks start with a
    [struct mem] and are doubly linked by offsets. Pointers are offsets from
    [ram]; [cells] is the memory at the places where a [struct mem] has been
    written. The client's data are not part of the model. *)

From S2P Require Import Prelude Memp.

(** ** Definitions *)

Definition MEM_SIZE : Z := 16000.
Definition MIN_SIZE : Z := 12.
Definition LWIP_MEM_ALIGN_SIZE (size : Z) : Z :=
  u32 (Z.land (u32 (size + MEM_ALIGNMENT - 1)) (Z.lnot (MEM_ALIGNMENT - 1))).
Definition MIN_SIZE_ALIGNED : Z := 12.
Definition SIZEOF_STRUCT_MEM : Z := 8.
Definition MEM_SIZE_ALIGNED : Z := 16000.

Record mem : Type := Mem { next : Z; prev : Z; used : Z }.

Record heap : Type := Heap { cells : gmap Z mem; lfree : Z; mstats : stats_mem }.

(** [ram_end] and [ptr_to_mem]. *)
Definition ram_end : Z := MEM_SIZE_ALIGNED.
Definition ptr_to_mem (h : heap) (ptr : Z) : res mem := of_option BadPointer (cells h !! ptr).

Definition put (p : Z) (m : mem) (h : heap) : heap := Heap (<[p := m]> (cells h)) (lfree h) (mstats h).
Definition set_lfree (p : Z) (h : heap) : heap := Heap (cells h) p (mstats h).
Definition set_mstats (s : stats_mem) (h : heap) : heap := Heap (cells h) (lfree h) s.

(** Assignments to single fields. *)
Definition set_prev (p v : Z) (h : heap) : res heap :=
  m ← ptr_to_mem h p; Ok (put p (Mem (next m) v (used m)) h).
Definition set_next (p v : Z) (h : heap) : res heap :=
  m ← ptr_to_mem h p; Ok (put p (Mem v (prev m) (used m)) h).
Definition set_used (p v : Z) (h : heap) : res heap :=
  m ← ptr_to_mem h p; Ok (put p (Mem (next m) (prev m) v) h).

(** The counters have the type mem_size_t, 16 bits. *)
Definition stats_inc_used (n : Z) (h : heap) : heap :=
  let s := mstats h in
  let u := u16 (st_used s + n) in
  set_mstats (StatsMem (st_err s) (st_avail s) u (if st_max s <? u then u else st_max s) (st_illegal s)) h.
Definition stats_dec_used (n : Z) (h : heap) : heap :=
  let s := mstats h in
  set_mstats (StatsMem (st_err s) (st_avail s) (u16 (st_used s - n)) (st_max s) (st_illegal s)) h.
Definition stats_inc_err (h : heap) : heap :=
  let s := mstats h in
  set_mstats (StatsMem (u16 (st_err s + 1)) (st_avail s) (st_used s) (st_max s) (st_illegal s)) h.

(** [mem_init] on any memory. *)
Definition mem_init (h : heap) : res heap :=
  _ ← lwip_assert "Sanity check alignment" (Z.land SIZEOF_STRUCT_MEM (MEM_ALIGNMENT - 1) =? 0);
  let h := put 0 (Mem MEM_SIZE_ALIGNED 0 0) h in
  let h := put MEM_SIZE_ALIGNED (Mem MEM_SIZE_ALIGNED MEM_SIZE_ALIGNED 1) h in
  let h := set_lfree 0 h in
  let s := mstats h in
  Ok (set_mstats (StatsMem (st_err s) MEM_SIZE_ALIGNED (st_used s) (st_max s) (st_illegal s)) h).

(** [if (... != MEM_SIZE_ALIGNED) ptr_to_mem(n)->prev = v;] *)
Definition link_back (n v : Z) (h : heap) : res heap :=
  if negb (n =? MEM_SIZE_ALIGNED) then set_prev n v h else Ok h.

Definition plug_holes (mem : Z) (h : heap) : res heap :=
  _ ← lwip_assert "plug_holes: mem >= ram" (0 <=? mem);
  _ ← lwip_assert "plug_holes: mem < ram_end" (mem <? ram_end);
  m ← ptr_to_mem h mem;
  _ ← lwip_assert "plug_holes: mem->used == 0" (used m =? 0);
  _ ← lwip_assert "plug_holes: mem->next <= MEM_SIZE_ALIGNED" (next m <=? MEM_SIZE_ALIGNED);
  let nmem := next m in
  n ← ptr_to_mem h nmem;
  h ← (if negb (mem =? nmem) && (used n =? 0) && negb (nmem =? ram_end) then
         let h := if lfree h =? nmem then set_lfree mem h else h in
         h ← set_next mem (next n) h;
         link_back (next n) mem h
       else Ok h);
  m ← ptr_to_mem h mem;
  let pmem := prev m in
  p ← ptr_to_mem h pmem;
  if negb (pmem =? mem) && (used p =? 0) then
    let h := if lfree h =? mem then set_lfree pmem h else h in
    h ← set_next pmem (next m) h;
    link_back (next m) pmem h
  else Ok h.

Definition mem_link_valid (mem : Z) (h : heap) : res bool :=
  m ← ptr_to_mem h mem;
  if (MEM_SIZE_ALIGNED <? next m) || (MEM_SIZE_ALIGNED <? prev m) then Ok false else
  b1 ← (if negb (prev m =? mem) then p ← ptr_to_mem h (prev m); Ok (negb (next p =? mem))
        else Ok false);
  if b1 : bool then Ok false else
  b2 ← (if negb (next m =? ram_end) then n ← ptr_to_mem h (next m); Ok (negb (prev n =? mem))
        else Ok false);
  Ok (negb b2).

(** [LWIP_MEM_ILLEGAL_FREE] is an assertion that fails. *)
Definition mem_free (rmem : option Z) (h : heap) : res heap :=
  match rmem with
  | None => Ok h
  | Some rmem =>
      _ ← lwip_assert "mem_free: sanity check alignment" (Z.land rmem (MEM_ALIGNMENT - 1) =? 0);
      let mem := rmem - SIZEOF_STRUCT_MEM in
      _ ← lwip_assert "mem_free: illegal memory"
            (negb ((mem <? 0) || (ram_end <? rmem + MIN_SIZE_ALIGNED)));
      m ← ptr_to_mem h mem;
      _ ← lwip_assert "mem_free: illegal memory: double free" (negb (used m =? 0));
      valid ← mem_link_valid mem h;
      _ ← lwip_assert "mem_free: illegal memory: non-linked: double free" valid;
      h ← set_used mem 0 h;
      let h := if mem <? lfree h then set_lfree mem h else h in
      let h := stats_dec_used (next m - u16 mem) h in
      plug_holes mem h
  end.

(** The size arithmetic shared by [mem_malloc] and [mem_trim]. *)
Definition aligned_size (size_in : Z) : Z :=
  let size := u16 (LWIP_MEM_ALIGN_SIZE size_in) in
  if size <? MIN_SIZE_ALIGNED then MIN_SIZE_ALIGNED else size.

Definition mem_trim (rmem new_size : Z) (h : heap) : res (heap * option Z) :=
  let newsize := aligned_size new_size in
  if (MEM_SIZE_ALIGNED <? newsize) || (newsize <? new_size) then Ok (h, None) else
  _ ← lwip_assert "mem_trim: legal memory" ((0 <=? rmem) && (rmem <? ram_end));
  let mem := rmem - SIZEOF_STRUCT_MEM in
  let ptr := u16 mem in
  m ← ptr_to_mem h mem;
  let size := u16 (u16 (next m - ptr) - SIZEOF_STRUCT_MEM) in
  _ ← lwip_assert "mem_trim can only shrink memory" (newsize <=? size);
  if newsize =? size then Ok (h, Some rmem) else
  mem2 ← ptr_to_mem h (next m);
  if used mem2 =? 0 then
    _ ← lwip_assert "invalid next ptr" (negb (next m =? MEM_SIZE_ALIGNED));
    let nxt := next mem2 in
    let ptr2 := u16 (ptr + SIZEOF_STRUCT_MEM + newsize) in
    let h := if lfree h =? next m then set_lfree ptr2 h else h in
    let h := put ptr2 (Mem nxt ptr 0) h in
    h ← set_next mem ptr2 h;
    h ← link_back nxt ptr2 h;
    Ok (stats_dec_used (size - newsize) h, Some rmem)
  else if newsize + SIZEOF_STRUCT_MEM + MIN_SIZE_ALIGNED <=? size then
    let ptr2 := u16 (ptr + SIZEOF_STRUCT_MEM + newsize) in
    _ ← lwip_assert "invalid next ptr" (negb (next m =? MEM_SIZE_ALIGNED));
    let h := if ptr2 <? lfree h then set_lfree ptr2 h else h in
    let h := put ptr2 (Mem (next m) ptr 0) h in
    h ← set_next mem ptr2 h;
    h ← link_back (next m) ptr2 h;
    Ok (stats_dec_used (size - newsize) h, Some rmem)
  else Ok (h, Some rmem).

(** [while (cur->used && cur != ram_end) cur = ptr_to_mem(cur->next);] *)
Fixpoint next_free (fuel : nat) (cur : Z) (h : heap) : res Z :=
  c ← ptr_to_mem h cur;
  if negb (used c =? 0) && negb (cur =? ram_end) then
    match fuel with
    | O => Err OutOfFuel
    | S fuel' => next_free fuel' (next c) h
    end
  else Ok cur.

(** More than the number of blocks that fit the heap. *)
Definition HEAP_FUEL : nat := 801.

(** The scan of [mem_malloc]: the first free block from [ptr] on that is big
    enough. *)
Fixpoint find_fit (fuel : nat) (ptr size : Z) (h : heap) : res (option Z) :=
  if ptr <? MEM_SIZE_ALIGNED - size then
    mem ← ptr_to_mem h ptr;
    if (used mem =? 0) && (size <=? u32 (next mem - (ptr + SIZEOF_STRUCT_MEM))) then Ok (Some ptr)
    else match fuel with
         | O => Err OutOfFuel
         | S fuel' => find_fit fuel' (next mem) size h
         end
  else Ok None.

(** The body of the scan for the block found: split or take it whole. *)
Definition claim (ptr size : Z) (h : heap) : res heap :=
  mem ← ptr_to_mem h ptr;
  if size + SIZEOF_STRUCT_MEM + MIN_SIZE_ALIGNED <=? u32 (next mem - (ptr + SIZEOF_STRUCT_MEM)) then
    let ptr2 := u16 (ptr + SIZEOF_STRUCT_MEM + size) in
    _ ← lwip_assert "invalid next ptr" (negb (ptr2 =? MEM_SIZE_ALIGNED));
    let h := put ptr2 (Mem (next mem) ptr 0) h in
    h ← set_next ptr ptr2 h;
    h ← set_used ptr 1 h;
    h ← link_back (next mem) ptr2 h;
    Ok (stats_inc_used (size + SIZEOF_STRUCT_MEM) h)
  else
    h ← set_used ptr 1 h;
    Ok (stats_inc_used (next mem - u16 ptr) h).

Definition adjust_lfree (mem : Z) (h : heap) : res heap :=
  if mem =? lfree h then
    cur ← next_free HEAP_FUEL (lfree h) h;
    let h := set_lfree cur h in
    c ← ptr_to_mem h cur;
    _ ← lwip_assert "mem_malloc: !lfree->used" ((cur =? ram_end) || (used c =? 0));
    Ok h
  else Ok h.

Definition mem_malloc (size_in : Z) (h : heap) : res (heap * option Z) :=
  if size_in =? 0 then Ok (h, None) else
  let size := aligned_size size_in in
  if (MEM_SIZE_ALIGNED <? size) || (size <? size_in) then Ok (h, None) else
  r ← find_fit HEAP_FUEL (u16 (lfree h)) size h;
  match r with
  | None => Ok (stats_inc_err h, None)
  | Some mem =>
      h ← claim mem size h;
      h ← adjust_lfree mem h;
      _ ← lwip_assert "mem_malloc: allocated memory not above ram_end."
            (mem + SIZEOF_STRUCT_MEM + size <=? ram_end);
      _ ← lwip_assert "mem_malloc: allocated memory properly aligned."
            ((mem + SIZEOF_STRUCT_MEM) mod MEM_ALIGNMENT =? 0);
      _ ← lwip_assert "mem_malloc: sanity check alignment" (Z.land mem (MEM_ALIGNMENT - 1) =? 0);
      Ok (h, Some (mem + SIZEOF_STRUCT_MEM))
  end.

(** The memory to be zeroed is returned with the pointer. *)
Definition mem_calloc (count size : Z) (h : heap) : res (heap * option (Z * Z)) :=
  let alloc_size := u32 (count * size) in
  if negb (u16 alloc_size =? alloc_size) then Ok (h, None) else
  '(h, p) ← mem_malloc (u16 alloc_size) h;
  Ok (h, option_map (fun p => (p, alloc_size)) p).

(** ** The abstract heap

    The blocks in address order, each with its size (header included) and
    whether it is in use. *)

Definition layout : Type := list (Z * bool).

Definition total (l : layout) : Z := foldr (fun b acc => b.1 + acc) 0 l.
Definition total_used (l : layout) : Z := foldr (fun b acc => (if b.2 : bool then b.1 else 0) + acc) 0 l.

(** First fit: the block's position, and the blocks afterwards. *)
Fixpoint alloc_layout (size : Z) (l : layout) : option (Z * layout) :=
  match l with
  | [] => None
  | (sz, u) :: l' =>
      if negb u && (size + SIZEOF_STRUCT_MEM <=? sz) then
        if size + 2 * SIZEOF_STRUCT_MEM + MIN_SIZE_ALIGNED <=? sz
        then Some (0, (size + SIZEOF_STRUCT_MEM, true) :: (sz - size - SIZEOF_STRUCT_MEM, false) :: l')
        else Some (0, (sz, true) :: l')
      else match alloc_layout size l' with
           | None => None
           | Some (o, l'') => Some (sz + o, (sz, u) :: l'')
           end
  end.

(** A free block swallows the free block behind it. *)
Definition merge_head (sz : Z) (l : layout) : layout :=
  match l with
  | (sz2, false) :: l' => (sz + sz2, false) :: l'
  | _ => (sz, false) :: l
  end.

(** Freeing the block of size [sz] between [l1] and [l2]. *)
Fixpoint free_layout (l1 : layout) (sz : Z) (l2 : layout) : layout :=
  match l1 with
  | [] => merge_head sz l2
  | [(sz1, false)] => merge_head (sz1 + sz) l2
  | b :: l1' => b :: free_layout l1' sz l2
  end.

(** Shrinking the block in use of size [sz] in front of [l2] to [newsize]
    bytes of data. *)
Definition trim_layout (sz newsize : Z) (l2 : layout) : layout :=
  let rest := sz - SIZEOF_STRUCT_MEM - newsize in
  match l2 with
  | (sz2, false) :: l2' =>
      if rest =? 0 then (sz, true) :: l2
      else (newsize + SIZEOF_STRUCT_MEM, true) :: (rest + sz2, false) :: l2'
  | _ =>
      if SIZEOF_STRUCT_MEM + MIN_SIZE_ALIGNED <=? rest
      then (newsize + SIZEOF_STRUCT_MEM, true) :: (rest, false) :: l2
      else (sz, true) :: l2
  end.

(** What becomes of the free block that an allocation takes. *)
Definition split_block (size sz : Z) : layout :=
  if size + 2 * SIZEOF_STRUCT_MEM + MIN_SIZE_ALIGNED <=? sz
  then [(size + SIZEOF_STRUCT_MEM, true); (sz - size - SIZEOF_STRUCT_MEM, false)]
  else [(sz, true)].

(** What [mem_malloc] does with a request of [size_in] bytes. *)
Definition malloc_layout (size_in : Z) (l : layout) : option (Z * layout) :=
  if (size_in =? 0) || (MEM_SIZE_ALIGNED <? aligned_size size_in) || (aligned_size size_in <? size_in)
  then None else alloc_layout (aligned_size size_in) l.

(** Whether [mem_malloc] finds a block for [n] bytes. *)
Definition can_malloc (n : Z) (h : heap) : bool :=
  match mem_malloc n h with Ok (_, Some _) => true | _ => false end.

(** Every free block of [l] fits into a free block of [l']. *)
Definition layout_le (l l' : layout) : Prop :=
  forall sz, (sz, false) ∈ l -> exists sz', sz <= sz' /\ (sz', false) ∈ l'.

(** What [mem_trim] makes of its arguments. *)
Inductive trim_result : Type :=
  | TrimNull
  | TrimAssert (msg : string)
  | TrimOk (l : layout).

Definition trim_spec (l1 : layout) (sz new_size : Z) (l2 : layout) : trim_result :=
  let newsize := aligned_size new_size in
  if (MEM_SIZE_ALIGNED <? newsize) || (newsize <? new_size) then TrimNull
  else if sz - SIZEOF_STRUCT_MEM <? newsize then TrimAssert "mem_trim can only shrink memory"
  else match l2 with
       | [] => if SIZEOF_STRUCT_MEM + MIN_SIZE_ALIGNED <=? sz - SIZEOF_STRUCT_MEM - newsize
               then TrimAssert "invalid next ptr" else TrimOk (l1 ++ [(sz, true)])
       | _ => TrimOk (l1 ++ trim_layout sz newsize l2)
       end.

(** The client's calls, and what the abstract heap answers. *)
Inductive heap_op : Type :=
  | OpMalloc (size : Z)
  | OpCalloc (count size : Z)
  | OpFree (p : Z)
  | OpTrim (p size : Z).

Definition exec (op : heap_op) (h : heap) : res (heap * option Z) :=
  match op with
  | OpMalloc n => mem_malloc n h
  | OpCalloc c n => '(h, r) ← mem_calloc c n h; Ok (h, option_map fst r)
  | OpFree p => h ← mem_free (Some p) h; Ok (h, None)
  | OpTrim p n => mem_trim p n h
  end.

Fixpoint exec_all (ops : list heap_op) (h : heap) : res (heap * list (option Z)) :=
  match ops with
  | [] => Ok (h, [])
  | op :: ops =>
      '(h, r) ← exec op h;
      '(h, rs) ← exec_all ops h;
      Ok (h, r :: rs)
  end.

(** A client frees and trims the blocks that it has, and no trim is one that
    fails an assertion. *)
Inductive layout_step : layout -> heap_op -> option Z -> layout -> Prop :=
  | step_malloc l n o l' :
      is_u16 n -> malloc_layout n l = Some (o, l') ->
      layout_step l (OpMalloc n) (Some (o + SIZEOF_STRUCT_MEM)) l'
  | step_malloc_null l n :
      is_u16 n -> malloc_layout n l = None -> layout_step l (OpMalloc n) None l
  | step_calloc l c n o l' :
      is_u16 c -> is_u16 n -> c * n < 65536 -> malloc_layout (c * n) l = Some (o, l') ->
      layout_step l (OpCalloc c n) (Some (o + SIZEOF_STRUCT_MEM)) l'
  | step_calloc_null l c n :
      is_u16 c -> is_u16 n -> 65536 <= c * n \/ malloc_layout (c * n) l = None ->
      layout_step l (OpCalloc c n) None l
  | step_free l1 sz l2 :
      layout_step (l1 ++ (sz, true) :: l2) (OpFree (total l1 + SIZEOF_STRUCT_MEM)) None (free_layout l1 sz l2)
  | step_trim l1 sz l2 n l' :
      is_u16 n -> trim_spec l1 sz n l2 = TrimOk l' ->
      layout_step (l1 ++ (sz, true) :: l2) (OpTrim (total l1 + SIZEOF_STRUCT_MEM) n)
        (Some (total l1 + SIZEOF_STRUCT_MEM)) l'
  | step_trim_null l1 sz l2 n :
      is_u16 n -> trim_spec l1 sz n l2 = TrimNull ->
      layout_step (l1 ++ (sz, true) :: l2) (OpTrim (total l1 + SIZEOF_STRUCT_MEM) n) None
        (l1 ++ (sz, true) :: l2).

Inductive layout_run : layout -> list heap_op -> list (option Z) -> layout -> Prop :=
  | run_nil l : layout_run l [] [] l
  | run_cons l op r l1 ops rs l2 :
      layout_step l op r l1 -> layout_run l1 ops rs l2 -> layout_run l (op :: ops) (r :: rs) l2.

(** The chain of headers for the blocks [l] from offset [o] on; [p] is the
    offset of the block before. *)
Fixpoint linked (c : gmap Z mem) (p o : Z) (l : layout) : Prop :=
  match l with
  | [] => True
  | (sz, u) :: l' =>
      c !! o = Some (Mem (o + sz) p (Z.b2z u)) /\ linked c o (o + sz) l'
  end.

(** The offset of the last block of [l]. *)
Fixpoint last_off (p o : Z) (l : layout) : Z :=
  match l with [] => p | (sz, _) :: l' => last_off o (o + sz) l' end.

Definition block_ok (b : Z * bool) : Prop := SIZEOF_STRUCT_MEM + MIN_SIZE_ALIGNED <= b.1 /\ b.1 mod 4 = 0.

(** No two free blocks in a row. *)
Fixpoint coalesced (l : layout) : Prop :=
  match l with
  | [] => True
  | (_, u) :: l' =>
      match l' with
      | [] => True
      | (_, u') :: _ => (u = true \/ u' = true) /\ coalesced l'
      end
  end.

(** The offset of the first free block, the end of the heap if there is none. *)
Fixpoint first_free (o : Z) (l : layout) : Z :=
  match l with
  | [] => o
  | (sz, u) :: l' => if u : bool then first_free (o + sz) l' else o
  end.

Definition all_used (l : layout) : bool := forallb snd l.

Record heap_rep (h : heap) (l : layout) : Prop := HeapRep
  { hr_linked : linked (cells h) 0 0 l;
    hr_end : cells h !! ram_end = Some (Mem MEM_SIZE_ALIGNED MEM_SIZE_ALIGNED 1);
    hr_blocks : Forall block_ok l;
    hr_total : total l = MEM_SIZE_ALIGNED;
    hr_coalesced : coalesced l;
    hr_lfree : lfree h = first_free 0 l;
    hr_used : st_used (mstats h) = total_used l }.

(** ** Lemmas *)

Lemma total_app l1 l2 : total (l1 ++ l2) = total l1 + total l2.
Proof. induction l1 as [|b l1 IH]; cbn [app total foldr]; [done|]. fold (total (l1 ++ l2)). fold (total l1). lia. Qed.

Lemma total_used_app l1 l2 : total_used (l1 ++ l2) = total_used l1 + total_used l2.
Proof.
  induction l1 as [|b l1 IH]; cbn [app total_used foldr]; [done|].
  fold (total_used (l1 ++ l2)). fold (total_used l1). lia.
Qed.

Lemma total_cons sz u l : total ((sz, u) :: l) = sz + total l.
Proof. done. Qed.

Lemma total_used_cons sz (u : bool) l : total_used ((sz, u) :: l) = (if u then sz else 0) + total_used l.
Proof. done. Qed.

Lemma block_pos sz u : block_ok (sz, u) -> 20 <= sz /\ sz mod 4 = 0.
Proof. done. Qed.

Lemma total_bounds l : Forall block_ok l ->
  20 * Z.of_nat (length l) <= total l /\ 0 <= total_used l <= total l /\ total l mod 4 = 0.
Proof.
  induction 1 as [|[sz u] l Hb Hl IH]; [cbn; lia|]. apply block_pos in Hb.
  rewrite total_cons, total_used_cons. cbn [length]. destruct u; lia.
Qed.

Lemma linked_app c p o l1 l2 :
  linked c p o (l1 ++ l2) <->
  linked c p o l1 /\ linked c (last_off p o l1) (o + total l1) l2.
Proof.
  revert p o. induction l1 as [|[sz u] l1 IH]; intros p o.
  - cbn. rewrite Z.add_0_r. tauto.
  - cbn [app linked last_off]. rewrite IH, total_cons, Z.add_assoc. tauto.
Qed.

Lemma linked_agree c c' p o l :
  Forall block_ok l -> (forall x, o <= x < o + total l -> c' !! x = c !! x) ->
  linked c p o l -> linked c' p o l.
Proof.
  intros Hb. revert p o. induction Hb as [|[sz u] l Hb Hl IH]; intros p o Hc; [done|].
  apply block_pos in Hb. pose proof (total_bounds l Hl). rewrite total_cons in Hc.
  cbn [linked]. intros [E H']. split; [rewrite Hc by lia; done|]. apply IH; [|done].
  intros x Hx. apply Hc. lia.
Qed.

Lemma last_off_app p o l1 sz u : last_off p o (l1 ++ [(sz, u)]) = o + total l1.
Proof.
  revert p o. induction l1 as [|[sz1 u1] l1 IH]; intros p o; cbn [app last_off]; [cbn; lia|].
  rewrite IH, total_cons. lia.
Qed.

Lemma coalesced_app l1 b l2 : coalesced (l1 ++ b :: l2) <-> coalesced (l1 ++ [b]) /\ coalesced (b :: l2).
Proof.
  induction l1 as [|[sz u] l1 IH].
  - cbn [app]. destruct b. cbn. tauto.
  - cbn [app]. destruct l1 as [|[sz1 u1] l1].
    + cbn [app] in *. destruct b as [sb ub]. cbn [coalesced]. tauto.
    + cbn [app] in *. cbn [coalesced] in *. destruct u, u1; tauto.
Qed.

(** Only the flags matter. *)
Lemma coalesced_cons_size sz sz' u l : coalesced ((sz, u) :: l) <-> coalesced ((sz', u) :: l).
Proof. done. Qed.

Lemma coalesced_snoc_size l sz sz' u : coalesced (l ++ [(sz, u)]) <-> coalesced (l ++ [(sz', u)]).
Proof.
  induction l as [|[s1 u1] l IH]; [done|]. destruct l as [|[s2 u2] l]; cbn [app coalesced] in *; tauto.
Qed.

Lemma coalesced_snoc_used l sz sz' u : coalesced (l ++ [(sz, u)]) -> coalesced (l ++ [(sz', true)]).
Proof.
  induction l as [|[s1 u1] l IH]; [done|]. destruct l as [|[s2 u2] l]; cbn [app coalesced] in *; tauto.
Qed.

Lemma coalesced_tail b l : coalesced (b :: l) -> coalesced l.
Proof. destruct b, l as [|[]]; cbn; tauto. Qed.

Lemma coalesced_used sz l : coalesced l -> coalesced ((sz, true) :: l).
Proof. destruct l as [|[]]; cbn; tauto. Qed.

Lemma coalesced_prefix l1 l2 : coalesced (l1 ++ l2) -> coalesced l1.
Proof.
  destruct l2 as [|b l2]; [by rewrite app_nil_r|].
  rewrite coalesced_app. intros [H _]. revert H.
  induction l1 as [|[s u] l1 IH]; [done|]. destruct l1 as [|[s1 u1] l1]; cbn [app coalesced] in *; [done|tauto].
Qed.

Lemma first_free_app o l1 l2 :
  first_free o (l1 ++ l2) = if all_used l1 then first_free (o + total l1) l2 else first_free o l1.
Proof.
  revert o. induction l1 as [|[sz u] l1 IH]; intros o; cbn [app first_free all_used forallb snd].
  - cbn. by rewrite Z.add_0_r.
  - destruct u; cbn [andb]; [|done]. rewrite IH, total_cons, Z.add_assoc. done.
Qed.

Lemma first_free_bounds o l : Forall block_ok l ->
  o <= first_free o l <= o + total l /\ (all_used l = false <-> first_free o l < o + total l) /\
  (all_used l = true -> first_free o l = o + total l).
Proof.
  intros Hb. revert o. induction Hb as [|[sz u] l Hb Hl IH]; intros o; cbn [first_free all_used forallb snd].
  - cbn. split; [lia|]. split; [split; (done || lia) | lia].
  - apply block_pos in Hb. rewrite total_cons. pose proof (total_bounds l Hl).
    destruct u; cbn [andb].
    + destruct (IH (o + sz)) as (H1 & H2 & H3). fold (all_used l) in *.
      split; [lia|]. split; [rewrite H2; split; lia | intros; rewrite H3 by done; lia].
    + split; [lia|]. split; [split; (done || lia) | done].
Qed.

Lemma alloc_layout_used size l1 l2 :
  all_used l1 = true ->
  alloc_layout size (l1 ++ l2) =
  match alloc_layout size l2 with None => None | Some (o, l') => Some (total l1 + o, l1 ++ l') end.
Proof.
  induction l1 as [|[sz u] l1 IH]; cbn [app alloc_layout all_used forallb snd].
  - intros _. destruct (alloc_layout size l2) as [[o l']|]; [|done]. cbn. by rewrite Z.add_0_l.
  - rewrite andb_true_iff. intros [-> Hu]. cbn [negb andb]. rewrite IH by done.
    destruct (alloc_layout size l2) as [[o l']|]; [|done]. rewrite total_cons, Z.add_assoc. done.
Qed.

Lemma alloc_layout_none size l : Forall block_ok l -> total l <= size -> alloc_layout size l = None.
Proof.
  induction 1 as [|[sz u] l Hb Hl IH]; [done|]. apply block_pos in Hb.
  pose proof (total_bounds l Hl). rewrite total_cons. intros Ht. cbn [alloc_layout].
  destruct (Z.leb_spec (size + SIZEOF_STRUCT_MEM) sz); [unfold SIZEOF_STRUCT_MEM in *; lia|].
  rewrite andb_false_r, IH by lia. done.
Qed.

(** What the first fit does. *)
Lemma alloc_layout_some size l o l' :
  alloc_layout size l = Some (o, l') ->
  exists l1 sz l2, l = l1 ++ (sz, false) :: l2 /\ o = total l1 /\ size + SIZEOF_STRUCT_MEM <= sz /\
    l' = l1 ++ (if size + 2 * SIZEOF_STRUCT_MEM + MIN_SIZE_ALIGNED <=? sz
                then [(size + SIZEOF_STRUCT_MEM, true); (sz - size - SIZEOF_STRUCT_MEM, false)]
                else [(sz, true)]) ++ l2.
Proof.
  revert o l'. induction l as [|[sz u] l IH]; intros o l'; cbn [alloc_layout]; [done|].
  destruct (negb u && (size + SIZEOF_STRUCT_MEM <=? sz)) eqn:E.
  - apply andb_true_iff in E as [Eu Es]. apply negb_true_iff in Eu. subst u. apply Z.leb_le in Es.
    intros H. exists [], sz, l. split; [done|].
    destruct (_ <=? sz); injection H as <- <-; done.
  - destruct (alloc_layout size l) as [[o1 l1']|]; [|done]. intros [= <- <-].
    destruct (IH o1 l1' eq_refl) as (l1 & sz1 & l2 & -> & -> & Hs & ->).
    exists ((sz, u) :: l1), sz1, l2. done.
Qed.

(** *** The chain of headers *)

(** The part of the representation that [link_back] and the splits maintain. *)
Record chain (c : gmap Z mem) (l : layout) : Prop := Chain
  { ch_linked : linked c 0 0 l;
    ch_end : c !! ram_end = Some (Mem MEM_SIZE_ALIGNED MEM_SIZE_ALIGNED 1);
    ch_blocks : Forall block_ok l;
    ch_total : total l = MEM_SIZE_ALIGNED }.

Lemma heap_rep_chain h l : heap_rep h l -> chain (cells h) l.
Proof. intros []. done. Qed.

(** The header of a block, and where the block lies. *)
Lemma chain_block c l1 sz u l2 :
  chain c (l1 ++ (sz, u) :: l2) ->
  c !! total l1 = Some (Mem (total l1 + sz) (last_off 0 0 l1) (Z.b2z u)) /\
  0 <= total l1 /\ total l1 mod 4 = 0 /\ 20 <= sz /\ sz mod 4 = 0 /\
  total l1 + sz + total l2 = 16000 /\ 0 <= total l2 /\ Forall block_ok l1 /\ Forall block_ok l2.
Proof.
  intros [Hl _ Hb Ht]. apply linked_app in Hl as [_ Hl]. cbn [linked] in Hl. destruct Hl as [Hl _].
  apply Forall_app in Hb as [Hb1 Hb2]. apply Forall_cons in Hb2 as [Hb Hb2].
  pose proof (total_bounds l1 Hb1). pose proof (total_bounds l2 Hb2). apply block_pos in Hb.
  rewrite total_app, total_cons in Ht. unfold MEM_SIZE_ALIGNED in Ht.
  rewrite Z.add_0_l in Hl. repeat split; (done || lia).
Qed.

Lemma chain_rest c l1 sz u l2 :
  chain c (l1 ++ (sz, u) :: l2) -> linked c (total l1) (total l1 + sz) l2.
Proof. intros [Hl _ _ _]. apply linked_app in Hl as [_ Hl]. rewrite Z.add_0_l in Hl. apply Hl. Qed.

(** The header behind a block, the end marker included. *)
Lemma chain_next c l1 sz u l2 :
  chain c (l1 ++ (sz, u) :: l2) ->
  c !! (total l1 + sz) =
  Some (match l2 with
        | [] => Mem 16000 16000 1
        | (sz2, u2) :: _ => Mem (total l1 + sz + sz2) (total l1) (Z.b2z u2)
        end).
Proof.
  intros Hc. pose proof (chain_block _ _ _ _ _ Hc) as (_ & _ & _ & _ & _ & Ht & _).
  pose proof (chain_rest _ _ _ _ _ Hc) as Hr. destruct l2 as [|[sz2 u2] l2].
  - cbn in Ht. replace (total l1 + sz) with ram_end by (unfold ram_end, MEM_SIZE_ALIGNED; lia).
    apply Hc.
  - apply Hr.
Qed.

(** Rebuilding the chain around a replaced stretch [m] of blocks. *)
Lemma chain_replace c c' l1 m m' l2 :
  chain c (l1 ++ m ++ l2) -> total m' = total m -> Forall block_ok m' ->
  (forall x, x < total l1 -> c' !! x = c !! x) -> c' !! ram_end = c !! ram_end ->
  linked c' (last_off 0 0 l1) (total l1) (m' ++ l2) ->
  chain c' (l1 ++ m' ++ l2).
Proof.
  intros [Hl He Hb Ht] Hm Hb' Hlow Hend Hl'. apply Forall_app in Hb as [Hb1 Hb2].
  apply Forall_app in Hb2 as [_ Hb2].
  split; [|by rewrite Hend | by rewrite !Forall_app | rewrite !total_app in *; lia].
  apply linked_app in Hl as [Hl1 _]. apply linked_app. rewrite Z.add_0_l. split; [|done].
  apply (linked_agree c); [done | | done]. intros x Hx. apply Hlow. lia.
Qed.

(** [link_back] makes the block behind point to the new block. *)
Lemma link_back_ok c lf st p o v l :
  linked c p o l -> Forall block_ok l -> o + total l = MEM_SIZE_ALIGNED ->
  exists c', link_back o v (Heap c lf st) = Ok (Heap c' lf st) /\ linked c' v o l /\
    (forall x, x < o -> c' !! x = c !! x) /\ c' !! ram_end = c !! ram_end.
Proof.
  intros Hl Hb Ht. unfold link_back, ram_end. destruct l as [|[sz u] l].
  - exists c. change (total []) with 0 in Ht. destruct (Z.eqb_spec o MEM_SIZE_ALIGNED); [done | lia].
  - apply Forall_cons in Hb as [Hb Hl2]. apply block_pos in Hb. pose proof (total_bounds l Hl2).
    rewrite total_cons in Ht. destruct (Z.eqb_spec o MEM_SIZE_ALIGNED); [lia|].
    cbn [linked] in Hl. destruct Hl as [Ho Hl].
    exists (<[o := Mem (o + sz) v (Z.b2z u)]> c). cbn [negb]. unfold set_prev, ptr_to_mem, put.
    cbn [cells lfree mstats]. rewrite Ho. cbn [of_option mbind res_bind next prev used].
    split; [done|]. split; [|split].
    + cbn [linked]. rewrite lookup_insert_eq. split; [done|]. apply (linked_agree c); [done | | done].
      intros x Hx. apply lookup_insert_ne. lia.
    + intros x Hx. apply lookup_insert_ne. lia.
    + apply lookup_insert_ne. done.
Qed.

(** *** The scan *)

Lemma find_fit_spec c lf st size : 12 <= size <= 16000 -> forall l1 l2 fuel,
  chain c (l1 ++ l2) -> (length l2 <= fuel)%nat ->
  find_fit fuel (total l1) size (Heap c lf st) =
  Ok (match alloc_layout size l2 with Some (o, _) => Some (total l1 + o) | None => None end).
Proof.
  intros Hs l1 l2. revert l1. induction l2 as [|[sz u] l2 IH]; intros l1 fuel Hc Hf.
  - rewrite app_nil_r in Hc. destruct Hc as [_ _ _ Ht].
    destruct fuel; cbn [find_fit]; rewrite Ht; unfold MEM_SIZE_ALIGNED;
      (destruct (Z.ltb_spec 16000 (16000 - size)); [lia | done]).
  - pose proof (chain_block _ _ _ _ _ Hc) as (Hm & H0 & _ & Hsz & Hsz4 & Ht & Hl2 & _ & Hb2).
    assert (Hc' : chain c ((l1 ++ [(sz, u)]) ++ l2)) by (by rewrite <- app_assoc).
    assert (Hn : total (l1 ++ [(sz, u)]) = total l1 + sz) by (rewrite total_app, total_cons; cbn; lia).
    destruct fuel as [|fuel]; [cbn in Hf; lia|]. cbn [length] in Hf.
    specialize (IH _ fuel Hc'). rewrite Hn in IH. cbn [find_fit].
    unfold ptr_to_mem, MEM_SIZE_ALIGNED, SIZEOF_STRUCT_MEM. cbn [cells].
    destruct (Z.ltb_spec (total l1) (16000 - size)) as [Hlt|Hge].
    + rewrite Hm. cbn [of_option]. rewrite bind_ok. cbn [next used alloc_layout].
      replace (total l1 + sz - (total l1 + 8)) with (sz - 8) by lia. rewrite u32_id by solve_u.
      unfold SIZEOF_STRUCT_MEM, MIN_SIZE_ALIGNED.
      replace (size <=? sz - 8) with (size + 8 <=? sz) by (apply eq_true_iff_eq; rewrite !Z.leb_le; lia).
      replace (Z.b2z u =? 0) with (negb u) by (by destruct u).
      destruct (negb u && (size + 8 <=? sz)).
      * destruct (_ <=? _); by rewrite Z.add_0_r.
      * rewrite IH by lia. destruct (alloc_layout size l2) as [[o l']|]; [|done].
        by rewrite Z.add_assoc.
    + rewrite alloc_layout_none; [done | | rewrite total_cons; lia].
      constructor; [exact (conj Hsz Hsz4) | done].
Qed.

(** The lowest free pointer after an allocation. *)
Lemma next_free_spec c lf st : forall l2 l1 fuel,
  chain c (l1 ++ l2) -> (length l2 <= fuel)%nat ->
  next_free fuel (total l1) (Heap c lf st) = Ok (first_free (total l1) l2).
Proof.
  induction l2 as [|[sz u] l2 IH]; intros l1 fuel Hc Hf.
  - rewrite app_nil_r in Hc. destruct Hc as [_ He _ Ht].
    destruct fuel; cbn [next_free]; unfold ptr_to_mem; cbn [cells]; rewrite Ht;
      change MEM_SIZE_ALIGNED with ram_end; rewrite He; done.
  - pose proof (chain_block _ _ _ _ _ Hc) as (Hm & H0 & _ & Hsz & _ & Ht & Hl2 & _ & Hb2).
    assert (Hc' : chain c ((l1 ++ [(sz, u)]) ++ l2)) by (by rewrite <- app_assoc).
    assert (Hn : total (l1 ++ [(sz, u)]) = total l1 + sz) by (rewrite total_app, total_cons; cbn; lia).
    destruct fuel as [|fuel]; [cbn in Hf; lia|]. cbn [length] in Hf.
    specialize (IH _ fuel Hc'). rewrite Hn in IH. cbn [next_free first_free].
    unfold ptr_to_mem. cbn [cells]. rewrite Hm. cbn [of_option]. rewrite bind_ok. cbn [next used].
    destruct (Z.eqb_spec (total l1) ram_end) as [E|_].
    { unfold ram_end, MEM_SIZE_ALIGNED in E. lia. }
    destruct u; cbn [Z.b2z negb andb]; [|done]. change (1 =? 0) with false. cbn [negb].
    apply IH. lia.
Qed.

(** *** Allocation *)

Lemma split_block_ok size sz :
  12 <= size -> size mod 4 = 0 -> size + 8 <= sz -> 20 <= sz -> sz mod 4 = 0 ->
  Forall block_ok (split_block size sz) /\ total (split_block size sz) = sz.
Proof.
  intros H1 H2 H3 H4 H5. unfold split_block, SIZEOF_STRUCT_MEM, MIN_SIZE_ALIGNED.
  destruct (Z.leb_spec (size + 2 * 8 + 12) sz).
  - split; [|rewrite !total_cons; cbn; lia].
    repeat constructor; cbn [fst]; unfold SIZEOF_STRUCT_MEM, MIN_SIZE_ALIGNED; lia.
  - split; [|rewrite !total_cons; cbn; lia]. repeat constructor; cbn [fst]; [|done].
    unfold SIZEOF_STRUCT_MEM, MIN_SIZE_ALIGNED; lia.
Qed.

Lemma claim_spec c lf st l1 sz l2 size :
  chain c (l1 ++ (sz, false) :: l2) -> 12 <= size -> size mod 4 = 0 -> size + 8 <= sz ->
  exists c' st', claim (total l1) size (Heap c lf st) = Ok (Heap c' lf st') /\
    chain c' (l1 ++ split_block size sz ++ l2) /\
    st_used st' = u16 (st_used st + total_used (split_block size sz)).
Proof.
  intros Hc Hs Hs4 Hsz.
  pose proof (chain_block _ _ _ _ _ Hc) as (Hm & H0 & H04 & Hb & Hb4 & Ht & Hl2 & _ & Hbs).
  pose proof (chain_rest _ _ _ _ _ Hc) as Hr.
  destruct (split_block_ok size sz) as [Hok Htot]; try lia.
  assert (Hrep : forall c', (forall x, x < total l1 -> c' !! x = c !! x) -> c' !! ram_end = c !! ram_end ->
            linked c' (last_off 0 0 l1) (total l1) (split_block size sz ++ l2) ->
            chain c' (l1 ++ split_block size sz ++ l2)).
  { intros c' X1 X2 X3. apply (chain_replace c c' l1 [(sz, false)] (split_block size sz) l2); try done.
    rewrite Htot, total_cons. cbn. lia. }
  unfold claim, ptr_to_mem, SIZEOF_STRUCT_MEM, MIN_SIZE_ALIGNED. cbn [cells].
  rewrite Hm. cbn [of_option]. rewrite bind_ok. cbn [next].
  replace (total l1 + sz - (total l1 + 8)) with (sz - 8) by lia. rewrite u32_id by solve_u.
  unfold split_block, SIZEOF_STRUCT_MEM, MIN_SIZE_ALIGNED in *.
  destruct (Z.leb_spec (size + 8 + 12) (sz - 8)), (Z.leb_spec (size + 2 * 8 + 12) sz); try lia.
  - rewrite u16_id by solve_u. set (o := total l1) in *. set (o2 := o + 8 + size).
    unfold MEM_SIZE_ALIGNED. destruct (Z.eqb_spec o2 16000); [lia|]. cbn [negb lwip_assert]. rewrite bind_ok.
    unfold set_next, set_used, ptr_to_mem, put. cbn [cells lfree mstats].
    rewrite lookup_insert_ne by lia. rewrite Hm. cbn [of_option]. rewrite bind_ok. cbn [cells prev used].
    rewrite bind_ok. cbn [cells lfree mstats]. rewrite lookup_insert_eq. cbn [of_option].
    rewrite bind_ok. rewrite bind_ok. cbn [cells lfree mstats next prev]. rewrite insert_insert_eq.
    set (c1 := <[o := Mem o2 (last_off 0 0 l1) 1]> (<[o2 := Mem (o + sz) o 0]> c)).
    destruct (link_back_ok c1 lf st o (o + sz) o2 l2) as (c' & -> & Hl' & Hlow & Hend);
      [| done | unfold MEM_SIZE_ALIGNED; lia |].
    { apply (linked_agree c); [done | | done]. intros x Hx. unfold c1. rewrite !lookup_insert_ne by lia. done. }
    rewrite bind_ok. exists c'. eexists. split; [reflexivity|]. split.
    + apply Hrep.
      * intros x Hx. rewrite Hlow by lia. unfold c1. rewrite !lookup_insert_ne by lia. done.
      * rewrite Hend. unfold c1. rewrite !lookup_insert_ne; [done | |]; unfold ram_end, MEM_SIZE_ALIGNED; lia.
      * cbn [app linked]. rewrite !Hlow by lia. unfold c1. rewrite lookup_insert_eq.
        replace (o + (size + 8)) with o2 by lia. split; [done|].
        rewrite lookup_insert_ne by lia. rewrite lookup_insert_eq.
        replace (o2 + (sz - size - 8)) with (o + sz) by lia. done.
    + cbn. do 2 f_equal. lia.
  - unfold set_used, ptr_to_mem, put. cbn [cells lfree mstats]. rewrite Hm. cbn [of_option].
    rewrite bind_ok. rewrite bind_ok. cbn [cells lfree mstats next prev].
    eexists (<[_ := _]> c), _. split; [reflexivity|]. split.
    + apply Hrep.
      * intros x Hx. rewrite lookup_insert_ne by lia. done.
      * rewrite lookup_insert_ne; [done|]. unfold ram_end, MEM_SIZE_ALIGNED; lia.
      * cbn [app linked]. rewrite lookup_insert_eq. split; [done|].
        apply (linked_agree c); [done | | done]. intros x Hx. rewrite lookup_insert_ne by lia. done.
    + cbn. rewrite (u16_id (total l1)) by solve_u. do 2 f_equal. lia.
Qed.

(** The blocks below the lowest free one. *)
Lemma first_free_split l : exists la lb,
  l = la ++ lb /\ all_used la = true /\ first_free 0 l = total la /\
  (forall size, alloc_layout size l =
     match alloc_layout size lb with None => None | Some (o, l') => Some (total la + o, la ++ l') end).
Proof.
  assert (exists la lb, l = la ++ lb /\ all_used la = true /\ forall o, first_free o l = o + total la)
    as (la & lb & -> & Hu & Hf).
  { induction l as [|[sz u] l IH]; [exists [], []; cbn; repeat split; intros; lia|]. destruct u.
    - destruct IH as (la & lb & -> & Hu & Hf). exists ((sz, true) :: la), lb. repeat split; [done|].
      intros o. cbn [app first_free]. rewrite Hf, total_cons. lia.
    - exists [], ((sz, false) :: l). cbn. repeat split; intros; lia. }
  exists la, lb. split; [done|]. split; [done|]. split; [by rewrite Hf|].
  intros size. by apply alloc_layout_used.
Qed.

Lemma adjust_lfree_spec c st l1 sz m l2 :
  chain c (l1 ++ (sz, true) :: m ++ l2) -> forall sz0,
  exists lf', adjust_lfree (total l1) (Heap c (first_free 0 (l1 ++ (sz0, false) :: l2)) st) = Ok (Heap c lf' st) /\
    lf' = first_free 0 (l1 ++ (sz, true) :: m ++ l2).
Proof.
  intros Hc sz0. unfold adjust_lfree. cbn [lfree].
  pose proof (chain_block _ _ _ _ _ Hc) as (Hm & _ & _ & _ & _ & Ht & _ & Hb1 & Hb2).
  pose proof (first_free_bounds 0 l1 Hb1) as (_ & Hlt & _).
  rewrite !first_free_app, !Z.add_0_l. cbn [first_free].
  destruct (all_used l1) eqn:Hu.
  - rewrite Z.eqb_refl.
    rewrite (next_free_spec c _ st ((sz, true) :: m ++ l2) l1 HEAP_FUEL); [|done|].
    2: { destruct Hc as [_ _ Hb Htot]. pose proof (total_bounds _ Hb) as [HH _].
         rewrite Htot, length_app in HH. unfold MEM_SIZE_ALIGNED, HEAP_FUEL in *. lia. }
    rewrite bind_ok. cbn [first_free].
    eexists. split; [|done]. unfold ptr_to_mem, set_lfree. cbn [cells mstats].
    assert (exists x, c !! first_free (total l1 + sz) (m ++ l2) = Some x /\
              (first_free (total l1 + sz) (m ++ l2) =? ram_end) || (used x =? 0) = true) as (x & -> & Hx).
    { assert (Hc' : chain c ((l1 ++ [(sz, true)]) ++ m ++ l2)) by (by rewrite <- app_assoc).
      assert (Hn : total (l1 ++ [(sz, true)]) = total l1 + sz) by (rewrite total_app, total_cons; cbn; lia).
      rewrite <- Hn. clear -Hc'. revert Hc'. generalize (m ++ l2) as lb. intros lb.
      generalize (l1 ++ [(sz, true)]) as la. induction lb as [|[s u] lb IH]; intros la Hc.
      - rewrite app_nil_r in Hc. destruct Hc as [_ He _ Htot]. cbn [first_free]. rewrite Htot.
        change MEM_SIZE_ALIGNED with ram_end. rewrite He. by eexists.
      - pose proof (chain_block _ _ _ _ _ Hc) as (Hm & _). cbn [first_free]. destruct u.
        + specialize (IH (la ++ [(s, true)])). rewrite total_app, total_cons in IH.
          change (total []) with 0 in IH. rewrite Z.add_0_r in IH. apply IH. by rewrite <- app_assoc.
        + rewrite Hm. eexists. split; [done|]. cbn. by rewrite orb_true_r. }
    cbn [of_option]. rewrite bind_ok, Hx. done.
  - destruct Hlt as [Hlt _]. specialize (Hlt eq_refl).
    destruct (Z.eqb_spec (total l1) (first_free 0 l1)); [lia|]. by eexists.
Qed.

Lemma LWIP_MEM_ALIGN_SIZE_spec n : 0 <= n < 4294967292 -> LWIP_MEM_ALIGN_SIZE n = (n + 3) / 4 * 4.
Proof.
  intros Hn. unfold LWIP_MEM_ALIGN_SIZE, MEM_ALIGNMENT. rewrite (u32_id (n + 4 - 1)) by solve_u.
  replace (4 - 1) with (Z.ones 2) by done. rewrite <- Z.ldiff_land, Z.ldiff_ones_r by lia.
  rewrite Z.shiftl_mul_pow2, Z.shiftr_div_pow2 by lia. change (2 ^ 2) with 4.
  replace (n + 4 - 1) with (n + 3) by lia. rewrite u32_id; [done | solve_u].
Qed.

(** Rounding up to the alignment; requests above 65532 bytes wrap around. *)
Lemma aligned_size_spec n : is_u16 n ->
  12 <= aligned_size n /\ aligned_size n mod 4 = 0 /\ aligned_size n < 65536 /\
  (n <= 65532 -> aligned_size n = Z.max 12 ((n + 3) / 4 * 4)) /\
  (65532 < n -> aligned_size n = 12).
Proof.
  intros Hn. unfold aligned_size. rewrite LWIP_MEM_ALIGN_SIZE_spec by solve_u.
  unfold MIN_SIZE_ALIGNED. bool_cases; solve_u.
Qed.

Lemma coalesced_split l1 sz size l2 :
  coalesced (l1 ++ (sz, false) :: l2) -> coalesced (l1 ++ split_block size sz ++ l2).
Proof.
  rewrite coalesced_app. intros [H1 H2]. unfold split_block.
  destruct (_ <=? _); cbn [app]; rewrite coalesced_app; (split; [by eapply coalesced_snoc_used|]).
  - apply coalesced_used. done.
  - apply coalesced_used. by apply coalesced_tail in H2.
Qed.

Lemma mem_malloc_spec h l size_in :
  heap_rep h l -> is_u16 size_in ->
  exists h' r, mem_malloc size_in h = Ok (h', option_map (fun ol => ol.1 + SIZEOF_STRUCT_MEM) r) /\
    heap_rep h' (match r with Some (_, l') => l' | None => l end) /\
    r = malloc_layout size_in l.
Proof.
  intros Hr Hn. unfold mem_malloc, malloc_layout. destruct (Z.eqb_spec size_in 0) as [->|H0].
  { exists h, None. done. }
  cbn [orb]. destruct (aligned_size_spec size_in Hn) as (Hs & Hs4 & Hs16 & _).
  set (size := aligned_size size_in) in *. clearbody size.
  destruct ((_ <? size) || _) eqn:Hbad.
  { exists h, None. done. }
  apply orb_false_iff in Hbad as [Hbig Hwrap]. apply Z.ltb_ge in Hbig, Hwrap.
  pose proof (heap_rep_chain h l Hr) as Hc. destruct Hr as [_ _ Hb Ht Hco Hlf Hst].
  destruct h as [c lf st]. cbn [cells lfree mstats] in *. subst lf.
  destruct (first_free_split l) as (la & lb & El & Hu & Hff & Hal).
  pose proof (total_bounds l Hb) as (Hlen & Hub & _).
  assert (Hla : 0 <= total la <= 16000).
  { pose proof (first_free_bounds 0 l Hb). unfold MEM_SIZE_ALIGNED in *. lia. }
  rewrite Hff, (u16_id (total la)) by solve_u. unfold MEM_SIZE_ALIGNED in Hbig.
  rewrite El in Hc.
  rewrite (find_fit_spec c (total la) st size ltac:(lia) la lb HEAP_FUEL Hc).
  2: { rewrite El, length_app in Hlen. rewrite <- El in Hlen. unfold MEM_SIZE_ALIGNED, HEAP_FUEL in *. lia. }
  rewrite bind_ok, Hal. destruct (alloc_layout size lb) as [[o l']|] eqn:Ea; cbn [option_map].
  2: { eexists _, None. split; [reflexivity|]. split; [|done]. rewrite <- El in Hc. rewrite <- Hff. split; try apply Hc; done. }
  apply alloc_layout_some in Ea as (l1 & sz & l2 & -> & -> & Hsz & ->).
  rewrite <- total_app. rewrite app_assoc in Hc, El. set (l3 := la ++ l1) in *.
  unfold SIZEOF_STRUCT_MEM in Hsz. rewrite <- Hff.
  pose proof (chain_block _ _ _ _ _ Hc) as (_ & Hl3 & Hl34 & _ & _ & Htot & _).
  destruct (claim_spec c (first_free 0 l) st l3 sz l2 size Hc) as (c' & st' & -> & Hc' & Hst'); [lia.. |].
  rewrite bind_ok. fold (split_block size sz). fold (split_block size sz) in *.
  assert (exists s1 m, split_block size sz = (s1, true) :: m) as (s1 & m & Em).
  { unfold split_block. destruct (_ <=? _); by eexists _, _. }
  rewrite Em in Hc'. cbn [app] in Hc'.
  destruct (adjust_lfree_spec c' st' l3 s1 m l2 Hc' sz) as (lf' & Eadj & Hlf').
  rewrite <- El in Eadj. rewrite Eadj, bind_ok.
  unfold ram_end, MEM_SIZE_ALIGNED, SIZEOF_STRUCT_MEM, MEM_ALIGNMENT in *.
  destruct (Z.leb_spec (total l3 + 8 + size) 16000); [|exfalso; pose proof (chain_block _ _ _ _ _ Hc); lia].
  cbn [lwip_assert]. rewrite bind_ok.
  replace ((total l3 + 8) mod 4 =? 0) with true by (symmetry; apply Z.eqb_eq; lia).
  cbn [lwip_assert]. rewrite bind_ok. change (4 - 1) with (Z.ones 2). rewrite Z.land_ones by lia. change (2 ^ 2) with 4.
  rewrite Hl34. cbn [lwip_assert Z.eqb]. change (0 =? 0) with true. cbn [lwip_assert]. rewrite bind_ok.
  eexists _, (Some (total l3, la ++ l1 ++ split_block size sz ++ l2)).
  split; [reflexivity|]. split; [|done].
  rewrite app_assoc. fold l3. rewrite Em. cbn [app].
  split; try apply Hc'; cbn [lfree mstats].
  - rewrite El in Hco. apply (coalesced_split l3 sz size l2) in Hco. by rewrite Em in Hco.
  - done.
  - rewrite Hst', Hst, Em, El, !total_used_app, total_used_cons. cbn [app].
    pose proof (total_bounds _ (ch_blocks _ _ Hc')) as (_ & Hub' & _).
    rewrite (ch_total _ _ Hc') in Hub'. unfold MEM_SIZE_ALIGNED in Hub'.
    change ((s1, true) :: m ++ l2) with (((s1, true) :: m) ++ l2) in *.
    rewrite !total_used_app in *. rewrite u16_id; [lia | solve_u].
Qed.

(** *** Freeing *)

(** A block swallows the one behind it. *)
Lemma merge_ok c lf st l1 sz u sz2 l2 n :
  chain c (l1 ++ (sz, u) :: (sz2, false) :: l2) -> n = total l1 + sz + sz2 ->
  exists c', (h ← set_next (total l1) n (Heap c lf st); link_back n (total l1) h) = Ok (Heap c' lf st) /\
    chain c' (l1 ++ (sz + sz2, u) :: l2).
Proof.
  intros Hc ->.
  pose proof (chain_block _ _ _ _ _ Hc) as (Hm & H0 & H04 & Hb & Hb4 & Ht & Hl2 & _ & Hbs).
  pose proof (chain_rest _ _ _ _ _ Hc) as [_ Hr].
  apply Forall_cons in Hbs as [Hb2 Hbs]. apply block_pos in Hb2. rewrite total_cons in Ht.
  pose proof (total_bounds l2 Hbs).
  unfold set_next, ptr_to_mem, put. cbn [cells lfree mstats]. rewrite Hm. cbn [of_option].
  rewrite bind_ok. rewrite bind_ok. cbn [prev used].
  set (o := total l1) in *. set (c1 := <[o := Mem (o + sz + sz2) (last_off 0 0 l1) (Z.b2z u)]> c).
  destruct (link_back_ok c1 lf st (o + sz) (o + sz + sz2) o l2) as (c' & -> & Hl' & Hlow & Hend);
    [| done | unfold MEM_SIZE_ALIGNED; lia |].
  { apply (linked_agree c); [done | | done]. intros x Hx. unfold c1. rewrite lookup_insert_ne by lia. done. }
  exists c'. split; [done|].
  apply (chain_replace c c' l1 [(sz, u); (sz2, false)] [(sz + sz2, u)] l2); [done | | | | |].
  - rewrite !total_cons. cbn. lia.
  - repeat constructor; cbn [fst]; unfold SIZEOF_STRUCT_MEM, MIN_SIZE_ALIGNED; lia.
  - intros x Hx. rewrite Hlow by lia. unfold c1. rewrite lookup_insert_ne by lia. done.
  - rewrite Hend. unfold c1. apply lookup_insert_ne. unfold ram_end, MEM_SIZE_ALIGNED; lia.
  - cbn [app linked]. rewrite Hlow by lia. unfold c1. rewrite lookup_insert_eq.
    fold o. rewrite Z.add_assoc. done.
Qed.

Lemma free_layout_merge l0 sz1 sz l2 : free_layout (l0 ++ [(sz1, false)]) sz l2 = l0 ++ merge_head (sz1 + sz) l2.
Proof.
  induction l0 as [|[s u] l0 IH]; [done|].
  cbn [app free_layout]. rewrite IH. destruct u; [done|]. destruct l0; done.
Qed.

Lemma free_layout_snoc_used l0 sz1 sz l2 :
  free_layout (l0 ++ [(sz1, true)]) sz l2 = (l0 ++ [(sz1, true)]) ++ merge_head sz l2.
Proof.
  induction l0 as [|[s u] l0 IH]; [done|].
  cbn [app free_layout]. rewrite IH. destruct u; [done|]. destruct l0; done.
Qed.

Lemma merge_head_head sz l2 : exists s m, merge_head sz l2 = (s, false) :: m.
Proof. destruct l2 as [|[s []] l2]; by eexists _, _. Qed.

Lemma merge_head_coalesced sz l2 : coalesced l2 -> coalesced (merge_head sz l2).
Proof. destruct l2 as [|[s []] l2]; cbn [merge_head]; [done | cbn; tauto | done]. Qed.

Lemma merge_head_used sz l2 : total_used (merge_head sz l2) = total_used l2.
Proof. destruct l2 as [|[s []] l2]; done. Qed.

(** The first half of [plug_holes]. *)
Lemma plug_forward c lf st l1 sz l2 :
  chain c (l1 ++ (sz, false) :: l2) -> lf <= total l1 -> coalesced l2 -> exists c' n,
  chain c' (l1 ++ merge_head sz l2) /\
  c !! (total l1 + sz) = Some n /\
  (if negb (total l1 =? total l1 + sz) && (used n =? 0) && negb (total l1 + sz =? ram_end) then
     h ← set_next (total l1) (next n)
           (if lf =? total l1 + sz then set_lfree (total l1) (Heap c lf st) else Heap c lf st);
     link_back (next n) (total l1) h
   else Ok (Heap c lf st)) = Ok (Heap c' lf st).
Proof.
  intros Hc Hlf Hco. pose proof (chain_next _ _ _ _ _ Hc) as Hn.
  pose proof (chain_block _ _ _ _ _ Hc) as (_ & H0 & _ & Hb & _ & Ht & _).
  destruct (Z.eqb_spec (total l1) (total l1 + sz)) as [|_]; [lia|].
  destruct (Z.eqb_spec lf (total l1 + sz)) as [|_]; [lia|]. cbn [negb andb].
  destruct l2 as [|[sz2 []] l2]; cbn [merge_head].
  - eexists c, _. split; [done|]. split; [exact Hn|]. done.
  - eexists c, _. split; [done|]. split; [exact Hn|]. done.
  - destruct (merge_ok c lf st l1 sz false sz2 l2 (total l1 + sz + sz2) Hc eq_refl) as (c' & E & Hc').
    exists c'. eexists. split; [done|]. split; [exact Hn|]. cbn [next used].
    destruct (Z.eqb_spec (total l1 + sz) ram_end) as [Ee|_]; [|exact E].
    exfalso. rewrite total_cons in Ht. unfold ram_end, MEM_SIZE_ALIGNED in Ee.
    destruct Hc as [_ _ Hbs _]. apply Forall_app in Hbs as [_ Hbs]. apply Forall_cons in Hbs as [_ Hbs].
    apply Forall_cons in Hbs as [Hb2 Hbs]. apply block_pos in Hb2. pose proof (total_bounds _ Hbs). lia.
Qed.

(** Both halves. *)
Lemma plug_holes_spec c st l1 sz l2 :
  chain c (l1 ++ (sz, false) :: l2) -> coalesced l2 -> exists c',
  plug_holes (total l1) (Heap c (first_free 0 (l1 ++ (sz, false) :: l2)) st) =
    Ok (Heap c' (first_free 0 (l1 ++ (sz, false) :: l2)) st) /\
  chain c' (free_layout l1 sz l2) /\
  first_free 0 (free_layout l1 sz l2) = first_free 0 (l1 ++ (sz, false) :: l2).
Proof.
  intros Hc Hco. pose proof (chain_block _ _ _ _ _ Hc) as (Hm & H0 & _ & Hb & _ & Ht & Hl2 & Hb1 & _).
  pose proof (first_free_bounds 0 l1 Hb1) as (Hff & Hlt & _).
  assert (Hlf : first_free 0 (l1 ++ (sz, false) :: l2) <= total l1).
  { rewrite first_free_app. destruct (all_used l1); cbn [first_free]; lia. }
  set (lf := first_free 0 (l1 ++ (sz, false) :: l2)) in *.
  unfold plug_holes, ptr_to_mem. cbn [cells lfree].
  destruct (Z.leb_spec 0 (total l1)); [|lia].
  destruct (Z.ltb_spec (total l1) ram_end); [|unfold ram_end, MEM_SIZE_ALIGNED in *; lia].
  cbn [lwip_assert]. rewrite !bind_ok, Hm. cbn [of_option]. rewrite bind_ok. cbn [used next].
  change (Z.b2z false =? 0) with true. destruct (Z.leb_spec (total l1 + sz) MEM_SIZE_ALIGNED); [|unfold MEM_SIZE_ALIGNED in *; lia].
  cbn [lwip_assert]. rewrite !bind_ok.
  destruct (plug_forward c lf st l1 sz l2 Hc Hlf Hco) as (c1 & n & Hc1 & -> & E1).
  cbn [of_option]. rewrite bind_ok, E1, bind_ok. cbn [cells lfree].
  destruct (merge_head_head sz l2) as (s & m & Em). rewrite Em in Hc1.
  pose proof (chain_block _ _ _ _ _ Hc1) as (-> & _). cbn [of_option]. rewrite bind_ok. cbn [prev next].
  destruct l1 as [|[sz1 u1] l0 _] using rev_ind.
  - cbn [last_off]. change (total []) with 0 in *. cbn [app] in Hc1.
    pose proof (chain_block _ [] _ _ _ Hc1) as (Hm1 & _). change (total []) with 0 in Hm1.
    rewrite Hm1. cbn [of_option]. rewrite bind_ok.
    exists c1. split; [done|]. cbn [free_layout]. by rewrite Em.
  - rewrite last_off_app, Z.add_0_l.
    assert (Hn : total (l0 ++ [(sz1, u1)]) = total l0 + sz1) by (rewrite total_app, total_cons; cbn; lia).
    rewrite <- app_assoc in Hc1. cbn [app] in Hc1.
    pose proof (chain_block _ _ _ _ _ Hc1) as (-> & _ & _ & Hsz1 & _). cbn [of_option]. rewrite bind_ok. cbn [used].
    destruct (Z.eqb_spec (total l0) (total (l0 ++ [(sz1, u1)]))) as [|_]; [lia|].
    destruct u1; cbn [Z.b2z negb andb].
    + change (1 =? 0) with false. exists c1. split; [done|].
      rewrite free_layout_snoc_used, Em. rewrite <- app_assoc. split; [done|].
      unfold lf. rewrite <- app_assoc, !first_free_app. cbn [app first_free]. done.
    + change (0 =? 0) with true. cbn match.
      destruct (Z.eqb_spec lf (total (l0 ++ [(sz1, false)]))) as [Ee|_].
      { exfalso. revert Ee. unfold lf. rewrite first_free_app.
        assert (all_used (l0 ++ [(sz1, false)]) = false) as Ef
          by (unfold all_used; rewrite forallb_app; cbn; by rewrite !andb_false_r).
        rewrite Ef. intros Ee. destruct Hlt as [Hlt _]. specialize (Hlt Ef). lia. }
      destruct (merge_ok c1 lf st l0 sz1 false s m (total (l0 ++ [(sz1, false)]) + s)) as (c' & E2 & Hc'); [done | by rewrite Hn |].
      exists c'. split; [exact E2|]. rewrite free_layout_merge.
      assert (merge_head (sz1 + sz) l2 = (sz1 + s, false) :: m) as ->.
      { destruct l2 as [|[? []] ?]; cbn [merge_head] in *; injection Em as <- <-; by rewrite ?Z.add_assoc. }
      split; [done|]. unfold lf. rewrite <- app_assoc, !first_free_app. cbn [app first_free]. done.
Qed.

Lemma mem_link_valid_spec c lf st l1 sz u l2 :
  chain c (l1 ++ (sz, u) :: l2) -> mem_link_valid (total l1) (Heap c lf st) = Ok true.
Proof.
  intros Hc. pose proof (chain_block _ _ _ _ _ Hc) as (Hm & H0 & _ & Hb & _ & Ht & Hl2 & Hb1 & _).
  pose proof (chain_next _ _ _ _ _ Hc) as Hn.
  assert (Hp : last_off 0 0 l1 <= total l1 /\ (last_off 0 0 l1 <> total l1 ->
             exists m, c !! last_off 0 0 l1 = Some m /\ next m = total l1)).
  { destruct l1 as [|[sz1 u1] l0 _] using rev_ind; [cbn; split; [lia | done]|].
    rewrite last_off_app, Z.add_0_l. rewrite <- app_assoc in Hc. cbn [app] in Hc.
    pose proof (chain_block _ _ _ _ _ Hc) as (Hm1 & _ & _ & Hs1 & _).
    rewrite total_app, total_cons. change (total []) with 0. split; [lia|].
    intros _. eexists. split; [exact Hm1|]. cbn. lia. }
  destruct Hp as [Hp1 Hp2]. unfold mem_link_valid, ptr_to_mem. cbn [cells].
  rewrite Hm. cbn [of_option]. rewrite bind_ok. cbn [next prev]. unfold MEM_SIZE_ALIGNED in *.
  destruct (Z.ltb_spec 16000 (total l1 + sz)); [lia|]. destruct (Z.ltb_spec 16000 (last_off 0 0 l1)); [lia|].
  cbn [orb].
  assert ((if negb (last_off 0 0 l1 =? total l1)
           then p ← of_option BadPointer (c !! last_off 0 0 l1); Ok (negb (next p =? total l1))
           else Ok false) = Ok false) as ->.
  { destruct (Z.eqb_spec (last_off 0 0 l1) (total l1)) as [|Hne]; [done|]. cbn [negb].
    destruct (Hp2 Hne) as (m & -> & Em). cbn [of_option]. rewrite bind_ok, Em, Z.eqb_refl. done. }
  rewrite bind_ok, Hn. cbn [of_option]. unfold ram_end, MEM_SIZE_ALIGNED.
  destruct (Z.eqb_spec (total l1 + sz) 16000) as [He|He]; cbn [negb]; rewrite !bind_ok; [done|].
  destruct l2 as [|[sz2 u2] l2]; [cbn in Ht; lia|]. cbn [prev]. by rewrite Z.eqb_refl.
Qed.

Lemma coalesced_free l1 sz l2 :
  coalesced (l1 ++ (sz, true) :: l2) -> coalesced (free_layout l1 sz l2).
Proof.
  rewrite coalesced_app. intros [H1 H2]. apply coalesced_tail in H2.
  destruct l1 as [|[sz1 u1] l0 _] using rev_ind; [by apply merge_head_coalesced|].
  apply coalesced_prefix in H1. destruct u1.
  - rewrite free_layout_snoc_used, <- app_assoc. cbn [app]. apply coalesced_app. split; [done|].
    apply coalesced_used. by apply merge_head_coalesced.
  - rewrite free_layout_merge. pose proof (merge_head_coalesced (sz1 + sz) l2 H2) as H3.
    destruct (merge_head_head (sz1 + sz) l2) as (s & m & E). rewrite E in *.
    apply coalesced_app. split; [by eapply coalesced_snoc_size | done].
Qed.

Lemma total_used_free l1 sz l2 : total_used (free_layout l1 sz l2) = total_used l1 + total_used l2.
Proof.
  destruct l1 as [|[sz1 u1] l0 _] using rev_ind; [apply merge_head_used|]. destruct u1.
  - by rewrite free_layout_snoc_used, total_used_app, merge_head_used.
  - rewrite free_layout_merge, !total_used_app, merge_head_used, total_used_cons. cbn. lia.
Qed.

Lemma mem_free_spec h l1 sz l2 :
  heap_rep h (l1 ++ (sz, true) :: l2) ->
  exists h', mem_free (Some (total l1 + SIZEOF_STRUCT_MEM)) h = Ok h' /\ heap_rep h' (free_layout l1 sz l2).
Proof.
  intros Hr. pose proof (heap_rep_chain _ _ Hr) as Hc. destruct Hr as [_ _ Hb Htot Hco Hlf Hst].
  destruct h as [c lf st]. cbn [cells lfree mstats] in *.
  pose proof (chain_block _ _ _ _ _ Hc) as (Hm & H0 & H04 & Hsz & Hsz4 & Ht & Hl2 & Hb1 & Hb2).
  pose proof (first_free_bounds 0 l1 Hb1) as (Hff & Hlt & _).
  pose proof (total_bounds _ Hb2) as (_ & Hu2 & _). pose proof (total_bounds _ Hb1) as (_ & Hu1 & _).
  unfold mem_free, SIZEOF_STRUCT_MEM, MEM_ALIGNMENT, MIN_SIZE_ALIGNED. change (4 - 1) with (Z.ones 2).
  rewrite Z.land_ones by lia. change (2 ^ 2) with 4.
  replace ((total l1 + 8) mod 4) with 0 by lia. change (0 =? 0) with true. cbn [lwip_assert]. rewrite bind_ok.
  replace (total l1 + 8 - 8) with (total l1) by lia.
  destruct (Z.ltb_spec (total l1) 0); [lia|].
  destruct (Z.ltb_spec ram_end (total l1 + 8 + 12)); [unfold ram_end, MEM_SIZE_ALIGNED in *; lia|].
  cbn [orb negb lwip_assert]. rewrite bind_ok. unfold ptr_to_mem. cbn [cells]. rewrite Hm.
  cbn [of_option]. rewrite bind_ok. cbn [used next]. change (Z.b2z true =? 0) with false.
  cbn [negb lwip_assert]. rewrite bind_ok, (mem_link_valid_spec _ _ _ _ _ _ _ Hc), bind_ok.
  cbn [lwip_assert]. rewrite bind_ok.
  unfold set_used, ptr_to_mem, put. cbn [cells lfree mstats]. rewrite Hm. cbn [of_option].
  rewrite bind_ok. rewrite bind_ok. cbn [next prev lfree].
  set (c1 := <[total l1 := Mem (total l1 + sz) (last_off 0 0 l1) 0]> c).
  assert (Hc1 : chain c1 (l1 ++ (sz, false) :: l2)).
  { apply (chain_replace c c1 l1 [(sz, true)] [(sz, false)] l2); [done | done | by repeat constructor | | |].
    - intros x Hx. apply lookup_insert_ne. lia.
    - apply lookup_insert_ne. unfold ram_end, MEM_SIZE_ALIGNED. lia.
    - cbn [app linked]. unfold c1 at 1. rewrite lookup_insert_eq. split; [done|].
      apply (linked_agree c); [done | | by eapply chain_rest].
      intros x Hx. apply lookup_insert_ne. lia. }
  assert (Elf : (if total l1 <? lf then set_lfree (total l1) (Heap c1 lf st) else Heap c1 lf st) =
                Heap c1 (first_free 0 (l1 ++ (sz, false) :: l2)) st).
  { subst lf. rewrite !first_free_app, Z.add_0_l in *. cbn [first_free].
    pose proof (first_free_bounds (total l1 + sz) l2 Hb2) as (Hff2 & _).
    destruct (all_used l1).
    - destruct (Z.ltb_spec (total l1) (first_free (total l1 + sz) l2)); [done | lia].
    - destruct Hlt as [Hlt _]. specialize (Hlt eq_refl).
      destruct (Z.ltb_spec (total l1) (first_free 0 l1)); [lia | done]. }
  rewrite Elf. unfold stats_dec_used, set_mstats. cbn [cells lfree mstats].
  rewrite (u16_id (total l1)) by solve_u.
  assert (Hco2 : coalesced l2) by (apply coalesced_app in Hco as [_ Hco]; by apply coalesced_tail in Hco).
  edestruct (plug_holes_spec c1) as (c' & -> & Hc' & Hfin); [exact Hc1 | exact Hco2 |].
  eexists. split; [reflexivity|].
  split; try apply Hc'; cbn [lfree mstats st_used].
  - by eapply coalesced_free.
  - by rewrite Hfin.
  - rewrite Hst, total_used_app, total_used_cons, total_used_free.
    rewrite u16_id; [lia | solve_u].
Qed.

(** *** Shrinking *)

(** The pointer surgery of [mem_trim]: the end of a block becomes a free block,
    together with the gap behind it. *)
Lemma cut_ok c lf st l1 sz gap l3 ns n :
  chain c (l1 ++ (sz, true) :: gap ++ l3) -> Forall block_ok gap -> n = total l1 + sz + total gap ->
  20 <= ns < sz -> ns mod 4 = 0 -> 20 <= sz + total gap - ns -> exists c',
  (h ← set_next (total l1) (total l1 + ns) (Heap (<[total l1 + ns := Mem n (total l1) 0]> c) lf st);
   link_back n (total l1 + ns) h) = Ok (Heap c' lf st) /\
  chain c' (l1 ++ (ns, true) :: (sz + total gap - ns, false) :: l3).
Proof.
  intros Hc Hg -> Hns Hns4 Hgap.
  pose proof (chain_block _ _ _ _ _ Hc) as (Hm & H0 & H04 & Hb & Hb4 & Ht & Hl2 & _ & Hbs).
  pose proof (chain_rest _ _ _ _ _ Hc) as Hr. apply linked_app in Hr as [_ Hr].
  apply Forall_app in Hbs as [_ Hbs]. rewrite total_app in Ht.
  pose proof (total_bounds l3 Hbs). pose proof (total_bounds gap Hg).
  set (o := total l1) in *. unfold set_next, ptr_to_mem, put. cbn [cells lfree mstats].
  rewrite lookup_insert_ne by lia. rewrite Hm. cbn [of_option]. rewrite bind_ok. rewrite bind_ok. cbn [prev used].
  set (c1 := <[o := _]> (<[o + ns := _]> c)).
  destruct (link_back_ok c1 lf st (last_off o (o + sz) gap) (o + sz + total gap) (o + ns) l3)
    as (c' & -> & Hl' & Hlow & Hend); [| done | unfold MEM_SIZE_ALIGNED; lia |].
  { apply (linked_agree c); [done | | done]. intros x Hx. unfold c1. rewrite !lookup_insert_ne by lia. done. }
  exists c'. split; [done|].
  apply (chain_replace c c' l1 ((sz, true) :: gap) [(ns, true); (sz + total gap - ns, false)] l3); [done | | | | |].
  - rewrite !total_cons. cbn. lia.
  - repeat constructor; cbn [fst]; unfold SIZEOF_STRUCT_MEM, MIN_SIZE_ALIGNED; lia.
  - intros x Hx. rewrite Hlow by lia. unfold c1. rewrite !lookup_insert_ne by lia. done.
  - rewrite Hend. unfold c1. rewrite !lookup_insert_ne; [done | |]; unfold ram_end, MEM_SIZE_ALIGNED; lia.
  - cbn [app linked]. rewrite !Hlow by lia. unfold c1. rewrite lookup_insert_eq. fold o. split; [done|].
    rewrite lookup_insert_ne by lia. rewrite lookup_insert_eq.
    replace (o + ns + (sz + total gap - ns)) with (o + sz + total gap) by lia. done.
Qed.

Lemma first_free_cut l1 sz ns g l2 l3 o2 :
  Forall block_ok l1 -> Forall block_ok l2 -> 0 < ns < sz -> o2 = total l1 + ns ->
  (match l2 with (_, false) :: _ => True | _ => False end ->
   (if first_free 0 (l1 ++ (sz, true) :: l2) =? total l1 + sz then o2
    else first_free 0 (l1 ++ (sz, true) :: l2)) = first_free 0 (l1 ++ (ns, true) :: (g, false) :: l3)) /\
  (if o2 <? first_free 0 (l1 ++ (sz, true) :: l2) then o2
   else first_free 0 (l1 ++ (sz, true) :: l2)) = first_free 0 (l1 ++ (ns, true) :: (g, false) :: l3).
Proof.
  intros Hb1 Hb2 Hns ->. rewrite !first_free_app, !Z.add_0_l. cbn [first_free].
  pose proof (first_free_bounds 0 l1 Hb1) as (_ & Hlt & _).
  pose proof (first_free_bounds (total l1 + sz) l2 Hb2) as (Hff2 & _).
  destruct (all_used l1).
  - split.
    + destruct l2 as [|[? []] ?]; cbn [first_free]; intros []. by rewrite Z.eqb_refl.
    + destruct (Z.ltb_spec (total l1 + ns) (first_free (total l1 + sz) l2)); [done | lia].
  - destruct Hlt as [Hlt _]. specialize (Hlt eq_refl). split.
    + intros _. destruct (Z.eqb_spec (first_free 0 l1) (total l1 + sz)); [lia | done].
    + destruct (Z.ltb_spec (total l1 + ns) (first_free 0 l1)); [lia | done].
Qed.

Lemma coalesced_cut l1 sz ns g l3 :
  coalesced (l1 ++ (sz, true) :: l3) ->
  match l3 with (_, false) :: _ => False | _ => True end ->
  coalesced (l1 ++ (ns, true) :: (g, false) :: l3).
Proof.
  intros H H3. apply coalesced_app in H as [H1 H2]. apply coalesced_app. split; [by eapply coalesced_snoc_size|].
  apply coalesced_used. destruct l3 as [|[? []] ?]; cbn in *; tauto.
Qed.

Lemma mem_trim_spec h l1 sz l2 new_size :
  heap_rep h (l1 ++ (sz, true) :: l2) -> is_u16 new_size ->
  let rmem := total l1 + SIZEOF_STRUCT_MEM in
  match trim_spec l1 sz new_size l2 with
  | TrimNull => mem_trim rmem new_size h = Ok (h, None)
  | TrimAssert msg => mem_trim rmem new_size h = Err (AssertFail msg)
  | TrimOk l' => exists h', mem_trim rmem new_size h = Ok (h', Some rmem) /\ heap_rep h' l'
  end.
Proof.
  intros Hr Hn rmem. pose proof (heap_rep_chain _ _ Hr) as Hc. pose proof Hr as [_ _ Hb Htot Hco Hlf Hst].
  destruct h as [c lf st]. cbn [cells lfree mstats] in *.
  pose proof (chain_block _ _ _ _ _ Hc) as (Hm & H0 & H04 & Hsz & Hsz4 & Ht & Hl2 & Hb1 & Hb2).
  pose proof (total_bounds _ Hb2) as (_ & Hu2 & _). pose proof (total_bounds _ Hb1) as (_ & Hu1 & _).
  pose proof (chain_next _ _ _ _ _ Hc) as Hnx.
  unfold mem_trim, trim_spec. destruct (aligned_size_spec new_size Hn) as (Hs & Hs4 & Hs16 & _).
  set (ns := aligned_size new_size) in *. clearbody ns.
  destruct ((_ <? ns) || (ns <? _)) eqn:Hbad; [done|].
  apply orb_false_iff in Hbad as [Hbig Hwrap]. apply Z.ltb_ge in Hbig, Hwrap.
  unfold rmem, ram_end, MEM_SIZE_ALIGNED, SIZEOF_STRUCT_MEM, MIN_SIZE_ALIGNED in *.
  destruct (Z.leb_spec 0 (total l1 + 8)); [|lia]. destruct (Z.ltb_spec (total l1 + 8) 16000); [|lia].
  cbn [andb lwip_assert]. rewrite bind_ok. replace (total l1 + 8 - 8) with (total l1) by lia.
  unfold ptr_to_mem. cbn [cells]. rewrite Hm. cbn [of_option]. rewrite bind_ok. cbn [next].
  rewrite (u16_id (total l1)) by solve_u. replace (total l1 + sz - total l1) with sz by lia.
  rewrite (u16_id sz), (u16_id (sz - 8)) by solve_u.
  destruct (Z.leb_spec ns (sz - 8)), (Z.ltb_spec (sz - 8) ns); try lia; [|done].
  cbn [lwip_assert]. rewrite bind_ok.
  destruct (Z.eqb_spec ns (sz - 8)) as [->|Hne].
  { replace (sz - 8 - (sz - 8)) with 0 by lia. change (8 + 12 <=? 0) with false.
    destruct l2 as [|[sz2 u2] l2]; cbn match.
    - eexists. split; [reflexivity|]. exact Hr.
    - eexists. split; [reflexivity|]. unfold trim_layout, SIZEOF_STRUCT_MEM, MIN_SIZE_ALIGNED.
      replace (sz - 8 - (sz - 8)) with 0 by lia. destruct u2; exact Hr. }
  rewrite Hnx. cbn [of_option]. rewrite bind_ok.
  replace (total l1 + 8 + ns) with (total l1 + (ns + 8)) by lia.
  rewrite (u16_id (total l1 + (ns + 8))) by solve_u.
  destruct l2 as [|[sz2 [|]] l2]; cbn [used Z.b2z]; [change (1 =? 0) with false | change (1 =? 0) with false | change (0 =? 0) with true]; cbn match.
  - cbn in Ht. replace (total l1 + sz) with 16000 by lia. change (16000 =? 16000) with true. cbn [negb lwip_assert].
    destruct (Z.leb_spec (ns + 8 + 12) (sz - 8)), (Z.leb_spec (8 + 12) (sz - 8 - ns)); try lia; [done|].
    eexists. split; [reflexivity|]. exact Hr.
  - unfold trim_layout, SIZEOF_STRUCT_MEM, MIN_SIZE_ALIGNED.
    destruct (Z.leb_spec (ns + 8 + 12) (sz - 8)), (Z.leb_spec (8 + 12) (sz - 8 - ns)); try lia.
    2: { eexists. split; [reflexivity|]. exact Hr. }
    rewrite total_cons in Ht. apply Forall_cons in Hb2 as [Hbk2 Hb2']. apply block_pos in Hbk2.
    pose proof (total_bounds _ Hb2') as (_ & Hu2' & _).
    destruct (Z.eqb_spec (total l1 + sz) 16000); [lia|]. cbn [negb lwip_assert]. rewrite bind_ok.
    destruct (first_free_cut l1 sz (ns + 8) (sz - 8 - ns) ((sz2, true) :: l2) ((sz2, true) :: l2) (total l1 + (ns + 8)))
      as [_ Hcut]; [done | by constructor | lia | done |].
    rewrite <- Hlf in Hcut. unfold put. cbn [lfree].
    replace (if total l1 + (ns + 8) <? lf then set_lfree (total l1 + (ns + 8)) (Heap c lf st) else Heap c lf st)
      with (Heap c (first_free 0 (l1 ++ (ns + 8, true) :: (sz - 8 - ns, false) :: (sz2, true) :: l2)) st)
      by (rewrite <- Hcut; by destruct (_ <? lf)).
    cbn [cells lfree mstats].
    match goal with |- context [Heap _ ?f _] => set (lf' := f) end.
    edestruct (cut_ok c lf' st) with (gap := @nil (Z * bool)) (ns := ns + 8) as (c' & E & Hc');
      [exact Hc | done | reflexivity | lia | lia | cbn; lia |].
    change (total []) with 0 in *. rewrite Z.add_0_r in *.
    destruct (set_next _ _ _) as [h1|] eqn:E1; [|done]. rewrite bind_ok in E. rewrite bind_ok, E, bind_ok.
    replace (sz - (ns + 8)) with (sz - 8 - ns) in Hc' by lia.
    eexists. split; [reflexivity|]. split; try apply Hc'; cbn [lfree mstats set_mstats stats_dec_used st_used].
    + by eapply coalesced_cut.
    + done.
    + rewrite Hst. cbn [app]. rewrite !total_used_app, !total_used_cons. rewrite u16_id; [lia | solve_u].
  - unfold trim_layout, SIZEOF_STRUCT_MEM, MIN_SIZE_ALIGNED.
    rewrite total_cons in Ht. apply Forall_cons in Hb2 as [Hbk2 Hb2']. apply block_pos in Hbk2.
    pose proof (total_bounds _ Hb2') as (_ & Hu2' & _).
    destruct (Z.eqb_spec (sz - 8 - ns) 0); [lia|].
    destruct (Z.eqb_spec (total l1 + sz) 16000); [lia|]. cbn [negb lwip_assert]. rewrite bind_ok.
    destruct (first_free_cut l1 sz (ns + 8) (sz - 8 - ns + sz2) ((sz2, false) :: l2) l2 (total l1 + (ns + 8)))
      as [Hcut _]; [done | by constructor | lia | done |]. specialize (Hcut I).
    rewrite <- Hlf in Hcut. unfold put. cbn [lfree].
    replace (if lf =? total l1 + sz then set_lfree (total l1 + (ns + 8)) (Heap c lf st) else Heap c lf st)
      with (Heap c (first_free 0 (l1 ++ (ns + 8, true) :: (sz - 8 - ns + sz2, false) :: l2)) st)
      by (rewrite <- Hcut; by destruct (_ =? _)).
    cbn [cells lfree mstats next].
    match goal with |- context [Heap _ ?f _] => set (lf' := f) end.
    edestruct (cut_ok c lf' st) with (gap := [(sz2, false)]) (ns := ns + 8) as (c' & E & Hc');
      [exact Hc | by apply Forall_singleton | reflexivity | lia | lia | rewrite total_cons; cbn; lia |].
    rewrite total_cons in E, Hc'. change (total []) with 0 in E, Hc'. rewrite Z.add_0_r in E, Hc'.
    destruct (set_next _ _ _) as [h1|] eqn:E1; [|done]. rewrite bind_ok in E. rewrite bind_ok, E, bind_ok.
    replace (sz + sz2 - (ns + 8)) with (sz - 8 - ns + sz2) in Hc' by lia.
    eexists. split; [reflexivity|]. split; try apply Hc'; cbn [lfree mstats set_mstats stats_dec_used st_used].
    + apply coalesced_app in Hco as [Hc1 Hc2]. cbn [app].
      apply (coalesced_cut l1 sz (ns + 8) (sz - 8 - ns + sz2) l2).
      * apply coalesced_app. split; [done|]. apply coalesced_used. by do 2 apply coalesced_tail in Hc2.
      * apply coalesced_tail in Hc2. destruct l2 as [|[? []] ?]; cbn in Hc2; try done. destruct Hc2 as [[] _]; done.
    + done.
    + rewrite Hst. cbn [app]. rewrite !total_used_app, !total_used_cons. rewrite u16_id; [lia | solve_u].
Qed.

(** *** The operations together *)

Lemma mem_init_spec c lf st : st_used st = 0 ->
  exists h, mem_init (Heap c lf st) = Ok h /\ heap_rep h [(MEM_SIZE_ALIGNED, false)].
Proof.
  intros Hu. eexists. split; [reflexivity|]. split; cbn [cells lfree mstats put set_lfree set_mstats]; try done.
  - cbn [linked]. rewrite lookup_insert_ne by done. by rewrite lookup_insert_eq.
  - apply lookup_insert_eq.
  - repeat constructor; cbn [fst]; unfold MEM_SIZE_ALIGNED, SIZEOF_STRUCT_MEM, MIN_SIZE_ALIGNED; lia.
Qed.

Lemma mem_calloc_spec h l count size :
  heap_rep h l -> is_u16 count -> is_u16 size ->
  exists h' r, mem_calloc count size h =
      Ok (h', option_map (fun ol => (ol.1 + SIZEOF_STRUCT_MEM, count * size)) r) /\
    heap_rep h' (match r with Some (_, l') => l' | None => l end) /\
    r = (if 65536 <=? count * size then None else malloc_layout (count * size) l).
Proof.
  intros Hr Hc Hs. assert (0 <= count * size < 4294967296) by (unfold is_u16 in *; nia).
  unfold mem_calloc. rewrite (u32_id (count * size)) by done.
  destruct (Z.leb_spec 65536 (count * size)) as [Hge|Hlt].
  - destruct (Z.eqb_spec (u16 (count * size)) (count * size)) as [E|_]; [exfalso; pose proof (u16_range (count * size)); solve_u|].
    by exists h, None.
  - rewrite u16_id by solve_u. rewrite Z.eqb_refl. cbn [negb].
    destruct (mem_malloc_spec h l (count * size) Hr) as (h' & r & -> & Hr' & ->); [solve_u|].
    rewrite bind_ok. eexists _, _. split; [|done]. by destruct (malloc_layout _ _).
Qed.

Lemma exec_spec h l op r l' :
  heap_rep h l -> layout_step l op r l' -> exists h', exec op h = Ok (h', r) /\ heap_rep h' l'.
Proof.
  intros Hr Hs. destruct Hs as [l n o l' Hn E|l n Hn E|l c n o l' Hc Hn Hlt E|l c n Hc Hn Hor|l1 sz l2
    |l1 sz l2 n l' Hn E|l1 sz l2 n Hn E]; cbn [exec].
  - destruct (mem_malloc_spec h l n Hr Hn) as (h' & r & -> & Hr' & ->). rewrite E in *. by exists h'.
  - destruct (mem_malloc_spec h l n Hr Hn) as (h' & r & -> & Hr' & ->). rewrite E in *. by exists h'.
  - destruct (mem_calloc_spec h l c n Hr Hc Hn) as (h' & r & -> & Hr' & ->).
    destruct (Z.leb_spec 65536 (c * n)); [lia|]. rewrite E in *. by exists h'.
  - destruct (mem_calloc_spec h l c n Hr Hc Hn) as (h' & r & -> & Hr' & ->). exists h'.
    destruct (Z.leb_spec 65536 (c * n)); [done|]. destruct Hor as [|E]; [lia|]. rewrite E in *. done.
  - destruct (mem_free_spec h l1 sz l2 Hr) as (h' & -> & Hr'). by exists h'.
  - pose proof (mem_trim_spec h l1 sz l2 n Hr Hn) as H. cbv zeta in H. by rewrite E in H.
  - pose proof (mem_trim_spec h l1 sz l2 n Hr Hn) as H. cbv zeta in H. rewrite E in H. by exists h.
Qed.

Lemma exec_all_spec l ops rs l' : layout_run l ops rs l' ->
  forall h, heap_rep h l -> exists h', exec_all ops h = Ok (h', rs) /\ heap_rep h' l'.
Proof.
  induction 1 as [l|l op r l1 ops rs l2 Hs _ IH]; intros h Hr; [by exists h|].
  destruct (exec_spec h l op r l1 Hr Hs) as (h1 & E & Hr1). destruct (IH h1 Hr1) as (h2 & E2 & Hr2).
  exists h2. cbn [exec_all]. by rewrite E, bind_ok, E2, bind_ok.
Qed.

(** The space in use, and the free space a request is served from. *)
Lemma malloc_layout_some n l o l' : is_u16 n -> Forall block_ok l -> coalesced l ->
  malloc_layout n l = Some (o, l') ->
  exists l1 s l2, l' = l1 ++ (s, true) :: l2 /\ o = total l1 /\ n + SIZEOF_STRUCT_MEM <= s /\
    free_layout l1 s l2 = l.
Proof.
  intros Hn Hb Hco. unfold malloc_layout. destruct (_ || _) eqn:Hbad; [done|]. intros E.
  apply orb_false_iff in Hbad as [Hbad Hw]. apply orb_false_iff in Hbad as [_ Hbig].
  apply Z.ltb_ge in Hw. apply alloc_layout_some in E as (l1 & sz & l2 & -> & -> & Hsz & ->).
  unfold SIZEOF_STRUCT_MEM, MIN_SIZE_ALIGNED in *.
  assert (free_layout l1 sz l2 = l1 ++ (sz, false) :: l2 /\
               forall s, free_layout l1 s ((sz - s, false) :: l2) = l1 ++ (sz, false) :: l2) as [Hm1 Hm2].
  { apply coalesced_app in Hco as [H1 H2].
    assert (Hh : merge_head sz l2 = (sz, false) :: l2)
      by (destruct l2 as [|[? []] ?]; cbn in *; [done | done | destruct H2 as [[] _]; done]).
    destruct l1 as [|[s1 u1] l0 _] using rev_ind.
    - cbn [free_layout merge_head app]. split; [done|]. intros s. do 3 f_equal. lia.
    - rewrite <- app_assoc in H1. cbn [app] in H1. apply coalesced_app in H1 as [_ H1].
      cbn in H1. destruct H1 as [[->|] _]; [|done]. split; [|intros s]; rewrite free_layout_snoc_used.
      + by rewrite Hh.
      + cbn [merge_head]. do 3 f_equal. lia. }
  destruct (_ <=? sz); cbn [app].
  - eexists l1, _, _. split; [reflexivity|]. split; [done|]. split; [lia|].
    replace (sz - aligned_size n - 8) with (sz - (aligned_size n + 8)) by lia. apply Hm2.
  - exists l1, sz, l2. repeat split; [lia | done].
Qed.

(** *** Room for a request *)

#[export] Instance layout_le_preorder : PreOrder layout_le.
Proof.
  split; [by intros l sz H; exists sz|]. intros l1 l2 l3 H1 H2 sz H.
  destruct (H1 sz H) as (sz2 & ? & (sz3 & ? & ?)%H2). exists sz3. split; [lia | done].
Qed.

Lemma layout_le_app l1 l1' l2 l2' : layout_le l1 l1' -> layout_le l2 l2' -> layout_le (l1 ++ l2) (l1' ++ l2').
Proof.
  intros H1 H2 sz [(sz' & ? & ?)%H1|(sz' & ? & ?)%H2]%elem_of_app; exists sz'; rewrite elem_of_app; tauto.
Qed.

Lemma layout_le_used sz l l' : layout_le l l' -> layout_le ((sz, true) :: l) l'.
Proof. by intros H x [|Hx%H]%elem_of_cons. Qed.

Lemma layout_le_weaken sz sz' l : sz <= sz' -> layout_le ((sz, false) :: l) ((sz', false) :: l).
Proof.
  intros Hs x [[= ->]|Hx]%elem_of_cons; [exists sz'; split; [done | by left] | exists x; split; [lia | by right]].
Qed.

Lemma layout_le_cons b l : layout_le l (b :: l).
Proof. intros x Hx. exists x. split; [lia | by right]. Qed.

Lemma merge_head_le sz l : 0 <= sz -> Forall block_ok l -> layout_le ((sz, false) :: l) (merge_head sz l).
Proof.
  intros Hs Hl. destruct l as [|[sz2 []] l]; [reflexivity | reflexivity|]. cbn [merge_head].
  apply Forall_cons in Hl as [?%block_pos _].
  intros x [[= ->]|[[= ->]|Hx]%elem_of_cons]%elem_of_cons; [exists (sz + sz2).. | exists x]; (split; [lia | try by left]). by right.
Qed.

(** Freeing and trimming only enlarge free blocks. *)
Lemma free_layout_le l1 sz l2 : Forall block_ok (l1 ++ (sz, true) :: l2) -> layout_le (l1 ++ (sz, true) :: l2) (free_layout l1 sz l2).
Proof.
  intros [H1 [Hs%block_pos H2]%Forall_cons]%Forall_app.
  assert (Hm : forall z, 0 <= z -> layout_le l2 (merge_head z l2)).
  { intros z Hz. etransitivity; [apply (layout_le_cons (z, false)) | by apply merge_head_le]. }
  destruct l1 as [|[s1 []] l0 _] using rev_ind.
  - apply layout_le_used, Hm. lia.
  - rewrite free_layout_snoc_used. apply layout_le_app; [done|]. apply layout_le_used, Hm. lia.
  - apply Forall_app in H1 as [_ [Hs1%block_pos _]%Forall_cons].
    rewrite free_layout_merge, <- app_assoc. apply layout_le_app; [done|]. cbn [app].
    etransitivity; [|apply merge_head_le; [lia | done]].
    etransitivity; [|apply (layout_le_weaken s1); lia]. apply (layout_le_app [_] [_]); [done|]. by apply layout_le_used.
Qed.

(** A heap represents one layout. *)
Lemma linked_det c l : forall l' p o, linked c p o l -> linked c p o l' -> Forall block_ok l -> Forall block_ok l' ->
  total l = total l' -> l = l'.
Proof.
  induction l as [|[sz u] l IH]; intros [|[sz' u'] l'] p o H H' Hl Hl' Ht; [done | | |].
  { apply Forall_cons in Hl' as [Hb%block_pos Hl']. pose proof (total_bounds _ Hl'). rewrite total_cons in Ht. change (total []) with 0 in Ht. lia. }
  { apply Forall_cons in Hl as [Hb%block_pos Hl]. pose proof (total_bounds _ Hl). rewrite total_cons in Ht. change (total []) with 0 in Ht. lia. }
  destruct H as [H1 H2], H' as [H1' H2']. rewrite H1 in H1'. injection H1' as E1 E2.
  assert (sz = sz') as <- by lia. assert (u = u') as <- by (by destruct u, u').
  apply Forall_cons in Hl as [_ Hl], Hl' as [_ Hl']. rewrite !total_cons in Ht. f_equal. eapply IH; try done. lia.
Qed.

Lemma heap_rep_det h l l' : heap_rep h l -> heap_rep h l' -> l = l'.
Proof. intros [H1 _ H2 H3 _ _ _] [H1' _ H2' H3' _ _ _]. apply (linked_det (cells h) l l' 0 0); congruence. Qed.

(** First fit finds a block when there is one. *)
Lemma alloc_layout_found size l : is_Some (alloc_layout size l) <-> exists sz, (sz, false) ∈ l /\ size + SIZEOF_STRUCT_MEM <= sz.
Proof.
  induction l as [|[sz u] l IH]; cbn [alloc_layout].
  { split; [by intros [] | by intros (? & ?%elem_of_nil & _)]. }
  destruct (negb u && (size + SIZEOF_STRUCT_MEM <=? sz)) eqn:E.
  - apply andb_true_iff in E as [->%negb_true_iff Es%Z.leb_le]. split; [intros _; exists sz; split; [by left | done]|].
    destruct (_ <=? sz); by eexists.
  - assert (Hc : is_Some (match alloc_layout size l with Some (o, l'') => Some (sz + o, (sz, u) :: l'') | None => None end)
      <-> is_Some (alloc_layout size l)).
    { destruct (alloc_layout size l) as [[]|]; [by split; eexists | by split; intros []]. }
    rewrite Hc, IH. split; intros (x & Hx & Hle); exists x; (split; [|done]).
    + by right.
    + apply elem_of_cons in Hx as [[= -> <-]|Hx]; [|done]. cbn [negb andb] in E. apply Z.leb_gt in E. lia.
Qed.

Lemma can_malloc_spec h l n : heap_rep h l -> is_u16 n -> can_malloc n h = true <-> is_Some (malloc_layout n l).
Proof.
  intros Hr Hn. destruct (mem_malloc_spec h l n Hr Hn) as (h' & r & E & _ & <-). unfold can_malloc. rewrite E.
  destruct r; [by split; [eexists|] | by split; [|intros []]].
Qed.

(** More room for one is more room for all. *)
Lemma can_malloc_mono h h' l l' n : heap_rep h l -> heap_rep h' l' -> layout_le l l' -> is_u16 n ->
  can_malloc n h = true -> can_malloc n h' = true.
Proof.
  intros Hr Hr' Hle Hn. rewrite (can_malloc_spec _ _ _ Hr Hn), (can_malloc_spec _ _ _ Hr' Hn). unfold malloc_layout.
  destruct (_ || _); [done|]. rewrite !alloc_layout_found. intros (sz & (sz' & ? & ?)%Hle & ?). exists sz'. split; [done | lia].
Qed.

Lemma can_malloc_same h h' l n : heap_rep h l -> heap_rep h' l -> is_u16 n -> can_malloc n h = can_malloc n h'.
Proof.
  intros Hr Hr' Hn. apply eq_true_iff_eq. by rewrite (can_malloc_spec _ _ _ Hr Hn), (can_malloc_spec _ _ _ Hr' Hn).
Qed.

(** ** Properties *)

(** C2: the heap implements its abstract layout. After [mem_init] on any memory,
    every sequence of mem_malloc, mem_calloc, mem_free and mem_trim calls that the
    first-fit model of the layout allows runs without a failed assertion, returns
    the pointers (or NULL) of the model, and leaves a heap that represents the
    model's layout: the blocks tile the heap and are doubly linked, no two free
    blocks are adjacent, [lfree] is the lowest free block and the statistics count
    the bytes in use. *)
Theorem mem_heap_refines c lf st ops rs l :
  st_used st = 0 -> layout_run [(MEM_SIZE_ALIGNED, false)] ops rs l ->
  exists h h', mem_init (Heap c lf st) = Ok h /\ exec_all ops h = Ok (h', rs) /\ heap_rep h' l.
Proof.
  intros Hu Hrun. destruct (mem_init_spec c lf st Hu) as (h & E & Hr).
  destruct (exec_all_spec _ _ _ _ Hrun h Hr) as (h' & E' & Hr'). by exists h, h'.
Qed.

(** A block that mem_malloc returns is aligned, inside the heap and holds the
    bytes asked for, and mem_free takes it back: the heap then represents the
    layout from before the allocation. *)
Theorem mem_malloc_free h l n h1 p :
  heap_rep h l -> is_u16 n -> mem_malloc n h = Ok (h1, Some p) ->
  p mod MEM_ALIGNMENT = 0 /\ SIZEOF_STRUCT_MEM <= p /\ p + n <= MEM_SIZE_ALIGNED /\
  exists h2, mem_free (Some p) h1 = Ok h2 /\ heap_rep h2 l.
Proof.
  intros Hr Hn E. destruct (mem_malloc_spec h l n Hr Hn) as (h' & r & E' & Hr' & Er).
  rewrite E in E'. destruct r as [[o l']|]; [|done]. injection E' as <- ->. symmetry in Er.
  destruct (malloc_layout_some n l o l' Hn) as (l1 & s & l2 & -> & -> & Hs & Hf); [apply Hr | apply Hr | done |].
  pose proof (chain_block _ _ _ _ _ (heap_rep_chain _ _ Hr')) as (_ & H0 & H04 & _ & _ & Ht & Hl2 & _).
  destruct (mem_free_spec h1 l1 s l2 Hr') as (h2 & E2 & Hr2).
  cbn [fst] in *. unfold SIZEOF_STRUCT_MEM, MEM_ALIGNMENT, MEM_SIZE_ALIGNED in *.
  split; [lia|]. split; [lia|]. split; [lia|]. exists h2. by rewrite Hf in Hr2.
Qed.

(** The assertions of mem_trim. Growing a block fails an assertion instead of
    returning NULL; shrinking the last block of the heap, when the space cut off is
    enough for a block, fails the assertion "invalid next ptr". Every other
    trim of a block in use succeeds. *)
Theorem mem_trim_asserts h l1 sz l2 n :
  heap_rep h (l1 ++ (sz, true) :: l2) -> is_u16 n -> aligned_size n <= MEM_SIZE_ALIGNED -> n <= aligned_size n ->
  let p := total l1 + SIZEOF_STRUCT_MEM in
  let rest := sz - SIZEOF_STRUCT_MEM - aligned_size n in
  (rest < 0 -> mem_trim p n h = Err (AssertFail "mem_trim can only shrink memory")) /\
  (l2 = [] -> SIZEOF_STRUCT_MEM + MIN_SIZE_ALIGNED <= rest ->
   mem_trim p n h = Err (AssertFail "invalid next ptr")) /\
  (0 <= rest -> l2 <> [] \/ rest < SIZEOF_STRUCT_MEM + MIN_SIZE_ALIGNED ->
   exists h', mem_trim p n h = Ok (h', Some p)).
Proof.
  intros Hr Hn Hbig Hw. cbv zeta. pose proof (mem_trim_spec h l1 sz l2 n Hr Hn) as H. cbv zeta in H.
  unfold trim_spec in H. destruct (Z.ltb_spec MEM_SIZE_ALIGNED (aligned_size n)); [lia|].
  destruct (Z.ltb_spec (aligned_size n) n); [lia|]. cbn [orb] in H.
  unfold SIZEOF_STRUCT_MEM, MIN_SIZE_ALIGNED in *.
  destruct (Z.ltb_spec (sz - 8) (aligned_size n)).
  - split; [done|]. split; [lia | lia].
  - split; [lia|]. destruct l2 as [|b l2].
    + destruct (Z.leb_spec (8 + 12) (sz - 8 - aligned_size n)).
      * split; [done|]. intros _ [|]; [done | lia].
      * split; [lia|]. destruct H as (h' & -> & _). intros _ _. by exists h'.
    + split; [done|]. destruct H as (h' & -> & _). intros _ _. by exists h'.
Qed.

(** ** Witnesses *)

Definition stats0 : stats_mem := StatsMem 0 0 0 0 0.
Definition heap0 : heap := Heap ∅ 0 stats0.

(** Allocate, allocate, free the first, allocate from the hole, trim. *)
Definition ops0 : list heap_op := [OpMalloc 100; OpMalloc 30; OpFree 8; OpCalloc 5 10; OpTrim 8 20; OpMalloc 16001].

Lemma mem_heap_refines_witness : exists h h',
  mem_init heap0 = Ok h /\
  exec_all ops0 h = Ok (h', [Some 8; Some 116; None; Some 8; Some 8; None]) /\
  heap_rep h' [(28, true); (80, false); (40, true); (15852, false)].
Proof.
  apply (mem_heap_refines ∅ 0 stats0 ops0); [reflexivity|].
  eapply run_cons; [apply (step_malloc _ 100 0); [split; done | reflexivity]|].
  eapply run_cons; [apply (step_malloc _ 30 108); [split; done | reflexivity]|].
  eapply run_cons; [apply (step_free [] 108 [(40, true); (15852, false)])|].
  eapply run_cons; [apply (step_calloc _ 5 10 0); [split; done | split; done | done | reflexivity]|].
  eapply run_cons; [apply (step_trim [] 60 [(48, false); (40, true); (15852, false)] 20); [split; done | reflexivity]|].
  eapply run_cons; [apply (step_malloc_null _ 16001); [split; done | reflexivity]|].
  apply run_nil.
Defined.

(** A heap with a single block, which fills it. *)
Definition heap_full : heap :=
  match mem_init heap0 with
  | Ok h => match mem_malloc 15992 h with Ok (h, _) => h | _ => heap0 end
  | _ => heap0
  end.

Lemma heap_full_rep : heap_rep heap_full [(16000, true)].
Proof. split; try by vm_compute. repeat constructor; by vm_compute. Defined.

Definition heap_fresh : heap := match mem_init heap0 with Ok h => h | _ => heap0 end.

Lemma heap_fresh_rep : heap_rep heap_fresh [(16000, false)].
Proof. split; try by vm_compute. repeat constructor; by vm_compute. Defined.

Lemma mem_malloc_free_witness : exists h1 h2,
  mem_malloc 100 heap_fresh = Ok (h1, Some 8) /\
  mem_free (Some 8) h1 = Ok h2 /\ heap_rep h2 [(16000, false)].
Proof.
  destruct (mem_malloc 100 heap_fresh) as [[h1 r]|] eqn:E; [|vm_compute in E; discriminate E].
  exists h1. assert (r = Some 8) as -> by (vm_compute in E; by injection E as _ <-).
  destruct (mem_malloc_free heap_fresh [(16000, false)] 100 h1 8 heap_fresh_rep) as (_ & _ & _ & h2 & E2 & Hr);
    [split; done | exact E |].
  by exists h2.
Defined.

Lemma mem_trim_asserts_witness :
  mem_trim 8 15992 heap_full = Ok (heap_full, Some 8) /\
  mem_trim 8 100 heap_full = Err (AssertFail "invalid next ptr").
Proof.
  split; [by vm_compute|].
  apply (mem_trim_asserts heap_full [] 16000 [] 100 heap_full_rep); [split; done | by vm_compute | by vm_compute | done | by vm_compute].
Defined.
