(* ===== verification/Pbuf.v ===== *)
(** * Packet buffers: src/src/lwip/core/pbuf.c

    The store holds the pbufs in use by pointer and the memory areas that hold
    payload. A payload pointer is an area and an offset into it. The area of a
    PBUF_RAM or PBUF_POOL pbuf is the memory behind its struct, so its name is
    the pbuf's pointer; a PBUF_REF or PBUF_ROM pbuf points into an area of the
    client. Reads and writes outside of an area are faults, as is the use of a
    pbuf that has been freed. *)

From S2P Require Import Prelude Alloc Memp Mem Strings.

(** ** Definitions *)

(** Pointers, by the region they point into. *)
Inductive ptr : Type :=
  | PoolPtr (a : Z)      (* an element of MEMP_PBUF_POOL *)
  | MempPtr (a : Z)      (* an element of MEMP_PBUF *)
  | HeapPtr (a : Z)      (* a block of the heap *)
  | CustomPtr (a : Z)    (* a struct pbuf_custom *)
  | ExtPtr (a : Z).      (* a client's memory *)

#[export] Instance ptr_eq_dec : EqDecision ptr.
Proof. solve_decision. Defined.
#[export] Instance ptr_countable : Countable ptr.
Proof.
  apply (inj_countable'
    (fun p => match p with PoolPtr a => (0, a) | MempPtr a => (1, a) | HeapPtr a => (2, a)
                         | CustomPtr a => (3, a) | ExtPtr a => (4, a) end)
    (fun '(t, a) => if t =? 0 then PoolPtr a else if t =? 1 then MempPtr a else if t =? 2 then HeapPtr a
                    else if t =? 3 then CustomPtr a else ExtPtr a)).
  by intros [].
Defined.

(** The address part, for the alignment arithmetic. *)
Definition addr (p : ptr) : Z :=
  match p with PoolPtr a | MempPtr a | HeapPtr a | CustomPtr a | ExtPtr a => a end.

Definition LWIP_PBUF_REF_T (z : Z) : Z := u8 z.

Record pbuf : Type := Pbuf
  { next : option ptr;
    payload : option (ptr * Z);
    tot_len : Z;
    len : Z;
    type_internal : Z;
    flags : Z;
    ref : Z;
    if_idx : Z }.

Definition SIZEOF_STRUCT_PBUF : Z := 16.
Definition PBUF_POOL_BUFSIZE_ALIGNED : Z := 512.
Definition PBUF_TYPE_FLAG_STRUCT_DATA_CONTIGUOUS : Z := 0x80.
Definition PBUF_TYPE_FLAG_DATA_VOLATILE : Z := 0x40.
Definition PBUF_TYPE_ALLOC_SRC_MASK : Z := 0x0F.
Definition PBUF_TYPE_ALLOC_SRC_MASK_STD_HEAP : Z := 0x00.
Definition PBUF_TYPE_ALLOC_SRC_MASK_STD_MEMP_PBUF : Z := 0x01.
Definition PBUF_TYPE_ALLOC_SRC_MASK_STD_MEMP_PBUF_POOL : Z := 0x02.
Definition PBUF_FLAG_IS_CUSTOM : Z := 0x02.
Definition NETIF_NO_INDEX : Z := 0.

Inductive pbuf_type : Type := PBUF_RAM | PBUF_ROM | PBUF_REF | PBUF_POOL.
Definition pbuf_type_val (t : pbuf_type) : Z :=
  match t with PBUF_RAM => 0x280 | PBUF_ROM => 0x01 | PBUF_REF => 0x41 | PBUF_POOL => 0x182 end.

Definition ERR_OK : Z := 0.
Definition ERR_MEM : Z := -1.
Definition ERR_VAL : Z := -6.
Definition ERR_ARG : Z := -16.

Definition pbuf_get_allocsrc (p : pbuf) : Z := Z.land (type_internal p) PBUF_TYPE_ALLOC_SRC_MASK.
Definition pbuf_match_allocsrc (p : pbuf) (type : Z) : bool :=
  pbuf_get_allocsrc p =? Z.land type PBUF_TYPE_ALLOC_SRC_MASK.

(** Field assignments. *)
Definition with_next (v : option ptr) (p : pbuf) : pbuf :=
  Pbuf v (payload p) (tot_len p) (len p) (type_internal p) (flags p) (ref p) (if_idx p).
Definition with_payload (v : option (ptr * Z)) (p : pbuf) : pbuf :=
  Pbuf (next p) v (tot_len p) (len p) (type_internal p) (flags p) (ref p) (if_idx p).
Definition with_tot_len (v : Z) (p : pbuf) : pbuf :=
  Pbuf (next p) (payload p) v (len p) (type_internal p) (flags p) (ref p) (if_idx p).
Definition with_len (v : Z) (p : pbuf) : pbuf :=
  Pbuf (next p) (payload p) (tot_len p) v (type_internal p) (flags p) (ref p) (if_idx p).
Definition with_ref (v : Z) (p : pbuf) : pbuf :=
  Pbuf (next p) (payload p) (tot_len p) (len p) (type_internal p) (flags p) v (if_idx p).

Definition pbuf_init_alloced_pbuf (payload : option (ptr * Z)) (tot_len len : Z) (type : pbuf_type)
    (flags : Z) : pbuf :=
  Pbuf None payload tot_len len (u8 (pbuf_type_val type)) flags 1 NETIF_NO_INDEX.

(** The bytes [n] from a payload pointer on, and [MEMCPY] to it. *)
Definition area_read (ar : gmap ptr (list Z)) (pl : option (ptr * Z)) (off n : Z) : res (list Z) :=
  if n =? 0 then Ok [] else
  '(a, o) ← of_option BadPointer pl;
  b ← of_option BadPointer (ar !! a);
  if (0 <=? o + off) && (0 <=? n) && (o + off + n <=? length b)
  then Ok (take (Z.to_nat n) (drop (Z.to_nat (o + off)) b)) else Err OutOfBounds.

Definition area_write (ar : gmap ptr (list Z)) (pl : option (ptr * Z)) (off : Z) (src : list Z)
    : res (gmap ptr (list Z)) :=
  match src with
  | [] => Ok ar
  | _ =>
      '(a, o) ← of_option BadPointer pl;
      b ← of_option BadPointer (ar !! a);
      if (0 <=? o + off) && (o + off + length src <=? length b)
      then Ok (<[a := list_inserts (Z.to_nat (o + off)) src b]> ar) else Err OutOfBounds
  end.

(** The part of a caller's buffer from [i] on, and a copy into it. *)
Definition buf_slice (b : list Z) (i n : Z) : res (list Z) :=
  if (0 <=? i) && (0 <=? n) && (i + n <=? length b)
  then Ok (take (Z.to_nat n) (drop (Z.to_nat i) b)) else Err OutOfBounds.
Definition buf_copy (b : list Z) (i : Z) (src : list Z) : res (list Z) :=
  if (0 <=? i) && (i + length src <=? length b)
  then Ok (list_inserts (Z.to_nat i) src b) else Err OutOfBounds.

(** *** Functions that read a chain

    They take the pbufs and the areas; [fuel] bounds the walks along a chain,
    and one more than the number of pbufs in use is enough. *)

Section Read.
Variable ps : gmap ptr pbuf.
Variable ar : gmap ptr (list Z).

Definition deref (p : ptr) : res pbuf := of_option BadPointer (ps !! p).
Definition chain_fuel : nat := S (size ps).

Fixpoint clen_loop (fuel : nat) (p : option ptr) (len : Z) : res Z :=
  match p with
  | None => Ok len
  | Some p =>
      match fuel with
      | O => Err OutOfFuel
      | S fuel' => q ← deref p; clen_loop fuel' (next q) (u16 (len + 1))
      end
  end.
Definition pbuf_clen (p : option ptr) : res Z := clen_loop chain_fuel p 0.

(** [for (p = buf; len != 0 && p != NULL; p = p->next)] *)
Fixpoint copy_partial_loop (fuel : nat) (p : option ptr) (dataptr : list Z)
    (len_ offset left copied_total : Z) : res (Z * list Z) :=
  match p with
  | None => Ok (copied_total, dataptr)
  | Some p =>
      if len_ =? 0 then Ok (copied_total, dataptr) else
      match fuel with
      | O => Err OutOfFuel
      | S fuel' =>
          q ← deref p;
          if negb (offset =? 0) && (len q <=? offset) then
            copy_partial_loop fuel' (next q) dataptr len_ (u16 (offset - len q)) left copied_total
          else
            let buf_copy_len := u16 (len q - offset) in
            let buf_copy_len := if len_ <? buf_copy_len then len_ else buf_copy_len in
            d ← area_read ar (payload q) offset buf_copy_len;
            dataptr ← buf_copy dataptr left d;
            copy_partial_loop fuel' (next q) dataptr (u16 (len_ - buf_copy_len)) 0
              (u16 (left + buf_copy_len)) (u16 (copied_total + buf_copy_len))
      end
  end.

(** The number of bytes and the buffer afterwards. *)
Definition pbuf_copy_partial (buf : option ptr) (dataptr : option (list Z)) (len_ offset : Z)
    : res (Z * option (list Z)) :=
  match buf, dataptr with
  | None, _ => Ok (0, dataptr)
  | _, None => Ok (0, dataptr)
  | Some _, Some d =>
      '(n, d) ← copy_partial_loop chain_fuel buf d len_ offset 0 0;
      Ok (n, Some d)
  end.

(** [while ((q != NULL) && (q->len <= offset_left))] *)
Fixpoint skip_loop (fuel : nat) (q : option ptr) (offset_left : Z) : res (option ptr * Z) :=
  match q with
  | None => Ok (None, offset_left)
  | Some p =>
      b ← deref p;
      if len b <=? offset_left then
        match fuel with
        | O => Err OutOfFuel
        | S fuel' => skip_loop fuel' (next b) (u16 (offset_left - len b))
        end
      else Ok (q, offset_left)
  end.
Definition pbuf_skip_const (in_ : option ptr) (in_offset : Z) : res (option ptr * Z) :=
  skip_loop chain_fuel in_ in_offset.
Definition pbuf_skip : option ptr -> Z -> res (option ptr * Z) := pbuf_skip_const.

(** The pointer that [pbuf_get_contiguous] returns, and the buffer afterwards. *)
Inductive contiguous : Type :=
  | InPayload (p : ptr) (off : Z)
  | InBuffer
  | NoData.
Definition pbuf_get_contiguous (p : option ptr) (buffer : option (list Z)) (bufsize len_ offset : Z)
    : res (contiguous * option (list Z)) :=
  match p with
  | None => Ok (NoData, buffer)
  | Some _ =>
      if negb (match buffer with None => true | Some _ => false end || (len_ <=? bufsize))
      then Ok (NoData, buffer) else
      '(q, out_offset) ← pbuf_skip_const p offset;
      match q with
      | None => Ok (NoData, buffer)
      | Some qp =>
          b ← deref qp;
          if out_offset + len_ <=? len b then Ok (InPayload qp out_offset, buffer) else
          match buffer with
          | None => Ok (NoData, buffer)
          | Some _ =>
              '(n, buffer) ← pbuf_copy_partial q buffer len_ out_offset;
              if negb (n =? len_) then Ok (NoData, buffer) else Ok (InBuffer, buffer)
          end
      end
  end.

Definition pbuf_try_get_at (p : option ptr) (offset : Z) : res Z :=
  '(q, q_idx) ← pbuf_skip_const p offset;
  match q with
  | None => Ok (-1)
  | Some q =>
      b ← deref q;
      if q_idx <? len b
      then d ← area_read ar (payload b) q_idx 1; buf_get d 0
      else Ok (-1)
  end.

Definition pbuf_get_at (p : option ptr) (offset : Z) : res Z :=
  ret ← pbuf_try_get_at p offset;
  if 0 <=? ret then Ok (u8 ret) else Ok 0.

(** [for (i = 0; i < n; i++)] of [pbuf_memcmp]; [k] iterations are left. *)
Fixpoint memcmp_loop (k : nat) (i : Z) (q : option ptr) (start : Z) (s2 : list Z) : res Z :=
  match k with
  | O => Ok 0
  | S k' =>
      a ← pbuf_get_at q (u16 (start + i));
      b ← buf_get s2 i;
      if negb (a =? b) then Ok (u16 (Z.min (i + 1) 0xFFFF))
      else memcmp_loop k' (i + 1) q start s2
  end.

Definition pbuf_memcmp (p : ptr) (offset : Z) (s2 : list Z) (n : Z) : res Z :=
  b ← deref p;
  if tot_len b <? offset + n then Ok 0xffff else
  '(q, start) ← skip_loop chain_fuel (Some p) offset;
  memcmp_loop (Z.to_nat n) 0 q start s2.

(** [for (i = start_offset; i <= max_cmp_start; i++)] *)
Fixpoint memfind_loop (fuel : nat) (p : ptr) (i max_cmp_start : Z) (mem : list Z) (mem_len : Z) : res Z :=
  if i <=? max_cmp_start then
    plus ← pbuf_memcmp p i mem mem_len;
    if plus =? 0 then Ok i else
    match fuel with
    | O => Err OutOfFuel
    | S fuel' => memfind_loop fuel' p (u16 (i + 1)) max_cmp_start mem mem_len
    end
  else Ok 0xFFFF.

Definition pbuf_memfind (p : ptr) (mem : list Z) (mem_len start_offset : Z) : res Z :=
  b ← deref p;
  let max_cmp_start := u16 (tot_len b - mem_len) in
  if mem_len + start_offset <=? tot_len b
  then memfind_loop (S (Z.to_nat (max_cmp_start - start_offset))) p start_offset max_cmp_start mem mem_len
  else Ok 0xFFFF.

Definition pbuf_strstr (p : ptr) (substr : option (list Z)) : res Z :=
  match substr with
  | None => Ok 0xFFFF
  | Some substr =>
      c ← buf_get substr 0;
      b ← deref p;
      if (c =? 0) || (tot_len b =? 0xFFFF) then Ok 0xFFFF else
      substr_len ← strlen substr;
      if 0xFFFF <=? substr_len then Ok 0xFFFF
      else pbuf_memfind p substr (u16 substr_len) 0
  end.

(** *** Functions that write payload: they return the areas *)

(** [for (p = buf; total_copy_len != 0; p = p->next)] *)
Fixpoint take_loop (fuel : nat) (p : option ptr) (dataptr : list Z) (total_copy_len copied_total : Z)
    (ar : gmap ptr (list Z)) : res (gmap ptr (list Z) * Z) :=
  if total_copy_len =? 0 then Ok (ar, copied_total) else
  match p with
  | None => Err (AssertFail "pbuf_take: invalid pbuf")
  | Some p =>
      match fuel with
      | O => Err OutOfFuel
      | S fuel' =>
          b ← deref p;
          let buf_copy_len := if len b <? total_copy_len then len b else total_copy_len in
          src ← buf_slice dataptr copied_total buf_copy_len;
          ar ← area_write ar (payload b) 0 src;
          take_loop fuel' (next b) dataptr (total_copy_len - buf_copy_len) (copied_total + buf_copy_len) ar
      end
  end.

Definition pbuf_take (buf : option ptr) (dataptr : option (list Z)) (len_ : Z)
    : res (gmap ptr (list Z) * Z) :=
  match buf, dataptr with
  | None, _ => Ok (ar, ERR_ARG)
  | _, None => Ok (ar, ERR_ARG)
  | Some p, Some d =>
      b ← deref p;
      if tot_len b <? len_ then Ok (ar, ERR_MEM) else
      '(ar, copied_total) ← take_loop chain_fuel buf d len_ 0 ar;
      _ ← lwip_assert "did not copy all data" (copied_total =? len_);
      Ok (ar, ERR_OK)
  end.

Definition pbuf_put_at (p : option ptr) (offset data : Z) : res (gmap ptr (list Z)) :=
  '(q, q_idx) ← pbuf_skip p offset;
  match q with
  | None => Ok ar
  | Some q =>
      b ← deref q;
      if q_idx <? len b then area_write ar (payload b) q_idx [data] else Ok ar
  end.

(** [(p != NULL) && (p->len == p->tot_len)] and not [p->next == NULL]: more
    than one packet. *)
Definition packet_queue (p : option ptr) : res bool :=
  match p with
  | None => Ok false
  | Some p =>
      b ← deref p;
      Ok ((len b =? tot_len b) && match next b with None => false | Some _ => true end)
  end.

(** The [do ... while (copy_len)] of [pbuf_copy_partial_pbuf]. The offsets and
    differences are of type size_t. *)
Fixpoint copy_pbuf_loop (fuel : nat) (p_to p_from : ptr) (copy_len offset_to offset_from : Z)
    (ar : gmap ptr (list Z)) : res (gmap ptr (list Z) * Z) :=
  t ← deref p_to;
  f ← deref p_from;
  let len_ := if u32 (len f - offset_from) <=? u32 (len t - offset_to)
              then u32 (len f - offset_from) else u32 (len t - offset_to) in
  let len_ := Z.min copy_len len_ in
  src ← area_read ar (payload f) offset_from len_;
  ar ← area_write ar (payload t) offset_to src;
  let offset_to := u32 (offset_to + len_) in
  let offset_from := u32 (offset_from + len_) in
  let copy_len := u16 (copy_len - len_) in
  _ ← lwip_assert "offset_to <= p_to->len" (offset_to <=? len t);
  _ ← lwip_assert "offset_from <= p_from->len" (offset_from <=? len f);
  let '(p_from, offset_from) :=
    if len f <=? offset_from then (next f, 0) else (Some p_from, offset_from) in
  if (match p_from with None => true | _ => false end) && negb (copy_len =? 0) then Ok (ar, ERR_ARG) else
  let '(p_to, offset_to) :=
    if offset_to =? len t then (next t, 0) else (Some p_to, offset_to) in
  if (match p_to with None => true | _ => false end) && negb (copy_len =? 0) then Ok (ar, ERR_ARG) else
  bad_from ← packet_queue p_from;
  if bad_from : bool then Ok (ar, ERR_VAL) else
  bad_to ← packet_queue p_to;
  if bad_to : bool then Ok (ar, ERR_VAL) else
  if copy_len =? 0 then Ok (ar, ERR_OK) else
  match fuel, p_to, p_from with
  | S fuel', Some p_to, Some p_from =>
      copy_pbuf_loop fuel' p_to p_from copy_len offset_to offset_from ar
  | _, _, _ => Err OutOfFuel
  end.

Definition pbuf_copy_partial_pbuf (p_to p_from : option ptr) (copy_len offset : Z)
    : res (gmap ptr (list Z) * Z) :=
  match p_from with
  | None => Ok (ar, ERR_ARG)
  | Some from =>
      f ← deref from;
      if tot_len f <? copy_len then Ok (ar, ERR_ARG) else
      match p_to with
      | None => Ok (ar, ERR_ARG)
      | Some to =>
          t ← deref to;
          if tot_len t <? offset + copy_len then Ok (ar, ERR_ARG) else
          copy_pbuf_loop (chain_fuel + chain_fuel) to from copy_len offset 0 ar
      end
  end.

Definition pbuf_copy (p_to p_from : option ptr) : res (gmap ptr (list Z) * Z) :=
  match p_from with
  | None => Ok (ar, ERR_ARG)
  | Some from => f ← deref from; pbuf_copy_partial_pbuf p_to p_from (tot_len f) 0
  end.

End Read.

Definition pbuf_take_at (ps : gmap ptr pbuf) (ar : gmap ptr (list Z)) (buf : option ptr)
    (dataptr : list Z) (len_ offset : Z) : res (gmap ptr (list Z) * Z) :=
  '(q, target_offset) ← pbuf_skip ps buf offset;
  match q with
  | None => Ok (ar, ERR_MEM)
  | Some q =>
      b ← deref ps q;
      if target_offset + len_ <=? tot_len b then
        _ ← lwip_assert "check pbuf_skip result" (target_offset <? len b);
        let first_copy_len := u16 (Z.min (len b - target_offset) len_) in
        src ← buf_slice dataptr 0 first_copy_len;
        ar ← area_write ar (payload b) target_offset src;
        let remaining_len := u16 (len_ - first_copy_len) in
        if 0 <? remaining_len
        then pbuf_take ps ar (next b) (Some (drop (Z.to_nat first_copy_len) dataptr)) remaining_len
        else Ok (ar, ERR_OK)
      else Ok (ar, ERR_MEM)
  end.

(** *** The abstract view: a chain is a byte string *)

(** The pbufs [l] from [p] on, with the invariant of [tot_len]. *)
Definition total_len (l : list (ptr * pbuf)) : Z := foldr (fun x acc => len x.2 + acc) 0 l.

Fixpoint chain_at (ps : gmap ptr pbuf) (p : option ptr) (l : list (ptr * pbuf)) : Prop :=
  match l with
  | [] => p = None
  | (x, b) :: l' =>
      p = Some x /\ ps !! x = Some b /\ 0 <= len b /\ tot_len b = len b + total_len l' /\
      chain_at ps (next b) l'
  end.

(** The payload of a pbuf. *)
Definition payload_data (ar : gmap ptr (list Z)) (b : pbuf) : list Z :=
  match area_read ar (payload b) 0 (len b) with Ok d => d | Err _ => [] end.

Definition chain_data (ar : gmap ptr (list Z)) (l : list (ptr * pbuf)) : list Z :=
  l ≫= fun x => payload_data ar x.2.

(** A packet: a chain whose payloads are readable memory, at most 65535 bytes. *)
Record packet (ps : gmap ptr pbuf) (ar : gmap ptr (list Z)) (p : ptr) (l : list (ptr * pbuf)) : Prop :=
  Packet
  { pk_chain : chain_at ps (Some p) l;
    pk_area : Forall (fun x => exists d, area_read ar (payload x.2) 0 (len x.2) = Ok d) l;
    pk_total : total_len l <= 65535 }.

(** Payloads that do not overlap. *)
Definition separate (b1 b2 : pbuf) : Prop :=
  match payload b1, payload b2 with
  | Some (a1, o1), Some (a2, o2) => a1 <> a2 \/ o1 + len b1 <= o2 \/ o2 + len b2 <= o1
  | _, _ => True
  end.

Fixpoint separated (l : list (ptr * pbuf)) : Prop :=
  match l with
  | [] => True
  | x :: l' => Forall (fun y => separate x.2 y.2) l' /\ separated l'
  end.

(** [n] bytes of [d] from [off] on, as many as there are. *)
Definition window (d : list Z) (off n : Z) : list Z := take (Z.to_nat n) (drop (Z.to_nat off) d).

(** [m] occurs in [d] at [i]. *)
Definition occurs_at (m d : list Z) (i : Z) : Prop :=
  0 <= i /\ i + length m <= length d /\ window d i (length m) = m.

(** *** Functions that change the store *)

Section Store.
Context {P1 P2 : Type} `{!PoolAlloc P1} `{!PoolAlloc P2}.

Record store : Type := Store
  { pbufs : gmap ptr pbuf;
    areas : gmap ptr (list Z);
    pbuf_pool : P1;               (* MEMP_PBUF_POOL *)
    pbuf_memp : P2;               (* MEMP_PBUF *)
    heap_mem : heap;
    pbuf_free_ooseq_pending : bool }.

Definition set_pbufs (ps : gmap ptr pbuf) (s : store) : store :=
  Store ps (areas s) (pbuf_pool s) (pbuf_memp s) (heap_mem s) (pbuf_free_ooseq_pending s).
Definition set_areas (ar : gmap ptr (list Z)) (s : store) : store :=
  Store (pbufs s) ar (pbuf_pool s) (pbuf_memp s) (heap_mem s) (pbuf_free_ooseq_pending s).
Definition set_pbuf_pool (p : P1) (s : store) : store :=
  Store (pbufs s) (areas s) p (pbuf_memp s) (heap_mem s) (pbuf_free_ooseq_pending s).
Definition set_pbuf_memp (p : P2) (s : store) : store :=
  Store (pbufs s) (areas s) (pbuf_pool s) p (heap_mem s) (pbuf_free_ooseq_pending s).
Definition set_heap (h : heap) (s : store) : store :=
  Store (pbufs s) (areas s) (pbuf_pool s) (pbuf_memp s) h (pbuf_free_ooseq_pending s).
Definition pbuf_pool_is_empty (s : store) : store :=
  Store (pbufs s) (areas s) (pbuf_pool s) (pbuf_memp s) (heap_mem s) true.

Definition get (p : ptr) (s : store) : res pbuf := deref (pbufs s) p.
Definition modify (p : ptr) (f : pbuf -> pbuf) (s : store) : res store :=
  b ← get p s; Ok (set_pbufs (<[p := f b]> (pbufs s)) s).

(** A pbuf that comes into being, with its own area of [n] bytes. *)
Definition create (p : ptr) (b : pbuf) (s : store) : store := set_pbufs (<[p := b]> (pbufs s)) s.
Definition create_area (p : ptr) (d : list Z) (s : store) : store := set_areas (<[p := d]> (areas s)) s.
Definition destroy (p : ptr) (s : store) : store :=
  set_areas (delete p (areas s)) (set_pbufs (delete p (pbufs s)) s).

(** The function in a struct pbuf_custom, which is to give up the pbuf, and the
    contents of fresh memory. *)
Variable custom_free_function : ptr -> store -> res store.
Variable fresh_byte : nat -> Z.
Definition fresh_area (n : Z) : list Z := fresh_byte <$> seq 0 (Z.to_nat n).

(** Give the memory of [p] back. *)
Definition dealloc (p : ptr) (b : pbuf) (s : store) : res store :=
  let alloc_src := pbuf_get_allocsrc b in
  if negb (Z.land (flags b) PBUF_FLAG_IS_CUSTOM =? 0) then
    custom_free_function p s
  else if alloc_src =? PBUF_TYPE_ALLOC_SRC_MASK_STD_MEMP_PBUF_POOL then
    pm ← pool_free (pbuf_pool s) (addr p); Ok (set_pbuf_pool pm (destroy p s))
  else if alloc_src =? PBUF_TYPE_ALLOC_SRC_MASK_STD_MEMP_PBUF then
    pm ← pool_free (pbuf_memp s) (addr p); Ok (set_pbuf_memp pm (destroy p s))
  else if alloc_src =? PBUF_TYPE_ALLOC_SRC_MASK_STD_HEAP then
    h ← mem_free (Some (addr p)) (heap_mem s); Ok (set_heap h (destroy p s))
  else Err (AssertFail "invalid pbuf type").

(** [while (p != NULL)]; the counter is a u8. *)
Fixpoint free_loop (fuel : nat) (p : option ptr) (count : Z) (s : store) : res (store * Z) :=
  match p with
  | None => Ok (s, count)
  | Some p =>
      match fuel with
      | O => Err OutOfFuel
      | S fuel' =>
          b ← get p s;
          _ ← lwip_assert "pbuf_free: p->ref > 0" (0 <? ref b);
          let b := with_ref (LWIP_PBUF_REF_T (ref b - 1)) b in
          s ← modify p (fun _ => b) s;
          if ref b =? 0 then
            let q := next b in
            s ← dealloc p b s;
            free_loop fuel' q (u8 (count + 1)) s
          else Ok (s, count)
      end
  end.

Definition pbuf_free (p : option ptr) (s : store) : res (store * Z) :=
  _ ← lwip_assert "p != NULL" (match p with None => false | Some _ => true end);
  free_loop (chain_fuel (pbufs s)) p 0 s.

Definition pbuf_alloc_reference (payload : option (ptr * Z)) (length : Z) (type : pbuf_type) (s : store)
    : res (store * option ptr) :=
  _ ← lwip_assert "invalid pbuf_type" (match type with PBUF_REF | PBUF_ROM => true | _ => false end);
  '(pm, q) ← pool_malloc (pbuf_memp s);
  let s := set_pbuf_memp pm s in
  match q with
  | None => Ok (s, None)
  | Some a =>
      let p := MempPtr a in
      Ok (create p (pbuf_init_alloced_pbuf payload length length type 0) s, Some p)
  end.

(** The offset of [LWIP_MEM_ALIGN(p + SIZEOF_STRUCT_PBUF + offset)] in the
    area behind the struct. *)
Definition payload_offset (p : ptr) (offset : Z) : Z :=
  LWIP_MEM_ALIGN (addr p + SIZEOF_STRUCT_PBUF + offset) - (addr p + SIZEOF_STRUCT_PBUF).
Definition payload_aligned (p : ptr) (offset : Z) : bool :=
  (addr p + SIZEOF_STRUCT_PBUF + payload_offset p offset) mod MEM_ALIGNMENT =? 0.

(** The [do ... while (rem_len > 0)] of PBUF_POOL; [p] and [last] are the ends
    of the chain so far. *)
Fixpoint alloc_pool_loop (fuel : nat) (p last : option ptr) (rem_len offset : Z) (s : store)
    : res (store * option ptr) :=
  '(pm, q) ← pool_malloc (pbuf_pool s);
  let s := set_pbuf_pool pm s in
  match q with
  | None =>
      let s := pbuf_pool_is_empty s in
      match p with
      | None => Ok (s, None)
      | Some _ => '(s, _) ← pbuf_free p s; Ok (s, None)
      end
  | Some a =>
      let q := PoolPtr a in
      let room := u32 (PBUF_POOL_BUFSIZE_ALIGNED - LWIP_MEM_ALIGN_SIZE offset) in
      let qlen := Z.min rem_len (u16 room) in
      let s := create q (pbuf_init_alloced_pbuf (Some (q, payload_offset q offset)) rem_len qlen PBUF_POOL 0)
                 (create_area q (fresh_area PBUF_POOL_BUFSIZE_ALIGNED) s) in
      _ ← lwip_assert "pbuf_alloc: pbuf q->payload properly aligned" (payload_aligned q offset);
      _ ← lwip_assert "PBUF_POOL_BUFSIZE must be bigger than MEM_ALIGNMENT" (0 <? room);
      s ← (match last with
           | None => Ok s
           | Some l => modify l (with_next (Some q)) s
           end);
      let p := match p with None => Some q | Some _ => p end in
      let rem_len := u16 (rem_len - qlen) in
      if 0 <? rem_len then
        match fuel with
        | O => Err OutOfFuel
        | S fuel' => alloc_pool_loop fuel' p (Some q) rem_len 0 s
        end
      else Ok (s, p)
  end.

Definition pbuf_alloc (layer length : Z) (type : pbuf_type) (s : store) : res (store * option ptr) :=
  let offset := u16 layer in
  match type with
  | PBUF_REF | PBUF_ROM => pbuf_alloc_reference None length type s
  | PBUF_POOL => alloc_pool_loop (@pool_capacity P1 _) None None length offset s
  | PBUF_RAM =>
      let payload_len := u16 (LWIP_MEM_ALIGN_SIZE offset + LWIP_MEM_ALIGN_SIZE length) in
      let alloc_len := u16 (LWIP_MEM_ALIGN_SIZE SIZEOF_STRUCT_PBUF + payload_len) in
      if (payload_len <? LWIP_MEM_ALIGN_SIZE length) || (alloc_len <? LWIP_MEM_ALIGN_SIZE length)
      then Ok (s, None) else
      '(h, q) ← mem_malloc alloc_len (heap_mem s);
      let s := set_heap h s in
      match q with
      | None => Ok (s, None)
      | Some a =>
          let p := HeapPtr a in
          let s := create p (pbuf_init_alloced_pbuf (Some (p, payload_offset p offset)) length length PBUF_RAM 0)
                     (create_area p (fresh_area payload_len) s) in
          _ ← lwip_assert "pbuf_alloc: pbuf->payload properly aligned" (payload_aligned p offset);
          Ok (s, Some p)
      end
  end.

(** [p] is a struct pbuf_custom of the client. *)
Definition pbuf_alloced_custom (l length : Z) (type : pbuf_type) (p : Z)
    (payload_mem : option (ptr * Z)) (payload_mem_len : Z) (s : store) : store * option ptr :=
  let offset := u16 l in
  if payload_mem_len <? u32 (LWIP_MEM_ALIGN_SIZE offset + length) then (s, None) else
  let payload := match payload_mem with
                 | None => None
                 | Some (a, o) => Some (a, o + LWIP_MEM_ALIGN_SIZE offset)
                 end in
  (create (CustomPtr p) (pbuf_init_alloced_pbuf payload length length type PBUF_FLAG_IS_CUSTOM) s,
   Some (CustomPtr p)).

(** [while (rem_len > q->len)] *)
Fixpoint realloc_loop (fuel : nat) (q : ptr) (rem_len shrink : Z) (s : store) : res (store * ptr * Z) :=
  b ← get q s;
  if len b <? rem_len then
    let rem_len := u16 (rem_len - len b) in
    s ← modify q (with_tot_len (u16 (tot_len b - shrink))) s;
    match next b with
    | None => Err (AssertFail "pbuf_realloc: q != NULL")
    | Some q =>
        match fuel with
        | O => Err OutOfFuel
        | S fuel' => realloc_loop fuel' q rem_len shrink s
        end
    end
  else Ok (s, q, rem_len).

(** [mem_trim(q, (q->payload - q) + rem_len)]: the area ends where the
    trimmed payload does. *)
Definition trim_pbuf (q : ptr) (rem_len : Z) (s : store) : res store :=
  b ← get q s;
  '(a, o) ← of_option BadPointer (payload b);
  _ ← (if bool_decide (a = q) then Ok tt else Err BadPointer);
  d ← of_option BadPointer (areas s !! q);
  '(h, r) ← mem_trim (addr q) (u16 (SIZEOF_STRUCT_PBUF + o + rem_len)) (heap_mem s);
  match r with
  | None => Err (AssertFail "mem_trim returned r == NULL")
  | Some r =>
      _ ← lwip_assert "mem_trim returned r != q" (r =? addr q);
      Ok (set_areas (<[q := take (Z.to_nat (o + rem_len)) d]> (areas s)) (set_heap h s))
  end.

Definition pbuf_realloc (p : option ptr) (new_len : Z) (s : store) : res store :=
  match p with
  | None => Err (AssertFail "pbuf_realloc: p != NULL")
  | Some p =>
      b ← get p s;
      if tot_len b <=? new_len then Ok s else
      let shrink := u16 (tot_len b - new_len) in
      '(s, q, rem_len) ← realloc_loop (chain_fuel (pbufs s)) p new_len shrink s;
      b ← get q s;
      s ← (if pbuf_match_allocsrc b PBUF_TYPE_ALLOC_SRC_MASK_STD_HEAP && negb (rem_len =? len b)
              && (Z.land (flags b) PBUF_FLAG_IS_CUSTOM =? 0)
           then trim_pbuf q rem_len s else Ok s);
      s ← modify q (fun b => with_tot_len rem_len (with_len rem_len b)) s;
      s ← (match next b with
           | None => Ok s
           | Some n => '(s, _) ← pbuf_free (Some n) s; Ok s
           end);
      modify q (with_next None) s
  end.

Definition pbuf_add_header_impl (p : option ptr) (header_size_increment : Z) (force : bool) (s : store)
    : res (store * Z) :=
  match p with
  | None => Err (AssertFail "p != NULL")
  | Some p =>
      if 0xFFFF <? header_size_increment then Ok (s, 1) else
      if header_size_increment =? 0 then Ok (s, 0) else
      let increment_magnitude := u16 header_size_increment in
      b ← get p s;
      if u16 (increment_magnitude + tot_len b) <? increment_magnitude then Ok (s, 1) else
      r ← (if negb (Z.land (type_internal b) PBUF_TYPE_FLAG_STRUCT_DATA_CONTIGUOUS =? 0) then
             '(a, o) ← of_option BadPointer (payload b);
             _ ← (if bool_decide (a = p) then Ok tt else Err BadPointer);
             Ok (if o - header_size_increment <? 0 then None else Some (a, o - header_size_increment))
           else if force then
             '(a, o) ← of_option BadPointer (payload b);
             Ok (Some (a, o - header_size_increment))
           else Ok None);
      match r with
      | None => Ok (s, 1)
      | Some pl =>
          s ← modify p (fun b => with_tot_len (u16 (tot_len b + increment_magnitude))
                          (with_len (u16 (len b + increment_magnitude)) (with_payload (Some pl) b))) s;
          Ok (s, 0)
      end
  end.

Definition pbuf_add_header (p : option ptr) (n : Z) : store -> res (store * Z) := pbuf_add_header_impl p n false.
Definition pbuf_add_header_force (p : option ptr) (n : Z) : store -> res (store * Z) := pbuf_add_header_impl p n true.

Definition pbuf_remove_header (p : option ptr) (header_size_decrement : Z) (s : store) : res (store * Z) :=
  match p with
  | None => Err (AssertFail "p != NULL")
  | Some p =>
      if 0xFFFF <? header_size_decrement then Ok (s, 1) else
      if header_size_decrement =? 0 then Ok (s, 0) else
      let increment_magnitude := u16 header_size_decrement in
      b ← get p s;
      if negb (increment_magnitude <=? len b) then Ok (s, 1) else
      '(a, o) ← of_option BadPointer (payload b);
      s ← modify p (fun b => with_tot_len (u16 (tot_len b - increment_magnitude))
                      (with_len (u16 (len b - increment_magnitude))
                        (with_payload (Some (a, o + header_size_decrement)) b))) s;
      Ok (s, 0)
  end.

(** The argument has the type s16_t. *)
Definition pbuf_header_impl (p : option ptr) (header_size_increment : Z) (force : bool) (s : store)
    : res (store * Z) :=
  if header_size_increment <? 0
  then pbuf_remove_header p (u32 (- header_size_increment)) s
  else pbuf_add_header_impl p header_size_increment force s.
Definition pbuf_header (p : option ptr) (n : Z) : store -> res (store * Z) := pbuf_header_impl p n false.
Definition pbuf_header_force (p : option ptr) (n : Z) : store -> res (store * Z) := pbuf_header_impl p n true.

(** [while (free_left && p)] *)
Fixpoint free_header_loop (fuel : nat) (p : option ptr) (free_left : Z) (s : store)
    : res (store * option ptr) :=
  if free_left =? 0 then Ok (s, p) else
  match p with
  | None => Ok (s, None)
  | Some f =>
      b ← get f s;
      if len b <=? free_left then
        match fuel with
        | O => Err OutOfFuel
        | S fuel' =>
            s ← modify f (with_next None) s;
            '(s, _) ← pbuf_free (Some f) s;
            free_header_loop fuel' (next b) (u16 (free_left - len b)) s
        end
      else '(s, _) ← pbuf_remove_header p free_left s; Ok (s, p)
  end.
Definition pbuf_free_header (q : option ptr) (size : Z) (s : store) : res (store * option ptr) :=
  free_header_loop (chain_fuel (pbufs s)) q size s.

Definition pbuf_ref (p : option ptr) (s : store) : res store :=
  match p with
  | None => Ok s
  | Some p =>
      s ← modify p (fun b => with_ref (LWIP_PBUF_REF_T (ref b + 1)) b) s;
      b ← get p s;
      _ ← lwip_assert "pbuf ref overflow" (0 <? ref b);
      Ok s
  end.

(** [for (p = h; p->next != NULL; p = p->next)]: the last pbuf. *)
Fixpoint cat_loop (fuel : nat) (p : ptr) (t : ptr) (s : store) : res (store * ptr) :=
  b ← get p s;
  match next b with
  | None => Ok (s, p)
  | Some n =>
      match fuel with
      | O => Err OutOfFuel
      | S fuel' =>
          tb ← get t s;
          s ← modify p (with_tot_len (u16 (tot_len b + tot_len tb))) s;
          cat_loop fuel' n t s
      end
  end.

Definition pbuf_cat (h t : option ptr) (s : store) : res store :=
  match h, t with
  | Some h, Some t =>
      _ ← lwip_assert "Creating an infinite loop" (negb (bool_decide (h = t)));
      '(s, p) ← cat_loop (chain_fuel (pbufs s)) h t s;
      b ← get p s;
      _ ← lwip_assert "p->tot_len == p->len (of last pbuf in chain)" (tot_len b =? len b);
      _ ← lwip_assert "p->next == NULL" (match next b with None => true | Some _ => false end);
      tb ← get t s;
      modify p (fun b => with_next (Some t) (with_tot_len (u16 (tot_len b + tot_len tb)) b)) s
  | _, _ => Ok s
  end.

Definition pbuf_chain (h t : option ptr) (s : store) : res store :=
  s ← pbuf_cat h t s;
  pbuf_ref t s.

Definition pbuf_dechain (p : ptr) (s : store) : res (store * option ptr) :=
  b ← get p s;
  '(s, tail_gone) ←
    (match next b with
     | None => Ok (s, 1)
     | Some q =>
         qb ← get q s;
         _ ← lwip_assert "p->tot_len == p->len + q->tot_len" (tot_len qb =? tot_len b - len b);
         s ← modify q (with_tot_len (u16 (tot_len b - len b))) s;
         s ← modify p (fun b => with_tot_len (len b) (with_next None b)) s;
         pbuf_free (Some q) s
     end);
  b' ← get p s;
  _ ← lwip_assert "p->tot_len == p->len" (tot_len b' =? len b');
  Ok (s, if 0 <? tail_gone then None else next b).

(** The functions on areas, in the store. *)
Definition in_store (f : gmap ptr pbuf -> gmap ptr (list Z) -> res (gmap ptr (list Z) * Z)) (s : store)
    : res (store * Z) :=
  '(ar, err) ← f (pbufs s) (areas s); Ok (set_areas ar s, err).

Definition pbuf_clone (layer : Z) (type : pbuf_type) (p : ptr) (s : store) : res (store * option ptr) :=
  b ← get p s;
  '(s, q) ← pbuf_alloc layer (tot_len b) type s;
  match q with
  | None => Ok (s, None)
  | Some _ =>
      '(s, err) ← in_store (fun ps ar => pbuf_copy ps ar q (Some p)) s;
      _ ← lwip_assert "pbuf_copy failed" (err =? ERR_OK);
      Ok (s, q)
  end.

Definition pbuf_coalesce (p : ptr) (layer : Z) (s : store) : res (store * ptr) :=
  b ← get p s;
  match next b with
  | None => Ok (s, p)
  | Some _ =>
      '(s, q) ← pbuf_clone layer PBUF_RAM p s;
      match q with
      | None => Ok (s, p)
      | Some q => '(s, _) ← pbuf_free (Some p) s; Ok (s, q)
      end
  end.

End Store.

Arguments store : clear implicits.

(** ** Lemmas *)

(** *** Chains *)

Lemma total_len_cons x l : total_len (x :: l) = len x.2 + total_len l.
Proof. done. Qed.

Lemma total_len_app l1 l2 : total_len (l1 ++ l2) = total_len l1 + total_len l2.
Proof. induction l1 as [|x l1 IH]; cbn [app]; rewrite ?total_len_cons; [done | lia]. Qed.

Lemma chain_at_total ps p l : chain_at ps p l -> 0 <= total_len l.
Proof.
  revert p. induction l as [|[x b] l IH]; intros p; [done|]. cbn [chain_at].
  intros (_ & _ & Hl & _ & Hc). apply IH in Hc. rewrite total_len_cons. cbn. lia.
Qed.

Lemma chain_at_total_prefix ps p l1 l2 : chain_at ps p (l1 ++ l2) -> 0 <= total_len l1.
Proof.
  revert p. induction l1 as [|[x b] l1 IH]; intros p; [done|]. cbn [app chain_at].
  intros (_ & _ & Hl & _ & Hc). apply IH in Hc. rewrite total_len_cons. cbn. lia.
Qed.

Lemma chain_at_det ps p l1 l2 : chain_at ps p l1 -> chain_at ps p l2 -> l1 = l2.
Proof.
  revert p l2. induction l1 as [|[x b] l1 IH]; intros p [|[y c] l2]; cbn [chain_at]; naive_solver.
Qed.

Lemma chain_at_suffix ps p l1 x b l2 : chain_at ps p (l1 ++ (x, b) :: l2) -> chain_at ps (Some x) ((x, b) :: l2).
Proof.
  revert p. induction l1 as [|[y c] l1 IH]; intros p; cbn [app].
  - intros H. pose proof H as (-> & _). exact H.
  - intros (_ & _ & _ & _ & H). by apply IH in H.
Qed.

Lemma chain_at_nodup ps p l : chain_at ps p l -> NoDup l.*1.
Proof.
  revert p. induction l as [|[x b] l IH]; intros p H; [constructor|].
  pose proof H as (-> & _ & _ & _ & Hc). cbn [fmap list_fmap fst]. constructor; [|by eapply IH].
  intros ([y c] & Hy & Hin)%list_elem_of_fmap. cbn in Hy. subst y.
  apply list_elem_of_split in Hin as (l1 & l2 & ->). apply chain_at_suffix in Hc.
  pose proof (chain_at_det _ _ _ _ H Hc) as E. apply (f_equal length) in E.
  cbn [length] in E. rewrite length_app in E. cbn [length] in E. lia.
Qed.

Lemma chain_at_lookup ps p l x b : chain_at ps p l -> (x, b) ∈ l -> ps !! x = Some b.
Proof.
  revert p. induction l as [|[y c] l IH]; intros p; cbn [chain_at]; [intros _ []%elem_of_nil|].
  intros (_ & Hy & _ & _ & Hc) [[= -> ->]|Hin]%elem_of_cons; [done | by eapply IH].
Qed.

(** The walks along a chain have enough fuel. *)
Lemma chain_at_fuel ps p l : chain_at ps p l -> (length l < chain_fuel ps)%nat.
Proof.
  intros H. unfold chain_fuel. rewrite <- size_dom, Nat.lt_succ_r.
  rewrite <- (length_fmap fst l), <- (size_list_to_set (C := gset ptr) l.*1) by (by eapply chain_at_nodup).
  apply subseteq_size. intros x Hx. apply elem_of_list_to_set, list_elem_of_fmap in Hx as ([y b] & -> & Hin).
  apply elem_of_dom. exists b. by eapply chain_at_lookup.
Qed.

(** *** Memory *)

Lemma area_read_length ar pl off n d : area_read ar pl off n = Ok d -> n = 0 \/ 0 <= n -> Z.of_nat (length d) = n.
Proof.
  unfold area_read. destruct (Z.eqb_spec n 0) as [->|Hn]; [by intros [= <-]|]. intros H [|Hn0]; [done|].
  destruct pl as [[a o]|]; [|done]. cbn [of_option] in H. rewrite bind_ok in H.
  destruct (ar !! a) as [b|]; [|done]. cbn [of_option] in H. rewrite bind_ok in H.
  destruct (_ && _) eqn:E; [|done]. injection H as <-.
  rewrite !andb_true_iff, !Z.leb_le in E. rewrite length_take, length_drop. lia.
Qed.

(** A part of what can be read. *)
Lemma area_read_sub ar pl n d off k :
  area_read ar pl 0 n = Ok d -> 0 <= off -> 0 <= k -> off + k <= n ->
  area_read ar pl off k = Ok (take (Z.to_nat k) (drop (Z.to_nat off) d)).
Proof.
  unfold area_read. intros H Ho Hk Hn. destruct (Z.eqb_spec k 0) as [->|Hk0]; [done|].
  destruct (Z.eqb_spec n 0); [lia|].
  destruct pl as [[a o]|]; [|done]. cbn [of_option] in *. rewrite bind_ok in *.
  destruct (ar !! a) as [b|]; [|done]. cbn [of_option] in *. rewrite bind_ok in *.
  destruct (_ && _) eqn:E in H; [|done]. injection H as <-. rewrite !andb_true_iff, !Z.leb_le in E.
  destruct (Z.leb_spec 0 (o + off)), (Z.leb_spec 0 k), (Z.leb_spec (o + off + k) (length b)); try lia.
  cbn [andb]. f_equal. rewrite skipn_firstn_comm, take_take, drop_drop. f_equal; [lia | f_equal; lia].
Qed.

Lemma area_read_payload ar b : (exists d, area_read ar (payload b) 0 (len b) = Ok d) ->
  area_read ar (payload b) 0 (len b) = Ok (payload_data ar b).
Proof. intros [d E]. unfold payload_data. by rewrite E. Qed.

(** What a walk over a packet needs at each pbuf. *)
Lemma packet_cons ps ar p x b l :
  packet ps ar p ((x, b) :: l) ->
  x = p /\ deref ps p = Ok b /\ 0 <= len b /\ tot_len b = len b + total_len l /\ 0 <= total_len l /\
  len b + total_len l <= 65535 /\
  area_read ar (payload b) 0 (len b) = Ok (payload_data ar b) /\ length (payload_data ar b) = len b :> Z /\
  ((next b = None /\ l = []) \/ exists q, next b = Some q /\ packet ps ar q l).
Proof.
  intros [Hc Ha Ht]. apply Forall_cons in Ha as [Ha Hal]. pose proof Hc as (Hp & Hx & Hl & Htot & Hn).
  injection Hp as <-. pose proof (chain_at_total _ _ _ Hn). rewrite total_len_cons in Ht. cbn [snd] in *.
  pose proof (area_read_payload ar b Ha) as Er.
  pose proof (area_read_length _ _ _ _ _ Er (or_intror Hl)).
  unfold deref. rewrite Hx. split_and!; try done.
  destruct (next b) as [q|] eqn:E.
  - right. exists q. split; [done|]. split; [done | done | lia].
  - left. split; [done|]. destruct l as [|[y c] l]; [done|]. by destruct Hn.
Qed.

Lemma packet_nil ps ar p : ~ packet ps ar p [].
Proof. intros [[=] _ _]. Qed.

Lemma chain_data_cons ar x b l : chain_data ar ((x, b) :: l) = payload_data ar b ++ chain_data ar l.
Proof. done. Qed.

Lemma packet_length ps ar p l : packet ps ar p l -> length (chain_data ar l) = total_len l :> Z.
Proof.
  revert p. induction l as [|[x b] l IH]; intros p H; [done|].
  apply packet_cons in H as (_ & _ & _ & _ & _ & _ & _ & Hd & Hn).
  rewrite chain_data_cons, total_len_cons, length_app. cbn [snd].
  destruct Hn as [[_ ->]|(q & _ & Hn)]; [cbn; lia|]. apply IH in Hn. lia.
Qed.

(** The pbuf at an offset of a packet. *)
Lemma skip_loop_spec ps ar l : forall p off fuel,
  packet ps ar p l -> 0 <= off < 65536 -> (length l <= fuel)%nat ->
  (total_len l <= off /\ skip_loop ps fuel (Some p) off = Ok (None, off - total_len l)) \/
  exists l1 x b l2, l = l1 ++ (x, b) :: l2 /\ total_len l1 <= off < total_len l1 + len b /\
    skip_loop ps fuel (Some p) off = Ok (Some x, off - total_len l1) /\ packet ps ar x ((x, b) :: l2).
Proof.
  induction l as [|[x b] l IH]; intros p off fuel Hp Hoff Hf; [by apply packet_nil in Hp|].
  pose proof (packet_cons _ _ _ _ _ _ Hp) as (-> & Ed & Hl & Ht & Htl & Hmax & Er & Hd & Hn).
  destruct fuel as [|fuel]; cbn [length] in Hf; [lia|].
  cbn [skip_loop]. rewrite Ed, bind_ok. destruct (Z.leb_spec (len b) off) as [Hle|Hgt].
  - rewrite u16_id by solve_u. destruct Hn as [[-> ->]|(q & -> & Hn)].
    + left. split; [cbn; lia|]. destruct fuel; cbn; do 2 f_equal; f_equal; lia.
    + destruct (IH q (off - len b) fuel Hn) as [[Hle2 E]|(l1 & y & c & l2 & -> & Hb & E & Hp2)]; [lia | lia | |].
      * left. rewrite total_len_cons. cbn [snd]. split; [lia|]. rewrite E. do 2 f_equal; lia.
      * right. exists ((p, b) :: l1), y, c, l2. rewrite total_len_cons. cbn [snd].
        split; [done|]. split; [lia|]. split; [|done]. rewrite E. do 2 f_equal; lia.
  - right. exists [], p, b, l. cbn. split; [done|]. split; [lia|]. split; [|done]. by rewrite Z.sub_0_r.
Qed.

Lemma pbuf_skip_spec ps ar p l off :
  packet ps ar p l -> 0 <= off < 65536 ->
  (total_len l <= off /\ pbuf_skip ps (Some p) off = Ok (None, off - total_len l)) \/
  exists l1 x b l2, l = l1 ++ (x, b) :: l2 /\ total_len l1 <= off < total_len l1 + len b /\
    pbuf_skip ps (Some p) off = Ok (Some x, off - total_len l1) /\ packet ps ar x ((x, b) :: l2).
Proof.
  intros Hp Ho. apply (skip_loop_spec ps ar); [done | done |].
  pose proof (chain_at_fuel _ _ _ (pk_chain _ _ _ _ Hp)). lia.
Qed.

(** The data from the offset in the pbuf found. *)
Lemma chain_data_skip ps ar p l1 x b l2 off :
  packet ps ar p (l1 ++ (x, b) :: l2) -> total_len l1 <= off ->
  drop (Z.to_nat off) (chain_data ar (l1 ++ (x, b) :: l2)) =
  drop (Z.to_nat (off - total_len l1)) (chain_data ar ((x, b) :: l2)).
Proof.
  revert p off. induction l1 as [|[y c] l1 IH]; intros p off Hp Hoff; cbn [app].
  - cbn. by rewrite Z.sub_0_r.
  - pose proof (packet_cons _ _ _ _ _ _ Hp) as (-> & _ & Hl & _ & Htl & _ & _ & Hd & Hn).
    rewrite total_len_cons in *. cbn [snd] in *.
    destruct Hn as [[_ E]|(q & _ & Hn)]; [by destruct l1|].
    pose proof (chain_at_total_prefix _ _ _ _ (pk_chain _ _ _ _ Hn)).
    rewrite chain_data_cons, drop_app_ge by lia.
    replace (Z.to_nat off - length (payload_data ar c))%nat with (Z.to_nat (off - len c)) by lia.
    rewrite (IH q (off - len c) Hn) by lia. f_equal. lia.
Qed.

(** *** Reading *)

Lemma window_app_ge d1 d2 off n : length d1 <= off -> window (d1 ++ d2) off n = window d2 (off - length d1) n.
Proof. intros H. unfold window. rewrite drop_app_ge by lia. do 2 f_equal. lia. Qed.

Lemma window_app_lt d1 d2 off n k :
  0 <= off <= length d1 -> k = Z.min n (length d1 - off) -> 0 <= n ->
  window (d1 ++ d2) off n = window d1 off k ++ window d2 0 (n - k).
Proof.
  intros H1 -> Hn. unfold window. rewrite drop_app_le by lia. rewrite take_app, length_drop. f_equal.
  - destruct (Z.leb_spec n (length d1 - off)); [f_equal; lia|].
    rewrite !take_ge; rewrite ?length_drop; (done || lia).
  - rewrite drop_0. f_equal. lia.
Qed.

Lemma window_length d off n : 0 <= off -> 0 <= n -> length (window d off n) = Z.min n (Z.max 0 (length d - off)) :> Z.
Proof. intros. unfold window. rewrite length_take, length_drop. lia. Qed.

Lemma window_nil off n : window [] off n = [].
Proof. unfold window. by rewrite drop_nil, take_nil. Qed.

Lemma window_0 d off : window d off 0 = [].
Proof. done. Qed.

Lemma copy_partial_loop_spec ps ar l : forall p dataptr len_ offset left copied fuel,
  packet ps ar p l -> is_u16 len_ -> is_u16 offset -> 0 <= left -> 0 <= copied -> (length l <= fuel)%nat ->
  left + length (window (chain_data ar l) offset len_) <= length dataptr ->
  left + len_ < 65536 -> copied + len_ < 65536 ->
  copy_partial_loop ps ar fuel (Some p) dataptr len_ offset left copied =
  Ok (copied + length (window (chain_data ar l) offset len_),
      list_inserts (Z.to_nat left) (window (chain_data ar l) offset len_) dataptr).
Proof.
  induction l as [|[x b] l IH]; intros p dataptr len_ offset left copied fuel Hp Hlen Hoff Hleft Hcop Hf Hbuf H1 H2;
    [by apply packet_nil in Hp|].
  pose proof (packet_cons _ _ _ _ _ _ Hp) as (-> & Ed & Hl & Ht & Htl & Hmax & Er & Hd & Hn).
  destruct fuel as [|fuel]; cbn [length] in Hf; [lia|]. rewrite chain_data_cons in *.
  cbn [copy_partial_loop]. destruct (Z.eqb_spec len_ 0) as [->|Hlen0].
  { rewrite window_0. cbn. do 2 f_equal. lia. }
  rewrite Ed, bind_ok. destruct (negb (offset =? 0) && (len b <=? offset)) eqn:Hskip.
  - apply andb_true_iff in Hskip as [_ Hs]. apply Z.leb_le in Hs.
    rewrite window_app_ge in * by lia. rewrite Hd in *. rewrite u16_id by solve_u.
    destruct Hn as [[-> ->]|(q & -> & Hn)].
    + change (chain_data ar []) with (@nil Z). rewrite window_nil. destruct fuel; cbn; do 2 f_equal; lia.
    + apply IH; try done; solve_u.
  - assert (Hle : offset <= len b).
    { apply andb_false_iff in Hskip as [Hs|Hs]; [apply negb_false_iff, Z.eqb_eq in Hs; lia | apply Z.leb_gt in Hs; lia]. }
    rewrite (u16_id (len b - offset)) by solve_u.
    set (k := if len_ <? len b - offset then len_ else len b - offset).
    assert (Hk : k = Z.min len_ (len b - offset)) by (unfold k; destruct (Z.ltb_spec len_ (len b - offset)); lia).
    rewrite (window_app_lt _ _ offset len_ k) in * by (rewrite ?Hd; solve_u).
    rewrite (area_read_sub _ _ _ _ offset k Er) by solve_u. rewrite bind_ok. fold (window (payload_data ar b) offset k).
    set (w := window (payload_data ar b) offset k) in *.
    assert (Hw : length w = k :> Z) by (unfold w; rewrite window_length, Hd; solve_u).
    rewrite length_app in *. unfold buf_copy.
    destruct (Z.leb_spec 0 left), (Z.leb_spec (left + length w) (length dataptr)); try lia.
    cbn [andb]. rewrite bind_ok. rewrite !u16_id by solve_u.
    rewrite list_inserts_app_l. destruct Hn as [[-> ->]|(q & -> & Hn)].
    + change (chain_data ar []) with (@nil Z). rewrite window_nil. destruct fuel; cbn; do 2 f_equal; lia.
    + rewrite IH; try done; try solve_u.
      * f_equal. f_equal; [lia|]. do 2 f_equal. lia.
      * rewrite length_inserts. lia.
Qed.

Lemma pbuf_copy_partial_spec ps ar p l d len_ offset :
  packet ps ar p l -> is_u16 len_ -> is_u16 offset ->
  length (window (chain_data ar l) offset len_) <= length d ->
  pbuf_copy_partial ps ar (Some p) (Some d) len_ offset =
  Ok (Z.of_nat (length (window (chain_data ar l) offset len_)),
      Some (list_inserts 0 (window (chain_data ar l) offset len_) d)).
Proof.
  intros Hp Hl Ho Hd. unfold pbuf_copy_partial.
  rewrite (copy_partial_loop_spec ps ar l); try done; try solve_u.
  pose proof (chain_at_fuel _ _ _ (pk_chain _ _ _ _ Hp)). lia.
Qed.

Lemma packet_data_split ps ar p l1 x b l2 off :
  packet ps ar p (l1 ++ (x, b) :: l2) -> total_len l1 <= off < total_len l1 + len b -> 0 <= off ->
  deref ps x = Ok b /\ area_read ar (payload b) 0 (len b) = Ok (payload_data ar b) /\
  length (payload_data ar b) = len b :> Z /\
  forall i, chain_data ar (l1 ++ (x, b) :: l2) !! Z.to_nat (off + Z.of_nat i) =
    (payload_data ar b ++ chain_data ar l2) !! (Z.to_nat (off - total_len l1) + i)%nat.
Proof.
  intros Hp Ho H0. pose proof (chain_data_skip _ _ _ _ _ _ _ off Hp ltac:(lia)) as E.
  assert (Hpx : packet ps ar x ((x, b) :: l2)).
  { destruct Hp as [Hc Ha Ht]. split; [by eapply chain_at_suffix | by apply Forall_app in Ha as [_ ?] |].
    rewrite total_len_app in Ht. apply chain_at_total_prefix in Hc. lia. }
  apply packet_cons in Hpx as (_ & Ed & _ & _ & _ & _ & Er & Hd & _).
  split; [done|]. split; [done|]. split; [done|]. intros i.
  replace (Z.to_nat (off + i)) with (Z.to_nat off + i)%nat by lia.
  rewrite <- lookup_drop, E, lookup_drop. done.
Qed.

Lemma pbuf_try_get_at_spec ps ar p l off :
  packet ps ar p l -> is_u16 off ->
  pbuf_try_get_at ps ar (Some p) off =
  Ok (match chain_data ar l !! Z.to_nat off with Some c => c | None => -1 end).
Proof.
  intros Hp Ho. unfold pbuf_try_get_at. pose proof (packet_length _ _ _ _ Hp) as Hlen.
  destruct (pbuf_skip_spec ps ar p l off Hp Ho) as [[Hle E]|(l1 & x & b & l2 & -> & Hb & E & Hp2)];
    unfold pbuf_skip in E; rewrite E, bind_ok.
  - rewrite lookup_ge_None_2 by lia. done.
  - destruct (packet_data_split _ _ _ _ _ _ _ off Hp Hb ltac:(solve_u)) as (-> & Er & Hd & Hi). rewrite bind_ok.
    destruct (Z.ltb_spec (off - total_len l1) (len b)); [|lia].
    rewrite (area_read_sub _ _ _ _ _ 1 Er), bind_ok by lia.
    specialize (Hi 0%nat). rewrite Z.add_0_r, Nat.add_0_r, lookup_app_l in Hi by lia. rewrite Hi.
    destruct (lookup_lt_is_Some_2 (payload_data ar b) (Z.to_nat (off - total_len l1))) as [c Hc]; [lia|].
    rewrite Hc. rewrite (drop_S _ c) by done. done.
Qed.

Lemma pbuf_get_at_spec ps ar p l off :
  packet ps ar p l -> is_u16 off -> bytes_ok (chain_data ar l) ->
  pbuf_get_at ps ar (Some p) off = Ok (default 0 (chain_data ar l !! Z.to_nat off)).
Proof.
  intros Hp Ho Hby. unfold pbuf_get_at. rewrite (pbuf_try_get_at_spec _ _ _ _ _ Hp Ho), bind_ok.
  destruct (_ !! _) as [c|] eqn:E; cbn [default]; [|done].
  pose proof (Forall_lookup_1 _ _ _ _ Hby E) as Hc. cbn in Hc.
  destruct (Z.leb_spec 0 c); [|solve_u]. by rewrite u8_id.
Qed.

Lemma pbuf_get_contiguous_spec ps ar p l buffer bufsize len_ offset :
  packet ps ar p l -> is_u16 len_ -> is_u16 offset -> 0 < len_ ->
  (match buffer with None => True | Some d => bufsize = length d end) ->
  let w := window (chain_data ar l) offset len_ in
  exists r buffer', pbuf_get_contiguous ps ar (Some p) buffer bufsize len_ offset = Ok (r, buffer') /\
    match r with
    | InPayload q o => buffer' = buffer /\ length w = len_ :> Z /\
        exists b, ps !! q = Some b /\ area_read ar (payload b) o len_ = Ok w
    | InBuffer => length w = len_ :> Z /\ exists d, buffer = Some d /\ buffer' = Some (list_inserts 0 w d)
    | NoData => (forall d, buffer = Some d -> len_ <= bufsize -> Z.of_nat (length w) < len_)
    end.
Proof.
  intros Hp Hl Ho Hl0 Hbuf w. unfold pbuf_get_contiguous.
  pose proof (packet_length _ _ _ _ Hp) as Hlen.
  assert (Hw : length w = Z.min len_ (Z.max 0 (total_len l - offset)) :> Z)
    by (unfold w; rewrite window_length, Hlen; solve_u).
  destruct (negb _) eqn:Hsz.
  { exists NoData, buffer. split; [done|]. intros d -> Hle. destruct (Z.leb_spec len_ bufsize); [done | lia]. }
  assert (Hsize : match buffer with None => True | Some d => len_ <= Z.of_nat (length d) end).
  { destruct buffer as [d|]; [|done]. apply negb_false_iff in Hsz. cbn [orb] in Hsz. apply Z.leb_le in Hsz. lia. }
  destruct (pbuf_skip_spec ps ar p l offset Hp Ho) as [[Hle E]|(l1 & x & b & l2 & -> & Hb & E & Hp2)];
    unfold pbuf_skip in E; rewrite E, bind_ok.
  { exists NoData, buffer. split; [done|]. intros; lia. }
  destruct (packet_data_split _ _ _ _ _ _ _ offset Hp Hb ltac:(solve_u)) as (Ed & Er & Hd & _).
  rewrite Ed, bind_ok.
  assert (Ew : w = window (chain_data ar ((x, b) :: l2)) (offset - total_len l1) len_).
  { unfold w, window. f_equal. apply (chain_data_skip ps ar p); [done | lia]. }
  destruct (Z.leb_spec (offset - total_len l1 + len_) (len b)) as [Hin|Hout].
  { exists (InPayload x (offset - total_len l1)), buffer. split; [done|]. split; [done|].
    assert (Ew' : w = window (payload_data ar b) (offset - total_len l1) len_).
    { rewrite Ew, chain_data_cons, (window_app_lt _ _ _ len_ len_) by lia. by rewrite Z.sub_diag, window_0, app_nil_r. }
    split.
    - rewrite Ew', window_length; lia.
    - exists b. split; [unfold deref in Ed; destruct (ps !! x); naive_solver|].
      rewrite (area_read_sub _ _ _ _ _ _ Er) by lia. by rewrite Ew'. }
  destruct buffer as [d|].
  2: { exists NoData, None. split; [done|]. intros d [=]. }
  pose proof (chain_at_total_prefix _ _ _ _ (pk_chain _ _ _ _ Hp)).
  rewrite (pbuf_copy_partial_spec ps ar x ((x, b) :: l2) d len_ (offset - total_len l1)); try done; try solve_u.
  2: { rewrite <- Ew. lia. }
  rewrite bind_ok, <- Ew. destruct (Z.eqb_spec (length w) len_).
  - exists InBuffer, (Some (list_inserts 0 w d)). split; [done|]. split; [done|]. by exists d.
  - exists NoData, (Some (list_inserts 0 w d)). split; [done|]. intros. lia.
Qed.

Lemma memcmp_loop_spec ps ar q start s2 (g : Z -> Z) k : forall i,
  0 <= i -> i + Z.of_nat k <= Z.of_nat (length s2) -> i + Z.of_nat k <= 65535 ->
  (forall j, i <= j < i + Z.of_nat k -> pbuf_get_at ps ar q (u16 (start + j)) = Ok (g j)) ->
  exists r, memcmp_loop ps ar k i q start s2 = Ok r /\
    ((r = 0 /\ forall j, i <= j < i + Z.of_nat k -> s2 !! Z.to_nat j = Some (g j)) \/
     (i < r <= i + Z.of_nat k /\ (forall j, i <= j < r - 1 -> s2 !! Z.to_nat j = Some (g j)) /\
      s2 !! Z.to_nat (r - 1) <> Some (g (r - 1)))).
Proof.
  induction k as [|k IH]; intros i Hi Hk Hmax Hg; cbn [memcmp_loop].
  - exists 0. split; [done|]. left. split; [done|]. lia.
  - rewrite (Hg i) by lia. rewrite bind_ok.
    destruct (lookup_lt_is_Some_2 s2 (Z.to_nat i)) as [c Hc]; [lia|].
    rewrite (buf_get_ok s2 i c) by done. rewrite bind_ok.
    destruct (Z.eqb_spec (g i) c) as [<-|Hne]; cbn [negb].
    + destruct (IH (i + 1)) as (r & E & Hr); [lia.. | intros j Hj; apply Hg; lia |].
      exists r. split; [done|]. destruct Hr as [[-> Hr]|(H1 & H2 & H3)].
      * left. split; [done|]. intros j Hj. destruct (decide (j = i)) as [->|]; [done | apply Hr; lia].
      * right. split; [lia|]. split; [|done]. intros j Hj. destruct (decide (j = i)) as [->|]; [done | apply H2; lia].
    + exists (i + 1). split; [f_equal; rewrite Z.min_l by lia; solve_u|]. right. split; [lia|]. split; [lia|].
      replace (i + 1 - 1) with i by lia. rewrite Hc. congruence.
Qed.

(** The first difference, counted from 1; 0 if there is none. *)
Definition memcmp_result (w s2 : list Z) (n r : Z) : Prop :=
  (r = 0 /\ w = take (Z.to_nat n) s2) \/
  (0 < r <= n /\ take (Z.to_nat (r - 1)) w = take (Z.to_nat (r - 1)) s2 /\
   w !! Z.to_nat (r - 1) <> s2 !! Z.to_nat (r - 1)).

Lemma window_lookup d off n i : 0 <= off -> Z.of_nat i < n -> window d off n !! i = d !! Z.to_nat (off + i).
Proof. intros H1 H2. unfold window. rewrite lookup_take_lt by lia. rewrite lookup_drop. f_equal. lia. Qed.

Lemma pbuf_memcmp_spec ps ar p l off s2 n :
  packet ps ar p l -> bytes_ok (chain_data ar l) -> is_u16 off -> is_u16 n -> n <= length s2 ->
  exists r, pbuf_memcmp ps ar p off s2 n = Ok r /\
    (if total_len l <? off + n then r = 0xffff
     else memcmp_result (window (chain_data ar l) off n) s2 n r).
Proof.
  intros Hp Hby Ho Hn Hs. unfold pbuf_memcmp. pose proof (packet_length _ _ _ _ Hp) as Hlen.
  pose proof (pk_total _ _ _ _ Hp) as Hmax.
  destruct l as [|[x b] l]; [by apply packet_nil in Hp|].
  pose proof (packet_cons _ _ _ _ _ _ Hp) as (-> & -> & _ & Ht & _). rewrite bind_ok, Ht.
  rewrite total_len_cons in *. cbn [snd] in *.
  destruct (Z.ltb_spec (len b + total_len l) (off + n)); [by exists 0xffff|].
  set (L := (p, b) :: l) in *. set (D := chain_data ar L) in *.
  assert (Hget : exists q start,
            skip_loop ps (chain_fuel ps) (Some p) off = Ok (q, start) /\
            forall j, 0 <= j < n -> pbuf_get_at ps ar q (u16 (start + j)) = Ok (default 0 (D !! Z.to_nat (off + j)))).
  { destruct (pbuf_skip_spec ps ar p L off Hp Ho) as [[Hle E]|(l1 & y & c & l2 & EL & Hb & E & Hp2)].
    - exists None. eexists. split; [exact E|]. unfold L in Hle. rewrite total_len_cons in Hle. cbn in Hle. lia.
    - exists (Some y). eexists. split; [exact E|]. intros j Hj.
      unfold D. rewrite EL in *.
      pose proof (chain_data_skip ps ar p l1 y c l2 off Hp ltac:(lia)) as Ed.
      assert (Hl1 : total_len l1 + total_len ((y, c) :: l2) = len b + total_len l).
      { rewrite <- total_len_app, <- EL. done. }
      pose proof (packet_length _ _ _ _ Hp2) as Hlen2.
      pose proof (chain_at_total_prefix _ _ _ _ (pk_chain _ _ _ _ Hp)) as Hl1'.
      rewrite (u16_id (off - total_len l1 + j)) by solve_u.
      rewrite (pbuf_get_at_spec ps ar y ((y, c) :: l2)); [| done | solve_u |].
      + do 2 f_equal. replace (Z.to_nat (off - total_len l1 + j)) with (Z.to_nat (off - total_len l1) + Z.to_nat j)%nat by lia.
        rewrite <- lookup_drop, <- Ed, lookup_drop. f_equal. lia.
      + unfold D in Hby. rewrite EL in Hby. unfold chain_data in Hby. rewrite bind_app in Hby. by apply Forall_app in Hby as [_ ?]. }
  destruct Hget as (q & start & -> & Hget). rewrite bind_ok.
  destruct (memcmp_loop_spec ps ar q start s2 (fun j => default 0 (D !! Z.to_nat (off + j))) (Z.to_nat n) 0)
    as (r & E & Hr); [solve_u.. | intros j Hj; apply Hget; solve_u |].
  exists r. split; [done|].
  assert (Hw : forall i, Z.of_nat i < n -> exists c, window D off n !! i = Some c /\ default 0 (D !! Z.to_nat (off + i)) = c).
  { intros i Hi. rewrite window_lookup by solve_u.
    destruct (lookup_lt_is_Some_2 D (Z.to_nat (off + i))) as [c Hc]; [solve_u|]. exists c. by rewrite Hc. }
  assert (Hsame : forall m, 0 <= m <= n -> (forall j, 0 <= j < m -> s2 !! Z.to_nat j = Some (default 0 (D !! Z.to_nat (off + j)))) ->
            take (Z.to_nat m) (window D off n) = take (Z.to_nat m) s2).
  { intros m Hm Hj. apply list_eq. intros i. destruct (decide (Z.of_nat i < m)) as [Hi|Hi].
    - rewrite !lookup_take_lt by lia. destruct (Hw i) as (c & -> & Hc); [lia|].
      specialize (Hj i ltac:(lia)). rewrite Nat2Z.id in Hj. by rewrite Hj, Hc.
    - by rewrite !lookup_take_ge by lia. }
  destruct Hr as [[-> Hr]|(H1 & H2 & H3)].
  - left. split; [done|]. rewrite <- (Hsame n); [|solve_u | intros j Hj; apply Hr; solve_u].
    unfold window. by rewrite take_take, Nat.min_id.
  - right. split; [solve_u|]. split; [apply Hsame; [solve_u | done]|].
    destruct (Hw (Z.to_nat (r - 1))) as (c & -> & Hc); [solve_u|]. intros E'. apply H3.
    rewrite <- E', <- Hc. do 4 f_equal. lia.
Qed.

Lemma memcmp_result_0 w s2 n r : memcmp_result w s2 n r -> (r = 0 <-> w = take (Z.to_nat n) s2).
Proof.
  intros [[-> Hw]|(H1 & _ & H3)]; [done|]. split; [lia|]. intros ->. exfalso. apply H3.
  apply lookup_take_lt. lia.
Qed.

Lemma memfind_loop_spec ps ar p l mem n mx : 
  packet ps ar p l -> bytes_ok (chain_data ar l) -> 0 <= n <= length mem -> is_u16 n -> mx + n = total_len l ->
  total_len l <= 0xFFFE ->
  forall fuel i, 0 <= i <= mx + 1 -> mx - i < Z.of_nat fuel ->
  exists r, memfind_loop ps ar fuel p i mx mem n = Ok r /\
    let m := take (Z.to_nat n) mem in
    ((r = 0xFFFF /\ forall j, i <= j -> ~ occurs_at m (chain_data ar l) j) \/
     (i <= r <= mx /\ occurs_at m (chain_data ar l) r /\ forall j, i <= j < r -> ~ occurs_at m (chain_data ar l) j)).
Proof.
  intros Hp Hby Hn Hn16 Hmx Hmax. pose proof (packet_length _ _ _ _ Hp) as Hlen.
  set (m := take (Z.to_nat n) mem). assert (Hm : length m = n :> Z) by (unfold m; rewrite length_take; lia).
  assert (Hocc : forall i, 0 <= i <= mx -> exists r, pbuf_memcmp ps ar p i mem n = Ok r /\
            (r = 0 <-> occurs_at m (chain_data ar l) i)).
  { intros i Hi. destruct (pbuf_memcmp_spec ps ar p l i mem n) as (r & E & Hr); [done | done | solve_u | done | lia |].
    exists r. split; [done|]. destruct (Z.ltb_spec (total_len l) (i + n)); [lia|].
    rewrite (memcmp_result_0 _ _ _ _ Hr). unfold occurs_at. rewrite Hm. fold m.
    split; [intros Hw; split; [lia|]; split; [lia | done] | tauto]. }
  induction fuel as [|fuel IH]; intros i Hi Hf; cbn [memfind_loop].
  - destruct (Z.leb_spec i mx); [lia|]. exists 0xFFFF. split; [done|]. left. split; [done|].
    intros j Hj (H1 & H2 & _). rewrite Hm in H2. lia.
  - destruct (Z.leb_spec i mx) as [Hle|Hgt].
    + destruct (Hocc i) as (r & -> & Hr); [lia|]. rewrite bind_ok. destruct (Z.eqb_spec r 0) as [->|Hr0].
      * exists i. split; [done|]. right. split; [lia|]. split; [by apply Hr|]. lia.
      * rewrite u16_id by solve_u. destruct (IH (i + 1)) as (r' & E & Hr'); [lia | lia |].
        exists r'. split; [done|].
        assert (Hi' : ~ occurs_at m (chain_data ar l) i) by (intros Ho; by apply Hr in Ho).
        destruct Hr' as [[-> Hr']|(H1 & H2 & H3)].
        -- left. split; [done|]. intros j Hj. destruct (decide (j = i)) as [->|]; [done | apply Hr'; lia].
        -- right. split; [lia|]. split; [done|]. intros j Hj. destruct (decide (j = i)) as [->|]; [done | apply H3; lia].
    + exists 0xFFFF. split; [done|]. left. split; [done|].
      intros j Hj (H1 & H2 & _). rewrite Hm in H2. lia.
Qed.

(** The first occurrence from [start] on, or 0xFFFF. *)
Definition find_result (m d : list Z) (start r : Z) : Prop :=
  (r = 0xFFFF /\ forall j, start <= j -> ~ occurs_at m d j) \/
  (start <= r < 0xFFFF /\ occurs_at m d r /\ forall j, start <= j < r -> ~ occurs_at m d j).

Lemma pbuf_memfind_spec ps ar p l mem n start :
  packet ps ar p l -> bytes_ok (chain_data ar l) -> total_len l <= 0xFFFE ->
  is_u16 n -> n <= length mem -> is_u16 start ->
  exists r, pbuf_memfind ps ar p mem n start = Ok r /\
    find_result (take (Z.to_nat n) mem) (chain_data ar l) start r.
Proof.
  intros Hp Hby Hmax Hn Hmem Hst. unfold pbuf_memfind. pose proof (packet_length _ _ _ _ Hp) as Hlen.
  destruct l as [|[x b] l]; [by apply packet_nil in Hp|].
  pose proof (packet_cons _ _ _ _ _ _ Hp) as (-> & -> & _ & Ht & _). rewrite bind_ok, Ht.
  rewrite total_len_cons in *. cbn [snd] in *. destruct (Z.leb_spec (n + start) (len b + total_len l)).
  - rewrite u16_id by solve_u.
    destruct (memfind_loop_spec ps ar p ((p, b) :: l) mem n (len b + total_len l - n) Hp Hby)
      with (fuel := S (Z.to_nat (len b + total_len l - n - start))) (i := start) as (r & E & Hr);
      try (rewrite ?total_len_cons; cbn [snd]; solve_u).
    exists r. split; [done|]. cbv zeta in Hr. destruct Hr as [Hr|(H1 & H2 & H3)]; [by left|]. right. split; [solve_u | done].
  - exists 0xFFFF. split; [done|]. left. split; [done|]. intros j Hj (H1 & H2 & _).
    rewrite length_take in H2. lia.
Qed.

Lemma pbuf_strstr_spec ps ar p l sub s :
  packet ps ar p l -> bytes_ok (chain_data ar l) -> total_len l <= 0xFFFE ->
  cstring sub s -> s <> [] -> Z.of_nat (length s) < 0xFFFF ->
  exists r, pbuf_strstr ps ar p (Some sub) = Ok r /\ find_result s (chain_data ar l) 0 r.
Proof.
  intros Hp Hby Hmax Hs Hne Hlen. unfold pbuf_strstr.
  destruct s as [|c s]; [done|]. destruct (cstring_lookup sub (c :: s) 0 c Hs eq_refl) as [Hc Hc0].
  rewrite (buf_get_ok sub 0 c) by done. rewrite bind_ok.
  destruct l as [|[x b] l]; [by apply packet_nil in Hp|].
  pose proof (packet_cons _ _ _ _ _ _ Hp) as (-> & -> & _ & Ht & _). rewrite bind_ok, Ht.
  pose proof Hmax as Hmax'. rewrite total_len_cons in Hmax'. cbn [snd] in *.
  destruct (Z.eqb_spec c 0); [done|]. destruct (Z.eqb_spec (len b + total_len l) 0xFFFF); [lia|]. cbn [orb].
  rewrite (strlen_cstring _ _ Hs), bind_ok. destruct (Z.leb_spec 0xFFFF (length (c :: s))); [lia|].
  rewrite u16_id by solve_u.
  destruct (pbuf_memfind_spec ps ar p ((p, b) :: l) sub (length (c :: s)) 0 Hp Hby Hmax) as (r & E & Hr);
    [solve_u | | solve_u |].
  - destruct Hs as [_ [rest ->]]. rewrite length_app. lia.
  - exists r. split; [exact E|]. rewrite Nat2Z.id in Hr. destruct Hs as [_ [rest ->]].
    rewrite take_app_length in Hr. done.
Qed.

(** *** Writing *)

Lemma window_inserts_in (src b : list Z) o n off :
  0 <= o -> 0 <= off -> off + length src <= n -> o + n <= length b ->
  window (list_inserts (Z.to_nat (o + off)) src b) o n = list_inserts (Z.to_nat off) src (window b o n).
Proof.
  intros H1 H2 H3 H4. apply list_eq. intros i.
  destruct (decide (Z.of_nat i < n)) as [Hi|Hi].
  2: { rewrite !lookup_ge_None_2; [done | |]; rewrite ?length_inserts; apply Nat2Z.inj_le;
       rewrite window_length; rewrite ?length_inserts; lia. }
  rewrite window_lookup by lia.
  assert (Hl : (i < length (window b o n))%nat) by (apply Nat2Z.inj_lt; rewrite window_length; lia).
  destruct (decide (Z.of_nat i < off)); [|destruct (decide (Z.of_nat i < off + length src))].
  - rewrite !list_lookup_inserts_lt by lia. by rewrite window_lookup by lia.
  - rewrite !list_lookup_inserts by lia. f_equal. lia.
  - rewrite !list_lookup_inserts_ge by lia. by rewrite window_lookup by lia.
Qed.

Lemma window_inserts_out (src b : list Z) o n o2 :
  0 <= o -> 0 <= o2 -> o + n <= o2 \/ o2 + length src <= o -> o2 + length src <= length b -> o + n <= length b ->
  window (list_inserts (Z.to_nat o2) src b) o n = window b o n.
Proof.
  intros H1 H2 H3 H4 H5. apply list_eq. intros i.
  destruct (decide (Z.of_nat i < n)) as [Hi|Hi].
  - rewrite !window_lookup by lia. destruct H3; [apply list_lookup_inserts_lt | apply list_lookup_inserts_ge]; lia.
  - destruct (decide (0 <= n)).
    + rewrite !lookup_ge_None_2; [done | |]; apply Nat2Z.inj_le; rewrite window_length; rewrite ?length_inserts; lia.
    + unfold window. by replace (Z.to_nat n) with 0%nat by lia.
Qed.

(** What a successful read says. *)
Lemma area_read_inv ar pl off n d : area_read ar pl off n = Ok d -> n <> 0 ->
  exists a o b, pl = Some (a, o) /\ ar !! a = Some b /\ 0 <= o + off /\ 0 <= n /\ o + off + n <= length b /\
    d = window b (o + off) n.
Proof.
  unfold area_read. destruct (Z.eqb_spec n 0); [done|]. intros H _. destruct pl as [[a o]|]; [|done].
  cbn [of_option] in H. rewrite bind_ok in H. destruct (ar !! a) as [b|] eqn:Ea; [|done].
  cbn [of_option] in H. rewrite bind_ok in H. destruct (_ && _) eqn:E; [|done]. injection H as <-.
  rewrite !andb_true_iff, !Z.leb_le in E. exists a, o, b. split_and!; try done; lia.
Qed.

Lemma area_read_intro (ar : gmap ptr (list Z)) a o b off n :
  ar !! a = Some b -> 0 <= o + off -> 0 <= n -> o + off + n <= length b ->
  area_read ar (Some (a, o)) off n = Ok (window b (o + off) n).
Proof.
  intros Ea H1 H2 H3. unfold area_read. destruct (Z.eqb_spec n 0) as [->|]; [by rewrite window_0|].
  cbn [of_option]. rewrite bind_ok, Ea. cbn [of_option]. rewrite bind_ok.
  destruct (Z.leb_spec 0 (o + off)), (Z.leb_spec 0 n), (Z.leb_spec (o + off + n) (length b)); (done || lia).
Qed.

(** A write inside of a readable stretch, and what it does to the rest. *)
Lemma area_write_read ar pl off src n d :
  area_read ar pl 0 n = Ok d -> 0 <= off -> off + length src <= n ->
  exists ar', area_write ar pl off src = Ok ar' /\
    area_read ar' pl 0 n = Ok (list_inserts (Z.to_nat off) src d) /\
    (forall b, separate (Pbuf None pl n n 0 0 0 0) b -> 0 <= len b ->
       forall d', area_read ar (payload b) 0 (len b) = Ok d' -> area_read ar' (payload b) 0 (len b) = Ok d').
Proof.
  intros H Ho Hn. unfold area_write. destruct src as [|c src]; [by exists ar|]. set (w := c :: src) in *.
  assert (0 < Z.of_nat (length w)) by (cbn; lia). clearbody w. clear c src.
  destruct (area_read_inv _ _ _ _ _ H) as (a & o & b & -> & Ea & H1 & H2 & H3 & ->); [lia|].
  rewrite Z.add_0_r in *. cbn [of_option]. rewrite bind_ok, Ea. cbn [of_option]. rewrite bind_ok.
  destruct (Z.leb_spec 0 (o + off)), (Z.leb_spec (o + off + length w) (length b)); try lia. cbn [andb].
  eexists. split; [reflexivity|]. split.
  - rewrite (area_read_intro _ a o (list_inserts (Z.to_nat (o + off)) w b));
      [| by rewrite lookup_insert_eq | lia | lia | rewrite length_inserts; lia].
    rewrite Z.add_0_r. by rewrite window_inserts_in by lia.
  - intros b2 Hsep Hl d' Hr. destruct (decide (len b2 = 0)) as [E0|Hne]; [rewrite E0 in *; exact Hr|].
    destruct (area_read_inv _ _ _ _ _ Hr Hne) as (a2 & o2 & b' & E2 & Ea2 & H1' & H2' & H3' & ->).
    rewrite E2 in *. unfold separate in Hsep. cbn [payload len] in Hsep. rewrite E2 in Hsep.
    rewrite Z.add_0_r in *. destruct (decide (a = a2)) as [<-|Hna].
    + rewrite Ea in Ea2. injection Ea2 as <-.
      rewrite (area_read_intro _ a o2 (list_inserts (Z.to_nat (o + off)) w b));
        [| by rewrite lookup_insert_eq | lia | lia | rewrite length_inserts; lia].
      rewrite Z.add_0_r. rewrite window_inserts_out; [done | lia | lia | | lia | lia].
      destruct Hsep as [|Hsep]; [done|]. lia.
    + rewrite (area_read_intro _ a2 o2 b'); [by rewrite Z.add_0_r | rewrite lookup_insert_ne; done | lia..].
Qed.

(** What is outside of the packet stays. *)
Definition others_kept (ar ar' : gmap ptr (list Z)) (l : list (ptr * pbuf)) : Prop :=
  forall b, 0 <= len b -> Forall (fun x => separate x.2 b) l ->
  forall d, area_read ar (payload b) 0 (len b) = Ok d -> area_read ar' (payload b) 0 (len b) = Ok d.

Lemma separate_sym b1 b2 : separate b1 b2 -> separate b2 b1.
Proof. unfold separate. destruct (payload b1) as [[]|], (payload b2) as [[]|]; try done. intros [|[]]; [left | right; right | right; left]; done. Qed.

Lemma others_kept_payload ar ar' l b :
  others_kept ar ar' l -> 0 <= len b -> Forall (fun x => separate b x.2) l ->
  area_read ar (payload b) 0 (len b) = Ok (payload_data ar b) ->
  area_read ar' (payload b) 0 (len b) = Ok (payload_data ar b) /\ payload_data ar' b = payload_data ar b.
Proof.
  intros Hk Hl Hs E. assert (E' : area_read ar' (payload b) 0 (len b) = Ok (payload_data ar b)).
  { apply Hk; [done | | done]. eapply Forall_impl; [exact Hs|]. intros x. apply separate_sym. }
  split; [done|]. unfold payload_data at 1. by rewrite E'.
Qed.

(** A write into [b] leaves a packet alone that is separate from it. *)
Lemma packet_kept ps ar ar' p l b :
  packet ps ar p l -> Forall (fun y => separate b y.2) l ->
  (forall b', separate b b' -> 0 <= len b' -> forall d, area_read ar (payload b') 0 (len b') = Ok d ->
     area_read ar' (payload b') 0 (len b') = Ok d) ->
  packet ps ar' p l /\ chain_data ar' l = chain_data ar l.
Proof.
  intros [Hc Ha Ht] Hs Hk.
  assert (Hlen : Forall (fun x => 0 <= len x.2) l).
  { clear -Hc. revert Hc. generalize (Some p). induction l as [|[x b] l IH]; intros o; [constructor|].
    cbn [chain_at]. intros (_ & _ & H & _ & Hc). constructor; [done | by eapply IH]. }
  assert (HH : Forall (fun x => area_read ar' (payload x.2) 0 (len x.2) = Ok (payload_data ar x.2)) l).
  { rewrite Forall_forall in *. intros x Hx. apply (Hk x.2); [by apply Hs | by apply Hlen |].
    apply area_read_payload. by apply Ha. }
  split.
  - split; [done | | done]. eapply Forall_impl; [exact HH|]. intros x E. exists (payload_data ar x.2). exact E.
  - clear -HH. induction HH as [|x l E HH IH]; [done|]. destruct x as [x b'].
    rewrite !chain_data_cons, IH. f_equal. unfold payload_data at 1. cbn [snd] in E. by rewrite E.
Qed.

(** Replace the head of a packet's data. *)
Lemma packet_head ps ar ar' p b l :
  packet ps ar p ((p, b) :: l) -> (exists d, area_read ar' (payload b) 0 (len b) = Ok d) ->
  (l = [] \/ exists q, next b = Some q /\ packet ps ar' q l) -> packet ps ar' p ((p, b) :: l).
Proof.
  intros [Hc Ha Ht] Hd Hl. split; [done | | done]. constructor; [done|].
  destruct Hl as [->|(q & _ & [_ Ha' _])]; [constructor | done].
Qed.

Lemma take_loop_spec ps dataptr l : forall ar p total copied fuel,
  packet ps ar p l -> separated l -> 0 <= total <= total_len l -> 0 <= copied ->
  copied + total <= length dataptr -> (length l <= fuel)%nat ->
  exists ar', take_loop ps fuel (Some p) dataptr total copied ar = Ok (ar', copied + total) /\
    packet ps ar' p l /\ chain_data ar' l = list_inserts 0 (window dataptr copied total) (chain_data ar l) /\
    others_kept ar ar' l.
Proof.
  induction l as [|[x b] l IH]; intros ar p total copied fuel Hp Hsep Ht Hc Hd Hf; [by apply packet_nil in Hp|].
  pose proof (packet_cons _ _ _ _ _ _ Hp) as (-> & Ed & Hl & _ & Htl & Hmax & Er & Hlen & Hn).
  destruct fuel as [|fuel]; cbn [length] in Hf; [lia|]. cbn [take_loop].
  destruct (Z.eqb_spec total 0) as [->|H0].
  { exists ar. rewrite Z.add_0_r. split; [done|]. split; [done|]. split; [done|]. intros b' _ _ d' Hd'. exact Hd'. }
  rewrite total_len_cons in Ht. cbn [snd] in Ht. rewrite Ed, bind_ok.
  set (k := if len b <? total then len b else total).
  assert (Hk : k = Z.min (len b) total) by (unfold k; destruct (Z.ltb_spec (len b) total); lia).
  unfold buf_slice. destruct (Z.leb_spec 0 copied), (Z.leb_spec 0 k), (Z.leb_spec (copied + k) (length dataptr)); try lia.
  cbn [andb]. rewrite bind_ok. fold (window dataptr copied k).
  assert (Hw : length (window dataptr copied k) = k :> Z) by (rewrite window_length; lia).
  destruct (area_write_read ar (payload b) 0 (window dataptr copied k) (len b) (payload_data ar b) Er) as (ar1 & -> & Er1 & Hk1);
    [lia | lia |]. rewrite bind_ok.
  destruct Hsep as [Hsb Hsep].
  assert (Hpd1 : payload_data ar1 b = list_inserts 0 (window dataptr copied k) (payload_data ar b))
    by (unfold payload_data at 1; rewrite Er1; done).
  assert (Hwin : window dataptr copied total = window dataptr copied k ++ window dataptr (copied + k) (total - k)).
  { unfold window.
    replace (Z.to_nat total) with (Z.to_nat k + Z.to_nat (total - k))%nat by lia.
    replace (Z.to_nat (copied + k)) with (Z.to_nat copied + Z.to_nat k)%nat by lia.
    by rewrite <- drop_drop, take_take_drop. }
  destruct Hn as [[Hnx ->]|(q & Hnx & Hn)].
  - change (total_len []) with 0 in *. rewrite Hnx. exists ar1. split.
    { destruct fuel; cbn [take_loop]; (destruct (Z.eqb_spec (total - k) 0); [f_equal; f_equal; lia | lia]). }
    split; [apply (packet_head ps ar); [done | by eexists | by left]|]. split.
    + rewrite !chain_data_cons, Hpd1. change (chain_data _ []) with (@nil Z). rewrite !app_nil_r.
      by replace total with k by lia.
    + intros b' Hl' Hs' d' Hd'. apply Forall_cons in Hs' as [Hs' _]. by apply (Hk1 b').
  - destruct (packet_kept ps ar ar1 q l b Hn Hsb) as [Hn1 Hcd1].
    { intros b' Hs' Hl' d' Hd'. by apply (Hk1 b'). }
    rewrite Hnx.
    destruct (IH ar1 q (total - k) (copied + k) fuel Hn1 Hsep) as (ar2 & E2 & Hp2 & Hcd2 & Hk2); [lia.. |].
    exists ar2. split; [rewrite E2; do 2 f_equal; lia|].
    destruct (others_kept_payload ar1 ar2 l b Hk2 Hl Hsb) as [Er2 Hpd2].
    { by rewrite Hpd1. }
    split; [apply (packet_head ps ar); [done | by eexists | right; by exists q]|]. split.
    + rewrite !chain_data_cons, Hpd2, Hpd1, Hcd2, Hcd1, Hwin, list_inserts_app_l.
      pose proof (packet_length _ _ _ _ Hn) as Hln.
      destruct (Z.ltb_spec (len b) total).
      * assert (k = len b) as Ek by lia. rewrite (list_inserts_0_r _ (payload_data ar b)) by lia.
        assert (list_inserts 0 (window dataptr copied k) (payload_data ar b) = window dataptr copied k) as ->.
        { rewrite <- (app_nil_r (payload_data ar b)), list_inserts_0_r by lia. by rewrite app_nil_r. }
        by rewrite list_inserts_app_r.
      * replace (total - k) with 0 by lia. rewrite window_0. cbn [list_inserts].
        rewrite !list_inserts_splice by (rewrite ?length_app; lia). rewrite !take_0, !Nat.add_0_l.
        rewrite (drop_app_le (payload_data ar b)) by lia. cbn [app]. by rewrite app_assoc.
    + intros b' Hl' Hs' d' Hd'. apply Forall_cons in Hs' as [Hs' Hs2]. apply Hk2; [done | done |].
      by apply (Hk1 b').
Qed.

Lemma pbuf_take_spec ps ar p l d len_ :
  packet ps ar p l -> separated l -> 0 <= len_ <= length d ->
  if total_len l <? len_ then pbuf_take ps ar (Some p) (Some d) len_ = Ok (ar, ERR_MEM) else
  exists ar', pbuf_take ps ar (Some p) (Some d) len_ = Ok (ar', ERR_OK) /\
    packet ps ar' p l /\ chain_data ar' l = list_inserts 0 (take (Z.to_nat len_) d) (chain_data ar l) /\
    others_kept ar ar' l.
Proof.
  intros Hp Hs Hl. unfold pbuf_take. pose proof (chain_at_fuel _ _ _ (pk_chain _ _ _ _ Hp)) as Hf.
  destruct l as [|[x b] l]; [by apply packet_nil in Hp|].
  pose proof (packet_cons _ _ _ _ _ _ Hp) as (-> & -> & _ & Ht & _). rewrite bind_ok, Ht.
  rewrite total_len_cons. cbn [snd]. destruct (Z.ltb_spec (len b + total_len l) len_); [done|].
  destruct (take_loop_spec ps d ((p, b) :: l) ar p len_ 0 (chain_fuel ps) Hp Hs) as (ar' & -> & Hp' & Hd & Hk);
    [rewrite total_len_cons; cbn; lia | lia | lia | lia |].
  rewrite bind_ok. rewrite Z.add_0_l, Z.eqb_refl. exists ar'. unfold window in Hd. by rewrite drop_0 in Hd.
Qed.

Lemma separated_app l1 l2 : separated (l1 ++ l2) ->
  separated l1 /\ separated l2 /\ Forall (fun x => Forall (fun y => separate x.2 y.2) l2) l1.
Proof.
  induction l1 as [|x l1 IH]; cbn [app separated]; [done|]. intros [H1 H2].
  destruct (IH H2) as (H3 & H4 & H5). apply Forall_app in H1 as [H6 H7].
  split; [done|]. split; [done|]. by constructor.
Qed.

Lemma chain_data_app ar l1 l2 : chain_data ar (l1 ++ l2) = chain_data ar l1 ++ chain_data ar l2.
Proof. apply bind_app. Qed.

Lemma chain_at_lens ps p l : chain_at ps p l -> Forall (fun x => 0 <= len x.2) l.
Proof.
  revert p. induction l as [|[x b] l IH]; intros p; [constructor|].
  cbn [chain_at]. intros (_ & _ & H & _ & Hc). constructor; [done | by eapply IH].
Qed.

(** When only the data of the rear of a packet changes. *)
Lemma suffix_update ps ar ar' p l1 l2 :
  packet ps ar p (l1 ++ l2) -> separated (l1 ++ l2) -> others_kept ar ar' l2 ->
  Forall (fun x => exists d, area_read ar' (payload x.2) 0 (len x.2) = Ok d) l2 ->
  packet ps ar' p (l1 ++ l2) /\ chain_data ar' (l1 ++ l2) = chain_data ar l1 ++ chain_data ar' l2 /\
  others_kept ar ar' (l1 ++ l2).
Proof.
  intros [Hc Ha Ht] Hs Hk Ha2. apply separated_app in Hs as (_ & _ & Hs).
  pose proof (chain_at_lens _ _ _ Hc) as Hl. apply Forall_app in Hl as [Hl _]. apply Forall_app in Ha as [Ha _].
  assert (HH : Forall (fun x => area_read ar' (payload x.2) 0 (len x.2) = Ok (payload_data ar x.2) /\
                 payload_data ar' x.2 = payload_data ar x.2) l1).
  { rewrite Forall_forall in *. intros x Hx. apply (others_kept_payload ar ar' l2); [done | by apply Hl | by apply Hs |].
    apply area_read_payload. by apply Ha. }
  split; [split; [done | | done]|split].
  - apply Forall_app. split; [|done]. eapply Forall_impl; [exact HH|]. intros x [E _]. exists (payload_data ar x.2). exact E.
  - rewrite chain_data_app. f_equal. clear -HH. induction HH as [|[x b] l [_ E] HH IH]; [done|].
    rewrite !chain_data_cons, IH. cbn [snd] in E. by rewrite E.
  - intros b Hb Hsb. apply Forall_app in Hsb as [_ Hsb]. by apply Hk.
Qed.

(** A write inside of one pbuf of a packet. *)
Lemma write_at_spec ps ar p l1 x b l2 o src :
  packet ps ar p (l1 ++ (x, b) :: l2) -> separated (l1 ++ (x, b) :: l2) -> 0 <= o -> o + length src <= len b ->
  exists ar', area_write ar (payload b) o src = Ok ar' /\ packet ps ar' p (l1 ++ (x, b) :: l2) /\
    chain_data ar' (l1 ++ (x, b) :: l2) =
      list_inserts (Z.to_nat (total_len l1 + o)) src (chain_data ar (l1 ++ (x, b) :: l2)) /\
    others_kept ar ar' (l1 ++ (x, b) :: l2) /\
    (forall q, next b = Some q -> packet ps ar' q l2) /\ chain_data ar' l2 = chain_data ar l2.
Proof.
  intros Hp Hs Ho Hlen. pose proof (chain_at_total_prefix _ _ _ _ (pk_chain _ _ _ _ Hp)) as Ht1.
  assert (Hpx : packet ps ar x ((x, b) :: l2)).
  { destruct Hp as [Hc Ha Ht]. split; [by eapply chain_at_suffix | by apply Forall_app in Ha as [_ ?] |].
    rewrite total_len_app in Ht. lia. }
  pose proof (packet_cons _ _ _ _ _ _ Hpx) as (_ & _ & Hl & _ & _ & _ & Er & Hd & Hn).
  destruct (area_write_read ar (payload b) o src (len b) (payload_data ar b) Er Ho Hlen) as (ar' & E & Er' & Hk).
  assert (Hk2 : others_kept ar ar' ((x, b) :: l2)).
  { intros b' Hl' Hs' d' Hd'. apply Forall_cons in Hs' as [Hs' _]. by apply (Hk b'). }
  pose proof (separated_app _ _ Hs) as (_ & [Hsb Hs2] & Hs1).
  assert (Htail : (forall q, next b = Some q -> packet ps ar' q l2) /\ chain_data ar' l2 = chain_data ar l2 /\
                  Forall (fun x => exists d, area_read ar' (payload x.2) 0 (len x.2) = Ok d) l2).
  { destruct Hn as [[Hnx ->]|(q & Hnx & Hn)].
    - split; [by rewrite Hnx | done].
    - destruct (packet_kept ps ar ar' q l2 b Hn Hsb) as [Hn' Hcd'].
      { intros b' Hs' Hl' d' Hd'. by apply (Hk b'). }
      split; [intros q' Hq; congruence|]. split; [done | apply Hn']. }
  destruct Htail as (Ht2 & Hcd2 & Ha2).
  destruct (suffix_update ps ar ar' p l1 ((x, b) :: l2) Hp Hs Hk2) as (Hp' & Hcd & Hk').
  { constructor; [by eexists | done]. }
  exists ar'. split_and!; try done. rewrite Hcd, chain_data_app, !chain_data_cons, Hcd2.
  assert (payload_data ar' b = list_inserts (Z.to_nat o) src (payload_data ar b)) as ->.
  { unfold payload_data at 1. by rewrite Er'. }
  assert (Hl1 : length (chain_data ar l1) = total_len l1 :> Z).
  { pose proof (packet_length _ _ _ _ Hp) as HH. rewrite chain_data_app, total_len_app, length_app in HH.
    pose proof (packet_length _ _ _ _ Hpx). lia. }
  replace (Z.to_nat (total_len l1 + o)) with (length (chain_data ar l1) + Z.to_nat o)%nat by lia.
  rewrite list_inserts_app_r. f_equal.
  rewrite !list_inserts_splice by (rewrite ?length_app; lia).
  rewrite (take_app_le (payload_data ar b)), (drop_app_le (payload_data ar b)) by lia. by rewrite <- !app_assoc.
Qed.

Lemma pbuf_put_at_spec ps ar p l off c :
  packet ps ar p l -> separated l -> is_u16 off ->
  exists ar', pbuf_put_at ps ar (Some p) off c = Ok ar' /\ packet ps ar' p l /\
    chain_data ar' l = <[Z.to_nat off := c]> (chain_data ar l) /\ others_kept ar ar' l.
Proof.
  intros Hp Hs Ho. unfold pbuf_put_at. pose proof (packet_length _ _ _ _ Hp) as Hlen.
  destruct (pbuf_skip_spec ps ar p l off Hp Ho) as [[Hle E]|(l1 & x & b & l2 & -> & Hb & E & Hp2)]; rewrite E, bind_ok.
  - exists ar. split; [done|]. split; [done|]. split; [by rewrite list_insert_ge by lia|]. by intros ????.
  - apply packet_cons in Hp2 as (_ & -> & _). rewrite bind_ok.
    destruct (Z.ltb_spec (off - total_len l1) (len b)); [|lia].
    destruct (write_at_spec ps ar p l1 x b l2 (off - total_len l1) [c] Hp Hs) as (ar' & -> & Hp' & Hd & Hk & _);
      [lia | cbn; lia |].
    exists ar'. split; [done|]. split; [done|]. split; [|done]. rewrite Hd. cbn [list_inserts]. f_equal. lia.
Qed.

Lemma list_inserts_app_take {A} (src d : list A) (i k : nat) :
  (k <= length src)%nat -> list_inserts (i + k) (drop k src) (list_inserts i (take k src) d) = list_inserts i src d.
Proof.
  intros Hk. rewrite <- (take_drop k src) at 3. rewrite list_inserts_app_l. f_equal.
  rewrite length_take. lia.
Qed.

Lemma pbuf_take_at_spec ps ar p l d len_ off :
  packet ps ar p l -> separated l -> is_u16 off -> is_u16 len_ -> len_ = length d ->
  if (total_len l <=? off) || (total_len l <? off + len_)
  then pbuf_take_at ps ar (Some p) d len_ off = Ok (ar, ERR_MEM) else
  exists ar', pbuf_take_at ps ar (Some p) d len_ off = Ok (ar', ERR_OK) /\
    packet ps ar' p l /\ chain_data ar' l = list_inserts (Z.to_nat off) d (chain_data ar l) /\
    others_kept ar ar' l.
Proof.
  intros Hp Hs Ho Hl Hd. unfold pbuf_take_at. pose proof (packet_length _ _ _ _ Hp) as Hlen.
  destruct (pbuf_skip_spec ps ar p l off Hp Ho) as [[Hle E]|(l1 & x & b & l2 & -> & Hb & E & Hp2)]; rewrite E, bind_ok.
  { destruct (Z.leb_spec (total_len l) off); [done | lia]. }
  pose proof (packet_cons _ _ _ _ _ _ Hp2) as (_ & -> & Hlb & Ht & Htl & Hmax & _ & _ & Hn). rewrite bind_ok, Ht.
  rewrite total_len_app, total_len_cons in *. cbn [snd] in *.
  pose proof (chain_at_total_prefix _ _ _ _ (pk_chain _ _ _ _ Hp)) as Ht1.
  destruct (Z.leb_spec (total_len l1 + (len b + total_len l2)) off); [lia|]. cbn [orb].
  set (o := off - total_len l1) in *.
  destruct (Z.leb_spec (o + len_) (len b + total_len l2)), (Z.ltb_spec (total_len l1 + (len b + total_len l2)) (off + len_));
    try lia; [|done].
  destruct (Z.ltb_spec o (len b)); [|lia]. cbn [lwip_assert]. rewrite bind_ok.
  rewrite (u16_id (Z.min (len b - o) len_)) by solve_u. set (k := Z.min (len b - o) len_).
  unfold buf_slice. destruct (Z.leb_spec 0 0), (Z.leb_spec 0 k), (Z.leb_spec (0 + k) (length d)); try solve_u.
  cbn [andb]. rewrite bind_ok, drop_0.
  destruct (write_at_spec ps ar p l1 x b l2 o (take (Z.to_nat k) d) Hp Hs) as (ar1 & -> & Hp1 & Hd1 & Hk1 & Hn1 & Hcd1);
    [lia | rewrite length_take; lia |]. rewrite bind_ok, (u16_id (len_ - k)) by solve_u.
  replace (total_len l1 + o) with off in Hd1 by lia.
  pose proof (separated_app _ _ Hs) as (_ & [Hsb Hs2] & _).
  destruct (Z.ltb_spec 0 (len_ - k)).
  - assert (k = len b - o) as Ek by lia.
    destruct Hn as [[_ ->]|(q & Hnx & Hn)]; [change (total_len []) with 0 in *; lia|]. rewrite Hnx.
    specialize (Hn1 q Hnx).
    pose proof (pbuf_take_spec ps ar1 q l2 (drop (Z.to_nat k) d) (len_ - k) Hn1 Hs2) as Htk.
    rewrite length_drop in Htk. specialize (Htk ltac:(lia)).
    destruct (Z.ltb_spec (total_len l2) (len_ - k)); [lia|]. destruct Htk as (ar2 & -> & Hp2' & Hd2 & Hk2).
    exists ar2. split; [done|].
    replace (l1 ++ (x, b) :: l2) with ((l1 ++ [(x, b)]) ++ l2) in * by (by rewrite <- app_assoc).
    destruct (suffix_update ps ar1 ar2 p (l1 ++ [(x, b)]) l2 Hp1 Hs Hk2 (pk_area _ _ _ _ Hp2')) as (Hp' & Hcd' & Hk').
    split; [done|]. split.
    + rewrite Hcd', Hd2. rewrite take_ge by (rewrite length_drop; lia).
      pose proof (packet_length _ _ _ _ Hp1) as Hlen1. pose proof (packet_length _ _ _ _ Hn1) as Hln1.
      rewrite !chain_data_app, length_app in *. rewrite !total_len_app, total_len_cons in Hlen1.
      change (total_len []) with 0 in Hlen1. cbn [snd] in Hlen1.
      rewrite <- (list_inserts_app_take d _ (Z.to_nat off) (Z.to_nat k)) by lia. rewrite <- Hd1.
      replace (Z.to_nat off + Z.to_nat k)%nat
        with (length (chain_data ar1 l1 ++ chain_data ar1 [(x, b)]) + 0)%nat by (rewrite length_app in *; lia).
      by rewrite list_inserts_app_r.
    + intros b' Hb' Hsb' d' Hd'. apply Hk'; [done | done |]. by apply Hk1.
  - exists ar1. split; [done|]. split; [done|]. split; [|done].
    rewrite Hd1, take_ge by lia. done.
Qed.

(** *** Copying between packets *)

Definition no_empty (l : list (ptr * pbuf)) : Prop := Forall (fun x => 0 < len x.2) l.

Lemma no_empty_queue ps ar p l : packet ps ar p l -> no_empty l -> packet_queue ps (Some p) = Ok false.
Proof.
  intros Hp Hne. destruct l as [|[x b] l]; [by apply packet_nil in Hp|].
  pose proof (packet_cons _ _ _ _ _ _ Hp) as (-> & Ed & _ & Ht & _ & _ & _ & _ & Hn).
  unfold packet_queue. rewrite Ed, bind_ok. destruct Hn as [[-> _]|(q & -> & Hn)]; [by rewrite andb_false_r|].
  apply Forall_cons in Hne as [_ Hne]. destruct l as [|[y c] l]; [by apply packet_nil in Hn|].
  apply Forall_cons in Hne as [Hc _]. cbn [snd] in Hc.
  pose proof (packet_cons _ _ _ _ _ _ Hn) as (_ & _ & _ & _ & Hl & _).
  rewrite total_len_cons in Ht. cbn [snd] in Ht. destruct (Z.eqb_spec (len b) (tot_len b)); [lia | done].
Qed.

(** Moving on to the next pbuf at the end of one. *)
Lemma advance_spec ps ar p b l o p' o' :
  packet ps ar p ((p, b) :: l) -> no_empty ((p, b) :: l) -> 0 <= o <= len b ->
  (p', o') = (if o =? len b then (next b, 0) else (Some p, o)) ->
  packet_queue ps p' = Ok false /\ 0 <= o' /\
  ((p' = None /\ o = total_len ((p, b) :: l)) \/
   exists q l1 l2 c, p' = Some q /\ (p, b) :: l = l1 ++ (q, c) :: l2 /\ packet ps ar q ((q, c) :: l2) /\
     total_len l1 + o' = o /\ o' < len c /\ (o = len b -> length l = length ((q, c) :: l2)) /\
     (length ((q, c) :: l2) <= length ((p, b) :: l))%nat).
Proof.
  intros Hp Hne Ho. pose proof (packet_cons _ _ _ _ _ _ Hp) as (_ & Ed & Hl & _ & Htl & _ & _ & _ & Hn).
  destruct (Z.eqb_spec o (len b)) as [->|Hlt]; intros [= -> ->].
  - destruct Hn as [[-> ->]|(q & -> & Hn)].
    + split; [done|]. split; [lia|]. left. split; [done|]. cbn. lia.
    + apply Forall_cons in Hne as [_ Hne]. split; [by eapply no_empty_queue|]. split; [lia|]. right.
      destruct l as [|[y c] l]; [by apply packet_nil in Hn|].
      pose proof (packet_cons _ _ _ _ _ _ Hn) as (-> & _). apply Forall_cons in Hne as [Hc _]. cbn in Hc.
      exists q, [(p, b)], l, c. split_and!; try done. cbn. lia. cbn. lia.
  - split; [by eapply no_empty_queue|]. split; [lia|]. right.
    exists p, [], l, b. split_and!; try done; cbn; lia.
Qed.

Lemma packet_others ps ar ar' p l lt :
  packet ps ar p l -> others_kept ar ar' lt -> Forall (fun x => Forall (fun y => separate x.2 y.2) lt) l ->
  packet ps ar' p l /\ chain_data ar' l = chain_data ar l.
Proof.
  intros [Hc Ha Ht] Hk Hs. pose proof (chain_at_lens _ _ _ Hc) as Hl.
  assert (HH : Forall (fun x => area_read ar' (payload x.2) 0 (len x.2) = Ok (payload_data ar x.2) /\
                 payload_data ar' x.2 = payload_data ar x.2) l).
  { rewrite Forall_forall in *. intros x Hx. apply (others_kept_payload ar ar' lt); [done | by apply Hl | by apply Hs |].
    apply area_read_payload. by apply Ha. }
  split.
  - split; [done | | done]. eapply Forall_impl; [exact HH|]. intros x [E _]. exists (payload_data ar x.2). exact E.
  - clear -HH. induction HH as [|[x b] l [_ E] HH IH]; [done|].
    rewrite !chain_data_cons, IH. cbn [snd] in E. by rewrite E.
Qed.

Lemma window_split d off n k :
  0 <= off -> 0 <= k <= n -> window d off n = window d off k ++ window d (off + k) (n - k).
Proof.
  intros. unfold window.
  replace (Z.to_nat n) with (Z.to_nat k + Z.to_nat (n - k))%nat by lia.
  rewrite <- take_take_drop, drop_drop. do 3 f_equal. lia.
Qed.

Lemma separated_rows_suffix (l1 l2 lf : list (ptr * pbuf)) :
  Forall (fun x => Forall (fun y => separate x.2 y.2) lf) (l1 ++ l2) ->
  Forall (fun x => Forall (fun y => separate x.2 y.2) lf) l2.
Proof. intros H. by apply Forall_app in H as [_ H]. Qed.

Lemma separated_cols_suffix (lt l1 l2 : list (ptr * pbuf)) :
  Forall (fun x => Forall (fun y => separate x.2 y.2) (l1 ++ l2)) lt ->
  Forall (fun x => Forall (fun y => separate x.2 y.2) l2) lt.
Proof. intros H. eapply Forall_impl; [exact H|]. intros x Hx. by apply Forall_app in Hx as [_ Hx]. Qed.

Lemma no_empty_suffix l1 l2 : no_empty (l1 ++ l2) -> no_empty l2.
Proof. intros H. by apply Forall_app in H as [_ H]. Qed.

Lemma copy_pbuf_loop_spec ps : forall fuel ar pt t lt pf f lf copy_len ot ofr,
  packet ps ar pt ((pt, t) :: lt) -> packet ps ar pf ((pf, f) :: lf) -> separated ((pt, t) :: lt) ->
  Forall (fun x => Forall (fun y => separate x.2 y.2) ((pt, t) :: lt)) ((pf, f) :: lf) ->
  no_empty ((pt, t) :: lt) -> no_empty ((pf, f) :: lf) ->
  0 <= ot <= len t -> 0 <= ofr <= len f -> 0 <= copy_len ->
  ot + copy_len <= total_len ((pt, t) :: lt) -> ofr + copy_len <= total_len ((pf, f) :: lf) ->
  (length lt + length lf <= fuel)%nat ->
  exists ar', copy_pbuf_loop ps fuel pt pf copy_len ot ofr ar = Ok (ar', ERR_OK) /\
    packet ps ar' pt ((pt, t) :: lt) /\
    chain_data ar' ((pt, t) :: lt) =
      list_inserts (Z.to_nat ot) (window (chain_data ar ((pf, f) :: lf)) ofr copy_len) (chain_data ar ((pt, t) :: lt)) /\
    others_kept ar ar' ((pt, t) :: lt).
Proof.
  induction fuel as [fuel IHf] using lt_wf_ind.
  intros ar pt t lt pf f lf copy_len ot ofr Hpt Hpf Hst Hsf Hnt Hnf Hot Hof Hcl Htt Htf Hfuel.
  pose proof (packet_cons _ _ _ _ _ _ Hpt) as (_ & Edt & _ & _ & Htlt & Hmt & _ & _ & _).
  pose proof (packet_cons _ _ _ _ _ _ Hpf) as (_ & Edf & _ & _ & Htlf & Hmf & Erf & Hdf & _).
  rewrite total_len_cons in Htt, Htf. cbn [snd] in Htt, Htf.
  set (n := Z.min copy_len (Z.min (len f - ofr) (len t - ot))).
  assert (Hn : 0 <= n <= copy_len) by lia.
  assert (Hw : length (window (payload_data ar f) ofr n) = n :> Z) by (rewrite window_length; lia).
  destruct (write_at_spec ps ar pt [] pt t lt ot (window (payload_data ar f) ofr n) Hpt Hst) as (ar1 & Ew & Hpt1 & Hd1 & Hk1 & _ & _);
    [lia | lia |]. cbn [app total_len foldr] in Hpt1, Hd1, Hk1. rewrite Z.add_0_l in Hd1.
  destruct (packet_others ps ar ar1 pf ((pf, f) :: lf) ((pt, t) :: lt) Hpf Hk1 Hsf) as [Hpf1 Hdf1].
  assert (Hsrc : window (chain_data ar ((pf, f) :: lf)) ofr copy_len =
            window (payload_data ar f) ofr n ++ window (chain_data ar ((pf, f) :: lf)) (ofr + n) (copy_len - n)).
  { rewrite (window_split _ ofr copy_len n) by lia. f_equal. rewrite chain_data_cons.
    rewrite (window_app_lt _ _ ofr n n) by lia. by rewrite Z.sub_diag, window_0, app_nil_r. }
  assert (Eloop : copy_pbuf_loop ps fuel pt pf copy_len ot ofr ar =
    let '(p_from, offset_from) := if ofr + n =? len f then (next f, 0) else (Some pf, ofr + n) in
    if (match p_from with None => true | _ => false end) && negb (copy_len - n =? 0) then Ok (ar1, ERR_ARG) else
    let '(p_to, offset_to) := if ot + n =? len t then (next t, 0) else (Some pt, ot + n) in
    if (match p_to with None => true | _ => false end) && negb (copy_len - n =? 0) then Ok (ar1, ERR_ARG) else
    bad_from ← packet_queue ps p_from;
    if bad_from : bool then Ok (ar1, ERR_VAL) else
    bad_to ← packet_queue ps p_to;
    if bad_to : bool then Ok (ar1, ERR_VAL) else
    if copy_len - n =? 0 then Ok (ar1, ERR_OK) else
    match fuel, p_to, p_from with
    | S fuel', Some p_to, Some p_from => copy_pbuf_loop ps fuel' p_to p_from (copy_len - n) offset_to offset_from ar1
    | _, _, _ => Err OutOfFuel
    end).
  { assert (En : Z.min copy_len (if u32 (len f - ofr) <=? u32 (len t - ot) then u32 (len f - ofr) else u32 (len t - ot)) = n).
    { rewrite !u32_id by solve_u. destruct (Z.leb_spec (len f - ofr) (len t - ot)); lia. }
    destruct fuel; cbn [copy_pbuf_loop]; rewrite Edt, bind_ok, Edf, bind_ok, En;
      rewrite (area_read_sub _ _ _ _ ofr n Erf), bind_ok by lia; fold (window (payload_data ar f) ofr n);
      rewrite Ew, bind_ok, (u32_id (ot + n)), (u32_id (ofr + n)), (u16_id (copy_len - n)) by solve_u;
      (destruct (Z.leb_spec (ot + n) (len t)), (Z.leb_spec (ofr + n) (len f)); try lia);
      cbn [lwip_assert]; rewrite !bind_ok;
      replace (len f <=? ofr + n) with (ofr + n =? len f) by (apply eq_true_iff_eq; rewrite Z.leb_le, Z.eqb_eq; lia);
      reflexivity. }
  rewrite Eloop. clear Eloop.
  destruct (if ofr + n =? len f then (next f, 0) else (Some pf, ofr + n)) as [p_from o_from] eqn:Ef.
  destruct (if ot + n =? len t then (next t, 0) else (Some pt, ot + n)) as [p_to o_to] eqn:Et.
  destruct (advance_spec ps ar1 pf f lf (ofr + n) p_from o_from Hpf1 Hnf ltac:(lia) (eq_sym Ef)) as (Hqf & Hof' & Hadf).
  destruct (advance_spec ps ar1 pt t lt (ot + n) p_to o_to Hpt1 Hnt ltac:(lia) (eq_sym Et)) as (Hqt & Hot' & Hadt).
  rewrite Hqf, Hqt. rewrite !bind_ok. rewrite total_len_cons in Hadf, Hadt. cbn [snd] in Hadf, Hadt.
  destruct (Z.eqb_spec (copy_len - n) 0) as [Hz|Hnz].
  { cbn [negb]. rewrite !andb_false_r. exists ar1. split; [done|]. split; [done|]. split; [|done].
    rewrite Hd1, Hsrc, Hz, window_0, app_nil_r. done. }
  destruct Hadf as [[-> Hend]|(qf & l1f & l2f & cf & -> & Elf & Hpf2 & Htl1f & Hlf & Hlenf & Hlenf')]; [lia|].
  destruct Hadt as [[-> Hend]|(qt & l1t & l2t & ct & -> & Elt & Hpt2 & Htl1t & Hlt & Hlent & Hlent')]; [lia|].
  cbn [andb negb].
  assert (Hdec : (length l2t + length l2f < length lt + length lf)%nat).
  { cbn [length] in *. destruct (decide (ofr + n = len f)) as [e|]; [specialize (Hlenf e); lia|].
    destruct (decide (ot + n = len t)) as [e|]; [specialize (Hlent e); lia|]. lia. }
  destruct fuel as [|fuel]; [lia|]. rewrite Elt, Elf in *.
  pose proof (separated_app _ _ Hst) as (_ & Hst2 & _).
  pose proof (f_equal total_len Elt) as Ett. pose proof (f_equal total_len Elf) as Etf.
  rewrite total_len_app, total_len_cons in Ett, Etf. cbn [snd] in Ett, Etf.
  destruct (IHf fuel ltac:(lia) ar1 qt ct l2t qf cf l2f (copy_len - n) o_to o_from) as (ar2 & E2 & Hpt3 & Hd3 & Hk3);
    [done | done | done | | by eapply no_empty_suffix | by eapply no_empty_suffix | lia | lia | lia | lia | lia | lia |].
  { apply separated_rows_suffix in Hsf. by apply separated_cols_suffix in Hsf. }
  exists ar2. split; [exact E2|].
  destruct (suffix_update ps ar1 ar2 pt l1t ((qt, ct) :: l2t) Hpt1 Hst Hk3 (pk_area _ _ _ _ Hpt3)) as (Hp' & Hcd' & Hk').
  split; [done|]. split.
  - rewrite Hcd', Hd3.
    assert (Hl1 : length (chain_data ar1 l1t) = total_len l1t :> Z).
    { pose proof (packet_length _ _ _ _ Hpt1) as HH. rewrite chain_data_app, total_len_app, length_app in HH.
      pose proof (packet_length _ _ _ _ Hpt2). lia. }
    assert (Ewf : window (chain_data ar1 ((qf, cf) :: l2f)) o_from (copy_len - n) =
                  window (chain_data ar (l1f ++ (qf, cf) :: l2f)) (ofr + n) (copy_len - n)).
    { rewrite <- Hdf1. unfold window. rewrite (chain_data_skip ps ar1 pf l1f qf cf l2f (ofr + n) Hpf1) by lia.
      do 2 f_equal. f_equal. lia. }
    rewrite Ewf, Hsrc, list_inserts_app_l, <- Hd1, (chain_data_app ar1 l1t).
    replace (length (window (payload_data ar f) ofr n) + Z.to_nat ot)%nat
      with (length (chain_data ar1 l1t) + Z.to_nat o_to)%nat by lia.
    by rewrite list_inserts_app_r.
  - intros b' Hb' Hsb' d' Hd'. apply Hk'; [done | done |]. by apply Hk1.
Qed.

Lemma pbuf_copy_partial_pbuf_spec ps ar pt lt pf lf copy_len offset t :
  packet ps ar pt lt -> packet ps ar pf lf -> separated lt ->
  Forall (fun x => Forall (fun y => separate x.2 y.2) lt) lf -> no_empty lt -> no_empty lf ->
  ps !! pt = Some t -> 0 <= offset <= len t -> is_u16 copy_len ->
  if (total_len lf <? copy_len) || (total_len lt <? offset + copy_len)
  then pbuf_copy_partial_pbuf ps ar (Some pt) (Some pf) copy_len offset = Ok (ar, ERR_ARG)
  else exists ar', pbuf_copy_partial_pbuf ps ar (Some pt) (Some pf) copy_len offset = Ok (ar', ERR_OK) /\
    packet ps ar' pt lt /\ packet ps ar' pf lf /\ chain_data ar' lf = chain_data ar lf /\
    chain_data ar' lt = list_inserts (Z.to_nat offset) (take (Z.to_nat copy_len) (chain_data ar lf)) (chain_data ar lt) /\
    others_kept ar ar' lt.
Proof.
  intros Hpt Hpf Hst Hsf Hnt Hnf Et Ho Hcl. unfold pbuf_copy_partial_pbuf.
  destruct lt as [|[x t'] lt]; [by apply packet_nil in Hpt|]. destruct lf as [|[y f] lf]; [by apply packet_nil in Hpf|].
  pose proof (packet_cons _ _ _ _ _ _ Hpt) as (-> & Edt & _ & Htt & _).
  pose proof (packet_cons _ _ _ _ _ _ Hpf) as (-> & Edf & _ & Htf & _ & _ & _ & _ & _).
  assert (t' = t) as -> by (unfold deref in Edt; rewrite Et in Edt; by injection Edt).
  rewrite Edf, bind_ok, Htf, Edt. rewrite !total_len_cons. cbn [snd].
  destruct (Z.ltb_spec (len f + total_len lf) copy_len); [done|]. cbn [orb]. rewrite bind_ok, Htt.
  destruct (Z.ltb_spec (len t + total_len lt) (offset + copy_len)); [done|].
  pose proof (chain_at_fuel _ _ _ (pk_chain _ _ _ _ Hpt)) as Hft.
  pose proof (chain_at_fuel _ _ _ (pk_chain _ _ _ _ Hpf)) as Hff. cbn [length] in Hft, Hff.
  pose proof (packet_cons _ _ _ _ _ _ Hpf) as (_ & _ & Hlf & _).
  destruct (copy_pbuf_loop_spec ps (chain_fuel ps + chain_fuel ps) ar pt t lt pf f lf copy_len offset 0)
    as (ar' & -> & Hp' & Hd & Hk); try done; try (rewrite total_len_cons; cbn [snd]); try solve_u.
  exists ar'. destruct (packet_others ps ar ar' pf _ _ Hpf Hk Hsf) as [Hpf' Hdf'].
  split; [done|]. split; [done|]. split; [done|]. split; [done|]. split; [|done].
  rewrite Hd. unfold window. by rewrite drop_0.
Qed.

(** ** Properties *)

(** C32: the functions that read a packet see one byte string, however the data
    is cut into pbufs: [pbuf_copy_partial] copies the bytes asked for, as many as
    there are, to the start of the buffer and returns their number;
    [pbuf_get_contiguous] gives a pointer to exactly these bytes, copied into the
    buffer if they span pbufs, and NULL with a sufficient buffer only if the
    packet is too short; [pbuf_try_get_at] returns the byte or -1. No access is
    outside of a payload. *)
Theorem pbuf_read_correct ps ar p l d len_ offset :
  packet ps ar p l -> is_u16 len_ -> is_u16 offset -> 0 < len_ <= length d ->
  let w := window (chain_data ar l) offset len_ in
  pbuf_copy_partial ps ar (Some p) (Some d) len_ offset = Ok (Z.of_nat (length w), Some (list_inserts 0 w d)) /\
  pbuf_try_get_at ps ar (Some p) offset =
    Ok (match chain_data ar l !! Z.to_nat offset with Some c => c | None => -1 end) /\
  exists r buffer, pbuf_get_contiguous ps ar (Some p) (Some d) (length d) len_ offset = Ok (r, buffer) /\
    match r with
    | InPayload q o => buffer = Some d /\ length w = len_ :> Z /\
        exists b, ps !! q = Some b /\ area_read ar (payload b) o len_ = Ok w
    | InBuffer => length w = len_ :> Z /\ buffer = Some (list_inserts 0 w d)
    | NoData => Z.of_nat (length w) < len_
    end.
Proof.
  intros Hp Hl Ho Hd w. split; [|split].
  - apply pbuf_copy_partial_spec; try done. unfold w. rewrite window_length; solve_u.
  - by apply pbuf_try_get_at_spec.
  - destruct (pbuf_get_contiguous_spec ps ar p l (Some d) (length d) len_ offset Hp Hl Ho) as (r & buffer & E & Hr);
      [lia | done |]. exists r, buffer. split; [exact E|]. destruct r as [q o| |].
    + destruct Hr as (-> & Hr). done.
    + destruct Hr as (Hw & d' & [= <-] & ->). done.
    + by apply (Hr d eq_refl); lia.
Qed.

(** Searching a packet of at most 65534 bytes: [pbuf_memcmp] returns 0xffff
    if the packet is too short, 0 if the bytes are equal and otherwise one more
    than the first difference; [pbuf_memfind] returns the first occurrence from
    the start offset on, 0xFFFF if there is none, and always returns;
    [pbuf_strstr] does so for a C string, which may span pbufs. *)
Theorem pbuf_find_correct ps ar p l mem n start sub s :
  packet ps ar p l -> bytes_ok (chain_data ar l) -> total_len l <= 0xFFFE ->
  is_u16 n -> n <= length mem -> is_u16 start -> cstring sub s -> s <> [] -> Z.of_nat (length s) < 0xFFFF ->
  (exists r, pbuf_memcmp ps ar p start mem n = Ok r /\
     if total_len l <? start + n then r = 0xffff
     else memcmp_result (window (chain_data ar l) start n) mem n r) /\
  (exists r, pbuf_memfind ps ar p mem n start = Ok r /\
     find_result (take (Z.to_nat n) mem) (chain_data ar l) start r) /\
  (exists r, pbuf_strstr ps ar p (Some sub) = Ok r /\ find_result s (chain_data ar l) 0 r).
Proof.
  intros. split; [by apply pbuf_memcmp_spec|]. split; [by apply pbuf_memfind_spec | by apply pbuf_strstr_spec].
Qed.

(** C33: writing into a packet changes its byte string at the offset and nothing
    else: [pbuf_take], [pbuf_take_at] and [pbuf_put_at] put the data at the start
    resp. at the offset, across pbufs, or return ERR_MEM (do nothing) and change
    nothing if it does not fit; all memory outside of the packet's payloads
    keeps its contents. *)
Theorem pbuf_write_correct ps ar p l d offset c :
  packet ps ar p l -> separated l -> is_u16 offset -> is_u16 (length d) ->
  (if total_len l <? length d then pbuf_take ps ar (Some p) (Some d) (length d) = Ok (ar, ERR_MEM)
   else exists ar', pbuf_take ps ar (Some p) (Some d) (length d) = Ok (ar', ERR_OK) /\
     packet ps ar' p l /\ chain_data ar' l = list_inserts 0 d (chain_data ar l) /\ others_kept ar ar' l) /\
  (if (total_len l <=? offset) || (total_len l <? offset + length d)
   then pbuf_take_at ps ar (Some p) d (length d) offset = Ok (ar, ERR_MEM)
   else exists ar', pbuf_take_at ps ar (Some p) d (length d) offset = Ok (ar', ERR_OK) /\
     packet ps ar' p l /\ chain_data ar' l = list_inserts (Z.to_nat offset) d (chain_data ar l) /\
     others_kept ar ar' l) /\
  exists ar', pbuf_put_at ps ar (Some p) offset c = Ok ar' /\
    packet ps ar' p l /\ chain_data ar' l = <[Z.to_nat offset := c]> (chain_data ar l) /\ others_kept ar ar' l.
Proof.
  intros Hp Hs Ho Hd. split; [|split].
  - pose proof (pbuf_take_spec ps ar p l d (length d) Hp Hs) as H. rewrite Nat2Z.id, firstn_all in H.
    apply H. lia.
  - by apply pbuf_take_at_spec.
  - by apply pbuf_put_at_spec.
Qed.

(** Copying between packets whose pbufs are not empty, whatever their
    cuts: [pbuf_copy_partial_pbuf] with an offset inside of the first pbuf of the
    target replaces the target's bytes at the offset by the first [copy_len]
    bytes of the source and returns ERR_OK, or returns ERR_ARG without a change
    if source or target are too short; [pbuf_copy] does so with the whole source.
    The source and all other memory keep their contents. *)
Theorem pbuf_copy_correct ps ar pt lt pf lf t copy_len offset :
  packet ps ar pt lt -> packet ps ar pf lf -> separated lt ->
  Forall (fun x => Forall (fun y => separate x.2 y.2) lt) lf -> no_empty lt -> no_empty lf ->
  ps !! pt = Some t -> 0 <= offset <= len t -> is_u16 copy_len ->
  (if (total_len lf <? copy_len) || (total_len lt <? offset + copy_len)
   then pbuf_copy_partial_pbuf ps ar (Some pt) (Some pf) copy_len offset = Ok (ar, ERR_ARG)
   else exists ar', pbuf_copy_partial_pbuf ps ar (Some pt) (Some pf) copy_len offset = Ok (ar', ERR_OK) /\
     packet ps ar' pt lt /\ packet ps ar' pf lf /\ chain_data ar' lf = chain_data ar lf /\
     chain_data ar' lt = list_inserts (Z.to_nat offset) (take (Z.to_nat copy_len) (chain_data ar lf)) (chain_data ar lt) /\
     others_kept ar ar' lt) /\
  (if total_len lt <? total_len lf then pbuf_copy ps ar (Some pt) (Some pf) = Ok (ar, ERR_ARG)
   else exists ar', pbuf_copy ps ar (Some pt) (Some pf) = Ok (ar', ERR_OK) /\
     packet ps ar' pt lt /\ packet ps ar' pf lf /\ chain_data ar' lf = chain_data ar lf /\
     chain_data ar' lt = list_inserts 0 (chain_data ar lf) (chain_data ar lt) /\
     others_kept ar ar' lt).
Proof.
  intros Hpt Hpf Hst Hsf Hnt Hnf Et Ho Hcl. split; [by apply (pbuf_copy_partial_pbuf_spec _ _ _ _ _ _ _ _ t)|].
  pose proof (pk_total _ _ _ _ Hpf) as Hmax. pose proof (chain_at_total _ _ _ (pk_chain _ _ _ _ Hpf)) as Hmin.
  pose proof (pbuf_copy_partial_pbuf_spec ps ar pt lt pf lf (total_len lf) 0 t Hpt Hpf Hst Hsf Hnt Hnf Et
    ltac:(lia) ltac:(solve_u)) as H.
  rewrite Z.ltb_irrefl in H. cbn [orb] in H. rewrite Z.add_0_l in H.
  pose proof (packet_length _ _ _ _ Hpf) as Hlen. rewrite take_ge in H by lia. change (Z.to_nat 0) with 0%nat in H.
  unfold pbuf_copy. destruct lf as [|[y f] lf]; [by apply packet_nil in Hpf|].
  pose proof (packet_cons _ _ _ _ _ _ Hpf) as (-> & -> & _ & Htf & _). rewrite bind_ok, Htf.
  rewrite total_len_cons in H |- *. exact H.
Qed.

(** With an offset behind the first pbuf of the target, which the
    documentation allows, [pbuf_copy_partial_pbuf] never succeeds: the unsigned
    difference [p_to->len - offset_to] wraps around, the data is copied to where
    the first payload has ended, and the assertion after the copy fails unless
    the copy itself left the memory area. *)
Theorem copy_partial_pbuf_offset_faults ps ar pt t lt pf f lf copy_len offset :
  packet ps ar pt ((pt, t) :: lt) -> packet ps ar pf ((pf, f) :: lf) -> 0 < len f ->
  0 < copy_len <= total_len ((pf, f) :: lf) -> len t < offset ->
  offset + copy_len <= total_len ((pt, t) :: lt) ->
  exists e, pbuf_copy_partial_pbuf ps ar (Some pt) (Some pf) copy_len offset = Err e.
Proof.
  intros Hpt Hpf Hf Hcl Ho Htot.
  pose proof (packet_cons _ _ _ _ _ _ Hpt) as (_ & Edt & Hlt & Htt & _ & Hmt & _).
  pose proof (packet_cons _ _ _ _ _ _ Hpf) as (_ & Edf & _ & Htf & Htlf & Hmf & Erf & Hdf & _).
  rewrite total_len_cons in *. cbn [snd] in *. unfold pbuf_copy_partial_pbuf.
  rewrite Edf, bind_ok, Htf, Edt. destruct (Z.ltb_spec (len f + total_len lf) copy_len); [lia|].
  rewrite bind_ok, Htt. destruct (Z.ltb_spec (len t + total_len lt) (offset + copy_len)); [lia|].
  unfold chain_fuel. cbn [plus copy_pbuf_loop]. rewrite Edt, bind_ok, Edf, bind_ok.
  assert (u32 (len f - 0) = len f) as -> by solve_u.
  destruct (Z.leb_spec (len f) (u32 (len t - offset))) as [_|]; [|solve_u].
  rewrite (area_read_sub _ _ _ _ 0 (Z.min copy_len (len f)) Erf), bind_ok by lia.
  destruct (area_write _ _ _ _) as [ar'|e] eqn:Ew; [|exists e; done]. rewrite bind_ok.
  destruct (Z.leb_spec (u32 (offset + Z.min copy_len (len f))) (len t)); [solve_u|].
  eexists. reflexivity.
Qed.

(** ** Witnesses *)

(** Two packets: "abcdef" in pbufs of 4 and 2 bytes, and 8 bytes in two pbufs. *)
Definition ps0 : gmap ptr pbuf := list_to_map
  [(PoolPtr 16, Pbuf (Some (PoolPtr 32)) (Some (PoolPtr 16, 2)) 6 4 0x82 0 1 0);
   (PoolPtr 32, Pbuf None (Some (PoolPtr 32, 0)) 2 2 0x82 0 1 0);
   (PoolPtr 48, Pbuf (Some (PoolPtr 64)) (Some (PoolPtr 48, 0)) 8 3 0x82 0 1 0);
   (PoolPtr 64, Pbuf None (Some (PoolPtr 64, 0)) 5 5 0x82 0 1 0)].
Definition ar0 : gmap ptr (list Z) := list_to_map
  [(PoolPtr 16, [0; 0; 97; 98; 99; 100; 0; 0]); (PoolPtr 32, [101; 102; 0; 0; 0; 0; 0; 0]);
   (PoolPtr 48, [1; 2; 3; 0; 0; 0; 0; 0]); (PoolPtr 64, [4; 5; 6; 7; 8; 0; 0; 0])].
Definition l0 : list (ptr * pbuf) :=
  [(PoolPtr 16, Pbuf (Some (PoolPtr 32)) (Some (PoolPtr 16, 2)) 6 4 0x82 0 1 0);
   (PoolPtr 32, Pbuf None (Some (PoolPtr 32, 0)) 2 2 0x82 0 1 0)].
Definition l1 : list (ptr * pbuf) :=
  [(PoolPtr 48, Pbuf (Some (PoolPtr 64)) (Some (PoolPtr 48, 0)) 8 3 0x82 0 1 0);
   (PoolPtr 64, Pbuf None (Some (PoolPtr 64, 0)) 5 5 0x82 0 1 0)].

Lemma l0_packet : packet ps0 ar0 (PoolPtr 16) l0.
Proof.
  split; [by vm_compute | | by vm_compute].
  constructor; [eexists; by vm_compute|]. constructor; [eexists; by vm_compute | done].
Defined.

Lemma l1_packet : packet ps0 ar0 (PoolPtr 48) l1.
Proof.
  split; [by vm_compute | | by vm_compute].
  constructor; [eexists; by vm_compute|]. constructor; [eexists; by vm_compute | done].
Defined.

Lemma pbuf_read_correct_witness :
  pbuf_copy_partial ps0 ar0 (Some (PoolPtr 16)) (Some [0; 0; 0; 0]) 3 2 = Ok (3, Some [99; 100; 101; 0]).
Proof.
  destruct (pbuf_read_correct ps0 ar0 (PoolPtr 16) l0 [0; 0; 0; 0] 3 2 l0_packet) as (E & _);
    [split; done | split; done | split; done |].
  etransitivity; [exact E | by vm_compute].
Defined.

Lemma pbuf_find_correct_witness :
  exists r, pbuf_memfind ps0 ar0 (PoolPtr 16) [100; 101] 2 0 = Ok r /\ r = 3.
Proof.
  destruct (pbuf_find_correct ps0 ar0 (PoolPtr 16) l0 [100; 101] 2 0 [102; 0] [102] l0_packet)
    as (_ & (r & E & _) & _);
    [repeat constructor; by vm_compute | by vm_compute | split; done | done | split; done | | done | done |].
  - split; [repeat constructor; done | by exists []].
  - exists r. split; [exact E|]. vm_compute in E. by injection E as <-.
Defined.

Lemma pbuf_write_correct_witness :
  exists ar', pbuf_take_at ps0 ar0 (Some (PoolPtr 16)) [1; 2; 3] 3 2 = Ok (ar', ERR_OK) /\
    chain_data ar' l0 = [97; 98; 1; 2; 3; 102].
Proof.
  destruct (pbuf_write_correct ps0 ar0 (PoolPtr 16) l0 [1; 2; 3] 2 0 l0_packet) as (_ & H & _);
    [repeat constructor; discriminate | split; done | split; done |].
  destruct H as (ar' & E & _ & Hd & _). exists ar'. split; [exact E|]. etransitivity; [exact Hd | by vm_compute].
Defined.

Lemma pbuf_copy_correct_witness :
  exists ar', pbuf_copy ps0 ar0 (Some (PoolPtr 48)) (Some (PoolPtr 16)) = Ok (ar', ERR_OK) /\
    chain_data ar' l1 = [97; 98; 99; 100; 101; 102; 7; 8].
Proof.
  destruct (pbuf_copy_correct ps0 ar0 (PoolPtr 48) l1 (PoolPtr 16) l0
    (Pbuf (Some (PoolPtr 64)) (Some (PoolPtr 48, 0)) 8 3 0x82 0 1 0) 1 1 l1_packet l0_packet) as [_ H];
    [repeat constructor; discriminate | repeat constructor; discriminate
    | repeat constructor; by vm_compute | repeat constructor; by vm_compute | by vm_compute | split; done | split; done |].
  destruct H as (ar' & E & _ & _ & _ & Hd & _). exists ar'. split; [exact E|]. etransitivity; [exact Hd | by vm_compute].
Defined.

Lemma copy_partial_pbuf_offset_faults_witness :
  exists e, pbuf_copy_partial_pbuf ps0 ar0 (Some (PoolPtr 48)) (Some (PoolPtr 16)) 2 4 = Err e /\
    e = AssertFail "offset_to <= p_to->len".
Proof.
  destruct (copy_partial_pbuf_offset_faults ps0 ar0 (PoolPtr 48)
    (Pbuf (Some (PoolPtr 64)) (Some (PoolPtr 48, 0)) 8 3 0x82 0 1 0)
    [(PoolPtr 64, Pbuf None (Some (PoolPtr 64, 0)) 5 5 0x82 0 1 0)] (PoolPtr 16)
    (Pbuf (Some (PoolPtr 32)) (Some (PoolPtr 16, 2)) 6 4 0x82 0 1 0)
    [(PoolPtr 32, Pbuf None (Some (PoolPtr 32, 0)) 2 2 0x82 0 1 0)] 2 4 l1_packet l0_packet) as (e & E);
    [done | split; done | done | done |].
  exists e. split; [exact E|]. vm_compute in E. by injection E as <-.
Defined.
