(* ===== verification/PbufRef.v ===== *)
(** * Reference counts of packet buffers: src/src/lwip/core/pbuf.c

    The functions are those of Pbuf.v. Here is the invariant that makes their
    memory management safe: a pbuf's counter is the number of the pointers to
    it, from clients ([E], a multiset) and from chains, and every pbuf in use is
    an allocated element of its pool or a block in use of the heap. *)

From stdpp Require Import gmultiset.
From S2P Require Import Prelude Alloc Memp Mem Pbuf.

(** ** Definitions *)

(** The chain pointers to [x]. *)
Definition incoming (ps : gmap ptr pbuf) (x : ptr) : nat :=
  size (filter (fun yb => next yb.2 = Some x) ps).

(** The clients' pointers of the blocks in use. *)
Fixpoint used_ptrs (o : Z) (l : layout) : list Z :=
  match l with
  | [] => []
  | (sz, u) :: l' =>
      (if u : bool then [o + SIZEOF_STRUCT_MEM] else []) ++ used_ptrs (o + sz) l'
  end.

(** Where a pbuf's memory comes from. Custom pbufs are the client's. *)
Definition kind_ok (x : ptr) (b : pbuf) : Prop :=
  Z.land (flags b) PBUF_FLAG_IS_CUSTOM = 0 /\
  match x with
  | PoolPtr _ => pbuf_get_allocsrc b = PBUF_TYPE_ALLOC_SRC_MASK_STD_MEMP_PBUF_POOL
  | MempPtr _ => pbuf_get_allocsrc b = PBUF_TYPE_ALLOC_SRC_MASK_STD_MEMP_PBUF
  | HeapPtr _ => pbuf_get_allocsrc b = PBUF_TYPE_ALLOC_SRC_MASK_STD_HEAP
  | _ => False
  end.

Section Safe.
Context {P1 P2 : Type} `{!PoolAlloc P1} `{!PoolAlloc P2}.
Implicit Type s : store P1 P2.

Record ref_inv s (E : gmultiset ptr) : Prop := RefInv
  { ri_ref : forall x b, pbufs s !! x = Some b ->
      ref b = Z.of_nat (multiplicity x E + incoming (pbufs s) x) /\ 0 < ref b < 256;
    ri_next : forall y b x, pbufs s !! y = Some b -> next b = Some x -> is_Some (pbufs s !! x);
    ri_ext : forall x, x ∈ E -> is_Some (pbufs s !! x);
    ri_kind : forall x b, pbufs s !! x = Some b -> kind_ok x b;
    ri_pool : exists U, pool_holds (pbuf_pool s) U /\ forall a, is_Some (pbufs s !! PoolPtr a) -> a ∈ U;
    ri_memp : exists U, pool_holds (pbuf_memp s) U /\ forall a, is_Some (pbufs s !! MempPtr a) -> a ∈ U;
    ri_heap : exists l, heap_rep (heap_mem s) l /\
      forall a, is_Some (pbufs s !! HeapPtr a) -> a ∈ used_ptrs 0 l }.

(** The elements [L] of the pool are taken and belong to no pbuf: they are lost,
    or somebody else's. *)
Definition lost s (L : gset Z) : Prop :=
  exists U, pool_holds (pbuf_pool s) U /\ (forall a, a ∈ U <-> a ∈ L \/ is_Some (pbufs s !! PoolPtr a)) /\
    forall a, a ∈ L -> pbufs s !! PoolPtr a = None.

(** No element is lost, and the heap has not less room. *)
Record keeps s s' : Prop := Keeps
  { kp_pool : forall L, lost s L -> lost s' L;
    kp_heap : forall l, heap_rep (heap_mem s) l -> exists l', heap_rep (heap_mem s') l' /\ layout_le l l' }.

(** Whether the heap has room for [pbuf_alloc(layer, n, PBUF_RAM)]. *)
Definition has_ram (layer n : Z) s : bool :=
  let payload_len := u16 (LWIP_MEM_ALIGN_SIZE layer + LWIP_MEM_ALIGN_SIZE n) in
  let alloc_len := u16 (LWIP_MEM_ALIGN_SIZE SIZEOF_STRUCT_PBUF + payload_len) in
  negb ((payload_len <? LWIP_MEM_ALIGN_SIZE n) || (alloc_len <? LWIP_MEM_ALIGN_SIZE n)) && can_malloc alloc_len (heap_mem s).

(** The calls of a client, and what it holds afterwards. *)
Inductive pbuf_op : Type :=
  | OpRef (p : ptr)
  | OpFree (p : ptr)
  | OpAlloc (layer length : Z) (type : pbuf_type)
  | OpCat (h t : ptr)
  | OpChain (h t : ptr)
  | OpDechain (p : ptr).

Variable custom_free_function : ptr -> store P1 P2 -> res (store P1 P2).
Variable fresh_byte : nat -> Z.

Definition pbuf_exec (op : pbuf_op) s : res (store P1 P2 * option ptr) :=
  match op with
  | OpRef p => s ← pbuf_ref (Some p) s; Ok (s, None)
  | OpFree p => '(s, _) ← pbuf_free custom_free_function (Some p) s; Ok (s, None)
  | OpAlloc layer length type => pbuf_alloc custom_free_function fresh_byte layer length type s
  | OpCat h t => s ← pbuf_cat (Some h) (Some t) s; Ok (s, None)
  | OpChain h t => s ← pbuf_chain (Some h) (Some t) s; Ok (s, None)
  | OpDechain p => '(s, _) ← pbuf_dechain custom_free_function p s; Ok (s, None)
  end.

(** The client's obligations: it holds what it frees or gives away, the counter
    does not overflow, lengths are 16 bits, and a packet that another one is
    appended to has the invariant of [tot_len]. *)
Definition op_allowed (op : pbuf_op) s (E : gmultiset ptr) : Prop :=
  match op with
  | OpRef p => exists b, pbufs s !! p = Some b /\ ref b < 255
  | OpFree p => p ∈ E
  | OpAlloc layer length _ => 0 <= layer <= 128 /\ is_u16 length
  | OpCat h t => t ∈ E /\ h <> t /\ exists l, chain_at (pbufs s) (Some h) l /\ t ∉ l.*1
  | OpChain h t => t ∈ E /\ h <> t /\ exists l b, chain_at (pbufs s) (Some h) l /\ t ∉ l.*1 /\
                     pbufs s !! t = Some b /\ ref b < 255
  | OpDechain p => p ∈ E /\ exists l, chain_at (pbufs s) (Some p) l
  end.

Definition op_holds (op : pbuf_op) (r : option ptr) (E : gmultiset ptr) : gmultiset ptr :=
  match op with
  | OpRef p => {[+ p +]} ⊎ E
  | OpFree p => E ∖ {[+ p +]}
  | OpAlloc _ _ _ => match r with Some p => {[+ p +]} ⊎ E | None => E end
  | OpCat _ t => E ∖ {[+ t +]}
  | OpChain _ _ => E
  | OpDechain _ => E
  end.

End Safe.

(** The pools as the build declares them, at some addresses; their memory is
    zero at boot. *)
Definition pbuf_pool_desc : memp_desc := MempDesc (SIZEOF_STRUCT_PBUF + PBUF_POOL_BUFSIZE_ALIGNED) 16 0x20002000.
Definition pbuf_memp_desc : memp_desc := MempDesc SIZEOF_STRUCT_PBUF 16 0x20005000.
Definition boot_pool (d : memp_desc) : pool :=
  let p := Pool (list_to_map ((fun a => (a, 0)) <$> elems d)) 0 (StatsMem 0 0 0 0 0) in
  match memp_init_pool d p with Ok p => p | Err _ => p end.

(** ** Lemmas *)

(** *** Counting pointers *)

Definition points_to (b : pbuf) (x : ptr) : nat := if decide (next b = Some x) then 1 else 0.

Lemma incoming_insert_fresh ps y b x : ps !! y = None -> incoming (<[y := b]> ps) x = (points_to b x + incoming ps x)%nat.
Proof.
  intros Hy. unfold incoming, points_to. rewrite map_filter_insert. cbn [snd].
  destruct (decide (next b = Some x)).
  - rewrite map_size_insert_None; [done|]. apply map_lookup_filter_None. by left.
  - by rewrite delete_id.
Qed.

Lemma incoming_delete ps y b x : ps !! y = Some b -> incoming ps x = (points_to b x + incoming (delete y ps) x)%nat.
Proof.
  intros Hy. rewrite <- (insert_delete_id ps y b Hy) at 1. apply incoming_insert_fresh. apply lookup_delete_eq.
Qed.

Lemma incoming_insert ps y b b' x : ps !! y = Some b ->
  (incoming (<[y := b']> ps) x + points_to b x = points_to b' x + incoming ps x)%nat.
Proof.
  intros Hy. rewrite <- insert_delete_eq, incoming_insert_fresh by apply lookup_delete_eq.
  rewrite (incoming_delete ps y b x Hy). lia.
Qed.

Lemma incoming_same_next ps y b b' x : ps !! y = Some b -> next b' = next b ->
  incoming (<[y := b']> ps) x = incoming ps x.
Proof.
  intros Hy Hn. pose proof (incoming_insert ps y b b' x Hy) as H. unfold points_to in H. rewrite Hn in H. lia.
Qed.

Lemma incoming_pos ps y b x : ps !! y = Some b -> next b = Some x -> (0 < incoming ps x)%nat.
Proof. intros Hy Hn. rewrite (incoming_delete ps y b x Hy). unfold points_to. rewrite decide_True by done. lia. Qed.

Lemma incoming_zero ps x : (forall y b, ps !! y = Some b -> next b <> Some x) -> incoming ps x = 0%nat.
Proof.
  intros H. unfold incoming. rewrite map_empty_filter_2; [apply map_size_empty|].
  intros y b Hy. cbn. by apply (H y).
Qed.


(** *** Blocks of the heap *)

Lemma used_ptrs_app o l1 l2 : used_ptrs o (l1 ++ l2) = used_ptrs o l1 ++ used_ptrs (o + total l1) l2.
Proof.
  revert o. induction l1 as [|[sz u] l1 IH]; intros o; cbn [app used_ptrs]; [by rewrite Z.add_0_r|].
  by rewrite IH, total_cons, Z.add_assoc, <- app_assoc.
Qed.

Lemma used_ptrs_split o l a : a ∈ used_ptrs o l ->
  exists l1 sz l2, l = l1 ++ (sz, true) :: l2 /\ a = o + total l1 + SIZEOF_STRUCT_MEM.
Proof.
  revert o. induction l as [|[sz u] l IH]; intros o; cbn [used_ptrs]; [by intros ?%elem_of_nil|].
  intros [H|H]%elem_of_app.
  - destruct u; [|by apply elem_of_nil in H]. apply list_elem_of_singleton in H as ->.
    exists [], sz, l. cbn. by rewrite Z.add_0_r.
  - destruct (IH _ H) as (l1 & sz1 & l2 & -> & ->). exists ((sz, u) :: l1), sz1, l2.
    rewrite total_cons. split; [done | lia].
Qed.

Lemma used_ptrs_bounds o l a : Forall block_ok l -> a ∈ used_ptrs o l ->
  o + SIZEOF_STRUCT_MEM <= a < o + total l + SIZEOF_STRUCT_MEM.
Proof.
  intros Hb Ha. destruct (used_ptrs_split _ _ _ Ha) as (l1 & sz & l2 & -> & ->).
  apply Forall_app in Hb as [Hb1 Hb2]. apply Forall_cons in Hb2 as [Hb Hb2]. apply block_pos in Hb.
  pose proof (total_bounds l1 Hb1). pose proof (total_bounds l2 Hb2). rewrite total_app, total_cons. lia.
Qed.

Lemma used_ptrs_merge o sz l : used_ptrs o (merge_head sz l) = used_ptrs (o + sz) l.
Proof. destruct l as [|[s []] l]; cbn; rewrite ?Z.add_assoc; done. Qed.

(** Freeing a block leaves the others. *)
Lemma used_ptrs_free l1 sz l2 a :
  a ∈ used_ptrs 0 (l1 ++ (sz, true) :: l2) -> a <> total l1 + SIZEOF_STRUCT_MEM ->
  a ∈ used_ptrs 0 (free_layout l1 sz l2).
Proof.
  rewrite used_ptrs_app, Z.add_0_l. cbn [used_ptrs]. rewrite !elem_of_app, list_elem_of_singleton.
  intros Ha Hne. destruct l1 as [|[s1 u1] l0 _] using rev_ind.
  - cbn [free_layout]. rewrite used_ptrs_merge. change (total []) with 0 in *. cbn [used_ptrs] in Ha.
    destruct Ha as [Ha%elem_of_nil|[|]]; done.
  - assert (Ht : total (l0 ++ [(s1, u1)]) = total l0 + s1) by (rewrite total_app, total_cons; cbn; lia).
    rewrite Ht in *. destruct u1.
    + rewrite free_layout_snoc_used, used_ptrs_app, used_ptrs_merge, Ht, Z.add_0_l, elem_of_app. tauto.
    + rewrite free_layout_merge, used_ptrs_app, used_ptrs_merge, Z.add_0_l, Z.add_assoc, elem_of_app.
      rewrite used_ptrs_app, elem_of_app in Ha. cbn [used_ptrs app] in Ha. rewrite elem_of_nil in Ha. tauto.
Qed.

(** A fresh block, and the others stay. *)
Lemma used_ptrs_malloc n l o l' : Forall block_ok l -> malloc_layout n l = Some (o, l') ->
  o + SIZEOF_STRUCT_MEM ∉ used_ptrs 0 l /\ o + SIZEOF_STRUCT_MEM ∈ used_ptrs 0 l' /\
  forall a, a ∈ used_ptrs 0 l -> a ∈ used_ptrs 0 l'.
Proof.
  intros Hb. unfold malloc_layout. destruct (_ || _); [done|]. intros H.
  apply alloc_layout_some in H as (l1 & sz & l2 & -> & -> & Hsz & ->).
  apply Forall_app in Hb as [Hb1 Hb2]. apply Forall_cons in Hb2 as [Hb Hb2]. apply block_pos in Hb.
  rewrite !(used_ptrs_app 0 l1), !Z.add_0_l. cbn [used_ptrs app].
  assert (E : exists s r, (if aligned_size n + 2 * SIZEOF_STRUCT_MEM + MIN_SIZE_ALIGNED <=? sz
       then [(aligned_size n + SIZEOF_STRUCT_MEM, true); (sz - aligned_size n - SIZEOF_STRUCT_MEM, false)]
       else [(sz, true)]) ++ l2 = (s, true) :: r /\ used_ptrs (total l1 + s) r = used_ptrs (total l1 + sz) l2).
  { destruct (_ <=? sz); eexists _, _; (split; [reflexivity|]); [|done]. cbn [app used_ptrs].
    f_equal. lia. }
  destruct E as (s & r & -> & Er). cbn [used_ptrs]. rewrite Er. split; [|split].
  - intros [H|H]%elem_of_app; (apply used_ptrs_bounds in H; [lia | done]).
  - rewrite !elem_of_app, list_elem_of_singleton. tauto.
  - intros a. rewrite !elem_of_app. tauto.
Qed.

Lemma domain_grows (ps : gmap ptr pbuf) p b x : is_Some (<[p := b]> ps !! x) -> x = p \/ is_Some (ps !! x).
Proof. intros [->|]%lookup_insert_is_Some'; tauto. Qed.

Lemma payload_aligned_true p off : payload_aligned p off = true.
Proof. unfold payload_aligned, payload_offset, MEM_ALIGNMENT. rewrite mem_align_spec. apply Z.eqb_eq. lia. Qed.

Lemma room_pos offset : 0 <= offset <= 128 ->
  (0 <? u32 (PBUF_POOL_BUFSIZE_ALIGNED - LWIP_MEM_ALIGN_SIZE offset)) = true.
Proof.
  intros Ho. rewrite LWIP_MEM_ALIGN_SIZE_spec by lia. unfold PBUF_POOL_BUFSIZE_ALIGNED. apply Z.ltb_lt. solve_u.
Qed.

Lemma chain_at_insert_other ps x b p l : chain_at ps p l -> x ∉ l.*1 -> chain_at (<[x := b]> ps) p l.
Proof.
  revert p. induction l as [|[y c] l IH]; intros p; [done|]. cbn [chain_at fmap list_fmap fst].
  intros (-> & Hy & Hl & Ht & Hc) [Hne Hx]%not_elem_of_cons. rewrite lookup_insert_ne by done. split_and!; auto.
Qed.

(** *** The pools after boot *)

Lemma pbuf_pool_desc_ok : desc_ok pbuf_pool_desc.
Proof. unfold desc_ok, pbuf_pool_desc, SIZEOF_STRUCT_PBUF, PBUF_POOL_BUFSIZE_ALIGNED. cbn. lia. Qed.
Lemma pbuf_memp_desc_ok : desc_ok pbuf_memp_desc.
Proof. unfold desc_ok, pbuf_memp_desc, SIZEOF_STRUCT_PBUF. cbn. lia. Qed.

Lemma boot_pool_rep d : desc_ok d -> exists free, pool_rep d (boot_pool d) free ∅.
Proof.
  intros Hd. unfold boot_pool. match goal with |- context [memp_init_pool d ?q] => set (p := q) end.
  destruct (memp_init_pool_rep d Hd p) as (p' & -> & R); [|done | by eexists].
  intros a Ha. cbn [words p]. destruct (list_to_map ((fun a => (a, 0)) <$> elems d) !! a) as [v|] eqn:Ev; [eauto|].
  exfalso. apply not_elem_of_list_to_map_2 in Ev. apply Ev.
  rewrite <- list_fmap_compose. apply list_elem_of_fmap. by exists a.
Qed.

(** *** Steps *)

Section Steps.
Context {P1 P2 : Type} `{!PoolAlloc P1} `{!PoolAlloc P2}.
Implicit Type s : store P1 P2.
#[local] Set Default Proof Using "Type*".

Lemma get_some s x b : pbufs s !! x = Some b -> get x s = Ok b.
Proof using Type. intros H. unfold get, deref. by rewrite H. Qed.

Lemma modify_some s x b f : pbufs s !! x = Some b -> modify x f s = Ok (set_pbufs (<[x := f b]> (pbufs s)) s).
Proof using Type. intros H. unfold modify. by rewrite (get_some _ _ _ H). Qed.

(** A pbuf changes, its chain pointer and kind stay: the counter moves with [E]. *)
Lemma ref_inv_update s E E' x b b' :
  ref_inv s E -> pbufs s !! x = Some b -> next b' = next b ->
  Z.land (flags b') PBUF_FLAG_IS_CUSTOM = Z.land (flags b) PBUF_FLAG_IS_CUSTOM ->
  type_internal b' = type_internal b ->
  (forall y, y <> x -> multiplicity y E' = multiplicity y E) ->
  ref b' + Z.of_nat (multiplicity x E) = ref b + Z.of_nat (multiplicity x E') -> 0 < ref b' < 256 ->
  ref_inv (set_pbufs (<[x := b']> (pbufs s)) s) E'.
Proof.
  intros [Hr Hn He Hk Hp Hm Hh] Hx Hnx Hf Ht HE Href Hb'.
  assert (Hdom : forall y, is_Some (<[x := b']> (pbufs s) !! y) <-> is_Some (pbufs s !! y)).
  { intros y. destruct (decide (x = y)) as [<-|Hne].
    - rewrite lookup_insert_eq, Hx. split; by eexists.
    - by rewrite lookup_insert_ne. }
  split; cbn [pbufs set_pbufs pbuf_pool pbuf_memp heap_mem].
  - intros y c. rewrite (incoming_same_next _ x b) by done.
    destruct (decide (x = y)) as [<-|Hne].
    + rewrite lookup_insert_eq. intros [= <-]. destruct (Hr x b Hx). split; [lia | done].
    + rewrite lookup_insert_ne by done. intros Hy. rewrite HE by done. by apply Hr.
  - intros y c z Hy Hz. apply Hdom. destruct (decide (x = y)) as [<-|Hne].
    + rewrite lookup_insert_eq in Hy. injection Hy as <-. rewrite Hnx in Hz. by apply (Hn x b).
    + rewrite lookup_insert_ne in Hy by done. by apply (Hn y c).
  - intros y Hy. apply Hdom. destruct (decide (y = x)) as [->|Hne]; [by rewrite Hx|].
    apply He. apply elem_of_multiplicity. rewrite <- HE by done. by apply elem_of_multiplicity in Hy.
  - intros y c. destruct (decide (x = y)) as [<-|Hne].
    + rewrite lookup_insert_eq. intros [= <-]. pose proof (Hk x b Hx) as Hkx.
      unfold kind_ok, pbuf_get_allocsrc in *. by rewrite Hf, Ht.
    + rewrite lookup_insert_ne by done. apply Hk.
  - destruct Hp as (U & HU & Ha). exists U. split; [done|]. intros a H. apply Ha. by apply Hdom.
  - destruct Hm as (U & HU & Ha). exists U. split; [done|]. intros a H. apply Ha. by apply Hdom.
  - destruct Hh as (l & Hl & Ha). exists l. split; [done|]. intros a H. apply Ha. by apply Hdom.
Qed.

(** The reference of a chain pointer passes to the client and back. *)
Lemma ref_inv_relink s E E' x b b' :
  ref_inv s E -> pbufs s !! x = Some b -> flags b' = flags b -> type_internal b' = type_internal b ->
  ref b' = ref b -> (forall z, next b' = Some z -> is_Some (pbufs s !! z)) ->
  (forall z, z ∈ E' -> is_Some (pbufs s !! z)) ->
  (forall z, multiplicity z E' + points_to b' z = multiplicity z E + points_to b z)%nat ->
  ref_inv (set_pbufs (<[x := b']> (pbufs s)) s) E'.
Proof.
  intros [Hr Hn He Hk Hp Hm Hh] Hx Hf Ht Href Hnx HE' HE.
  assert (Hdom : forall y, is_Some (<[x := b']> (pbufs s) !! y) <-> is_Some (pbufs s !! y)).
  { intros y. destruct (decide (x = y)) as [<-|Hne].
    - rewrite lookup_insert_eq, Hx. split; by eexists.
    - by rewrite lookup_insert_ne. }
  split; cbn [pbufs set_pbufs pbuf_pool pbuf_memp heap_mem].
  - intros y c Hy. pose proof (incoming_insert _ x b b' y Hx) as Hin. specialize (HE y).
    assert (exists c', pbufs s !! y = Some c' /\ ref c = ref c') as (c' & Hy' & ->).
    { destruct (decide (x = y)) as [<-|Hne].
      - rewrite lookup_insert_eq in Hy. injection Hy as <-. by exists b.
      - rewrite lookup_insert_ne in Hy by done. by exists c. }
    destruct (Hr y c' Hy'). split; [lia | done].
  - intros y c z Hy Hz. apply Hdom. destruct (decide (x = y)) as [<-|Hne].
    + rewrite lookup_insert_eq in Hy. injection Hy as <-. by apply Hnx.
    + rewrite lookup_insert_ne in Hy by done. by apply (Hn y c).
  - intros y Hy. apply Hdom. by apply HE'.
  - intros y c. destruct (decide (x = y)) as [<-|Hne].
    + rewrite lookup_insert_eq. intros [= <-]. pose proof (Hk x b Hx) as Hkx.
      unfold kind_ok, pbuf_get_allocsrc in *. by rewrite Hf, Ht.
    + rewrite lookup_insert_ne by done. apply Hk.
  - destruct Hp as (U & HU & Ha). exists U. split; [done|]. intros a H. apply Ha. by apply Hdom.
  - destruct Hm as (U & HU & Ha). exists U. split; [done|]. intros a H. apply Ha. by apply Hdom.
  - destruct Hh as (l & Hl & Ha). exists l. split; [done|]. intros a H. apply Ha. by apply Hdom.
Qed.

Lemma pbuf_ref_inv s E x b :
  ref_inv s E -> pbufs s !! x = Some b -> ref b < 255 ->
  exists s', pbuf_ref (Some x) s = Ok s' /\ ref_inv s' ({[+ x +]} ⊎ E) /\
    pbufs s' = <[x := with_ref (ref b + 1) b]> (pbufs s).
Proof.
  intros Hs Hx Hr. pose proof (ri_ref _ _ Hs x b Hx) as [_ Hb]. unfold pbuf_ref.
  rewrite (modify_some _ _ _ _ Hx), bind_ok. unfold LWIP_PBUF_REF_T. rewrite u8_id by solve_u.
  rewrite (get_some _ x (with_ref (ref b + 1) b)), bind_ok by (cbn; apply lookup_insert_eq).
  cbn [ref with_ref]. destruct (Z.ltb_spec 0 (ref b + 1)); [|lia]. cbn [lwip_assert]. rewrite bind_ok.
  eexists. split; [reflexivity|]. split; [|done].
  apply (ref_inv_update s E _ x b); try done; cbn [ref with_ref].
  - intros y Hy. by rewrite multiplicity_disj_union, multiplicity_singleton_ne.
  - rewrite multiplicity_disj_union, multiplicity_singleton_eq. lia.
  - lia.
Qed.

(** The pbufs that go and the memory they leave. *)
Lemma ref_inv_delete s E E' s' p b :
  ref_inv s E -> pbufs s !! p = Some b -> pbufs s' = delete p (pbufs s) ->
  (forall z, multiplicity z E' = if decide (z = p) then 0 else multiplicity z E + points_to b z)%nat ->
  incoming (pbufs s) p = 0%nat ->
  (exists U, pool_holds (pbuf_pool s') U /\ forall a, is_Some (pbufs s' !! PoolPtr a) -> a ∈ U) ->
  (exists U, pool_holds (pbuf_memp s') U /\ forall a, is_Some (pbufs s' !! MempPtr a) -> a ∈ U) ->
  (exists l, heap_rep (heap_mem s') l /\ forall a, is_Some (pbufs s' !! HeapPtr a) -> a ∈ used_ptrs 0 l) ->
  ref_inv s' E'.
Proof.
  intros [Hr Hn He Hk _ _ _] Hp Hs' HE Hin H1 H2 H3. split; try done; rewrite Hs'.
  - intros x c. destruct (decide (p = x)) as [<-|Hne]; [by rewrite lookup_delete_eq|].
    rewrite lookup_delete_ne by done. intros Hx. destruct (Hr x c Hx) as [Hx1 Hx2].
    rewrite (incoming_delete _ _ _ x Hp) in Hx1. rewrite HE, decide_False by done. split; [lia | done].
  - intros y c x. destruct (decide (p = y)) as [<-|Hne]; [by rewrite lookup_delete_eq|].
    rewrite lookup_delete_ne by done. intros Hy Hx.
    destruct (decide (p = x)) as [<-|Hx']; [|rewrite lookup_delete_ne by done; by apply (Hn y c)].
    pose proof (incoming_pos _ _ _ _ Hy Hx). lia.
  - intros x Hx. assert (Hm : (0 < multiplicity x E')%nat) by (by apply elem_of_multiplicity in Hx).
    rewrite HE in Hm. case_decide as Hd; [lia|].
    rewrite lookup_delete_ne by done. unfold points_to in Hm. case_decide as Hb.
    + by apply (Hn p b).
    + apply He, elem_of_multiplicity. lia.
  - intros x c. destruct (decide (p = x)) as [<-|Hne]; [by rewrite lookup_delete_eq|].
    rewrite lookup_delete_ne by done. apply Hk.
Qed.

(** A pbuf that comes into being belongs to the client. *)
Lemma ref_inv_create s E s' p b :
  ref_inv s E -> pbufs s !! p = None -> pbufs s' = <[p := b]> (pbufs s) ->
  next b = None -> ref b = 1 -> kind_ok p b ->
  (exists U, pool_holds (pbuf_pool s') U /\ forall a, is_Some (pbufs s' !! PoolPtr a) -> a ∈ U) ->
  (exists U, pool_holds (pbuf_memp s') U /\ forall a, is_Some (pbufs s' !! MempPtr a) -> a ∈ U) ->
  (exists l, heap_rep (heap_mem s') l /\ forall a, is_Some (pbufs s' !! HeapPtr a) -> a ∈ used_ptrs 0 l) ->
  ref_inv s' ({[+ p +]} ⊎ E).
Proof.
  intros [Hr Hn He Hk _ _ _] Hp Hs' Hnb Hrb Hkb H1 H2 H3.
  assert (Hin : forall x, incoming (<[p := b]> (pbufs s)) x = incoming (pbufs s) x).
  { intros x. rewrite incoming_insert_fresh by done. unfold points_to. by rewrite Hnb, decide_False by done. }
  split; try done; rewrite Hs'.
  - intros x c. rewrite Hin, multiplicity_disj_union. destruct (decide (p = x)) as [<-|Hne].
    + rewrite lookup_insert_eq. intros [= <-]. rewrite multiplicity_singleton_eq, Hrb.
      assert (multiplicity p E = 0%nat) as ->.
      { destruct (decide (p ∈ E)) as [Hm|Hm]; [|by apply not_elem_of_multiplicity in Hm].
        apply He in Hm as [? Hm]. congruence. }
      rewrite incoming_zero; [lia|]. intros y c Hy Hx. apply (Hn y c) in Hx as [? Hx]; [congruence | done].
    + rewrite lookup_insert_ne, multiplicity_singleton_ne by done. apply Hr.
  - intros y c x. destruct (decide (p = y)) as [<-|Hne].
    + rewrite lookup_insert_eq. intros [= <-]. congruence.
    + rewrite lookup_insert_ne by done. intros Hy Hx. destruct (decide (p = x)) as [<-|]; [by rewrite lookup_insert_eq|].
      rewrite lookup_insert_ne by done. by apply (Hn y c).
  - intros x [Hx%gmultiset_elem_of_singleton|Hx%He]%gmultiset_elem_of_disj_union.
    + subst. by rewrite lookup_insert_eq.
    + apply lookup_insert_is_Some'. by right.
  - intros x c. destruct (decide (p = x)) as [<-|Hne]; [rewrite lookup_insert_eq; congruence|].
    rewrite lookup_insert_ne by done. apply Hk.
Qed.

Lemma pbuf_alloc_reference_inv s E pl n type : ref_inv s E -> (type = PBUF_REF \/ type = PBUF_ROM) ->
  exists s' r, pbuf_alloc_reference pl n type s = Ok (s', r) /\
    ref_inv s' (match r with Some p => {[+ p +]} ⊎ E | None => E end) /\
    pbuf_pool s' = pbuf_pool s /\ heap_mem s' = heap_mem s /\ (forall a, is_Some (pbufs s' !! PoolPtr a) <-> is_Some (pbufs s !! PoolPtr a)).
Proof.
  intros Hs Ht. unfold pbuf_alloc_reference. replace (match type with PBUF_REF | PBUF_ROM => true | _ => false end) with true
    by (by destruct Ht as [-> | ->]).
  cbn [lwip_assert]. rewrite bind_ok. destruct (ri_memp _ _ Hs) as (U & HU & HUa).
  destruct (pool_malloc_spec _ U HU) as (pm & [a|] & -> & Hpm); rewrite bind_ok; (eexists _, _; split; [reflexivity|]; split; [|split; [done | split; [done | intros x; cbn; rewrite ?lookup_insert_ne by done; done]]]).
  - destruct Hpm as (Ha & _ & Hpm). eapply ref_inv_create; try done; cbn.
    + destruct (pbufs s !! MempPtr a) eqn:Hx; [|done]. destruct Ha. apply HUa. by rewrite Hx.
    + by destruct Ht as [-> | ->].
    + destruct (ri_pool _ _ Hs) as (U1 & HU1 & Ha1). exists U1. split; [done|].
      intros x [|Hx]%domain_grows; [done | by apply Ha1].
    + exists ({[a]} ∪ U). split; [done|]. intros x [[= ->]|Hx%HUa]%domain_grows; set_solver.
    + destruct (ri_heap _ _ Hs) as (l & Hl & Ha3). exists l. split; [done|].
      intros x [|Hx]%domain_grows; [done | by apply Ha3].
  - destruct Hpm as [_ Hpm]. destruct Hs. split; try done. exists U. done.
Qed.

(** The walk to the last pbuf. *)
Lemma cat_loop_inv fuel : forall s E p t l, ref_inv s E -> chain_at (pbufs s) (Some p) l -> t ∉ l.*1 ->
  is_Some (pbufs s !! t) -> (length l <= S fuel)%nat ->
  exists s' q b, cat_loop fuel p t s = Ok (s', q) /\ ref_inv s' E /\ pbufs s' !! q = Some b /\
    next b = None /\ tot_len b = len b /\ q <> t /\ pbufs s' !! t = pbufs s !! t.
Proof.
  induction fuel as [|fuel IH]; intros s E p t l Hs Hc Ht [tb Htb] Hf;
    (destruct l as [|[x b] l]; [done|]); pose proof (chain_at_nodup _ _ _ Hc) as Hnd;
    pose proof Hc as ([= <-] & Hx & Hlen & Htot & Hn); cbn [cat_loop];
    cbn [fmap list_fmap fst] in Ht, Hnd; apply not_elem_of_cons in Ht as [Hne Ht]; apply NoDup_cons in Hnd as [Hxl Hnd];
    rewrite (get_some _ _ _ Hx), bind_ok; destruct (next b) as [n|] eqn:En.
  1: by destruct l; [|cbn in Hf; lia].
  2: { rewrite (get_some _ _ _ Htb), bind_ok, (modify_some _ _ _ _ Hx), bind_ok.
    match goal with |- context [cat_loop fuel n t ?s1] => set (s1' := s1) end.
    destruct (IH s1' E n t l) as (s' & q & c & E1 & Hs' & Hq & Hnq & Htq & Hqt & Hfr); try done.
    - apply (ref_inv_update s E E p b); try done; by destruct (ri_ref _ _ Hs p b Hx).
    - by apply chain_at_insert_other.
    - subst s1'. cbn [pbufs set_pbufs]. by rewrite lookup_insert_ne, Htb by done.
    - cbn in Hf. lia.
    - exists s', q, c. split_and!; try done. rewrite Hfr. subst s1'. cbn [pbufs set_pbufs]. by rewrite lookup_insert_ne by done. }
  all: destruct l as [|[y c] l]; [|by destruct Hn]; exists s, p, b; split_and!; try done; cbn in Htot; lia.
Qed.

Lemma pbuf_cat_inv s E h t l : ref_inv s E -> t ∈ E -> h <> t -> chain_at (pbufs s) (Some h) l -> t ∉ l.*1 ->
  exists s', pbuf_cat (Some h) (Some t) s = Ok s' /\ ref_inv s' (E ∖ {[+ t +]}) /\ pbufs s' !! t = pbufs s !! t.
Proof.
  intros Hs Ht Hne Hc Hl. unfold pbuf_cat. rewrite bool_decide_false by done. cbn [negb lwip_assert]. rewrite bind_ok.
  pose proof (ri_ext _ _ Hs t Ht) as Htb.
  destruct (cat_loop_inv (chain_fuel (pbufs s)) s E h t l) as (s' & q & b & -> & Hs' & Hq & Hn & Htot & Hqt & Hfr); try done.
  { apply chain_at_fuel in Hc. lia. }
  rewrite bind_ok, (get_some _ _ _ Hq), bind_ok, Htot, Z.eqb_refl, Hn. cbn [lwip_assert]. rewrite !bind_ok.
  destruct Htb as [tb Htb]. rewrite Htb in Hfr. rewrite (get_some _ _ _ Hfr), bind_ok, (modify_some _ _ _ _ Hq).
  eexists. split; [reflexivity|]. assert (Hm : (0 < multiplicity t E)%nat) by (by apply elem_of_multiplicity in Ht).
  split; [|cbn [pbufs set_pbufs]; by rewrite lookup_insert_ne, Htb by done].
  eapply ref_inv_relink; try done; cbn [next with_next with_tot_len].
  - intros z [= <-]. by rewrite Hfr.
  - intros z Hz. apply (ri_ext _ _ Hs'). multiset_solver.
  - intros z. rewrite multiplicity_difference. unfold points_to. cbn [next with_next with_tot_len].
    rewrite Hn, (decide_False (P := None = Some z)) by done. case_decide as Hz.
    + injection Hz as <-. rewrite multiplicity_singleton_eq. lia.
    + rewrite multiplicity_singleton_ne by congruence. lia.
Qed.

Lemma pbuf_chain_inv s E h t l tb : ref_inv s E -> t ∈ E -> h <> t -> chain_at (pbufs s) (Some h) l -> t ∉ l.*1 ->
  pbufs s !! t = Some tb -> ref tb < 255 ->
  exists s', pbuf_chain (Some h) (Some t) s = Ok s' /\ ref_inv s' E.
Proof.
  intros Hs Ht Hne Hc Hl Htb Hr. unfold pbuf_chain.
  destruct (pbuf_cat_inv s E h t l) as (s' & -> & Hs' & Hfr); try done. rewrite bind_ok. rewrite Htb in Hfr.
  destruct (pbuf_ref_inv s' _ t tb Hs' Hfr Hr) as (s2 & -> & Hs2 & _). exists s2. split; [done|].
  by replace ({[+ t +]} ⊎ (E ∖ {[+ t +]})) with E in Hs2 by multiset_solver.
Qed.

(** *** What is lost, and room *)

#[export] Instance keeps_preorder : PreOrder (@keeps P1 P2 _).
Proof.
  split.
  - intros s. split; [done|]. intros l Hl. exists l. by split.
  - intros s1 s2 s3 [P12 H12] [P23 H23]. split; [auto|]. intros l1 (l2 & (l3 & ? & ?)%H23 & ?)%H12. exists l3. split; [done|]. by transitivity l2.
Qed.

(** Nothing has happened to the allocators and the pool's pbufs. *)
Lemma keeps_same s s' : pbuf_pool s' = pbuf_pool s -> heap_mem s' = heap_mem s ->
  (forall a, is_Some (pbufs s' !! PoolPtr a) <-> is_Some (pbufs s !! PoolPtr a)) -> keeps s s'.
Proof.
  intros Ep Eh Hd. split; [|rewrite Eh; intros l Hl; exists l; by split]. intros L (U & HU & HL & Hno). exists U. rewrite Ep.
  split_and!; [done | intros a; by rewrite HL, Hd |]. intros a Ha%Hno. apply eq_None_not_Some. rewrite Hd. by apply eq_None_not_Some.
Qed.

Lemma lost_exists s E : ref_inv s E -> exists L, lost s L.
Proof.
  intros Hs. destruct (ri_pool _ _ Hs) as (U & HU & Ha). exists (filter (fun a => pbufs s !! PoolPtr a = None) U), U.
  split; [done|]. split; [|by intros a [? _]%elem_of_filter]. intros a. rewrite elem_of_filter. split.
  - intros Hin. destruct (pbufs s !! PoolPtr a); [right; by eexists | by left].
  - intros [[_ Hin]|Hin]; [done | by apply Ha].
Qed.

Lemma keeps_ram s s' E layer n : ref_inv s E -> keeps s s' -> has_ram layer n s = true -> has_ram layer n s' = true.
Proof.
  intros Hs [_ Hk]. destruct (ri_heap _ _ Hs) as (l & Hl & _), (Hk l Hl) as (l' & Hl' & Hle).
  unfold has_ram. destruct (negb _); [|done]. cbn [andb]. apply (can_malloc_mono _ _ l l'); [done | done | done | apply u16_range].
Qed.

Lemma keeps_pool_free s s' a : is_Some (pbufs s !! PoolPtr a) -> pool_free (pbuf_pool s) a = Ok (pbuf_pool s') ->
  pbufs s' = delete (PoolPtr a) (pbufs s) -> heap_mem s' = heap_mem s -> keeps s s'.
Proof.
  intros Ha Ef Ed Eh. split; [|rewrite Eh; intros l Hl; exists l; by split]. intros L (U & HU & HL & Hno).
  destruct (pool_free_spec _ _ a HU) as (pm & Ef' & Hpm); [apply HL; by right|]. rewrite Ef in Ef'. injection Ef' as <-.
  assert (HaL : a ∉ L) by (intros Hin%Hno; rewrite Hin in Ha; by destruct Ha).
  exists (U ∖ {[a]}). rewrite Ed. split; [done|]. split.
  - intros x. rewrite elem_of_difference, elem_of_singleton, HL. destruct (decide (a = x)) as [<-|Hne].
    + rewrite lookup_delete_eq. split; [tauto|]. intros [|[]]; done.
    + rewrite lookup_delete_ne by congruence. naive_solver.
  - intros x Hx. rewrite lookup_delete_ne by (intros [= ->]; done). by apply Hno.
Qed.

(** The pool's answers. *)
Lemma keeps_pool_none s pm : pool_malloc (pbuf_pool s) = Ok (pm, None) -> keeps s (pbuf_pool_is_empty (set_pbuf_pool pm s)).
Proof.
  intros Em. split; [|intros l Hl; exists l; by split]. intros L (U & HU & HL). exists U. split; [|done].
  by destruct (pool_malloc_none _ _ _ HU Em).
Qed.

Lemma keeps_pool_some s s' a pm b : pool_malloc (pbuf_pool s) = Ok (pm, Some a) -> pbuf_pool s' = pm ->
  pbufs s' = <[PoolPtr a := b]> (pbufs s) -> heap_mem s' = heap_mem s -> keeps s s'.
Proof.
  intros Em <- Ed Eh. split; [|rewrite Eh; intros l Hl; exists l; by split]. intros L (U & HU & HL & Hno).
  destruct (pool_malloc_spec _ U HU) as (pm' & r & Em' & Hr). rewrite Em in Em'. injection Em' as <- <-.
  destruct Hr as (Ha & _ & Hpm). exists ({[a]} ∪ U). rewrite Ed. split; [done|]. split.
  - intros x. rewrite elem_of_union, elem_of_singleton, HL, lookup_insert_is_Some'. naive_solver.
  - intros x Hx. rewrite lookup_insert_ne; [by apply Hno|]. intros [= ->]. apply Ha, HL. by left.
Qed.

Lemma keeps_layout s s' l l' : heap_rep (heap_mem s) l -> heap_rep (heap_mem s') l' -> layout_le l l' -> pbuf_pool s' = pbuf_pool s ->
  (forall a, is_Some (pbufs s' !! PoolPtr a) <-> is_Some (pbufs s !! PoolPtr a)) -> keeps s s'.
Proof.
  intros Hl Hl' Hle Ep Hd. split.
  - apply (keeps_same s (set_heap (heap_mem s) s')); done.
  - intros l0 Hl0. rewrite (heap_rep_det _ _ _ Hl0 Hl). by exists l'.
Qed.

(** The same layout has the same room. *)
Lemma same_ram s s' l layer n : heap_rep (heap_mem s) l -> heap_rep (heap_mem s') l -> has_ram layer n s' = has_ram layer n s.
Proof. intros H H'. unfold has_ram. f_equal. apply (can_malloc_same _ _ l); [done | done | apply u16_range]. Qed.

Variable custom_free_function : ptr -> store P1 P2 -> res (store P1 P2).

(** The references of a pbuf that is freed pass to the client. *)
Lemma dealloc_inv s E E' p b b' :
  ref_inv s E -> pbufs s !! p = Some b -> flags b' = flags b -> type_internal b' = type_internal b ->
  (forall z, multiplicity z E' = if decide (z = p) then 0 else multiplicity z E + points_to b z)%nat ->
  incoming (pbufs s) p = 0%nat ->
  exists s', dealloc custom_free_function p b' (set_pbufs (<[p := b']> (pbufs s)) s) = Ok s' /\
    ref_inv s' E' /\ pbufs s' = delete p (pbufs s) /\ keeps s s'.
Proof.
  intros Hs Hp Hf Ht HE Hin. pose proof (ri_kind _ _ Hs p b Hp) as [Hcust Hk].
  unfold dealloc. rewrite Hf, Hcust. change (0 =? 0) with true. cbn [negb].
  assert (Hsrc : pbuf_get_allocsrc b' = pbuf_get_allocsrc b) by (unfold pbuf_get_allocsrc; by rewrite Ht).
  assert (Hdel : forall x, is_Some (delete p (pbufs s) !! x) -> x <> p /\ is_Some (pbufs s !! x)).
  { intros x Hx. destruct (decide (p = x)) as [<-|Hne]; [rewrite lookup_delete_eq in Hx; by destruct Hx|].
    by rewrite lookup_delete_ne in Hx by done. }
  destruct (ri_pool _ _ Hs) as (U1 & HU1 & Ha1), (ri_memp _ _ Hs) as (U2 & HU2 & Ha2), (ri_heap _ _ Hs) as (l & Hl & Ha3).
  destruct p as [a|a|a| |]; try done; rewrite Hsrc, Hk; cbn [addr pbuf_pool pbuf_memp heap_mem set_pbufs].
  - destruct (pool_free_spec _ _ a HU1) as (pm & Epm & Hpm); [apply Ha1; by eexists|]. rewrite Epm.
    eexists. split; [reflexivity|]. split; [|split; [cbn; by rewrite delete_insert_eq|]].
    eapply ref_inv_delete; try done; cbn; rewrite ?delete_insert_eq; try done.
    + exists (U1 ∖ {[a]}). split; [done|]. intros x Hx%Hdel. destruct Hx as [Hne Hx%Ha1].
      apply elem_of_difference. split; [done|]. intros ->%elem_of_singleton. done.
    + exists U2. split; [done|]. intros x Hx%Hdel. by apply Ha2, Hx.
    + exists l. split; [done|]. intros x Hx%Hdel. by apply Ha3, Hx.
    + apply (keeps_pool_free _ _ a); [by eexists | exact Epm | cbn; by rewrite delete_insert_eq | done].
  - destruct (pool_free_spec _ _ a HU2) as (pm & -> & Hpm); [apply Ha2; by eexists|].
    eexists. split; [reflexivity|]. split; [|split; [cbn; by rewrite delete_insert_eq|]].
    eapply ref_inv_delete; try done; cbn; rewrite ?delete_insert_eq; try done.
    + exists U1. split; [done|]. intros x Hx%Hdel. by apply Ha1, Hx.
    + exists (U2 ∖ {[a]}). split; [done|]. intros x Hx%Hdel. destruct Hx as [Hne Hx%Ha2].
      apply elem_of_difference. split; [done|]. intros ->%elem_of_singleton. done.
    + exists l. split; [done|]. intros x Hx%Hdel. by apply Ha3, Hx.
    + apply keeps_same; [done | done |]. intros x. cbn. by rewrite delete_insert_eq, lookup_delete_ne.
  - destruct (used_ptrs_split 0 l a) as (l1 & sz & l2 & -> & Ea); [apply Ha3; by eexists|].
    rewrite Z.add_0_l in Ea. subst a. destruct (mem_free_spec _ _ _ _ Hl) as (h & -> & Hh).
    eexists. split; [reflexivity|]. split; [|split; [cbn; by rewrite delete_insert_eq|]].
    eapply ref_inv_delete; try done; cbn; rewrite ?delete_insert_eq; try done.
    + exists U1. split; [done|]. intros x Hx%Hdel. by apply Ha1, Hx.
    + exists U2. split; [done|]. intros x Hx%Hdel. by apply Ha2, Hx.
    + exists (free_layout l1 sz l2). split; [done|]. intros x Hx%Hdel. destruct Hx as [Hne Hx%Ha3].
      apply used_ptrs_free; [done|]. intros ->. done.
    + eapply keeps_layout; [exact Hl | exact Hh | apply free_layout_le, Hl | done |].
      intros x. cbn. by rewrite delete_insert_eq, lookup_delete_ne.
Qed.

(** Freeing changes nothing but counters in what is left. *)
Definition only_refs s s' : Prop := forall x c', pbufs s' !! x = Some c' ->
  exists c, pbufs s !! x = Some c /\ len c' = len c /\ tot_len c' = tot_len c /\ next c' = next c.

(** Freeing gives up one reference. *)
Lemma free_loop_inv fuel : forall s E p count,
  ref_inv s E -> p ∈ E -> (size (pbufs s) < fuel)%nat ->
  exists s' n, free_loop custom_free_function fuel (Some p) count s = Ok (s', n) /\ ref_inv s' (E ∖ {[+ p +]}) /\
    only_refs s s' /\ keeps s s'.
Proof.
  induction fuel as [|fuel IH]; intros s E p count Hs Hp Hfuel; [lia|]. cbn [Pbuf.free_loop].
  destruct (ri_ext _ _ Hs p Hp) as [b Hb]. destruct (ri_ref _ _ Hs p b Hb) as [Href Hpos].
  rewrite (get_some _ _ _ Hb), bind_ok. destruct (Z.ltb_spec 0 (ref b)); [|lia]. cbn [lwip_assert]. rewrite bind_ok.
  rewrite (modify_some _ _ _ _ Hb), bind_ok. cbn [ref with_ref next]. unfold LWIP_PBUF_REF_T.
  rewrite u8_id by solve_u.
  assert (Hm : (0 < multiplicity p E)%nat) by (by apply elem_of_multiplicity in Hp).
  assert (HEp : multiplicity p (E ∖ {[+ p +]}) = (multiplicity p E - 1)%nat).
  { by rewrite multiplicity_difference, multiplicity_singleton_eq. }
  assert (HEne : forall y, y <> p -> multiplicity y (E ∖ {[+ p +]}) = multiplicity y E).
  { intros y Hy. rewrite multiplicity_difference, multiplicity_singleton_ne by done. lia. }
  destruct (Z.eqb_spec (ref b - 1) 0) as [Hz|Hnz].
  - set (En := match next b with Some q => {[+ q +]} | None => ∅ end : gmultiset ptr).
    assert (HEn : forall z, multiplicity z En = points_to b z).
    { intros z. unfold En, points_to. destruct (next b) as [q|].
      - destruct (decide (Some q = Some z)) as [[= ->]|Hne]; [by rewrite multiplicity_singleton_eq|].
        by rewrite multiplicity_singleton_ne by congruence.
      - by rewrite multiplicity_empty. }
    assert (Hloop : points_to b p = 0%nat).
    { unfold points_to. case_decide as Hd; [|done]. pose proof (incoming_pos _ _ _ _ Hb Hd). lia. }
    destruct (dealloc_inv s E (E ∖ {[+ p +]} ⊎ En) p b (with_ref (ref b - 1) b)) as (s' & -> & Hs' & Hps' & Hkeep); try done.
    { intros z. rewrite multiplicity_disj_union, HEn. case_decide as Hd; [subst z; lia|]. by rewrite HEne. }
    { lia. }
    rewrite bind_ok. destruct (next b) as [q|] eqn:Eq.
    + destruct (IH s' (E ∖ {[+ p +]} ⊎ En) q (u8 (count + 1))) as (s2 & n & E2 & Hs2 & Hfr & Hkeep2); try done.
      { apply elem_of_multiplicity. rewrite multiplicity_disj_union. unfold En.
        rewrite multiplicity_singleton_eq. lia. }
      { rewrite Hps'. pose proof (map_size_insert_None p b (delete p (pbufs s)) (lookup_delete_eq _ _)) as Hsz.
        rewrite insert_delete_id in Hsz by done. lia. }
      exists s2, n. split; [done|]. unfold En in Hs2. split.
      { by replace (((E ∖ {[+ p +]}) ⊎ {[+ q +]}) ∖ {[+ q +]}) with (E ∖ {[+ p +]}) in Hs2 by multiset_solver. }
      split; [|by transitivity s']. intros x c' Hx. destruct (Hfr x c' Hx) as (c & Hc & Hl & Htl & Hnx). rewrite Hps' in Hc.
      destruct (decide (p = x)) as [<-|Hne]; [by rewrite lookup_delete_eq in Hc|].
      rewrite lookup_delete_ne in Hc by done. by exists c.
    + exists s', (u8 (count + 1)). split; [by destruct fuel|]. unfold En in Hs'.
      rewrite gmultiset_disj_union_right_id in Hs'. split; [done|]. split; [|done]. intros x c' Hc. rewrite Hps' in Hc.
      destruct (decide (p = x)) as [<-|Hne]; [by rewrite lookup_delete_eq in Hc|].
      rewrite lookup_delete_ne in Hc by done. by exists c'.
  - eexists _, _. split; [reflexivity|]. split; [|split].
    3: { apply keeps_same; [done | done |]. intros a. cbn [pbufs set_pbufs]. rewrite lookup_insert_is_Some'. split; [|tauto].
         intros [<-|]; [by rewrite Hb | done]. }
    2: { intros x c'. cbn [pbufs set_pbufs]. destruct (decide (p = x)) as [<-|Hne].
         - rewrite lookup_insert_eq. intros [= <-]. by exists b.
         - rewrite lookup_insert_ne by done. by exists c'. }
    eapply ref_inv_update; try done; cbn [ref with_ref]; lia.
Qed.

Lemma pbuf_free_inv s E p : ref_inv s E -> p ∈ E ->
  exists s' n, pbuf_free custom_free_function (Some p) s = Ok (s', n) /\
    ref_inv s' (E ∖ {[+ p +]}) /\ only_refs s s' /\ keeps s s'.
Proof. intros Hs Hp. apply free_loop_inv; [done | done |]. unfold chain_fuel. lia. Qed.

Lemma pbuf_dechain_inv s E p l : ref_inv s E -> p ∈ E -> chain_at (pbufs s) (Some p) l ->
  exists s' r b, pbuf_dechain custom_free_function p s = Ok (s', r) /\ ref_inv s' E /\
    pbufs s' !! p = Some b /\ next b = None /\ tot_len b = len b.
Proof.
  intros Hs Hp Hc. destruct l as [|[x b] l]; [done|].
  pose proof (chain_at_nodup _ _ _ Hc) as [Hnd _]%NoDup_cons. pose proof Hc as ([= <-] & Hb & Hlen & Htot & Hn).
  unfold pbuf_dechain. rewrite (get_some _ _ _ Hb), bind_ok. destruct (next b) as [q|] eqn:Eq.
  - destruct l as [|[y c] l]; [done|]. pose proof Hn as ([= <-] & Hq & _ & Htc & _).
    assert (Hpq : p <> q) by (apply not_elem_of_cons in Hnd as [? _]; done).
    rewrite (get_some _ _ _ Hq), bind_ok. rewrite total_len_cons in Htot. cbn [snd] in Htot.
    destruct (Z.eqb_spec (tot_len c) (tot_len b - len b)); [|lia]. cbn [lwip_assert].
    rewrite bind_ok, (modify_some _ _ _ _ Hq), bind_ok.
    set (s1 := set_pbufs _ s). assert (Hb1 : pbufs s1 !! p = Some b).
    { subst s1. cbn [pbufs set_pbufs]. by rewrite lookup_insert_ne by done. }
    assert (Hs1 : ref_inv s1 E).
    { apply (ref_inv_update s E E q c); try done; by destruct (ri_ref _ _ Hs q c Hq). }
    rewrite (modify_some _ _ _ _ Hb1), bind_ok. set (s2 := set_pbufs _ s1).
    assert (Hs2 : ref_inv s2 ({[+ q +]} ⊎ E)).
    { eapply ref_inv_relink; try done; cbn [next with_next with_tot_len].
      - intros z [->%gmultiset_elem_of_singleton|Hz]%gmultiset_elem_of_disj_union; [|by apply (ri_ext _ _ Hs1)].
        subst s1. cbn [pbufs set_pbufs]. by rewrite lookup_insert_eq.
      - intros z. rewrite multiplicity_disj_union. unfold points_to. cbn [next with_next with_tot_len].
        rewrite Eq, (decide_False (P := None = Some z)) by done. case_decide as Hz.
        + injection Hz as <-. rewrite multiplicity_singleton_eq. lia.
        + rewrite multiplicity_singleton_ne by congruence. lia. }
    destruct (pbuf_free_inv s2 _ q Hs2) as (s3 & n & -> & Hs3 & Hfr & _); [multiset_solver|]. rewrite bind_ok.
    replace (({[+ q +]} ⊎ E) ∖ {[+ q +]}) with E in Hs3 by multiset_solver.
    destruct (ri_ext _ _ Hs3 p Hp) as [b3 Hb3]. destruct (Hfr p b3 Hb3) as (c2 & Hc2 & Hl2 & Ht2 & Hn2).
    subst s2. cbn [pbufs set_pbufs] in Hc2. rewrite lookup_insert_eq in Hc2. injection Hc2 as <-. cbn in Hl2, Ht2, Hn2.
    rewrite (get_some _ _ _ Hb3), bind_ok, Ht2, Hl2, Z.eqb_refl. cbn [lwip_assert]. rewrite bind_ok.
    eexists _, _, b3. split; [reflexivity|]. split_and!; try done. congruence.
  - destruct l as [|[y c] l]; [|by destruct Hn]. cbn in Htot. rewrite bind_ok, (get_some _ _ _ Hb), bind_ok.
    replace (tot_len b) with (len b) by lia. rewrite Z.eqb_refl. cbn [lwip_assert]. rewrite bind_ok.
    eexists _, _, b. split; [reflexivity|]. split_and!; try done. lia.
Qed.

Variable fresh_byte : nat -> Z.

(** What the loop of PBUF_POOL knows: the chain so far belongs to the client,
    and its last pbuf is open. *)
Definition chain_so_far s (E : gmultiset ptr) (p last : option ptr) : Prop :=
  match p, last with
  | None, None => ref_inv s E
  | Some h, Some l => ref_inv s ({[+ h +]} ⊎ E) /\ exists b, pbufs s !! l = Some b /\ next b = None
  | _, _ => False
  end.

(** One pbuf more. *)
Lemma chain_grows s E p last q b s1 :
  chain_so_far s E p last -> pbufs s !! q = None -> pbufs s1 = <[q := b]> (pbufs s) -> next b = None ->
  (forall E, ref_inv s E -> ref_inv s1 ({[+ q +]} ⊎ E)) ->
  exists s2, match last with None => Ok s1 | Some l => modify l (with_next (Some q)) s1 end = Ok s2 /\
    chain_so_far s2 E (match p with None => Some q | Some _ => p end) (Some q) /\
    pbuf_pool s2 = pbuf_pool s1 /\ heap_mem s2 = heap_mem s1 /\ (forall x, is_Some (pbufs s2 !! x) <-> is_Some (pbufs s1 !! x)).
Proof.
  intros Hc Hq Hs1 Hb Hnew. destruct p as [h|], last as [l|]; cbn [chain_so_far] in Hc; try done.
  - destruct Hc as (Hs & bl & Hl & Hbl). apply Hnew in Hs. assert (Hne : q <> l) by congruence.
    assert (Hl1 : pbufs s1 !! l = Some bl) by (by rewrite Hs1, lookup_insert_ne by done).
    rewrite (modify_some _ _ _ _ Hl1). eexists. split; [reflexivity|].
    assert (Hq1 : pbufs s1 !! q = Some b) by (by rewrite Hs1, lookup_insert_eq).
    split; [|split; [done | split; [done|]]].
    + split.
      * eapply ref_inv_relink; try done; cbn [next with_next].
        -- intros z [= <-]. by rewrite Hq1.
        -- intros z Hz. apply (ri_ext _ _ Hs). multiset_solver.
        -- intros z. rewrite !multiplicity_disj_union. unfold points_to. rewrite Hbl. cbn [next with_next].
           rewrite (decide_False (P := None = Some z)) by done. case_decide as Hz.
           ++ injection Hz as <-. rewrite (multiplicity_singleton_eq q). lia.
           ++ rewrite (multiplicity_singleton_ne _ q) by congruence. lia.
      * exists b. cbn [pbufs set_pbufs]. by rewrite lookup_insert_ne.
    + intros x. cbn [pbufs set_pbufs]. rewrite lookup_insert_is_Some'. split; [|tauto].
      intros [<-|]; [by rewrite Hl1 | done].
  - exists s1. split; [done|]. split; [|done]. split; [by apply Hnew|]. exists b.
    by rewrite Hs1, lookup_insert_eq.
Qed.

(** The pool is empty: what there is of the chain is freed. *)
Lemma alloc_pool_fails s E p last pm U :
  chain_so_far s E p last -> (forall a, is_Some (pbufs s !! PoolPtr a) -> a ∈ U) -> pool_holds pm U ->
  pool_malloc (pbuf_pool s) = Ok (pm, None) ->
  exists s' r, match p with
    | None => Ok (pbuf_pool_is_empty (set_pbuf_pool pm s), None)
    | Some _ => '(s, _) ← pbuf_free custom_free_function p (pbuf_pool_is_empty (set_pbuf_pool pm s)); Ok (s, None)
    end = Ok (s', r) /\
    ref_inv s' (match r with Some p => {[+ p +]} ⊎ E | None => E end) /\ keeps s s'.
Proof.
  intros Hc HUa Hpm Em. pose proof (keeps_pool_none s pm Em) as Hk.
  assert (Hpool : forall E, ref_inv s E -> ref_inv (pbuf_pool_is_empty (set_pbuf_pool pm s)) E).
  { intros E' []. split; try done. by exists U. }
  destruct p as [h|], last as [l|]; cbn [chain_so_far] in Hc; try done.
  - destruct Hc as [Hs _]. apply Hpool in Hs. destruct (pbuf_free_inv _ _ h Hs) as (s' & n & E1 & Hs' & _ & Hkeep).
    { multiset_solver. }
    rewrite E1, bind_ok. exists s', None. split; [done|].
    replace (({[+ h +]} ⊎ E) ∖ {[+ h +]}) with E in Hs' by multiset_solver. split; [done|]. by etransitivity.
  - eexists _, None. split; [reflexivity|]. split; [by apply Hpool | done].
Qed.

Lemma pool_fresh s (U : gset Z) a : (forall a, is_Some (pbufs s !! PoolPtr a) -> a ∈ U) -> a ∉ U -> pbufs s !! PoolPtr a = None.
Proof. intros HU Ha. destruct (pbufs s !! PoolPtr a) eqn:Hx; [|done]. destruct Ha. apply HU. by rewrite Hx. Qed.

Lemma pool_create_inv s E pm (U : gset Z) a pl n k d :
  ref_inv s E -> (forall a, is_Some (pbufs s !! PoolPtr a) -> a ∈ U) -> a ∉ U -> pool_holds pm ({[a]} ∪ U) ->
  ref_inv (create (PoolPtr a) (pbuf_init_alloced_pbuf pl n k PBUF_POOL 0)
    (create_area (PoolPtr a) d (set_pbuf_pool pm s))) ({[+ PoolPtr a +]} ⊎ E).
Proof.
  intros Hs HU Ha Hpm. eapply ref_inv_create; try done; cbn.
  - by apply (pool_fresh s U).
  - exists ({[a]} ∪ U). split; [done|]. intros x [[= ->]|Hx%HU]%domain_grows; set_solver.
  - destruct (ri_memp _ _ Hs) as (U1 & HU1 & Ha1). exists U1. split; [done|].
    intros x [|Hx]%domain_grows; [done | by apply Ha1].
  - destruct (ri_heap _ _ Hs) as (l & Hl & Ha3). exists l. split; [done|].
    intros x [|Hx]%domain_grows; [done | by apply Ha3].
Qed.

Lemma alloc_pool_loop_inv fuel : forall s E p last rem offset U,
  chain_so_far s E p last -> 0 <= offset <= 128 ->
  pool_holds (pbuf_pool s) U -> (forall a, is_Some (pbufs s !! PoolPtr a) -> a ∈ U) ->
  (@pool_capacity P1 _ <= size U + fuel)%nat ->
  exists s' r, alloc_pool_loop custom_free_function fresh_byte fuel p last rem offset s = Ok (s', r) /\
    ref_inv s' (match r with Some p => {[+ p +]} ⊎ E | None => E end) /\ keeps s s'.
Proof.
  induction fuel as [|fuel IH]; intros s E p last rem offset U Hc Ho HU HUa Hcap; cbn [alloc_pool_loop].
  all: destruct (pool_malloc_spec _ U HU) as (pm & [a|] & Em & Hpm); rewrite Em, bind_ok; cbv zeta.
  2,4: destruct Hpm as [_ Hpm]; by eapply alloc_pool_fails.
  all: destruct Hpm as (Ha & _ & Hpm); rewrite payload_aligned_true, room_pos by done;
    cbn [lwip_assert]; rewrite !bind_ok.
  all: set (b := pbuf_init_alloced_pbuf _ _ _ _ _); set (s1 := create _ b _).
  all: destruct (chain_grows s E p last (PoolPtr a) b s1) as (s2 & -> & Hc2 & Hp2 & Hh2 & Hd2);
    [done | by apply (pool_fresh s U) | done | done | intros E' HE'; by apply (pool_create_inv s E' pm U) | rewrite bind_ok].
  all: assert (Hk2 : keeps s s2) by (transitivity s1; [by apply (keeps_pool_some s s1 a pm b) | by apply keeps_same]).
  all: destruct (0 <? _); [|exists s2; eexists; split; [reflexivity|]; (split; [|exact Hk2]);
    cbn [chain_so_far] in Hc2; by destruct p; [destruct Hc2 | destruct Hc2]].
  - pose proof (pool_bound _ _ Hpm) as Hb. rewrite size_union, size_singleton in Hb by set_solver. lia.
  - destruct (IH s2 E (match p with None => Some (PoolPtr a) | Some _ => p end) (Some (PoolPtr a)) (u16 (rem - Z.min rem (u16 (u32 (PBUF_POOL_BUFSIZE_ALIGNED - LWIP_MEM_ALIGN_SIZE offset))))) 0 ({[a]} ∪ U)) as (s' & r & -> & Hs' & Hk'); try done.
    + by rewrite Hp2.
    + intros x Hx%Hd2. cbn in Hx. apply domain_grows in Hx as [[= ->]|Hx%HUa]; set_solver.
    + rewrite size_union, size_singleton by set_solver. lia.
    + exists s', r. split_and!; [done | done | by transitivity s2].
Qed.

Lemma pbuf_alloc_inv s E layer n type : ref_inv s E -> 0 <= layer <= 128 ->
  exists s' r, pbuf_alloc custom_free_function fresh_byte layer n type s = Ok (s', r) /\
    ref_inv s' (match r with Some p => {[+ p +]} ⊎ E | None => E end) /\
    match type with PBUF_RAM => (match r with Some _ => true | None => false end) = has_ram layer n s | _ => keeps s s' end.
Proof.
  intros Hs Hl. unfold pbuf_alloc. rewrite (u16_id layer) by solve_u.
  assert (Href : forall t, (t = PBUF_REF \/ t = PBUF_ROM) -> exists s' r, pbuf_alloc_reference None n t s = Ok (s', r) /\
    ref_inv s' (match r with Some p => {[+ p +]} ⊎ E | None => E end) /\ keeps s s').
  { intros t Ht. destruct (pbuf_alloc_reference_inv s E None n t Hs Ht) as (s' & r & E1 & Hs' & E2 & E3 & E4).
    exists s', r. split_and!; [done | done | by apply keeps_same]. }
  destruct type; try (apply Href; tauto); clear Href.
  - unfold has_ram, can_malloc. cbv zeta. destruct (_ || _); [by exists s, None|]. cbn [negb andb].
    destruct (ri_heap _ _ Hs) as (l & Hr & Ha).
    match goal with |- context [mem_malloc (u16 ?k) _] =>
      destruct (mem_malloc_spec _ l _ Hr (u16_range k)) as (h' & r & E1 & Hh & Er) end.
    rewrite E1, bind_ok. destruct r as [[o l']|]; cbn [option_map fst].
    + rewrite payload_aligned_true. cbn [lwip_assert]. rewrite bind_ok.
      symmetry in Er. apply used_ptrs_malloc in Er as (Hn & Ho & Hkeep); [|apply Hr].
      eexists _, _. split; [reflexivity|]. split; [|done]. eapply ref_inv_create; try done; cbn.
      * destruct (pbufs s !! HeapPtr _) eqn:Hx; [|done]. destruct Hn. apply Ha. by rewrite Hx.
      * destruct (ri_pool _ _ Hs) as (U & HU & HUa). exists U. split; [done|].
        intros x [|Hx]%domain_grows; [done | by apply HUa].
      * destruct (ri_memp _ _ Hs) as (U & HU & HUa). exists U. split; [done|].
        intros x [|Hx]%domain_grows; [done | by apply HUa].
      * exists l'. split; [done|]. intros x [[= ->]|Hx]%domain_grows; [done | by apply Hkeep, Ha].
    + eexists _, None. split; [reflexivity|]. split; [|done]. destruct Hs. split; try done. by exists l.
  - destruct (ri_pool _ _ Hs) as (U & HU & HUa).
    apply (alloc_pool_loop_inv _ s E None None _ _ U); try done. lia.
Qed.

End Steps.

(** ** Properties *)

(** C1: memory safety of reference counting. As long as the client keeps its
    side (it frees or gives away only pointers it holds, and appends a packet
    to one that does not contain it), no call faults: pbuf_ref, pbuf_free,
    pbuf_alloc of every type, pbuf_cat, pbuf_chain and pbuf_dechain return,
    touch only pbufs in use, and afterwards every counter is again the number
    of the pointers to its pbuf, from the client and from chains; a pbuf that
    nothing points to has gone back to the pool or heap it came from. *)
Theorem pbuf_refcount_safe {P1 P2 : Type} `{!PoolAlloc P1} `{!PoolAlloc P2}
    (custom_free_function : ptr -> store P1 P2 -> res (store P1 P2)) (fresh_byte : nat -> Z)
    (s : store P1 P2) (E : gmultiset ptr) (op : pbuf_op) :
  ref_inv s E -> op_allowed op s E ->
  exists s' r, pbuf_exec custom_free_function fresh_byte op s = Ok (s', r) /\ ref_inv s' (op_holds op r E).
Proof.
  intros Hs Hop. destruct op as [p|p|layer n type|h t|h t|p]; cbn [pbuf_exec op_allowed op_holds] in *.
  - destruct Hop as (b & Hb & Hr). destruct (pbuf_ref_inv s E p b Hs Hb Hr) as (s' & -> & Hs' & _). by exists s', None.
  - destruct (pbuf_free_inv custom_free_function s E p Hs Hop) as (s' & n & -> & Hs' & _). by exists s', None.
  - destruct (pbuf_alloc_inv custom_free_function fresh_byte s E layer n type Hs) as (s' & r & -> & Hs' & _); [tauto|]. by exists s', r.
  - destruct Hop as (Ht & Hne & l & Hc & Hl). destruct (pbuf_cat_inv s E h t l) as (s' & -> & Hs' & _); try done.
    by exists s', None.
  - destruct Hop as (Ht & Hne & l & b & Hc & Hl & Hb & Hr).
    destruct (pbuf_chain_inv s E h t l b) as (s' & -> & Hs'); try done. by exists s', None.
  - destruct Hop as (Hp & l & Hc).
    destruct (pbuf_dechain_inv custom_free_function s E p l) as (s' & r & b & -> & Hs' & _); try done. by exists s', None.
Qed.


(** Headers. pbuf_remove_header takes the first [n] bytes off a packet (at
    most those of its first pbuf) and touches no memory; pbuf_add_header then
    gives exactly the packet from before where the payload lies behind the
    struct (PBUF_RAM, PBUF_POOL), and refuses without a change for PBUF_REF and
    PBUF_ROM, for which pbuf_add_header_force restores it. *)
Theorem pbuf_header_roundtrip {P1 P2 : Type} (s : store P1 P2) (p : ptr) (b : pbuf) (l : list (ptr * pbuf))
    (a : ptr) (o n : Z) :
  packet (pbufs s) (areas s) p ((p, b) :: l) -> payload b = Some (a, o) -> 0 < n <= len b -> 0 <= o ->
  exists s1 b1, pbuf_remove_header (Some p) n s = Ok (s1, 0) /\ areas s1 = areas s /\
    packet (pbufs s1) (areas s1) p ((p, b1) :: l) /\
    chain_data (areas s1) ((p, b1) :: l) = drop (Z.to_nat n) (chain_data (areas s) ((p, b) :: l)) /\
    (if negb (Z.land (type_internal b) PBUF_TYPE_FLAG_STRUCT_DATA_CONTIGUOUS =? 0)
     then a = p -> pbuf_add_header (Some p) n s1 = Ok (s, 0)
     else pbuf_add_header (Some p) n s1 = Ok (s1, 1) /\ pbuf_add_header_force (Some p) n s1 = Ok (s, 0)).
Proof.
  intros Hp Hpl Hn Ho. pose proof Hp as [Hc Ha Ht]. pose proof Hc as (_ & Hb & _).
  pose proof (chain_at_nodup _ _ _ Hc) as [Hnd _]%NoDup_cons.
  pose proof (packet_cons _ _ _ _ _ _ Hp) as (_ & _ & Hlen & Htot & Hrest & H16 & Hrd & Hdl & _).
  set (b1 := with_tot_len (tot_len b - n) (with_len (len b - n) (with_payload (Some (a, o + n)) b))).
  exists (set_pbufs (<[p := b1]> (pbufs s)) s), b1.
  assert (Hrd1 : area_read (areas s) (payload b1) 0 (len b1) = Ok (drop (Z.to_nat n) (payload_data (areas s) b))).
  { pose proof (area_read_sub _ _ _ _ n (len b - n) Hrd ltac:(lia) ltac:(lia) ltac:(lia)) as E.
    rewrite take_ge in E by (rewrite length_drop; lia). rewrite <- E. subst b1. rewrite Hpl.
    cbn [payload len with_tot_len with_len with_payload]. unfold area_read. cbn [of_option].
    destruct (_ =? 0); [done|]. rewrite !bind_ok. destruct (areas s !! a) as [m|]; [|done]. cbn [of_option].
    rewrite !bind_ok. by rewrite !Z.add_0_r. }
  split_and!.
  - unfold pbuf_remove_header. destruct (Z.ltb_spec 0xFFFF n), (Z.eqb_spec n 0); try lia.
    rewrite (get_some _ _ _ Hb), bind_ok, (u16_id n) by solve_u. destruct (Z.leb_spec n (len b)); [|lia].
    cbn [negb]. rewrite Hpl. cbn [of_option]. rewrite bind_ok, (modify_some _ _ _ _ Hb), bind_ok.
    by rewrite !u16_id by solve_u.
  - done.
  - cbn [pbufs areas set_pbufs]. split.
    + destruct Hc as (_ & _ & _ & _ & Hc). split_and!; [done | by rewrite lookup_insert_eq | cbn; lia | cbn; lia|].
      by apply chain_at_insert_other.
    + apply Forall_cons in Ha as [_ Ha]. constructor; [by eexists | done].
    + cbn [areas set_pbufs]. rewrite total_len_cons in *. cbn [snd] in *. cbn. lia.
  - cbn [areas set_pbufs]. rewrite !chain_data_cons, drop_app_le by lia. f_equal.
    unfold payload_data at 1. by rewrite Hrd1.
  - assert (Hid : forall r : Z, Ok (set_pbufs (<[p := b]> (<[p := b1]> (pbufs s))) (set_pbufs (<[p := b1]> (pbufs s)) s), r) = Ok (s, r)).
    { intros r. rewrite insert_insert_eq, (insert_id _ _ _ Hb). by destruct s. }
    assert (Hb1 : pbufs (set_pbufs (<[p := b1]> (pbufs s)) s) !! p = Some b1) by (cbn; by rewrite lookup_insert_eq).
    unfold pbuf_add_header, pbuf_add_header_force, pbuf_add_header_impl.
    destruct (Z.ltb_spec 0xFFFF n), (Z.eqb_spec n 0); try lia.
    rewrite !(get_some _ _ _ Hb1), !bind_ok, !(u16_id n) by solve_u. subst b1.
    cbn [tot_len len payload type_internal with_tot_len with_len with_payload].
    rewrite u16_id by solve_u. destruct (Z.ltb_spec (n + (tot_len b - n)) n); [lia|].
    assert (Hback : with_tot_len (u16 (tot_len b - n + n)) (with_len (u16 (len b - n + n))
      (with_payload (Some (a, o)) (with_tot_len (tot_len b - n) (with_len (len b - n) (with_payload (Some (a, o + n)) b))))) = b).
    { rewrite !u16_id by solve_u. rewrite !Z.sub_add. destruct b; cbn in *. by subst. }
    destruct (negb _).
    + intros ->. cbn [of_option]. rewrite !bind_ok, bool_decide_true by done. rewrite !bind_ok.
      replace (o + n - n) with o by lia. destruct (Z.ltb_spec o 0); [lia|].
      rewrite (modify_some _ _ _ _ Hb1), bind_ok. cbn [tot_len len with_tot_len with_len with_payload].
      rewrite Hback. apply Hid.
    + split; [by rewrite bind_ok|]. cbn [of_option]. rewrite !bind_ok. cbv beta. replace (o + n - n) with o by lia.
      rewrite (modify_some _ _ _ _ Hb1), bind_ok. cbn [tot_len len with_tot_len with_len with_payload].
      rewrite Hback. apply Hid.
Qed.

(** ** Witnesses *)

#[local] Instance witness_pool : PoolAlloc pool := memp_alloc pbuf_pool_desc pbuf_pool_desc_ok.

Definition pbuf_boot (h : heap) : @store pool pool :=
  Store ∅ ∅ (boot_pool pbuf_pool_desc) (boot_pool pbuf_memp_desc) h false.

Lemma pbuf_boot_inv h l : heap_rep h l ->
  @ref_inv pool pool witness_pool (memp_alloc pbuf_memp_desc pbuf_memp_desc_ok) (pbuf_boot h) ∅.
Proof.
  intros Hl. split; cbn [pbufs pbuf_boot]; try (intros *; rewrite lookup_empty; done).
  - intros x Hx. multiset_solver.
  - exists ∅. split; [|intros a; rewrite lookup_empty; by intros []]. apply boot_pool_rep, pbuf_pool_desc_ok.
  - exists ∅. split; [|intros a; rewrite lookup_empty; by intros []]. apply boot_pool_rep, pbuf_memp_desc_ok.
  - exists l. split; [done|]. intros a. rewrite lookup_empty. by intros [].
Qed.

(** A packet of 1000 bytes is allocated from the pool after boot. *)
Lemma pbuf_refcount_safe_witness :
  exists s' r, @pbuf_exec pool pool witness_pool (memp_alloc pbuf_memp_desc pbuf_memp_desc_ok)
      (fun _ s => Ok s) (fun _ => 0) (OpAlloc 0 1000 PBUF_POOL) (pbuf_boot heap_fresh) = Ok (s', r) /\
    @ref_inv pool pool witness_pool (memp_alloc pbuf_memp_desc pbuf_memp_desc_ok) s'
      (op_holds (OpAlloc 0 1000 PBUF_POOL) r ∅).
Proof.
  apply (@pbuf_refcount_safe pool pool witness_pool (memp_alloc pbuf_memp_desc pbuf_memp_desc_ok)
    (fun _ s => Ok s) (fun _ => 0) (pbuf_boot heap_fresh) ∅ (OpAlloc 0 1000 PBUF_POOL)).
  - apply (pbuf_boot_inv heap_fresh [(16000, false)] heap_fresh_rep).
  - cbn. unfold is_u16. lia.
Defined.

(** A packet of one PBUF_RAM pbuf, with two bytes of room before its payload. *)
Definition ram_pbuf : pbuf := Pbuf None (Some (HeapPtr 8, 2)) 4 4 0x80 0 1 0.
Definition ram_store : @store unit unit :=
  Store {[HeapPtr 8 := ram_pbuf]} {[HeapPtr 8 := [0; 0; 1; 2; 3; 4]]} tt tt heap0 false.

Lemma pbuf_header_roundtrip_witness :
  exists s1 b1, pbuf_remove_header (Some (HeapPtr 8)) 2 ram_store = Ok (s1, 0) /\ areas s1 = areas ram_store /\
    packet (pbufs s1) (areas s1) (HeapPtr 8) [(HeapPtr 8, b1)] /\
    chain_data (areas s1) [(HeapPtr 8, b1)] = [3; 4] /\
    (HeapPtr 8 = HeapPtr 8 -> pbuf_add_header (Some (HeapPtr 8)) 2 s1 = Ok (ram_store, 0)).
Proof.
  apply (pbuf_header_roundtrip ram_store (HeapPtr 8) ram_pbuf [] (HeapPtr 8) 2 2); [|reflexivity | cbn; lia | lia].
  split; [by vm_compute | | cbn; lia].
  constructor; [by eexists | constructor].
Defined.
