(* ===== verification/PbufAlloc.v ===== *)
(** * What pbuf_alloc returns: src/src/lwip/core/pbuf.c

    A packet from the pool is a chain of fresh pbufs that holds as many bytes as
    asked for; it is refused exactly when the pool has too few elements left. *)

From stdpp Require Import gmultiset.
From S2P Require Import Prelude Alloc Memp Mem Pbuf PbufRef.

(** ** Definitions *)

(** A chain under construction: [rem] more bytes are to come. *)
Fixpoint chain_open (ps : gmap ptr pbuf) (p : option ptr) (l : list (ptr * pbuf)) (rem : Z) : Prop :=
  match l with
  | [] => p = None
  | (x, b) :: l' =>
      p = Some x /\ ps !! x = Some b /\ 0 <= len b /\ tot_len b = len b + total_len l' + rem /\
      chain_open ps (next b) l' rem
  end.

(** Each pbuf's payload lies in its own area. *)
Definition own_area (ar : gmap ptr (list Z)) (x : ptr * pbuf) : Prop :=
  exists o d, payload x.2 = Some (x.1, o) /\ ar !! x.1 = Some d /\ 0 <= o /\ 0 <= len x.2 /\ o + len x.2 <= length d.

(** The buffer is filled to its end. *)
Definition full (b : pbuf) : Prop :=
  match payload b with Some (_, o) => o + len b = PBUF_POOL_BUFSIZE_ALIGNED | None => False end.

(** A new element of the pool, full and followed by more data unless it is the
    last of its chain, its payload at most [m] bytes into its memory. *)
Definition pool_elem (fresh_byte : nat -> Z) (m : Z) (ar : gmap ptr (list Z)) (x : ptr * pbuf) : Prop :=
  exists a o, x.1 = PoolPtr a /\ payload x.2 = Some (x.1, o) /\ 0 <= o <= m /\
    ar !! x.1 = Some (fresh_area fresh_byte PBUF_POOL_BUFSIZE_ALIGNED) /\ 0 <= len x.2 /\ o + len x.2 <= PBUF_POOL_BUFSIZE_ALIGNED /\
    ref x.2 = 1 /\ flags x.2 = 0 /\ if_idx x.2 = NETIF_NO_INDEX /\ type_internal x.2 = u8 (pbuf_type_val PBUF_POOL) /\
    (next x.2 <> None -> full x.2 /\ len x.2 < tot_len x.2) /\ (0 < tot_len x.2 -> 0 < len x.2).

(** The elements a packet of [n] bytes takes. *)
Definition pool_pbufs (n : Z) : Z := Z.max 1 ((n + 511) / 512).

(** ** Lemmas *)

Lemma chain_open_at ps p l : chain_open ps p l 0 -> chain_at ps p l.
Proof.
  revert p. induction l as [|[x b] l IH]; intros p; cbn [chain_open chain_at]; [done|].
  intros (-> & Hx & Hl & Ht & Hc). split_and!; try done; [lia | by apply IH].
Qed.

Lemma chain_open_insert ps x b p l rem : chain_open ps p l rem -> x ∉ l.*1 -> chain_open (<[x := b]> ps) p l rem.
Proof.
  revert p. induction l as [|[y c] l IH]; intros p; [done|]. cbn [chain_open fmap list_fmap fst].
  intros (-> & Hy & Hl & Ht & Hc) [Hne Hx]%not_elem_of_cons. rewrite lookup_insert_ne by done. split_and!; auto.
Qed.

Lemma chain_open_in ps p l rem x b : chain_open ps p l rem -> (x, b) ∈ l -> ps !! x = Some b.
Proof.
  revert p. induction l as [|[y c] l IH]; intros p; cbn [chain_open]; [by intros _ ?%elem_of_nil|].
  intros (_ & Hy & _ & _ & Hc) [[= -> ->]|Hin]%elem_of_cons; [done | by apply (IH _ Hc)].
Qed.

(** One pbuf more. *)
Lemma chain_open_snoc ps p l x b q c rem :
  chain_open ps p (l ++ [(x, b)]) rem -> NoDup (l ++ [(x, b)]).*1 -> q ∉ (l ++ [(x, b)]).*1 ->
  next b = None -> next c = None -> tot_len c = rem -> 0 <= len c ->
  chain_open (<[x := with_next (Some q) b]> (<[q := c]> ps)) p (l ++ [(x, with_next (Some q) b); (q, c)]) (rem - len c).
Proof.
  revert p. induction l as [|[y d] l IH]; intros p; cbn [app chain_open fmap list_fmap fst]; intros Hc Hnd Hq Hb Hcn Ht Hl.
  - destruct Hc as (-> & Hx & Hlb & Htb & _). apply not_elem_of_cons in Hq as [Hqx _].
    rewrite !lookup_insert_eq, lookup_insert_ne by done. rewrite lookup_insert_eq.
    cbn [next with_next len tot_len]. rewrite !total_len_cons. cbn [snd]. change (total_len []) with 0 in *.
    split_and!; try done; lia.
  - destruct Hc as (-> & Hy & Hld & Htd & Hc). apply not_elem_of_cons in Hq as [Hqy Hq].
    apply NoDup_cons in Hnd as [Hyl Hnd].
    assert (Hxy : x <> y).
    { intros ->. apply Hyl. rewrite fmap_app. apply elem_of_app. right. by apply list_elem_of_singleton. }
    rewrite !lookup_insert_ne by done. split_and!; try done.
    + rewrite !total_len_app in *. rewrite !total_len_cons in *. cbn [snd len with_next] in *.
      change (total_len []) with 0 in *. lia.
    + by apply IH.
Qed.

(** The last pbuf knows what is to come. *)
Lemma chain_open_last ps p l x b rem : chain_open ps p (l ++ [(x, b)]) rem -> tot_len b = len b + rem.
Proof.
  revert p. induction l as [|[y c] l IH]; intros p; cbn [app chain_open]; [|intros (_ & _ & _ & _ & Hc); by apply (IH (next c))].
  intros (_ & _ & _ & -> & _). change (total_len []) with 0. lia.
Qed.

Lemma own_area_read ar x : own_area ar x -> exists d, area_read ar (payload x.2) 0 (len x.2) = Ok d.
Proof.
  intros (o & d & Hp & Hd & Ho & Hl & Hb). unfold area_read. destruct (_ =? 0); [by eexists|].
  rewrite Hp. cbn [of_option]. rewrite bind_ok, Hd. cbn [of_option]. rewrite bind_ok.
  destruct (Z.leb_spec 0 (o + 0)), (Z.leb_spec 0 (len x.2)), (Z.leb_spec (o + 0 + len x.2) (length d)); try lia.
  by eexists.
Qed.

Lemma pool_elem_own fb m ar x : pool_elem fb m ar x -> own_area ar x.
Proof.
  intros (a & o & _ & Hp & Ho & Ha & Hl & Hb & _). exists o, (fresh_area fb PBUF_POOL_BUFSIZE_ALIGNED). split_and!; try (done || lia).
Qed.

Lemma pool_elem_link fb m ar x b o : pool_elem fb m ar (x, b) -> full b -> len b < tot_len b -> pool_elem fb m ar (x, with_next o b).
Proof.
  intros (a & i & H1 & H2 & H3 & H4 & H5 & H6 & H7 & H8 & H9 & H10 & _ & H11) Hf Hl. exists a, i. cbn [fst snd] in *. by repeat split; try apply H3.
Qed.

Lemma own_area_separated ar l : Forall (own_area ar) l -> NoDup l.*1 -> separated l.
Proof.
  induction l as [|x l IH]; [done|]. cbn [fmap list_fmap]. intros Ha Hnd.
  apply Forall_cons in Ha as [Hx Hl]. apply NoDup_cons in Hnd as [Hn Hnd]. split; [|by apply IH].
  apply Forall_forall. intros y Hy. unfold separate. destruct Hx as (o & d & -> & _).
  rewrite Forall_forall in Hl. destruct (Hl y Hy) as (o' & d' & -> & _). left. intros E. apply Hn. rewrite E.
  apply list_elem_of_fmap. by exists y.
Qed.

Lemma payload_offset_bounds p offset : addr p mod 4 = 0 -> 0 <= offset <= 128 ->
  payload_offset p offset = LWIP_MEM_ALIGN_SIZE offset.
Proof.
  intros Ha Ho. unfold payload_offset, SIZEOF_STRUCT_PBUF. rewrite mem_align_spec, LWIP_MEM_ALIGN_SIZE_spec by lia. lia.
Qed.

Section Pool.
Context {P1 P2 : Type} `{!PoolAlloc P1} `{!PoolAlloc P2}.
Implicit Type s : store P1 P2.
#[local] Set Default Proof Using "Type*".
Variable custom_free_function : ptr -> store P1 P2 -> res (store P1 P2).
Variable fresh_byte : nat -> Z.

(** *** Giving a chain back *)

Lemma dealloc_shrunk s s' p b : dealloc custom_free_function p b s = Ok s' -> kind_ok p b ->
  pbufs s' = delete p (pbufs s) /\ areas s' = delete p (areas s).
Proof.
  unfold dealloc. intros E [Hk1 Hk2]. rewrite Hk1, Z.eqb_refl in E. cbn [negb] in E.
  repeat (destruct (pbuf_get_allocsrc b =? _); [by res_inv|]). done.
Qed.

Lemma dealloc_heap s s' a b : dealloc custom_free_function (HeapPtr a) b s = Ok s' -> kind_ok (HeapPtr a) b ->
  mem_free (Some a) (heap_mem s) = Ok (heap_mem s').
Proof.
  unfold dealloc. intros E [Hk1 Hk2]. rewrite Hk1, Z.eqb_refl, Hk2 in E. cbn [negb] in E.
  apply bind_inv in E as (h & E & [= <-]). exact E.
Qed.

(** A chain of pbufs with one reference each goes as a whole. *)
Lemma free_loop_chain rem l : forall fuel p count s s' n, chain_open (pbufs s) p l rem -> NoDup l.*1 ->
  Forall (fun x => ref x.2 = 1 /\ kind_ok x.1 x.2) l -> free_loop custom_free_function fuel p count s = Ok (s', n) ->
  (forall y, y ∉ l.*1 -> pbufs s' !! y = pbufs s !! y /\ areas s' !! y = areas s !! y) /\
  (forall y, y ∈ l.*1 -> pbufs s' !! y = None).
Proof.
  induction l as [|[x b] l IH]; intros fuel p count s s' n Hc Hnd Hl E; cbn [chain_open fmap list_fmap fst] in *.
  { subst p. assert (s' = s) as -> by (destruct fuel; by injection E). split; [done|]. by intros y ?%elem_of_nil. }
  destruct Hc as (-> & Hx & _ & _ & Hc). apply NoDup_cons in Hnd as [Hxl Hnd]. apply Forall_cons in Hl as [[Hr Hk] Hl]. cbn [fst snd] in Hr, Hk.
  destruct fuel as [|fuel]; [done|]. cbn [free_loop] in E. rewrite (get_some _ _ _ Hx), bind_ok, Hr in E. change (0 <? 1) with true in E. cbn [lwip_assert] in E.
  rewrite bind_ok, (modify_some _ _ _ _ Hx), bind_ok in E. cbn [ref with_ref next] in E.
  change (LWIP_PBUF_REF_T (1 - 1) =? 0) with true in E. cbn iota in E. apply bind_inv in E as (s2 & Ed & E).
  apply dealloc_shrunk in Ed as [E1 E2]; [|done]. cbn [pbufs areas set_pbufs] in E1, E2. rewrite delete_insert_eq in E1.
  destruct (IH fuel (next b) (u8 (count + 1)) s2 s' n) as [H1 H2]; [| done | done | exact E |].
  { rewrite E1. clear -Hc Hxl. revert Hc Hxl. generalize (next b). induction l as [|[y c] l IH]; intros p; [done|].
    cbn [chain_open fmap list_fmap fst]. intros (-> & Hy & Hlc & Ht & Hc) [Hne Hxl]%not_elem_of_cons.
    rewrite lookup_delete_ne by done. split_and!; try done. by apply IH. }
  split.
  - intros y [Hne Hy]%not_elem_of_cons. destruct (H1 y Hy) as [-> ->]. rewrite E1, E2. by rewrite !lookup_delete_ne.
  - intros y [->|Hy]%elem_of_cons; [|by apply H2]. destruct (H1 x Hxl) as [-> _]. rewrite E1. apply lookup_delete_eq.
Qed.

(** The loop's state: the pbufs [l] so far, from the pool, with payloads at most
    [m] bytes into their memory. *)
Variable m : Z.
Record building s (p last : option ptr) (l : list (ptr * pbuf)) (rem : Z) : Prop := Building
  { bd_chain : chain_open (pbufs s) p l rem;
    bd_last : match last with
              | None => l = []
              | Some x => exists l0 b, l = l0 ++ [(x, b)] /\ next b = None /\ (0 < rem -> full b)
              end;
    bd_nodup : NoDup l.*1;
    bd_areas : Forall (pool_elem fresh_byte m (areas s)) l }.

(** A new pbuf [q] at the end of the chain. *)
Lemma building_snoc s p last l rem q c d :
  building s p last l rem -> pbufs s !! q = None -> next c = None -> tot_len c = rem -> 0 <= len c ->
  pool_elem fresh_byte m {[q := d]} (q, c) -> (0 < rem - len c -> full c) -> (last <> None -> 0 < rem) ->
  exists s', match last with
       | None => Ok (create q c (create_area q d s))
       | Some x => modify x (with_next (Some q)) (create q c (create_area q d s))
       end = Ok s' /\
    areas s' = <[q := d]> (areas s) /\ pbuf_pool s' = pbuf_pool s /\
    (forall y, y ∉ l.*1 -> y <> q -> pbufs s' !! y = pbufs s !! y) /\
    exists l', building s' (match p with None => Some q | Some _ => p end) (Some q) l' (rem - len c) /\
      l'.*1 = l.*1 ++ [q] /\ total_len l' = total_len l + len c.
Proof.
  intros [Hc Hl Hnd Ha] Hq Hcn Ht Hlc Hown Hfc Hrem.
  assert (Hnew : forall x, pool_elem fresh_byte m (areas s) x -> x.1 <> q -> pool_elem fresh_byte m (<[q := d]> (areas s)) x).
  { intros x (a & o & Ex & Hp & Ho & He & Hb) Hne. exists a, o. rewrite lookup_insert_ne by done. by repeat split; try apply Hb; try apply Ho. }
  assert (Hqo : pool_elem fresh_byte m (<[q := d]> (areas s)) (q, c)).
  { destruct Hown as (a & o & Ex & Hp & Ho & He & Hb). cbn [fst] in *. rewrite lookup_singleton_eq in He.
    exists a, o. cbn [fst]. rewrite lookup_insert_eq. by repeat split; try apply Hb; try apply Ho. }
  destruct last as [x|].
  - destruct Hl as (l0 & b & -> & Hb & Hfb). specialize (Hfb (Hrem ltac:(done))).
    assert (Hx : pbufs s !! x = Some b).
    { apply (chain_open_in _ _ _ _ _ _ Hc). apply elem_of_app. right. by apply list_elem_of_singleton. }
    assert (Hql : q ∉ (l0 ++ [(x, b)]).*1).
    { intros ([y e] & -> & Hin)%list_elem_of_fmap. pose proof (chain_open_in _ _ _ _ _ _ Hc Hin). cbn in Hq. congruence. }
    assert (Hxq : x <> q) by congruence.
    rewrite (modify_some _ _ b) by (cbn; by rewrite lookup_insert_ne by congruence).
    eexists. split; [reflexivity|]. split; [done|]. split; [done|]. split.
    { intros y Hy Hyq. rewrite fmap_app, elem_of_app in Hy. cbn. rewrite !lookup_insert_ne; [done | congruence|].
      intros ->. apply Hy. right. cbn. by apply list_elem_of_singleton. }
    exists (l0 ++ [(x, with_next (Some q) b); (q, c)]).
    assert (Efst : (l0 ++ [(x, with_next (Some q) b); (q, c)]).*1 = (l0 ++ [(x, b)]).*1 ++ [q]).
    { rewrite !fmap_app. cbn. by rewrite <- app_assoc. }
    split_and!; [split | done |].
    + destruct p as [h|]; [|by destruct l0 as [|[]]; destruct Hc]. by apply chain_open_snoc.
    + exists (l0 ++ [(x, with_next (Some q) b)]), c. by rewrite <- app_assoc.
    + rewrite Efst. apply NoDup_app. split; [done|]. split; [|apply NoDup_singleton].
      intros y Hy ->%list_elem_of_singleton. done.
    + apply Forall_app in Ha as [Ha0 Hax]. apply Forall_cons in Hax as [Hax _].
      rewrite fmap_app, elem_of_app in Hql. apply Forall_app. split; [|constructor; [|by constructor]].
      * apply Forall_forall. intros y Hy. apply Hnew; [by rewrite Forall_forall in Ha0; apply Ha0|].
        intros E. apply Hql. left. rewrite <- E. apply list_elem_of_fmap. by exists y.
      * apply pool_elem_link; [by apply Hnew; [|cbn; congruence] | done |].
        rewrite (chain_open_last _ _ _ _ _ _ Hc). assert (0 < rem) by by apply Hrem. lia.
    + rewrite !total_len_app, !total_len_cons. cbn. lia.
  - subst l. eexists. split; [reflexivity|]. split; [done|]. split; [done|]. split.
    { intros y _ Hy. cbn. by rewrite lookup_insert_ne. }
    cbn [chain_open] in Hc. subst p. exists [(q, c)]. split_and!; [split | done |].
    + cbn. rewrite lookup_insert_eq. split_and!; try done. lia.
    + by exists [], c.
    + apply NoDup_singleton.
    + by constructor.
    + rewrite total_len_cons. cbn. lia.
Qed.

Lemma building_done s h last l : building s (Some h) last l 0 -> total_len l <= 65535 ->
  packet (pbufs s) (areas s) h l /\ separated l.
Proof.
  intros [Hc _ Hnd Ha] Ht.
  assert (Ho : Forall (own_area (areas s)) l) by (eapply Forall_impl; [exact Ha|]; intros x; apply pool_elem_own).
  split; [split; [by apply chain_open_at | | done]|].
  - eapply Forall_impl; [exact Ho|]. intros x. apply own_area_read.
  - by eapply own_area_separated.
Qed.

Lemma pool_pbufs_step n k : 0 <= k < 512 -> 512 - k < n -> pool_pbufs (n + k) = 1 + pool_pbufs (n - (512 - k)).
Proof. unfold pool_pbufs. lia. Qed.

Lemma pool_room offset : 0 <= offset <= 128 ->
  u16 (u32 (PBUF_POOL_BUFSIZE_ALIGNED - LWIP_MEM_ALIGN_SIZE offset)) = 512 - LWIP_MEM_ALIGN_SIZE offset /\
  0 <= LWIP_MEM_ALIGN_SIZE offset < 512.
Proof. intros Ho. unfold PBUF_POOL_BUFSIZE_ALIGNED. rewrite LWIP_MEM_ALIGN_SIZE_spec by lia. solve_u. Qed.

(** From [s] with the new pbufs [l] to [s'] with the new pbufs [l']. *)
Record grown s (l : list (ptr * pbuf)) s' (l' : list (ptr * pbuf)) : Prop := Grown
  { gr_same : forall y, y ∉ l'.*1 -> pbufs s' !! y = pbufs s !! y /\ areas s' !! y = areas s !! y;
    gr_new : forall y, y ∈ l'.*1 -> y ∈ l.*1 \/ pbufs s !! y = None;
    gr_old : forall y, y ∈ l.*1 -> y ∈ l'.*1;
    gr_nodup : NoDup l'.*1;
    gr_elem : Forall (pool_elem fresh_byte m (areas s')) l' }.

(** Without enough elements what has been built is freed. *)
Definition taken_back s (l : list (ptr * pbuf)) s' : Prop :=
  exists s1 p l1 rem, grown s l s1 l1 /\ chain_open (pbufs s1) p l1 rem /\
    match p with
    | None => pbufs s' = pbufs s1 /\ areas s' = areas s1
    | Some h => exists c, pbuf_free custom_free_function (Some h) s1 = Ok (s', c)
    end.

Definition pool_outcome s s' (l : list (ptr * pbuf)) (n : Z) (free : Z) (need : Z) (r : option ptr) : Prop :=
  match r with
  | None => free < need /\ taken_back s l s'
  | Some h => need <= free /\ exists l', packet (pbufs s') (areas s') h l' /\ separated l' /\
      total_len l' = total_len l + n /\ grown s l s' l'
  end.

Lemma grown_refl s p last l rem : building s p last l rem -> grown s l s l.
Proof. intros [_ _ Hnd Ha]. split; auto. Qed.

(** What has been taken is given back. *)
Lemma taken_back_all s s' : taken_back s [] s' ->
  pbufs s' = pbufs s /\ forall y, is_Some (pbufs s !! y) -> areas s' !! y = areas s !! y.
Proof.
  intros (s1 & p & l & rem & [Hsame Hnew _ Hnd He] & Hc & Hp).
  assert (Hfresh : forall y, y ∈ l.*1 -> pbufs s !! y = None).
  { intros y Hy. destruct (Hnew y Hy) as [Hy0|]; [by apply elem_of_nil in Hy0 | done]. }
  assert (H : (forall y, y ∉ l.*1 -> pbufs s' !! y = pbufs s1 !! y /\ areas s' !! y = areas s1 !! y) /\
              (forall y, y ∈ l.*1 -> pbufs s' !! y = None)).
  { destruct p as [h|].
    - destruct Hp as [c Ef]. unfold pbuf_free in Ef. cbn [lwip_assert] in Ef. rewrite bind_ok in Ef.
      eapply free_loop_chain; [exact Hc | done | | exact Ef]. eapply Forall_impl; [exact He|].
      intros x (a & o & -> & _ & _ & _ & _ & _ & Hr & Hf & _ & Ht & _). split; [done|]. split; [by rewrite Hf|].
      unfold pbuf_get_allocsrc. by rewrite Ht.
    - destruct Hp as [-> ->]. destruct l as [|[x b] l]; [|by destruct Hc]. split; [done|]. by intros y ?%elem_of_nil. }
  destruct H as [H1 H2]. split.
  - apply map_eq. intros y. destruct (decide (y ∈ l.*1)) as [Hy|Hy]; [by rewrite H2, Hfresh|].
    destruct (H1 y Hy) as [-> _]. apply (Hsame y Hy).
  - intros y [b Hb]. assert (Hy : y ∉ l.*1) by (intros Hy; rewrite Hfresh in Hb by done; done).
    destruct (H1 y Hy) as [_ ->]. apply (Hsame y Hy).
Qed.

Lemma pool_outcome_done s p last l n free need : building s (Some p) last l 0 -> total_len l <= 65535 ->
  n = 0 -> need <= free -> pool_outcome s s l n free need (Some p).
Proof.
  intros Hb Ht -> Hn. split; [done|]. destruct (building_done s p last l Hb Ht) as [Hp Hs].
  exists l. split_and!; [done | done | lia |]. by eapply grown_refl.
Qed.

Lemma grown_step s s1 s' l l1 l' q d : grown s1 l1 s' l' -> l1.*1 = l.*1 ++ [q] -> pbufs s !! q = None ->
  areas s1 = <[q := d]> (areas s) -> (forall y, y ∉ l.*1 -> y <> q -> pbufs s1 !! y = pbufs s !! y) -> grown s l s' l'.
Proof.
  intros [Hsame Hin Hsub Hnd He] E1 Hq Har Hfr. split; [| | | done | done].
  - intros y Hy. destruct (Hsame y Hy) as [-> ->].
    assert (Hy1 : y ∉ l1.*1) by (intros Hy1; by apply Hy, Hsub).
    rewrite E1, elem_of_app, list_elem_of_singleton in Hy1.
    rewrite Har, lookup_insert_ne by (intros ->; tauto). split; [apply Hfr; tauto | done].
  - intros y Hy. destruct (Hin y Hy) as [Hy1|Hy1].
    + rewrite E1, elem_of_app, list_elem_of_singleton in Hy1. destruct Hy1 as [| ->]; tauto.
    + destruct (decide (y ∈ l.*1)); [by left|]. destruct (decide (y = q)) as [->|]; [by right|].
      right. rewrite <- Hfr by done. done.
  - intros y Hy. apply Hsub. rewrite E1, elem_of_app. by left.
Qed.

Lemma pool_outcome_step s s1 s' l l1 q d n n1 free need r :
  pool_outcome s1 s' l1 n1 (free - 1) (need - 1) r -> l1.*1 = l.*1 ++ [q] -> total_len l1 + n1 = total_len l + n ->
  pbufs s !! q = None -> areas s1 = <[q := d]> (areas s) ->
  (forall y, y ∉ l.*1 -> y <> q -> pbufs s1 !! y = pbufs s !! y) ->
  pool_outcome s s' l n free need r.
Proof.
  unfold pool_outcome, taken_back. intros Ho E1 En Hq Har Hfr. destruct r as [h|].
  - destruct Ho as (Hn & l' & Hp & Hs & Ht & Hg). split; [lia|]. exists l'. split_and!; [done | done | lia |].
    by eapply grown_step.
  - destruct Ho as (Hn & s2 & p & l2 & rem & Hg & Hrest). split; [lia|]. exists s2, p, l2, rem. split; [|done].
    by eapply grown_step.
Qed.

Lemma taken_back_now s p last l rem pm s' r : building s p last l rem ->
  match p with
  | None => Ok (pbuf_pool_is_empty (set_pbuf_pool pm s), None)
  | Some _ => '(s1, _) ← pbuf_free custom_free_function p (pbuf_pool_is_empty (set_pbuf_pool pm s)); Ok (s1, None)
  end = Ok (s', r : option ptr) -> r = None /\ taken_back s l s'.
Proof.
  intros Hb E. pose proof (grown_refl _ _ _ _ _ Hb) as [G1 G2 G3 G4 G5].
  assert (Hg : grown s l (pbuf_pool_is_empty (set_pbuf_pool pm s)) l) by (by split).
  destruct p as [h|].
  - destruct (pbuf_free _ _ _) as [[s1 c]|] eqn:Ef in E; [|done]. injection E as <- <-. split; [done|].
    exists (pbuf_pool_is_empty (set_pbuf_pool pm s)), (Some h), l, rem. split_and!; [done | apply Hb | by exists c].
  - injection E as <- <-. split; [done|].
    exists (pbuf_pool_is_empty (set_pbuf_pool pm s)), None, l, rem. split_and!; (done || apply Hb).
Qed.

Lemma alloc_pool_loop_packet fuel : forall s p last l rem offset U s' r,
  building s p last l rem -> 0 <= rem -> total_len l + rem <= 65535 -> 0 <= total_len l -> 0 <= offset <= 128 ->
  LWIP_MEM_ALIGN_SIZE offset <= m -> (last <> None -> 0 < rem) ->
  pool_holds (pbuf_pool s) U -> (forall a, is_Some (pbufs s !! PoolPtr a) -> a ∈ U) ->
  alloc_pool_loop custom_free_function fresh_byte fuel p last rem offset s = Ok (s', r) ->
  pool_outcome s s' l rem (@pool_capacity P1 _ - size U) (pool_pbufs (rem + LWIP_MEM_ALIGN_SIZE offset)) r.
Proof.
  induction fuel as [|fuel IH]; intros s p last l rem offset U s' r Hb Hr Htot Hl Ho Hm Hlast HU HUa; cbn [alloc_pool_loop].
  all: destruct (pool_malloc_spec _ U HU) as (pm & [a|] & -> & Hpm); rewrite bind_ok; cbv zeta.
  2,4: intros E; destruct (taken_back_now s p last l rem pm s' r Hb E) as [-> Hback]; (split; [|done]);
    destruct Hpm as [Hpm _]; unfold pool_pbufs; lia.
  all: destruct Hpm as (Ha & _ & Hpm); rewrite payload_aligned_true, room_pos by done;
    cbn [lwip_assert]; rewrite !bind_ok; destruct (pool_room offset Ho) as [Eroom Hal]; rewrite Eroom;
    set (al := LWIP_MEM_ALIGN_SIZE offset) in *; set (qlen := Z.min rem (512 - al)).
  all: pose proof (pool_bound _ _ Hpm) as Hcap; rewrite size_union, size_singleton in Hcap by set_solver.
  all: assert (Hal4 : a mod 4 = 0) by (apply (pool_aligned _ _ a Hpm); set_solver).
  all: destruct (building_snoc (set_pbuf_pool pm s) p last l rem (PoolPtr a)
      (pbuf_init_alloced_pbuf (Some (PoolPtr a, payload_offset (PoolPtr a) offset)) rem qlen PBUF_POOL 0)
      (fresh_area fresh_byte PBUF_POOL_BUFSIZE_ALIGNED)) as (s2 & E2 & Har & Hpool & Hfr & l' & Hb' & Hl' & Ht');
    [by destruct Hb | by eapply pool_fresh | done | done | cbn; lia
    | exists a, al; cbn [payload len tot_len pbuf_init_alloced_pbuf fst snd];
      rewrite payload_offset_bounds by done; rewrite lookup_singleton_eq; unfold PBUF_POOL_BUFSIZE_ALIGNED; split_and!; (done || lia)
    | unfold full; cbn [payload len pbuf_init_alloced_pbuf]; rewrite payload_offset_bounds by done; unfold PBUF_POOL_BUFSIZE_ALIGNED; lia
    | done |].
  all: rewrite E2, bind_ok; cbn [len pbuf_init_alloced_pbuf] in Hb', Ht';
    assert (exists h, match p with Some _ => p | None => Some (PoolPtr a) end = Some h) as [h Eh] by (destruct p; eauto);
    rewrite Eh in *; rewrite (u16_id (rem - qlen)) by solve_u.
  all: destruct (Z.ltb_spec 0 (rem - qlen)) as [Hmore|Hdone].
  2,4: assert (rem - qlen = 0) as Hz by lia; rewrite Hz in Hb'; intros [= <- <-];
    (eapply pool_outcome_step; [eapply pool_outcome_done; [exact Hb' | lia | reflexivity | unfold pool_pbufs; lia]
      | exact Hl' | lia | by eapply pool_fresh | exact Har | exact Hfr]).
  - done.
  - intros E. assert (qlen = 512 - al) as Hq by lia. rewrite Hq in *.
    eapply (IH _ _ _ l' _ 0 ({[a]} ∪ U)) in E; try done; try lia.
    + eapply pool_outcome_step; [|exact Hl' | | by eapply pool_fresh | exact Har | exact Hfr].
      2: { instantiate (1 := rem - (512 - al)). lia. }
      rewrite size_union, size_singleton in E by set_solver. rewrite pool_pbufs_step by lia.
      replace (@pool_capacity P1 _ - size U - 1) with (@pool_capacity P1 _ - (1 + size U)%nat) by lia.
      replace (1 + pool_pbufs (rem - (512 - al)) - 1) with (pool_pbufs (rem - (512 - al) + LWIP_MEM_ALIGN_SIZE 0))
        by (change (LWIP_MEM_ALIGN_SIZE 0) with 0; rewrite Z.add_0_r; lia).
      exact E.
    + change (LWIP_MEM_ALIGN_SIZE 0) with 0. lia.
    + by rewrite Hpool.
    + intros x Hx. destruct (decide (x = a)) as [->|Hne]; [set_solver|].
      destruct (decide (PoolPtr x ∈ l.*1)) as [Hin|Hin]; [|rewrite Hfr in Hx by congruence; apply HUa in Hx; set_solver].
      assert (x ∈ U); [|set_solver]. apply HUa. apply list_elem_of_fmap in Hin as ([y b] & E1 & Hin).
      rewrite E1. cbn [fst]. by rewrite (chain_open_in _ _ _ _ _ _ (bd_chain _ _ _ _ _ Hb) Hin).
Qed.

End Pool.

Section Alloc.
Context {P1 P2 : Type} `{!PoolAlloc P1} `{!PoolAlloc P2}.
Implicit Type s : store P1 P2.
#[local] Set Default Proof Using "Type*".
Variable custom_free_function : ptr -> store P1 P2 -> res (store P1 P2).
Variable fresh_byte : nat -> Z.

Lemma pool_alloc_grown s E U layer n :
  ref_inv s E -> pool_holds (pbuf_pool s) U -> (forall a, is_Some (pbufs s !! PoolPtr a) -> a ∈ U) ->
  0 <= layer <= 128 -> is_u16 n ->
  exists s' r, pbuf_alloc custom_free_function fresh_byte layer n PBUF_POOL s = Ok (s', r) /\
    ref_inv s' (match r with Some p => {[+ p +]} ⊎ E | None => E end) /\ keeps s s' /\
    pool_outcome custom_free_function fresh_byte (LWIP_MEM_ALIGN_SIZE layer) s s' [] n
      (@pool_capacity P1 _ - size U) (pool_pbufs (n + LWIP_MEM_ALIGN_SIZE layer)) r.
Proof.
  intros Hs HU HUa Hl Hn. destruct (pbuf_alloc_inv custom_free_function fresh_byte s E layer n PBUF_POOL Hs Hl)
    as (s' & r & E1 & Hs' & Hk). exists s', r. split_and!; [done | done | done |].
  unfold pbuf_alloc in E1. rewrite (u16_id layer) in E1 by solve_u.
  eapply (alloc_pool_loop_packet custom_free_function fresh_byte (LWIP_MEM_ALIGN_SIZE layer) _ s None None [] n layer U s' r) in E1;
    try done; [| solve_u | cbn; solve_u].
  split; cbn; [done | done | constructor | constructor].
Qed.

(** The account of the pool after an allocation. *)
Lemma lost_pool s s' U (l : list ptr) : pool_holds (pbuf_pool s) U -> (forall a, is_Some (pbufs s !! PoolPtr a) -> a ∈ U) ->
  (forall L, lost s L -> lost s' L) -> (forall y, y ∉ l -> pbufs s' !! y = pbufs s !! y) ->
  (forall y, y ∈ l -> pbufs s !! y = None /\ is_Some (pbufs s' !! y)) ->
  exists U', pool_holds (pbuf_pool s') U' /\ forall a, a ∈ U' <-> a ∈ U \/ PoolPtr a ∈ l.
Proof using Type.
  intros HU HUa Hk Hsame Hnew.
  assert (Hlost : lost s (filter (fun a => pbufs s !! PoolPtr a = None) U)).
  { exists U. split; [done|]. split; [|by intros a [? _]%elem_of_filter]. intros a. rewrite elem_of_filter. split.
    - intros Hin. destruct (pbufs s !! PoolPtr a); [right; by eexists | by left].
    - intros [[_ Hin]|Hin]; [done | by apply HUa]. }
  destruct (Hk _ Hlost) as (U' & HU' & Hin & _). exists U'. split; [done|]. intros a. rewrite Hin, elem_of_filter.
  destruct (decide (PoolPtr a ∈ l)) as [Hl|Hl].
  - destruct (Hnew _ Hl) as [_ H1]. tauto.
  - rewrite (Hsame _ Hl). split; [intros [[_ ?]|?]; left; [done | by apply HUa]|].
    intros [Ha|]; [|done]. destruct (pbufs s !! PoolPtr a); [right; by eexists | by left].
Qed.

Lemma pool_alloc_spec s E U layer n :
  ref_inv s E -> pool_holds (pbuf_pool s) U -> (forall a, is_Some (pbufs s !! PoolPtr a) -> a ∈ U) ->
  0 <= layer <= 128 -> is_u16 n ->
  exists s' r, pbuf_alloc custom_free_function fresh_byte layer n PBUF_POOL s = Ok (s', r) /\
    ref_inv s' (match r with Some p => {[+ p +]} ⊎ E | None => E end) /\
    exists U', pool_holds (pbuf_pool s') U' /\
    match r with
    | None => @pool_capacity P1 _ - size U < pool_pbufs (n + LWIP_MEM_ALIGN_SIZE layer) /\ U' = U /\
        pbufs s' = pbufs s /\ forall y, is_Some (pbufs s !! y) -> areas s' !! y = areas s !! y
    | Some p => pool_pbufs (n + LWIP_MEM_ALIGN_SIZE layer) <= @pool_capacity P1 _ - size U /\
        exists l, packet (pbufs s') (areas s') p l /\ separated l /\ total_len l = n /\
          (forall y, y ∉ l.*1 -> pbufs s' !! y = pbufs s !! y /\ areas s' !! y = areas s !! y) /\
          (forall y, y ∈ l.*1 -> pbufs s !! y = None) /\
          (forall a, a ∈ U' <-> a ∈ U \/ PoolPtr a ∈ l.*1)
    end.
Proof.
  intros Hs HU HUa Hl Hn. destruct (pool_alloc_grown s E U layer n Hs HU HUa Hl Hn) as (s' & r & E1 & Hr & [Hk _] & Ho).
  exists s', r. split_and!; [done | done |]. destruct r as [p|].
  - destruct Ho as (Hc & l & Hp & Hsep & Ht & [Hsame Hnew _ _ _]).
    assert (Hnew' : forall y, y ∈ l.*1 -> pbufs s !! y = None).
    { intros y Hy. destruct (Hnew y Hy) as [Hy0|]; [|done]. by apply elem_of_nil in Hy0. }
    destruct (lost_pool s s' U l.*1 HU HUa Hk) as (U' & HU' & HUl); [apply Hsame | |].
    { intros y Hy. split; [by apply Hnew'|]. apply list_elem_of_fmap in Hy as ([x b] & -> & Hin).
      exists b. by apply (chain_at_lookup _ _ _ _ _ (pk_chain _ _ _ _ Hp) Hin). }
    exists U'. split; [done|]. split; [done|]. by exists l.
  - destruct Ho as [Hc Hb]. destruct (taken_back_all _ _ _ _ _ Hb) as [Eps Ear].
    destruct (lost_pool s s' U [] HU HUa Hk) as (U' & HU' & HUl); [by intros; rewrite Eps | by intros y ?%elem_of_nil |].
    exists U'. split_and!; try done. apply set_eq. intros a. rewrite HUl, elem_of_nil. tauto.
Qed.

End Alloc.

(** ** Properties *)

(** C31: allocation from the pool. pbuf_alloc(layer, n, PBUF_POOL) returns for
    every length: NULL exactly when fewer than ceil((layer + n) / 512) elements
    (at least one) are free, and then everything is as before: the pbufs with
    their counters, their memory, and the elements of the pool that are in use,
    those taken before the pool ran out having been given back; otherwise a
    packet of exactly [n] bytes, all pbufs new, their payloads disjoint and
    inside their own memory, no other pbuf or memory has changed, and the
    elements of the pool in use are those in use before and those of the packet:
    no element is lost on either path. *)
Theorem pbuf_alloc_pool_correct {P1 P2 : Type} `{!PoolAlloc P1} `{!PoolAlloc P2}
    (custom_free_function : ptr -> store P1 P2 -> res (store P1 P2)) (fresh_byte : nat -> Z)
    (s : store P1 P2) (E : gmultiset ptr) (U : gset Z) (layer n : Z) :
  ref_inv s E -> pool_holds (pbuf_pool s) U -> (forall a, is_Some (pbufs s !! PoolPtr a) -> a ∈ U) ->
  0 <= layer <= 128 -> is_u16 n ->
  exists s' r, pbuf_alloc custom_free_function fresh_byte layer n PBUF_POOL s = Ok (s', r) /\
    ref_inv s' (match r with Some p => {[+ p +]} ⊎ E | None => E end) /\
    exists U', pool_holds (pbuf_pool s') U' /\
    match r with
    | None => @pool_capacity P1 _ - size U < pool_pbufs (n + LWIP_MEM_ALIGN_SIZE layer) /\ U' = U /\
        pbufs s' = pbufs s /\ forall y, is_Some (pbufs s !! y) -> areas s' !! y = areas s !! y
    | Some p => pool_pbufs (n + LWIP_MEM_ALIGN_SIZE layer) <= @pool_capacity P1 _ - size U /\
        exists l, packet (pbufs s') (areas s') p l /\ separated l /\ total_len l = n /\
          (forall y, y ∉ l.*1 -> pbufs s' !! y = pbufs s !! y /\ areas s' !! y = areas s !! y) /\
          (forall y, y ∈ l.*1 -> pbufs s !! y = None) /\
          (forall a, a ∈ U' <-> a ∈ U \/ PoolPtr a ∈ l.*1)
    end.
Proof. exact (pool_alloc_spec custom_free_function fresh_byte s E U layer n). Qed.

(** ** Witnesses *)

#[local] Instance witness_pool : PoolAlloc pool := memp_alloc pbuf_pool_desc pbuf_pool_desc_ok.
#[local] Notation witness_memp := (memp_alloc pbuf_memp_desc pbuf_memp_desc_ok).

(** After boot, a packet of 1000 bytes takes two of the sixteen elements. *)
Lemma pbuf_alloc_pool_correct_witness :
  exists s' r, @pbuf_alloc pool pool witness_pool witness_memp (fun _ s => Ok s) (fun _ => 0) 14 1000 PBUF_POOL
      (pbuf_boot heap_fresh) = Ok (s', r) /\ is_Some r.
Proof.
  destruct (@pbuf_alloc_pool_correct pool pool witness_pool witness_memp (fun _ s => Ok s) (fun _ => 0)
    (pbuf_boot heap_fresh) ∅ ∅ 14 1000) as (s' & r & E & _ & U' & _ & H).
  - apply (pbuf_boot_inv heap_fresh [(16000, false)] heap_fresh_rep).
  - apply boot_pool_rep, pbuf_pool_desc_ok.
  - intros a. cbn. rewrite lookup_empty. by intros [].
  - lia.
  - split; lia.
  - exists s', r. split; [exact E|]. destruct r as [p|]; [by eexists | destruct H as [H _]; by vm_compute in H].
Defined.

