(* ===== verification/PbufStore.v ===== *)
(** * A store of well-formed packets

    What a module that holds packets over time (the ARP table) needs of the
    pbuf functions: an invariant of the whole store, preserved by allocating,
    freeing, adding and removing headers and writing, together with what
    these leave alone. *)

From stdpp Require Import gmultiset.
From S2P Require Import Prelude Strings Alloc Memp Mem Pbuf PbufRef PbufAlloc.

(** ** Definitions *)

(** The payload lies inside the pbuf's own memory, or inside a client's. *)
Definition payload_ok (ar : gmap ptr (list Z)) (x : ptr) (b : pbuf) : Prop :=
  exists a o d, payload b = Some (a, o) /\ ar !! a = Some d /\ 0 <= o /\ 0 <= len b /\ o + len b <= length d /\
    (a = x \/ (exists z, a = ExtPtr z) /\ Z.land (type_internal b) PBUF_TYPE_FLAG_STRUCT_DATA_CONTIGUOUS = 0).

(** What is left of a store after freeing: fewer pbufs and other counters. *)
Record thinner {P1 P2} (s s' : store P1 P2) : Prop := Thinner
  { sh_pbufs : forall x c', pbufs s' !! x = Some c' -> exists c, pbufs s !! x = Some c /\ c' = with_ref (ref c') c;
    sh_areas : forall a d, areas s' !! a = Some d -> areas s !! a = Some d;
    sh_kept : forall a, is_Some (pbufs s' !! a) -> areas s' !! a = areas s !! a;
    sh_ext : forall z, areas s' !! ExtPtr z = areas s !! ExtPtr z;
    sh_gone : forall a, is_Some (pbufs s !! a) -> pbufs s' !! a = None -> areas s' !! a = None }.

(** Areas with other contents. *)
Definition all_bytes (ar : gmap ptr (list Z)) : Prop := forall a d, ar !! a = Some d -> bytes_ok d.
Record rewritten (ar ar' : gmap ptr (list Z)) : Prop := Rewritten
  { rw_dom : forall a, is_Some (ar' !! a) <-> is_Some (ar !! a);
    rw_length : forall a d d', ar !! a = Some d -> ar' !! a = Some d' -> length d' = length d;
    rw_bytes : all_bytes ar -> all_bytes ar' }.

(** Whether there is room for a header of [n] bytes in front of the payload. *)
Definition header_room (b : pbuf) (n : Z) : bool :=
  negb (Z.land (type_internal b) PBUF_TYPE_FLAG_STRUCT_DATA_CONTIGUOUS =? 0) &&
  match payload b with Some (_, o) => n <=? o | None => false end && (tot_len b + n <=? 65535).

(** The pbuf with [n] bytes more (or, if negative, less) at the front. *)
Definition grow_head (n : Z) (b : pbuf) : pbuf :=
  with_tot_len (tot_len b + n) (with_len (len b + n)
    (with_payload (option_map (fun ao => (ao.1, ao.2 - n)) (payload b)) b)).

(** Another length and payload for the head [p]. *)
Record new_head (ar : gmap ptr (list Z)) (p : ptr) (b b' : pbuf) : Prop := NewHead
  { nh_next : next b' = next b;
    nh_flags : Z.land (flags b') PBUF_FLAG_IS_CUSTOM = Z.land (flags b) PBUF_FLAG_IS_CUSTOM;
    nh_type : type_internal b' = type_internal b;
    nh_ref : ref b' = ref b;
    nh_tot : tot_len b' - len b' = tot_len b - len b;
    nh_max : tot_len b' <= 65535;
    nh_payload : payload_ok ar p b' }.

(** What [pbuf_alloc(..., n, PBUF_RAM)] makes, [o] bytes into its memory. *)
Definition fresh_ram (p : ptr) (o n : Z) : pbuf := pbuf_init_alloced_pbuf (Some (p, o)) n n PBUF_RAM 0.

Section Store.
Context {P1 P2 : Type} `{!PoolAlloc P1} `{!PoolAlloc P2}.
Implicit Type s : store P1 P2.

(** ... and no element of the pool is lost, and the heap has not less room. *)
Record shrunk s s' : Prop := Shrunk
  { sh_thin :> thinner s s';
    sh_keeps :> keeps s s' }.

(** The invariant. [E] are the references the clients hold. *)
Record store_ok s (E : gmultiset ptr) : Prop := StoreOk
  { so_ref : ref_inv s E;
    so_chain : forall x, is_Some (pbufs s !! x) ->
      exists l, chain_at (pbufs s) (Some x) l /\ total_len l <= 65535;
    so_payload : forall x b, pbufs s !! x = Some b -> payload_ok (areas s) x b;
    so_bytes : all_bytes (areas s);
    so_areas : forall a, is_Some (areas s !! a) -> is_Some (pbufs s !! a) \/ exists z, a = ExtPtr z }.

(** The allocators are as they were, and the pool's elements in use. *)
Record same_alloc s s' : Prop := SameAlloc
  { sa_pool : pbuf_pool s' = pbuf_pool s;
    sa_heap : heap_mem s' = heap_mem s;
    sa_dom : forall x, is_Some (pbufs s' !! x) <-> is_Some (pbufs s !! x) }.

(** The pbufs outside of [Q] and the clients' memory have kept their contents. *)
Record intact_but (Q : gmultiset ptr) s s' : Prop := IntactBut
  { ib_pbufs : forall y b', y ∉ Q -> pbufs s' !! y = Some b' ->
      exists b, pbufs s !! y = Some b /\ b' = with_ref (ref b') b /\ areas s' !! y = areas s !! y;
    ib_ext : forall z, areas s' !! ExtPtr z = areas s !! ExtPtr z }.

(** The head of a packet: no chain pointer leads to it. *)
Definition is_head s (p : ptr) : Prop := incoming (pbufs s) p = 0%nat.

(** The packet at [x] has the same pbufs, lengths and bytes in both stores. *)
Definition same_packet s s' (x : ptr) : Prop :=
  forall l, packet (pbufs s) (areas s) x l ->
  exists l', packet (pbufs s') (areas s') x l' /\ chain_data (areas s') l' = chain_data (areas s) l /\
    Forall2 (fun y y' => y'.1 = y.1 /\ y'.2 = with_ref (ref y'.2) y.2) l l'.

End Store.

(** ** Lemmas *)

Lemma payload_ok_read ar x b : payload_ok ar x b -> exists d, area_read ar (payload b) 0 (len b) = Ok d.
Proof.
  intros (a & o & d & -> & Ha & Ho & Hl & Hb & _). eexists. apply (area_read_intro ar a o d 0 (len b)); [done | lia..].
Qed.

Lemma same_area_payload (ar ar' : gmap ptr (list Z)) x b c r :
  c = with_ref r b -> (forall a, a = x \/ (exists z, a = ExtPtr z) -> ar' !! a = ar !! a) -> payload_ok ar x b ->
  payload_ok ar' x c /\ payload_data ar' c = payload_data ar b.
Proof.
  intros -> Har (a & o & d & Hp & Ha & Ho & Hl & Hb & Hk).
  assert (Ea : ar' !! a = ar !! a) by (apply Har; tauto). split.
  - exists a, o, d. rewrite Ea. by split_and!.
  - unfold payload_data, area_read. cbn [payload len with_ref]. rewrite Hp. destruct (len b =? 0); [done|].
    cbn [of_option]. by rewrite !bind_ok, Ea.
Qed.

Lemma same_area_data (ar ar' : gmap ptr (list Z)) l l' :
  Forall2 (fun y y' => y'.1 = y.1 /\ y'.2 = with_ref (ref y'.2) y.2) l l' ->
  Forall (fun y => payload_ok ar y.1 y.2) l ->
  (forall y a, y ∈ l -> a = y.1 \/ (exists z, a = ExtPtr z) -> ar' !! a = ar !! a) ->
  Forall (fun y => payload_ok ar' y.1 y.2) l' /\ chain_data ar' l' = chain_data ar l.
Proof.
  intros Hf. induction Hf as [|[x b] [x' c] l l' [E Ec] Hf IH]; intros Hl Har; [done|]. cbn in E, Ec. subst x'.
  apply Forall_cons in Hl as [Hb Hl]. destruct IH as [IH1 IH2]; [done | intros y a Hy; apply Har; by right|].
  destruct (same_area_payload ar ar' x b c _ Ec) as [H1 H2]; [|done|].
  { intros a Ha. apply (Har (x, b)); [by left | done]. }
  split; [by constructor|]. by rewrite !chain_data_cons, IH2, H2.
Qed.

Lemma payloads_readable (ar : gmap ptr (list Z)) l : Forall (fun y => payload_ok ar y.1 y.2) l ->
  Forall (fun y => exists d, area_read ar (payload y.2) 0 (len y.2) = Ok d) l.
Proof. intros H. eapply Forall_impl; [exact H|]. intros y. apply payload_ok_read. Qed.

Lemma chain_avoids ps p l : forall o, incoming ps p = 0%nat -> chain_at ps o l -> o <> Some p -> p ∉ l.*1.
Proof.
  induction l as [|[x b] l IH]; intros o H0 Hl Ho; [by intros ?%elem_of_nil|].
  destruct Hl as (-> & Hx & _ & _ & Hl). cbn. apply not_elem_of_cons. split; [congruence|].
  apply (IH (next b)); [done | done |]. intros En. pose proof (incoming_pos _ _ _ _ Hx En). lia.
Qed.

Lemma new_head_chain ps ar p b b' : ps !! p = Some b -> incoming ps p = 0%nat -> new_head ar p b b' ->
  (forall l, chain_at ps (Some p) ((p, b) :: l) -> chain_at (<[p := b']> ps) (Some p) ((p, b') :: l)) /\
  (forall x l, x <> p -> chain_at ps (Some x) l -> chain_at (<[p := b']> ps) (Some x) l).
Proof.
  intros Hb H0 [Hn _ _ _ Ht _ (a & o & d & Hp & _ & _ & Hl & _)]. split.
  - intros l (_ & _ & _ & Ht0 & Hl0). cbn [chain_at]. rewrite lookup_insert_eq, Hn. split_and!; try done; [lia|].
    apply chain_at_insert_other; [done|]. apply (chain_avoids ps p l (next b)); [done | done |].
    intros En. pose proof (incoming_pos _ _ _ _ Hb En). lia.
  - intros x l Hne Hx. apply chain_at_insert_other; [done|]. apply (chain_avoids ps p l (Some x)); [done | done | congruence].
Qed.

Lemma chain_data_single ar x b : chain_data ar [(x, b)] = payload_data ar b.
Proof. rewrite chain_data_cons. apply app_nil_r. Qed.

Lemma rewritten_payload ar ar' x b : rewritten ar ar' -> payload_ok ar x b -> payload_ok ar' x b.
Proof.
  intros Hw (a & o & d & Hp & Ha & Ho & Hl & Hd & Hk). destruct (ar' !! a) as [d'|] eqn:Ea.
  - exists a, o, d'. rewrite (rw_length _ _ Hw _ _ _ Ha Ea). by split_and!.
  - assert (is_Some (ar' !! a)) as [? ?]; [|congruence]. apply (rw_dom _ _ Hw). by rewrite Ha.
Qed.

#[export] Instance rewritten_preorder : PreOrder rewritten.
Proof.
  split.
  - intros ar. split; [done | congruence | done].
  - intros a1 a2 a3 H1 H2. split.
    + intros a. by rewrite (rw_dom _ _ H2), (rw_dom _ _ H1).
    + intros a d d' E1 E3. destruct (a2 !! a) as [d2|] eqn:E2.
      * by rewrite (rw_length _ _ H2 _ _ _ E2 E3), (rw_length _ _ H1 _ _ _ E1 E2).
      * assert (is_Some (a2 !! a)) as [? ?]; [|congruence]. apply (rw_dom _ _ H1). by rewrite E1.
    + intros Hb. apply (rw_bytes _ _ H2), (rw_bytes _ _ H1), Hb.
Qed.

Lemma insert_rewritten (ar : gmap ptr (list Z)) a d d' : ar !! a = Some d -> length d' = length d ->
  (bytes_ok d -> bytes_ok d') -> rewritten ar (<[a := d']> ar).
Proof.
  intros Ha Hl Hb. split.
  - intros x. rewrite lookup_insert_is_Some'. split; [|tauto]. intros [<-|]; [by rewrite Ha | done].
  - intros x e e' He. destruct (decide (a = x)) as [<-|Hne].
    + rewrite lookup_insert_eq. intros [= <-]. congruence.
    + rewrite lookup_insert_ne by done. congruence.
  - intros Hall x e. destruct (decide (a = x)) as [<-|Hne].
    + rewrite lookup_insert_eq. intros [= <-]. apply Hb. by apply (Hall a).
    + rewrite lookup_insert_ne by done. apply Hall.
Qed.

Lemma used_ptrs_aligned o l a : o mod 4 = 0 -> Forall block_ok l -> a ∈ used_ptrs o l -> a mod 4 = 0.
Proof.
  intros Ho Hb Ha. destruct (used_ptrs_split _ _ _ Ha) as (l1 & sz & l2 & -> & ->).
  apply Forall_app in Hb as [Hb _]. pose proof (total_bounds l1 Hb). unfold SIZEOF_STRUCT_MEM. lia.
Qed.

Lemma area_write_rewritten ar pl off src ar' : area_write ar pl off src = Ok ar' -> bytes_ok src -> rewritten ar ar'.
Proof.
  unfold area_write. intros E Hsrc. destruct src as [|c src]; [by injection E as <-|]. set (w := c :: src) in *. clearbody w.
  destruct pl as [[a o]|]; [|done]. cbn [of_option] in E. rewrite bind_ok in E.
  destruct (ar !! a) as [d|] eqn:Ha; [|done]. cbn [of_option] in E. rewrite bind_ok in E.
  destruct (_ && _) eqn:Ec; [|done]. injection E as <-. rewrite andb_true_iff, !Z.leb_le in Ec.
  apply (insert_rewritten _ _ d); [done | by rewrite length_inserts |]. intros Hd.
  rewrite list_inserts_splice by lia. apply Forall_app. split; [by apply Forall_take|].
  apply Forall_app. split; [done | by apply Forall_drop].
Qed.

Lemma area_write_other ar a o off src ar' x : area_write ar (Some (a, o)) off src = Ok ar' -> x <> a -> ar' !! x = ar !! x.
Proof.
  unfold area_write. intros E Hx. destruct src as [|c src]; [by injection E as <-|]. set (w := c :: src) in *. clearbody w.
  cbn [of_option] in E. rewrite bind_ok in E.
  destruct (ar !! a) as [d|]; [|done]. cbn [of_option] in E. rewrite bind_ok in E.
  destruct (_ && _); [|done]. injection E as <-. by rewrite lookup_insert_ne.
Qed.

Lemma area_read_bytes ar pl off n d : all_bytes ar -> area_read ar pl off n = Ok d -> bytes_ok d.
Proof.
  intros Har E. destruct (decide (n = 0)) as [->|Hn]; [injection E as <-; constructor|].
  destruct (area_read_inv _ _ _ _ _ E Hn) as (a & o & b & -> & Ha & _ & _ & _ & ->).
  apply Forall_take, Forall_drop. by apply (Har a).
Qed.

Lemma chain_data_bytes ar ps p l : all_bytes ar -> packet ps ar p l -> bytes_ok (chain_data ar l).
Proof.
  intros Har [_ Ha _]. induction Ha as [|[x b] l Hb Ha IH]; [constructor|]. rewrite chain_data_cons.
  apply Forall_app. split; [|done]. apply area_read_payload in Hb. by eapply area_read_bytes.
Qed.

Lemma copy_pbuf_loop_rewritten ps fuel : forall pt pf n ot ofr ar ar' e,
  all_bytes ar -> copy_pbuf_loop ps fuel pt pf n ot ofr ar = Ok (ar', e) -> rewritten ar ar'.
Proof.
  induction fuel as [|fuel IH]; intros pt pf n ot ofr ar ar' e Har H; cbn [copy_pbuf_loop] in H.
  all: apply bind_inv in H as (t & _ & H); apply bind_inv in H as (f & _ & H); cbv zeta in H.
  all: apply bind_inv in H as (src & Er & H); apply bind_inv in H as (ar1 & Ew & H).
  all: assert (H1 : rewritten ar ar1) by (eapply area_write_rewritten; [exact Ew | by eapply area_read_bytes]).
  all: apply bind_inv in H as ([] & _ & H); apply bind_inv in H as ([] & _ & H).
  all: destruct (if len f <=? _ then _ else _) as [pf' of'] in H; destruct (_ && _) in H; [by injection H as <- <-|].
  all: destruct (if _ =? len t then _ else _) as [pt' ot'] in H; destruct (_ && _) in H; [by injection H as <- <-|].
  all: apply bind_inv in H as ([] & _ & H); [by injection H as <- <-|].
  all: apply bind_inv in H as ([] & _ & H); [by injection H as <- <-|].
  all: destruct (_ =? 0) in H; [by injection H as <- <-|]. 1: done.
  destruct pt' as [pt'|]; [|done]. destruct pf' as [pf'|]; [|done].
  transitivity ar1; [done|]. eapply IH; [|exact H]. by apply (rw_bytes _ _ H1).
Qed.

Section Lemmas.
Context {P1 P2 : Type} `{!PoolAlloc P1} `{!PoolAlloc P2}.
Implicit Type s : store P1 P2.
#[local] Set Default Proof Using "Type*".

#[export] Instance thinner_preorder : PreOrder (@thinner P1 P2).
Proof using Type.
  split.
  - intros s. split; try done; [|by intros a [b Hb] Hn; congruence]. intros x c H. exists c. by destruct c.
  - intros s1 s2 s3 H1 H2. split.
    + intros x c3 H. destruct (sh_pbufs _ _ H2 x c3 H) as (c2 & Hc2 & E2).
      destruct (sh_pbufs _ _ H1 x c2 Hc2) as (c1 & Hc1 & E1). exists c1. split; [done|].
      rewrite E2, E1. by destruct c1.
    + intros a d H. by apply (sh_areas _ _ H1), (sh_areas _ _ H2).
    + intros a H. rewrite (sh_kept _ _ H2 a H). apply (sh_kept _ _ H1).
      destruct H as [c3 H]. destruct (sh_pbufs _ _ H2 a c3 H) as (c2 & -> & _). done.
    + intros z. by rewrite (sh_ext _ _ H2), (sh_ext _ _ H1).
    + intros a Ha Hn. destruct (pbufs s2 !! a) eqn:E; [by apply (sh_gone _ _ H2); [rewrite E|]|].
      pose proof (sh_gone _ _ H1 a Ha E) as En. destruct (areas s3 !! a) eqn:E3; [|done].
      apply (sh_areas _ _ H2) in E3. congruence.
Qed.

#[export] Instance shrunk_preorder : PreOrder (@shrunk P1 P2 _).
Proof.
  split.
  - intros s. split; reflexivity.
  - intros s1 s2 s3 [] []. split; etransitivity; eassumption.
Qed.

Lemma store_packet s E x : store_ok s E -> is_Some (pbufs s !! x) -> exists l, packet (pbufs s) (areas s) x l.
Proof.
  intros Hs Hx. destruct (so_chain _ _ Hs x Hx) as (l & Hl & Ht). exists l. split; [done | | done].
  apply Forall_forall. intros [y b] Hin. apply (payload_ok_read _ y). apply (so_payload _ _ Hs).
  by eapply chain_at_lookup.
Qed.

Lemma shrunk_intact Q s s' : shrunk s s' -> intact_but Q s s'.
Proof using Type.
  intros Hsh. split; [|apply (sh_ext _ _ Hsh)]. intros y b' _ Hb'. destruct (sh_pbufs _ _ Hsh y b' Hb') as (b & Hb & E).
  exists b. split_and!; [done | done |]. apply (sh_kept _ _ Hsh). by rewrite Hb'.
Qed.

Lemma intact_trans Q s1 s2 s3 : intact_but Q s1 s2 -> intact_but Q s2 s3 -> intact_but Q s1 s3.
Proof using Type.
  intros H1 H2. split; [|by intros z; rewrite (ib_ext _ _ _ H2), (ib_ext _ _ _ H1)].
  intros y b3 Hy Hb3. destruct (ib_pbufs _ _ _ H2 y b3 Hy Hb3) as (b2 & Hb2 & E2 & A2).
  destruct (ib_pbufs _ _ _ H1 y b2 Hy Hb2) as (b1 & Hb1 & E1 & A1). exists b1.
  split_and!; [done | rewrite E2, E1; by destruct b1 | congruence].
Qed.

Lemma intact_weaken Q Q' s s' : intact_but Q s s' -> (forall y, y ∈ Q -> y ∈ Q') -> intact_but Q' s s'.
Proof using Type. intros [H1 H2] HQ. split; [|done]. intros y b' Hy. apply H1. intros HyQ. by apply Hy, HQ. Qed.

(** A chain in the store that is left. *)
Lemma shrunk_chain s s' : intact_but ∅ s s' ->
  (forall y b x, pbufs s' !! y = Some b -> next b = Some x -> is_Some (pbufs s' !! x)) ->
  forall l x, chain_at (pbufs s) (Some x) l -> is_Some (pbufs s' !! x) ->
  exists l', chain_at (pbufs s') (Some x) l' /\ total_len l' = total_len l /\
    Forall2 (fun y y' => y'.1 = y.1 /\ y'.2 = with_ref (ref y'.2) y.2) l l'.
Proof using Type.
  intros Hsh Hcl l. induction l as [|[y b] l IH]; intros x Hl Hx; [discriminate Hl|].
  destruct Hl as ([= <-] & Hb & Hlen & Ht & Hn). destruct Hx as [c Hc].
  destruct (ib_pbufs _ _ _ Hsh x c (gmultiset_not_elem_of_empty x) Hc) as (b' & Hb' & Ec & _). rewrite Hb in Hb'. injection Hb' as <-.
  assert (Hnx : next c = next b) by (by rewrite Ec). assert (Hlc : len c = len b) by (by rewrite Ec).
  assert (Htc : tot_len c = tot_len b) by (by rewrite Ec).
  assert (exists l', chain_at (pbufs s') (next b) l' /\ total_len l' = total_len l /\
    Forall2 (fun y y' => y'.1 = y.1 /\ y'.2 = with_ref (ref y'.2) y.2) l l') as (l' & Hl' & Htl & Hf).
  { destruct (next b) as [z|] eqn:Ez.
    - apply IH; [done|]. by apply (Hcl x c).
    - destruct l as [|[] l]; [|by destruct Hn]. by exists []. }
  exists ((x, c) :: l'). split_and!.
  - cbn [chain_at]. rewrite Hlc, Htc, Hnx, Htl. by split_and!.
  - rewrite !total_len_cons. cbn [snd]. lia.
  - by constructor.
Qed.

Lemma chain_payloads s E p l : store_ok s E -> chain_at (pbufs s) p l -> Forall (fun y => payload_ok (areas s) y.1 y.2) l.
Proof.
  intros Hs Hl. apply Forall_forall. intros [y b] Hin. apply (so_payload _ _ Hs). by eapply chain_at_lookup.
Qed.

(** What stays of a well-formed store keeps its packets. *)
Lemma intact_same_packet s s' E E' x : store_ok s E -> intact_but ∅ s s' -> ref_inv s' E' -> is_Some (pbufs s' !! x) ->
  same_packet s s' x.
Proof.
  intros Hs Hsh Hr Hx l Hp. pose proof (ri_next _ _ Hr) as Hcl.
  destruct (shrunk_chain s s' Hsh Hcl l x (pk_chain _ _ _ _ Hp) Hx) as (l' & Hl' & Ht & Hf).
  destruct (same_area_data (areas s) (areas s') l l' Hf) as [H1 H2].
  - by apply (chain_payloads s E (Some x)); [|apply Hp].
  - intros y a Hy [->|[z ->]]; [|apply (ib_ext _ _ _ Hsh)].
    apply list_elem_of_lookup in Hy as [i Hi]. destruct (Forall2_lookup_l _ _ _ _ _ Hf Hi) as ([y' c] & Hi' & Ey & _).
    cbn in Ey. subst y'. apply list_elem_of_lookup_2 in Hi'. by destruct (ib_pbufs _ _ _ Hsh _ _ (gmultiset_not_elem_of_empty y.1) (chain_at_lookup _ _ _ _ _ Hl' Hi')) as (? & _ & _ & ?).
  - exists l'. split_and!; [|done | done]. split; [done | by apply payloads_readable|].
    pose proof (pk_total _ _ _ _ Hp). lia.
Qed.

Lemma shrunk_same_packet s s' E E' x : store_ok s E -> shrunk s s' -> ref_inv s' E' -> is_Some (pbufs s' !! x) ->
  same_packet s s' x.
Proof. intros Hs Hsh. apply (intact_same_packet s s' E E' x Hs). by apply shrunk_intact. Qed.

Lemma shrunk_ok s s' E E' : store_ok s E -> shrunk s s' -> ref_inv s' E' -> store_ok s' E'.
Proof.
  intros Hs Hsh Hr. split; [done | | | |].
  - intros x Hx. pose proof Hx as [c Hc]. destruct (sh_pbufs _ _ Hsh x c Hc) as (b & Hb & _).
    destruct (store_packet s E x Hs) as (l & Hl); [by rewrite Hb|].
    destruct (shrunk_same_packet s s' E E' x Hs Hsh Hr Hx l Hl) as (l' & Hl' & _). exists l'. split; apply Hl'.
  - intros x c Hc. destruct (sh_pbufs _ _ Hsh x c Hc) as (b & Hb & Ec).
    apply (same_area_payload (areas s) _ x b c _ Ec); [|by apply (so_payload _ _ Hs)].
    intros a [->|[z ->]]; [|apply (sh_ext _ _ Hsh)]. apply (sh_kept _ _ Hsh). by rewrite Hc.
  - intros a d Hd. apply (sh_areas _ _ Hsh) in Hd. by apply (so_bytes _ _ Hs) in Hd.
  - intros a [d Hd]. destruct (pbufs s' !! a) eqn:Ea; [left; done|]. pose proof (sh_areas _ _ Hsh _ _ Hd) as Hd0.
    destruct (so_areas _ _ Hs a) as [Ha|]; [by rewrite Hd0 | | by right].
    pose proof (sh_gone _ _ Hsh a Ha Ea). congruence.
Qed.

Lemma incoming_shrunk s s' x : shrunk s s' -> incoming (pbufs s) x = 0%nat -> incoming (pbufs s') x = 0%nat.
Proof using Type.
  intros Hsh H0. apply incoming_zero. intros y c Hc Hn. destruct (sh_pbufs _ _ Hsh y c Hc) as (b & Hb & Ec).
  assert (next b = Some x) by (by rewrite Ec in Hn). pose proof (incoming_pos _ _ _ _ Hb H). lia.
Qed.

Lemma same_packet_refl s x : same_packet s s x.
Proof using Type.
  intros l Hl. exists l. split_and!; [done | done |]. apply Forall2_same_length_lookup_2; [done|].
  intros i [y c] [y' c'] E1 E2. rewrite E1 in E2. injection E2 as <- <-. split; [done|]. by destruct c.
Qed.

Lemma same_packet_trans s1 s2 s3 x : same_packet s1 s2 x -> same_packet s2 s3 x -> same_packet s1 s3 x.
Proof using Type.
  intros H1 H2 l Hl. destruct (H1 l Hl) as (l2 & Hl2 & Hd2 & Hf2). destruct (H2 l2 Hl2) as (l3 & Hl3 & Hd3 & Hf3).
  exists l3. split_and!; [done | congruence |]. clear -Hf2 Hf3. revert l3 Hf3.
  induction Hf2 as [|[y b] [y' b'] l l2 [E1 E2] _ IH]; intros l3 Hf3; inversion Hf3 as [|? [y'' b''] ? l3' [E3 E4] Hf]; subst;
    constructor; [|by apply IH]. cbn in *. split; [congruence|]. rewrite E4, E2. by destruct b.
Qed.

Lemma own_head s E p b : ref_inv s E -> pbufs s !! p = Some b -> p ∈ E -> ref b = 1 -> is_head s p.
Proof using Type.
  intros Hr Hb Hp H1. destruct (ri_ref _ _ Hr p b Hb) as [H2 _]. assert (0 < multiplicity p E)%nat by (by apply elem_of_multiplicity in Hp). unfold is_head. lia.
Qed.

Lemma no_stray_area s E p : store_ok s E -> pbufs s !! p = None -> (forall z, p <> ExtPtr z) -> areas s !! p = None.
Proof.
  intros Hs Hp Hz. destruct (areas s !! p) eqn:Ea; [|done]. destruct (so_areas _ _ Hs p) as [[c Hc]|[z Hc]]; [by rewrite Ea | congruence|].
  by destruct (Hz z).
Qed.

(** *** What does not allocate *)

#[export] Instance same_alloc_preorder : PreOrder (@same_alloc P1 P2).
Proof using Type.
  split; [done|]. intros s1 s2 s3 [P1' H1 D1] [P2' H2 D2]. split; [congruence | congruence|]. intros x. by rewrite D2.
Qed.

Lemma same_alloc_keeps s s' : same_alloc s s' -> keeps s s'.
Proof. intros [H1 H2 H3]. by apply keeps_same. Qed.

Lemma set_areas_alloc ar s : same_alloc s (set_areas ar s).
Proof using Type. done. Qed.

Lemma insert_alloc s p b b' : pbufs s !! p = Some b -> same_alloc s (set_pbufs (<[p := b']> (pbufs s)) s).
Proof using Type.
  intros Hb. split; [done | done|]. intros x. cbn. rewrite lookup_insert_is_Some'. split; [|tauto]. intros [<-|]; [by rewrite Hb | done].
Qed.

Lemma modify_alloc p f s s' : modify p f s = Ok s' -> same_alloc s s'.
Proof using Type.
  unfold modify. intros (b & Eb & [= <-])%bind_inv. apply (insert_alloc s p b). unfold get, deref in Eb.
  destruct (pbufs s !! p); [by injection Eb as -> | done].
Qed.

Lemma add_header_alloc p n force s s' r : pbuf_add_header_impl p n force s = Ok (s', r) -> same_alloc s s'.
Proof using Type.
  unfold pbuf_add_header_impl. destruct p as [p|]; [|done]. destruct (_ <? _); [by intros [= <- _]|]. destruct (n =? 0); [by intros [= <- _]|].
  intros (b & _ & E)%bind_inv. destruct (_ <? _); [by injection E as <- _|]. apply bind_inv in E as ([pl|] & _ & E); [|by injection E as <- _].
  apply bind_inv in E as (s1 & Em & [= <- _]). by apply modify_alloc in Em.
Qed.

Lemma remove_header_alloc p n s s' r : pbuf_remove_header p n s = Ok (s', r) -> same_alloc s s'.
Proof using Type.
  unfold pbuf_remove_header. destruct p as [p|]; [|done]. destruct (_ <? _); [by intros [= <- _]|]. destruct (n =? 0); [by intros [= <- _]|].
  intros (b & _ & E)%bind_inv. destruct (negb _); [by injection E as <- _|]. apply bind_inv in E as ([a o] & _ & E).
  apply bind_inv in E as (s1 & Em & [= <- _]). by apply modify_alloc in Em.
Qed.

(** *** Taking references *)

Lemma insert_ref_thinner s p b r : pbufs s !! p = Some b -> thinner s (set_pbufs (<[p := with_ref r b]> (pbufs s)) s).
Proof using Type.
  intros Hb. split; cbn; try done.
  - intros x c. destruct (decide (p = x)) as [<-|Hne].
    + rewrite lookup_insert_eq. intros [= <-]. by exists b.
    + rewrite lookup_insert_ne by done. intros H. exists c. by destruct c.
  - intros a [c Hc]. destruct (decide (p = a)) as [<-|Hne]; [by rewrite lookup_insert_eq|].
    rewrite lookup_insert_ne by done. congruence.
Qed.

Lemma ref_ok s E x b : store_ok s E -> pbufs s !! x = Some b -> ref b < 255 ->
  exists s', pbuf_ref (Some x) s = Ok s' /\ store_ok s' ({[+ x +]} ⊎ E) /\ shrunk s s' /\
    pbufs s' = <[x := with_ref (ref b + 1) b]> (pbufs s).
Proof.
  intros Hs Hb Hr. destruct (pbuf_ref_inv s E x b (so_ref _ _ Hs) Hb Hr) as (s' & Ef & Hri & Hps).
  assert (Har : areas s' = areas s).
  { unfold pbuf_ref in Ef. res_inv. rewrite (modify_some _ _ _ _ Hb) in E0. by injection E0 as <-. }
  assert (Hsh : shrunk s s').
  { split.
    - pose proof (insert_ref_thinner s x b (ref b + 1) Hb) as [H1 H2 H3 H4 H5]. cbn in *. split; rewrite ?Hps, ?Har; try done.
    - unfold pbuf_ref in Ef. res_inv. rewrite (modify_some _ _ _ _ Hb) in E0. injection E0 as <-. apply keeps_same; [done | done |].
      intros a. cbn. rewrite lookup_insert_is_Some'. split; [|tauto]. intros [<-|]; [by rewrite Hb | done]. }
  exists s'. split_and!; [done | by apply (shrunk_ok s s' E) | done | done].
Qed.

(** *** Changing the head of a packet *)

Lemma new_head_ok s E p b b' : store_ok s E -> pbufs s !! p = Some b -> is_head s p -> new_head (areas s) p b b' ->
  store_ok (set_pbufs (<[p := b']> (pbufs s)) s) E /\
  (forall x, x <> p -> same_packet s (set_pbufs (<[p := b']> (pbufs s)) s) x) /\
  (forall l, packet (pbufs s) (areas s) p ((p, b) :: l) -> packet (<[p := b']> (pbufs s)) (areas s) p ((p, b') :: l)).
Proof.
  intros Hs Hb H0 Hnh. destruct (new_head_chain _ _ _ _ _ Hb H0 Hnh) as [Hcp Hcx].
  destruct Hnh as [Hn Hf Hty Href Htot Hmax Hpl].
  assert (Hpk : forall l, chain_at (pbufs s) (Some p) ((p, b) :: l) -> total_len ((p, b') :: l) <= 65535).
  { intros l (_ & _ & _ & Ht & _). rewrite total_len_cons. cbn [snd]. lia. }
  split; [|split].
  - split; cbn [pbufs areas set_pbufs]; [| | | apply (so_bytes _ _ Hs) |].
    + eapply ref_inv_update; try done; [apply Hs | lia |].
      destruct (ri_ref _ _ (so_ref _ _ Hs) p b Hb). lia.
    + intros x Hx. destruct (decide (x = p)) as [->|Hne].
      * destruct (so_chain _ _ Hs p) as (l & Hl & Ht); [by rewrite Hb|]. destruct l as [|[y c] l]; [done|].
        pose proof Hl as (E1 & Hc & _). injection E1 as <-. rewrite Hb in Hc. injection Hc as <-.
        exists ((p, b') :: l). split; [by apply Hcp | by apply Hpk].
      * rewrite lookup_insert_ne in Hx by done. destruct (so_chain _ _ Hs x Hx) as (l & Hl & Ht).
        exists l. split; [by apply Hcx | done].
    + intros x c. destruct (decide (p = x)) as [<-|Hne].
      * rewrite lookup_insert_eq. by intros [= <-].
      * rewrite lookup_insert_ne by done. apply (so_payload _ _ Hs).
    + intros a Ha. destruct (so_areas _ _ Hs a Ha) as [Hx|]; [left | by right].
      apply lookup_insert_is_Some'. by right.
  - intros x Hne l [Hc Ha Ht]. exists l. cbn [pbufs areas set_pbufs]. split_and!; [by split; [apply Hcx| |] | done |].
    apply Forall2_same_length_lookup_2; [done|]. intros i [y c] [y' c'] E1 E2. rewrite E1 in E2. injection E2 as <- <-.
    split; [done|]. by destruct c.
  - intros l [Hc Ha Ht]. apply Forall_cons in Ha as [_ Ha]. split; [by apply Hcp | | by apply Hpk].
    constructor; [by apply (payload_ok_read _ p) | done].
Qed.

Lemma head_bounds s E p b : store_ok s E -> pbufs s !! p = Some b -> 0 <= len b <= tot_len b /\ tot_len b <= 65535.
Proof.
  intros Hs Hb. destruct (so_chain _ _ Hs p) as (l & Hl & Ht); [by rewrite Hb|]. destruct l as [|[y c] l]; [done|].
  destruct Hl as (E1 & Hc & Hlc & Htc & Hl). injection E1 as <-. rewrite Hb in Hc. injection Hc as <-.
  rewrite total_len_cons in Ht. cbn [snd] in Ht. pose proof (chain_at_total _ _ _ Hl). lia.
Qed.

Lemma add_header_ok s E p b n : store_ok s E -> pbufs s !! p = Some b -> 0 < n <= 65535 ->
  pbuf_add_header (Some p) n s =
    (if header_room b n then Ok (set_pbufs (<[p := grow_head n b]> (pbufs s)) s, 0) else Ok (s, 1)) /\
  (header_room b n = true -> new_head (areas s) p b (grow_head n b)).
Proof.
  intros Hs Hb Hn. destruct (head_bounds s E p b Hs Hb) as [Hlb Htb].
  destruct (so_payload _ _ Hs p b Hb) as (a & o & d & Hp & Ha & Ho & _ & Hd & Hk).
  unfold pbuf_add_header, pbuf_add_header_impl, header_room. rewrite Hp.
  destruct (Z.ltb_spec 0xFFFF n); [lia|]. destruct (Z.eqb_spec n 0); [lia|].
  rewrite (get_some _ _ _ Hb), bind_ok, (u16_id n) by solve_u.
  assert (Hwrap : (u16 (n + tot_len b) <? n) = negb (tot_len b + n <=? 65535)).
  { destruct (Z.leb_spec (tot_len b + n) 65535); cbn [negb]; [apply Z.ltb_ge | apply Z.ltb_lt]; solve_u. }
  rewrite Hwrap. destruct (Z.leb_spec (tot_len b + n) 65535) as [Hmax|_]; cbn [negb].
  2: { rewrite andb_false_r. by split. }
  destruct (negb (Z.land _ _ =? 0)) eqn:Hc; cbn [andb]; [|by rewrite bind_ok].
  rewrite Hp. cbn [of_option]. rewrite bind_ok. assert (a = p) as ->.
  { destruct Hk as [|[_ E0]]; [done|]. rewrite E0 in Hc. discriminate Hc. }
  rewrite bool_decide_true, bind_ok by done. rewrite bind_ok, andb_true_r.
  destruct (Z.ltb_spec (o - n) 0), (Z.leb_spec n o); try lia; [by split|].
  rewrite (modify_some _ _ _ _ Hb), bind_ok. split.
  - do 4 f_equal. unfold grow_head. rewrite Hp. cbn [option_map fst snd]. rewrite !u16_id by solve_u. done.
  - intros _. split; try done; [unfold grow_head; destruct b; cbn in *; lia..|].
    exists p, (o - n), d. unfold grow_head. rewrite Hp. cbn [payload with_tot_len with_len with_payload option_map fst snd len].
    split_and!; (done || lia || by left).
Qed.

Lemma remove_header_ok s E p b n : store_ok s E -> pbufs s !! p = Some b -> 0 < n <= 65535 ->
  pbuf_remove_header (Some p) n s =
    (if n <=? len b then Ok (set_pbufs (<[p := grow_head (- n) b]> (pbufs s)) s, 0) else Ok (s, 1)) /\
  (n <= len b -> new_head (areas s) p b (grow_head (- n) b)).
Proof.
  intros Hs Hb Hn. destruct (head_bounds s E p b Hs Hb) as [Hlb Htb].
  destruct (so_payload _ _ Hs p b Hb) as (a & o & d & Hp & Ha & Ho & _ & Hd & Hk).
  unfold pbuf_remove_header. destruct (Z.ltb_spec 0xFFFF n); [lia|]. destruct (Z.eqb_spec n 0); [lia|].
  rewrite (get_some _ _ _ Hb), bind_ok, (u16_id n) by solve_u.
  destruct (Z.leb_spec n (len b)) as [Hle|]; cbn [negb]; [|split; [done | lia]].
  rewrite Hp. cbn [of_option]. rewrite bind_ok, (modify_some _ _ _ _ Hb), bind_ok. split.
  - do 4 f_equal. unfold grow_head. rewrite Hp. cbn [option_map fst snd]. rewrite !u16_id by solve_u.
    replace (o - - n) with (o + n) by lia. done.
  - intros _. split; try done; [unfold grow_head; destruct b; cbn in *; lia..|].
    exists a, (o - - n), d. unfold grow_head. rewrite Hp. cbn [payload with_tot_len with_len with_payload option_map fst snd len type_internal].
    split_and!; try done; lia.
Qed.

(** *** Writing *)

Lemma rewritten_ok s E ar' : store_ok s E -> rewritten (areas s) ar' -> store_ok (set_areas ar' s) E.
Proof.
  intros Hs Hw. split; cbn [pbufs areas set_areas].
  - pose proof (so_ref _ _ Hs) as []. by split.
  - apply (so_chain _ _ Hs).
  - intros x b Hx. eapply rewritten_payload; [exact Hw|]. by apply (so_payload _ _ Hs).
  - apply (rw_bytes _ _ Hw), (so_bytes _ _ Hs).
  - intros a Ha. apply (so_areas _ _ Hs). by apply (rw_dom _ _ Hw).
Qed.

(** Bytes of the header of [p], written. *)
Lemma write_ok s E p b off src : store_ok s E -> pbufs s !! p = Some b -> 0 <= off -> off + length src <= len b ->
  bytes_ok src ->
  exists ar', area_write (areas s) (payload b) off src = Ok ar' /\ rewritten (areas s) ar' /\
    payload_data ar' b = list_inserts (Z.to_nat off) src (payload_data (areas s) b) /\
    (forall c, separate b c -> 0 <= len c -> forall d, area_read (areas s) (payload c) 0 (len c) = Ok d ->
       area_read ar' (payload c) 0 (len c) = Ok d).
Proof.
  intros Hs Hb Ho Hl Hsrc. pose proof (so_payload _ _ Hs p b Hb) as Hpl. pose proof (payload_ok_read _ _ _ Hpl) as Hr.
  apply area_read_payload in Hr. destruct (area_write_read _ _ off src _ _ Hr Ho Hl) as (ar' & E1 & E2 & Hk).
  exists ar'. split_and!; [done | | by unfold payload_data at 1; rewrite E2 |].
  - by eapply area_write_rewritten.
  - intros c Hsep. apply Hk. unfold separate in *. by destruct (payload b) as [[]|].
Qed.

(** The packets that do not contain [p] do not see a write into its own memory. *)
Lemma write_others s E p b ar' x : store_ok s E -> pbufs s !! p = Some b -> is_head s p ->
  (exists o, payload b = Some (p, o)) -> x <> p ->
  (forall c, separate b c -> 0 <= len c -> forall d, area_read (areas s) (payload c) 0 (len c) = Ok d ->
       area_read ar' (payload c) 0 (len c) = Ok d) ->
  same_packet s (set_areas ar' s) x.
Proof.
  intros Hs Hb H0 [o Hp] Hne Hk l Hl. pose proof (pk_chain _ _ _ _ Hl) as Hc.
  assert (Hsep : Forall (fun y => separate b y.2) l).
  { apply Forall_forall. intros [y c] Hin. unfold separate. rewrite Hp.
    destruct (so_payload _ _ Hs y c) as (a & o' & d & Hpc & _ & _ & _ & _ & Ha); [by eapply chain_at_lookup|].
    cbn [snd]. rewrite Hpc. left. destruct Ha as [->|[[z ->] _]].
    - intros <-. apply (chain_avoids _ _ l _ H0 Hc); [congruence|]. apply list_elem_of_fmap. by exists (p, c).
    - intros ->. pose proof (ri_kind _ _ (so_ref _ _ Hs) _ _ Hb) as [_ []]. }
  destruct (packet_kept _ _ ar' x l b Hl Hsep Hk) as [Hl' Hd]. exists l. split_and!; [done | done |].
  apply Forall2_same_length_lookup_2; [done|]. intros i [y c] [y' c'] E1 E2. rewrite E1 in E2. injection E2 as <- <-.
  split; [done|]. by destruct c.
Qed.

(** *** A new pbuf *)

(** A pbuf of its own comes into being. *)
Lemma create_ok s s' E p b d : store_ok s E -> pbufs s !! p = None -> areas s !! p = None ->
  pbufs s' = <[p := b]> (pbufs s) -> areas s' = <[p := d]> (areas s) -> ref_inv s' ({[+ p +]} ⊎ E) ->
  next b = None -> tot_len b = len b -> len b <= 65535 -> payload_ok (areas s') p b -> bytes_ok d ->
  store_ok s' ({[+ p +]} ⊎ E) /\ packet (pbufs s') (areas s') p [(p, b)] /\
  (forall x, is_Some (pbufs s !! x) -> same_packet s s' x).
Proof.
  intros Hs Hp Hap Eps Ear Hr Hn Ht Hmax Hpl Hd.
  assert (Hnew : chain_at (pbufs s') (Some p) [(p, b)]).
  { rewrite Eps. cbn. rewrite lookup_insert_eq, Hn. destruct Hpl as (_ & _ & _ & _ & _ & _ & Hl & _). split_and!; (done || lia). }
  assert (Hold : forall x l, is_Some (pbufs s !! x) -> chain_at (pbufs s) (Some x) l -> chain_at (pbufs s') (Some x) l /\
    Forall (fun y => payload_ok (areas s') y.1 y.2) l /\ chain_data (areas s') l = chain_data (areas s) l).
  { intros x l Hx Hl. assert (Hpl' : p ∉ l.*1).
    { intros ([y c] & -> & Hin)%list_elem_of_fmap. pose proof (chain_at_lookup _ _ _ _ _ Hl Hin). cbn in Hp. congruence. }
    split; [rewrite Eps; by apply chain_at_insert_other|]. apply same_area_data.
    - apply Forall2_same_length_lookup_2; [done|]. intros i [y c] [y' c'] E1 E2. rewrite E1 in E2. injection E2 as <- <-.
      split; [done|]. by destruct c.
    - by apply (chain_payloads s E (Some x)).
    - intros [y c] a Hy Ha. rewrite Ear. apply lookup_insert_ne. intros <-. destruct Ha as [->|[z ->]].
      + apply Hpl'. apply list_elem_of_fmap. by exists (y, c).
      + pose proof (ri_kind _ _ Hr (ExtPtr z) b) as Hk. rewrite Eps, lookup_insert_eq in Hk. by destruct (Hk eq_refl). }
  split_and!.
  - split; [done | | | |].
    + intros x Hx. rewrite Eps in Hx. apply lookup_insert_is_Some in Hx as [<-|[Hne Hx]].
      * exists [(p, b)]. split; [done|]. rewrite total_len_cons. cbn. lia.
      * destruct (so_chain _ _ Hs x Hx) as (l & Hl & Hlt). exists l. split; [by apply Hold | done].
    + intros x c. rewrite Eps. destruct (decide (p = x)) as [<-|Hne]; [rewrite lookup_insert_eq; by intros [= <-]|].
      rewrite lookup_insert_ne by done. intros Hx.
      destruct (so_chain _ _ Hs x) as (l & Hl & _); [by rewrite Hx|]. destruct (Hold x l) as (_ & Hf & _); [by rewrite Hx | done|].
      destruct l as [|[y c'] l]; [done|]. destruct Hl as ([= <-] & Hc & _). rewrite Hx in Hc. injection Hc as <-.
      by apply Forall_cons in Hf as [Hf _].
    + intros a e. rewrite Ear. destruct (decide (p = a)) as [<-|Hne]; [rewrite lookup_insert_eq; by intros [= <-]|].
      rewrite lookup_insert_ne by done. apply (so_bytes _ _ Hs).
    + intros a Ha. rewrite Ear in Ha. apply lookup_insert_is_Some in Ha as [<-|[Hne Ha]].
      * left. by rewrite Eps, lookup_insert_eq.
      * destruct (so_areas _ _ Hs a Ha); [left | by right]. by rewrite Eps, lookup_insert_ne.
  - split; [done | | rewrite total_len_cons; cbn; lia]. constructor; [by apply (payload_ok_read _ p) | done].
  - intros x Hx l [Hl _ Hlt]. destruct (Hold x l Hx Hl) as (H1 & H2 & H3). exists l. split_and!; [|done|].
    + split; [done | by apply payloads_readable | done].
    + apply Forall2_same_length_lookup_2; [done|]. intros i [y c] [y' c'] E1 E2. rewrite E1 in E2. injection E2 as <- <-.
      split; [done|]. by destruct c.
Qed.

(** *** Freeing *)

(** The first bytes of a packet are copied into a pbuf outside of it. *)
Lemma copy_into_ok s E q c p l n off : store_ok s E -> packet (pbufs s) (areas s) q [(q, c)] -> is_head s q -> (exists o, payload c = Some (q, o)) ->
  packet (pbufs s) (areas s) p l -> no_empty l -> q ∉ l.*1 -> 0 < len c -> 0 <= n <= total_len l -> 0 <= off -> off + n <= len c ->
  exists ar', pbuf_copy_partial_pbuf (pbufs s) (areas s) (Some q) (Some p) n off = Ok (ar', ERR_OK) /\ store_ok (set_areas ar' s) E /\
    packet (pbufs s) ar' q [(q, c)] /\
    payload_data ar' c = list_inserts (Z.to_nat off) (take (Z.to_nat n) (chain_data (areas s) l)) (payload_data (areas s) c) /\
    packet (pbufs s) ar' p l /\ chain_data ar' l = chain_data (areas s) l /\
    (forall x, x <> q -> same_packet s (set_areas ar' s) x).
Proof.
  intros Hs Hpq Hhead [o Hpay] Hp Hne Hql Hlc Hn Ho Hfit. pose proof (packet_cons _ _ _ _ _ _ Hpq) as (_ & Hdq & _ & Htq & _ & Hmq & _).
  assert (Hqs : pbufs s !! q = Some c) by (destruct Hpq as [(_ & H & _) _ _]; exact H).
  assert (Hsep : Forall (fun x => separate c x.2) l).
  { apply Forall_forall. intros [y c'] Hin. unfold separate. rewrite Hpay. cbn [snd].
    destruct (so_payload _ _ Hs y c') as (a & o' & d' & -> & _ & _ & _ & _ & Ha); [by eapply chain_at_lookup; [apply Hp|]|].
    left. destruct Ha as [->|[[z ->] _]].
    - intros <-. apply Hql. apply list_elem_of_fmap. by exists (q, c').
    - intros ->. by destruct (ri_kind _ _ (so_ref _ _ Hs) _ _ Hqs). }
  change (total_len []) with 0 in *. assert (En : total_len [(q, c)] = len c) by (rewrite total_len_cons; cbn; lia).
  pose proof (pbuf_copy_partial_pbuf_spec (pbufs s) (areas s) q [(q, c)] p l n off c Hpq Hp) as Hcopy.
  rewrite En, (proj2 (Z.ltb_ge (total_len l) n)), (proj2 (Z.ltb_ge (len c) (off + n))) in Hcopy by lia. cbn [orb] in Hcopy.
  destruct Hcopy as (ar' & E1 & Hpq' & Hp' & Hdl & Hd' & Hk).
  { cbn. split; [constructor | done]. }
  { apply Forall_forall. intros x Hx. rewrite Forall_forall in Hsep. constructor; [|done]. by apply separate_sym, Hsep. }
  { by constructor. } { done. } { done. } { lia. } { split; lia. }
  exists ar'. split; [done|]. rewrite !chain_data_single in Hd'.
  assert (Hw : rewritten (areas s) ar').
  { unfold pbuf_copy_partial_pbuf in E1. destruct l as [|[y f] l]; [by apply packet_nil in Hp|]. pose proof (packet_cons _ _ _ _ _ _ Hp) as (-> & Hdp & _ & Htp & _).
    rewrite Hdp, bind_ok, Hdq, bind_ok in E1. destruct (_ <? _) in E1; [by injection E1 as <-|]. destruct (_ <? _) in E1; [by injection E1 as <-|].
    eapply copy_pbuf_loop_rewritten; [|exact E1]. apply (so_bytes _ _ Hs). }
  split_and!; try done; [by apply rewritten_ok|]. intros x Hx.
  apply (write_others s _ q c ar' x Hs Hqs Hhead); [by exists o | done |]. intros c' Hsc Hlc' e He. apply Hk; [done | by constructor | done].
Qed.

Variable custom_free_function : ptr -> store P1 P2 -> res (store P1 P2).

Lemma delete_thinner s s' p : (forall z, p <> ExtPtr z) -> pbufs s' = delete p (pbufs s) -> areas s' = delete p (areas s) -> thinner s s'.
Proof using Type.
  intros Hp E1 E2. split.
  - intros x c H. rewrite E1 in H. apply lookup_delete_Some in H as [_ H]. exists c. by destruct c.
  - intros a d H. rewrite E2 in H. by apply lookup_delete_Some in H as [_ H].
  - intros a [c H]. rewrite E1 in H. apply lookup_delete_Some in H as [H _]. by rewrite E2, lookup_delete_ne.
  - intros z. rewrite E2, lookup_delete_ne; [done | apply Hp].
  - intros a [c Hc] H. rewrite E1 in H. rewrite E2. destruct (decide (p = a)) as [->|Hne]; [apply lookup_delete_eq|].
    rewrite lookup_delete_ne in H by done. congruence.
Qed.

Lemma free_loop_thinner fuel : forall p count s s' n,
  (forall x b, pbufs s !! x = Some b -> kind_ok x b) ->
  free_loop custom_free_function fuel p count s = Ok (s', n) -> thinner s s'.
Proof.
  induction fuel as [|fuel IH]; intros p count s s' n Hk E; (destruct p as [p|]; [|cbn in E; by res_inv]); [done|].
  cbn [free_loop] in E. unfold get, deref in E. destruct (pbufs s !! p) as [b|] eqn:Hb; [|done].
  cbn [of_option] in E. rewrite bind_ok in E. destruct (0 <? ref b); [|done]. cbn [lwip_assert] in E. rewrite bind_ok in E.
  rewrite (modify_some _ _ _ _ Hb), bind_ok in E. set (r := LWIP_PBUF_REF_T (ref b - 1)) in *.
  pose proof (insert_ref_thinner s p b r Hb) as H1. set (s1 := set_pbufs _ s) in *.
  cbn [ref with_ref next] in E. destruct (r =? 0); [|by res_inv].
  destruct (dealloc custom_free_function p (with_ref r b) s1) as [s2|] eqn:Ed; [|done]. rewrite bind_ok in E.
  assert (Hkp : kind_ok p (with_ref r b)) by (apply (Hk p b Hb)).
  destruct (dealloc_shrunk _ s1 s2 p _ Ed Hkp) as [E1 E2].
  assert (H2 : thinner s1 s2). { apply (delete_thinner s1 s2 p); [|done | done]. intros z ->. by destruct Hkp. }
  transitivity s1; [done|]. transitivity s2; [done|]. apply (IH _ _ _ _ _) in E; [done|].
  intros x c Hc. destruct (sh_pbufs _ _ (transitivity H1 H2) x c Hc) as (c0 & Hc0 & ->).
  apply (Hk x c0 Hc0).
Qed.

Lemma free_ok s E p : store_ok s E -> p ∈ E ->
  exists s' n, pbuf_free custom_free_function (Some p) s = Ok (s', n) /\ store_ok s' (E ∖ {[+ p +]}) /\ shrunk s s'.
Proof.
  intros Hs Hp. destruct (pbuf_free_inv custom_free_function s E p (so_ref _ _ Hs) Hp) as (s' & n & Ef & Hr & _ & Hk).
  assert (Hsh : shrunk s s'). { split; [|done]. eapply free_loop_thinner; [apply (ri_kind _ _ (so_ref _ _ Hs)) | exact Ef]. }
  exists s', n. split_and!; [done | by apply (shrunk_ok s s' E) | done].
Qed.

(** A packet of one pbuf with one reference goes as a whole. *)
Lemma free_single s E p b : store_ok s ({[+ p +]} ⊎ E) -> pbufs s !! p = Some b -> ref b = 1 -> next b = None ->
  exists s' n, pbuf_free custom_free_function (Some p) s = Ok (s', n) /\ store_ok s' E /\
    pbufs s' = delete p (pbufs s) /\ areas s' = delete p (areas s) /\ shrunk s s' /\
    (forall a, p = HeapPtr a -> mem_free (Some a) (heap_mem s) = Ok (heap_mem s')).
Proof.
  intros Hs Hb Hr Hn. destruct (free_ok s _ p Hs) as (s' & n & Ef & Hs' & Hsh); [multiset_solver|].
  replace (({[+ p +]} ⊎ E) ∖ {[+ p +]}) with E in Hs' by multiset_solver.
  exists s', n. split; [done|]. split; [done|]. unfold pbuf_free, chain_fuel in Ef.
  apply bind_inv in Ef as ([] & _ & Ef). cbn [free_loop] in Ef.
  apply bind_inv in Ef as (b0 & Eb & Ef). rewrite (get_some _ _ _ Hb) in Eb. injection Eb as <-.
  apply bind_inv in Ef as ([] & _ & Ef). apply bind_inv in Ef as (s1 & Em & Ef).
  rewrite (modify_some _ _ _ _ Hb) in Em. injection Em as <-. cbn [ref with_ref next] in Ef. rewrite Hr, Hn in Ef.
  change (LWIP_PBUF_REF_T (1 - 1) =? 0) with true in Ef. cbn iota in Ef.
  pose proof (ri_kind _ _ (so_ref _ _ Hs) p b Hb) as Hk. apply bind_inv in Ef as (s2 & Ed & Ef).
  assert (Eh : forall a, p = HeapPtr a -> mem_free (Some a) (heap_mem s) = Ok (heap_mem s2)).
  { intros a ->. by apply (dealloc_heap custom_free_function _ _ _ _ Ed). } apply dealloc_shrunk in Ed as [E1 E2]; [|done].
  assert (s2 = s') as -> by (destruct (size (pbufs s)); by injection Ef).
  rewrite E1, E2. cbn [pbufs areas set_pbufs]. rewrite delete_insert_eq. split_and!; [done | done | done |].
  intros a ->. by apply Eh.
Qed.

(** *** Allocation from the heap *)

Variable fresh_byte : nat -> Z.
Hypothesis fresh_u8 : forall i, is_u8 (fresh_byte i).

Lemma ram_ok s E layer n : store_ok s E -> 0 <= layer <= 128 -> is_u16 n ->
  exists s' r, pbuf_alloc custom_free_function fresh_byte layer n PBUF_RAM s = Ok (s', r) /\
    match r with
    | None => has_ram layer n s = false /\ store_ok s' E /\ pbufs s' = pbufs s /\ areas s' = areas s /\ keeps s s' /\
        (forall l, heap_rep (heap_mem s) l -> heap_rep (heap_mem s') l)
    | Some p => has_ram layer n s = true /\ (exists a, p = HeapPtr a /\ pbuf_pool s' = pbuf_pool s /\
          exists k, is_u16 k /\ mem_malloc k (heap_mem s) = Ok (heap_mem s', Some a)) /\
        store_ok s' ({[+ p +]} ⊎ E) /\ pbufs s !! p = None /\ (forall x, is_Some (pbufs s !! x) -> same_packet s s' x) /\
        exists o d, layer <= o /\ pbufs s' = <[p := fresh_ram p o n]> (pbufs s) /\ areas s' = <[p := d]> (areas s) /\
          packet (pbufs s') (areas s') p [(p, fresh_ram p o n)]
    end.
Proof.
  intros Hs Hl Hn. destruct (pbuf_alloc_inv custom_free_function fresh_byte s E layer n PBUF_RAM (so_ref _ _ Hs) Hl)
    as (s' & r & Ea & Hr & Hram). exists s', r. split; [done|]. unfold pbuf_alloc in Ea. rewrite (u16_id layer) in Ea by solve_u.
  cbv zeta in Ea. destruct (_ || _) eqn:Eov in Ea; [injection Ea as <- <-; by split_and!|]. apply orb_false_iff in Eov as [Eov _]. apply Z.ltb_ge in Eov.
  destruct (ri_heap _ _ (so_ref _ _ Hs)) as (l & Hh & Hha).
  match type of Ea with context [mem_malloc (u16 ?k) _] =>
    destruct (mem_malloc_spec _ l _ Hh (u16_range k)) as (h' & q & E1 & Hh' & Eq) end.
  rewrite E1, bind_ok in Ea. destruct q as [[o l']|]; cbn [option_map fst] in Ea.
  2: { injection Ea as <- <-. destruct Hs as [H1 H2 H3 H4 H5]. split_and!; try done.
       - by eapply keeps_layout.
       - intros l0 Hl0. by rewrite (heap_rep_det _ _ _ Hl0 Hh). }
  rewrite payload_aligned_true in Ea. cbn [lwip_assert] in Ea. rewrite bind_ok in Ea. injection Ea as <- <-.
  set (p := HeapPtr _) in *. set (k := u16 (LWIP_MEM_ALIGN_SIZE layer + _)) in *.
  symmetry in Eq. apply used_ptrs_malloc in Eq as (Hnew & Hin & _); [|apply Hh].
  assert (Hp : pbufs s !! p = None).
  { destruct (pbufs s !! p) eqn:Ep; [|done]. destruct Hnew. apply Hha. by eexists. }
  assert (Hap : areas s !! p = None).
  { destruct (areas s !! p) eqn:Ep; [|done]. destruct (so_areas _ _ Hs p) as [[c Hc]|[z Hz]]; [by rewrite Ep | congruence | done]. }
  assert (Haddr : addr p mod 4 = 0) by (apply (used_ptrs_aligned 0 l'); [done | apply Hh' | done]).
  pose proof (payload_offset_bounds p layer Haddr Hl) as Hpo.
  unfold k in *. rewrite !LWIP_MEM_ALIGN_SIZE_spec in * by solve_u.
  assert (Hk : u16 ((layer + 3) / 4 * 4 + (n + 3) / 4 * 4) = (layer + 3) / 4 * 4 + (n + 3) / 4 * 4) by solve_u.
  rewrite Hk in *. 
  destruct (create_ok s (create p (pbuf_init_alloced_pbuf (Some (p, payload_offset p layer)) n n PBUF_RAM 0)
    (create_area p (fresh_area fresh_byte ((layer + 3) / 4 * 4 + (n + 3) / 4 * 4)) (set_heap h' s))) E p
    (fresh_ram p (payload_offset p layer) n) (fresh_area fresh_byte ((layer + 3) / 4 * 4 + (n + 3) / 4 * 4)))
    as (H1 & H2 & H3); try done; cbn [tot_len len fresh_ram pbuf_init_alloced_pbuf].
  - solve_u.
  - exists p, (payload_offset p layer), (fresh_area fresh_byte ((layer + 3) / 4 * 4 + (n + 3) / 4 * 4)). cbn [areas create create_area set_areas set_pbufs].
    rewrite lookup_insert_eq. cbn [payload len fresh_ram pbuf_init_alloced_pbuf]. unfold fresh_area. rewrite length_fmap, length_seq, Hpo.
    split_and!; try done; try solve_u. by left.
  - apply Forall_forall. intros c (i & -> & _)%list_elem_of_fmap. apply fresh_u8.
  - split_and!; [done | | done | done | done |].
    { eexists. split; [reflexivity|]. split; [done|]. eexists. split; [|exact E1]. apply u16_range. }
    exists (payload_offset p layer), (fresh_area fresh_byte ((layer + 3) / 4 * 4 + (n + 3) / 4 * 4)).
    split_and!; [lia | done | done | done].
Qed.

(** A copy of a packet, in one pbuf from the heap. *)
Lemma clone_ok s E layer p l : store_ok s E -> packet (pbufs s) (areas s) p l -> no_empty l -> 0 <= layer <= 128 ->
  exists s' r, pbuf_clone custom_free_function fresh_byte layer PBUF_RAM p s = Ok (s', r) /\
    match r with
    | None => store_ok s' E /\ pbufs s' = pbufs s /\ areas s' = areas s
    | Some q => store_ok s' ({[+ q +]} ⊎ E) /\ pbufs s !! q = None /\ (forall x, is_Some (pbufs s !! x) -> same_packet s s' x) /\
        exists o, layer <= o /\ pbufs s' = <[q := fresh_ram q o (total_len l)]> (pbufs s) /\
          packet (pbufs s') (areas s') q [(q, fresh_ram q o (total_len l))] /\
          payload_data (areas s') (fresh_ram q o (total_len l)) = chain_data (areas s) l
    end.
Proof.
  intros Hs Hp Hne Hl. destruct l as [|[p' b] l]; [by apply packet_nil in Hp|].
  destruct (packet_cons _ _ _ _ _ _ Hp) as (-> & Hb & Hlb & Htb & Htl & Hmax & _). set (l0 := (p, b) :: l) in *.
  assert (Htl0 : tot_len b = total_len l0) by (unfold l0; rewrite total_len_cons; cbn; lia).
  assert (Hb' : pbufs s !! p = Some b) by (destruct Hp as [(_ & H & _) _ _]; exact H).
  unfold pbuf_clone. rewrite (get_some _ _ _ Hb'), bind_ok, Htl0.
  destruct (ram_ok s E layer (total_len l0) Hs Hl) as (s1 & r & -> & Hr); [solve_u|]. rewrite bind_ok.
  destruct r as [q|]; [|destruct Hr as (_ & ? & ? & ? & _); by exists s1, None]. destruct Hr as (_ & _ & Hs1 & Hq & Hsame & o & d & Ho & Eps & Ear & Hpq).
  assert (Hql : q ∉ l0.*1).
  { intros ([y c] & -> & Hin)%list_elem_of_fmap. pose proof (chain_at_lookup _ _ _ _ _ (pk_chain _ _ _ _ Hp) Hin). cbn in Hq. congruence. }
  destruct (Hsame p ltac:(by rewrite Hb') l0 Hp) as (l1 & Hp1 & Hd1 & _).
  assert (Hc1 : chain_at (pbufs s1) (Some p) l0) by (rewrite Eps; apply chain_at_insert_other; [apply Hp | done]).
  assert (l1 = l0) as -> by (apply (chain_at_det _ _ _ _ (pk_chain _ _ _ _ Hp1) Hc1)).
  assert (Hn0 : 0 < total_len l0). { apply Forall_cons in Hne as [Hlb0 _]. cbn in Hlb0. unfold l0. rewrite total_len_cons. cbn. lia. }
  set (n := total_len l0) in *. set (f := fresh_ram q o n) in *.
  assert (Hqs1 : pbufs s1 !! q = Some f) by (by rewrite Eps, lookup_insert_eq).
  assert (Hhead : is_head s1 q) by (apply (own_head s1 _ q f (so_ref _ _ Hs1)); [done | multiset_solver | done]).
  destruct (copy_into_ok s1 _ q f p l0 n 0 Hs1 Hpq Hhead) as (ar' & E1 & Hs2 & Hpq' & Hd' & _ & _ & Hoth);
    [by exists o | done | done | done | exact Hn0 | lia | lia | change (len f) with n; lia |].
  unfold in_store, pbuf_copy. pose proof (packet_cons _ _ _ _ _ _ Hp1) as (_ & Hdp & _).
  rewrite Hdp, bind_ok, Htl0. fold n. rewrite E1, !bind_ok, Z.eqb_refl. cbn [lwip_assert]. rewrite bind_ok.
  exists (set_areas ar' s1), (Some q). split; [done|]. split_and!; [done | done | |].
  - intros x Hx. eapply same_packet_trans; [by apply Hsame|]. apply Hoth. intros ->. rewrite Hq in Hx. by destruct Hx.
  - exists o. split_and!; [done | done | done |]. cbn [areas set_areas]. fold f. rewrite Hd', Hd1.
    pose proof (packet_length _ _ _ _ Hp) as Hlen. fold n in Hlen. rewrite take_ge by lia.
    pose proof (packet_length _ _ _ _ Hpq) as Hlq. rewrite total_len_cons, chain_data_single in Hlq. cbn [snd] in Hlq. change (len f) with n in Hlq.
    change (total_len []) with 0 in Hlq. rewrite list_inserts_splice by lia. change (Z.to_nat 0) with 0%nat. rewrite take_0, drop_ge by lia. by rewrite app_nil_l, app_nil_r.
Qed.

End Lemmas.
