(* ===== verification/PbufPool.v ===== *)
(** * Packets from the pool in a store of packets

    [pbuf_alloc] from the pool and [pbuf_take] keep the invariant of PbufStore.v:
    a received frame is a packet of fresh pbufs, and without enough elements the
    store is left as it was. *)

From stdpp Require Import gmultiset.
From S2P Require Import Prelude Strings Alloc Memp Mem Pbuf PbufRef PbufAlloc PbufStore.

(** ** Lemmas *)

Lemma chain_open_next ps p l rem : forall i x b, chain_open ps p l rem -> l !! i = Some (x, b) -> next b = fst <$> l !! S i.
Proof.
  revert p. induction l as [|[y c] l IH]; intros p i x b; [done|]. intros (_ & _ & _ & _ & Hc).
  destruct i as [|i]; cbn; [|by apply (IH (next c))]. intros [= <- <-]. destruct l as [|[z e] l]; [done|]. by destruct Hc as (-> & _).
Qed.

Lemma chain_at_same ps ps' l : forall o, (forall y, y ∈ l.*1 -> ps' !! y = ps !! y) -> chain_at ps o l -> chain_at ps' o l.
Proof.
  induction l as [|[x b] l IH]; intros o Hs; [done|]. cbn [chain_at fmap list_fmap fst].
  intros (-> & Hx & Hl & Ht & Hc). rewrite Hs by left. split_and!; try done. apply IH; [|done]. intros y Hy. apply Hs. by right.
Qed.

Lemma chain_at_drop ps l : forall o i x b, chain_at ps o l -> l !! i = Some (x, b) ->
  chain_at ps (Some x) (drop i l) /\ total_len (drop i l) <= total_len l.
Proof.
  induction l as [|[y c] l IH]; intros o i x b Hl Hi; [done|]. pose proof Hl as (_ & _ & Hlc & _ & Hc).
  destruct i as [|i]; cbn [lookup list_lookup] in Hi; [injection Hi as -> ->|]; rewrite ?skipn_cons.
  - split; [|cbn [drop]; lia]. destruct Hl as (_ & Hl). by split.
  - destruct (IH _ i x b Hc Hi) as [H1 H2]. rewrite total_len_cons. cbn [snd]. split; [done | lia].
Qed.

Lemma take_loop_rewritten ps fuel : forall p d t c ar ar' n, bytes_ok d ->
  take_loop ps fuel p d t c ar = Ok (ar', n) -> rewritten ar ar'.
Proof.
  induction fuel as [|fuel IH]; intros p d t c ar ar' n Hd H; cbn [take_loop] in H.
  all: destruct (t =? 0); [by injection H as <- <-|]; destruct p as [p|]; try done.
  apply bind_inv in H as (b & _ & H). cbv zeta in H. apply bind_inv in H as (src & Es & H). apply bind_inv in H as (ar1 & Ew & H).
  transitivity ar1; [|by eapply IH]. eapply area_write_rewritten; [exact Ew|].
  unfold buf_slice in Es. destruct (_ && _) in Es; [|done]. injection Es as <-. apply Forall_take, Forall_drop, Hd.
Qed.

Lemma pbuf_take_rewritten ps ar p d n ar' e : bytes_ok d -> pbuf_take ps ar (Some p) (Some d) n = Ok (ar', e) -> rewritten ar ar'.
Proof.
  intros Hd H. unfold pbuf_take in H. apply bind_inv in H as (b & _ & H). destruct (_ <? _) in H; [by injection H as <- <-|].
  apply bind_inv in H as ([ar1 c] & E & H). apply bind_inv in H as ([] & _ & H). injection H as <- <-. by eapply take_loop_rewritten.
Qed.

Lemma pool_elem_payload fb m ar x b : pool_elem fb m ar (x, b) -> payload_ok ar x b.
Proof.
  intros (a & o & _ & Hp & Ho & Ha & Hl & Hb & _). cbn [fst snd] in *. exists x, o, (fresh_area fb PBUF_POOL_BUFSIZE_ALIGNED).
  split_and!; try (done || lia). by left.
Qed.

Lemma pool_elem_kind fb m ar x b : pool_elem fb m ar (x, b) -> kind_ok x b.
Proof.
  intros (a & o & E & _ & _ & _ & _ & _ & _ & Hf & _ & Ht & _). cbn [fst snd] in *. subst x. split; [by rewrite Hf|].
  unfold pbuf_get_allocsrc. by rewrite Ht.
Qed.

Section PoolStore.
Context {P1 P2 : Type} `{!PoolAlloc P1} `{!PoolAlloc P2}.
Implicit Type s : store P1 P2.
#[local] Set Default Proof Using "Type*".
Variable custom_free_function : ptr -> store P1 P2 -> res (store P1 P2).
Variable fresh_byte : nat -> Z.
Variable m : Z.

Notation grown := (grown fresh_byte m).

Lemma grown_ptr s s' l y : grown s [] s' l -> y ∈ l.*1 -> exists a, y = PoolPtr a.
Proof using Type.
  intros [_ _ _ _ He] ([x b] & -> & Hin)%list_elem_of_fmap. rewrite Forall_forall in He. destruct (He _ Hin) as (a & _ & E & _). by exists a.
Qed.

Lemma grown_fresh s s' l y : grown s [] s' l -> y ∈ l.*1 -> pbufs s !! y = None.
Proof using Type. intros Hg Hy. destruct (gr_new _ _ _ _ _ _ Hg y Hy) as [?%elem_of_nil|]; [contradiction | done]. Qed.

(** A chain that has been built and freed again is gone. *)
Lemma grown_freed s s1 s' E p l rem h c : store_ok s E -> grown s [] s1 l -> chain_open (pbufs s1) p l rem ->
  pbuf_free custom_free_function (Some h) s1 = Ok (s', c) -> ref_inv s' E -> thinner s s'.
Proof.
  intros Hs Hg Hc Ef Hr. pose proof Hg as [Hsame Hnew _ Hnd He].
  assert (H1 : thinner s1 s').
  { unfold pbuf_free in Ef. apply bind_inv in Ef as ([] & _ & Ef). eapply free_loop_thinner; [|exact Ef].
    intros x b Hb. destruct (decide (x ∈ l.*1)) as [Hin|Hin].
    - apply list_elem_of_fmap in Hin as ([y d] & Ey & Hin). cbn in Ey. subst y.
      pose proof (chain_open_in _ _ _ _ _ _ Hc Hin) as Hb2. rewrite Hb in Hb2. injection Hb2 as <-.
      rewrite Forall_forall in He. by eapply pool_elem_kind, He.
    - destruct (Hsame x Hin) as [E1 _]. rewrite E1 in Hb. by apply (ri_kind _ _ (so_ref _ _ Hs)). }
  assert (Hgone : forall i x b, l !! i = Some (x, b) -> pbufs s' !! x = None).
  { intros i. induction (lt_wf i) as [i _ IH]. intros x b Hi. destruct (pbufs s' !! x) as [d|] eqn:Ex; [exfalso|done].
    assert (Hxl : x ∈ l.*1) by (apply list_elem_of_fmap; exists (x, b); split; [done | by eapply list_elem_of_lookup_2]).
    pose proof (grown_fresh _ _ _ _ Hg Hxl) as Hxs. destruct (ri_ref _ _ Hr x d Ex) as [Href Hpos].
    assert (Hm : multiplicity x E = 0%nat).
    { destruct (decide (x ∈ E)) as [Hin|Hin]; [|by apply not_elem_of_multiplicity]. destruct (ri_ext _ _ (so_ref _ _ Hs) x Hin). congruence. }
    assert (Hin0 : incoming (pbufs s') x = 0%nat); [|lia]. apply incoming_zero. intros y e Hy Hn.
    destruct (sh_pbufs _ _ H1 y e Hy) as (e0 & He0 & Ee). assert (Hn0 : next e0 = Some x) by (by rewrite Ee in Hn).
    destruct (decide (y ∈ l.*1)) as [Hyl|Hyl].
    - apply list_elem_of_fmap in Hyl as ([z e1] & Ez & Hyl). cbn in Ez. subst z. apply list_elem_of_lookup in Hyl as [j Hj].
      pose proof (chain_open_in _ _ _ _ _ _ Hc (list_elem_of_lookup_2 _ _ _ Hj)) as He1. rewrite He0 in He1. injection He1 as <-.
      pose proof (chain_open_next _ _ _ _ _ _ _ Hc Hj) as Hnx. rewrite Hn0 in Hnx.
      destruct (l !! S j) as [[z e1]|] eqn:Hsj; [|done]. cbn in Hnx. injection Hnx as <-.
      assert (S j = i) as <-.
      { eapply (NoDup_lookup l.*1); [done | by rewrite list_lookup_fmap, Hsj | by rewrite list_lookup_fmap, Hi]. }
      rewrite (IH j ltac:(lia) y e0 Hj) in Hy. done.
    - destruct (Hsame y Hyl) as [E1 _]. rewrite E1 in He0. destruct (ri_next _ _ (so_ref _ _ Hs) y e0 x He0 Hn0). congruence. }
  assert (Hgone' : forall x, x ∈ l.*1 -> pbufs s' !! x = None).
  { intros x ([y b] & -> & Hin)%list_elem_of_fmap. apply list_elem_of_lookup in Hin as [i Hi]. by apply (Hgone i _ b). }
  assert (Hleft : forall x, is_Some (pbufs s' !! x) -> x ∉ l.*1) by (intros x [d Hd] Hin; by rewrite Hgone' in Hd).
  split.
  - intros x d Hd. destruct (sh_pbufs _ _ H1 x d Hd) as (d0 & Hd0 & Ed). exists d0. split; [|done].
    destruct (Hsame x) as [<- _]; [apply Hleft; by rewrite Hd | done].
  - intros a d Ha. pose proof (sh_areas _ _ H1 a d Ha) as Ha1. destruct (decide (a ∈ l.*1)) as [Hin|Hin]; [|by destruct (Hsame a Hin) as [_ <-]].
    rewrite (sh_gone _ _ H1 a) in Ha; [done | | by apply Hgone'].
    apply list_elem_of_fmap in Hin as ([y b] & -> & Hin). exists b. by apply (chain_open_in _ _ _ _ _ _ Hc Hin).
  - intros a Ha. rewrite (sh_kept _ _ H1 a Ha). apply (Hsame a). by apply Hleft.
  - intros z. rewrite (sh_ext _ _ H1). apply Hsame. intros Hin. by destruct (grown_ptr _ _ _ _ Hg Hin).
  - intros a [b Hb] Hn. apply (sh_gone _ _ H1); [|done]. destruct (Hsame a) as [-> _]; [|by eexists].
    intros Hin. by rewrite (grown_fresh _ _ _ _ Hg Hin) in Hb.
Qed.

Lemma taken_back_thinner s s' E : store_ok s E -> taken_back custom_free_function fresh_byte m s [] s' -> ref_inv s' E -> thinner s s'.
Proof.
  intros Hs (s1 & p & l & rem & Hg & Hc & Hp) Hr. destruct p as [h|].
  - destruct Hp as [c Ef]. by eapply grown_freed.
  - destruct Hp as [Ep Ea]. destruct l as [|[x b] l]; [|by destruct Hc].
    assert (E1 : pbufs s' = pbufs s) by (rewrite Ep; apply map_eq; intros y; apply (gr_same _ _ _ _ _ _ Hg y), not_elem_of_nil).
    assert (E2 : areas s' = areas s) by (rewrite Ea; apply map_eq; intros y; apply (gr_same _ _ _ _ _ _ Hg y), not_elem_of_nil).
    split; rewrite ?E1, ?E2; try done.
    + intros x c Hx. exists c. by destruct c.
    + intros a [c Hx] Hn. congruence.
Qed.

(** A store with one packet more. *)
Lemma grown_ok s s' E p l : (forall i, is_u8 (fresh_byte i)) -> store_ok s E -> grown s [] s' l -> packet (pbufs s') (areas s') p l ->
  ref_inv s' ({[+ p +]} ⊎ E) -> store_ok s' ({[+ p +]} ⊎ E).
Proof.
  intros Hfb Hs Hg Hp Hr. pose proof Hg as [Hsame _ _ _ He]. pose proof (pk_chain _ _ _ _ Hp) as Hc.
  assert (Hold : forall y, is_Some (pbufs s !! y) -> y ∉ l.*1).
  { intros y [b Hb] Hin. by rewrite (grown_fresh _ _ _ _ Hg Hin) in Hb. }
  assert (Helem : forall x, x ∈ l.*1 -> exists b, (x, b) ∈ l /\ pbufs s' !! x = Some b /\ pool_elem fresh_byte m (areas s') (x, b)).
  { intros x ([y b] & -> & Hin)%list_elem_of_fmap. exists b. split; [done|]. rewrite Forall_forall in He. split; [|by apply He].
    by eapply chain_at_lookup. }
  split; [done | | | |].
  - intros x Hx. destruct (decide (x ∈ l.*1)) as [Hin|Hin].
    + destruct (Helem x Hin) as (b & Hb & _). apply list_elem_of_lookup in Hb as [i Hi].
      destruct (chain_at_drop _ _ _ _ _ _ Hc Hi) as [H1 H2]. exists (drop i l). split; [done|].
      pose proof (pk_total _ _ _ _ Hp). lia.
    + destruct (Hsame x Hin) as [E1 _]. rewrite E1 in Hx. destruct (so_chain _ _ Hs x Hx) as (l0 & Hl0 & Ht). exists l0. split; [|done].
      apply (chain_at_same (pbufs s)); [|done]. intros y ([z b] & -> & Hin2)%list_elem_of_fmap. apply Hsame, Hold.
      exists b. by apply (chain_at_lookup _ _ _ _ _ Hl0 Hin2).
  - intros x b Hb. destruct (decide (x ∈ l.*1)) as [Hin|Hin].
    + destruct (Helem x Hin) as (b' & _ & Hb' & Hpe). rewrite Hb in Hb'. injection Hb' as <-. by eapply pool_elem_payload.
    + destruct (Hsame x Hin) as [E1 E2]. rewrite E1 in Hb.
      destruct (so_payload _ _ Hs x b Hb) as (a & o & d & Hpl & Ha & Ho & Hl & Hd & Hk). exists a, o, d. split_and!; try done.
      destruct Hk as [->|[[z ->] _]]; [by rewrite E2|]. rewrite <- Ha. apply Hsame. intros Hz. by destruct (grown_ptr _ _ _ _ Hg Hz).
  - intros a d Ha. destruct (decide (a ∈ l.*1)) as [Hin|Hin]; [|destruct (Hsame a Hin) as [_ E2]; rewrite E2 in Ha; by apply (so_bytes _ _ Hs a)].
    destruct (Helem a Hin) as (b & _ & _ & (z & o & _ & _ & _ & Ea & _)). cbn [fst] in Ea. rewrite Ha in Ea. injection Ea as ->.
    apply Forall_forall. intros c (i & -> & _)%list_elem_of_fmap. apply Hfb.
  - intros a Ha. destruct (decide (a ∈ l.*1)) as [Hin|Hin].
    + destruct (Helem a Hin) as (b & _ & Hb & _). left. by rewrite Hb.
    + destruct (Hsame a Hin) as [E1 E2]. rewrite E2 in Ha. rewrite E1. by apply (so_areas _ _ Hs).
Qed.

End PoolStore.

Section Receive.
Context {P1 P2 : Type} `{!PoolAlloc P1} `{!PoolAlloc P2}.
Implicit Type s : store P1 P2.
#[local] Set Default Proof Using "Type*".
Variable custom_free_function : ptr -> store P1 P2 -> res (store P1 P2).
Variable fresh_byte : nat -> Z.
Hypothesis fresh_u8 : forall i, is_u8 (fresh_byte i).

Lemma pool_ok s E U layer n : store_ok s E -> pool_holds (pbuf_pool s) U -> (forall a, is_Some (pbufs s !! PoolPtr a) -> a ∈ U) ->
  0 <= layer <= 128 -> is_u16 n ->
  exists s' r, pbuf_alloc custom_free_function fresh_byte layer n PBUF_POOL s = Ok (s', r) /\
    match r with
    | None => @pool_capacity P1 _ - size U < pool_pbufs (n + LWIP_MEM_ALIGN_SIZE layer) /\ store_ok s' E /\ shrunk s s'
    | Some p => pool_pbufs (n + LWIP_MEM_ALIGN_SIZE layer) <= @pool_capacity P1 _ - size U /\ store_ok s' ({[+ p +]} ⊎ E) /\ keeps s s' /\
        exists l, packet (pbufs s') (areas s') p l /\ separated l /\ total_len l = n /\
          grown fresh_byte (LWIP_MEM_ALIGN_SIZE layer) s [] s' l
    end.
Proof.
  intros Hs HU HUa Hl Hn.
  destruct (pool_alloc_grown custom_free_function fresh_byte s E U layer n (so_ref _ _ Hs) HU HUa Hl Hn) as (s' & r & Ea & Hr & Hk & Ho).
  exists s', r. split; [done|]. destruct r as [p|].
  - destruct Ho as (Hc & l & Hp & Hsep & Ht & Hg). split; [done|]. split; [by eapply grown_ok|]. split; [done|]. by exists l.
  - destruct Ho as [Hc Hb]. assert (Hsh : shrunk s s') by (split; [by eapply taken_back_thinner | done]). split_and!; try done. by eapply shrunk_ok.
Qed.

End Receive.
