(* ===== verification/PbufTrim.v ===== *)
(** * Shortening a packet

    [pbuf_realloc] on a packet that nobody else shares: the packet has the first
    bytes of what it had, the pbufs behind are given back, and every other packet
    is as before. *)

From stdpp Require Import gmultiset.
From S2P Require Import Prelude Strings Alloc Memp Mem Pbuf PbufRef PbufAlloc PbufStore PbufPool.

(** ** Definitions *)

(** A pbuf from the pool with one reference and with data in it. *)
Definition pool_private (x : ptr * pbuf) : Prop :=
  ref x.2 = 1 /\ type_internal x.2 = u8 (pbuf_type_val PBUF_POOL) /\ 0 < len x.2.

(** The pbuf with [k] bytes less behind it. *)
Definition shortened (k : Z) (b : pbuf) : pbuf := with_tot_len (tot_len b - k) b.

(** The last pbuf, with [n] bytes. *)
Definition cut_off (n : Z) (b : pbuf) : pbuf := with_next None (with_tot_len n (with_len n b)).

(** The pbufs of [l], put into the map. *)
Definition store_all (l : list (ptr * pbuf)) (ps : gmap ptr pbuf) : gmap ptr pbuf := foldr (fun x ps => <[x.1 := x.2]> ps) ps l.

(** ** Lemmas *)

Lemma store_all_other l ps x : x ∉ l.*1 -> store_all l ps !! x = ps !! x.
Proof.
  induction l as [|[y b] l IH]; [done|]. cbn [fmap list_fmap fst]. intros [Hy Hl]%not_elem_of_cons. cbn.
  rewrite lookup_insert_ne by done. by apply IH.
Qed.

Lemma store_all_in l ps x b : NoDup l.*1 -> (x, b) ∈ l -> store_all l ps !! x = Some b.
Proof.
  induction l as [|[y c] l IH]; [by intros _ ?%elem_of_nil|]. cbn [fmap list_fmap fst]. intros [Hy Hnd]%NoDup_cons [[= -> ->]|Hin]%elem_of_cons; cbn.
  - apply lookup_insert_eq.
  - rewrite lookup_insert_ne; [by apply IH|]. intros ->. apply Hy. apply list_elem_of_fmap. by exists (x, b).
Qed.

Lemma store_all_insert l ps x b : x ∉ l.*1 -> store_all l (<[x := b]> ps) = <[x := b]> (store_all l ps).
Proof.
  induction l as [|[y c] l IH]; [done|]. cbn [fmap list_fmap fst]. intros [Hy Hl]%not_elem_of_cons.
  change (<[y := c]> (store_all l (<[x := b]> ps)) = <[x := b]> (<[y := c]> (store_all l ps))). by rewrite IH, insert_insert_ne.
Qed.

(** The chain pointers into a pbuf of a private chain. *)
Lemma two_pointers ps y y' b b' x : ps !! y = Some b -> ps !! y' = Some b' -> y <> y' -> next b = Some x -> next b' = Some x -> (2 <= incoming ps x)%nat.
Proof.
  intros Hy Hy' Hne Hn Hn'. rewrite (incoming_delete ps y b) by done. unfold points_to. rewrite decide_True by done.
  assert (Hd : delete y ps !! y' = Some b') by (by rewrite lookup_delete_ne). pose proof (incoming_pos _ _ _ _ Hd Hn'). lia.
Qed.

Lemma chain_predecessor ps l : forall o x, chain_at ps o l -> x ∈ l.*1 -> o = Some x \/ exists y b, (y, b) ∈ l /\ next b = Some x.
Proof.
  induction l as [|[y c] l IH]; intros o x; [by intros _ ?%elem_of_nil|]. intros (-> & Hy & _ & _ & Hl). cbn [fmap list_fmap fst].
  intros [->|Hin]%elem_of_cons; [by left|]. right. destruct (IH _ x Hl Hin) as [Hn|(z & b & Hz & Hb)].
  - exists y, c. split; [by left | done].
  - exists z, b. split; [by right | done].
Qed.

(** A chain that starts outside of a private chain stays outside. *)
Lemma private_disjoint ps p l l' : forall o, chain_at ps (Some p) l -> incoming ps p = 0%nat ->
  (forall x, x ∈ l.*1 -> (incoming ps x <= 1)%nat) -> chain_at ps o l' -> (forall x, o = Some x -> x ∉ l.*1) ->
  forall x, x ∈ l'.*1 -> x ∉ l.*1.
Proof.
  induction l' as [|[y c] l' IH]; intros o Hl Hp H1 Hl' Ho x; [by intros ?%elem_of_nil|]. destruct Hl' as (-> & Hy & _ & _ & Hl'). cbn [fmap list_fmap fst].
  pose proof (Ho y eq_refl) as Hyl. intros [->|Hin]%elem_of_cons; [done|]. eapply (IH (next c)); try done.
  intros z Hz Hzl. destruct (chain_predecessor _ _ _ _ Hl Hzl) as [[= ->]|(w & d & Hw & Hd)].
  - pose proof (incoming_pos _ _ _ _ Hy Hz). lia.
  - pose proof (two_pointers ps y w c d z Hy (chain_at_lookup _ _ _ _ _ Hl Hw)) as H2. specialize (H1 z Hzl).
    assert (y <> w). { intros ->. apply Hyl. apply list_elem_of_fmap. by exists (w, d). }
    specialize (H2 ltac:(done) Hz Hd). lia.
Qed.

Lemma store_all_app l l' ps : store_all (l ++ l') ps = store_all l (store_all l' ps).
Proof. apply foldr_app. Qed.

Lemma private_allocsrc x b : pool_private (x, b) -> pbuf_match_allocsrc b PBUF_TYPE_ALLOC_SRC_MASK_STD_HEAP = false.
Proof. intros (_ & Ht & _). unfold pbuf_match_allocsrc, pbuf_get_allocsrc. cbn [snd] in Ht. by rewrite Ht. Qed.

(** The data up to the cut. *)
Lemma cut_data (ps : gmap ptr pbuf) ar k r q c tail pre : forall p, packet ps ar p (pre ++ (q, c) :: tail) -> 0 <= r <= len c ->
  chain_data ar ((prod_map id (shortened k) <$> pre) ++ [(q, cut_off r c)])
    = take (Z.to_nat (total_len pre + r)) (chain_data ar (pre ++ (q, c) :: tail)).
Proof.
  induction pre as [|[x b] pre IH]; intros p Hp Hr; cbn [app fmap list_fmap prod_map id fst snd] in *;
    destruct (packet_cons _ _ _ _ _ _ Hp) as (-> & _ & Hl & _ & _ & _ & Hrd & Hdl & Hn); rewrite !chain_data_cons.
  - change (total_len []) with 0. rewrite Z.add_0_l, take_app_le by lia. change (chain_data ar []) with (@nil Z). rewrite app_nil_r.
    unfold payload_data at 1. cbn [payload len cut_off with_next with_tot_len with_len].
    by rewrite (area_read_sub _ _ _ _ 0 r Hrd) by lia.
  - destruct Hn as [[_ Hn]|(y & _ & Hn)]; [by destruct pre|]. rewrite (IH y Hn Hr), total_len_cons. cbn [snd].
    change (payload_data ar (shortened k b)) with (payload_data ar b).
    assert (0 <= total_len pre) by (eapply chain_at_total_prefix, Hn).
    rewrite take_app_ge by lia. f_equal. f_equal. lia.
Qed.

(** The chain up to the cut. *)
Lemma cut_chain ps ps' k r q c tail pre : forall o, chain_at ps o (pre ++ (q, c) :: tail) -> k = len c + total_len tail - r -> 0 <= r <= len c ->
  (forall x b, (x, b) ∈ (prod_map id (shortened k) <$> pre) ++ [(q, cut_off r c)] -> ps' !! x = Some b) ->
  chain_at ps' o ((prod_map id (shortened k) <$> pre) ++ [(q, cut_off r c)]) /\
  total_len ((prod_map id (shortened k) <$> pre) ++ [(q, cut_off r c)]) = total_len pre + r.
Proof.
  induction pre as [|[x b] pre IH]; intros o Hl Hk Hr Hin; cbn [app fmap list_fmap prod_map id fst snd] in *.
  - destruct Hl as (-> & _). rewrite total_len_cons. change (total_len []) with 0. cbn [snd len cut_off with_next with_tot_len with_len]. split; [|lia].
    cbn [chain_at]. rewrite (Hin q (cut_off r c)) by (by left). split_and!; try done; cbn; lia.
  - destruct Hl as (-> & Hx & Hlb & Htb & Hl). destruct (IH (next b) Hl Hk Hr) as [H1 H2]; [intros y d Hy; apply Hin; by right|].
    rewrite !total_len_cons. cbn [snd len shortened with_tot_len]. split; [|lia]. cbn [chain_at].
    rewrite (Hin x (shortened k b)) by (by left). split_and!; try done. rewrite H2. cbn [tot_len len shortened with_tot_len].
    rewrite Htb, total_len_app, total_len_cons. cbn [snd]. lia.
Qed.

Lemma cut_ptrs k r q c (pre : list (ptr * pbuf)) : ((prod_map id (shortened k) <$> pre) ++ [(q, cut_off r c)]).*1 = pre.*1 ++ [q].
Proof. rewrite fmap_app, <- list_fmap_compose. done. Qed.

Lemma new_in_chain k r q c (pre tail : list (ptr * pbuf)) x d : (x, d) ∈ (prod_map id (shortened k) <$> pre) ++ [(q, cut_off r c)] ->
  exists e, (x, e) ∈ pre ++ (q, c) :: tail.
Proof.
  intros [([y e] & [= -> _] & Hy)%list_elem_of_fmap|[= -> _]%list_elem_of_singleton]%elem_of_app.
  - exists e. apply elem_of_app. by left.
  - exists c. apply elem_of_app. right. by left.
Qed.

(** *** The cut *)

Section Cut.
Context {P1 P2 : Type} `{!PoolAlloc P1} `{!PoolAlloc P2}.
#[local] Set Default Proof Using "All".
Variables (s : store P1 P2) (E : gmultiset ptr) (p q : ptr) (c : pbuf) (pre tail : list (ptr * pbuf)) (k r : Z).
Hypothesis Hs : store_ok s E.
Hypothesis Hp : p ∈ E.
Hypothesis Hl : chain_at (pbufs s) (Some p) (pre ++ (q, c) :: tail).
Hypothesis Href : Forall (fun x => ref x.2 = 1) (pre ++ (q, c) :: tail).
Hypothesis Hmax : total_len (pre ++ (q, c) :: tail) <= 65535.
Hypothesis Hk : k = len c + total_len tail - r.
Hypothesis Hr : 0 <= r <= len c.

Let new := (prod_map id (shortened k) <$> pre) ++ [(q, cut_off r c)].
Let s' := set_pbufs (store_all new (pbufs s)) s.
Let E' := match next c with Some t => {[+ t +]} ⊎ E | None => E end.

Lemma cut_nodup : NoDup ((pre.*1 ++ [q]) ++ tail.*1).
Proof. pose proof (chain_at_nodup _ _ _ Hl) as H. rewrite fmap_app in H. by rewrite <- app_assoc. Qed.

Lemma cut_new_nodup : NoDup new.*1.
Proof.
  unfold new. rewrite cut_ptrs. pose proof cut_nodup as H. by apply NoDup_app in H as [H _].
Qed.

Lemma cut_head : is_head s p /\ forall x, x ∈ (pre ++ (q, c) :: tail).*1 -> (incoming (pbufs s) x <= 1)%nat.
Proof.
  assert (H1 : forall x b, (x, b) ∈ pre ++ (q, c) :: tail -> (multiplicity x E + incoming (pbufs s) x = 1)%nat).
  { intros x b Hx. destruct (ri_ref _ _ (so_ref _ _ Hs) x b) as [H _]; [by eapply chain_at_lookup|].
    rewrite Forall_forall in Href. specialize (Href _ Hx). cbn in Href. lia. }
  split.
  - destruct (pre ++ (q, c) :: tail) as [|[x b] l]; [done|]. destruct Hl as ([= <-] & _). specialize (H1 p b ltac:(by left)).
    pose proof (proj1 (elem_of_multiplicity p E) Hp). unfold is_head. lia.
  - intros x ([y b] & -> & Hx)%list_elem_of_fmap. specialize (H1 y b Hx). cbn. lia.
Qed.

Lemma cut_new x b : (x, b) ∈ new -> pbufs s' !! x = Some b.
Proof. intros Hx. by apply store_all_in; [apply cut_new_nodup|]. Qed.

Lemma cut_other x : x ∉ new.*1 -> pbufs s' !! x = pbufs s !! x.
Proof. apply store_all_other. Qed.

Lemma cut_store : ref_inv s' E' -> store_ok s' E' /\ packet (pbufs s') (areas s') p new /\ total_len new = total_len pre + r.
Proof.
  intros Hri. destruct (cut_chain _ (pbufs s') k r q c tail pre (Some p) Hl Hk Hr) as [Hc Ht]; [apply cut_new|]. fold new in Hc, Ht.
  pose proof (chain_at_total_prefix _ _ _ _ Hl) as Hpre. pose proof (chain_at_suffix _ _ _ _ _ _ Hl) as (_ & _ & _ & _ & Htail).
  pose proof (chain_at_total _ _ _ Htail) as Htl. pose proof Hmax as Hm. rewrite total_len_app, total_len_cons in Hm. cbn [snd] in Hm.
  destruct cut_head as [Hh H1]. pose proof cut_nodup as Hnd.
  assert (Hnew : forall x, x ∈ new.*1 -> x ∈ pre.*1 ++ [q]) by (intros x; unfold new; by rewrite cut_ptrs).
  assert (Hpl : forall x b, pbufs s' !! x = Some b -> payload_ok (areas s') x b).
  { intros x b Hx. destruct (decide (x ∈ new.*1)) as [Hin|Hin]; [|rewrite cut_other in Hx by done; by apply (so_payload _ _ Hs)].
    apply list_elem_of_fmap in Hin as ([y d] & Ey & Hin). cbn in Ey. subst y. rewrite (cut_new _ _ Hin) in Hx. injection Hx as ->.
    apply elem_of_app in Hin as [Hin|Hin].
    - apply list_elem_of_fmap in Hin as ([y d] & [= -> ->] & Hin).
      apply (so_payload _ _ Hs y d). apply (chain_at_lookup _ _ _ _ _ Hl). apply elem_of_app. by left.
    - apply list_elem_of_singleton in Hin as [= -> ->].
      destruct (so_payload _ _ Hs q c) as (a & o & d & G1 & G2 & G3 & G4 & G5 & G6).
      { apply (chain_at_lookup _ _ _ _ _ Hl). apply elem_of_app. right. by left. }
      exists a, o, d. cbn [payload len type_internal cut_off with_next with_tot_len with_len]. split_and!; try done; lia. }
  split; [|split; [|done]].
  - split; [done | | done | apply Hs |].
    + intros x Hx. destruct (decide (x ∈ new.*1)) as [Hin|Hin].
      { apply list_elem_of_fmap in Hin as ([y d] & -> & Hin). apply list_elem_of_lookup in Hin as [i Hi].
        destruct (chain_at_drop _ _ _ _ _ _ Hc Hi). exists (drop i new). split; [done | lia]. }
      rewrite cut_other in Hx by done. destruct (so_chain _ _ Hs x Hx) as (lx & Hlx & Htx).
      exists lx. split; [|done]. apply (chain_at_same (pbufs s)); [|done]. intros y Hy. apply cut_other. intros Hny%Hnew.
      destruct (decide (x ∈ (pre ++ (q, c) :: tail).*1)) as [Hxl|Hxl].
      * rewrite fmap_app in Hxl. cbn [fmap list_fmap fst] in Hxl. unfold new in Hin. rewrite cut_ptrs in Hin.
        assert (Hxt : x ∈ tail.*1).
        { apply elem_of_app in Hxl as [Hxl|Hxl]; [by destruct Hin; apply elem_of_app; left|]. apply elem_of_cons in Hxl as [->|]; [|done].
          destruct Hin. apply elem_of_app. right. by apply list_elem_of_singleton. }
        apply list_elem_of_fmap in Hxt as ([z d] & -> & Hz). apply list_elem_of_lookup in Hz as [i Hi].
        destruct (chain_at_drop _ _ _ _ _ _ Htail Hi) as [Hdr _]. pose proof (chain_at_det _ _ _ _ Hlx Hdr) as ->.
        apply NoDup_app in Hnd as (_ & Hdis & _). apply (Hdis y Hny).
        rewrite <- (take_drop i tail), fmap_app. apply elem_of_app. by right.
      * refine (private_disjoint _ _ _ _ _ Hl Hh H1 Hlx _ y Hy _); [by intros z [= <-]|].
        rewrite fmap_app. cbn [fmap list_fmap fst]. apply elem_of_app in Hny as [|Hq%list_elem_of_singleton]; apply elem_of_app; [by left | right; rewrite Hq; by left].
    + intros a Ha. destruct (so_areas _ _ Hs a Ha) as [Hx|]; [left | by right].
      destruct (decide (a ∈ new.*1)) as [Hin|Hin]; [|by rewrite cut_other].
      apply list_elem_of_fmap in Hin as ([y d] & -> & Hin). change (is_Some (pbufs s' !! y)). by rewrite (cut_new _ _ Hin).
  - split; [done | | lia]. apply Forall_forall. intros [x b] Hx. apply (payload_ok_read _ x). apply Hpl. by apply cut_new.
Qed.

End Cut.

Section Trim.
Context {P1 P2 : Type} `{!PoolAlloc P1} `{!PoolAlloc P2}.
Implicit Type s : store P1 P2.
#[local] Set Default Proof Using "Type*".
Variable custom_free_function : ptr -> store P1 P2 -> res (store P1 P2).

(** *** Freeing does not look at other pbufs *)

Definition put (q : ptr) (c : pbuf) s : store P1 P2 := set_pbufs (<[q := c]> (pbufs s)) s.

Lemma dealloc_put p b q c s s' : p <> q -> kind_ok p b -> dealloc custom_free_function p b s = Ok s' ->
  dealloc custom_free_function p b (put q c s) = Ok (put q c s').
Proof.
  intros Hne [Hk _] E. unfold dealloc in *. rewrite Hk, Z.eqb_refl in *. cbn [negb] in *.
  assert (Hd : delete p (<[q := c]> (pbufs s)) = <[q := c]> (delete p (pbufs s))) by (by apply delete_insert_ne).
  repeat (destruct (pbuf_get_allocsrc b =? _); [apply bind_inv in E as (pm & E1 & [= <-]); cbn [pbuf_pool pbuf_memp heap_mem put set_pbufs];
    rewrite E1, bind_ok; unfold put, destroy, set_pbuf_pool, set_pbuf_memp, set_heap, set_pbufs, set_areas; cbn; by rewrite Hd|]). done.
Qed.

Lemma free_loop_put q c fuel : forall p l count s s' n, chain_at (pbufs s) p l -> q ∉ l.*1 -> (forall x b, (x, b) ∈ l -> kind_ok x b) ->
  free_loop custom_free_function fuel p count s = Ok (s', n) -> free_loop custom_free_function fuel p count (put q c s) = Ok (put q c s', n).
Proof.
  induction fuel as [|fuel IH]; intros p l count s s' n Hl Hq Hk E; (destruct p as [p|]; [|injection E as <- <-; by destruct l as [|[] l]; [|destruct Hl]]); [done|].
  destruct l as [|[x b] l]; [done|]. pose proof (chain_at_nodup _ _ _ Hl) as [Hnp _]%NoDup_cons.
  destruct Hl as ([= <-] & Hb & _ & _ & Hl). cbn [fmap list_fmap fst] in Hq.
  apply not_elem_of_cons in Hq as [Hqp Hq]. cbn [free_loop] in *. rewrite (get_some _ _ _ Hb), bind_ok in E.
  assert (Hb' : pbufs (put q c s) !! p = Some b) by (cbn; by rewrite lookup_insert_ne).
  rewrite (get_some _ _ _ Hb'), bind_ok. destruct (0 <? ref b); [|done]. cbn [lwip_assert] in *. rewrite bind_ok in E |- *.
  rewrite (modify_some _ _ _ _ Hb), bind_ok in E. rewrite (modify_some _ _ _ _ Hb'), bind_ok. set (r := LWIP_PBUF_REF_T (ref b - 1)) in *.
  set (s1 := set_pbufs (<[p := with_ref r b]> (pbufs s)) s) in *.
  assert (E1 : set_pbufs (<[p := with_ref r b]> (pbufs (put q c s))) (put q c s) = put q c s1).
  { unfold s1, put, set_pbufs. cbn. by rewrite insert_insert_ne. }
  rewrite E1. cbn [ref with_ref next] in *. destruct (r =? 0); [|by injection E as <- <-].
  apply bind_inv in E as (s2 & Ed & E). rewrite (dealloc_put p _ q c s1 s2); [|done | | done].
  2: { apply (Hk p b). by left. }
  rewrite bind_ok. apply (IH _ l); try done.
  - apply dealloc_shrunk in Ed as [-> _]; [|apply (Hk p b); by left]. cbn [pbufs s1 set_pbufs]. rewrite delete_insert_eq.
    eapply chain_at_same; [|exact Hl]. intros y Hy. apply lookup_delete_ne. by intros ->.
  - intros x d Hx. apply (Hk x d). by right.
Qed.

Lemma put_id q c s : pbufs s !! q = Some c -> put q c s = s.
Proof using Type. intros H. unfold put. rewrite insert_id by done. by destruct s. Qed.

(** What is not in the chain stays as it is. *)
Lemma free_loop_keeps q c fuel p l count s s' n : chain_at (pbufs s) p l -> q ∉ l.*1 -> (forall x b, (x, b) ∈ l -> kind_ok x b) ->
  free_loop custom_free_function fuel p count s = Ok (s', n) -> pbufs s !! q = Some c -> pbufs s' !! q = Some c.
Proof.
  intros Hl Hq Hk E Hc. pose proof (free_loop_put q c fuel p l count s s' n Hl Hq Hk E) as E2. rewrite put_id, E in E2 by done.
  injection E2 as E2. rewrite E2. apply lookup_insert_eq.
Qed.

(** *** The loop *)

(** Where the cut is: the pbufs in front, the one that is cut, and the rest. *)
Lemma realloc_loop_ok E n k l : forall fuel p s, chain_at (pbufs s) (Some p) l -> total_len l = n + k -> 0 <= n -> 0 < k -> total_len l <= 65535 ->
  (length l <= S fuel)%nat -> ref_inv s E ->
  exists pre q c tail r, l = pre ++ (q, c) :: tail /\ r = n - total_len pre /\ 0 <= r <= len c /\ (0 < n -> 0 < r) /\
    realloc_loop fuel p n k s = Ok (set_pbufs (store_all (prod_map id (shortened k) <$> pre) (pbufs s)) s, q, r) /\
    ref_inv (set_pbufs (store_all (prod_map id (shortened k) <$> pre) (pbufs s)) s) E.
Proof.
  revert n. induction l as [|[x b] l IH]; intros n fuel p s Hl Ht Hn Hk Hmax Hf Hr; [done|]. pose proof Hl as ([= <-] & Hb & Hlb & Htb & Hnext).
  rewrite total_len_cons in Ht, Hmax. cbn [snd] in *. pose proof (chain_at_total _ _ _ Hnext) as Htl.
  assert (Hset : set_pbufs (pbufs s) s = s) by (by destruct s).
  destruct fuel as [|fuel]; cbn [realloc_loop]; rewrite (get_some _ _ _ Hb), bind_ok; destruct (Z.ltb_spec (len b) n) as [Hlt|Hge].
  2,4: exists [], p, b, l, n; cbn [fmap list_fmap app store_all foldr]; rewrite Hset; split_and!; try done; change (total_len []) with 0; lia.
  { destruct l as [|y l]; [|cbn [length] in Hf; lia]. change (total_len []) with 0 in *. lia. }
  cbv zeta. rewrite (modify_some _ _ _ _ Hb), bind_ok. rewrite !u16_id by solve_u.
  change (with_tot_len (tot_len b - k) b) with (shortened k b).
  destruct l as [|[y c] l]; [change (total_len []) with 0 in *; lia|]. pose proof Hnext as (Hny & _). rewrite Hny in *.
  pose proof (chain_at_nodup _ _ _ Hl) as [Hnp _]%NoDup_cons.
  set (s1 := set_pbufs (<[p := shortened k b]> (pbufs s)) s).
  assert (Hc1 : chain_at (pbufs s1) (Some y) ((y, c) :: l)) by (by apply chain_at_insert_other).
  destruct (ri_ref _ _ Hr p b Hb) as [Hrb Hrr].
  assert (Hr1 : ref_inv s1 E) by (by apply (ref_inv_update s E E p b)).
  destruct (IH (n - len b) fuel y s1 Hc1) as (pre & q & d & tail & r & El & Er & Hq & Hpos & Eloop & Hrl); try done; try lia; [cbn [length] in *; lia|].
  exists ((p, b) :: pre), q, d, tail, r. rewrite El. rewrite total_len_cons. cbn [snd].
  assert (Hnp2 : p ∉ (prod_map id (shortened k) <$> pre).*1).
  { intros Hin. apply Hnp. change (p ∈ ((y, c) :: l).*1). rewrite El, fmap_app. apply elem_of_app. left. rewrite <- list_fmap_compose in Hin.
    apply list_elem_of_fmap in Hin as ([z e] & -> & Hin). apply list_elem_of_fmap. by exists (z, e). }
  assert (Es : set_pbufs (store_all (prod_map id (shortened k) <$> pre) (pbufs s1)) s1
    = set_pbufs (store_all (prod_map id (shortened k) <$> (p, b) :: pre) (pbufs s)) s).
  { unfold s1 at 1. cbn [pbufs set_pbufs]. rewrite store_all_insert by done. done. }
  rewrite Es in Eloop, Hrl. split_and!; try done; try lia.
Qed.


(** *** The whole function *)

(** What [pbuf_realloc] leaves at the head. *)
Definition cut_head_of (n : Z) (b b' : pbuf) : Prop :=
  payload b' = payload b /\ len b' = Z.min n (len b) /\ tot_len b' = n /\ flags b' = flags b /\ if_idx b' = if_idx b /\
  type_internal b' = type_internal b /\ ref b' = ref b.

Lemma put_put q c c' s : put q c (put q c' s) = put q c s.
Proof using Type. unfold put, set_pbufs. cbn. by rewrite insert_insert_eq. Qed.

(** Giving back what is behind the cut. *)
Lemma free_tail s E q c c2 tail t : store_ok s ({[+ t +]} ⊎ E) -> chain_at (pbufs s) (Some t) tail -> q ∉ tail.*1 -> pbufs s !! q = Some c ->
  exists s2 n, pbuf_free custom_free_function (Some t) (put q c2 s) = Ok (put q c2 s2, n) /\ store_ok s2 E /\ shrunk s s2 /\
    (forall x b, x ∉ tail.*1 -> pbufs s !! x = Some b -> pbufs s2 !! x = Some b).
Proof.
  intros Hs Ht Hq Hc. destruct (free_ok custom_free_function s _ t Hs) as (s2 & n & Ef & Hs2 & Hsh); [multiset_solver|].
  replace (({[+ t +]} ⊎ E) ∖ {[+ t +]}) with E in Hs2 by multiset_solver.
  assert (Hkind : forall x b, (x, b) ∈ tail -> kind_ok x b).
  { intros x b Hx. apply (ri_kind _ _ (so_ref _ _ Hs)). by eapply chain_at_lookup. }
  exists s2, n. split; [|split; [done|]; split; [done|]].
  - unfold pbuf_free in *. assert (chain_fuel (pbufs (put q c2 s)) = chain_fuel (pbufs s)) as ->.
    { unfold chain_fuel. f_equal. cbn. by apply map_size_insert_Some. }
    cbn [lwip_assert] in *. rewrite bind_ok in Ef |- *. by apply (free_loop_put q c2 _ _ tail).
  - intros x b Hx Hb. unfold pbuf_free in Ef. cbn [lwip_assert] in Ef. rewrite bind_ok in Ef. by apply (free_loop_keeps x b _ _ tail _ _ _ _ Ht Hx Hkind Ef).
Qed.

(** What stays of a chain when others are given back. *)
Lemma shrunk_packet s s' E p l : store_ok s E -> packet (pbufs s) (areas s) p l -> shrunk s s' ->
  (forall x b, (x, b) ∈ l -> pbufs s' !! x = Some b) -> packet (pbufs s') (areas s') p l /\ chain_data (areas s') l = chain_data (areas s) l.
Proof.
  intros Hs [Hc _ Hmax] Hsh Hin.
  assert (Hpo : Forall (fun y => payload_ok (areas s) y.1 y.2) l) by (by eapply chain_payloads).
  destruct (same_area_data (areas s) (areas s') l l) as [H1 H2]; [| done | |].
  - apply Forall2_same_length_lookup_2; [done|]. intros i [y c] [y' c'] E1 E2. rewrite E1 in E2. injection E2 as <- <-.
    split; [done|]. by destruct c.
  - intros [y c] a Hy [->|[z ->]]; [|apply (sh_ext _ _ Hsh)]. apply (sh_kept _ _ Hsh). cbn. by rewrite (Hin _ _ Hy).
  - split; [|done]. split; [|by apply payloads_readable | done].
    eapply chain_at_same; [|exact Hc]. intros y ([z c] & -> & Hy)%list_elem_of_fmap. cbn. by rewrite (Hin _ _ Hy), (chain_at_lookup _ _ _ _ _ Hc Hy).
Qed.

Lemma realloc_ok s E p b l n : store_ok s E -> p ∈ E -> packet (pbufs s) (areas s) p ((p, b) :: l) ->
  Forall pool_private ((p, b) :: l) -> 0 <= n < tot_len b ->
  exists s' b' l', pbuf_realloc custom_free_function (Some p) n s = Ok s' /\ store_ok s' E /\
    packet (pbufs s') (areas s') p ((p, b') :: l') /\ cut_head_of n b b' /\
    chain_data (areas s') ((p, b') :: l') = take (Z.to_nat n) (chain_data (areas s) ((p, b) :: l)) /\
    (0 < n -> Forall pool_private ((p, b') :: l')) /\ areas s' !! p = areas s !! p /\
    (forall y, incoming (pbufs s) y = 0%nat -> incoming (pbufs s') y = 0%nat) /\ keeps s s'.
Proof.
  intros Hs Hp Hpk Hpr Hn. pose proof Hpk as [Hc _ Hmax].
  destruct (packet_cons _ _ _ _ _ _ Hpk) as (_ & Hb & Hlb & Htot & Hl0 & Hmx & _). unfold deref in Hb.
  destruct (pbufs s !! p) as [b0|] eqn:Hbp; [injection Hb as ->|done]. set (k := tot_len b - n).
  assert (Htl : total_len ((p, b) :: l) = n + k) by (rewrite total_len_cons; cbn [snd]; lia).
  destruct (realloc_loop_ok E n k ((p, b) :: l) (chain_fuel (pbufs s)) p s Hc) as (pre & q & c & tail & r & El & Er & Hr & Hpos & Eloop & Hri);
    try done; try lia; [pose proof (chain_at_fuel _ _ _ Hc); lia | apply Hs |].
  rewrite El in Hc, Hmax, Htl, Hpr, Hpk |- *. unfold pbuf_realloc. rewrite (get_some _ _ _ Hbp), bind_ok.
  destruct (Z.leb_spec (tot_len b) n); [lia|]. cbv zeta. rewrite (u16_id (tot_len b - n)) by solve_u. fold k. rewrite Eloop, bind_ok.
  set (s1 := set_pbufs _ s) in *. pose proof (chain_at_nodup _ _ _ Hc) as Hnd. rewrite fmap_app in Hnd.
  assert (Hqpre : q ∉ (prod_map id (shortened k) <$> pre).*1).
  { rewrite <- list_fmap_compose. intros Hin. apply NoDup_app in Hnd as (_ & Hd & _). apply (Hd q); [done | by left]. }
  assert (Hqtail : q ∉ tail.*1) by (by apply NoDup_app in Hnd as (_ & _ & [? _]%NoDup_cons)).
  assert (Hq : pbufs s1 !! q = Some c).
  { cbn. rewrite store_all_other by done. apply (chain_at_lookup _ _ _ _ _ Hc). apply elem_of_app. right. by left. }
  assert (Hqp : pool_private (q, c)) by (rewrite Forall_forall in Hpr; apply Hpr, elem_of_app; right; by left).
  rewrite (get_some _ _ _ Hq), bind_ok, (private_allocsrc _ _ Hqp). cbn [andb]. rewrite bind_ok, (modify_some _ _ _ _ Hq), bind_ok.
  set (c2 := with_tot_len r (with_len r c)). set (new := (prod_map id (shortened k) <$> pre) ++ [(q, cut_off r c)]).
  set (sc := set_pbufs (store_all new (pbufs s)) s).
  assert (Esc : sc = put q (cut_off r c) s1).
  { unfold sc, put, s1, set_pbufs. cbn. f_equal. unfold new. rewrite store_all_app. apply (store_all_insert _ _ q (cut_off r c)). done. }
  pose proof (chain_at_suffix _ _ _ _ _ _ Hc) as (_ & _ & _ & _ & Htail).
  assert (Hk : k = len c + total_len tail - r) by (rewrite total_len_app, total_len_cons in Htl; cbn [snd] in Htl; lia).
  set (E' := match next c with Some t => {[+ t +]} ⊎ E | None => E end).
  assert (Hric : ref_inv sc E').
  { rewrite Esc. apply (ref_inv_relink s1 E E' q c); try done.
    - intros z Hz. unfold E' in Hz. destruct (next c) as [t|] eqn:Et; [|by apply (ri_ext _ _ Hri)].
      apply gmultiset_elem_of_disj_union in Hz as [->%gmultiset_elem_of_singleton|Hz]; [|by apply (ri_ext _ _ Hri)]. by apply (ri_next _ _ Hri q c).
    - intros z. unfold E', points_to. cbn [next cut_off with_next]. rewrite decide_False by done.
      destruct (next c) as [t|] eqn:Et; [|by rewrite decide_False]. rewrite multiplicity_disj_union.
      destruct (decide (Some t = Some z)) as [[= ->]|Hne]; [rewrite multiplicity_singleton_eq; lia|].
      rewrite multiplicity_singleton_ne by congruence. lia. }
  destruct (cut_store s E p q c pre tail k r Hs Hp Hc) as (Hsc & Hpc & Htc); try done.
  { eapply Forall_impl; [exact Hpr|]. by intros x (? & _). }
  fold new sc E' in Hsc, Hpc, Htc.
  assert (Hnewin : forall x b1, (x, b1) ∈ new -> pbufs sc !! x = Some b1).
  { intros x b1 Hx. eapply chain_at_lookup; [apply Hpc | done]. }
  assert (Hqsc : pbufs sc !! q = Some (cut_off r c)) by (apply Hnewin, elem_of_app; right; by left).
  change (set_pbufs (<[q := c2]> (pbufs s1)) s1) with (put q c2 s1).
  assert (exists sf, (s ← match next c with None => Ok (put q c2 s1) | Some t => '(s, _) ← pbuf_free custom_free_function (Some t) (put q c2 s1); Ok s end;
    modify q (with_next None) s) = Ok sf /\ store_ok sf E /\ shrunk sc sf /\ forall x b1, (x, b1) ∈ new -> pbufs sf !! x = Some b1) as (sf & -> & Hsf & Hsh & Hkeep).
  { assert (Hmod : forall s2, pbufs s2 !! q = Some (cut_off r c) -> modify q (with_next None) (put q c2 s2) = Ok s2).
    { intros s2 H2. rewrite (modify_some _ _ c2) by apply lookup_insert_eq. f_equal. change (put q (cut_off r c) (put q c2 s2) = s2). by rewrite put_put, put_id. }
    assert (E2 : put q c2 s1 = put q c2 sc) by (by rewrite Esc, put_put). rewrite E2. unfold E' in *. destruct (next c) as [t|] eqn:Et.
    - destruct (free_tail sc E q (cut_off r c) c2 tail t) as (sf & m & -> & Hsf & Hsh & Hkeep); try done.
      { eapply chain_at_same; [|exact Htail]. intros y Hy. cbn. apply store_all_other. unfold new. rewrite cut_ptrs. intros Hy2.
        assert (Hnd2 : NoDup ((pre.*1 ++ [q]) ++ tail.*1)) by (by rewrite <- app_assoc). apply NoDup_app in Hnd2 as (_ & Hd & _). by apply (Hd y). }
      assert (Hkeep' : forall x b1, (x, b1) ∈ new -> pbufs sf !! x = Some b1).
      { intros x b1 Hx. apply Hkeep; [|by apply Hnewin]. intros Hxt.
        assert (Hnd2 : NoDup ((pre.*1 ++ [q]) ++ tail.*1)) by (by rewrite <- app_assoc). apply NoDup_app in Hnd2 as (_ & Hd & _). apply (Hd x); [|done].
        rewrite <- (cut_ptrs k r q c). apply list_elem_of_fmap. by exists (x, b1). }
      exists sf. rewrite !bind_ok. split; [|by split_and!]. apply Hmod, Hkeep', elem_of_app. right. by left.
    - exists sc. rewrite !bind_ok. split; [by apply Hmod|]. by split_and!. }
  destruct (shrunk_packet sc sf E' p new Hsc Hpc Hsh Hkeep) as [Hpf Hdf].
  assert (Hinc : forall y, incoming (pbufs s) y = 0%nat -> incoming (pbufs sf) y = 0%nat).
  { intros y Hy. apply (incoming_shrunk _ _ _ Hsh). apply incoming_zero. intros z d Hz Hd.
    destruct (decide (z ∈ new.*1)) as [Hzn|Hzn]; [|unfold sc in Hz; cbn in Hz; rewrite store_all_other in Hz by done; pose proof (incoming_pos _ _ _ _ Hz Hd); lia].
    apply list_elem_of_fmap in Hzn as ([z' d'] & -> & Hzn). cbn [fst] in *. rewrite (Hnewin _ _ Hzn) in Hz. injection Hz as ->.
    apply elem_of_app in Hzn as [Hzn|[= -> ->]%list_elem_of_singleton]; [|done].
    apply list_elem_of_fmap in Hzn as ([w e] & [= -> ->] & Hzn). cbn in Hd.
    assert (He : pbufs s !! w = Some e) by (apply (chain_at_lookup _ _ _ _ _ Hc), elem_of_app; by left).
    pose proof (incoming_pos _ _ _ _ He Hd). lia. }
  assert (Hprn : 0 < n -> Forall pool_private new).
  { intros Hn0. apply Forall_app in Hpr as [Hpr0 _]. apply Forall_app. split; [|repeat constructor; try apply Hqp; cbn; lia].
    apply Forall_fmap. eapply Forall_impl; [exact Hpr0|]. by intros [x d] (? & ? & ?). }
  assert (Hd : chain_data (areas sf) new = take (Z.to_nat n) (chain_data (areas s) (pre ++ (q, c) :: tail))).
  { rewrite Hdf. unfold new. change (areas sc) with (areas s). rewrite (cut_data (pbufs s) _ k r q c tail pre p Hpk Hr). do 2 f_equal. lia. }
  assert (Hap : areas sf !! p = areas s !! p).
  { apply (sh_kept _ _ Hsh). destruct new as [|[x b1] new0] eqn:En; [by destruct (packet_nil _ _ _ Hpf)|].
    pose proof (packet_cons _ _ _ _ _ _ Hpf) as (-> & _). rewrite (Hkeep p b1); [done | by left]. }
  assert (exists b' l', new = (p, b') :: l' /\ cut_head_of n b b') as (b' & l' & En & Hhead).
  { pose proof (chain_at_total_prefix _ _ _ _ Hc) as Hpre0. unfold new. destruct pre as [|[x d] pre]; cbn [app] in El.
    - injection El as <- <- <-. change (total_len []) with 0 in *. exists (cut_off r b), []. split; [done|]. repeat split; cbn; lia.
    - injection El as <- <- ->. exists (shortened k b). eexists. split; [done|]. rewrite total_len_cons in *. cbn [snd] in *.
      assert (0 <= total_len pre) by (eapply chain_at_total_prefix, Hc). repeat split; cbn; lia. }
  rewrite En in Hpf, Hd, Hprn. exists sf, b', l'. split_and!; try done. transitivity sc; [|apply Hsh].
  apply keeps_same; [done | done |]. intros a. unfold sc. cbn [pbufs set_pbufs].
  destruct (decide (PoolPtr a ∈ new.*1)) as [Ha|Ha]; [|by rewrite store_all_other].
  apply list_elem_of_fmap in Ha as ([x d] & -> & Hx). cbn [fst]. rewrite (Hnewin _ _ Hx : store_all new (pbufs s) !! x = _). split; [intros _ | by eexists].
  apply (new_in_chain k r q c pre tail) in Hx as [e Hx]. by rewrite (chain_at_lookup _ _ _ _ _ Hc Hx).
Qed.

End Trim.
