(* ===== verification/Ethernet.v ===== *)
(** * Ethernet framing: src/src/lwip/netif/ethernet.c

    [ethernet_output] puts the header in front of a packet and hands it to the
    driver; [ethernet_input] takes the header off and dispatches on the type.
    The driver behind [netif->linkoutput] is the interface [LinkDriver]. *)

From stdpp Require Import gmultiset.
From S2P Require Import Prelude Strings Onescomp Def Ip4Addr Alloc Memp Mem Pbuf PbufRef PbufAlloc PbufStore.

(** ** Definitions *)

Definition SIZEOF_ETH_HDR : Z := 14.
Definition ETH_HWADDR_LEN : Z := 6.
Definition ETHTYPE_IP : Z := 0x0800.
Definition ETHTYPE_ARP : Z := 0x0806.
Definition LL_IP4_MULTICAST_ADDR_0 : Z := 0x01.
Definition LL_IP4_MULTICAST_ADDR_1 : Z := 0x00.
Definition LL_IP4_MULTICAST_ADDR_2 : Z := 0x5e.
Definition PBUF_FLAG_LLBCAST : Z := 0x08.
Definition PBUF_FLAG_LLMCAST : Z := 0x10.
Definition NETIF_FLAG_ETHARP : Z := 0x08.
Definition ERR_BUF : Z := -2.
Definition ethbroadcast : list Z := [0xff; 0xff; 0xff; 0xff; 0xff; 0xff].
Definition ethzero : list Z := [0; 0; 0; 0; 0; 0].

(** Offsets in struct eth_hdr. *)
Definition eth_hdr_dest : Z := 0.
Definition eth_hdr_src : Z := 6.
Definition eth_hdr_type : Z := 12.

(** The fields of struct netif that the link layer and IPv4 read. *)
Record netif : Type := Netif
  { ip_addr : Z; netmask : Z; gw : Z; hwaddr : list Z; hwaddr_len : Z; netif_flags : Z; num : Z; mtu : Z }.

Definition netif4_of (n : netif) : netif4 := Netif4 (netif_flags n) (ip_addr n) (netmask n).
Definition netif_get_index (n : netif) : Z := u8 (num n + 1).

Definition with_flags (v : Z) (b : pbuf) : pbuf :=
  Pbuf (next b) (payload b) (tot_len b) (len b) (type_internal b) v (ref b) (if_idx b).
Definition with_if_idx (v : Z) (b : pbuf) : pbuf :=
  Pbuf (next b) (payload b) (tot_len b) (len b) (type_internal b) (flags b) (ref b) v.

(** What a driver promises: in a good state it reads the packet and returns in
    a good state, and a packet of up to 1518 bytes goes onto the wire as one
    frame of its bytes. *)
Class LinkDriver (X : Type) : Type :=
  { linkoutput : Z -> gmap ptr pbuf -> gmap ptr (list Z) -> ptr -> X -> res (X * Z);
    wire : X -> list (list Z);
    link_ok : X -> Prop;
    linkoutput_spec : forall netif ps ar p l x, link_ok x -> packet ps ar p l -> bytes_ok (chain_data ar l) ->
      exists x' err, linkoutput netif ps ar p x = Ok (x', err) /\ link_ok x' /\
        (total_len l <= 1518 -> wire x' = wire x ++ [chain_data ar l]) }.

Section Ethernet.
Context {P1 P2 : Type} `{!PoolAlloc P1} `{!PoolAlloc P2} {X : Type} `{!LinkDriver X}.
Variable custom_free_function : ptr -> store P1 P2 -> res (store P1 P2).

(** Reading and writing a header at the payload of [p]. *)
Definition hdr_read (p : ptr) (off n : Z) (s : store P1 P2) : res (list Z) :=
  b ← get p s; area_read (areas s) (payload b) off n.
Definition hdr_read16 (p : ptr) (off : Z) (s : store P1 P2) : res Z :=
  d ← hdr_read p off 2 s; get16 d 0.
Definition hdr_write (p : ptr) (off : Z) (src : list Z) (s : store P1 P2) : res (store P1 P2) :=
  b ← get p s; ar ← area_write (areas s) (payload b) off src; Ok (set_areas ar s).
Definition hdr_write16 (p : ptr) (off v : Z) : store P1 P2 -> res (store P1 P2) :=
  hdr_write p off [u8 v; u8 (v / 256)].

Definition ethernet_output (netif_p : Z) (nif : netif) (p : ptr) (src dst : list Z) (eth_type : Z)
    (sx : store P1 P2 * X) : res (store P1 P2 * X * Z) :=
  let '(s, x) := sx in
  let eth_type_be := lwip_htons eth_type in
  '(s, r) ← pbuf_add_header (Some p) SIZEOF_ETH_HDR s;
  if negb (r =? 0) then Ok (s, x, ERR_BUF) else
  s ← hdr_write16 p eth_hdr_type eth_type_be s;
  s ← hdr_write p eth_hdr_dest dst s;
  s ← hdr_write p eth_hdr_src src s;
  _ ← lwip_assert "netif->hwaddr_len must be 6 for ethernet_output!" (hwaddr_len nif =? ETH_HWADDR_LEN);
  '(x, err) ← linkoutput netif_p (pbufs s) (areas s) p x;
  Ok (s, x, err).

(** The marks for link-layer multicast and broadcast. *)
Definition mark_cast (dest : list Z) (b : pbuf) : res pbuf :=
  d0 ← buf_get dest 0;
  if negb (Z.land d0 1 =? 0) then
    if d0 =? LL_IP4_MULTICAST_ADDR_0 then
      d1 ← buf_get dest 1;
      d2 ← buf_get dest 2;
      Ok (if (d1 =? LL_IP4_MULTICAST_ADDR_1) && (d2 =? LL_IP4_MULTICAST_ADDR_2)
          then with_flags (Z.lor (flags b) PBUF_FLAG_LLMCAST) b else b)
    else if bool_decide (dest = ethbroadcast) then Ok (with_flags (Z.lor (flags b) PBUF_FLAG_LLBCAST) b)
    else Ok b
  else Ok b.

(** [K] is the state of the layers above, with the packets in it. *)
Context {K : Type} `{!Part K (store P1 P2)}.
Variable ip4_input etharp_input : ptr -> Z -> K -> res K.

Definition free_and_return (p : ptr) (k : K) : res (K * Z) :=
  '(s, _) ← pbuf_free custom_free_function (Some p) (part k); Ok (set_part s k, ERR_OK).

Definition ethernet_input (p : ptr) (netif_p : Z) (nif : netif) (k : K) : res (K * Z) :=
  b ← get p (part k);
  if len b <=? SIZEOF_ETH_HDR then free_and_return p k else
  type ← hdr_read16 p eth_hdr_type (part k);
  s ← (if if_idx b =? NETIF_NO_INDEX then modify p (with_if_idx (netif_get_index nif)) (part k) else Ok (part k));
  dest ← hdr_read p eth_hdr_dest ETH_HWADDR_LEN s;
  b ← get p s;
  b ← mark_cast dest b;
  s ← modify p (fun _ => b) s;
  let k := set_part s k in
  if type =? lwip_htons ETHTYPE_IP then
    if Z.land (netif_flags nif) NETIF_FLAG_ETHARP =? 0 then free_and_return p k else
    '(s, r) ← pbuf_remove_header (Some p) SIZEOF_ETH_HDR (part k);
    let k := set_part s k in
    if negb (r =? 0) then free_and_return p k else
    k ← ip4_input p netif_p k; Ok (k, ERR_OK)
  else if type =? lwip_htons ETHTYPE_ARP then
    if Z.land (netif_flags nif) NETIF_FLAG_ETHARP =? 0 then free_and_return p k else
    '(s, r) ← pbuf_remove_header (Some p) SIZEOF_ETH_HDR (part k);
    let k := set_part s k in
    if negb (r =? 0) then free_and_return p k else
    k ← etharp_input p netif_p k; Ok (k, ERR_OK)
  else free_and_return p k.

End Ethernet.

(** ** Lemmas *)

Lemma payload_data_window (ar : gmap ptr (list Z)) b a o d : payload b = Some (a, o) -> ar !! a = Some d ->
  0 <= o -> 0 <= len b -> o + len b <= length d -> payload_data ar b = window d o (len b).
Proof.
  intros Hp Ha Ho Hl Hd. unfold payload_data. rewrite Hp, (area_read_intro ar a o d 0 (len b)) by (done || lia).
  by rewrite Z.add_0_r.
Qed.

Lemma grow_data ar p b a o n : payload_ok ar p b -> payload b = Some (a, o) -> 0 <= n <= o ->
  exists h, length h = Z.to_nat n /\ payload_data ar (grow_head n b) = h ++ payload_data ar b.
Proof.
  intros (a' & o' & d & Hp & Ha & Ho & Hl & Hd & _) Hp' Hn. rewrite Hp in Hp'. injection Hp' as <- <-.
  exists (window d (o' - n) n). split.
  - apply Nat2Z.inj. rewrite window_length by lia. lia.
  - rewrite (payload_data_window ar b a' o' d), (payload_data_window ar (grow_head n b) a' (o' - n) d); try done; try lia;
      unfold grow_head; cbn [len with_tot_len with_len with_payload payload]; try lia; [|by rewrite Hp].
    rewrite (window_split d (o' - n) (len b + n) n) by lia. f_equal. f_equal; lia.
Qed.

Lemma shrink_data ar p b n : payload_ok ar p b -> 0 <= n <= len b ->
  payload_data ar (grow_head (- n) b) = drop (Z.to_nat n) (payload_data ar b).
Proof.
  intros (a & o & d & Hp & Ha & Ho & Hl & Hd & _) Hn.
  rewrite (payload_data_window ar b a o d), (payload_data_window ar (grow_head (- n) b) a (o + n) d); try done; try lia;
    unfold grow_head; cbn [len with_tot_len with_len with_payload payload]; try lia; [|rewrite Hp; cbn; do 2 f_equal; lia].
  rewrite (window_split d o (len b) n) by lia. rewrite drop_app_length'; [f_equal; lia|].
  apply Nat2Z.inj. rewrite window_length by lia. lia.
Qed.

Lemma eth_header_bytes (h dst src d : list Z) t1 t2 : length h = 14%nat -> length dst = 6%nat -> length src = 6%nat ->
  list_inserts 6 src (list_inserts 0 dst (list_inserts 12 [t1; t2] (h ++ d))) = dst ++ src ++ [t1; t2] ++ d.
Proof.
  intros Hh Hd Hs. do 14 (destruct h as [|? h]; [done|]). destruct h; [|done].
  do 6 (destruct dst as [|? dst]; [done|]). destruct dst; [|done].
  do 6 (destruct src as [|? src]; [done|]). destruct src; [|done]. done.
Qed.

Lemma eth_type_bytes t : is_u16 t -> [u8 (lwip_htons t); u8 (lwip_htons t / 256)] = [t / 256; t mod 256].
Proof. intros Ht. unfold lwip_htons. rewrite pp_htons_swap by done. unfold swap16. do 2 f_equal; solve_u. Qed.

Section Lemmas.
Context {P1 P2 : Type} `{!PoolAlloc P1} `{!PoolAlloc P2}.
Implicit Type s : store P1 P2.
#[local] Set Default Proof Using "Type*".

Lemma packet_lookup s p b l : packet (pbufs s) (areas s) p ((p, b) :: l) -> pbufs s !! p = Some b.
Proof using Type. intros [(_ & H & _) _ _]. exact H. Qed.

Lemma hdr_write_ok s E p b off src : store_ok s E -> pbufs s !! p = Some b -> is_head s p ->
  (exists o, payload b = Some (p, o)) -> 0 <= off -> off + length src <= len b -> bytes_ok src ->
  exists s', hdr_write p off src s = Ok s' /\ store_ok s' E /\ pbufs s' = pbufs s /\
    payload_data (areas s') b = list_inserts (Z.to_nat off) src (payload_data (areas s) b) /\
    (forall y, y <> p -> same_packet s s' y /\ areas s' !! y = areas s !! y) /\
    (forall l, packet (pbufs s) (areas s) p ((p, b) :: l) -> packet (pbufs s') (areas s') p ((p, b) :: l) /\
       chain_data (areas s') l = chain_data (areas s) l).
Proof.
  intros Hs Hb Hh Hown Ho Hl Hsrc. unfold hdr_write. rewrite (get_some _ _ _ Hb), bind_ok.
  destruct (write_ok s E p b off src Hs Hb Ho Hl Hsrc) as (ar' & Ew & Hw & Hd & Hk). rewrite Ew, bind_ok.
  assert (Hothers : forall y, y <> p -> same_packet s (set_areas ar' s) y).
  { intros y Hy. by eapply write_others. }
  pose proof (rewritten_ok s E ar' Hs Hw) as Hs'. exists (set_areas ar' s). split_and!; try done.
  { intros y Hy. split; [by apply Hothers|]. destruct Hown as [o Hpo]. rewrite Hpo in Ew.
    by apply (area_write_other _ _ _ _ _ _ _ Ew). }
  intros l Hp. pose proof Hp as [Hc _ Ht]. cbn [pbufs areas set_areas]. split.
  - split; [done | | done]. apply payloads_readable. by apply (chain_payloads (set_areas ar' s) E (Some p)).
  - pose proof (packet_cons _ _ _ _ _ _ Hp) as (_ & _ & _ & _ & _ & _ & _ & _ & [[_ ->]|(q & Hq & Hlq)]); [done|].
    assert (q <> p). { intros ->. pose proof (incoming_pos _ _ _ _ Hb Hq). unfold is_head in Hh. lia. }
    destruct (Hothers q ltac:(done) l Hlq) as (l' & Hl' & Hd' & _).
    assert (l' = l) as ->; [|done]. apply (chain_at_det (pbufs s) (Some q)); [apply (pk_chain _ _ _ _ Hl') | apply Hlq].
Qed.

Lemma hdr_write_alloc p off src s s' : hdr_write p off src s = Ok s' -> same_alloc s s'.
Proof using Type. unfold hdr_write. by intros (b & _ & (ar & _ & [= <-])%bind_inv)%bind_inv. Qed.

(** A sequence of writes into the header. *)
Fixpoint hdr_writes (p : ptr) (ws : list (Z * list Z)) s : res (store P1 P2) :=
  match ws with
  | [] => Ok s
  | (off, src) :: ws' => s ← hdr_write p off src s; hdr_writes p ws' s
  end.

Definition written (ws : list (Z * list Z)) (d : list Z) : list Z :=
  foldl (fun d w => list_inserts (Z.to_nat w.1) w.2 d) d ws.

Lemma hdr_writes_ok E p b ws : forall s, store_ok s E -> pbufs s !! p = Some b -> is_head s p ->
  (exists o, payload b = Some (p, o)) ->
  Forall (fun w => 0 <= w.1 /\ w.1 + length w.2 <= len b /\ bytes_ok w.2) ws ->
  exists s', hdr_writes p ws s = Ok s' /\ store_ok s' E /\ pbufs s' = pbufs s /\
    payload_data (areas s') b = written ws (payload_data (areas s) b) /\
    (forall y, y <> p -> same_packet s s' y /\ areas s' !! y = areas s !! y) /\
    (forall l, packet (pbufs s) (areas s) p ((p, b) :: l) -> packet (pbufs s') (areas s') p ((p, b) :: l) /\
       chain_data (areas s') l = chain_data (areas s) l).
Proof.
  induction ws as [|[off src] ws IH]; intros s Hs Hb Hh Hown Hws; cbn [hdr_writes].
  - exists s. split_and!; try done. intros y _. split; [apply same_packet_refl | done].
  - apply Forall_cons in Hws as [(Ho & Hl & Hby) Hws]. cbn [fst snd] in *.
    destruct (hdr_write_ok s E p b off src Hs Hb Hh Hown Ho Hl Hby) as (s1 & -> & Hs1 & Eps & Hd & Hoth & Hpk).
    rewrite bind_ok. destruct (IH s1) as (s2 & E2 & Hs2 & Eps2 & Hd2 & Hoth2 & Hpk2); try done.
    { by rewrite Eps. } { unfold is_head. by rewrite Eps. }
    exists s2. split_and!; [done | done | congruence | | |].
    + rewrite Hd2, Hd. done.
    + intros y Hy. destruct (Hoth y Hy), (Hoth2 y Hy). split; [by eapply same_packet_trans | congruence].
    + intros l Hp. destruct (Hpk l Hp) as [Hp1 Ht1]. destruct (Hpk2 l Hp1) as [Hp2 Ht2]. split; [done | congruence].
Qed.

Context {X : Type} `{!LinkDriver X}.

(** Sending allocates nothing. *)
Lemma ethernet_output_alloc np nif p src dst type s x s' x' err :
  ethernet_output np nif p src dst type (s, x) = Ok (s', x', err) -> same_alloc s s'.
Proof using Type.
  unfold ethernet_output, hdr_write16, pbuf_add_header. intros ([s0 r] & Ea & E)%bind_inv. apply add_header_alloc in Ea.
  destruct (negb _); [by injection E as <- _ _|].
  apply bind_inv in E as (s1 & E1 & (s2 & E2 & (s3 & E3 & ([] & _ & ([y e] & _ & [= <- _ _])%bind_inv)%bind_inv)%bind_inv)%bind_inv).
  apply hdr_write_alloc in E1, E2, E3. by repeat (etransitivity; [eassumption|]).
Qed.

(** Sending: the frame, or ERR_BUF and nothing happens. *)
Lemma ethernet_output_ok s x E np nif p b l src dst type :
  store_ok s E -> link_ok x -> packet (pbufs s) (areas s) p ((p, b) :: l) -> is_head s p ->
  hwaddr_len nif = 6 -> length src = 6%nat -> length dst = 6%nat -> bytes_ok src -> bytes_ok dst -> is_u16 type ->
  if header_room b SIZEOF_ETH_HDR then
    exists s' x' err, ethernet_output np nif p src dst type (s, x) = Ok (s', x', err) /\ store_ok s' E /\ link_ok x' /\
      pbufs s' = <[p := grow_head SIZEOF_ETH_HDR b]> (pbufs s) /\ (forall y, y <> p -> same_packet s s' y /\ areas s' !! y = areas s !! y) /\
      (total_len ((p, b) :: l) <= 1504 ->
         wire x' = wire x ++ [dst ++ src ++ [type / 256; type mod 256] ++ chain_data (areas s) ((p, b) :: l)])
  else ethernet_output np nif p src dst type (s, x) = Ok (s, x, ERR_BUF).
Proof.
  intros Hs Hx Hp Hh Hhl Hsrc Hdst Hbs Hbd Ht. pose proof (packet_lookup _ _ _ _ Hp) as Hb.
  destruct (add_header_ok s E p b SIZEOF_ETH_HDR Hs Hb) as [Ea Hnh]; [by unfold SIZEOF_ETH_HDR|].
  unfold ethernet_output. rewrite Ea. destruct (header_room b SIZEOF_ETH_HDR) eqn:Hroom; [|by rewrite bind_ok].
  rewrite bind_ok, Z.eqb_refl. cbn [negb]. specialize (Hnh eq_refl). set (g := grow_head SIZEOF_ETH_HDR b) in *.
  destruct (new_head_ok s E p b g Hs Hb Hh Hnh) as (Hs0 & Hsame & Hpk). specialize (Hpk l Hp).
  set (s0 := set_pbufs (<[p := g]> (pbufs s)) s) in *.
  pose proof (so_payload _ _ Hs p b Hb) as Hpl. pose proof Hpl as (a & o & d & Hpo & _ & Ho & Hlb & _ & Hk).
  unfold header_room in Hroom. rewrite Hpo, !andb_true_iff, !Z.leb_le in Hroom. destruct Hroom as [[Hct Hno] Hmax].
  assert (a = p) as ->. { destruct Hk as [|[_ E0]]; [done|]. by rewrite E0 in Hct. }
  destruct (grow_data (areas s) p b p o SIZEOF_ETH_HDR Hpl Hpo) as (h & Hlh & Hdat).
  { unfold SIZEOF_ETH_HDR in *. lia. }
  fold g in Hdat. assert (Hg : exists o, payload g = Some (p, o)). { unfold g, grow_head. rewrite Hpo. by eexists. }
  assert (Hlg : len g = len b + 14) by done.
  assert (Hb0 : pbufs s0 !! p = Some g) by apply lookup_insert_eq.
  assert (Hh0 : is_head s0 p). { unfold is_head, s0. cbn [pbufs set_pbufs]. rewrite (incoming_same_next _ p b g); done. }
  destruct (hdr_writes_ok E p g [(eth_hdr_type, [type / 256; type mod 256]); (eth_hdr_dest, dst); (eth_hdr_src, src)] s0 Hs0 Hb0 Hh0 Hg)
    as (s3 & Ew & Hs3 & Eps3 & Hd3 & Hsame3 & Hpk3).
  { unfold eth_hdr_type, eth_hdr_dest, eth_hdr_src. rewrite Hlg. repeat constructor; cbn [fst snd length]; (done || solve_u || lia). }
  unfold hdr_write16. rewrite eth_type_bytes by done. cbn [hdr_writes] in Ew.
  apply bind_inv in Ew as (s1 & -> & Ew). rewrite bind_ok. apply bind_inv in Ew as (s2 & -> & Ew). rewrite bind_ok.
  apply bind_inv in Ew as (s4 & -> & [= ->]). rewrite bind_ok.
  unfold ETH_HWADDR_LEN. rewrite Hhl, Z.eqb_refl. cbn [lwip_assert]. rewrite bind_ok.
  destruct (Hpk3 l Hpk) as [Hp3 Ht3].
  assert (Hdata : chain_data (areas s3) ((p, g) :: l) = dst ++ src ++ [type / 256; type mod 256] ++ chain_data (areas s) ((p, b) :: l)).
  { rewrite !chain_data_cons, Hd3, Ht3. change (areas s0) with (areas s). rewrite Hdat. unfold written. cbn [foldl fst snd].
    change (Z.to_nat eth_hdr_type) with 12%nat. change (Z.to_nat eth_hdr_dest) with 0%nat. change (Z.to_nat eth_hdr_src) with 6%nat.
    rewrite (eth_header_bytes h dst src) by done. by rewrite <- !app_assoc. }
  assert (Hby : bytes_ok (chain_data (areas s3) ((p, g) :: l))).
  { apply (chain_data_bytes _ (pbufs s3) p); [apply (so_bytes _ _ Hs3) | done]. }
  destruct (linkoutput_spec np (pbufs s3) (areas s3) p _ x Hx Hp3 Hby) as (x' & err & -> & Hx' & Hw). rewrite bind_ok.
  exists s3, x', err. split_and!; try done.
  - intros y Hy. destruct (Hsame3 y Hy) as [H3 A3]. split; [|by rewrite A3].
    eapply same_packet_trans; [by apply Hsame | done].
  - intros Hmtu. rewrite <- Hdata. apply Hw. rewrite !total_len_cons in *. cbn [snd] in *. lia.
Qed.

End Lemmas.
