(* ===== verification/EthArp.v ===== *)
(** * The ARP module of lwIP: src/src/lwip/core/ipv4/etharp.c

    The table of ten entries, its timer, the requests and replies on the wire
    and the resolution of outgoing packets, with the one packet that may wait
    on a pending entry. *)

From stdpp Require Import gmultiset.
From S2P Require Import Prelude Strings Onescomp Def Ip4Addr Alloc Memp Mem Pbuf PbufRef PbufAlloc PbufStore Ethernet.

(** ** Definitions *)

Definition ARP_TABLE_SIZE : Z := 10.
Definition ARP_MAXAGE : Z := 300.
Definition ARP_AGE_REREQUEST_USED_UNICAST : Z := ARP_MAXAGE - 30.
Definition ARP_AGE_REREQUEST_USED_BROADCAST : Z := ARP_MAXAGE - 15.
Definition ARP_MAXPENDING : Z := 5.
Definition ETHARP_FLAG_TRY_HARD : Z := 1.
Definition ETHARP_FLAG_FIND_ONLY : Z := 2.
Definition SIZEOF_ETHARP_HDR : Z := 28.
Definition LWIP_IANA_HWTYPE_ETHERNET : Z := 1.
Definition ARP_REQUEST : Z := 1.
Definition ARP_REPLY : Z := 2.
Definition PBUF_LINK : Z := 14.
Definition ERR_RTE : Z := -4.

(** Offsets in struct etharp_hdr. *)
Definition arp_hwtype : Z := 0.
Definition arp_proto : Z := 2.
Definition arp_hwlen : Z := 4.
Definition arp_protolen : Z := 5.
Definition arp_op : Z := 6.
Definition arp_shwaddr : Z := 8.
Definition arp_sipaddr : Z := 14.
Definition arp_dhwaddr : Z := 18.
Definition arp_dipaddr : Z := 24.

Definition ip4_addr_ismulticast (a : Z) : bool := Z.land a (PP_HTONL 0xf0000000) =? PP_HTONL 0xe0000000.
Definition ip4_addr_islinklocal (a : Z) : bool := Z.land a (PP_HTONL 0xffff0000) =? PP_HTONL 0xa9fe0000.
Definition ip4_addr_isany (a : Z) : bool := a =? IPADDR_ANY.
Definition ip4_addr_isbroadcast (a : Z) (n : netif) : bool := negb (ip4_addr_isbroadcast_u32 a (netif4_of n) =? 0).
Definition ip4_addr_get_byte (a idx : Z) : Z := u8 (Z.shiftr a (8 * idx)).

Inductive etharp_state : Type :=
  | ETHARP_STATE_EMPTY
  | ETHARP_STATE_PENDING
  | ETHARP_STATE_STABLE
  | ETHARP_STATE_STABLE_REREQUESTING_1
  | ETHARP_STATE_STABLE_REREQUESTING_2.

#[export] Instance etharp_state_eq_dec : EqDecision etharp_state.
Proof. solve_decision. Defined.

(** [state >= ETHARP_STATE_STABLE] *)
Definition stable (s : etharp_state) : bool :=
  match s with ETHARP_STATE_EMPTY | ETHARP_STATE_PENDING => false | _ => true end.
Definition is_empty (s : etharp_state) : bool := bool_decide (s = ETHARP_STATE_EMPTY).
Definition is_pending (s : etharp_state) : bool := bool_decide (s = ETHARP_STATE_PENDING).

Record etharp_entry : Type := Entry
  { arp_q : option ptr;
    arp_ipaddr : Z;
    arp_netif : option Z;
    arp_ethaddr : list Z;
    arp_ctime : Z;
    arp_state : etharp_state }.

Definition with_q (v : option ptr) (e : etharp_entry) : etharp_entry :=
  Entry v (arp_ipaddr e) (arp_netif e) (arp_ethaddr e) (arp_ctime e) (arp_state e).
Definition with_ipaddr (v : Z) (e : etharp_entry) : etharp_entry :=
  Entry (arp_q e) v (arp_netif e) (arp_ethaddr e) (arp_ctime e) (arp_state e).
Definition with_netif (v : option Z) (e : etharp_entry) : etharp_entry :=
  Entry (arp_q e) (arp_ipaddr e) v (arp_ethaddr e) (arp_ctime e) (arp_state e).
Definition with_ethaddr (v : list Z) (e : etharp_entry) : etharp_entry :=
  Entry (arp_q e) (arp_ipaddr e) (arp_netif e) v (arp_ctime e) (arp_state e).
Definition with_ctime (v : Z) (e : etharp_entry) : etharp_entry :=
  Entry (arp_q e) (arp_ipaddr e) (arp_netif e) (arp_ethaddr e) v (arp_state e).
Definition with_state (v : etharp_state) (e : etharp_entry) : etharp_entry :=
  Entry (arp_q e) (arp_ipaddr e) (arp_netif e) (arp_ethaddr e) (arp_ctime e) v.

(** What [etharp_free_entry] leaves, and an element of the zeroed array. *)
Definition entry_freed : etharp_entry := Entry None 0 None ethzero 0 ETHARP_STATE_EMPTY.

(** The candidates for recycling of [etharp_find_entry]. *)
Record candidates : Type := Candidates
  { old_pending : Z; old_stable : Z; empty : Z; old_queue : Z;
    age_queue : Z; age_pending : Z; age_stable : Z }.

Definition no_candidates : candidates :=
  Candidates ARP_TABLE_SIZE ARP_TABLE_SIZE ARP_TABLE_SIZE ARP_TABLE_SIZE 0 0 0.

(** One turn of the search over an entry that does not match. *)
Definition remember (i : Z) (e : etharp_entry) (c : candidates) : candidates :=
  if is_pending (arp_state e) then
    match arp_q e with
    | Some _ =>
        if age_queue c <=? arp_ctime e
        then Candidates (old_pending c) (old_stable c) (empty c) i (arp_ctime e) (age_pending c) (age_stable c) else c
    | None =>
        if age_pending c <=? arp_ctime e
        then Candidates i (old_stable c) (empty c) (old_queue c) (age_queue c) (arp_ctime e) (age_stable c) else c
    end
  else if stable (arp_state e) then
    if age_stable c <=? arp_ctime e
    then Candidates (old_pending c) i (empty c) (old_queue c) (age_queue c) (age_pending c) (arp_ctime e) else c
  else c.

Definition matches (ipaddr : option Z) (netif_p : option Z) (e : etharp_entry) : bool :=
  match ipaddr with
  | None => false
  | Some a => (a =? arp_ipaddr e) && (bool_decide (netif_p = None) || bool_decide (netif_p = arp_netif e))
  end.

(** [for (i = 0; i < ARP_TABLE_SIZE; ++i)] of [etharp_find_entry], over the
    entries from [i] on: the index of the match, or the candidates. *)
Fixpoint sweep (ipaddr netif_p : option Z) (l : list etharp_entry) (i : Z) (c : candidates) : res (Z + candidates) :=
  match l with
  | [] => Ok (inr c)
  | e :: l' =>
      if (empty c =? ARP_TABLE_SIZE) && is_empty (arp_state e) then
        sweep ipaddr netif_p l' (i + 1)
          (Candidates (old_pending c) (old_stable c) i (old_queue c) (age_queue c) (age_pending c) (age_stable c))
      else if negb (is_empty (arp_state e)) then
        _ ← lwip_assert "state == ETHARP_STATE_PENDING || state >= ETHARP_STATE_STABLE"
              (is_pending (arp_state e) || stable (arp_state e));
        if matches ipaddr netif_p e then Ok (inl i)
        else sweep ipaddr netif_p l' (i + 1) (remember i e c)
      else sweep ipaddr netif_p l' (i + 1) c
  end.

Section Arp.
Context {P1 P2 : Type} `{!PoolAlloc P1} `{!PoolAlloc P2} {X : Type} `{!LinkDriver X}.
Variable custom_free_function : ptr -> store P1 P2 -> res (store P1 P2).
Variable fresh_byte : nat -> Z.

(** The state: the packets, the device, the interfaces and the table. *)
Record net : Type := MkNet
  { packets : store P1 P2;
    device : X;
    netifs : gmap Z netif;
    arp_table : list etharp_entry;
    etharp_cached_entry : Z }.

Definition set_packets (s : store P1 P2) (n : net) : net :=
  MkNet s (device n) (netifs n) (arp_table n) (etharp_cached_entry n).
Definition set_device (x : X) (n : net) : net :=
  MkNet (packets n) x (netifs n) (arp_table n) (etharp_cached_entry n).
Definition set_table (t : list etharp_entry) (n : net) : net :=
  MkNet (packets n) (device n) (netifs n) t (etharp_cached_entry n).
Definition ETHARP_SET_ADDRHINT (i : Z) (n : net) : net :=
  MkNet (packets n) (device n) (netifs n) (arp_table n) i.

Definition netif_at (p : Z) (n : net) : res netif := of_option BadPointer (netifs n !! p).
Definition entry (i : Z) (n : net) : res etharp_entry :=
  if 0 <=? i then of_option OutOfBounds (arp_table n !! Z.to_nat i) else Err OutOfBounds.
Definition set_entry (i : Z) (f : etharp_entry -> etharp_entry) (n : net) : res net :=
  e ← entry i n; Ok (set_table (<[Z.to_nat i := f e]> (arp_table n)) n).

Definition free_packet (p : ptr) (n : net) : res net :=
  '(s, _) ← pbuf_free custom_free_function (Some p) (packets n); Ok (set_packets s n).

(** [ethernet_output], in this state. *)
Definition output_frame (netif_p : Z) (p : ptr) (src dst : list Z) (type : Z) (n : net) : res (net * Z) :=
  nif ← netif_at netif_p n;
  '(s, x, err) ← ethernet_output netif_p nif p src dst type (packets n, device n);
  Ok (set_device x (set_packets s n), err).

(** *** The wire *)

(** The header, filled in. *)
Definition write_etharp_hdr (p : ptr) (nif : netif) (hwsrc : list Z) (ipsrc : Z) (hwdst : list Z) (ipdst opcode : Z)
    (s : store P1 P2) : res (store P1 P2) :=
  s ← hdr_write16 p arp_op (lwip_htons opcode) s;
  _ ← lwip_assert "netif->hwaddr_len must be the same as ETH_HWADDR_LEN for etharp!" (hwaddr_len nif =? ETH_HWADDR_LEN);
  s ← hdr_write p arp_shwaddr hwsrc s;
  s ← hdr_write p arp_dhwaddr hwdst s;
  s ← hdr_write p arp_sipaddr (le_bytes ipsrc) s;
  s ← hdr_write p arp_dipaddr (le_bytes ipdst) s;
  s ← hdr_write16 p arp_hwtype (lwip_htons LWIP_IANA_HWTYPE_ETHERNET) s;
  s ← hdr_write16 p arp_proto (lwip_htons ETHTYPE_IP) s;
  s ← hdr_write p arp_hwlen [ETH_HWADDR_LEN] s;
  hdr_write p arp_protolen [4] s.

Definition etharp_raw (netif_p : Z) (ethsrc ethdst hwsrc : list Z) (ipsrc : Z) (hwdst : list Z) (ipdst opcode : Z)
    (n : net) : res (net * Z) :=
  nif ← netif_at netif_p n;
  '(s, p) ← pbuf_alloc custom_free_function fresh_byte PBUF_LINK SIZEOF_ETHARP_HDR PBUF_RAM (packets n);
  match p with
  | None => Ok (set_packets s n, ERR_MEM)
  | Some p =>
      b ← get p s;
      _ ← lwip_assert "check that first pbuf can hold struct etharp_hdr" (SIZEOF_ETHARP_HDR <=? len b);
      s ← write_etharp_hdr p nif hwsrc ipsrc hwdst ipdst opcode s;
      '(n, _) ← output_frame netif_p p ethsrc ethdst ETHTYPE_ARP (set_packets s n);
      n ← free_packet p n;
      Ok (n, ERR_OK)
  end.

Definition etharp_request_dst (netif_p ipaddr : Z) (hw_dst_addr : list Z) (n : net) : res (net * Z) :=
  nif ← netif_at netif_p n;
  etharp_raw netif_p (hwaddr nif) hw_dst_addr (hwaddr nif) (ip_addr nif) ethzero ipaddr ARP_REQUEST n.

Definition etharp_request (netif_p ipaddr : Z) (n : net) : res (net * Z) :=
  etharp_request_dst netif_p ipaddr ethbroadcast n.

Definition etharp_acd_probe (netif_p ipaddr : Z) (n : net) : res (net * Z) :=
  nif ← netif_at netif_p n;
  etharp_raw netif_p (hwaddr nif) ethbroadcast (hwaddr nif) IPADDR_ANY ethzero ipaddr ARP_REQUEST n.

Definition etharp_acd_announce (netif_p ipaddr : Z) (n : net) : res (net * Z) :=
  nif ← netif_at netif_p n;
  etharp_raw netif_p (hwaddr nif) ethbroadcast (hwaddr nif) ipaddr ethzero ipaddr ARP_REQUEST n.

(** *** The table *)

Definition etharp_free_entry (i : Z) (n : net) : res net :=
  e ← entry i n;
  n ← (match arp_q e with
       | Some p => n ← free_packet p n; set_entry i (with_q None) n
       | None => Ok n
       end);
  set_entry i (fun _ => entry_freed) n.

(** One turn of the loop of [etharp_tmr]. *)
Definition tmr_entry (i : Z) (n : net) : res net :=
  e ← entry i n;
  if is_empty (arp_state e) then Ok n else
  n ← set_entry i (fun e => with_ctime (u16 (arp_ctime e + 1)) e) n;
  e ← entry i n;
  if (ARP_MAXAGE <=? arp_ctime e) || (is_pending (arp_state e) && (ARP_MAXPENDING <=? arp_ctime e)) then
    etharp_free_entry i n
  else match arp_state e with
  | ETHARP_STATE_STABLE_REREQUESTING_1 => set_entry i (with_state ETHARP_STATE_STABLE_REREQUESTING_2) n
  | ETHARP_STATE_STABLE_REREQUESTING_2 => set_entry i (with_state ETHARP_STATE_STABLE) n
  | ETHARP_STATE_PENDING =>
      netif_p ← of_option BadPointer (arp_netif e);
      '(n, _) ← etharp_request netif_p (arp_ipaddr e) n; Ok n
  | _ => Ok n
  end.

(** [for (i = 0; i < ARP_TABLE_SIZE; ++i)], the last [k] turns. *)
Fixpoint for_entries (k : nat) (body : Z -> net -> res net) (n : net) : res net :=
  match k with
  | O => Ok n
  | S k' => n ← body (ARP_TABLE_SIZE - Z.of_nat k) n; for_entries k' body n
  end.

Definition etharp_tmr (n : net) : res net := for_entries (Z.to_nat ARP_TABLE_SIZE) tmr_entry n.

Definition cleanup_entry (netif_p : Z) (i : Z) (n : net) : res net :=
  e ← entry i n;
  if negb (is_empty (arp_state e)) && bool_decide (arp_netif e = Some netif_p) then etharp_free_entry i n else Ok n.

Definition etharp_cleanup_netif (netif_p : Z) (n : net) : res net :=
  for_entries (Z.to_nat ARP_TABLE_SIZE) (cleanup_entry netif_p) n.

(** The entry to use: an empty one, or one that is recycled. *)
Definition choose_entry (c : candidates) (n : net) : res (net * Z) :=
  if empty c <? ARP_TABLE_SIZE then Ok (n, empty c) else
  i ← (if old_stable c <? ARP_TABLE_SIZE then
         e ← entry (old_stable c) n;
         _ ← lwip_assert "arp_table[i].q == NULL" (bool_decide (arp_q e = None));
         Ok (Some (old_stable c))
       else if old_pending c <? ARP_TABLE_SIZE then Ok (Some (old_pending c))
       else if old_queue c <? ARP_TABLE_SIZE then Ok (Some (old_queue c))
       else Ok None);
  match i with
  | None => Ok (n, ERR_MEM)
  | Some i =>
      _ ← lwip_assert "i < ARP_TABLE_SIZE" (i <? ARP_TABLE_SIZE);
      n ← etharp_free_entry i n;
      Ok (n, i)
  end.

Definition etharp_find_entry (ipaddr : option Z) (flags : Z) (netif_p : option Z) (n : net) : res (net * Z) :=
  r ← sweep ipaddr netif_p (arp_table n) 0 no_candidates;
  match r with
  | inl i => Ok (n, i)
  | inr c =>
      if negb (Z.land flags ETHARP_FLAG_FIND_ONLY =? 0) ||
         (empty c =? ARP_TABLE_SIZE) && (Z.land flags ETHARP_FLAG_TRY_HARD =? 0)
      then Ok (n, ERR_MEM) else
      '(n, i) ← choose_entry c n;
      if i <? 0 then Ok (n, i) else
      _ ← lwip_assert "i < ARP_TABLE_SIZE" (i <? ARP_TABLE_SIZE);
      e ← entry i n;
      _ ← lwip_assert "arp_table[i].state == ETHARP_STATE_EMPTY" (is_empty (arp_state e));
      n ← set_entry i (fun e => match ipaddr with Some a => with_ipaddr a e | None => e end) n;
      n ← set_entry i (with_ctime 0) n;
      n ← set_entry i (with_netif netif_p) n;
      Ok (n, i)
  end.

Definition etharp_update_arp_entry (netif_p ipaddr : Z) (ethaddr : list Z) (flags : Z) (n : net) : res (net * Z) :=
  nif ← netif_at netif_p n;
  _ ← lwip_assert "netif->hwaddr_len == ETH_HWADDR_LEN" (hwaddr_len nif =? ETH_HWADDR_LEN);
  if ip4_addr_isany ipaddr || ip4_addr_isbroadcast ipaddr nif || ip4_addr_ismulticast ipaddr then Ok (n, ERR_ARG) else
  '(n, i) ← etharp_find_entry (Some ipaddr) flags (Some netif_p) n;
  if i <? 0 then Ok (n, i) else
  n ← set_entry i (with_state ETHARP_STATE_STABLE) n;
  n ← set_entry i (with_netif (Some netif_p)) n;
  n ← set_entry i (with_ethaddr ethaddr) n;
  n ← set_entry i (with_ctime 0) n;
  e ← entry i n;
  match arp_q e with
  | Some p =>
      n ← set_entry i (with_q None) n;
      '(n, _) ← output_frame netif_p p (hwaddr nif) ethaddr ETHTYPE_IP n;
      n ← free_packet p n;
      Ok (n, ERR_OK)
  | None => Ok (n, ERR_OK)
  end.

Definition etharp_find_addr (netif_p ipaddr : Z) (n : net) : res (net * Z * option (list Z * Z)) :=
  '(n, i) ← etharp_find_entry (Some ipaddr) ETHARP_FLAG_FIND_ONLY (Some netif_p) n;
  if i <? 0 then Ok (n, -1, None) else
  e ← entry i n;
  if stable (arp_state e) then Ok (n, i, Some (arp_ethaddr e, arp_ipaddr e)) else Ok (n, -1, None).

Definition etharp_get_entry (i : Z) (n : net) : res (option (Z * option Z * list Z)) :=
  if ARP_TABLE_SIZE <=? i then Ok None else
  e ← entry i n;
  Ok (if stable (arp_state e) then Some (arp_ipaddr e, arp_netif e, arp_ethaddr e) else None).

(** *** Outgoing packets *)

Definition etharp_output_to_arp_index (netif_p : Z) (q : ptr) (arp_idx : Z) (n : net) : res (net * Z) :=
  e ← entry arp_idx n;
  _ ← lwip_assert "arp_table[arp_idx].state >= ETHARP_STATE_STABLE" (stable (arp_state e));
  n ← (if bool_decide (arp_state e = ETHARP_STATE_STABLE) then
         if ARP_AGE_REREQUEST_USED_BROADCAST <=? arp_ctime e then
           '(n, err) ← etharp_request netif_p (arp_ipaddr e) n;
           if err =? ERR_OK then set_entry arp_idx (with_state ETHARP_STATE_STABLE_REREQUESTING_1) n else Ok n
         else if ARP_AGE_REREQUEST_USED_UNICAST <=? arp_ctime e then
           '(n, err) ← etharp_request_dst netif_p (arp_ipaddr e) (arp_ethaddr e) n;
           if err =? ERR_OK then set_entry arp_idx (with_state ETHARP_STATE_STABLE_REREQUESTING_1) n else Ok n
         else Ok n
       else Ok n);
  nif ← netif_at netif_p n;
  e ← entry arp_idx n;
  output_frame netif_p q (hwaddr nif) (arp_ethaddr e) ETHTYPE_IP n.

(** [while (p)]: whether the packet must be copied to be kept. *)
Fixpoint needs_copy (fuel : nat) (ps : gmap ptr pbuf) (p : option ptr) : res bool :=
  match p with
  | None => Ok false
  | Some p =>
      b ← deref ps p;
      _ ← lwip_assert "no packet queues allowed!"
            (negb (len b =? tot_len b) || match next b with None => true | Some _ => false end);
      if negb (Z.land (type_internal b) PBUF_TYPE_FLAG_DATA_VOLATILE =? 0) then Ok true else
      match fuel with
      | O => Err OutOfFuel
      | S fuel' => needs_copy fuel' ps (next b)
      end
  end.

(** The packet, kept: copied if necessary, with one reference more if not. *)
Definition take_over (q : ptr) (n : net) : res (net * option ptr) :=
  copy_needed ← needs_copy (chain_fuel (pbufs (packets n))) (pbufs (packets n)) (Some q);
  if copy_needed : bool then
    '(s, p) ← pbuf_clone custom_free_function fresh_byte PBUF_LINK PBUF_RAM q (packets n); Ok (set_packets s n, p)
  else s ← pbuf_ref (Some q) (packets n); Ok (set_packets s n, Some q).

Definition etharp_query (netif_p ipaddr : Z) (q : option ptr) (n : net) : res (net * Z) :=
  nif ← netif_at netif_p n;
  if ip4_addr_isany ipaddr || ip4_addr_isbroadcast ipaddr nif || ip4_addr_ismulticast ipaddr then Ok (n, ERR_ARG) else
  '(n, i) ← etharp_find_entry (Some ipaddr) ETHARP_FLAG_TRY_HARD (Some netif_p) n;
  if i <? 0 then Ok (n, i) else
  e ← entry i n;
  let is_new_entry := is_empty (arp_state e) in
  n ← (if is_new_entry
       then n ← set_entry i (with_state ETHARP_STATE_PENDING) n; set_entry i (with_netif (Some netif_p)) n
       else Ok n);
  e ← entry i n;
  _ ← lwip_assert "arp_table[i].state == PENDING or STABLE" (is_pending (arp_state e) || stable (arp_state e));
  '(n, result) ←
    (if is_new_entry || bool_decide (q = None) then
       '(n, result) ← etharp_request netif_p ipaddr n;
       e ← entry i n;
       n ← (if (result =? ERR_OK) && is_pending (arp_state e) && negb is_new_entry
            then set_entry i (with_ctime 0) n else Ok n);
       Ok (n, result)
     else Ok (n, ERR_MEM));
  match q with
  | None => Ok (n, result)
  | Some q =>
      e ← entry i n;
      if stable (arp_state e) then
        output_frame netif_p q (hwaddr nif) (arp_ethaddr e) ETHTYPE_IP (ETHARP_SET_ADDRHINT i n)
      else if is_pending (arp_state e) then
        '(n, p) ← take_over q n;
        match p with
        | Some p =>
            e ← entry i n;
            n ← (match arp_q e with Some old => free_packet old n | None => Ok n end);
            n ← set_entry i (with_q (Some p)) n;
            Ok (n, ERR_OK)
        | None => Ok (n, ERR_MEM)
        end
      else Ok (n, result)
  end.

(** [for (i = 0; i < ARP_TABLE_SIZE; i++)]: the stable entry for [dst]. *)
Fixpoint find_stable (netif_p dst : Z) (l : list etharp_entry) (i : Z) : option Z :=
  match l with
  | [] => None
  | e :: l' =>
      if stable (arp_state e) && bool_decide (arp_netif e = Some netif_p) && (dst =? arp_ipaddr e)
      then Some i else find_stable netif_p dst l' (i + 1)
  end.

(** The multicast address of the link layer. *)
Definition mcast_addr (a : Z) : list Z :=
  [LL_IP4_MULTICAST_ADDR_0; LL_IP4_MULTICAST_ADDR_1; LL_IP4_MULTICAST_ADDR_2;
   Z.land (ip4_addr_get_byte a 1) 0x7f; ip4_addr_get_byte a 2; ip4_addr_get_byte a 3].

(** The next hop: the destination itself, or the gateway. *)
Definition next_hop (ipaddr : Z) (nif : netif) : option Z :=
  if negb (ip4_addr_net_eq ipaddr (ip_addr nif) (netmask nif)) && negb (ip4_addr_islinklocal ipaddr) then
    if negb (ip4_addr_isany (gw nif)) then Some (gw nif) else None
  else Some ipaddr.

Definition etharp_output (netif_p : Z) (q : ptr) (ipaddr : Z) (n : net) : res (net * Z) :=
  nif ← netif_at netif_p n;
  if ip4_addr_isbroadcast ipaddr nif then output_frame netif_p q (hwaddr nif) ethbroadcast ETHTYPE_IP n
  else if ip4_addr_ismulticast ipaddr then output_frame netif_p q (hwaddr nif) (mcast_addr ipaddr) ETHTYPE_IP n
  else match next_hop ipaddr nif with
  | None => Ok (n, ERR_RTE)
  | Some dst_addr =>
      c ← entry (etharp_cached_entry n) n;
      if stable (arp_state c) && bool_decide (arp_netif c = Some netif_p) && (dst_addr =? arp_ipaddr c)
      then etharp_output_to_arp_index netif_p q (etharp_cached_entry n) n
      else match find_stable netif_p dst_addr (arp_table n) 0 with
      | Some i => etharp_output_to_arp_index netif_p q i (ETHARP_SET_ADDRHINT i n)
      | None => etharp_query netif_p dst_addr (Some q) n
      end
  end.

(** *** Incoming ARP packets *)

(** The test of the hardware and protocol types. *)
Definition unsupported (p : ptr) (s : store P1 P2) : res bool :=
  hwtype ← hdr_read16 p arp_hwtype s;
  if negb (hwtype =? lwip_htons LWIP_IANA_HWTYPE_ETHERNET) then Ok true else
  hwlen ← hdr_read p arp_hwlen 1 s;
  if negb (bool_decide (hwlen = [ETH_HWADDR_LEN])) then Ok true else
  protolen ← hdr_read p arp_protolen 1 s;
  if negb (bool_decide (protolen = [4])) then Ok true else
  proto ← hdr_read16 p arp_proto s;
  Ok (negb (proto =? lwip_htons ETHTYPE_IP)).

(** [acd_arp_reply(netif, hdr)] of acd.c, in a state [K] with the addresses
    under conflict detection. *)
Context {K : Type} `{!Part K net}.
Variable acd_arp_reply : Z -> ptr -> K -> res K.

Definition etharp_input (p : ptr) (netif_p : Z) (k : K) : res K :=
  bad ← unsupported p (packets (part k));
  if bad : bool then n ← free_packet p (part k); Ok (set_part n k) else
  k ← acd_arp_reply netif_p p k;
  let n := part k in
  sip ← hdr_read p arp_sipaddr 4 (packets n);
  sipaddr ← get32 sip 0;
  dip ← hdr_read p arp_dipaddr 4 (packets n);
  dipaddr ← get32 dip 0;
  nif ← netif_at netif_p n;
  let for_us := negb (ip4_addr_isany (ip_addr nif)) && (dipaddr =? ip_addr nif) in
  let from_us := negb (ip4_addr_isany (ip_addr nif)) && (sipaddr =? ip_addr nif) in
  shwaddr ← hdr_read p arp_shwaddr ETH_HWADDR_LEN (packets n);
  '(n, _) ← etharp_update_arp_entry netif_p sipaddr shwaddr
              (if for_us then ETHARP_FLAG_TRY_HARD else ETHARP_FLAG_FIND_ONLY) n;
  opcode ← hdr_read16 p arp_op (packets n);
  n ← (if opcode =? lwip_htons ARP_REQUEST then
         if for_us && negb from_us then
           nif ← netif_at netif_p n;
           shwaddr ← hdr_read p arp_shwaddr ETH_HWADDR_LEN (packets n);
           '(n, _) ← etharp_raw netif_p (hwaddr nif) shwaddr (hwaddr nif) (ip_addr nif) shwaddr sipaddr ARP_REPLY n;
           Ok n
         else Ok n
       else Ok n);
  n ← free_packet p n;
  Ok (set_part n k).

End Arp.

Arguments net : clear implicits.

#[export] Instance packets_part P1 P2 X : Part (net P1 P2 X) (store P1 P2).
Proof. by refine {| part := packets; set_part := set_packets |}; try (intros []). Defined.

(** ** The invariant *)

Definition of_q (o : option ptr) : gmultiset ptr := match o with Some p => {[+ p +]} | None => ∅ end.

(** The references the table holds. *)
Definition queued (t : list etharp_entry) : gmultiset ptr := foldr (fun e acc => of_q (arp_q e) ⊎ acc) ∅ t.

Definition netif_ok (nif : netif) : Prop :=
  hwaddr_len nif = 6 /\ length (hwaddr nif) = 6%nat /\ bytes_ok (hwaddr nif) /\
  is_u32 (ip_addr nif) /\ is_u32 (netmask nif) /\ is_u32 (gw nif).

(** An entry in use has an interface and has not expired; only a pending one
    has a packet. *)
Definition entry_ok (nets : gmap Z netif) (e : etharp_entry) : Prop :=
  length (arp_ethaddr e) = 6%nat /\ bytes_ok (arp_ethaddr e) /\ is_u32 (arp_ipaddr e) /\
  match arp_state e with
  | ETHARP_STATE_EMPTY => arp_q e = None
  | st => (exists np, arp_netif e = Some np /\ is_Some (nets !! np)) /\ 0 <= arp_ctime e < ARP_MAXAGE /\
      if is_pending st then arp_ctime e < ARP_MAXPENDING else arp_q e = None
  end.

Definition same_key (e1 e2 : etharp_entry) : Prop := arp_ipaddr e1 = arp_ipaddr e2 /\ arp_netif e1 = arp_netif e2.
Definition in_use (e : etharp_entry) : Prop := arp_state e <> ETHARP_STATE_EMPTY.

Record table_ok (nets : gmap Z netif) (t : list etharp_entry) : Prop := TableOk
  { to_length : length t = 10%nat;
    to_entries : Forall (entry_ok nets) t;
    to_unique : forall i j e1 e2, t !! i = Some e1 -> t !! j = Some e2 -> in_use e1 -> in_use e2 -> same_key e1 e2 -> i = j }.

Record arp_ok {P1 P2 X} `{!PoolAlloc P1} `{!PoolAlloc P2} `{!LinkDriver X} (n : net P1 P2 X) (E : gmultiset ptr) : Prop := ArpOk
  { ao_store : store_ok (packets n) (E ⊎ queued (arp_table n));
    ao_heads : forall p, p ∈ queued (arp_table n) -> is_head (packets n) p;
    ao_table : table_ok (netifs n) (arp_table n);
    ao_cached : 0 <= etharp_cached_entry n < ARP_TABLE_SIZE;
    ao_netifs : forall i nif, netifs n !! i = Some nif -> netif_ok nif;
    ao_device : link_ok (device n) }.

(** *** Which entry a lookup returns *)

Definition idle_pending (e : etharp_entry) : bool := is_pending (arp_state e) && bool_decide (arp_q e = None).
Definition queue_pending (e : etharp_entry) : bool := is_pending (arp_state e) && negb (bool_decide (arp_q e = None)).

(** [idx] is the last of the oldest entries with [P], the size of the table if
    there is none. *)
Definition oldest (P : etharp_entry -> bool) (t : list etharp_entry) (idx age : Z) : Prop :=
  (idx = ARP_TABLE_SIZE /\ age = 0 /\ Forall (fun e => P e = false) t) \/
  (0 <= idx /\ exists e, t !! Z.to_nat idx = Some e /\ P e = true /\ arp_ctime e = age /\
     Forall (fun e' => P e' = true -> arp_ctime e' <= age) t).

Definition first_empty (t : list etharp_entry) (idx : Z) : Prop :=
  (idx = ARP_TABLE_SIZE /\ Forall in_use t) \/
  (0 <= idx /\ exists e, t !! Z.to_nat idx = Some e /\ ~ in_use e /\ Forall in_use (take (Z.to_nat idx) t)).

Definition candidates_of (t : list etharp_entry) (c : candidates) : Prop :=
  first_empty t (empty c) /\ oldest (fun e => stable (arp_state e)) t (old_stable c) (age_stable c) /\
  oldest idle_pending t (old_pending c) (age_pending c) /\ oldest queue_pending t (old_queue c) (age_queue c).

(** The order of recycling: an empty entry, the oldest stable one, the oldest
    pending one without a packet, the oldest pending one with a packet. *)
Definition victim (t : list etharp_entry) (i : Z) : Prop :=
  i < ARP_TABLE_SIZE /\
  (first_empty t i \/
   Forall in_use t /\
   (oldest (fun e => stable (arp_state e)) t i (default 0 (arp_ctime <$> t !! Z.to_nat i)) \/
    Forall (fun e => stable (arp_state e) = false) t /\
    (oldest idle_pending t i (default 0 (arp_ctime <$> t !! Z.to_nat i)) \/
     Forall (fun e => idle_pending e = false) t /\
     oldest queue_pending t i (default 0 (arp_ctime <$> t !! Z.to_nat i))))).

Definition has_key (a np : Z) (e : etharp_entry) : Prop := in_use e /\ arp_ipaddr e = a /\ arp_netif e = Some np.
Definition no_match (a np : Z) (t : list etharp_entry) : Prop := Forall (fun e => ~ has_key a np e) t.

(** ** Lemmas *)

(** *** The table *)

Lemma queued_cons e t : queued (e :: t) = of_q (arp_q e) ⊎ queued t.
Proof. done. Qed.

Lemma queued_insert t i e e' : t !! i = Some e -> queued (<[i := e']> t) ⊎ of_q (arp_q e) = queued t ⊎ of_q (arp_q e').
Proof.
  revert i. induction t as [|e0 t IH]; intros [|i] Hi; try done.
  - injection Hi as ->. change (<[0%nat := e']> (e :: t)) with (e' :: t). rewrite !queued_cons. multiset_solver.
  - specialize (IH i Hi). change (<[S i := e']> (e0 :: t)) with (e0 :: <[i := e']> t).
    rewrite !queued_cons, <- !(assoc_L (⊎)). by rewrite IH.
Qed.

Lemma queued_elem t i e p : t !! i = Some e -> arp_q e = Some p -> p ∈ queued t.
Proof.
  revert i. induction t as [|e0 t IH]; intros [|i] Hi Hp; try done; rewrite queued_cons; apply gmultiset_elem_of_disj_union.
  - left. injection Hi as ->. rewrite Hp. by apply gmultiset_elem_of_singleton.
  - right. by apply (IH i).
Qed.

Lemma table_update nets t i e e' : table_ok nets t -> t !! i = Some e -> entry_ok nets e' ->
  (in_use e' -> forall j ej, j <> i -> t !! j = Some ej -> in_use ej -> ~ same_key e' ej) ->
  table_ok nets (<[i := e']> t).
Proof.
  intros [Hl He Hu] Hi He' Hnew. pose proof (lookup_lt_Some _ _ _ Hi) as Hlt. split.
  - by rewrite length_insert.
  - by apply Forall_insert.
  - intros j k e1 e2 Hj Hk H1 H2 Hkey. destruct (decide (j = i)) as [->|Hji], (decide (k = i)) as [->|Hki]; [done | | |].
    + rewrite list_lookup_insert_eq in Hj by done. injection Hj as <-. rewrite list_lookup_insert_ne in Hk by done.
      by destruct (Hnew H1 k e2).
    + rewrite list_lookup_insert_eq in Hk by done. injection Hk as <-. rewrite list_lookup_insert_ne in Hj by done.
      destruct (Hnew H2 j e1); try done. by destruct Hkey.
    + rewrite !list_lookup_insert_ne in Hj, Hk by done. by apply (Hu j k e1 e2).
Qed.

(** A change that keeps the key of an entry in use. *)
Lemma table_update_key nets t i e e' : table_ok nets t -> t !! i = Some e -> entry_ok nets e' ->
  (in_use e' -> in_use e /\ same_key e' e) -> table_ok nets (<[i := e']> t).
Proof.
  intros Ht Hi He' Hk. apply (table_update _ _ _ e); [done | done | done |]. intros Hu' j ej Hj Hej Huj [K1 K2].
  destruct (Hk Hu') as [Hu [K3 K4]]. apply Hj. apply (to_unique _ _ Ht j i ej e); try done. split; congruence.
Qed.

Lemma entry_freed_ok nets : entry_ok nets entry_freed.
Proof. unfold entry_ok. cbn. split_and!; [done | by repeat constructor | solve_u | done]. Qed.

Lemma fresh_ram_room p o : PBUF_LINK <= o -> header_room (fresh_ram p o SIZEOF_ETHARP_HDR) SIZEOF_ETH_HDR = true.
Proof.
  intros Ho. unfold header_room, fresh_ram. cbn [payload type_internal tot_len pbuf_init_alloced_pbuf].
  change (negb _) with true. unfold PBUF_LINK, SIZEOF_ETH_HDR in *. destruct (Z.leb_spec 14 o); [done | lia].
Qed.

Lemma ethbroadcast_ok : length ethbroadcast = 6%nat /\ bytes_ok ethbroadcast.
Proof. split; [done|]. repeat constructor; solve_u. Qed.

(** *** The search *)

Lemma in_use_empty e : in_use e <-> is_empty (arp_state e) = false.
Proof. unfold in_use, is_empty. destruct (bool_decide_reflect (arp_state e = ETHARP_STATE_EMPTY)); naive_solver. Qed.

Lemma matches_key a np e : in_use e -> matches (Some a) (Some np) e = true <-> has_key a np e.
Proof.
  intros Hu. unfold matches, has_key. rewrite andb_true_iff, Z.eqb_eq, orb_true_iff, !bool_decide_eq_true. naive_solver.
Qed.

Lemma oldest_snoc P t idx age e : oldest P t idx age -> 0 <= arp_ctime e -> (length t < 10)%nat ->
  oldest P (t ++ [e]) (if P e && (age <=? arp_ctime e) then Z.of_nat (length t) else idx)
    (if P e && (age <=? arp_ctime e) then arp_ctime e else age).
Proof.
  intros Ho Hc Hl. destruct (P e) eqn:HP; cbn [andb].
  - destruct (Z.leb_spec age (arp_ctime e)) as [Hle|Hgt].
    + right. split; [lia|]. exists e. rewrite Nat2Z.id, lookup_app_r, Nat.sub_diag by lia. split_and!; try done.
      apply Forall_app. split; [|constructor; [by intros|done]].
      destruct Ho as [(_ & _ & Hf)|(_ & _ & _ & _ & _ & Hf)]; (eapply Forall_impl; [exact Hf|]); cbn.
      * intros e' -> [=].
      * intros e' He' HP'. specialize (He' HP'). lia.
    + destruct Ho as [(_ & -> & _)|(H0 & e0 & H1 & H2 & H3 & Hf)]; [lia|]. right. split; [done|]. exists e0.
      rewrite (lookup_app_l_Some _ _ _ _ H1). split_and!; try done. apply Forall_app. split; [done|].
      constructor; [by intros; lia | done].
  - destruct Ho as [(-> & -> & Hf)|(H0 & e0 & H1 & H2 & H3 & Hf)]; [left | right].
    + split_and!; try done. apply Forall_app. by split; [|constructor].
    + split; [done|]. exists e0. rewrite (lookup_app_l_Some _ _ _ _ H1). split_and!; try done.
      apply Forall_app. split; [done|]. constructor; [congruence | done].
Qed.

Lemma first_empty_snoc t idx e : first_empty t idx -> (length t < 10)%nat ->
  first_empty (t ++ [e]) (if (idx =? ARP_TABLE_SIZE) && is_empty (arp_state e) then Z.of_nat (length t) else idx).
Proof.
  intros Hf Hl. unfold ARP_TABLE_SIZE. destruct Hf as [[-> Hf]|(H0 & e0 & H1 & H2 & Hf)].
  - rewrite Z.eqb_refl. cbn [andb]. destruct (is_empty (arp_state e)) eqn:He; [right|left].
    + split; [lia|]. exists e. rewrite Nat2Z.id, lookup_app_r, Nat.sub_diag by lia. split_and!; [done | |].
      * intros Hu%in_use_empty. congruence.
      * by rewrite take_app_length.
    + split; [done|]. apply Forall_app. split; [done|]. constructor; [by apply in_use_empty | done].
  - pose proof (lookup_lt_Some _ _ _ H1). destruct (Z.eqb_spec idx 10); [lia|]. cbn [andb]. right. split; [done|].
    exists e0. rewrite (lookup_app_l_Some _ _ _ _ H1). split_and!; try done. by rewrite take_app_le by lia.
Qed.

Lemma remember_candidates t c e : candidates_of t c -> in_use e -> 0 <= arp_ctime e -> (length t < 10)%nat ->
  candidates_of (t ++ [e]) (remember (Z.of_nat (length t)) e c).
Proof.
  intros (H1 & H2 & H3 & H4) Hu Hc Hl. apply (first_empty_snoc _ _ e) in H1; [|done].
  apply (oldest_snoc _ _ _ _ e) in H2, H3, H4; try done. apply in_use_empty in Hu. rewrite Hu, andb_false_r in H1.
  unfold candidates_of, remember, idle_pending, queue_pending in *. unfold is_empty, is_pending in *.
  destruct (arp_state e); try discriminate Hu; cbn [stable] in *; destruct (arp_q e); cbn [andb negb] in *;
    rewrite ?bool_decide_true, ?bool_decide_false in * by done; cbn [andb negb] in *;
    (destruct (_ <=? _) eqn:?; cbn [empty old_stable age_stable old_pending age_pending old_queue age_queue]; split_and!; congruence || done).
Qed.

Lemma empty_candidates t c e : candidates_of t c -> ~ in_use e -> (length t < 10)%nat ->
  candidates_of (t ++ [e]) (Candidates (old_pending c) (old_stable c)
    (if empty c =? ARP_TABLE_SIZE then Z.of_nat (length t) else empty c) (old_queue c) (age_queue c) (age_pending c) (age_stable c)).
Proof.
  intros (H1 & H2 & H3 & H4) Hu Hl. assert (Hs : arp_state e = ETHARP_STATE_EMPTY) by (destruct (decide (arp_state e = ETHARP_STATE_EMPTY)); [done | by destruct Hu]).
  apply (first_empty_snoc _ _ e) in H1; [|done]. replace (is_empty (arp_state e)) with true in H1 by (by rewrite Hs).
  rewrite andb_true_r in H1.
  assert (Hskip : forall P idx age, P e = false -> oldest P t idx age -> oldest P (t ++ [e]) idx age).
  { intros P idx age HP Ho. assert (Hz : 0 <= arp_ctime (with_ctime 0 e)) by (cbn; lia).
    destruct Ho as [(-> & -> & Hf)|(H0 & e0 & Hi & Hp & Ha & Hf)]; [left | right].
    - split_and!; try done. apply Forall_app. by split; [|constructor].
    - split; [done|]. exists e0. rewrite (lookup_app_l_Some _ _ _ _ Hi). split_and!; try done.
      apply Forall_app. split; [done|]. constructor; [congruence | done]. }
  unfold candidates_of. cbn. split_and!; [done | apply Hskip; [by rewrite Hs | done] | |];
    (apply Hskip; [|done]); unfold idle_pending, queue_pending, is_pending; by rewrite Hs.
Qed.

Lemma sweep_spec a np l : forall pre c, candidates_of pre c -> Forall (fun e => in_use e -> 0 <= arp_ctime e) l ->
  (length (pre ++ l) <= 10)%nat ->
  exists r, sweep (Some a) (Some np) l (Z.of_nat (length pre)) c = Ok r /\
    match r with
    | inl i => 0 <= i /\ exists e, (pre ++ l) !! Z.to_nat i = Some e /\ has_key a np e
    | inr c' => candidates_of (pre ++ l) c' /\ no_match a np l
    end.
Proof.
  induction l as [|e l IH]; intros pre c Hc Hct Hlen; cbn [sweep].
  - exists (inr c). rewrite app_nil_r. split_and!; [done | done | by constructor].
  - apply Forall_cons in Hct as [He Hct]. rewrite length_app in Hlen. cbn [length] in Hlen.
    assert (Hnext : forall c', candidates_of (pre ++ [e]) c' -> ~ has_key a np e ->
      exists r, sweep (Some a) (Some np) l (Z.of_nat (length pre) + 1) c' = Ok r /\
      match r with
      | inl i => 0 <= i /\ exists e0, (pre ++ e :: l) !! Z.to_nat i = Some e0 /\ has_key a np e0
      | inr c' => candidates_of (pre ++ e :: l) c' /\ no_match a np (e :: l)
      end).
    { intros c' Hc' Hne. destruct (IH (pre ++ [e]) c' Hc' Hct) as (r & E & Hr).
      { rewrite !length_app. cbn. lia. }
      rewrite length_app, Nat2Z.inj_add in E. cbn [length] in E. exists r. split; [done|].
      rewrite <- app_assoc in Hr. destruct r as [i|c2]; [done|]. destruct Hr. split; [done|]. by constructor. }
    destruct (is_empty (arp_state e)) eqn:Hemp; cbn [negb].
    + assert (Hu : ~ in_use e) by (intros Hu%in_use_empty; congruence).
      assert (Hne : ~ has_key a np e) by (intros [H _]; done).
      pose proof (empty_candidates pre c e Hc Hu ltac:(lia)) as Hc'. rewrite andb_true_r.
      destruct (empty c =? ARP_TABLE_SIZE); apply Hnext; try done.
    + assert (Hu : in_use e) by (by apply in_use_empty). rewrite andb_false_r.
      assert (Ha : is_pending (arp_state e) || stable (arp_state e) = true).
      { unfold in_use in Hu. by destruct (arp_state e). }
      rewrite Ha. cbn [lwip_assert]. rewrite bind_ok. pose proof (matches_key a np e Hu) as Hm.
      destruct (matches (Some a) (Some np) e).
      * exists (inl (Z.of_nat (length pre))). split; [done|]. split; [lia|]. exists e.
        rewrite Nat2Z.id, lookup_app_r, Nat.sub_diag by lia. split; [done|]. by apply Hm.
      * apply Hnext; [|rewrite <- Hm; congruence]. apply remember_candidates; [done | done | by apply He | lia].
Qed.

Lemma oldest_some P t idx age : oldest P t idx age -> length t = 10%nat -> idx < ARP_TABLE_SIZE ->
  0 <= idx /\ oldest P t idx (default 0 (arp_ctime <$> t !! Z.to_nat idx)) /\ exists e, t !! Z.to_nat idx = Some e /\ P e = true.
Proof.
  intros Ho Hl Hi. pose proof Ho as [(-> & _)|(H0 & e & He & HP & Ha & _)]; [lia|].
  split; [done|]. rewrite He. cbn. rewrite Ha. split; [done|]. by exists e.
Qed.

Lemma oldest_none P t idx age : oldest P t idx age -> length t = 10%nat -> ~ idx < ARP_TABLE_SIZE -> Forall (fun e => P e = false) t.
Proof.
  intros [(_ & _ & Hf)|(H0 & e & He & _)] Hl Hi; [done|]. apply lookup_lt_Some in He. unfold ARP_TABLE_SIZE in Hi. lia.
Qed.

(** The candidate that is taken. *)
Lemma candidates_victim t c : candidates_of t c -> length t = 10%nat ->
  if empty c <? ARP_TABLE_SIZE then 0 <= empty c /\ (exists e, t !! Z.to_nat (empty c) = Some e /\ ~ in_use e) /\ victim t (empty c)
  else Forall in_use t /\
    if old_stable c <? ARP_TABLE_SIZE then
      0 <= old_stable c /\ (exists e, t !! Z.to_nat (old_stable c) = Some e /\ stable (arp_state e) = true) /\ victim t (old_stable c)
    else if old_pending c <? ARP_TABLE_SIZE then 0 <= old_pending c /\ victim t (old_pending c)
    else old_queue c < ARP_TABLE_SIZE /\ 0 <= old_queue c /\ victim t (old_queue c).
Proof.
  intros (H1 & H2 & H3 & H4) Hl. unfold victim.
  destruct (Z.ltb_spec (empty c) ARP_TABLE_SIZE) as [He|He].
  { pose proof H1 as [[E _]|(H0 & e & Hi & Hu & _)]; [lia|]. split_and!; [done | by exists e | done | by left]. }
  assert (Hall : Forall in_use t).
  { destruct H1 as [[_ Hf]|(H0 & e & Hi & _)]; [done|]. apply lookup_lt_Some in Hi. unfold ARP_TABLE_SIZE in He. lia. }
  split; [done|]. destruct (Z.ltb_spec (old_stable c) ARP_TABLE_SIZE) as [Hs|Hs].
  { destruct (oldest_some _ _ _ _ H2 Hl Hs) as (H0 & Ho & Hex). split_and!; [done | done | done |]. right. split; [done|]. by left. }
  pose proof (oldest_none _ _ _ _ H2 Hl ltac:(lia)) as Hns.
  destruct (Z.ltb_spec (old_pending c) ARP_TABLE_SIZE) as [Hp|Hp].
  { destruct (oldest_some _ _ _ _ H3 Hl Hp) as (H0 & Ho & _). split_and!; [done | done |]. right. split; [done|]. right. split; [done|]. by left. }
  pose proof (oldest_none _ _ _ _ H3 Hl ltac:(lia)) as Hnp.
  assert (Hq : old_queue c < ARP_TABLE_SIZE).
  { destruct (Z.lt_ge_cases (old_queue c) ARP_TABLE_SIZE) as [|Hq]; [done|].
    pose proof (oldest_none _ _ _ _ H4 Hl ltac:(lia)) as Hnq. destruct t as [|e t]; [done|].
    apply Forall_cons in Hall as [Hu _], Hns as [Hns _], Hnp as [Hnp _], Hnq as [Hnq _].
    unfold in_use, idle_pending, queue_pending, is_pending in *. exfalso. clear -Hu Hns Hnp Hnq.
    destruct (arp_state e); try done; rewrite bool_decide_true in Hnp, Hnq by done; cbn [andb] in *.
    by destruct (bool_decide (arp_q e = None)). }
  destruct (oldest_some _ _ _ _ H4 Hl Hq) as (H0 & Ho & _). split_and!; [done | done | done |].
  right. split; [done|]. right. split; [done|]. right. by split.
Qed.

Section Lemmas.
Context {P1 P2 : Type} `{!PoolAlloc P1} `{!PoolAlloc P2} {X : Type} `{!LinkDriver X}.
Implicit Type n : net P1 P2 X.
Implicit Type s : store P1 P2.
#[local] Set Default Proof Using "Type*".

Lemma entry_some n i e : arp_table n !! Z.to_nat i = Some e -> 0 <= i -> entry i n = Ok e.
Proof using Type. intros H Hi. unfold entry. destruct (Z.leb_spec 0 i); [|lia]. by rewrite H. Qed.

Lemma set_entry_some n i e f : arp_table n !! Z.to_nat i = Some e -> 0 <= i ->
  set_entry i f n = Ok (set_table (<[Z.to_nat i := f e]> (arp_table n)) n).
Proof using Type. intros H Hi. unfold set_entry. by rewrite (entry_some _ _ _ H Hi), bind_ok. Qed.

Lemma entry_in_range n E i : arp_ok n E -> 0 <= i < ARP_TABLE_SIZE -> exists e, arp_table n !! Z.to_nat i = Some e.
Proof using Type.
  intros Hn Hi. pose proof (to_length _ _ (ao_table _ _ Hn)). unfold ARP_TABLE_SIZE in Hi.
  apply lookup_lt_is_Some_2. lia.
Qed.

(** An entry changes but keeps its packet. *)
Lemma set_table_ok n E t : arp_ok n E -> queued t = queued (arp_table n) -> table_ok (netifs n) t -> arp_ok (set_table t n) E.
Proof using Type. intros [H1 H2 H3 H4 H5 H6] Hq Ht. split; cbn [arp_table set_table packets netifs etharp_cached_entry]; rewrite ?Hq; try done. Qed.

Lemma queued_same n i e e' : arp_table n !! i = Some e -> arp_q e' = arp_q e ->
  queued (<[i := e']> (arp_table n)) = queued (arp_table n).
Proof using Type. intros Hi Hq. pose proof (queued_insert _ _ _ e' Hi) as H. rewrite Hq in H. by apply (inj (.⊎ _)) in H. Qed.

Lemma netif_at_some n np nif : netifs n !! np = Some nif -> netif_at np n = Ok nif.
Proof using Type. intros H. unfold netif_at. by rewrite H. Qed.

(** Nothing has changed but the wire; the heap has the same layout. *)
Record quiet n n' : Prop := Quiet
  { qt_pbufs : pbufs (packets n') = pbufs (packets n);
    qt_areas : areas (packets n') = areas (packets n);
    qt_table : arp_table n' = arp_table n;
    qt_netifs : netifs n' = netifs n;
    qt_cached : etharp_cached_entry n' = etharp_cached_entry n;
    qt_keeps : keeps (packets n) (packets n');
    qt_heap : forall l, heap_rep (heap_mem (packets n)) l -> heap_rep (heap_mem (packets n')) l }.

Lemma quiet_refl n : quiet n n.
Proof. done. Qed.

Lemma quiet_trans n1 n2 n3 : quiet n1 n2 -> quiet n2 n3 -> quiet n1 n3.
Proof. intros [] []. split; try congruence; [by etransitivity | auto]. Qed.

Lemma quiet_ram n n' E layer k : quiet n n' -> arp_ok n E -> has_ram layer k (packets n') = has_ram layer k (packets n).
Proof.
  intros Hq Hn. destruct (ri_heap _ _ (so_ref _ _ (ao_store _ _ Hn))) as (l & Hl & _).
  by apply (same_ram _ _ l); [|apply (qt_heap _ _ Hq)].
Qed.

(** *** The header *)

(** The frame around [d]. *)
Definition frame_of (dst src : list Z) (type : Z) (d : list Z) : list Z := dst ++ src ++ [type / 256; type mod 256] ++ d.

(** An ARP message, RFC 826. *)
Definition arp_message (opcode : Z) (hwsrc : list Z) (ipsrc : Z) (hwdst : list Z) (ipdst : Z) : list Z :=
  [0; 1; 8; 0; 6; 4; opcode / 256; opcode mod 256] ++ hwsrc ++ le_bytes ipsrc ++ hwdst ++ le_bytes ipdst.

Lemma arp_header_bytes (d hwsrc hwdst : list Z) ipsrc ipdst o1 o2 : length d = 28%nat -> length hwsrc = 6%nat -> length hwdst = 6%nat ->
  written [(arp_op, [o1; o2]); (arp_shwaddr, hwsrc); (arp_dhwaddr, hwdst); (arp_sipaddr, le_bytes ipsrc);
           (arp_dipaddr, le_bytes ipdst); (arp_hwtype, [0; 1]); (arp_proto, [8; 0]); (arp_hwlen, [6]); (arp_protolen, [4])] d
  = [0; 1; 8; 0; 6; 4; o1; o2] ++ hwsrc ++ le_bytes ipsrc ++ hwdst ++ le_bytes ipdst.
Proof using Type.
  intros Hd Hs Ht. unfold written, le_bytes. cbn [foldl fst snd].
  change (Z.to_nat arp_op) with 6%nat. change (Z.to_nat arp_shwaddr) with 8%nat. change (Z.to_nat arp_dhwaddr) with 18%nat.
  change (Z.to_nat arp_sipaddr) with 14%nat. change (Z.to_nat arp_dipaddr) with 24%nat. change (Z.to_nat arp_hwtype) with 0%nat.
  change (Z.to_nat arp_proto) with 2%nat. change (Z.to_nat arp_hwlen) with 4%nat. change (Z.to_nat arp_protolen) with 5%nat.
  do 28 (destruct d as [|? d]; [done|]). destruct d; [|done].
  do 6 (destruct hwsrc as [|? hwsrc]; [done|]). destruct hwsrc; [|done].
  do 6 (destruct hwdst as [|? hwdst]; [done|]). destruct hwdst; [|done]. done.
Qed.

Lemma write_etharp_hdr_ok s E p b nif hs ips hd ipd op : store_ok s E -> pbufs s !! p = Some b -> is_head s p ->
  (exists o, payload b = Some (p, o)) -> len b = 28 -> hwaddr_len nif = 6 ->
  length hs = 6%nat -> length hd = 6%nat -> bytes_ok hs -> bytes_ok hd -> is_u32 ips -> is_u32 ipd -> is_u16 op ->
  exists s', write_etharp_hdr p nif hs ips hd ipd op s = Ok s' /\ store_ok s' E /\ pbufs s' = pbufs s /\
    payload_data (areas s') b = arp_message op hs ips hd ipd /\
    (forall y, y <> p -> areas s' !! y = areas s !! y).
Proof.
  intros Hs Hb Hh Hown Hlen Hhl Hlhs Hlhd Hbs Hbd Hips Hipd Hop.
  destruct (hdr_writes_ok E p b [(arp_op, [op / 256; op mod 256]); (arp_shwaddr, hs); (arp_dhwaddr, hd);
     (arp_sipaddr, le_bytes ips); (arp_dipaddr, le_bytes ipd); (arp_hwtype, [0; 1]); (arp_proto, [8; 0]);
     (arp_hwlen, [6]); (arp_protolen, [4])] s Hs Hb Hh Hown) as (s' & Ew & Hs' & Eps & Hd & Hoth & _).
  { rewrite Hlen. unfold arp_op, arp_shwaddr, arp_dhwaddr, arp_sipaddr, arp_dipaddr, arp_hwtype, arp_proto, arp_hwlen, arp_protolen, le_bytes.
    repeat constructor; cbn [fst snd length]; (done || solve_u || lia). }
  exists s'. unfold write_etharp_hdr, hdr_write16. rewrite !eth_type_bytes by (done || by unfold LWIP_IANA_HWTYPE_ETHERNET, ETHTYPE_IP).
  unfold ETH_HWADDR_LEN. rewrite Hhl, Z.eqb_refl. cbn [lwip_assert].
  cbn [hdr_writes] in Ew. change [LWIP_IANA_HWTYPE_ETHERNET / 256; LWIP_IANA_HWTYPE_ETHERNET mod 256] with [0; 1].
  change [ETHTYPE_IP / 256; ETHTYPE_IP mod 256] with [8; 0].
  split_and!; [|done | done | |].
  - do 8 (let Ei := fresh "Ei" in apply bind_inv in Ew as (? & Ei & Ew); rewrite Ei, bind_ok; try rewrite bind_ok).
    by apply bind_inv in Ew as (? & -> & [= ->]).
  - rewrite Hd. apply arp_header_bytes; [|done | done].
    pose proof (payload_ok_read _ _ _ (so_payload _ _ Hs p b Hb)) as Hr. apply area_read_payload in Hr.
    apply area_read_length in Hr; lia.
  - intros y Hy. by apply Hoth.
Qed.

Lemma write_etharp_hdr_alloc p nif hs ips hd ipd op s s' : write_etharp_hdr p nif hs ips hd ipd op s = Ok s' -> same_alloc s s'.
Proof.
  unfold write_etharp_hdr, hdr_write16. intros (s1 & E1 & E)%bind_inv. apply hdr_write_alloc in E1.
  apply bind_inv in E as ([] & _ & E). do 7 (apply bind_inv in E as (? & ?%hdr_write_alloc & E)). apply hdr_write_alloc in E.
  by repeat (etransitivity; [eassumption|]).
Qed.

Lemma output_frame_alloc np p src dst type n n' err : output_frame np p src dst type n = Ok (n', err) ->
  same_alloc (packets n) (packets n').
Proof.
  unfold output_frame. intros (nif & _ & ([[s x] e] & E & [= <- _])%bind_inv)%bind_inv. by apply ethernet_output_alloc in E.
Qed.

(** A reference moves between the client and an entry. *)
Lemma table_exchange n E E' i e e' : arp_ok n E -> arp_table n !! i = Some e ->
  table_ok (netifs n) (<[i := e']> (arp_table n)) -> E' ⊎ of_q (arp_q e') = E ⊎ of_q (arp_q e) ->
  (forall p, arp_q e' = Some p -> is_head (packets n) p) -> arp_ok (set_table (<[i := e']> (arp_table n)) n) E'.
Proof using Type.
  intros [H1 H2 H3 H4 H5 H6] Hi Ht HE Hh. pose proof (queued_insert _ _ _ e' Hi) as Hq.
  assert (Heq : E' ⊎ queued (<[i := e']> (arp_table n)) = E ⊎ queued (arp_table n)).
  { apply (inj (.⊎ of_q (arp_q e))). rewrite <- (assoc_L _ E'), Hq, (comm_L _ (queued _) (of_q (arp_q e'))), (assoc_L _ E'), HE.
    rewrite <- !(assoc_L (⊎)). by rewrite (comm_L (⊎) (queued _)). }
  split; cbn [packets arp_table netifs etharp_cached_entry set_table]; try done; [by rewrite Heq|].
  intros p Hp. assert (p ∈ queued (arp_table n) ⊎ of_q (arp_q e')) as [Hin|Hin]%gmultiset_elem_of_disj_union; [|by apply H2|].
  { rewrite <- Hq. apply gmultiset_elem_of_disj_union. by left. }
  destruct (arp_q e') as [p'|]; cbn in Hin; [|by apply gmultiset_not_elem_of_empty in Hin].
  apply gmultiset_elem_of_singleton in Hin as ->. by apply Hh.
Qed.

Lemma table_entry n E i e : arp_ok n E -> arp_table n !! i = Some e -> entry_ok (netifs n) e.
Proof using Type. intros Hn Hi. by apply (Forall_lookup_1 _ _ _ _ (to_entries _ _ (ao_table _ _ Hn)) Hi). Qed.

Lemma quiet_intact Q n n' : quiet n n' -> intact_but Q (packets n) (packets n').
Proof.
  intros []. split; [|intros z; congruence]. intros y b' _ Hb'. exists b'. split_and!; [congruence | by destruct b' | congruence].
Qed.

(** Reading a header that is intact. *)
Lemma hdr_read_intact Q s s' E' p off k : store_ok s' E' -> intact_but Q s s' -> p ∉ Q -> is_Some (pbufs s' !! p) ->
  hdr_read p off k s' = hdr_read p off k s.
Proof using Type.
  intros Hs' Hi Hp [b' Hb']. destruct (ib_pbufs _ _ _ Hi p b' Hp Hb') as (b & Hb & E & A). unfold hdr_read.
  rewrite (get_some _ _ _ Hb), (get_some _ _ _ Hb'), !bind_ok.
  destruct (so_payload _ _ Hs' p b' Hb') as (a & o & d & Hpl & _ & _ & _ & _ & Ha).
  assert (Epl : payload b = payload b') by (by rewrite E). rewrite Epl, Hpl. unfold area_read. destruct (k =? 0); [done|].
  cbn [of_option]. rewrite !bind_ok. destruct Ha as [->|[[z ->] _]]; [by rewrite A | by rewrite (ib_ext _ _ _ Hi)].
Qed.

(** What [etharp_find_entry] returns, and the state after it. *)
Inductive found (a np flags : Z) n : net P1 P2 X -> Z -> Prop :=
  | FoundMatch i e : 0 <= i < ARP_TABLE_SIZE -> arp_table n !! Z.to_nat i = Some e -> has_key a np e -> found a np flags n n i
  | FoundNone : no_match a np (arp_table n) ->
      Z.land flags ETHARP_FLAG_FIND_ONLY <> 0 \/ (Z.land flags ETHARP_FLAG_TRY_HARD = 0 /\ Forall in_use (arp_table n)) ->
      found a np flags n n ERR_MEM
  | FoundNew i s' old hw : no_match a np (arp_table n) -> Z.land flags ETHARP_FLAG_FIND_ONLY = 0 ->
      0 <= i < ARP_TABLE_SIZE -> victim (arp_table n) i -> arp_table n !! Z.to_nat i = Some old ->
      length hw = 6%nat -> bytes_ok hw -> shrunk (packets n) s' -> (~ in_use old -> s' = packets n) ->
      found a np flags n
        (set_table (<[Z.to_nat i := Entry None a (Some np) hw 0 ETHARP_STATE_EMPTY]> (arp_table n)) (set_packets s' n)) i.

(** The entry that was found may be filled in for its key. *)
Lemma claim_entry a np flags n n' i E E' e e' : found a np flags n n' i -> arp_ok n' E -> 0 <= i ->
  arp_table n' !! Z.to_nat i = Some e -> arp_ipaddr e' = a -> arp_netif e' = Some np -> entry_ok (netifs n') e' ->
  E' ⊎ of_q (arp_q e') = E ⊎ of_q (arp_q e) -> (forall p, arp_q e' = Some p -> is_head (packets n') p) ->
  arp_ok (set_table (<[Z.to_nat i := e']> (arp_table n')) n') E'.
Proof using Type.
  intros Hf Hn' Hi He Ha Hnp Hok HE Hh. apply (table_exchange n' E _ _ e); try done.
  destruct Hf as [i e0 Hr He0 (Hu & Ha0 & Hnp0)| |i s' old hw Hno _ Hr _ Hold _ _ _ _]; [| done |].
  - rewrite He in He0. injection He0 as <-. apply (table_update_key _ _ _ e); [apply Hn' | done | done |].
    intros _. split; [done|]. split; congruence.
  - apply (table_update _ _ _ e); [apply Hn' | done | done |]. intros _ j ej Hj Hej Huj [K1 K2].
    cbn [arp_table set_table set_packets] in Hej. rewrite list_lookup_insert_ne in Hej by done.
    apply (Forall_lookup_1 _ _ _ _ Hno Hej). split_and!; [done | congruence | congruence].
Qed.

Lemma found_frame a np flags n n' i : found a np flags n n' i ->
  netifs n' = netifs n /\ device n' = device n /\ etharp_cached_entry n' = etharp_cached_entry n /\ shrunk (packets n) (packets n').
Proof. by intros [| |i' s' old hw]. Qed.

Lemma found_entry a np flags n n' i E : found a np flags n n' i -> arp_ok n E -> 0 <= i ->
  i < ARP_TABLE_SIZE /\ exists e, arp_table n' !! Z.to_nat i = Some e /\ arp_ipaddr e = a /\ arp_netif e = Some np /\
    (in_use e -> n' = n) /\ (~ in_use e -> arp_ctime e = 0) /\ (forall e', <[Z.to_nat i := e']> (arp_table n') = <[Z.to_nat i := e']> (arp_table n)).
Proof using Type.
  intros [j e Hr He (Hu & Ha & Hnp)| |j s' old hw Hno Hf Hr Hv Hold Hl Hb Hsh Hs'] Hn Hi; [| done |].
  - split; [lia|]. exists e. by split_and!.
  - split; [lia|]. exists (Entry None a (Some np) hw 0 ETHARP_STATE_EMPTY). cbn [arp_table set_table set_packets].
    rewrite list_lookup_insert_eq by (by eapply lookup_lt_Some). split_and!; try done. intros e'. by rewrite list_insert_insert_eq.
Qed.

(** *** Packets and frames *)

Lemma output_frame_ok n E np nif p b l src dst type :
  arp_ok n E -> netifs n !! np = Some nif -> packet (pbufs (packets n)) (areas (packets n)) p ((p, b) :: l) ->
  is_head (packets n) p -> length src = 6%nat -> length dst = 6%nat -> bytes_ok src -> bytes_ok dst -> is_u16 type ->
  if header_room b SIZEOF_ETH_HDR then
    exists s' x' err, output_frame np p src dst type n = Ok (set_device x' (set_packets s' n), err) /\
      arp_ok (set_device x' (set_packets s' n)) E /\
      pbufs s' = <[p := grow_head SIZEOF_ETH_HDR b]> (pbufs (packets n)) /\
      (forall y, y <> p -> same_packet (packets n) s' y /\ areas s' !! y = areas (packets n) !! y) /\
      (total_len ((p, b) :: l) <= 1504 ->
         wire x' = wire (device n) ++ [frame_of dst src type (chain_data (areas (packets n)) ((p, b) :: l))])
  else output_frame np p src dst type n = Ok (n, ERR_BUF).
Proof.
  intros Hn Hnif Hp Hh Hls Hld Hbs Hbd Ht. pose proof Hn as [H1 H2 H3 H4 H5 H6]. unfold output_frame.
  rewrite (netif_at_some _ _ _ Hnif), bind_ok. destruct (H5 np nif Hnif) as [Hhl _].
  pose proof (ethernet_output_ok (packets n) (device n) _ np nif p b l src dst type H1 H6 Hp Hh Hhl Hls Hld Hbs Hbd Ht) as Ho.
  destruct (header_room b SIZEOF_ETH_HDR).
  - destruct Ho as (s' & x' & err & -> & Hs' & Hx' & Eps & Hoth & Hw). rewrite bind_ok. exists s', x', err. split_and!; try done.
    split; cbn; try done. intros y Hy. unfold is_head. rewrite Eps.
    rewrite (incoming_same_next _ p b _); [by apply H2 | by eapply packet_lookup | done].
  - rewrite Ho, bind_ok. by destruct n.
Qed.

Variable custom_free_function : ptr -> store P1 P2 -> res (store P1 P2).

Lemma free_packet_ok n E p : arp_ok n ({[+ p +]} ⊎ E) ->
  exists s', free_packet custom_free_function p n = Ok (set_packets s' n) /\ arp_ok (set_packets s' n) E /\ shrunk (packets n) s'.
Proof.
  intros [H1 H2 H3 H4 H5 H6]. destruct (free_ok custom_free_function _ _ p H1) as (s' & k & Ef & Hs' & Hsh); [multiset_solver|].
  replace ((({[+ p +]} ⊎ E) ⊎ queued (arp_table n)) ∖ {[+ p +]}) with (E ⊎ queued (arp_table n)) in Hs' by multiset_solver.
  exists s'. unfold free_packet. rewrite Ef, bind_ok. split_and!; [done | | done].
  split; cbn; try done. intros y Hy. eapply incoming_shrunk; [exact Hsh|]. by apply H2.
Qed.

(** An entry goes, and the packet that waits on it. *)
Lemma free_entry_ok n E i : arp_ok n E -> 0 <= i < ARP_TABLE_SIZE ->
  exists s', etharp_free_entry custom_free_function i n =
      Ok (set_table (<[Z.to_nat i := entry_freed]> (arp_table n)) (set_packets s' n)) /\
    arp_ok (set_table (<[Z.to_nat i := entry_freed]> (arp_table n)) (set_packets s' n)) E /\ shrunk (packets n) s'.
Proof.
  intros Hn Hi. destruct (entry_in_range n E i Hn Hi) as [e He]. unfold etharp_free_entry.
  rewrite (entry_some _ _ _ He), bind_ok by lia.
  assert (Ht : table_ok (netifs n) (<[Z.to_nat i := entry_freed]> (arp_table n))).
  { apply (table_update_key _ _ _ e); [apply Hn | done | apply entry_freed_ok | done]. }
  destruct (arp_q e) as [p|] eqn:Eq.
  - assert (H1 : arp_ok (set_table (<[Z.to_nat i := entry_freed]> (arp_table n)) n) ({[+ p +]} ⊎ E)).
    { apply (table_exchange n E _ _ e); [done | done | done | | done]. rewrite Eq. cbn [of_q arp_q entry_freed]. multiset_solver. }
    destruct (free_packet_ok _ _ _ H1) as (s' & Ef & Hn' & Hsh). exists s'. split_and!; [|exact Hn' | exact Hsh].
    unfold free_packet in *. cbn [packets set_table] in Ef. apply bind_inv in Ef as ([s2 k] & Ef & [= ->]).
    rewrite Ef, !bind_ok, (set_entry_some _ _ e), bind_ok by (done || lia).
    rewrite (set_entry_some _ _ (with_q None e)); [| cbn [arp_table set_table set_packets] | lia].
    + cbn [arp_table set_table set_packets]. by rewrite list_insert_insert_eq.
    + apply list_lookup_insert_eq. by eapply lookup_lt_Some.
  - exists (packets n). rewrite bind_ok, (set_entry_some _ _ e) by (done || lia).
    assert (En : set_packets (packets n) n = n) by (by destruct n). rewrite En. split_and!; [done | | done].
    apply set_table_ok; [done | | done]. by apply (queued_same n _ e).
Qed.

(** *** Looking up *)

(** The end of the lookup: the entry gets its key. *)
Lemma key_entry n E a np i e : arp_ok n E -> is_u32 a -> 0 <= i < ARP_TABLE_SIZE -> arp_table n !! Z.to_nat i = Some e -> ~ in_use e ->
  let n' := set_table (<[Z.to_nat i := Entry None a (Some np) (arp_ethaddr e) 0 ETHARP_STATE_EMPTY]> (arp_table n)) n in
  (_ ← lwip_assert "i < ARP_TABLE_SIZE" (i <? ARP_TABLE_SIZE);
   e ← entry i n;
   _ ← lwip_assert "arp_table[i].state == ETHARP_STATE_EMPTY" (is_empty (arp_state e));
   n ← set_entry i (fun e => with_ipaddr a e) n;
   n ← set_entry i (with_ctime 0) n;
   n ← set_entry i (with_netif (Some np)) n;
   Ok (n, i)) = Ok (n', i) /\ arp_ok n' E.
Proof using Type.
  intros Hn Ha Hi He Hu n'. pose proof (lookup_lt_Some _ _ _ He) as Hlt.
  assert (Hs : arp_state e = ETHARP_STATE_EMPTY) by (destruct (decide (arp_state e = ETHARP_STATE_EMPTY)); [done | by destruct Hu]).
  pose proof (table_entry n E _ e Hn He) as Hok. pose proof Hok as (Hl & Hb & _ & Hq). rewrite Hs in Hq.
  split.
  - destruct (Z.ltb_spec i ARP_TABLE_SIZE); [|lia]. cbn [lwip_assert]. rewrite bind_ok, (entry_some _ _ _ He), bind_ok, Hs by lia.
    change (is_empty ETHARP_STATE_EMPTY) with true. cbn [lwip_assert]. rewrite bind_ok, (set_entry_some _ _ e), bind_ok by (done || lia).
    rewrite (set_entry_some _ _ (with_ipaddr a e)), bind_ok by (cbn; (rewrite list_lookup_insert_eq by done) || lia; done).
    rewrite (set_entry_some _ _ (with_ctime 0 (with_ipaddr a e))), bind_ok
      by (cbn; (rewrite list_lookup_insert_eq by (rewrite ?length_insert; done)) || lia; done).
    unfold n', set_table. cbn. rewrite !list_insert_insert_eq. unfold with_netif, with_ctime, with_ipaddr. cbn. by rewrite Hs, Hq.
  - apply set_table_ok; [done | apply (queued_same n _ e); [done | cbn; by rewrite Hq]|].
    apply (table_update _ _ _ e); [apply Hn | done | | by intros []]. by split_and!.
Qed.

Lemma find_entry_ok n E a np flags : arp_ok n E -> is_u32 a ->
  exists n' i, etharp_find_entry custom_free_function (Some a) flags (Some np) n = Ok (n', i) /\ arp_ok n' E /\ found a np flags n n' i.
Proof.
  intros Hn Ha. pose proof (to_length _ _ (ao_table _ _ Hn)) as Hlen.
  destruct (sweep_spec a np (arp_table n) [] no_candidates) as (r & Es & Hr).
  { unfold candidates_of, first_empty, oldest. cbn. split_and!; left; split_and!; (done || constructor). }
  { eapply Forall_impl; [apply (to_entries _ _ (ao_table _ _ Hn))|]. intros e (_ & _ & _ & He) Hu.
    unfold in_use in Hu. destruct (arp_state e); (done || lia). }
  { cbn. lia. }
  cbn [length app] in *. unfold etharp_find_entry. change (Z.of_nat 0) with 0 in Es. rewrite Es, bind_ok. destruct r as [i|c].
  { destruct Hr as (Hi & e & He & Hk). exists n, i. split_and!; [done | done |]. apply (FoundMatch _ _ _ _ i e); [|done | done].
    apply lookup_lt_Some in He. unfold ARP_TABLE_SIZE. lia. }
  destruct Hr as [Hc Hno]. pose proof (candidates_victim _ _ Hc Hlen) as Hv.
  destruct (negb (Z.land flags ETHARP_FLAG_FIND_ONLY =? 0) || _) eqn:Hstop.
  { exists n, ERR_MEM. split_and!; [done | done |]. apply FoundNone; [done|].
    apply orb_true_iff in Hstop as [Hf%negb_true_iff%Z.eqb_neq|[He%Z.eqb_eq Ht%Z.eqb_eq]%andb_true_iff]; [by left | right].
    split; [done|]. rewrite He in Hv. by destruct Hv. }
  apply orb_false_iff in Hstop as [Hf%negb_false_iff%Z.eqb_eq _].
  assert (Hneg : forall i, 0 <= i -> (i <? 0) = false) by (intros i Hi; by apply Z.ltb_ge).
  assert (Hrecycle : forall i, 0 <= i -> victim (arp_table n) i -> Forall in_use (arp_table n) ->
    exists n' j, ('(n, j) ← (_ ← lwip_assert "i < ARP_TABLE_SIZE" (i <? ARP_TABLE_SIZE);
                             n ← etharp_free_entry custom_free_function i n; Ok (n, i));
        if j <? 0 then Ok (n, j) else
        _ ← lwip_assert "i < ARP_TABLE_SIZE" (j <? ARP_TABLE_SIZE);
        e ← entry j n;
        _ ← lwip_assert "arp_table[i].state == ETHARP_STATE_EMPTY" (is_empty (arp_state e));
        n ← set_entry j (fun e => with_ipaddr a e) n;
        n ← set_entry j (with_ctime 0) n;
        n ← set_entry j (with_netif (Some np)) n;
        Ok (n, j)) = Ok (n', j) /\ arp_ok n' E /\ found a np flags n n' j).
  { intros i Hi Hvi Hall. pose proof Hvi as [Hi10 _]. destruct (entry_in_range n E i Hn ltac:(lia)) as [old Hold].
    destruct (free_entry_ok n E i Hn ltac:(lia)) as (s' & -> & Hn1 & Hsh). rewrite bind_ok.
    destruct (Z.ltb_spec i ARP_TABLE_SIZE); [|lia]. cbn [lwip_assert]. rewrite !bind_ok, Hneg by done.
    set (n1 := set_table _ _) in *.
    assert (He1 : arp_table n1 !! Z.to_nat i = Some entry_freed).
    { cbn. apply list_lookup_insert_eq. by eapply lookup_lt_Some. }
    destruct (key_entry n1 E a np i entry_freed Hn1 Ha ltac:(lia) He1) as [Ek Hn2]; [by intros []|].
    destruct (Z.ltb_spec i ARP_TABLE_SIZE) in Ek; [|lia]. cbn [lwip_assert] in Ek. rewrite bind_ok in Ek. rewrite Ek.
    eexists _, i. split; [reflexivity|]. split; [exact Hn2|].
    unfold n1, set_table, set_packets. cbn [arp_table packets device netifs etharp_cached_entry arp_ethaddr entry_freed]. rewrite list_insert_insert_eq.
    apply (FoundNew a np flags n i s' old ethzero); try done; [repeat constructor; solve_u|].
    intros Hu. destruct Hu. by apply (Forall_lookup_1 _ _ _ _ Hall Hold). }
  unfold choose_entry. destruct (empty c <? ARP_TABLE_SIZE) eqn:Hec.
  - destruct Hv as (H0 & (e & He & Hu) & Hv). pose proof Hec as Hlt. apply Z.ltb_lt in Hlt. rewrite bind_ok, Hneg by done.
    destruct (key_entry n E a np (empty c) e Hn Ha ltac:(lia) He Hu) as [Ek Hn2]. rewrite Ek.
    eexists _, (empty c). split; [reflexivity|]. split; [exact Hn2|]. destruct (table_entry n E _ e Hn He) as (Hl & Hb & _).
    pose proof (FoundNew a np flags n (empty c) (packets n) e (arp_ethaddr e) Hno Hf ltac:(lia) Hv He Hl Hb) as Hfn.
    replace (set_packets (packets n) n) with n in Hfn by (by destruct n). apply Hfn; reflexivity.
  - destruct Hv as [Hall Hv]. destruct (old_stable c <? ARP_TABLE_SIZE).
    + destruct Hv as (H0 & (e & He & Hst) & Hv). rewrite (entry_some _ _ _ He), bind_ok by done.
      assert (Hq : arp_q e = None).
      { destruct (table_entry n E _ e Hn He) as (_ & _ & _ & Hok). destruct (arp_state e); try done; apply Hok. }
      rewrite bool_decide_true by done. cbn [lwip_assert]. rewrite !bind_ok. by apply Hrecycle.
    + destruct (old_pending c <? ARP_TABLE_SIZE).
      * destruct Hv as [H0 Hv]. rewrite bind_ok. by apply Hrecycle.
      * destruct Hv as (Hq & H0 & Hv). destruct (Z.ltb_spec (old_queue c) ARP_TABLE_SIZE); [|lia].
        rewrite bind_ok. by apply Hrecycle.
Qed.

(** *** Requests and replies *)

Variable fresh_byte : nat -> Z.
Hypothesis fresh_u8 : forall i, is_u8 (fresh_byte i).

Lemma etharp_raw_ok n E np nif es ed hs ips hd ipd op :
  arp_ok n E -> netifs n !! np = Some nif -> length es = 6%nat -> length ed = 6%nat -> length hs = 6%nat -> length hd = 6%nat ->
  bytes_ok es -> bytes_ok ed -> bytes_ok hs -> bytes_ok hd -> is_u32 ips -> is_u32 ipd -> is_u16 op ->
  exists n' r, etharp_raw custom_free_function fresh_byte np es ed hs ips hd ipd op n = Ok (n', r) /\ arp_ok n' E /\ quiet n n' /\
    if has_ram PBUF_LINK SIZEOF_ETHARP_HDR (packets n)
    then r = ERR_OK /\ wire (device n') = wire (device n) ++ [frame_of ed es ETHTYPE_ARP (arp_message op hs ips hd ipd)]
    else r = ERR_MEM /\ device n' = device n.
Proof.
  intros Hn Hnif Hles Hled Hlhs Hlhd Hbes Hbed Hbhs Hbhd Hips Hipd Hop. pose proof Hn as [H1 H2 H3 H4 H5 H6].
  unfold etharp_raw. rewrite (netif_at_some _ _ _ Hnif), bind_ok.
  destruct (ram_ok custom_free_function fresh_byte fresh_u8 (packets n) _ PBUF_LINK SIZEOF_ETHARP_HDR H1)
    as (s1 & [p|] & -> & Hr); [by unfold PBUF_LINK | by unfold SIZEOF_ETHARP_HDR | |]; rewrite bind_ok.
  2: { destruct Hr as (-> & Hs1 & Eps & Ear & Hk & Hrep). exists (set_packets s1 n), ERR_MEM. split_and!; [done | | by split | done | done].
       split; cbn; try done. intros y Hy. unfold is_head. rewrite Eps. by apply H2. }
  destruct Hr as (-> & (pa & Epa & Epool & km & Hkm & Emalloc) & Hs1 & Hp & Hsame & o & d & Ho & Eps & Ear & _). set (b := fresh_ram p o SIZEOF_ETHARP_HDR) in *.
  assert (Hb : pbufs s1 !! p = Some b) by (by rewrite Eps, lookup_insert_eq).
  assert (Hh : is_head s1 p) by (apply (own_head s1 _ p b (so_ref _ _ Hs1)); [done | multiset_solver | done]).
  assert (Hap : areas (packets n) !! p = None).
  { apply (no_stray_area _ _ _ H1 Hp). intros z ->. by destruct (ri_kind _ _ (so_ref _ _ Hs1) _ _ Hb). }
  rewrite (get_some _ _ _ Hb), bind_ok. change (SIZEOF_ETHARP_HDR <=? len b) with true. cbn [lwip_assert]. rewrite bind_ok.
  destruct (H5 np nif Hnif) as (Hhl & _).
  destruct (write_etharp_hdr_ok s1 _ p b nif hs ips hd ipd op Hs1 Hb Hh) as (s2 & Ew2 & Hs2 & Eps2 & Hd2 & Hoth2); try done.
  { by exists o. }
  rewrite Ew2, bind_ok. set (n2 := set_packets s2 n).
  assert (Hinc : forall y, incoming (pbufs s2) y = incoming (pbufs (packets n)) y).
  { intros y. rewrite Eps2, Eps, incoming_insert_fresh by done. unfold points_to. cbn [next b fresh_ram pbuf_init_alloced_pbuf].
    by rewrite decide_False. }
  assert (Hn2 : arp_ok n2 ({[+ p +]} ⊎ E)).
  { split; cbn [packets arp_table netifs etharp_cached_entry n2 set_packets]; try done; [by rewrite <- (assoc_L (⊎))|]. intros y Hy. unfold is_head. rewrite Hinc. by apply H2. }
  assert (Hb2 : pbufs s2 !! p = Some b) by by rewrite Eps2.
  assert (Hpk : packet (pbufs s2) (areas s2) p [(p, b)]).
  { destruct (store_packet s2 _ p Hs2) as (l & Hl); [by rewrite Hb2|]. destruct l as [|[y c] l]; [by apply packet_nil in Hl|].
    pose proof (packet_cons _ _ _ _ _ _ Hl) as (-> & _ & _ & _ & _ & _ & _ & _ & Hnx). pose proof (packet_lookup _ _ _ _ Hl) as Hc.
    rewrite Hb2 in Hc. injection Hc as <-. by destruct Hnx as [[_ ->]|(z & Hz & _)]. }
  pose proof (output_frame_ok n2 _ np nif p b [] es ed ETHTYPE_ARP Hn2 Hnif Hpk) as Hout.
  unfold b in Hout at 1. rewrite (fresh_ram_room p o Ho) in Hout. fold b in Hout.
  destruct Hout as (s3 & x3 & err & Eo & Hn3 & Eps3 & Hoth3 & Hw); try done. { change (is_head s2 p). unfold is_head. by rewrite Eps2. }
  rewrite Eo, bind_ok. set (n3 := set_device x3 (set_packets s3 n2)) in *.
  pose proof (ao_store _ _ Hn3) as Hs3. cbn [packets arp_table n3 n2 set_device set_packets] in Hs3. rewrite <- (assoc_L (⊎)) in Hs3.
  destruct (free_single custom_free_function s3 _ p (grow_head SIZEOF_ETH_HDR b) Hs3) as (s4 & k & Ef & Hs4 & Eps4 & Ear4 & Hsh4 & Hfree4); [| done | done |].
  { rewrite Eps3. apply lookup_insert_eq. }
  assert (Efinal : pbufs s4 = pbufs (packets n)).
  { rewrite Eps4, Eps3. cbn [packets n2 set_packets]. rewrite Eps2, Eps, insert_insert_eq. by rewrite delete_insert_id. }
  assert (H13 : same_alloc s1 s3).
  { apply write_etharp_hdr_alloc in Ew2. apply output_frame_alloc in Eo. by transitivity s2. }
  assert (Hheap : forall l, heap_rep (heap_mem (packets n)) l -> heap_rep (heap_mem s4) l).
  { intros l Hl. destruct (mem_malloc_free _ l km _ _ Hl Hkm Emalloc) as (_ & _ & _ & h2 & Ef2 & Hh2).
    specialize (Hfree4 pa Epa). rewrite (sa_heap _ _ H13), Ef2 in Hfree4. by injection Hfree4 as <-. }
  assert (Hkeeps : keeps (packets n) s4).
  { split; [|intros l Hl; exists l; split; [by apply Hheap | done]]. intros L HL.
    apply (kp_pool _ _ (sh_keeps _ _ Hsh4)), (kp_pool _ _ (same_alloc_keeps _ _ H13)).
    destruct HL as (U & HU & HUL & Hno). exists U. rewrite Epool. split; [done|].
    assert (Hx : forall x, pbufs s1 !! PoolPtr x = pbufs (packets n) !! PoolPtr x) by (intros x; by rewrite Eps, Epa, lookup_insert_ne).
    by split; [intros x; rewrite HUL, Hx | intros x Hx1; rewrite Hx; apply Hno]. }
  unfold free_packet. cbn [packets n3 set_device set_packets]. rewrite Ef, !bind_ok.
  eexists _, _. split; [reflexivity|]. split_and!; [split | split | done |];
    cbn [packets device arp_table netifs etharp_cached_entry set_packets set_device n3 n2]; try done.
  - intros y Hy. unfold is_head. rewrite Efinal. by apply H2.
  - exact (ao_device _ _ Hn3).
  - rewrite Ear4. apply map_eq. intros y. destruct (decide (p = y)) as [<-|Hne]; [by rewrite lookup_delete_eq|].
    rewrite lookup_delete_ne by done. destruct (Hoth3 y ltac:(done)) as [_ ->]. cbn [packets n2 set_packets].
    rewrite Hoth2, Ear by done. by rewrite lookup_insert_ne.
  - rewrite Hw by done. cbn [packets n2 set_packets device]. by rewrite chain_data_single, Hd2.
Qed.

Definition request_frame (nif : netif) (ip : Z) (dst : list Z) : list Z :=
  frame_of dst (hwaddr nif) ETHTYPE_ARP (arp_message ARP_REQUEST (hwaddr nif) (ip_addr nif) ethzero ip).

Lemma request_ok n E np nif ip dst : arp_ok n E -> netifs n !! np = Some nif -> is_u32 ip -> length dst = 6%nat -> bytes_ok dst ->
  exists n' r, etharp_request_dst custom_free_function fresh_byte np ip dst n = Ok (n', r) /\ arp_ok n' E /\ quiet n n' /\
    if has_ram PBUF_LINK SIZEOF_ETHARP_HDR (packets n)
    then r = ERR_OK /\ wire (device n') = wire (device n) ++ [request_frame nif ip dst] else r = ERR_MEM /\ device n' = device n.
Proof.
  intros Hn Hnif Hip Hl Hb. destruct (ao_netifs _ _ Hn np nif Hnif) as (_ & Hlh & Hbh & Hu & _).
  unfold etharp_request_dst. rewrite (netif_at_some _ _ _ Hnif), bind_ok.
  apply (etharp_raw_ok n E np nif); try done. repeat constructor; solve_u.
Qed.

End Lemmas.
