(* ===== verification/EthArpOps.v ===== *)
(** * The operations of the ARP module

    What the functions of etharp.c do to a well-formed state ([arp_ok] of
    EthArp.v): every operation succeeds, keeps the invariant and the
    references, and leaves the packets alone that do not wait in the table. *)

From stdpp Require Import gmultiset.
From S2P Require Import Prelude Strings Onescomp Def Ip4Addr Alloc Memp Mem Pbuf PbufRef PbufAlloc PbufStore Ethernet EthArp.

(** ** Specifications *)

(** The addresses that are never resolved. *)
Definition unresolvable (a : Z) (nif : netif) : bool :=
  ip4_addr_isany a || ip4_addr_isbroadcast a nif || ip4_addr_ismulticast a.

(** An entry that has just been learnt. *)
Definition fresh_entry (a np : Z) (hw : list Z) : etharp_entry := Entry None a (Some np) hw 0 ETHARP_STATE_STABLE.

Section Ops.
Context {P1 P2 : Type} `{!PoolAlloc P1} `{!PoolAlloc P2} {X : Type} `{!LinkDriver X}.
Implicit Type n : net P1 P2 X.
Implicit Type s : store P1 P2.
#[local] Set Default Proof Using "Type*".

(** The packet at [p] goes out as one frame, unless there is no room for the
    header in front of it. *)
Definition transmits (x x' : X) s (p : ptr) (dst src : list Z) : Prop :=
  forall b l, packet (pbufs s) (areas s) p ((p, b) :: l) ->
  if header_room b SIZEOF_ETH_HDR
  then total_len ((p, b) :: l) <= 1504 -> wire x' = wire x ++ [frame_of dst src ETHTYPE_IP (chain_data (areas s) ((p, b) :: l))]
  else x' = x.

(** The result of [etharp_update_arp_entry] for an address that can be resolved. *)
Inductive updated (np a : Z) (hw : list Z) (flags : Z) (nif : netif) n : net P1 P2 X -> Z -> Prop :=
  | UpdatedNot n' : found a np flags n n' ERR_MEM -> updated np a hw flags nif n n' ERR_MEM
  | UpdatedEntry n1 n' i e : found a np flags n n1 i -> 0 <= i < ARP_TABLE_SIZE ->
      arp_table n1 !! Z.to_nat i = Some e ->
      arp_table n' = <[Z.to_nat i := fresh_entry a np hw]> (arp_table n) ->
      match arp_q e with
      | None => n' = set_table (arp_table n') n1
      | Some p => n1 = n /\ transmits (device n) (device n') (packets n) p hw (hwaddr nif)
      end -> updated np a hw flags nif n n' ERR_OK.

(** The head of a packet and the chain behind it. *)
Lemma head_packet s E p : store_ok s E -> is_Some (pbufs s !! p) -> exists b l, packet (pbufs s) (areas s) p ((p, b) :: l).
Proof using Type.
  intros Hs Hp. destruct (store_packet s E p Hs Hp) as ([|[y b] l] & Hl); [by apply packet_nil in Hl|].
  pose proof (packet_cons _ _ _ _ _ _ Hl) as (-> & _). by exists b, l.
Qed.

(** An entry's packet leaves the table. *)
Lemma table_release n E i e e' p : arp_ok n E -> 0 <= i -> arp_table n !! Z.to_nat i = Some e -> arp_q e = Some p ->
  entry_ok (netifs n) e' -> arp_q e' = None -> same_key e' e -> in_use e ->
  arp_ok (set_table (<[Z.to_nat i := e']> (arp_table n)) n) ({[+ p +]} ⊎ E).
Proof using Type.
  intros Hn Hi He Hq Hok Hq' Hk Hu. apply (table_exchange n E _ _ e); [done | done | | | by rewrite Hq'].
  - apply (table_update_key _ _ _ e); [apply Hn | done | done | by split].
  - rewrite Hq, Hq'. cbn [of_q]. multiset_solver.
Qed.

(** A packet goes out and comes back, with the header still in front of it. *)
Lemma transmit_ok n E np nif p dst : arp_ok n E -> is_Some (pbufs (packets n) !! p) -> netifs n !! np = Some nif -> is_head (packets n) p ->
  length dst = 6%nat -> bytes_ok dst ->
  exists n' err, output_frame np p (hwaddr nif) dst ETHTYPE_IP n = Ok (n', err) /\ arp_ok n' E /\
    arp_table n' = arp_table n /\ netifs n' = netifs n /\ etharp_cached_entry n' = etharp_cached_entry n /\
    intact_but {[+ p +]} (packets n) (packets n') /\ (forall y, y <> p -> same_packet (packets n) (packets n') y) /\ transmits (device n) (device n') (packets n) p dst (hwaddr nif).
Proof using Type.
  intros Hn Hsome Hnif Hh Hld Hbd. pose proof Hn as [H1 _ _ _ H5 _]. destruct (H5 np nif Hnif) as (_ & Hlh & Hbh & _).
  destruct (head_packet (packets n) _ p H1) as (b & l & Hp); [done|].
  pose proof (packet_lookup _ _ _ _ Hp) as Hb.
  pose proof (output_frame_ok n _ np nif p b l (hwaddr nif) dst ETHTYPE_IP Hn Hnif Hp Hh Hlh Hld Hbh Hbd ltac:(by unfold ETHTYPE_IP)) as Ho.
  assert (Hdet : forall x', (if header_room b SIZEOF_ETH_HDR
      then total_len ((p, b) :: l) <= 1504 ->
        wire x' = wire (device n) ++ [frame_of dst (hwaddr nif) ETHTYPE_IP (chain_data (areas (packets n)) ((p, b) :: l))]
      else x' = device n) -> transmits (device n) x' (packets n) p dst (hwaddr nif)).
  { intros x' Hx b2 l2 Hp2. pose proof (chain_at_det _ _ _ _ (pk_chain _ _ _ _ Hp) (pk_chain _ _ _ _ Hp2)) as [= <- <-]. done. }
  destruct (header_room b SIZEOF_ETH_HDR).
  - destruct Ho as (s' & x' & err & Eo & Hn' & Eps & Hoth & Hw). eexists _, err. split; [exact Eo|].
    split_and!; try done; [| by intros y Hy; apply Hoth | by apply Hdet]. split.
    + intros y b' Hy Hb'. assert (Hne : y <> p) by (intros ->; apply Hy; by apply gmultiset_elem_of_singleton).
      cbn [packets set_device set_packets] in *. rewrite Eps, lookup_insert_ne in Hb' by done.
      exists b'. split_and!; [done | by destruct b' | by apply Hoth].
    + intros z. apply Hoth. intros <-. by destruct (ri_kind _ _ (so_ref _ _ H1) _ _ Hb).
  - exists n, ERR_BUF. split_and!; try done; [apply shrunk_intact; reflexivity | intros; apply same_packet_refl | by apply Hdet].
Qed.

(** Four writes to one entry. *)
Lemma learn_entry (R : Type) n i e np hw (k : net P1 P2 X -> res R) : arp_table n !! Z.to_nat i = Some e -> 0 <= i ->
  (n ← set_entry i (with_state ETHARP_STATE_STABLE) n;
   n ← set_entry i (with_netif (Some np)) n;
   n ← set_entry i (with_ethaddr hw) n;
   n ← set_entry i (with_ctime 0) n;
   k n) =
  k (set_table (<[Z.to_nat i := Entry (arp_q e) (arp_ipaddr e) (Some np) hw 0 ETHARP_STATE_STABLE]> (arp_table n)) n).
Proof using Type.
  intros He Hi. pose proof (lookup_lt_Some _ _ _ He) as Hlt.
  rewrite (set_entry_some _ _ e), bind_ok by done.
  do 3 (erewrite set_entry_some, bind_ok by (done || (cbn [arp_table set_table]; apply list_lookup_insert_eq; rewrite ?length_insert; done))).
  unfold set_table. cbn [arp_table]. by rewrite !list_insert_insert_eq.
Qed.

Variable custom_free_function : ptr -> store P1 P2 -> res (store P1 P2).


Lemma update_ok n E np nif a hw flags : arp_ok n E -> netifs n !! np = Some nif -> is_u32 a -> length hw = 6%nat -> bytes_ok hw ->
  exists n' r, etharp_update_arp_entry custom_free_function np a hw flags n = Ok (n', r) /\ arp_ok n' E /\
    netifs n' = netifs n /\ etharp_cached_entry n' = etharp_cached_entry n /\
    intact_but (queued (arp_table n)) (packets n) (packets n') /\ keeps (packets n) (packets n') /\
    if unresolvable a nif then n' = n /\ r = ERR_ARG else updated np a hw flags nif n n' r.
Proof.
  intros Hn Hnif Ha Hlh Hbh. unfold etharp_update_arp_entry, unresolvable. rewrite (netif_at_some _ _ _ Hnif), bind_ok.
  destruct (ao_netifs _ _ Hn np nif Hnif) as (Hhl & _). unfold ETH_HWADDR_LEN. rewrite Hhl, Z.eqb_refl. cbn [lwip_assert]. rewrite bind_ok.
  destruct (_ || ip4_addr_ismulticast a).
  { exists n, ERR_ARG. split_and!; try done. apply shrunk_intact; reflexivity. }
  destruct (find_entry_ok custom_free_function n E a np flags Hn Ha) as (n1 & i & -> & Hn1 & Hf). rewrite bind_ok.
  destruct (found_frame _ _ _ _ _ _ Hf) as (F1 & F2 & F3 & Hsh).
  destruct (Z.ltb_spec i 0) as [Hneg|Hi].
  { exists n1, i. split_and!; try done; [by apply shrunk_intact | apply Hsh |]. destruct Hf; [lia | by constructor; constructor | lia]. }
  destruct (found_entry _ _ _ _ _ _ E Hf Hn Hi) as (Hi10 & e & He & Hea & Hen & Hold & Hct & Hins).
  rewrite (learn_entry _ _ _ _ _ _ _ He Hi), Hea. pose proof (lookup_lt_Some _ _ _ He) as Hlt.
  set (n2 := set_table _ n1).
  assert (He2 : arp_table n2 !! Z.to_nat i = Some (Entry (arp_q e) a (Some np) hw 0 ETHARP_STATE_STABLE)) by (by apply list_lookup_insert_eq).
  rewrite (entry_some _ _ _ He2 Hi), bind_ok. cbn [arp_q].
  assert (Hok : entry_ok (netifs n1) (fresh_entry a np hw)).
  { unfold entry_ok. cbn. split_and!; try done. exists np. split; [done|]. by rewrite F1, Hnif. }
  destruct (arp_q e) as [p|] eqn:Hq.
  2: { exists n2, ERR_OK. split_and!; try done.
       - apply (claim_entry a np flags n n1 i E E e (fresh_entry a np hw)); try done. by rewrite Hq.
       - by apply shrunk_intact.
       - apply Hsh.
       - apply (UpdatedEntry _ _ _ _ _ _ n1 _ i e); try done; [apply Hins | by rewrite Hq]. }
  assert (Hu : in_use e).
  { intros Hs. pose proof (table_entry n1 E _ e Hn1 He) as (_ & _ & _ & Hk). rewrite Hs in Hk. congruence. }
  specialize (Hold Hu) as ->. 
  assert (Hn3 : arp_ok (set_table (<[Z.to_nat i := fresh_entry a np hw]> (arp_table n)) n) ({[+ p +]} ⊎ E)).
  { by apply (table_release n E i e). }
  rewrite (set_entry_some _ _ _ _ He2 Hi), bind_ok. unfold with_q at 1. cbn [arp_ipaddr arp_netif arp_ethaddr arp_ctime arp_state].
  set (n3 := set_table (<[Z.to_nat i := fresh_entry a np hw]> (arp_table n)) n) in *.
  assert (E3 : set_table (<[Z.to_nat i := Entry None a (Some np) hw 0 ETHARP_STATE_STABLE]> (arp_table n2)) n2 = n3).
  { unfold n2, n3, set_table. cbn. by rewrite list_insert_insert_eq. }
  rewrite E3.
  assert (Hpq : p ∈ queued (arp_table n)) by (by eapply queued_elem).
  destruct (transmit_ok n3 _ np nif p hw Hn3 ltac:(apply (ri_ext _ _ (so_ref _ _ (ao_store _ _ Hn3))); multiset_solver) Hnif (ao_heads _ _ Hn p Hpq) Hlh Hbh)
    as (n4 & err & Et & Hn4 & T1 & T2 & T3 & Hint & _ & Htr). rewrite Et, bind_ok. apply output_frame_alloc in Et.
  destruct (free_packet_ok custom_free_function n4 E p Hn4) as (s5 & -> & Hn5 & Hsh5). rewrite bind_ok.
  exists (set_packets s5 n4), ERR_OK. split_and!; try done.
  - apply (intact_trans _ _ (packets n4)); [|by apply shrunk_intact].
    apply (intact_weaken {[+ p +]} _ _ _ Hint). by intros y ->%gmultiset_elem_of_singleton.
  - transitivity (packets n4); [|apply Hsh5]. by apply (same_alloc_keeps (packets n3)).
  - apply (UpdatedEntry _ _ _ _ _ _ n _ i e); try done. by rewrite Hq.
Qed.

(** *** The timer *)

(** An entry after one tick. *)
Definition aged (e : etharp_entry) : etharp_entry :=
  if is_empty (arp_state e) then e else
  let c := arp_ctime e + 1 in
  if (ARP_MAXAGE <=? c) || is_pending (arp_state e) && (ARP_MAXPENDING <=? c) then entry_freed else
  with_state (match arp_state e with
              | ETHARP_STATE_STABLE_REREQUESTING_1 => ETHARP_STATE_STABLE_REREQUESTING_2
              | ETHARP_STATE_STABLE_REREQUESTING_2 => ETHARP_STATE_STABLE
              | st => st
              end) (with_ctime c e).

(** The requests that are due for an entry. *)
Definition requests_for (nets : gmap Z netif) (e : etharp_entry) : list (list Z) :=
  if is_pending (arp_state (aged e)) then
    match np ← arp_netif e; nets !! np with
    | Some nif => [request_frame nif (arp_ipaddr e) ethbroadcast]
    | None => []
    end
  else [].

(** The state after a pass over some entries: only the wire and the allocators
    change, apart from the entries. *)
Record passed n (E : gmultiset ptr) (t : list etharp_entry) (fs : list (list Z)) n' : Prop := Passed
  { ps_ok : arp_ok n' E;
    ps_table : arp_table n' = t;
    ps_netifs : netifs n' = netifs n;
    ps_cached : etharp_cached_entry n' = etharp_cached_entry n;
    ps_intact : intact_but ∅ (packets n) (packets n');
    ps_wire : exists fs', fs' `sublist_of` fs /\ wire (device n') = wire (device n) ++ fs' }.

(** A loop over the table that does [f] to every entry. *)
Lemma for_entries_ok (f : etharp_entry -> etharp_entry) (g : gmap Z netif -> etharp_entry -> list (list Z)) body E :
  (forall n i e, arp_ok n E -> 0 <= i < ARP_TABLE_SIZE -> arp_table n !! Z.to_nat i = Some e ->
     exists n', body i n = Ok n' /\ passed n E (<[Z.to_nat i := f e]> (arp_table n)) (g (netifs n) e) n') ->
  forall k n, arp_ok n E -> (k <= 10)%nat ->
  exists n', for_entries k body n = Ok n' /\
    passed n E (take (10 - k) (arp_table n) ++ (f <$> drop (10 - k) (arp_table n)))
      (concat (g (netifs n) <$> drop (10 - k) (arp_table n))) n'.
Proof using Type.
  intros Hbody k. induction k as [|k IH]; intros n Hn Hk; cbn [for_entries]; pose proof (to_length _ _ (ao_table _ _ Hn)) as Hl.
  - exists n. split; [done|]. rewrite drop_ge, take_ge, app_nil_r by lia. split; try done; [apply shrunk_intact; reflexivity|].
    exists []. by rewrite app_nil_r.
  - set (i := ARP_TABLE_SIZE - Z.of_nat (S k)). assert (Hi : Z.to_nat i = (10 - S k)%nat) by (unfold i, ARP_TABLE_SIZE; lia).
    destruct (entry_in_range n E i Hn) as [e He]; [unfold i, ARP_TABLE_SIZE; lia|].
    destruct (Hbody n i e Hn) as (n1 & -> & [H1 H2 H3 H4 H5 (fs1 & F1 & W1)]); [unfold i, ARP_TABLE_SIZE; lia | done |].
    rewrite bind_ok. destruct (IH n1 H1 ltac:(lia)) as (n2 & -> & [G1 G2 G3 G4 G5 (fs2 & F2 & W2)]).
    rewrite Hi in *. rewrite H2, H3 in *. assert (Hd : drop (10 - S k) (arp_table n) = e :: drop (10 - k) (arp_table n)).
    { rewrite (drop_S _ e) by done. do 2 f_equal. lia. }
    assert (Hd' : drop (10 - k) (<[(10 - S k)%nat := f e]> (arp_table n)) = drop (10 - k) (arp_table n)) by (apply drop_insert_lt; lia).
    rewrite Hd' in *. rewrite Hd. cbn [fmap list_fmap concat].
    exists n2. split; [done|]. split; try done; try congruence.
    + rewrite G2. assert (Ht : take (10 - k) (<[(10 - S k)%nat := f e]> (arp_table n)) = take (10 - S k) (arp_table n) ++ [f e]).
      { replace (10 - k)%nat with (S (10 - S k)) by lia. rewrite (take_S_r _ _ (f e)) by (apply list_lookup_insert_eq; lia).
        by rewrite take_insert_ge by lia. }
      by rewrite Ht, <- app_assoc.
    + by eapply intact_trans.
    + exists (fs1 ++ fs2). split; [by apply sublist_app|]. by rewrite W2, W1, app_assoc.
Qed.

(** *** Incoming messages *)

(** The pbuf [p] has one reference and starts with the message [m]. *)
Definition message_at s (p : ptr) (m : list Z) : Prop :=
  exists b o d, pbufs s !! p = Some b /\ payload b = Some (p, o) /\ 0 <= o /\ areas s !! p = Some d /\
    o + length m <= length d /\ window d o (length m) = m.
Definition sole_message s (p : ptr) (m : list Z) : Prop :=
  message_at s p m /\ exists b, pbufs s !! p = Some b /\ ref b = 1.

(** *** The passes of the timer and of the cleanup *)

Lemma passed_shrunk n E t fs s' : arp_ok (set_table t (set_packets s' n)) E -> shrunk (packets n) s' ->
  passed n E t fs (set_table t (set_packets s' n)).
Proof.
  intros Hn Hs. split; try done; [by apply shrunk_intact|]. exists []. split; [apply sublist_nil_l | by rewrite app_nil_r].
Qed.

Lemma passed_table n E t fs : arp_ok (set_table t n) E -> passed n E t fs (set_table t n).
Proof.
  intros Hn. replace (set_table t n) with (set_table t (set_packets (packets n) n)) in * by (by destruct n). by apply passed_shrunk.
Qed.

Lemma free_entry_same_q n i e e' : arp_table n !! Z.to_nat i = Some e -> 0 <= i -> arp_q e' = arp_q e ->
  etharp_free_entry custom_free_function i (set_table (<[Z.to_nat i := e']> (arp_table n)) n) = etharp_free_entry custom_free_function i n.
Proof.
  intros He Hi Hq. pose proof (lookup_lt_Some _ _ _ He) as Hlt. unfold etharp_free_entry.
  rewrite (entry_some _ _ _ He), (entry_some _ _ e'), !bind_ok by (done || by apply list_lookup_insert_eq). rewrite Hq.
  destruct (arp_q e) as [p|].
  - unfold free_packet. cbn [packets set_table]. destruct (pbuf_free custom_free_function (Some p) (packets n)) as [[s k]|]; [|done].
    rewrite !bind_ok. rewrite (set_entry_some (set_packets s n) i e), (set_entry_some (set_packets s (set_table _ n)) i e')
      by (done || by apply list_lookup_insert_eq).
    rewrite !bind_ok. rewrite !(set_entry_some _ i (with_q None _)) by (done || (cbn; apply list_lookup_insert_eq; by rewrite ?length_insert)).
    unfold set_table. cbn. by rewrite !list_insert_insert_eq.
  - rewrite !bind_ok, (set_entry_some n i e), (set_entry_some _ i e') by (done || by apply list_lookup_insert_eq).
    unfold set_table. cbn. by rewrite list_insert_insert_eq.
Qed.

Lemma freed_passed n E i e fs : arp_ok n E -> 0 <= i < ARP_TABLE_SIZE -> arp_table n !! Z.to_nat i = Some e ->
  exists n', etharp_free_entry custom_free_function i n = Ok n' /\ passed n E (<[Z.to_nat i := entry_freed]> (arp_table n)) fs n'.
Proof.
  intros Hn Hi He. destruct (free_entry_ok custom_free_function n E i Hn Hi) as (s' & -> & Hn' & Hsh).
  eexists. split; [reflexivity|]. by apply passed_shrunk.
Qed.

Lemma cleanup_entry_ok np n i e E : arp_ok n E -> 0 <= i < ARP_TABLE_SIZE -> arp_table n !! Z.to_nat i = Some e ->
  exists n', cleanup_entry custom_free_function np i n = Ok n' /\
    passed n E (<[Z.to_nat i := if bool_decide (in_use e /\ arp_netif e = Some np) then entry_freed else e]> (arp_table n)) [] n'.
Proof.
  intros Hn Hi He. unfold cleanup_entry. rewrite (entry_some _ _ _ He), bind_ok by lia.
  assert (negb (is_empty (arp_state e)) && bool_decide (arp_netif e = Some np) = bool_decide (in_use e /\ arp_netif e = Some np)) as ->.
  { unfold is_empty. rewrite <- bool_decide_not, <- bool_decide_and. by apply bool_decide_ext. }
  destruct (bool_decide _); [by apply freed_passed with e|].
  exists n. split; [done|]. rewrite list_insert_id by done. split; try done; [apply shrunk_intact; reflexivity|].
  exists []. by rewrite app_nil_r.
Qed.

(** Cleaning up: the entries of the interface are gone, the others stay. *)
Lemma cleanup_ok np n E : arp_ok n E ->
  exists n', etharp_cleanup_netif custom_free_function np n = Ok n' /\ arp_ok n' E /\ netifs n' = netifs n /\
    intact_but ∅ (packets n) (packets n') /\ wire (device n') = wire (device n) /\
    arp_table n' = (fun e => if bool_decide (in_use e /\ arp_netif e = Some np) then entry_freed else e) <$> arp_table n.
Proof.
  intros Hn. destruct (for_entries_ok _ (fun _ _ => []) _ E (fun n i e => cleanup_entry_ok np n i e E) 10 n Hn) as (n' & Ef & Hp); [lia|].
  unfold etharp_cleanup_netif. change (Z.to_nat ARP_TABLE_SIZE) with 10%nat. rewrite Ef. exists n'.
  destruct Hp as [H1 H2 H3 _ H5 (fs & F & W)]. split_and!; try done.
  rewrite W. cbn [drop Nat.sub] in F. destruct fs as [|f fs]; [apply app_nil_r|].
  exfalso. apply sublist_length in F. clear -F. induction (arp_table n); [cbn in F; lia | done].
Qed.

Variable fresh_byte : nat -> Z.
Hypothesis fresh_u8 : forall i, is_u8 (fresh_byte i).

Lemma tmr_entry_ok n i e E : arp_ok n E -> 0 <= i < ARP_TABLE_SIZE -> arp_table n !! Z.to_nat i = Some e ->
  exists n', tmr_entry custom_free_function fresh_byte i n = Ok n' /\
    passed n E (<[Z.to_nat i := aged e]> (arp_table n)) (requests_for (netifs n) e) n'.
Proof.
  intros Hn Hi He. pose proof (table_entry n E _ e Hn He) as (Hl & Hb & Hip & Hst). pose proof (lookup_lt_Some _ _ _ He) as Hlt.
  unfold tmr_entry, aged, requests_for, aged. rewrite (entry_some _ _ _ He), bind_ok by lia.
  destruct (is_empty (arp_state e)) eqn:Hem.
  { exists n. split; [done|]. rewrite list_insert_id by done. split; try done; [apply shrunk_intact; reflexivity|].
    exists []. split; [apply sublist_nil_l | by rewrite app_nil_r]. }
  assert (Hu : in_use e) by (by apply in_use_empty).
  assert (Hc : 0 <= arp_ctime e < ARP_MAXAGE /\ exists np nif, arp_netif e = Some np /\ netifs n !! np = Some nif).
  { unfold in_use in Hu. destruct (arp_state e); try done; destruct Hst as ((np & Hnp & nif & Hnif) & ? & _); (split; [done | by exists np, nif]). }
  destruct Hc as (Hc & np & nif & Hnp & Hnif). unfold ARP_MAXAGE in *.
  rewrite (set_entry_some _ _ e), bind_ok, u16_id by (done || lia || solve_u). set (e1 := with_ctime (arp_ctime e + 1) e).
  assert (He1 : arp_table (set_table (<[Z.to_nat i := e1]> (arp_table n)) n) !! Z.to_nat i = Some e1) by (by apply list_lookup_insert_eq).
  rewrite (entry_some _ _ _ He1), bind_ok by lia. cbn [arp_ctime arp_state e1 with_ctime].
  destruct (_ || _) eqn:Hexp.
  { rewrite (free_entry_same_q n i e) by (done || lia). destruct (freed_passed n E i e [] Hn Hi He) as (n' & -> & Hp). exists n'. by split. }
  apply orb_false_iff in Hexp as [Hage Hpend]. apply Z.leb_gt in Hage.
  assert (Hkeep : forall st, st <> ETHARP_STATE_EMPTY -> (arp_state e = ETHARP_STATE_PENDING <-> st = ETHARP_STATE_PENDING) ->
    arp_ok (set_table (<[Z.to_nat i := with_state st e1]> (arp_table n)) n) E).
  { intros st Hne Hpd. apply set_table_ok; [done | by apply (queued_same n _ e)|].
    apply (table_update_key _ _ _ e); [apply Hn | done | | by intros _; split].
    split_and!; try done. cbn [arp_state arp_netif arp_ctime arp_q with_state with_ctime e1].
    assert (Hgoal : (exists np0, arp_netif e = Some np0 /\ is_Some (netifs n !! np0)) /\ 0 <= arp_ctime e + 1 < ARP_MAXAGE).
    { split; [exists np; by rewrite Hnif | unfold ARP_MAXAGE; lia]. }
    destruct Hgoal as [Hg1 Hg2]. destruct (decide (arp_state e = ETHARP_STATE_PENDING)) as [Hp|Hp].
    - apply Hpd in Hp as Hp'. subst st. rewrite Hp in Hpend. change (is_pending ETHARP_STATE_PENDING) with true in *.
      cbn [andb] in Hpend. apply Z.leb_gt in Hpend. split_and!; (done || lia).
    - assert (Hst' : st <> ETHARP_STATE_PENDING) by tauto. unfold in_use in Hu.
      assert (Hq : arp_q e = None) by (destruct (arp_state e); try done; apply Hst). destruct st; try done; split_and!; (done || lia). }
  assert (He1' : forall st, set_entry i (with_state st) (set_table (<[Z.to_nat i := e1]> (arp_table n)) n) =
    Ok (set_table (<[Z.to_nat i := with_state st e1]> (arp_table n)) n)).
  { intros st. rewrite (set_entry_some _ _ _ _ He1) by lia. unfold set_table. cbn. by rewrite list_insert_insert_eq. }
  assert (Hsame : with_state (arp_state e) e1 = e1) by done.
  destruct (arp_state e) eqn:Hs; try done; cbn [arp_state with_state is_pending].
  - change (arp_netif e1) with (arp_netif e). rewrite Hnp. cbn [of_option]. rewrite bind_ok.
    pose proof (Hkeep ETHARP_STATE_PENDING ltac:(done) ltac:(done)) as Hn1. rewrite Hsame in Hn1. set (n1 := set_table _ n) in *.
    destruct (request_ok custom_free_function fresh_byte fresh_u8 n1 E np nif (arp_ipaddr e) ethbroadcast Hn1 Hnif Hip) as (n2 & r & Er & Hn2 & Hq & Hw);
      [apply ethbroadcast_ok.. |].
    unfold etharp_request. cbn [arp_ipaddr e1 with_ctime]. rewrite Er, bind_ok. exists n2. split; [done|].
    change (is_pending ETHARP_STATE_PENDING) with true. cbn iota. cbn [mbind option_bind]. rewrite Hnif.
    pose proof Hq as [Q1 Q2 Q3 Q4 Q5 _ _]. split; try done.
    + by rewrite Q3, Hsame.
    + by apply (quiet_intact _ n1).
    + destruct (has_ram _ _ _), Hw as [_ Hw]; [by eexists|]. exists []. split; [apply sublist_nil_l | by rewrite Hw, app_nil_r].
  - eexists. split; [done|]. rewrite Hsame. apply passed_table. rewrite <- Hsame. by apply Hkeep.
  - rewrite He1'. eexists. split; [done|]. apply passed_table. by apply Hkeep.
  - rewrite He1'. eexists. split; [done|]. apply passed_table. by apply Hkeep.
Qed.

(** One tick: every entry ages, and the pending ones that stay are asked for. *)
Lemma tmr_ok n E : arp_ok n E ->
  exists n', etharp_tmr custom_free_function fresh_byte n = Ok n' /\
    passed n E (aged <$> arp_table n) (concat (requests_for (netifs n) <$> arp_table n)) n'.
Proof. intros Hn. by apply (for_entries_ok aged requests_for _ E (fun n i e => tmr_entry_ok n i e E) 10 n Hn). Qed.

End Ops.

Section Messages.
Context {P1 P2 : Type} `{!PoolAlloc P1} `{!PoolAlloc P2} {X : Type} `{!LinkDriver X}.
Implicit Type n : net P1 P2 X.
Implicit Type s : store P1 P2.
#[local] Set Default Proof Using "Type*".

Lemma message_read s p m off k : message_at s p m -> 0 <= off -> 0 <= k -> off + k <= length m ->
  hdr_read p off k s = Ok (window m off k).
Proof using Type.
  intros (b & o & d & Hb & Hp & Ho & Ha & Hl & Hm) H1 H2 H3. unfold hdr_read.
  rewrite (get_some _ _ _ Hb), bind_ok, Hp, (area_read_intro _ p o d off k) by (done || lia). f_equal.
  rewrite <- Hm at 1. unfold window. rewrite skipn_firstn_comm, take_take, drop_drop. f_equal; [lia|]. f_equal; lia.
Qed.

Lemma message_intact Q s s' p m : intact_but Q s s' -> p ∉ Q -> is_Some (pbufs s' !! p) -> message_at s p m -> message_at s' p m.
Proof using Type.
  intros Hi Hp [b' Hb'] (b & o & d & Hb & Hpl & Ho & Ha & Hl & Hm).
  destruct (ib_pbufs _ _ _ Hi p b' Hp Hb') as (b2 & Hb2 & E & A). rewrite Hb in Hb2. injection Hb2 as <-.
  exists b', o, d. assert (payload b' = payload b) as -> by (by rewrite E). rewrite A. by split_and!.
Qed.

(** A sole reference is in no other hands. *)
Lemma sole_not_in s p m E E' : store_ok s (({[+ p +]} ⊎ E) ⊎ E') -> sole_message s p m -> p ∉ E /\ p ∉ E' /\ is_head s p.
Proof using Type.
  intros Hs (_ & b & Hb & Hr). destruct (ri_ref _ _ (so_ref _ _ Hs) p b Hb) as [Hm _].
  rewrite !multiplicity_disj_union, multiplicity_singleton_eq in Hm. unfold is_head.
  split_and!; [intros Hin; assert (0 < multiplicity p E)%nat by (by apply elem_of_multiplicity in Hin); lia | intros Hin; assert (0 < multiplicity p E')%nat by (by apply elem_of_multiplicity in Hin); lia | lia].
Qed.

(** What is read from an ARP message. *)
Lemma message_fields s p op hs ips hd ipd : message_at s p (arp_message op hs ips hd ipd) -> length hs = 6%nat -> length hd = 6%nat ->
  is_u16 op -> is_u32 ips -> is_u32 ipd ->
  unsupported p s = Ok false /\ hdr_read p arp_sipaddr 4 s = Ok (le_bytes ips) /\ hdr_read p arp_dipaddr 4 s = Ok (le_bytes ipd) /\
  hdr_read p arp_shwaddr ETH_HWADDR_LEN s = Ok hs /\ hdr_read16 p arp_op s = Ok (lwip_htons op).
Proof using Type.
  intros Hm Hs Hd Hop Hips Hipd. set (m := arp_message op hs ips hd ipd) in *.
  assert (Hlm : length m = 28%nat).
  { unfold m, arp_message. rewrite !length_app, Hs, Hd. done. }
  assert (Hr : forall off k, 0 <= off -> 0 <= k -> off + k <= 28 -> hdr_read p off k s = Ok (window m off k)).
  { intros off k H1 H2 H3. apply message_read; try done. lia. }
  do 6 (destruct hs as [|? hs]; [done|]). destruct hs; [|done].
  do 6 (destruct hd as [|? hd]; [done|]). destruct hd; [|done].
  unfold unsupported, hdr_read16, arp_hwtype, arp_hwlen, arp_protolen, arp_proto, arp_op, arp_sipaddr, arp_dipaddr, arp_shwaddr, ETH_HWADDR_LEN.
  rewrite !Hr by lia. split_and!; try done.
  rewrite bind_ok. change (window m 6 2) with [op / 256; op mod 256]. unfold lwip_htons. rewrite pp_htons_swap by done.
  change (get16 [op / 256; op mod 256] 0) with (Ok (op / 256 + 256 * (op mod 256))). f_equal. unfold swap16. lia.
Qed.

Lemma word_bytes a b c d : is_u8 a -> is_u8 b -> is_u8 c -> is_u8 d ->
  le_bytes (a + 256 * b + 65536 * c + 16777216 * d) = [a; b; c; d] /\ is_u32 (a + 256 * b + 65536 * c + 16777216 * d).
Proof using Type.
  intros Ha Hb Hc Hd. split; [|solve_u]. unfold le_bytes. repeat f_equal; solve_u.
Qed.

(** Any 28 bytes are refused or are an ARP message. *)
Lemma message_cases s p m : message_at s p m -> length m = 28%nat -> bytes_ok m ->
  unsupported p s = Ok true \/
  exists op hs ips hd ipd, m = arp_message op hs ips hd ipd /\ length hs = 6%nat /\ length hd = 6%nat /\ bytes_ok hs /\ bytes_ok hd /\
    is_u16 op /\ is_u32 ips /\ is_u32 ipd.
Proof using Type.
  intros Hm Hl Hb.
  assert (Hr : forall off k, 0 <= off -> 0 <= k -> off + k <= 28 -> hdr_read p off k s = Ok (window m off k)).
  { intros off k H1 H2 H3. apply message_read; try done. lia. }
  unfold unsupported, hdr_read16, arp_hwtype, arp_hwlen, arp_protolen, arp_proto. rewrite !Hr by lia. clear Hr Hm.
  destruct m as [|a0 [|a1 [|a2 [|a3 [|a4 [|a5 [|o1 [|o2 [|h0 [|h1 [|h2 [|h3 [|h4 [|h5 [|s0 [|s1 [|s2 [|s3 [|t0 [|t1 [|t2 [|t3
    [|t4 [|t5 [|d0 [|d1 [|d2 [|d3 [|]]]]]]]]]]]]]]]]]]]]]]]]]]]]]; try done. clear Hl.
  unfold bytes_ok in *. repeat match goal with H : Forall _ (_ :: _) |- _ => apply Forall_cons in H as [? H] end.
  destruct (decide (a0 = 0 /\ a1 = 1 /\ a2 = 8 /\ a3 = 0 /\ a4 = 6 /\ a5 = 4)) as [(-> & -> & -> & -> & -> & ->)|Hne]; [right | left].
  - exists (256 * o1 + o2), [h0; h1; h2; h3; h4; h5], (s0 + 256 * s1 + 65536 * s2 + 16777216 * s3),
      [t0; t1; t2; t3; t4; t5], (d0 + 256 * d1 + 65536 * d2 + 16777216 * d3).
    destruct (word_bytes s0 s1 s2 s3) as [E1 ?], (word_bytes d0 d1 d2 d3) as [E2 ?]; try done.
    split_and!; try done; [| by rewrite !Forall_cons.. | solve_u]. unfold arp_message. rewrite E1, E2. cbn [app].
    assert ((256 * o1 + o2) / 256 = o1) as -> by solve_u. assert ((256 * o1 + o2) mod 256 = o2) as -> by solve_u. done.
  - set (m := a0 :: _). change (window m 0 2) with [a0; a1]. change (window m 2 2) with [a2; a3].
    change (window m 4 1) with [a4]. change (window m 5 1) with [a5].
    assert (Hget : forall a b, get16 [a; b] 0 = Ok (a + 256 * b)) by done. rewrite !bind_ok, (Hget a0 a1), (Hget a2 a3), bind_ok.
    change (lwip_htons LWIP_IANA_HWTYPE_ETHERNET) with 256. change (lwip_htons ETHTYPE_IP) with 8. change ETH_HWADDR_LEN with 6.
    destruct (Z.eqb_spec (a0 + 256 * a1) 256); cbn [negb]; [|done]. rewrite bind_ok.
    destruct (bool_decide_reflect ([a4] = [6])) as [[= ->]|]; cbn [negb]; [|done].
    destruct (bool_decide_reflect ([a5] = [4])) as [[= ->]|]; cbn [negb]; [|done]. rewrite ?bind_ok.
    destruct (Z.eqb_spec (a2 + 256 * a3) 8); [|done]. destruct Hne. split_and!; solve_u.
Qed.

End Messages.

(** ** The layers above *)

(** What a layer above the ARP table promises: its invariant knows the packets
    [held] by the layer itself, and survives any change of the ARP state that
    keeps the interfaces. *)
Class ArpUser (P1 P2 X K : Type) `{!PoolAlloc P1} `{!PoolAlloc P2} `{!LinkDriver X} `{!Part K (net P1 P2 X)} : Type :=
  { held : K -> gmultiset ptr;
    user_inv : K -> gmultiset ptr -> Prop;
    user_arp : forall k E, user_inv k E -> arp_ok (part k) (E ⊎ held k);
    user_set : forall k E n E', user_inv k E -> arp_ok n (E' ⊎ held k) -> netifs n = netifs (part k) ->
      user_inv (set_part n k) E' }.

(** The ARP module alone. *)
#[export] Instance arp_alone P1 P2 X `{!PoolAlloc P1} `{!PoolAlloc P2} `{!LinkDriver X} : ArpUser P1 P2 X (net P1 P2 X).
Proof.
  refine {| held := fun _ => ∅; user_inv := arp_ok |}.
  - intros n E Hn. by rewrite (right_id_L ∅ (⊎)).
  - intros n E n' E' _ Hn _. by rewrite (right_id_L ∅ (⊎)) in Hn.
Defined.

Lemma get32_le_bytes v : get32 (le_bytes v) 0 = Ok v.
Proof.
  change (get32 (le_bytes v) 0) with (Ok (v mod 256 + 256 * (v / 256 mod 256) + 65536 * (v / 65536 mod 256 + 256 * (v / 16777216)))).
  f_equal. lia.
Qed.

Lemma htons_request op : is_u16 op -> (lwip_htons op =? lwip_htons ARP_REQUEST) = (op =? ARP_REQUEST).
Proof.
  intros Hop. unfold lwip_htons. rewrite !pp_htons_swap by (done || solve_u). unfold swap16, ARP_REQUEST.
  destruct (Z.eqb_spec op 1), (Z.eqb_spec ((op mod 256) * 256 + op / 256) ((1 mod 256) * 256 + 1 / 256)); try done; solve_u.
Qed.

Section Input.
Context {P1 P2 : Type} `{!PoolAlloc P1} `{!PoolAlloc P2} {X : Type} `{!LinkDriver X}.
Context {K : Type} `{!Part K (net P1 P2 X)} `{U : !ArpUser P1 P2 X K}.
Implicit Type n : net P1 P2 X.
Implicit Type s : store P1 P2.
Implicit Type k : K.
#[local] Set Default Proof Using "Type*".
Variable custom_free_function : ptr -> store P1 P2 -> res (store P1 P2).
Variable fresh_byte : nat -> Z.
Hypothesis fresh_u8 : forall i, is_u8 (fresh_byte i).

(** The contract of [acd_arp_reply]: it leaves a message alone that somebody
    else owns, and no interface disappears. *)
Definition acd_contract (acd_arp_reply : Z -> ptr -> K -> res K) : Prop :=
  forall k E np p m, user_inv k ({[+ p +]} ⊎ E) -> sole_message (packets (part k)) p m -> length m = 28%nat ->
  is_Some (netifs (part k) !! np) ->
  exists k', acd_arp_reply np p k = Ok k' /\ user_inv k' ({[+ p +]} ⊎ E) /\ sole_message (packets (part k')) p m /\
    (forall i, is_Some (netifs (part k) !! i) -> is_Some (netifs (part k') !! i)).

Variable acd_arp_reply : Z -> ptr -> K -> res K.
Hypothesis acd_ok : acd_contract acd_arp_reply.

(** Whom a message is for. *)
Definition configured_as (nif : netif) (a : Z) : bool := negb (ip4_addr_isany (ip_addr nif)) && (a =? ip_addr nif).
Definition asks_us (nif : netif) (op ips ipd : Z) : bool :=
  (op =? ARP_REQUEST) && configured_as nif ipd && negb (configured_as nif ips).
Definition learn_flags (nif : netif) (ipd : Z) : Z :=
  if configured_as nif ipd then ETHARP_FLAG_TRY_HARD else ETHARP_FLAG_FIND_ONLY.

(** The table after a message of [hs] at [ips]. *)
Definition learnt (np : Z) (nif : netif) (hs : list Z) (ips ipd : Z) n n' : Prop :=
  if unresolvable ips nif then n' = n else exists r, updated np ips hs (learn_flags nif ipd) nif n n' r.

Lemma input_message k E np p op hs ips hd ipd : user_inv k ({[+ p +]} ⊎ E) -> is_Some (netifs (part k) !! np) ->
  sole_message (packets (part k)) p (arp_message op hs ips hd ipd) -> length hs = 6%nat -> length hd = 6%nat ->
  bytes_ok hs -> bytes_ok hd -> is_u16 op -> is_u32 ips -> is_u32 ipd ->
  exists k1 nif n2 r k', acd_arp_reply np p k = Ok k1 /\ netifs (part k1) !! np = Some nif /\
    etharp_update_arp_entry custom_free_function np ips hs (learn_flags nif ipd) (part k1) = Ok (n2, r) /\
    learnt np nif hs ips ipd (part k1) n2 /\ keeps (packets (part k1)) (packets n2) /\
    etharp_input custom_free_function fresh_byte acd_arp_reply p np k = Ok k' /\ user_inv k' E /\
    netifs (part k') = netifs (part k1) /\ arp_table (part k') = arp_table n2 /\ keeps (packets n2) (packets (part k')) /\
    if asks_us nif op ips ipd && has_ram PBUF_LINK SIZEOF_ETHARP_HDR (packets n2)
    then wire (device (part k')) = wire (device n2) ++
           [frame_of hs (hwaddr nif) ETHTYPE_ARP (arp_message ARP_REPLY (hwaddr nif) (ip_addr nif) hs ips)]
    else device (part k') = device n2.
Proof.
  intros Hk Hnp Hm Hlh Hld Hbh Hbd Hop Hips Hipd.
  assert (Hl28 : length (arp_message op hs ips hd ipd) = 28%nat) by (unfold arp_message; by rewrite !length_app, Hlh, Hld).
  destruct (acd_ok k E np p _ Hk Hm Hl28 Hnp) as (k1 & Ek1 & Hk1 & Hm1 & Hnet).
  destruct (Hnet np Hnp) as [nif Hnif]. exists k1, nif.
  pose proof (user_arp _ _ Hk1) as Hn1. set (n1 := part k1) in *. rewrite <- (assoc_L (⊎)) in Hn1. set (E1 := E ⊎ held k1) in *.
  destruct (sole_not_in _ _ _ E1 (queued (arp_table n1)) (ao_store _ _ Hn1) Hm1) as (_ & Hpq & Hh).
  destruct (message_fields _ _ _ _ _ _ _ (proj1 Hm) Hlh Hld Hop Hips Hipd) as (Fu & _).
  destruct (message_fields _ _ _ _ _ _ _ (proj1 Hm1) Hlh Hld Hop Hips Hipd) as (_ & Fs & Fd & Fh & _).
  unfold etharp_input. rewrite Fu, bind_ok, Ek1, bind_ok. cbv zeta. fold n1.
  rewrite Fs, bind_ok, get32_le_bytes, bind_ok, Fd, bind_ok, get32_le_bytes, bind_ok, (netif_at_some _ _ _ Hnif), bind_ok, Fh, bind_ok.
  destruct (update_ok custom_free_function n1 _ np nif ips hs (learn_flags nif ipd) Hn1 Hnif Hips Hlh Hbh)
    as (n2 & r & Eu & Hn2 & U1 & U2 & Hint & Hkeep & Hup). exists n2, r. pose proof Eu as Eu0.
  unfold learn_flags, configured_as in Eu. rewrite Eu, bind_ok.
  assert (Hm2 : message_at (packets n2) p (arp_message op hs ips hd ipd)).
  { apply (message_intact _ _ _ _ _ Hint Hpq); [|apply Hm1]. apply (ri_ext _ _ (so_ref _ _ (ao_store _ _ Hn2))). multiset_solver. }
  destruct (message_fields _ _ _ _ _ _ _ Hm2 Hlh Hld Hop Hips Hipd) as (_ & _ & _ & Fh2 & Fo). rewrite Fo, bind_ok, htons_request by done.
  assert (Hlearn : learnt np nif hs ips ipd n1 n2).
  { unfold learnt, learn_flags, configured_as in *. destruct (unresolvable ips nif); [by destruct Hup | by exists r]. }
  assert (Hfin : forall n3, quiet n2 n3 -> arp_ok n3 ({[+ p +]} ⊎ E1) ->
    exists k', (n ← free_packet custom_free_function p n3; Ok (set_part n k1)) = Ok k' /\ user_inv k' E /\
      netifs (part k') = netifs n1 /\ arp_table (part k') = arp_table n2 /\ keeps (packets n2) (packets (part k')) /\
      device (part k') = device n3).
  { intros n3 [_ _ Q1 Q2 _ Q3 _] Hn3. destruct (free_packet_ok custom_free_function n3 E1 p Hn3) as (s4 & -> & Hn4 & Hsh4). rewrite bind_ok.
    eexists. split; [reflexivity|]. rewrite part_set. cbn. split_and!; try congruence; [|transitivity (packets n3); [done | apply Hsh4]].
    apply (user_set k1 _ _ E Hk1 Hn4). cbn. rewrite Q2. exact U1. }
  unfold asks_us, configured_as. destruct (op =? ARP_REQUEST); [destruct (_ && negb _) eqn:Hask|]; cbn [andb] in *.
  2, 3: rewrite bind_ok; destruct (Hfin n2 (quiet_refl n2) Hn2) as (k' & -> & H1 & H2 & H3 & H4 & H5); exists k'; by split_and!.
  rewrite (netif_at_some n2 np nif), bind_ok, Fh2, bind_ok by (by rewrite U1).
  destruct (ao_netifs _ _ Hn1 np nif Hnif) as (_ & Hlo & Hbo & Hip & _).
  destruct (etharp_raw_ok custom_free_function fresh_byte fresh_u8 n2 _ np nif (hwaddr nif) hs (hwaddr nif) (ip_addr nif) hs ips ARP_REPLY Hn2)
    as (n3 & r3 & -> & Hn3 & Hq3 & Hw); try done; [by rewrite U1|].
  rewrite !bind_ok. destruct (Hfin n3 Hq3 Hn3) as (k' & -> & H1 & H2 & H3 & H4 & H5). exists k'. split_and!; try done.
  rewrite H5. by destruct (has_ram _ _ _); destruct Hw.
Qed.

End Input.
