(* ===== verification/EthArpOut.v ===== *)
(** * Outgoing packets and address resolution

    [etharp_query], [etharp_output] and what they do with the packet: it is
    sent, kept for later, or refused. *)

From stdpp Require Import gmultiset.
From S2P Require Import Prelude Strings Onescomp Def Ip4Addr Alloc Memp Mem Pbuf PbufRef PbufAlloc PbufStore Ethernet EthArp EthArpOps.

(** ** Specifications *)

Definition volatile (b : pbuf) : bool := negb (Z.land (type_internal b) PBUF_TYPE_FLAG_DATA_VOLATILE =? 0).

(** The requests that refresh an entry that is about to expire. *)
Definition rerequests (nif : netif) (e : etharp_entry) : list (list Z) :=
  if bool_decide (arp_state e = ETHARP_STATE_STABLE) then
    if ARP_AGE_REREQUEST_USED_BROADCAST <=? arp_ctime e then [request_frame nif (arp_ipaddr e) ethbroadcast]
    else if ARP_AGE_REREQUEST_USED_UNICAST <=? arp_ctime e then [request_frame nif (arp_ipaddr e) (arp_ethaddr e)]
    else []
  else [].

Section Out.
Context {P1 P2 : Type} `{!PoolAlloc P1} `{!PoolAlloc P2} {X : Type} `{!LinkDriver X}.
Implicit Type n : net P1 P2 X.
Implicit Type s : store P1 P2.
#[local] Set Default Proof Using "Type*".

(** The packet at [p] has the bytes that the one at [q] had, and room for the
    Ethernet header if that one had. *)
Definition has_room (l : list (ptr * pbuf)) : bool :=
  match l with (_, b) :: _ => header_room b SIZEOF_ETH_HDR | [] => false end.
Definition same_bytes s s' (q p : ptr) : Prop :=
  forall l, packet (pbufs s) (areas s) q l ->
  exists l', packet (pbufs s') (areas s') p l' /\ chain_data (areas s') l' = chain_data (areas s) l /\
    (has_room l = true -> has_room l' = true).

Lemma same_bytes_refl s q : same_bytes s s q q.
Proof using Type. intros l Hl. by exists l. Qed.

Lemma same_bytes_trans s1 s2 s3 q p x : same_bytes s1 s2 q p -> same_bytes s2 s3 p x -> same_bytes s1 s3 q x.
Proof using Type.
  intros H1 H2 l Hl. destruct (H1 l Hl) as (l2 & Hl2 & E2 & R2), (H2 l2 Hl2) as (l3 & Hl3 & E3 & R3).
  exists l3. split_and!; [done | congruence | auto].
Qed.

Lemma same_packet_bytes s s' q : same_packet s s' q -> same_bytes s s' q q.
Proof using Type.
  intros H l Hl. destruct (H l Hl) as (l' & Hl' & E & Hf). exists l'. split_and!; [done | done |].
  destruct Hf as [|[x b] [x' b'] l l' [_ Eb] Hf]; [done|]. cbn in *. by rewrite Eb.
Qed.

(** A packet that may be handed to the ARP module: somebody holds it, it has no
    empty pbuf, and one more reference fits. *)
Record sendable n (E : gmultiset ptr) (q : ptr) : Prop := Sendable
  { sd_held : q ∈ E;
    sd_head : is_head (packets n) q;
    sd_empty : forall l, packet (pbufs (packets n)) (areas (packets n)) q l -> no_empty l;
    sd_ref : forall b, pbufs (packets n) !! q = Some b -> ref b < 255 }.

Lemma needs_copy_ok (ps : gmap ptr pbuf) ar fuel : forall p l, packet ps ar p l -> no_empty l -> (length l <= fuel)%nat ->
  needs_copy fuel ps (Some p) = Ok (existsb (fun x => volatile x.2) l).
Proof using Type.
  induction fuel as [|fuel IH]; intros p l Hp He Hl; (destruct l as [|[x b] l]; [by apply packet_nil in Hp|]); [cbn in Hl; lia|].
  apply Forall_cons in He as [Hb He]. cbn [snd length] in *.
  destruct (packet_cons _ _ _ _ _ _ Hp) as (-> & Hd & _ & Ht & _ & _ & _ & _ & Hnx).
  cbn [needs_copy existsb snd]. rewrite Hd, bind_ok. fold (volatile b).
  assert (Has : negb (len b =? tot_len b) || match next b with None => true | Some _ => false end = true).
  { destruct Hnx as [[-> ->]|(q & -> & Hq)]; [by rewrite orb_true_r|]. rewrite orb_false_r.
    destruct l as [|[y c] l]; [by apply packet_nil in Hq|]. apply Forall_cons in He as [Hc He]. cbn [snd] in Hc.
    pose proof (packet_cons _ _ _ _ _ _ Hq) as (_ & _ & _ & _ & Hl0 & _). rewrite total_len_cons in Ht. cbn [snd] in Ht.
    apply negb_true_iff, Z.eqb_neq. lia. }
  rewrite Has. cbn [lwip_assert]. rewrite bind_ok. destruct (volatile b); [done|]. cbn [orb].
  destruct Hnx as [[-> ->]|(q & -> & Hq)]; [by destruct fuel | apply IH; [done | done | lia]].
Qed.

(** Another store with the same table. *)
Lemma set_packets_ok n E E' s' : arp_ok n E -> store_ok s' (E' ⊎ queued (arp_table n)) ->
  (forall y, is_head (packets n) y -> is_Some (pbufs (packets n) !! y) -> is_head s' y) -> arp_ok (set_packets s' n) E'.
Proof.
  intros [H1 H2 H3 H4 H5 H6] Hs Hh. split; try done. intros y Hy. apply Hh; [by apply H2|].
  apply (ri_ext _ _ (so_ref _ _ H1)). multiset_solver.
Qed.

Lemma sendable_step n n' E q : arp_ok n E -> arp_ok n' E -> sendable n E q -> is_head (packets n') q ->
  same_packet (packets n) (packets n') q ->
  (multiplicity q (queued (arp_table n')) <= multiplicity q (queued (arp_table n)))%nat -> sendable n' E q.
Proof.
  intros Hn Hn' [Hq Hh He Hr] Hh' Hsame Hm. pose proof (ao_store _ _ Hn) as Hs. pose proof (ao_store _ _ Hn') as Hs'.
  assert (Hx : is_Some (pbufs (packets n) !! q)) by (apply (ri_ext _ _ (so_ref _ _ Hs)); multiset_solver).
  split; try done.
  - intros l' Hl'. destruct (store_packet _ _ q Hs Hx) as (l & Hl). destruct (Hsame l Hl) as (l2 & Hl2 & _ & Hf).
    pose proof (chain_at_det _ _ _ _ (pk_chain _ _ _ _ Hl') (pk_chain _ _ _ _ Hl2)) as ->. specialize (He l Hl).
    unfold no_empty in *. apply Forall_lookup_2. intros i y Hy. destruct (Forall2_lookup_r _ _ _ _ _ Hf Hy) as (x & Hi & _ & E2).
    rewrite E2. cbn. exact (Forall_lookup_1 _ _ _ _ He Hi).
  - intros b' Hb'. destruct Hx as [b Hb]. specialize (Hr b Hb).
    destruct (ri_ref _ _ (so_ref _ _ Hs) q b Hb) as [E1 _], (ri_ref _ _ (so_ref _ _ Hs') q b' Hb') as [E2 _].
    unfold is_head in Hh, Hh'. rewrite !multiplicity_disj_union in E1, E2. lia.
Qed.

Lemma same_volatile s s' E q l' : store_ok s E -> same_packet s s' q -> packet (pbufs s') (areas s') q l' ->
  existsb (fun x => volatile x.2) l' = true -> is_Some (pbufs s !! q) ->
  exists l, packet (pbufs s) (areas s) q l /\ existsb (fun x => volatile x.2) l = true.
Proof.
  intros Hs Hsame Hl' Hv Hx. destruct (store_packet _ _ q Hs Hx) as (l & Hl). exists l. split; [done|].
  destruct (Hsame l Hl) as (l2 & Hl2 & _ & Hf). pose proof (chain_at_det _ _ _ _ (pk_chain _ _ _ _ Hl') (pk_chain _ _ _ _ Hl2)) as ->.
  clear -Hv Hf. induction Hf as [|[x b] [x' b'] l l2 [_ E] Hf IH]; [done|]. cbn in *. apply orb_true_iff in Hv as [Hv|Hv].
  - rewrite E in Hv. apply orb_true_iff. by left.
  - apply orb_true_iff. right. by apply IH.
Qed.

(** The search does not add to the queues. *)
Lemma found_queued a np flags n n' i q : found a np flags n n' i ->
  (multiplicity q (queued (arp_table n')) <= multiplicity q (queued (arp_table n)))%nat.
Proof.
  intros [| |j s' old hw Hno Hf Hr Hv Hold Hl Hb Hsh Hs']; [done | done |].
  pose proof (queued_insert _ _ _ (Entry None a (Some np) hw 0 ETHARP_STATE_EMPTY) Hold) as Hq.
  apply (f_equal (multiplicity q)) in Hq. rewrite !multiplicity_disj_union in Hq. cbn [arp_table set_table set_packets arp_q of_q] in *.
  rewrite multiplicity_empty in Hq. lia.
Qed.

Lemma hint_ok n E i : arp_ok n E -> 0 <= i < ARP_TABLE_SIZE -> arp_ok (ETHARP_SET_ADDRHINT i n) E.
Proof. intros [H1 H2 H3 H4 H5 H6] Hi. by split. Qed.

(** The entry was pending before, or is new and has just been asked for. *)
Inductive asked (np a : Z) (nif : netif) n n' : Z -> etharp_entry -> Prop :=
  | AskedBefore i e : arp_table n !! Z.to_nat i = Some e -> device n' = device n -> asked np a nif n n' i e
  | AskedNow i e : no_match a np (arp_table n) -> victim (arp_table n) i -> arp_q e = None -> arp_ctime e = 0 ->
      (if has_ram PBUF_LINK SIZEOF_ETHARP_HDR (packets n) then wire (device n') = wire (device n) ++ [request_frame nif a ethbroadcast]
       else wire (device n') = wire (device n) ++ [request_frame nif a ethbroadcast] \/ device n' = device n) ->
      asked np a nif n n' i e.

(** What [etharp_query] does with a packet for [a]. *)
Inductive queried (np a : Z) (nif : netif) q n n' : Z -> Prop :=
  | QuerySent i e r : 0 <= i < ARP_TABLE_SIZE -> arp_table n !! Z.to_nat i = Some e -> has_key a np e -> stable (arp_state e) = true ->
      arp_table n' = arp_table n -> etharp_cached_entry n' = i ->
      transmits (device n) (device n') (packets n) q (arp_ethaddr e) (hwaddr nif) -> queried np a nif q n n' r
  | QueryKept i e p : 0 <= i < ARP_TABLE_SIZE -> has_key a np e -> arp_state e = ETHARP_STATE_PENDING ->
      arp_table n' = <[Z.to_nat i := with_q (Some p) e]> (arp_table n) -> same_bytes (packets n) (packets n') q p ->
      asked np a nif n n' i e -> queried np a nif q n n' ERR_OK
  | QueryNoMemory i e l : 0 <= i < ARP_TABLE_SIZE -> has_key a np e -> arp_state e = ETHARP_STATE_PENDING ->
      arp_table n' = <[Z.to_nat i := e]> (arp_table n) ->
      packet (pbufs (packets n)) (areas (packets n)) q l -> existsb (fun x => volatile x.2) l = true ->
      asked np a nif n n' i e -> queried np a nif q n n' ERR_MEM.

Lemma copy_room s p q b l o : packet (pbufs s) (areas s) p ((p, b) :: l) -> PBUF_LINK <= o -> has_room ((p, b) :: l) = true ->
  has_room [(q, fresh_ram q o (total_len ((p, b) :: l)))] = true.
Proof using Type.
  intros Hp Ho. destruct (packet_cons _ _ _ _ _ _ Hp) as (_ & _ & _ & Ht & _). rewrite total_len_cons. cbn [snd]. rewrite <- Ht.
  unfold has_room, header_room. cbn [payload type_internal tot_len fresh_ram pbuf_init_alloced_pbuf].
  rewrite !andb_true_iff, !Z.leb_le. intros [[_ _] Hmax]. split_and!; [done | | done]. unfold PBUF_LINK, SIZEOF_ETH_HDR in *. lia.
Qed.

Variable custom_free_function : ptr -> store P1 P2 -> res (store P1 P2).
Variable fresh_byte : nat -> Z.
Hypothesis fresh_u8 : forall i, is_u8 (fresh_byte i).

(** Keeping a packet for later: the packet itself, or a copy if its bytes may
    change. *)
Lemma take_over_ok n E q : arp_ok n E -> sendable n E q ->
  exists s' r, take_over custom_free_function fresh_byte q n = Ok (set_packets s' n, r) /\
    (forall x, is_Some (pbufs (packets n) !! x) -> same_packet (packets n) s' x) /\
    match r with
    | Some p => arp_ok (set_packets s' n) ({[+ p +]} ⊎ E) /\ is_head s' p /\ same_bytes (packets n) s' q p
    | None => arp_ok (set_packets s' n) E /\ exists l, packet (pbufs (packets n)) (areas (packets n)) q l /\ existsb (fun x => volatile x.2) l = true
    end.
Proof.
  intros Hn [Hq Hh He Hr]. pose proof (ao_store _ _ Hn) as Hs.
  destruct (head_packet (packets n) _ q Hs) as (b & l & Hp). { apply (ri_ext _ _ (so_ref _ _ Hs)). multiset_solver. }
  pose proof (packet_lookup _ _ _ _ Hp) as Hb. specialize (He _ Hp). set (l0 := (q, b) :: l) in *.
  unfold take_over. rewrite (needs_copy_ok _ _ _ _ _ Hp He), bind_ok by (pose proof (chain_at_fuel _ _ _ (pk_chain _ _ _ _ Hp)); lia).
  destruct (existsb _ l0) eqn:Hv.
  - destruct (clone_ok custom_free_function fresh_byte fresh_u8 (packets n) _ PBUF_LINK q l0 Hs Hp He) as (s' & r & -> & Hc); [by unfold PBUF_LINK|].
    rewrite bind_ok. exists s', r. split; [done|]. destruct r as [p|].
    + destruct Hc as (Hs' & Hfr & Hsame & o & Ho & Eps & Hp' & Hd). split; [done|]. split_and!.
      * apply (set_packets_ok n E _ s' Hn); [by rewrite <- (assoc_L (⊎))|]. 
        intros y Hy _. unfold is_head. rewrite Eps, incoming_insert_fresh by done. unfold points_to. cbn. by rewrite decide_False.
      * apply (own_head s' _ p (fresh_ram p o (total_len l0)) (so_ref _ _ Hs')); [by rewrite Eps, lookup_insert_eq | multiset_solver | done].
      * intros l1 Hp1. pose proof (chain_at_det _ _ _ _ (pk_chain _ _ _ _ Hp) (pk_chain _ _ _ _ Hp1)) as <-.
        eexists. split; [exact Hp'|]. rewrite chain_data_single. split; [done|]. by apply (copy_room (packets n)).
    + destruct Hc as (Hs' & Eps & Ear). split_and!.
      * intros x _ l1 Hp1. exists l1. split_and!; [by rewrite Eps, Ear | by rewrite Ear |].
        apply Forall2_same_length_lookup_2; [done|]. intros i [y c] [y' c'] E1 E2. rewrite E1 in E2. injection E2 as <- <-.
        split; [done|]. by destruct c.
      * apply (set_packets_ok n E); [done | done |]. intros y Hy _. unfold is_head. by rewrite Eps.
      * by exists l0.
  - destruct (ref_ok (packets n) _ q b Hs Hb (Hr b Hb)) as (s' & -> & Hs' & Hsh & Eps). rewrite bind_ok.
    assert (Hsame : forall x, is_Some (pbufs (packets n) !! x) -> same_packet (packets n) s' x).
    { intros x Hx. apply (shrunk_same_packet _ _ _ _ x Hs Hsh (so_ref _ _ Hs')). rewrite Eps. apply lookup_insert_is_Some'. by right. }
    assert (Hinc : forall y, incoming (pbufs s') y = incoming (pbufs (packets n)) y).
    { intros y. by rewrite Eps, (incoming_same_next _ q b). }
    exists s', (Some q). split_and!; try done.
    + apply (set_packets_ok n E _ s' Hn); [by rewrite <- (assoc_L (⊎))|]. intros y Hy _. unfold is_head. by rewrite Hinc.
    + unfold is_head. by rewrite Hinc.
    + apply same_packet_bytes, Hsame. by rewrite Hb.
Qed.

(** A packet joins a pending entry; the one that waited there is dropped. *)
Record enqueued i e q (E : gmultiset ptr) n n' (r : Z) : Prop := Enqueued
  { eq_ok : arp_ok n' E;
    eq_frame : netifs n' = netifs n /\ device n' = device n /\ etharp_cached_entry n' = etharp_cached_entry n;
    eq_others : forall x, x ∈ E -> same_packet (packets n) (packets n') x;
    eq_entry : exists p, arp_table n' = <[Z.to_nat i := with_q p e]> (arp_table n) /\
      (r = ERR_OK /\ (exists p', p = Some p' /\ same_bytes (packets n) (packets n') q p') \/
       r = ERR_MEM /\ p = arp_q e /\ exists l, packet (pbufs (packets n)) (areas (packets n)) q l /\ existsb (fun x => volatile x.2) l = true) }.

Lemma held_same s s' E E' x : store_ok s E -> shrunk s s' -> store_ok s' E' -> x ∈ E' -> same_packet s s' x.
Proof using Type*.
  intros Hs Hsh Hs' Hx. apply (shrunk_same_packet _ _ _ _ x Hs Hsh (so_ref _ _ Hs')). by apply (ri_ext _ _ (so_ref _ _ Hs')).
Qed.

Lemma enqueue_ok n E q i e : arp_ok n E -> sendable n E q -> 0 <= i -> arp_table n !! Z.to_nat i = Some e ->
  arp_state e = ETHARP_STATE_PENDING ->
  exists n' r, ('(n, p) ← take_over custom_free_function fresh_byte q n;
    match p with
    | Some p =>
        e ← entry i n;
        n ← (match arp_q e with Some old => free_packet custom_free_function old n | None => Ok n end);
        n ← set_entry i (with_q (Some p)) n;
        Ok (n, ERR_OK)
    | None => Ok (n, ERR_MEM)
    end) = Ok (n', r) /\ enqueued i e q E n n' r.
Proof.
  intros Hn Hsd Hi He Hst. destruct (take_over_ok n E q Hn Hsd) as (s1 & r & -> & Hsame & Hr). rewrite bind_ok.
  assert (HE : forall x, x ∈ E -> is_Some (pbufs (packets n) !! x)).
  { intros x Hx. apply (ri_ext _ _ (so_ref _ _ (ao_store _ _ Hn))). multiset_solver. }
  destruct r as [p|].
  2: { destruct Hr as [Hn1 Hv]. exists (set_packets s1 n), ERR_MEM. split; [done|]. split; try done; [by intros x Hx; apply Hsame, HE|].
       exists (arp_q e). split; [|by right]. assert (with_q (arp_q e) e = e) as -> by (by destruct e). by rewrite list_insert_id. }
  destruct Hr as (Hn1 & Hp & Hby). set (n1 := set_packets s1 n) in *. rewrite (entry_some n1 i e He Hi), bind_ok.
  pose proof (table_entry n E _ e Hn He) as Hok. pose proof (lookup_lt_Some _ _ _ He) as Hlt.
  set (e' := with_q (Some p) e).
  assert (Hok' : entry_ok (netifs n) e').
  { destruct Hok as (H1 & H2 & H3 & H4). rewrite Hst in H4. destruct H4 as (H4 & H5 & H6). split_and!; try done. cbn. rewrite Hst. split_and!; (done || lia). }
  assert (Ht : table_ok (netifs n) (<[Z.to_nat i := e']> (arp_table n))).
  { apply (table_update_key _ _ _ e); [apply Hn | done | done | by split]. }
  assert (Hex : forall E2, E2 = of_q (arp_q e) ⊎ E -> arp_ok (set_table (<[Z.to_nat i := e']> (arp_table n)) n1) E2).
  { intros E2 ->. apply (table_exchange n1 ({[+ p +]} ⊎ E) _ _ e); [done | done | done | |].
    - cbn [of_q arp_q e' with_q]. multiset_solver.
    - intros y [= <-]. exact Hp. }
  destruct (arp_q e) as [old|] eqn:Hq.
  - pose proof (Hex _ eq_refl) as Hn2. cbn [of_q] in Hn2.
    destruct (free_packet_ok custom_free_function _ _ _ Hn2) as (s3 & Ef & Hn3 & Hsh).
    unfold free_packet in *. cbn [packets set_table n1 set_packets] in *. apply bind_inv in Ef as ([s4 k] & Ef & [= ->]).
    rewrite Ef, !bind_ok, (set_entry_some _ _ e), bind_ok by (done || lia).
    eexists _, ERR_OK. split; [reflexivity|]. change (set_table _ (set_packets s3 n1)) with (set_packets s3 (set_table (<[Z.to_nat i := e']> (arp_table n)) n1)).
    pose proof (ao_store _ _ Hn2) as Hs2. pose proof (ao_store _ _ Hn3) as Hs3. cbn [packets arp_table set_table set_packets n1] in *.
    assert (Hpq : p ∈ queued (<[Z.to_nat i := e']> (arp_table n))) by (by eapply queued_elem; [apply list_lookup_insert_eq|]).
    split; try done.
    + intros x Hx. eapply same_packet_trans; [by apply Hsame, HE|]. eapply held_same; [exact Hs2 | done | exact Hs3 | multiset_solver].
    + exists (Some p). split; [done|]. left. split; [done|]. exists p. split; [done|]. apply (same_bytes_trans _ s1 _ q p p Hby).
      apply same_packet_bytes. exact (held_same _ _ _ _ p Hs2 Hsh Hs3 ltac:(multiset_solver)).
  - rewrite bind_ok, (set_entry_some _ _ e), bind_ok by (done || lia). eexists _, ERR_OK. split; [reflexivity|].
    specialize (Hex E ltac:(multiset_solver)). split; try done; [by intros x Hx; apply Hsame, HE|].
    exists (Some p). split; [done|]. left. split; [done|]. by exists p.
Qed.

(** A packet leaves for the address of an entry, which is refreshed if it is
    about to expire. *)
Record sent nif i e q n n' : Prop := Sent
  { st_netifs : netifs n' = netifs n;
    st_cached : etharp_cached_entry n' = etharp_cached_entry n;
    st_others : forall x, x <> q -> is_Some (pbufs (packets n) !! x) -> same_packet (packets n) (packets n') x;
    st_frame : exists x1 fs, fs = (if has_ram PBUF_LINK SIZEOF_ETHARP_HDR (packets n) then rerequests nif e else []) /\ wire x1 = wire (device n) ++ fs /\
      transmits x1 (device n') (packets n) q (arp_ethaddr e) (hwaddr nif) /\
      arp_table n' = <[Z.to_nat i := if decide (fs = []) then e else with_state ETHARP_STATE_STABLE_REREQUESTING_1 e]> (arp_table n) }.

Lemma quiet_transmits n n1 n' q dst src : quiet n n1 -> transmits (device n1) (device n') (packets n1) q dst src ->
  transmits (device n1) (device n') (packets n) q dst src.
Proof. intros [Q1 Q2 _ _ _ _ _] H. unfold transmits in *. by rewrite Q1, Q2 in H. Qed.

Lemma quiet_same n n1 x : quiet n n1 -> same_packet (packets n) (packets n1) x.
Proof.
  intros [Q1 Q2 _ _ _ _ _] l Hl. exists l. rewrite Q1, Q2. split_and!; [done | done |].
  apply Forall2_same_length_lookup_2; [done|]. intros i [y c] [y' c'] E1 E2. rewrite E1 in E2. injection E2 as <- <-.
  split; [done|]. by destruct c.
Qed.

(** What a re-request leaves: the state of the entry shows whether it went out. *)
Lemma rerequest_ok n E np nif i e dst : arp_ok n E -> netifs n !! np = Some nif -> 0 <= i -> arp_table n !! Z.to_nat i = Some e ->
  arp_state e = ETHARP_STATE_STABLE -> length dst = 6%nat -> bytes_ok dst ->
  exists n2 n1 fs, quiet n n2 /\ ('(n, err) ← etharp_request_dst custom_free_function fresh_byte np (arp_ipaddr e) dst n;
     if err =? ERR_OK then set_entry i (with_state ETHARP_STATE_STABLE_REREQUESTING_1) n else Ok n) = Ok n1 /\ arp_ok n1 E /\
    n1 = set_table (<[Z.to_nat i := if decide (fs = []) then e else with_state ETHARP_STATE_STABLE_REREQUESTING_1 e]> (arp_table n)) n2 /\
    fs = (if has_ram PBUF_LINK SIZEOF_ETHARP_HDR (packets n) then [request_frame nif (arp_ipaddr e) dst] else []) /\ wire (device n1) = wire (device n) ++ fs.
Proof.
  intros Hn Hnif Hi He Hst Hl Hb. destruct (table_entry n E _ e Hn He) as (Hle & Hbe & Hip & Hok). rewrite Hst in Hok.
  destruct (request_ok custom_free_function fresh_byte fresh_u8 n E np nif (arp_ipaddr e) dst Hn Hnif Hip Hl Hb) as (n2 & r & -> & Hn2 & Hq & Hw).
  rewrite bind_ok. pose proof Hq as [Q1 Q2 Q3 Q4 Q5 _ _]. exists n2. destruct (has_ram _ _ _), Hw as [-> Hw].
  - rewrite Z.eqb_refl, (set_entry_some _ _ e) by (done || by rewrite Q3). eexists _, [request_frame nif (arp_ipaddr e) dst].
    split; [done|]. split; [done|]. rewrite decide_False, Q3 by done. split_and!; try done.
    rewrite <- Q3. apply set_table_ok; [done | apply (queued_same n2 _ e); [by rewrite Q3 | done]|].
    apply (table_update_key _ _ _ e); [apply Hn2 | by rewrite Q3 | | by intros _; unfold in_use; rewrite Hst].
    split_and!; try done; cbn; destruct Hok as ((np' & H1 & H2) & H3 & H4); try done. split_and!; try done; [|lia..]. exists np'. by rewrite Q4.
  - change (ERR_MEM =? ERR_OK) with false. cbn iota. exists n2, []. split_and!; try done; [|by rewrite Hw, app_nil_r].
    rewrite decide_True, list_insert_id by done. rewrite <- Q3. by destruct n2.
Qed.

Lemma output_to_index_ok n E np nif q i e : arp_ok n E -> netifs n !! np = Some nif -> q ∈ E -> is_head (packets n) q ->
  0 <= i -> arp_table n !! Z.to_nat i = Some e -> stable (arp_state e) = true ->
  exists n' err, etharp_output_to_arp_index custom_free_function fresh_byte np q i n = Ok (n', err) /\ arp_ok n' E /\ sent nif i e q n n'.
Proof.
  intros Hn Hnif Hq Hh Hi He Hst. unfold etharp_output_to_arp_index. rewrite (entry_some _ _ _ He), bind_ok, Hst by done.
  cbn [lwip_assert]. rewrite bind_ok. destruct (table_entry n E _ e Hn He) as (Hle & Hbe & _).
  assert (exists n2 n1 fs, quiet n n2 /\
    (if bool_decide (arp_state e = ETHARP_STATE_STABLE) then
       if ARP_AGE_REREQUEST_USED_BROADCAST <=? arp_ctime e then
         '(n, err) ← etharp_request custom_free_function fresh_byte np (arp_ipaddr e) n;
         if err =? ERR_OK then set_entry i (with_state ETHARP_STATE_STABLE_REREQUESTING_1) n else Ok n
       else if ARP_AGE_REREQUEST_USED_UNICAST <=? arp_ctime e then
         '(n, err) ← etharp_request_dst custom_free_function fresh_byte np (arp_ipaddr e) (arp_ethaddr e) n;
         if err =? ERR_OK then set_entry i (with_state ETHARP_STATE_STABLE_REREQUESTING_1) n else Ok n
       else Ok n
     else Ok n) = Ok n1 /\ arp_ok n1 E /\
    n1 = set_table (<[Z.to_nat i := if decide (fs = []) then e else with_state ETHARP_STATE_STABLE_REREQUESTING_1 e]> (arp_table n)) n2 /\
    fs = (if has_ram PBUF_LINK SIZEOF_ETHARP_HDR (packets n) then rerequests nif e else []) /\ wire (device n1) = wire (device n) ++ fs) as (n2 & n1 & fs & Hq2 & -> & Hn1 & E1 & Hfs & Hw).
  { assert (Hid : rerequests nif e = [] -> exists n2 n1 fs, quiet n n2 /\ Ok n = Ok n1 /\ arp_ok n1 E /\
      n1 = set_table (<[Z.to_nat i := if decide (fs = []) then e else with_state ETHARP_STATE_STABLE_REREQUESTING_1 e]> (arp_table n)) n2 /\
      fs = (if has_ram PBUF_LINK SIZEOF_ETHARP_HDR (packets n) then rerequests nif e else []) /\ wire (device n1) = wire (device n) ++ fs).
    { intros ->. exists n, n, []. split_and!; try done; [|by destruct (has_ram _ _ _) | by rewrite app_nil_r]. rewrite decide_True, list_insert_id by done. by destruct n. }
    unfold rerequests in *. destruct (bool_decide_reflect (arp_state e = ETHARP_STATE_STABLE)) as [Hs|]; [|by apply Hid].
    destruct (ARP_AGE_REREQUEST_USED_BROADCAST <=? arp_ctime e); [|destruct (ARP_AGE_REREQUEST_USED_UNICAST <=? arp_ctime e); [|by apply Hid]].
    - unfold etharp_request. apply rerequest_ok; (done || apply ethbroadcast_ok).
    - by apply rerequest_ok. }
  rewrite bind_ok. pose proof Hq2 as [Q1 Q2 Q3 Q4 Q5 _ _]. pose proof (lookup_lt_Some _ _ _ He) as Hlt.
  assert (Hnif1 : netifs n1 !! np = Some nif) by (by rewrite E1; cbn; rewrite Q4).
  set (e1 := if decide (fs = []) then e else _) in *.
  assert (He1 : arp_table n1 !! Z.to_nat i = Some e1) by (rewrite E1; cbn; by apply list_lookup_insert_eq).
  rewrite (netif_at_some _ _ _ Hnif1), bind_ok, (entry_some _ _ _ He1), bind_ok by done.
  assert (Hea : arp_ethaddr e1 = arp_ethaddr e) by (unfold e1; by destruct (decide _)). rewrite Hea.
  assert (Hq1 : quiet n2 (set_table (arp_table n2) n1)) by (rewrite E1; by destruct n2).
  destruct (transmit_ok n1 E np nif q (arp_ethaddr e) Hn1) as (n' & err & -> & Hn' & T1 & T2 & T3 & _ & Hsame & Htr); try done.
  { apply (ri_ext _ _ (so_ref _ _ (ao_store _ _ Hn1))). multiset_solver. }
  { unfold is_head. rewrite E1. cbn. by rewrite Q1. }
  exists n', err. split; [done|]. split; [done|]. rewrite E1 in Hsame, Htr, T1, T2, T3. cbn [packets arp_table netifs etharp_cached_entry device set_table] in *.
  split; try congruence.
  - intros x Hx _. eapply same_packet_trans; [by apply quiet_same | by apply Hsame].
  - exists (device n2), fs. split_and!; [done | by rewrite E1 in Hw | | done]. by apply (quiet_transmits n n2).
Qed.

Lemma query_ok n E np nif a q : arp_ok n E -> netifs n !! np = Some nif -> is_u32 a -> sendable n E q ->
  exists n' r, etharp_query custom_free_function fresh_byte np a (Some q) n = Ok (n', r) /\ arp_ok n' E /\ netifs n' = netifs n /\
    (forall x, x ∈ E -> x <> q -> same_packet (packets n) (packets n') x) /\
    if unresolvable a nif then n' = n /\ r = ERR_ARG else queried np a nif q n n' r.
Proof.
  intros Hn Hnif Ha Hsd. unfold etharp_query, unresolvable. rewrite (netif_at_some _ _ _ Hnif), bind_ok.
  destruct (_ || ip4_addr_ismulticast a).
  { exists n, ERR_ARG. split_and!; try done. intros; apply same_packet_refl. }
  destruct (find_entry_ok custom_free_function n E a np ETHARP_FLAG_TRY_HARD Hn Ha) as (n1 & i & -> & Hn1 & Hf). rewrite bind_ok.
  assert (Hi : 0 <= i).
  { destruct Hf as [| ? [H|[H _]] |]; [lia | by destruct H | done | lia]. }
  destruct (Z.ltb_spec i 0); [lia|]. destruct (found_entry _ _ _ _ _ _ E Hf Hn Hi) as (Hi10 & e & He & Hea & Hen & Hold & Hct & Hins).
  destruct (found_frame _ _ _ _ _ _ Hf) as (F1 & F2 & F3 & Hsh).
  rewrite (entry_some _ _ _ He), bind_ok by done. cbv zeta.
  destruct (is_empty (arp_state e)) eqn:Hem.
  - destruct Hf as [j e0 Hj He0 [Hu _]| |j s' old hw Hno _ Hj Hv Hold0 Hlh Hbh Hss Hs']; [|done|].
    { rewrite He in He0. injection He0 as <-. by apply in_use_empty in Hu; rewrite Hem in Hu. }
    set (n1 := set_table _ _) in *. assert (e = Entry None a (Some np) hw 0 ETHARP_STATE_EMPTY) as ->.
    { cbn in He. rewrite list_lookup_insert_eq in He by (by eapply lookup_lt_Some). by injection He. }
    set (e := Entry None a (Some np) hw 0 ETHARP_STATE_PENDING).
    pose proof (lookup_lt_Some _ _ _ He) as Hlt.
    rewrite (set_entry_some _ _ _ _ He), bind_ok, (set_entry_some _ _ e), bind_ok by (done || by apply list_lookup_insert_eq).
    change (with_netif (Some np) e) with e.
    assert (E2 : set_table (<[Z.to_nat j := e]> (arp_table (set_table (<[Z.to_nat j := e]> (arp_table n1)) n1))) (set_table (<[Z.to_nat j := e]> (arp_table n1)) n1)
      = set_table (<[Z.to_nat j := e]> (arp_table n1)) n1) by (unfold set_table; cbn; by rewrite list_insert_insert_eq).
    change (with_state ETHARP_STATE_PENDING _) with e. rewrite E2. set (n2 := set_table (<[Z.to_nat j := e]> (arp_table n1)) n1) in *.
    assert (Hok : entry_ok (netifs n) e).
    { unfold entry_ok, e. cbn. split_and!; try done. by exists np; rewrite Hnif. }
    assert (Hn2 : arp_ok n2 E).
    { apply (claim_entry a np ETHARP_FLAG_TRY_HARD n n1 j E E (Entry None a (Some np) hw 0 ETHARP_STATE_EMPTY) e); try done.
      by apply (FoundNew _ _ _ _ _ _ old). }
    assert (He2 : arp_table n2 !! Z.to_nat j = Some e) by (by apply list_lookup_insert_eq).
    rewrite (entry_some _ _ _ He2), bind_ok by done. change (is_pending _ || _) with true. cbn [lwip_assert orb]. rewrite bind_ok.
    destruct (request_ok custom_free_function fresh_byte fresh_u8 n2 E np nif a ethbroadcast Hn2 Hnif Ha) as (n3 & r3 & Er & Hn3 & Hq3 & Hw);
      [apply ethbroadcast_ok.. |].
    pose proof Hq3 as [Q1 Q2 Q3 Q4 Q5 _ _].
    assert (He3 : arp_table n3 !! Z.to_nat j = Some e) by (by rewrite Q3).
    unfold etharp_request. rewrite Er, !bind_ok, (entry_some _ _ _ He3), bind_ok, andb_false_r, bind_ok, bind_ok, (entry_some _ _ _ He3), bind_ok by done.
    change (stable (arp_state e)) with false. change (is_pending (arp_state e)) with true. cbn iota.
    assert (Hsame : forall x, x ∈ E -> same_packet (packets n) (packets n3) x).
    { intros x Hx. eapply same_packet_trans; [|by apply quiet_same]. eapply held_same; [apply Hn | exact Hss | apply (ao_store _ _ Hn2) | multiset_solver]. }
    assert (Hsd3 : sendable n3 E q).
    { apply (sendable_step n); try done; [| apply Hsame, Hsd |].
      - unfold is_head. rewrite Q1. apply (incoming_shrunk _ _ _ Hss), Hsd.
      - rewrite Q3. pose proof (found_queued a np ETHARP_FLAG_TRY_HARD n n1 j q ltac:(by apply (FoundNew _ _ _ _ _ _ old))) as Hle.
        cbn in Hle. unfold n2. cbn [arp_table set_table].
        replace (queued (<[Z.to_nat j := e]> (arp_table n1))) with (queued (arp_table n1)) by (symmetry; by apply (queued_same n1 _ _ e He)). exact Hle. }
    destruct (enqueue_ok n3 E q j e Hn3 Hsd3 Hi He3 eq_refl) as (n' & r & Eq & [G1 (G2 & G3 & G4) G5 (p & Et & Hr)]).
    rewrite Eq. assert (Et' : arp_table n' = <[Z.to_nat j := with_q p e]> (arp_table n)).
    { rewrite Et, Q3. unfold n2, n1. cbn. by rewrite !list_insert_insert_eq. }
    assert (Hask : asked np a nif n n' j (with_q None e)).
    { apply AskedNow; try done. rewrite G3. destruct (has_ram _ _ (packets n)) eqn:E0.
      - by rewrite (keeps_ram _ (packets n2) _ _ _ (so_ref _ _ (ao_store _ _ Hn)) (sh_keeps _ _ Hss) E0) in Hw; destruct Hw.
      - destruct (has_ram _ _ (packets n2)), Hw; [by left | by right]. }
    exists n', r. split_and!; try done; [by rewrite G2, Q4 | by intros x Hx _; eapply same_packet_trans; [by apply Hsame | by apply G5] |].
    destruct Hr as [[-> (p' & -> & Hby)]|(-> & -> & l & Hl & Hv3)].
    * apply (QueryKept _ _ _ _ _ _ j e p'); try done.
      apply (same_bytes_trans _ (packets n3) _ q q p'); [|done]. apply same_packet_bytes, Hsame, Hsd.
    * destruct (same_volatile _ _ _ _ _ (ao_store _ _ Hn) (Hsame q (sd_held _ _ _ Hsd)) Hl Hv3) as (l0 & Hl0 & Hv0).
      { apply (ri_ext _ _ (so_ref _ _ (ao_store _ _ Hn))). pose proof (sd_held _ _ _ Hsd). multiset_solver. }
      by apply (QueryNoMemory _ _ _ _ _ _ j e l0).
  - assert (Hu : in_use e) by (by apply in_use_empty). specialize (Hold Hu) as ->. rewrite bind_ok, (entry_some _ _ _ He), bind_ok by done.
    assert (Hps : is_pending (arp_state e) || stable (arp_state e) = true) by (unfold in_use in Hu; by destruct (arp_state e)).
    rewrite Hps. cbn [lwip_assert]. rewrite bind_ok. rewrite bool_decide_false by done. cbn [orb]. rewrite bind_ok, (entry_some _ _ _ He), bind_ok by done.
    destruct (stable (arp_state e)) eqn:Hst.
    + pose proof (hint_ok n E i Hn ltac:(lia)) as Hn3. destruct (table_entry n E _ e Hn He) as (Hle & Hbe & _).
      pose proof (sd_held _ _ _ Hsd) as Hq. pose proof (sd_head _ _ _ Hsd) as Hh.
      destruct (transmit_ok (ETHARP_SET_ADDRHINT i n) E np nif q (arp_ethaddr e) Hn3) as (n' & r & -> & Hn' & T1 & T2 & T3 & _ & Hsame & Htr); try done.
      { apply (ri_ext _ _ (so_ref _ _ (ao_store _ _ Hn))). multiset_solver. }
      exists n', r. split_and!; try done; [by intros x _; apply Hsame|]. by apply (QuerySent _ _ _ _ _ _ i e).
    + rewrite orb_false_r in Hps. rewrite Hps.
      assert (Hs : arp_state e = ETHARP_STATE_PENDING) by (by apply bool_decide_eq_true in Hps).
      destruct (enqueue_ok n E q i e Hn Hsd Hi He Hs) as (n' & r & Eq & [Q1 (Q2 & Q3 & Q4) Q5 (p & Et & Hr)]).
      rewrite Eq. exists n', r. split_and!; try done; [by intros x Hx _; apply Q5|].
      destruct Hr as [[-> (p' & -> & Hby)]|(-> & -> & l & Hl & Hv)].
      * by apply (QueryKept _ _ _ _ _ _ i e p'); try done; apply AskedBefore.
      * assert (with_q (arp_q e) e = e) as E1 by (by destruct e). rewrite E1 in Et.
        by apply (QueryNoMemory _ _ _ _ _ _ i e l); try done; apply AskedBefore.
Qed.

(** A query without a packet only asks. *)
Lemma query_none_ok n E np nif a : arp_ok n E -> netifs n !! np = Some nif -> is_u32 a ->
  exists n' r, etharp_query custom_free_function fresh_byte np a None n = Ok (n', r) /\ arp_ok n' E /\ netifs n' = netifs n.
Proof.
  intros Hn Hnif Ha. unfold etharp_query. rewrite (netif_at_some _ _ _ Hnif), bind_ok.
  destruct (_ || ip4_addr_ismulticast a); [by exists n, ERR_ARG|].
  destruct (find_entry_ok custom_free_function n E a np ETHARP_FLAG_TRY_HARD Hn Ha) as (n1 & i & -> & Hn1 & Hf). rewrite bind_ok.
  assert (Hi : 0 <= i).
  { destruct Hf as [| ? [H|[H _]] |]; [lia | by destruct H | done | lia]. }
  destruct (Z.ltb_spec i 0); [lia|]. destruct (found_entry _ _ _ _ _ _ E Hf Hn Hi) as (Hi10 & e & He & Hea & Hen & Hold & Hct & Hins).
  destruct (found_frame _ _ _ _ _ _ Hf) as (F1 & F2 & F3 & Hsh). pose proof (lookup_lt_Some _ _ _ He) as Hlt.
  rewrite (entry_some _ _ _ He), bind_ok by done. cbv zeta.
  assert (Hgo : forall n2 e2 (new : bool), arp_ok n2 E -> netifs n2 = netifs n -> arp_table n2 !! Z.to_nat i = Some e2 -> in_use e2 ->
    exists n' r, (e ← entry i n2;
      _ ← lwip_assert "arp_table[i].state == PENDING or STABLE" (is_pending (arp_state e) || stable (arp_state e));
      '(n, result) ← (if new || bool_decide (@None ptr = None) then
         '(n, result) ← etharp_request custom_free_function fresh_byte np a n2;
         e ← entry i n;
         n ← (if (result =? ERR_OK) && is_pending (arp_state e) && negb new then set_entry i (with_ctime 0) n else Ok n);
         Ok (n, result) else Ok (n2, ERR_MEM));
      Ok (n, result)) = Ok (n', r) /\ arp_ok n' E /\ netifs n' = netifs n).
  { intros n2 e2 new Hn2 Hf2 He2 Hu. rewrite (entry_some _ _ _ He2), bind_ok by done.
    assert (is_pending (arp_state e2) || stable (arp_state e2) = true) as -> by (unfold in_use in Hu; by destruct (arp_state e2)).
    cbn [lwip_assert]. rewrite bind_ok, bool_decide_true, orb_true_r by done.
    destruct (request_ok custom_free_function fresh_byte fresh_u8 n2 E np nif a ethbroadcast Hn2 ltac:(by rewrite Hf2) Ha) as (n3 & r3 & Er & Hn3 & Hq3 & _);
      [apply ethbroadcast_ok.. |]. pose proof Hq3 as [Q1 Q2 Q3 Q4 Q5 _ _].
    assert (He3 : arp_table n3 !! Z.to_nat i = Some e2) by (by rewrite Q3).
    unfold etharp_request. rewrite Er, bind_ok, (entry_some _ _ _ He3), bind_ok by done.
    destruct (_ && negb new) eqn:Hc; [|rewrite !bind_ok; exists n3, r3; by rewrite Q4].
    rewrite (set_entry_some _ _ e2), !bind_ok by done. eexists _, r3. split; [reflexivity|]. split; [|cbn; by rewrite Q4].
    apply set_table_ok; [done | by apply (queued_same n3 _ e2)|]. pose proof (table_entry n3 E _ e2 Hn3 He3) as (K1 & K2 & K3 & K4).
    apply (table_update_key _ _ _ e2); [apply Hn3 | done | | by split]. split_and!; try done. cbn.
    unfold in_use in Hu. destruct (arp_state e2); try done; destruct K4 as (K4 & K5 & K6); split_and!; try done; cbn; lia. }
  destruct (is_empty (arp_state e)) eqn:Hem.
  - set (e1 := with_state ETHARP_STATE_PENDING e).
    rewrite (set_entry_some _ _ _ _ He), bind_ok, (set_entry_some _ _ e1), bind_ok by (done || by apply list_lookup_insert_eq).
    assert (Hs : arp_state e = ETHARP_STATE_EMPTY) by (by apply bool_decide_eq_true in Hem).
    pose proof (table_entry n1 E _ e Hn1 He) as (K1 & K2 & K3 & K4). rewrite Hs in K4. fold e1.
    assert (E2 : set_table (<[Z.to_nat i := with_netif (Some np) e1]> (arp_table (set_table (<[Z.to_nat i := e1]> (arp_table n1)) n1)))
       (set_table (<[Z.to_nat i := e1]> (arp_table n1)) n1) = set_table (<[Z.to_nat i := with_netif (Some np) e1]> (arp_table n1)) n1)
      by (unfold set_table; cbn; by rewrite list_insert_insert_eq).
    rewrite E2. apply (Hgo _ (with_netif (Some np) e1) true); [| done | by apply list_lookup_insert_eq | done].
    apply (claim_entry a np ETHARP_FLAG_TRY_HARD n n1 i E E e); try done.
    + split_and!; try done. cbn. rewrite F1. split; [by exists np; rewrite Hnif|].
      rewrite Hct by (intros Hu%in_use_empty; congruence). by unfold ARP_MAXAGE, is_pending.
    + cbn. by rewrite K4.
  - rewrite bind_ok. apply (Hgo n1 e false); [done | done | done | by apply in_use_empty].
Qed.

Lemma find_stable_spec np a t : forall i,
  match find_stable np a t i with
  | Some j => i <= j /\ exists e, t !! Z.to_nat (j - i) = Some e /\ has_key a np e /\ stable (arp_state e) = true
  | None => Forall (fun e => has_key a np e -> stable (arp_state e) = false) t
  end.
Proof using Type.
  induction t as [|e t IH]; intros i; cbn [find_stable]; [done|].
  destruct (stable (arp_state e) && bool_decide (arp_netif e = Some np) && (a =? arp_ipaddr e)) eqn:Hm.
  - rewrite !andb_true_iff, bool_decide_eq_true, Z.eqb_eq in Hm. destruct Hm as [[Hs Hn] ->]. split; [lia|]. exists e.
    rewrite Z.sub_diag. split; [done|]. split; [|done]. split; [|done]. intros Hu. by rewrite Hu in Hs.
  - specialize (IH (i + 1)). destruct (find_stable np a t (i + 1)) as [j|].
    + destruct IH as (Hj & e' & He & Hk). split; [lia|]. exists e'. replace (Z.to_nat (j - i)) with (S (Z.to_nat (j - (i + 1)))) by lia. done.
    + constructor; [|done]. intros (_ & Ha & Hn). rewrite Ha, Hn, Z.eqb_refl, bool_decide_true in Hm by done.
      by rewrite !andb_true_r in Hm.
Qed.

(** What [etharp_output] does with a packet for [a]. *)
Inductive resolved (np a : Z) (nif : netif) q n n' : Z -> Prop :=
  | ToBroadcast r : ip4_addr_isbroadcast a nif = true -> arp_table n' = arp_table n ->
      transmits (device n) (device n') (packets n) q ethbroadcast (hwaddr nif) -> resolved np a nif q n n' r
  | ToMulticast r : ip4_addr_isbroadcast a nif = false -> ip4_addr_ismulticast a = true -> arp_table n' = arp_table n ->
      transmits (device n) (device n') (packets n) q (mcast_addr a) (hwaddr nif) -> resolved np a nif q n n' r
  | NoRoute : ip4_addr_isbroadcast a nif = false -> ip4_addr_ismulticast a = false -> next_hop a nif = None -> n' = n ->
      resolved np a nif q n n' ERR_RTE
  | ToKnown d i e r : ip4_addr_isbroadcast a nif = false -> ip4_addr_ismulticast a = false -> next_hop a nif = Some d ->
      0 <= i < ARP_TABLE_SIZE -> arp_table n !! Z.to_nat i = Some e -> has_key d np e -> stable (arp_state e) = true ->
      sent nif i e q (ETHARP_SET_ADDRHINT i n) n' -> resolved np a nif q n n' r
  | ToUnknown d r : ip4_addr_isbroadcast a nif = false -> ip4_addr_ismulticast a = false -> next_hop a nif = Some d ->
      Forall (fun e => has_key d np e -> stable (arp_state e) = false) (arp_table n) ->
      (if unresolvable d nif then n' = n /\ r = ERR_ARG else queried np d nif q n n' r) -> resolved np a nif q n n' r.

Lemma mcast_addr_ok a : length (mcast_addr a) = 6%nat /\ bytes_ok (mcast_addr a).
Proof using Type.
  split; [done|]. unfold mcast_addr, ip4_addr_get_byte, LL_IP4_MULTICAST_ADDR_0, LL_IP4_MULTICAST_ADDR_1, LL_IP4_MULTICAST_ADDR_2.
  change 127 with (Z.ones 7). rewrite Z.land_ones by lia. change (2 ^ 7) with 128. unfold bytes_ok. rewrite !Forall_cons. split_and!; (done || solve_u).
Qed.

Lemma output_ok n E np nif a q : arp_ok n E -> netifs n !! np = Some nif -> is_u32 a -> sendable n E q ->
  exists n' r, etharp_output custom_free_function fresh_byte np q a n = Ok (n', r) /\ arp_ok n' E /\ netifs n' = netifs n /\
    (forall x, x ∈ E -> x <> q -> same_packet (packets n) (packets n') x) /\ resolved np a nif q n n' r.
Proof.
  intros Hn Hnif Ha Hsd. pose proof (sd_held _ _ _ Hsd) as Hq. pose proof (sd_head _ _ _ Hsd) as Hh.
  assert (Hheld : forall x, x ∈ E -> is_Some (pbufs (packets n) !! x)).
  { intros x Hx. apply (ri_ext _ _ (so_ref _ _ (ao_store _ _ Hn))). multiset_solver. }
  unfold etharp_output. rewrite (netif_at_some _ _ _ Hnif), bind_ok.
  destruct (ip4_addr_isbroadcast a nif) eqn:Hbr; [|destruct (ip4_addr_ismulticast a) eqn:Hmc].
  - destruct (transmit_ok n E np nif q ethbroadcast Hn (Hheld q Hq) Hnif Hh) as (n' & r & -> & Hn' & T1 & T2 & T3 & _ & Hsame & Htr);
      [apply ethbroadcast_ok.. |]. exists n', r. split_and!; try done; [by intros x _; apply Hsame | by apply ToBroadcast].
  - destruct (transmit_ok n E np nif q (mcast_addr a) Hn (Hheld q Hq) Hnif Hh) as (n' & r & -> & Hn' & T1 & T2 & T3 & _ & Hsame & Htr);
      [apply mcast_addr_ok.. |]. exists n', r. split_and!; try done; [by intros x _; apply Hsame | by apply ToMulticast].
  - destruct (next_hop a nif) as [d|] eqn:Hhop.
    2: { exists n, ERR_RTE. split_and!; try done; [intros; apply same_packet_refl | by apply NoRoute]. }
    assert (Hd : is_u32 d).
    { destruct (ao_netifs _ _ Hn np nif Hnif) as (_ & _ & _ & _ & _ & Hgw). unfold next_hop in Hhop.
      destruct (_ && _); [destruct (negb _); [|done]|]; by injection Hhop as <-. }
    assert (Hto : forall i e, 0 <= i < ARP_TABLE_SIZE -> arp_table n !! Z.to_nat i = Some e -> has_key d np e -> stable (arp_state e) = true ->
      exists n' r, etharp_output_to_arp_index custom_free_function fresh_byte np q i (ETHARP_SET_ADDRHINT i n) = Ok (n', r) /\ arp_ok n' E /\
        netifs n' = netifs n /\ (forall x, x ∈ E -> x <> q -> same_packet (packets n) (packets n') x) /\ resolved np a nif q n n' r).
    { intros i e Hi He Hk Hst. destruct (output_to_index_ok _ E np nif q i e (hint_ok n E i Hn Hi) Hnif Hq Hh ltac:(lia) He Hst) as (n' & r & -> & Hn' & Hs).
      exists n', r. split; [done|]. split; [done|]. split; [by apply (st_netifs _ _ _ _ _ _ Hs)|]. split.
      - intros x Hx Hne. apply (st_others _ _ _ _ _ _ Hs); [done|]. by apply Hheld.
      - by apply (ToKnown _ _ _ _ _ _ d i e). }
    pose proof (ao_cached _ _ Hn) as Hc. destruct (entry_in_range n E _ Hn Hc) as [c Hce].
    rewrite (entry_some _ _ _ Hce), bind_ok by lia.
    destruct (stable (arp_state c) && _ && _) eqn:Hhit.
    + rewrite !andb_true_iff, bool_decide_eq_true, Z.eqb_eq in Hhit. destruct Hhit as [[Hs Hnp] Hip].
      specialize (Hto _ c Hc Hce). replace (ETHARP_SET_ADDRHINT (etharp_cached_entry n) n) with n in Hto by (by destruct n).
      apply Hto; [|done]. split_and!; [|done..]. intros Hu. by rewrite Hu in Hs.
    + pose proof (find_stable_spec np d (arp_table n) 0) as Hf. destruct (find_stable np d (arp_table n) 0) as [i|].
      * destruct Hf as (Hi & e & He & Hk & Hst). rewrite Z.sub_0_r in He. pose proof (to_length _ _ (ao_table _ _ Hn)) as Hl.
        pose proof (lookup_lt_Some _ _ _ He). apply (Hto i e); [unfold ARP_TABLE_SIZE; lia | done | done | done].
      * destruct (query_ok n E np nif d q Hn Hnif Hd Hsd) as (n' & r & -> & Hn' & H1 & H2 & H3).
        exists n', r. split_and!; try done. by apply (ToUnknown _ _ _ _ _ _ d).
Qed.

End Out.
