(* ===== verification/LwipPort.v ===== *)
(** * The glue between the driver and lwIP: src/src/lwip_port.c,
    src/src/interrupt.c (the tick) and lwip_poll of src/src/main.c

    Frames leave through [low_level_output], from a chain of pbufs to the words
    of the controller's FIFO, and enter through [ethernetif_input], which hands
    a packet from the pool to the interface's input function. *)

From stdpp Require Import gmultiset.
From S2P Require Import Prelude Strings Uart Onescomp Def Ip4Addr Eth Alloc Memp Timeouts Mem Pbuf PbufRef PbufAlloc PbufStore Ethernet.

(** ** Definitions *)

Definition PBUF_RAW : Z := 0.

(** The system clock in milliseconds; the tick is every 10 ms. *)
Definition sys_inc_ticks (ms sys_ticks : Z) : Z := u32 (sys_ticks + ms).
Definition sys_now (sys_ticks : Z) : Z := sys_ticks.
Definition systick_handler (sys_ticks : Z) : Z := sys_inc_ticks 10 sys_ticks.

(** [for (q = p; q != NULL; q = q->next)] of [low_level_output]. *)
Fixpoint copy_out (fuel : nat) (ps : gmap ptr pbuf) (ar : gmap ptr (list Z)) (q : option ptr)
    (buffer : list Z) (len_ : Z) : res (list Z * Z) :=
  match q with
  | None => Ok (buffer, len_)
  | Some q =>
      b ← deref ps q;
      if 1518 <? u32 (len_ + len b) then Ok (buffer, len_) else
      d ← area_read ar (payload b) 0 (len b);
      buffer ← memcpy buffer len_ d (len b);
      match fuel with
      | O => Err OutOfFuel
      | S fuel' => copy_out fuel' ps ar (next b) buffer (u32 (len_ + len b))
      end
  end.

Section Port.
Context {P1 P2 : Type} `{!PoolAlloc P1} `{!PoolAlloc P2}.
Variable REG : Z -> nat -> Z.

(** [buffer] is the function's uninitialised array. *)
Definition low_level_output (ps : gmap ptr pbuf) (ar : gmap ptr (list Z)) (p : option ptr)
    (buffer : list Z) (m : mmio) : res (mmio * Z) :=
  '(buffer, len) ← copy_out (chain_fuel ps) ps ar p buffer 0;
  m ← eth_send REG buffer len m;
  Ok (m, ERR_OK).

(** The driver's side of the kernel: packet buffers, the controller, the flag
    set by the interrupt, and the rest of the stack. *)
Context {X : Type}.
Record port : Type := Port { st : store P1 P2; eth_dev : mmio; eth_rx_flag : bool; stack : X }.

Definition with_st (s : store P1 P2) (k : port) : port := Port s (eth_dev k) (eth_rx_flag k) (stack k).
Definition with_dev (m : mmio) (k : port) : port := Port (st k) m (eth_rx_flag k) (stack k).
Definition with_flag (b : bool) (k : port) : port := Port (st k) (eth_dev k) b (stack k).

Variable custom_free_function : ptr -> store P1 P2 -> res (store P1 P2).
Variable fresh_byte : nat -> Z.
(** [netif->input] *)
Variable input : ptr -> port -> res (port * Z).

Definition ethernetif_input (buffer : list Z) (k : port) : res port :=
  '(len, buffer, m) ← eth_receive REG buffer 1518 (eth_dev k);
  let k := with_dev m k in
  if len <=? 0 then Ok k else
  '(s, p) ← pbuf_alloc custom_free_function fresh_byte PBUF_RAW (u16 len) PBUF_POOL (st k);
  match p with
  | None => Ok (with_st s k)
  | Some p =>
      '(ar, _) ← pbuf_take (pbufs s) (areas s) (Some p) (Some buffer) (u16 len);
      '(k, err) ← input p (with_st (set_areas ar s) k);
      if negb (err =? ERR_OK) then
        '(s, _) ← pbuf_free custom_free_function (Some p) (st k);
        Ok (with_st s k)
      else Ok k
  end.

(** The receive interrupt. *)
Definition rx_interrupt (k : port) : port :=
  let '(flag, m) := ethernet_handler REG (eth_rx_flag k) (eth_dev k) in with_flag flag (with_dev m k).

(** [pbuf_free_ooseq] of pbuf.c; the list of connections, their queues and
    [tcp_free_ooseq] are TCP's. *)
Definition served (s : store P1 P2) : store P1 P2 :=
  Store (pbufs s) (areas s) (pbuf_pool s) (pbuf_memp s) (heap_mem s) false.
Variable tcp_active_pcbs : port -> list Z.
Variable has_ooseq : Z -> port -> bool.
Variable tcp_free_ooseq : Z -> port -> res port.

Definition pbuf_free_ooseq (k : port) : res port :=
  let k := with_st (served (st k)) k in
  match List.find (fun pcb => has_ooseq pcb k) (tcp_active_pcbs k) with
  | Some pcb => tcp_free_ooseq pcb k
  | None => Ok k
  end.

Definition ooseq_pending {P} (t : tstate P port) : bool := pbuf_free_ooseq_pending (st (client t)).
Definition free_ooseq {P} (t : tstate P port) : res (tstate P port) := k ← pbuf_free_ooseq (client t); Ok (set_client k t).

(** [lwip_poll]: the timers, with the port as the state of their clients, and
    a pending packet. *)
Definition lwip_poll {P} `{!PoolAlloc P} (cyclic_handler : Z -> tstate P port -> res (tstate P port))
    (call_client : Z -> Z -> tstate P port -> res (tstate P port)) (fuel : nat) (buffer : list Z)
    (t : tstate P port) : res (tstate P port) :=
  '(_, t) ← sys_check_timeouts cyclic_handler call_client ooseq_pending free_ooseq fuel t;
  if eth_rx_flag (client t) then
    k ← ethernetif_input buffer (with_flag false (client t));
    Ok (set_client k t)
  else Ok t.

End Port.

Arguments port : clear implicits.

(** The pbufs that fit into [room] bytes, up to the first that does not. *)
Fixpoint fit (room : Z) (l : list (ptr * pbuf)) : list (ptr * pbuf) :=
  match l with
  | [] => []
  | x :: l' => if len x.2 <=? room then x :: fit (room - len x.2) l' else []
  end.

(** The bytes of the packet that is pending, cut at 1518. *)
Definition pending_frame (REG : Z -> nat -> Z) (m : mmio) : list Z :=
  let m1 := (rd REG ETH_MACNPV m).2 in
  let len := Z.to_nat (u32 (REG ETH_MACDATA (reads_of m1 ETH_MACDATA)) mod 65536) in
  take (Nat.min len 1518) (drop 2 (words_bytes (fifo REG m1 (1 + (len + 1) / 4)))).

Definition frame_pending (REG : Z -> nat -> Z) (m : mmio) : Prop :=
  u32 (REG ETH_MACNPV (reads_of m ETH_MACNPV)) mod 256 <> 0 /\
  2 <= u32 (REG ETH_MACDATA (reads_of (rd REG ETH_MACNPV m).2 ETH_MACDATA)) mod 65536 <= 1522.

(** What the driver relies on in the input function: it takes the packet over
    exactly when it returns ERR_OK. *)
Definition input_contract {P1 P2 X} `{!PoolAlloc P1} `{!PoolAlloc P2} (input : ptr -> port P1 P2 X -> res (port P1 P2 X * Z)) : Prop :=
  forall p k E l, ref_inv (st k) ({[+ p +]} ⊎ E) -> packet (pbufs (st k)) (areas (st k)) p l ->
  exists k' err E', input p k = Ok (k', err) /\
    ref_inv (st k') (if err =? ERR_OK then E' else {[+ p +]} ⊎ E').

(** *** The wire *)

(** One write to the controller: the words since the last start, and the frames
    that were started. *)
Definition wire_step (acc : list (list Z) * list Z) (w : Z * Z) : list (list Z) * list Z :=
  let '(frames, words) := acc in
  if w.1 =? ETH_MACDATA then (frames, words ++ [w.2])
  else if (w.1 =? ETH_MACTR) && (w.2 =? 1) then
    (frames ++ [match words with [] => [] | n :: ws => take (Z.to_nat n) (words_bytes ws) end], [])
  else acc.

Definition wire_log (m : mmio) : list (list Z) * list Z := foldl wire_step ([], []) (writes m).

(** ** Lemmas *)

(** What the timers ask of [pbuf_free_ooseq] (Timeouts.v), from what it asks of
    TCP: freeing a queue returns and makes no new request. *)
Lemma free_ooseq_ok {P1 P2 X P : Type} (pcbs : port P1 P2 X -> list Z) has tcp_free_ooseq :
  (forall pcb k, exists k', tcp_free_ooseq pcb k = Ok k' /\ pbuf_free_ooseq_pending (st k') = pbuf_free_ooseq_pending (st k)) ->
  (forall t0, quiet t0 (@free_ooseq P1 P2 X pcbs has tcp_free_ooseq P)) /\
  forall t t', free_ooseq pcbs has tcp_free_ooseq t = Ok t' -> @ooseq_pending P1 P2 X P t' = false.
Proof.
  intros Htcp. assert (Hk : forall k, exists k', pbuf_free_ooseq pcbs has tcp_free_ooseq k = Ok k' /\ pbuf_free_ooseq_pending (st k') = false).
  { intros k. unfold pbuf_free_ooseq. cbv zeta. destruct (List.find _ _) as [pcb|]; [|by eexists].
    destruct (Htcp pcb (with_st (served (st k)) k)) as (k' & -> & E). by exists k'. }
  split.
  - intros t0 t Hn Hs. unfold free_ooseq. destruct (Hk (client t)) as (k' & -> & _). rewrite bind_ok. by eexists.
  - intros t t'. unfold free_ooseq, ooseq_pending. destruct (Hk (client t)) as (k' & -> & E). rewrite bind_ok. by intros [= <-].
Qed.

Lemma fit_all l room : total_len l <= room -> Forall (fun x => 0 <= len x.2) l -> fit room l = l.
Proof.
  revert room. induction l as [|x l IH]; intros room Ht Hl; [done|]. apply Forall_cons in Hl as [Hx Hl].
  rewrite total_len_cons in Ht. cbn [fit].
  assert (0 <= total_len l) by (clear -Hl; induction Hl; rewrite ?total_len_cons; cbn; lia).
  destruct (Z.leb_spec (len x.2) room); [|lia]. f_equal. apply IH; [lia | done].
Qed.

Lemma copy_out_spec ps ar fuel : forall p l buffer (k : nat),
  packet ps ar p l -> (length l <= fuel)%nat -> length buffer = 1518%nat -> (k <= 1518)%nat ->
  exists buffer', copy_out fuel ps ar (Some p) buffer k =
      Ok (buffer', k + total_len (fit (1518 - k) l)) /\ length buffer' = 1518%nat /\
    buffer' = list_inserts k (chain_data ar (fit (1518 - k) l)) buffer /\
    0 <= total_len (fit (1518 - k) l) <= 1518 - k.
Proof.
  induction fuel as [|fuel IH]; intros p l buffer k Hp Hf Hb Hk;
    (destruct l as [|[x b] l]; [by apply packet_nil in Hp|]); [cbn in Hf; lia|].
  apply packet_cons in Hp as (-> & Hx & Hl & _ & Ht & H16 & Hrd & Hd & Hn).
  cbn [copy_out fit snd]. rewrite Hx, bind_ok, u32_id by solve_u.
  destruct (Z.ltb_spec 1518 (k + len b)), (Z.leb_spec (len b) (1518 - k)); try lia.
  { exists buffer. change (total_len []) with 0. rewrite Z.add_0_r. split_and!; (done || lia). }
  rewrite Hrd, bind_ok. set (d := payload_data ar b) in *. rewrite <- Hd.
  rewrite (memcpy_in_bounds buffer k d (length d)) by lia. rewrite bind_ok, firstn_all.
  set (b2 := list_inserts k d buffer). assert (Hb2 : length b2 = 1518%nat) by (unfold b2; by rewrite length_inserts).
  replace (Z.of_nat k + length d) with (Z.of_nat (k + length d)) by lia.
  rewrite total_len_cons, chain_data_cons. fold d. cbn [snd].
  replace (1518 - k - length d) with (1518 - (k + length d)%nat) by lia.
  destruct Hn as [[-> ->]|(q & -> & Hq)].
  - exists b2. cbn [fit]. change (total_len []) with 0. change (chain_data ar []) with (@nil Z). rewrite app_nil_r.
    split_and!; [|done | done | lia | lia]. destruct fuel; cbn [copy_out]; do 2 f_equal; lia.
  - destruct (IH q l b2 (k + length d)%nat) as (b3 & E3 & Hl3 & Eb3 & Hr3); try done; [cbn in Hf; lia | lia |].
    exists b3. rewrite E3. split_and!; [do 2 f_equal; lia | done | | lia | lia].
    rewrite Eb3. unfold b2. by rewrite list_inserts_app_l, (Nat.add_comm (length d)).
Qed.

Lemma fit_bytes ar l : forall room, bytes_ok (chain_data ar l) -> bytes_ok (chain_data ar (fit room l)).
Proof.
  induction l as [|[x b] l IH]; intros room H; [done|]. cbn [fit]. destruct (_ <=? _); [|by apply Forall_nil].
  rewrite chain_data_cons in *. apply Forall_app in H as [H1 H2]. apply Forall_app. split; [done | by apply IH].
Qed.

Lemma fit_packet ar l : forall room, Forall (fun x => 0 <= len x.2) l ->
  Forall (fun x => length (payload_data ar x.2) = len x.2 :> Z) l ->
  length (chain_data ar (fit room l)) = total_len (fit room l) :> Z.
Proof.
  induction l as [|[x b] l IH]; intros room H Hd; [done|]. cbn [fit]. destruct (_ <=? _); [|done].
  apply Forall_cons in H as [Hb H], Hd as [Hdb Hd]. rewrite chain_data_cons, total_len_cons, length_app.
  specialize (IH (room - len b) H Hd). cbn [snd] in *. lia.
Qed.

Lemma packet_lengths ps ar p l : packet ps ar p l ->
  Forall (fun x => 0 <= len x.2) l /\ Forall (fun x => length (payload_data ar x.2) = len x.2 :> Z) l.
Proof.
  revert p. induction l as [|[x b] l IH]; intros p Hp; [by constructor|].
  apply packet_cons in Hp as (_ & _ & Hl & _ & _ & _ & _ & Hd & Hn).
  destruct Hn as [[_ ->]|(q & _ & Hq)]; [by repeat constructor|]. destruct (IH q Hq). by repeat constructor.
Qed.

Lemma bytes_inserts (i : nat) d b : bytes_ok d -> bytes_ok b -> (i + length d <= length b)%nat -> bytes_ok (list_inserts i d b).
Proof.
  intros Hd Hb Hl. rewrite list_inserts_splice by done.
  apply Forall_app. split; [by apply Forall_take|]. apply Forall_app. split; [done | by apply Forall_drop].
Qed.

Lemma ref_inv_set_areas {P1 P2} `{!PoolAlloc P1} `{!PoolAlloc P2} (s : store P1 P2) E ar :
  ref_inv s E -> ref_inv (set_areas ar s) E.
Proof. intros []. by split. Qed.

Lemma pending_frame_length REG m : frame_pending REG m ->
  1 < length (pending_frame REG m) <= 1518 /\
  length (pending_frame REG m) =
    Nat.min (Z.to_nat (u32 (REG ETH_MACDATA (reads_of (rd REG ETH_MACNPV m).2 ETH_MACDATA)) mod 65536)) 1518.
Proof.
  intros [_ Hl]. unfold pending_frame. cbv zeta. rewrite length_take, length_drop, fifo_bytes_length.
  set (n := Z.to_nat _). assert (2 <= n <= 1522)%nat by (unfold n; lia).
  assert (4 * (1 + (n + 1) / 4) - 2 >= n)%nat.
  { pose proof (Nat.div_mod_eq (n + 1) 4). pose proof (Nat.mod_upper_bound (n + 1) 4). lia. }
  lia.
Qed.

Lemma receive_pending REG buffer m : frame_pending REG m -> length buffer = 1518%nat ->
  exists m', eth_receive REG buffer 1518 m =
    Ok (Z.of_nat (length (pending_frame REG m)), list_inserts 0 (pending_frame REG m) buffer, m') /\ writes m' = writes m.
Proof.
  intros Hf Hb. destruct (pending_frame_length REG m Hf) as [_ Hlen]. destruct Hf as [Hnpv Hl].
  destruct (eth_receive_pending REG buffer 1518 m) as (m' & E & Hw); [lia | lia | done | lia|].
  exists m'. split; [|done]. change (Z.of_nat 1518) with 1518 in E. rewrite E, Hlen. done.
Qed.

Lemma wire_data (ws : list Z) : forall frames words,
  foldl wire_step (frames, words) ((fun w => (ETH_MACDATA, w)) <$> ws) = (frames, words ++ ws).
Proof.
  induction ws as [|w ws IH]; intros frames words; [by rewrite app_nil_r|]. cbn [fmap list_fmap foldl].
  change (wire_step (frames, words) (ETH_MACDATA, w)) with (frames, words ++ [w]). by rewrite IH, <- app_assoc.
Qed.

(** A frame that is sent from a clean log. *)
Lemma wire_sent m m' (n : nat) ws : (wire_log m).2 = [] ->
  writes m' = writes m ++ (ETH_MACDATA, Z.of_nat n) :: ((fun w => (ETH_MACDATA, w)) <$> ws) ++ [(ETH_MACTR, 1); (ETH_MACIACK, MAC_INT_TXEMP)] ->
  (wire_log m').2 = [] /\ (wire_log m').1 = (wire_log m).1 ++ [take n (words_bytes ws)].
Proof.
  intros Hm Hw. unfold wire_log in *. rewrite Hw, foldl_app. destruct (foldl wire_step ([], []) (writes m)) as [frames words].
  cbn in Hm. subst words. cbn [foldl]. change (wire_step (frames, []) (ETH_MACDATA, Z.of_nat n)) with (frames, [Z.of_nat n]).
  rewrite foldl_app, wire_data. cbn. by rewrite Nat2Z.id.
Qed.

Lemma low_level_output_lemma REG ps ar p l buffer m :
  packet ps ar p l -> bytes_ok (chain_data ar l) -> length buffer = 1518%nat -> bytes_ok buffer ->
  exists m' ws pad, low_level_output REG ps ar (Some p) buffer m = Ok (m', ERR_OK) /\
    writes m' = writes m ++ (ETH_MACDATA, total_len (fit 1518 l)) ::
      ((fun w => (ETH_MACDATA, w)) <$> ws) ++ [(ETH_MACTR, 1); (ETH_MACIACK, MAC_INT_TXEMP)] /\
    words_bytes ws = chain_data ar (fit 1518 l) ++ replicate pad 0 /\ (pad < 4)%nat /\
    (total_len l <= 1518 -> fit 1518 l = l).
Proof.
  intros Hp Hby Hb Hbb. pose proof (chain_at_fuel _ _ _ (pk_chain _ _ _ _ Hp)) as Hf.
  destruct (packet_lengths _ _ _ _ Hp) as [Hl Hd].
  destruct (copy_out_spec ps ar (chain_fuel ps) p l buffer 0 Hp ltac:(lia) Hb ltac:(lia)) as (b2 & E & Hb2 & Eb2 & Ht).
  unfold low_level_output. change (Z.of_nat 0) with 0 in *. rewrite Z.add_0_l, Z.sub_0_r in *. rewrite E, bind_ok.
  pose proof (fit_packet ar l 1518 Hl Hd) as Hfl. pose proof (fit_bytes ar l 1518 Hby) as Hfb.
  set (f := fit 1518 l) in *. assert (Hb2y : bytes_ok b2).
  { rewrite Eb2. apply bytes_inserts; try done. lia. }
  destruct (eth_send_frame_lemma REG b2 (length (chain_data ar f)) m Hb2y) as (m' & ws & pad & E1 & Hw & Hws & Hpad);
    [lia | lia |].
  rewrite Hfl in E1, Hw. rewrite E1, bind_ok. exists m', ws, pad. split_and!; try done.
  - rewrite Hws, Eb2. f_equal. rewrite list_inserts_splice by lia. by rewrite take_0, app_nil_l, take_app_length.
  - intros Hle. by apply fit_all.
Qed.

(** The driver of the kernel keeps the promises of a link. *)
#[export] Program Instance port_link (REG : Z -> nat -> Z) (buffer : list Z) (Hl : length buffer = 1518%nat) (Hb : bytes_ok buffer) :
    LinkDriver mmio :=
  {| linkoutput := fun _ ps ar p m => low_level_output REG ps ar (Some p) buffer m;
     wire := fun m => (wire_log m).1;
     link_ok := fun m => (wire_log m).2 = [] |}.
Next Obligation.
  intros REG buffer Hl Hb np ps ar p l m Hm Hp Hby.
  destruct (low_level_output_lemma REG ps ar p l buffer m Hp Hby Hl Hb) as (m' & ws & pad & E & Hw & Hws & _ & Hfit).
  pose proof (packet_lengths _ _ _ _ Hp) as [Hlen Hd]. pose proof (fit_packet ar l 1518 Hlen Hd) as Hfl.
  rewrite <- Hfl in Hw. destruct (wire_sent m m' _ ws Hm Hw) as [H1 H2]. exists m', ERR_OK. split_and!; [done | done |].
  intros Ht. rewrite H2, Hws, take_app_length. by rewrite Hfit.
Qed.

(** *** Properties *)

(** Sending. low_level_output returns ERR_OK for every packet and puts one
    frame on the wire: the length, then words whose bytes are the payloads of
    the packet in order, zero padded to a multiple of four, then the start and
    the acknowledgement. A packet of up to 1518 bytes goes out whole; a longer
    one is cut silently before the first pbuf that does not fit. *)
Theorem low_level_output_frame REG ps ar p l buffer m :
  packet ps ar p l -> bytes_ok (chain_data ar l) -> length buffer = 1518%nat -> bytes_ok buffer ->
  exists m' ws pad, low_level_output REG ps ar (Some p) buffer m = Ok (m', ERR_OK) /\
    writes m' = writes m ++ (ETH_MACDATA, total_len (fit 1518 l)) ::
      ((fun w => (ETH_MACDATA, w)) <$> ws) ++ [(ETH_MACTR, 1); (ETH_MACIACK, MAC_INT_TXEMP)] /\
    words_bytes ws = chain_data ar (fit 1518 l) ++ replicate pad 0 /\ (pad < 4)%nat /\
    (total_len l <= 1518 -> fit 1518 l = l).
Proof. exact (low_level_output_lemma REG ps ar p l buffer m). Qed.

(** C26: receiving. With a frame pending, ethernetif_input returns whatever the
    state of the pool. If too few elements are free the frame is dropped: the
    pbufs with their counters, the elements of the pool in use and the stack are
    as before. Otherwise the input function is called once, with a fresh packet
    that holds exactly the bytes of the frame (cut at 1518) and is the client's
    only new reference, its elements being the only new ones in use. If it
    returns ERR_OK nothing more happens. If it refuses the packet, pbuf_free is
    called on it, and the references afterwards are exactly those the input
    function left but the packet's: nothing leaks and nothing is freed twice. *)
Theorem ethernetif_input_correct {P1 P2 X} `{!PoolAlloc P1} `{!PoolAlloc P2} REG
    (custom_free_function : ptr -> store P1 P2 -> res (store P1 P2)) (fresh_byte : nat -> Z)
    (input : ptr -> port P1 P2 X -> res (port P1 P2 X * Z)) (k : port P1 P2 X) (E : gmultiset ptr) (U : gset Z) buffer :
  ref_inv (st k) E -> pool_holds (pbuf_pool (st k)) U -> (forall a, is_Some (pbufs (st k) !! PoolPtr a) -> a ∈ U) ->
  frame_pending REG (eth_dev k) -> length buffer = 1518%nat -> input_contract input ->
  let frame := pending_frame REG (eth_dev k) in
  if @pool_capacity P1 _ - size U <? pool_pbufs (length frame)
  then exists k', ethernetif_input REG custom_free_function fresh_byte input buffer k = Ok k' /\
    ref_inv (st k') E /\ pbufs (st k') = pbufs (st k) /\ pool_holds (pbuf_pool (st k')) U /\ stack k' = stack k
  else exists k1 p l U1 k2 err k', packet (pbufs (st k1)) (areas (st k1)) p l /\ chain_data (areas (st k1)) l = frame /\
    (forall y, y ∈ l.*1 -> pbufs (st k) !! y = None) /\ ref_inv (st k1) ({[+ p +]} ⊎ E) /\ stack k1 = stack k /\
    pool_holds (pbuf_pool (st k1)) U1 /\ (forall a, a ∈ U1 <-> a ∈ U \/ PoolPtr a ∈ l.*1) /\
    input p k1 = Ok (k2, err) /\
    ethernetif_input REG custom_free_function fresh_byte input buffer k = Ok k' /\
    if err =? ERR_OK then k' = k2
    else (exists s n, pbuf_free custom_free_function (Some p) (st k2) = Ok (s, n) /\ k' = with_st s k2) /\
      (exists E', ref_inv (st k2) ({[+ p +]} ⊎ E')) /\
      (forall E', ref_inv (st k2) ({[+ p +]} ⊎ E') -> ref_inv (st k') E').
Proof.
  intros Hs HU HUa Hf Hb Hin frame. destruct (pending_frame_length REG _ Hf) as [Hfl _]. fold frame in Hfl.
  destruct (receive_pending REG buffer (eth_dev k) Hf Hb) as (m' & Er & _). fold frame in Er.
  unfold ethernetif_input. rewrite Er, bind_ok. cbv zeta. destruct (Z.leb_spec (length frame) 0); [lia|].
  rewrite u16_id by solve_u. cbn [st with_dev].
  destruct (pool_alloc_spec custom_free_function fresh_byte (st k) E U PBUF_RAW (length frame)) as (s' & r & Ea & Hs' & U1 & HU1 & Hr);
    [done | done | done | unfold PBUF_RAW; lia | split; lia |].
  change (LWIP_MEM_ALIGN_SIZE PBUF_RAW) with 0 in Hr. rewrite Z.add_0_r in Hr.
  rewrite Ea, bind_ok. destruct r as [p|].
  - destruct Hr as (Hc & l & Hp & Hsep & Ht & _ & Hnew & HUl). destruct (Z.ltb_spec (@pool_capacity P1 _ - size U) (pool_pbufs (length frame))); [lia|].
    pose proof (pbuf_take_spec (pbufs s') (areas s') p l (list_inserts 0 frame buffer) (length frame) Hp Hsep) as Htk.
    rewrite length_inserts, Hb in Htk. specialize (Htk ltac:(lia)). destruct (Z.ltb_spec (total_len l) (length frame)); [lia|].
    destruct Htk as (ar' & -> & Hp' & Hd' & _). rewrite bind_ok.
    assert (Ef : take (Z.to_nat (length frame)) (list_inserts 0 frame buffer) = frame).
    { rewrite Nat2Z.id, list_inserts_splice, take_0, app_nil_l by lia. by rewrite take_app_length. }
    rewrite Ef in Hd'. pose proof (packet_length _ _ _ _ Hp) as Hpl.
    assert (Hdata : chain_data ar' l = frame).
    { rewrite Hd'. rewrite list_inserts_splice, take_0, app_nil_l by lia. rewrite drop_ge by lia. by rewrite app_nil_r. }
    set (k1 := with_st (set_areas ar' s') (with_dev m' k)).
    assert (Hk1 : ref_inv (st k1) ({[+ p +]} ⊎ E)) by by apply ref_inv_set_areas.
    destruct (Hin p k1 E l Hk1 Hp') as (k2 & err & E' & Ei & Hk2). rewrite Ei, bind_ok.
    destruct (err =? ERR_OK) eqn:Eerr; cbn [negb].
    + exists k1, p, l, U1, k2, err, k2. rewrite Eerr. by split_and!.
    + destruct (pbuf_free_inv custom_free_function (st k2) _ p Hk2) as (s3 & n & Efr & _); [multiset_solver|].
      rewrite Efr, bind_ok. exists k1, p, l, U1, k2, err, (with_st s3 k2). rewrite Eerr. split_and!; try done; [by exists s3, n | by exists E' |].
      intros E2 HE2. destruct (pbuf_free_inv custom_free_function (st k2) _ p HE2) as (s4 & n4 & Ef4 & Hs4 & _); [multiset_solver|].
      rewrite Efr in Ef4. injection Ef4 as <- _. by replace (({[+ p +]} ⊎ E2) ∖ {[+ p +]}) with E2 in Hs4 by multiset_solver.
  - destruct Hr as (Hc & -> & Eps & _). destruct (Z.ltb_spec (@pool_capacity P1 _ - size U) (pool_pbufs (length frame))); [|lia].
    exists (with_st s' (with_dev m' k)). by split_and!.
Qed.

(** ** Witnesses *)

Definition uninit : list Z := replicate 1518 0.
Definition quiet_device : mmio := Mmio ∅ [].

(** The packet "abcdef" in two pbufs. *)
Lemma low_level_output_frame_witness :
  exists m' ws pad, low_level_output (fun _ _ => 0) ps0 ar0 (Some (PoolPtr 16)) uninit quiet_device = Ok (m', ERR_OK) /\
    writes m' = (ETH_MACDATA, 6) :: ((fun w => (ETH_MACDATA, w)) <$> ws) ++ [(ETH_MACTR, 1); (ETH_MACIACK, MAC_INT_TXEMP)] /\
    words_bytes ws = str "abcdef" ++ replicate pad 0.
Proof.
  destruct (low_level_output_frame (fun _ _ => 0) ps0 ar0 (PoolPtr 16) l0 uninit quiet_device l0_packet)
    as (m' & ws & pad & E & Hw & Hws & _).
  - repeat constructor; by vm_compute.
  - done.
  - apply Forall_replicate. by vm_compute.
  - exists m', ws, pad. split; [exact E|]. split; [exact Hw | exact Hws].
Defined.

#[local] Instance witness_pool : PoolAlloc pool := memp_alloc pbuf_pool_desc pbuf_pool_desc_ok.
#[local] Notation witness_memp := (memp_alloc pbuf_memp_desc pbuf_memp_desc_ok).

(** A stack that frees whatever it gets. *)
Definition sink (p : ptr) (k : port pool pool unit) : res (port pool pool unit * Z) :=
  '(s, _) ← @pbuf_free pool pool witness_pool witness_memp (fun _ s => Ok s) (Some p) (st k); Ok (with_st s k, ERR_OK).

Lemma sink_contract : @input_contract pool pool unit witness_pool witness_memp sink.
Proof.
  intros p k E l Hs _. unfold sink.
  destruct (@pbuf_free_inv pool pool witness_pool witness_memp (fun _ s => Ok s) (st k) _ p Hs) as (s' & n & -> & Hs' & _).
  { multiset_solver. }
  rewrite bind_ok. exists (with_st s' k), ERR_OK, E. split; [done|].
  by replace (({[+ p +]} ⊎ E) ∖ {[+ p +]}) with E in Hs' by multiset_solver.
Qed.

(** Five bytes are pending after boot. *)
Lemma ethernetif_input_correct_witness :
  pending_frame rx_demo quiet_device = [0xAA; 0xBB; 1; 2; 3] /\
  exists k', @ethernetif_input pool pool witness_pool witness_memp rx_demo unit (fun _ s => Ok s) (fun _ => 0) sink uninit
    (Port (pbuf_boot heap_fresh) quiet_device true tt) = Ok k' /\ stack k' = tt.
Proof.
  split; [by vm_compute|].
  pose proof (@ethernetif_input_correct pool pool unit witness_pool witness_memp rx_demo (fun _ s => Ok s) (fun _ => 0) sink
    (Port (pbuf_boot heap_fresh) quiet_device true tt) ∅ ∅ uninit) as H.
  cbv zeta in H. assert (E : (@pool_capacity pool witness_pool - size (∅ : gset Z) <?
    pool_pbufs (length (pending_frame rx_demo quiet_device))) = false) by by vm_compute.
  cbn [eth_dev] in H. rewrite E in H.
  destruct H as (k1 & p & l & U1 & k2 & err & k' & _ & _ & _ & _ & _ & _ & _ & _ & Ek & _).
  - apply (pbuf_boot_inv heap_fresh [(16000, false)] heap_fresh_rep).
  - apply boot_pool_rep, pbuf_pool_desc_ok.
  - intros a. cbn. rewrite lookup_empty. by intros [].
  - split; by vm_compute.
  - done.
  - exact sink_contract.
  - exists k'. split; [exact Ek|]. by destruct (stack k').
Defined.
