(* ===== verification/ArpSpec.v ===== *)
(** * What the ARP module guarantees

    The theorems about etharp.c, from the lemmas of EthArp.v, EthArpOps.v and
    EthArpOut.v, with the driver of the kernel ([port_link]) in the witnesses. *)

From stdpp Require Import gmultiset.
From S2P Require Import Prelude Strings Onescomp Def Ip4Addr Eth Alloc Memp Mem Pbuf PbufRef PbufAlloc PbufStore Ethernet EthArp EthArpOps EthArpOut LwipPort.

(** ** Definitions *)

(** The calls of the rest of the stack. *)
Inductive arp_call : Type :=
  | OpTimer
  | OpCleanup (netif_p : Z)
  | OpRequest (netif_p ipaddr : Z)
  | OpProbe (netif_p ipaddr : Z)
  | OpAnnounce (netif_p ipaddr : Z)
  | OpFind (netif_p ipaddr : Z)
  | OpQuery (netif_p ipaddr : Z) (q : option ptr)
  | OpOutput (netif_p : Z) (q : ptr) (ipaddr : Z)
  | OpInput (p : ptr) (netif_p : Z).

(** What the caller holds afterwards: an incoming packet is consumed. *)
Definition arp_after (op : arp_call) (E : gmultiset ptr) : gmultiset ptr :=
  match op with OpInput p _ => E ∖ {[+ p +]} | _ => E end.

Section Spec.
Context {P1 P2 : Type} `{!PoolAlloc P1} `{!PoolAlloc P2} {X : Type} `{!LinkDriver X}.
Context {K : Type} `{!Part K (net P1 P2 X)} `{U : !ArpUser P1 P2 X K}.
Implicit Type n : net P1 P2 X.
Implicit Type k : K.
#[local] Set Default Proof Using "Type*".

(** When a call is allowed. *)
Definition arp_allowed (op : arp_call) k (E : gmultiset ptr) : Prop :=
  match op with
  | OpTimer | OpCleanup _ => True
  | OpRequest np a | OpProbe np a | OpAnnounce np a | OpFind np a | OpQuery np a None => is_Some (netifs (part k) !! np) /\ is_u32 a
  | OpQuery np a (Some q) | OpOutput np q a => is_Some (netifs (part k) !! np) /\ is_u32 a /\ sendable (part k) E q
  | OpInput p np => is_Some (netifs (part k) !! np) /\ p ∈ E /\
      exists m, sole_message (packets (part k)) p m /\ length m = 28%nat
  end.

Variable custom_free_function : ptr -> store P1 P2 -> res (store P1 P2).
Variable fresh_byte : nat -> Z.
Hypothesis fresh_u8 : forall i, is_u8 (fresh_byte i).
Variable acd_arp_reply : Z -> ptr -> K -> res K.

Definition arp_exec (op : arp_call) k : res K :=
  match op with
  | OpTimer => n ← etharp_tmr custom_free_function fresh_byte (part k); Ok (set_part n k)
  | OpCleanup np => n ← etharp_cleanup_netif custom_free_function np (part k); Ok (set_part n k)
  | OpRequest np a => '(k, _) ← in_part (etharp_request custom_free_function fresh_byte np a) k; Ok k
  | OpProbe np a => '(k, _) ← in_part (etharp_acd_probe custom_free_function fresh_byte np a) k; Ok k
  | OpAnnounce np a => '(k, _) ← in_part (etharp_acd_announce custom_free_function fresh_byte np a) k; Ok k
  | OpFind np a => '(n, _, _) ← etharp_find_addr custom_free_function np a (part k); Ok (set_part n k)
  | OpQuery np a q => '(k, _) ← in_part (etharp_query custom_free_function fresh_byte np a q) k; Ok k
  | OpOutput np q a => '(k, _) ← in_part (etharp_output custom_free_function fresh_byte np q a) k; Ok k
  | OpInput p np => etharp_input custom_free_function fresh_byte acd_arp_reply p np k
  end.

End Spec.

(** ** Lemmas *)

Section Finding.
Context {P1 P2 : Type} `{!PoolAlloc P1} `{!PoolAlloc P2} {X : Type} `{!LinkDriver X}.
Implicit Type n : net P1 P2 X.
#[local] Set Default Proof Using "Type*".

Lemma sendable_more n E E' q : sendable n E q -> sendable n (E ⊎ E') q.
Proof using Type. intros [H1 H2 H3 H4]. split; try done. multiset_solver. Qed.

Lemma sole_message_bytes s E p m : store_ok (P1 := P1) (P2 := P2) s E -> sole_message s p m -> bytes_ok m.
Proof using Type.
  intros Hs ((b & o & d & _ & _ & _ & Ha & _ & <-) & _). apply Forall_take, Forall_drop. by apply (so_bytes _ _ Hs p).
Qed.

Variable custom_free_function : ptr -> store P1 P2 -> res (store P1 P2).

Lemma find_addr_ok n E np a : arp_ok n E -> is_u32 a ->
  exists n' i r, etharp_find_addr custom_free_function np a n = Ok (n', i, r) /\ n' = n /\
    match r with
    | Some (hw, ip) => 0 <= i < ARP_TABLE_SIZE /\ ip = a /\ exists e, arp_table n !! Z.to_nat i = Some e /\ has_key a np e /\
        stable (arp_state e) = true /\ arp_ethaddr e = hw
    | None => i = -1 /\ Forall (fun e => has_key a np e -> stable (arp_state e) = false) (arp_table n)
    end.
Proof.
  intros Hn Ha. unfold etharp_find_addr.
  destruct (find_entry_ok custom_free_function n E a np ETHARP_FLAG_FIND_ONLY Hn Ha) as (n1 & i & -> & Hn1 & Hf). rewrite bind_ok.
  destruct Hf as [i e Hi He Hk|Hno _|j s' old hw Hno Hflag]; [| |done].
  - destruct (Z.ltb_spec i 0); [lia|]. rewrite (entry_some _ _ _ He), bind_ok by lia. destruct (stable (arp_state e)) eqn:Hst.
    + eexists _, _, _. split; [reflexivity|]. split; [done|]. destruct Hk as (Hu & Hip & Hnp). split_and!; try done; [lia..|]. exists e. by split_and!.
    + eexists _, _, _. split; [reflexivity|]. split_and!; try done. apply Forall_lookup_2. intros j ej Hj Hkj.
      assert (j = Z.to_nat i) as ->; [|congruence]. destruct Hk as (Hu & Hip & Hnp), Hkj as (Huj & Hipj & Hnpj).
      apply (to_unique _ _ (ao_table _ _ Hn) j _ ej e); try done. split; congruence.
  - change (ERR_MEM <? 0) with true. cbn iota. eexists _, _, _. split; [reflexivity|]. split_and!; try done.
    eapply Forall_impl; [exact Hno|]. cbn. tauto.
Qed.

End Finding.

Section Lemmas.
Context {P1 P2 : Type} `{!PoolAlloc P1} `{!PoolAlloc P2} {X : Type} `{!LinkDriver X}.
Context {K : Type} `{!Part K (net P1 P2 X)} `{U : !ArpUser P1 P2 X K}.
Implicit Type n : net P1 P2 X.
Implicit Type k : K.
#[local] Set Default Proof Using "Type*".

(** A result in the ARP state is a result in the whole state. *)
Lemma lift_ok k E E' n : user_inv k E -> arp_ok n (E' ⊎ held k) -> netifs n = netifs (part k) -> user_inv (set_part n k) E'.
Proof. apply user_set. Qed.

Variable custom_free_function : ptr -> store P1 P2 -> res (store P1 P2).

Lemma input_refused k E p np m (fresh_byte : nat -> Z) acd_arp_reply : user_inv k ({[+ p +]} ⊎ E) -> unsupported p (packets (part k)) = Ok true ->
  sole_message (packets (part k)) p m ->
  exists k', etharp_input custom_free_function fresh_byte acd_arp_reply p np k = Ok k' /\ user_inv k' E.
Proof.
  intros Hk Hu _. unfold etharp_input. rewrite Hu, bind_ok. pose proof (user_arp _ _ Hk) as Hn. rewrite <- (assoc_L (⊎)) in Hn.
  destruct (free_packet_ok custom_free_function _ _ p Hn) as (s' & -> & Hn' & _). rewrite bind_ok. eexists. split; [reflexivity|].
  by apply (lift_ok k ({[+ p +]} ⊎ E) E).
Qed.

Variable fresh_byte : nat -> Z.
Hypothesis fresh_u8 : forall i, is_u8 (fresh_byte i).
(** A request, a probe and an announcement are all [etharp_raw] from our own
    address. *)
Lemma own_raw_ok k E np nif ips ipd : user_inv k E -> netifs (part k) !! np = Some nif -> is_u32 ips -> is_u32 ipd ->
  exists k', ('(k, _) ← in_part (etharp_raw custom_free_function fresh_byte np (hwaddr nif) ethbroadcast (hwaddr nif) ips ethzero ipd ARP_REQUEST) k; Ok k) = Ok k' /\
    user_inv k' E.
Proof.
  intros Hk Hnif Hs Hd. pose proof (user_arp _ _ Hk) as Hn. destruct (ao_netifs _ _ Hn np nif Hnif) as (_ & Hl & Hb & _).
  destruct (etharp_raw_ok custom_free_function fresh_byte fresh_u8 (part k) _ np nif (hwaddr nif) ethbroadcast (hwaddr nif) ips ethzero ipd ARP_REQUEST Hn Hnif)
    as (n' & r & Er & Hn' & Hq & _); try done; try apply ethbroadcast_ok; [repeat constructor; solve_u|].
  unfold in_part. rewrite Er, !bind_ok. eexists. split; [reflexivity|]. apply (lift_ok k E); [done | done | apply Hq].
Qed.

Variable acd_arp_reply : Z -> ptr -> K -> res K.
Hypothesis acd_ok : acd_contract acd_arp_reply.

Lemma input_any k E p np m : user_inv k ({[+ p +]} ⊎ E) -> is_Some (netifs (part k) !! np) -> sole_message (packets (part k)) p m ->
  length m = 28%nat -> exists k', etharp_input custom_free_function fresh_byte acd_arp_reply p np k = Ok k' /\ user_inv k' E.
Proof.
  intros Hk Hnp Hm Hl. pose proof (user_arp _ _ Hk) as Hn. pose proof (sole_message_bytes _ _ _ _ (ao_store _ _ Hn) Hm) as Hb.
  destruct (message_cases _ _ _ (proj1 Hm) Hl Hb) as [Hu|(op & hs & ips & hd & ipd & -> & H1 & H2 & H3 & H4 & H5 & H6 & H7)].
  - by eapply input_refused.
  - destruct (input_message custom_free_function fresh_byte fresh_u8 acd_arp_reply acd_ok k E np p op hs ips hd ipd)
      as (k1 & nif & n2 & r & k' & _ & _ & _ & _ & _ & E' & Hk' & _); try done. by exists k'.
Qed.

End Lemmas.

(** *** Ageing *)

Section Ageing.
Context {P1 P2 : Type} `{!PoolAlloc P1} `{!PoolAlloc P2} {X : Type} `{!LinkDriver X}.
Implicit Type n : net P1 P2 X.
#[local] Set Default Proof Using "Type*".
Variable custom_free_function : ptr -> store P1 P2 -> res (store P1 P2).
Variable fresh_byte : nat -> Z.
Hypothesis fresh_u8 : forall i, is_u8 (fresh_byte i).

(** [k] ticks in a row. *)
Fixpoint ticks (k : nat) n : res (net P1 P2 X) :=
  match k with
  | O => Ok n
  | S k' => n ← etharp_tmr custom_free_function fresh_byte n; ticks k' n
  end.

Lemma aged_in_use e : in_use (aged e) -> in_use e /\ arp_ctime (aged e) = arp_ctime e + 1 /\
  (is_pending (arp_state (aged e)) = true -> is_pending (arp_state e) = true).
Proof using Type.
  unfold aged. destruct (is_empty (arp_state e)) eqn:He.
  - intros Hu%in_use_empty. congruence.
  - assert (Hu : in_use e) by (by apply in_use_empty). cbv zeta. destruct (_ || _); [by intros []|]. intros _. split_and!; [done | done |].
    cbn. by destruct (arp_state e).
Qed.

Lemma ticks_ok k : forall n E, arp_ok n E -> exists n', ticks k n = Ok n' /\ arp_ok n' E /\ netifs n' = netifs n /\
  intact_but ∅ (packets n) (packets n') /\
  Forall2 (fun e e' => in_use e' -> in_use e /\ arp_ctime e' = arp_ctime e + k /\
    (is_pending (arp_state e') = true -> is_pending (arp_state e) = true)) (arp_table n) (arp_table n').
Proof.
  induction k as [|k IH]; intros n E Hn; cbn [ticks].
  - exists n. split_and!; try done; [apply shrunk_intact; reflexivity|]. apply Forall_Forall2_diag, Forall_true. intros e Hu. split_and!; (done || lia).
  - destruct (tmr_ok custom_free_function fresh_byte fresh_u8 n E Hn) as (n1 & -> & [Hn1 Ht1 Hf1 _ Hi1 _]). rewrite bind_ok.
    destruct (IH n1 E Hn1) as (n' & -> & Hn' & Hf' & Hi' & H2). exists n'. split_and!; try done; [congruence | by eapply intact_trans|].
    rewrite Ht1 in H2. apply Forall2_fmap_l in H2. eapply Forall2_impl; [exact H2|]. intros e e' He Hu. destruct (He Hu) as (Hu1 & Hc & Hp).
    destruct (aged_in_use e Hu1) as (Hu0 & Hc0 & Hp0). split_and!; [done | lia | auto].
Qed.

Lemma unused_queue (nets : gmap Z netif) t : Forall (entry_ok nets) t -> Forall (fun e => ~ in_use e) t -> queued t = ∅.
Proof using Type.
  intros He Hu. induction t as [|e t IH]; [done|]. apply Forall_cons in He as [(_ & _ & _ & Hq) He], Hu as [Hu Hut].
  assert (Hs : arp_state e = ETHARP_STATE_EMPTY) by (destruct (decide (arp_state e = ETHARP_STATE_EMPTY)); [done | by destruct Hu]).
  rewrite Hs in Hq. rewrite queued_cons, Hq, IH by done. apply (left_id_L ∅ (⊎)).
Qed.

Lemma entry_bounds (nets : gmap Z netif) e : entry_ok nets e -> in_use e ->
  0 <= arp_ctime e < ARP_MAXAGE /\ (is_pending (arp_state e) = true -> arp_ctime e < ARP_MAXPENDING).
Proof using Type.
  intros (_ & _ & _ & He) Hu. unfold in_use in Hu. destruct (arp_state e); try done; destruct He as (_ & Hc & Hp); by split.
Qed.

End Ageing.

(** *** From the query to the frame *)

Section Delivery.
Context {P1 P2 : Type} `{!PoolAlloc P1} `{!PoolAlloc P2} {X : Type} `{!LinkDriver X}.
Implicit Type n : net P1 P2 X.
#[local] Set Default Proof Using "Type*".
Variable custom_free_function : ptr -> store P1 P2 -> res (store P1 P2).
Variable fresh_byte : nat -> Z.
Hypothesis fresh_u8 : forall i, is_u8 (fresh_byte i).

(** A packet waits on the entry [i] for [a]. *)
Definition waiting n (a np i : Z) (p : ptr) : Prop :=
  exists e, 0 <= i < ARP_TABLE_SIZE /\ arp_table n !! Z.to_nat i = Some e /\ has_key a np e /\ arp_state e = ETHARP_STATE_PENDING /\ arp_q e = Some p.

(** Learning the address sends the packet that waits. *)
Lemma waiting_sent n E np nif a hw flags i p l : arp_ok n E -> netifs n !! np = Some nif -> is_u32 a -> unresolvable a nif = false ->
  length hw = 6%nat -> bytes_ok hw -> waiting n a np i p -> packet (pbufs (packets n)) (areas (packets n)) p l ->
  has_room l = true -> total_len l <= 1504 ->
  exists n', etharp_update_arp_entry custom_free_function np a hw flags n = Ok (n', ERR_OK) /\ arp_ok n' E /\
    arp_table n' = <[Z.to_nat i := fresh_entry a np hw]> (arp_table n) /\
    wire (device n') = wire (device n) ++ [frame_of hw (hwaddr nif) ETHTYPE_IP (chain_data (areas (packets n)) l)].
Proof.
  intros Hn Hnif Ha Hun Hl Hb (e & Hi & He & Hk & Hst & Hq) Hp Hroom Htot.
  destruct (update_ok custom_free_function n E np nif a hw flags Hn Hnif Ha Hl Hb) as (n' & r & Eu & Hn' & _ & _ & _ & _ & Hup).
  rewrite Hun in Hup. rewrite Eu. exists n'.
  assert (Huniq : forall j ej, arp_table n !! j = Some ej -> has_key a np ej -> j = Z.to_nat i).
  { intros j ej Hj (Hu & H1 & H2). destruct Hk as (Hu' & H3 & H4). apply (to_unique _ _ (ao_table _ _ Hn) j _ ej e); try done. split; congruence. }
  destruct Hup as [n'' Hf|n1 n' j ej Hf Hj Hej Ht Hout].
  { exfalso. assert (Hno : no_match a np (arp_table n)) by (inversion Hf; subst; done || (unfold ERR_MEM in *; lia)).
    by apply (Forall_lookup_1 _ _ _ _ Hno He). }
  assert (exists e0, n1 = n /\ arp_table n !! Z.to_nat j = Some e0 /\ has_key a np e0) as (e0 & -> & He0 & Hk0).
  { inversion Hf; subst; [by eexists | unfold ERR_MEM in *; lia|].
    match goal with H : no_match _ _ _ |- _ => by destruct (Forall_lookup_1 _ _ _ _ H He) end. }
  pose proof (Huniq _ _ He0 Hk0) as Hji. assert (j = i) as -> by lia. rewrite He in Hej. injection Hej as <-. rewrite Hq in Hout.
  destruct Hout as [_ Htr]. split_and!; try done. destruct l as [|[x b] l]; [by apply packet_nil in Hp|].
  pose proof (packet_cons _ _ _ _ _ _ Hp) as (-> & _). specialize (Htr b l Hp). cbn in Hroom. rewrite Hroom in Htr. by apply Htr.
Qed.

(** Waiting for [k] ticks, until the entry expires. *)
Lemma waiting_ticks n' E a np i p (k : nat) : arp_ok n' E -> forall n e l, arp_ok n E -> waiting n a np i p ->
  arp_table n !! Z.to_nat i = Some e -> arp_ctime e + k < ARP_MAXPENDING ->
  ticks custom_free_function fresh_byte k n = Ok n' -> packet (pbufs (packets n)) (areas (packets n)) p l ->
  waiting n' a np i p /\ same_packet (packets n) (packets n') p.
Proof.
  intros Hn'. induction k as [|k IH]; intros n e l Hn Hw He Hc Ht Hp; cbn [ticks] in Ht.
  { injection Ht as <-. split; [done | apply same_packet_refl]. }
  destruct (tmr_ok custom_free_function fresh_byte fresh_u8 n E Hn) as (n1 & E1 & [Hn1 Ht1 Hf1 _ Hi1 _]).
  rewrite E1, bind_ok in Ht. destruct Hw as (e' & Hi & He' & Hk & Hst & Hq). rewrite He in He'. injection He' as <-.
  assert (Hag : aged e = with_ctime (arp_ctime e + 1) e).
  { unfold aged. rewrite Hst. change (is_empty ETHARP_STATE_PENDING) with false. change (is_pending ETHARP_STATE_PENDING) with true.
    cbv zeta iota. unfold ARP_MAXAGE, ARP_MAXPENDING in *. destruct (Z.leb_spec 300 (arp_ctime e + 1)), (Z.leb_spec 5 (arp_ctime e + 1)); try lia.
    cbn [orb andb]. unfold with_state, with_ctime. cbn. by rewrite Hst. }
  assert (He1 : arp_table n1 !! Z.to_nat i = Some (with_ctime (arp_ctime e + 1) e)) by (by rewrite Ht1, list_lookup_fmap, He; cbn; rewrite Hag).
  assert (Hw1 : waiting n1 a np i p) by (destruct Hk as (? & ? & ?); exists (with_ctime (arp_ctime e + 1) e); split_and!; try done; lia).
  assert (Hx1 : is_Some (pbufs (packets n1) !! p)).
  { apply (ri_ext _ _ (so_ref _ _ (ao_store _ _ Hn1))). apply gmultiset_elem_of_disj_union. right. by eapply (queued_elem _ _ _ p He1). }
  pose proof (intact_same_packet _ _ _ _ p (ao_store _ _ Hn) Hi1 (so_ref _ _ (ao_store _ _ Hn1)) Hx1) as Hs1.
  destruct (Hs1 l Hp) as (l1 & Hl1 & _).
  assert (Hck : arp_ctime (with_ctime (arp_ctime e + 1) e) + k < ARP_MAXPENDING) by (cbn; lia).
  destruct (IH n1 _ l1 Hn1 Hw1 He1 Hck Ht Hl1) as [H1 H2]. split; [done | by eapply same_packet_trans].
Qed.

Lemma query_delivers n E np nif a q l hw flags k : arp_ok n E -> netifs n !! np = Some nif -> is_u32 a -> unresolvable a nif = false ->
  no_match a np (arp_table n) -> sendable n E q -> packet (pbufs (packets n)) (areas (packets n)) q l ->
  has_room l = true -> total_len l <= 1504 -> length hw = 6%nat -> bytes_ok hw -> (k <= 4)%nat ->
  exists n1 r, etharp_query custom_free_function fresh_byte np a (Some q) n = Ok (n1, r) /\ arp_ok n1 E /\
    (r = ERR_MEM /\ existsb (fun x => volatile x.2) l = true \/
     r = ERR_OK /\ exists n2 n3, ticks custom_free_function fresh_byte k n1 = Ok n2 /\
       etharp_update_arp_entry custom_free_function np a hw flags n2 = Ok (n3, ERR_OK) /\ arp_ok n3 E /\
       wire (device n3) = wire (device n2) ++ [frame_of hw (hwaddr nif) ETHTYPE_IP (chain_data (areas (packets n)) l)]).
Proof.
  intros Hn Hnif Ha Hun Hno Hsd Hp Hroom Htot Hlh Hbh Hk.
  destruct (query_ok custom_free_function fresh_byte fresh_u8 n E np nif a q Hn Hnif Ha Hsd) as (n1 & r & -> & Hn1 & Hf1 & _ & Hq).
  rewrite Hun in Hq. exists n1, r. split; [done|]. split; [done|].
  destruct Hq as [i e r Hi He Hke|i e p Hi Hke Hst Ht Hby Hask|i e l2 Hi Hke Hst Ht Hl2 Hv _].
  - by destruct (Forall_lookup_1 _ _ _ _ Hno He).
  - right. split; [done|]. destruct Hask as [i e He _|i e _ _ Hqe Hce _]; [by destruct (Forall_lookup_1 _ _ _ _ Hno He)|].
    pose proof (to_length _ _ (ao_table _ _ Hn)) as Hlen. unfold ARP_TABLE_SIZE in Hi.
    assert (He1 : arp_table n1 !! Z.to_nat i = Some (with_q (Some p) e)) by (rewrite Ht; apply list_lookup_insert_eq; lia).
    assert (Hw1 : waiting n1 a np i p) by (exists (with_q (Some p) e); unfold ARP_TABLE_SIZE; destruct Hke as (? & ? & ?); split_and!; try done; lia).
    destruct (Hby l Hp) as (l1 & Hl1 & Hd1 & Hr1). specialize (Hr1 Hroom).
    destruct (ticks_ok custom_free_function fresh_byte fresh_u8 k n1 E Hn1) as (n2 & Etk & Hn2 & Hf2 & _).
    destruct (waiting_ticks n2 E a np i p k Hn2 n1 _ l1 Hn1 Hw1 He1) as [Hw2 Hs2]; [cbn; rewrite Hce; unfold ARP_MAXPENDING; lia | done | done |].
    destruct (same_packet_bytes _ _ _ Hs2 l1 Hl1) as (l2 & Hl2 & Hd2 & Hr2). specialize (Hr2 Hr1).
    assert (Hdata : chain_data (areas (packets n2)) l2 = chain_data (areas (packets n)) l) by congruence.
    destruct (waiting_sent n2 E np nif a hw flags i p l2 Hn2) as (n3 & Eu & Hn3 & _ & Hw3); try done; [by rewrite Hf2, Hf1 | |].
    { pose proof (packet_length _ _ _ _ Hp). pose proof (packet_length _ _ _ _ Hl2) as Hx. rewrite Hdata in Hx. lia. }
    exists n2, n3. rewrite Hw3, Hdata. by split_and!.
  - left. split; [done|]. by pose proof (chain_at_det _ _ _ _ (pk_chain _ _ _ _ Hp) (pk_chain _ _ _ _ Hl2)) as ->.
Qed.

End Delivery.

(** ** Properties *)

Section Properties.
Context {P1 P2 : Type} `{!PoolAlloc P1} `{!PoolAlloc P2} {X : Type} `{!LinkDriver X}.
Context {K : Type} `{!Part K (net P1 P2 X)} `{U : !ArpUser P1 P2 X K}.
Implicit Type n : net P1 P2 X.
Implicit Type k : K.
#[local] Set Default Proof Using "Type*".
Variable custom_free_function : ptr -> store P1 P2 -> res (store P1 P2).
Variable fresh_byte : nat -> Z.
Hypothesis fresh_u8 : forall i, is_u8 (fresh_byte i).

(** C17: the ARP module is safe. In every well-formed state every call that
    keeps the caller's side (the interface exists, the packet is held by the
    caller and has no empty pbuf, an incoming packet has 28 bytes) returns: no
    assertion fails, no pointer dangles, no array is left; and the state is
    well formed again: at most one entry per address and interface, packets
    only on pending entries, ages in range, and every reference count equals
    the references that exist. *)
Theorem arp_safe acd_arp_reply op k E : acd_contract acd_arp_reply -> user_inv k E -> arp_allowed op k E ->
  exists k', arp_exec custom_free_function fresh_byte acd_arp_reply op k = Ok k' /\ user_inv k' (arp_after op E).
Proof.
  intros Hacd Hk Hop. pose proof (user_arp _ _ Hk) as Hn.
  destruct op as [|np|np a|np a|np a|np a|np a [q|]|np q a|p np]; cbn [arp_exec arp_after]; unfold in_part.
  - destruct (tmr_ok custom_free_function fresh_byte fresh_u8 _ _ Hn) as (n' & -> & [H1 _ H2 _ _ _]). rewrite bind_ok.
    eexists. split; [reflexivity|]. by apply (lift_ok k E).
  - destruct (cleanup_ok custom_free_function np _ _ Hn) as (n' & -> & H1 & H2 & _). rewrite bind_ok.
    eexists. split; [reflexivity|]. by apply (lift_ok k E).
  - destruct Hop as [[nif Hnif] Ha]. destruct (ao_netifs _ _ Hn np nif Hnif) as (_ & _ & _ & Hip & _).
    unfold etharp_request, etharp_request_dst. rewrite (netif_at_some _ _ _ Hnif), bind_ok. by apply own_raw_ok.
  - destruct Hop as [[nif Hnif] Ha]. unfold etharp_acd_probe. rewrite (netif_at_some _ _ _ Hnif), bind_ok.
    apply own_raw_ok; try done.
  - destruct Hop as [[nif Hnif] Ha]. unfold etharp_acd_announce. rewrite (netif_at_some _ _ _ Hnif), bind_ok. by apply own_raw_ok.
  - destruct Hop as [_ Ha]. destruct (find_addr_ok custom_free_function _ _ np a Hn Ha) as (n' & i & r & -> & -> & _). rewrite bind_ok.
    eexists. split; [reflexivity|]. by rewrite set_part_part.
  - destruct Hop as ([nif Hnif] & Ha & Hq).
    destruct (query_ok custom_free_function fresh_byte fresh_u8 _ _ np nif a q Hn Hnif Ha (sendable_more _ _ _ _ Hq)) as (n' & r & -> & Hn' & Hf & _).
    rewrite !bind_ok. eexists. split; [reflexivity|]. by apply (lift_ok k E).
  - destruct Hop as [[nif Hnif] Ha].
    destruct (query_none_ok custom_free_function fresh_byte fresh_u8 _ _ np nif a Hn Hnif Ha) as (n' & r & -> & Hn' & Hf).
    rewrite !bind_ok. eexists. split; [reflexivity|]. by apply (lift_ok k E).
  - destruct Hop as ([nif Hnif] & Ha & Hq).
    destruct (output_ok custom_free_function fresh_byte fresh_u8 _ _ np nif a q Hn Hnif Ha (sendable_more _ _ _ _ Hq)) as (n' & r & -> & Hn' & Hf & _).
    rewrite !bind_ok. eexists. split; [reflexivity|]. by apply (lift_ok k E).
  - destruct Hop as (Hnp & Hp & m & Hm & Hl). apply (input_any custom_free_function fresh_byte fresh_u8 acd_arp_reply Hacd k _ p np m); try done.
    by replace ({[+ p +]} ⊎ E ∖ {[+ p +]}) with E by multiset_solver.
Qed.

(** C21: incoming ARP messages. etharp_input frees the message; the sender is
    learnt when the message asks for us and only refreshed otherwise; a packet
    that waited for the sender goes out. After that, a request for our address,
    unless it comes from our address, is answered with exactly the reply of RFC
    826 to the sender whenever the heap has room for a packet of that size, and
    otherwise nothing more is sent. No element of the pool is lost and the heap
    ends with at least the room it had before the sender was learnt. *)
Theorem etharp_input_correct acd_arp_reply k E np p op hs ips hd ipd : acd_contract acd_arp_reply ->
  user_inv k ({[+ p +]} ⊎ E) -> is_Some (netifs (part k) !! np) ->
  sole_message (packets (part k)) p (arp_message op hs ips hd ipd) -> length hs = 6%nat -> length hd = 6%nat ->
  bytes_ok hs -> bytes_ok hd -> is_u16 op -> is_u32 ips -> is_u32 ipd ->
  exists k1 nif n2 r k', acd_arp_reply np p k = Ok k1 /\ netifs (part k1) !! np = Some nif /\
    etharp_update_arp_entry custom_free_function np ips hs (learn_flags nif ipd) (part k1) = Ok (n2, r) /\
    learnt np nif hs ips ipd (part k1) n2 /\ keeps (packets (part k1)) (packets n2) /\
    etharp_input custom_free_function fresh_byte acd_arp_reply p np k = Ok k' /\ user_inv k' E /\
    netifs (part k') = netifs (part k1) /\ arp_table (part k') = arp_table n2 /\ keeps (packets n2) (packets (part k')) /\
    if asks_us nif op ips ipd && has_ram PBUF_LINK SIZEOF_ETHARP_HDR (packets n2)
    then wire (device (part k')) = wire (device n2) ++
           [frame_of hs (hwaddr nif) ETHTYPE_ARP (arp_message ARP_REPLY (hwaddr nif) (ip_addr nif) hs ips)]
    else device (part k') = device n2.
Proof. intros Hacd. by apply input_message. Qed.

End Properties.

Section Resolution.
Context {P1 P2 : Type} `{!PoolAlloc P1} `{!PoolAlloc P2} {X : Type} `{!LinkDriver X}.
Implicit Type n : net P1 P2 X.
#[local] Set Default Proof Using "Type*".
Variable custom_free_function : ptr -> store P1 P2 -> res (store P1 P2).
Variable fresh_byte : nat -> Z.
Hypothesis fresh_u8 : forall i, is_u8 (fresh_byte i).

(** Where an outgoing packet goes. etharp_output sends a broadcast or
    multicast packet to its link-layer group address, refuses a packet off the
    link when there is no gateway, sends a packet whose next hop is known to
    the address in the table (asking again if the entry is about to expire),
    and hands the others to etharp_query, which asks for the next hop and keeps
    the packet or, when its bytes may change, a copy of it. Every other packet
    stays as it is. *)
Theorem etharp_output_resolves n E np nif a q : arp_ok n E -> netifs n !! np = Some nif -> is_u32 a -> sendable n E q ->
  exists n' r, etharp_output custom_free_function fresh_byte np q a n = Ok (n', r) /\ arp_ok n' E /\ netifs n' = netifs n /\
    (forall x, x ∈ E -> x <> q -> same_packet (packets n) (packets n') x) /\ resolved np a nif q n n' r.
Proof. by apply output_ok. Qed.

(** C22: a packet is delivered once its next hop answers. A packet for an
    unknown address is kept by etharp_query (or refused, only when its bytes may
    change and there is no memory for a copy); if the address is learnt within
    four ticks of the timer, exactly one frame goes out then: the bytes the
    packet had when it was handed in, for the learnt hardware address, from
    ours. *)
Theorem etharp_query_delivers n E np nif a q l hw flags ticks_passed : arp_ok n E -> netifs n !! np = Some nif -> is_u32 a ->
  unresolvable a nif = false -> no_match a np (arp_table n) -> sendable n E q ->
  packet (pbufs (packets n)) (areas (packets n)) q l -> has_room l = true -> total_len l <= 1504 ->
  length hw = 6%nat -> bytes_ok hw -> (ticks_passed <= 4)%nat ->
  exists n1 r, etharp_query custom_free_function fresh_byte np a (Some q) n = Ok (n1, r) /\ arp_ok n1 E /\
    (r = ERR_MEM /\ existsb (fun x => volatile x.2) l = true \/
     r = ERR_OK /\ exists n2 n3, ticks custom_free_function fresh_byte ticks_passed n1 = Ok n2 /\
       etharp_update_arp_entry custom_free_function np a hw flags n2 = Ok (n3, ERR_OK) /\ arp_ok n3 E /\
       wire (device n3) = wire (device n2) ++ [frame_of hw (hwaddr nif) ETHTYPE_IP (chain_data (areas (packets n)) l)]).
Proof. by apply query_delivers. Qed.

(** C24: nothing stays in the table for ever. Without traffic every pending
    entry is gone after five ticks of the timer and every entry after 300, and
    the packets that waited have been given back; the timer never fails on the
    way. A tick is one second (ARP_TMR_INTERVAL): the five seconds are not the
    "10 seconds" of the comment at ARP_MAXPENDING. *)
Theorem etharp_entries_expire n E : arp_ok n E ->
  (exists n', ticks custom_free_function fresh_byte 5 n = Ok n' /\ arp_ok n' E /\
     Forall (fun e => arp_state e <> ETHARP_STATE_PENDING) (arp_table n') /\ queued (arp_table n') = ∅) /\
  (exists n', ticks custom_free_function fresh_byte 300 n = Ok n' /\ arp_ok n' E /\ Forall (fun e => ~ in_use e) (arp_table n')).
Proof.
  intros Hn. pose proof (to_entries _ _ (ao_table _ _ Hn)) as Hok. split.
  - destruct (ticks_ok custom_free_function fresh_byte fresh_u8 5 n E Hn) as (n' & E' & Hn' & _ & _ & H2). exists n'.
    assert (Hp : Forall (fun e => arp_state e <> ETHARP_STATE_PENDING) (arp_table n')).
    { apply Forall_lookup_2. intros i e' Hi Hs. destruct (Forall2_lookup_r _ _ _ _ _ H2 Hi) as (e & He & Hstep).
      destruct Hstep as (Hu & Hc & Hpd); [unfold in_use; by rewrite Hs|]. rewrite Hs in Hpd. specialize (Hpd eq_refl).
      destruct (entry_bounds _ e (Forall_lookup_1 _ _ _ _ Hok He) Hu) as [Hb Hb5]. specialize (Hb5 Hpd).
      destruct (entry_bounds _ e' (table_entry n' E _ e' Hn' Hi)) as [_ Hb']; [unfold in_use; by rewrite Hs|].
      rewrite Hs in Hb'. specialize (Hb' eq_refl). unfold ARP_MAXPENDING in *. lia. }
    split_and!; try done. pose proof (to_entries _ _ (ao_table _ _ Hn')) as Hok'. clear -Hp Hok'.
    induction (arp_table n') as [|e t IH]; [done|]. apply Forall_cons in Hp as [Hp Hpt], Hok' as [(_ & _ & _ & Hq) Hok'].
    assert (arp_q e = None) as Hqe by (by destruct (arp_state e); try done; apply Hq).
    rewrite queued_cons, Hqe, IH by done. apply (left_id_L ∅ (⊎)).
  - destruct (ticks_ok custom_free_function fresh_byte fresh_u8 300 n E Hn) as (n' & E' & Hn' & _ & _ & H2). exists n'. split_and!; try done.
    apply Forall_lookup_2. intros i e' Hi Hu. destruct (Forall2_lookup_r _ _ _ _ _ H2 Hi) as (e & He & Hstep).
    destruct (Hstep Hu) as (Hu0 & Hc & _). destruct (entry_bounds _ e (Forall_lookup_1 _ _ _ _ Hok He) Hu0) as [Hb _].
    destruct (entry_bounds _ e' (table_entry n' E _ e' Hn' Hi) Hu) as [Hb' _]. unfold ARP_MAXAGE in *. lia.
Qed.

(** C23: which entry is used. A lookup returns the entry of the address if there
    is one; otherwise, unless it may only find, it takes the first empty entry,
    else, if it may recycle, the oldest stable one, else the oldest pending one
    without a packet, else the oldest pending one with a packet, which is freed. *)
Theorem etharp_find_entry_recycles n E a np flags : arp_ok n E -> is_u32 a ->
  exists n' i, etharp_find_entry custom_free_function (Some a) flags (Some np) n = Ok (n', i) /\ arp_ok n' E /\ found a np flags n n' i.
Proof. by apply find_entry_ok. Qed.

End Resolution.

(** ** Witnesses *)

(** After boot, with the kernel's driver, one packet of 20 bytes in the heap and
    the interface 10.0.2.2/24 with the gateway 10.0.2.1. *)
Module Demo.

Definition witness_pool : PoolAlloc pool := memp_alloc pbuf_pool_desc pbuf_pool_desc_ok.
Definition witness_memp : PoolAlloc pool := memp_alloc pbuf_memp_desc pbuf_memp_desc_ok.

Lemma uninit_length : length uninit = 1518%nat.
Proof. done. Qed.

Lemma uninit_bytes : bytes_ok uninit.
Proof. apply Forall_replicate. by vm_compute. Qed.

Definition demo_link : LinkDriver mmio := port_link (fun _ _ => 0) uninit uninit_length uninit_bytes.

Definition demo_store : Type := @store pool pool.
Definition no_custom (p : ptr) (s : demo_store) : res demo_store := Ok s.
Definition noise (i : nat) : Z := i mod 256.

Lemma noise_u8 i : is_u8 (noise i).
Proof. unfold noise. solve_u. Qed.

Definition demo_if : netif := Netif 0x0202000a 0x00ffffff 0x0102000a [0xde; 0xad; 0xbe; 0xef; 0; 1] 6 0x0f 0 1500.

Definition alloc_demo (n : Z) : res (demo_store * option ptr) :=
  @pbuf_alloc pool pool witness_pool witness_memp no_custom noise PBUF_LINK n PBUF_RAM (pbuf_boot heap_fresh).
Definition packets_demo (n : Z) : demo_store := match alloc_demo n with Ok (s, _) => s | Err _ => pbuf_boot heap_fresh end.
Definition net_demo (s : demo_store) : net pool pool mmio :=
  MkNet s quiet_device {[0 := demo_if]} (replicate 10 entry_freed) 0.

Lemma boot_ok : @store_ok pool pool witness_pool witness_memp (pbuf_boot heap_fresh) ∅.
Proof.
  split.
  - apply (pbuf_boot_inv heap_fresh [(16000, false)] heap_fresh_rep).
  - intros x [? H]. cbn in H. by rewrite lookup_empty in H.
  - intros x b H. cbn in H. by rewrite lookup_empty in H.
  - intros a d H. cbn in H. by rewrite lookup_empty in H.
  - intros a [? H]. cbn in H. by rewrite lookup_empty in H.
Qed.

#[local] Notation demo_ok := (@arp_ok pool pool mmio witness_pool witness_memp demo_link).

Lemma net_demo_ok s E : @store_ok pool pool witness_pool witness_memp s E -> demo_ok (net_demo s) E.
Proof.
  intros Hs. assert (Hq : queued (replicate 10 entry_freed) = ∅).
  { unfold queued. cbn [replicate foldr of_q arp_q entry_freed]. by rewrite !(left_id_L ∅ (⊎)). }
  split; cbn [packets arp_table netifs device etharp_cached_entry net_demo]; rewrite ?Hq, ?(right_id_L ∅ (⊎)); try done.
  - intros p Hp. by apply gmultiset_not_elem_of_empty in Hp.
  - split; [done | apply Forall_replicate, entry_freed_ok|].
    intros i j e1 e2 H1 _ Hu _ _. apply lookup_replicate in H1 as [-> _]. by destruct Hu.
  - intros i nif Hi. apply lookup_singleton_Some in Hi as [_ <-]. split_and!; try done; [|solve_u..].
    repeat constructor; solve_u.
Qed.

(** The packet, and what is known of it. *)
Lemma packet_demo_ok n : is_u16 n -> alloc_demo n = Ok (packets_demo n, Some (HeapPtr 8)) ->
  @store_ok pool pool witness_pool witness_memp (packets_demo n) {[+ HeapPtr 8 +]} /\
  exists o, PBUF_LINK <= o /\ pbufs (packets_demo n) !! HeapPtr 8 = Some (fresh_ram (HeapPtr 8) o n) /\
    packet (pbufs (packets_demo n)) (areas (packets_demo n)) (HeapPtr 8) [(HeapPtr 8, fresh_ram (HeapPtr 8) o n)].
Proof.
  intros Hn Ea. destruct (@ram_ok pool pool witness_pool witness_memp no_custom noise noise_u8 (pbuf_boot heap_fresh) ∅ PBUF_LINK n boot_ok)
    as (s' & r & E & Hr); [by unfold PBUF_LINK | done |].
  unfold alloc_demo in Ea. rewrite Ea in E. injection E as <- <-. destruct Hr as (_ & _ & Hs & _ & _ & o & d & Ho & Eps & _ & Hp).
  rewrite (right_id_L ∅ (⊎)) in Hs. split; [done|]. exists o. split_and!; [done | by rewrite Eps, lookup_insert_eq | done].
Qed.

Lemma sendable_demo n : is_u16 n -> 0 < n -> alloc_demo n = Ok (packets_demo n, Some (HeapPtr 8)) ->
  sendable (net_demo (packets_demo n)) {[+ HeapPtr 8 +]} (HeapPtr 8).
Proof.
  intros Hn H0 Ea. destruct (packet_demo_ok n Hn Ea) as (Hs & o & Ho & Hb & Hp).
  split; cbn [packets net_demo].
  - by apply gmultiset_elem_of_singleton.
  - eapply own_head; [apply Hs | exact Hb | by apply gmultiset_elem_of_singleton | done].
  - intros l Hl. pose proof (chain_at_det _ _ _ _ (pk_chain _ _ _ _ Hp) (pk_chain _ _ _ _ Hl)) as <-. by repeat constructor.
  - intros b Hb'. rewrite Hb in Hb'. by injection Hb' as <-.
Qed.

Lemma bytes_test d : forallb (fun c => (0 <=? c) && (c <? 256)) d = true -> bytes_ok d.
Proof. rewrite forallb_forall. intros H. apply Forall_forall. intros x Hx%list_elem_of_In. specialize (H x Hx). solve_u. Qed.

(** A request of 10.0.2.9 for our address, as it arrives. *)
Definition asker : list Z := [2; 0; 0; 0; 0; 9].
Definition request_demo : list Z := arp_message ARP_REQUEST asker 0x0902000a ethzero 0x0202000a.
(** The packet with the bytes [d]. *)
Definition written_demo (d : list Z) : demo_store :=
  match @hdr_write pool pool (HeapPtr 8) 0 d (packets_demo (length d)) with Ok s => s | Err _ => packets_demo (length d) end.

Lemma written_demo_ok d : is_u16 (length d) -> bytes_ok d -> alloc_demo (length d) = Ok (packets_demo (length d), Some (HeapPtr 8)) ->
  @store_ok pool pool witness_pool witness_memp (written_demo d) {[+ HeapPtr 8 +]} /\
  exists o a, pbufs (written_demo d) !! HeapPtr 8 = Some (fresh_ram (HeapPtr 8) o (length d)) /\ PBUF_LINK <= o /\
    areas (written_demo d) !! HeapPtr 8 = Some a /\ o + length d <= length a /\ window a o (length d) = d.
Proof.
  intros Hn Hbd Ea. destruct (packet_demo_ok (length d) Hn Ea) as (Hs & o & Ho & Hb & Hp).
  assert (Hh : is_head (packets_demo (length d)) (HeapPtr 8)).
  { eapply own_head; [apply Hs | exact Hb | by apply gmultiset_elem_of_singleton | done]. }
  destruct (@hdr_write_ok pool pool witness_pool witness_memp (packets_demo (length d)) _ _ _ 0 d Hs Hb Hh) as (s' & E & Hs' & Eps & Hd & _);
    [by exists o | done | cbn; lia | done |].
  assert (written_demo d = s') as -> by (unfold written_demo; by rewrite E). split; [done|].
  assert (Hb' : pbufs s' !! HeapPtr 8 = Some (fresh_ram (HeapPtr 8) o (length d))) by (by rewrite Eps).
  destruct (so_payload _ _ Hs' _ _ Hb') as (a & o' & x & [= <- <-] & Ha & Ho' & _ & Hl & _).
  exists o, x. cbn [len fresh_ram pbuf_init_alloced_pbuf] in Hl. split_and!; try done.
  rewrite (payload_data_window _ _ (HeapPtr 8) o x) in Hd by (done || (cbn; lia)). cbn [len fresh_ram pbuf_init_alloced_pbuf] in Hd. rewrite Hd.
  pose proof (packet_length _ _ _ _ Hp) as Hlen. rewrite chain_data_single, total_len_cons in Hlen.
  cbn [snd len fresh_ram pbuf_init_alloced_pbuf] in Hlen. change (total_len []) with 0 in Hlen.
  change (Z.to_nat 0) with 0%nat. rewrite list_inserts_splice by lia.
  rewrite take_0, app_nil_l, drop_ge by lia. by rewrite app_nil_r.
Qed.

Definition input_demo : demo_store := written_demo request_demo.

Lemma input_demo_ok : @store_ok pool pool witness_pool witness_memp input_demo {[+ HeapPtr 8 +]} /\
  sole_message input_demo (HeapPtr 8) request_demo.
Proof.
  destruct (written_demo_ok request_demo) as (Hs & o & a & Hb & Ho & Ha & Hl & Hw); [unfold is_u16; cbn; lia | by apply bytes_test | by vm_compute |].
  split; [done|]. split; [|by eexists]. unfold PBUF_LINK in Ho. eexists _, o, a. split_and!; try done. lia.
Qed.

(** The whole state with that request. *)
Definition listening : net pool pool mmio := net_demo input_demo.

Definition no_acd (np : Z) (p : ptr) (k : net pool pool mmio) : res (net pool pool mmio) := Ok k.
#[local] Notation demo_part := (part_self (net pool pool mmio)).
#[local] Notation demo_user := (@arp_alone pool pool mmio witness_pool witness_memp demo_link).

Lemma no_acd_contract : @acd_contract pool pool witness_pool witness_memp mmio demo_link _ demo_part demo_user no_acd.
Proof. intros k E np p m Hk Hm _ Hnp. exists k. by split_and!. Qed.

Lemma listening_ok : demo_ok listening {[+ HeapPtr 8 +]}.
Proof. apply net_demo_ok, input_demo_ok. Qed.

Definition sending : net pool pool mmio := net_demo (packets_demo 20).

Lemma sending_ok : demo_ok sending {[+ HeapPtr 8 +]}.
Proof. apply net_demo_ok. by apply (packet_demo_ok 20). Qed.

End Demo.

Import Demo.

(** The packet of 20 bytes goes to the unknown neighbour 10.0.2.3. *)
Lemma arp_safe_witness :
  exists k', @arp_exec pool pool witness_pool witness_memp mmio demo_link _ (part_self _) no_custom noise no_acd
      (OpOutput 0 (HeapPtr 8) 0x0302000a) sending = Ok k' /\
    @arp_ok pool pool mmio witness_pool witness_memp demo_link k' {[+ HeapPtr 8 +]}.
Proof.
  apply (@arp_safe pool pool witness_pool witness_memp mmio demo_link _ (part_self _)
    (@arp_alone pool pool mmio witness_pool witness_memp demo_link) no_custom noise noise_u8 no_acd
    (OpOutput 0 (HeapPtr 8) 0x0302000a) sending {[+ HeapPtr 8 +]} no_acd_contract sending_ok).
  split; [by eexists|]. split; [unfold is_u32; lia | by apply (sendable_demo 20)].
Defined.

Lemma etharp_output_resolves_witness :
  exists n' r, @etharp_output pool pool witness_pool witness_memp mmio demo_link no_custom noise 0 (HeapPtr 8) 0x0302000a sending = Ok (n', r) /\
    @resolved pool pool mmio demo_link 0 0x0302000a demo_if (HeapPtr 8) sending n' r.
Proof.
  destruct (@etharp_output_resolves pool pool witness_pool witness_memp mmio demo_link no_custom noise noise_u8
    sending {[+ HeapPtr 8 +]} 0 demo_if 0x0302000a (HeapPtr 8) sending_ok eq_refl) as (n' & r & E & _ & _ & _ & H).
  - unfold is_u32; lia.
  - by apply (sendable_demo 20).
  - exists n', r. by split.
Defined.

(** The request for our address is answered. *)
Lemma etharp_input_correct_witness :
  exists k', @etharp_input pool pool witness_pool witness_memp mmio demo_link no_custom noise _ (part_self _) no_acd (HeapPtr 8) 0 listening = Ok k' /\
    wire (LinkDriver := demo_link) (device k') =
      [frame_of asker (hwaddr demo_if) ETHTYPE_ARP (arp_message ARP_REPLY (hwaddr demo_if) 0x0202000a asker 0x0902000a)] /\
    @arp_ok pool pool mmio witness_pool witness_memp demo_link k' ∅.
Proof.
  destruct (@etharp_input_correct pool pool witness_pool witness_memp mmio demo_link _ (part_self _)
    (@arp_alone pool pool mmio witness_pool witness_memp demo_link) no_custom noise noise_u8 no_acd listening ∅ 0 (HeapPtr 8)
    ARP_REQUEST asker 0x0902000a ethzero 0x0202000a no_acd_contract) as (k1 & nif & n2 & r & k' & _ & _ & _ & _ & _ & E & Hk & _).
  - rewrite (right_id_L ∅ (⊎)). exact listening_ok.
  - by eexists.
  - apply input_demo_ok.
  - done.
  - done.
  - by apply bytes_test.
  - by apply bytes_test.
  - unfold is_u16, ARP_REQUEST; lia.
  - unfold is_u32; lia.
  - unfold is_u32; lia.
  - exists k'. split; [exact E|]. split; [|exact Hk].
    assert (match @etharp_input pool pool witness_pool witness_memp mmio demo_link no_custom noise _ (part_self _) no_acd (HeapPtr 8) 0 listening with
            | Ok k => wire (LinkDriver := demo_link) (device k)
            | Err _ => [] end = [frame_of asker (hwaddr demo_if) ETHTYPE_ARP (arp_message ARP_REPLY (hwaddr demo_if) 0x0202000a asker 0x0902000a)]) as H
      by (vm_compute; reflexivity).
    rewrite E in H. exact H.
Defined.

(** The neighbour answers after four ticks. *)
Lemma etharp_query_delivers_witness :
  exists n1 n2 n3, @etharp_query pool pool witness_pool witness_memp mmio demo_link no_custom noise 0 0x0302000a (Some (HeapPtr 8)) sending = Ok (n1, ERR_OK) /\
    @ticks pool pool witness_pool witness_memp mmio demo_link no_custom noise 4 n1 = Ok n2 /\
    @etharp_update_arp_entry pool pool witness_pool witness_memp mmio demo_link no_custom 0 0x0302000a asker 0 n2 = Ok (n3, ERR_OK) /\
    wire (LinkDriver := demo_link) (device n3) = wire (LinkDriver := demo_link) (device n2) ++
      [frame_of asker (hwaddr demo_if) ETHTYPE_IP (seqZ 16 20)].
Proof.
  destruct (packet_demo_ok 20) as (_ & o & Ho & _ & Hp); [unfold is_u16; lia | by vm_compute |].
  assert (Hroom : has_room [(HeapPtr 8, fresh_ram (HeapPtr 8) o 20)] = true).
  { unfold has_room, header_room, PBUF_LINK, SIZEOF_ETH_HDR in *. cbn [payload type_internal tot_len fresh_ram pbuf_init_alloced_pbuf].
    destruct (Z.leb_spec 14 o); [done | lia]. }
  assert (Hdata : chain_data (areas (packets sending)) [(HeapPtr 8, fresh_ram (HeapPtr 8) o 20)] = seqZ 16 20).
  { assert (o = 16) as -> by (pose proof (packet_lookup _ _ _ _ Hp) as Hb; vm_compute in Hb; by injection Hb). by vm_compute. }
  rewrite <- Hdata.
  destruct (@etharp_query_delivers pool pool witness_pool witness_memp mmio demo_link no_custom noise noise_u8
    sending {[+ HeapPtr 8 +]} 0 demo_if 0x0302000a (HeapPtr 8) [(HeapPtr 8, fresh_ram (HeapPtr 8) o 20)] asker 0 4 sending_ok eq_refl)
    as (n1 & r & E1 & _ & [[_ Hv]|(-> & n2 & n3 & E2 & E3 & _ & Hw)]).
  - unfold is_u32; lia.
  - by vm_compute.
  - apply Forall_replicate. by intros [].
  - by apply (sendable_demo 20).
  - exact Hp.
  - exact Hroom.
  - cbn. lia.
  - done.
  - by apply bytes_test.
  - lia.
  - discriminate Hv.
  - exists n1, n2, n3. by split_and!.
Defined.

Lemma etharp_entries_expire_witness :
  exists n', @ticks pool pool witness_pool witness_memp mmio demo_link no_custom noise 300 sending = Ok n' /\ Forall (fun e => ~ in_use e) (arp_table n').
Proof.
  destruct (@etharp_entries_expire pool pool witness_pool witness_memp mmio demo_link no_custom noise noise_u8
    sending {[+ HeapPtr 8 +]} sending_ok) as [_ (n' & E & _ & H)].
  exists n'. by split.
Defined.

Lemma etharp_find_entry_recycles_witness :
  exists n' i, @etharp_find_entry pool pool witness_pool witness_memp mmio no_custom (Some 0x0302000a) ETHARP_FLAG_TRY_HARD (Some 0) sending = Ok (n', i) /\
    i = 0 /\ @found pool pool witness_pool mmio 0x0302000a 0 ETHARP_FLAG_TRY_HARD sending n' i.
Proof.
  destruct (@etharp_find_entry_recycles pool pool witness_pool witness_memp mmio demo_link no_custom
    sending {[+ HeapPtr 8 +]} 0x0302000a 0 ETHARP_FLAG_TRY_HARD sending_ok) as (n' & i & E & _ & H); [unfold is_u32; lia|].
  exists n', i. split; [exact E|]. split; [|exact H].
  assert (match @etharp_find_entry pool pool witness_pool witness_memp mmio no_custom (Some 0x0302000a) ETHARP_FLAG_TRY_HARD (Some 0) sending with
          | Ok (_, j) => j | Err _ => -9 end = 0) as Hi by (vm_compute; reflexivity).
  rewrite E in Hi. exact Hi.
Defined.
