(* ===== verification/EthInput.v ===== *)
(** * Incoming frames: the contract of [ethernet_input]

    The frame is owned by [ethernet_input], which marks the packet, takes the
    header off and passes the packet on to the layer of its type, or frees it. *)

From stdpp Require Import gmultiset.
From S2P Require Import Prelude Strings Onescomp Def Ip4Addr Eth Alloc Memp Mem Pbuf PbufRef PbufAlloc PbufStore PbufPool PbufTrim Ethernet EthArp EthArpOps LwipPort ArpSpec.

(** ** Specifications *)

(** The flag for a group address of the link layer. *)
Definition cast_flag (dest : list Z) : Z :=
  match dest with
  | d0 :: d1 :: d2 :: _ =>
      if Z.land d0 1 =? 0 then 0
      else if d0 =? 1 then if (d1 =? 0) && (d2 =? 0x5e) then PBUF_FLAG_LLMCAST else 0
      else if bool_decide (dest = ethbroadcast) then PBUF_FLAG_LLBCAST else 0
  | _ => 0
  end.

(** The pbuf with the interface and the flag in it. *)
Definition stamped (nif : netif) (dest : list Z) (b : pbuf) : pbuf :=
  with_flags (Z.lor (flags b) (cast_flag dest))
    (if if_idx b =? NETIF_NO_INDEX then with_if_idx (netif_get_index nif) b else b).

Section Input.
Context {P1 P2 : Type} `{!PoolAlloc P1} `{!PoolAlloc P2} {X : Type} `{!LinkDriver X}.
Implicit Type s : store P1 P2.
#[local] Set Default Proof Using "Type*".

(** A packet that has just arrived: it is made of pbufs from the pool with data
    in all of them, which nobody else knows; there are [head] bytes in front of
    its data and the memory goes on for [room] bytes. *)
Record arrived s (p : ptr) (b : pbuf) (head room : Z) : Prop := Arrived
  { ar_head : pbufs s !! p = Some b;
    ar_private : exists l, chain_at (pbufs s) (Some p) ((p, b) :: l) /\ Forall pool_private ((p, b) :: l);
    ar_memory : exists o d, payload b = Some (p, o) /\ head <= o /\ areas s !! p = Some d /\ o + room <= length d /\ o + tot_len b <= 65535 }.

Lemma arrived_ref s p b head room : arrived s p b head room -> ref b = 1.
Proof using Type. intros [_ (l & _ & [(H & _) _]%Forall_cons) _]. exact H. Qed.

Lemma mark_cast_ok dest b : length dest = 6%nat -> mark_cast dest b = Ok (with_flags (Z.lor (flags b) (cast_flag dest)) b).
Proof using Type.
  intros Hl. destruct dest as [|d0 [|d1 [|d2 [|d3 [|d4 [|d5 [|]]]]]]]; try done.
  unfold mark_cast, cast_flag. change (buf_get [d0; d1; d2; d3; d4; d5] 0) with (Ok d0).
  change (buf_get [d0; d1; d2; d3; d4; d5] 1) with (Ok d1). change (buf_get [d0; d1; d2; d3; d4; d5] 2) with (Ok d2). rewrite bind_ok.
  assert (Hid : with_flags (Z.lor (flags b) 0) b = b) by (rewrite Z.lor_0_r; by destruct b).
  unfold LL_IP4_MULTICAST_ADDR_0, LL_IP4_MULTICAST_ADDR_1, LL_IP4_MULTICAST_ADDR_2.
  destruct (Z.land d0 1 =? 0); cbn [negb]; [by rewrite Hid|]. destruct (d0 =? 1).
  - rewrite !bind_ok. destruct (_ && _); [done | by rewrite Hid].
  - destruct (bool_decide _); [done | by rewrite Hid].
Qed.

Lemma stamped_head (ar : gmap ptr (list Z)) p nif dest b : tot_len b <= 65535 -> payload_ok ar p b -> new_head ar p b (stamped nif dest b).
Proof using Type.
  intros Ht (a & o & d & Hp & Ha & Ho & Hl & Hd & Hk). unfold stamped.
  assert (Hm : Z.land (cast_flag dest) PBUF_FLAG_IS_CUSTOM = 0).
  { unfold cast_flag. destruct dest as [|d0 [|d1 [|d2 dest]]]; try done.
    destruct (_ =? 0); [done|]. destruct (d0 =? 1); [by destruct (_ && _) | by destruct (bool_decide _)]. }
  destruct (if_idx b =? NETIF_NO_INDEX); split; try done; cbn [flags with_flags with_if_idx];
    try (rewrite Z.land_lor_distr_l, Hm; apply Z.lor_0_r); by exists a, o, d.
Qed.

Lemma new_head_trans (ar : gmap ptr (list Z)) p b1 b2 b3 : new_head ar p b1 b2 -> new_head ar p b2 b3 -> new_head ar p b1 b3.
Proof using Type. intros [] []. split; (congruence || done). Qed.

(** Reading the header of an arrived frame. *)
Lemma arrived_read s E p b head room off k : store_ok s E -> arrived s p b head room -> 0 <= head -> 0 <= off -> 0 <= k -> off + k <= len b ->
  hdr_read p off k s = Ok (window (payload_data (areas s) b) off k).
Proof using Type.
  intros Hs [Hb _ (o & d & Hp & Ho & Ha & _)] H0 H1 H2 H3. unfold hdr_read. rewrite (get_some _ _ _ Hb), bind_ok, Hp.
  destruct (so_payload _ _ Hs p b Hb) as (a & o' & d' & Hp' & Ha' & _ & Hl & Hd & _). rewrite Hp in Hp'. injection Hp' as <- <-.
  rewrite Ha in Ha'. injection Ha' as <-.
  rewrite (area_read_intro _ p o d off k) by (done || lia). rewrite (payload_data_window _ _ p o d) by (done || lia). f_equal.
  unfold window. rewrite skipn_firstn_comm, take_take, drop_drop. f_equal; [lia|]. f_equal; lia.
Qed.

(** A new head for the packet, in the whole state. *)
Lemma replace_head_ok (n : net P1 P2 X) E p b b' : arp_ok n E -> pbufs (packets n) !! p = Some b -> is_head (packets n) p ->
  new_head (areas (packets n)) p b b' ->
  arp_ok (set_packets (set_pbufs (<[p := b']> (pbufs (packets n))) (packets n)) n) E.
Proof.
  intros [H1 H2 H3 H4 H5 H6] Hb Hh Hnh. destruct (new_head_ok _ _ _ _ _ H1 Hb Hh Hnh) as (Hs & _). split; try done.
  intros y Hy. unfold is_head. cbn. rewrite (incoming_same_next _ p b); [by apply H2 | done | apply Hnh].
Qed.

End Input.

(** ** The contract *)

Section Contract.
Context {P1 P2 : Type} `{!PoolAlloc P1} `{!PoolAlloc P2} {X : Type} `{!LinkDriver X}.
Context {K : Type} `{Q : !Part K (net P1 P2 X)} `{U : !ArpUser P1 P2 X K}.
Implicit Type s : store P1 P2.
Implicit Type k : K.
#[local] Set Default Proof Using "Type*".

(** The contract of a layer above: it takes a packet over. *)
Definition layer_contract (room : Z) (f : ptr -> Z -> K -> res K) : Prop :=
  forall k E np p b, user_inv k ({[+ p +]} ⊎ E) -> is_Some (netifs (part k) !! np) -> arrived (packets (part k)) p b SIZEOF_ETH_HDR room ->
  exists k', f p np k = Ok k' /\ user_inv k' E.

(** The layer for a frame with the bytes [d]. *)
Definition layer_of (ip4_input etharp_input : ptr -> Z -> K -> res K) (nif : netif) (d : list Z) : option (ptr -> Z -> K -> res K) :=
  if Z.of_nat (length d) <=? SIZEOF_ETH_HDR then None
  else if Z.land (netif_flags nif) NETIF_FLAG_ETHARP =? 0 then None
  else if bool_decide (window d eth_hdr_type 2 = [8; 0]) then Some ip4_input
  else if bool_decide (window d eth_hdr_type 2 = [8; 6]) then Some etharp_input
  else None.

(** Packets of the whole state. *)
Definition with_packets s k : K := set_part (set_packets s (part k)) k.
#[local] Instance k_packets : Part K (store P1 P2) := part_compose Q (packets_part P1 P2 X).

Lemma frame_type d : bytes_ok d -> 14 < length d ->
  exists t, get16 (window d eth_hdr_type 2) 0 = Ok t /\
    (t =? lwip_htons ETHTYPE_IP) = bool_decide (window d eth_hdr_type 2 = [8; 0]) /\
    (t =? lwip_htons ETHTYPE_ARP) = bool_decide (window d eth_hdr_type 2 = [8; 6]).
Proof using Type.
  intros Hb Hl. assert (Hw : length (window d eth_hdr_type 2) = 2%nat).
  { apply Nat2Z.inj. unfold eth_hdr_type. rewrite window_length by lia. lia. }
  assert (Hbw : bytes_ok (window d eth_hdr_type 2)) by (apply Forall_take, Forall_drop, Hb).
  destruct (window d eth_hdr_type 2) as [|x [|y [|]]]; try done. unfold bytes_ok in Hbw. rewrite !Forall_cons in Hbw. destruct Hbw as (Hx & Hy & _).
  exists (x + 256 * y). split; [done|]. change (lwip_htons ETHTYPE_IP) with 8. change (lwip_htons ETHTYPE_ARP) with 1544.
  split; apply eq_true_iff_eq; rewrite Z.eqb_eq, bool_decide_eq_true; (split; [intros E; do 2 f_equal; [solve_u | f_equal; solve_u] | intros [= -> ->]; lia]).
Qed.

Variable custom_free_function : ptr -> store P1 P2 -> res (store P1 P2).
Variable ip4_input etharp_input : ptr -> Z -> K -> res K.

Lemma with_packets_ok k E E' s : user_inv k E -> arp_ok (set_packets s (part k)) (E' ⊎ held k) -> user_inv (with_packets s k) E'.
Proof. intros Hk Hn. by apply (user_set k E). Qed.

(** The packet is given back. *)
Lemma give_back_ok k E E' p s : user_inv k E' -> arp_ok (set_packets s (part k)) (({[+ p +]} ⊎ E) ⊎ held k) ->
  exists s', free_and_return custom_free_function p (with_packets s k) = Ok (with_packets s' k, ERR_OK) /\ user_inv (with_packets s' k) E /\ keeps s s'.
Proof.
  intros Hk Hn. unfold free_and_return, with_packets. cbn [part set_part k_packets part_compose packets_part]. rewrite part_set.
  cbn [packets set_packets]. rewrite <- (assoc_L (⊎)) in Hn. destruct (free_packet_ok custom_free_function _ _ p Hn) as (s' & Ef & Hn' & Hsh).
  unfold free_packet in Ef. apply bind_inv in Ef as ([s2 c] & Ef & [= <-]). cbn [packets set_packets] in Ef. rewrite Ef, bind_ok.
  rewrite set_set_part. exists s2. split; [done|]. split; [by apply (with_packets_ok k E') | apply Hsh].
Qed.

Lemma ethernet_input_ok room k E p np nif b : user_inv k ({[+ p +]} ⊎ E) -> netifs (part k) !! np = Some nif ->
  arrived (packets (part k)) p b 0 room -> SIZEOF_ETH_HDR <= room ->
  layer_contract (room - SIZEOF_ETH_HDR) ip4_input -> layer_contract (room - SIZEOF_ETH_HDR) etharp_input ->
  let d := payload_data (areas (packets (part k))) b in
  let b' := grow_head (- SIZEOF_ETH_HDR) (stamped nif (window d eth_hdr_dest ETH_HWADDR_LEN) b) in
  let k1 := with_packets (set_pbufs (<[p := b']> (pbufs (packets (part k)))) (packets (part k))) k in
  exists k', ethernet_input custom_free_function ip4_input etharp_input p np nif k = Ok (k', ERR_OK) /\ user_inv k' E /\
    match layer_of ip4_input etharp_input nif d with
    | Some f => f p np k1 = Ok k' /\ user_inv k1 ({[+ p +]} ⊎ E)
    | None => exists s', k' = with_packets s' k /\ keeps (packets (part k)) s'
    end.
Proof.
  intros Hk Hnif Harr Hr Hip Harp d b' k1. pose proof (arrived_ref _ _ _ _ _ Harr) as Href.
  pose proof Harr as [Hb (l & Hc & Hpr) (o & a & Hp & Ho & Ha & Hroom & Htop)].
  pose proof (user_arp _ _ Hk) as Hn. pose proof (ao_store _ _ Hn) as Hs. set (s := packets (part k)) in *.
  assert (Hh : is_head s p) by (eapply own_head; [apply Hs | exact Hb | multiset_solver | done]).
  destruct (so_payload _ _ Hs p b Hb) as (x & o2 & a2 & Hp2 & Ha2 & _ & Hl & Hla & _). rewrite Hp in Hp2. injection Hp2 as <- <-.
  rewrite Ha in Ha2. injection Ha2 as <-.
  assert (Hd : length d = len b :> Z) by (unfold d; rewrite (payload_data_window _ _ p o a) by (done || lia); rewrite window_length by lia; lia).
  destruct (head_bounds _ _ _ _ Hs Hb) as [[_ Hlt] Hmax].
  assert (Hself : set_packets s (part k) = part k) by (unfold s; by destruct (part k)).
  unfold ethernet_input, layer_of. change (part (N := store P1 P2) k) with s. rewrite (get_some _ _ _ Hb), bind_ok, Hd.
  destruct (Z.leb_spec (len b) SIZEOF_ETH_HDR) as [Hshort|Hlong].
  { destruct (give_back_ok k E _ p s Hk) as (s' & Ef & Hk' & Hkp); [by rewrite Hself|].
    unfold with_packets in Ef at 1. rewrite Hself, set_part_part in Ef. rewrite Ef. exists (with_packets s' k). split_and!; try done. by exists s'. }
  assert (Hread : forall off n, 0 <= off -> 0 <= n -> off + n <= len b -> hdr_read p off n s = Ok (window d off n)).
  { intros off n H1 H2 H3. by apply (arrived_read s _ p b 0 _ off n Hs Harr). }
  unfold SIZEOF_ETH_HDR in *. unfold hdr_read16. rewrite Hread, bind_ok by (unfold eth_hdr_type; lia).
  assert (Hdb : bytes_ok d).
  { unfold d. rewrite (payload_data_window _ _ p o a) by (done || lia). apply Forall_take, Forall_drop. by apply (so_bytes _ _ Hs p). }
  destruct (frame_type d Hdb ltac:(lia)) as (t & Et & Eip & Earp). rewrite Et, bind_ok.
  set (b1 := if if_idx b =? NETIF_NO_INDEX then with_if_idx (netif_get_index nif) b else b).
  assert (E1 : (if if_idx b =? NETIF_NO_INDEX then modify p (with_if_idx (netif_get_index nif)) s else Ok s) = Ok (set_pbufs (<[p := b1]> (pbufs s)) s)).
  { unfold b1. destruct (if_idx b =? NETIF_NO_INDEX); [by rewrite (modify_some _ _ _ _ Hb)|]. rewrite insert_id by done. by destruct s. }
  rewrite E1, bind_ok. set (s1 := set_pbufs (<[p := b1]> (pbufs s)) s).
  assert (Hb1 : pbufs s1 !! p = Some b1) by apply lookup_insert_eq.
  assert (Epay : payload b1 = payload b) by (unfold b1; by destruct (if_idx b =? NETIF_NO_INDEX)).
  assert (Edst : hdr_read p eth_hdr_dest ETH_HWADDR_LEN s1 = Ok (window d eth_hdr_dest ETH_HWADDR_LEN)).
  { rewrite <- (Hread eth_hdr_dest ETH_HWADDR_LEN) by (unfold eth_hdr_dest, ETH_HWADDR_LEN; lia).
    unfold hdr_read. by rewrite (get_some _ _ _ Hb), (get_some _ _ _ Hb1), !bind_ok, Epay. }
  rewrite Edst, bind_ok, (get_some _ _ _ Hb1), bind_ok, mark_cast_ok, bind_ok.
  2: { apply Nat2Z.inj. unfold eth_hdr_dest, ETH_HWADDR_LEN. rewrite window_length by lia. lia. }
  set (dst := window d eth_hdr_dest ETH_HWADDR_LEN) in *. set (b2 := stamped nif dst b) in *.
  assert (Eb2 : with_flags (Z.lor (flags b1) (cast_flag dst)) b1 = b2).
  { unfold b2, stamped. fold b1. f_equal. unfold b1. by destruct (if_idx b =? NETIF_NO_INDEX). }
  rewrite (modify_some _ _ _ _ Hb1), bind_ok, Eb2. cbn [pbufs set_pbufs s1]. rewrite insert_insert_eq.
  set (s2 := set_pbufs (<[p := b2]> (pbufs s)) s).
  pose proof (stamped_head _ p nif dst b ltac:(lia) (so_payload _ _ Hs p b Hb)) as Hnh2. fold b2 in Hnh2.
  pose proof (replace_head_ok _ _ _ _ b2 Hn Hb Hh Hnh2) as Hn2. fold s s2 in Hn2.
  pose proof (ao_store _ _ Hn2) as Hs2. cbn [packets arp_table set_packets] in Hs2.
  assert (Hb2 : pbufs s2 !! p = Some b2) by apply lookup_insert_eq.
  assert (Hlen2 : len b2 = len b) by (unfold b2, stamped; by destruct (if_idx b =? NETIF_NO_INDEX)).
  destruct (remove_header_ok s2 _ p b2 14 Hs2 Hb2) as [Erm Hnh]; [lia|]. rewrite Hlen2 in Erm, Hnh.
  destruct (Z.leb_spec 14 (len b)); [|lia]. specialize (Hnh ltac:(lia)).
  cbv zeta.
  assert (Hpart : forall s', part (N := store P1 P2) (with_packets s' k) = s').
  { intros s'. unfold with_packets. cbn [part set_part k_packets part_compose packets_part]. by rewrite part_set. }
  assert (Hset : forall s' s'', set_part s'' (with_packets s' k) = with_packets s'' k).
  { intros s' s''. unfold with_packets. cbn [part set_part k_packets part_compose packets_part]. by rewrite part_set, set_set_part. }
  assert (Hfree : exists k', free_and_return custom_free_function p (with_packets s2 k) = Ok (k', ERR_OK) /\ user_inv k' E /\
    exists s', k' = with_packets s' k /\ keeps s s').
  { destruct (give_back_ok k E _ p s2 Hk Hn2) as (s' & Ef & Hk' & Hkp). exists (with_packets s' k). split_and!; try done. exists s'. split; [done|].
    transitivity s2; [by apply same_alloc_keeps, (insert_alloc s p b) | done]. }
  rewrite Eip, Earp.
  assert (Hh2 : is_head s2 p) by (unfold is_head, s2; cbn; rewrite (incoming_same_next _ p b); [done | done | unfold b2, stamped; by destruct (if_idx b =? NETIF_NO_INDEX)]).
  pose proof (replace_head_ok _ _ _ _ b' Hn2 Hb2 Hh2 Hnh) as Hn3. cbn [packets set_packets] in Hn3.
  assert (E3 : set_packets (set_pbufs (<[p := b']> (pbufs s2)) s2) (set_packets s2 (part k)) = set_packets (set_pbufs (<[p := b']> (pbufs s)) s) (part k)).
  { unfold s2, set_packets, set_pbufs. cbn. by rewrite insert_insert_eq. }
  rewrite E3 in Hn3. assert (Hk1 : user_inv k1 ({[+ p +]} ⊎ E)) by (apply (with_packets_ok k _ _ _ Hk Hn3)).
  assert (Erm' : set_part (set_pbufs (<[p := grow_head (Z.opp 14) b2]> (pbufs s2)) s2) (with_packets s2 k) = k1).
  { rewrite Hset. unfold k1, s2. cbn [pbufs set_pbufs]. rewrite insert_insert_eq. done. }
  assert (Hpass : forall f, layer_contract (room - 14) f -> exists k', f p np k1 = Ok k' /\ user_inv k' E).
  { intros f Hf. apply (Hf k1 E np p b' Hk1).
    - unfold k1, with_packets. rewrite part_set. cbn. by eexists.
    - unfold k1, with_packets. rewrite part_set. cbn [packets set_packets].
      assert (Hb'p : payload b' = Some (p, o + 14) /\ tot_len b' = tot_len b - 14 /\ pool_private (p, b')).
      { apply Forall_cons in Hpr as [(G1 & G2 & G3) _]. cbn [snd] in *. unfold b', grow_head, b2, stamped, pool_private, SIZEOF_ETH_HDR.
        destruct (if_idx b =? NETIF_NO_INDEX); cbn; rewrite Hp; cbn; (split; [do 2 f_equal; lia | split_and!; try done; lia]). }
      destruct Hb'p as (Hpb & Htb & Hprb). pose proof (new_head_trans _ p b b2 b' Hnh2 Hnh) as Hnhb.
      split; [apply lookup_insert_eq | |].
      + exists l. split; [|apply Forall_cons in Hpr as [_ Hpr]; by constructor]. cbn [pbufs set_pbufs]. by apply (proj1 (new_head_chain (pbufs s) (areas s) p b b' Hb Hh Hnhb)).
      + exists (o + 14), a. rewrite Hpb, Htb. unfold SIZEOF_ETH_HDR. split_and!; (done || lia). }
  destruct (Z.land (netif_flags nif) NETIF_FLAG_ETHARP =? 0).
  { by destruct (bool_decide _), (bool_decide _). }
  destruct (bool_decide _); [|destruct (bool_decide _); [|done]].
  all: change (set_part (set_pbufs (<[p := b2]> (pbufs s)) s1) k) with (with_packets s2 k); rewrite Hpart, Erm, bind_ok; cbv zeta; rewrite Erm', Z.eqb_refl; cbn [negb].
  - destruct (Hpass ip4_input Hip) as (k' & -> & Hk'). rewrite bind_ok. exists k'. by split_and!.
  - destruct (Hpass etharp_input Harp) as (k' & -> & Hk'). rewrite bind_ok. exists k'. by split_and!.
Qed.

End Contract.

Section Layers.
Context {P1 P2 : Type} `{!PoolAlloc P1} `{!PoolAlloc P2} {X : Type} `{!LinkDriver X}.
Context {K : Type} `{Q : !Part K (net P1 P2 X)} `{U : !ArpUser P1 P2 X K}.
Implicit Type k : K.
#[local] Set Default Proof Using "Type*".
Variable custom_free_function : ptr -> store P1 P2 -> res (store P1 P2).
Variable fresh_byte : nat -> Z.
Hypothesis fresh_u8 : forall i, is_u8 (fresh_byte i).
Variable acd_arp_reply : Z -> ptr -> K -> res K.
Hypothesis acd_ok : acd_contract acd_arp_reply.

(** [etharp_input] keeps the contract of a layer: any packet with 28 bytes of
    memory, long enough or not. *)
Lemma etharp_layer room : 28 <= room -> layer_contract room (etharp_input custom_free_function fresh_byte acd_arp_reply).
Proof.
  intros Hr k E np p b Hk Hnp Harr. pose proof (arrived_ref _ _ _ _ _ Harr) as Href. destruct Harr as [Hb _ (o & a & Hp & Ho & Ha & Hl & _)].
  unfold SIZEOF_ETH_HDR in Ho.
  apply (input_any custom_free_function fresh_byte fresh_u8 acd_arp_reply acd_ok k E p np (window a o 28) Hk Hnp).
  - split; [|by exists b]. exists b, o, a.
    assert (Hlw : Z.of_nat (length (window a o 28)) = 28) by (rewrite window_length by lia; lia). rewrite Hlw. by split_and!; try lia.
  - apply Nat2Z.inj. rewrite window_length by lia. lia.
Qed.

End Layers.

(** ** Properties *)

Section Properties.
Context {P1 P2 : Type} `{!PoolAlloc P1} `{!PoolAlloc P2} {X : Type} `{!LinkDriver X}.
Context {K : Type} `{Q : !Part K (net P1 P2 X)} `{U : !ArpUser P1 P2 X K}.
Implicit Type k : K.
#[local] Set Default Proof Using "Type*".
Variable custom_free_function : ptr -> store P1 P2 -> res (store P1 P2).
Variable fresh_byte : nat -> Z.
Hypothesis fresh_u8 : forall i, is_u8 (fresh_byte i).

(** [ethernet_input] always takes the frame over and returns ERR_OK. A frame
    of at most 14 bytes, of another type or on an interface without ARP is
    freed; the others are marked with the interface and the kind of address,
    lose the 14 bytes of the header and are passed to the layer of their type,
    IPv4 or ARP, once. Only 42 bytes of memory are needed, whatever the length
    field says. *)
Lemma ethernet_input_correct acd_arp_reply ip4_input k E p np nif b : acd_contract acd_arp_reply -> layer_contract 28 ip4_input ->
  user_inv k ({[+ p +]} ⊎ E) -> netifs (part k) !! np = Some nif -> arrived (packets (part k)) p b 0 42 ->
  let arp := etharp_input custom_free_function fresh_byte acd_arp_reply in
  let d := payload_data (areas (packets (part k))) b in
  let b' := grow_head (- SIZEOF_ETH_HDR) (stamped nif (window d eth_hdr_dest ETH_HWADDR_LEN) b) in
  let k1 := with_packets (set_pbufs (<[p := b']> (pbufs (packets (part k)))) (packets (part k))) k in
  exists k', @ethernet_input P1 P2 _ _ custom_free_function K (part_compose Q (packets_part P1 P2 X)) ip4_input arp p np nif k = Ok (k', ERR_OK) /\
    user_inv k' E /\
    match layer_of ip4_input arp nif d with
    | Some f => f p np k1 = Ok k' /\ user_inv k1 ({[+ p +]} ⊎ E)
    | None => exists s', k' = with_packets s' k /\ keeps (packets (part k)) s'
    end.
Proof.
  intros Hacd Hip Hk Hnif Harr. apply (ethernet_input_ok custom_free_function ip4_input _ 42); try done.
  by apply etharp_layer.
Qed.

End Properties.
