(* ===== verification/Receive.v ===== *)
(** * The receive path, from the controller to the layers

    [ethernetif_input] of lwip_port.c with [ethernet_input] of ethernet.c as the
    interface's input function, as main.c connects them: what becomes of a frame
    in the controller's FIFO. *)

From stdpp Require Import gmultiset.
From S2P Require Import Prelude Strings Onescomp Def Ip4Addr Eth Alloc Memp Mem Pbuf PbufRef PbufAlloc PbufStore PbufPool PbufTrim Ethernet EthArp EthArpOps EthArpOut LwipPort ArpSpec EthInput.

(** ** Definitions *)

(** The interfaces and the ARP table, beside the packets and the controller. *)
Record arp_side : Type := Side { side_netifs : gmap Z netif; side_table : list etharp_entry; side_cached : Z }.

(** The state of the ARP module inside the kernel's. *)
#[export] Instance port_part P1 P2 Y (H : Part Y arp_side) : Part (port P1 P2 Y) (net P1 P2 mmio).
Proof.
  refine {| part := fun k => MkNet (st k) (eth_dev k) (side_netifs (part (stack k))) (side_table (part (stack k))) (side_cached (part (stack k)));
            set_part := fun n k => Port (packets n) (device n) (eth_rx_flag k)
              (set_part (Side (netifs n) (arp_table n) (etharp_cached_entry n)) (stack k)) |}.
  - intros [] k. cbn. by rewrite part_set.
  - intros [s d f y]. cbn. f_equal. rewrite <- (set_part_part y) at 5. f_equal. by destruct (part y).
  - intros n n' k. cbn. by rewrite set_set_part.
Defined.

Section Receive.
Context {P1 P2 : Type} `{!PoolAlloc P1} `{!PoolAlloc P2} {Y : Type} `{!Part Y arp_side}.
Implicit Type k : port P1 P2 Y.
Variable REG : Z -> nat -> Z.
Variable custom_free_function : ptr -> store P1 P2 -> res (store P1 P2).
Variable fresh_byte : nat -> Z.
Variable ip4_input etharp_input : ptr -> Z -> port P1 P2 Y -> res (port P1 P2 Y).

(** [netif->input] of the interface [netif_p], which main.c sets to
    [ethernet_input]. *)
Definition netif_input (netif_p : Z) (p : ptr) k : res (port P1 P2 Y * Z) :=
  nif ← netif_at netif_p (part k);
  @ethernet_input P1 P2 _ _ custom_free_function _ (part_compose (port_part P1 P2 Y _) (packets_part P1 P2 mmio))
    ip4_input etharp_input p netif_p nif k.

Definition receive (netif_p : Z) (buffer : list Z) k : res (port P1 P2 Y) :=
  ethernetif_input REG custom_free_function fresh_byte (netif_input netif_p) buffer k.

End Receive.

(** ** Lemmas *)

Lemma pending_frame_bytes REG m : bytes_ok (pending_frame REG m).
Proof.
  unfold pending_frame. cbv zeta. apply Forall_take, Forall_drop. unfold words_bytes, fifo.
  apply Forall_forall. intros c (w & Hc & _)%list_elem_of_bind. unfold le4 in Hc.
  repeat (apply elem_of_cons in Hc as [->|Hc]; [solve_u|]). by apply elem_of_nil in Hc.
Qed.

Section Grown.
Context {P1 P2 : Type} `{!PoolAlloc P1} `{!PoolAlloc P2}.
Implicit Type s : store P1 P2.
#[local] Set Default Proof Using "Type*".

Lemma grown_heads fb m s s' E l p y : store_ok s E -> grown fb m s [] s' l -> packet (pbufs s') (areas s') p l ->
  is_head s y -> is_Some (pbufs s !! y) -> is_head s' y.
Proof.
  intros Hs Hg Hp Hy [d Hd]. apply incoming_zero. intros z c Hz Hn.
  destruct (decide (z ∈ l.*1)) as [Hin|Hin].
  - pose proof (pk_chain _ _ _ _ Hp) as Hc. apply list_elem_of_fmap in Hin as ([x b] & Ez & Hin). cbn in Ez. subst x.
    rewrite (chain_at_lookup _ _ _ _ _ Hc Hin) in Hz. injection Hz as <-. apply list_elem_of_lookup in Hin as [i Hi].
    pose proof (take_drop_middle l i _ Hi) as El. rewrite <- El in Hc. apply chain_at_suffix in Hc as (_ & _ & _ & _ & Hc).
    rewrite Hn in Hc. destruct (drop (S i) l) as [|[x e] r] eqn:Er; [done|]. destruct Hc as ([= <-] & _).
    assert (Hyl : y ∈ l.*1).
    { apply list_elem_of_fmap. exists (y, e). split; [done|]. rewrite <- El. apply elem_of_app. right. right. by left. }
    by rewrite (grown_fresh _ _ _ _ _ _ Hg Hyl) in Hd.
  - destruct (gr_same _ _ _ _ _ _ Hg z Hin) as [E1 _]. rewrite E1 in Hz. pose proof (incoming_pos _ _ _ _ Hz Hn). unfold is_head in Hy. lia.
Qed.

(** The first pbuf of a packet from the pool. *)
Lemma grown_head fb s s' p b l : grown fb 0 s [] s' ((p, b) :: l) -> packet (pbufs s') (areas s') p ((p, b) :: l) ->
  payload b = Some (p, 0) /\ ref b = 1 /\ flags b = 0 /\ if_idx b = NETIF_NO_INDEX /\ areas s' !! p = Some (fresh_area fb PBUF_POOL_BUFSIZE_ALIGNED) /\
  len b = Z.min 512 (total_len ((p, b) :: l)).
Proof using Type.
  intros Hg Hp. pose proof (Forall_inv (gr_elem _ _ _ _ _ _ Hg)) as (a & o & _ & Hpl & Ho & Ha & Hl & Hb & Hr & Hfl & Hidx & _ & Hf & _).
  cbn [fst snd] in *. assert (o = 0) as -> by lia. split_and!; try done. unfold full in Hf. unfold PBUF_POOL_BUFSIZE_ALIGNED in *.
  pose proof (packet_cons _ _ _ _ _ _ Hp) as (_ & _ & _ & _ & Ht & _ & _ & _ & Hn). rewrite total_len_cons. cbn [snd].
  destruct Hn as [[_ ->]|(q & Hq & _)]; [change (total_len []) with 0; lia|]. rewrite Hq in Hf. destruct (Hf ltac:(done)) as [Hf' _]. rewrite Hpl in Hf'. lia.
Qed.

(** Every pbuf of a packet from the pool that is not empty has data. *)
Lemma grown_private fb s s' p l : grown fb 0 s [] s' l -> packet (pbufs s') (areas s') p l -> 0 < total_len l -> Forall pool_private l.
Proof using Type.
  intros Hg Hp. pose proof (gr_elem _ _ _ _ _ _ Hg) as He. clear Hg. revert p Hp.
  induction l as [|[x b] l IH]; intros p Hp Ht; [constructor|]. apply Forall_cons in He as [Hx He].
  destruct (packet_cons _ _ _ _ _ _ Hp) as (_ & _ & Hlb & Htb & _ & _ & _ & _ & Hn). rewrite total_len_cons in Ht. cbn [snd] in Ht.
  destruct Hx as (a & o & _ & _ & _ & _ & _ & _ & Hr & _ & _ & Hty & Hf & Hpos). cbn [snd] in *.
  constructor; [split_and!; try done; apply Hpos; lia|]. destruct Hn as [[_ ->]|(q & Hq & Hl)]; [constructor|].
  rewrite Hq in Hf. destruct (Hf ltac:(done)) as [_ Hlt]. apply (IH He q); [done | lia].
Qed.

(** A frame is stored in a packet of its length. *)
Lemma taken_frame s p l frame buffer : packet (pbufs s) (areas s) p l -> separated l -> total_len l = length frame ->
  (length frame <= length buffer)%nat -> bytes_ok frame -> bytes_ok buffer ->
  exists ar', pbuf_take (pbufs s) (areas s) (Some p) (Some (list_inserts 0 frame buffer)) (length frame) = Ok (ar', ERR_OK) /\
    packet (pbufs s) ar' p l /\ chain_data ar' l = frame /\ rewritten (areas s) ar'.
Proof using Type.
  intros Hp Hsep Ht Hl Hfb Hbb.
  pose proof (pbuf_take_spec (pbufs s) (areas s) p l (list_inserts 0 frame buffer) (length frame) Hp Hsep) as Htk.
  rewrite length_inserts in Htk. specialize (Htk ltac:(lia)). destruct (Z.ltb_spec (total_len l) (length frame)); [lia|].
  destruct Htk as (ar' & Etk & Hp' & Hd' & _). exists ar'. split_and!; [done | done | |].
  - assert (Ef : take (Z.to_nat (length frame)) (list_inserts 0 frame buffer) = frame).
    { rewrite Nat2Z.id, list_inserts_splice, take_0, app_nil_l by lia. by rewrite take_app_length. }
    pose proof (packet_length _ _ _ _ Hp) as Hpl. rewrite Hd', Ef, list_inserts_splice, take_0, app_nil_l by lia.
    rewrite drop_ge by lia. by rewrite app_nil_r.
  - eapply pbuf_take_rewritten; [|exact Etk]. by apply bytes_inserts.
Qed.

End Grown.

(** The type of a frame is in its first bytes. *)
Lemma take_prefix (x y d : list Z) n : x ++ y = d -> Z.of_nat (length x) = Z.min n (length d) -> x = take (Z.to_nat n) d.
Proof.
  intros <- Hl. rewrite length_app in Hl. destruct y as [|c y]; [rewrite app_nil_r, take_ge; [done | cbn in Hl; lia]|].
  cbn [length] in Hl. rewrite take_app_length'; [done | lia].
Qed.

Lemma window_take (d : list Z) (n off k : Z) : 0 <= off -> 0 <= k -> off + k <= n -> window (take (Z.to_nat n) d) off k = window d off k.
Proof. intros Ho Hk Hn. unfold window. rewrite skipn_firstn_comm, take_take. f_equal. lia. Qed.

Lemma layer_of_take {K} (f g : ptr -> Z -> K -> res K) nif (n : Z) d : 14 < n ->
  layer_of f g nif (take (Z.to_nat n) d) = layer_of f g nif d.
Proof.
  intros Hn. unfold layer_of, SIZEOF_ETH_HDR, eth_hdr_type. rewrite window_take, length_take by lia.
  destruct (Z.leb_spec (Z.to_nat n `min` length d)%nat 14), (Z.leb_spec (length d) 14); (done || lia).
Qed.

Section Path.
Context {P1 P2 : Type} `{!PoolAlloc P1} `{!PoolAlloc P2} {Y : Type} `{!Part Y arp_side}.
Variable REG : Z -> nat -> Z.
Variable out_buffer : list Z.
Hypothesis out_length : length out_buffer = 1518%nat.
Hypothesis out_bytes : bytes_ok out_buffer.
#[local] Instance driver : LinkDriver mmio := port_link REG out_buffer out_length out_bytes.
Context `{U : !ArpUser P1 P2 mmio (port P1 P2 Y)}.
Implicit Type k : port P1 P2 Y.
#[local] Set Default Proof Using "Type*".
Lemma port_set_part k s m : with_st s (with_dev m k) = set_part (set_device m (set_packets s (part k))) k.
Proof using Type. cbn. unfold with_st, with_dev. cbn. f_equal. rewrite <- (set_part_part (stack k)) at 1. f_equal. by destruct (part (stack k)). Qed.

(** A frame in a new packet. *)
Record fresh_frame k E (frame : list Z) k0 (p : ptr) (b : pbuf) (l : list (ptr * pbuf)) : Prop := FreshFrame
  { ff_inv : user_inv k0 ({[+ p +]} ⊎ E);
    ff_stack : stack k0 = stack k;
    ff_writes : writes (eth_dev k0) = writes (eth_dev k);
    ff_packet : packet (pbufs (st k0)) (areas (st k0)) p ((p, b) :: l);
    ff_data : chain_data (areas (st k0)) ((p, b) :: l) = frame;
    ff_head : arrived (st k0) p b 0 512;
    ff_offset : payload b = Some (p, 0);
    ff_len : len b = Z.min 512 (length frame);
    ff_flags : flags b = 0;
    ff_idx : if_idx b = NETIF_NO_INDEX;
    ff_keeps : keeps (st k) (st k0) }.

Lemma fresh_frame_head k E frame k0 p b l : fresh_frame k E frame k0 p b l ->
  payload_data (areas (st k0)) b = take (Z.to_nat 512) frame.
Proof.
  intros Hff. pose proof (packet_cons _ _ _ _ _ _ (ff_packet _ _ _ _ _ _ _ Hff)) as (_ & _ & _ & _ & _ & _ & _ & Hl0 & _).
  apply (take_prefix _ (chain_data (areas (st k0)) l)); [exact (ff_data _ _ _ _ _ _ _ Hff)|].
  rewrite Hl0. apply (ff_len _ _ _ _ _ _ _ Hff).
Qed.

(** The packet without its header, marked. *)
Lemma stripped_ok k E frame k0 p b l nif : fresh_frame k E frame k0 p b l -> 14 < length frame ->
  let b' := grow_head (- SIZEOF_ETH_HDR) (stamped nif (window frame eth_hdr_dest ETH_HWADDR_LEN) b) in
  let s := set_pbufs (<[p := b']> (pbufs (st k0))) (st k0) in
  packet (pbufs s) (areas s) p ((p, b') :: l) /\ chain_data (areas s) ((p, b') :: l) = drop 14 frame /\
  arrived s p b' SIZEOF_ETH_HDR 498 /\ len b' = Z.min 512 (length frame) - 14 /\ flags b' = cast_flag (window frame eth_hdr_dest ETH_HWADDR_LEN) /\ if_idx b' = netif_get_index nif.
Proof.
  intros Hff Hlong b' s. pose proof (fresh_frame_head _ _ _ _ _ _ _ Hff) as Hd0.
  destruct Hff as [Hk0 _ _ Hp Hdata Harr Hpl Hlen Hfl Hidx _]. pose proof (arrived_ref _ _ _ _ _ Harr) as Href.
  destruct Harr as [Hb (lp & Hcp & Hprp) (o & a & Hpo & _ & Ha & Hal & Htop)].
  assert (lp = l) as ->. { pose proof (chain_at_det _ _ _ _ (pk_chain _ _ _ _ Hp) Hcp) as El. by injection El. }
  assert (o = 0) as -> by congruence. set (ar := areas (st k0)) in *.
  set (b2 := stamped nif (window frame eth_hdr_dest ETH_HWADDR_LEN) b) in *.
  assert (Hb2 : next b2 = next b /\ payload b2 = Some (p, 0) /\ tot_len b2 = tot_len b /\ len b2 = len b /\ ref b2 = 1 /\
    type_internal b2 = type_internal b /\ flags b2 = cast_flag (window frame eth_hdr_dest ETH_HWADDR_LEN) /\ if_idx b2 = netif_get_index nif).
  { unfold b2, stamped. rewrite Hidx, Hfl. by rewrite <- Hpl, <- Href. }
  destruct Hb2 as (En & Ep & Et & El & Ere & Ety & Efl & Eidx).
  assert (Hpay : forall c i, payload c = Some (p, i) -> 0 <= i -> 0 <= len c -> i + len c <= 512 -> payload_ok ar p c).
  { intros c i Hc Hi Hlc Hic. exists p, i, a. split_and!; try (done || lia). by left. }
  pose proof (user_arp _ _ Hk0) as Hn0. pose proof (ao_store _ _ Hn0) as Hs0. change (packets (part k0)) with (st k0) in Hs0.
  destruct (head_bounds _ _ _ _ Hs0 Hb) as [_ Hmax].
  assert (Epay : payload b' = Some (p, 14)).
  { unfold b', SIZEOF_ETH_HDR. cbn [payload grow_head with_tot_len with_len with_payload]. by rewrite Ep. }
  assert (Hnh : new_head ar p b b').
  { unfold b', SIZEOF_ETH_HDR in *. split; cbn [next flags type_internal ref tot_len len grow_head with_tot_len with_len with_payload]; try (congruence || lia).
    - apply (stamped_head ar p nif _ b); [lia|]. apply (Hpay b 0); (done || lia).
    - apply (Hpay _ 14); [done | lia | cbn [len grow_head with_tot_len with_len with_payload]; lia..]. }
  assert (Hh0 : is_head (st k0) p) by (eapply own_head; [apply Hs0 | exact Hb | multiset_solver | done]).
  destruct (new_head_ok _ _ _ _ _ Hs0 Hb Hh0 Hnh) as (_ & _ & Hpk).
  split; [by apply Hpk|]. split; [|split; [|split; [|by split]]].
  - change (areas s) with ar. unfold b'. rewrite chain_data_cons, (shrink_data ar p b2 SIZEOF_ETH_HDR); [| apply (Hpay b2 0); (done || lia) | unfold SIZEOF_ETH_HDR; lia].
    change (Z.to_nat SIZEOF_ETH_HDR) with 14%nat.
    assert (payload_data ar b2 = payload_data ar b) as -> by (unfold payload_data; by rewrite Ep, El, Hpl).
    rewrite <- Hdata, chain_data_cons, drop_app_le; [done|]. rewrite Hd0, length_take. lia.
  - split; [apply lookup_insert_eq | |].
    + exists l. split; [apply (pk_chain _ _ _ _ (Hpk l Hp))|]. apply Forall_cons in Hprp as [(G1 & G2 & G3) Hprp]. constructor; [|done].
      cbn [snd] in *. unfold b', SIZEOF_ETH_HDR. split_and!; cbn [ref type_internal len snd grow_head with_tot_len with_len with_payload]; (congruence || lia).
    + exists 14, a. unfold b', SIZEOF_ETH_HDR in *. cbn [tot_len grow_head with_tot_len with_len with_payload]. split_and!; (done || lia).
  - unfold b', SIZEOF_ETH_HDR. cbn [len grow_head with_tot_len with_len with_payload]. lia.
Qed.

(** The message of a packet that has arrived. *)
Lemma arrived_message k E p b l m pad : user_inv k E -> arrived (st k) p b SIZEOF_ETH_HDR 498 -> packet (pbufs (st k)) (areas (st k)) p ((p, b) :: l) ->
  chain_data (areas (st k)) ((p, b) :: l) = m ++ pad -> length m <= len b -> sole_message (packets (part k)) p m.
Proof.
  intros Hk Harr Hpk Hdata Hlm. pose proof (arrived_ref _ _ _ _ _ Harr) as Href. destruct Harr as [Hb _ (o & d & Hp & Ho & Hd & Hroom & _)].
  unfold SIZEOF_ETH_HDR in Ho. change (packets (part k)) with (st k).
  pose proof (user_arp _ _ Hk) as Hn. pose proof (ao_store _ _ Hn) as Hs. change (packets (part k)) with (st k) in Hs.
  destruct (so_payload _ _ Hs p b Hb) as (a & i & d' & Hp' & Hd' & _ & Hl & Hlen & _). rewrite Hp in Hp'. injection Hp' as <- <-.
  rewrite Hd in Hd'. injection Hd' as <-.
  split; [|by exists b]. exists b, o, d. split_and!; try (done || lia).
  rewrite chain_data_cons, (payload_data_window _ b p o d) in Hdata by (done || lia).
  apply (f_equal (take (length m))) in Hdata. rewrite take_app_length, take_app_le in Hdata.
  - rewrite <- Hdata at 2. unfold window. rewrite take_take. f_equal. lia.
  - apply Nat2Z.inj_le. rewrite window_length by lia. lia.
Qed.

Variable custom_free_function : ptr -> store P1 P2 -> res (store P1 P2).
Variable fresh_byte : nat -> Z.
Hypothesis fresh_u8 : forall i, is_u8 (fresh_byte i).
Variable ip4_input etharp_input : ptr -> Z -> port P1 P2 Y -> res (port P1 P2 Y).

(** The state with a new packet, and the controller after reading. *)
Lemma new_packet_ok k E s p l ar m mm : user_inv k E -> grown fresh_byte m (st k) [] s l -> packet (pbufs s) (areas s) p l ->
  store_ok s ({[+ p +]} ⊎ (E ⊎ held k) ⊎ queued (arp_table (part k))) -> rewritten (areas s) ar -> writes mm = writes (eth_dev k) ->
  user_inv (with_st (set_areas ar s) (with_dev mm k)) ({[+ p +]} ⊎ E).
Proof.
  intros Hk Hg Hp Hs Hw Hm. pose proof (user_arp _ _ Hk) as [H1 H2 H3 H4 H5 H6]. rewrite port_set_part. apply (user_set k E _ _ Hk); [|done].
  split; try done.
  - change (store_ok (set_areas ar s) (({[+ p +]} ⊎ E) ⊎ held k ⊎ queued (arp_table (part k)))).
    rewrite <- (assoc_L (⊎) {[+ p +]} E). by apply rewritten_ok.
  - intros y Hy. apply (grown_heads fresh_byte m (st k) s _ l p y H1 Hg Hp); [by apply H2|].
    apply (ri_ext _ _ (so_ref _ _ H1)). multiset_solver.
  - cbn in H6 |- *. unfold wire_log in *. by rewrite Hm.
Qed.


(** What [ethernetif_input] does with a pending frame. [W] are the elements of
    the pool in use. *)
Lemma ethernetif_input_ok k E W input in_buffer : user_inv k E -> pool_holds (pbuf_pool (st k)) W ->
  (forall a, is_Some (pbufs (st k) !! PoolPtr a) -> a ∈ W) -> frame_pending REG (eth_dev k) ->
  length in_buffer = 1518%nat -> bytes_ok in_buffer ->
  let frame := pending_frame REG (eth_dev k) in
  if @pool_capacity P1 _ - size W <? pool_pbufs (length frame)
  then exists k', ethernetif_input REG custom_free_function fresh_byte input in_buffer k = Ok k' /\ user_inv k' E /\
    stack k' = stack k /\ writes (eth_dev k') = writes (eth_dev k) /\ keeps (st k) (st k')
  else exists k0 p b l, fresh_frame k E frame k0 p b l /\
    ethernetif_input REG custom_free_function fresh_byte input in_buffer k =
      ('(k1, err) ← input p k0;
       if negb (err =? ERR_OK) then '(s, _) ← pbuf_free custom_free_function (Some p) (st k1); Ok (with_st s k1) else Ok k1).
Proof.
  intros Hk HW HWa Hf Hb Hbb frame. pose proof (user_arp _ _ Hk) as Hn. pose proof (ao_store _ _ Hn) as Hs.
  change (packets (part k)) with (st k) in Hs.
  destruct (pending_frame_length REG _ Hf) as [Hfl _]. fold frame in Hfl.
  destruct (receive_pending REG in_buffer (eth_dev k) Hf Hb) as (m' & Er & Hwr). fold frame in Er.
  pose proof (pending_frame_bytes REG (eth_dev k)) as Hfb. fold frame in Hfb.
  unfold ethernetif_input. rewrite Er, bind_ok. cbv zeta. destruct (Z.leb_spec (length frame) 0); [lia|].
  rewrite u16_id by solve_u. change (st (with_dev m' k)) with (st k).
  destruct (pool_ok custom_free_function fresh_byte fresh_u8 (st k) _ W PBUF_RAW (length frame) Hs HW HWa) as (s' & r & Ea & Hr);
    [unfold PBUF_RAW; lia | split; lia |].
  change (LWIP_MEM_ALIGN_SIZE PBUF_RAW) with 0 in Hr. rewrite Z.add_0_r in Hr. rewrite Ea, bind_ok.
  destruct r as [p|]; destruct Hr as (Hc & Hs' & Hr); destruct (Z.ltb_spec (@pool_capacity P1 _ - size W) (pool_pbufs (length frame))); try lia.
  2: { exists (with_st s' (with_dev m' k)). split_and!; try done; [|apply Hr]. rewrite port_set_part. apply (user_set k E _ _ Hk); [|done].
    destruct Hn as [H1 H2 H3 H4 H5 H6]. split; try done.
    - intros y Hy. apply (incoming_shrunk _ _ _ Hr). by apply H2.
    - cbn in H6 |- *. unfold wire_log in *. by rewrite Hwr. }
  destruct Hr as (Hkeep & l & Hp & Hsep & Ht & Hg).
  destruct (taken_frame s' p l frame in_buffer Hp Hsep Ht ltac:(lia) Hfb Hbb) as (ar' & Etk & Hp' & Hdata & Hw). rewrite Etk, bind_ok.
  destruct l as [|[x b] l]; [by apply packet_nil in Hp|]. pose proof (packet_cons _ _ _ _ _ _ Hp) as (-> & _).
  destruct (grown_head _ _ _ _ _ _ Hg Hp) as (Hpl & Href & Hfl0 & Hidx & Hpa & Hlen). rewrite Ht in Hlen.
  exists (with_st (set_areas ar' s') (with_dev m' k)), p, b, l. split; [|done]. split; try done.
  - eapply new_packet_ok; try done. rewrite <- !(assoc_L (⊎)) in *. exact Hs'.
  - split; [destruct Hp as [(_ & Hx & _) _ _]; exact Hx | |].
    { exists l. split; [apply Hp | by eapply grown_private; [|..|lia]]. }
    pose proof (packet_cons _ _ _ _ _ _ Hp) as (_ & _ & _ & Htot & _ & Hmax & _).
    destruct (ar' !! p) as [a|] eqn:Eap.
    + exists 0, a. split_and!; try done; [|lia]. rewrite (rw_length _ _ Hw _ _ _ Hpa Eap). done.
    + assert (is_Some (ar' !! p)) as [? ?]; [|congruence]. apply (rw_dom _ _ Hw). by rewrite Hpa.
  - transitivity s'; [done|]. by apply same_alloc_keeps.
Qed.

(** What [receive] does with a pending frame. *)
Lemma receive_ok k E W np nif in_buffer : user_inv k E -> pool_holds (pbuf_pool (st k)) W ->
  (forall a, is_Some (pbufs (st k) !! PoolPtr a) -> a ∈ W) -> frame_pending REG (eth_dev k) ->
  length in_buffer = 1518%nat -> bytes_ok in_buffer -> netifs (part k) !! np = Some nif ->
  layer_contract 498 ip4_input -> layer_contract 498 etharp_input ->
  let frame := pending_frame REG (eth_dev k) in
  exists k', receive REG custom_free_function fresh_byte ip4_input etharp_input np in_buffer k = Ok k' /\ user_inv k' E /\
    match (if @pool_capacity P1 _ - size W <? pool_pbufs (length frame) then None else layer_of ip4_input etharp_input nif frame) with
    | None => stack k' = stack k /\ writes (eth_dev k') = writes (eth_dev k) /\ keeps (st k) (st k')
    | Some f => exists k1 p b l, f p np k1 = Ok k' /\ user_inv k1 ({[+ p +]} ⊎ E) /\
        stack k1 = stack k /\ writes (eth_dev k1) = writes (eth_dev k) /\ keeps (st k) (st k1) /\
        packet (pbufs (st k1)) (areas (st k1)) p ((p, b) :: l) /\ chain_data (areas (st k1)) ((p, b) :: l) = drop 14 frame /\
        arrived (st k1) p b SIZEOF_ETH_HDR 498 /\ len b = Z.min 512 (length frame) - 14 /\ flags b = cast_flag (window frame eth_hdr_dest ETH_HWADDR_LEN) /\ if_idx b = netif_get_index nif
    end.
Proof.
  intros Hk HW HWa Hf Hb Hbb Hnif Hip Harp frame. unfold receive.
  pose proof (ethernetif_input_ok k E W (netif_input custom_free_function ip4_input etharp_input np) in_buffer Hk HW HWa Hf Hb Hbb) as Hin.
  cbv zeta in Hin. fold frame in Hin. destruct (_ <? _).
  { destruct Hin as (k' & -> & Hk' & Hrest). by exists k'. }
  destruct Hin as (k0 & p & b & l & Hff & ->). pose proof (fresh_frame_head _ _ _ _ _ _ _ Hff) as Hd0.
  pose proof Hff as [Hk0 Hst Hwr _ _ Harr _ _ _ _ Hkeep].
  assert (Hnif0 : netifs (part k0) !! np = Some nif) by (cbn in Hnif |- *; by rewrite Hst).
  destruct (ethernet_input_ok custom_free_function ip4_input etharp_input 512 k0 E p np nif b Hk0 Hnif0 Harr) as (k' & Ei & Hk' & Hlay);
    [done.. |].
  unfold netif_input. rewrite (netif_at_some _ _ _ Hnif0), bind_ok. unfold k_packets in Ei. rewrite Ei, bind_ok, Z.eqb_refl. cbn [negb].
  assert (Hrest : forall s0, stack (with_packets s0 k0) = stack k /\ writes (eth_dev (with_packets s0 k0)) = writes (eth_dev k)).
  { intros s0. unfold with_packets. cbn. split; [|done]. rewrite <- Hst.
    transitivity (set_part (part (stack k0)) (stack k0)); [f_equal; by destruct (part (stack k0)) | apply set_part_part]. }
  change (areas (packets (part k0))) with (areas (st k0)) in Hlay.
  rewrite Hd0, layer_of_take, window_take in Hlay by (unfold eth_hdr_dest, ETH_HWADDR_LEN; done || lia).
  exists k'. split; [done|]. split; [done|]. destruct (layer_of _ _ _ _) as [f|] eqn:Elay.
  2: { destruct Hlay as (s0 & -> & Hk0s). destruct (Hrest s0) as [R1 R2]. split_and!; [done | done | by transitivity (st k0)]. }
  assert (Hlong : 14 < length frame).
  { unfold layer_of in Elay. destruct (Z.leb_spec (length frame) SIZEOF_ETH_HDR) as [|Hl]; [done | exact Hl]. }
  destruct Hlay as [Ef Hk1]. eexists _, p, _, l. split; [exact Ef|]. split; [exact Hk1|]. split; [apply Hrest|]. split; [apply Hrest|].
  split. { transitivity (st k0); [done|]. apply same_alloc_keeps, (insert_alloc (st k0) p b). apply Harr. }
  by apply (stripped_ok k E frame k0 p b l nif).
Qed.

End Path.
