(* ===== verification/Acd.v ===== *)
(** * Address conflict detection: src/src/lwip/core/ipv4/acd.c

    Probing, announcing and defending an IPv4 address (RFC 5227). The structs
    acd of the clients form a linked list per interface; the code walks it while
    it calls the clients back, so the links are kept as the code has them. *)

From stdpp Require Import gmultiset.
From S2P Require Import Prelude Strings Onescomp Def Ip4Addr Alloc Memp Mem Pbuf PbufRef PbufAlloc PbufStore Ethernet EthArp EthArpOps.

(** ** Definitions *)

Definition ACD_TMR_INTERVAL : Z := 100.
Definition ACD_TICKS_PER_SECOND : Z := 1000 / ACD_TMR_INTERVAL.
Definition PROBE_WAIT : Z := 1.
Definition PROBE_MIN : Z := 1.
Definition PROBE_MAX : Z := 2.
Definition PROBE_NUM : Z := 3.
Definition ANNOUNCE_NUM : Z := 2.
Definition ANNOUNCE_INTERVAL : Z := 2.
Definition ANNOUNCE_WAIT : Z := 2.
Definition MAX_CONFLICTS : Z := 10.
Definition RATE_LIMIT_INTERVAL : Z := 60.
Definition DEFEND_INTERVAL : Z := 10.

Inductive acd_state_enum_t : Type :=
  | ACD_STATE_OFF
  | ACD_STATE_PROBE_WAIT
  | ACD_STATE_PROBING
  | ACD_STATE_ANNOUNCE_WAIT
  | ACD_STATE_ANNOUNCING
  | ACD_STATE_ONGOING
  | ACD_STATE_PASSIVE_ONGOING
  | ACD_STATE_RATE_LIMIT.

Inductive acd_callback_enum_t : Type :=
  | ACD_IP_OK
  | ACD_RESTART_CLIENT
  | ACD_DECLINE.

#[export] Instance acd_state_eq_dec : EqDecision acd_state_enum_t.
Proof. solve_decision. Defined.

(** struct acd; the callback is the identity of a function. *)
Record acd : Type := Acd
  { acd_next : option Z;
    acd_ipaddr : Z;
    acd_state : acd_state_enum_t;
    sent_num : Z;
    ttw : Z;
    lastconflict : Z;
    num_conflicts : Z;
    acd_conflict_callback : option Z }.

Definition with_acd_next (v : option Z) (a : acd) : acd :=
  Acd v (acd_ipaddr a) (acd_state a) (sent_num a) (ttw a) (lastconflict a) (num_conflicts a) (acd_conflict_callback a).
Definition with_acd_ipaddr (v : Z) (a : acd) : acd :=
  Acd (acd_next a) v (acd_state a) (sent_num a) (ttw a) (lastconflict a) (num_conflicts a) (acd_conflict_callback a).
Definition with_acd_state (v : acd_state_enum_t) (a : acd) : acd :=
  Acd (acd_next a) (acd_ipaddr a) v (sent_num a) (ttw a) (lastconflict a) (num_conflicts a) (acd_conflict_callback a).
Definition with_sent_num (v : Z) (a : acd) : acd :=
  Acd (acd_next a) (acd_ipaddr a) (acd_state a) v (ttw a) (lastconflict a) (num_conflicts a) (acd_conflict_callback a).
Definition with_ttw (v : Z) (a : acd) : acd :=
  Acd (acd_next a) (acd_ipaddr a) (acd_state a) (sent_num a) v (lastconflict a) (num_conflicts a) (acd_conflict_callback a).
Definition with_lastconflict (v : Z) (a : acd) : acd :=
  Acd (acd_next a) (acd_ipaddr a) (acd_state a) (sent_num a) (ttw a) v (num_conflicts a) (acd_conflict_callback a).
Definition with_num_conflicts (v : Z) (a : acd) : acd :=
  Acd (acd_next a) (acd_ipaddr a) (acd_state a) (sent_num a) (ttw a) (lastconflict a) v (acd_conflict_callback a).
Definition with_callback (v : option Z) (a : acd) : acd :=
  Acd (acd_next a) (acd_ipaddr a) (acd_state a) (sent_num a) (ttw a) (lastconflict a) (num_conflicts a) v.

Definition ACD_RANDOM_PROBE_WAIT (rand : Z) : Z := rand mod (PROBE_WAIT * ACD_TICKS_PER_SECOND).
Definition ACD_RANDOM_PROBE_INTERVAL (rand : Z) : Z :=
  rand mod ((PROBE_MAX - PROBE_MIN) * ACD_TICKS_PER_SECOND) + PROBE_MIN * ACD_TICKS_PER_SECOND.

(** The structs by address, and [netif->acd_list] of every interface. *)
Record acd_mod : Type := AcdMod { acds : gmap Z acd; acd_list : gmap Z (option Z) }.

Definition set_acds (l : gmap Z acd) (m : acd_mod) : acd_mod := AcdMod l (acd_list m).
Definition set_acd_list (l : gmap Z (option Z)) (m : acd_mod) : acd_mod := AcdMod (acds m) l.

Section Acd.
Context {P1 P2 : Type} `{!PoolAlloc P1} `{!PoolAlloc P2} {X : Type} `{!LinkDriver X}.
Context {K : Type} `{!Part K (net P1 P2 X)} `{!Part K acd_mod}.
Variable custom_free_function : ptr -> store P1 P2 -> res (store P1 P2).
Variable fresh_byte : nat -> Z.
(** The call of [acd->acd_conflict_callback(netif, ...)]. *)
Variable conflict_callback : Z -> Z -> acd_callback_enum_t -> K -> res K.

Definition acd_get (p : Z) (k : K) : res acd := of_option BadPointer (acds (part k) !! p).
Definition acd_set (p : Z) (f : acd -> acd) (k : K) : res K :=
  a ← acd_get p k; Ok (set_part (set_acds (<[p := f a]> (acds (part k))) (part k)) k).
Definition acd_head (netif_p : Z) (k : K) : res (option Z) := of_option BadPointer (acd_list (part k) !! netif_p).
Definition acd_set_head (netif_p : Z) (v : option Z) (k : K) : K :=
  set_part (set_acd_list (<[netif_p := v]> (acd_list (part k))) (part k)) k.
Definition call_back (netif_p p : Z) (c : acd_callback_enum_t) (k : K) : res K :=
  a ← acd_get p k; f ← of_option BadPointer (acd_conflict_callback a); conflict_callback f netif_p c k.

(** The number of structs bounds the walk over a list. *)
Definition acd_fuel (k : K) : nat := S (size (acds (part k))).

(** The search of [acd_add]: whether [acd] is on the list from [acd2] on. *)
Fixpoint on_list (fuel : nat) (p : Z) (acd2 : option Z) (k : K) : res bool :=
  match acd2 with
  | None => Ok false
  | Some q =>
      if q =? p then Ok true else
      match fuel with
      | O => Err OutOfFuel
      | S fuel' => a ← acd_get q k; on_list fuel' p (acd_next a) k
      end
  end.

Definition acd_add (netif_p p : Z) (callback : option Z) (k : K) : res (K * Z) :=
  _ ← lwip_assert "acd_conflict_callback != NULL" (match callback with None => false | Some _ => true end);
  k ← acd_set p (with_callback callback) k;
  h ← acd_head netif_p k;
  found ← on_list (acd_fuel k) p h k;
  if found : bool then Ok (k, ERR_OK) else
  k ← acd_set p (with_acd_next h) k;
  Ok (acd_set_head netif_p (Some p) k, ERR_OK).

(** The message of its assertion ends in a newline. *)
Definition not_on_list : string := String.append "acd_remove(): acd not on list" (String (Ascii.ascii_of_nat 10) EmptyString).

(** The loop of [acd_remove], with the predecessor. *)
Fixpoint remove_loop (fuel : nat) (netif_p p : Z) (prev acd2 : option Z) (k : K) : res K :=
  match acd2 with
  | None => Err (AssertFail not_on_list)
  | Some q =>
      if q =? p then
        a ← acd_get p k;
        match prev with
        | Some r => acd_set r (with_acd_next (acd_next a)) k
        | None => Ok (acd_set_head netif_p (acd_next a) k)
        end
      else
      match fuel with
      | O => Err OutOfFuel
      | S fuel' => a ← acd_get q k; remove_loop fuel' netif_p p (Some q) (acd_next a) k
      end
  end.

Definition acd_remove (netif_p p : Z) (k : K) : res K :=
  h ← acd_head netif_p k; remove_loop (acd_fuel k) netif_p p None h k.

(** [rand] is what LWIP_RAND(), that is sys_now(), returns. *)
Definition acd_start (p ipaddr rand : Z) (k : K) : res (K * Z) :=
  k ← acd_set p (with_sent_num 0) k;
  k ← acd_set p (with_lastconflict 0) k;
  k ← acd_set p (with_acd_ipaddr ipaddr) k;
  k ← acd_set p (with_acd_state ACD_STATE_PROBE_WAIT) k;
  k ← acd_set p (with_ttw (u16 (ACD_RANDOM_PROBE_WAIT rand))) k;
  Ok (k, ERR_OK).

Definition acd_stop (p : option Z) (k : K) : res (K * Z) :=
  match p with
  | Some p => k ← acd_set p (with_acd_state ACD_STATE_OFF) k; Ok (k, ERR_OK)
  | None => Ok (k, ERR_OK)
  end.

(** [ACD_FOREACH(acd, acd_list)]; the next pointer is read after the body. *)
Fixpoint ACD_FOREACH (fuel : nat) (body : Z -> K -> res K) (p : option Z) (k : K) : res K :=
  match p with
  | None => Ok k
  | Some p =>
      match fuel with
      | O => Err OutOfFuel
      | S fuel' => k ← body p k; a ← acd_get p k; ACD_FOREACH fuel' body (acd_next a) k
      end
  end.

Definition for_acds (netif_p : Z) (body : Z -> K -> res K) (k : K) : res K :=
  h ← acd_head netif_p k; ACD_FOREACH (acd_fuel k) body h k.

Definition acd_network_changed_link_down (netif_p : Z) (k : K) : res K :=
  for_acds netif_p (fun p k => '(k, _) ← acd_stop (Some p) k; Ok k) k.

(** One turn of [acd_tmr]. *)
Definition acd_tmr_entry (netif_p : Z) (rand : Z) (p : Z) (k : K) : res K :=
  a ← acd_get p k;
  k ← (if 0 <? lastconflict a then acd_set p (with_lastconflict (u8 (lastconflict a - 1))) k else Ok k);
  k ← (if 0 <? ttw a then acd_set p (with_ttw (u16 (ttw a - 1))) k else Ok k);
  a ← acd_get p k;
  match acd_state a with
  | ACD_STATE_PROBE_WAIT | ACD_STATE_PROBING =>
      if ttw a =? 0 then
        k ← acd_set p (with_acd_state ACD_STATE_PROBING) k;
        '(k, _) ← in_part (etharp_acd_probe custom_free_function fresh_byte netif_p (acd_ipaddr a)) k;
        k ← acd_set p (fun a => with_sent_num (u8 (sent_num a + 1)) a) k;
        a ← acd_get p k;
        if PROBE_NUM <=? sent_num a then
          k ← acd_set p (with_acd_state ACD_STATE_ANNOUNCE_WAIT) k;
          k ← acd_set p (with_sent_num 0) k;
          acd_set p (with_ttw (u16 (ANNOUNCE_WAIT * ACD_TICKS_PER_SECOND))) k
        else acd_set p (with_ttw (u16 (ACD_RANDOM_PROBE_INTERVAL rand))) k
      else Ok k
  | ACD_STATE_ANNOUNCE_WAIT | ACD_STATE_ANNOUNCING =>
      if ttw a =? 0 then
        k ← (if sent_num a =? 0 then
               k ← acd_set p (with_acd_state ACD_STATE_ANNOUNCING) k;
               acd_set p (with_num_conflicts 0) k
             else Ok k);
        '(k, _) ← in_part (etharp_acd_announce custom_free_function fresh_byte netif_p (acd_ipaddr a)) k;
        k ← acd_set p (with_ttw (ANNOUNCE_INTERVAL * ACD_TICKS_PER_SECOND)) k;
        k ← acd_set p (fun a => with_sent_num (u8 (sent_num a + 1)) a) k;
        a ← acd_get p k;
        if ANNOUNCE_NUM <=? sent_num a then
          k ← acd_set p (with_acd_state ACD_STATE_ONGOING) k;
          k ← acd_set p (with_sent_num 0) k;
          k ← acd_set p (with_ttw 0) k;
          call_back netif_p p ACD_IP_OK k
        else Ok k
      else Ok k
  | ACD_STATE_RATE_LIMIT =>
      if ttw a =? 0 then
        '(k, _) ← acd_stop (Some p) k;
        call_back netif_p p ACD_RESTART_CLIENT k
      else Ok k
  | _ => Ok k
  end.

(** [NETIF_FOREACH(netif)] over the interfaces in their order. [rand] is what
    LWIP_RAND() returns while the struct is handled. *)
Fixpoint acd_tmr (rand : Z -> Z) (netif_list : list Z) (k : K) : res K :=
  match netif_list with
  | [] => Ok k
  | np :: l => k ← for_acds np (fun p => acd_tmr_entry np (rand p) p) k; acd_tmr rand l k
  end.

Definition acd_restart (netif_p p : Z) (k : K) : res K :=
  k ← acd_set p (fun a => with_num_conflicts (u8 (num_conflicts a + 1)) a) k;
  k ← call_back netif_p p ACD_DECLINE k;
  a ← acd_get p k;
  if MAX_CONFLICTS <=? num_conflicts a then
    k ← acd_set p (with_acd_state ACD_STATE_RATE_LIMIT) k;
    acd_set p (with_ttw (u16 (RATE_LIMIT_INTERVAL * ACD_TICKS_PER_SECOND))) k
  else
    '(k, _) ← acd_stop (Some p) k;
    call_back netif_p p ACD_RESTART_CLIENT k.

Definition acd_handle_arp_conflict (netif_p p : Z) (k : K) : res K :=
  a ← acd_get p k;
  if bool_decide (acd_state a = ACD_STATE_PASSIVE_ONGOING) then
    '(k, _) ← acd_stop (Some p) k;
    call_back netif_p p ACD_DECLINE k
  else if 0 <? lastconflict a then acd_restart netif_p p k
  else
    '(k, _) ← in_part (etharp_acd_announce custom_free_function fresh_byte netif_p (acd_ipaddr a)) k;
    acd_set p (with_lastconflict (DEFEND_INTERVAL * ACD_TICKS_PER_SECOND)) k.

(** One turn of [acd_arp_reply], for a message with these addresses. *)
Definition acd_reply_entry (netif_p : Z) (sipaddr dipaddr : Z) (own shwaddr : list Z) (p : Z) (k : K) : res K :=
  a ← acd_get p k;
  match acd_state a with
  | ACD_STATE_PROBE_WAIT | ACD_STATE_PROBING | ACD_STATE_ANNOUNCE_WAIT =>
      if (sipaddr =? acd_ipaddr a) ||
         (ip4_addr_isany sipaddr && (dipaddr =? acd_ipaddr a) && negb (bool_decide (own = shwaddr)))
      then acd_restart netif_p p k else Ok k
  | ACD_STATE_ANNOUNCING | ACD_STATE_ONGOING | ACD_STATE_PASSIVE_ONGOING =>
      if (sipaddr =? acd_ipaddr a) && negb (bool_decide (own = shwaddr))
      then acd_handle_arp_conflict netif_p p k else Ok k
  | ACD_STATE_OFF | ACD_STATE_RATE_LIMIT => Ok k
  end.

(** [hdr] points to the payload of the packet [q]; the hardware address in it is
    read anew in every turn. *)
Definition acd_arp_reply (netif_p : Z) (q : ptr) (k : K) : res K :=
  let n := part (N := net P1 P2 X) k in
  nif ← netif_at netif_p n;
  sip ← hdr_read q arp_sipaddr 4 (packets n);
  sipaddr ← get32 sip 0;
  dip ← hdr_read q arp_dipaddr 4 (packets n);
  dipaddr ← get32 dip 0;
  for_acds netif_p (fun p k =>
    shwaddr ← hdr_read q arp_shwaddr ETH_HWADDR_LEN (packets (part (N := net P1 P2 X) k));
    acd_reply_entry netif_p sipaddr dipaddr (hwaddr nif) shwaddr p k) k.

Definition acd_put_in_passive_mode (netif_p p : Z) (k : K) : res K :=
  a ← acd_get p k;
  match acd_state a with
  | ACD_STATE_PROBE_WAIT | ACD_STATE_PROBING | ACD_STATE_ANNOUNCE_WAIT | ACD_STATE_RATE_LIMIT =>
      '(k, _) ← acd_stop (Some p) k; call_back netif_p p ACD_DECLINE k
  | ACD_STATE_ANNOUNCING | ACD_STATE_ONGOING => acd_set p (with_acd_state ACD_STATE_PASSIVE_ONGOING) k
  | ACD_STATE_OFF | ACD_STATE_PASSIVE_ONGOING => Ok k
  end.

Definition acd_netif_ip_addr_changed (netif_p old_addr new_addr : Z) (k : K) : res K :=
  if ip4_addr_isany old_addr || ip4_addr_isany new_addr then Ok k else
  for_acds netif_p (fun p k =>
    a ← acd_get p k;
    if (acd_ipaddr a =? old_addr) && (ip4_addr_islinklocal old_addr && negb (ip4_addr_islinklocal new_addr))
    then acd_put_in_passive_mode netif_p p k else Ok k) k.

End Acd.
