(* ===== verification/AcdOps.v ===== *)
(** * The operations of conflict detection

    The invariant of the structs acd, the contract of the clients' callbacks, and
    that every function of acd.c returns and keeps both; [acd_arp_reply] keeps
    what etharp.c assumes of it. *)

From stdpp Require Import gmultiset.
From S2P Require Import Prelude Strings Onescomp Def Ip4Addr Alloc Memp Mem Pbuf PbufRef PbufAlloc PbufStore Ethernet EthArp EthArpOps Chain Acd.

(** ** The invariant *)

(** The fields in each state; the timers are in tenths of a second. *)
Definition acd_fields (a : acd) : Prop :=
  is_u32 (acd_ipaddr a) /\ 0 <= lastconflict a <= DEFEND_INTERVAL * ACD_TICKS_PER_SECOND /\ is_u8 (num_conflicts a) /\
  is_u8 (sent_num a) /\ is_u16 (ttw a) /\
  match acd_state a with
  | ACD_STATE_PROBE_WAIT => sent_num a = 0 /\ ttw a < PROBE_WAIT * ACD_TICKS_PER_SECOND
  | ACD_STATE_PROBING => 1 <= sent_num a < PROBE_NUM /\ ttw a < PROBE_MAX * ACD_TICKS_PER_SECOND
  | ACD_STATE_ANNOUNCE_WAIT => sent_num a = 0 /\ ttw a <= ANNOUNCE_WAIT * ACD_TICKS_PER_SECOND
  | ACD_STATE_ANNOUNCING => sent_num a = 1 /\ ttw a <= ANNOUNCE_INTERVAL * ACD_TICKS_PER_SECOND
  | ACD_STATE_RATE_LIMIT => ttw a <= RATE_LIMIT_INTERVAL * ACD_TICKS_PER_SECOND
  | _ => True
  end.

(** The list of structs from a pointer on. *)
Notation acd_chain := (chain acd_next).

(** The list of the interface [np]. *)
Definition acds_in (np : Z) (m : acd_mod) (l : list Z) : Prop :=
  exists h, acd_list m !! np = Some h /\ acd_chain (acds m) h l /\ NoDup l.

(** The lists [ls] of the interfaces. *)
Record lists_ok (nets : gmap Z netif) (m : acd_mod) (ls : Z -> list Z) : Prop := ListsOk
  { lk_in : forall np, is_Some (nets !! np) -> acds_in np m (ls np);
    lk_callback : forall np p a, is_Some (nets !! np) -> p ∈ ls np -> acds m !! p = Some a -> is_Some (acd_conflict_callback a);
    lk_apart : forall np1 np2 p, is_Some (nets !! np1) -> is_Some (nets !! np2) -> p ∈ ls np1 -> p ∈ ls np2 -> np1 = np2 }.

Record acd_wf (nets : gmap Z netif) (m : acd_mod) : Prop := AcdWf
  { aw_fields : forall p a, acds m !! p = Some a -> acd_fields a;
    aw_lists : exists ls, lists_ok nets m ls }.

(** The links and the callbacks are the same. *)
Definition acd_link (a : acd) : option Z * option Z := (acd_next a, acd_conflict_callback a).
Definition same_lists (m m' : acd_mod) : Prop :=
  acd_list m' = acd_list m /\ forall p, acd_link <$> acds m' !! p = acd_link <$> acds m !! p.

#[export] Instance same_lists_preorder : PreOrder same_lists.
Proof.
  split; [done|]. intros m1 m2 m3 [H1 H2] [H3 H4]. split; [congruence|]. intros p. by rewrite H4, H2.
Qed.

(** What a layer above promises that uses both ARP and conflict detection: its
    invariant contains that of the structs, and survives any change that keeps
    them well formed. *)
Class AcdUser (P1 P2 X K : Type) `{!PoolAlloc P1} `{!PoolAlloc P2} `{!LinkDriver X} {pn : Part K (net P1 P2 X)} {pm : Part K acd_mod}
    {U : ArpUser P1 P2 X K} : Prop :=
  { acd_apart : Apart pn pm;
    acd_user_wf : forall k E, user_inv k E -> acd_wf (netifs (@part K (net P1 P2 X) pn k)) (@part K acd_mod pm k);
    acd_user_set : forall k E m, user_inv k E -> acd_wf (netifs (@part K (net P1 P2 X) pn k)) m -> user_inv (@set_part K acd_mod pm m k) E }.

#[export] Instance same_lists_sym : Symmetric same_lists.
Proof. intros m m' [H1 H2]. split; [done|]. intros p. by rewrite H2. Qed.

(** The two modules alone. *)
Definition arp_with_acd (P1 P2 X K : Type) `{!PoolAlloc P1} `{!PoolAlloc P2} `{!LinkDriver X} (pn : Part K (net P1 P2 X)) (pm : Part K acd_mod)
  (A : Apart pn pm) : ArpUser P1 P2 X K.
Proof.
  refine {| held := fun _ => ∅;
            user_inv := fun k E => arp_ok (part (Part := pn) k) E /\ acd_wf (netifs (part (Part := pn) k)) (part (Part := pm) k) |}.
  - intros k E [Hn _]. by rewrite (right_id_L ∅ (⊎)).
  - intros k E n E' [_ Hw] Hn Hnet. rewrite (right_id_L ∅ (⊎)) in Hn. rewrite part_set, apart_left, Hnet. by split.
Defined.

#[export] Instance arp_with_acd_user P1 P2 X K `{!PoolAlloc P1} `{!PoolAlloc P2} `{!LinkDriver X} (pn : Part K (net P1 P2 X)) (pm : Part K acd_mod)
  (A : Apart pn pm) : AcdUser P1 P2 X K (U := arp_with_acd P1 P2 X K pn pm A).
Proof.
  split; [done | by intros k E [_ Hw] |]. intros k E m [Hn _] Hw. cbn. rewrite apart_right, part_set. by split.
Qed.

Lemma same_next m m' q a : same_lists m m' -> acds m !! q = Some a -> exists a', acds m' !! q = Some a' /\ acd_next a' = acd_next a.
Proof.
  intros [_ Hs] Ha. pose proof (Hs q) as Hq. rewrite Ha in Hq.
  destruct (acds m' !! q) as [a'|]; [|done]. injection Hq as En _. by exists a'.
Qed.

Lemma acds_in_same np m m' l : same_lists m m' -> acds_in np m l -> acds_in np m' l.
Proof.
  intros Hs (h & Hh & Hc & Hnd). exists h. split; [by rewrite (proj1 Hs)|]. split; [|done].
  eapply chain_links; [|exact Hc]. intros q a _. by apply same_next.
Qed.

Lemma lists_ok_same nets m m' ls : same_lists m m' -> lists_ok nets m ls -> lists_ok nets m' ls.
Proof.
  intros Hs [H1 H2 H3]. split; [| |done].
  - intros np Hnp. eapply acds_in_same; [exact Hs | by apply H1].
  - intros np p a' Hnp Hp Ha'. pose proof (proj2 Hs p) as Hl. rewrite Ha' in Hl.
    destruct (acds m !! p) as [a|] eqn:Ha; [|done]. injection Hl as _ ->. by apply (H2 np p a).
Qed.

Lemma acds_in_det np m l l' : acds_in np m l -> acds_in np m l' -> l = l'.
Proof. intros (h & Hh & Hc & _) (h' & Hh' & Hc' & _). rewrite Hh in Hh'. injection Hh' as <-. by eapply chain_det. Qed.

(** Fields that are not links. *)
Lemma wf_put nets m p a a' : acd_wf nets m -> acds m !! p = Some a -> acd_fields a' -> acd_link a' = acd_link a ->
  acd_wf nets (set_acds (<[p := a']> (acds m)) m) /\ same_lists m (set_acds (<[p := a']> (acds m)) m).
Proof.
  intros [Hw1 [ls Hw2]] Ha Hf Hl. assert (Hs : same_lists m (set_acds (<[p := a']> (acds m)) m)).
  { split; [done|]. intros q. cbn. destruct (decide (p = q)) as [<-|Hne]; [|by rewrite lookup_insert_ne].
    rewrite lookup_insert_eq, Ha. cbn. by rewrite Hl. }
  split; [|done]. split; [|exists ls; by apply (lists_ok_same _ m)].
  intros q b. cbn. destruct (decide (p = q)) as [<-|Hne]; [rewrite lookup_insert_eq; by intros [= <-] | rewrite lookup_insert_ne by done; apply Hw1].
Qed.

(** *** The state machine *)

(** What a struct does in one tick, by itself: a message it sends, its new
    fields and a call of its client. *)
Inductive acd_event : Type := SendProbe | SendAnnounce.

Definition acd_age (a : acd) : acd :=
  with_ttw (if 0 <? ttw a then ttw a - 1 else ttw a)
    (with_lastconflict (if 0 <? lastconflict a then lastconflict a - 1 else lastconflict a) a).

Definition acd_tick (rand : Z) (a0 : acd) : option acd_event * acd * option acd_callback_enum_t :=
  let a := acd_age a0 in
  if negb (ttw a =? 0) then (None, a, None) else
  match acd_state a with
  | ACD_STATE_PROBE_WAIT | ACD_STATE_PROBING =>
      if PROBE_NUM <=? sent_num a + 1
      then (Some SendProbe, with_ttw (ANNOUNCE_WAIT * ACD_TICKS_PER_SECOND) (with_sent_num 0 (with_acd_state ACD_STATE_ANNOUNCE_WAIT a)), None)
      else (Some SendProbe, with_ttw (ACD_RANDOM_PROBE_INTERVAL rand) (with_sent_num (sent_num a + 1) (with_acd_state ACD_STATE_PROBING a)), None)
  | ACD_STATE_ANNOUNCE_WAIT | ACD_STATE_ANNOUNCING =>
      if sent_num a =? 0
      then (Some SendAnnounce, with_sent_num 1 (with_ttw (ANNOUNCE_INTERVAL * ACD_TICKS_PER_SECOND)
              (with_num_conflicts 0 (with_acd_state ACD_STATE_ANNOUNCING a))), None)
      else (Some SendAnnounce, with_ttw 0 (with_sent_num 0 (with_acd_state ACD_STATE_ONGOING a)), Some ACD_IP_OK)
  | ACD_STATE_RATE_LIMIT => (None, with_acd_state ACD_STATE_OFF a, Some ACD_RESTART_CLIENT)
  | _ => (None, a, None)
  end.

Lemma acd_age_fields a : acd_fields a -> acd_fields (acd_age a) /\ acd_link (acd_age a) = acd_link a.
Proof.
  intros (H1 & H2 & H3 & H4 & H5 & H6). split; [|done]. unfold acd_fields, acd_age. cbn.
  assert (Ht : is_u16 (if 0 <? ttw a then ttw a - 1 else ttw a) /\ (if 0 <? ttw a then ttw a - 1 else ttw a) <= ttw a).
  { destruct (Z.ltb_spec 0 (ttw a)); split; (done || solve_u || lia). }
  revert Ht. generalize (if 0 <? ttw a then ttw a - 1 else ttw a) as t. intros t [Ht1 Ht2]. split; [done|].
  split; [destruct (Z.ltb_spec 0 (lastconflict a)); lia|]. do 3 (split; [done|]).
  destruct (acd_state a); try done; (split; [apply H6 | lia]) || lia.
Qed.

Lemma interval_bounds rand : PROBE_MIN * ACD_TICKS_PER_SECOND <= ACD_RANDOM_PROBE_INTERVAL rand < PROBE_MAX * ACD_TICKS_PER_SECOND.
Proof. unfold ACD_RANDOM_PROBE_INTERVAL, PROBE_MIN, PROBE_MAX. change ACD_TICKS_PER_SECOND with 10. lia. Qed.

Lemma u16_interval rand : u16 (ACD_RANDOM_PROBE_INTERVAL rand) = ACD_RANDOM_PROBE_INTERVAL rand.
Proof.
  apply u16_id. pose proof (interval_bounds rand) as H. change (10 <= ACD_RANDOM_PROBE_INTERVAL rand < 20) in H. solve_u.
Qed.

(** The fields of a struct with the constants in numbers. *)
Lemma acd_fields_intro a : is_u32 (acd_ipaddr a) -> 0 <= lastconflict a <= 100 -> is_u8 (num_conflicts a) -> is_u8 (sent_num a) ->
  0 <= ttw a <= 600 ->
  match acd_state a with
  | ACD_STATE_PROBE_WAIT => sent_num a = 0 /\ ttw a < 10
  | ACD_STATE_PROBING => 1 <= sent_num a < 3 /\ ttw a < 20
  | ACD_STATE_ANNOUNCE_WAIT => sent_num a = 0 /\ ttw a <= 20
  | ACD_STATE_ANNOUNCING => sent_num a = 1 /\ ttw a <= 20
  | _ => True
  end -> acd_fields a.
Proof.
  intros H1 H2 H3 H4 H5 H6. split; [done|]. split; [exact H2|]. split; [done|]. split; [done|]. split; [solve_u|].
  destruct (acd_state a); try done. apply H5.
Qed.

Ltac acd_fields_tac :=
  apply acd_fields_intro;
  cbn [fst snd acd_ipaddr lastconflict num_conflicts sent_num ttw acd_state with_ttw with_sent_num with_acd_state with_num_conflicts
       with_lastconflict with_acd_ipaddr];
  (done || solve_u || lia).

Lemma acd_tick_fields rand a : acd_fields a -> acd_fields (acd_tick rand a).1.2 /\ acd_link (acd_tick rand a).1.2 = acd_link a.
Proof.
  intros Hf. destruct (acd_age_fields a Hf) as [Ha <-]. unfold acd_tick. set (b := acd_age a) in *. clearbody b. clear a Hf.
  pose proof (interval_bounds rand) as Hi. change (10 <= ACD_RANDOM_PROBE_INTERVAL rand < 20) in Hi. pose proof Ha as (H1 & H2 & H3 & H4 & H5 & H6).
  change (0 <= lastconflict b <= 100) in H2.
  change (PROBE_NUM) with 3. change (ANNOUNCE_WAIT * ACD_TICKS_PER_SECOND) with 20. change (ANNOUNCE_INTERVAL * ACD_TICKS_PER_SECOND) with 20.
  destruct (ttw b =? 0); cbn [negb]; [|by split].
  destruct (acd_state b) eqn:Es; try (by split).
  - destruct (Z.leb_spec 3 (sent_num b + 1)); [lia|]. split; [acd_fields_tac | done].
  - destruct H6 as [H6 _]. change (1 <= sent_num b < 3) in H6.
    destruct (Z.leb_spec 3 (sent_num b + 1)); (split; [acd_fields_tac | done]).
  - destruct H6 as [-> _]. split; [acd_fields_tac | done].
  - destruct H6 as [-> _]. split; [acd_fields_tac | done].
Qed.


Section Ops.
Context {P1 P2 : Type} `{!PoolAlloc P1} `{!PoolAlloc P2} {X : Type} `{!LinkDriver X}.
Context {K : Type} {pn : Part K (net P1 P2 X)} {pm : Part K acd_mod} {U : ArpUser P1 P2 X K} `{V : !AcdUser P1 P2 X K}.
Implicit Type k : K.
#[local] Set Default Proof Using "Type*".

Notation npart := (@part K (net P1 P2 X) pn).
Notation mpart := (@part K acd_mod pm).

(** What every step of conflict detection keeps, for a caller with the
    references [E]. *)
Record kept (E : gmultiset ptr) k k' : Prop := Kept
  { kp_inv : user_inv k' E;
    kp_lists : same_lists (mpart k) (mpart k');
    kp_nets : forall i, is_Some (netifs (npart k) !! i) -> is_Some (netifs (npart k') !! i);
    kp_msgs : forall p m, p ∈ E -> sole_message (packets (npart k)) p m -> sole_message (packets (npart k')) p m }.

Lemma kept_refl E k : user_inv k E -> kept E k k.
Proof using Type. by split. Qed.

Lemma kept_trans E k1 k2 k3 : kept E k1 k2 -> kept E k2 k3 -> kept E k1 k3.
Proof using Type.
  intros [H1 H2 H3 H4] [G1 G2 G3 G4]. split; [done | by transitivity (mpart k2) | auto | auto].
Qed.

(** The contract of a callback: it may use ARP and restart or stop detection,
    but does not change the lists. *)
Definition callback_contract (cb : Z -> Z -> acd_callback_enum_t -> K -> res K) : Prop :=
  forall f np c k E, user_inv k E -> is_Some (netifs (npart k) !! np) -> exists k', cb f np c k = Ok k' /\ kept E k k'.

(** Struct [p] can be on a list. *)
Definition listed (p : Z) k : Prop := exists a, acds (mpart k) !! p = Some a /\ is_Some (acd_conflict_callback a).

Lemma kept_listed E k k' p : kept E k k' -> listed p k -> listed p k'.
Proof using Type.
  intros Hk (a & Ha & Hc). destruct (kp_lists _ _ _ Hk) as [_ Hl]. specialize (Hl p). rewrite Ha in Hl.
  unfold listed. destruct (acds (mpart k') !! p) as [a'|]; [|done]. injection Hl as _ Ec. exists a'. by rewrite Ec.
Qed.

Definition acd_put (p : Z) (a : acd) k : K := set_part (set_acds (<[p := a]> (acds (mpart k))) (mpart k)) k.

Lemma acd_put_kept E k p a a' : user_inv k E -> acds (mpart k) !! p = Some a -> acd_fields a' -> acd_link a' = acd_link a ->
  kept E k (acd_put p a' k).
Proof.
  intros Hk Ha Hf Hl. destruct (wf_put _ _ p a a' (acd_user_wf k E Hk) Ha Hf Hl) as [Hw Hs]. split.
  - by apply (acd_user_set k E).
  - unfold acd_put. by rewrite part_set.
  - unfold acd_put. by rewrite (@apart_right _ _ _ _ _ acd_apart).
  - unfold acd_put. by rewrite (@apart_right _ _ _ _ _ acd_apart).
Qed.

Lemma acd_put_lookup p a k : acds (mpart (acd_put p a k)) !! p = Some a.
Proof using Type. unfold acd_put. rewrite part_set. apply lookup_insert_eq. Qed.

Lemma acd_put_put p a a' k : acd_put p a (acd_put p a' k) = acd_put p a k.
Proof using Type.
  unfold acd_put. rewrite part_set, set_set_part. unfold set_acds. cbn. by rewrite insert_insert_eq.
Qed.

Lemma acd_set_put p f k a : acds (mpart k) !! p = Some a -> acd_set p f k = Ok (acd_put p (f a) k).
Proof using Type. intros Ha. unfold acd_set, acd_get. by rewrite Ha. Qed.

Lemma acd_get_some p k a : acds (mpart k) !! p = Some a -> acd_get p k = Ok a.
Proof using Type. intros Ha. unfold acd_get. by rewrite Ha. Qed.

Variable custom_free_function : ptr -> store P1 P2 -> res (store P1 P2).
Variable fresh_byte : nat -> Z.
Hypothesis fresh_u8 : forall i, is_u8 (fresh_byte i).

(** *** Probes and announcements *)

(** There is memory for an ARP message. *)
Definition arp_memory k : bool := has_ram PBUF_LINK SIZEOF_ETHARP_HDR (packets (npart k)).

(** The frames [fs], as far as there is memory for them. *)
Definition if_memory k (fs : list (list Z)) : list (list Z) := if arp_memory k then fs else [].

(** The frame [f] has gone out, if there was memory for it. *)
Record sent k k' (f : list Z) : Prop := Sent
  { sn_acds : mpart k' = mpart k;
    sn_quiet : quiet (npart k) (npart k');
    sn_wire : wire (device (npart k')) = wire (device (npart k)) ++ if_memory k [f] }.

Lemma sent_memory k E k' f : user_inv k E -> sent k k' f -> arp_memory k' = arp_memory k.
Proof using V. intros Hk [_ Hq _]. exact (quiet_ram _ _ _ PBUF_LINK SIZEOF_ETHARP_HDR Hq (user_arp k E Hk)). Qed.

Lemma acd_put_memory p a k : arp_memory (acd_put p a k) = arp_memory k.
Proof using V. unfold arp_memory, acd_put. by rewrite (@apart_right _ _ _ _ _ acd_apart). Qed.

Lemma acd_put_wire p a k : wire (device (npart (acd_put p a k))) = wire (device (npart k)).
Proof using V. unfold acd_put. by rewrite (@apart_right _ _ _ _ _ acd_apart). Qed.

(** An ARP request from our own hardware address, to everybody. *)
Definition own_frame (nif : netif) (ips ipd : Z) : list Z :=
  frame_of ethbroadcast (hwaddr nif) ETHTYPE_ARP (arp_message ARP_REQUEST (hwaddr nif) ips ethzero ipd).

Lemma own_sent k E np nif ips ipd : user_inv k E -> netifs (npart k) !! np = Some nif -> is_u32 ips -> is_u32 ipd ->
  exists k' r, in_part (etharp_raw custom_free_function fresh_byte np (hwaddr nif) ethbroadcast (hwaddr nif) ips ethzero ipd ARP_REQUEST) k
      = Ok (k', r) /\ kept E k k' /\ sent k k' (own_frame nif ips ipd).
Proof.
  intros Hk Hnif Hs Hd. pose proof (user_arp _ _ Hk) as Hn. destruct (ao_netifs _ _ Hn np nif Hnif) as (_ & Hl & Hb & _).
  destruct (etharp_raw_ok custom_free_function fresh_byte fresh_u8 (npart k) _ np nif (hwaddr nif) ethbroadcast (hwaddr nif) ips ethzero ipd ARP_REQUEST Hn Hnif)
    as (n' & r & Er & Hn' & Hq & Hw); try done; try apply ethbroadcast_ok; [repeat constructor; solve_u|].
  exists (set_part n' k), r. unfold in_part. rewrite Er, bind_ok.
  assert (Hpart : npart (set_part n' k) = n') by apply part_set.
  assert (Hm : mpart (@set_part K (net P1 P2 X) pn n' k) = mpart k) by apply (@apart_left _ _ _ _ _ acd_apart).
  split_and!; [done | |].
  - split; rewrite ?Hpart, ?Hm; try done.
    + apply (user_set k E); [done | done | apply Hq].
    + by rewrite (qt_netifs _ _ Hq).
    + intros p m _. unfold sole_message, message_at. by rewrite (qt_pbufs _ _ Hq), (qt_areas _ _ Hq).
  - split; rewrite ?Hpart; [done | done |]. unfold if_memory, arp_memory. destruct (has_ram _ _ _), Hw as [_ Hw]; [done|].
    by rewrite Hw, app_nil_r.
Qed.

Lemma probe_sent k E np nif a : user_inv k E -> netifs (npart k) !! np = Some nif -> is_u32 a ->
  exists k' r, in_part (etharp_acd_probe custom_free_function fresh_byte np a) k = Ok (k', r) /\ kept E k k' /\ sent k k' (own_frame nif IPADDR_ANY a).
Proof.
  intros Hk Hnif Ha. destruct (own_sent k E np nif IPADDR_ANY a Hk Hnif) as (k' & r & Er & H); [done | done |].
  exists k', r. split; [|done]. unfold in_part, etharp_acd_probe in *. by rewrite (netif_at_some _ _ _ Hnif), bind_ok.
Qed.

Lemma announce_sent k E np nif a : user_inv k E -> netifs (npart k) !! np = Some nif -> is_u32 a ->
  exists k' r, in_part (etharp_acd_announce custom_free_function fresh_byte np a) k = Ok (k', r) /\ kept E k k' /\ sent k k' (own_frame nif a a).
Proof.
  intros Hk Hnif Ha. destruct (own_sent k E np nif a a Hk Hnif) as (k' & r & Er & H); [done | done |].
  exists k', r. split; [|done]. unfold in_part, etharp_acd_announce in *. by rewrite (netif_at_some _ _ _ Hnif), bind_ok.
Qed.

(** Sending does not look at the structs, and writing a struct does not disturb
    the rest. *)
Lemma in_part_put (f : net P1 P2 X -> res (net P1 P2 X * Z)) p x k k1 r : in_part f k = Ok (k1, r) ->
  in_part f (acd_put p x k) = Ok (acd_put p x k1, r).
Proof.
  unfold in_part, acd_put. rewrite (@apart_right _ _ _ _ _ acd_apart). destruct (f (npart k)) as [[n r']|]; [|done].
  rewrite !bind_ok. intros [= <- <-]. by rewrite (@apart_left _ _ _ _ _ acd_apart), (@apart_swap _ _ _ _ _ acd_apart).
Qed.

Definition event_frame (nif : netif) (ip : Z) (e : acd_event) : list Z :=
  match e with SendProbe => own_frame nif IPADDR_ANY ip | SendAnnounce => own_frame nif ip ip end.
Definition after_event (nif : netif) (ip : Z) (ev : option acd_event) k k1 : Prop :=
  match ev with None => k1 = k | Some e => sent k k1 (event_frame nif ip e) end.

Lemma put_after_event k E k1 p a a' nif ip ev : user_inv k E -> acds (mpart k) !! p = Some a -> acd_fields a' -> acd_link a' = acd_link a ->
  kept E k k1 -> after_event nif ip ev k k1 -> kept E k (acd_put p a' k1).
Proof.
  intros Hk Ha Hf Hl K1 Hev. eapply kept_trans; [exact K1|]. apply (acd_put_kept E k1 p a); [apply K1 | | done | done].
  destruct ev; [destruct Hev as [-> _ _]; done | by rewrite Hev].
Qed.

Lemma acd_put_same p a k : acds (mpart k) !! p = Some a -> acd_put p a k = k.
Proof using Type.
  intros Ha. unfold acd_put. rewrite insert_id by done. transitivity (set_part (mpart k) k); [by destruct (mpart k) | apply set_part_part].
Qed.

Lemma acd_set_acd_put p f x k : acd_set p f (acd_put p x k) = Ok (acd_put p (f x) k).
Proof using Type. rewrite (acd_set_put p f _ x) by apply acd_put_lookup. by rewrite acd_put_put. Qed.

Lemma acd_get_acd_put p x k : acd_get p (acd_put p x k) = Ok x.
Proof using Type. apply acd_get_some, acd_put_lookup. Qed.

(** The two counters at the head of a turn. *)
Lemma age_put {A} p a k (F : K -> res A) : acd_fields a -> acds (mpart k) !! p = Some a ->
  (k ← (if 0 <? lastconflict a then acd_set p (with_lastconflict (u8 (lastconflict a - 1))) k else Ok k);
   k ← (if 0 <? ttw a then acd_set p (with_ttw (u16 (ttw a - 1))) k else Ok k); F k) = F (acd_put p (acd_age a) k).
Proof using Type.
  intros (_ & Hl & _ & _ & Ht & _) Ha. change (0 <= lastconflict a <= 100) in Hl. unfold acd_age.
  assert (E1 : (if 0 <? lastconflict a then acd_set p (with_lastconflict (u8 (lastconflict a - 1))) k else Ok k)
    = Ok (acd_put p (with_lastconflict (if 0 <? lastconflict a then lastconflict a - 1 else lastconflict a) a) k)).
  { destruct (Z.ltb_spec 0 (lastconflict a)).
    - by rewrite (acd_set_put p _ k a Ha), u8_id by solve_u.
    - rewrite acd_put_same; [done|]. rewrite Ha. by destruct a. }
  rewrite E1, bind_ok. destruct (Z.ltb_spec 0 (ttw a)); [|done].
  by rewrite acd_set_acd_put, u16_id, bind_ok by solve_u.
Qed.

(** Past the counters. *)
Ltac enter_turn Ha Ha' Hf Eb :=
  unfold acd_tmr_entry; rewrite Ha', bind_ok, (age_put _ _ _ _ Hf Ha), <- Eb, acd_get_acd_put, bind_ok.

(** One turn of the timer is a tick of the state machine. *)
Lemma acd_turn_ok k E np nif rand p a : user_inv k E -> netifs (npart k) !! np = Some nif -> acds (mpart k) !! p = Some a ->
  exists k1, after_event nif (acd_ipaddr a) (acd_tick rand a).1.1 k k1 /\ kept E k (acd_put p (acd_tick rand a).1.2 k1) /\
    forall conflict_callback, acd_tmr_entry custom_free_function fresh_byte conflict_callback np rand p k =
      match (acd_tick rand a).2 with
      | None => Ok (acd_put p (acd_tick rand a).1.2 k1)
      | Some c => call_back conflict_callback np p c (acd_put p (acd_tick rand a).1.2 k1)
      end.
Proof.
  intros Hk Hnif Ha. pose proof (aw_fields _ _ (acd_user_wf k E Hk) p a Ha) as Hf. destruct (acd_tick_fields rand a Hf) as [Hf' Hl'].
  destruct (acd_age_fields a Hf) as [Hg _].
  enough (exists k1, after_event nif (acd_ipaddr a) (acd_tick rand a).1.1 k k1 /\ kept E k k1 /\
    forall conflict_callback, acd_tmr_entry custom_free_function fresh_byte conflict_callback np rand p k =
      match (acd_tick rand a).2 with
      | None => Ok (acd_put p (acd_tick rand a).1.2 k1)
      | Some c => call_back conflict_callback np p c (acd_put p (acd_tick rand a).1.2 k1)
      end) as (k1 & Hev & K1 & Erun) by (exists k1; split_and!; [done | by eapply put_after_event | done]).
  clear Hf' Hl'.
  destruct (probe_sent k E np nif (acd_ipaddr a)) as (kp & rp & Ep & Kp & Sp); [done | done | apply Hf|].
  destruct (announce_sent k E np nif (acd_ipaddr a)) as (ka & ra & Ea & Ka & Sa); [done | done | apply Hf|].
  pose proof (fun x => in_part_put _ p x k kp rp Ep) as Ep'. pose proof (fun x => in_part_put _ p x k ka ra Ea) as Ea'.
  unfold acd_tick. change (acd_ipaddr a) with (acd_ipaddr (acd_age a)) in *. destruct Hg as (_ & _ & _ & Hsn & _ & Hst).
  remember (acd_age a) as b eqn:Eb.
  assert (Ha' : acd_get p k = Ok a) by (by apply acd_get_some).
  destruct (Z.eqb_spec (ttw b) 0) as [Et|Et]; cbn [negb fst snd after_event].
  2: { exists k. split; [done|]. split; [by apply kept_refl|]. intros cb. enter_turn Ha Ha' Hf Eb. rewrite <- Z.eqb_neq in Et. rewrite Et. by destruct (acd_state b). }
  destruct (acd_state b) eqn:Es; try (exists k; split; [done|]; split; [by apply kept_refl|]; intros cb; enter_turn Ha Ha' Hf Eb; by rewrite Es).
  - destruct Hst as [Hs _]. exists kp. rewrite Hs. change (PROBE_NUM <=? 0 + 1) with false. split; [done|]. split; [done|]. intros cb.
    enter_turn Ha Ha' Hf Eb. rewrite Es, Et, Z.eqb_refl, acd_set_acd_put, bind_ok, Ep', bind_ok, acd_set_acd_put, bind_ok, acd_get_acd_put, bind_ok.
    cbn [sent_num with_sent_num with_acd_state]. rewrite Hs. change (u8 (0 + 1)) with 1.
    change (PROBE_NUM <=? 1) with false. cbv iota. by rewrite acd_set_acd_put, u16_interval.
  - destruct Hst as [Hs _]. change (1 <= sent_num b < 3) in Hs. exists kp.
    split; [by destruct (_ <=? _)|]. split; [done|]. intros cb.
    enter_turn Ha Ha' Hf Eb. rewrite Es, Et, Z.eqb_refl, acd_set_acd_put, bind_ok, Ep', bind_ok, acd_set_acd_put, bind_ok, acd_get_acd_put, bind_ok.
    cbn [sent_num with_sent_num with_acd_state]. rewrite u8_id by solve_u.
    destruct (PROBE_NUM <=? sent_num b + 1); cbn [fst snd].
    + by rewrite acd_set_acd_put, bind_ok, acd_set_acd_put, bind_ok, acd_set_acd_put.
    + by rewrite acd_set_acd_put, u16_interval.
  - destruct Hst as [Hs _]. exists ka. rewrite Hs. change (0 =? 0) with true. split; [done|]. split; [done|]. intros cb.
    enter_turn Ha Ha' Hf Eb. rewrite Es, Et, Z.eqb_refl, Hs. change (0 =? 0) with true. cbv iota.
    rewrite acd_set_acd_put, bind_ok, acd_set_acd_put, bind_ok, Ea', bind_ok, acd_set_acd_put, bind_ok, acd_set_acd_put, bind_ok, acd_get_acd_put, bind_ok.
    cbn [sent_num with_sent_num with_acd_state with_ttw with_num_conflicts fst snd]. by rewrite Hs.
  - destruct Hst as [Hs _]. exists ka. rewrite Hs. change (1 =? 0) with false. split; [done|]. split; [done|]. intros cb.
    enter_turn Ha Ha' Hf Eb. rewrite Es, Et, Z.eqb_refl, Hs. change (1 =? 0) with false. cbv iota.
    rewrite bind_ok, Ea', bind_ok, acd_set_acd_put, bind_ok, acd_set_acd_put, bind_ok, acd_get_acd_put, bind_ok.
    cbn [sent_num with_sent_num with_acd_state with_ttw with_num_conflicts fst snd]. rewrite Hs.
    change (ANNOUNCE_NUM <=? u8 (1 + 1)) with true. cbv iota.
    by rewrite acd_set_acd_put, bind_ok, acd_set_acd_put, bind_ok, acd_set_acd_put, bind_ok.
  - exists k. split; [done|]. split; [by apply kept_refl|]. intros cb. enter_turn Ha Ha' Hf Eb. rewrite Es, Et, Z.eqb_refl. unfold acd_stop.
    by rewrite acd_set_acd_put, !bind_ok.
Qed.

Variable conflict_callback : Z -> Z -> acd_callback_enum_t -> K -> res K.
Hypothesis callback_ok : callback_contract conflict_callback.

Lemma call_back_kept k E np p c : user_inv k E -> is_Some (netifs (npart k) !! np) -> listed p k ->
  exists k', call_back conflict_callback np p c k = Ok k' /\ kept E k k'.
Proof using callback_ok V.
  intros Hk Hnp (a & Ha & f & Hf). unfold call_back. rewrite (acd_get_some _ _ _ Ha), bind_ok, Hf. cbn [of_option]. rewrite bind_ok.
  by apply callback_ok.
Qed.

Lemma listed_fields k E p : user_inv k E -> listed p k -> exists a, acds (mpart k) !! p = Some a /\ acd_fields a.
Proof using V. intros Hk (a & Ha & _). exists a. split; [done|]. by apply (aw_fields _ _ (acd_user_wf k E Hk) p). Qed.

(** One field, or a few, of a listed struct. *)
Lemma set_kept k E p f : user_inv k E -> listed p k -> (forall a, acd_fields a -> acd_fields (f a) /\ acd_link (f a) = acd_link a) ->
  exists k', acd_set p f k = Ok k' /\ kept E k k'.
Proof using V.
  intros Hk Hp Hf. destruct (listed_fields k E p Hk Hp) as (a & Ha & Hfa). destruct (Hf a Hfa) as [H1 H2].
  exists (acd_put p (f a) k). split; [by apply acd_set_put|]. by apply (acd_put_kept E k p a).
Qed.

Lemma stop_fields a : acd_fields a -> acd_fields (with_acd_state ACD_STATE_OFF a) /\ acd_link (with_acd_state ACD_STATE_OFF a) = acd_link a.
Proof using Type. intros (? & ? & ? & ? & ? & _). split; [|done]. by do 5 (split; [done|]). Qed.

Lemma stop_then_call k E np p c : user_inv k E -> is_Some (netifs (npart k) !! np) -> listed p k ->
  exists k', ('(k, _) ← acd_stop (Some p) k; call_back conflict_callback np p c k) = Ok k' /\ kept E k k'.
Proof using callback_ok V.
  intros Hk Hnp Hp. unfold acd_stop. destruct (set_kept k E p _ Hk Hp stop_fields) as (k1 & -> & K1). rewrite !bind_ok.
  destruct (call_back_kept k1 E np p c) as (k2 & -> & K2); [apply K1 | by apply (kp_nets _ _ _ K1) | by eapply kept_listed|].
  exists k2. split; [done|]. by eapply kept_trans.
Qed.

Lemma restart_kept k E np p : user_inv k E -> is_Some (netifs (npart k) !! np) -> listed p k ->
  exists k', acd_restart conflict_callback np p k = Ok k' /\ kept E k k'.
Proof using callback_ok V.
  intros Hk Hnp Hp. unfold acd_restart.
  destruct (set_kept k E p (fun a => with_num_conflicts (u8 (num_conflicts a + 1)) a) Hk Hp) as (k1 & -> & K1).
  { intros a (? & ? & _ & ?). split; [|done]. split; [done|]. split; [done|]. split; [apply u8_range | done]. }
  rewrite bind_ok. pose proof (kept_listed _ _ _ _ K1 Hp) as Hp1. pose proof (kp_nets _ _ _ K1 np Hnp) as Hnp1.
  destruct (call_back_kept k1 E np p ACD_DECLINE (kp_inv _ _ _ K1) Hnp1 Hp1) as (k2 & -> & K2). rewrite bind_ok.
  pose proof (kept_trans _ _ _ _ K1 K2) as K12. pose proof (kept_listed _ _ _ _ K12 Hp) as Hp2.
  pose proof (kp_nets _ _ _ K12 np Hnp) as Hnp2. pose proof Hp2 as (a & Ha & _). rewrite (acd_get_some _ _ _ Ha), bind_ok.
  destruct (MAX_CONFLICTS <=? num_conflicts a).
  - pose proof (aw_fields _ _ (acd_user_wf k2 E (kp_inv _ _ _ K2)) p a Ha) as (? & ? & ? & ? & ? & _).
    rewrite (acd_set_put p _ k2 a Ha), bind_ok, (acd_set_put p _ _ _ (acd_put_lookup _ _ _)), acd_put_put.
    eexists. split; [done|]. eapply kept_trans; [exact K12|]. apply (acd_put_kept E k2 p a); [apply K2 | done | | done].
    do 4 (split; [done|]). done.
  - destruct (stop_then_call k2 E np p ACD_RESTART_CLIENT (kp_inv _ _ _ K2) Hnp2 Hp2) as (k3 & -> & K3).
    exists k3. split; [done|]. by eapply kept_trans.
Qed.

(** *** Walking over the list of an interface *)

Lemma foreach_kept E (Q : K -> Prop) np body l : (forall k k', kept E k k' -> Q k -> Q k') ->
  (forall p k, user_inv k E -> is_Some (netifs (npart k) !! np) -> listed p k -> Q k -> exists k', body p k = Ok k' /\ kept E k k') ->
  forall fuel h k, user_inv k E -> is_Some (netifs (npart k) !! np) -> acd_chain (acds (mpart k)) h l -> Forall (fun p => listed p k) l ->
  (length l <= fuel)%nat -> Q k ->
  exists k', ACD_FOREACH fuel body h k = Ok k' /\ kept E k k'.
Proof using V.
  intros HQ Hbody. induction l as [|q l IH]; intros fuel h k Hk Hnp Hc Hls Hl Hq.
  - cbn in Hc. subst h. exists k. split; [by destruct fuel | by apply kept_refl].
  - apply Forall_cons in Hls as [Hq1 Hls]. pose proof Hc as (-> & a & Ha & _). destruct fuel as [|fuel]; [cbn in Hl; lia|]. cbn [ACD_FOREACH].
    destruct (Hbody q k Hk Hnp Hq1 Hq) as (k1 & -> & K1). rewrite bind_ok.
    apply (chain_links _ (acds (mpart k1))) in Hc as (_ & a1 & Ha1 & Hc1); [|by intros r b _ Hr; apply (same_next _ _ _ _ (kp_lists _ _ _ K1))].
    rewrite (acd_get_some _ _ _ Ha1), bind_ok.
    destruct (IH fuel (acd_next a1) k1) as (k2 & -> & K2); try done;
      [apply K1 | by apply K1 | eapply Forall_impl; [exact Hls|]; intros r; by apply (kept_listed E) | cbn in Hl; lia | by eapply HQ |].
    exists k2. split; [done | by eapply kept_trans].
Qed.

Notation acds_of np k l := (acds_in np (mpart k) l).

Lemma acds_of_some k E np : user_inv k E -> is_Some (netifs (npart k) !! np) -> exists l, acds_of np k l.
Proof using V. intros Hk Hnp. destruct (aw_lists _ _ (acd_user_wf k E Hk)) as [ls Hls]. exists (ls np). by apply Hls. Qed.

Lemma acds_of_kept E k k' np l : kept E k k' -> acds_of np k l -> acds_of np k' l.
Proof using Type. intros Hk. apply acds_in_same, Hk. Qed.

Lemma acds_of_listed k E np l p : user_inv k E -> is_Some (netifs (npart k) !! np) -> acds_of np k l -> p ∈ l -> listed p k.
Proof using V.
  intros Hk Hnp Hl Hp. pose proof Hl as (h & _ & Hc & _). destruct (chain_known _ _ _ _ Hc Hp) as [a Ha]. exists a. split; [done|].
  destruct (aw_lists _ _ (acd_user_wf k E Hk)) as [ls Hls]. apply (lk_callback _ _ _ Hls np p); [done | | done].
  by rewrite <- (acds_in_det _ _ _ _ Hl (lk_in _ _ _ Hls np Hnp)).
Qed.

Lemma for_acds_kept E (Q : K -> Prop) np body k : (forall k k', kept E k k' -> Q k -> Q k') ->
  (forall p k, user_inv k E -> is_Some (netifs (npart k) !! np) -> listed p k -> Q k -> exists k', body p k = Ok k' /\ kept E k k') ->
  user_inv k E -> is_Some (netifs (npart k) !! np) -> Q k -> exists k', for_acds np body k = Ok k' /\ kept E k k'.
Proof using V.
  intros HQ Hbody Hk Hnp Hq. destruct (acds_of_some k E np Hk Hnp) as (l & Hin). pose proof Hin as (h & Hh & Hc & Hnd).
  unfold for_acds, acd_head. rewrite Hh. cbn [of_option]. rewrite bind_ok.
  apply (foreach_kept E Q np body l HQ Hbody); try done.
  - apply Forall_forall. intros p Hp. by apply (acds_of_listed k E np l).
  - unfold acd_fuel. pose proof (chain_size _ _ _ Hc Hnd). lia.
Qed.

(** A walk in which nothing happens. *)
Lemma for_acds_same np body k l : acds_of np k l -> (forall p, p ∈ l -> body p k = Ok k) -> for_acds np body k = Ok k.
Proof using Type.
  intros (h & Hh & Hc & Hnd) Hb. unfold for_acds, acd_head, acd_fuel. rewrite Hh. cbn [of_option]. rewrite bind_ok.
  pose proof (chain_size _ _ _ Hc Hnd) as Hl. assert (Hf : (length l <= S (size (acds (mpart k))))%nat) by lia. revert Hf. clear Hl Hh Hnd.
  generalize (S (size (acds (mpart k)))) as fuel. revert h Hc. induction l as [|q l IH]; intros h Hc fuel Hf.
  - cbn in Hc. subst h. by destruct fuel.
  - destruct Hc as (-> & a & Ha & Hc). destruct fuel as [|fuel]; [cbn in Hf; lia|]. cbn [ACD_FOREACH].
    rewrite Hb by (by left). rewrite bind_ok, (acd_get_some _ _ _ Ha), bind_ok. apply IH; [by intros p Hp; apply Hb; right | done | cbn in Hf; lia].
Qed.

(** *** Conflicts *)

Notation handle_conflict := (acd_handle_arp_conflict custom_free_function fresh_byte conflict_callback).

Lemma handle_conflict_kept k E np p : user_inv k E -> is_Some (netifs (npart k) !! np) -> listed p k ->
  exists k', handle_conflict np p k = Ok k' /\ kept E k k'.
Proof.
  intros Hk Hnp Hp. destruct (listed_fields k E p Hk Hp) as (a & Ha & Hf). unfold acd_handle_arp_conflict.
  rewrite (acd_get_some _ _ _ Ha), bind_ok. destruct (bool_decide _); [by apply stop_then_call|].
  destruct (0 <? lastconflict a); [by apply restart_kept|]. destruct Hnp as [nif Hnif].
  destruct (announce_sent k E np nif (acd_ipaddr a) Hk Hnif (proj1 Hf)) as (k1 & r & -> & K1 & _). rewrite bind_ok.
  destruct (set_kept k1 E p (with_lastconflict (DEFEND_INTERVAL * ACD_TICKS_PER_SECOND))) as (k2 & -> & K2);
    [apply K1 | by eapply kept_listed | | exists k2; split; [done | by eapply kept_trans]].
  intros b (? & _ & ?). split; [|done]. split; [done|]. by split.
Qed.

Lemma reply_entry_kept k E np sip dip own shw p : user_inv k E -> is_Some (netifs (npart k) !! np) -> listed p k ->
  exists k', acd_reply_entry custom_free_function fresh_byte conflict_callback np sip dip own shw p k = Ok k' /\ kept E k k'.
Proof.
  intros Hk Hnp Hp. pose proof Hp as (a & Ha & _). unfold acd_reply_entry. rewrite (acd_get_some _ _ _ Ha), bind_ok.
  assert (Hsame : exists k', Ok k = Ok k' /\ kept E k k') by (exists k; split; [done | by apply kept_refl]).
  pose proof (restart_kept k E np p Hk Hnp Hp). pose proof (handle_conflict_kept k E np p Hk Hnp Hp).
  destruct (acd_state a); done || (destruct (_ && _); done) || (destruct (_ || _); done).
Qed.

Lemma passive_kept k E np p : user_inv k E -> is_Some (netifs (npart k) !! np) -> listed p k ->
  exists k', acd_put_in_passive_mode conflict_callback np p k = Ok k' /\ kept E k k'.
Proof using V callback_ok.
  intros Hk Hnp Hp. pose proof Hp as (a & Ha & _). unfold acd_put_in_passive_mode. rewrite (acd_get_some _ _ _ Ha), bind_ok.
  assert (Hsame : exists k', Ok k = Ok k' /\ kept E k k') by (exists k; split; [done | by apply kept_refl]).
  pose proof (fun c => stop_then_call k E np p c Hk Hnp Hp) as Hstop.
  assert (Hset : exists k', acd_set p (with_acd_state ACD_STATE_PASSIVE_ONGOING) k = Ok k' /\ kept E k k').
  { apply set_kept; try done. intros b (? & ? & ? & ? & ? & _). split; [|done]. by do 5 (split; [done|]). }
  by destruct (acd_state a).
Qed.

Lemma tmr_entry_kept k E np rand p : user_inv k E -> is_Some (netifs (npart k) !! np) -> listed p k ->
  exists k', acd_tmr_entry custom_free_function fresh_byte conflict_callback np rand p k = Ok k' /\ kept E k k'.
Proof.
  intros Hk Hnp Hp. pose proof Hp as (a & Ha & _). pose proof Hnp as [nif Hnif].
  destruct (acd_turn_ok k E np nif rand p a Hk Hnif Ha) as (k1 & _ & K1 & ->).
  destruct (acd_tick rand a).2 as [c|]; [|by eexists].
  destruct (call_back_kept _ E np p c (kp_inv _ _ _ K1) (kp_nets _ _ _ K1 np Hnp) (kept_listed _ _ _ _ K1 Hp)) as (k2 & -> & K2).
  exists k2. split; [done | by eapply kept_trans].
Qed.

(** *** The functions *)

Lemma arp_reply_kept k E np q m : user_inv k E -> is_Some (netifs (npart k) !! np) -> q ∈ E -> sole_message (packets (npart k)) q m ->
  length m = 28%nat ->
  exists k', acd_arp_reply custom_free_function fresh_byte conflict_callback np q k = Ok k' /\ kept E k k'.
Proof.
  intros Hk Hnp Hq Hm Hl. pose proof Hnp as [nif Hnif].
  assert (Hread : forall k' off n, sole_message (packets (npart k')) q m -> 0 <= off -> 0 <= n -> off + n <= 28 ->
    hdr_read q off n (packets (npart k')) = Ok (window m off n)).
  { intros k' off n [Hm' _] H1 H2 H3. apply message_read; try done. lia. }
  assert (Hword : forall off, 0 <= off -> off + 4 <= 28 -> exists a, get32 (window m off 4) 0 = Ok a).
  { intros off H1 H2. assert (Hw : length (window m off 4) = 4%nat) by (apply Nat2Z.inj; rewrite window_length; lia).
    destruct (window m off 4) as [|a [|b [|c [|d [|]]]]]; try done. by eexists. }
  unfold acd_arp_reply. cbv zeta. rewrite (netif_at_some _ _ _ Hnif), bind_ok, !Hread by (done || (unfold arp_sipaddr, arp_dipaddr; lia)).
  destruct (Hword arp_sipaddr) as [sip Es]; [unfold arp_sipaddr; lia..|].
  destruct (Hword arp_dipaddr) as [dip Ed]; [unfold arp_dipaddr; lia..|]. rewrite bind_ok, Es, !bind_ok, Ed, bind_ok.
  apply (for_acds_kept E (fun k' => sole_message (packets (npart k')) q m)); try done.
  - intros k1 k2 Hk12. by apply (kp_msgs _ _ _ Hk12).
  - intros p k1 Hk1 Hnp1 Hp Hm1. rewrite Hread, bind_ok by (done || (unfold arp_shwaddr, ETH_HWADDR_LEN; lia)). by apply reply_entry_kept.
Qed.

(** What etharp.c assumes of conflict detection. *)
Lemma arp_reply_contract : acd_contract (acd_arp_reply custom_free_function fresh_byte conflict_callback).
Proof.
  intros k E np p m Hk Hm Hl Hnp.
  destruct (arp_reply_kept k ({[+ p +]} ⊎ E) np p m Hk Hnp) as (k' & Ek & K'); try done; [multiset_solver|].
  exists k'. split_and!; [done | apply K' | by apply (kp_msgs _ _ _ K'); [multiset_solver|] | apply K'].
Qed.

Lemma tmr_kept rand nl : forall k E, user_inv k E -> Forall (fun np => is_Some (netifs (npart k) !! np)) nl ->
  exists k', acd_tmr custom_free_function fresh_byte conflict_callback rand nl k = Ok k' /\ kept E k k'.
Proof.
  induction nl as [|np nl IH]; intros k E Hk Hnl; cbn [acd_tmr]; [exists k; split; [done | by apply kept_refl]|].
  apply Forall_cons in Hnl as [Hnp Hnl].
  destruct (for_acds_kept E (fun _ => True) np (fun p => acd_tmr_entry custom_free_function fresh_byte conflict_callback np (rand p) p) k)
    as (k1 & -> & K1); try done.
  { intros p k' Hk' Hnp' Hp _. by apply tmr_entry_kept. }
  rewrite bind_ok. destruct (IH k1 E (kp_inv _ _ _ K1)) as (k2 & -> & K2).
  { eapply Forall_impl; [exact Hnl|]. apply (kp_nets _ _ _ K1). }
  exists k2. split; [done | by eapply kept_trans].
Qed.

Lemma link_down_kept k E np : user_inv k E -> is_Some (netifs (npart k) !! np) ->
  exists k', acd_network_changed_link_down np k = Ok k' /\ kept E k k'.
Proof using V.
  intros Hk Hnp. apply (for_acds_kept E (fun _ => True)); try done. intros p k1 Hk1 _ Hp _. unfold acd_stop.
  destruct (set_kept k1 E p _ Hk1 Hp stop_fields) as (k2 & -> & K2). rewrite !bind_ok. by exists k2.
Qed.

Lemma addr_changed_kept k E np old new : user_inv k E -> is_Some (netifs (npart k) !! np) ->
  exists k', acd_netif_ip_addr_changed conflict_callback np old new k = Ok k' /\ kept E k k'.
Proof using V callback_ok.
  intros Hk Hnp. unfold acd_netif_ip_addr_changed. destruct (_ || _); [exists k; split; [done | by apply kept_refl]|].
  apply (for_acds_kept E (fun _ => True)); try done. intros p k1 Hk1 Hnp1 Hp _. pose proof Hp as (a & Ha & _).
  rewrite (acd_get_some _ _ _ Ha), bind_ok. destruct (_ && _); [by apply passive_kept | exists k1; split; [done | by apply kept_refl]].
Qed.

Lemma start_ok k E p a ipaddr rand : user_inv k E -> acds (mpart k) !! p = Some a -> is_u32 ipaddr ->
  let a' := Acd (acd_next a) ipaddr ACD_STATE_PROBE_WAIT 0 (ACD_RANDOM_PROBE_WAIT rand) 0 (num_conflicts a) (acd_conflict_callback a) in
  acd_start p ipaddr rand k = Ok (acd_put p a' k, ERR_OK) /\ kept E k (acd_put p a' k).
Proof using V.
  intros Hk Ha Hip a'. pose proof (aw_fields _ _ (acd_user_wf k E Hk) p a Ha) as (_ & _ & Hn & _).
  assert (Hr : 0 <= ACD_RANDOM_PROBE_WAIT rand < 10) by (unfold ACD_RANDOM_PROBE_WAIT, PROBE_WAIT; change ACD_TICKS_PER_SECOND with 10; lia).
  split.
  - unfold acd_start. rewrite (acd_set_put p _ k a Ha), bind_ok. do 4 rewrite acd_set_acd_put, bind_ok. by rewrite u16_id by solve_u.
  - apply (acd_put_kept E k p a); try done. apply acd_fields_intro; cbn; (done || solve_u || lia).
Qed.

End Ops.
