(* ===== verification/AcdSpec.v ===== *)
(** * What conflict detection promises

    The lists of structs as sequences; that every call is safe; an address
    without conflicts is claimed after three probes and two announcements; a
    conflict is answered as RFC 5227 says; and ARP requests that arrive while an
    address is defended are answered. *)

From stdpp Require Import gmultiset functions.
From S2P Require Import Prelude Strings Onescomp Def Ip4Addr Eth Alloc Memp Mem Pbuf PbufRef PbufAlloc PbufStore Ethernet EthArp EthArpOps EthArpOut LwipPort ArpSpec Chain Acd AcdOps.

(** ** Definitions *)

(** The calls of the module. *)
Inductive acd_call : Type :=
  | CallAdd (netif_p p f : Z)
  | CallRemove (netif_p p : Z)
  | CallStart (p ipaddr rand : Z)
  | CallStop (p : option Z)
  | CallTimer (rand : Z -> Z) (netif_list : list Z)
  | CallLinkDown (netif_p : Z)
  | CallAddrChanged (netif_p old_addr new_addr : Z)
  | CallArpReply (netif_p : Z) (q : ptr).

Section Spec.
Context {P1 P2 : Type} `{!PoolAlloc P1} `{!PoolAlloc P2} {X : Type} `{!LinkDriver X}.
Context {K : Type} {pn : Part K (net P1 P2 X)} {pm : Part K acd_mod}.
Implicit Type k : K.
Notation npart := (@part K (net P1 P2 X) pn).
Notation mpart := (@part K acd_mod pm).

Definition acd_exists (p : Z) k : Prop := is_Some (acds (mpart k) !! p).
Definition netif_exists (np : Z) k : Prop := is_Some (netifs (npart k) !! np).
(** No interface but [np] has the struct on its list. *)
Definition only_on (np p : Z) k : Prop :=
  forall np' l, netif_exists np' k -> acds_in np' (mpart k) l -> p ∈ l -> np' = np.

Definition acd_allowed (c : acd_call) k (E : gmultiset ptr) : Prop :=
  match c with
  | CallAdd np p _ => netif_exists np k /\ acd_exists p k /\ only_on np p k
  | CallRemove np p => netif_exists np k /\ exists l, acds_in np (mpart k) l /\ p ∈ l
  | CallStart p ip _ => acd_exists p k /\ is_u32 ip
  | CallStop (Some p) => acd_exists p k
  | CallStop None => True
  | CallTimer _ nl => Forall (fun np => netif_exists np k) nl
  | CallLinkDown np => netif_exists np k
  | CallAddrChanged np _ _ => netif_exists np k
  | CallArpReply np q => netif_exists np k /\ q ∈ E /\ exists m, sole_message (packets (npart k)) q m /\ length m = 28%nat
  end.

Variable custom_free_function : ptr -> store P1 P2 -> res (store P1 P2).
Variable fresh_byte : nat -> Z.
Variable conflict_callback : Z -> Z -> acd_callback_enum_t -> K -> res K.

Definition acd_exec (c : acd_call) k : res K :=
  match c with
  | CallAdd np p f => '(k, _) ← acd_add np p (Some f) k; Ok k
  | CallRemove np p => acd_remove np p k
  | CallStart p ip rand => '(k, _) ← acd_start p ip rand k; Ok k
  | CallStop p => '(k, _) ← acd_stop p k; Ok k
  | CallTimer rand nl => acd_tmr custom_free_function fresh_byte conflict_callback rand nl k
  | CallLinkDown np => acd_network_changed_link_down np k
  | CallAddrChanged np o n => acd_netif_ip_addr_changed conflict_callback np o n k
  | CallArpReply np q => acd_arp_reply custom_free_function fresh_byte conflict_callback np q k
  end.

End Spec.

(** ** Lemmas *)

(** *** Sequences and links *)

Section Lists.
Variable nets : gmap Z netif.
Implicit Type m : acd_mod.

Lemma lists_callback m ls p a f : lists_ok nets m ls -> acds m !! p = Some a ->
  lists_ok nets (set_acds (<[p := with_callback (Some f) a]> (acds m)) m) ls.
Proof.
  intros [H1 H2 H3] Ha. split; [| |done].
  - intros np Hnp. destruct (H1 np Hnp) as (h & Hh & Hc & Hnd). exists h. split_and!; try done.
    eapply chain_links; [|exact Hc]. intros q b _ Hb. cbn. destruct (decide (p = q)) as [<-|Hne].
    + rewrite lookup_insert_eq. eexists. split; [done|]. cbn. congruence.
    + rewrite lookup_insert_ne by done. by exists b.
  - intros np q b Hnp Hq. cbn. destruct (decide (p = q)) as [<-|Hne]; [rewrite lookup_insert_eq; intros [= <-]; by eexists|].
    rewrite lookup_insert_ne by done. by apply H2 with (np := np).
Qed.

(** A new head for the list of [np]; the other lists do not change. *)
Lemma lists_add m ls np p a h : lists_ok nets m ls -> is_Some (nets !! np) -> acds m !! p = Some a ->
  is_Some (acd_conflict_callback a) -> acd_list m !! np = Some h -> (forall np', is_Some (nets !! np') -> p ∉ ls np') ->
  lists_ok nets (set_acd_list (<[np := Some p]> (acd_list m)) (set_acds (<[p := with_acd_next h a]> (acds m)) m)) (<[np := p :: ls np]> ls).
Proof.
  intros [H1 H2 H3] Hnp Ha Hcb Hh Hun.
  assert (Hchain : forall h' l, acd_chain (acds m) h' l -> p ∉ l -> acd_chain (<[p := with_acd_next h a]> (acds m)) h' l).
  { intros h' l Hc Hp. eapply chain_links; [|exact Hc]. intros q b Hq Hb. exists b. rewrite lookup_insert_ne; [done|]. by intros ->. }
  split.
  - intros np' Hnp'. cbn. destruct (decide (np = np')) as [<-|Hne].
    + rewrite fn_lookup_insert. destruct (H1 np Hnp) as (h' & Hh' & Hc & Hnd). rewrite Hh in Hh'. injection Hh' as <-.
      exists (Some p). cbn. rewrite lookup_insert_eq. split; [done|]. split; [|apply NoDup_cons; by split; [apply Hun|]].
      split; [done|]. eexists. rewrite lookup_insert_eq. split; [done|]. apply Hchain; [done | by apply Hun].
    + rewrite fn_lookup_insert_ne by done. destruct (H1 np' Hnp') as (h' & Hh' & Hc & Hnd). exists h'. cbn.
      rewrite lookup_insert_ne by done. split_and!; try done. apply Hchain; [done | by apply Hun].
  - intros np' q b Hnp' Hq. cbn. destruct (decide (p = q)) as [<-|Hpq]; [rewrite lookup_insert_eq; by intros [= <-]|].
    rewrite lookup_insert_ne by done. destruct (decide (np = np')) as [<-|Hne].
    + rewrite fn_lookup_insert in Hq. apply elem_of_cons in Hq as [->|Hq]; [done | by apply H2 with (np := np)].
    + rewrite fn_lookup_insert_ne in Hq by done. by apply H2 with (np := np').
  - assert (Hin : forall i q, is_Some (nets !! i) -> q ∈ (<[np := p :: ls np]> ls) i -> (i = np /\ q = p) \/ q ∈ ls i).
    { intros i q Hi. destruct (decide (np = i)) as [<-|Hne]; [rewrite fn_lookup_insert; intros [->|Hq]%elem_of_cons; auto|].
      rewrite fn_lookup_insert_ne by done. auto. }
    intros i j q Hi Hj Hqi Hqj. destruct (Hin i q Hi Hqi) as [[-> ->]|Hi'], (Hin j _ Hj Hqj) as [[-> Ej]|Hj']; try done.
    + by apply Hun in Hj'.
    + subst q. by apply Hun in Hi'.
    + by apply (H3 i j q).
Qed.

(** What [acd_remove] writes for a struct after [la]. *)
Definition unlinked (np : Z) (la : list Z) (a : acd) m : acd_mod :=
  match last la with
  | None => set_acd_list (<[np := acd_next a]> (acd_list m)) m
  | Some r => match acds m !! r with Some ar => set_acds (<[r := with_acd_next (acd_next a) ar]> (acds m)) m | None => m end
  end.

Lemma lists_remove m ls np p a la lb : lists_ok nets m ls -> is_Some (nets !! np) -> ls np = la ++ p :: lb -> acds m !! p = Some a ->
  lists_ok nets (unlinked np la a m) (<[np := la ++ lb]> ls).
Proof.
  intros [H1 H2 H3] Hnp El Ha. pose proof (H1 np Hnp) as (h & Hh & Hc & Hnd). rewrite El in Hc, Hnd.
  assert (Hsub : forall i q, q ∈ (<[np := la ++ lb]> ls) i -> q ∈ ls i).
  { intros i q. destruct (decide (np = i)) as [<-|Hne]; [rewrite fn_lookup_insert, El | by rewrite fn_lookup_insert_ne].
    rewrite !elem_of_app. intros [?|?]; [by left | right; by right]. }
  assert (Hnd' : NoDup (la ++ lb)).
  { apply NoDup_app in Hnd as (N1 & N2 & N3). apply NoDup_cons in N3 as [_ N3]. apply NoDup_app. split_and!; try done.
    intros x Hx Hx'. apply (N2 x Hx). by right. }
  split.
  - intros i Hi. destruct (decide (np = i)) as [<-|Hne].
    + rewrite fn_lookup_insert. unfold unlinked. destruct la as [|r la _] using rev_ind; cbn [last].
      * destruct Hc as (_ & a' & Ha' & Hc). rewrite Ha in Ha'. injection Ha' as <-. exists (acd_next a). cbn.
        rewrite lookup_insert_eq. by split_and!.
      * rewrite last_snoc. rewrite <- app_assoc in Hc, Hnd, Hnd' |- *. cbn [app] in *.
        destruct (chain_suffix _ _ _ _ _ Hc) as (ar & Har & _). rewrite Har. exists h. split; [done|]. split; [|done].
        by eapply chain_splice.
    + rewrite fn_lookup_insert_ne by done. destruct (H1 i Hi) as (h' & Hh' & Hc' & Hnd''). exists h'. unfold unlinked.
      destruct (last la) as [r|] eqn:Er.
      * assert (Hr : r ∉ ls i).
        { intros Hr. apply Hne. apply (H3 np i r); try done. rewrite El. apply elem_of_app. left. by apply last_Some_elem_of. }
        destruct (acds m !! r); [|by split_and!]. split_and!; try done. eapply chain_links; [|exact Hc']. intros q b Hq Hb. exists b.
        cbn. rewrite lookup_insert_ne; [done|]. by intros ->.
      * cbn. rewrite lookup_insert_ne by done. by split_and!.
  - intros i q b Hi Hq Hb. apply Hsub in Hq. unfold unlinked in Hb. destruct (last la) as [r|]; [|by apply (H2 i q b)].
    destruct (acds m !! r) as [ar|] eqn:Har; [|by apply (H2 i q b)]. cbn in Hb.
    destruct (decide (r = q)) as [<-|Hrq]; [rewrite lookup_insert_eq in Hb; injection Hb as <-; by apply (H2 i r ar)|].
    rewrite lookup_insert_ne in Hb by done. by apply (H2 i q b).
  - intros i j q Hi Hj Hqi Hqj. by apply (H3 i j q); [| | apply Hsub..].
Qed.

End Lists.

(** *** The state machine between its messages *)

Lemma age_waits a : lastconflict a = 0 -> 0 < ttw a -> acd_age a = with_ttw (ttw a - 1) a.
Proof.
  intros Hl Ht. unfold acd_age. rewrite Hl. destruct (Z.ltb_spec 0 (ttw a)); [|lia]. rewrite Z.ltb_irrefl. rewrite <- Hl at 1. by destruct a.
Qed.

Lemma tick_due r a : lastconflict a = 0 -> 0 <= ttw a <= 1 -> acd_tick r a = acd_tick r (with_ttw 0 a).
Proof.
  intros Hl Ht. unfold acd_tick. assert (acd_age (with_ttw 0 a) = with_ttw 0 a) as ->.
  { unfold acd_age. cbn [ttw lastconflict with_ttw]. rewrite Hl, Z.ltb_irrefl. destruct a; cbn in *. by subst. }
  assert (acd_age a = with_ttw 0 a) as ->; [|done].
  destruct (decide (ttw a = 0)) as [E|E].
  - unfold acd_age. rewrite Hl, E, Z.ltb_irrefl. destruct a; cbn in *. by subst.
  - rewrite age_waits by lia. f_equal. lia.
Qed.

Lemma probe_wait_bounds r : 0 <= ACD_RANDOM_PROBE_WAIT r < 10.
Proof. unfold ACD_RANDOM_PROBE_WAIT, PROBE_WAIT. change ACD_TICKS_PER_SECOND with 10. lia. Qed.

(** [n] ticks without an event. *)
Definition aged (n : nat) (a : acd) : acd :=
  with_ttw (Z.max 0 (ttw a - n)) (with_lastconflict (Z.max 0 (lastconflict a - n)) a).
Definition idle (a : acd) : bool :=
  match acd_state a with ACD_STATE_OFF | ACD_STATE_ONGOING | ACD_STATE_PASSIVE_ONGOING => true | _ => false end.

Lemma aged_0 a : acd_fields a -> aged 0 a = a.
Proof.
  intros (_ & [Hl _] & _ & _ & [Ht _] & _). unfold aged. rewrite !Z.sub_0_r, !Z.max_r by done. by destruct a.
Qed.

Lemma aged_S n a : acd_age (aged n a) = aged (S n) a.
Proof.
  unfold acd_age, aged. cbn [ttw lastconflict with_ttw with_lastconflict]. unfold with_ttw, with_lastconflict. cbn. f_equal.
  - destruct (Z.ltb_spec 0 (Z.max 0 (ttw a - n))); lia.
  - destruct (Z.ltb_spec 0 (Z.max 0 (lastconflict a - n))); lia.
Qed.

Lemma aged_waits n a : lastconflict a = 0 -> Z.of_nat n < Z.max 1 (ttw a) -> 0 <= ttw a -> aged n a = with_ttw (ttw a - n) a.
Proof.
  intros Hl Hn Ht. unfold aged. rewrite Hl. assert (Z.max 0 (0 - n) = 0) as -> by lia.
  assert (Z.max 0 (ttw a - n) = ttw a - n) as -> by lia. destruct a; cbn in *. by subst.
Qed.

(** The fields in the last tick of the wait. *)
Lemma tick_nothing r n a : idle a = true \/ Z.of_nat (S n) < Z.max 1 (ttw a) -> acd_tick r (aged n a) = (None, aged (S n) a, None).
Proof.
  intros H. unfold acd_tick. rewrite aged_S. cbn [ttw with_ttw aged acd_state]. destruct (Z.eqb_spec (Z.max 0 (ttw a - S n)) 0) as [E|E]; [|done].
  cbn [negb]. destruct H as [H|H]; [|lia]. unfold idle in H. cbn [acd_state aged with_ttw with_lastconflict]. by destruct (acd_state a).
Qed.

Section Calls.
Context {P1 P2 : Type} `{!PoolAlloc P1} `{!PoolAlloc P2} {X : Type} `{!LinkDriver X}.
Context {K : Type} {pn : Part K (net P1 P2 X)} {pm : Part K acd_mod} {U : ArpUser P1 P2 X K} `{V : !AcdUser P1 P2 X K}.
Implicit Type k : K.
#[local] Set Default Proof Using "Type*".
Notation npart := (@part K (net P1 P2 X) pn).
Notation mpart := (@part K acd_mod pm).

(** Only the structs and the lists change. *)
Lemma module_kept k E m : user_inv k E -> acd_wf (netifs (npart k)) m ->
  user_inv (set_part m k) E /\ npart (set_part m k) = npart k /\ mpart (set_part m k) = m.
Proof.
  intros Hk Hm. split; [by apply (acd_user_set k E)|]. split; [apply (@apart_right _ _ _ _ _ acd_apart) | apply part_set].
Qed.

Lemma on_list_ok k p l : forall fuel h, acd_chain (acds (mpart k)) h l -> (length l <= fuel)%nat ->
  on_list fuel p h k = Ok (bool_decide (p ∈ l)).
Proof using Type.
  induction l as [|q l IH]; intros fuel h Hc Hl.
  - cbn in Hc. subst h. rewrite bool_decide_eq_false_2 by (by apply not_elem_of_nil). by destruct fuel.
  - destruct Hc as (-> & a & Ha & Hc). destruct fuel as [|fuel]; [cbn in Hl; lia|]. cbn [on_list].
    destruct (Z.eqb_spec q p) as [->|Hne]; [by rewrite bool_decide_eq_true_2 by (by left)|].
    rewrite (acd_get_some _ _ _ Ha), bind_ok, (IH fuel) by (done || cbn in Hl; lia). f_equal. apply bool_decide_ext.
    split; [by right | by intros [->|?]%elem_of_cons].
Qed.

Lemma chain_fuel k np l : acds_in np (mpart k) l -> (length l <= acd_fuel k)%nat.
Proof using Type. intros (h & _ & Hc & Hnd). unfold acd_fuel. pose proof (chain_size _ _ _ Hc Hnd). lia. Qed.

(** The new list of [np] is [l]; the others, the interfaces and ARP are as before. *)
Record relisted (E : gmultiset ptr) (np : Z) (l : list Z) k k' : Prop := Relisted
  { rl_inv : user_inv k' E;
    rl_net : npart k' = npart k;
    rl_list : acds_in np (mpart k') l;
    rl_others : forall i li, netif_exists i k -> i <> np -> acds_in i (mpart k) li -> acds_in i (mpart k') li;
    rl_acds : forall q, acd_exists q k -> acd_exists q k' }.

(** From a change of the lists. *)
Lemma relisted_intro k E np l ls ls' m : user_inv k E -> netif_exists np k -> lists_ok (netifs (npart k)) (mpart k) ls ->
  lists_ok (netifs (npart k)) m ls' -> ls' np = l -> (forall i, i <> np -> ls' i = ls i) ->
  (forall p a, acds m !! p = Some a -> acd_fields a) -> (forall q, acd_exists q k -> is_Some (acds m !! q)) ->
  relisted E np l k (set_part m k).
Proof.
  intros Hk Hnp Hls Hls' <- Hne Hf Hq. destruct (module_kept k E m Hk) as (H1 & H2 & H3); [split; [done | by eexists]|].
  split; rewrite ?H3; try done.
  - by apply Hls'.
  - intros i li Hi Hni Hin. rewrite (acds_in_det _ _ _ _ Hin (lk_in _ _ _ Hls i Hi)), <- Hne by done. by apply Hls'.
  - unfold acd_exists. by rewrite H3.
Qed.

Lemma add_ok k E np p f l : user_inv k E -> netif_exists np k -> acd_exists p k -> only_on np p k -> acds_in np (mpart k) l ->
  exists k', acd_add np p (Some f) k = Ok (k', ERR_OK) /\ relisted E np (if bool_decide (p ∈ l) then l else p :: l) k k' /\
    acd_conflict_callback <$> acds (mpart k') !! p = Some (Some f).
Proof.
  intros Hk Hnp [a Ha] Honly Hin. destruct (acd_user_wf k E Hk) as [Hf [ls Hls]]. pose proof (Hf p a Ha) as Hfa.
  assert (l = ls np) as -> by (by apply (acds_in_det _ _ _ _ Hin), Hls).
  unfold acd_add. cbn [lwip_assert]. rewrite bind_ok, (acd_set_put p _ k a Ha), bind_ok. set (a1 := with_callback (Some f) a).
  set (m1 := set_acds (<[p := a1]> (acds (mpart k))) (mpart k)).
  assert (Hm1 : mpart (acd_put p a1 k) = m1) by apply part_set.
  pose proof (lists_callback _ _ ls p a f Hls Ha : lists_ok _ m1 ls) as Hls1. pose proof (lk_in _ _ _ Hls1 np Hnp) as Hin1.
  pose proof Hin1 as (h & Hh & Hc & Hnd). unfold acd_head. rewrite Hm1, Hh. cbn [of_option]. rewrite bind_ok.
  rewrite <- Hm1 in Hin1, Hc. rewrite (on_list_ok _ p (ls np)) by (done || by apply chain_fuel in Hin1). rewrite bind_ok.
  assert (Hf1 : forall v q b, acds (set_acds (<[p := with_acd_next v a1]> (acds m1)) m1) !! q = Some b -> acd_fields b).
  { intros v q b. cbn. rewrite insert_insert_eq. destruct (decide (p = q)) as [<-|Hne];
      [rewrite lookup_insert_eq; by intros [= <-] | rewrite lookup_insert_ne by done; apply Hf]. }
  assert (Hex : forall v q, acd_exists q k -> is_Some (<[p := v]> (acds (mpart k)) !! q)).
  { intros v q [b Hb]. destruct (decide (p = q)) as [<-|Hne]; [rewrite lookup_insert_eq; by eexists | rewrite lookup_insert_ne by done; by eexists]. }
  case_bool_decide as Hp.
  - exists (acd_put p a1 k). split; [done|]. split; [|by rewrite acd_put_lookup].
    apply (relisted_intro k E np (ls np) ls ls); try done.
    + intros q b Hb. apply (Hf1 (acd_next a1) q b). cbn. rewrite insert_insert_eq. exact Hb.
    + intros q Hq. by apply Hex.
  - rewrite acd_set_acd_put, bind_ok. eexists. split; [reflexivity|].
    set (m2 := set_acd_list (<[np := Some p]> (acd_list m1)) (set_acds (<[p := with_acd_next h a1]> (acds m1)) m1)).
    assert (Em : acd_set_head np (Some p) (acd_put p (with_acd_next h a1) k) = set_part m2 k).
    { unfold acd_set_head, acd_put. rewrite part_set, set_set_part. cbn. unfold m2, m1, set_acds. cbn. by rewrite insert_insert_eq. }
    rewrite Em. split.
    + apply (relisted_intro k E np (p :: ls np) ls (<[np := p :: ls np]> ls)); try done.
      * apply (lists_add _ _ ls np p a1 h); try done; [by apply lookup_insert_eq |].
        intros i Hi Hpi. apply Hp. rewrite <- (Honly i (ls i)); [done | done | by apply Hls | done].
      * apply fn_lookup_insert.
      * intros i Hi. by apply fn_lookup_insert_ne.
      * intros q b Hb. by apply (Hf1 h q b).
      * intros q Hq. unfold m2, m1. cbn. rewrite insert_insert_eq. by apply Hex.
    + rewrite part_set. unfold m2, m1. cbn. by rewrite lookup_insert_eq.
Qed.

(** The loop stops at the struct, with its predecessor. *)
Lemma remove_loop_ok k np p a lb : acds (mpart k) !! p = Some a -> forall la fuel prev h,
  acd_chain (acds (mpart k)) h (la ++ p :: lb) -> p ∉ la -> (length la <= fuel)%nat ->
  remove_loop fuel np p prev h k =
    match (match last la with Some r => Some r | None => prev end) with
    | Some r => acd_set r (with_acd_next (acd_next a)) k
    | None => Ok (acd_set_head np (acd_next a) k)
    end.
Proof using Type.
  intros Ha. induction la as [|q la IH]; intros fuel prev h Hc Hp Hl.
  - destruct Hc as (-> & _). destruct fuel; cbn [remove_loop]; rewrite Z.eqb_refl, (acd_get_some _ _ _ Ha), bind_ok; done.
  - destruct Hc as (-> & b & Hb & Hc). apply not_elem_of_cons in Hp as [Hne Hp]. destruct fuel as [|fuel]; [cbn in Hl; lia|].
    cbn [remove_loop]. destruct (Z.eqb_spec q p) as [->|_]; [done|]. rewrite (acd_get_some _ _ _ Hb), bind_ok, IH by (done || cbn in Hl; lia).
    by destruct la as [|r la _] using rev_ind; [| rewrite app_comm_cons, !last_snoc].
Qed.

Lemma remove_absent k E np p l : user_inv k E -> netif_exists np k -> acds_in np (mpart k) l -> p ∉ l ->
  acd_remove np p k = Err (AssertFail not_on_list).
Proof using Type.
  intros _ _ Hin Hp. pose proof (chain_fuel _ _ _ Hin) as Hl. destruct Hin as (h & Hh & Hc & _).
  unfold acd_remove, acd_head. rewrite Hh. cbn [of_option]. rewrite bind_ok. clear Hh. revert Hl. generalize (acd_fuel k) as fuel, (@None Z) as prev.
  revert h Hc. induction l as [|q l IH]; intros h Hc fuel prev Hl.
  - cbn in Hc. subst h. by destruct fuel.
  - destruct Hc as (-> & a & Ha & Hc). apply not_elem_of_cons in Hp as [Hne Hp]. destruct fuel as [|fuel]; [cbn in Hl; lia|].
    cbn [remove_loop]. destruct (Z.eqb_spec q p) as [->|_]; [done|]. rewrite (acd_get_some _ _ _ Ha), bind_ok. apply IH; (done || cbn in Hl; lia).
Qed.

Lemma remove_ok k E np p la lb : user_inv k E -> netif_exists np k -> acds_in np (mpart k) (la ++ p :: lb) ->
  exists k', acd_remove np p k = Ok k' /\ relisted E np (la ++ lb) k k'.
Proof.
  intros Hk Hnp Hin. pose proof Hin as (h & Hh & Hc & Hnd). destruct (chain_suffix _ _ _ _ _ Hc) as (a & Ha & _).
  assert (Hp : p ∉ la) by (apply NoDup_app in Hnd as (_ & Hd & _); intros Hp; apply (Hd p Hp); by left).
  destruct (acd_user_wf k E Hk) as [Hf [ls Hls]]. pose proof (acds_in_det _ _ _ _ Hin (lk_in _ _ _ Hls np Hnp)) as El.
  pose proof (chain_fuel _ _ _ Hin) as Hfu. rewrite length_app in Hfu.
  unfold acd_remove, acd_head. rewrite Hh. cbn [of_option]. rewrite bind_ok, (remove_loop_ok k np p a lb Ha la) by (done || lia).
  exists (set_part (unlinked np la a (mpart k)) k). split.
  - unfold unlinked. destruct la as [|r la _] using rev_ind; [done|]. rewrite last_snoc. rewrite <- app_assoc in Hc.
    destruct (chain_suffix _ _ _ _ _ Hc) as (ar & Har & _). by rewrite (acd_set_put _ _ _ _ Har), Har.
  - assert (Hun : forall q, acds (unlinked np la a (mpart k)) !! q = acds (mpart k) !! q \/
      exists b v, acds (mpart k) !! q = Some b /\ acds (unlinked np la a (mpart k)) !! q = Some (with_acd_next v b)).
    { intros q. unfold unlinked. destruct (last la) as [r|]; [|by left]. destruct (acds (mpart k) !! r) as [b|] eqn:Hb; [|by left]. cbn.
      destruct (decide (r = q)) as [<-|Hne]; [right; rewrite lookup_insert_eq; by eexists _, _ | left; by rewrite lookup_insert_ne]. }
    apply (relisted_intro k E np (la ++ lb) ls (<[np := la ++ lb]> ls)); try done.
    + by apply (lists_remove _ _ _ np p).
    + apply fn_lookup_insert.
    + intros i Hi. by apply fn_lookup_insert_ne.
    + intros q b Hb. destruct (Hun q) as [E1|(c & v & E1 & E2)]; [rewrite E1 in Hb; by apply (Hf q) | rewrite E2 in Hb; injection Hb as <-; exact (Hf q c E1)].
    + intros q [b Hb]. destruct (Hun q) as [E1|(c & v & E1 & E2)]; [rewrite E1; by eexists | rewrite E2; by eexists].
Qed.

(** *** The timer, for the only struct of the only interface *)

Variable custom_free_function : ptr -> store P1 P2 -> res (store P1 P2).
Variable fresh_byte : nat -> Z.
Hypothesis fresh_u8 : forall i, is_u8 (fresh_byte i).

(** [n] calls of [acd_tmr], which see the random numbers [rand 0], [rand 1], ... *)
Fixpoint acd_ticks (conflict_callback : Z -> Z -> acd_callback_enum_t -> K -> res K) (rand : nat -> Z -> Z) (np : Z) (n : nat) k : res K :=
  match n with
  | O => Ok k
  | S n => k ← acd_ticks conflict_callback rand np n k; acd_tmr custom_free_function fresh_byte conflict_callback (rand n) [np] k
  end.

Lemma ticks_add cb rand np n m : forall k,
  acd_ticks cb rand np (n + m) k = (k ← acd_ticks cb rand np n k; acd_ticks cb (fun i => rand (n + i)%nat) np m k).
Proof using Type.
  intros k. induction m as [|m IH]; [rewrite Nat.add_0_r; cbn [acd_ticks]; by destruct (acd_ticks cb rand np n k)|].
  rewrite Nat.add_succ_r. cbn [acd_ticks]. rewrite IH. by destruct (acd_ticks cb rand np n k).
Qed.

(** The struct [p] alone on the list of [np]. *)
Definition alone (np p : Z) (nif : netif) (a : acd) k : Prop :=
  netifs (npart k) !! np = Some nif /\ acds_in np (mpart k) [p] /\ acds (mpart k) !! p = Some a.

Lemma alone_put E np p nif a a' k : user_inv k E -> alone np p nif a k -> acd_fields a' -> acd_link a' = acd_link a ->
  alone np p nif a' (acd_put p a' k) /\ kept E k (acd_put p a' k).
Proof using V.
  intros Hk (H1 & H2 & H3) Hf Hl. pose proof (acd_put_kept E k p a a' Hk H3 Hf Hl) as K1. split; [|done]. split_and!.
  - unfold acd_put. by rewrite (@apart_right _ _ _ _ _ acd_apart).
  - by eapply acds_of_kept.
  - apply acd_put_lookup.
Qed.

(** A tick is that of the state machine; at its end the client may be called. *)
Lemma tick_ok k E np nif p a rand : user_inv k E -> alone np p nif a k ->
  exists k1, let k2 := acd_put p (acd_tick (rand p) a).1.2 k1 in
    after_event nif (acd_ipaddr a) (acd_tick (rand p) a).1.1 k k1 /\ kept E k k2 /\ alone np p nif (acd_tick (rand p) a).1.2 k2 /\
    match (acd_tick (rand p) a).2 with
    | None => forall cb, acd_tmr custom_free_function fresh_byte cb rand [np] k = Ok k2
    | Some c => forall cb, callback_contract cb -> acd_tmr custom_free_function fresh_byte cb rand [np] k = call_back cb np p c k2
    end.
Proof.
  intros Hk (Hnif & Hin & Ha).
  destruct (acd_turn_ok custom_free_function fresh_byte fresh_u8 k E np nif (rand p) p a Hk Hnif Ha) as (k1 & Hev & K1 & Erun).
  exists k1. set (k2 := acd_put p _ k1) in *. cbv zeta. split; [done|]. split; [done|]. pose proof (acds_of_kept _ _ _ _ _ K1 Hin) as Hin1.
  assert (Hal : alone np p nif (acd_tick (rand p) a).1.2 k2).
  { split; [|split; [done | apply acd_put_lookup]]. unfold k2, acd_put. rewrite (@apart_right _ _ _ _ _ acd_apart).
    unfold after_event in Hev. destruct (acd_tick (rand p) a).1.1; [|by rewrite Hev]. by rewrite (qt_netifs _ _ (sn_quiet _ _ _ Hev)). }
  split; [done|].
  assert (Htail : forall cb k3, acd_tmr_entry custom_free_function fresh_byte cb np (rand p) p k = Ok k3 -> kept E k k3 ->
    acd_tmr custom_free_function fresh_byte cb rand [np] k = Ok k3).
  { intros cb k3 Ee K3. pose proof Hin as (h & Hh & Hc & _). destruct Hc as (-> & a0 & Ha0 & _).
    destruct (acds_of_kept _ _ _ _ _ K3 Hin) as (h1 & _ & Hc1 & _). destruct Hc1 as (_ & a1 & Ha1 & Hnil).
    cbn [acd_tmr]. unfold for_acds, acd_head, acd_fuel. rewrite Hh. cbn [of_option]. rewrite bind_ok. cbn [ACD_FOREACH].
    rewrite Ee, bind_ok, (acd_get_some _ _ _ Ha1), bind_ok, Hnil. by destruct (size _). }
  destruct (acd_tick (rand p) a).2 as [c|] eqn:Ec; [|intros cb; by apply Htail].
  intros cb Hcb. assert (Hp : listed p k) by (apply (acds_of_listed k E np [p]); [done | by eexists | done | by left]).
  destruct (call_back_kept cb Hcb k2 E np p c (kp_inv _ _ _ K1)) as (k3 & Ec3 & K3);
    [apply (kp_nets _ _ _ K1); by eexists | by apply (kept_listed E k)|].
  rewrite Ec3. apply Htail; [by rewrite Erun | by eapply kept_trans].
Qed.

(** Waiting: nothing happens before the last tick of [ttw]. *)
Lemma wait_ticks E np nif p a rand k n : user_inv k E -> alone np p nif a k -> idle a = true \/ Z.of_nat n < Z.max 1 (ttw a) ->
  (forall cb, acd_ticks cb rand np n k = Ok (acd_put p (aged n a) k)) /\ kept E k (acd_put p (aged n a) k) /\
    alone np p nif (aged n a) (acd_put p (aged n a) k).
Proof.
  intros Hk Hal. pose proof Hal as (Hnif & Hin & Ha). pose proof (aw_fields _ _ (acd_user_wf k E Hk) p a Ha) as Hf.
  induction n as [|n IH]; intros Hn.
  - rewrite aged_0, acd_put_same by done. split_and!; [done | by apply kept_refl | done..].
  - destruct IH as (E1 & K1 & Hal1); [destruct Hn; [by left | right; lia]|].
    pose proof (tick_nothing (rand n p) n a Hn) as Et. set (b := aged n a) in *.
    destruct (tick_ok (acd_put p b k) E np nif p b (rand n) (kp_inv _ _ _ K1) Hal1) as (k1 & Hev & K2 & Hal2 & Er). rewrite Et in *.
    cbn [fst snd after_event] in *. subst k1. rewrite acd_put_put in *.
    split_and!; [intros cb; cbn [acd_ticks]; by rewrite E1, bind_ok | by eapply kept_trans | apply Hal2..].
Qed.

(** After a step: the struct is [a], and the frames [fs] went out, if there was
    memory for an ARP message; there is as much as before. *)
Record advanced (E : gmultiset ptr) (np p : Z) (nif : netif) (a : acd) (fs : list (list Z)) k k' : Prop := Advanced
  { ad_kept : kept E k k';
    ad_alone : alone np p nif a k';
    ad_memory : arp_memory k' = arp_memory k;
    ad_wire : wire (device (npart k')) = wire (device (npart k)) ++ if_memory k fs }.

Lemma advanced_trans E np p nif a b fs gs k1 k2 k3 : advanced E np p nif a fs k1 k2 -> advanced E np p nif b gs k2 k3 ->
  advanced E np p nif b (fs ++ gs) k1 k3.
Proof using Type.
  intros [K1 _ M1 W1] [K2 A2 M2 W2]. split; [by eapply kept_trans | done | congruence |].
  unfold if_memory in *. rewrite W2, W1, M1. destruct (arp_memory k1); [by rewrite app_assoc | by rewrite !app_nil_r].
Qed.

Lemma put_advanced E np p nif a k : kept E k (acd_put p a k) -> alone np p nif a (acd_put p a k) ->
  advanced E np p nif a [] k (acd_put p a k).
Proof using V.
  intros K1 A1. split; [done | done | apply acd_put_memory |]. rewrite acd_put_wire. unfold if_memory. destruct (arp_memory k); by rewrite app_nil_r.
Qed.

Lemma after_advanced E np p nif a a' e k k1 : user_inv k E -> kept E k (acd_put p a' k1) -> alone np p nif a' (acd_put p a' k1) ->
  sent k k1 (event_frame nif (acd_ipaddr a) e) -> advanced E np p nif a' [event_frame nif (acd_ipaddr a) e] k (acd_put p a' k1).
Proof using V.
  intros Hk K1 A1 S1. split; [done | done | rewrite acd_put_memory; by apply (sent_memory k E _ _ Hk S1) | rewrite acd_put_wire; apply S1].
Qed.

(** A phase: waiting, and the message at its end. *)
Lemma phase_ok E np nif p a rand k e a' : user_inv k E -> alone np p nif a k -> lastconflict a = 0 ->
  let t := Z.to_nat (Z.max 1 (ttw a)) in
  acd_tick (rand (pred t) p) (with_ttw 0 a) = (Some e, a', None) ->
  exists k', (forall cb, acd_ticks cb rand np t k = Ok k') /\ advanced E np p nif a' [event_frame nif (acd_ipaddr a) e] k k'.
Proof.
  intros Hk Hal Hlc t Et. pose proof (aw_fields _ _ (acd_user_wf k E Hk) p a (proj2 (proj2 Hal))) as (_ & _ & _ & _ & [Ht _] & _).
  assert (exists m, t = S m) as [m Em] by (exists (pred t); lia).
  destruct (wait_ticks E np nif p a rand k m Hk Hal) as (E1 & K1 & Hal1); [right; lia|].
  rewrite aged_waits in * by (done || lia). rewrite Em in *. cbn [pred] in Et. set (b := with_ttw (ttw a - m) a) in *.
  assert (Eb : acd_tick (rand m p) b = (Some e, a', None)) by (rewrite tick_due; [exact Et | done | unfold b; cbn [ttw with_ttw]; lia]).
  destruct (tick_ok (acd_put p b k) E np nif p b (rand m) (kp_inv _ _ _ K1) Hal1) as (k1 & Hev & K2 & Hal2 & Er). rewrite Eb in *.
  cbn [fst snd after_event] in *. eexists. split; [intros cb; cbn [acd_ticks]; rewrite E1, bind_ok; exact (Er cb)|].
  pose proof (after_advanced E np p nif b a' e _ k1 (kp_inv _ _ _ K1) K2 Hal2 Hev) as A2.
  exact (advanced_trans _ _ _ _ _ _ [] _ _ _ _ (put_advanced _ _ _ _ _ _ K1 Hal1) A2).
Qed.

(** The first phase of a run, and the rest of it. *)
Lemma phase_then E np nif p a rand k e a' fs (R : K -> Prop) : user_inv k E -> alone np p nif a k -> lastconflict a = 0 ->
  let t := Z.to_nat (Z.max 1 (ttw a)) in
  acd_tick (rand (pred t) p) (with_ttw 0 a) = (Some e, a', None) -> forall n b,
  (forall k', user_inv k' E -> alone np p nif a' k' -> exists k2, (forall cb, acd_ticks cb (fun i => rand (t + i)%nat) np n k' = Ok k2) /\
    advanced E np p nif b fs k' k2 /\ R k2) ->
  exists k2, (forall cb, acd_ticks cb rand np (t + n) k = Ok k2) /\
    advanced E np p nif b (event_frame nif (acd_ipaddr a) e :: fs) k k2 /\ R k2.
Proof.
  intros Hk Hal Hlc t Et n b Hrest. destruct (phase_ok E np nif p a rand k e a' Hk Hal Hlc Et) as (k1 & E1 & A1).
  destruct (Hrest k1) as (k2 & E2 & A2 & HR); [apply A1 | apply A1 |]. exists k2.
  split; [|split; [|done]].
  - intros cb. fold t in E1. by rewrite ticks_add, E1, bind_ok.
  - by apply (advanced_trans _ _ _ _ _ _ [_] _ _ _ _ A1 A2).
Qed.

Lemma wait_advanced E np nif p a rand k n : user_inv k E -> alone np p nif a k -> lastconflict a = 0 -> Z.of_nat n < Z.max 1 (ttw a) ->
  exists k2, (forall cb, acd_ticks cb rand np n k = Ok k2) /\ advanced E np p nif (with_ttw (ttw a - n) a) [] k k2 /\ True.
Proof.
  intros Hk Hal Hl Hn. destruct (wait_ticks E np nif p a rand k n Hk Hal) as (E1 & K1 & Hal1); [by right|]. eexists. split; [exact E1|].
  pose proof (aw_fields _ _ (acd_user_wf k E Hk) p a (proj2 (proj2 Hal))) as (_ & _ & _ & _ & [Ht _] & _).
  rewrite <- aged_waits by done. split; [by apply put_advanced | done].
Qed.

(** The way to the last announcement. *)
Lemma claim_ok E np nif p ip r num nx f rand k : user_inv k E -> 0 <= r < 10 ->
  alone np p nif (Acd nx ip ACD_STATE_PROBE_WAIT 0 r 0 num f) k ->
  let probe := own_frame nif IPADDR_ANY ip in let announcement := own_frame nif ip ip in
  exists n k2, (60 <= n <= 86)%nat /\ (forall cb, acd_ticks cb rand np n k = Ok k2) /\
    advanced E np p nif (Acd nx ip ACD_STATE_ANNOUNCING 1 1 0 0 f) [probe; probe; probe; announcement] k k2.
Proof.
  intros Hk Hr Hal probe announcement. pose proof interval_bounds as Hi. change (forall r, 10 <= ACD_RANDOM_PROBE_INTERVAL r < 20) in Hi.
  set (t1 := Z.to_nat (Z.max 1 r)). set (i1 := ACD_RANDOM_PROBE_INTERVAL (rand (pred t1) p)). set (t2 := Z.to_nat (Z.max 1 i1)).
  set (i2 := ACD_RANDOM_PROBE_INTERVAL (rand (t1 + pred t2)%nat p)). set (t3 := Z.to_nat (Z.max 1 i2)).
  pose proof (Hi (rand (pred t1) p)) as Hi1. fold i1 in Hi1. pose proof (Hi (rand (t1 + pred t2)%nat p)) as Hi2. fold i2 in Hi2.
  destruct (phase_then E np nif p _ rand k SendProbe (Acd nx ip ACD_STATE_PROBING 1 i1 0 num f)
    [probe; probe; announcement] (fun _ => True) Hk Hal eq_refl eq_refl (t2 + (t3 + (20 + 19)))%nat (Acd nx ip ACD_STATE_ANNOUNCING 1 1 0 0 f))
    as (k2 & E2 & A2 & _).
  - intros k1 Hk1 Hal1. apply (phase_then E np nif p _ _ k1 SendProbe (Acd nx ip ACD_STATE_PROBING 2 i2 0 num f) _ _ Hk1 Hal1 eq_refl eq_refl).
    intros k2 Hk2 Hal2. apply (phase_then E np nif p _ _ k2 SendProbe (Acd nx ip ACD_STATE_ANNOUNCE_WAIT 0 20 0 num f) _ _ Hk2 Hal2 eq_refl eq_refl).
    intros k3 Hk3 Hal3. apply (phase_then E np nif p _ _ k3 SendAnnounce (Acd nx ip ACD_STATE_ANNOUNCING 1 20 0 0 f) _ _ Hk3 Hal3 eq_refl eq_refl).
    intros k4 Hk4 Hal4. by apply (wait_advanced E np nif p _ _ k4 19 Hk4 Hal4).
  - exists (t1 + (t2 + (t3 + (20 + 19))))%nat, k2. split; [lia|]. by split.
Qed.

(** *** Conflicts, for the only struct of the only interface *)

(** The packet [q] of the caller says that the station [hs] uses the address [ips]. *)
Definition says (q : ptr) (nif : netif) (hs : list Z) (ips ipd : Z) k (E : gmultiset ptr) : Prop :=
  q ∈ E /\ exists op hd, sole_message (packets (npart k)) q (arp_message op hs ips hd ipd) /\ length hs = 6%nat /\ length hd = 6%nat /\
    is_u16 op /\ is_u32 ips /\ is_u32 ipd.

Lemma says_kept q nif hs ips ipd k k' E : kept E k k' -> says q nif hs ips ipd k E -> says q nif hs ips ipd k' E.
Proof using Type.
  intros Hk (Hq & op & hd & Hm & H). split; [done|]. exists op, hd. split; [|done]. by apply (kp_msgs _ _ _ Hk).
Qed.

Lemma reply_alone cb k E np nif p a q hs ips ipd k' : alone np p nif a k -> says q nif hs ips ipd k E ->
  acd_reply_entry custom_free_function fresh_byte cb np ips ipd (hwaddr nif) hs p k = Ok k' -> kept E k k' ->
  acd_arp_reply custom_free_function fresh_byte cb np q k = Ok k'.
Proof.
  intros (Hnif & Hin & Ha) (Hq & op & hd & Hm & Hs & Hd & Hop & Hips & Hipd) Ee K'.
  destruct (message_fields _ _ _ _ _ _ _ (proj1 Hm) Hs Hd Hop Hips Hipd) as (_ & Fs & Fd & Fh & _).
  unfold acd_arp_reply. cbv zeta. rewrite (netif_at_some _ _ _ Hnif), bind_ok, Fs, bind_ok, get32_le_bytes, bind_ok, Fd, bind_ok, get32_le_bytes, bind_ok.
  pose proof Hin as (h & Hh & Hc & _). destruct Hc as (-> & a0 & Ha0 & _).
  destruct (acds_of_kept _ _ _ _ _ K' Hin) as (h1 & _ & Hc1 & _). destruct Hc1 as (_ & a1 & Ha1 & Hnil).
  unfold for_acds, acd_head, acd_fuel. rewrite Hh. cbn [of_option]. rewrite bind_ok. cbn [ACD_FOREACH].
  rewrite Fh, bind_ok, Ee, bind_ok, (acd_get_some _ _ _ Ha1), bind_ok, Hnil. by destruct (size _).
Qed.

(** An address in use is defended when the last conflict is ten seconds ago. *)
Lemma defend_ok k E np nif p a q hs ipd : user_inv k E -> alone np p nif a k -> acd_state a = ACD_STATE_ONGOING -> lastconflict a = 0 ->
  says q nif hs (acd_ipaddr a) ipd k E -> hs <> hwaddr nif ->
  exists k1, (forall cb, acd_arp_reply custom_free_function fresh_byte cb np q k = Ok k1) /\
    advanced E np p nif (with_lastconflict 100 a) [own_frame nif (acd_ipaddr a) (acd_ipaddr a)] k k1.
Proof.
  intros Hk Hal Hst Hlc Hm Hne. pose proof Hal as (Hnif & Hin & Ha). pose proof (aw_fields _ _ (acd_user_wf k E Hk) p a Ha) as Hf.
  destruct (announce_sent custom_free_function fresh_byte fresh_u8 k E np nif (acd_ipaddr a) Hk Hnif (proj1 Hf)) as (k1 & r & Er & K1 & S1).
  pose proof (sn_acds _ _ _ S1) as Em. assert (Ha1 : acds (mpart k1) !! p = Some a) by (by rewrite Em).
  assert (Hf' : acd_fields (with_lastconflict 100 a)).
  { destruct Hf as (? & _ & ?). split; [done|]. split; [cbn; change (0 <= 100 <= 100); lia | done]. }
  pose proof (acd_put_kept E k1 p a (with_lastconflict 100 a) (kp_inv _ _ _ K1) Ha1 Hf' eq_refl) as K2.
  pose proof (kept_trans _ _ _ _ K1 K2) as K12. exists (acd_put p (with_lastconflict 100 a) k1). split.
  - intros cb. eapply reply_alone; [exact Hal | exact Hm | | exact K12]. unfold acd_reply_entry. rewrite (acd_get_some _ _ _ Ha), bind_ok, Hst, Z.eqb_refl.
    rewrite (bool_decide_eq_false_2 (hwaddr nif = hs)) by congruence. cbn [negb andb]. unfold acd_handle_arp_conflict.
    rewrite (acd_get_some _ _ _ Ha), bind_ok, Hst, Hlc, Er. rewrite (bool_decide_eq_false_2 (_ = ACD_STATE_PASSIVE_ONGOING)) by done.
    rewrite Z.ltb_irrefl, bind_ok. by rewrite (acd_set_put p _ k1 a Ha1).
  - apply (after_advanced E np p nif a (with_lastconflict 100 a) SendAnnounce k k1 Hk K12); [|exact S1]. split; [|split].
    + unfold acd_put. rewrite (@apart_right _ _ _ _ _ acd_apart). by rewrite (qt_netifs _ _ (sn_quiet _ _ _ S1)).
    + by apply (acds_of_kept E k).
    + apply acd_put_lookup.
Qed.

(** An address is given up: the client is told, and asked to start again, unless
    there were ten conflicts, after which the next attempt is put off for a
    minute. *)
Definition given_up (cb : Z -> Z -> acd_callback_enum_t -> K -> res K) (np p : Z) (a : acd) k k' : Prop :=
  exists f k1 a1, acd_conflict_callback a = Some f /\
    cb f np ACD_DECLINE (acd_put p (with_num_conflicts (u8 (num_conflicts a + 1)) a) k) = Ok k1 /\ acds (mpart k1) !! p = Some a1 /\
    if MAX_CONFLICTS <=? num_conflicts a1
    then k' = acd_put p (with_ttw 600 (with_acd_state ACD_STATE_RATE_LIMIT a1)) k1
    else exists f1, acd_conflict_callback a1 = Some f1 /\ cb f1 np ACD_RESTART_CLIENT (acd_put p (with_acd_state ACD_STATE_OFF a1) k1) = Ok k'.

Lemma restart_given_up cb np p a k k' : acds (mpart k) !! p = Some a -> acd_restart cb np p k = Ok k' -> given_up cb np p a k k'.
Proof using Type.
  intros Ha. unfold acd_restart. rewrite (acd_set_put p _ k a Ha), bind_ok.
  intros H. apply bind_inv in H as (k1 & E1 & H). unfold call_back in E1. rewrite acd_get_acd_put, bind_ok in E1.
  cbn [acd_conflict_callback with_num_conflicts] in E1. destruct (acd_conflict_callback a) as [f|] eqn:Ef; [|done].
  cbn [of_option] in E1. rewrite bind_ok in E1. apply bind_inv in H as (a1 & E2 & H). exists f, k1, a1. split; [done|]. split; [done|].
  assert (Ha1 : acds (mpart k1) !! p = Some a1) by (unfold acd_get in E2; destruct (acds (mpart k1) !! p); [by injection E2 as ->|done]).
  split; [done|]. destruct (MAX_CONFLICTS <=? num_conflicts a1).
  - rewrite (acd_set_put p _ k1 a1 Ha1), bind_ok, acd_set_acd_put in H. by injection H as <-.
  - unfold acd_stop in H. rewrite (acd_set_put p _ k1 a1 Ha1), !bind_ok in H. unfold call_back in H. rewrite acd_get_acd_put, bind_ok in H.
    cbn [acd_conflict_callback with_acd_state] in H. destruct (acd_conflict_callback a1) as [f1|]; [|done]. by exists f1.
Qed.

(** What counts as a conflict. *)
Definition conflicting (nif : netif) (a : acd) (hs : list Z) (ips ipd : Z) : Prop :=
  match acd_state a with
  | ACD_STATE_PROBE_WAIT | ACD_STATE_PROBING | ACD_STATE_ANNOUNCE_WAIT =>
      ips = acd_ipaddr a \/ (ips = IPADDR_ANY /\ ipd = acd_ipaddr a /\ hs <> hwaddr nif)
  | ACD_STATE_ANNOUNCING | ACD_STATE_ONGOING | ACD_STATE_PASSIVE_ONGOING => ips = acd_ipaddr a /\ hs <> hwaddr nif
  | ACD_STATE_OFF | ACD_STATE_RATE_LIMIT => False
  end.

Lemma entry_no_conflict cb np nif a hs ips ipd p k : acds (mpart k) !! p = Some a -> ~ conflicting nif a hs ips ipd ->
  acd_reply_entry custom_free_function fresh_byte cb np ips ipd (hwaddr nif) hs p k = Ok k.
Proof using Type.
  intros Ha Hno. unfold acd_reply_entry. rewrite (acd_get_some _ _ _ Ha), bind_ok. unfold conflicting, ip4_addr_isany, IPADDR_ANY in *.
  destruct (acd_state a); try done; destruct (Z.eqb_spec ips (acd_ipaddr a)); cbn [orb andb negb]; try done;
    try (destruct (Z.eqb_spec ips 0), (Z.eqb_spec ipd (acd_ipaddr a)); cbn [andb]; try done);
    destruct (bool_decide_reflect (hwaddr nif = hs)); cbn [negb]; try done; destruct Hno; try (by left); try (by right); by split.
Qed.

Lemma give_up_ok k E np nif p a q hs ips ipd cb : user_inv k E -> alone np p nif a k -> says q nif hs ips ipd k E -> conflicting nif a hs ips ipd ->
  match acd_state a with ACD_STATE_PASSIVE_ONGOING => False | ACD_STATE_ANNOUNCING | ACD_STATE_ONGOING => 0 < lastconflict a | _ => True end ->
  callback_contract cb -> exists k', acd_arp_reply custom_free_function fresh_byte cb np q k = Ok k' /\ kept E k k' /\ given_up cb np p a k k'.
Proof.
  intros Hk Hal Hm Hc Hst Hcb. pose proof Hal as (Hnif & Hin & Ha).
  assert (Hp : listed p k) by (apply (acds_of_listed k E np [p]); [done | by eexists | done | by left]).
  destruct (restart_kept cb Hcb k E np p Hk) as (k' & Er & K'); [by eexists | done |]. exists k'. split; [|split; [done | by apply restart_given_up]].
  eapply reply_alone; [exact Hal | exact Hm | | exact K']. unfold acd_reply_entry. rewrite (acd_get_some _ _ _ Ha), bind_ok.
  unfold conflicting, acd_handle_arp_conflict in *. rewrite (acd_get_some _ _ _ Ha), bind_ok.
  assert (Hneq : hs <> hwaddr nif -> negb (bool_decide (hwaddr nif = hs)) = true) by (intros Hne; apply negb_true_iff, bool_decide_eq_false_2; congruence).
  destruct (acd_state a); try done.
  1-3: by destruct Hc as [->|(-> & -> & Hne)]; [rewrite Z.eqb_refl | rewrite (Hneq Hne), Z.eqb_refl, orb_true_r].
  all: destruct Hc as [-> Hne]; rewrite (Hneq Hne), Z.eqb_refl; cbn [andb]; by destruct (Z.ltb_spec 0 (lastconflict a)); [|lia].
Qed.

(** No conflict with any struct of the list. *)
Lemma reply_no_conflict cb k E np nif q hs ips ipd : user_inv k E -> netifs (npart k) !! np = Some nif -> says q nif hs ips ipd k E ->
  (forall l p a, acds_in np (mpart k) l -> p ∈ l -> acds (mpart k) !! p = Some a -> ~ conflicting nif a hs ips ipd) ->
  acd_arp_reply custom_free_function fresh_byte cb np q k = Ok k.
Proof.
  intros Hk Hnif (Hq & op & hd & Hm & Hs & Hd & Hop & Hips & Hipd) Hno.
  destruct (message_fields _ _ _ _ _ _ _ (proj1 Hm) Hs Hd Hop Hips Hipd) as (_ & Fs & Fd & Fh & _).
  unfold acd_arp_reply. cbv zeta. rewrite (netif_at_some _ _ _ Hnif), bind_ok, Fs, bind_ok, get32_le_bytes, bind_ok, Fd, bind_ok, get32_le_bytes, bind_ok.
  destruct (acds_of_some k E np Hk) as [l Hl]; [by eexists|]. apply (for_acds_same np _ k l Hl). intros p Hp. rewrite Fh, bind_ok.
  pose proof Hl as (h & _ & Hc & _). destruct (chain_known _ _ _ _ Hc Hp) as [a Ha]. by apply (entry_no_conflict cb np nif a); [|apply (Hno l p)].
Qed.

End Calls.

(** ** Properties *)

Section Properties.
Context {P1 P2 : Type} `{!PoolAlloc P1} `{!PoolAlloc P2} {X : Type} `{!LinkDriver X}.
Context {K : Type} {pn : Part K (net P1 P2 X)} {pm : Part K acd_mod} {U : ArpUser P1 P2 X K} `{V : !AcdUser P1 P2 X K}.
Implicit Type k : K.
#[local] Set Default Proof Using "Type*".
Notation npart := (@part K (net P1 P2 X) pn).
Notation mpart := (@part K acd_mod pm).
Variable custom_free_function : ptr -> store P1 P2 -> res (store P1 P2).
Variable fresh_byte : nat -> Z.
Hypothesis fresh_u8 : forall i, is_u8 (fresh_byte i).

(** C19: conflict detection is safe. In every well-formed state every call that
    keeps the caller's side (the interface and the struct exist, a struct is
    added to one interface only and removed when it is on the list, a message
    has 28 bytes) returns: no assertion fails, no pointer dangles, no walk over
    a list goes astray although the clients are called in the middle of it; the
    structs, the lists, the packets and the ARP table are well formed again. *)
Theorem acd_safe conflict_callback c k E : callback_contract conflict_callback -> user_inv k E -> acd_allowed c k E ->
  exists k', acd_exec custom_free_function fresh_byte conflict_callback c k = Ok k' /\ user_inv k' E /\
    forall np, netif_exists np k -> netif_exists np k'.
Proof.
  intros Hcb Hk Hc.
  assert (Hkept : forall (m : res K), (exists k', m = Ok k' /\ kept E k k') ->
    exists k', m = Ok k' /\ user_inv k' E /\ forall np, netif_exists np k -> netif_exists np k').
  { intros m (k' & -> & K'). exists k'. split_and!; [done | apply K' | apply (kp_nets _ _ _ K')]. }
  assert (Hlist : forall (m : res K) np l, (exists k', m = Ok k' /\ relisted E np l k k') ->
    exists k', m = Ok k' /\ user_inv k' E /\ forall np, netif_exists np k -> netif_exists np k').
  { intros m np l (k' & -> & [H1 H2 _ _ _]). exists k'. split_and!; [done | done |]. intros i. unfold netif_exists. by rewrite H2. }
  destruct c as [np p f|np p|p ip r|[p|]|rand nl|np|np o n|np q]; cbn [acd_exec acd_allowed] in *.
  - destruct Hc as (Hnp & Hp & Honly). destruct (acds_of_some k E np Hk Hnp) as [l Hl].
    destruct (add_ok k E np p f l Hk Hnp Hp Honly Hl) as (k' & -> & Hr & _). rewrite bind_ok. eapply Hlist. by exists k'.
  - destruct Hc as (Hnp & l & Hl & Hp). apply list_elem_of_split in Hp as (la & lb & ->). eapply Hlist. by apply remove_ok.
  - destruct Hc as [[a Ha] Hip]. destruct (start_ok k E p a ip r Hk Ha Hip) as [-> K']. rewrite bind_ok. apply Hkept. by eexists.
  - destruct Hc as [a Ha]. pose proof (aw_fields _ _ (acd_user_wf k E Hk) p a Ha) as Hf. destruct (stop_fields a Hf) as [Hf' Hl'].
    unfold acd_stop. rewrite (acd_set_put p _ k a Ha), !bind_ok. apply Hkept. eexists. split; [done|]. by apply (acd_put_kept E k p a).
  - cbn [acd_stop]. rewrite bind_ok. apply Hkept. exists k. split; [done | by apply kept_refl].
  - apply Hkept. by apply tmr_kept.
  - apply Hkept. by apply link_down_kept.
  - apply Hkept. by apply addr_changed_kept.
  - destruct Hc as (Hnp & Hq & m & Hm & Hl). apply Hkept. by apply (arp_reply_kept _ _ fresh_u8 _ Hcb k E np q m).
Qed.

(** C18: an address without a conflict is claimed. After acd_start, when no
    conflicting message comes in, the client is told between the 61st and the
    87th tick that the address is its own, and not called before; until then
    exactly three probes and two announcements for the address are sent, in this
    order. Without memory for an ARP message at the start there is none later
    (the messages are freed again), and nothing is sent. *)
Theorem acd_claims_address k E np nif p ip r rand : user_inv k E -> netifs (npart k) !! np = Some nif -> acds_in np (mpart k) [p] -> is_u32 ip ->
  exists k0 k1 k2 n a, acd_start p ip r k = Ok (k0, ERR_OK) /\ (60 <= n <= 86)%nat /\
    (forall cb, acd_ticks custom_free_function fresh_byte cb rand np n k0 = Ok k1) /\
    (forall cb, callback_contract cb -> acd_tmr custom_free_function fresh_byte cb (rand n) [np] k1 = call_back cb np p ACD_IP_OK k2) /\
    user_inv k2 E /\ acds (mpart k2) !! p = Some a /\ acd_state a = ACD_STATE_ONGOING /\ acd_ipaddr a = ip /\
    let probe := own_frame nif IPADDR_ANY ip in let announcement := own_frame nif ip ip in
    wire (device (npart k2)) =
      wire (device (npart k)) ++ if arp_memory k then [probe; probe; probe; announcement; announcement] else [].
Proof.
  intros Hk Hnif Hin Hip. pose proof Hin as (h & _ & Hc & _). destruct Hc as (_ & a & Ha & _).
  destruct (start_ok k E p a ip r Hk Ha Hip) as [Es K0]. set (a0 := Acd _ _ _ _ _ _ _ _) in *.
  destruct (alone_put E np p nif a a0 k Hk) as [Hal0 _]; [by split_and! | | done |].
  { apply (aw_fields _ _ (acd_user_wf _ E (kp_inv _ _ _ K0)) p). apply acd_put_lookup. }
  destruct (claim_ok custom_free_function fresh_byte fresh_u8 E np nif p ip _ _ _ _ rand _ (kp_inv _ _ _ K0) (probe_wait_bounds r) Hal0)
    as (n & k1 & Hn & E1 & [K1 Hal1 M1 W1]).
  destruct (tick_ok custom_free_function fresh_byte fresh_u8 k1 E np nif p _ (rand n) (kp_inv _ _ _ K1) Hal1) as (k2 & Hev & K2 & (_ & _ & Ha2) & Et).
  eexists _, k1, _, n, _. split; [exact Es|]. split; [done|]. split; [exact E1|]. split; [exact Et|]. split; [apply K2|]. split; [exact Ha2|].
  split; [done|]. split; [done|]. cbv zeta. rewrite acd_put_wire, (sn_wire _ _ _ Hev), W1, acd_put_wire. unfold if_memory.
  rewrite M1, acd_put_memory. destruct (arp_memory k); [by rewrite <- app_assoc | by rewrite !app_nil_r].
Qed.

(** C20: an address in use is defended once in ten seconds. A message of another
    station that uses our address is answered with exactly one announcement (with
    none if there is no memory for an ARP message), and the address is kept; a
    second one within the next 99 ticks makes us give the address up (the client
    is told, and asked to start anew, or is put off for a minute after ten
    conflicts); a later one is answered like the first. *)
Theorem acd_defends_address k E np nif p a q1 q2 hs1 hs2 ipd1 ipd2 rand n : user_inv k E -> alone np p nif a k ->
  acd_state a = ACD_STATE_ONGOING -> lastconflict a = 0 ->
  says q1 nif hs1 (acd_ipaddr a) ipd1 k E -> hs1 <> hwaddr nif -> says q2 nif hs2 (acd_ipaddr a) ipd2 k E -> hs2 <> hwaddr nif ->
  let announcement := own_frame nif (acd_ipaddr a) (acd_ipaddr a) in let later := aged n (with_lastconflict 100 a) in
  exists k1 k2, (forall cb, acd_arp_reply custom_free_function fresh_byte cb np q1 k = Ok k1) /\
    advanced E np p nif (with_lastconflict 100 a) [announcement] k k1 /\
    (forall cb, acd_ticks custom_free_function fresh_byte cb rand np n k1 = Ok k2) /\ advanced E np p nif later [] k1 k2 /\
    if Z.of_nat n <? DEFEND_INTERVAL * ACD_TICKS_PER_SECOND
    then forall cb, callback_contract cb -> exists k3, acd_arp_reply custom_free_function fresh_byte cb np q2 k2 = Ok k3 /\
      user_inv k3 E /\ given_up cb np p later k2 k3
    else exists k3, (forall cb, acd_arp_reply custom_free_function fresh_byte cb np q2 k2 = Ok k3) /\
      advanced E np p nif (with_lastconflict 100 later) [announcement] k2 k3.
Proof.
  intros Hk Hal Hst Hlc Hm1 Hne1 Hm2 Hne2 ann later.
  destruct (defend_ok custom_free_function fresh_byte fresh_u8 k E np nif p a q1 hs1 ipd1 Hk Hal Hst Hlc Hm1 Hne1) as (k1 & E1 & A1).
  pose proof (ad_kept _ _ _ _ _ _ _ _ A1) as K1.
  destruct (wait_ticks custom_free_function fresh_byte fresh_u8 E np nif p _ rand k1 n (kp_inv _ _ _ K1) (ad_alone _ _ _ _ _ _ _ _ A1)) as (E2 & K2 & Hal2).
  { left. unfold idle. cbn [acd_state with_lastconflict]. by rewrite Hst. }
  fold later in E2, K2, Hal2. exists k1, (acd_put p later k1). split; [done|]. split; [done|]. split; [done|]. split.
  { by apply put_advanced. }
  pose proof (says_kept _ _ _ _ _ _ _ _ (kept_trans _ _ _ _ K1 K2) Hm2) as Hm2'. change (DEFEND_INTERVAL * ACD_TICKS_PER_SECOND) with 100.
  destruct (Z.ltb_spec (Z.of_nat n) 100) as [Hn|Hn].
  - intros cb Hcb. destruct (give_up_ok custom_free_function fresh_byte fresh_u8 _ E np nif p later q2 hs2 (acd_ipaddr a) ipd2 cb (kp_inv _ _ _ K2) Hal2 Hm2')
      as (k3 & E3 & K3 & Hg); [| | done | exists k3; by split_and!; [| apply K3 |]].
    + unfold conflicting. cbn [later aged acd_state with_ttw with_lastconflict acd_ipaddr]. by rewrite Hst.
    + cbn [later aged acd_state with_ttw with_lastconflict lastconflict]. rewrite Hst. lia.
  - apply (defend_ok custom_free_function fresh_byte fresh_u8 _ E np nif p later q2 hs2 ipd2 (kp_inv _ _ _ K2) Hal2); try done.
    cbn [later aged with_ttw with_lastconflict lastconflict]. lia.
Qed.

(** Conflicts before the address is in use. While an address is probed, a
    message from it, or a probe of another station for it, makes us give it up;
    any other message changes nothing at all, whatever the structs are. *)
Theorem acd_probing_conflict k E np nif q hs ips ipd : user_inv k E -> netifs (npart k) !! np = Some nif -> says q nif hs ips ipd k E ->
  (forall p a cb, alone np p nif a k -> acd_state a = ACD_STATE_PROBE_WAIT \/ acd_state a = ACD_STATE_PROBING \/ acd_state a = ACD_STATE_ANNOUNCE_WAIT ->
    ips = acd_ipaddr a \/ (ips = IPADDR_ANY /\ ipd = acd_ipaddr a /\ hs <> hwaddr nif) -> callback_contract cb ->
    exists k', acd_arp_reply custom_free_function fresh_byte cb np q k = Ok k' /\ user_inv k' E /\ given_up cb np p a k k') /\
  ((forall l p a, acds_in np (mpart k) l -> p ∈ l -> acds (mpart k) !! p = Some a -> ~ conflicting nif a hs ips ipd) ->
    forall cb, acd_arp_reply custom_free_function fresh_byte cb np q k = Ok k).
Proof.
  intros Hk Hnif Hm. split.
  - intros p a cb Hal Hst Hc Hcb.
    destruct (give_up_ok custom_free_function fresh_byte fresh_u8 k E np nif p a q hs ips ipd cb Hk Hal Hm) as (k' & Ek & K' & Hg);
      [| | done | exists k'; by split_and!; [| apply K' |]].
    + unfold conflicting. by destruct Hst as [Hst|[Hst|Hst]]; rewrite Hst.
    + by destruct Hst as [Hst|[Hst|Hst]]; rewrite Hst.
  - intros Hno cb. by apply (reply_no_conflict custom_free_function fresh_byte fresh_u8 cb k E np nif q hs ips ipd Hk Hnif Hm).
Qed.

(** The lists are what acd_add and acd_remove make of them. acd_add puts a
    struct in front, or only sets its callback if it is there already; an added
    struct can be removed again, which gives the old lists of all interfaces
    back; acd_remove of a struct that is not there halts. *)
Theorem acd_add_remove k E np p f l : user_inv k E -> netif_exists np k -> acd_exists p k -> only_on np p k -> acds_in np (mpart k) l ->
  exists k1, acd_add np p (Some f) k = Ok (k1, ERR_OK) /\ relisted E np (if bool_decide (p ∈ l) then l else p :: l) k k1 /\
    acd_conflict_callback <$> acds (mpart k1) !! p = Some (Some f) /\
    (p ∉ l -> acd_remove np p k = Err (AssertFail not_on_list) /\
      exists k2, acd_remove np p k1 = Ok k2 /\ user_inv k2 E /\ npart k2 = npart k /\
        forall i li, netif_exists i k -> acds_in i (mpart k) li -> acds_in i (mpart k2) li).
Proof using V.
  intros Hk Hnp Hp Honly Hl. destruct (add_ok k E np p f l Hk Hnp Hp Honly Hl) as (k1 & E1 & R1 & Hcb). exists k1.
  split; [done|]. split; [done|]. split; [done|]. intros Hnot. split; [by apply (remove_absent k E np p l)|].
  rewrite bool_decide_eq_false_2 in R1 by done. destruct R1 as [H1 H2 H3 H4 _].
  assert (Hnp1 : forall i, netif_exists i k -> netif_exists i k1) by (unfold netif_exists; by rewrite H2).
  destruct (remove_ok k1 E np p [] l H1 (Hnp1 np Hnp) H3) as (k2 & E2 & [G1 G2 G3 G4 _]). exists k2.
  split; [done|]. split; [done|]. split; [congruence|]. intros i li Hi Hli. destruct (decide (i = np)) as [->|Hne].
  - by rewrite (acds_in_det _ _ _ _ Hli Hl).
  - apply G4; [by apply Hnp1 | done | by apply H4].
Qed.

End Properties.

(** ** Witnesses *)

(** The demo of ARP with one struct, 10.0.2.9, on the interface; its client
    starts anew when it is told to. *)
Module AcdDemo.
Import ArpSpec.Demo.

Definition both : Type := net pool pool mmio * acd_mod.
Definition demo_net : Part both (net pool pool mmio) := part_fst _ _.
Definition demo_acd : Part both acd_mod := part_snd _ _.
Definition demo_apart : Apart demo_net demo_acd := apart_pair _ _.
Definition demo_both : @ArpUser pool pool mmio both witness_pool witness_memp demo_link demo_net :=
  @arp_with_acd pool pool mmio both witness_pool witness_memp demo_link demo_net demo_acd demo_apart.
Definition demo_user : @AcdUser pool pool mmio both witness_pool witness_memp demo_link demo_net demo_acd demo_both :=
  @arp_with_acd_user pool pool mmio both witness_pool witness_memp demo_link demo_net demo_acd demo_apart.
#[local] Notation safe k E := (@user_inv pool pool mmio both witness_pool witness_memp demo_link demo_net demo_both k E).

(** The struct in a state, alone on the list. *)
Definition acd_demo (st : acd_state_enum_t) : acd := Acd None 0x0902000a st 0 0 0 0 (Some 7).
Definition mod_demo (st : acd_state_enum_t) : acd_mod := AcdMod {[100 := acd_demo st]} {[0 := Some 100]}.
Definition system (st : acd_state_enum_t) : both := (listening, mod_demo st).

(** The client of the demo. *)
Definition demo_client (f np : Z) (c : acd_callback_enum_t) (k : both) : res both :=
  match c with
  | ACD_RESTART_CLIENT => match @acd_start both demo_acd 100 0x0a02000a 0 k with Ok (k', _) => Ok k' | Err _ => Ok k end
  | _ => Ok k
  end.

Lemma demo_client_ok : @callback_contract pool pool witness_pool witness_memp mmio demo_link both demo_net demo_acd demo_both demo_client.
Proof.
  intros f np c k E Hk Hnp. assert (Hsame : exists k', Ok k = Ok k' /\
    @kept pool pool witness_pool witness_memp mmio demo_link both demo_net demo_acd demo_both E k k') by (exists k; split; [done | by apply kept_refl]).
  destruct c; try exact Hsame. cbn [demo_client]. destruct (acds (part (Part := demo_acd) k) !! 100) as [a|] eqn:Ha.
  - destruct (@start_ok pool pool witness_pool witness_memp mmio demo_link both demo_net demo_acd demo_both demo_user k E 100 a 0x0a02000a 0 Hk Ha)
      as [-> K']; [unfold is_u32; lia|]. by eexists.
  - unfold acd_start, acd_set, acd_get. rewrite Ha. exact Hsame.
Qed.

Lemma system_list st : acds_in 0 (mod_demo st) [100].
Proof.
  exists (Some 100). cbn. rewrite !lookup_singleton_eq. split; [done|]. split; [|by apply NoDup_singleton].
  split; [done|]. by eexists.
Qed.

Lemma system_ok st : st = ACD_STATE_OFF \/ st = ACD_STATE_PROBE_WAIT \/ st = ACD_STATE_ONGOING -> safe (system st) {[+ HeapPtr 8 +]}.
Proof.
  intros Hst. split; [exact listening_ok|]. split.
  - intros p a Ha. cbn in Ha. apply lookup_singleton_Some in Ha as [_ <-].
    apply acd_fields_intro; cbn; try (done || solve_u || lia). by destruct Hst as [-> | [-> | ->]].
  - exists (fun _ => [100]). split.
    + intros np [nif Hnp]. change (({[0 := demo_if]} : gmap Z netif) !! np = Some nif) in Hnp. apply lookup_singleton_Some in Hnp as [<- _]. apply system_list.
    + intros np p a _ _ Ha. cbn in Ha. apply lookup_singleton_Some in Ha as [_ <-]. by eexists.
    + intros np1 np2 p [n1 H1] [n2 H2] _ _. change (({[0 := demo_if]} : gmap Z netif) !! np1 = Some n1) in H1.
      change (({[0 := demo_if]} : gmap Z netif) !! np2 = Some n2) in H2. by apply lookup_singleton_Some in H1 as [<- _], H2 as [<- _].
Qed.

Lemma system_alone st : @alone pool pool mmio both demo_net demo_acd 0 100 demo_if (acd_demo st) (system st).
Proof.
  split; [apply lookup_singleton_eq|]. split; [apply system_list | apply lookup_singleton_eq].
Qed.

Lemma system_says st : @says pool pool mmio both demo_net (HeapPtr 8) demo_if asker 0x0902000a 0x0202000a (system st) {[+ HeapPtr 8 +]}.
Proof.
  split; [by apply gmultiset_elem_of_singleton|]. exists ARP_REQUEST, ethzero. split; [apply input_demo_ok|].
  split_and!; try done; unfold ARP_REQUEST; lia.
Qed.

End AcdDemo.

Import ArpSpec.Demo AcdDemo.

(** A conflict for the address in use, and one for an address that is probed. *)
Lemma acd_safe_witness :
  exists k', @acd_exec pool pool witness_pool witness_memp mmio demo_link both demo_net demo_acd no_custom noise demo_client
      (CallArpReply 0 (HeapPtr 8)) (system ACD_STATE_PROBE_WAIT) = Ok k' /\
    @user_inv pool pool mmio both witness_pool witness_memp demo_link demo_net demo_both k' {[+ HeapPtr 8 +]}.
Proof.
  destruct (@acd_safe pool pool witness_pool witness_memp mmio demo_link both demo_net demo_acd demo_both demo_user no_custom noise noise_u8 demo_client (CallArpReply 0 (HeapPtr 8)) (system ACD_STATE_PROBE_WAIT)
    {[+ HeapPtr 8 +]} demo_client_ok) as (k' & E & Hk & _).
  - apply system_ok. tauto.
  - split; [by eexists|]. split; [by apply gmultiset_elem_of_singleton|]. exists request_demo. split; [apply input_demo_ok | done].
  - exists k'. split; [exact E | exact Hk].
Defined.

Lemma acd_claims_address_witness :
  exists k0 k1 k2 n, @acd_start both demo_acd 100 0x0902000a 3 (system ACD_STATE_OFF) = Ok (k0, ERR_OK) /\
    @acd_ticks pool pool witness_pool witness_memp mmio demo_link both demo_net demo_acd no_custom noise demo_client (fun i _ => i) 0 n k0 = Ok k1 /\
    @acd_tmr pool pool witness_pool witness_memp mmio demo_link both demo_net demo_acd no_custom noise demo_client (fun _ => n) [0] k1 =
      call_back (Part1 := demo_acd) demo_client 0 100 ACD_IP_OK k2 /\ (60 <= n <= 86)%nat.
Proof.
  destruct (@acd_claims_address pool pool witness_pool witness_memp mmio demo_link both demo_net demo_acd demo_both demo_user no_custom noise noise_u8 (system ACD_STATE_OFF) {[+ HeapPtr 8 +]} 0 demo_if 100 0x0902000a 3
    (fun i _ => i)) as (k0 & k1 & k2 & n & a & E0 & Hn & E1 & E2 & _).
  - apply system_ok. tauto.
  - reflexivity.
  - apply system_list.
  - unfold is_u32; lia.
  - exists k0, k1, k2, n. split; [exact E0|]. split; [exact (E1 demo_client)|]. split; [exact (E2 demo_client demo_client_ok) | exact Hn].
Defined.

Lemma acd_defends_address_witness :
  exists k1 k2 k3, @acd_arp_reply pool pool witness_pool witness_memp mmio demo_link both demo_net demo_acd no_custom noise demo_client
      0 (HeapPtr 8) (system ACD_STATE_ONGOING) = Ok k1 /\
    @acd_ticks pool pool witness_pool witness_memp mmio demo_link both demo_net demo_acd no_custom noise demo_client (fun i _ => i) 0 50 k1 = Ok k2 /\
    @given_up both demo_acd demo_client 0 100 (aged 50 (with_lastconflict 100 (acd_demo ACD_STATE_ONGOING))) k2 k3.
Proof.
  destruct (@acd_defends_address pool pool witness_pool witness_memp mmio demo_link both demo_net demo_acd demo_both demo_user no_custom noise noise_u8 (system ACD_STATE_ONGOING) {[+ HeapPtr 8 +]} 0 demo_if 100
    (acd_demo ACD_STATE_ONGOING) (HeapPtr 8) (HeapPtr 8) asker asker 0x0202000a 0x0202000a (fun i _ => i) 50%nat) as (k1 & k2 & E1 & _ & E2 & _ & H).
  - apply system_ok. tauto.
  - apply system_alone.
  - reflexivity.
  - reflexivity.
  - apply system_says.
  - discriminate.
  - apply system_says.
  - discriminate.
  - destruct (H demo_client demo_client_ok) as (k3 & _ & _ & H3). exists k1, k2, k3.
    split; [exact (E1 demo_client)|]. split; [exact (E2 demo_client) | exact H3].
Defined.

Lemma acd_probing_conflict_witness :
  exists k', @acd_arp_reply pool pool witness_pool witness_memp mmio demo_link both demo_net demo_acd no_custom noise demo_client
      0 (HeapPtr 8) (system ACD_STATE_PROBE_WAIT) = Ok k' /\
    @given_up both demo_acd demo_client 0 100 (acd_demo ACD_STATE_PROBE_WAIT) (system ACD_STATE_PROBE_WAIT) k'.
Proof.
  destruct (@acd_probing_conflict pool pool witness_pool witness_memp mmio demo_link both demo_net demo_acd demo_both demo_user no_custom noise noise_u8 (system ACD_STATE_PROBE_WAIT) {[+ HeapPtr 8 +]} 0 demo_if (HeapPtr 8)
    asker 0x0902000a 0x0202000a) as [H _].
  - apply system_ok. tauto.
  - reflexivity.
  - apply system_says.
  - destruct (H 100 (acd_demo ACD_STATE_PROBE_WAIT) demo_client (system_alone _)) as (k' & E & _ & Hg);
      [by left | by left | exact demo_client_ok |]. exists k'. split; [exact E | exact Hg].
Defined.

Lemma acd_add_remove_witness :
  exists k1, @acd_add both demo_acd 0 100 (Some 9) (system ACD_STATE_OFF) = Ok (k1, ERR_OK) /\ acds_in 0 (part (Part := demo_acd) k1) [100].
Proof.
  destruct (@acd_add_remove pool pool witness_pool witness_memp mmio demo_link both demo_net demo_acd demo_both demo_user
    (system ACD_STATE_OFF) {[+ HeapPtr 8 +]} 0 100 9 [100]) as (k1 & E & H & _).
  - apply system_ok. tauto.
  - by eexists.
  - by eexists.
  - intros np l [nif Hnp] _ _. change (({[0 := demo_if]} : gmap Z netif) !! np = Some nif) in Hnp. by apply lookup_singleton_Some in Hnp as [<- _].
  - apply system_list.
  - exists k1. split; [exact E | exact (rl_list _ _ _ _ _ H)].
Defined.
