(* ===== verification/ArpPath.v ===== *)
(** * From a frame to its answer

    The receive path of main.c, the ARP module and conflict detection put
    together: a request for our address in the controller's FIFO is answered by
    a frame in the controller's FIFO. *)

From stdpp Require Import gmultiset.
From S2P Require Import Prelude Strings Onescomp Def Ip4Addr Eth Alloc Memp Mem Pbuf PbufRef PbufAlloc PbufStore PbufPool Ethernet EthArp EthArpOps EthArpOut LwipPort ArpSpec EthInput Receive Acd AcdOps AcdSpec.

(** ** Definitions *)

(** A module behind the port, inside the kernel's state. *)
Definition port_stack P1 P2 Y M (H : Part Y M) : Part (port P1 P2 Y) M.
Proof.
  refine {| part := fun k => part (stack k);
            set_part := fun m k => Port (st k) (eth_dev k) (eth_rx_flag k) (set_part m (stack k)) |}.
  - intros m k. cbn. apply part_set.
  - intros [s d f y]. cbn. by rewrite set_part_part.
  - intros m m' k. cbn. by rewrite set_set_part.
Defined.

(** The structs of conflict detection. *)
#[export] Instance port_acd P1 P2 Y (H : Part Y acd_mod) : Part (port P1 P2 Y) acd_mod := port_stack P1 P2 Y acd_mod H.

#[export] Instance port_apart P1 P2 Y M (pa : Part Y arp_side) (pm : Part Y M) (A : Apart pa pm) :
  Apart (port_part P1 P2 Y pa) (port_stack P1 P2 Y M pm).
Proof.
  split; intros; cbn; [apply apart_left | by rewrite apart_right | f_equal; apply apart_swap].
Qed.

Lemma port_stack_apart P1 P2 Y M N (pm : Part Y M) (pn : Part Y N) (A : Apart pm pn) :
  Apart (port_stack P1 P2 Y M pm) (port_stack P1 P2 Y N pn).
Proof.
  split; intros; cbn; [apply apart_left | by rewrite apart_right | f_equal; apply apart_swap].
Qed.

Section Path.
Context {P1 P2 : Type} `{!PoolAlloc P1} `{!PoolAlloc P2} {Y : Type} {pa : Part Y arp_side} {pm : Part Y acd_mod}.
Implicit Type k : port P1 P2 Y.
Variable REG : Z -> nat -> Z.
Variable out_buffer : list Z.
Hypothesis out_length : length out_buffer = 1518%nat.
Hypothesis out_bytes : bytes_ok out_buffer.
#[local] Instance link : LinkDriver mmio := port_link REG out_buffer out_length out_bytes.
Variable custom_free_function : ptr -> store P1 P2 -> res (store P1 P2).
Variable fresh_byte : nat -> Z.
Variable conflict_callback : Z -> Z -> acd_callback_enum_t -> port P1 P2 Y -> res (port P1 P2 Y).
Variable ip4_input : ptr -> Z -> port P1 P2 Y -> res (port P1 P2 Y).

(** The kernel's receive path: [netif->input] is ethernet_input, which calls
    [etharp_input], which calls [acd_arp_reply]. *)
Definition kernel_etharp : ptr -> Z -> port P1 P2 Y -> res (port P1 P2 Y) :=
  etharp_input custom_free_function fresh_byte (acd_arp_reply custom_free_function fresh_byte conflict_callback).
Definition kernel_receive (netif_p : Z) (buffer : list Z) k : res (port P1 P2 Y) :=
  receive REG custom_free_function fresh_byte ip4_input kernel_etharp netif_p buffer k.

End Path.

(** ** Lemmas *)

Section Learning.
Context {P1 P2 : Type} `{!PoolAlloc P1} `{!PoolAlloc P2} {X : Type} `{!LinkDriver X}.
Implicit Type n : net P1 P2 X.

(** The sender of a request for us is always learnt; nothing is sent for it when
    no packet waits. *)
Lemma learnt_request np nif hs ips n n' : learnt np nif hs ips (ip_addr nif) n n' -> ip_addr nif <> IPADDR_ANY ->
  Forall (fun e => has_key ips np e -> arp_q e = None) (arp_table n) ->
  device n' = device n /\
  if unresolvable ips nif then arp_table n' = arp_table n
  else exists i, 0 <= i < ARP_TABLE_SIZE /\ arp_table n' = <[Z.to_nat i := fresh_entry ips np hs]> (arp_table n).
Proof using PoolAlloc0 PoolAlloc1 LinkDriver0.
  intros Hl Hip Hq. unfold learnt, learn_flags in Hl. destruct (unresolvable ips nif); [by rewrite Hl|].
  assert (configured_as nif (ip_addr nif) = true) as E.
  { unfold configured_as, ip4_addr_isany, IPADDR_ANY in *. rewrite Z.eqb_refl. by destruct (Z.eqb_spec (ip_addr nif) 0). }
  rewrite E in Hl. destruct Hl as [r [n1 Hf|n1 n2 i e Hf Hi He Ht Hq']].
  - exfalso. unfold ERR_MEM in Hf. inversion Hf as [i e Hi| Hno Hfl|i s' old hw Hno Hfl Hi]; [lia | by destruct Hfl as [?|[? _]] | lia].
  - assert (arp_q e = None) as Heq.
    { destruct Hf as [i e' Hi' He' Hk| |i s' old hw Hno Hfl Hi' Hv Hold]; [| unfold ERR_MEM in Hi; lia |].
      - rewrite He in He'. injection He' as <-. by apply (Forall_lookup_1 _ _ _ _ Hq He).
      - cbn in He. rewrite list_lookup_insert_eq in He by (by eapply lookup_lt_Some). by injection He as <-. }
    rewrite Heq in Hq'. destruct (found_frame _ _ _ _ _ _ Hf) as (_ & Ed & _). split; [by rewrite Hq' | by exists i].
Qed.

End Learning.

Lemma asks_request nif ips : ips <> ip_addr nif -> ip_addr nif <> IPADDR_ANY -> asks_us nif ARP_REQUEST ips (ip_addr nif) = true.
Proof.
  intros Hne Hip. unfold asks_us, configured_as, ip4_addr_isany, IPADDR_ANY in *. rewrite !Z.eqb_refl.
  destruct (Z.eqb_spec (ip_addr nif) 0), (Z.eqb_spec ips (ip_addr nif)); done.
Qed.

Lemma request_bytes op hs ips hd ipd : bytes_ok (arp_message op hs ips hd ipd) -> bytes_ok hs /\ bytes_ok hd.
Proof. unfold arp_message, bytes_ok. rewrite !Forall_app. tauto. Qed.

(** A frame of type ARP. *)
Lemma request_layer {K} (frame dst hs m pad : list Z) nif (f g : ptr -> Z -> K -> res K) :
  frame = frame_of dst hs ETHTYPE_ARP m ++ pad -> length dst = 6%nat -> length hs = 6%nat -> (0 < length m)%nat ->
  Z.land (netif_flags nif) NETIF_FLAG_ETHARP <> 0 -> layer_of f g nif frame = Some g /\ drop 14 frame = m ++ pad.
Proof.
  intros -> Hd Hs Hm Hf. do 6 (destruct dst as [|? dst]; [done|]). destruct dst; [|done].
  do 6 (destruct hs as [|? hs]; [done|]). destruct hs; [|done]. split; [|done].
  unfold layer_of. match goal with |- context [Z.of_nat (length ?d) <=? _] => destruct (Z.leb_spec (length d) SIZEOF_ETH_HDR) as [Hl|_] end.
  { unfold frame_of, SIZEOF_ETH_HDR in Hl. rewrite !length_app in Hl. cbn [length] in Hl. lia. }
  by destruct (Z.eqb_spec (Z.land (netif_flags nif) NETIF_FLAG_ETHARP) 0).
Qed.

(** ** Properties *)

Section Properties.
Context {P1 P2 : Type} `{!PoolAlloc P1} `{!PoolAlloc P2} {Y : Type} {pa : Part Y arp_side} {pm : Part Y acd_mod}.
Variable REG : Z -> nat -> Z.
Variable out_buffer : list Z.
Hypothesis out_length : length out_buffer = 1518%nat.
Hypothesis out_bytes : bytes_ok out_buffer.
#[local] Instance driver : LinkDriver mmio := port_link REG out_buffer out_length out_bytes.
Context {U : ArpUser P1 P2 mmio (port P1 P2 Y)} {V : AcdUser P1 P2 mmio (port P1 P2 Y)}.
Implicit Type k : port P1 P2 Y.
#[local] Set Default Proof Using "Type*".
Variable custom_free_function : ptr -> store P1 P2 -> res (store P1 P2).
Variable fresh_byte : nat -> Z.
Hypothesis fresh_u8 : forall i, is_u8 (fresh_byte i).

(** C6: an ARP request for our address is answered, from the controller to the
    controller. When the pending frame is a request for the interface's address
    (with any padding) from another address, that no struct of conflict
    detection takes for a conflict, and the pool has room for it, then
    ethernetif_input returns; the sender is in the ARP table; and one frame more
    has been started at the controller, the reply to the sender: always when the
    heap has room for an ARP message as the frame comes in, and none only when it
    has not. Nothing is leaked: the caller's references are the same, no element
    of the pool is lost, and the heap has no less room than before. *)
Theorem arp_request_answered conflict_callback ip4_input k E W np nif in_buffer dst hs ips hd pad :
  callback_contract conflict_callback -> layer_contract 498 ip4_input -> user_inv k E ->
  pool_holds (pbuf_pool (st k)) W -> (forall a, is_Some (pbufs (st k) !! PoolPtr a) -> a ∈ W) ->
  length in_buffer = 1518%nat -> bytes_ok in_buffer ->
  netifs (part k) !! np = Some nif -> Z.land (netif_flags nif) NETIF_FLAG_ETHARP <> 0 -> ip_addr nif <> IPADDR_ANY ->
  frame_pending REG (eth_dev k) ->
  pending_frame REG (eth_dev k) = frame_of dst hs ETHTYPE_ARP (arp_message ARP_REQUEST hs ips hd (ip_addr nif)) ++ pad ->
  length dst = 6%nat -> length hs = 6%nat -> length hd = 6%nat -> is_u32 ips -> ips <> ip_addr nif ->
  pool_pbufs (length (pending_frame REG (eth_dev k))) <= @pool_capacity P1 _ - size W ->
  Forall (fun e => has_key ips np e -> arp_q e = None) (arp_table (part k)) ->
  (forall l p a, acds_in np (part k) l -> p ∈ l -> acds (part k) !! p = Some a -> ~ conflicting nif a hs ips (ip_addr nif)) ->
  let reply := frame_of hs (hwaddr nif) ETHTYPE_ARP (arp_message ARP_REPLY (hwaddr nif) (ip_addr nif) hs ips) in
  exists k', kernel_receive REG out_buffer out_length out_bytes custom_free_function fresh_byte conflict_callback ip4_input np in_buffer k = Ok k' /\
    user_inv k' E /\ netifs (part k') = netifs (part k) /\
    (if unresolvable ips nif then arp_table (part k') = arp_table (part k)
     else exists i, 0 <= i < ARP_TABLE_SIZE /\ arp_table (part k') = <[Z.to_nat i := fresh_entry ips np hs]> (arp_table (part k))) /\
    keeps (st k) (st k') /\
    ((wire_log (eth_dev k')).1 = (wire_log (eth_dev k)).1 ++ [reply] \/
     has_ram PBUF_LINK SIZEOF_ETHARP_HDR (st k) = false /\ (wire_log (eth_dev k')).1 = (wire_log (eth_dev k)).1).
Proof.
  intros Hcb Hip4 Hk HW HWa Hbl Hbb Hnif Hflag Hip Hpend Hframe Hld Hlh Hlhd Hips Hne Hroom Hq Hno reply.
  set (frame := pending_frame REG (eth_dev k)) in *. set (m := arp_message ARP_REQUEST hs ips hd (ip_addr nif)) in *.
  assert (Hacd : acd_contract (acd_arp_reply custom_free_function fresh_byte conflict_callback)) by (by apply arp_reply_contract).
  destruct (receive_ok REG out_buffer out_length out_bytes custom_free_function fresh_byte fresh_u8 ip4_input
    (kernel_etharp REG out_buffer out_length out_bytes custom_free_function fresh_byte conflict_callback) k E W np nif in_buffer)
    as (k' & Er & Hk' & Hlay); try done.
  { apply etharp_layer; [done | done | lia]. }
  exists k'. split; [exact Er|]. split; [done|]. fold frame in Hlay.
  destruct (Z.ltb_spec (@pool_capacity P1 _ - size W) (pool_pbufs (length frame))); [lia|].
  assert (Hlm : length m = 28%nat) by (unfold m, arp_message; by rewrite !length_app, Hlh, Hlhd).
  destruct (request_layer frame dst hs m pad nif ip4_input (kernel_etharp REG out_buffer out_length out_bytes custom_free_function fresh_byte conflict_callback))
    as [Elay Edrop]; [done | done | done | lia | done |]. rewrite Elay in Hlay.
  destruct Hlay as (k1 & p & b & l & Ef & Hk1 & Hst & Hwr & Hkeep1 & Hp & Hdata & Harr & Hlen & _).
  assert (Hlf : (42 <= length frame)%nat) by (apply (f_equal length) in Edrop; rewrite length_drop, length_app in Edrop; lia).
  rewrite Edrop in Hdata.
  pose proof (arrived_message REG out_buffer out_length out_bytes k1 _ p b l m pad Hk1 Harr Hp Hdata ltac:(lia)) as Hm.
  assert (Enet : netifs (part k1) = netifs (part k)) by (cbn; by rewrite Hst).
  assert (Etab : arp_table (part k1) = arp_table (part k)) by (cbn; by rewrite Hst).
  assert (Hnif1 : netifs (part k1) !! np = Some nif) by (by rewrite Enet).
  pose proof (user_arp _ _ Hk1) as Hn1. destruct (ao_netifs _ _ Hn1 np nif Hnif1) as (_ & _ & _ & Hip4u & _).
  pose proof (sole_message_bytes _ _ _ _ (ao_store _ _ Hn1) Hm) as Hmb.
  destruct (request_bytes _ _ _ _ _ Hmb) as [Hbs Hbd].
  assert (Hcalm : acd_arp_reply custom_free_function fresh_byte conflict_callback np p k1 = Ok k1).
  { apply (reply_no_conflict custom_free_function fresh_byte fresh_u8 conflict_callback k1 _ np nif p hs ips (ip_addr nif) Hk1 Hnif1).
    - split; [multiset_solver|]. exists ARP_REQUEST, hd. split; [exact Hm|]. unfold ARP_REQUEST. split_and!; try done; lia.
    - cbn. rewrite Hst. exact Hno. }
  destruct (input_message custom_free_function fresh_byte fresh_u8 _ Hacd k1 E np p ARP_REQUEST hs ips hd (ip_addr nif))
    as (k2 & nif' & n2 & r & k3 & Ek2 & Hnif' & _ & Hlearn & Hkeep2 & Ek3 & _ & Hnet3 & Htab3 & Hkeep3 & Hwire); try done.
  rewrite Hcalm in Ek2. injection Ek2 as <-. rewrite Hnif1 in Hnif'. injection Hnif' as <-.
  pose proof (eq_trans (eq_sym Ek3) Ef) as Ek'. injection Ek' as ->.
  rewrite <- Etab in Hq. destruct (learnt_request np nif hs ips (part k1) n2 Hlearn Hip Hq) as [Hdev Htab].
  split; [congruence|]. split; [rewrite Htab3, <- Etab; exact Htab|].
  rewrite asks_request in Hwire by done. rewrite Hdev in Hwire.
  assert (Hw1 : wire_log (eth_dev k1) = wire_log (eth_dev k)) by (unfold wire_log; by rewrite Hwr).
  assert (Hkeep : keeps (st k) (packets n2)) by (by etransitivity; [exact Hkeep1|]).
  split; [by etransitivity; [exact Hkeep|]|]. rewrite <- Hw1. cbn [andb] in Hwire.
  destruct (has_ram PBUF_LINK SIZEOF_ETHARP_HDR (st k)) eqn:Eram.
  - left. rewrite (keeps_ram _ _ _ _ _ (so_ref _ _ (ao_store _ _ (user_arp _ _ Hk))) Hkeep Eram) in Hwire. exact Hwire.
  - destruct (has_ram _ _ (packets n2)); [left; exact Hwire | right]. change (eth_dev k' = eth_dev k1) in Hwire. by rewrite Hwire.
Qed.

(** No frame harms the kernel. Whatever the bytes of the pending frame are,
    ethernetif_input with the whole path behind it returns: no assertion fails,
    no read leaves a packet, nothing is freed twice or leaked, and the ARP table,
    the structs of conflict detection, the heap and the pools are well formed
    afterwards. *)
Lemma any_frame_safe conflict_callback ip4_input k E np nif in_buffer :
  callback_contract conflict_callback -> layer_contract 498 ip4_input -> user_inv k E ->
  length in_buffer = 1518%nat -> bytes_ok in_buffer -> netifs (part k) !! np = Some nif -> frame_pending REG (eth_dev k) ->
  exists k', kernel_receive REG out_buffer out_length out_bytes custom_free_function fresh_byte conflict_callback ip4_input np in_buffer k = Ok k' /\
    user_inv k' E.
Proof.
  intros Hcb Hip4 Hk Hbl Hbb Hnif Hpend. pose proof (user_arp _ _ Hk) as Hn.
  destruct (ri_pool _ _ (so_ref _ _ (ao_store _ _ Hn))) as (W & HW & HWa).
  destruct (receive_ok REG out_buffer out_length out_bytes custom_free_function fresh_byte fresh_u8 ip4_input
    (kernel_etharp REG out_buffer out_length out_bytes custom_free_function fresh_byte conflict_callback) k E W np nif in_buffer)
    as (k' & Er & Hk' & _); try done; [|by exists k'].
  apply etharp_layer; [done | by apply arp_reply_contract | lia].
Qed.

End Properties.

(** ** Witnesses *)

(** The system after boot, with a frame of 60 bytes in the FIFO: the request of
    10.0.2.9 for our address, and 18 bytes of padding. Our own address has been
    claimed by conflict detection. *)
Module PathDemo.
Import ArpSpec.Demo.

Definition sides : Type := arp_side * acd_mod.
Definition kernel : Type := port pool pool sides.
Definition side_part : Part sides arp_side := part_fst _ _.
Definition mod_part : Part sides acd_mod := part_snd _ _.
Definition kernel_net : Part kernel (net pool pool mmio) := port_part pool pool sides side_part.
Definition kernel_acd : Part kernel acd_mod := port_acd pool pool sides mod_part.
Definition kernel_apart : Apart kernel_net kernel_acd := port_apart pool pool sides acd_mod side_part mod_part (apart_pair _ _).

Definition ethbroadcast_demo : list Z := [255; 255; 255; 255; 255; 255].
Definition frame_demo : list Z := frame_of ethbroadcast_demo asker ETHTYPE_ARP request_demo ++ replicate 18 0.
Definition REG_demo (r : Z) (i : nat) : Z :=
  if r =? ETH_MACNPV then 1 else nth i (pack_words ([60; 0] ++ frame_demo)) 0.
Definition link_demo : LinkDriver mmio := port_link REG_demo uninit uninit_length uninit_bytes.
Definition acd_demo : acd_mod := AcdMod {[100 := Acd None 0x0202000a ACD_STATE_ONGOING 0 0 0 0 (Some 7)]} {[0 := Some 100]}.
Definition kernel_demo : kernel :=
  Port (pbuf_boot heap_fresh) quiet_device true (Side {[0 := demo_if]} (replicate 10 entry_freed) 0, acd_demo).

Lemma demo_frame : pending_frame REG_demo quiet_device = frame_demo.
Proof. vm_compute. reflexivity. Qed.

Definition kernel_user : @ArpUser pool pool mmio kernel witness_pool witness_memp link_demo kernel_net :=
  @arp_with_acd pool pool mmio kernel witness_pool witness_memp link_demo kernel_net kernel_acd kernel_apart.
Definition kernel_acd_user : @AcdUser pool pool mmio kernel witness_pool witness_memp link_demo kernel_net kernel_acd kernel_user :=
  @arp_with_acd_user pool pool mmio kernel witness_pool witness_memp link_demo kernel_net kernel_acd kernel_apart.

(** No IPv4 above: a datagram is freed. *)
Definition discard (p : ptr) (np : Z) (k : kernel) : res kernel :=
  n ← @free_packet pool pool witness_pool witness_memp mmio no_custom p (part (Part := kernel_net) k);
  Ok (set_part (Part := kernel_net) n k).

Lemma discard_contract room : @layer_contract pool pool witness_pool witness_memp mmio link_demo kernel kernel_net kernel_user room discard.
Proof.
  intros k E np p b Hk _ _. pose proof (@user_arp _ _ _ _ _ _ _ _ kernel_user k _ Hk) as Hn. rewrite <- (assoc_L (⊎)) in Hn.
  destruct (@free_packet_ok pool pool witness_pool witness_memp mmio link_demo no_custom _ _ p Hn) as (s' & Ef & Hn' & _).
  unfold discard. rewrite Ef, bind_ok. eexists. split; [reflexivity|].
  by apply (@user_set _ _ _ _ _ _ _ _ kernel_user k ({[+ p +]} ⊎ E)).
Qed.

Definition silent (f np : Z) (c : acd_callback_enum_t) (k : kernel) : res kernel := Ok k.

Lemma silent_contract : @callback_contract pool pool witness_pool witness_memp mmio link_demo kernel kernel_net kernel_acd kernel_user silent.
Proof. intros f np c k E Hk _. exists k. split; [done | by apply kept_refl]. Qed.

Lemma kernel_demo_ok : @user_inv _ _ _ _ _ _ _ _ kernel_user kernel_demo ∅.
Proof.
  split; [by destruct (net_demo_ok _ _ boot_ok) as [H1 H2 H3 H4 H5 H6]; split|]. split.
  - intros p a Ha. cbn in Ha. apply lookup_singleton_Some in Ha as [_ <-]. apply acd_fields_intro; cbn; (done || solve_u || lia).
  - exists (fun _ => [100]). split.
    + intros np [nif Hnp]. change (({[0 := demo_if]} : gmap Z netif) !! np = Some nif) in Hnp. apply lookup_singleton_Some in Hnp as [<- _].
      exists (Some 100). cbn. rewrite !lookup_singleton_eq. split; [done|]. split; [|by apply NoDup_singleton]. split; [done|]. by eexists.
    + intros np p a _ _ Ha. cbn in Ha. apply lookup_singleton_Some in Ha as [_ <-]. by eexists.
    + intros np1 np2 p [n1 H1] [n2 H2] _ _. change (({[0 := demo_if]} : gmap Z netif) !! np1 = Some n1) in H1.
      change (({[0 := demo_if]} : gmap Z netif) !! np2 = Some n2) in H2. by apply lookup_singleton_Some in H1 as [<- _], H2 as [<- _].
Qed.

Lemma demo_pending : frame_pending REG_demo quiet_device.
Proof. by vm_compute. Qed.

End PathDemo.

Import ArpSpec.Demo PathDemo.

Lemma arp_request_answered_witness :
  exists k', @kernel_receive pool pool witness_pool witness_memp sides side_part mod_part REG_demo uninit uninit_length uninit_bytes
      no_custom noise silent discard 0 uninit kernel_demo = Ok k' /\
    (wire_log (eth_dev k')).1 = [frame_of asker (hwaddr demo_if) ETHTYPE_ARP (arp_message ARP_REPLY (hwaddr demo_if) 0x0202000a asker 0x0902000a)].
Proof.
  destruct (@arp_request_answered pool pool witness_pool witness_memp sides side_part mod_part REG_demo uninit uninit_length uninit_bytes
    kernel_user kernel_acd_user no_custom noise noise_u8 silent discard kernel_demo ∅ ∅ 0 demo_if uninit ethbroadcast_demo asker 0x0902000a
    ethzero (replicate 18 0) silent_contract (discard_contract 498) kernel_demo_ok) as (k' & E & _ & _ & _ & _ & [H|[H _]]).
  - apply boot_pool_rep, pbuf_pool_desc_ok.
  - intros a. cbn. rewrite lookup_empty. by intros [].
  - exact uninit_length.
  - exact uninit_bytes.
  - reflexivity.
  - by vm_compute.
  - by vm_compute.
  - exact demo_pending.
  - exact demo_frame.
  - reflexivity.
  - reflexivity.
  - reflexivity.
  - unfold is_u32; lia.
  - by vm_compute.
  - change (eth_dev kernel_demo) with quiet_device. rewrite demo_frame. by vm_compute.
  - apply Forall_replicate. by intros [].
  - intros l p a _ _ Ha. cbn in Ha. apply lookup_singleton_Some in Ha as [_ <-]. intros [H _]. discriminate H.
  - exists k'. split; [exact E | exact H].
  - exfalso. revert H. by vm_compute.
Defined.
