(* ===== verification/Ip4.v ===== *)
(** * Sending IPv4: src/src/lwip/core/ipv4/ip4.c

    The state of the module, the header of a datagram as bytes at a pointer,
    routing and the output functions. *)

From stdpp Require Import gmultiset.
From S2P Require Import Prelude Strings Onescomp Def Chksum Ip4Addr Alloc Memp Mem Pbuf PbufRef PbufAlloc PbufStore Ethernet EthArp.

(** ** Definitions *)

Definition IP_HLEN : Z := 20.
Definition IP4_MIN_MTU_LENGTH : Z := 68.
Definition IP_MF : Z := 0x2000.
Definition IP_OFFMASK : Z := 0x1fff.
Definition IP_PROTO_ICMP : Z := 1.
Definition IP_PROTO_TCP : Z := 6.
Definition IP_PROTO_UDP : Z := 17.
Definition NETIF_FLAG_UP : Z := 0x01.
Definition NETIF_FLAG_LINK_UP : Z := 0x04.
Definition LWIP_IANA_PORT_DHCP_CLIENT : Z := 68.
Definition PP_NTOHS (x : Z) : Z := PP_HTONS x.

(** Offsets in struct ip_hdr. *)
Definition ip_v_hl : Z := 0.
Definition ip_tos : Z := 1.
Definition ip_len : Z := 2.
Definition ip_id_at : Z := 4.
Definition ip_offset : Z := 6.
Definition ip_ttl : Z := 8.
Definition ip_proto : Z := 9.
Definition ip_chksum : Z := 10.
Definition ip_src : Z := 12.
Definition ip_dest : Z := 16.

Definition IPH_V (v_hl : Z) : Z := Z.shiftr v_hl 4.
Definition IPH_HL (v_hl : Z) : Z := Z.land v_hl 0x0f.
Definition IPH_HL_BYTES (v_hl : Z) : Z := u8 (IPH_HL v_hl * 4).

Definition ip4_addr_isloopback (a : Z) : bool := Z.land a (PP_HTONL 0xff000000) =? PP_HTONL 0x7f000000.

Definition netif_is_up (nif : netif) : bool := negb (Z.land (netif_flags nif) NETIF_FLAG_UP =? 0).
Definition netif_is_link_up (nif : netif) : bool := negb (Z.land (netif_flags nif) NETIF_FLAG_LINK_UP =? 0).

(** The list of interfaces and the default one (netif.c), the next identification
    and [ip_data], what is known of the packet that is being processed. *)
Record ip_mod : Type := IpMod
  { netif_list : list Z;
    netif_default : option Z;
    ip_id : Z;
    current_netif : option Z;
    current_input_netif : option Z;
    current_ip4_header : option (ptr * Z);
    current_ip_header_tot_len : Z;
    current_iphdr_src : Z;
    current_iphdr_dest : Z }.

Definition set_ip_id (v : Z) (m : ip_mod) : ip_mod :=
  IpMod (netif_list m) (netif_default m) v (current_netif m) (current_input_netif m) (current_ip4_header m)
    (current_ip_header_tot_len m) (current_iphdr_src m) (current_iphdr_dest m).
Definition set_current_addrs (src dest : Z) (m : ip_mod) : ip_mod :=
  IpMod (netif_list m) (netif_default m) (ip_id m) (current_netif m) (current_input_netif m) (current_ip4_header m)
    (current_ip_header_tot_len m) src dest.
Definition set_current (nif inp : option Z) (hdr : option (ptr * Z)) (hlen : Z) (m : ip_mod) : ip_mod :=
  IpMod (netif_list m) (netif_default m) (ip_id m) nif inp hdr hlen (current_iphdr_src m) (current_iphdr_dest m).

(** Memory at a pointer that is not the payload of a pbuf any more. *)
Definition read_at {P1 P2} (h : option (ptr * Z)) (off n : Z) (s : store P1 P2) : res (list Z) := area_read (areas s) h off n.
Definition read8_at {P1 P2} (h : option (ptr * Z)) (off : Z) (s : store P1 P2) : res Z := d ← read_at h off 1 s; buf_get d 0.
Definition read16_at {P1 P2} (h : option (ptr * Z)) (off : Z) (s : store P1 P2) : res Z := d ← read_at h off 2 s; get16 d 0.
Definition read32_at {P1 P2} (h : option (ptr * Z)) (off : Z) (s : store P1 P2) : res Z := d ← read_at h off 4 s; get32 d 0.
Definition write_at {P1 P2} (h : option (ptr * Z)) (off : Z) (src : list Z) (s : store P1 P2) : res (store P1 P2) :=
  ar ← area_write (areas s) h off src; Ok (set_areas ar s).
Definition write16_at {P1 P2} (h : option (ptr * Z)) (off v : Z) : store P1 P2 -> res (store P1 P2) :=
  write_at h off [u8 v; u8 (v / 256)].

(** The address of the pointer and the bytes from there on. *)
Definition mem_from (ar : gmap ptr (list Z)) (h : option (ptr * Z)) : res (Z * list Z) :=
  '(a, o) ← of_option BadPointer h;
  d ← of_option BadPointer (ar !! a);
  Ok (match a with ExtPtr z => z + o | _ => addr a + SIZEOF_STRUCT_PBUF + o end, drop (Z.to_nat o) d).

(** [inet_chksum] over [n] bytes in memory. *)
Definition chksum_at {P1 P2} (h : option (ptr * Z)) (n : Z) (s : store P1 P2) : res Z :=
  '(a, d) ← mem_from (areas s) h; inet_chksum a d n.

(** The sum over the header that [ip4_output_if_opt_src] computes as it fills it
    in. *)
Definition ip4_inline_chksum (ttl proto dest v_hl tos len id src : Z) : Z :=
  let chk_sum := 0 in
  let chk_sum := u32 (chk_sum + PP_NTOHS (Z.lor proto (Z.shiftl ttl 8))) in
  let chk_sum := u32 (chk_sum + Z.land dest 0xFFFF) in
  let chk_sum := u32 (chk_sum + Z.shiftr dest 16) in
  let chk_sum := u32 (chk_sum + PP_NTOHS (Z.lor tos (Z.shiftl v_hl 8))) in
  let chk_sum := u32 (chk_sum + len) in
  let chk_sum := u32 (chk_sum + id) in
  let chk_sum := u32 (chk_sum + Z.land src 0xFFFF) in
  let chk_sum := u32 (chk_sum + Z.shiftr src 16) in
  let chk_sum := u32 (Z.shiftr chk_sum 16 + Z.land chk_sum 0xFFFF) in
  let chk_sum := u32 (Z.shiftr chk_sum 16 + chk_sum) in
  let chk_sum := u32 (Z.lnot chk_sum) in
  u16 chk_sum.

(** [NETIF_FOREACH] of [ip4_route]. *)
Definition routes_to (dest : Z) (nif : netif) : bool :=
  netif_is_up nif && netif_is_link_up nif && negb (ip4_addr_isany (ip_addr nif)) &&
  (ip4_addr_net_eq dest (ip_addr nif) (netmask nif) ||
   (Z.land (netif_flags nif) NETIF_FLAG_BROADCAST =? 0) && (dest =? gw nif)).

Section Ip4.
Context {P1 P2 : Type} `{!PoolAlloc P1} `{!PoolAlloc P2} {X : Type} `{!LinkDriver X}.
Context {K : Type} {pn : Part K (net P1 P2 X)} {pi : Part K ip_mod}.
Implicit Type k : K.
Variable custom_free_function : ptr -> store P1 P2 -> res (store P1 P2).
Variable fresh_byte : nat -> Z.
(** [ip4_frag(p, netif, dest)] of ip4_frag.c. *)
Variable ip4_frag : ptr -> Z -> Z -> K -> res (K * Z).

Definition net_of k : net P1 P2 X := part k.
Definition ip_of k : ip_mod := part k.
Definition st_of k : store P1 P2 := packets (net_of k).
Definition set_net (n : net P1 P2 X) k : K := set_part n k.
Definition set_st (s : store P1 P2) k : K := set_net (set_packets s (net_of k)) k.
Definition update_ip (f : ip_mod -> ip_mod) k : K := set_part (f (ip_of k)) k.

(** An operation on the packets, in this state. *)
Definition on_packets {A} (f : store P1 P2 -> res (store P1 P2 * A)) k : res (K * A) :=
  '(s, a) ← f (st_of k); Ok (set_st s k, a).
Definition free_pbuf (p : ptr) k : res K :=
  n ← free_packet custom_free_function p (net_of k); Ok (set_net n k).

Fixpoint route_list (dest : Z) (l : list Z) (n : net P1 P2 X) : res (option Z) :=
  match l with
  | [] => Ok None
  | np :: l' => nif ← netif_at np n; if routes_to dest nif then Ok (Some np) else route_list dest l' n
  end.

Definition ip4_route (dest : Z) k : res (option Z) :=
  r ← route_list dest (netif_list (ip_of k)) (net_of k);
  match r with
  | Some np => Ok (Some np)
  | None =>
      match netif_default (ip_of k) with
      | None => Ok None
      | Some np =>
          nif ← netif_at np (net_of k);
          if negb (netif_is_up nif) || negb (netif_is_link_up nif) || ip4_addr_isany (ip_addr nif) || ip4_addr_isloopback dest
          then Ok None else Ok (Some np)
      end
  end.

(** The header in front of the data at [p], filled in. *)
Definition write_ip_hdr (p : ptr) (ttl proto dest tos len id src : Z) (s : store P1 P2) : res (store P1 P2) :=
  let v_hl := u8 (Z.lor (Z.shiftl 4 4) (IP_HLEN / 4)) in
  s ← hdr_write p ip_ttl [ttl] s;
  s ← hdr_write p ip_proto [proto] s;
  s ← hdr_write p ip_dest (le_bytes dest) s;
  s ← hdr_write p ip_v_hl [v_hl] s;
  s ← hdr_write p ip_tos [tos] s;
  s ← hdr_write16 p ip_len len s;
  s ← hdr_write16 p ip_offset 0 s;
  s ← hdr_write16 p ip_id_at id s;
  s ← hdr_write p ip_src (le_bytes src) s;
  hdr_write16 p ip_chksum (ip4_inline_chksum ttl proto dest v_hl tos len id src) s.

(** The packet with its header goes to the interface, whose [output] is
    [etharp_output]; in pieces if it is too long. *)
Definition ip4_send (p : ptr) (dest netif_p : Z) k : res (K * Z) :=
  b ← get p (st_of k);
  nif ← netif_at netif_p (net_of k);
  if negb (mtu nif =? 0) && (mtu nif <? tot_len b) then ip4_frag p netif_p dest k
  else in_part (N := net P1 P2 X) (etharp_output custom_free_function fresh_byte netif_p p dest) k.

(** The identification: short TCP packets have none. *)
Definition next_ip_id (proto tot_len : Z) (m : ip_mod) : Z * ip_mod :=
  if (proto =? IP_PROTO_TCP) && (tot_len <=? IP4_MIN_MTU_LENGTH) then (lwip_htons 0, m)
  else (lwip_htons (ip_id m), set_ip_id (u16 (ip_id m + 1)) m).

(** [dest] is [None] for LWIP_IP_HDRINCL, [src] for NULL. *)
Definition ip4_output_if_src (p : ptr) (src dest : option Z) (ttl tos proto netif_p : Z) k : res (K * Z) :=
  b ← get p (st_of k);
  _ ← lwip_assert "p->ref == 1" (ref b =? 1);
  match dest with
  | Some dest =>
      '(k, r) ← on_packets (pbuf_add_header (Some p) IP_HLEN) k;
      if negb (r =? 0) then Ok (k, ERR_BUF) else
      b ← get p (st_of k);
      _ ← lwip_assert "check that first pbuf can hold struct ip_hdr" (IP_HLEN <=? len b);
      let '(id, m) := next_ip_id proto (tot_len b) (ip_of k) in
      s ← write_ip_hdr p ttl proto dest tos (lwip_htons (tot_len b)) id (default IPADDR_ANY src) (st_of k);
      ip4_send p dest netif_p (update_ip (fun _ => m) (set_st s k))
  | None =>
      if len b <? IP_HLEN then Ok (k, ERR_BUF) else
      d ← hdr_read p ip_dest 4 (st_of k);
      dest ← get32 d 0;
      ip4_send p dest netif_p k
  end.

Definition ip4_output_if (p : ptr) (src dest : option Z) (ttl tos proto netif_p : Z) k : res (K * Z) :=
  nif ← netif_at netif_p (net_of k);
  let src_used := match dest with
                  | Some _ => if ip4_addr_isany (default IPADDR_ANY src) then Some (ip_addr nif) else src
                  | None => src
                  end in
  ip4_output_if_src p src_used dest ttl tos proto netif_p k.

Definition ip4_output (p : ptr) (src : option Z) (dest ttl tos proto : Z) k : res (K * Z) :=
  b ← get p (st_of k);
  _ ← lwip_assert "p->ref == 1" (ref b =? 1);
  r ← ip4_route dest k;
  match r with
  | None => Ok (k, ERR_RTE)
  | Some np => ip4_output_if p src (Some dest) ttl tos proto np k
  end.

End Ip4.
