(* ===== verification/Icmp.v ===== *)
(** * ICMP: src/src/lwip/core/ipv4/icmp.c

    The answer to an echo request, made in the packet of the request itself when
    it has room for the headers and in a copy when it has not, and the error
    messages about packets that nobody wants. *)

From stdpp Require Import gmultiset.
From S2P Require Import Prelude Strings Onescomp Def Chksum Ip4Addr Alloc Memp Mem Pbuf PbufRef PbufAlloc PbufStore Ethernet EthArp Ip4.

(** ** Definitions *)

Definition ICMP_ER : Z := 0.
Definition ICMP_DUR : Z := 3.
Definition ICMP_ECHO : Z := 8.
Definition ICMP_TE : Z := 11.
Definition ICMP_DUR_PROTO : Z := 2.
Definition ICMP_TTL : Z := 255.
Definition ICMP_DEST_UNREACH_DATASIZE : Z := 8.
Definition SIZEOF_ICMP_HDR : Z := 8.
Definition SIZEOF_ICMP_ECHO_HDR : Z := 8.
Definition PBUF_LINK_HLEN : Z := 14.
Definition PBUF_LINK_ENCAPSULATION_HLEN : Z := 0.
Definition PBUF_IP : Z := 34.

(** Offsets in struct icmp_hdr and struct icmp_echo_hdr. *)
Definition icmp_type : Z := 0.
Definition icmp_code : Z := 1.
Definition icmp_chksum : Z := 2.
Definition icmp_data : Z := 4.

(** The pbufs of a chain as [inet_chksum_pbuf] sees them. *)
Fixpoint chain_segs (fuel : nat) (ps : gmap ptr pbuf) (ar : gmap ptr (list Z)) (p : option ptr) : res (list seg) :=
  match p with
  | None => Ok []
  | Some p =>
      b ← deref ps p;
      '(a, d) ← mem_from ar (payload b);
      match fuel with
      | O => Err OutOfFuel
      | S fuel' => l ← chain_segs fuel' ps ar (next b); Ok (Seg a d (len b) :: l)
      end
  end.

Definition chksum_pbuf {P1 P2} (p : ptr) (s : store P1 P2) : res Z :=
  l ← chain_segs (chain_fuel (pbufs s)) (pbufs s) (areas s) (Some p); inet_chksum_pbuf l.

(** The checksum after the type went from ICMP_ECHO to 0. *)
Definition adjust_chksum (c : Z) : Z :=
  if PP_HTONS (0xffff - Z.shiftl ICMP_ECHO 8) <? c
  then u16 (c + PP_HTONS (u16 (Z.shiftl ICMP_ECHO 8)) + 1)
  else u16 (c + PP_HTONS (Z.shiftl ICMP_ECHO 8)).

(** The headers of the request [p] become those of the reply. *)
Definition make_reply {P1 P2} (p : ptr) (iecho iphdr : option (ptr * Z)) (src dest hlen : Z) (s : store P1 P2) : res (store P1 P2) :=
  s ← hdr_write p ip_src (le_bytes src) s;
  s ← hdr_write p ip_dest (le_bytes dest) s;
  s ← write_at iecho icmp_type [ICMP_ER] s;
  s ← modify p (with_if_idx NETIF_NO_INDEX) s;
  c ← read16_at iecho icmp_chksum s;
  s ← write16_at iecho icmp_chksum (adjust_chksum c) s;
  s ← hdr_write p ip_ttl [ICMP_TTL] s;
  s ← hdr_write16 p ip_chksum 0 s;
  c ← chksum_at iphdr hlen s;
  hdr_write16 p ip_chksum c s.

Section Icmp.
Context {P1 P2 : Type} `{!PoolAlloc P1} `{!PoolAlloc P2} {X : Type} `{!LinkDriver X}.
Context {K : Type} {pn : Part K (net P1 P2 X)} {pi : Part K ip_mod}.
Implicit Type k : K.
Variable custom_free_function : ptr -> store P1 P2 -> res (store P1 P2).
Variable fresh_byte : nat -> Z.
Variable ip4_frag : ptr -> Z -> Z -> K -> res (K * Z).

Notation free_pbuf := (free_pbuf custom_free_function).
Notation ip4_output_if := (ip4_output_if custom_free_function fresh_byte ip4_frag).

(** The copy of the request [p] in a new packet with room for the link header;
    [None] when it fails, and then [p] is freed ([icmperr]). *)
Definition icmp_copy (p : ptr) (hlen : Z) (iphdr_in : option (ptr * Z)) k : res (K * option ptr) :=
  b ← get p (st_of k);
  let alloc_len := u16 (tot_len b + hlen) in
  let icmperr k := k ← free_pbuf p k; Ok (k, None) in
  if alloc_len <? tot_len b then icmperr k else
  '(k, r) ← on_packets (pbuf_alloc custom_free_function fresh_byte PBUF_LINK alloc_len PBUF_RAM) k;
  match r with
  | None => icmperr k
  | Some r =>
      c ← get r (st_of k);
      if len c <? hlen + SIZEOF_ICMP_ECHO_HDR then k ← free_pbuf r k; icmperr k else
      h ← read_at iphdr_in 0 hlen (st_of k);
      s ← hdr_write r 0 h (st_of k);
      '(k, e) ← on_packets (pbuf_remove_header (Some r) hlen) (set_st s k);
      if negb (e =? 0) then Err (AssertFail "icmp_input: moving r->payload to icmp header failed") else
      '(k, e) ← on_packets (in_store (fun ps ar => pbuf_copy ps ar (Some r) (Some p))) k;
      if negb (e =? ERR_OK) then k ← free_pbuf r k; icmperr k else
      k ← free_pbuf p k;
      Ok (k, Some r)
  end.

(** The request becomes the reply, which is sent. *)
Definition icmp_reply (p : ptr) (inp src hlen : Z) k : res K :=
  b ← get p (st_of k);
  let iecho := payload b in
  '(k, e) ← on_packets (pbuf_add_header (Some p) hlen) k;
  if negb (e =? 0) then free_pbuf p k else
  b ← get p (st_of k);
  s ← make_reply p iecho (payload b) src (current_iphdr_src (ip_of k)) hlen (st_of k);
  '(k, _) ← ip4_output_if p (Some src) None ICMP_TTL 0 IP_PROTO_ICMP inp (set_st s k);
  free_pbuf p k.

(** [case ICMP_ECHO] *)
Definition icmp_echo (p : ptr) (inp hlen : Z) (iphdr_in : option (ptr * Z)) k : res K :=
  let src := current_iphdr_dest (ip_of k) in
  if ip4_addr_ismulticast src then free_pbuf p k else
  cur ← of_option BadPointer (current_netif (ip_of k));
  nif ← netif_at cur (net_of k);
  if ip4_addr_isbroadcast src nif then free_pbuf p k else
  b ← get p (st_of k);
  if tot_len b <? SIZEOF_ICMP_ECHO_HDR then free_pbuf p k else
  c ← chksum_pbuf p (st_of k);
  if negb (c =? 0) then free_pbuf p k else
  let n := hlen + PBUF_LINK_HLEN + PBUF_LINK_ENCAPSULATION_HLEN in
  '(k, e) ← on_packets (pbuf_add_header (Some p) n) k;
  '(k, r) ←
    (if negb (e =? 0) then icmp_copy p hlen iphdr_in k else
     '(k, e) ← on_packets (pbuf_remove_header (Some p) n) k;
     if negb (e =? 0) then Err (AssertFail "icmp_input: restoring original p->payload failed") else Ok (k, Some p));
  match r with
  | None => Ok k
  | Some p => icmp_reply p inp src hlen k
  end.

Definition icmp_input (p : ptr) (inp : Z) k : res K :=
  let iphdr_in := current_ip4_header (ip_of k) in
  v_hl ← read8_at iphdr_in ip_v_hl (st_of k);
  let hlen := IPH_HL_BYTES v_hl in
  if hlen <? IP_HLEN then free_pbuf p k else
  b ← get p (st_of k);
  if len b <? 4 then free_pbuf p k else
  type ← read8_at (payload b) icmp_type (st_of k);
  if type =? ICMP_ECHO then icmp_echo p inp hlen iphdr_in k
  else free_pbuf p k.

(** The message in [q] about the packet [p]: type, code, four zeros and the first
    [n] bytes of [p]. *)
Definition fill_message (q p : ptr) (icmphdr : option (ptr * Z)) (type code n : Z) k : res K :=
  s ← write_at icmphdr icmp_type [type] (st_of k);
  s ← write_at icmphdr icmp_code [code] s;
  s ← write_at icmphdr icmp_data [0; 0; 0; 0] s;
  '(k, _) ← on_packets (in_store (fun ps ar => pbuf_copy_partial_pbuf ps ar (Some q) (Some p) n SIZEOF_ICMP_HDR)) (set_st s k);
  Ok k.

(** The checksum, and the message goes out. *)
Definition send_message (q : ptr) (icmphdr : option (ptr * Z)) (dest np : Z) k : res K :=
  s ← write16_at icmphdr icmp_chksum 0 (st_of k);
  c ← get q s;
  v ← chksum_at icmphdr (len c) s;
  s ← write16_at icmphdr icmp_chksum v s;
  '(k, _) ← ip4_output_if q None (Some dest) ICMP_TTL 0 IP_PROTO_ICMP np (set_st s k);
  Ok k.

Definition icmp_send_response (p : ptr) (type code : Z) k : res K :=
  b ← get p (st_of k);
  let response_pkt_len := if tot_len b <? IP_HLEN + ICMP_DEST_UNREACH_DATASIZE then tot_len b else IP_HLEN + ICMP_DEST_UNREACH_DATASIZE in
  '(k, q) ← on_packets (pbuf_alloc custom_free_function fresh_byte PBUF_IP (SIZEOF_ICMP_HDR + response_pkt_len) PBUF_RAM) k;
  match q with
  | None => Ok k
  | Some q =>
      c ← get q (st_of k);
      _ ← lwip_assert "check that first pbuf can hold icmp message" (SIZEOF_ICMP_HDR + response_pkt_len <=? len c);
      b ← get p (st_of k);
      k ← fill_message q p (payload c) type code response_pkt_len k;
      iphdr_src ← read32_at (payload b) ip_src (st_of k);
      r ← ip4_route iphdr_src k;
      k ← match r with
          | Some np => send_message q (payload c) iphdr_src np k
          | None => Ok k
          end;
      free_pbuf q k
  end.

Definition icmp_dest_unreach (p : ptr) (t : Z) : K -> res K := icmp_send_response p ICMP_DUR t.
Definition icmp_time_exceeded (p : ptr) (t : Z) : K -> res K := icmp_send_response p ICMP_TE t.

End Icmp.
