(* ===== verification/Ip4Input.v ===== *)
(** * Receiving IPv4: src/src/lwip/core/ipv4/ip4.c

    Which datagrams are accepted, on which interface, and who gets them. *)

From stdpp Require Import gmultiset.
From S2P Require Import Prelude Strings Onescomp Def Chksum Ip4Addr Alloc Memp Mem Pbuf PbufRef PbufAlloc PbufStore Ethernet EthArp Ip4 Icmp.

(** ** Definitions *)

(** [ip4_input_accept] for a datagram to [dest]. *)
Definition ip4_input_accept (dest : Z) (nif : netif) : bool :=
  netif_is_up nif && negb (ip4_addr_isany (ip_addr nif)) &&
  ((dest =? ip_addr nif) || ip4_addr_isbroadcast dest nif).

Section Input.
Context {P1 P2 : Type} `{!PoolAlloc P1} `{!PoolAlloc P2} {X : Type} `{!LinkDriver X}.
Context {K : Type} {pn : Part K (net P1 P2 X)} {pi : Part K ip_mod}.
Implicit Type k : K.
Variable custom_free_function : ptr -> store P1 P2 -> res (store P1 P2).
Variable fresh_byte : nat -> Z.
(** [ip4_frag] and [ip4_reass] of ip4_frag.c, [udp_input] and [tcp_input]. *)
Variable ip4_frag : ptr -> Z -> Z -> K -> res (K * Z).
Variable ip4_reass : ptr -> K -> res (K * option ptr).
Variable udp_input tcp_input : ptr -> Z -> K -> res K.

Notation free_pbuf := (free_pbuf custom_free_function).

(** [NETIF_FOREACH] of [ip4_input]: another interface than [inp]. *)
Fixpoint find_accepting (dest inp : Z) (l : list Z) (n : net P1 P2 X) : res (option Z) :=
  match l with
  | [] => Ok None
  | np :: l' =>
      if np =? inp then find_accepting dest inp l' n else
      nif ← netif_at np n;
      if ip4_input_accept dest nif then Ok (Some np) else find_accepting dest inp l' n
  end.

(** The interface a datagram to [dest] that arrives on [inp] is for. *)
Definition match_netif (dest inp : Z) k : res (option Z) :=
  nif ← netif_at inp (net_of k);
  if ip4_addr_ismulticast dest then
    Ok (if netif_is_up nif && negb (ip4_addr_isany (ip_addr nif)) then Some inp else None)
  else if ip4_input_accept dest nif then Ok (Some inp)
  else if ip4_addr_isloopback dest then Ok None
  else find_accepting dest inp (netif_list (ip_of k)) (net_of k).

(** DHCP messages are for us whatever their address: the interface, and whether
    the source is checked. *)
Definition accept_dhcp (netif : option Z) (inp : Z) (iphdr : option (ptr * Z)) (iphdr_hlen : Z) (s : store P1 P2) : res (option Z * bool) :=
  match netif with
  | Some _ => Ok (netif, true)
  | None =>
      proto ← read8_at iphdr ip_proto s;
      if proto =? IP_PROTO_UDP then
        port ← read16_at iphdr (iphdr_hlen + 2) s;
        Ok (if port =? PP_NTOHS LWIP_IANA_PORT_DHCP_CLIENT then (Some inp, false) else (None, true))
      else Ok (None, true)
  end.

(** Dropping the datagram: [ip4_input] always returns ERR_OK. *)
Definition drop_datagram (p : ptr) k : res (K * Z) := k ← free_pbuf p k; Ok (k, ERR_OK).

(** [default:] of the switch over the protocol. *)
Definition unknown_proto (p : ptr) (netif_p iphdr_hlen : Z) k : res K :=
  nif ← netif_at netif_p (net_of k);
  let dest := current_iphdr_dest (ip_of k) in
  k ← (if negb (ip4_addr_isbroadcast dest nif) && negb (ip4_addr_ismulticast dest) then
         '(k, _) ← on_packets (pbuf_header_force (Some p) iphdr_hlen) k;
         icmp_dest_unreach custom_free_function fresh_byte ip4_frag p ICMP_DUR_PROTO k
       else Ok k);
  free_pbuf p k.

(** The switch over the protocol. *)
Definition dispatch (proto : Z) (p : ptr) (netif_p inp iphdr_hlen : Z) k : res K :=
  if proto =? IP_PROTO_UDP then udp_input p inp k
  else if proto =? IP_PROTO_TCP then tcp_input p inp k
  else if proto =? IP_PROTO_ICMP then icmp_input custom_free_function fresh_byte ip4_frag p inp k
  else unknown_proto p netif_p iphdr_hlen k.

(** The packet is not processed any more. *)
Definition forget_current : K -> K :=
  update_ip (fun m => set_current_addrs IPADDR_ANY IPADDR_ANY (set_current None None None 0 m)).

(** The datagram, complete, to its protocol. *)
Definition deliver (p : ptr) (netif_p inp : Z) (iphdr : option (ptr * Z)) (iphdr_hlen : Z) k : res (K * Z) :=
  v_hl ← read8_at iphdr ip_v_hl (st_of k);
  let k := update_ip (set_current (Some netif_p) (Some inp) iphdr (IPH_HL_BYTES v_hl)) k in
  '(k, _) ← on_packets (pbuf_remove_header (Some p) iphdr_hlen) k;
  proto ← read8_at iphdr ip_proto (st_of k);
  k ← dispatch proto p netif_p inp iphdr_hlen k;
  Ok (forget_current k, ERR_OK).

(** From the accepted datagram on. *)
Definition input_accepted (p : ptr) (netif_p inp : Z) (iphdr : option (ptr * Z)) (iphdr_hlen : Z) k : res (K * Z) :=
  offset ← read16_at iphdr ip_offset (st_of k);
  if negb (Z.land offset (PP_HTONS (Z.lor IP_OFFMASK IP_MF)) =? 0) then
    '(k, r) ← ip4_reass p k;
    match r with
    | None => Ok (k, ERR_OK)
    | Some p => b ← get p (st_of k); deliver p netif_p inp (payload b) iphdr_hlen k
    end
  else deliver p netif_p inp iphdr iphdr_hlen k.

(** From the verified header on. *)
Definition input_verified (p : ptr) (inp : Z) (iphdr : option (ptr * Z)) (iphdr_hlen : Z) k : res (K * Z) :=
  dest ← read32_at iphdr ip_dest (st_of k);
  src ← read32_at iphdr ip_src (st_of k);
  let k := update_ip (set_current_addrs src dest) k in
  netif ← match_netif dest inp k;
  '(netif, check_ip_src) ← accept_dhcp netif inp iphdr iphdr_hlen (st_of k);
  nif ← netif_at inp (net_of k);
  if check_ip_src && negb (ip4_addr_isany src) && (ip4_addr_isbroadcast src nif || ip4_addr_ismulticast src)
  then drop_datagram p k else
  match netif with
  | None => drop_datagram p k
  | Some np => input_accepted p np inp iphdr iphdr_hlen k
  end.

Definition ip4_input (p : ptr) (inp : Z) k : res (K * Z) :=
  b ← get p (st_of k);
  let iphdr := payload b in
  v_hl ← read8_at iphdr ip_v_hl (st_of k);
  if negb (IPH_V v_hl =? 4) then drop_datagram p k else
  let iphdr_hlen := IPH_HL_BYTES v_hl in
  len16 ← read16_at iphdr ip_len (st_of k);
  let iphdr_len := lwip_htons len16 in
  s ← (if iphdr_len <? tot_len b then pbuf_realloc custom_free_function (Some p) iphdr_len (st_of k) else Ok (st_of k));
  let k := set_st s k in
  b ← get p (st_of k);
  if (len b <? iphdr_hlen) || (tot_len b <? iphdr_len) || (iphdr_hlen <? IP_HLEN) then drop_datagram p k else
  c ← chksum_at iphdr iphdr_hlen (st_of k);
  if negb (c =? 0) then drop_datagram p k else
  input_verified p inp iphdr iphdr_hlen k.

End Input.
