(* ===== verification/HeadMem.v ===== *)
(** * The memory of a packet's head

    A protocol keeps a pointer into the first pbuf of a packet and reads and
    writes its header through it, while the payload pointer of the pbuf moves:
    the bytes behind such a pointer, and what a write does to the packets. *)

From stdpp Require Import gmultiset.
From S2P Require Import Prelude Strings Onescomp Def Alloc Memp Mem Pbuf PbufRef PbufAlloc PbufStore Ethernet EthArp Ip4.

(** ** Definitions *)

(** The bytes at an offset, as a number of 8, 16 or 32 bits. *)
Definition byte_at (d : list Z) (i : Z) : Z := nth (Z.to_nat i) d 0.
Definition word_at (d : list Z) (i : Z) : Z := byte_at d i + 256 * byte_at d (i + 1).
Definition long_at (d : list Z) (i : Z) : Z := word_at d i + 65536 * word_at d (i + 2).

(** Other contents for the memory of [p]. *)
Definition set_mem {P1 P2} (p : ptr) (d : list Z) (s : store P1 P2) : store P1 P2 := set_areas (<[p := d]> (areas s)) s.

(** ** Lemmas *)

Lemma byte_at_lookup d i : 0 <= i < length d -> d !! Z.to_nat i = Some (byte_at d i).
Proof.
  intros Hi. destruct (lookup_lt_is_Some_2 d (Z.to_nat i)) as [x Hx]; [lia|]. unfold byte_at. by rewrite (nth_lookup_Some _ _ _ _ Hx).
Qed.

Lemma byte_at_u8 d i : bytes_ok d -> is_u8 (byte_at d i).
Proof.
  intros Hd. unfold byte_at. rewrite nth_lookup. destruct (d !! Z.to_nat i) as [x|] eqn:Hx; cbn [default]; [|by unfold is_u8].
  by apply (Forall_lookup_1 _ _ _ _ Hd Hx).
Qed.

Lemma word_at_u16 d i : bytes_ok d -> is_u16 (word_at d i).
Proof. intros Hd. pose proof (byte_at_u8 d i Hd). pose proof (byte_at_u8 d (i + 1) Hd). unfold word_at. solve_u. Qed.

Lemma long_at_u32 d i : bytes_ok d -> is_u32 (long_at d i).
Proof. intros Hd. pose proof (word_at_u16 d i Hd). pose proof (word_at_u16 d (i + 2) Hd). unfold long_at. solve_u. Qed.

Lemma byte_at_window d o n i : 0 <= o -> 0 <= i < n -> byte_at (window d o n) i = byte_at d (o + i).
Proof. intros Ho Hi. unfold byte_at. rewrite !nth_lookup, window_lookup by lia. do 3 f_equal. lia. Qed.

Lemma word_at_window d o n i : 0 <= o -> 0 <= i -> i + 2 <= n -> word_at (window d o n) i = word_at d (o + i).
Proof. intros Ho Hi Hn. unfold word_at. rewrite !byte_at_window by lia. do 3 f_equal; lia. Qed.

Lemma long_at_window d o n i : 0 <= o -> 0 <= i -> i + 4 <= n -> long_at (window d o n) i = long_at d (o + i).
Proof. intros Ho Hi Hn. unfold long_at. rewrite !word_at_window by lia. do 3 f_equal; lia. Qed.

Lemma buf_get_at d i : 0 <= i < length d -> buf_get d i = Ok (byte_at d i).
Proof. intros Hi. unfold buf_get. destruct (Z.leb_spec 0 i); [|lia]. by rewrite byte_at_lookup. Qed.

Lemma get16_at d i : 0 <= i -> i + 2 <= length d -> get16 d i = Ok (word_at d i).
Proof. intros Hi Hl. unfold get16. rewrite !buf_get_at, !bind_ok by lia. done. Qed.

Lemma get32_at d i : 0 <= i -> i + 4 <= length d -> get32 d i = Ok (long_at d i).
Proof. intros Hi Hl. unfold get32. rewrite !get16_at, !bind_ok by lia. done. Qed.

Lemma list_inserts_nil_id (d : list Z) i : list_inserts i [] d = d.
Proof. done. Qed.

Section HeadMem.
Context {P1 P2 : Type} `{!PoolAlloc P1} `{!PoolAlloc P2}.
Implicit Type s : store P1 P2.
#[local] Set Default Proof Using "Type*".

(** *** Reading and writing at a pointer *)

Lemma read_at_ok s p d o off n : areas s !! p = Some d -> 0 <= o + off -> 0 <= n -> o + off + n <= length d ->
  read_at (Some (p, o)) off n s = Ok (window d (o + off) n).
Proof using Type. apply area_read_intro. Qed.

Lemma read8_at_ok s p d o off : areas s !! p = Some d -> 0 <= o + off -> o + off + 1 <= length d ->
  read8_at (Some (p, o)) off s = Ok (byte_at d (o + off)).
Proof using Type.
  intros Ha Ho Hl. unfold read8_at. rewrite (read_at_ok s p d), bind_ok by (done || lia).
  rewrite buf_get_at by (rewrite window_length by lia; lia). rewrite byte_at_window by lia. do 2 f_equal. lia.
Qed.

Lemma read16_at_ok s p d o off : areas s !! p = Some d -> 0 <= o + off -> o + off + 2 <= length d ->
  read16_at (Some (p, o)) off s = Ok (word_at d (o + off)).
Proof using Type.
  intros Ha Ho Hl. unfold read16_at. rewrite (read_at_ok s p d), bind_ok by (done || lia).
  rewrite get16_at by (rewrite ?window_length by lia; lia). rewrite word_at_window by lia. do 2 f_equal. lia.
Qed.

Lemma read32_at_ok s p d o off : areas s !! p = Some d -> 0 <= o + off -> o + off + 4 <= length d ->
  read32_at (Some (p, o)) off s = Ok (long_at d (o + off)).
Proof using Type.
  intros Ha Ho Hl. unfold read32_at. rewrite (read_at_ok s p d), bind_ok by (done || lia).
  rewrite get32_at by (rewrite ?window_length by lia; lia). rewrite long_at_window by lia. do 2 f_equal. lia.
Qed.

(** A write through a pointer into the head is a write behind its payload. *)
Lemma write_at_hdr s p b o o' off src : pbufs s !! p = Some b -> payload b = Some (p, o) ->
  write_at (Some (p, o')) off src s = hdr_write p (o' - o + off) src s.
Proof using Type.
  intros Hb Hp. unfold write_at, hdr_write. rewrite (get_some _ _ _ Hb), bind_ok, Hp.
  assert (area_write (areas s) (Some (p, o')) off src = area_write (areas s) (Some (p, o)) (o' - o + off) src) as ->; [|done].
  unfold area_write. destruct src; [done|]. cbn [of_option]. rewrite !bind_ok. by replace (o + (o' - o + off)) with (o' + off) by lia.
Qed.

Lemma read_at_hdr s p b o o' off n : pbufs s !! p = Some b -> payload b = Some (p, o) ->
  read_at (Some (p, o')) off n s = hdr_read p (o' - o + off) n s.
Proof using Type.
  intros Hb Hp. unfold read_at, hdr_read. rewrite (get_some _ _ _ Hb), bind_ok, Hp.
  unfold area_read. destruct (n =? 0); [done|]. cbn [of_option]. rewrite !bind_ok. by replace (o + (o' - o + off)) with (o' + off) by lia.
Qed.

(** Reading inside of the first pbuf. *)
Lemma hdr_read_ok s E p b off k : store_ok s E -> pbufs s !! p = Some b -> 0 <= off -> 0 <= k -> off + k <= len b ->
  hdr_read p off k s = Ok (window (payload_data (areas s) b) off k).
Proof.
  intros Hs Hb H1 H2 H3. unfold hdr_read. rewrite (get_some _ _ _ Hb), bind_ok.
  pose proof (payload_ok_read _ _ _ (so_payload _ _ Hs p b Hb)) as Hr. apply area_read_payload in Hr.
  by apply (area_read_sub _ _ _ _ off k Hr).
Qed.

Lemma head_data_length s E p b : store_ok s E -> pbufs s !! p = Some b -> length (payload_data (areas s) b) = len b :> Z.
Proof.
  intros Hs Hb. pose proof (payload_ok_read _ _ _ (so_payload _ _ Hs p b Hb)) as Hr. apply area_read_payload in Hr.
  destruct (head_bounds s E p b Hs Hb). apply area_read_length in Hr; lia.
Qed.

Lemma head_data_bytes s E p b : store_ok s E -> pbufs s !! p = Some b -> bytes_ok (payload_data (areas s) b).
Proof.
  intros Hs Hb. pose proof (payload_ok_read _ _ _ (so_payload _ _ Hs p b Hb)) as Hr. apply area_read_payload in Hr.
  by apply (area_read_bytes _ _ _ _ _ (so_bytes _ _ Hs) Hr).
Qed.

Lemma hdr_write_pbufs p off src s s' : hdr_write p off src s = Ok s' -> pbufs s' = pbufs s.
Proof using Type. unfold hdr_write. intros (b & _ & (ar & _ & [= <-])%bind_inv)%bind_inv. done. Qed.

(** A number in the header, through a pointer. *)
Lemma head_read16 s E p b o o' off : store_ok s E -> pbufs s !! p = Some b -> payload b = Some (p, o) ->
  0 <= o' - o + off -> o' - o + off + 2 <= len b ->
  read16_at (Some (p, o')) off s = Ok (word_at (payload_data (areas s) b) (o' - o + off)).
Proof.
  intros Hs Hb Hp H1 H2. unfold read16_at. rewrite (read_at_hdr s p b o) by done. rewrite (hdr_read_ok s E p b) by (done || lia).
  rewrite bind_ok. pose proof (head_data_length s E p b Hs Hb). rewrite get16_at by (rewrite ?window_length; lia).
  rewrite word_at_window by lia. do 2 f_equal. lia.
Qed.

End HeadMem.
