(* ===== verification/Ip4Ops.v ===== *)
(** * The operations of IPv4 on a well-formed state

    The header as bytes and its checksum, the class of a state that contains the
    IPv4 module, routing, and what the output functions do to the packet and to
    the wire. *)

From stdpp Require Import gmultiset.
From S2P Require Import Prelude Strings Onescomp Def Chksum Ip4Addr Alloc Memp Mem Pbuf PbufRef PbufAlloc PbufStore PbufPool PbufTrim Ethernet EthArp EthArpOps EthArpOut LwipPort ArpSpec EthInput Ip4 HeadMem.

(** ** Specifications *)

(** A header without options, RFC 791; [chk] is the checksum as it is stored. *)
Definition ip_header (tos len id ttl proto chk src dest : Z) : list Z :=
  [0x45; tos; len / 256; len mod 256; id / 256; id mod 256; 0; 0; ttl; proto; chk mod 256; chk / 256] ++ le_bytes src ++ le_bytes dest.

(** The checksum of a header: the complement of the sum of the rest. *)
Definition ip_header_chksum (tos len id ttl proto src dest : Z) : Z :=
  65535 - oc (wsum (ip_header tos len id ttl proto 0 src dest)).

(** The header as [ip4_output_if] sends it. *)
Definition sent_header (tos len id ttl proto src dest : Z) : list Z :=
  ip_header tos len id ttl proto (ip_header_chksum tos len id ttl proto src dest) src dest.

(** ** Lemmas *)

(** *** The header *)

Lemma ip_header_length tos len id ttl proto chk src dest : length (ip_header tos len id ttl proto chk src dest) = 20%nat.
Proof. done. Qed.

Lemma ip_header_bytes tos len id ttl proto chk src dest : is_u8 tos -> is_u16 len -> is_u16 id -> is_u8 ttl -> is_u8 proto -> is_u16 chk ->
  is_u32 src -> is_u32 dest -> bytes_ok (ip_header tos len id ttl proto chk src dest).
Proof.
  intros. apply Forall_app. split; [repeat constructor; solve_u|]. apply Forall_app. split; by apply le_bytes_ok.
Qed.

Lemma wsum_le_bytes a rest : wsum (le_bytes a ++ rest) = a mod 256 + 256 * (a / 256 mod 256) + (a / 65536 mod 256 + 256 * (a / 16777216)) + wsum rest.
Proof. change (wsum (le_bytes a ++ rest)) with (a mod 256 + 256 * (a / 256 mod 256) + (a / 65536 mod 256 + 256 * (a / 16777216) + wsum rest)). lia. Qed.

Lemma wsum_header tos len id ttl proto chk src dest :
  wsum (ip_header tos len id ttl proto chk src dest) =
  0x45 + 256 * tos + (len / 256 + 256 * (len mod 256)) + (id / 256 + 256 * (id mod 256)) + (ttl + 256 * proto) + (chk mod 256 + 256 * (chk / 256)) +
  (src mod 256 + 256 * (src / 256 mod 256) + (src / 65536 mod 256 + 256 * (src / 16777216))) +
  (dest mod 256 + 256 * (dest / 256 mod 256) + (dest / 65536 mod 256 + 256 * (dest / 16777216))).
Proof. unfold ip_header, le_bytes. cbn [app wsum]. ring. Qed.

(** The sum of a header splits off the checksum. *)
Lemma wsum_header_chk tos len id ttl proto chk src dest : is_u16 chk ->
  wsum (ip_header tos len id ttl proto chk src dest) = wsum (ip_header tos len id ttl proto 0 src dest) + chk.
Proof. intros Hc. rewrite !wsum_header. change (0 mod 256 + 256 * (0 / 256)) with 0. rewrite (Z.div_mod chk 256) at 3 by lia. ring. Qed.

Lemma le_word a : is_u32 a -> a mod 256 + 256 * (a / 256 mod 256) + (a / 65536 mod 256 + 256 * (a / 16777216)) = a mod 65536 + a / 65536.
Proof. solve_u. Qed.

Lemma swap_bytes_or lo hi : is_u8 lo -> is_u8 hi -> PP_NTOHS (Z.lor lo (Z.shiftl hi 8)) = hi + 256 * lo.
Proof.
  intros Hl Hh. unfold PP_NTOHS. rewrite shiftl_8, lor_8 by done. rewrite pp_htons_swap by solve_u. unfold swap16. solve_u.
Qed.

(** The last three lines of the sum. *)
Lemma fold_complement S : 0 <= S < 16 * 65536 ->
  u16 (u32 (Z.lnot (u32 (Z.shiftr (u32 (Z.shiftr S 16 + Z.land S 0xFFFF)) 16 + u32 (Z.shiftr S 16 + Z.land S 0xFFFF))))) = 65535 - oc S.
Proof.
  intros HS. change 0xFFFF with 65535. rewrite !shiftr_16, land_65535. rewrite <- fold16_twice by lia. unfold fold16.
  rewrite (u32_id (S / 65536 + S mod 65536)) by solve_u. set (t := S / 65536 + S mod 65536). assert (0 <= t <= 65551) by (unfold t; lia).
  rewrite (u32_id (t / 65536 + t)) by solve_u. unfold Z.lnot. solve_u.
Qed.

Lemma sum_words a b c d e f g h : is_u16 a -> is_u16 b -> is_u16 c -> is_u16 d -> is_u16 e -> is_u16 f -> is_u16 g -> is_u16 h ->
  u32 (u32 (u32 (u32 (u32 (u32 (u32 (u32 (0 + a) + b) + c) + d) + e) + f) + g) + h) = a + b + c + d + e + f + g + h.
Proof.
  unfold is_u16. intros. rewrite (u32_id (0 + a)), (u32_id (0 + a + b)), (u32_id (0 + a + b + c)), (u32_id (0 + a + b + c + d)), (u32_id (0 + a + b + c + d + e)), (u32_id (0 + a + b + c + d + e + f)), (u32_id (0 + a + b + c + d + e + f + g)), (u32_id (0 + a + b + c + d + e + f + g + h)) by (unfold is_u32; lia). lia.
Qed.

(** The checksum computed on the fly is the one of the header. *)
Lemma inline_chksum_ok tos len id ttl proto src dest : is_u8 tos -> is_u16 len -> is_u16 id -> is_u8 ttl -> is_u8 proto -> is_u32 src -> is_u32 dest ->
  ip4_inline_chksum ttl proto dest 0x45 tos (lwip_htons len) (lwip_htons id) src = ip_header_chksum tos len id ttl proto src dest.
Proof.
  intros Ht Hl Hi Htt Hp Hs Hd. unfold ip4_inline_chksum, ip_header_chksum. cbv zeta. change 0xFFFF with 65535.
  rewrite !swap_bytes_or by (done || solve_u). unfold lwip_htons. rewrite !pp_htons_swap by done.
  rewrite (land_65535 dest), (land_65535 src), (shiftr_16 dest), (shiftr_16 src).
  rewrite sum_words by (unfold swap16; solve_u). unfold swap16.
  set (S := ttl + 256 * proto + dest mod 65536 + dest / 65536 + (69 + 256 * tos) + (len mod 256 * 256 + len / 256) +
    (id mod 256 * 256 + id / 256) + src mod 65536 + src / 65536).
  assert (HS : S = wsum (ip_header tos len id ttl proto 0 src dest)).
  { rewrite wsum_header, !le_word by done. change (0 mod 256 + 256 * (0 / 256)) with 0. unfold S. ring. }
  assert (0 <= S < 16 * 65536) by (unfold S; solve_u).
  change (Z.land S 65535) with (Z.land S 0xFFFF). rewrite <- HS. apply fold_complement. lia.
Qed.

(** A header with its checksum verifies. *)
Lemma sent_header_verifies addr tos len id ttl proto src dest rest : is_u8 tos -> is_u16 len -> is_u16 id -> is_u8 ttl -> is_u8 proto -> is_u32 src -> is_u32 dest ->
  inet_chksum addr (sent_header tos len id ttl proto src dest ++ rest) IP_HLEN = Ok 0.
Proof.
  intros Ht Hl Hi Htt Hp Hs Hd. unfold sent_header. set (c := ip_header_chksum _ _ _ _ _ _ _).
  pose proof (oc_range (wsum (ip_header tos len id ttl proto 0 src dest))) as Hr.
  assert (Hc : is_u16 c) by (unfold c, ip_header_chksum; solve_u).
  assert (Hb0 : bytes_ok (ip_header tos len id ttl proto 0 src dest)) by (apply ip_header_bytes; (done || solve_u)).
  pose proof (wsum_nonneg _ Hb0) as H0.
  assert (Hb : bytes_ok (ip_header tos len id ttl proto c src dest)) by (by apply ip_header_bytes).
  unfold inet_chksum. change IP_HLEN with (Z.of_nat (length (ip_header tos len id ttl proto c src dest))).
  rewrite lwip_chksum_data, bind_ok by (done || rewrite ip_header_length; lia). rewrite wsum_header_chk by done.
  unfold c, ip_header_chksum. by rewrite oc_complement by lia.
Qed.

(** *** Filling in the header *)

Lemma ip_header_written (d : list Z) tos ttl proto l1 l2 i1 i2 c1 c2 src dest : (20 <= length d)%nat ->
  written [(ip_ttl, [ttl]); (ip_proto, [proto]); (ip_dest, le_bytes dest); (ip_v_hl, [0x45]); (ip_tos, [tos]); (ip_len, [l1; l2]);
           (ip_offset, [0; 0]); (ip_id_at, [i1; i2]); (ip_src, le_bytes src); (ip_chksum, [c1; c2])] d
  = ([0x45; tos; l1; l2; i1; i2; 0; 0; ttl; proto; c1; c2] ++ le_bytes src ++ le_bytes dest) ++ drop 20 d.
Proof.
  intros Hd. unfold written, le_bytes. cbn [foldl fst snd].
  change (Z.to_nat ip_ttl) with 8%nat. change (Z.to_nat ip_proto) with 9%nat. change (Z.to_nat ip_dest) with 16%nat.
  change (Z.to_nat ip_v_hl) with 0%nat. change (Z.to_nat ip_tos) with 1%nat. change (Z.to_nat ip_len) with 2%nat.
  change (Z.to_nat ip_offset) with 6%nat. change (Z.to_nat ip_id_at) with 4%nat. change (Z.to_nat ip_src) with 12%nat.
  change (Z.to_nat ip_chksum) with 10%nat.
  do 20 (destruct d as [|? d]; [cbn in Hd; lia|]). done.
Qed.

Section Header.
Context {P1 P2 : Type} `{!PoolAlloc P1} `{!PoolAlloc P2}.
Implicit Type s : store P1 P2.
#[local] Set Default Proof Using "Type*".

Lemma write_ip_hdr_ok s E p b l ttl proto dest tos n id src : store_ok s E -> packet (pbufs s) (areas s) p ((p, b) :: l) -> is_head s p ->
  (exists o, payload b = Some (p, o)) -> IP_HLEN <= len b ->
  is_u8 tos -> is_u16 n -> is_u16 id -> is_u8 ttl -> is_u8 proto -> is_u32 src -> is_u32 dest ->
  exists s', write_ip_hdr p ttl proto dest tos (lwip_htons n) (lwip_htons id) src s = Ok s' /\ store_ok s' E /\ pbufs s' = pbufs s /\
    packet (pbufs s') (areas s') p ((p, b) :: l) /\
    chain_data (areas s') ((p, b) :: l) = sent_header tos n id ttl proto src dest ++ drop 20 (chain_data (areas s) ((p, b) :: l)) /\
    (forall y, y <> p -> same_packet s s' y).
Proof.
  intros Hs Hp Hh Hown Hlen Ht Hn Hi Htt Hpr Hsrc Hdst. pose proof (packet_lookup _ _ _ _ Hp) as Hb. unfold IP_HLEN in Hlen.
  set (c := ip_header_chksum tos n id ttl proto src dest).
  assert (Hc : is_u16 c). { pose proof (oc_range (wsum (ip_header tos n id ttl proto 0 src dest))). unfold c, ip_header_chksum. solve_u. }
  destruct (hdr_writes_ok E p b [(ip_ttl, [ttl]); (ip_proto, [proto]); (ip_dest, le_bytes dest); (ip_v_hl, [0x45]); (ip_tos, [tos]);
     (ip_len, [n / 256; n mod 256]); (ip_offset, [0; 0]); (ip_id_at, [id / 256; id mod 256]); (ip_src, le_bytes src);
     (ip_chksum, [c mod 256; c / 256])] s Hs Hb Hh Hown) as (s' & Ew & Hs' & Eps & Hd & Hoth & Hpk).
  { unfold ip_ttl, ip_proto, ip_dest, ip_v_hl, ip_tos, ip_len, ip_offset, ip_id_at, ip_src, ip_chksum.
    repeat constructor; cbn [fst snd length le_bytes]; (done || solve_u || lia). }
  exists s'. split; [|split; [done|]; split; [done|]; split; [by apply Hpk|]; split; [|by intros y Hy; apply Hoth]].
  - unfold write_ip_hdr, hdr_write16. cbv zeta. rewrite !eth_type_bytes by done.
    change (u8 (Z.lor (Z.shiftl 4 4) (IP_HLEN / 4))) with 0x45. rewrite inline_chksum_ok by done. fold c.
    change [u8 0; u8 (0 / 256)] with [0; 0]. rewrite (u8_id (c / 256)) by solve_u.
    replace (u8 c) with (c mod 256) by done. cbn [hdr_writes] in Ew.
    do 9 (let Ei := fresh "Ei" in apply bind_inv in Ew as (? & Ei & Ew); rewrite Ei, bind_ok).
    by apply bind_inv in Ew as (? & -> & [= ->]).
  - rewrite !chain_data_cons, Hd. destruct (Hpk l Hp) as [_ ->].
    pose proof (head_data_length s E p b Hs Hb) as Hl. rewrite ip_header_written by lia.
    rewrite drop_app_le by lia. rewrite <- app_assoc. done.
Qed.

End Header.

(** *** Routing *)

(** The default interface may be used for [dest]. *)
Definition usable (nif : netif) (dest : Z) : bool :=
  netif_is_up nif && netif_is_link_up nif && negb (ip4_addr_isany (ip_addr nif)) && negb (ip4_addr_isloopback dest).

(** No interface of the list is connected to the network of [dest]. *)
Definition unconnected (nets : gmap Z netif) (l : list Z) (dest : Z) : Prop :=
  forall np nif, np ∈ l -> nets !! np = Some nif -> routes_to dest nif = false.

(** The route: the first connected interface of the list, or the default one. *)
Inductive routed (nets : gmap Z netif) (m : ip_mod) (dest : Z) : option Z -> Prop :=
  | RouteDirect l np l' nif : netif_list m = l ++ np :: l' -> unconnected nets l dest -> nets !! np = Some nif -> routes_to dest nif = true ->
      routed nets m dest (Some np)
  | RouteDefault np nif : unconnected nets (netif_list m) dest -> netif_default m = Some np -> nets !! np = Some nif -> usable nif dest = true ->
      routed nets m dest (Some np)
  | RouteNone : unconnected nets (netif_list m) dest ->
      (forall np nif, netif_default m = Some np -> nets !! np = Some nif -> usable nif dest = false) -> routed nets m dest None.

Lemma routed_some nets m dest np : routed nets m dest (Some np) -> exists nif, nets !! np = Some nif.
Proof. inversion 1; by eexists. Qed.

Section Routing.
Context {P1 P2 X : Type}.
Implicit Type n : net P1 P2 X.

Lemma route_list_ok n dest l : Forall (fun np => is_Some (netifs n !! np)) l ->
  exists r, route_list dest l n = Ok r /\
    match r with
    | Some np => exists l1 l2 nif, l = l1 ++ np :: l2 /\ unconnected (netifs n) l1 dest /\ netifs n !! np = Some nif /\ routes_to dest nif = true
    | None => unconnected (netifs n) l dest
    end.
Proof.
  induction 1 as [|np l [nif Hnp] Hl IH]; [exists None; split; [done|]; by intros np nif ?%elem_of_nil|]. cbn [route_list].
  rewrite (netif_at_some _ _ _ Hnp), bind_ok. destruct (routes_to dest nif) eqn:Er.
  - exists (Some np). split; [done|]. exists [], l, nif. split_and!; try done. by intros ? ? ?%elem_of_nil.
  - assert (Hun : forall l', unconnected (netifs n) l' dest -> unconnected (netifs n) (np :: l') dest).
    { intros l' Hl' x y [->|Hx]%elem_of_cons Hy; [congruence | by apply (Hl' x)]. }
    destruct IH as (r & -> & Hr). exists r. split; [done|]. destruct r as [np'|]; [|by apply Hun].
    destruct Hr as (l1 & l2 & nif' & -> & H1 & H2 & H3). exists (np :: l1), l2, nif'. split_and!; try done. by apply Hun.
Qed.

End Routing.

(** *** The whole state *)

(** What the module's state promises: the interfaces of the list exist, and the
    fields have their widths. *)
Record ip_wf (nets : gmap Z netif) (m : ip_mod) : Prop := IpWf
  { iw_list : Forall (fun np => is_Some (nets !! np)) (netif_list m);
    iw_default : forall np, netif_default m = Some np -> is_Some (nets !! np);
    iw_id : is_u16 (ip_id m);
    iw_src : is_u32 (current_iphdr_src m);
    iw_dest : is_u32 (current_iphdr_dest m) }.

(** A state that contains the ARP module and IPv4: they do not overlap, and the
    invariant of the whole covers IPv4. *)
Class IpUser (P1 P2 X K : Type) `{!PoolAlloc P1} `{!PoolAlloc P2} `{!LinkDriver X} {pn : Part K (net P1 P2 X)} {pi : Part K ip_mod}
    {U : ArpUser P1 P2 X K} : Prop :=
  { ip_apart : Apart pn pi;
    ip_user_wf : forall k E, user_inv k E -> ip_wf (netifs (net_of k)) (ip_of k);
    ip_user_set : forall k E m, user_inv k E -> ip_wf (netifs (net_of k)) m -> user_inv (@set_part K ip_mod pi m k) E }.

(** The packet fits the interface. *)
Definition fits (nif : netif) (n : Z) : bool := (mtu nif =? 0) || (n <=? mtu nif).

(** The identification that goes into the header. *)
Definition header_id (proto n : Z) (m : ip_mod) : Z := if (proto =? IP_PROTO_TCP) && (n <=? IP4_MIN_MTU_LENGTH) then 0 else ip_id m.

Lemma next_ip_id_spec proto n m : next_ip_id proto n m = (lwip_htons (header_id proto n m), snd (next_ip_id proto n m)).
Proof. unfold next_ip_id, header_id. by destruct (_ && _). Qed.

Lemma next_ip_id_wf nets proto n m : ip_wf nets m -> ip_wf nets (snd (next_ip_id proto n m)) /\ is_u16 (header_id proto n m).
Proof.
  intros Hw. unfold next_ip_id, header_id. destruct (_ && _); cbn [snd]; [by split; [|unfold is_u16; lia]|].
  destruct Hw. split; [|done]. split; cbn; try done. solve_u.
Qed.

Lemma header_room_more b n m : 0 <= n -> header_room b n = true -> header_room (grow_head n b) m = header_room b (m + n).
Proof.
  intros Hn. unfold header_room, grow_head. cbn [type_internal payload tot_len with_tot_len with_len with_payload].
  destruct (payload b) as [[a o]|]; [|by rewrite !andb_false_r]. cbn [option_map fst snd]. destruct (negb _); [|done]. cbn [andb].
  intros [H1%Z.leb_le H2%Z.leb_le]%andb_true_iff. f_equal; apply eq_true_iff_eq; rewrite !Z.leb_le; lia.
Qed.

(** The link address that a datagram to [a] goes to, as far as it is known, and
    the requests that may precede it. *)
Inductive link_address (np a : Z) (nif : netif) (t : list etharp_entry) : list Z -> list (list Z) -> Prop :=
  | LinkBroadcast : ip4_addr_isbroadcast a nif = true -> link_address np a nif t ethbroadcast []
  | LinkMulticast : ip4_addr_isbroadcast a nif = false -> ip4_addr_ismulticast a = true -> link_address np a nif t (mcast_addr a) []
  | LinkKnown h i e : ip4_addr_isbroadcast a nif = false -> ip4_addr_ismulticast a = false -> next_hop a nif = Some h ->
      t !! Z.to_nat i = Some e -> 0 <= i -> has_key h np e -> stable (arp_state e) = true ->
      link_address np a nif t (arp_ethaddr e) (rerequests nif e).

Section User.
Context {P1 P2 : Type} `{!PoolAlloc P1} `{!PoolAlloc P2} {X : Type} `{!LinkDriver X}.
Context {K : Type} {pn : Part K (net P1 P2 X)} {pi : Part K ip_mod} {U : ArpUser P1 P2 X K} {V : IpUser P1 P2 X K}.
Implicit Type k : K.
#[local] Set Default Proof Using "V".

Lemma net_set_net n k : net_of (set_net n k) = n.
Proof using Type. apply part_set. Qed.

Lemma ip_set_net n k : ip_of (set_net n k) = ip_of k.
Proof. apply ip_apart. Qed.

Lemma net_update_ip f k : net_of (update_ip f k) = net_of k.
Proof. apply ip_apart. Qed.

Lemma ip_update_ip f k : ip_of (update_ip f k) = f (ip_of k).
Proof using Type. apply part_set. Qed.

Lemma st_set_st s k : st_of (set_st s k) = s.
Proof using Type. unfold st_of, set_st. by rewrite net_set_net. Qed.

Lemma st_update_ip f k : st_of (update_ip f k) = st_of k.
Proof. unfold st_of. by rewrite net_update_ip. Qed.

Lemma set_st_set_st s s' k : set_st s' (set_st s k) = set_st s' k.
Proof using Type. unfold set_st. rewrite net_set_net. unfold set_net. by rewrite set_set_part. Qed.

Lemma set_st_self k : set_st (st_of k) k = k.
Proof using Type.
  unfold set_st, st_of. replace (set_packets (packets (net_of k)) (net_of k)) with (net_of k) by (by destruct (net_of k)). apply set_part_part.
Qed.

Lemma set_net_ok k E E' n : user_inv k E -> arp_ok n (E' ⊎ held k) -> netifs n = netifs (net_of k) -> user_inv (set_net n k) E'.
Proof using Type. apply user_set. Qed.

Lemma set_st_ok k E E' s : user_inv k E -> arp_ok (set_packets s (net_of k)) (E' ⊎ held k) -> user_inv (set_st s k) E'.
Proof using Type. intros Hk Hn. by apply (set_net_ok k E). Qed.

Lemma update_ip_ok k E f : user_inv k E -> ip_wf (netifs (net_of k)) (f (ip_of k)) -> user_inv (update_ip f k) E.
Proof. apply ip_user_set. Qed.

Lemma user_store k E : user_inv k E -> exists E', store_ok (st_of k) (E ⊎ E').
Proof using Type. intros Hk. pose proof (ao_store _ _ (user_arp _ _ Hk)) as Hs. rewrite <- (assoc_L (⊎)) in Hs. by eexists. Qed.

Lemma route_ok k E dest : user_inv k E -> exists r, ip4_route dest k = Ok r /\ routed (netifs (net_of k)) (ip_of k) dest r.
Proof.
  intros Hk. pose proof (ip_user_wf k E Hk) as [Hl Hd _ _ _]. change (netifs (part k)) with (netifs (net_of k)) in *. destruct (route_list_ok (net_of k) dest _ Hl) as (r & Er & Hr).
  unfold ip4_route. rewrite Er, bind_ok. destruct r as [np|].
  - exists (Some np). split; [done|]. destruct Hr as (l1 & l2 & nif & El & H1 & H2 & H3). by apply (RouteDirect _ _ _ l1 np l2 nif).
  - destruct (netif_default (ip_of k)) as [np|] eqn:Ed.
    + destruct (Hd np eq_refl) as [nif Hnp]. rewrite (netif_at_some _ _ _ Hnp), bind_ok.
      assert (Eu : usable nif dest = negb (negb (netif_is_up nif) || negb (netif_is_link_up nif) || ip4_addr_isany (ip_addr nif) || ip4_addr_isloopback dest)).
      { unfold usable. by rewrite !negb_orb, !negb_involutive. }
      destruct (_ || _); cbn [negb] in Eu; (eexists; split; [reflexivity|]); [apply RouteNone | by apply (RouteDefault _ _ _ np nif)]; [done|]. intros np' nif' H1 H2. rewrite Ed in H1. injection H1 as <-. congruence.
    + exists None. split; [done|]. apply RouteNone; [done|]. congruence.
Qed.

(** A new store for the packets. *)
Lemma set_st_inv k E E' s' : user_inv k E -> store_ok s' ((E' ⊎ held k) ⊎ queued (arp_table (net_of k))) ->
  (forall y, is_head (st_of k) y -> is_Some (pbufs (st_of k) !! y) -> is_head s' y) -> user_inv (set_st s' k) E'.
Proof.
  intros Hk Hs Hh. apply (set_st_ok k E); [done|]. by apply (set_packets_ok _ (E ⊎ held k)); [apply user_arp|..].
Qed.

Lemma rewrite_inv k E s' : user_inv k E -> store_ok s' ((E ⊎ held k) ⊎ queued (arp_table (net_of k))) -> pbufs s' = pbufs (st_of k) ->
  user_inv (set_st s' k) E.
Proof. intros Hk Hs Eps. apply (set_st_inv k E); [done | done |]. intros y Hy _. unfold is_head. by rewrite Eps. Qed.

Lemma user_whole k E : user_inv k E -> store_ok (st_of k) ((E ⊎ held k) ⊎ queued (arp_table (net_of k))).
Proof. intros Hk. apply (ao_store _ _ (user_arp _ _ Hk)). Qed.

(** The packet [p] is ours alone. *)
Record own k (E : gmultiset ptr) (p : ptr) (b : pbuf) (l : list (ptr * pbuf)) : Prop := Own
  { own_inv : user_inv k E;
    own_in : p ∈ E;
    own_packet : packet (pbufs (st_of k)) (areas (st_of k)) p ((p, b) :: l);
    own_ref : ref b = 1 }.

Lemma own_lookup k E p b l : own k E p b l -> pbufs (st_of k) !! p = Some b.
Proof. intros [_ _ H _]. by apply packet_lookup in H. Qed.

Lemma own_is_head k E p b l : own k E p b l -> is_head (st_of k) p.
Proof.
  intros H. pose proof (own_lookup _ _ _ _ _ H) as Hb. destruct H as [Hk Hp _ Hr]. pose proof (user_whole k E Hk) as Hs.
  eapply own_head; [apply Hs | exact Hb | multiset_solver | done].
Qed.

Lemma own_sendable k E p b l : own k E p b l -> no_empty ((p, b) :: l) -> sendable (net_of k) E p.
Proof.
  intros H He. pose proof (own_lookup _ _ _ _ _ H) as Hb. pose proof (own_is_head _ _ _ _ _ H) as Hh. destruct H as [Hk Hp Hpk Hr]. split; [done | done | |].
  - intros l' Hl'. pose proof (chain_at_det _ _ _ _ (pk_chain _ _ _ _ Hl') (pk_chain _ _ _ _ Hpk)) as ->. done.
  - intros b' Hb'. change (pbufs (st_of k) !! p = Some b') in Hb'. rewrite Hb in Hb'. injection Hb' as <-. lia.
Qed.

(** The head is replaced. *)
Lemma own_new_head k E p b b' l : own k E p b l -> new_head (areas (st_of k)) p b b' ->
  own (set_st (set_pbufs (<[p := b']> (pbufs (st_of k))) (st_of k)) k) E p b' l.
Proof.
  intros H Hnh. pose proof (own_lookup _ _ _ _ _ H) as Hb. pose proof (own_is_head _ _ _ _ _ H) as Hh. destruct H as [Hk Hp Hpk Hr].
  pose proof (user_whole k E Hk) as Hs. destruct (new_head_ok _ _ _ _ _ Hs Hb Hh Hnh) as (_ & _ & Hpk').
  split; [|done | |by rewrite (nh_ref _ _ _ _ Hnh)].
  - apply (set_st_ok k E); [done|]. by apply (replace_head_ok (net_of k) _ p b b' (user_arp _ _ Hk)).
  - rewrite st_set_st. by apply Hpk'.
Qed.

(** The bytes are rewritten. *)
Lemma own_rewrite k E p b l s' : own k E p b l -> store_ok s' ((E ⊎ held k) ⊎ queued (arp_table (net_of k))) -> pbufs s' = pbufs (st_of k) ->
  packet (pbufs s') (areas s') p ((p, b) :: l) -> own (set_st s' k) E p b l.
Proof.
  intros [Hk Hp Hpk Hr] Hs Eps Hpk'. split; [by apply rewrite_inv | done | by rewrite st_set_st | done].
Qed.

Lemma own_update_ip k E p b l f : own k E p b l -> ip_wf (netifs (net_of k)) (f (ip_of k)) -> own (update_ip f k) E p b l.
Proof. intros [Hk Hp Hpk Hr] Hw. split; [by apply update_ip_ok | done | by rewrite st_update_ip | done]. Qed.

(** Headers are added and removed. *)
Lemma own_add_header k E p b l n : own k E p b l -> 0 < n <= 65535 ->
  let k' := set_st (set_pbufs (<[p := grow_head n b]> (pbufs (st_of k))) (st_of k)) k in
  on_packets (pbuf_add_header (Some p) n) k = Ok (if header_room b n then (k', 0) else (k, 1)) /\
  (header_room b n = true -> own k' E p (grow_head n b) l).
Proof.
  intros H Hn. pose proof (own_lookup _ _ _ _ _ H) as Hb. pose proof (user_whole k E (own_inv _ _ _ _ _ H)) as Hs.
  destruct (add_header_ok _ _ p b n Hs Hb Hn) as [Ea Hnh]. unfold on_packets. rewrite Ea. split.
  - destruct (header_room b n); rewrite bind_ok; [done|]. by rewrite set_st_self.
  - intros Hr. by apply (own_new_head k E p b); [|apply Hnh].
Qed.

Lemma own_remove_header k E p b l n : own k E p b l -> 0 < n <= 65535 ->
  let k' := set_st (set_pbufs (<[p := grow_head (- n) b]> (pbufs (st_of k))) (st_of k)) k in
  on_packets (pbuf_remove_header (Some p) n) k = Ok (if n <=? len b then (k', 0) else (k, 1)) /\
  (n <= len b -> own k' E p (grow_head (- n) b) l).
Proof.
  intros H Hn. pose proof (own_lookup _ _ _ _ _ H) as Hb. pose proof (user_whole k E (own_inv _ _ _ _ _ H)) as Hs.
  destruct (remove_header_ok _ _ p b n Hs Hb Hn) as [Ea Hnh]. unfold on_packets. rewrite Ea. split.
  - destruct (n <=? len b); rewrite bind_ok; [done|]. by rewrite set_st_self.
  - intros Hr. by apply (own_new_head k E p b); [|apply Hnh].
Qed.

(** The packet [p] is ready to be sent: it is ours and has the bytes [d], and
    [room] is whether a frame header fits in front. Interfaces, ARP table and wire
    are those of [k]. *)
Record ready k (E : gmultiset ptr) p (d : list Z) (room : bool) k1 : Prop := Ready
  { rd_own : exists b l, own k1 E p b l /\ no_empty ((p, b) :: l) /\ chain_data (areas (st_of k1)) ((p, b) :: l) = d /\
      header_room b SIZEOF_ETH_HDR = room;
    rd_device : device (net_of k1) = device (net_of k);
    rd_table : arp_table (net_of k1) = arp_table (net_of k);
    rd_netifs : netifs (net_of k1) = netifs (net_of k) }.

(** The frame of a packet whose link address is known: the re-requests for that
    entry, if any are due, go out before it. *)
Lemma ready_wire k E p d k1 np a nif n' r hw again : ready k E p d true k1 -> resolved np a nif p (net_of k1) n' r ->
  link_address np a nif (arp_table (net_of k)) hw again -> length d <= 1504 ->
  exists fs, (fs = again \/ fs = []) /\ wire (device n') = wire (device (net_of k)) ++ fs ++ [frame_of hw (hwaddr nif) ETHTYPE_IP d].
Proof.
  intros [(b & l & Ho & He & Hd & Hroom) Hdev Htab _] Hres Hlink Hlen. rewrite <- Htab in Hlink.
  pose proof (own_packet _ _ _ _ _ Ho) as Hp. pose proof (packet_length _ _ _ _ Hp) as Hl. rewrite Hd in Hl.
  pose proof (ao_table _ _ (user_arp _ _ (own_inv _ _ _ _ _ Ho))) as Ht. change (part k1) with (net_of k1) in Ht.
  assert (Hplain : forall dst, transmits (device (net_of k1)) (device n') (packets (net_of k1)) p dst (hwaddr nif) ->
    wire (device n') = wire (device (net_of k)) ++ [] ++ [frame_of dst (hwaddr nif) ETHTYPE_IP d]).
  { intros dst Htr. specialize (Htr b l Hp). change (packets (net_of k1)) with (st_of k1) in Htr. rewrite Hroom in Htr. rewrite Htr by lia. by rewrite Hdev, Hd. }
  destruct Hlink as [Eb|Eb Em|h i e Eb Em Eh Hi Hi0 Hk Hst];
    destruct Hres as [r Hb' _ Htr | r Hb' Hm' _ Htr | Hb' Hm' Hh' _ | h' i' e' r Hb' Hm' Hh' Hi' He' Hk' Hst' [_ _ _ (x1 & fs & Hfs & Hw1 & Htr & _)] | h' r Hb' Hm' Hh' Hall _];
    try congruence; try (exists []; split; [by left | by apply Hplain]).
  - rewrite Eh in Hh'. injection Hh' as <-.
    assert (e' = e) as ->.
    { destruct Hk as (U1 & A1 & N1), Hk' as (U2 & A2 & N2).
      assert (Z.to_nat i' = Z.to_nat i) as Ei by (apply (to_unique _ _ Ht _ _ e' e He' Hi U2 U1); split; congruence). congruence. }
    exists fs. split; [rewrite Hfs; destruct (has_ram _ _ _); tauto|]. specialize (Htr b l Hp).
    change (packets (ETHARP_SET_ADDRHINT i' (net_of k1))) with (st_of k1) in Htr. rewrite Hroom in Htr. rewrite Htr by lia.
    rewrite Hw1. change (device (ETHARP_SET_ADDRHINT i' (net_of k1))) with (device (net_of k1)). rewrite Hdev, Hd. by rewrite <- app_assoc.
  - rewrite Eh in Hh'. injection Hh' as <-. rewrite Forall_lookup in Hall. specialize (Hall _ _ Hi Hk). congruence.
Qed.

Lemma own_data k E p b l : own k E p b l -> length (payload_data (areas (st_of k)) b) = len b :> Z /\ bytes_ok (payload_data (areas (st_of k)) b) /\
  0 <= len b <= tot_len b /\ tot_len b <= 65535.
Proof.
  intros H. pose proof (own_lookup _ _ _ _ _ H) as Hb. pose proof (user_whole k E (own_inv _ _ _ _ _ H)) as Hs.
  destruct (head_bounds _ _ _ _ Hs Hb). split; [by apply (head_data_length _ _ p b Hs)|]. split; [by apply (head_data_bytes _ _ p b Hs) | done].
Qed.

Variable custom_free_function : ptr -> store P1 P2 -> res (store P1 P2).
Variable fresh_byte : nat -> Z.
Hypothesis fresh_u8 : forall i, is_u8 (fresh_byte i).

Lemma free_pbuf_ok k E p : user_inv k ({[+ p +]} ⊎ E) -> exists s', free_pbuf custom_free_function p k = Ok (set_st s' k) /\
  user_inv (set_st s' k) E /\ shrunk (st_of k) s'.
Proof using Type.
  intros Hk. pose proof (user_arp _ _ Hk) as Hn. rewrite <- (assoc_L (⊎)) in Hn.
  destruct (free_packet_ok custom_free_function _ _ p Hn) as (s' & Ef & Hn' & Hsh). exists s'. unfold free_pbuf. change (part k) with (net_of k) in *.
  rewrite Ef, bind_ok. split; [done|]. split; [|done]. by apply (set_st_ok k ({[+ p +]} ⊎ E) E).
Qed.

(** A new packet from the heap, in the whole state. *)
Lemma user_ram k E layer n : user_inv k E -> 0 <= layer <= 128 -> is_u16 n ->
  exists s' r, on_packets (pbuf_alloc custom_free_function fresh_byte layer n PBUF_RAM) k = Ok (set_st s' k, r) /\
    match r with
    | None => user_inv (set_st s' k) E /\ has_ram layer n (st_of k) = false
    | Some q => exists o, layer <= o /\ own (set_st s' k) ({[+ q +]} ⊎ E) q (fresh_ram q o n) [] /\ pbufs (st_of k) !! q = None /\
        pbufs s' = <[q := fresh_ram q o n]> (pbufs (st_of k)) /\ (forall x, is_Some (pbufs (st_of k) !! x) -> same_packet (st_of k) s' x)
    end.
Proof using fresh_u8 V.
  intros Hk Hl Hn. pose proof (user_whole k E Hk) as Hs. unfold on_packets.
  destruct (ram_ok custom_free_function fresh_byte fresh_u8 (st_of k) _ layer n Hs Hl Hn) as (s' & r & -> & Hr). rewrite bind_ok.
  exists s', r. split; [done|]. destruct r as [q|].
  - destruct Hr as (_ & _ & Hs' & Hq & Hsame & o & d & Ho & Eps & _ & Hp). exists o. split; [done|]. split; [|done].
    rewrite <- !(assoc_L (⊎)) in *. split; [|multiset_solver | by rewrite st_set_st | done].
    apply (set_st_inv k E); [done | by rewrite <- !(assoc_L (⊎)) |]. intros y Hy _. unfold is_head. rewrite Eps, incoming_insert_fresh by done.
    unfold points_to. cbn [next fresh_ram pbuf_init_alloced_pbuf]. by rewrite decide_False.
  - destruct Hr as (Hram & Hs' & Eps & _). split; [|done]. apply (set_st_inv k E); [done | done |]. intros y Hy _. unfold is_head. by rewrite Eps.
Qed.

(** [etharp_output], seen from above. *)
Lemma output_user k E np nif a q : user_inv k E -> netifs (net_of k) !! np = Some nif -> is_u32 a -> sendable (net_of k) E q ->
  exists n' r, in_part (N := net P1 P2 X) (etharp_output custom_free_function fresh_byte np q a) k = Ok (set_net n' k, r) /\ user_inv (set_net n' k) E /\
    netifs n' = netifs (net_of k) /\ (forall x, x ∈ E -> x <> q -> same_packet (st_of k) (packets n') x) /\ resolved np a nif q (net_of k) n' r.
Proof using fresh_u8 V.
  intros Hk Hnif Ha Hsd. destruct (output_ok custom_free_function fresh_byte fresh_u8 (net_of k) _ np nif a q (user_arp _ _ Hk) Hnif Ha)
    as (n' & r & Eo & Hn' & Hf & Hoth & Hres); [by apply sendable_more|].
  exists n', r. unfold in_part. change (part k) with (net_of k). rewrite Eo, bind_ok. split; [done|]. split; [by apply (set_net_ok k E)|].
  split; [done|]. split; [|done]. intros x Hx. apply Hoth. multiset_solver.
Qed.

(** What is neither a part of the interfaces' state nor of IPv4's has not changed. *)
Definition elsewhere k k' : Prop := forall (M : Type) (pz : Part K M), Apart pn pz -> Apart pi pz -> @part K M pz k' = @part K M pz k.

Lemma elsewhere_st k s : elsewhere k (set_st s k).
Proof using Type. intros M pz An Ai. apply An. Qed.

Lemma elsewhere_ip k f : elsewhere k (update_ip f k).
Proof using Type. intros M pz An Ai. apply Ai. Qed.

Lemma elsewhere_net k n : elsewhere k (set_net n k).
Proof using Type. intros M pz An Ai. apply An. Qed.

Lemma elsewhere_trans k1 k2 k3 : elsewhere k1 k2 -> elsewhere k2 k3 -> elsewhere k1 k3.
Proof using Type. intros H1 H2 M pz An Ai. by rewrite (H2 M pz), (H1 M pz). Qed.

(** *** Sending *)

(** What IPv4 relies on: [ip4_frag] sends a packet in pieces, and the packet
    stays with the caller. *)
Definition frag_contract (ip4_frag : ptr -> Z -> Z -> K -> res (K * Z)) : Prop :=
  forall k E p np a, user_inv k E -> is_Some (netifs (net_of k) !! np) -> is_u32 a -> sendable (net_of k) E p ->
  exists k' r, ip4_frag p np a k = Ok (k', r) /\ user_inv k' E /\ netifs (net_of k') = netifs (net_of k) /\ ip_of k' = ip_of k /\ elsewhere k k'.

Variable ip4_frag : ptr -> Z -> Z -> K -> res (K * Z).
Hypothesis frag_ok : frag_contract ip4_frag.

Lemma ip4_send_ok k E p b l np nif a : own k E p b l -> no_empty ((p, b) :: l) -> netifs (net_of k) !! np = Some nif -> is_u32 a ->
  exists k' r, ip4_send custom_free_function fresh_byte ip4_frag p a np k = Ok (k', r) /\ user_inv k' E /\
    netifs (net_of k') = netifs (net_of k) /\ ip_of k' = ip_of k /\ elsewhere k k' /\
    (fits nif (tot_len b) = true -> (exists n', k' = set_net n' k) /\ resolved np a nif p (net_of k) (net_of k') r).
Proof using fresh_u8 frag_ok V.
  intros H He Hnif Ha. pose proof (own_lookup _ _ _ _ _ H) as Hb. pose proof (own_sendable _ _ _ _ _ H He) as Hsd. pose proof (own_inv _ _ _ _ _ H) as Hk.
  unfold ip4_send, fits. rewrite (get_some _ _ _ Hb), bind_ok, (netif_at_some _ _ _ Hnif), bind_ok.
  destruct (Z.eqb_spec (mtu nif) 0) as [_|_]; cbn [negb andb orb]; [|destruct (Z.ltb_spec (mtu nif) (tot_len b)) as [Hlt|Hge]].
  2: { destruct (frag_ok k E p np a Hk) as (k' & r & -> & Hk' & Hn & Hi & Hw); [by rewrite Hnif | done | done |].
       exists k', r. split_and!; try done; destruct (Z.leb_spec (tot_len b) (mtu nif)); (done || lia). }
  all: destruct (output_user k E np nif a p Hk Hnif Ha Hsd) as (n' & r & -> & Hk' & Hn & _ & Hres); exists (set_net n' k), r;
    rewrite ip_set_net, net_set_net; split_and!; try done; [apply elsewhere_net|]; intros _; split; [by eexists | done].
Qed.

Lemma output_if_src_ok k E p b l src dest ttl tos proto np nif : own k E p b l -> no_empty l -> netifs (net_of k) !! np = Some nif ->
  is_u32 src -> is_u32 dest -> is_u8 ttl -> is_u8 tos -> is_u8 proto ->
  exists k' r, ip4_output_if_src custom_free_function fresh_byte ip4_frag p (Some src) (Some dest) ttl tos proto np k = Ok (k', r) /\ user_inv k' E /\
    netifs (net_of k') = netifs (net_of k) /\ elsewhere k k' /\
    if header_room b IP_HLEN then
      let n := tot_len b + IP_HLEN in
      ip_of k' = snd (next_ip_id proto n (ip_of k)) /\
      (fits nif n = true -> exists k1,
         ready k E p (sent_header tos n (header_id proto n (ip_of k)) ttl proto src dest ++ chain_data (areas (st_of k)) ((p, b) :: l))
           (header_room b (SIZEOF_ETH_HDR + IP_HLEN)) k1 /\
         (exists n', k' = set_net n' k1) /\ resolved np dest nif p (net_of k1) (net_of k') r)
    else k' = k /\ r = ERR_BUF.
Proof using fresh_u8 frag_ok V.
  intros H He Hnif Hsrc Hdest Httl Htos Hproto. pose proof (own_lookup _ _ _ _ _ H) as Hb. pose proof (own_inv _ _ _ _ _ H) as Hk.
  unfold ip4_output_if_src. rewrite (get_some _ _ _ Hb), bind_ok, (own_ref _ _ _ _ _ H), Z.eqb_refl. cbn [lwip_assert]. rewrite bind_ok.
  destruct (own_add_header k E p b l IP_HLEN H) as [-> Hroom]; [by unfold IP_HLEN|]. rewrite bind_ok.
  destruct (header_room b IP_HLEN) eqn:Er; [|by exists k, ERR_BUF]. specialize (Hroom eq_refl). set (g := grow_head IP_HLEN b) in *.
  rewrite Z.eqb_refl. cbn [negb]. set (s1 := set_pbufs _ _) in *. set (k1 := set_st s1 k) in *.
  assert (Est : st_of k1 = s1) by apply st_set_st. pose proof (own_lookup _ _ _ _ _ Hroom) as Hb1. pose proof (user_whole k1 E (own_inv _ _ _ _ _ Hroom)) as Hs1.
  rewrite Est in *. rewrite (get_some _ _ _ Hb1), bind_ok.
  destruct (head_bounds _ _ _ _ (user_whole k E Hk) Hb) as [Hlb Htb]. destruct (head_bounds _ _ _ _ Hs1 Hb1) as [Hlg Htg].
  assert (Elen : len g = len b + 20 /\ tot_len g = tot_len b + 20) by done. destruct Elen as [Elen Etot].
  destruct (Z.leb_spec IP_HLEN (len g)) as [_|Hlt]; [|unfold IP_HLEN in Hlt; lia]. cbn [lwip_assert]. rewrite bind_ok.
  assert (Ei : ip_of k1 = ip_of k) by apply ip_set_net. rewrite Ei, next_ip_id_spec. cbv beta iota zeta.
  destruct (next_ip_id_wf _ proto (tot_len g) _ (ip_user_wf k E Hk)) as [Hwf Hid]. set (id := header_id proto (tot_len g) (ip_of k)) in *.
  set (m := snd (next_ip_id proto (tot_len g) (ip_of k))) in *.
  pose proof (own_is_head _ _ _ _ _ Hroom) as Hh1. rewrite Est in Hh1.
  pose proof (own_packet _ _ _ _ _ Hroom) as Hp1. rewrite Est in Hp1.
  assert (Hown : exists o, payload g = Some (p, o)).
  { destruct (so_payload _ _ Hs1 p g Hb1) as (a & o & d & Hpg & _ & _ & _ & _ & [->|[_ Hc]]); [by eexists|].
    unfold header_room in Er. change (type_internal g) with (type_internal b) in Hc. by rewrite Hc in Er. }
  destruct (write_ip_hdr_ok s1 _ p g l ttl proto dest tos (tot_len g) id src Hs1 Hp1 Hh1 Hown) as (s2 & Ew & Hs2 & Eps2 & Hp2 & Hd2 & _);
    try done; [unfold IP_HLEN; lia | split; lia |].
  change (default IPADDR_ANY (Some src)) with src. rewrite Ew, bind_ok. set (k2 := set_st s2 k1). rewrite <- Est in Eps2.
  pose proof (own_rewrite k1 E p g l s2 Hroom Hs2 Eps2 Hp2) as H2. fold k2 in H2.
  assert (En2 : net_of k2 = set_packets s2 (net_of k)).
  { unfold k2, k1, set_st. rewrite !net_set_net. done. }
  assert (H3 : own (update_ip (fun _ => m) k2) E p g l). { apply own_update_ip; [done|]. by rewrite En2. }
  set (k3 := update_ip (fun _ => m) k2) in *. assert (En3 : net_of k3 = set_packets s2 (net_of k)) by (unfold k3; by rewrite net_update_ip).
  assert (He3 : no_empty ((p, g) :: l)) by (constructor; [cbn [snd]; lia | done]).
  destruct (ip4_send_ok k3 E p g l np nif dest H3 He3) as (k4 & r & -> & Hk4 & Hn4 & Hi4 & Hw4 & Hfit); [by rewrite En3 | done |].
  exists k4, r. split; [done|]. split; [done|]. split; [by rewrite Hn4, En3|]. split.
  { eapply elsewhere_trans; [apply elsewhere_st|]. eapply elsewhere_trans; [apply elsewhere_st|]. by eapply elsewhere_trans; [apply elsewhere_ip|]. }
  assert (E3 : ip_of k3 = m) by apply ip_update_ip. split; [by rewrite Hi4|].
  intros Hf. destruct (Hfit Hf) as [Hn' Hres]. exists k3. split; [|by split]. split; try (by rewrite En3).
  exists g, l. split; [done|]. split; [done|]. split; [|by apply header_room_more].
  unfold k3, k2. rewrite st_update_ip, st_set_st, Hd2. f_equal.
  destruct (so_payload _ _ (user_whole k E Hk) p b Hb) as (a & o & d & Hpb & _).
  destruct (grow_data (areas (st_of k)) p b a o IP_HLEN (so_payload _ _ (user_whole k E Hk) p b Hb) Hpb) as (h & Hh & Hd).
  { unfold header_room in Er. rewrite Hpb, !andb_true_iff, !Z.leb_le in Er. unfold IP_HLEN in *. lia. }
  rewrite !chain_data_cons. change (areas s1) with (areas (st_of k)). fold g in Hd. rewrite Hd, <- app_assoc, drop_app_length'; [done | by rewrite Hh].
Qed.

Lemma output_if_ok k E p b l src dest ttl tos proto np nif : own k E p b l -> no_empty l -> netifs (net_of k) !! np = Some nif ->
  (forall a, src = Some a -> is_u32 a) -> is_u32 dest -> is_u8 ttl -> is_u8 tos -> is_u8 proto ->
  let from := if ip4_addr_isany (default IPADDR_ANY src) then ip_addr nif else default IPADDR_ANY src in
  exists k' r, ip4_output_if custom_free_function fresh_byte ip4_frag p src (Some dest) ttl tos proto np k = Ok (k', r) /\ user_inv k' E /\
    netifs (net_of k') = netifs (net_of k) /\ elsewhere k k' /\
    if header_room b IP_HLEN then
      let n := tot_len b + IP_HLEN in
      ip_of k' = snd (next_ip_id proto n (ip_of k)) /\
      (fits nif n = true -> exists k1,
         ready k E p (sent_header tos n (header_id proto n (ip_of k)) ttl proto from dest ++ chain_data (areas (st_of k)) ((p, b) :: l))
           (header_room b (SIZEOF_ETH_HDR + IP_HLEN)) k1 /\
         (exists n', k' = set_net n' k1) /\ resolved np dest nif p (net_of k1) (net_of k') r)
    else k' = k /\ r = ERR_BUF.
Proof using fresh_u8 frag_ok V.
  intros H He Hnif Hsrc Hdest Httl Htos Hproto from. pose proof (own_inv _ _ _ _ _ H) as Hk.
  destruct (ao_netifs _ _ (user_arp _ _ Hk) np nif Hnif) as (_ & _ & _ & Hip & _).
  unfold ip4_output_if. rewrite (netif_at_some _ _ _ Hnif), bind_ok.
  assert (Hfrom : is_u32 from). { unfold from. destruct (ip4_addr_isany _); [done|]. destruct src as [a|]; [by apply Hsrc | by unfold is_u32]. }
  assert (E0 : (if ip4_addr_isany (default IPADDR_ANY src) then Some (ip_addr nif) else src) = Some from).
  { unfold from. destruct (ip4_addr_isany (default IPADDR_ANY src)) eqn:Ea; [done|]. by destruct src. }
  rewrite E0. by apply output_if_src_ok.
Qed.

(** A packet that has its header already. *)
Lemma output_hdrincl_ok k E p b l src ttl tos proto np nif : own k E p b l -> no_empty ((p, b) :: l) -> IP_HLEN <= len b ->
  netifs (net_of k) !! np = Some nif ->
  let dest := long_at (payload_data (areas (st_of k)) b) ip_dest in
  exists k' r, ip4_output_if custom_free_function fresh_byte ip4_frag p (Some src) None ttl tos proto np k = Ok (k', r) /\ user_inv k' E /\
    netifs (net_of k') = netifs (net_of k) /\ ip_of k' = ip_of k /\ elsewhere k k' /\
    (fits nif (tot_len b) = true -> (exists n', k' = set_net n' k) /\ resolved np dest nif p (net_of k) (net_of k') r).
Proof using fresh_u8 frag_ok V.
  intros H He Hl Hnif dest. pose proof (own_lookup _ _ _ _ _ H) as Hb. pose proof (user_whole k E (own_inv _ _ _ _ _ H)) as Hs.
  destruct (own_data _ _ _ _ _ H) as (Hld & Hbd & _). unfold IP_HLEN in *.
  unfold ip4_output_if, ip4_output_if_src. rewrite (netif_at_some _ _ _ Hnif), bind_ok, (get_some _ _ _ Hb), bind_ok, (own_ref _ _ _ _ _ H), Z.eqb_refl.
  cbn [lwip_assert]. rewrite bind_ok. destruct (Z.ltb_spec (len b) IP_HLEN) as [Hlt|_]; [unfold IP_HLEN in Hlt; lia|].
  rewrite (hdr_read_ok _ _ p b ip_dest 4 Hs Hb) by (unfold ip_dest; lia). rewrite bind_ok.
  rewrite get32_at, bind_ok by (rewrite ?window_length; unfold ip_dest; lia).
  assert (E1 : long_at (window (payload_data (areas (st_of k)) b) ip_dest 4) 0 = dest) by (rewrite long_at_window; unfold ip_dest; (done || lia)).
  rewrite E1. apply (ip4_send_ok k E p b l np nif dest H He Hnif).
  by apply long_at_u32.
Qed.

End User.
