(* ===== verification/IcmpOps.v ===== *)
(** * The operations of ICMP on a well-formed state

    The checksum over a packet, the echo reply as bytes, and what the functions of
    icmp.c do to the packet and to the wire. *)

From stdpp Require Import gmultiset.
From S2P Require Import Prelude Strings Onescomp Def Chksum Ip4Addr Alloc Memp Mem Pbuf PbufRef PbufAlloc PbufStore PbufPool PbufTrim Ethernet EthArp EthArpOps EthArpOut LwipPort ArpSpec EthInput Ip4 Icmp HeadMem Ip4Ops.

(** ** Specifications *)

(** The header of a reply, made from the header [h] of the request. *)
Definition reply_fields (h : list Z) (c src dest : Z) : list Z :=
  take 8 h ++ [ICMP_TTL; byte_at h 9; c mod 256; c / 256] ++ le_bytes src ++ le_bytes dest ++ drop 20 h.
Definition reply_header (h : list Z) (src dest : Z) : list Z :=
  reply_fields h (65535 - oc (wsum (reply_fields h 0 src dest))) src dest.

(** The message of a reply: type 0 and an adjusted checksum. *)
Definition reply_message (m : list Z) : list Z :=
  let c := oc (word_at m 2 + 8) in [ICMP_ER; byte_at m 1; c mod 256; c / 256] ++ drop 4 m.

(** The echo requests that are answered: [m] is the message of a datagram to
    [dest], [n] the length of its first pbuf. *)
Definition answers (dest : Z) (nif : netif) (n : Z) (m : list Z) : bool :=
  (4 <=? n) && (byte_at m 0 =? ICMP_ECHO) && negb (ip4_addr_ismulticast dest) && negb (ip4_addr_isbroadcast dest nif) &&
  (SIZEOF_ICMP_ECHO_HDR <=? length m) && (oc (wsum m) =? 65535).

(** An error message about a datagram that begins with [d]. *)
Definition error_fields (type code c : Z) (d : list Z) : list Z := [type; code; c mod 256; c / 256; 0; 0; 0; 0] ++ d.
Definition error_message (type code : Z) (d : list Z) : list Z :=
  error_fields type code (65535 - oc (wsum (error_fields type code 0 d))) d.

(** ** Lemmas *)

Lemma inserts_left {A} (i : nat) (x h m : list A) : (i + length x <= length h)%nat -> list_inserts i x (h ++ m) = list_inserts i x h ++ m.
Proof.
  intros Hl. rewrite !list_inserts_splice by (rewrite ?length_app; lia).
  rewrite take_app_le, drop_app_le by lia. by rewrite <- !app_assoc.
Qed.

Lemma adjust_chksum_oc c : is_u16 c -> adjust_chksum c = oc (c + 8).
Proof.
  intros Hc. unfold adjust_chksum. change (PP_HTONS (0xffff - Z.shiftl ICMP_ECHO 8)) with 65527.
  change (PP_HTONS (u16 (Z.shiftl ICMP_ECHO 8))) with 8. change (PP_HTONS (Z.shiftl ICMP_ECHO 8)) with 8.
  symmetry. unfold oc. destruct (Z.eqb_spec (c + 8) 0); [solve_u|]. destruct (Z.ltb_spec 65527 c); solve_u.
Qed.

Lemma split4 (m : list Z) : 4 <= length m -> m = [byte_at m 0; byte_at m 1; byte_at m 2; byte_at m 3] ++ drop 4 m.
Proof. intros Hl. do 4 (destruct m as [|? m]; [cbn in Hl; lia|]). done. Qed.

Lemma word_sum_bytes x y : is_u8 x -> is_u8 y -> (x + 256 * y) mod 256 = x /\ (x + 256 * y) / 256 = y.
Proof. intros. split; solve_u. Qed.

(** A valid request gives a valid reply. *)
Lemma reply_message_sum m : bytes_ok m -> 4 <= length m -> byte_at m 0 = ICMP_ECHO -> oc (wsum (reply_message m)) = oc (wsum m).
Proof.
  intros Hb Hl Ht. pose proof (word_at_u16 m 2 Hb) as Hw. pose proof (byte_at_u8 m 1 Hb) as H1.
  pose proof (wsum_nonneg (drop 4 m) (Forall_drop _ _ _ Hb)) as Hn.
  assert (Hm : wsum m = ICMP_ECHO + 256 * byte_at m 1 + (word_at m 2 + wsum (drop 4 m))).
  { rewrite <- Ht. rewrite (split4 m Hl) at 1. done. }
  rewrite Hm. unfold reply_message. set (w := word_at m 2) in *.
  pose proof (oc_range (w + 8)) as Hr. set (c := oc (w + 8)) in *. cbn [app wsum].
  replace (ICMP_ER + 256 * byte_at m 1 + (c mod 256 + 256 * (c / 256) + wsum (drop 4 m))) with (c + (256 * byte_at m 1 + wsum (drop 4 m))).
  2: { unfold ICMP_ER. rewrite (Z.div_mod c 256) at 1 by lia. ring. }
  unfold c. rewrite oc_add_l by solve_u. f_equal. unfold ICMP_ECHO. lia.
Qed.

Lemma reply_fields_length h c src dest : 20 <= length h -> length (reply_fields h c src dest) = length h.
Proof. intros Hh. do 20 (destruct h as [|? h]; [cbn in Hh; lia|]). done. Qed.

Lemma reply_fields_bytes h c src dest : bytes_ok h -> is_u16 c -> is_u32 src -> is_u32 dest -> bytes_ok (reply_fields h c src dest).
Proof.
  intros Hh Hc Hs Hd. pose proof (byte_at_u8 h 9 Hh). apply Forall_app. split; [by apply Forall_take|].
  apply Forall_app. split; [repeat constructor; (done || solve_u)|]. apply Forall_app. split; [by apply le_bytes_ok|].
  apply Forall_app. split; [by apply le_bytes_ok | by apply Forall_drop].
Qed.

Lemma reply_fields_sum h c src dest : 20 <= length h -> is_u16 c -> wsum (reply_fields h c src dest) = wsum (reply_fields h 0 src dest) + c.
Proof.
  intros Hh Hc. do 20 (destruct h as [|? h]; [cbn in Hh; lia|]). unfold reply_fields, le_bytes. cbn [take drop app wsum byte_at].
  change (0 mod 256) with 0. change (0 / 256) with 0. rewrite (Z.div_mod c 256) at 3 by lia. ring.
Qed.

(** The header of a reply verifies. *)
Lemma reply_header_verifies addr h src dest rest : bytes_ok h -> 20 <= length h <= 60 -> is_u32 src -> is_u32 dest ->
  inet_chksum addr (reply_header h src dest ++ rest) (length h) = Ok 0.
Proof.
  intros Hb Hh Hs Hd. unfold reply_header. set (c := 65535 - _).
  pose proof (oc_range (wsum (reply_fields h 0 src dest))) as Hr. assert (Hc : is_u16 c) by (unfold c; solve_u).
  pose proof (wsum_nonneg _ (reply_fields_bytes h 0 src dest Hb ltac:(solve_u) Hs Hd)) as H0.
  pose proof (reply_fields_bytes h c src dest Hb Hc Hs Hd) as Hbc.
  unfold inet_chksum. rewrite <- (reply_fields_length h c src dest) by lia.
  rewrite lwip_chksum_data, bind_ok by (done || (rewrite reply_fields_length; lia)). rewrite reply_fields_sum by (done || lia).
  unfold c. by rewrite oc_complement by lia.
Qed.

Lemma reply_message_app m1 m2 : 4 <= length m1 -> reply_message (m1 ++ m2) = reply_message m1 ++ m2.
Proof. intros Hl. by do 4 (destruct m1 as [|? m1]; [cbn in Hl; lia|]). Qed.

Lemma reply_dest h c src dest rest : 20 <= length h -> window (reply_fields h c src dest ++ rest) ip_dest 4 = le_bytes dest.
Proof. intros Hl. by do 20 (destruct h as [|? h]; [cbn in Hl; lia|]). Qed.

(** The bytes in front of a payload come back with the header. *)
Lemma grow_window (ar : gmap ptr (list Z)) p b o d n : payload_ok ar p b -> payload b = Some (p, o) -> ar !! p = Some d -> 0 <= n <= o ->
  payload_data ar (grow_head n b) = window d (o - n) n ++ payload_data ar b /\ length (window d (o - n) n) = n :> Z.
Proof.
  intros (a' & o' & d' & Hp & Ha & Ho & Hl & Hd & _) Hp' Ha' Hn. rewrite Hp in Hp'. injection Hp' as -> ->. rewrite Ha in Ha'. injection Ha' as ->.
  split; [|rewrite window_length by lia; lia].
  rewrite (payload_data_window ar b p o d), (payload_data_window ar (grow_head n b) p (o - n) d); try done; try lia;
    unfold grow_head; cbn [len with_tot_len with_len with_payload payload]; try lia; [|by rewrite Hp].
  rewrite (window_split d (o - n) (len b + n) n) by lia. f_equal. f_equal; lia.
Qed.

Lemma header_room_own b p o n : payload b = Some (p, o) -> header_room b n = true -> n <= o /\ tot_len b + n <= 65535.
Proof. intros Hp Hr. unfold header_room in Hr. rewrite Hp, !andb_true_iff, !Z.leb_le in Hr. lia. Qed.

Lemma grow_head_back n b : grow_head (- n) (grow_head n b) = b.
Proof.
  destruct b as [nx [[a o]|] t c ty f r i]; unfold grow_head, with_tot_len, with_len, with_payload; cbn; [replace (o - n - - n) with o by lia|]; replace (t + n + - n) with t by lia; replace (c + n + - n) with c by lia; done.
Qed.

Lemma message_bytes (d w : list Z) type code : length d = 8 + length w :> Z ->
  exists x y, list_inserts (Z.to_nat 8) w (written [(icmp_type, [type]); (icmp_code, [code]); (icmp_data, [0; 0; 0; 0])] d)
    = [type; code; x; y; 0; 0; 0; 0] ++ w.
Proof.
  intros Hl. do 8 (destruct d as [|? d]; [cbn [length] in Hl; lia|]). exists z1, z2.
  transitivity (list_inserts (length [type; code; z1; z2; 0; 0; 0; 0] + 0) w ([type; code; z1; z2; 0; 0; 0; 0] ++ d)); [done|].
  cbn [length] in Hl. rewrite list_inserts_app_r, list_inserts_splice, take_0, drop_ge by lia. by rewrite app_nil_r.
Qed.

Section Ops.
Context {P1 P2 : Type} `{!PoolAlloc P1} `{!PoolAlloc P2}.
Implicit Type s : store P1 P2.
#[local] Set Default Proof Using "Type*".

(** *** Checksums over packets *)

Lemma mem_from_ok s E x b : store_ok s E -> pbufs s !! x = Some b ->
  exists a rest, mem_from (areas s) (payload b) = Ok (a, payload_data (areas s) b ++ rest) /\ bytes_ok rest.
Proof.
  intros Hs Hb. destruct (so_payload _ _ Hs x b Hb) as (a & o & d & Hp & Ha & Ho & Hl & Hd & _).
  pose proof (payload_data_window (areas s) b a o d Hp Ha Ho Hl Hd) as Ew. unfold mem_from. rewrite Hp. cbn [of_option]. rewrite bind_ok, Ha.
  cbn [of_option]. rewrite bind_ok. exists (match a with ExtPtr z => z + o | _ => addr a + SIZEOF_STRUCT_PBUF + o end), (drop (Z.to_nat (o + len b)) d).
  split; [|apply Forall_drop, (so_bytes _ _ Hs a d Ha)]. do 2 f_equal. rewrite Ew. unfold window.
  rewrite <- (take_drop (Z.to_nat (len b)) (drop (Z.to_nat o) d)) at 1. rewrite drop_drop. do 2 f_equal. lia.
Qed.

Lemma chksum_at_ok s E x b n : store_ok s E -> pbufs s !! x = Some b -> 0 <= n <= len b ->
  chksum_at (payload b) n s = Ok (65535 - oc (wsum (take (Z.to_nat n) (payload_data (areas s) b)))).
Proof.
  intros Hs Hb Hn. destruct (mem_from_ok s E x b Hs Hb) as (a & rest & Em & _). unfold chksum_at. rewrite Em, bind_ok.
  pose proof (head_data_length s E x b Hs Hb) as Hl. pose proof (head_data_bytes s E x b Hs Hb) as Hby. destruct (head_bounds s E x b Hs Hb).
  set (d := payload_data (areas s) b) in *. rewrite <- (take_drop (Z.to_nat n) d) at 1. rewrite <- app_assoc.
  assert (Hlt : length (take (Z.to_nat n) d) = n :> Z) by (rewrite length_take; lia).
  unfold inet_chksum. pose proof (lwip_chksum_data a (take (Z.to_nat n) d) (drop (Z.to_nat n) d ++ rest)) as Ec. rewrite Hlt in Ec.
  rewrite Ec, bind_ok by ((by apply Forall_take) || lia).
  pose proof (oc_range (wsum (take (Z.to_nat n) d))). unfold Z.lnot. f_equal. solve_u.
Qed.

Lemma chain_segs_ok s E fuel : forall p l, store_ok s E -> packet (pbufs s) (areas s) p l -> (length l <= fuel)%nat ->
  exists segs, chain_segs fuel (pbufs s) (areas s) (Some p) = Ok segs /\ Forall seg_ok segs /\ chain_bytes segs = chain_data (areas s) l.
Proof.
  induction fuel as [|fuel IH]; intros p l Hs Hp Hf; (destruct l as [|[x b] l]; [by apply packet_nil in Hp|]); [cbn in Hf; lia|].
  destruct (packet_cons _ _ _ _ _ _ Hp) as (-> & Hd & Hl & Ht & Htl & Hm & _ & Hdl & Hn).
  pose proof (packet_lookup _ _ _ _ Hp) as Hb'. destruct (mem_from_ok s E p b Hs Hb') as (a & rest & Em & Hr). cbn [chain_segs]. rewrite Hd, bind_ok, Em, bind_ok.
  pose proof (head_data_bytes s E p b Hs Hb') as Hby.
  assert (Hseg : seg_ok (Seg a (payload_data (areas s) b ++ rest) (len b))).
  { split; [by apply Forall_app|]. cbn. rewrite length_app. lia. }
  assert (Etake : take (Z.to_nat (len b)) (payload_data (areas s) b ++ rest) = payload_data (areas s) b) by (apply take_app_length'; lia).
  destruct Hn as [[-> ->]|(q & -> & Hq)].
  - exists [Seg a (payload_data (areas s) b ++ rest) (len b)]. split; [by destruct fuel|]. split; [by constructor|].
    rewrite chain_bytes_cons. cbn [seg_payload seg_len]. by rewrite Etake.
  - destruct (IH q l Hs Hq ltac:(cbn in Hf; lia)) as (segs & -> & Hok & Hbytes). rewrite bind_ok. eexists. split; [reflexivity|].
    split; [by constructor|]. rewrite chain_bytes_cons, Hbytes. cbn [seg_payload seg_len]. by rewrite Etake, chain_data_cons.
Qed.

Lemma chksum_pbuf_ok s E p l : store_ok s E -> packet (pbufs s) (areas s) p l ->
  chksum_pbuf p s = Ok (65535 - oc (wsum (chain_data (areas s) l))).
Proof.
  intros Hs Hp. unfold chksum_pbuf.
  destruct (chain_segs_ok s E (chain_fuel (pbufs s)) p l Hs Hp) as (segs & -> & Hok & Hb).
  { pose proof (chain_at_fuel _ _ _ (pk_chain _ _ _ _ Hp)). lia. }
  rewrite bind_ok, inet_chksum_pbuf_spec by done. by rewrite Hb.
Qed.

End Ops.

Section Reply.
Context {P1 P2 : Type} `{!PoolAlloc P1} `{!PoolAlloc P2} {X : Type} `{!LinkDriver X}.
Context {K : Type} {pn : Part K (net P1 P2 X)} {pi : Part K ip_mod} {U : ArpUser P1 P2 X K} {V : IpUser P1 P2 X K}.
Implicit Type k : K.
#[local] Set Default Proof Using "V".

(** A write behind the payload of our packet. *)
Lemma own_write k E p b l ws : own k E p b l -> (exists o, payload b = Some (p, o)) ->
  Forall (fun w => 0 <= w.1 /\ w.1 + length w.2 <= len b /\ bytes_ok w.2) ws ->
  exists s', hdr_writes p ws (st_of k) = Ok s' /\ own (set_st s' k) E p b l /\
    payload_data (areas s') b = written ws (payload_data (areas (st_of k)) b) /\ chain_data (areas s') l = chain_data (areas (st_of k)) l /\
    pbufs s' = pbufs (st_of k) /\ (forall y, y <> p -> same_packet (st_of k) s' y).
Proof.
  intros H Hown Hws. pose proof (own_lookup _ _ _ _ _ H) as Hb. pose proof (own_is_head _ _ _ _ _ H) as Hh.
  pose proof (user_whole k E (own_inv _ _ _ _ _ H)) as Hs.
  destruct (hdr_writes_ok _ p b ws (st_of k) Hs Hb Hh Hown Hws) as (s' & Ew & Hs' & Eps & Hd & Hoth & Hpk).
  destruct (Hpk l (own_packet _ _ _ _ _ H)) as [Hp' Hl]. exists s'. split_and!; try done; [by apply (own_rewrite k E p b l) | by intros y Hy; apply Hoth].
Qed.

(** The reply at [p]: its head [g] begins with the header of the request [h],
    followed by at least 4 bytes of the message [m]. *)
Lemma reply_writes (h m : list Z) src dest c : 20 <= length h -> 4 <= length m -> is_u16 c ->
  let d1 := written [(ip_src, le_bytes src); (ip_dest, le_bytes dest); (length h + icmp_type, [ICMP_ER])] (h ++ m) in
  word_at d1 (length h + icmp_chksum) = word_at m 2 /\
  written [(length h + icmp_chksum, [c mod 256; c / 256]); (ip_ttl, [ICMP_TTL]); (ip_chksum, [0; 0])] d1
    = reply_fields h 0 src dest ++ [ICMP_ER; byte_at m 1; c mod 256; c / 256] ++ drop 4 m /\
  (forall v, written [(ip_chksum, [v mod 256; v / 256])] (reply_fields h 0 src dest ++ [ICMP_ER; byte_at m 1; c mod 256; c / 256] ++ drop 4 m)
    = reply_fields h v src dest ++ [ICMP_ER; byte_at m 1; c mod 256; c / 256] ++ drop 4 m).
Proof using Type.
  intros Hh Hm Hc d1. unfold written in d1. cbn [foldl fst snd] in d1. unfold written. cbn [foldl fst snd].
  assert (E1 : d1 = list_inserts 16 (le_bytes dest) (list_inserts 12 (le_bytes src) h) ++ [ICMP_ER] ++ drop 1 m).
  { unfold d1. change (Z.to_nat ip_src) with 12%nat. change (Z.to_nat ip_dest) with 16%nat.
    rewrite (inserts_left 12), (inserts_left 16) by (rewrite ?length_inserts; cbn [length le_bytes]; lia).
    replace (Z.to_nat (length h + icmp_type)) with (length (list_inserts 16 (le_bytes dest) (list_inserts 12 (le_bytes src) h)) + 0)%nat
      by (rewrite !length_inserts; unfold icmp_type; lia).
    rewrite list_inserts_app_r. by destruct m as [|? m]; [cbn in Hm; lia|]. }
  clearbody d1. rewrite E1. set (h1 := list_inserts 16 (le_bytes dest) (list_inserts 12 (le_bytes src) h)).
  assert (Hl1 : length h1 = length h) by (unfold h1; by rewrite !length_inserts).
  split; [|split].
  - unfold word_at, byte_at. rewrite !(app_nth2 h1) by (unfold icmp_chksum; lia). rewrite Hl1.
    replace (Z.to_nat (length h + icmp_chksum) - length h)%nat with 2%nat by (unfold icmp_chksum; lia).
    replace (Z.to_nat (length h + icmp_chksum + 1) - length h)%nat with 3%nat by (unfold icmp_chksum; lia).
    by do 4 (destruct m as [|? m]; [cbn in Hm; lia|]).
  - replace (Z.to_nat (length h + icmp_chksum)) with (length h1 + 2)%nat by (unfold icmp_chksum; lia). rewrite list_inserts_app_r.
    change (Z.to_nat ip_ttl) with 8%nat. change (Z.to_nat ip_chksum) with 10%nat.
    rewrite (inserts_left 8), (inserts_left 10) by (rewrite ?length_inserts; cbn [length]; lia). f_equal.
    + unfold h1, reply_fields. by do 20 (destruct h as [|? h]; [cbn in Hh; lia|]).
    + by do 4 (destruct m as [|? m]; [cbn in Hm; lia|]).
  - intros v. change (Z.to_nat ip_chksum) with 10%nat. rewrite (inserts_left 10) by (rewrite reply_fields_length by done; cbn [length]; lia). f_equal.
    by do 20 (destruct h as [|? h]; [cbn in Hh; lia|]).
Qed.

(** The request, header and message, becomes the reply. *)
Lemma make_reply_ok k E p g l o n src dest : own k E p g l -> payload g = Some (p, o) -> 20 <= n <= 60 -> n + 4 <= len g -> is_u32 src -> is_u32 dest ->
  let h := take (Z.to_nat n) (payload_data (areas (st_of k)) g) in
  let m := drop (Z.to_nat n) (payload_data (areas (st_of k)) g) in
  exists s', make_reply p (Some (p, o + n)) (Some (p, o)) src dest n (st_of k) = Ok s' /\
    own (set_st s' k) E p (with_if_idx NETIF_NO_INDEX g) l /\
    payload_data (areas s') g = reply_header h src dest ++ reply_message m /\ chain_data (areas s') l = chain_data (areas (st_of k)) l.
Proof.
  intros H Hp Hn Hlen Hsrc Hdest h m. destruct (own_data _ _ _ _ _ H) as (Hld & Hbd & _). set (d := payload_data (areas (st_of k)) g) in *.
  assert (Ed : d = h ++ m) by (symmetry; apply take_drop). assert (Hlh : length h = n :> Z) by (unfold h; rewrite length_take; lia).
  assert (Hlm : 4 <= length m) by (unfold m; rewrite length_drop; lia).
  assert (Hbh : bytes_ok h) by (by apply Forall_take). assert (Hbm : bytes_ok m) by (by apply Forall_drop).
  set (c := oc (word_at m 2 + 8)). pose proof (word_at_u16 m 2 Hbm) as Hw. assert (Hc : is_u16 c) by (pose proof (oc_range (word_at m 2 + 8)); unfold c; solve_u).
  destruct (reply_writes h m src dest c ltac:(lia) Hlm Hc) as (R1 & R2 & R3).
  set (v := 65535 - oc (wsum (reply_fields h 0 src dest))).
  assert (Hv : is_u16 v) by (pose proof (oc_range (wsum (reply_fields h 0 src dest))); unfold v; solve_u).
  unfold ip_src, ip_dest, ip_ttl, ip_chksum, icmp_type, icmp_chksum in *. rewrite Hlh in *.
  destruct (own_write k E p g l [(12, le_bytes src); (16, le_bytes dest); (n + 0, [ICMP_ER])] H) as (s1 & W1 & H1 & D1 & T1 & _); [by eexists| |].
  { repeat constructor; cbn [fst snd length le_bytes]; (done || solve_u || lia). }
  fold d in D1. rewrite Ed in D1. set (d1 := written _ (h ++ m)) in *.
  assert (Hnh : new_head (areas (st_of (set_st s1 k))) p g (with_if_idx NETIF_NO_INDEX g)).
  { pose proof (own_lookup _ _ _ _ _ H1) as Hb1. destruct (own_data _ _ _ _ _ H1) as (_ & _ & _ & Hmax).
    pose proof (so_payload _ _ (user_whole _ E (own_inv _ _ _ _ _ H1)) p g Hb1) as Hpl. by split. }
  pose proof (own_new_head _ E p g (with_if_idx NETIF_NO_INDEX g) l H1 Hnh) as H2. rewrite set_st_set_st, st_set_st in H2.
  set (g' := with_if_idx NETIF_NO_INDEX g) in *. set (s2 := set_pbufs (<[p := g']> (pbufs s1)) s1) in *.
  destruct (own_write (set_st s2 k) E p g' l [(n + 2, [c mod 256; c / 256]); (8, [ICMP_TTL]); (10, [0; 0])] H2) as (s3 & W3 & H3 & D3 & T3 & _); [by eexists| |].
  { change (len g') with (len g). repeat constructor; cbn [fst snd length]; (done || solve_u || lia). }
  destruct (own_write (set_st s3 (set_st s2 k)) E p g' l [(10, [v mod 256; v / 256])] H3) as (s4 & W4 & H4 & D4 & T4 & _); [by eexists| |].
  { change (len g') with (len g). repeat constructor; cbn [fst snd length]; (done || solve_u || lia). }
  rewrite !set_st_set_st in *. rewrite !st_set_st in *.
  change (payload_data (areas s2) g') with (payload_data (areas s1) g) in *. rewrite D1, R2 in D3. rewrite D3, R3 in D4.
  pose proof (own_lookup _ _ _ _ _ H) as Hb. pose proof (own_lookup _ _ _ _ _ H1) as Hb1. pose proof (own_lookup _ _ _ _ _ H2) as Hb2. pose proof (own_lookup _ _ _ _ _ H3) as Hb3.
  rewrite st_set_st in Hb1, Hb2, Hb3.
  pose proof (user_whole _ _ (own_inv _ _ _ _ _ H2)) as Hs2. pose proof (user_whole _ _ (own_inv _ _ _ _ _ H3)) as Hs3. rewrite st_set_st in Hs2, Hs3.
  exists s4. split; [|split; [done|]; split; [exact D4 | rewrite T4, T3; exact T1]].
  unfold make_reply, ip_src, ip_dest, ip_ttl, ip_chksum, icmp_type, icmp_chksum, hdr_write16.
  cbn [hdr_writes] in W1. apply bind_inv in W1 as (a1 & Wa & W1). rewrite Wa, bind_ok. apply bind_inv in W1 as (a2 & Wb & W1). rewrite Wb, bind_ok.
  apply bind_inv in W1 as (a3 & W1 & [= ->]).
  apply hdr_write_pbufs in Wa. apply hdr_write_pbufs in Wb. assert (Hba : pbufs a2 !! p = Some g) by congruence.
  rewrite (write_at_hdr a2 p g o (o + n)) by done. replace (o + n - o + 0) with (n + 0) by lia. rewrite W1, bind_ok.
  rewrite (modify_some _ _ _ _ Hb1), bind_ok. fold g' s2.
  rewrite (head_read16 s2 _ p g' o (o + n) 2 Hs2 Hb2 Hp) by (cbn; lia). replace (o + n - o + 2) with (n + 2) by lia.
  change (payload_data (areas s2) g') with (payload_data (areas s1) g). rewrite D1, R1, bind_ok, adjust_chksum_oc by done. fold c.
  cbn [hdr_writes] in W3. unfold write16_at. rewrite (write_at_hdr s2 p g' o (o + n)) by done. replace (o + n - o + 2) with (n + 2) by lia.
  rewrite (u8_id (c / 256)) by solve_u. change (u8 c) with (c mod 256).
  apply bind_inv in W3 as (a4 & -> & W3). rewrite bind_ok. apply bind_inv in W3 as (a5 & -> & W3). rewrite bind_ok.
  apply bind_inv in W3 as (a6 & W3 & [= ->]). change (u8 0) with 0. change (u8 (0 / 256)) with 0. rewrite W3, bind_ok.
  change (Some (p, o)) with (payload g') || replace (Some (p, o)) with (payload g') by done.
  rewrite (chksum_at_ok s3 _ p g' n Hs3 Hb3) by (cbn; lia). rewrite D3, take_app_length' by (rewrite reply_fields_length; lia).
  fold v. rewrite bind_ok. rewrite (u8_id (v / 256)) by solve_u. change (u8 v) with (v mod 256).
  cbn [hdr_writes] in W4. apply bind_inv in W4 as (a7 & W4 & [= ->]). done.
Qed.

(** The test whether headers fit in front leaves the packet as it is. *)
Lemma header_probe k E p b l n : own k E p b l -> 0 < n <= 65535 -> header_room b n = true -> 0 <= len b ->
  exists k1, on_packets (pbuf_add_header (Some p) n) k = Ok (k1, 0) /\ on_packets (pbuf_remove_header (Some p) n) k1 = Ok (k, 0).
Proof.
  intros H Hn Hr Hl. destruct (own_add_header k E p b l n H Hn) as [-> Ho]. rewrite Hr in *. specialize (Ho eq_refl). eexists. split; [reflexivity|].
  destruct (own_remove_header _ E p _ l n Ho Hn) as [-> _]. rewrite (proj2 (Z.leb_le n _)) by (cbn; lia). do 2 f_equal.
  rewrite st_set_st, set_st_set_st. cbn [pbufs set_pbufs]. rewrite grow_head_back, insert_insert_eq, insert_id by (by eapply own_lookup).
  transitivity (set_st (st_of k) k); [f_equal; by destruct (st_of k) | apply set_st_self].
Qed.

(** The packet [q] becomes an error message about the packet [p], without a
    checksum. *)
Lemma fill_ok k E q c oq p l n type code : own k E q c [] -> payload c = Some (q, oq) -> len c = SIZEOF_ICMP_HDR + n ->
  packet (pbufs (st_of k)) (areas (st_of k)) p l -> no_empty l -> q ∉ l.*1 -> p <> q -> 0 <= n <= total_len l -> is_u8 type -> is_u8 code ->
  exists k', fill_message q p (payload c) type code n k = Ok k' /\
    (exists s', k' = set_st s' k) /\ own k' E q c [] /\
    (exists x y, payload_data (areas (st_of k')) c = [type; code; x; y; 0; 0; 0; 0] ++ take (Z.to_nat n) (chain_data (areas (st_of k)) l)) /\
    packet (pbufs (st_of k')) (areas (st_of k')) p l /\ chain_data (areas (st_of k')) l = chain_data (areas (st_of k)) l /\ pbufs (st_of k') = pbufs (st_of k).
Proof.
  intros H Hq Hlen Hp He Hql Hne Hn Ht Hc. unfold SIZEOF_ICMP_HDR in *. pose proof (own_lookup _ _ _ _ _ H) as Hqb.
  destruct (own_write k E q c [] [(icmp_type, [type]); (icmp_code, [code]); (icmp_data, [0; 0; 0; 0])] H) as (s1 & W1 & H1 & D1 & _ & P1' & O1); [by eexists| |].
  { unfold icmp_type, icmp_code, icmp_data. rewrite Hlen. repeat constructor; cbn [fst snd length]; (done || solve_u || lia). }
  destruct (O1 p Hne l Hp) as (l1 & Hp1 & E1 & _). assert (l1 = l) as ->.
  { pose proof (pk_chain _ _ _ _ Hp1) as Hc1. rewrite P1' in Hc1. apply (chain_at_det _ _ _ _ Hc1 (pk_chain _ _ _ _ Hp)). }
  pose proof (own_packet _ _ _ _ _ H1) as Hpq1. pose proof (own_is_head _ _ _ _ _ H1) as Hh1. pose proof (user_whole _ _ (own_inv _ _ _ _ _ H1)) as Hs1.
  rewrite st_set_st in Hpq1, Hh1, Hs1.
  destruct (copy_into_ok s1 _ q c p l n 8 Hs1 Hpq1 Hh1) as (ar & Ec & Hs2 & Hpq2 & Dq & Hp2 & Dp & _); [by eexists | done | done | done | lia | lia | lia | lia |].
  exists (set_st (set_areas ar s1) k). rewrite st_set_st.
  assert (H2 : own (set_st (set_areas ar s1) (set_st s1 k)) E q c []) by (apply own_rewrite; rewrite ?st_set_st; done). rewrite set_st_set_st in H2.
  split; [|split; [by eexists|]; split; [done|]; split; [|split; [done|]; split; [by rewrite <- E1|done]]].
  - cbn [hdr_writes] in W1. unfold fill_message. rewrite Hq, (write_at_hdr (st_of k) q c oq oq) by done.
    apply bind_inv in W1 as (a1 & Wa & W1). apply bind_inv in W1 as (a2 & Wb & W1). apply bind_inv in W1 as (a3 & Wc & [= ->]).
    pose proof (hdr_write_pbufs _ _ _ _ _ Wa) as Pa. pose proof (hdr_write_pbufs _ _ _ _ _ Wb) as Pb.
    rewrite Z.sub_diag, !Z.add_0_l. rewrite Wa, bind_ok, (write_at_hdr a1 q c oq oq), Z.sub_diag, Z.add_0_l by congruence.
    rewrite Wb, bind_ok, (write_at_hdr a2 q c oq oq), Z.sub_diag, Z.add_0_l by congruence. rewrite Wc, bind_ok.
    unfold on_packets, in_store, SIZEOF_ICMP_HDR. rewrite st_set_st, Ec, !bind_ok. by rewrite set_st_set_st.
  - cbn [areas set_areas]. destruct (own_data _ _ _ _ _ H) as (Hld & _). rewrite Dq, D1, E1. set (d := payload_data (areas (st_of k)) c) in *.
    pose proof (packet_length _ _ _ _ Hp). apply message_bytes. rewrite length_take. lia.
Qed.

(** A write that leaves the head as it is. *)
Lemma own_write1 k E p b o off src : own k E p b [] -> payload b = Some (p, o) -> 0 <= off -> off + length src <= len b -> bytes_ok src ->
  exists s', write_at (payload b) off src (st_of k) = Ok s' /\ own (set_st s' k) E p b [] /\
    payload_data (areas s') b = list_inserts (Z.to_nat off) src (payload_data (areas (st_of k)) b).
Proof.
  intros H Hp H1 H2 H3. destruct (own_write k E p b [] [(off, src)] H) as (s' & W & H' & D & _); [by eexists | by constructor |].
  cbn [hdr_writes] in W. apply bind_inv in W as (a & W & [= ->]). exists s'. split; [|by split].
  rewrite Hp, (write_at_hdr (st_of k) p b o o), Z.sub_diag, Z.add_0_l by (done || by eapply own_lookup). done.
Qed.

Variable custom_free_function : ptr -> store P1 P2 -> res (store P1 P2).
Variable fresh_byte : nat -> Z.
Hypothesis fresh_u8 : forall i, is_u8 (fresh_byte i).
Variable ip4_frag : ptr -> Z -> Z -> K -> res (K * Z).
Hypothesis frag_ok : frag_contract ip4_frag.

(** The whole of [icmp_reply]: the packet is sent as a reply, and given back. *)
Lemma icmp_reply_ok k E p b l o d inp nif src n : own k ({[+ p +]} ⊎ E) p b l -> no_empty l -> payload b = Some (p, o) ->
  areas (st_of k) !! p = Some d -> 20 <= n <= 60 -> header_room b (n + SIZEOF_ETH_HDR) = true -> 4 <= len b ->
  netifs (net_of k) !! inp = Some nif -> is_u32 src ->
  let dest := current_iphdr_src (ip_of k) in
  let reply := reply_header (window d (o - n) n) src dest ++ reply_message (chain_data (areas (st_of k)) ((p, b) :: l)) in
  exists k', icmp_reply custom_free_function fresh_byte ip4_frag p inp src n k = Ok k' /\ user_inv k' E /\
    netifs (net_of k') = netifs (net_of k) /\ ip_of k' = ip_of k /\
    (fits nif (n + tot_len b) = true -> exists k1 n' r, ready k ({[+ p +]} ⊎ E) p reply true k1 /\ resolved inp dest nif p (net_of k1) n' r /\
       device (net_of k') = device n' /\ arp_table (net_of k') = arp_table n').
Proof using fresh_u8 frag_ok V.
  intros H He Hp Ha Hn Hroom Hlen Hnif Hsrc dest reply. pose proof (own_lookup _ _ _ _ _ H) as Hb.
  destruct (own_data _ _ _ _ _ H) as (Hld & Hbd & Hlb & Htb). unfold SIZEOF_ETH_HDR in Hroom. destruct (header_room_own _ _ _ _ Hp Hroom) as [Ho Hmax].
  pose proof (user_whole k _ (own_inv _ _ _ _ _ H)) as Hs.
  destruct (grow_window _ p b o d n (so_payload _ _ Hs p b Hb) Hp Ha) as [Eg Hlw]; [lia|].
  unfold icmp_reply. rewrite (get_some _ _ _ Hb), bind_ok. destruct (own_add_header k _ p b l n H) as [-> Hr]; [lia|].
  assert (Hroom1 : header_room b n = true).
  { unfold header_room in *. rewrite Hp, !andb_true_iff, !Z.leb_le in *. destruct Hroom as [[? _] _]. repeat split; [done | lia..]. }
  rewrite Hroom1 in *. specialize (Hr eq_refl). rewrite bind_ok, Z.eqb_refl. cbn [negb].
  set (g := grow_head n b) in *. set (s1 := set_pbufs _ _) in *. set (k1 := set_st s1 k) in *.
  assert (Est : st_of k1 = s1) by apply st_set_st. pose proof (own_lookup _ _ _ _ _ Hr) as Hb1. rewrite (get_some _ _ _ Hb1), bind_ok.
  assert (Epg : payload g = Some (p, o - n)) by (unfold g, grow_head; by rewrite Hp).
  assert (Elen : len g = len b + n /\ tot_len g = tot_len b + n) by done. destruct Elen as [Elen Etot].
  assert (Hdest : is_u32 dest) by (apply (iw_src _ _ (ip_user_wf k _ (own_inv _ _ _ _ _ H)))).
  destruct (make_reply_ok k1 _ p g l (o - n) n src dest Hr Epg Hn ltac:(lia) Hsrc Hdest) as (s2 & Em & H2 & D2 & T2).
  replace (o - n + n) with o in Em by lia. assert (Ei : ip_of k1 = ip_of k) by apply ip_set_net. rewrite Hp, Epg, Ei. fold dest. rewrite Em, bind_ok.
  rewrite Est in *. change (areas s1) with (areas (st_of k)) in *.
  rewrite Eg, take_app_length', drop_app_length' in D2 by lia.
  assert (Edata : chain_data (areas s2) ((p, with_if_idx NETIF_NO_INDEX g) :: l) = reply).
  { rewrite chain_data_cons, T2. change (payload_data (areas s2) (with_if_idx NETIF_NO_INDEX g)) with (payload_data (areas s2) g). rewrite D2.
    unfold reply. rewrite chain_data_cons, reply_message_app by lia. by rewrite <- app_assoc. }
  set (g' := with_if_idx NETIF_NO_INDEX g) in *. set (k2 := set_st s2 k1) in *.
  assert (En2 : net_of k2 = set_packets s2 (net_of k)) by (unfold k2, k1, set_st; by rewrite !net_set_net).
  assert (Es2 : st_of k2 = s2) by apply st_set_st.
  destruct (output_hdrincl_ok custom_free_function fresh_byte fresh_u8 ip4_frag frag_ok k2 _ p g' l src ICMP_TTL 0 IP_PROTO_ICMP inp nif H2) as (k3 & r & -> & Hk3 & Hn3 & Hi3 & _ & Hfit).
  { constructor; [cbn; lia | done]. } { unfold IP_HLEN. cbn. lia. } { by rewrite En2. }
  rewrite bind_ok. destruct (free_pbuf_ok custom_free_function k3 E p Hk3) as (s4 & -> & Hk4 & _). exists (set_st s4 k3).
  assert (Enet : net_of (set_st s4 k3) = set_packets s4 (net_of k3)) by (unfold set_st; by rewrite net_set_net).
  split; [done|]. split; [done|]. split; [rewrite Enet; cbn; by rewrite Hn3, En2|]. split; [unfold set_st; rewrite ip_set_net, Hi3; unfold k2, set_st; by rewrite ip_set_net|].
  intros Hf. destruct Hfit as [_ Hres]; [cbn; rewrite Z.add_comm; exact Hf|].
  assert (Edst : long_at (payload_data (areas (st_of k2)) g') ip_dest = dest).
  { rewrite Es2. change (payload_data (areas s2) g') with (payload_data (areas s2) g). rewrite D2.
    unfold reply_header. set (v := 65535 - _). pose proof (reply_dest (window d (o - n) n) v src dest (reply_message (payload_data (areas (st_of k)) b)) ltac:(lia)) as Ew.
    pose proof (long_at_window (reply_fields (window d (o - n) n) v src dest ++ reply_message (payload_data (areas (st_of k)) b)) ip_dest 4 0 ltac:(by unfold ip_dest) ltac:(lia) ltac:(lia)) as El.
    rewrite Ew, Z.add_0_r in El. rewrite <- El. pose proof (get32_le_bytes dest) as E32. rewrite get32_at in E32 by (cbn; lia). by injection E32. }
  rewrite Edst in Hres. exists k2, (net_of k3), r. split; [|split; [done | by rewrite Enet]].
  split; try (by rewrite En2). exists g', l. split; [done|]. split; [constructor; [cbn; lia | done]|]. rewrite Es2. split; [done|].
  change (header_room g' SIZEOF_ETH_HDR) with (header_room g SIZEOF_ETH_HDR). unfold g. rewrite header_room_more by (done || lia).
  by replace (SIZEOF_ETH_HDR + n) with (n + 14) by (unfold SIZEOF_ETH_HDR; lia).
Qed.

(** Nothing happens but that the packet is given back. *)
Definition discarded k E k' : Prop := exists s, k' = set_st s k /\ user_inv k' E.

Lemma icmp_drop k E p : user_inv k ({[+ p +]} ⊎ E) -> exists k', free_pbuf custom_free_function p k = Ok k' /\ discarded k E k'.
Proof. intros Hk. destruct (free_pbuf_ok custom_free_function k E p Hk) as (s & -> & Hk' & _). exists (set_st s k). split; [done|]. by exists s. Qed.

(** What is left after an answer: the packet [p] has been sent with the bytes
    [reply]. *)
Definition answered k E p reply np nif dest k' : Prop :=
  exists k1 n' r, ready k ({[+ p +]} ⊎ E) p reply true k1 /\ resolved np dest nif p (net_of k1) n' r /\
    device (net_of k') = device n' /\ arp_table (net_of k') = arp_table n'.

Lemma icmp_input_ok k E p b l o d inp nif cur cnif n : own k ({[+ p +]} ⊎ E) p b l -> no_empty l -> payload b = Some (p, o) ->
  areas (st_of k) !! p = Some d -> 20 <= n <= 60 -> header_room b (n + SIZEOF_ETH_HDR) = true ->
  netifs (net_of k) !! inp = Some nif -> current_netif (ip_of k) = Some cur -> netifs (net_of k) !! cur = Some cnif ->
  current_ip4_header (ip_of k) = Some (p, o - n) -> IPH_HL_BYTES (byte_at d (o - n)) = n ->
  let src := current_iphdr_dest (ip_of k) in
  let dest := current_iphdr_src (ip_of k) in
  let m := chain_data (areas (st_of k)) ((p, b) :: l) in
  exists k', icmp_input custom_free_function fresh_byte ip4_frag p inp k = Ok k' /\ user_inv k' E /\
    netifs (net_of k') = netifs (net_of k) /\ ip_of k' = ip_of k /\
    if answers src cnif (len b) m
    then fits nif (n + tot_len b) = true -> answered k E p (reply_header (window d (o - n) n) src dest ++ reply_message m) inp nif dest k'
    else discarded k E k'.
Proof using fresh_u8 frag_ok V.
  intros H He Hp Ha Hn Hroom Hnif Hcur Hcnif Hhdr Hhl src dest m. pose proof (own_lookup _ _ _ _ _ H) as Hb. pose proof (own_inv _ _ _ _ _ H) as Hk.
  destruct (own_data _ _ _ _ _ H) as (Hld & Hbd & Hlb & Htb). pose proof (user_whole k _ Hk) as Hs.
  destruct (header_room_own _ _ _ _ Hp Hroom) as [Ho Hmax]. unfold SIZEOF_ETH_HDR in Ho, Hmax.
  destruct (so_payload _ _ Hs p b Hb) as (a' & o' & d' & Hp' & Ha' & _ & _ & Hd & _). rewrite Hp in Hp'. injection Hp' as <- <-.
  rewrite Ha in Ha'. injection Ha' as <-.
  pose proof (packet_length _ _ _ _ (own_packet _ _ _ _ _ H)) as Hlm. fold m in Hlm.
  destruct (packet_cons _ _ _ _ _ _ (own_packet _ _ _ _ _ H)) as (_ & _ & _ & Htot & _).
  destruct (icmp_drop k E p Hk) as (k0 & Edrop & s0 & -> & Hk0).
  assert (Hdrop : forall e : res K, e = free_pbuf custom_free_function p k -> exists k', e = Ok k' /\ user_inv k' E /\
    netifs (net_of k') = netifs (net_of k) /\ ip_of k' = ip_of k /\ discarded k E k').
  { intros e ->. exists (set_st s0 k). split; [done|]. split; [done|]. unfold set_st. rewrite net_set_net, ip_set_net. split; [done|]. split; [done|]. by exists s0. }
  unfold icmp_input. rewrite Hhdr. rewrite (read8_at_ok _ _ d) by (done || unfold ip_v_hl; lia). unfold ip_v_hl. rewrite Z.add_0_r, bind_ok, Hhl.
  destruct (Z.ltb_spec n IP_HLEN) as [Hlt|_]; [unfold IP_HLEN in Hlt; lia|]. rewrite (get_some _ _ _ Hb), bind_ok.
  unfold answers. destruct (Z.ltb_spec (len b) 4) as [Hshort|Hlong]; [rewrite (proj2 (Z.leb_gt 4 (len b))) by lia; by apply Hdrop|].
  rewrite (proj2 (Z.leb_le 4 (len b))) by lia. cbn [andb]. rewrite Hp, (read8_at_ok _ _ d) by (done || unfold icmp_type; lia).
  assert (Etype : byte_at d (o + icmp_type) = byte_at m 0).
  { unfold m, icmp_type. rewrite Z.add_0_r, chain_data_cons, (payload_data_window _ b p o d) by (done || lia).
    unfold byte_at at 2. rewrite app_nth1 by (rewrite <- (Nat2Z.id (length _)), window_length; lia).
    change (nth (Z.to_nat 0) (window d o (len b)) 0) with (byte_at (window d o (len b)) 0). rewrite byte_at_window by lia. by rewrite Z.add_0_r. }
  rewrite Etype, bind_ok. destruct (byte_at m 0 =? ICMP_ECHO); cbn [andb]; [|by apply Hdrop].
  unfold icmp_echo. fold src. destruct (ip4_addr_ismulticast src); cbn [andb negb]; [by apply Hdrop|].
  rewrite Hcur. cbn [of_option]. rewrite bind_ok, (netif_at_some _ _ _ Hcnif), bind_ok. destruct (ip4_addr_isbroadcast src cnif); cbn [andb negb]; [by apply Hdrop|].
  rewrite (get_some _ _ _ Hb), bind_ok, Hlm, total_len_cons. cbn [snd]. rewrite <- Htot.
  destruct (Z.ltb_spec (tot_len b) SIZEOF_ICMP_ECHO_HDR) as [Hshort|Hecho]; [rewrite (proj2 (Z.leb_gt SIZEOF_ICMP_ECHO_HDR (tot_len b))) by lia; by apply Hdrop|].
  rewrite (proj2 (Z.leb_le SIZEOF_ICMP_ECHO_HDR (tot_len b))) by lia. cbn [andb].
  rewrite (chksum_pbuf_ok _ _ p _ Hs (own_packet _ _ _ _ _ H)), bind_ok. fold m.
  destruct (Z.eqb_spec (65535 - oc (wsum m)) 0) as [Hc|Hc]; cbn [negb];
    [rewrite (proj2 (Z.eqb_eq (oc (wsum m)) 65535)) by lia | rewrite (proj2 (Z.eqb_neq (oc (wsum m)) 65535)) by lia; by apply Hdrop].
  change (n + PBUF_LINK_HLEN + PBUF_LINK_ENCAPSULATION_HLEN) with (n + 14 + 0). rewrite Z.add_0_r.
  destruct (header_probe k _ p b l (n + 14) H) as (k1 & -> & Erm); [lia | done | lia |]. rewrite bind_ok, Z.eqb_refl. cbn [negb].
  rewrite Erm, bind_ok, Z.eqb_refl. cbn [negb]. rewrite bind_ok.
  destruct (icmp_reply_ok k E p b l o d inp nif src n H He Hp Ha Hn Hroom ltac:(lia) Hnif) as (k' & Er & Hk' & Hn' & Hi' & Hrest).
  { apply (iw_dest _ _ (ip_user_wf k _ Hk)). }
  exists k'. by split_and!.
Qed.

Lemma send_message_ok k E q c oq type code x y w dest np nif : own k E q c [] -> payload c = Some (q, oq) ->
  payload_data (areas (st_of k)) c = [type; code; x; y; 0; 0; 0; 0] ++ w -> header_room c (SIZEOF_ETH_HDR + IP_HLEN) = true ->
  netifs (net_of k) !! np = Some nif -> is_u32 dest ->
  exists k', send_message custom_free_function fresh_byte ip4_frag q (payload c) dest np k = Ok k' /\ user_inv k' E /\
    netifs (net_of k') = netifs (net_of k) /\ ip_of k' = snd (next_ip_id IP_PROTO_ICMP (tot_len c + IP_HLEN) (ip_of k)) /\
    (fits nif (tot_len c + IP_HLEN) = true -> exists k1 r,
       ready k E q (sent_header 0 (tot_len c + IP_HLEN) (ip_id (ip_of k)) ICMP_TTL IP_PROTO_ICMP (ip_addr nif) dest ++ error_message type code w) true k1 /\
       resolved np dest nif q (net_of k1) (net_of k') r).
Proof using fresh_u8 frag_ok V.
  intros H Hq Hd Hroom Hnif Hdest. destruct (own_data _ _ _ _ _ H) as (Hld & Hbd & Hlc & Htc). rewrite Hd in Hld, Hbd. rewrite length_app in Hld. cbn [length] in Hld.
  unfold send_message, write16_at. change [u8 0; u8 (0 / 256)] with [0; 0]. unfold icmp_chksum.
  destruct (own_write1 k E q c oq 2 [0; 0] H Hq) as (s1 & -> & H1 & D1); [lia | cbn [length]; lia | repeat constructor; solve_u|]. rewrite bind_ok.
  rewrite Hd in D1. change (list_inserts (Z.to_nat 2) [0; 0] ([type; code; x; y; 0; 0; 0; 0] ++ w)) with (error_fields type code 0 w) in D1.
  pose proof (own_lookup _ _ _ _ _ H1) as Hb1. pose proof (user_whole _ _ (own_inv _ _ _ _ _ H1)) as Hs1. rewrite st_set_st in Hb1, Hs1.
  rewrite (get_some _ _ _ Hb1), bind_ok, (chksum_at_ok s1 _ q c (len c) Hs1 Hb1), bind_ok by lia.
  pose proof (head_data_length s1 _ q c Hs1 Hb1) as Hl1. rewrite take_ge, D1 by lia.
  set (v := 65535 - oc (wsum (error_fields type code 0 w))).
  assert (Hv : is_u16 v) by (pose proof (oc_range (wsum (error_fields type code 0 w))); unfold v; solve_u).
  rewrite (u8_id (v / 256)) by solve_u. change (u8 v) with (v mod 256).
  destruct (own_write1 (set_st s1 k) E q c oq 2 [v mod 256; v / 256] H1 Hq) as (s2 & W2 & H2 & D2); [lia | cbn [length]; lia | repeat constructor; solve_u|].
  rewrite st_set_st in W2, D2. rewrite set_st_set_st in H2. rewrite W2, bind_ok. rewrite D1 in D2.
  change (list_inserts (Z.to_nat 2) [v mod 256; v / 256] (error_fields type code 0 w)) with (error_message type code w) in D2.
  assert (En : net_of (set_st s2 k) = set_packets s2 (net_of k)) by (unfold set_st; by rewrite net_set_net).
  assert (Ei : ip_of (set_st s2 k) = ip_of k) by (unfold set_st; by rewrite ip_set_net).
  assert (Hroom0 : header_room c IP_HLEN = true).
  { unfold header_room in *. rewrite Hq, !andb_true_iff, !Z.leb_le in *. unfold SIZEOF_ETH_HDR, IP_HLEN in *. destruct Hroom as [[? ?] ?]. repeat split; [done | lia..]. }
  destruct (output_if_ok custom_free_function fresh_byte fresh_u8 ip4_frag frag_ok (set_st s2 k) E q c [] None dest ICMP_TTL 0 IP_PROTO_ICMP np nif H2)
    as (k' & r & -> & Hk' & Hn' & _ & Hrest); try done; [by constructor | by rewrite En |]. rewrite bind_ok, Hroom0 in *. cbv zeta in Hrest. destruct Hrest as [Hid Hfit].
  rewrite Ei in *. exists k'. split; [done|]. split; [done|]. split; [by rewrite Hn', En|]. split; [done|].
  intros Hf. destruct (Hfit Hf) as (k1 & Hready & _ & Hres). exists k1, r. split; [|done]. rewrite chain_data_single, st_set_st, D2, Hroom in Hready.
  destruct Hready as [Ho Hdev Htab Hnet]. rewrite En in *. by split.
Qed.

(** Whether the heap has room for an error message about a datagram [d]. *)
Definition icmp_memory (d : list Z) k : bool :=
  has_ram PBUF_IP (SIZEOF_ICMP_HDR + length (take (Z.to_nat (IP_HLEN + ICMP_DEST_UNREACH_DATASIZE)) d)) (st_of k).

(** What comes of an error message about a datagram [d]: there was no memory or
    no route for it, or it was sent to the source of the datagram. *)
Inductive reported k E type code (d : list Z) k' : Prop :=
  | NotReported : icmp_memory d k = false \/ routed (netifs (net_of k)) (ip_of k) (long_at d ip_src) None ->
      device (net_of k') = device (net_of k) -> arp_table (net_of k') = arp_table (net_of k) -> ip_of k' = ip_of k -> reported k E type code d k'
  | Reported q np nif : let dest := long_at d ip_src in
      let w := take (Z.to_nat (IP_HLEN + ICMP_DEST_UNREACH_DATASIZE)) d in
      let n := SIZEOF_ICMP_HDR + length w + IP_HLEN in
      routed (netifs (net_of k)) (ip_of k) dest (Some np) -> netifs (net_of k) !! np = Some nif ->
      ip_of k' = set_ip_id (u16 (ip_id (ip_of k) + 1)) (ip_of k) ->
      (fits nif n = true -> exists k1 n' r,
         ready k ({[+ q +]} ⊎ E) q (sent_header 0 n (ip_id (ip_of k)) ICMP_TTL IP_PROTO_ICMP (ip_addr nif) dest ++ error_message type code w) true k1 /\
         resolved np dest nif q (net_of k1) n' r /\ device (net_of k') = device n' /\ arp_table (net_of k') = arp_table n') ->
      reported k E type code d k'.

Lemma send_response_ok k E p b l type code : user_inv k E -> packet (pbufs (st_of k)) (areas (st_of k)) p ((p, b) :: l) -> no_empty ((p, b) :: l) ->
  IP_HLEN <= len b -> is_u8 type -> is_u8 code ->
  exists k', icmp_send_response custom_free_function fresh_byte ip4_frag p type code k = Ok k' /\ user_inv k' E /\
    netifs (net_of k') = netifs (net_of k) /\ reported k E type code (chain_data (areas (st_of k)) ((p, b) :: l)) k'.
Proof using fresh_u8 frag_ok V.
  intros Hk Hp He Hlen Ht Hc. pose proof (packet_lookup _ _ _ _ Hp) as Hb. pose proof (user_whole k E Hk) as Hs.
  destruct (packet_cons _ _ _ _ _ _ Hp) as (_ & _ & Hlb & Htb & Htl & Hmax & _). pose proof (packet_length _ _ _ _ Hp) as Hld.
  set (d := chain_data (areas (st_of k)) ((p, b) :: l)) in *. unfold IP_HLEN in Hlen. rewrite total_len_cons in Hld. cbn [snd] in Hld.
  unfold icmp_send_response. rewrite (get_some _ _ _ Hb), bind_ok. cbv zeta. change (IP_HLEN + ICMP_DEST_UNREACH_DATASIZE) with 28.
  set (n := if tot_len b <? 28 then tot_len b else 28).
  assert (Hn : n = Z.min (tot_len b) 28) by (unfold n; destruct (Z.ltb_spec (tot_len b) 28); lia). clearbody n. unfold SIZEOF_ICMP_HDR.
  destruct (user_ram custom_free_function fresh_byte fresh_u8 k E PBUF_IP (8 + n) Hk) as (s1 & r & -> & Hr); [by unfold PBUF_IP | split; lia |]. rewrite bind_ok.
  assert (En1 : net_of (set_st s1 k) = set_packets s1 (net_of k)) by (unfold set_st; by rewrite net_set_net).
  assert (Ei1 : ip_of (set_st s1 k) = ip_of k) by (unfold set_st; by rewrite ip_set_net).
  destruct r as [q|].
  2: { destruct Hr as [Hk1 Hram]. exists (set_st s1 k). rewrite En1. split_and!; try done. apply NotReported; rewrite ?En1; try done. left.
       unfold icmp_memory, SIZEOF_ICMP_HDR, IP_HLEN, ICMP_DEST_UNREACH_DATASIZE. rewrite <- Hram. f_equal. rewrite length_take. lia. }
  destruct Hr as (o & Ho & Hown & Hq & Eps & Hsame). set (c := fresh_ram q o (8 + n)) in *. unfold PBUF_IP in Ho.
  pose proof (own_lookup _ _ _ _ _ Hown) as Hqb. rewrite (get_some _ _ _ Hqb), bind_ok. change (len c) with (8 + n). rewrite Z.leb_refl. cbn [lwip_assert]. rewrite bind_ok.
  assert (Hne : p <> q) by (intros ->; congruence). rewrite st_set_st.
  assert (Hb1 : pbufs s1 !! p = Some b) by (by rewrite Eps, lookup_insert_ne). rewrite (get_some _ _ _ Hb1), bind_ok.
  assert (Hql : q ∉ ((p, b) :: l).*1).
  { intros ([y e] & -> & Hin)%list_elem_of_fmap. pose proof (chain_at_lookup _ _ _ _ _ (pk_chain _ _ _ _ Hp) Hin). cbn in Hq. congruence. }
  destruct (Hsame p ltac:(by rewrite Hb) _ Hp) as (l1 & Hp1 & Ed1 & _).
  assert (l1 = (p, b) :: l) as ->.
  { apply (chain_at_det _ _ _ _ (pk_chain _ _ _ _ Hp1)). rewrite Eps. apply chain_at_insert_other; [apply Hp | done]. }
  fold d in Ed1. set (k1 := set_st s1 k) in *. assert (Est1 : st_of k1 = s1) by apply st_set_st.
  destruct (fill_ok k1 _ q c o p ((p, b) :: l) n type code Hown eq_refl eq_refl) as (k2 & -> & (s2 & Ek2) & H2 & (x & y & D2) & Hp2 & Ed2 & Eps2); try done.
  { by rewrite Est1. } { rewrite total_len_cons. cbn [snd]. lia. } rewrite bind_ok.
  rewrite Est1 in *. rewrite Ed1 in *.
  pose proof (packet_lookup _ _ _ _ Hp2) as Hb2. pose proof (user_whole _ _ (own_inv _ _ _ _ _ H2)) as Hs2.
  assert (Esrc : read32_at (payload b) ip_src (st_of k2) = Ok (long_at d ip_src)).
  { unfold read32_at. transitivity (hdr_read p ip_src 4 (st_of k2) ≫= fun e => get32 e 0); [unfold hdr_read; by rewrite (get_some _ _ _ Hb2), bind_ok|].
    rewrite (hdr_read_ok _ _ p b ip_src 4 Hs2 Hb2), bind_ok by (unfold ip_src; lia).
    pose proof (head_data_length _ _ p b Hs2 Hb2) as Hl2. unfold ip_src. rewrite get32_at by (rewrite ?window_length; lia).
    rewrite long_at_window, Z.add_0_r by lia. f_equal. rewrite <- Ed2, chain_data_cons. unfold long_at, word_at, byte_at. rewrite !app_nth1 by lia. done. }
  rewrite Esrc, bind_ok. set (dest := long_at d ip_src) in *.
  assert (Hdest : is_u32 dest). { apply long_at_u32. apply (chain_data_bytes _ (pbufs (st_of k)) p); [apply Hs | done]. }
  destruct (route_ok k2 _ dest (own_inv _ _ _ _ _ H2)) as (r & -> & Hroute). rewrite bind_ok.
  assert (En2 : net_of k2 = set_packets s2 (net_of k)) by (rewrite Ek2; unfold set_st at 1; by rewrite net_set_net, En1).
  assert (Ei2 : ip_of k2 = ip_of k) by (rewrite Ek2; unfold set_st at 1; by rewrite ip_set_net).
  rewrite En2, Ei2 in Hroute. change (netifs (set_packets s2 (net_of k))) with (netifs (net_of k)) in Hroute.
  destruct r as [np|].
  2: { rewrite bind_ok. destruct (free_pbuf_ok custom_free_function k2 E q (own_inv _ _ _ _ _ H2)) as (s3 & -> & Hk3 & _). exists (set_st s3 k2).
       assert (En3 : net_of (set_st s3 k2) = set_packets s3 (net_of k)) by (unfold set_st; by rewrite net_set_net, En2).
       split_and!; try done; [by rewrite En3 |]. apply NotReported; rewrite ?En3; try done; [by right|]. unfold set_st. by rewrite ip_set_net. }
  destruct (routed_some _ _ _ _ Hroute) as [nif Hnif].
  destruct (send_message_ok k2 _ q c o type code x y (take (Z.to_nat n) d) dest np nif H2 eq_refl D2) as (k3 & -> & Hk3 & Hn3 & Hi3 & Hfit); try done.
  { unfold header_room, SIZEOF_ETH_HDR, IP_HLEN. cbn. change (negb _) with true. cbn [andb]. apply andb_true_iff. rewrite !Z.leb_le. lia. } { by rewrite En2. } rewrite bind_ok.
  destruct (free_pbuf_ok custom_free_function k3 E q Hk3) as (s4 & -> & Hk4 & _). exists (set_st s4 k3).
  assert (En4 : net_of (set_st s4 k3) = set_packets s4 (net_of k3)) by (unfold set_st; by rewrite net_set_net).
  split; [done|]. split; [done|]. split; [rewrite En4; cbn; by rewrite Hn3, En2|].
  assert (Ew : take (Z.to_nat n) d = take (Z.to_nat (IP_HLEN + ICMP_DEST_UNREACH_DATASIZE)) d /\ tot_len c = SIZEOF_ICMP_HDR + length (take (Z.to_nat n) d)).
  { change (tot_len c) with (8 + n). unfold IP_HLEN, ICMP_DEST_UNREACH_DATASIZE, SIZEOF_ICMP_HDR. rewrite length_take. split; [|lia].
    destruct (Z.leb_spec (tot_len b) 28); [rewrite !take_ge by lia; done | do 2 f_equal; lia]. }
  destruct Ew as [Ew Etot]. rewrite Ew in Etot, Hfit. rewrite Etot, Ei2 in Hfit. rewrite Etot, Ei2 in Hi3.
  apply (Reported _ _ _ _ _ _ q np nif); [done | done | unfold set_st; rewrite ip_set_net, Hi3; done |].
  intros Hf. destruct (Hfit Hf) as (k5 & r & Hready & Hres). exists k5, (net_of k3), r. rewrite En4. split; [|by split_and!].
  destruct Hready as [Hr1 Hr2 Hr3 Hr4]. rewrite En2 in Hr2, Hr3, Hr4. by split.
Qed.

End Reply.
