(* ===== verification/Ip4Recv.v ===== *)
(** * The operations of ip4_input on a well-formed state

    A datagram that has arrived is shortened to its length, checked, and passed to
    its protocol or given back. The layers above and the reassembly of fragments
    are known by their contracts. *)

From stdpp Require Import gmultiset.
From S2P Require Import Prelude Strings Onescomp Def Chksum Ip4Addr Alloc Memp Mem Pbuf PbufRef PbufAlloc PbufStore PbufPool PbufTrim Ethernet EthArp EthArpOps EthArpOut LwipPort ArpSpec EthInput Ip4 Icmp Ip4Input HeadMem Ip4Ops IcmpOps.

(** ** Specifications *)

(** The bytes of memory from the header on: 498 of a frame of the controller. *)
Definition ROOM : Z := 498.

(** What of a datagram passes the first checks: its header is at [o] in the
    memory [d], [n] is the length of the first pbuf and [t] that of the packet. *)
Definition header_length (d : list Z) (o : Z) : Z := IPH_HL_BYTES (byte_at d o).
Definition datagram_length (d : list Z) (o : Z) : Z := lwip_htons (word_at d (o + ip_len)).
Definition well_formed (d : list Z) (o n t : Z) : bool :=
  (IPH_V (byte_at d o) =? 4) && (header_length d o <=? Z.min (datagram_length d o) n) && (datagram_length d o <=? t) && (IP_HLEN <=? header_length d o) &&
  (oc (wsum (window d o (header_length d o))) =? 65535).

(** A part of a datagram. *)
Definition is_fragment (d : list Z) (o : Z) : bool :=
  negb (Z.land (word_at d (o + ip_offset)) (PP_HTONS (Z.lor IP_OFFMASK IP_MF)) =? 0).

(** The addresses that datagrams may come from. *)
Definition source_ok (src : Z) (nif : netif) : bool := ip4_addr_isany src || negb (ip4_addr_isbroadcast src nif || ip4_addr_ismulticast src).

(** A message for the DHCP client. *)
Definition for_dhcp (d : list Z) (o n : Z) : bool :=
  (byte_at d (o + ip_proto) =? IP_PROTO_UDP) && (word_at d (o + n + 2) =? PP_NTOHS LWIP_IANA_PORT_DHCP_CLIENT).

(** No interface of the list but [inp] accepts datagrams to [dest]. *)
Definition refused (nets : gmap Z netif) (l : list Z) (dest inp : Z) : Prop :=
  forall np nif, np ∈ l -> np <> inp -> nets !! np = Some nif -> ip4_input_accept dest nif = false.

(** The interface for a datagram to [dest] that arrives on [inp], [nif]. *)
Inductive matched (nets : gmap Z netif) (m : ip_mod) (dest inp : Z) (nif : netif) : option Z -> Prop :=
  | MatchGroup : ip4_addr_ismulticast dest = true ->
      matched nets m dest inp nif (if netif_is_up nif && negb (ip4_addr_isany (ip_addr nif)) then Some inp else None)
  | MatchInput : ip4_addr_ismulticast dest = false -> ip4_input_accept dest nif = true -> matched nets m dest inp nif (Some inp)
  | MatchOther l np l' nif' : ip4_addr_ismulticast dest = false -> ip4_input_accept dest nif = false -> ip4_addr_isloopback dest = false ->
      netif_list m = l ++ np :: l' -> refused nets l dest inp -> np <> inp -> nets !! np = Some nif' -> ip4_input_accept dest nif' = true ->
      matched nets m dest inp nif (Some np)
  | MatchNone : ip4_addr_ismulticast dest = false -> ip4_input_accept dest nif = false ->
      (ip4_addr_isloopback dest = true \/ refused nets (netif_list m) dest inp) -> matched nets m dest inp nif None.

(** ** Lemmas *)

Lemma matched_some nets m dest inp nif np : matched nets m dest inp nif (Some np) -> nets !! inp = Some nif -> is_Some (nets !! np).
Proof.
  intros Hm Hnif. remember (Some np) as r eqn:Er. destruct Hm as [Hg| |l np' l' nif' H1 H2 H3 H4 H5 H6 H7 H8|]; [|injection Er as <-; by eexists..|done].
  destruct (_ && _) in Er; [|done]. injection Er as <-. by eexists.
Qed.

(** A datagram for the address of the interface it arrives on. *)
Lemma matched_own nets m inp nif r : matched nets m (ip_addr nif) inp nif r -> netif_is_up nif = true -> ip4_addr_isany (ip_addr nif) = false ->
  ip4_addr_ismulticast (ip_addr nif) = false -> r = Some inp.
Proof.
  intros Hm Hup Hany Hmc. assert (Ha : ip4_input_accept (ip_addr nif) nif = true) by (unfold ip4_input_accept; by rewrite Hup, Hany, Z.eqb_refl).
  destruct Hm; congruence.
Qed.

Section Recv.
Context {P1 P2 : Type} `{!PoolAlloc P1} `{!PoolAlloc P2} {X : Type} `{!LinkDriver X}.
Context {K : Type} {pn : Part K (net P1 P2 X)} {pi : Part K ip_mod} {U : ArpUser P1 P2 X K} {V : IpUser P1 P2 X K}.
Implicit Type k : K.
#[local] Set Default Proof Using "V".

(** *** Datagrams *)

(** A datagram of ours: the packet [p] is made of pbufs from the pool, its payload
    is at [o], the memory of its first pbuf is [d]. *)
Record datagram k (E : gmultiset ptr) (p : ptr) (b : pbuf) (l : list (ptr * pbuf)) (o : Z) (d : list Z) : Prop := Datagram
  { da_own : own k ({[+ p +]} ⊎ E) p b l;
    da_private : Forall pool_private ((p, b) :: l);
    da_payload : payload b = Some (p, o);
    da_memory : areas (st_of k) !! p = Some d;
    da_head : SIZEOF_ETH_HDR <= o;
    da_room : o + ROOM <= length d;
    da_top : o + tot_len b <= 65535 }.

Lemma datagram_arrived k E p b l o d : datagram k E p b l o d -> arrived (st_of k) p b SIZEOF_ETH_HDR ROOM.
Proof.
  intros [H1 H2 H3 H4 H5 H6 H7]. split; [by eapply own_lookup | exists l; split; [apply (own_packet _ _ _ _ _ H1) | done] |]. exists o, d. by split_and!.
Qed.

Lemma arrived_datagram k E p b : user_inv k ({[+ p +]} ⊎ E) -> arrived (st_of k) p b SIZEOF_ETH_HDR ROOM -> exists l o d, datagram k E p b l o d.
Proof.
  intros Hk H. pose proof (arrived_ref _ _ _ _ _ H) as Href. destruct H as [Hb (l & Hc & Hpr) (o & d & Hp & Ho & Ha & Hr & Ht)]. exists l, o, d.
  split; try done. split; [done | multiset_solver | | done]. pose proof (user_whole k _ Hk) as Hs.
  split; [done | |].
  - apply Forall_forall. intros [y c] Hy. apply (payload_ok_read _ y). apply (so_payload _ _ Hs). by eapply chain_at_lookup.
  - destruct (so_chain _ _ Hs p) as (l' & Hl' & Ht'); [by rewrite Hb|]. by rewrite (chain_at_det _ _ _ _ Hc Hl').
Qed.

Lemma private_no_empty l : Forall pool_private l -> no_empty l.
Proof using Type. intros H. eapply Forall_impl; [exact H|]. by intros x (_ & _ & Hx). Qed.

(** The memory behind the header pointer. *)
Lemma datagram_data k E p b l o d : datagram k E p b l o d ->
  0 < len b <= tot_len b /\ o + len b <= length d /\ bytes_ok d /\ payload_data (areas (st_of k)) b = window d o (len b).
Proof.
  intros [H1 H2 H3 H4 H5 H6 H7]. apply Forall_cons in H2 as [(_ & _ & Hl) _]. cbn [snd] in Hl.
  destruct (own_data _ _ _ _ _ H1) as (_ & _ & Hlb & _). pose proof (own_lookup _ _ _ _ _ H1) as Hb.
  pose proof (user_whole k _ (own_inv _ _ _ _ _ H1)) as Hs.
  destruct (so_payload _ _ Hs p b Hb) as (a' & o' & d' & Hp' & Ha' & Ho' & _ & Hd & _). rewrite H3 in Hp'. injection Hp' as <- <-.
  rewrite H4 in Ha'. injection Ha' as <-. split_and!; try lia; [by apply (so_bytes _ _ Hs p)|].
  by apply (payload_data_window _ b p o d); (done || lia).
Qed.

(** The packet in a state that differs in what is known about it. *)
Lemma datagram_update_ip k E p b l o d f : datagram k E p b l o d -> ip_wf (netifs (net_of k)) (f (ip_of k)) -> datagram (update_ip f k) E p b l o d.
Proof. intros [H1 H2 H3 H4 H5 H6 H7] Hw. split; try done; [by apply own_update_ip | by rewrite st_update_ip]. Qed.

Lemma current_wf nets m src dest : ip_wf nets m -> is_u32 src -> is_u32 dest -> ip_wf nets (set_current_addrs src dest m).
Proof using Type. intros [H1 H2 H3 H4 H5] Hs Hd. by split. Qed.

Lemma set_current_wf nets m a b c n : ip_wf nets m -> ip_wf nets (set_current a b c n m).
Proof using Type. intros [H1 H2 H3 H4 H5]. by split. Qed.

Lemma header_length_range v : 0 <= IPH_HL_BYTES v <= 60.
Proof using Type.
  unfold IPH_HL_BYTES, IPH_HL. change 0x0f with (Z.ones 4). rewrite Z.land_ones by lia. change (2 ^ 4) with 16. solve_u.
Qed.

(** *** What the layers above promise *)

(** A datagram as its protocol gets it: the payload is behind a header of [n]
    bytes, and the module knows the header and the interfaces. *)
Record delivered k E p b l o d n cur inp : Prop := Delivered
  { dl_own : own k ({[+ p +]} ⊎ E) p b l;
    dl_tail : no_empty l;
    dl_payload : payload b = Some (p, o);
    dl_memory : areas (st_of k) !! p = Some d;
    dl_header : 20 <= n <= 60;
    dl_room : header_room b (n + SIZEOF_ETH_HDR) = true;
    dl_input : is_Some (netifs (net_of k) !! inp);
    dl_current : current_netif (ip_of k) = Some cur;
    dl_netif : is_Some (netifs (net_of k) !! cur);
    dl_in : current_input_netif (ip_of k) = Some inp;
    dl_hdr : current_ip4_header (ip_of k) = Some (p, o - n);
    dl_hlen : IPH_HL_BYTES (byte_at d (o - n)) = n;
    dl_tot : current_ip_header_tot_len (ip_of k) = n }.

(** A transport takes over every datagram it gets. *)
Definition transport_contract (f : ptr -> Z -> K -> res K) : Prop :=
  forall k E p b l o d n cur inp, delivered k E p b l o d n cur inp -> exists k', f p inp k = Ok k' /\ user_inv k' E.

(** The reassembly keeps a fragment or gives a whole datagram back, whose header
    has no options. *)
Definition reass_contract (ip4_reass : ptr -> K -> res (K * option ptr)) : Prop :=
  forall k E p b l o d, datagram k E p b l o d -> IP_HLEN <= IPH_HL_BYTES (byte_at d o) <= len b ->
  exists k' r, ip4_reass p k = Ok (k', r) /\ netifs (net_of k') = netifs (net_of k) /\
    match r with
    | None => user_inv k' E
    | Some q => IPH_HL_BYTES (byte_at d o) = IP_HLEN /\
        exists b' l' o' d', datagram k' E q b' l' o' d' /\ IPH_HL_BYTES (byte_at d' o') = IP_HLEN /\ IP_HLEN <= len b'
    end.

(** The datagram is handed on: the payload moves behind the header. *)
Lemma enter_ok k E p b l o d n np inp : datagram k E p b l o d -> IPH_HL_BYTES (byte_at d o) = n -> IP_HLEN <= n <= len b ->
  is_Some (netifs (net_of k) !! np) -> is_Some (netifs (net_of k) !! inp) ->
  let k1 := update_ip (set_current (Some np) (Some inp) (Some (p, o)) n) k in
  let b2 := grow_head (- n) b in
  let k2 := set_st (set_pbufs (<[p := b2]> (pbufs (st_of k))) (st_of k)) k1 in
  on_packets (pbuf_remove_header (Some p) n) k1 = Ok (k2, 0) /\ delivered k2 E p b2 l (o + n) d n np inp /\
  chain_data (areas (st_of k2)) ((p, b2) :: l) = drop (Z.to_nat n) (chain_data (areas (st_of k)) ((p, b) :: l)).
Proof.
  intros H Hhl Hn Hnp Hinp k1 b2 k2. destruct (datagram_data _ _ _ _ _ _ _ H) as (Hlb & Hld & Hbd & Hdata). unfold IP_HLEN in Hn.
  pose proof (header_length_range (byte_at d o)) as Hr. rewrite Hhl in Hr.
  assert (H1 : datagram k1 E p b l o d). { apply datagram_update_ip; [done|]. apply set_current_wf, (ip_user_wf k _ (own_inv _ _ _ _ _ (da_own _ _ _ _ _ _ _ H))). }
  pose proof H1 as [G1 G2 G3 G4 G5 G6 G7]. assert (Est : st_of k1 = st_of k) by apply st_update_ip.
  destruct (own_remove_header k1 _ p b l n G1) as [Erm Hown]; [lia|]. rewrite (proj2 (Z.leb_le n (len b))) in Erm by lia. specialize (Hown ltac:(lia)).
  rewrite Est in Erm, Hown. fold b2 k2 in Erm, Hown. split; [done|].
  assert (En : net_of k2 = set_packets (set_pbufs (<[p := b2]> (pbufs (st_of k))) (st_of k)) (net_of k)).
  { unfold k2, set_st. rewrite net_set_net. unfold k1. by rewrite net_update_ip. }
  assert (Ei : ip_of k2 = set_current (Some np) (Some inp) (Some (p, o)) n (ip_of k)).
  { unfold k2, set_st. rewrite ip_set_net. apply ip_update_ip. }
  assert (Es : st_of k2 = set_pbufs (<[p := b2]> (pbufs (st_of k))) (st_of k)) by apply st_set_st.
  assert (Htype : type_internal b = u8 (pbuf_type_val PBUF_POOL)) by (by apply Forall_cons in G2 as [(_ & Ht & _) _]).
  split.
  - split; rewrite ?En, ?Ei, ?Es; try done.
    + apply private_no_empty. by apply Forall_cons in G2 as [_ G2].
    + unfold b2, grow_head. cbn [payload with_tot_len with_len with_payload]. rewrite G3. cbn. do 2 f_equal. lia.
    + rewrite <- Est. done.
    + lia.
    + unfold header_room, b2, grow_head, SIZEOF_ETH_HDR in *. cbn [type_internal payload tot_len with_tot_len with_len with_payload].
      rewrite Htype, G3. cbn [option_map fst snd]. change (negb _) with true. cbn [andb]. apply andb_true_iff. rewrite !Z.leb_le. lia.
    + cbn. do 2 f_equal. lia.
    + by replace (o + n - n) with o by lia.
  - rewrite Es. cbn [areas set_pbufs]. rewrite !chain_data_cons. unfold b2.
    pose proof (user_whole k _ (own_inv _ _ _ _ _ (da_own _ _ _ _ _ _ _ H))) as Hs.
    pose proof (own_lookup _ _ _ _ _ (da_own _ _ _ _ _ _ _ H)) as Hb.
    rewrite (shrink_data (areas (st_of k)) p b n) by (by apply (so_payload _ _ Hs) || lia).
    rewrite drop_app_le; [done|]. rewrite Hdata. apply Nat2Z.inj_le. unfold SIZEOF_ETH_HDR in *. rewrite window_length by lia. lia.
Qed.

(** [pbuf_header_force] on memory behind the struct. *)
Lemma force_header p b n (s : store P1 P2) : pbufs s !! p = Some b -> Z.land (type_internal b) PBUF_TYPE_FLAG_STRUCT_DATA_CONTIGUOUS <> 0 -> 0 <= n ->
  pbuf_header_force (Some p) n s = pbuf_add_header (Some p) n s.
Proof using Type.
  intros Hb Hc Hn. unfold pbuf_header_force, pbuf_header_impl, pbuf_add_header, pbuf_add_header_impl. destruct (Z.ltb_spec n 0); [lia|].
  destruct (_ <? _); [done|]. destruct (_ =? _); [done|]. rewrite (get_some _ _ _ Hb), !bind_ok. destruct (_ <? _); [done|].
  by rewrite (proj2 (Z.eqb_neq _ _) Hc).
Qed.

Lemma reported_same k1 k E type code m k' : device (net_of k1) = device (net_of k) -> arp_table (net_of k1) = arp_table (net_of k) ->
  netifs (net_of k1) = netifs (net_of k) -> ip_of k1 = ip_of k -> (icmp_memory m k = true -> icmp_memory m k1 = true) ->
  reported k1 E type code m k' -> reported k E type code m k'.
Proof using Type.
  intros H1 H2 H3 H4 Hram [G0 G1 G2 G3|q np nif dest w n Hr Hn Hi Hf].
  { apply NotReported; [|congruence..]. rewrite H3, H4 in G0. destruct G0 as [G0|G0]; [left | by right].
    destruct (icmp_memory m k); [|done]. by rewrite <- G0, Hram. }
  rewrite H3 in Hn. rewrite H3, H4 in Hr. rewrite H4 in Hi, Hf.
  apply (Reported _ _ _ _ _ _ q np nif); try done. intros Hfit. destruct (Hf Hfit) as (k2 & n' & r & [R1 R2 R3 R4] & Hrest). exists k2, n', r. split; [|done].
  split; [done | congruence..].
Qed.

(** *** Which datagrams are delivered *)

Lemma find_accepting_ok (n : net P1 P2 X) dest inp l : Forall (fun np => is_Some (netifs n !! np)) l ->
  exists r, find_accepting dest inp l n = Ok r /\
    match r with
    | Some np => exists l1 l2 nif, l = l1 ++ np :: l2 /\ refused (netifs n) l1 dest inp /\ np <> inp /\ netifs n !! np = Some nif /\ ip4_input_accept dest nif = true
    | None => refused (netifs n) l dest inp
    end.
Proof using Type.
  induction 1 as [|np l [nif Hnp] Hl IH]; [exists None; split; [done|]; by intros np nif ?%elem_of_nil|]. cbn [find_accepting].
  assert (Hcons : forall l', refused (netifs n) l' dest inp -> (np <> inp -> ip4_input_accept dest nif = false) -> refused (netifs n) (np :: l') dest inp).
  { intros l' Hl' Ha x y [->|Hx]%elem_of_cons Hne Hy; [|by apply (Hl' x)]. rewrite Hnp in Hy. injection Hy as <-. by apply Ha. }
  assert (Hrec : (np <> inp -> ip4_input_accept dest nif = false) -> exists r, find_accepting dest inp l n = Ok r /\
    match r with
    | Some np' => exists l1 l2 nif', np :: l = l1 ++ np' :: l2 /\ refused (netifs n) l1 dest inp /\ np' <> inp /\ netifs n !! np' = Some nif' /\ ip4_input_accept dest nif' = true
    | None => refused (netifs n) (np :: l) dest inp
    end).
  { intros Ha. destruct IH as (r & -> & Hr). exists r. split; [done|]. destruct r as [np'|]; [|by apply Hcons].
    destruct Hr as (l1 & l2 & nif' & -> & H1 & H2). exists (np :: l1), l2, nif'. split; [done|]. split; [by apply Hcons | done]. }
  destruct (Z.eqb_spec np inp) as [->|Hne]; [by apply Hrec|].
  rewrite (netif_at_some _ _ _ Hnp), bind_ok. destruct (ip4_input_accept dest nif) eqn:Ea; [|by apply Hrec].
  exists (Some np). split; [done|]. exists [], l, nif. split_and!; try done. by intros ? ? ?%elem_of_nil.
Qed.

Lemma match_netif_ok k E dest inp nif : user_inv k E -> netifs (net_of k) !! inp = Some nif ->
  exists r, match_netif dest inp k = Ok r /\ matched (netifs (net_of k)) (ip_of k) dest inp nif r /\ (forall np, r = Some np -> is_Some (netifs (net_of k) !! np)).
Proof using V.
  intros Hk Hnif. unfold match_netif. rewrite (netif_at_some _ _ _ Hnif), bind_ok.
  destruct (ip4_addr_ismulticast dest) eqn:Em.
  { eexists. split; [reflexivity|]. split; [by constructor|]. destruct (_ && _); [|done]. intros np [= <-]. by eexists. }
  destruct (ip4_input_accept dest nif) eqn:Ea; [exists (Some inp); split; [done|]; split; [by constructor|]; intros np [= <-]; by eexists|].
  destruct (ip4_addr_isloopback dest) eqn:El; [exists None; split; [done|]; split; [apply MatchNone; tauto | done]|].
  pose proof (iw_list _ _ (ip_user_wf k E Hk)) as Hl. destruct (find_accepting_ok (net_of k) dest inp _ Hl) as (r & -> & Hr). exists r. split; [done|].
  destruct r as [np|].
  - destruct Hr as (l1 & l2 & nif' & E1 & E2 & E3 & E4 & E5). split; [by apply (MatchOther _ _ _ _ _ l1 np l2 nif')|]. intros np' [= <-]. by eexists.
  - split; [apply MatchNone; tauto | done].
Qed.

Lemma accept_dhcp_ok k E p b l o d n r inp : datagram k E p b l o d -> 0 <= n <= 60 ->
  accept_dhcp r inp (Some (p, o)) n (st_of k) =
    Ok (match r with Some _ => (r, true) | None => if for_dhcp d o n then (Some inp, false) else (None, true) end).
Proof using V.
  intros H Hn. pose proof (da_memory _ _ _ _ _ _ _ H) as Ha. pose proof (da_room _ _ _ _ _ _ _ H) as Hr. pose proof (da_head _ _ _ _ _ _ _ H) as Ho.
  unfold ROOM, SIZEOF_ETH_HDR in *. unfold accept_dhcp, for_dhcp. destruct r as [np|]; [done|].
  rewrite (read8_at_ok _ _ d), bind_ok by (done || unfold ip_proto; lia). destruct (byte_at d (o + ip_proto) =? IP_PROTO_UDP); [|done]. cbn [andb].
  rewrite (read16_at_ok _ _ d), bind_ok by (done || lia). replace (o + (n + 2)) with (o + n + 2) by lia. by destruct (_ =? _).
Qed.

Variable custom_free_function : ptr -> store P1 P2 -> res (store P1 P2).
(** *** Shortening to the length in the header *)

Lemma trim_ok k E p b l o d n : datagram k E p b l o d -> 0 <= n <= 65535 ->
  exists s' b' l', (if n <? tot_len b then pbuf_realloc custom_free_function (Some p) n (st_of k) else Ok (st_of k)) = Ok s' /\
    user_inv (set_st s' k) ({[+ p +]} ⊎ E) /\ pbufs s' !! p = Some b' /\ len b' = Z.min n (len b) /\ tot_len b' = Z.min n (tot_len b) /\
    payload b' = Some (p, o) /\ areas s' !! p = Some d /\ keeps (st_of k) s' /\
    (0 < n -> datagram (set_st s' k) E p b' l' o d /\
       chain_data (areas s') ((p, b') :: l') = take (Z.to_nat n) (chain_data (areas (st_of k)) ((p, b) :: l))).
Proof using V.
  intros H Hn. destruct (datagram_data _ _ _ _ _ _ _ H) as (Hlb & Hld & _ & _). pose proof H as [H1 H2 H3 H4 H5 H6 H7].
  pose proof (own_inv _ _ _ _ _ H1) as Hk. pose proof (user_whole k _ Hk) as Hs. destruct (Z.ltb_spec n (tot_len b)) as [Hlt|Hge].
  2: { exists (st_of k), b, l. rewrite set_st_self. split; [done|]. split; [done|]. split; [by eapply own_lookup|].
       split_and!; try done; try lia. intros _. split; [done|].
       pose proof (packet_length _ _ _ _ (own_packet _ _ _ _ _ H1)) as Hl. destruct (packet_cons _ _ _ _ _ _ (own_packet _ _ _ _ _ H1)) as (_ & _ & _ & Ht & _).
       rewrite total_len_cons in Hl. cbn [snd] in Hl. rewrite take_ge; [done | lia]. }
  destruct (realloc_ok custom_free_function (st_of k) _ p b l n Hs ltac:(multiset_solver) (own_packet _ _ _ _ _ H1) H2 ltac:(lia))
    as (s' & b' & l' & Er & Hs' & Hp' & (C1 & C2 & C3 & _ & _ & _ & C7) & Hd' & Hpr' & Ha' & Hheads & Hkeep).
  exists s', b', l'. split; [done|].
  assert (Hk' : user_inv (set_st s' k) ({[+ p +]} ⊎ E)) by (apply (set_st_inv k ({[+ p +]} ⊎ E)); [done | done |]; intros y Hy _; by apply Hheads).
  split; [done|]. split; [by apply (packet_lookup _ _ _ _ Hp')|]. split; [done|]. split; [rewrite C3; lia|]. split; [by rewrite C1|]. split; [by rewrite Ha'|]. split; [done|].
  intros Hpos. split; [|done]. split; rewrite ?st_set_st; try done; [|by apply Hpr' | by rewrite C1 | by rewrite Ha' | lia].
  split; [done | multiset_solver | by rewrite st_set_st |]. rewrite C7. apply (own_ref _ _ _ _ _ H1).
Qed.

Variable fresh_byte : nat -> Z.
Hypothesis fresh_u8 : forall i, is_u8 (fresh_byte i).
Variable ip4_frag : ptr -> Z -> Z -> K -> res (K * Z).
Hypothesis frag_ok : frag_contract ip4_frag.
Variable ip4_reass : ptr -> K -> res (K * option ptr).
Hypothesis reass_ok : reass_contract ip4_reass.
Variable udp_input tcp_input : ptr -> Z -> K -> res K.
Hypothesis udp_ok : transport_contract udp_input.
Hypothesis tcp_ok : transport_contract tcp_input.

(** *** The protocols *)

(** The answer to a datagram that nobody wants: the payload moves back over the
    [n] bytes in front of it, the source is told, and the datagram is freed. *)
Lemma answer_ok k E p b l o d n code : own k ({[+ p +]} ⊎ E) p b l -> no_empty l -> payload b = Some (p, o) -> areas (st_of k) !! p = Some d ->
  20 <= n <= 255 -> header_room b (n + SIZEOF_ETH_HDR) = true -> is_u8 code ->
  exists k1 k2 k', on_packets (pbuf_header_force (Some p) n) k = Ok (k1, 0) /\
    icmp_dest_unreach custom_free_function fresh_byte ip4_frag p code k1 = Ok k2 /\ free_pbuf custom_free_function p k2 = Ok k' /\ user_inv k' E /\
    reported k ({[+ p +]} ⊎ E) ICMP_DUR code (window d (o - n) n ++ chain_data (areas (st_of k)) ((p, b) :: l)) k2 /\ discarded k2 E k'.
Proof using fresh_u8 frag_ok V.
  intros H1 H2 H3 H4 H5 H6 Hcode.
  pose proof (own_inv _ _ _ _ _ H1) as Hk. pose proof (user_whole k _ Hk) as Hs. pose proof (own_lookup _ _ _ _ _ H1) as Hb.
  destruct (own_data _ _ _ _ _ H1) as (_ & _ & Hlb & _).
  destruct (header_room_own _ _ _ _ H3 H6) as [Ho Hmax]. unfold SIZEOF_ETH_HDR in Ho, Hmax.
  assert (Hc : Z.land (type_internal b) PBUF_TYPE_FLAG_STRUCT_DATA_CONTIGUOUS <> 0).
  { intros E0. unfold header_room in H6. by rewrite E0 in H6. }
  assert (Hroom : header_room b n = true).
  { unfold header_room. rewrite (proj2 (Z.eqb_neq _ _) Hc), H3. cbn [negb andb]. apply andb_true_iff. rewrite !Z.leb_le. lia. }
  destruct (own_add_header k _ p b l n H1) as [Eadd Hown]; [lia|]. rewrite Hroom in *. specialize (Hown eq_refl).
  set (g := grow_head n b) in *. set (s1 := set_pbufs _ _) in *. set (k1 := set_st s1 k) in *. exists k1.
  assert (Eforce : on_packets (pbuf_header_force (Some p) n) k = Ok (k1, 0)).
  { unfold on_packets in *. rewrite (force_header p b) by (done || lia). exact Eadd. }
  destruct (grow_window _ p b o d n (so_payload _ _ Hs p b Hb) H3 H4) as [Eg Hlw]; [lia|].
  assert (En : net_of k1 = set_packets s1 (net_of k)) by (unfold k1, set_st; by rewrite net_set_net).
  assert (Ei : ip_of k1 = ip_of k) by (unfold k1, set_st; by rewrite ip_set_net).
  destruct (send_response_ok custom_free_function fresh_byte fresh_u8 ip4_frag frag_ok k1 _ p g l ICMP_DUR code (own_inv _ _ _ _ _ Hown) (own_packet _ _ _ _ _ Hown))
    as (k2 & Er & Hk2 & Hn2 & Hrep).
  { constructor; [cbn; lia | done]. } { unfold IP_HLEN. cbn. lia. } { by unfold ICMP_DUR. } { done. }
  destruct (icmp_drop custom_free_function k2 E p Hk2) as (k' & Ef & s' & -> & Hk').
  exists k2, (set_st s' k2). split; [done|]. split; [done|]. split; [exact Ef|]. split; [done|]. split; [|by exists s'].
  assert (Edata : chain_data (areas (st_of k1)) ((p, g) :: l) = window d (o - n) n ++ chain_data (areas (st_of k)) ((p, b) :: l)).
  { unfold k1. rewrite st_set_st. cbn [areas set_pbufs s1]. rewrite !chain_data_cons. change (areas s1) with (areas (st_of k)). fold g in Eg. rewrite Eg. by rewrite <- app_assoc. }
  rewrite Edata in Hrep. apply (reported_same k1); [by rewrite En.. | done | | done]. unfold icmp_memory, k1. by rewrite st_set_st.
Qed.

(** The answer to a datagram [m] for a protocol that nobody speaks. *)
Lemma unknown_proto_ok k E p b l o d n cur inp : delivered k E p b l o d n cur inp ->
  exists nif k', netifs (net_of k) !! cur = Some nif /\ unknown_proto custom_free_function fresh_byte ip4_frag p cur n k = Ok k' /\ user_inv k' E /\
    let dest := current_iphdr_dest (ip_of k) in
    if ip4_addr_isbroadcast dest nif || ip4_addr_ismulticast dest then discarded k E k'
    else exists k0, reported k ({[+ p +]} ⊎ E) ICMP_DUR ICMP_DUR_PROTO (window d (o - n) n ++ chain_data (areas (st_of k)) ((p, b) :: l)) k0 /\
      discarded k0 E k'.
Proof using fresh_u8 frag_ok V.
  intros [H1 H2 H3 H4 H5 H6 H7 H8 [nif Hnif] H10 H11 H12 H13]. exists nif.
  unfold unknown_proto. rewrite (netif_at_some _ _ _ Hnif), bind_ok. cbv zeta.
  destruct (ip4_addr_isbroadcast _ nif || ip4_addr_ismulticast _) eqn:Ebm.
  { apply orb_true_iff in Ebm. destruct (icmp_drop custom_free_function k E p (own_inv _ _ _ _ _ H1)) as (k' & Ef & s' & -> & Hk').
    exists (set_st s' k). split; [done|]. split; [|split; [done|]; by exists s'].
    destruct Ebm as [-> | ->]; cbn [negb andb]; rewrite ?andb_false_r, bind_ok; exact Ef. }
  apply orb_false_iff in Ebm as [-> ->]. cbn [negb andb].
  destruct (answer_ok k E p b l o d n ICMP_DUR_PROTO H1 H2 H3 H4) as (k1 & k2 & k' & -> & E2 & E3 & Hk' & Hrep & Hd); [lia | done | done |].
  rewrite bind_ok, E2, bind_ok. exists k'. split; [done|]. split; [exact E3|]. split; [done|]. by exists k2.
Qed.

Notation dispatch := (dispatch custom_free_function fresh_byte ip4_frag udp_input tcp_input).
Notation deliver := (deliver custom_free_function fresh_byte ip4_frag udp_input tcp_input).

(** Every protocol takes the datagram over. *)
Lemma dispatch_ok k E p b l o d n cur inp proto : delivered k E p b l o d n cur inp ->
  exists k', dispatch proto p cur inp n k = Ok k' /\ user_inv k' E.
Proof using fresh_u8 frag_ok udp_ok tcp_ok V.
  intros H. pose proof H as [H1 H2 H3 H4 H5 H6 [nif H7] H8 [cnif H9] H10 H11 H12 H13]. unfold dispatch. destruct (proto =? IP_PROTO_UDP); [by eapply udp_ok|].
  destruct (proto =? IP_PROTO_TCP); [by eapply tcp_ok|]. destruct (proto =? IP_PROTO_ICMP).
  - destruct (icmp_input_ok custom_free_function fresh_byte fresh_u8 ip4_frag frag_ok k E p b l o d inp nif cur cnif n) as (k' & Ei & Hk' & _); try done. by exists k'.
  - destruct (unknown_proto_ok k E p b l o d n cur inp H) as (nif' & k' & _ & Eu & Hk' & _). by exists k'.
Qed.

Lemma forget_ok k E : user_inv k E -> user_inv (forget_current k) E.
Proof.
  intros Hk. apply update_ip_ok; [done|]. apply current_wf; [|by unfold is_u32..]. apply set_current_wf, (ip_user_wf k E Hk).
Qed.

Lemma deliver_ok k E p b l o d n np inp : datagram k E p b l o d -> IPH_HL_BYTES (byte_at d o) = n -> IP_HLEN <= n <= len b ->
  is_Some (netifs (net_of k) !! np) -> is_Some (netifs (net_of k) !! inp) ->
  exists k2 b2 k3, elsewhere k k2 /\ delivered k2 E p b2 l (o + n) d n np inp /\ b2 = grow_head (- n) b /\
    net_of k2 = set_packets (st_of k2) (net_of k) /\ ip_of k2 = set_current (Some np) (Some inp) (Some (p, o)) n (ip_of k) /\
    chain_data (areas (st_of k2)) ((p, b2) :: l) = drop (Z.to_nat n) (chain_data (areas (st_of k)) ((p, b) :: l)) /\
    dispatch (byte_at d (o + ip_proto)) p np inp n k2 = Ok k3 /\ user_inv k3 E /\
    deliver p np inp (Some (p, o)) n k = Ok (forget_current k3, ERR_OK) /\ user_inv (forget_current k3) E /\ keeps (st_of k) (st_of k2).
Proof using fresh_u8 frag_ok udp_ok tcp_ok V.
  intros H Hhl Hn Hnp Hinp. destruct (enter_ok k E p b l o d n np inp H Hhl Hn Hnp Hinp) as (Er & Hd & Hdata).
  set (k1 := update_ip _ k) in *. set (k2 := set_st _ k1) in *. pose proof (da_memory _ _ _ _ _ _ _ H) as Ha. pose proof (da_room _ _ _ _ _ _ _ H) as Hroom.
  pose proof (da_head _ _ _ _ _ _ _ H) as Ho. unfold ROOM, SIZEOF_ETH_HDR in *.
  destruct (dispatch_ok k2 E p _ l (o + n) d n np inp (byte_at d (o + ip_proto)) Hd) as (k3 & E3 & Hk3).
  exists k2, (grow_head (- n) b), k3. split; [by eapply elsewhere_trans; [apply elsewhere_ip | apply elsewhere_st]|]. split; [done|]. split; [done|]. split.
  { unfold k2. rewrite st_set_st. unfold set_st. rewrite net_set_net. unfold k1. by rewrite net_update_ip. }
  split; [unfold k2, set_st; rewrite ip_set_net; apply ip_update_ip|]. split; [done|]. split; [done|]. split; [done|].
  split; [|split; [by apply forget_ok|]].
  2: { unfold k2. rewrite st_set_st. apply same_alloc_keeps, (insert_alloc _ p b), (own_lookup _ _ _ _ _ (da_own _ _ _ _ _ _ _ H)). }
  unfold deliver. rewrite (read8_at_ok _ _ d) by (done || unfold ip_v_hl; lia). unfold ip_v_hl. rewrite Z.add_0_r, bind_ok, Hhl.
  change (update_ip (set_current (Some np) (Some inp) (Some (p, o)) n) k) with k1. cbv zeta. rewrite Er, bind_ok.
  rewrite (read8_at_ok _ _ d) by (apply (dl_memory _ _ _ _ _ _ _ _ _ _ Hd) || unfold ip_proto; lia). by rewrite bind_ok, E3, bind_ok.
Qed.

Notation input_accepted := (input_accepted custom_free_function fresh_byte ip4_frag ip4_reass udp_input tcp_input).
Notation input_verified := (input_verified custom_free_function fresh_byte ip4_frag ip4_reass udp_input tcp_input).

(** A whole datagram is delivered; a part goes to the reassembly. *)
Lemma input_accepted_ok k E p b l o d n np inp : datagram k E p b l o d -> header_length d o = n -> IP_HLEN <= n <= len b ->
  is_Some (netifs (net_of k) !! np) -> is_Some (netifs (net_of k) !! inp) ->
  (exists k', input_accepted p np inp (Some (p, o)) n k = Ok (k', ERR_OK) /\ user_inv k' E) /\
  (is_fragment d o = false -> input_accepted p np inp (Some (p, o)) n k = deliver p np inp (Some (p, o)) n k).
Proof using fresh_u8 frag_ok udp_ok tcp_ok reass_ok V.
  intros H Hhl Hn Hnp Hinp. pose proof (da_memory _ _ _ _ _ _ _ H) as Ha. pose proof (da_room _ _ _ _ _ _ _ H) as Hr. pose proof (da_head _ _ _ _ _ _ _ H) as Ho.
  unfold ROOM, SIZEOF_ETH_HDR in *. unfold input_accepted, is_fragment.
  rewrite (read16_at_ok _ _ d), bind_ok by (done || unfold ip_offset; lia). destruct (negb _); (split; [|done || by intros ?]).
  - destruct (reass_ok k E p b l o d H) as (k' & r & -> & Hnet & Hq); [unfold header_length in Hhl; rewrite Hhl; lia|]. rewrite bind_ok.
    destruct r as [q|]; [|by exists k']. destruct Hq as (Hhl' & b' & l' & o' & d' & Hq & Hhq & Hlq).
    rewrite (get_some _ _ _ (own_lookup _ _ _ _ _ (da_own _ _ _ _ _ _ _ Hq))), bind_ok, (da_payload _ _ _ _ _ _ _ Hq).
    assert (n = IP_HLEN) as -> by (unfold header_length in Hhl; congruence).
    destruct (deliver_ok k' E q b' l' o' d' IP_HLEN np inp Hq Hhq) as (k2 & b2 & k3 & _ & _ & _ & _ & _ & _ & _ & _ & Ed & Hk3 & _); [lia | by rewrite Hnet.. |].
    by exists (forget_current k3).
  - destruct (deliver_ok k E p b l o d n np inp H Hhl Hn Hnp Hinp) as (k2 & b2 & k3 & _ & _ & _ & _ & _ & _ & _ & _ & Ed & Hk3 & _).
    by exists (forget_current k3).
Qed.

(** From the verified header on. *)
Lemma input_verified_ok k E p b l o d n inp nif : datagram k E p b l o d -> header_length d o = n -> IP_HLEN <= n <= len b ->
  netifs (net_of k) !! inp = Some nif ->
  let src := long_at d (o + ip_src) in
  let dest := long_at d (o + ip_dest) in
  let k1 := update_ip (set_current_addrs src dest) k in
  exists k', input_verified p inp (Some (p, o)) n k = Ok (k', ERR_OK) /\ user_inv k' E /\
    datagram k1 E p b l o d /\
    exists r, matched (netifs (net_of k)) (ip_of k1) dest inp nif r /\
      match r with
      | Some np => if source_ok src nif then input_accepted p np inp (Some (p, o)) n k1 = Ok (k', ERR_OK) else discarded k1 E k'
      | None => if for_dhcp d o n then input_accepted p inp inp (Some (p, o)) n k1 = Ok (k', ERR_OK) else discarded k1 E k'
      end.
Proof using fresh_u8 frag_ok udp_ok tcp_ok reass_ok V.
  intros H Hhl Hn Hnif src dest k1. pose proof (da_memory _ _ _ _ _ _ _ H) as Ha. pose proof (da_room _ _ _ _ _ _ _ H) as Hr. pose proof (da_head _ _ _ _ _ _ _ H) as Ho.
  destruct (datagram_data _ _ _ _ _ _ _ H) as (_ & _ & Hbd & _). pose proof (header_length_range (byte_at d o)) as Hn60. unfold header_length in Hhl. rewrite Hhl in Hn60.
  unfold ROOM, SIZEOF_ETH_HDR in Hr, Ho. unfold input_verified. rewrite (read32_at_ok _ p d o ip_dest), bind_ok by (done || unfold ip_dest; lia).
  rewrite (read32_at_ok _ p d o ip_src), bind_ok by (done || unfold ip_src; lia). fold src dest. cbv zeta. fold k1.
  assert (H1 : datagram k1 E p b l o d).
  { apply datagram_update_ip; [done|]. apply current_wf; [|by apply long_at_u32..]. apply (ip_user_wf k _ (own_inv _ _ _ _ _ (da_own _ _ _ _ _ _ _ H))). }
  pose proof (own_inv _ _ _ _ _ (da_own _ _ _ _ _ _ _ H1)) as Hk1. assert (En : net_of k1 = net_of k) by apply net_update_ip.
  rewrite <- En in Hnif. destruct (match_netif_ok k1 _ dest inp nif Hk1 Hnif) as (r & -> & Hm & Hsome). rewrite bind_ok.
  rewrite (accept_dhcp_ok k1 E p b l o d n r inp H1), bind_ok by lia.
  destruct (icmp_drop custom_free_function k1 E p Hk1) as (k0 & Ef & Hd). pose proof Hd as (s0 & E0 & Hk0).
  assert (Hdrop : drop_datagram custom_free_function p k1 = Ok (k0, ERR_OK)) by (unfold drop_datagram; by rewrite Ef, bind_ok).
  assert (Hacc : forall np, is_Some (netifs (net_of k1) !! np) -> exists k', input_accepted p np inp (Some (p, o)) n k1 = Ok (k', ERR_OK) /\ user_inv k' E).
  { intros np Hnp. apply (input_accepted_ok k1 E p b l o d n np inp H1 Hhl Hn Hnp). by eexists. }
  rewrite En in Hm. destruct r as [np|].
  - rewrite (netif_at_some _ _ _ Hnif), bind_ok. cbn [andb].
    assert (Es : negb (ip4_addr_isany src) && (ip4_addr_isbroadcast src nif || ip4_addr_ismulticast src) = negb (source_ok src nif)).
    { unfold source_ok. by rewrite negb_orb, negb_involutive. }
    rewrite Es. destruct (source_ok src nif) eqn:Esrc; cbn [negb].
    + destruct (Hacc np (Hsome np eq_refl)) as (k' & Ei & Hk'). exists k'. split; [done|]. split; [done|]. split; [done|]. exists (Some np). split; [done|]. done.
    + exists k0. split; [done|]. split; [done|]. split; [done|]. exists (Some np). split; [done|]. done.
  - destruct (for_dhcp d o n) eqn:Edh; rewrite (netif_at_some _ _ _ Hnif), bind_ok.
    + cbn [andb]. destruct (Hacc inp ltac:(by eexists)) as (k' & Ei & Hk'). exists k'. split; [done|]. split; [done|]. split; [done|]. exists None. split; [done|]. done.
    + exists k0. split; [by destruct (_ && _)|]. split; [done|]. split; [done|]. exists None. split; [done|]. done.
Qed.

(** The whole of [ip4_input]. *)
Lemma ip4_input_ok k E p b l o d inp : datagram k E p b l o d -> is_Some (netifs (net_of k) !! inp) ->
  exists k', ip4_input custom_free_function fresh_byte ip4_frag ip4_reass udp_input tcp_input p inp k = Ok (k', ERR_OK) /\ user_inv k' E /\
    if well_formed d o (len b) (tot_len b) then
      exists s1 b1 l1, keeps (st_of k) s1 /\ datagram (set_st s1 k) E p b1 l1 o d /\ IP_HLEN <= header_length d o <= len b1 /\
        chain_data (areas s1) ((p, b1) :: l1) = take (Z.to_nat (datagram_length d o)) (chain_data (areas (st_of k)) ((p, b) :: l)) /\
        tot_len b1 = datagram_length d o /\ len b1 = Z.min (datagram_length d o) (len b) /\
        input_verified p inp (Some (p, o)) (header_length d o) (set_st s1 k) = Ok (k', ERR_OK)
    else discarded k E k'.
Proof using fresh_u8 frag_ok udp_ok tcp_ok reass_ok V.
  intros H [nif Hnif]. pose proof (da_memory _ _ _ _ _ _ _ H) as Ha. pose proof (da_room _ _ _ _ _ _ _ H) as Hr. pose proof (da_head _ _ _ _ _ _ _ H) as Ho.
  destruct (datagram_data _ _ _ _ _ _ _ H) as (Hlb & _ & Hbd & _). pose proof (header_length_range (byte_at d o)) as Hn60.
  pose proof (own_inv _ _ _ _ _ (da_own _ _ _ _ _ _ _ H)) as Hk. pose proof (own_lookup _ _ _ _ _ (da_own _ _ _ _ _ _ _ H)) as Hb.
  unfold ROOM, SIZEOF_ETH_HDR in Hr, Ho.
  assert (Hdl : 0 <= datagram_length d o <= 65535).
  { pose proof (word_at_u16 d (o + ip_len) Hbd). unfold datagram_length, lwip_htons. rewrite pp_htons_swap by done. apply swap16_range. solve_u. }
  assert (Hdrop : forall s', user_inv (set_st s' k) ({[+ p +]} ⊎ E) ->
    exists k', drop_datagram custom_free_function p (set_st s' k) = Ok (k', ERR_OK) /\ user_inv k' E /\ discarded k E k').
  { intros s' Hk'. destruct (icmp_drop custom_free_function _ E p Hk') as (k' & Ef & s2 & -> & Hk2). rewrite set_st_set_st in *. exists (set_st s2 k).
    unfold drop_datagram. rewrite Ef, bind_ok. split; [done|]. split; [done|]. by exists s2. }
  unfold ip4_input, well_formed. rewrite (get_some _ _ _ Hb), bind_ok, (da_payload _ _ _ _ _ _ _ H). cbv zeta.
  rewrite (read8_at_ok _ _ d), bind_ok by (done || unfold ip_v_hl; lia). unfold ip_v_hl. rewrite Z.add_0_r.
  destruct (IPH_V (byte_at d o) =? 4); cbn [negb andb].
  2: { destruct (Hdrop (st_of k)) as (k' & Ed & Hk' & Hdis); [by rewrite set_st_self|]. rewrite set_st_self in Ed. by exists k'. }
  rewrite (read16_at_ok _ _ d), bind_ok by (done || unfold ip_len; lia). fold (datagram_length d o). fold (header_length d o). set (n := datagram_length d o) in *.
  destruct (trim_ok k E p b l o d n H Hdl) as (s1 & b1 & l1 & -> & Hk1 & Hb1 & Hl1 & Ht1 & Hp1 & Ha1 & Hkeep & Hpos). rewrite bind_ok.
  rewrite !st_set_st, (get_some _ _ _ Hb1), bind_ok, Hl1, Ht1.
  assert (Ecmp : (Z.min n (len b) <? header_length d o) || (Z.min n (tot_len b) <? n) || (header_length d o <? IP_HLEN)
    = negb ((header_length d o <=? Z.min n (len b)) && (n <=? tot_len b) && (IP_HLEN <=? header_length d o))).
  { rewrite !negb_andb, <- !Z.ltb_antisym. f_equal. f_equal. apply eq_true_iff_eq. rewrite !Z.ltb_lt. lia. }
  rewrite Ecmp. destruct (_ && (IP_HLEN <=? header_length d o)) eqn:Eok; cbn [negb andb]; [|by apply Hdrop].
  rewrite !andb_true_iff, !Z.leb_le in Eok. destruct Eok as [[G1 G2] G3]. unfold IP_HLEN in G3. destruct (Hpos ltac:(lia)) as [Hd1 Hdata].
  pose proof (user_whole _ _ Hk1) as Hs1. rewrite st_set_st in Hs1. rewrite <- Hp1, (chksum_at_ok s1 _ p b1) by (done || rewrite Hl1; lia). rewrite bind_ok.
  destruct (datagram_data _ _ _ _ _ _ _ Hd1) as (_ & _ & _ & Hw). rewrite st_set_st in Hw.
  assert (Ew : take (Z.to_nat (header_length d o)) (payload_data (areas s1) b1) = window d o (header_length d o)).
  { rewrite Hw. unfold window. rewrite take_take. f_equal. lia. }
  rewrite Ew. pose proof (oc_range (wsum (window d o (header_length d o)))) as Hoc.
  destruct (Z.eqb_spec (65535 - oc (wsum (window d o (header_length d o)))) 0) as [Hc|Hc]; cbn [negb];
    [rewrite (proj2 (Z.eqb_eq (oc _) 65535)) by lia | rewrite (proj2 (Z.eqb_neq (oc _) 65535)) by lia; by apply Hdrop].
  assert (En : net_of (set_st s1 k) = set_packets s1 (net_of k)) by (unfold set_st; by rewrite net_set_net). rewrite Hp1.
  destruct (input_verified_ok (set_st s1 k) E p b1 l1 o d (header_length d o) inp nif Hd1 eq_refl) as (k' & Ei & Hk' & _); [unfold IP_HLEN; lia | by rewrite En |].
  exists k'. split; [done|]. split; [done|]. exists s1, b1, l1. split; [done|]. split; [done|]. split; [unfold IP_HLEN; lia|]. split; [done|]. split; [lia|]. split; [done | done].
Qed.

(** Where a verified datagram goes, by its source [src], the interface [r] that
    matches and the interface [nif] it has arrived on, [inp]. *)
Definition destination (d : list Z) (o n src inp : Z) (nif : netif) (r : option Z) : option Z :=
  match r with
  | Some np => if source_ok src nif then Some np else None
  | None => if for_dhcp d o n then Some inp else None
  end.

(** What becomes of a datagram. *)
Lemma input_cases k E p b l o d inp nif : datagram k E p b l o d -> netifs (net_of k) !! inp = Some nif ->
  exists k', ip4_input custom_free_function fresh_byte ip4_frag ip4_reass udp_input tcp_input p inp k = Ok (k', ERR_OK) /\ user_inv k' E /\
    if well_formed d o (len b) (tot_len b) then
      let n := header_length d o in
      let src := long_at d (o + ip_src) in
      let dest := long_at d (o + ip_dest) in
      exists k1 b1 l1 r, elsewhere k k1 /\ keeps (st_of k) (st_of k1) /\ datagram k1 E p b1 l1 o d /\ ip_of k1 = set_current_addrs src dest (ip_of k) /\ net_of k1 = set_packets (st_of k1) (net_of k) /\
        chain_data (areas (st_of k1)) ((p, b1) :: l1) = take (Z.to_nat (datagram_length d o)) (chain_data (areas (st_of k)) ((p, b) :: l)) /\
        tot_len b1 = datagram_length d o /\ len b1 = Z.min (datagram_length d o) (len b) /\ IP_HLEN <= n <= len b1 /\
        matched (netifs (net_of k)) (ip_of k1) dest inp nif r /\
        match destination d o n src inp nif r with
        | None => discarded k1 E k'
        | Some np => is_fragment d o = false -> exists k2 b2 k3, elsewhere k1 k2 /\ keeps (st_of k1) (st_of k2) /\ delivered k2 E p b2 l1 (o + n) d n np inp /\ b2 = grow_head (- n) b1 /\
            net_of k2 = set_packets (st_of k2) (net_of k1) /\ ip_of k2 = set_current (Some np) (Some inp) (Some (p, o)) n (ip_of k1) /\
            chain_data (areas (st_of k2)) ((p, b2) :: l1) = drop (Z.to_nat n) (chain_data (areas (st_of k1)) ((p, b1) :: l1)) /\
            dispatch (byte_at d (o + ip_proto)) p np inp n k2 = Ok k3 /\ user_inv k3 E /\ k' = forget_current k3
        end
    else discarded k E k'.
Proof using fresh_u8 frag_ok udp_ok tcp_ok reass_ok V.
  intros H Hnif. destruct (ip4_input_ok k E p b l o d inp H ltac:(by eexists)) as (k' & Ei & Hk' & Hcase). exists k'. split; [done|]. split; [done|].
  destruct (well_formed d o (len b) (tot_len b)); [|done]. destruct Hcase as (s1 & b1 & l1 & Hkeep & Hd1 & Hn & Hdata & Htot & Hlen & Ev).
  assert (En : net_of (set_st s1 k) = set_packets s1 (net_of k)) by (unfold set_st; by rewrite net_set_net).
  assert (Ei1 : ip_of (set_st s1 k) = ip_of k) by (unfold set_st; by rewrite ip_set_net).
  destruct (input_verified_ok (set_st s1 k) E p b1 l1 o d (header_length d o) inp nif Hd1 eq_refl Hn) as (k'' & Ev' & _ & Hd2 & r & Hm & Hr); [by rewrite En|].
  rewrite Ev in Ev'. injection Ev' as <-. rewrite En in Hm. change (netifs (set_packets s1 (net_of k))) with (netifs (net_of k)) in Hm.
  set (src := long_at d (o + ip_src)) in *. set (dest := long_at d (o + ip_dest)) in *. set (k1 := update_ip (set_current_addrs src dest) (set_st s1 k)) in *.
  assert (En1 : net_of k1 = set_packets s1 (net_of k)) by (unfold k1; by rewrite net_update_ip).
  assert (Es1 : st_of k1 = s1) by (unfold k1; by rewrite st_update_ip, st_set_st).
  cbv zeta. exists k1, b1, l1, r. split; [by eapply elsewhere_trans; [apply elsewhere_st | apply elsewhere_ip]|]. split; [by rewrite Es1|]. split; [done|]. split; [unfold k1; by rewrite ip_update_ip, Ei1|]. rewrite Es1. split; [done|]. split; [done|]. split; [done|].
  split; [done|]. split; [done|]. split; [done|].
  assert (Hgo : forall np, is_Some (netifs (net_of k1) !! np) -> input_accepted p np inp (Some (p, o)) (header_length d o) k1 = Ok (k', ERR_OK) ->
    is_fragment d o = false -> exists k2 b2 k3, elsewhere k1 k2 /\ keeps s1 (st_of k2) /\ delivered k2 E p b2 l1 (o + header_length d o) d (header_length d o) np inp /\ b2 = grow_head (- header_length d o) b1 /\
      net_of k2 = set_packets (st_of k2) (net_of k1) /\ ip_of k2 = set_current (Some np) (Some inp) (Some (p, o)) (header_length d o) (ip_of k1) /\
      chain_data (areas (st_of k2)) ((p, b2) :: l1) = drop (Z.to_nat (header_length d o)) (chain_data (areas s1) ((p, b1) :: l1)) /\
      dispatch (byte_at d (o + ip_proto)) p np inp (header_length d o) k2 = Ok k3 /\ user_inv k3 E /\ k' = forget_current k3).
  { intros np Hnp Ea Hf. assert (Hinp : is_Some (netifs (net_of k1) !! inp)) by (rewrite En1; by eexists).
    destruct (input_accepted_ok k1 E p b1 l1 o d (header_length d o) np inp Hd2 eq_refl Hn Hnp Hinp) as [_ Eacc]. rewrite Eacc in Ea by done.
    destruct (deliver_ok k1 E p b1 l1 o d (header_length d o) np inp Hd2 eq_refl Hn Hnp Hinp) as (k2 & b2 & k3 & G0 & G1 & G2 & G3 & G4 & G5 & G6 & G7 & Ed & _ & G8).
    rewrite Ed in Ea. injection Ea as <-. rewrite Es1 in G5, G8. exists k2, b2, k3. do 7 (split; [done|]). by split. }
  destruct r as [np|]; cbn [destination].
  - destruct (source_ok src nif); [|done]. apply (Hgo np); [|done].
    rewrite En1. by apply (matched_some _ _ _ _ _ _ Hm).
  - destruct (for_dhcp _ _ _); [|done]. apply (Hgo inp); [|done]. rewrite En1. by eexists.
Qed.

End Recv.
