(* ===== verification/Ip4Spec.v ===== *)
(** * What IPv4 promises to those who send

    The classes of the states that contain the module, and the theorem about
    [ip4_output]: routing, the header, and the frame on the wire. *)

From stdpp Require Import gmultiset.
From S2P Require Import Prelude Strings Onescomp Def Chksum Ip4Addr Eth Alloc Memp Mem Pbuf PbufRef PbufAlloc PbufStore PbufPool PbufTrim Ethernet EthArp EthArpOps EthArpOut LwipPort ArpSpec EthInput Receive Acd AcdOps Ip4 HeadMem Ip4Ops Icmp.

(** ** Definitions *)

(** The ARP module in a larger state. *)
Definition arp_in P1 P2 X K `{!PoolAlloc P1} `{!PoolAlloc P2} `{!LinkDriver X} (pn : Part K (net P1 P2 X)) : ArpUser P1 P2 X K.
Proof.
  refine {| held := fun _ => ∅; user_inv := fun k E => arp_ok (part (Part := pn) k) E |}.
  - intros k E Hn. by rewrite (right_id_L ∅ (⊎)).
  - intros k E n E' _ Hn _. rewrite (right_id_L ∅ (⊎)) in Hn. by rewrite part_set.
Defined.

(** The module of IPv4 on top of a state whose invariant does not know it. *)
Section WithIp.
Context {P1 P2 : Type} `{!PoolAlloc P1} `{!PoolAlloc P2} {X : Type} `{!LinkDriver X}.
Context {K : Type} (pn : Part K (net P1 P2 X)) (pi : Part K ip_mod) (A : Apart pn pi) (U : ArpUser P1 P2 X K).
Hypothesis blind : forall k E m, @user_inv _ _ _ _ _ _ _ _ U k E -> @user_inv _ _ _ _ _ _ _ _ U (set_part (Part := pi) m k) E.

Definition with_ip : ArpUser P1 P2 X K.
Proof using A U.
  refine {| held := @held _ _ _ _ _ _ _ _ U;
            user_inv := fun k E => @user_inv _ _ _ _ _ _ _ _ U k E /\ ip_wf (netifs (net_of k)) (ip_of k) |}.
  - intros k E [Hk _]. by apply (@user_arp _ _ _ _ _ _ _ _ U).
  - intros k E n E' [Hk Hw] Hn Hnet. split; [by apply (@user_set _ _ _ _ _ _ _ _ U k E)|].
    unfold net_of, ip_of in *. by rewrite part_set, apart_left, Hnet.
Defined.

Lemma with_ip_user : IpUser P1 P2 X K (U := with_ip).
Proof using blind.
  split; [done | by intros k E [_ Hw] |]. intros k E m [Hk _] Hw. split; [by apply blind|].
  unfold net_of, ip_of in *. by rewrite apart_right, part_set.
Qed.

(** Conflict detection does not mind. *)
Context (pm : Part K acd_mod) (B : Apart pm pi).
Lemma with_ip_acd : AcdUser P1 P2 X K (pm := pm) (U := U) -> AcdUser P1 P2 X K (pm := pm) (U := with_ip).
Proof using B.
  intros [H1 H2 H3]. split; [done | by intros k E [Hk _]; apply (H2 k E)|]. intros k E m [Hk Hw] Hm. split; [by apply H3|].
  unfold net_of, ip_of in *. by rewrite (@apart_left _ _ _ _ _ B), (@apart_right _ _ _ _ _ H1).
Qed.

End WithIp.

(** ** Properties *)

Section Properties.
Context {P1 P2 : Type} `{!PoolAlloc P1} `{!PoolAlloc P2} {X : Type} `{!LinkDriver X}.
Context {K : Type} {pn : Part K (net P1 P2 X)} {pi : Part K ip_mod} {U : ArpUser P1 P2 X K} {V : IpUser P1 P2 X K}.
Implicit Type k : K.
#[local] Set Default Proof Using "Type*".
Variable custom_free_function : ptr -> store P1 P2 -> res (store P1 P2).
Variable fresh_byte : nat -> Z.
Hypothesis fresh_u8 : forall i, is_u8 (fresh_byte i).
Variable ip4_frag : ptr -> Z -> Z -> K -> res (K * Z).
Hypothesis frag_ok : frag_contract ip4_frag.

(** C7: ip4_output sends a packet as a datagram. For a packet that is ours alone,
    without empty pbufs, it returns, and all invariants are kept. Without a route
    it returns ERR_RTE, without room for the header ERR_BUF, and nothing is
    changed. Otherwise the identification is counted up, and the datagram is the
    packet behind a header with the interface's address as its source when none is
    given, whose checksum verifies. If the datagram fits the interface, there is
    room for the frame header and the link address is known (the destination is a
    broadcast or multicast address, or the ARP table has the next hop), then
    exactly this datagram is on the wire, in one frame to that address, behind at
    most the ARP requests that are due. *)
Theorem ip4_output_correct k E p b l src dest ttl tos proto : own k E p b l -> no_empty l ->
  (forall a, src = Some a -> is_u32 a) -> is_u32 dest -> is_u8 ttl -> is_u8 tos -> is_u8 proto ->
  exists k' r rt, ip4_output custom_free_function fresh_byte ip4_frag p src dest ttl tos proto k = Ok (k', r) /\ user_inv k' E /\
    netifs (net_of k') = netifs (net_of k) /\ routed (netifs (net_of k)) (ip_of k) dest rt /\
    match rt with
    | None => k' = k /\ r = ERR_RTE
    | Some np => exists nif, netifs (net_of k) !! np = Some nif /\
        if header_room b IP_HLEN then
          let n := tot_len b + IP_HLEN in
          let from := if ip4_addr_isany (default IPADDR_ANY src) then ip_addr nif else default IPADDR_ANY src in
          let h := sent_header tos n (header_id proto n (ip_of k)) ttl proto from dest in
          let d := h ++ chain_data (areas (st_of k)) ((p, b) :: l) in
          ip_of k' = snd (next_ip_id proto n (ip_of k)) /\ (forall addr, inet_chksum addr d IP_HLEN = Ok 0) /\
          forall hw again, fits nif n = true -> header_room b (SIZEOF_ETH_HDR + IP_HLEN) = true -> n <= 1504 ->
            link_address np dest nif (arp_table (net_of k)) hw again ->
            exists fs, (fs = again \/ fs = []) /\
              wire (device (net_of k')) = wire (device (net_of k)) ++ fs ++ [frame_of hw (hwaddr nif) ETHTYPE_IP d]
        else k' = k /\ r = ERR_BUF
    end.
Proof.
  intros H He Hsrc Hdest Httl Htos Hproto. pose proof (own_inv _ _ _ _ _ H) as Hk. pose proof (own_lookup _ _ _ _ _ H) as Hb.
  unfold ip4_output. rewrite (get_some _ _ _ Hb), bind_ok, (own_ref _ _ _ _ _ H), Z.eqb_refl. cbn [lwip_assert]. rewrite bind_ok.
  destruct (route_ok k E dest Hk) as (rt & -> & Hrt). rewrite bind_ok. destruct rt as [np|].
  2: { by exists k, ERR_RTE, None. }
  destruct (routed_some _ _ _ _ Hrt) as [nif Hnif].
  destruct (output_if_ok custom_free_function fresh_byte fresh_u8 ip4_frag frag_ok k E p b l src dest ttl tos proto np nif H He Hnif Hsrc Hdest Httl Htos Hproto)
    as (k' & r & -> & Hk' & Hn & _ & Hrest).
  exists k', r, (Some np). split; [done|]. split; [done|]. split; [done|]. split; [done|]. exists nif. split; [done|].
  destruct (header_room b IP_HLEN) eqn:Er; [|done]. cbv zeta in *. destruct Hrest as [Hip Hsend]. split; [done|].
  set (from := if ip4_addr_isany _ then _ else _) in *. set (n := tot_len b + IP_HLEN) in *.
  assert (Hfrom : is_u32 from).
  { destruct (ao_netifs _ _ (user_arp _ _ Hk) np nif Hnif) as (_ & _ & _ & Ha & _).
    unfold from. destruct (ip4_addr_isany _); [done|]. destruct src as [a|]; [by apply Hsrc | by unfold is_u32]. }
  destruct (next_ip_id_wf _ proto n _ (ip_user_wf k E Hk)) as [_ Hid].
  destruct (so_payload _ _ (user_whole k E Hk) p b Hb) as (pa & o & dd & Hpb & _).
  destruct (own_data _ _ _ _ _ H) as (_ & _ & Hlb & _).
  assert (Hnr : is_u16 n).
  { unfold header_room in Er. rewrite Hpb, !andb_true_iff, !Z.leb_le in Er. unfold n, IP_HLEN in *. split; lia. }
  split; [intros addr; by apply sent_header_verifies|].
  intros hw again Hfit Hroom Hmax Hlink. destruct (Hsend Hfit) as (k1 & Hready & (n' & ->) & Hres). rewrite Hroom in Hready.
  rewrite net_set_net in Hres |- *. apply (ready_wire _ _ _ _ _ _ _ _ _ _ _ _ Hready Hres Hlink).
  rewrite length_app. pose proof (packet_length _ _ _ _ (own_packet _ _ _ _ _ H)) as Hl.
  destruct (packet_cons _ _ _ _ _ _ (own_packet _ _ _ _ _ H)) as (_ & _ & _ & Ht & _). cbn [snd] in *. rewrite total_len_cons in Hl. cbn [snd] in Hl.
  change (length (sent_header _ _ _ _ _ _ _)) with 20%nat. unfold n, IP_HLEN in *. lia.
Qed.

End Properties.

(** ** Witnesses *)

(** The system after boot, with IPv4, and a packet of 8 bytes from the heap to
    255.255.255.255. *)
Module Ip4Demo.
Import ArpSpec.Demo.

Definition stacked : Type := net pool pool mmio * ip_mod.
Definition stacked_net : Part stacked (net pool pool mmio) := part_fst _ _.
Definition stacked_ip : Part stacked ip_mod := part_snd _ _.
Definition arp_user : @ArpUser pool pool mmio stacked witness_pool witness_memp demo_link stacked_net :=
  @arp_in pool pool mmio stacked witness_pool witness_memp demo_link stacked_net.
Definition stacked_apart : Apart stacked_net stacked_ip := apart_pair _ _.
Definition stacked_user : @ArpUser pool pool mmio stacked witness_pool witness_memp demo_link stacked_net :=
  @with_ip pool pool witness_pool witness_memp mmio demo_link stacked stacked_net stacked_ip stacked_apart arp_user.

Lemma stacked_ip_user : @IpUser pool pool mmio stacked witness_pool witness_memp demo_link stacked_net stacked_ip stacked_user.
Proof. apply with_ip_user. by intros [n m'] E m Hk. Qed.

Definition ip_demo : ip_mod := IpMod [0] (Some 0) 7 None None None 0 IPADDR_ANY IPADDR_ANY.
Definition boot_demo : stacked := (net_demo (pbuf_boot heap_fresh), ip_demo).

Lemma ip_demo_ok : ip_wf {[0 := demo_if]} ip_demo.
Proof.
  split; cbn; try (unfold IPADDR_ANY; solve_u).
  - repeat constructor. by eexists.
  - intros np [= <-]. by eexists.
Qed.

Lemma boot_demo_ok : @user_inv _ _ _ _ _ _ _ _ stacked_user boot_demo ∅.
Proof. split; [|exact ip_demo_ok]. cbn. by apply net_demo_ok, boot_ok. Qed.

(** Nothing is cut into pieces. *)
Definition no_frag (p : ptr) (np a : Z) (k : stacked) : res (stacked * Z) := Ok (k, ERR_MEM).

Definition packet_alloc : res (stacked * option ptr) :=
  @on_packets pool pool mmio stacked stacked_net (option ptr) (@pbuf_alloc pool pool witness_pool witness_memp no_custom noise PBUF_IP 8 PBUF_RAM) boot_demo.

Lemma packet_alloc_some : match packet_alloc with Ok (_, Some _) => true | _ => false end = true.
Proof. by vm_compute. Qed.

End Ip4Demo.

Import ArpSpec.Demo Ip4Demo.

Lemma ip4_output_correct_witness : exists k q k' r d, packet_alloc = Ok (k, Some q) /\
  @ip4_output pool pool witness_pool witness_memp mmio demo_link stacked stacked_net stacked_ip no_custom noise no_frag q None 0xffffffff 64 0 IP_PROTO_UDP k = Ok (k', r) /\
  length d = 8%nat /\
  (wire_log (device (@net_of pool pool mmio stacked stacked_net k'))).1 =
    [frame_of ethbroadcast (hwaddr demo_if) ETHTYPE_IP (sent_header 0 28 7 64 IP_PROTO_UDP (ip_addr demo_if) 0xffffffff ++ d)].
Proof.
  destruct (@user_ram pool pool witness_pool witness_memp mmio demo_link stacked stacked_net stacked_ip stacked_user stacked_ip_user no_custom noise noise_u8
    boot_demo ∅ PBUF_IP 8 boot_demo_ok) as (s' & [q|] & Ea & Hr); [by unfold PBUF_IP | by unfold is_u16 | |].
  2: { pose proof packet_alloc_some as H. unfold packet_alloc in H. rewrite Ea in H. discriminate H. }
  destruct Hr as (o & Ho & Hown & _). set (k := @set_st pool pool mmio stacked stacked_net s' boot_demo) in *.
  destruct (@ip4_output_correct pool pool witness_pool witness_memp mmio demo_link stacked stacked_net stacked_ip stacked_user stacked_ip_user no_custom noise noise_u8
    no_frag) with (k := k) (E := {[+ q +]} ⊎ ∅ : gmultiset ptr) (p := q) (b := fresh_ram q o 8) (l := @nil (ptr * pbuf)) (src := @None Z) (dest := 0xffffffff) (ttl := 64) (tos := 0) (proto := IP_PROTO_UDP)
    as (k' & r & rt & Eo & _ & _ & Hrt & Hcase).
  - intros k0 E p np a Hk _ _ _. by exists k0, ERR_MEM.
  - exact Hown.
  - constructor.
  - done.
  - unfold is_u32; lia.
  - unfold is_u8; lia.
  - unfold is_u8; lia.
  - unfold is_u8, IP_PROTO_UDP; lia.
  - destruct rt as [np|].
    2: { exfalso. inversion Hrt as [| |_ Hno]. specialize (Hno 0 demo_if eq_refl eq_refl). discriminate Hno. }
    destruct Hcase as (nif & Hnif & Hcase). change (({[0 := demo_if]} : gmap Z netif) !! np = Some nif) in Hnif.
    apply lookup_singleton_Some in Hnif as [<- <-].
    assert (Hroom : forall n, 0 <= n <= 34 -> header_room (fresh_ram q o 8) n = true).
    { intros n Hn. unfold PBUF_IP in Ho. unfold header_room. cbn. change (negb _) with true. cbn [andb]. apply andb_true_iff. rewrite !Z.leb_le. lia. }
    rewrite (Hroom IP_HLEN) in Hcase by by unfold IP_HLEN. destruct Hcase as (_ & _ & Hwire).
    destruct (Hwire ethbroadcast [] eq_refl) as (fs & Hfs & Hw); [apply Hroom; unfold SIZEOF_ETH_HDR, IP_HLEN; lia | unfold IP_HLEN; cbn; lia | by apply LinkBroadcast |].
    assert (fs = []) as -> by (by destruct Hfs).
    exists k, q, k', r, (chain_data (areas (@st_of pool pool mmio stacked stacked_net k)) [(q, fresh_ram q o 8)]).
    split; [exact Ea|]. split; [exact Eo|]. split; [|exact Hw].
    pose proof (packet_length _ _ _ _ (own_packet _ _ _ _ _ Hown)) as Hl. apply Nat2Z.inj. rewrite Hl. done.
Defined.
