(* ===== verification/IpPath.v ===== *)
(** * From a frame to the protocol

    The receive path of main.c with IPv4 behind it: a frame in the controller's
    FIFO, the datagram in it, and what becomes of it. *)

From stdpp Require Import gmultiset.
From S2P Require Import Prelude Strings Onescomp Def Chksum Ip4Addr Eth Alloc Memp Mem Pbuf PbufRef PbufAlloc PbufStore PbufPool PbufTrim Ethernet EthArp EthArpOps EthArpOut LwipPort ArpSpec EthInput Receive Acd AcdOps AcdSpec ArpPath Ip4 Icmp Ip4Input HeadMem Ip4Ops IcmpOps Ip4Recv Ip4Spec.

(** ** Definitions *)

(** The state of IPv4 inside the kernel's. *)
#[export] Instance port_ip P1 P2 Y (H : Part Y ip_mod) : Part (port P1 P2 Y) ip_mod := port_stack P1 P2 Y ip_mod H.

Section Path.
Context {P1 P2 : Type} `{!PoolAlloc P1} `{!PoolAlloc P2} {Y : Type} {pa : Part Y arp_side} {pm : Part Y acd_mod} {pi : Part Y ip_mod}.
Implicit Type k : port P1 P2 Y.
Variable REG : Z -> nat -> Z.
Variable out_buffer : list Z.
Hypothesis out_length : length out_buffer = 1518%nat.
Hypothesis out_bytes : bytes_ok out_buffer.
#[local] Instance link : LinkDriver mmio := port_link REG out_buffer out_length out_bytes.
Variable custom_free_function : ptr -> store P1 P2 -> res (store P1 P2).
Variable fresh_byte : nat -> Z.
Variable conflict_callback : Z -> Z -> acd_callback_enum_t -> port P1 P2 Y -> res (port P1 P2 Y).
Variable ip4_frag : ptr -> Z -> Z -> port P1 P2 Y -> res (port P1 P2 Y * Z).
Variable ip4_reass : ptr -> port P1 P2 Y -> res (port P1 P2 Y * option ptr).
Variable udp_input tcp_input : ptr -> Z -> port P1 P2 Y -> res (port P1 P2 Y).

(** [ip4_input] as [ethernet_input] calls it, its result ignored. *)
Definition ip_layer (p : ptr) (np : Z) k : res (port P1 P2 Y) :=
  '(k, _) ← ip4_input custom_free_function fresh_byte ip4_frag ip4_reass udp_input tcp_input p np k; Ok k.

(** The kernel's receive path with IPv4 and ARP. *)
Definition ip_receive : Z -> list Z -> port P1 P2 Y -> res (port P1 P2 Y) :=
  kernel_receive REG out_buffer out_length out_bytes custom_free_function fresh_byte conflict_callback ip_layer.

End Path.

(** ** Specifications *)

(** A datagram [x] as it is in a frame: whole, and its parts. *)
Definition ip_intact (x : list Z) : bool := well_formed x 0 (length x) (length x).
Definition ip_head (x : list Z) : list Z := take (Z.to_nat (header_length x 0)) x.
Definition ip_body (x : list Z) : list Z := drop (Z.to_nat (header_length x 0)) (take (Z.to_nat (datagram_length x 0)) x).
Definition ip_source (x : list Z) : Z := long_at x ip_src.
Definition ip_target (x : list Z) : Z := long_at x ip_dest.

(** ** Lemmas *)

(** *** The datagram in memory and in the frame *)

Lemma byte_at_take (d : list Z) n i : 0 <= i < n -> byte_at (take (Z.to_nat n) d) i = byte_at d i.
Proof. intros Hi. unfold byte_at. rewrite !nth_lookup, lookup_take_lt by lia. done. Qed.

Lemma window_zero (d : list Z) n : window d 0 n = take (Z.to_nat n) d.
Proof. unfold window. by rewrite drop_0. Qed.

Section Bytes.
Variable d x : list Z.
Variable o n : Z.
Hypothesis Ho : 0 <= o.
Hypothesis Hw : window d o n = take (Z.to_nat n) x.

Lemma seen_byte i : 0 <= i < n -> byte_at d (o + i) = byte_at x i.
Proof using Ho Hw. intros Hi. rewrite <- (byte_at_window d o n i) by lia. rewrite Hw. by apply byte_at_take. Qed.

Lemma seen_word i : 0 <= i -> i + 2 <= n -> word_at d (o + i) = word_at x i.
Proof using Ho Hw. intros H1 H2. unfold word_at. rewrite <- Z.add_assoc, !seen_byte by lia. done. Qed.

Lemma seen_long i : 0 <= i -> i + 4 <= n -> long_at d (o + i) = long_at x i.
Proof using Ho Hw. intros H1 H2. unfold long_at. rewrite <- Z.add_assoc, !seen_word by lia. done. Qed.

Lemma seen_header_length : 0 < n -> header_length d o = header_length x 0.
Proof using Ho Hw. intros Hn. unfold header_length. rewrite <- (seen_byte 0) by lia. by rewrite Z.add_0_r. Qed.

Lemma seen_window m : 0 <= m <= n -> window d o m = window x 0 m.
Proof using Ho Hw.
  intros Hm. rewrite window_zero. apply (f_equal (take (Z.to_nat m))) in Hw. unfold window in *. rewrite !take_take in Hw.
  replace (Z.to_nat m `min` Z.to_nat n)%nat with (Z.to_nat m) in Hw by lia. done.
Qed.

(** Whether a datagram is well formed can be seen in the frame, even if not all
    of it is in the first pbuf. *)
Lemma seen_well_formed : n = Z.min 498 (length x) -> well_formed d o n (length x) = ip_intact x.
Proof using Ho Hw.
  intros En. unfold ip_intact, well_formed. destruct (Z.ltb_spec n 20) as [Hs|Hs].
  - transitivity false; [|symmetry];
      match goal with |- ?a && (?h <=? Z.min ?l ?t) && ?b && (?g <=? ?h) && ?c = false => assert ((h <=? Z.min l t) && (IP_HLEN <=? h) = false) as Hf
        by (unfold IP_HLEN; destruct (Z.leb_spec h (Z.min l t)), (Z.leb_spec 20 h); (done || lia));
        apply andb_false_iff in Hf as [->| ->]; by rewrite ?andb_false_r end.
  - assert (Eh : header_length d o = header_length x 0) by (apply seen_header_length; lia).
    assert (Ev : byte_at d o = byte_at x 0) by (rewrite <- (seen_byte 0) by lia; by rewrite Z.add_0_r).
    assert (El : datagram_length d o = datagram_length x 0).
    { unfold datagram_length. rewrite (seen_word ip_len) by (unfold ip_len; lia). by rewrite Z.add_0_l. }
    rewrite Eh, Ev, El. pose proof (header_length_range (byte_at x 0)) as Hr. fold (header_length x 0) in Hr.
    assert (Ec : (header_length x 0 <=? Z.min (datagram_length x 0) n) = (header_length x 0 <=? Z.min (datagram_length x 0) (length x))).
    { apply eq_true_iff_eq. rewrite !Z.leb_le. lia. }
    rewrite Ec. destruct (Z.leb_spec (header_length x 0) (Z.min (datagram_length x 0) (length x))) as [Hle|]; [|by rewrite !andb_false_r].
    rewrite seen_window by lia. done.
Qed.

End Bytes.

(** A frame of type IP. *)
Lemma ip_frame_layer {K} (frame dst hs x : list Z) nif (f g : ptr -> Z -> K -> res K) :
  frame = frame_of dst hs ETHTYPE_IP x -> length dst = 6%nat -> length hs = 6%nat -> (0 < length x)%nat ->
  Z.land (netif_flags nif) NETIF_FLAG_ETHARP <> 0 -> layer_of f g nif frame = Some f /\ drop 14 frame = x.
Proof.
  intros -> Hd Hs Hx Hf. do 6 (destruct dst as [|? dst]; [done|]). destruct dst; [|done].
  do 6 (destruct hs as [|? hs]; [done|]). destruct hs; [|done]. split; [|done].
  unfold layer_of. match goal with |- context [Z.of_nat (length ?d) <=? _] => destruct (Z.leb_spec (length d) SIZEOF_ETH_HDR) as [Hl|_] end.
  { unfold frame_of, SIZEOF_ETH_HDR in Hl. rewrite !length_app in Hl. cbn [length] in Hl. lia. }
  by destruct (Z.eqb_spec (Z.land (netif_flags nif) NETIF_FLAG_ETHARP) 0).
Qed.

(** The address of the interface the frame has come in on. *)
Lemma matched_ours nets m inp nif r n x : matched nets m (ip_target x) inp nif r -> ip_target x = ip_addr nif -> netif_is_up nif = true ->
  ip4_addr_isany (ip_addr nif) = false -> ip4_addr_ismulticast (ip_addr nif) = false -> source_ok (ip_source x) nif = true ->
  r = Some inp /\ destination x 0 n (ip_source x) inp nif r = Some inp.
Proof.
  intros Hm Et Hup Hany Hmc Hsrc. rewrite Et in Hm. rewrite (matched_own _ _ _ _ _ Hm) by done. split; [done|]. unfold destination. by rewrite Hsrc.
Qed.



(** A datagram from 0.0.0.0 is accepted, and an answer to it is a broadcast. *)
Lemma any_source_reported nif : source_ok IPADDR_ANY nif = true /\ ip4_addr_isbroadcast IPADDR_ANY nif = true.
Proof. done. Qed.

Section Frames.
Context {P1 P2 : Type} `{!PoolAlloc P1} `{!PoolAlloc P2} {Y : Type} {pa : Part Y arp_side} {pm : Part Y acd_mod} {pi : Part Y ip_mod}.
Variable REG : Z -> nat -> Z.
Variable out_buffer : list Z.
Hypothesis out_length : length out_buffer = 1518%nat.
Hypothesis out_bytes : bytes_ok out_buffer.
#[local] Instance driver : LinkDriver mmio := port_link REG out_buffer out_length out_bytes.
Context {U : ArpUser P1 P2 mmio (port P1 P2 Y)} {VA : AcdUser P1 P2 mmio (port P1 P2 Y)} {V : IpUser P1 P2 mmio (port P1 P2 Y)}.
Implicit Type k : port P1 P2 Y.
#[local] Set Default Proof Using "Type*".
Variable custom_free_function : ptr -> store P1 P2 -> res (store P1 P2).
Variable fresh_byte : nat -> Z.
Hypothesis fresh_u8 : forall i, is_u8 (fresh_byte i).
Variable conflict_callback : Z -> Z -> acd_callback_enum_t -> port P1 P2 Y -> res (port P1 P2 Y).
Hypothesis callback_ok : callback_contract conflict_callback.
Variable ip4_frag : ptr -> Z -> Z -> port P1 P2 Y -> res (port P1 P2 Y * Z).
Hypothesis frag_ok : frag_contract ip4_frag.
Variable ip4_reass : ptr -> port P1 P2 Y -> res (port P1 P2 Y * option ptr).
Hypothesis reass_ok : reass_contract ip4_reass.
Variable udp_input tcp_input : ptr -> Z -> port P1 P2 Y -> res (port P1 P2 Y).
Hypothesis udp_ok : transport_contract udp_input.
Hypothesis tcp_ok : transport_contract tcp_input.

Notation net := (net_of (pn := port_part P1 P2 Y pa)).
Notation ip := (ip_of (pi := port_ip P1 P2 Y pi)).
Notation layer := (ip_layer REG out_buffer out_length out_bytes custom_free_function fresh_byte ip4_frag ip4_reass udp_input tcp_input).
Notation input := (ip_receive REG out_buffer out_length out_bytes custom_free_function fresh_byte conflict_callback ip4_frag ip4_reass udp_input tcp_input).

Lemma ip_layer_eq p np k : layer p np k =
  ('(k, _) ← ip4_input custom_free_function fresh_byte ip4_frag ip4_reass udp_input tcp_input p np k; Ok k).
Proof using Type. reflexivity. Qed.

Lemma ip_layer_ok : layer_contract 498 layer.
Proof.
  intros k E np p b Hk [nif Hnif] Harr. destruct (arrived_datagram k E p b Hk Harr) as (l & o & d & Hd).
  destruct (input_cases custom_free_function fresh_byte fresh_u8 ip4_frag frag_ok ip4_reass reass_ok udp_input tcp_input udp_ok tcp_ok
    k E p b l o d np nif Hd Hnif) as (k' & Ei & Hk' & _).
  exists k'. by rewrite ip_layer_eq, Ei, bind_ok.
Qed.

(** The frame in the FIFO is a datagram, for which the pool has room. *)
Record ip_pending k E (np : Z) (nif : netif) (in_buffer x : list Z) : Prop := IpPending
  { pd_inv : user_inv k E;
    pd_room : exists W, pool_holds (pbuf_pool (st k)) W /\ (forall a, is_Some (pbufs (st k) !! PoolPtr a) -> a ∈ W) /\
      pool_pbufs (length (pending_frame REG (eth_dev k))) <= @pool_capacity P1 _ - size W;
    pd_buffer : length in_buffer = 1518%nat;
    pd_bytes : bytes_ok in_buffer;
    pd_netif : netifs (net k) !! np = Some nif;
    pd_flag : Z.land (netif_flags nif) NETIF_FLAG_ETHARP <> 0;
    pd_pending : frame_pending REG (eth_dev k);
    pd_frame : exists dst hs, pending_frame REG (eth_dev k) = frame_of dst hs ETHTYPE_IP x /\ length dst = 6%nat /\ length hs = 6%nat;
    pd_some : (0 < length x)%nat }.

(** The datagram reaches [ip4_input]. *)
Lemma pending_input k E np nif in_buffer x : ip_pending k E np nif in_buffer x ->
  exists k' k1 p b l o d, input np in_buffer k = Ok k' /\ user_inv k' E /\
    ip4_input custom_free_function fresh_byte ip4_frag ip4_reass udp_input tcp_input p np k1 = Ok (k', ERR_OK) /\
    datagram k1 E p b l o d /\ stack k1 = stack k /\ wire_log (eth_dev k1) = wire_log (eth_dev k) /\ keeps (st k) (st k1) /\
    chain_data (areas (st k1)) ((p, b) :: l) = x /\ length x <= 1504 /\ tot_len b = length x /\ len b = Z.min 498 (length x) /\
    window d o (len b) = take (Z.to_nat (len b)) x.
Proof.
  intros [Hk (W & HW & HWa & Hroom) Hbl Hbb Hnif Hflag Hpend (dst & hs & Hframe & Hld & Hlh) Hx].
  set (arp := kernel_etharp REG out_buffer out_length out_bytes custom_free_function fresh_byte conflict_callback).
  destruct (pending_frame_length REG _ Hpend) as [Hfl _].
  destruct (receive_ok REG out_buffer out_length out_bytes custom_free_function fresh_byte fresh_u8 layer arp k E W np nif in_buffer)
    as (k' & Er & Hk' & Hlay); try done.
  { exact ip_layer_ok. }
  { apply etharp_layer; [done | by apply arp_reply_contract | lia]. }
  destruct (Z.ltb_spec (@pool_capacity P1 _ - size W) (pool_pbufs (length (pending_frame REG (eth_dev k))))); [lia|].
  destruct (ip_frame_layer _ dst hs x nif layer arp Hframe Hld Hlh Hx Hflag) as [El Ed]. rewrite El in Hlay.
  destruct Hlay as (k1 & p & b & l & Ef & Hk1 & Hst & Hwr & Hkeep & Hp & Hdata & Harr & Hlen & _). rewrite Ed in Hdata.
  assert (Hxl : length (pending_frame REG (eth_dev k)) = length x + 14 :> Z).
  { pose proof (f_equal length Ed) as El2. rewrite length_drop in El2. lia. }
  destruct (arrived_datagram k1 E p b Hk1 Harr) as (l' & o & d & Hd).
  pose proof (chain_at_det _ _ _ _ (pk_chain _ _ _ _ Hp) (pk_chain _ _ _ _ (own_packet _ _ _ _ _ (da_own _ _ _ _ _ _ _ Hd)))) as El'. injection El' as <-.
  exists k', k1, p, b, l, o, d. rewrite ip_layer_eq in Ef. apply bind_inv in Ef as ([k2 r] & Ei & [= ->]).
  destruct (input_cases custom_free_function fresh_byte fresh_u8 ip4_frag frag_ok ip4_reass reass_ok udp_input tcp_input udp_ok tcp_ok
    k1 E p b l o d np nif Hd) as (k3 & Ei3 & _); [cbn; rewrite Hst; exact Hnif|].
  rewrite Ei in Ei3. injection Ei3 as <- ->. split; [exact Er|]. split; [done|]. split; [done|]. split; [done|]. split; [done|].
  split; [unfold wire_log; by rewrite Hwr|]. split; [done|]. split; [done|]. split; [lia|].
  destruct (datagram_data _ _ _ _ _ _ _ Hd) as (Hlb & Hld' & _ & Hwd).
  destruct (packet_cons _ _ _ _ _ _ Hp) as (_ & _ & _ & Htot & _). pose proof (packet_length _ _ _ _ Hp) as Hpl. rewrite total_len_cons in Hpl. cbn [snd] in *. rewrite Hdata in Hpl.
  split; [lia|]. split; [lia|]. rewrite <- Hwd. apply (take_prefix _ (chain_data (areas (st k1)) l)).
  - rewrite <- Hdata, chain_data_cons. done.
  - change (areas (st k1)) with (areas (st_of (pn := port_part P1 P2 Y pa) k1)). rewrite Hwd, window_length by (pose proof (da_head _ _ _ _ _ _ _ Hd); unfold SIZEOF_ETH_HDR in *; lia). lia.
Qed.

(** What has not changed for the world outside. *)
Record unheard k k' : Prop := Unheard
  { uh_netifs : netifs (net k') = netifs (net k);
    uh_table : arp_table (net k') = arp_table (net k);
    uh_wire : (wire_log (eth_dev k')).1 = (wire_log (eth_dev k)).1 }.

Lemma unheard_st k k1 s : unheard k k1 -> unheard k (set_st (pn := port_part P1 P2 Y pa) s k1).
Proof using Type. intros [H1 H2 H3]. split; [unfold set_st, set_net, net_of; by rewrite part_set.. | done]. Qed.

Lemma unheard_ip k k1 f : unheard k k1 -> unheard k (update_ip f k1).
Proof using V. intros [H1 H2 H3]. split; rewrite ?net_update_ip; done. Qed.

Lemma unheard_same k k1 : stack k1 = stack k -> wire_log (eth_dev k1) = wire_log (eth_dev k) -> unheard k k1.
Proof using Type. intros H1 H2. split; cbn; by rewrite ?H1, ?H2. Qed.

Lemma unheard_net k k1 k2 : unheard k k1 -> net k2 = set_packets (st_of k2) (net k1) -> unheard k k2.
Proof using Type.
  intros [H1 H2 H3] E. split; [by rewrite E | by rewrite E |]. rewrite <- H3. f_equal. change (wire_log (device (net k2)) = wire_log (device (net k1))). by rewrite E.
Qed.

(** The modules behind the port, but ARP and IPv4, have not changed. *)
Definition aside k k' : Prop := forall (M : Type) (pz : Part Y M), Apart pa pz -> Apart pi pz -> @part Y M pz (stack k') = @part Y M pz (stack k).

Lemma elsewhere_aside k k' : elsewhere k k' -> aside k k'.
Proof using Type.
  intros H M pz An Ai. exact (H M (port_stack P1 P2 Y M pz) (port_apart P1 P2 Y M pa pz An) (port_stack_apart P1 P2 Y ip_mod M pi pz Ai)).
Qed.

(** The datagram [x] is in the state [k2] what the layers above get, without its header. *)
Record received k (x : list Z) (cur inp : Z) k2 (p : ptr) (b : pbuf) (l : list (ptr * pbuf)) (o : Z) (d : list Z) (E : gmultiset ptr) : Prop := Received
  { rc_delivered : delivered k2 E p b l o d (header_length x 0) cur inp;
    rc_body : chain_data (areas (st_of k2)) ((p, b) :: l) = ip_body x;
    rc_head : window d (o - header_length x 0) (header_length x 0) = ip_head x;
    rc_length : tot_len b = datagram_length x 0 - header_length x 0;
    rc_first : len b = Z.min (datagram_length x 0) 498 - header_length x 0;
    rc_sizes : IP_HLEN <= header_length x 0 <= datagram_length x 0 /\ datagram_length x 0 <= length x <= 1504;
    rc_unheard : unheard k k2;
    rc_aside : aside k k2;
    rc_keeps : keeps (st k) (st k2);
    rc_ip : ip k2 = set_current (Some cur) (Some inp) (Some (p, o - header_length x 0)) (header_length x 0)
      (set_current_addrs (ip_source x) (ip_target x) (ip k)) }.

Lemma matched_same nets (m m' : ip_mod) dest inp nif r : netif_list m = netif_list m' -> matched nets m dest inp nif r -> matched nets m' dest inp nif r.
Proof using Type.
  intros El Hm. destruct Hm as [H1|H1 H2|l np l' nif' H1 H2 H3 H4 H5 H6 H7 H8|H1 H2 H3]; rewrite ?El in *;
    [by apply MatchGroup | by apply MatchInput | by apply (MatchOther _ _ _ _ _ l np l' nif') | by apply MatchNone].
Qed.

(** What becomes of the datagram in a frame. *)
Lemma pending_cases k E np nif in_buffer x : ip_pending k E np nif in_buffer x ->
  exists k', input np in_buffer k = Ok k' /\ user_inv k' E /\
    if ip_intact x then
      exists r, matched (netifs (net k)) (ip k) (ip_target x) np nif r /\
        ((r = None -> byte_at x ip_proto = IP_PROTO_UDP -> header_length x 0 + 4 <= length x) ->
         match destination x 0 (header_length x 0) (ip_source x) np nif r with
         | None => unheard k k' /\ ip k' = set_current_addrs (ip_source x) (ip_target x) (ip k)
         | Some cur => is_fragment x 0 = false -> exists k2 p b l o d k3, received k x cur np k2 p b l o d E /\
             dispatch custom_free_function fresh_byte ip4_frag udp_input tcp_input (byte_at x ip_proto) p cur np (header_length x 0) k2 = Ok k3 /\
             user_inv k3 E /\ k' = forget_current k3
         end)
    else unheard k k' /\ ip k' = ip k.
Proof.
  intros Hpd. destruct (pending_input k E np nif in_buffer x Hpd) as (k' & k1 & p & b & l & o & d & Er & Hk' & Ei & Hd & Hst & Hwr & Hkeep & Hdata & Hmax & Htot & Hlen & Hseen).
  pose proof (pd_netif _ _ _ _ _ _ Hpd) as Hnif.
  pose proof (unheard_same k k1 Hst Hwr) as Hun. assert (Eip : ip k1 = ip k) by (cbn; by rewrite Hst).
  pose proof (da_head _ _ _ _ _ _ _ Hd) as Ho. unfold SIZEOF_ETH_HDR in Ho.
  destruct (input_cases custom_free_function fresh_byte fresh_u8 ip4_frag frag_ok ip4_reass reass_ok udp_input tcp_input udp_ok tcp_ok
    k1 E p b l o d np nif Hd) as (k2 & Ei2 & _ & Hcase); [by rewrite (uh_netifs _ _ Hun)|].
  rewrite Ei in Ei2. injection Ei2 as <-. exists k'. split; [done|]. split; [done|].
  rewrite Htot, (seen_well_formed d x o (len b)) in Hcase by (done || lia). destruct (ip_intact x) eqn:Eint.
  2: { destruct Hcase as (s & -> & _). split; [by apply unheard_st|]. unfold set_st, set_net, ip_of. rewrite (@apart_left _ _ _ _ _ ip_apart). exact Eip. }
  unfold ip_intact, well_formed in Eint. rewrite !andb_true_iff, !Z.leb_le in Eint. destruct Eint as ((((_ & G1) & G2) & G3) & _). unfold IP_HLEN in G3.
  pose proof (header_length_range (byte_at x 0)) as Hr. fold (header_length x 0) in Hr.
  rewrite (seen_header_length d x o (len b)) in Hcase by (done || lia).
  assert (El : datagram_length d o = datagram_length x 0).
  { unfold datagram_length. rewrite (seen_word d x o (len b)) by (done || unfold ip_len; lia). by rewrite Z.add_0_l. }
  rewrite El in Hcase. rewrite (seen_long d x o (len b) ltac:(lia) Hseen ip_src) in Hcase by (unfold ip_src; lia).
  rewrite (seen_long d x o (len b) ltac:(lia) Hseen ip_dest) in Hcase by (unfold ip_dest; lia). fold (ip_source x) (ip_target x) in Hcase.
  assert (Eproto : byte_at d (o + ip_proto) = byte_at x ip_proto) by (apply (seen_byte d x o (len b)); (done || unfold ip_proto; lia)).
  assert (Efrag : is_fragment d o = is_fragment x 0).
  { unfold is_fragment. rewrite (seen_word d x o (len b)) by (done || unfold ip_offset; lia). by rewrite Z.add_0_l. }
  rewrite Eproto, Efrag in Hcase.
  destruct Hcase as (k3 & b1 & l1 & r & He1 & Hkeep1 & Hd1 & Hip1 & Hn1 & Hdata1 & Htot1 & Hlen1 & Hn & Hm & Hgo). rewrite Eip in Hip1.
  rewrite (uh_netifs _ _ Hun) in Hm. exists r.
  split; [apply (matched_same _ (ip k3)); [by rewrite Hip1 | done]|]. intros Hport.
  assert (Edest : destination d o (header_length x 0) (ip_source x) np nif r = destination x 0 (header_length x 0) (ip_source x) np nif r).
  { unfold destination. destruct r as [np'|]; [done|]. unfold for_dhcp. rewrite Eproto, Z.add_0_l.
    destruct (Z.eqb_spec (byte_at x ip_proto) IP_PROTO_UDP) as [Eu|]; [|done]. specialize (Hport eq_refl Eu). cbn [andb].
    rewrite <- !Z.add_assoc, (seen_word d x o (len b)) by (done || lia). by rewrite Z.add_0_l. }
  rewrite Edest in Hgo. pose proof (unheard_net k k1 k3 Hun Hn1) as Hun3.
  destruct (destination _ _ _ _ _ _ _) as [cur|].
  2: { destruct Hgo as (s & -> & _). split; [by apply unheard_st|]. unfold set_st, set_net, ip_of. rewrite (@apart_left _ _ _ _ _ ip_apart). exact Hip1. }
  intros Hf. destruct (Hgo Hf) as (k4 & b2 & k5 & He4 & Hkeep4 & Hdl & Eb2 & Hn4 & Hip4 & Hdata4 & Edis & Hk5 & ->).
  exists k4, p, b2, l1, (o + header_length x 0), d, k5. split; [|by split_and!].
  change (areas (st k1)) with (areas (st_of (pn := port_part P1 P2 Y pa) k1)) in Hdata. rewrite Hdata in Hdata1.
  assert (Etot : tot_len b2 = datagram_length x 0 - header_length x 0).
  { rewrite Eb2. cbn [tot_len grow_head with_tot_len]. lia. }
  assert (Elen : len b2 = len b1 - header_length x 0).
  { rewrite Eb2. cbn [len grow_head with_tot_len with_len]. lia. }
  split; try done.
  - unfold ip_body. by rewrite Hdata4, Hdata1.
  - replace (o + header_length x 0 - header_length x 0) with o by lia. unfold ip_head. rewrite <- window_zero. apply (seen_window d x o (len b)); (done || lia).
  - lia.
  - unfold IP_HLEN. lia.
  - by apply (unheard_net k k3).
  - intros M pz An Ai. rewrite (elsewhere_aside k1 k4 (elsewhere_trans _ _ _ He1 He4) M pz An Ai). by rewrite Hst.
  - etransitivity; [exact Hkeep|]. by etransitivity; [exact Hkeep1|].
  - rewrite Hip4, Hip1. replace (o + header_length x 0 - header_length x 0) with o by lia. done.
Qed.

Lemma head_and_body k x cur inp k2 p b l o d E : received k x cur inp k2 p b l o d E ->
  length (ip_head x) = header_length x 0 :> Z /\ length (ip_body x) = datagram_length x 0 - header_length x 0 :> Z /\ 20 <= header_length x 0 <= 60 /\
  bytes_ok (ip_head x) /\ bytes_ok (ip_body x).
Proof using V custom_free_function.
  intros H. destruct (rc_sizes _ _ _ _ _ _ _ _ _ _ _ H) as [H1 H2]. pose proof (header_length_range (byte_at x 0)) as Hr. fold (header_length x 0) in Hr.
  unfold IP_HLEN in H1. pose proof (rc_delivered _ _ _ _ _ _ _ _ _ _ _ H) as Hd. pose proof (dl_own _ _ _ _ _ _ _ _ _ _ Hd) as Ho.
  pose proof (user_whole _ _ (own_inv _ _ _ _ _ Ho)) as Hs. split; [unfold ip_head; rewrite length_take; lia|].
  split; [unfold ip_body; rewrite length_drop, length_take; lia|]. split; [lia|]. split.
  - rewrite <- (rc_head _ _ _ _ _ _ _ _ _ _ _ H). apply Forall_take, Forall_drop, (so_bytes _ _ Hs p), (dl_memory _ _ _ _ _ _ _ _ _ _ Hd).
  - rewrite <- (rc_body _ _ _ _ _ _ _ _ _ _ _ H). apply (chain_data_bytes _ (pbufs (st_of k2)) p); [apply (so_bytes _ _ Hs) | apply (own_packet _ _ _ _ _ Ho)].
Qed.



(** *** Properties *)

(** C3: no frame harms the kernel. Whatever the bytes of the pending frame are,
    ethernetif_input with ARP, conflict detection, IPv4 and ICMP behind it returns:
    no assertion fails, no access leaves a packet's memory, nothing is freed twice
    or leaked, and the ARP table, the structs of conflict detection, the
    interfaces, the heap and the pools are well formed afterwards. *)
Theorem kernel_frame_safe k E np nif in_buffer : user_inv k E -> length in_buffer = 1518%nat -> bytes_ok in_buffer ->
  netifs (net k) !! np = Some nif -> frame_pending REG (eth_dev k) ->
  exists k', input np in_buffer k = Ok k' /\ user_inv k' E.
Proof.
  intros. eapply (any_frame_safe REG out_buffer out_length out_bytes custom_free_function fresh_byte fresh_u8); try done. exact ip_layer_ok.
Qed.

(** C4: a ping is answered, from the controller to the controller. When the
    pending frame is an intact datagram, not a fragment, to the interface's own
    address, with an echo request whose checksum is right, the link address of the
    sender is known and the datagram fits the interface, then ethernetif_input
    returns with exactly one frame more on the wire (behind at most the ARP
    requests that are due): to the sender's link address, the request's header
    with the addresses exchanged, a new time to live and checksum, and the
    request's message with type 0 and the adjusted checksum. Both checksums
    verify. *)
Theorem ping_answered k E np nif in_buffer x hw again : ip_pending k E np nif in_buffer x -> ip_intact x = true -> is_fragment x 0 = false ->
  byte_at x ip_proto = IP_PROTO_ICMP -> ip_target x = ip_addr nif -> netif_is_up nif = true -> ip4_addr_isany (ip_addr nif) = false ->
  source_ok (ip_source x) nif = true -> answers (ip_addr nif) nif (length (ip_body x)) (ip_body x) = true ->
  fits nif (datagram_length x 0) = true -> link_address np (ip_source x) nif (arp_table (net k)) hw again ->
  let reply := reply_header (ip_head x) (ip_addr nif) (ip_source x) ++ reply_message (ip_body x) in
  exists k' fs, input np in_buffer k = Ok k' /\ user_inv k' E /\ (fs = again \/ fs = []) /\
    (wire_log (eth_dev k')).1 = (wire_log (eth_dev k)).1 ++ fs ++ [frame_of hw (hwaddr nif) ETHTYPE_IP reply] /\
    (forall addr, inet_chksum addr reply (header_length x 0) = Ok 0) /\ oc (wsum (reply_message (ip_body x))) = 65535.
Proof.
  intros Hpd Hint Hfrag Hproto Htgt Hup Hany Hsrc Hans Hfit Hlink reply. destruct (pending_cases k E np nif in_buffer x Hpd) as (k' & Er & Hk' & Hcase).
  pose proof (pd_netif _ _ _ _ _ _ Hpd) as Hnif. unfold answers in Hans. rewrite !andb_true_iff, !negb_true_iff, !Z.leb_le, !Z.eqb_eq in Hans.
  destruct Hans as (((((A1 & A2) & A3) & A4) & A5) & A6). unfold SIZEOF_ICMP_ECHO_HDR in A5.
  rewrite Hint in Hcase. destruct Hcase as (r & Hm & Hgo).
  destruct (matched_ours _ _ _ _ _ (header_length x 0) _ Hm Htgt Hup Hany A3 Hsrc) as [-> Ed]. rewrite Ed in Hgo.
  destruct (Hgo ltac:(done) Hfrag) as (k2 & p & b & l & o & d & k3 & Hrc & Edis & Hk3 & ->). clear Hgo.
  destruct (head_and_body _ _ _ _ _ _ _ _ _ _ _ Hrc) as (Hhl & Hml & Hn & Hhb & Hmb). destruct Hrc as [Hdl Hbody Hhead Htot Hlen Hsz [U1 U2 U3] Has _ Hip].
  rewrite Hproto in Edis. change (icmp_input custom_free_function fresh_byte ip4_frag p np k2 = Ok k3) in Edis.
  destruct (icmp_input_ok custom_free_function fresh_byte fresh_u8 ip4_frag frag_ok k2 E p b l o d np nif np nif (header_length x 0)
    (dl_own _ _ _ _ _ _ _ _ _ _ Hdl) (dl_tail _ _ _ _ _ _ _ _ _ _ Hdl) (dl_payload _ _ _ _ _ _ _ _ _ _ Hdl) (dl_memory _ _ _ _ _ _ _ _ _ _ Hdl)
    (dl_header _ _ _ _ _ _ _ _ _ _ Hdl) (dl_room _ _ _ _ _ _ _ _ _ _ Hdl)) as (k4 & Ei & _ & _ & _ & Hans);
    [by rewrite U1 | apply (dl_current _ _ _ _ _ _ _ _ _ _ Hdl) | by rewrite U1 | apply (dl_hdr _ _ _ _ _ _ _ _ _ _ Hdl) | apply (dl_hlen _ _ _ _ _ _ _ _ _ _ Hdl) |].
  rewrite Edis in Ei. injection Ei as <-. rewrite Hbody, Hip, Hhead in Hans. cbn [current_iphdr_dest current_iphdr_src set_current set_current_addrs] in Hans.
  rewrite Htgt in Hans. assert (Ea : answers (ip_addr nif) nif (len b) (ip_body x) = true).
  { unfold answers, SIZEOF_ICMP_ECHO_HDR. rewrite A2, A3, A4, A6, !Z.eqb_refl, !andb_true_iff, !Z.leb_le. split_and!; (done || lia). }
  rewrite Ea in Hans. destruct Hans as (k5 & n' & r & Hready & Hres & Hdev & _); [by replace (header_length x 0 + tot_len b) with (datagram_length x 0) by lia|].
  rewrite <- U2 in Hlink. fold reply in Hready.
  assert (Hrm : length (reply_message (ip_body x)) = length (ip_body x)).
  { unfold reply_message. rewrite length_app, length_drop. cbn [length]. lia. }
  assert (Hrh : length (reply_header (ip_head x) (ip_addr nif) (ip_source x)) = length (ip_head x)) by (unfold reply_header; apply reply_fields_length; lia).
  destruct (ready_wire _ _ _ _ _ _ _ _ _ _ _ _ Hready Hres Hlink) as (fs & Hfs & Hw); [unfold reply; rewrite length_app; lia|].
  exists (forget_current k3), fs. split; [done|]. split; [done|]. split; [done|]. split.
  { rewrite <- U3. change (wire (device (net k3)) = wire (device (net k2)) ++ fs ++ [frame_of hw (hwaddr nif) ETHTYPE_IP reply]). by rewrite Hdev. }
  destruct (ao_netifs _ _ (user_arp _ _ (pd_inv _ _ _ _ _ _ Hpd)) np nif Hnif) as (_ & _ & _ & Hipu & _). split.
  - intros addr. rewrite <- Hhl. apply reply_header_verifies; [done | lia | done |].
    pose proof (ip_user_wf k2 _ (own_inv _ _ _ _ _ (dl_own _ _ _ _ _ _ _ _ _ _ Hdl))) as [_ _ _ Hs _]. by rewrite Hip in Hs.
  - rewrite reply_message_sum; (done || lia).
Qed.

(** C5: a datagram reaches its protocol. For a pending frame with an intact
    datagram, the interface it is for is the one that matches its destination
    address (the one it has come in on, another one of the list, or none); it is
    refused, and nothing is changed but the addresses of the current packet, when
    no interface matches (DHCP messages apart) or the source is a broadcast or
    multicast address. Otherwise, if it is not a fragment, udp_input or tcp_input
    gets a packet of ours whose bytes are exactly the body of the datagram, cut to
    the length in its header, with the header in front of it and the addresses and
    interfaces of the datagram in ip_data, which is cleared afterwards. *)
Theorem datagram_delivered k E np nif in_buffer x : ip_pending k E np nif in_buffer x -> ip_intact x = true ->
  (byte_at x ip_proto = IP_PROTO_UDP -> header_length x 0 + 4 <= length x) ->
  exists k' r, input np in_buffer k = Ok k' /\ user_inv k' E /\ matched (netifs (net k)) (ip k) (ip_target x) np nif r /\
    match destination x 0 (header_length x 0) (ip_source x) np nif r with
    | None => unheard k k' /\ ip k' = set_current_addrs (ip_source x) (ip_target x) (ip k)
    | Some cur => is_fragment x 0 = false -> exists k2 p b l o d k3, received k x cur np k2 p b l o d E /\
        (byte_at x ip_proto = IP_PROTO_UDP -> udp_input p np k2 = Ok k3) /\ (byte_at x ip_proto = IP_PROTO_TCP -> tcp_input p np k2 = Ok k3) /\
        k' = forget_current k3 /\ ip k' = set_current_addrs IPADDR_ANY IPADDR_ANY (set_current None None None 0 (ip k3))
    end.
Proof.
  intros Hpd Hint Hport. destruct (pending_cases k E np nif in_buffer x Hpd) as (k' & Er & Hk' & Hcase). rewrite Hint in Hcase.
  destruct Hcase as (r & Hm & Hgo). exists k', r. split; [done|]. split; [done|]. split; [done|]. specialize (Hgo ltac:(done)).
  destruct (destination _ _ _ _ _ _ _) as [cur|]; [|done]. intros Hf. destruct (Hgo Hf) as (k2 & p & b & l & o & d & k3 & Hrc & Edis & _ & ->).
  exists k2, p, b, l, o, d, k3. split; [done|]. split; [intros E1; by rewrite E1 in Edis|]. split; [intros E1; by rewrite E1 in Edis|]. split; [done|].
  unfold forget_current. by rewrite ip_update_ip.
Qed.

(** C8: a datagram that is not intact goes nowhere. When its version is not 4, it
    is shorter than its header or than the length in its header says, the header
    is shorter than 20 bytes, or its checksum is wrong, then ethernetif_input
    returns with the packet freed: nothing is sent, and the interfaces, the ARP
    table and the state of IPv4 are what they were. *)
Theorem malformed_datagram_dropped k E np nif in_buffer x : ip_pending k E np nif in_buffer x -> ip_intact x = false ->
  exists k', input np in_buffer k = Ok k' /\ user_inv k' E /\ unheard k k' /\ ip k' = ip k.
Proof.
  intros Hpd Hint. destruct (pending_cases k E np nif in_buffer x Hpd) as (k' & Er & Hk' & Hcase). rewrite Hint in Hcase. by exists k'.
Qed.


End Frames.

(** ** Witnesses *)

(** The system after boot, with the neighbour 10.0.2.9 in the ARP table and a
    frame of 60 bytes from it in the FIFO. *)
Module IpDemo.
Import ArpSpec.Demo ArpPath.PathDemo.

Definition layers : Type := arp_side * acd_mod * ip_mod.
Definition kernel : Type := port pool pool layers.
Definition layers_side : Part layers arp_side := part_compose (part_fst (arp_side * acd_mod) ip_mod) (part_fst arp_side acd_mod).
Definition layers_acd : Part layers acd_mod := part_compose (part_fst (arp_side * acd_mod) ip_mod) (part_snd arp_side acd_mod).
Definition layers_ip : Part layers ip_mod := part_snd (arp_side * acd_mod) ip_mod.
Definition k_net : Part kernel (net pool pool mmio) := port_part pool pool layers layers_side.
Definition k_acd : Part kernel acd_mod := port_acd pool pool layers layers_acd.
Definition k_ip : Part kernel ip_mod := port_ip pool pool layers layers_ip.

Lemma side_acd_apart : Apart layers_side layers_acd.
Proof. split; by intros [] [[] []]. Qed.
Lemma side_ip_apart : Apart layers_side layers_ip.
Proof. split; by intros [] [[] []]. Qed.
Lemma acd_ip_apart : Apart layers_acd layers_ip.
Proof. split; by intros [] [[] []]. Qed.

Section Demo.
(** The datagram in the frame. *)
Variable x : list Z.

Definition ip_frame_demo : list Z := frame_of (hwaddr demo_if) asker ETHTYPE_IP x.
Definition REG_ip (r : Z) (i : nat) : Z :=
  if r =? ETH_MACNPV then 1 else nth i (pack_words ([length ip_frame_demo mod 256; length ip_frame_demo / 256] ++ ip_frame_demo)) 0.
Definition link_ip : LinkDriver mmio := port_link REG_ip uninit uninit_length uninit_bytes.

Definition net_acd_apart : Apart k_net k_acd := port_apart pool pool layers acd_mod layers_side layers_acd side_acd_apart.
Definition net_ip_apart : Apart k_net k_ip := port_apart pool pool layers ip_mod layers_side layers_ip side_ip_apart.
Definition acd_ip_port_apart : Apart k_acd k_ip := port_stack_apart pool pool layers acd_mod ip_mod layers_acd layers_ip acd_ip_apart.

Definition base_user : @ArpUser pool pool mmio kernel witness_pool witness_memp link_ip k_net :=
  @arp_with_acd pool pool mmio kernel witness_pool witness_memp link_ip k_net k_acd net_acd_apart.
Definition k_user : @ArpUser pool pool mmio kernel witness_pool witness_memp link_ip k_net :=
  @with_ip pool pool witness_pool witness_memp mmio link_ip kernel k_net k_ip net_ip_apart base_user.

Lemma k_ip_user : @IpUser pool pool mmio kernel witness_pool witness_memp link_ip k_net k_ip k_user.
Proof.
  apply with_ip_user. intros k E m [Hn Hw]. split.
  - by rewrite (@apart_right _ _ _ _ _ net_ip_apart).
  - by rewrite (@apart_right _ _ _ _ _ net_ip_apart), (@apart_right _ _ _ _ _ acd_ip_port_apart).
Qed.

Lemma k_acd_user : @AcdUser pool pool mmio kernel witness_pool witness_memp link_ip k_net k_acd k_user.
Proof.
  apply (with_ip_acd k_net k_ip net_ip_apart base_user k_acd acd_ip_port_apart).
  exact (@arp_with_acd_user pool pool mmio kernel witness_pool witness_memp link_ip k_net k_acd net_acd_apart).
Qed.

Definition table_demo : list etharp_entry := fresh_entry 0x0902000a 0 asker :: replicate 9 entry_freed.
Definition ip_kernel : kernel :=
  Port (pbuf_boot heap_fresh) quiet_device true (Side {[0 := demo_if]} table_demo 0, acd_demo, Ip4Spec.Ip4Demo.ip_demo).

Lemma table_demo_ok : table_ok {[0 := demo_if]} table_demo.
Proof.
  split; [done | |].
  - constructor; [|apply Forall_replicate, entry_freed_ok]. split_and!; [done | by apply bytes_test | cbn; unfold is_u32; lia|].
    cbn. split; [exists 0; split; [done | by eexists] | unfold ARP_MAXAGE; split; [lia | done]].
  - intros i j e1 e2 H1 H2 U1 U2 _.
    assert (Hz : forall i e, table_demo !! i = Some e -> in_use e -> i = 0%nat).
    { intros [|i'] e He Hu; [done|]. change (replicate 9 entry_freed !! i' = Some e) in He. apply lookup_replicate in He as [-> _]. by destruct Hu. }
    by rewrite (Hz i e1 H1 U1), (Hz j e2 H2 U2).
Qed.

Lemma ip_kernel_ok : @user_inv _ _ _ _ _ _ _ _ k_user ip_kernel ∅.
Proof.
  destruct kernel_demo_ok as [[H1 H2 H3 H4 H5 H6] Hacd]. split; [split|].
  - split; try done. exact table_demo_ok.
  - exact Hacd.
  - exact Ip4Spec.Ip4Demo.ip_demo_ok.
Qed.

Definition no_frag_k (p : ptr) (np a : Z) (k : kernel) : res (kernel * Z) := Ok (k, ERR_MEM).

Lemma no_frag_ok : @frag_contract pool pool witness_pool witness_memp mmio link_ip kernel k_net k_ip k_user no_frag_k.
Proof. intros k E p np a Hk _ _ _. by exists k, ERR_MEM. Qed.

(** A transport that frees what it gets, and a reassembly that does. *)
Definition sink (p : ptr) (np : Z) (k : kernel) : res kernel := @free_pbuf pool pool witness_pool witness_memp mmio kernel k_net no_custom p k.
Definition no_reass (p : ptr) (k : kernel) : res (kernel * option ptr) := k ← sink p 0 k; Ok (k, None).

Lemma sink_ok : @transport_contract pool pool witness_pool witness_memp mmio link_ip kernel k_net k_ip k_user sink.
Proof.
  intros k E p b l o d n cur inp H.
  destruct (@free_pbuf_ok pool pool witness_pool witness_memp mmio link_ip kernel k_net k_user no_custom k E p (own_inv _ _ _ _ _ (dl_own _ _ _ _ _ _ _ _ _ _ H)))
    as (s & Ef & Hk & _).
  eexists. split; [exact Ef | exact Hk].
Qed.

Lemma no_reass_ok : @reass_contract pool pool witness_pool witness_memp mmio link_ip kernel k_net k_user no_reass.
Proof.
  intros k E p b l o d H _.
  destruct (@free_pbuf_ok pool pool witness_pool witness_memp mmio link_ip kernel k_net k_user no_custom k E p (own_inv _ _ _ _ _ (da_own _ _ _ _ _ _ _ H)))
    as (s & Ef & Hk & _).
  unfold no_reass, sink. rewrite Ef, bind_ok. eexists _, None. split; [reflexivity|]. split; [|exact Hk].
  unfold net_of, set_st, set_net. by rewrite part_set.
Qed.

Definition quiet_client (f np : Z) (c : acd_callback_enum_t) (k : kernel) : res kernel := Ok k.

Lemma quiet_client_ok : @callback_contract pool pool witness_pool witness_memp mmio link_ip kernel k_net k_acd k_user quiet_client.
Proof. intros f np c k E Hk _. exists k. split; [done | by apply kept_refl]. Qed.

(** The receive path of this system. *)
Definition demo_receive (np : Z) (buffer : list Z) (k : kernel) : res kernel :=
  @ip_receive pool pool witness_pool witness_memp layers layers_side layers_acd layers_ip REG_ip uninit uninit_length uninit_bytes
    no_custom noise quiet_client no_frag_k no_reass sink sink np buffer k.

Notation pending := (@ip_pending pool pool witness_pool witness_memp layers layers_side REG_ip uninit uninit_length uninit_bytes k_user).

Lemma demo_datagram : frame_pending REG_ip quiet_device -> pending_frame REG_ip quiet_device = ip_frame_demo -> length x = 46%nat ->
  pending ip_kernel ∅ 0 demo_if uninit x.
Proof.
  intros Hp Hf Hl. split; [exact ip_kernel_ok | | exact uninit_length | exact uninit_bytes | done | done | exact Hp | | lia].
  - exists ∅. split; [apply boot_pool_rep, pbuf_pool_desc_ok|]. split; [intros a; cbn; rewrite lookup_empty; by intros []|].
    change (eth_dev ip_kernel) with quiet_device. rewrite Hf. unfold ip_frame_demo, frame_of. rewrite !length_app. cbn [length hwaddr demo_if asker]. rewrite Hl. by vm_compute.
  - exists (hwaddr demo_if), asker. change (eth_dev ip_kernel) with quiet_device. by rewrite Hf.
Qed.

End Demo.

(** A datagram from the neighbour with the protocol [proto] and the body [m], and
    padding to 46 bytes. *)
Definition from_asker (proto : Z) (m : list Z) : list Z :=
  sent_header 0 (20 + length m) 1 64 proto 0x0902000a 0x0202000a ++ m ++ replicate (26 - length m) 0.

Definition echo_fields (c : Z) : list Z := [8; 0; c mod 256; c / 256; 0; 1; 0; 1] ++ seqZ 65 8.
Definition echo_demo : list Z := from_asker IP_PROTO_ICMP (echo_fields (65535 - oc (wsum (echo_fields 0)))).
(** A UDP message of 4 bytes, and a message of protocol 99. *)
Definition udp_demo : list Z := from_asker IP_PROTO_UDP ([0; 7; 0; 7; 0; 12; 0; 0] ++ seqZ 65 4).
(** A header whose checksum is wrong. *)
Definition damaged_demo : list Z := 0x45 :: 1 :: drop 2 udp_demo.

Lemma asker_link x : ip_source x = 0x0902000a ->
  link_address 0 (ip_source x) demo_if table_demo asker (rerequests demo_if (fresh_entry 0x0902000a 0 asker)).
Proof. intros ->. apply (LinkKnown _ _ _ _ 0x0902000a 0 (fresh_entry 0x0902000a 0 asker)); by vm_compute. Qed.



End IpDemo.

Import ArpSpec.Demo IpDemo.

Lemma kernel_frame_safe_witness : exists k', demo_receive damaged_demo 0 uninit ip_kernel = Ok k'.
Proof.
  destruct (@kernel_frame_safe pool pool witness_pool witness_memp layers layers_side layers_acd layers_ip (REG_ip damaged_demo) uninit uninit_length uninit_bytes
    (k_user damaged_demo) (k_acd_user damaged_demo) (k_ip_user damaged_demo) no_custom noise noise_u8 quiet_client (quiet_client_ok damaged_demo)
    no_frag_k (no_frag_ok damaged_demo) no_reass (no_reass_ok damaged_demo) sink sink (sink_ok damaged_demo) (sink_ok damaged_demo)
    ip_kernel ∅ 0 demo_if uninit (ip_kernel_ok damaged_demo) uninit_length uninit_bytes eq_refl) as (k' & E & _).
  - by vm_compute.
  - exists k'. exact E.
Defined.

Lemma ping_answered_witness : exists k', demo_receive echo_demo 0 uninit ip_kernel = Ok k' /\
  exists fs h m, (wire_log (eth_dev k')).1 = fs ++ [frame_of asker (hwaddr demo_if) ETHTYPE_IP (h ++ m)] /\ inet_chksum 0 (h ++ m) 20 = Ok 0 /\ byte_at m 0 = ICMP_ER.
Proof.
  destruct (@ping_answered pool pool witness_pool witness_memp layers layers_side layers_acd layers_ip (REG_ip echo_demo) uninit uninit_length uninit_bytes
    (k_user echo_demo) (k_acd_user echo_demo) (k_ip_user echo_demo) no_custom noise noise_u8 quiet_client (quiet_client_ok echo_demo)
    no_frag_k (no_frag_ok echo_demo) no_reass (no_reass_ok echo_demo) sink sink (sink_ok echo_demo) (sink_ok echo_demo)
    ip_kernel ∅ 0 demo_if uninit echo_demo asker (rerequests demo_if (fresh_entry 0x0902000a 0 asker))) as (k' & fs & E & _ & _ & Hw & Hc & _).
  - apply demo_datagram; by vm_compute.
  - by vm_compute.
  - by vm_compute.
  - by vm_compute.
  - by vm_compute.
  - by vm_compute.
  - by vm_compute.
  - by vm_compute.
  - by vm_compute.
  - by vm_compute.
  - apply asker_link. by vm_compute.
  - exists k'. split; [exact E|]. exists fs. eexists _, _. split; [exact Hw|]. split; [exact (Hc 0) | reflexivity].
Defined.

Lemma datagram_delivered_witness : exists k' k2 p b l o d k3, demo_receive udp_demo 0 uninit ip_kernel = Ok k' /\
  sink p 0 k2 = Ok k3 /\ chain_data (areas (@st_of pool pool mmio kernel k_net k2)) ((p, b) :: l) = ip_body udp_demo /\
  @received pool pool witness_pool witness_memp layers layers_side layers_ip (REG_ip udp_demo) uninit uninit_length uninit_bytes (k_user udp_demo)
    ip_kernel udp_demo 0 0 k2 p b l o d ∅.
Proof.
  destruct (@datagram_delivered pool pool witness_pool witness_memp layers layers_side layers_acd layers_ip (REG_ip udp_demo) uninit uninit_length uninit_bytes
    (k_user udp_demo) (k_acd_user udp_demo) (k_ip_user udp_demo) no_custom noise noise_u8 quiet_client (quiet_client_ok udp_demo)
    no_frag_k (no_frag_ok udp_demo) no_reass (no_reass_ok udp_demo) sink sink (sink_ok udp_demo) (sink_ok udp_demo)
    ip_kernel ∅ 0 demo_if uninit udp_demo) as (k' & r & E & _ & Hm & Hcase).
  - apply demo_datagram; by vm_compute.
  - by vm_compute.
  - intros _. by vm_compute.
  - assert (ip_target udp_demo = ip_addr demo_if) as Et by (by vm_compute). rewrite Et in Hm.
    assert (r = Some 0) as -> by (apply (matched_own _ _ _ _ _ Hm); by vm_compute).
    assert (destination udp_demo 0 (header_length udp_demo 0) (ip_source udp_demo) 0 demo_if (Some 0) = Some 0) as Ed by (by vm_compute).
    rewrite Ed in Hcase. assert (is_fragment udp_demo 0 = false) as Ef by (by vm_compute).
    destruct (Hcase Ef) as (k2 & p & b & l & o & d & k3 & Hrc & Hudp & _ & _).
    exists k', k2, p, b, l, o, d, k3. split; [exact E|]. split; [by apply Hudp|]. split; [exact (rc_body _ _ _ _ _ _ _ _ _ _ _ _ _ _ _ Hrc) | exact Hrc].
Defined.

Lemma malformed_datagram_dropped_witness : exists k', demo_receive damaged_demo 0 uninit ip_kernel = Ok k' /\ (wire_log (eth_dev k')).1 = [].
Proof.
  destruct (@malformed_datagram_dropped pool pool witness_pool witness_memp layers layers_side layers_acd layers_ip (REG_ip damaged_demo) uninit uninit_length uninit_bytes
    (k_user damaged_demo) (k_acd_user damaged_demo) (k_ip_user damaged_demo) no_custom noise noise_u8 quiet_client (quiet_client_ok damaged_demo)
    no_frag_k (no_frag_ok damaged_demo) no_reass (no_reass_ok damaged_demo) sink sink (sink_ok damaged_demo) (sink_ok damaged_demo)
    ip_kernel ∅ 0 demo_if uninit damaged_demo) as (k' & E & _ & [_ _ Hw] & _).
  - apply demo_datagram; by vm_compute.
  - by vm_compute.
  - exists k'. split; [exact E | exact Hw].
Defined.

