(* ===== verification/UdpPcb.v ===== *)
(** * The control blocks of UDP: src/src/lwip/core/udp.c

    The structs udp_pcb come from a pool and, once they are bound, form a linked
    list; the demultiplexing of incoming datagrams reorders the list as it walks
    it. The links are kept as the code has them. *)

From S2P Require Import Prelude Def Ip4Addr Alloc Memp Pbuf Ethernet EthArp.

(** ** Definitions *)

Definition UDP_HLEN : Z := 8.
Definition UDP_TTL : Z := 255.
Definition UDP_FLAGS_NOCHKSUM : Z := 0x01.
Definition UDP_FLAGS_CONNECTED : Z := 0x04.
Definition UDP_LOCAL_PORT_RANGE_START : Z := 0xc000.
Definition UDP_LOCAL_PORT_RANGE_END : Z := 0xffff.
Definition UDP_ENSURE_LOCAL_PORT_RANGE (port : Z) : Z :=
  u16 (Z.land port (u16 (Z.lnot UDP_LOCAL_PORT_RANGE_START)) + UDP_LOCAL_PORT_RANGE_START).
Definition ERR_USE : Z := -8.

(** struct udp_pcb; the callback is the identity of a function. *)
Record udp_pcb : Type := UdpPcb
  { local_ip : Z;
    remote_ip : Z;
    netif_idx : Z;
    so_options : Z;
    pcb_tos : Z;
    pcb_ttl : Z;
    udp_next : option Z;
    udp_flags : Z;
    local_port : Z;
    remote_port : Z;
    recv : option Z;
    recv_arg : option Z }.

Definition with_local_ip (v : Z) (a : udp_pcb) : udp_pcb :=
  UdpPcb v (remote_ip a) (netif_idx a) (so_options a) (pcb_tos a) (pcb_ttl a) (udp_next a) (udp_flags a) (local_port a) (remote_port a) (recv a) (recv_arg a).
Definition with_netif_idx (v : Z) (a : udp_pcb) : udp_pcb :=
  UdpPcb (local_ip a) (remote_ip a) v (so_options a) (pcb_tos a) (pcb_ttl a) (udp_next a) (udp_flags a) (local_port a) (remote_port a) (recv a) (recv_arg a).
Definition with_udp_next (v : option Z) (a : udp_pcb) : udp_pcb :=
  UdpPcb (local_ip a) (remote_ip a) (netif_idx a) (so_options a) (pcb_tos a) (pcb_ttl a) v (udp_flags a) (local_port a) (remote_port a) (recv a) (recv_arg a).
(** The local end, the remote end with the flags, the callback. *)
Definition with_local (ip port : Z) (a : udp_pcb) : udp_pcb :=
  UdpPcb ip (remote_ip a) (netif_idx a) (so_options a) (pcb_tos a) (pcb_ttl a) (udp_next a) (udp_flags a) port (remote_port a) (recv a) (recv_arg a).
Definition with_remote (ip port fl : Z) (a : udp_pcb) : udp_pcb :=
  UdpPcb (local_ip a) ip (netif_idx a) (so_options a) (pcb_tos a) (pcb_ttl a) (udp_next a) fl (local_port a) port (recv a) (recv_arg a).
Definition with_recv (f arg : option Z) (a : udp_pcb) : udp_pcb :=
  UdpPcb (local_ip a) (remote_ip a) (netif_idx a) (so_options a) (pcb_tos a) (pcb_ttl a) (udp_next a) (udp_flags a) (local_port a) (remote_port a) f arg.

(** After [memset] and the setting of the time to live. *)
Definition pcb_zero : udp_pcb := UdpPcb 0 0 NETIF_NO_INDEX 0 0 UDP_TTL None 0 0 0 None None.

(** A datagram that is looked for: ports, addresses, the interface it has come in
    on, [ip_current_input_netif], and whether it is a broadcast. *)
Record udp_query : Type := UdpQuery
  { q_src : Z; q_dest : Z; q_src_ip : Z; q_dest_ip : Z; q_inp : netif; q_input_netif : netif; q_broadcast : bool }.

Definition udp_input_local_match (a : udp_pcb) (q : udp_query) : bool :=
  if negb (netif_idx a =? NETIF_NO_INDEX) && negb (netif_idx a =? netif_get_index (q_input_netif q)) then false
  else if q_broadcast q then
    ip4_addr_isany (local_ip a) || (q_dest_ip q =? IPADDR_BROADCAST) || ip4_addr_net_eq (local_ip a) (q_dest_ip q) (netmask (q_inp q))
  else ip4_addr_isany (local_ip a) || (local_ip a =? q_dest_ip q).

Definition local_match (a : udp_pcb) (q : udp_query) : bool := (local_port a =? q_dest q) && udp_input_local_match a q.
Definition remote_match (a : udp_pcb) (q : udp_query) : bool :=
  (remote_port a =? q_src q) && (ip4_addr_isany (remote_ip a) || (remote_ip a =? q_src_ip q)).
Definition is_connected (a : udp_pcb) : bool := negb (Z.land (udp_flags a) UDP_FLAGS_CONNECTED =? 0).

Section Pcb.
Context {P : Type} `{!PoolAlloc P}.

(** The pool, the structs that are taken from it, the head of the list and the
    last port that was given out. *)
Record udp_mod : Type := UdpMod { udp_pool : P; pcbs : gmap Z udp_pcb; udp_pcbs : option Z; udp_port : Z }.
Implicit Type m : udp_mod.

Definition set_pcbs (l : gmap Z udp_pcb) m : udp_mod := UdpMod (udp_pool m) l (udp_pcbs m) (udp_port m).
Definition set_udp_pcbs (v : option Z) m : udp_mod := UdpMod (udp_pool m) (pcbs m) v (udp_port m).
Definition set_udp_port (v : Z) m : udp_mod := UdpMod (udp_pool m) (pcbs m) (udp_pcbs m) v.

Definition pcb_get (p : Z) m : res udp_pcb := of_option BadPointer (pcbs m !! p).
Definition pcb_set (p : Z) (f : udp_pcb -> udp_pcb) m : res udp_mod :=
  a ← pcb_get p m; Ok (set_pcbs (<[p := f a]> (pcbs m)) m).

(** The number of structs bounds a walk over the list. *)
Definition pcb_fuel m : nat := S (size (pcbs m)).

(** Whether a struct from [pcb] on satisfies a test of its address and fields. *)
Fixpoint pcb_exists (fuel : nat) (test : Z -> udp_pcb -> bool) (pcb : option Z) m : res bool :=
  match pcb with
  | None => Ok false
  | Some p =>
      a ← pcb_get p m;
      if test p a then Ok true else
      match fuel with
      | O => Err OutOfFuel
      | S fuel' => pcb_exists fuel' test (udp_next a) m
      end
  end.
Definition any_pcb (test : Z -> udp_pcb -> bool) m : res bool := pcb_exists (pcb_fuel m) test (udp_pcbs m) m.

Definition udp_init (rand : Z) m : udp_mod := set_udp_port (UDP_ENSURE_LOCAL_PORT_RANGE rand) m.

Fixpoint new_port_loop (fuel : nat) (n : Z) m : res (udp_mod * Z) :=
  let m := set_udp_port (if udp_port m =? UDP_LOCAL_PORT_RANGE_END then UDP_LOCAL_PORT_RANGE_START else u16 (udp_port m + 1)) m in
  used ← any_pcb (fun _ a => local_port a =? udp_port m) m;
  if used : bool then
    let n := u16 (n + 1) in
    if UDP_LOCAL_PORT_RANGE_END - UDP_LOCAL_PORT_RANGE_START <? n then Ok (m, 0) else
    match fuel with
    | O => Err OutOfFuel
    | S fuel' => new_port_loop fuel' n m
    end
  else Ok (m, udp_port m).
Definition udp_new_port m : res (udp_mod * Z) := new_port_loop (Z.to_nat 0x4000) 0 m.

(** At the head of the list, unless it is on it already. *)
Definition activate (p : Z) (listed : bool) m : res udp_mod :=
  if listed then Ok m else
  m ← pcb_set p (with_udp_next (udp_pcbs m)) m; Ok (set_udp_pcbs (Some p) m).

(** Another struct has the port, and an address that overlaps. *)
Definition bound_elsewhere (p ipaddr port q : Z) (a : udp_pcb) : bool :=
  negb (p =? q) && ((local_port a =? port) && ((local_ip a =? ipaddr) || ip4_addr_isany ipaddr || ip4_addr_isany (local_ip a))).

Definition udp_bind (pcb : option Z) (ipaddr : option Z) (port : Z) m : res (udp_mod * Z) :=
  let ipaddr := default IPADDR_ANY ipaddr in
  match pcb with
  | None => Ok (m, ERR_ARG)
  | Some p =>
      rebind ← any_pcb (fun q _ => p =? q) m;
      '(m, port, err) ←
        (if port =? 0 then
           '(m, port) ← udp_new_port m;
           Ok (m, port, if port =? 0 then ERR_USE else ERR_OK)
         else
           used ← any_pcb (bound_elsewhere p ipaddr port) m;
           Ok (m, port, if used : bool then ERR_USE else ERR_OK));
      if negb (err =? ERR_OK) then Ok (m, err) else
      m ← pcb_set p (with_local ipaddr port) m;
      m ← activate p rebind m;
      Ok (m, ERR_OK)
  end.

(** [netif] is the interface, or [None] for NULL. *)
Definition udp_bind_netif (p : Z) (netif : option netif) m : res udp_mod :=
  pcb_set p (with_netif_idx (match netif with Some n => netif_get_index n | None => NETIF_NO_INDEX end)) m.

Definition udp_connect (pcb : option Z) (ipaddr : option Z) (port : Z) m : res (udp_mod * Z) :=
  match pcb, ipaddr with
  | Some p, Some ip =>
      a ← pcb_get p m;
      '(m, err) ← (if local_port a =? 0 then udp_bind (Some p) (Some (local_ip a)) (local_port a) m else Ok (m, ERR_OK));
      if negb (err =? ERR_OK) then Ok (m, err) else
      m ← pcb_set p (fun a => with_remote ip port (Z.lor (udp_flags a) UDP_FLAGS_CONNECTED) a) m;
      listed ← any_pcb (fun q _ => p =? q) m;
      m ← activate p listed m;
      Ok (m, ERR_OK)
  | _, _ => Ok (m, ERR_ARG)
  end.

Definition udp_disconnect (pcb : option Z) m : res udp_mod :=
  match pcb with
  | None => Ok m
  | Some p =>
      m ← pcb_set p (fun a => with_remote IPADDR_ANY 0 (udp_flags a) a) m;
      m ← pcb_set p (with_netif_idx NETIF_NO_INDEX) m;
      pcb_set p (fun a => with_remote (remote_ip a) (remote_port a)
        (u8 (Z.land (udp_flags a) (u8 (Z.land (Z.lnot UDP_FLAGS_CONNECTED) 0xff)))) a) m
  end.

Definition udp_recv (pcb : option Z) (f arg : option Z) m : res udp_mod :=
  match pcb with None => Ok m | Some p => pcb_set p (with_recv f arg) m end.

(** The loop of [udp_remove]. *)
Fixpoint unlink_loop (fuel : nat) (p : Z) (pcb2 : option Z) m : res udp_mod :=
  match pcb2 with
  | None => Ok m
  | Some q =>
      a ← pcb_get q m;
      if bool_decide (udp_next a = Some p) then b ← pcb_get p m; pcb_set q (with_udp_next (udp_next b)) m else
      match fuel with
      | O => Err OutOfFuel
      | S fuel' => unlink_loop fuel' p (udp_next a) m
      end
  end.

Definition udp_remove (pcb : option Z) m : res udp_mod :=
  match pcb with
  | None => Ok m
  | Some p =>
      m ← (if bool_decide (udp_pcbs m = Some p) then a ← pcb_get p m; Ok (set_udp_pcbs (udp_next a) m)
           else unlink_loop (pcb_fuel m) p (udp_pcbs m) m);
      pool ← pool_free (udp_pool m) p;
      Ok (UdpMod pool (delete p (pcbs m)) (udp_pcbs m) (udp_port m))
  end.

Definition udp_new m : res (udp_mod * option Z) :=
  '(pool, r) ← pool_malloc (udp_pool m);
  match r with
  | None => Ok (UdpMod pool (pcbs m) (udp_pcbs m) (udp_port m), None)
  | Some p => Ok (UdpMod pool (<[p := pcb_zero]> (pcbs m)) (udp_pcbs m) (udp_port m), Some p)
  end.
Definition udp_new_ip_type (type : Z) m : res (udp_mod * option Z) := udp_new m.

Fixpoint rebind_loop (fuel : nat) (old new : Z) (pcb : option Z) m : res udp_mod :=
  match pcb with
  | None => Ok m
  | Some p =>
      a ← pcb_get p m;
      m ← (if local_ip a =? old then pcb_set p (with_local_ip new) m else Ok m);
      match fuel with
      | O => Err OutOfFuel
      | S fuel' => rebind_loop fuel' old new (udp_next a) m
      end
  end.

Definition udp_netif_ip_addr_changed (old new : option Z) m : res udp_mod :=
  match old, new with
  | Some o, Some n => if ip4_addr_isany o || ip4_addr_isany n then Ok m else rebind_loop (pcb_fuel m) o n (udp_pcbs m) m
  | _, _ => Ok m
  end.

(** The first unconnected match, or a better one for a datagram to 255.255.255.255. *)
Definition next_uncon (q : udp_query) (p : Z) (a : udp_pcb) (uncon_pcb : option Z) m : res (option Z) :=
  if is_connected a then Ok uncon_pcb else
  match uncon_pcb with
  | None => Ok (Some p)
  | Some u =>
      if q_broadcast q && (q_dest_ip q =? IPADDR_BROADCAST) then
        b ← pcb_get u m;
        Ok (if negb (local_ip b =? ip_addr (q_inp q)) && (local_ip a =? ip_addr (q_inp q)) then Some p else Some u)
      else Ok (Some u)
  end.

(** The walk of [udp_input]: the struct that gets the datagram. *)
Fixpoint demux_loop (fuel : nat) (q : udp_query) (prev uncon_pcb pcb : option Z) m : res (udp_mod * option Z) :=
  match pcb with
  | None => Ok (m, uncon_pcb)
  | Some p =>
      a ← pcb_get p m;
      let continue uncon :=
        match fuel with
        | O => Err OutOfFuel
        | S fuel' => demux_loop fuel' q (Some p) uncon (udp_next a) m
        end in
      if local_match a q then
        uncon ← next_uncon q p a uncon_pcb m;
        if remote_match a q then
          match prev with
          | Some r =>
              m ← pcb_set r (with_udp_next (udp_next a)) m;
              m ← pcb_set p (with_udp_next (udp_pcbs m)) m;
              Ok (set_udp_pcbs (Some p) m, Some p)
          | None => Ok (m, Some p)
          end
        else continue uncon
      else continue uncon_pcb
  end.
Definition demux (q : udp_query) m : res (udp_mod * option Z) := demux_loop (pcb_fuel m) q None None (udp_pcbs m) m.

End Pcb.
Arguments udp_mod P : clear implicits.
