(* ===== verification/UdpTable.v ===== *)
(** * The control blocks of UDP without links

    An abstract table of control blocks and its calls as functions: what the
    functions of udp.c that manage control blocks promise. The invariant that
    every call keeps, that ports are given out once, and who receives a
    datagram. *)

From S2P Require Import Prelude Def Ip4Addr Alloc Memp Pbuf Ethernet EthArp Chain UdpPcb.

(** ** The abstract table *)

(** The structs in use, with no links, the bound ones in the order of the list, and
    the last port that was given out. *)
Record udp_table : Type := UdpTable { sockets : gmap Z udp_pcb; active : list Z; last_port : Z }.
Implicit Type u : udp_table.

Notation plain := (with_udp_next None).

(** The bound structs with their addresses. *)
Definition bound (t : gmap Z udp_pcb) (l : list Z) : list (Z * udp_pcb) := omap (fun p => pair p <$> t !! p) l.
Definition entries u : list (Z * udp_pcb) := bound (sockets u) (active u).

Definition upd_socket (p : Z) (f : udp_pcb -> udp_pcb) u : udp_table := UdpTable (alter f p (sockets u)) (active u) (last_port u).
Definition make_active (p : Z) u : udp_table :=
  if bool_decide (p ∈ active u) then u else UdpTable (sockets u) (p :: active u) (last_port u).

(** The ports of the dynamic range after [port], [port] itself last. *)
Definition ports_after (port : Z) (n : nat) : list Z :=
  (fun i => 0xc000 + (port - 0xc000 + 1 + Z.of_nat i) mod 0x4000) <$> seq 0 n.
Definition port_used u (port : Z) : bool := existsb (fun e => local_port e.2 =? port) (entries u).
Definition free_port u : option Z := find (fun port => negb (port_used u port)) (ports_after (last_port u) (Z.to_nat 0x4000)).

(** Two addresses to which the same datagram can be sent. *)
Definition overlap (a b : Z) : bool := (a =? b) || ip4_addr_isany a || ip4_addr_isany b.
Definition port_taken (p ip port : Z) u : bool :=
  existsb (fun e => negb (e.1 =? p) && (local_port e.2 =? port) && overlap ip (local_ip e.2)) (entries u).

Definition spec_bind (p ip port : Z) u : udp_table * Z :=
  if port =? 0 then
    match free_port u with
    | Some port => (make_active p (upd_socket p (with_local ip port) (UdpTable (sockets u) (active u) port)), ERR_OK)
    | None => (u, ERR_USE)
    end
  else if port_taken p ip port u then (u, ERR_USE)
  else (make_active p (upd_socket p (with_local ip port) u), ERR_OK).

Definition spec_connect (p ip port : Z) u : udp_table * Z :=
  let connect u := make_active p (upd_socket p (fun a => with_remote ip port (Z.lor (udp_flags a) UDP_FLAGS_CONNECTED) a) u) in
  match sockets u !! p with
  | Some a =>
      if local_port a =? 0 then
        let '(u, err) := spec_bind p (local_ip a) 0 u in if err =? ERR_OK then (connect u, ERR_OK) else (u, err)
      else (connect u, ERR_OK)
  | None => (u, ERR_ARG)
  end.

Definition disconnected (a : udp_pcb) : udp_pcb :=
  with_remote IPADDR_ANY 0 (u8 (Z.land (udp_flags a) (u8 (Z.land (Z.lnot UDP_FLAGS_CONNECTED) 0xff)))) (with_netif_idx NETIF_NO_INDEX a).

Definition without (p : Z) (l : list Z) : list Z := filter (fun q => q <> p) l.

Definition readdressed (old new : Z) (a : udp_pcb) : udp_pcb := if local_ip a =? old then with_local_ip new a else a.
Definition spec_addr_changed (old new : Z) u : udp_table :=
  if ip4_addr_isany old || ip4_addr_isany new then u
  else UdpTable (map_imap (fun p a => Some (if bool_decide (p ∈ active u) then readdressed old new a else a)) (sockets u)) (active u) (last_port u).

(** The receiver of a datagram: the first struct that is connected to its source;
    otherwise the first one that is not connected, where for 255.255.255.255 one
    that is bound to the address of the interface goes first. *)
Definition unconnected (q : udp_query) (es : list (Z * udp_pcb)) : list (Z * udp_pcb) :=
  filter (fun e => local_match e.2 q = true /\ is_connected e.2 = false) es.
Definition own_address (q : udp_query) (e : Z * udp_pcb) : bool :=
  q_broadcast q && (q_dest_ip q =? IPADDR_BROADCAST) && (local_ip e.2 =? ip_addr (q_inp q)).
Definition fallback (q : udp_query) (es : list (Z * udp_pcb)) : option Z :=
  let us := unconnected q es in
  fst <$> match find (own_address q) us with Some e => Some e | None => head us end.
Definition perfect (q : udp_query) (e : Z * udp_pcb) : bool := local_match e.2 q && remote_match e.2 q.
Definition spec_demux (q : udp_query) u : udp_table * option Z :=
  match find (perfect q) (entries u) with
  | Some e => (UdpTable (sockets u) (e.1 :: without e.1 (active u)) (last_port u), Some e.1)
  | None => (u, fallback q (entries u))
  end.

(** The calls of the module. *)
Inductive udp_call : Type :=
  | CallNew
  | CallRemove (pcb : option Z)
  | CallBind (pcb ip : option Z) (port : Z)
  | CallBindNetif (p : Z) (nif : option netif)
  | CallConnect (pcb ip : option Z) (port : Z)
  | CallDisconnect (pcb : option Z)
  | CallRecv (pcb f arg : option Z)
  | CallAddrChanged (old new : Z)
  | CallDemux (q : udp_query).
Inductive udp_result : Type := RUnit | RErr (e : Z) | RPcb (p : option Z).

Definition run_call {P} `{!PoolAlloc P} (c : udp_call) (m : udp_mod P) : res (udp_mod P * udp_result) :=
  match c with
  | CallNew => '(m, r) ← udp_new m; Ok (m, RPcb r)
  | CallRemove pcb => m ← udp_remove pcb m; Ok (m, RUnit)
  | CallBind pcb ip port => '(m, e) ← udp_bind pcb ip port m; Ok (m, RErr e)
  | CallBindNetif p nif => m ← udp_bind_netif p nif m; Ok (m, RUnit)
  | CallConnect pcb ip port => '(m, e) ← udp_connect pcb ip port m; Ok (m, RErr e)
  | CallDisconnect pcb => m ← udp_disconnect pcb m; Ok (m, RUnit)
  | CallRecv pcb f arg => m ← udp_recv pcb f arg m; Ok (m, RUnit)
  | CallAddrChanged old new => m ← udp_netif_ip_addr_changed (Some old) (Some new) m; Ok (m, RUnit)
  | CallDemux q => '(m, r) ← demux q m; Ok (m, RPcb r)
  end.

Definition on_pcb (pcb : option Z) (f : Z -> udp_table -> udp_table) u : udp_table := match pcb with Some p => f p u | None => u end.
Definition err_result (r : udp_table * Z) : udp_table * udp_result := (r.1, RErr r.2).

(** What a call does to the table, other than taking a struct from the pool. *)
Definition spec_call (c : udp_call) u : udp_table * udp_result :=
  match c with
  | CallNew => (u, RPcb None)
  | CallRemove pcb => (on_pcb pcb (fun p u => UdpTable (delete p (sockets u)) (without p (active u)) (last_port u)) u, RUnit)
  | CallBind (Some p) ip port => err_result (spec_bind p (default IPADDR_ANY ip) port u)
  | CallConnect (Some p) (Some ip) port => err_result (spec_connect p ip port u)
  | CallBind _ _ _ | CallConnect _ _ _ => (u, RErr ERR_ARG)
  | CallBindNetif p nif => (upd_socket p (with_netif_idx (from_option netif_get_index NETIF_NO_INDEX nif)) u, RUnit)
  | CallDisconnect pcb => (on_pcb pcb (fun p => upd_socket p disconnected) u, RUnit)
  | CallRecv pcb f arg => (on_pcb pcb (fun p => upd_socket p (with_recv f arg)) u, RUnit)
  | CallAddrChanged old new => (spec_addr_changed old new u, RUnit)
  | CallDemux q => ((spec_demux q u).1, RPcb (spec_demux q u).2)
  end.

(** A step of the table; a new struct is one that is not in use, and there is
    none only when the pool, of [cap] structs, is used up. *)
Definition udp_step (cap : nat) u (c : udp_call) u' (r : udp_result) : Prop :=
  match c with
  | CallNew =>
      (exists p, r = RPcb (Some p) /\ sockets u !! p = None /\ u' = UdpTable (<[p := pcb_zero]> (sockets u)) (active u) (last_port u)) \/
      (size (sockets u) = cap /\ (u', r) = spec_call c u)
  | _ => (u', r) = spec_call c u
  end.

Fixpoint udp_steps (cap : nat) u (cs : list udp_call) u' (rs : list udp_result) : Prop :=
  match cs, rs with
  | [], [] => u' = u
  | c :: cs, r :: rs => exists u1, udp_step cap u c u1 r /\ udp_steps cap u1 cs u' rs
  | _, _ => False
  end.

(** Whatever the earlier calls have returned, each call is one that is allowed. *)
Fixpoint allowed (ok : udp_table -> udp_call -> Prop) (cap : nat) u (cs : list udp_call) : Prop :=
  match cs with
  | [] => True
  | c :: cs => ok u c /\ forall u' r, udp_step cap u c u' r -> allowed ok cap u' cs
  end.

(** A call with structs that are in use and arguments of their types. *)
Definition pcb_live u (pcb : option Z) : Prop := match pcb with Some p => is_Some (sockets u !! p) | None => True end.
Definition call_ok u (c : udp_call) : Prop :=
  match c with
  | CallNew | CallDemux _ => True
  | CallRemove pcb | CallDisconnect pcb | CallRecv pcb _ _ => pcb_live u pcb
  | CallBind pcb ip port | CallConnect pcb ip port => pcb_live u pcb /\ is_u32 (default IPADDR_ANY ip) /\ is_u16 port
  | CallBindNetif p _ => pcb_live u (Some p)
  | CallAddrChanged old new => is_u32 old /\ is_u32 new
  end.

(** ** The invariant *)

Record pcb_fields (a : udp_pcb) : Prop := PcbFields
  { pf_local_ip : is_u32 (local_ip a);
    pf_remote_ip : is_u32 (remote_ip a);
    pf_local_port : is_u16 (local_port a);
    pf_remote_port : is_u16 (remote_port a);
    pf_flags : is_u8 (udp_flags a);
    pf_tos : is_u8 (pcb_tos a);
    pf_ttl : is_u8 (pcb_ttl a) }.

(** A struct is on the list exactly when it has a port. *)
Record udp_wf u : Prop := UdpWf
  { uw_nodup : NoDup (active u);
    uw_known : forall p, p ∈ active u -> is_Some (sockets u !! p);
    uw_bound : forall p a, sockets u !! p = Some a -> (p ∈ active u <-> local_port a <> 0);
    uw_fields : forall p a, sockets u !! p = Some a -> pcb_fields a;
    uw_port : 0xc000 <= last_port u < 0x10000 }.

(** ** Lemmas *)

(** *** The table *)

Lemma bound_elem t l p a : (p, a) ∈ bound t l <-> p ∈ l /\ t !! p = Some a.
Proof.
  unfold bound. rewrite list_elem_of_omap. split.
  - intros (q & Hq & E). destruct (t !! q) as [b|] eqn:Hb; [|done]. by injection E as <- <-.
  - intros [Hp Ha]. exists p. by rewrite Ha.
Qed.

Lemma bound_cons t p a l : t !! p = Some a -> bound t (p :: l) = (p, a) :: bound t l.
Proof. intros Ha. unfold bound. cbn. by rewrite Ha. Qed.

(** A test of the structs on the list. *)
Lemma exists_bound (f : Z * udp_pcb -> bool) es : existsb f es = true <-> exists p a, (p, a) ∈ es /\ f (p, a) = true.
Proof.
  rewrite existsb_exists. split.
  - intros ([p a] & Hin & Hf). exists p, a. by rewrite list_elem_of_In.
  - intros (p & a & Hin & Hf). exists (p, a). by rewrite <- list_elem_of_In.
Qed.

Lemma exists_bound_false (f : Z * udp_pcb -> bool) es : existsb f es = false <-> forall p a, (p, a) ∈ es -> f (p, a) = false.
Proof.
  split.
  - intros Hf p a Hin. apply not_true_iff_false. intros Ht. apply not_true_iff_false in Hf. apply Hf, exists_bound. by exists p, a.
  - intros Hf. apply not_true_iff_false. intros (p & a & Hin & Ht)%exists_bound. by rewrite Hf in Ht.
Qed.

Lemma existsb_same {A} (f g : A -> bool) l : (forall x, f x = g x) -> existsb f l = existsb g l.
Proof. intros Hfg. induction l as [|x l IH]; [done|]. cbn. by rewrite Hfg, IH. Qed.

Lemma without_absent p l : p ∉ l -> without p l = l.
Proof.
  induction l as [|q l IH]; [done|]. intros [Hq Hl]%not_elem_of_cons. unfold without. rewrite filter_cons_True by congruence. by f_equal; apply IH.
Qed.

Lemma without_split p la lb : p ∉ la -> p ∉ lb -> without p (la ++ p :: lb) = la ++ lb.
Proof.
  intros Ha Hb. unfold without. rewrite filter_app, filter_cons_False by (intros H; by apply H).
  f_equal; by apply without_absent.
Qed.

Lemma nodup_split {A} (x : A) la lb : NoDup (la ++ x :: lb) -> x ∉ la /\ x ∉ lb /\ NoDup (la ++ lb).
Proof.
  intros (N1 & N2 & N3)%NoDup_app. apply NoDup_cons in N3 as [N3 N4]. split_and!; [|done|].
  - intros Hx. apply (N2 x Hx). by left.
  - apply NoDup_app. split_and!; try done. intros y Hy Hy'. apply (N2 y Hy). by right.
Qed.

(** *** Ports *)

Definition next_port (port : Z) : Z := 0xc000 + (port - 0xc000 + 1) mod 0x4000.

Lemma next_port_code port : 0xc000 <= port < 0x10000 ->
  (if port =? UDP_LOCAL_PORT_RANGE_END then UDP_LOCAL_PORT_RANGE_START else u16 (port + 1)) = next_port port.
Proof. unfold UDP_LOCAL_PORT_RANGE_END, UDP_LOCAL_PORT_RANGE_START, next_port. intros Hp. bool_cases; [by subst | solve_u]. Qed.

Lemma next_port_range port : 0xc000 <= next_port port < 0x10000.
Proof. unfold next_port. lia. Qed.

Lemma ports_after_next port n : ports_after port (S n) = next_port port :: ports_after (next_port port) n.
Proof.
  unfold ports_after. cbn [seq fmap list_fmap]. f_equal; [unfold next_port; do 2 f_equal; lia|].
  rewrite <- seq_shift, <- list_fmap_compose. apply list_fmap_ext. intros _ i _. cbn. unfold next_port. f_equal.
  replace (0xc000 + (port - 0xc000 + 1) mod 0x4000 - 0xc000 + 1 + Z.of_nat i) with ((port - 0xc000 + 1) mod 0x4000 + (1 + Z.of_nat i)) by lia.
  rewrite Zplus_mod_idemp_l. f_equal. lia.
Qed.

Lemma find_port_some u port n q : find (fun p => negb (port_used u p)) (ports_after port n) = Some q -> 0xc000 <= q < 0x10000 /\ port_used u q = false.
Proof.
  intros [Hq Hu]%find_some. apply list_elem_of_In in Hq. unfold ports_after in Hq.
  apply list_elem_of_fmap in Hq as (i & -> & _). split; [lia | by apply negb_true_iff].
Qed.

Lemma free_port_some u q : free_port u = Some q -> 0xc000 <= q < 0x10000 /\ port_used u q = false.
Proof. apply find_port_some. Qed.

(** A port is free when there are fewer structs than ports. *)
Lemma ports_after_nodup port n : Z.of_nat n <= 0x4000 -> NoDup (ports_after port n).
Proof.
  intros Hn. unfold ports_after. apply NoDup_fmap_2_strong; [|apply NoDup_seq]. intros i j Hi%elem_of_seq Hj%elem_of_seq E. lia.
Qed.

Lemma bound_length t l : (length (bound t l) <= length l)%nat.
Proof. unfold bound. induction l as [|p l IH]; cbn; [lia|]. destruct (t !! p); cbn; lia. Qed.

Lemma find_port_none u port n : find (fun p => negb (port_used u p)) (ports_after port n) = None -> Z.of_nat n <= 0x4000 -> (n <= length (active u))%nat.
Proof.
  intros Hf Hn. pose proof (find_none _ _ Hf) as Hu.
  assert (Hs : ports_after port n ⊆+ (fun e => local_port e.2) <$> entries u).
  { apply NoDup_submseteq; [by apply ports_after_nodup|]. intros q Hq. apply list_elem_of_In, Hu, negb_false_iff, exists_bound in Hq as (p & a & Hin & Hp).
    apply list_elem_of_fmap. exists (p, a). split; [by apply Z.eqb_eq in Hp | done]. }
  apply submseteq_length in Hs. rewrite length_fmap in Hs. unfold ports_after in Hs. rewrite length_fmap, length_seq in Hs.
  pose proof (bound_length (sockets u) (active u)). unfold entries in Hs. lia.
Qed.

Lemma active_size u : udp_wf u -> (length (active u) <= size (sockets u))%nat.
Proof.
  intros [H1 H2 _ _ _]. rewrite <- size_dom, <- (size_list_to_set (C := gset Z) (active u)) by done. apply subseteq_size.
  intros q Hq. apply elem_of_list_to_set in Hq. by apply elem_of_dom, H2.
Qed.

Lemma free_port_none u : free_port u = None -> (Z.to_nat 0x4000 <= length (active u))%nat.
Proof. unfold free_port. intros Hf. apply find_port_none in Hf; [exact Hf | by rewrite Z2Nat.id]. Qed.

(** *** Fields and the list *)

Lemma upd_known p f u q : is_Some (sockets u !! q) -> is_Some (sockets (upd_socket p f u) !! q).
Proof. intros [a Ha]. cbn. destruct (decide (p = q)) as [<-|Hne]; [rewrite lookup_alter_eq, Ha | rewrite lookup_alter_ne by done]; by eexists. Qed.

(** Every struct on the list is in use. *)
Definition known u : Prop := forall q, q ∈ active u -> is_Some (sockets u !! q).

Lemma place_known u p f : known u -> is_Some (sockets u !! p) -> known (make_active p (upd_socket p f u)).
Proof.
  intros Hk Hp q. unfold make_active. cbn [active upd_socket]. destruct (bool_decide _); cbn [active sockets].
  - intros Hq. by apply upd_known, Hk.
  - intros [->|Hq]%elem_of_cons; [by apply (upd_known p f u) | by apply (upd_known p f u), Hk].
Qed.

(** What [udp_bind] does: nothing, or the struct gets a port and is on the list. *)
Lemma spec_bind_cases p ip port u : 
  spec_bind p ip port u = (u, ERR_USE) \/
  exists port' lp, port' <> 0 /\ (port <> 0 -> port' = port /\ lp = last_port u) /\ (port = 0 -> free_port u = Some port' /\ lp = port') /\
    (port <> 0 -> port_taken p ip port u = false) /\
    spec_bind p ip port u = (make_active p (upd_socket p (with_local ip port') (UdpTable (sockets u) (active u) lp)), ERR_OK).
Proof.
  unfold spec_bind. destruct (Z.eqb_spec port 0) as [->|Hport].
  - destruct (free_port u) as [q|] eqn:Eq; [|by left]. right. pose proof (free_port_some _ _ Eq) as [Hq _]. exists q, q.
    split_and!; (done || lia).
  - destruct (port_taken p ip port u) eqn:Et; [by left|]. right. exists port, (last_port u). split_and!; try done.
Qed.

Lemma spec_bind_known p ip port u : known u -> is_Some (sockets u !! p) -> known (spec_bind p ip port u).1 /\ is_Some (sockets (spec_bind p ip port u).1 !! p).
Proof.
  intros Hk Hp. destruct (spec_bind_cases p ip port u) as [->|(q & lp & _ & _ & _ & _ & ->)]; [done|]. cbn [fst]. split; [by apply place_known|].
  unfold make_active. destruct (bool_decide _); apply (upd_known p _ u); done.
Qed.

(** The change of an address, at every struct of the list. *)
Definition rebound (old new : Z) (l : list Z) (t : gmap Z udp_pcb) : gmap Z udp_pcb :=
  map_imap (fun p a => Some (if bool_decide (p ∈ l) then readdressed old new a else a)) t.

Lemma rebound_lookup old new l t p : rebound old new l t !! p = (fun a => if bool_decide (p ∈ l) then readdressed old new a else a) <$> t !! p.
Proof. unfold rebound. rewrite map_lookup_imap. by destruct (t !! p). Qed.

(** *** The invariant is kept *)

Lemma upd_lookup p f u q a : sockets (upd_socket p f u) !! q = Some a -> exists b, sockets u !! q = Some b /\ a = (if decide (p = q) then f b else b).
Proof.
  cbn. destruct (decide (p = q)) as [<-|Hne]; [rewrite lookup_alter_eq | rewrite lookup_alter_ne by done].
  - destruct (sockets u !! p) as [b|]; [|done]. intros [= <-]. by exists b.
  - intros Ha. by exists a.
Qed.

Lemma upd_wf p f u : udp_wf u -> (forall a, pcb_fields a -> pcb_fields (f a) /\ local_port (f a) = local_port a) -> udp_wf (upd_socket p f u).
Proof.
  intros [H1 H2 H3 H4 H5] Hf. split; try done.
  - intros q Hq. by apply upd_known, H2.
  - intros q a (b & Hb & ->)%upd_lookup. change (active (upd_socket p f u)) with (active u). rewrite (H3 q b Hb).
    destruct (decide (p = q)); [by rewrite (proj2 (Hf b (H4 q b Hb))) | done].
  - intros q a (b & Hb & ->)%upd_lookup. destruct (decide (p = q)); [apply Hf|]; by apply (H4 q).
Qed.

Lemma make_active_wf p u : NoDup (active u) -> known u -> is_Some (sockets u !! p) ->
  (forall q a, sockets u !! q = Some a -> (q ∈ active u \/ q = p) <-> local_port a <> 0) ->
  (forall q a, sockets u !! q = Some a -> pcb_fields a) -> 0xc000 <= last_port u < 0x10000 -> udp_wf (make_active p u).
Proof.
  intros H1 H2 Hp H3 H4 H5. unfold make_active. destruct (bool_decide_reflect (p ∈ active u)) as [Hin|Hin]; split; cbn; try done.
  - intros q a Ha. rewrite <- (H3 q a Ha). naive_solver.
  - by apply NoDup_cons.
  - intros q [->|Hq]%elem_of_cons; [done | by apply H2].
  - intros q a Ha. rewrite elem_of_cons, <- (H3 q a Ha). naive_solver.
Qed.

Lemma place_wf p f u lp : udp_wf u -> is_Some (sockets u !! p) -> 0xc000 <= lp < 0x10000 ->
  (forall a, pcb_fields a -> pcb_fields (f a) /\ local_port (f a) <> 0) ->
  udp_wf (make_active p (upd_socket p f (UdpTable (sockets u) (active u) lp))).
Proof.
  intros [H1 H2 H3 H4 H5] Hp Hlp Hf. set (v := UdpTable (sockets u) (active u) lp). apply make_active_wf; cbn; try done.
  - intros q Hq. by apply (upd_known p f v), H2.
  - by apply (upd_known p f v).
  - intros q a (b & Hb & ->)%(upd_lookup p f v). destruct (decide (p = q)) as [<-|Hne].
    + split; [intros _; by apply Hf, (H4 p) | by right].
    + rewrite <- (H3 q b Hb). naive_solver.
  - intros q a (b & Hb & ->)%(upd_lookup p f v). destruct (decide (p = q)); [apply Hf|]; by apply (H4 q).
Qed.

Lemma with_local_wf ip port a : is_u32 ip -> is_u16 port -> pcb_fields a -> pcb_fields (with_local ip port a).
Proof. by intros Hip Hport [? ? ? ? ? ? ?]. Qed.

Lemma with_remote_wf ip port fl a : is_u32 ip -> is_u16 port -> is_u8 fl -> pcb_fields a -> pcb_fields (with_remote ip port fl a).
Proof. by intros Hip Hport Hfl [? ? ? ? ? ? ?]. Qed.

Lemma bind_wf p ip port u : udp_wf u -> is_Some (sockets u !! p) -> is_u32 ip -> is_u16 port -> udp_wf (spec_bind p ip port u).1.
Proof.
  intros Hw Hp Hip Hport. destruct (spec_bind_cases p ip port u) as [->|(q & lp & Hq & E1 & E2 & _ & ->)]; [done|]. cbn [fst].
  assert (Hr : is_u16 q /\ 0xc000 <= lp < 0x10000).
  { destruct (decide (port = 0)) as [E|E].
    - destruct (E2 E) as [Hf ->]. apply free_port_some in Hf as [Hf _]. split; [solve_u | done].
    - destruct (E1 E) as [-> ->]. split; [done | apply Hw]. }
  apply place_wf; try done; [apply Hr|]. intros a Ha. split; [by apply with_local_wf; [|apply Hr|] | done].
Qed.

Lemma without_elem p l q : q ∈ without p l <-> q <> p /\ q ∈ l.
Proof. unfold without. by rewrite list_elem_of_filter. Qed.

Lemma connect_wf p ip port u : udp_wf u -> is_Some (sockets u !! p) -> is_u32 ip -> is_u16 port -> udp_wf (spec_connect p ip port u).1.
Proof.
  intros Hw [a Ha] Hip Hport. unfold spec_connect. rewrite Ha.
  assert (Hc : forall u, udp_wf u -> (forall b, sockets u !! p = Some b -> local_port b <> 0) -> is_Some (sockets u !! p) ->
    udp_wf (make_active p (upd_socket p (fun a => with_remote ip port (Z.lor (udp_flags a) UDP_FLAGS_CONNECTED) a) u))).
  { clear u Hw a Ha. intros u Hw Hb Hs. set (f := fun a : udp_pcb => with_remote ip port (Z.lor (udp_flags a) UDP_FLAGS_CONNECTED) a).
    assert (Hf : forall a, pcb_fields a -> pcb_fields (f a) /\ local_port (f a) = local_port a).
    { intros a Ha. split; [|done]. apply with_remote_wf; try done. apply lor_u8; [apply Ha | done]. }
    destruct (upd_wf p f u Hw Hf) as [H1 H2 H3 H4 H5]. unfold make_active. destruct (bool_decide_reflect (p ∈ active (upd_socket p f u))) as [Hin|Hin]; [done|].
    destruct Hs as [b Eb]. exfalso. apply Hin. cbn. apply (uw_bound _ Hw p b Eb). by apply Hb. }
  destruct (Z.eqb_spec (local_port a) 0) as [E|E].
  - pose proof (bind_wf p (local_ip a) 0 u Hw ltac:(by eexists) ltac:(by apply (uw_fields _ Hw p a Ha)) ltac:(done)) as Hb.
    destruct (spec_bind_cases p (local_ip a) 0 u) as [Es|(q & lp & Hq & _ & _ & _ & Es)]; rewrite Es in *; cbn [fst] in *.
    + change (ERR_USE =? ERR_OK) with false. by cbn.
    + change (ERR_OK =? ERR_OK) with true. cbn [fst]. apply Hc; [done | |].
      * intros b. unfold make_active. destruct (bool_decide _); intros (c & Hc' & ->)%(upd_lookup p _ (UdpTable (sockets u) (active u) lp));
          by rewrite decide_True.
      * unfold make_active. destruct (bool_decide _); apply (upd_known p _ (UdpTable (sockets u) (active u) lp)); by eexists.
  - apply Hc; [done | | by eexists]. intros b Hb. rewrite Ha in Hb. by injection Hb as <-.
Qed.

Lemma step_wf cap u c u' r : udp_wf u -> call_ok u c -> udp_step cap u c u' r -> udp_wf u'.
Proof.
  intros Hw Hc Hs.
  assert (Hnew : forall p, sockets u !! p = None -> udp_wf (UdpTable (<[p := pcb_zero]> (sockets u)) (active u) (last_port u))).
  { intros p Hp. pose proof Hw as [H1 H2 H3 H4 H5]. split; cbn; try done.
    - intros q Hq. destruct (H2 q Hq) as [a Ha]. destruct (decide (p = q)) as [<-|Hne]; [congruence|]. rewrite lookup_insert_ne by done. by exists a.
    - intros q a. destruct (decide (p = q)) as [<-|Hne]; [rewrite lookup_insert_eq; intros [= <-] | rewrite lookup_insert_ne by done; by apply H3].
      split; [|done]. intros Hq. destruct (H2 p Hq) as [b Hb]. congruence.
    - intros q a. destruct (decide (p = q)) as [<-|Hne]; [rewrite lookup_insert_eq; intros [= <-] | rewrite lookup_insert_ne by done; by apply H4]. done. }
  destruct c as [|[p|]|[p|] ip port|p nif|[p|] [ip|] port|[p|]|[p|] f arg|old new|q]; cbn in Hs, Hc;
    try (injection Hs as -> _); try done.
  - destruct Hs as [(p & _ & Hp & ->)|[_ [= -> _]]]; [by apply Hnew | done].
  - pose proof Hw as [H1 H2 H3 H4 H5]. split; cbn; try done.
    + by apply NoDup_filter.
    + intros q [Hne Hq]%without_elem. rewrite lookup_delete_ne by done. by apply H2.
    + intros q a Ha. apply lookup_delete_Some in Ha as [Hne Ha]. rewrite without_elem, <- (H3 q a Ha). naive_solver.
    + intros q a Ha. apply lookup_delete_Some in Ha as [_ Ha]. by apply (H4 q).
  - destruct Hc as (? & ? & ?). by apply bind_wf.
  - apply upd_wf; [done|]. by intros a [? ? ? ? ? ? ?].
  - destruct Hc as (? & ? & ?). by apply connect_wf.
  - apply upd_wf; [done|]. intros a Ha. split; [|done]. pose proof Ha as [? ? ? ? ? ? ?]. split; try done. apply u8_range.
  - apply upd_wf; [done|]. by intros a [? ? ? ? ? ? ?].
  - unfold spec_addr_changed. destruct (_ || _); [done|]. pose proof Hw as [H1 H2 H3 H4 H5].
    change (map_imap _ (sockets u)) with (rebound old new (active u) (sockets u)).
    assert (Hr : forall p a, rebound old new (active u) (sockets u) !! p = Some a ->
      exists b, sockets u !! p = Some b /\ local_port a = local_port b /\ (pcb_fields b -> pcb_fields a)).
    { intros p a. rewrite rebound_lookup. destruct (sockets u !! p) as [b|]; [|done]. intros [= <-]. exists b. split; [done|].
      unfold readdressed. destruct (bool_decide _), (local_ip b =? old); (split; [done|]); intros [? ? ? ? ? ? ?]; split; (done || apply Hc). }
    split; cbn; try done.
    + intros p Hp. destruct (H2 p Hp) as [b Hb]. rewrite rebound_lookup, Hb. by eexists.
    + intros p a (b & Hb & -> & _)%Hr. by apply H3.
    + intros p a (b & Hb & _ & Hf)%Hr. by apply Hf, (H4 p).
  - unfold spec_demux. destruct (find _ _) as [[p a]|] eqn:Ef; [|done]. cbn [fst]. pose proof Hw as [H1 H2 H3 H4 H5].
    apply find_some in Ef as [Hin _]. apply list_elem_of_In, bound_elem in Hin as [Hin _].
    assert (Hel : forall x, x ∈ p :: without p (active u) <-> x ∈ active u).
    { intros x. rewrite elem_of_cons, without_elem. split; [intros [->|[_ Hx]]; done|]. intros Hx.
      destruct (decide (x = p)); [by left | by right]. }
    split; cbn; try done.
    + apply NoDup_cons. split; [rewrite without_elem; by intros [? _] | by apply NoDup_filter].
    + intros x Hx. by apply H2, Hel.
    + intros x b Hb. rewrite Hel. by apply H3.
Qed.

(** *** Ports are given out once *)

Definition apart u : Prop :=
  forall p q a b, p <> q -> p ∈ active u -> q ∈ active u -> sockets u !! p = Some a -> sockets u !! q = Some b ->
  local_port a = local_port b -> overlap (local_ip a) (local_ip b) = false.

(** An interface does not get an address that a struct is bound to already. *)
Definition readdress_ok u (c : udp_call) : Prop :=
  match c with
  | CallAddrChanged _ new => forall p a, p ∈ active u -> sockets u !! p = Some a -> local_ip a <> new
  | _ => True
  end.

Lemma overlap_sym a b : overlap a b = overlap b a.
Proof. unfold overlap. rewrite (Z.eqb_sym a b). by destruct (b =? a), (ip4_addr_isany a), (ip4_addr_isany b). Qed.

Lemma overlap_false a b : overlap a b = false <-> a <> b /\ ip4_addr_isany a = false /\ ip4_addr_isany b = false.
Proof. unfold overlap. rewrite !orb_false_iff, Z.eqb_neq. tauto. Qed.

(** The local ends decide. *)
Lemma apart_same u u' : apart u -> (forall p, p ∈ active u' -> p ∈ active u) ->
  (forall p a, p ∈ active u' -> sockets u' !! p = Some a -> exists b, sockets u !! p = Some b /\ local_ip b = local_ip a /\ local_port b = local_port a) -> apart u'.
Proof.
  intros Hu Hact Hs p q a b Hne Hp Hq Ha Hb Hport. destruct (Hs p a Hp Ha) as (a' & Ha' & <- & E1). destruct (Hs q b Hq Hb) as (b' & Hb' & <- & E2).
  apply (Hu p q); auto. congruence.
Qed.

Lemma make_active_elem p u q : q ∈ active (make_active p u) <-> q = p \/ q ∈ active u.
Proof. unfold make_active. destruct (bool_decide_reflect (p ∈ active u)); cbn; [naive_solver | by rewrite elem_of_cons]. Qed.

Lemma make_active_sockets p u : sockets (make_active p u) = sockets u.
Proof. unfold make_active. by destruct (bool_decide _). Qed.

Lemma entries_elem u p a : (p, a) ∈ entries u <-> p ∈ active u /\ sockets u !! p = Some a.
Proof. apply bound_elem. Qed.

Lemma bind_apart p ip port u : apart u -> apart (spec_bind p ip port u).1.
Proof.
  intros Hu. destruct (spec_bind_cases p ip port u) as [->|(port' & lp & _ & E1 & E2 & E3 & ->)]; [done|]. cbn [fst].
  set (v := UdpTable (sockets u) (active u) lp).
  assert (Hfree : forall q b, q <> p -> q ∈ active u -> sockets u !! q = Some b -> local_port b = port' -> overlap ip (local_ip b) = false).
  { intros q b Hne Hq Hb Hport. assert (Hin : (q, b) ∈ entries u) by by apply entries_elem. destruct (decide (port = 0)) as [E|E].
    - destruct (E2 E) as [Hf _]. apply free_port_some in Hf as [_ Hf]. unfold port_used in Hf. rewrite exists_bound_false in Hf.
      specialize (Hf q b Hin). cbn in Hf. by apply Z.eqb_neq in Hf.
    - destruct (E1 E) as [-> _]. pose proof (E3 E) as Ht. unfold port_taken in Ht. rewrite exists_bound_false in Ht. specialize (Ht q b Hin). cbn in Ht.
      rewrite (proj2 (Z.eqb_neq q p)) in Ht by done. by rewrite (proj2 (Z.eqb_eq (local_port b) port)) in Ht by done. }
  intros x y a b Hne Hx Hy. rewrite make_active_elem in Hx, Hy. rewrite make_active_sockets.
  intros (a0 & Ha0 & ->)%(upd_lookup p _ v) (b0 & Hb0 & ->)%(upd_lookup p _ v) Hport.
  destruct (decide (p = x)) as [<-|Hpx], (decide (p = y)) as [<-|Hpy]; [done | | |].
  - cbn in Hport |- *. apply (Hfree y); [done | naive_solver | done | done].
  - cbn in Hport |- *. rewrite overlap_sym. apply (Hfree x); [done | naive_solver | done | done].
  - apply (Hu x y); try done; naive_solver.
Qed.

Lemma connect_apart p ip port u : udp_wf u -> apart u -> apart (spec_connect p ip port u).1.
Proof.
  intros Hw Hu. unfold spec_connect. destruct (sockets u !! p) as [a|] eqn:Ea; [|done].
  assert (Hc : forall u, apart u -> (p ∈ active u) -> apart (make_active p (upd_socket p (fun a => with_remote ip port (Z.lor (udp_flags a) UDP_FLAGS_CONNECTED) a) u))).
  { clear. intros u Hu Hp. apply (apart_same u _ Hu).
    - intros q. rewrite make_active_elem. cbn. naive_solver.
    - intros q b _. rewrite make_active_sockets. intros (c & Hc & ->)%upd_lookup. exists c. split; [done|]. by destruct (decide (p = q)). }
  destruct (Z.eqb_spec (local_port a) 0) as [E|E]; [|by apply Hc; [|apply (uw_bound _ Hw p a Ea)]].
  pose proof (bind_apart p (local_ip a) 0 u Hu) as Hb.
  destruct (spec_bind_cases p (local_ip a) 0 u) as [Es|(q & lp & _ & _ & _ & _ & Es)]; rewrite Es in *; cbn [fst] in *.
  - by change (ERR_USE =? ERR_OK) with false.
  - change (ERR_OK =? ERR_OK) with true. cbn [fst]. apply Hc; [done|]. rewrite make_active_elem. by left.
Qed.

Lemma step_apart cap u c u' r : udp_wf u -> apart u -> readdress_ok u c -> udp_step cap u c u' r -> apart u'.
Proof.
  intros Hw Hu Hr Hs.
  assert (Hupd : forall p f, (forall a, local_ip (f a) = local_ip a /\ local_port (f a) = local_port a) -> apart (upd_socket p f u)).
  { intros p f Hf. apply (apart_same u _ Hu); [done|]. intros q b _ (c' & Hc & ->)%upd_lookup. exists c'. split; [done|].
    destruct (decide (p = q)); [|done]. by destruct (Hf c') as [-> ->]. }
  destruct c as [|[p|]|[p|] ip port|p nif|[p|] [ip|] port|[p|]|[p|] f arg|old new|q]; cbn in Hs, Hr;
    try (injection Hs as -> _); try done; try (by apply Hupd).
  - destruct Hs as [(p & _ & Hp & ->)|[_ [= -> _]]]; [|done]. apply (apart_same u _ Hu); [done|]. cbn. intros q b Hq Hb.
    exists b. split; [|done]. destruct (decide (p = q)) as [<-|Hne]; [|by rewrite lookup_insert_ne in Hb].
    destruct (uw_known _ Hw p Hq) as [c Hc]. congruence.
  - apply (apart_same u _ Hu); cbn; [by intros q [_ Hq]%without_elem|]. intros q b _ Hb. apply lookup_delete_Some in Hb as [_ Hb]. by exists b.
  - by apply bind_apart.
  - by apply connect_apart.
  - unfold spec_addr_changed. destruct (ip4_addr_isany old || ip4_addr_isany new) eqn:Eany; [done|]. apply orb_false_iff in Eany as [Eo En].
    change (map_imap _ (sockets u)) with (rebound old new (active u) (sockets u)).
    intros p q a b Hne Hp Hq. cbn in Hp, Hq |- *. rewrite !rebound_lookup, !bool_decide_eq_true_2 by done.
    destruct (sockets u !! p) as [a0|] eqn:Ha0; [|done]. destruct (sockets u !! q) as [b0|] eqn:Hb0; [|done]. intros [= <-] [= <-] Hport.
    assert (E : local_port a0 = local_port b0) by (revert Hport; unfold readdressed; by destruct (local_ip a0 =? old), (local_ip b0 =? old)).
    pose proof (Hu p q a0 b0 Hne Hp Hq Ha0 Hb0 E) as Ho. apply overlap_false in Ho as (O1 & O2 & O3). unfold readdressed.
    pose proof (Hr p a0 Hp Ha0). pose proof (Hr q b0 Hq Hb0).
    destruct (Z.eqb_spec (local_ip a0) old), (Z.eqb_spec (local_ip b0) old); cbn; apply overlap_false; split_and!; try done; congruence.
  - unfold spec_demux. destruct (find _ _) as [[p a]|] eqn:Ef; [|done]. cbn [fst].
    apply find_some in Ef as [Hin _]. apply list_elem_of_In, bound_elem in Hin as [Hin _].
    apply (apart_same u _ Hu); cbn; [|intros x b _ Hb; by exists b]. intros x [->|Hx]%elem_of_cons; [done|]. by apply without_elem in Hx as [_ Hx].
Qed.

(** The answer of the search. *)
Lemma fallback_cases q es : match fallback q es with
  | Some p => exists a, (p, a) ∈ es /\ local_match a q = true /\ is_connected a = false
  | None => forall p a, (p, a) ∈ es -> local_match a q = true -> is_connected a = true
  end.
Proof.
  unfold fallback.
  assert (Hin : forall e, e ∈ unconnected q es -> exists a, (e.1, a) ∈ es /\ local_match a q = true /\ is_connected a = false).
  { intros [p a] [[H1 H2] He]%list_elem_of_filter. by exists a. }
  destruct (find _ _) as [e|] eqn:Ef; [apply find_some in Ef as [He _]; apply Hin; by apply list_elem_of_In|].
  destruct (unconnected q es) as [|e l] eqn:El; cbn; [|apply Hin; by left].
  intros p a Hp Hl. apply not_false_iff_true. intros Hc.
  assert (Hu : (p, a) ∈ unconnected q es) by by apply list_elem_of_filter. rewrite El in Hu. by apply not_elem_of_nil in Hu.
Qed.

Lemma unicast_unique q u p1 p2 a1 a2 : apart u -> q_broadcast q = false -> (p1, a1) ∈ entries u -> (p2, a2) ∈ entries u ->
  local_match a1 q = true -> local_match a2 q = true -> p1 = p2.
Proof.
  intros Hu Hq [H1 E1]%entries_elem [H2 E2]%entries_elem M1 M2. destruct (decide (p1 = p2)) as [|Hne]; [done|]. exfalso.
  assert (Hm : forall a, local_match a q = true -> local_port a = q_dest q /\ (ip4_addr_isany (local_ip a) = true \/ local_ip a = q_dest_ip q)).
  { intros a [Ep%Z.eqb_eq Hl]%andb_true_iff. split; [done|]. unfold udp_input_local_match in Hl. rewrite Hq in Hl. destruct (_ && _); [done|].
    apply orb_true_iff in Hl as [?|?%Z.eqb_eq]; [by left | by right]. }
  destruct (Hm _ M1) as [P1 A1], (Hm _ M2) as [P2 A2].
  destruct (proj1 (overlap_false _ _) (Hu p1 p2 a1 a2 Hne H1 H2 E1 E2 ltac:(congruence))) as (O1 & O2 & O3).
  destruct A1, A2; congruence.
Qed.

Lemma unicast_result q u p : apart u -> q_broadcast q = false ->
  (spec_demux q u).2 = Some p <-> exists a, p ∈ active u /\ sockets u !! p = Some a /\ local_match a q = true /\
    (is_connected a = false \/ remote_match a q = true).
Proof.
  intros Hu Hq. unfold spec_demux. destruct (find (perfect q) (entries u)) as [[p1 a1]|] eqn:Ef; cbn [snd fst].
  - apply find_some in Ef as [Hin [M1 R1]%andb_true_iff]. apply list_elem_of_In in Hin. split.
    + intros [= <-]. exists a1. apply entries_elem in Hin as [? ?]. split_and!; try done. by right.
    + intros (a & Hp & Ha & Hl & _). f_equal. by apply (unicast_unique q u p1 p a1 a); [| | |apply entries_elem| |].
  - pose proof (fallback_cases q (entries u)) as Hf. split.
    + intros E. rewrite E in Hf. destruct Hf as (a & [? ?]%entries_elem & ? & ?). exists a. split_and!; try done. by left.
    + intros (a & Hp & Ha & Hl & Hc). assert (Hin : (p, a) ∈ entries u) by by apply entries_elem.
      pose proof (find_none _ _ Ef (p, a) (proj1 (list_elem_of_In _ _) Hin)) as Hn. unfold perfect in Hn. cbn in Hn. rewrite Hl in Hn. cbn in Hn.
      destruct Hc as [Hc|Hc]; [|congruence]. destruct (fallback q (entries u)) as [p1|]; [|by rewrite (Hf p a Hin Hl) in Hc].
      destruct Hf as (b & Hb & Hlb & _). f_equal. by apply (unicast_unique q u p1 p b a).
Qed.

Lemma demux_order q u : udp_wf u -> sockets (spec_demux q u).1 = sockets u /\ active (spec_demux q u).1 ≡ₚ active u.
Proof.
  intros Hw. unfold spec_demux. destruct (find _ _) as [[p a]|] eqn:Ef; [|done]. cbn. split; [done|].
  apply find_some in Ef as [Hin _]. apply list_elem_of_In, entries_elem in Hin as [Hin _]. apply list_elem_of_split in Hin as (la & lb & El).
  pose proof (uw_nodup _ Hw) as Hn. rewrite El in Hn |- *. apply nodup_split in Hn as (N1 & N2 & _). rewrite without_split by done.
  apply Permutation_middle.
Qed.
