(* ===== verification/UdpOps.v ===== *)
(** * The control blocks of UDP in memory

    The linked structs of UdpPcb.v show the table of UdpTable.v, and each
    function of udp.c that manages them returns and does to the structs what the
    table does. *)

From S2P Require Import Prelude Def Ip4Addr Alloc Memp Pbuf Ethernet EthArp Chain UdpPcb UdpTable.

(** ** Definitions *)

(** The structs in the pool's memory show the table. *)
Record udp_rep {P} `{!PoolAlloc P} (m : udp_mod P) u : Prop := UdpRep
  { rp_chain : chain udp_next (pcbs m) (udp_pcbs m) (active u);
    rp_sockets : plain <$> pcbs m = sockets u;
    rp_port : udp_port m = last_port u;
    rp_pool : pool_holds (udp_pool m) (dom (pcbs m));
    rp_wf : udp_wf u }.

(** ** Lemmas *)

(** *** The structs in memory *)

Section Memory.
Context {P : Type} `{!PoolAlloc P}.
Implicit Type m : udp_mod P.

(** The list in memory is the list of the table. *)
Record shows m u : Prop := Shows
  { sh_chain : chain udp_next (pcbs m) (udp_pcbs m) (active u);
    sh_nodup : NoDup (active u);
    sh_sockets : plain <$> pcbs m = sockets u;
    sh_port : udp_port m = last_port u;
    sh_pool : pool_holds (udp_pool m) (dom (pcbs m)) }.

Lemma rep_shows m u : udp_rep m u <-> shows m u /\ udp_wf u.
Proof. split; [intros [? ? ? ? W]; split; [split; try done; apply W | done] | by intros [[? ? ? ? ?] W]]. Qed.

Lemma pcb_get_some p a m : pcbs m !! p = Some a -> pcb_get p m = Ok a.
Proof. intros Ha. unfold pcb_get. by rewrite Ha. Qed.

Lemma pcb_set_some p f a m : pcbs m !! p = Some a -> pcb_set p f m = Ok (set_pcbs (<[p := f a]> (pcbs m)) m).
Proof. intros Ha. unfold pcb_set. by rewrite (pcb_get_some _ _ _ Ha), bind_ok. Qed.

Lemma shows_lookup m u p a : shows m u -> sockets u !! p = Some a -> exists b, pcbs m !! p = Some b /\ a = plain b.
Proof. intros Hm. rewrite <- (sh_sockets _ _ Hm), lookup_fmap. destruct (pcbs m !! p) as [b|]; [|done]. intros [= <-]. by exists b. Qed.

Lemma shows_fuel m u : shows m u -> (length (active u) < pcb_fuel m)%nat.
Proof. intros Hm. pose proof (chain_size _ _ _ (sh_chain _ _ Hm) (sh_nodup _ _ Hm)). unfold pcb_fuel. lia. Qed.

(** A walk that looks for a struct. *)
Lemma pcb_exists_ok test m l : (forall p a, test p (plain a) = test p a) -> forall fuel h, chain udp_next (pcbs m) h l -> (length l <= fuel)%nat ->
  pcb_exists fuel test h m = Ok (existsb (fun e => test e.1 e.2) (bound (plain <$> pcbs m) l)).
Proof using Type.
  intros Ht. induction l as [|p l IH]; intros fuel h Hc Hl; [cbn in Hc; subst h; by destruct fuel|].
  destruct Hc as (-> & a & Ha & Hc). destruct fuel as [|fuel]; [cbn in Hl; lia|]. cbn [pcb_exists].
  rewrite (pcb_get_some _ _ _ Ha), bind_ok, (bound_cons _ _ (plain a)) by (by rewrite lookup_fmap, Ha). cbn [existsb fst snd]. rewrite Ht.
  destruct (test p a); [done|]. rewrite (IH fuel) by (done || cbn in Hl; lia). done.
Qed.

Lemma any_pcb_ok test m u : shows m u -> (forall p a, test p (plain a) = test p a) ->
  any_pcb test m = Ok (existsb (fun e => test e.1 e.2) (entries u)).
Proof.
  intros Hm Ht. unfold any_pcb, entries. rewrite (pcb_exists_ok test m (active u)), (sh_sockets _ _ Hm); try done; [apply Hm|].
  pose proof (shows_fuel _ _ Hm). lia.
Qed.

(** Whether a struct is on the list. *)
Lemma listed_ok m u p : shows m u -> (forall q, q ∈ active u -> is_Some (sockets u !! q)) ->
  any_pcb (fun q _ => p =? q) m = Ok (bool_decide (p ∈ active u)).
Proof.
  intros Hm Hk. rewrite (any_pcb_ok _ m u) by done. f_equal. apply eq_bool_prop_intro. rewrite !Is_true_true, bool_decide_eq_true, exists_bound. split.
  - intros (q & a & Hin & ->%Z.eqb_eq). by apply bound_elem in Hin as [Hin _].
  - intros Hp. destruct (Hk p Hp) as [a Ha]. exists p, a. split; [by apply bound_elem | apply Z.eqb_refl].
Qed.

(** Fields that are not the link. *)
Definition on_fields (f : udp_pcb -> udp_pcb) : Prop := forall a, udp_next (f a) = udp_next a /\ plain (f a) = f (plain a).

Lemma set_shows m u p f : shows m u -> on_fields f -> is_Some (sockets u !! p) ->
  exists m', pcb_set p f m = Ok m' /\ shows m' (upd_socket p f u).
Proof.
  intros Hm Hf [a' Ha']. destruct (shows_lookup _ _ _ _ Hm Ha') as (a & Ha & ->). rewrite (pcb_set_some _ _ _ _ Ha).
  eexists. split; [done|]. destruct Hm as [H1 H2 H3 H4 H5]. split; cbn; try done.
  - eapply chain_update; [done | done | apply Hf].
  - rewrite fmap_insert, H3, (proj2 (Hf a)). apply map_eq. intros q. destruct (decide (p = q)) as [<-|Hne].
    + by rewrite lookup_insert_eq, lookup_alter_eq, Ha'.
    + by rewrite lookup_insert_ne, lookup_alter_ne.
  - rewrite dom_insert_L. replace ({[p]} ∪ dom (pcbs m)) with (dom (pcbs m)); [done|].
    apply elem_of_dom_2 in Ha. set_solver.
Qed.

(** A new head. *)
Lemma activate_shows m u p : shows m u -> is_Some (sockets u !! p) ->
  exists m', activate p (bool_decide (p ∈ active u)) m = Ok m' /\ shows m' (make_active p u).
Proof.
  intros Hm [a' Ha']. unfold activate, make_active. destruct (bool_decide_reflect (p ∈ active u)) as [Hp|Hp]; [by exists m|].
  destruct (shows_lookup _ _ _ _ Hm Ha') as (a & Ha & ->). rewrite (pcb_set_some _ _ _ _ Ha), bind_ok.
  eexists. split; [done|]. destruct Hm as [H1 H2 H3 H4 H5]. split; cbn; try done.
  - split; [done|]. eexists. rewrite lookup_insert_eq. split; [done|]. by apply chain_insert.
  - by apply NoDup_cons.
  - rewrite fmap_insert, H3. apply map_eq. intros q. destruct (decide (p = q)) as [<-|Hne];
      [by rewrite lookup_insert_eq | by rewrite lookup_insert_ne].
  - rewrite dom_insert_L. replace ({[p]} ∪ dom (pcbs m)) with (dom (pcbs m)); [done|].
    apply elem_of_dom_2 in Ha. set_solver.
Qed.

(** *** A free port *)

Lemma set_port_shows m u port : shows m u -> shows (set_udp_port port m) (UdpTable (sockets u) (active u) port).
Proof using Type. by intros [? ? ? ? ?]. Qed.

Lemma new_port_step m u fuel n port : shows m u -> 0xc000 <= port < 0x10000 ->
  new_port_loop (S fuel) n (set_udp_port port m) =
    let q := next_port port in
    if port_used u q then
      if 0x3fff <? u16 (n + 1) then Ok (set_udp_port q m, 0) else new_port_loop fuel (u16 (n + 1)) (set_udp_port q m)
    else Ok (set_udp_port q m, q).
Proof.
  intros Hm Hp. cbn [new_port_loop]. cbv zeta. cbn [udp_port set_udp_port]. rewrite next_port_code by done.
  by rewrite (any_pcb_ok _ _ _ (set_port_shows _ _ (next_port port) Hm)), bind_ok by done.
Qed.

Lemma new_port_loop_ok m u : shows m u -> forall j port, 0xc000 <= port < 0x10000 -> Z.of_nat (S j) <= 0x4000 ->
  new_port_loop (S j) (0x4000 - Z.of_nat (S j)) (set_udp_port port m) =
    match find (fun p => negb (port_used u p)) (ports_after port (S j)) with
    | Some p => Ok (set_udp_port p m, p)
    | None => Ok (set_udp_port (0xc000 + (port - 0xc000 + Z.of_nat (S j)) mod 0x4000) m, 0)
    end.
Proof.
  intros Hm. induction j as [|j IH]; intros port Hp Hj; rewrite (new_port_step m u), ports_after_next by done; cbv zeta; cbn [find];
    set (q := next_port port); destruct (port_used u q); cbn [negb]; try done.
  rewrite u16_id by solve_u. replace (0x4000 - Z.of_nat (S (S j)) + 1) with (0x4000 - Z.of_nat (S j)) by lia.
  destruct (Z.ltb_spec 0x3fff (0x4000 - Z.of_nat (S j))) as [?|_]; [lia|].
  rewrite IH by (apply next_port_range || lia). destruct (find _ _); [done|]. do 4 f_equal. unfold q, next_port.
  replace (0xc000 + (port - 0xc000 + 1) mod 0x4000 - 0xc000 + Z.of_nat (S j)) with ((port - 0xc000 + 1) mod 0x4000 + Z.of_nat (S j)) by lia.
  rewrite Zplus_mod_idemp_l. f_equal. lia.
Qed.

(** The port, or 0 and no change. *)
Lemma new_port_ok m u : shows m u -> 0xc000 <= last_port u < 0x10000 ->
  udp_new_port m = Ok (match free_port u with Some p => (set_udp_port p m, p) | None => (m, 0) end).
Proof.
  intros Hm Hp. unfold udp_new_port, free_port. change (Z.to_nat 0x4000) with (S (Z.to_nat 0x3fff)).
  pose proof (new_port_loop_ok m u Hm (Z.to_nat 0x3fff) (last_port u) Hp ltac:(done)) as E.
  assert (Es : set_udp_port (last_port u) m = m) by (rewrite <- (sh_port _ _ Hm); by destruct m).
  rewrite Es in E. etransitivity; [exact E|]. destruct (find _ _); [done|]. do 2 f_equal. rewrite <- Es at 2. f_equal. lia.
Qed.

(** *** The calls *)

(** A struct that gets new fields and is put on the list. *)
Lemma place_shows m u p f : shows m u -> on_fields f -> is_Some (sockets u !! p) ->
  exists m', (m ← pcb_set p f m; activate p (bool_decide (p ∈ active u)) m) = Ok m' /\ shows m' (make_active p (upd_socket p f u)).
Proof.
  intros Hm Hf Hp. destruct (set_shows m u p f Hm Hf Hp) as (m1 & -> & H1). rewrite bind_ok.
  apply (activate_shows m1 (upd_socket p f u)); [done | by apply upd_known].
Qed.

Lemma taken_ok m u p ip port : shows m u -> any_pcb (bound_elsewhere p ip port) m = Ok (port_taken p ip port u).
Proof.
  intros Hm. rewrite (any_pcb_ok _ m u) by done. f_equal. apply existsb_same. intros [q a].
  unfold bound_elsewhere, overlap. cbn [fst snd]. by rewrite (Z.eqb_sym p q), andb_assoc, (Z.eqb_sym ip).
Qed.

Lemma with_local_fields ip port : on_fields (with_local ip port).
Proof using Type. done. Qed.

Lemma bind_shows m u p ip port : shows m u -> udp_wf u -> is_Some (sockets u !! p) ->
  exists m', udp_bind (Some p) ip port m = Ok (m', (spec_bind p (default IPADDR_ANY ip) port u).2) /\
    shows m' (spec_bind p (default IPADDR_ANY ip) port u).1.
Proof.
  intros Hm Hw Hp. unfold udp_bind, spec_bind. cbv zeta. set (a := default IPADDR_ANY ip).
  rewrite (listed_ok m u p Hm (uw_known _ Hw)), bind_ok. destruct (Z.eqb_spec port 0) as [->|Hport].
  - rewrite (new_port_ok m u Hm (uw_port _ Hw)), bind_ok. destruct (free_port u) as [q|] eqn:Eq; cbv beta iota.
    + assert (Hq : (q =? 0) = false).
      { apply free_port_some in Eq as [Hq _]. lia. }
      rewrite Hq, !bind_ok. cbn [fst snd]. change (ERR_OK =? ERR_OK) with true. cbn [negb].
      destruct (place_shows _ _ p _ (set_port_shows m u q Hm) (with_local_fields a q) Hp) as (m' & E & H').
      apply bind_inv in E as (m1 & -> & E). rewrite bind_ok. cbn [active] in E. rewrite E, bind_ok. by exists m'.
    + rewrite Z.eqb_refl, !bind_ok. change (ERR_USE =? ERR_OK) with false. by exists m.
  - rewrite (taken_ok m u), !bind_ok by done. destruct (port_taken p a port u); cbn [fst snd];
      [change (ERR_USE =? ERR_OK) with false; by exists m|]. change (ERR_OK =? ERR_OK) with true. cbn [negb].
    destruct (place_shows m u p _ Hm (with_local_fields a port) Hp) as (m' & E & H').
    apply bind_inv in E as (m1 & -> & E). rewrite bind_ok, E, bind_ok. by exists m'.
Qed.

Lemma on_fields_remote ip port (f : Z -> Z) : on_fields (fun a => with_remote ip port (f (udp_flags a)) a).
Proof using Type. done. Qed.

Lemma connect_shows m u p ip port : shows m u -> udp_wf u -> is_Some (sockets u !! p) ->
  exists m', udp_connect (Some p) (Some ip) port m = Ok (m', (spec_connect p ip port u).2) /\ shows m' (spec_connect p ip port u).1.
Proof.
  intros Hm Hw [a' Ha']. unfold udp_connect, spec_connect. rewrite Ha'.
  destruct (shows_lookup _ _ _ _ Hm Ha') as (a & Ha & ->). rewrite (pcb_get_some _ _ _ Ha), bind_ok. cbn [local_port local_ip with_udp_next].
  assert (Hrest : forall m u, shows m u -> known u -> is_Some (sockets u !! p) -> exists m',
    (m ← pcb_set p (fun a => with_remote ip port (Z.lor (udp_flags a) UDP_FLAGS_CONNECTED) a) m;
     listed ← any_pcb (fun q _ => p =? q) m; m ← activate p listed m; Ok (m, ERR_OK)) = Ok (m', ERR_OK) /\
    shows m' (make_active p (upd_socket p (fun a => with_remote ip port (Z.lor (udp_flags a) UDP_FLAGS_CONNECTED) a) u))).
  { clear m u Hm Hw a Ha Ha'. intros m u Hm Hk Hp.
    destruct (set_shows m u p _ Hm (on_fields_remote ip port (fun x => Z.lor x UDP_FLAGS_CONNECTED)) Hp) as (m1 & -> & H1).
    rewrite bind_ok, (listed_ok m1 _ p H1), bind_ok by (intros q Hq; by apply upd_known, Hk).
    destruct (activate_shows m1 _ p H1) as (m2 & -> & H2); [by apply upd_known|]. rewrite bind_ok. by exists m2. }
  destruct (Z.eqb_spec (local_port a) 0) as [->|Hport].
  - destruct (bind_shows m u p (Some (local_ip a)) 0) as (m1 & -> & H1); [done | done | by eexists |].
    change (default IPADDR_ANY (Some (local_ip a))) with (local_ip a) in *.
    destruct (spec_bind_known p (local_ip a) 0 u) as [Hk Hp]; [exact (uw_known _ Hw) | by eexists |].
    rewrite bind_ok. destruct (spec_bind p (local_ip a) 0 u) as [u1 e]. cbn [fst snd] in *.
    destruct (Z.eqb_spec e ERR_OK) as [->|He]; cbn [negb]; [by apply Hrest | by exists m1].
  - rewrite bind_ok. change (ERR_OK =? ERR_OK) with true. cbn [negb]. apply Hrest; [done | exact (uw_known _ Hw) | by eexists].
Qed.

Lemma disconnect_shows m u p : shows m u -> is_Some (sockets u !! p) ->
  exists m', udp_disconnect (Some p) m = Ok m' /\ shows m' (upd_socket p disconnected u).
Proof.
  intros Hm Hp. destruct (set_shows m u p disconnected Hm) as (m' & E & H'); [done | done |]. exists m'. split; [|done]. rewrite <- E.
  destruct Hp as [b Hb]. destruct (shows_lookup _ _ _ _ Hm Hb) as (a & Ha & _). unfold udp_disconnect.
  rewrite !(pcb_set_some _ _ a _ Ha), bind_ok.
  do 2 (erewrite pcb_set_some by (cbn [pcbs set_pcbs]; apply lookup_insert_eq); cbn [set_pcbs pcbs]; rewrite insert_insert_eq; rewrite ?bind_ok).
  done.
Qed.

Lemma new_shows m u : shows m u ->
  exists m' u' r, udp_new m = Ok (m', r) /\ udp_step pool_capacity u CallNew u' (RPcb r) /\ shows m' u'.
Proof.
  intros [H1 H2 H3 H4 H5]. unfold udp_new. destruct (pool_malloc_spec (udp_pool m) (dom (pcbs m)) H5) as (pool & [x|] & -> & Hr); rewrite bind_ok.
  - destruct Hr as (Hx & _ & Hr). eexists _, _, _. split; [done|]. assert (Hn : pcbs m !! x = None) by by apply not_elem_of_dom.
    assert (Hs : sockets u !! x = None) by by rewrite <- H3, lookup_fmap, Hn. split; [left; by exists x|]. split; cbn.
    + apply chain_insert; [done|]. intros Hl. destruct (chain_known _ _ _ _ H1 Hl) as [a Ha]. congruence.
    + done.
    + by rewrite fmap_insert, H3.
    + done.
    + by rewrite dom_insert_L.
  - destruct Hr as [Hs Hr]. eexists _, u, _. split; [done|]. split; [right; split; [by rewrite <- H3, map_size_fmap, <- size_dom | done] |]. done.
Qed.

(** The loop of [udp_remove] stops before the struct, or at the end. *)
Lemma unlink_loop_ok m p b r lb : pcbs m !! p = Some b -> p <> r -> forall la fuel h,
  chain udp_next (pcbs m) h (la ++ r :: p :: lb) -> p ∉ la -> (length la <= fuel)%nat ->
  unlink_loop fuel p h m = pcb_set r (with_udp_next (udp_next b)) m.
Proof using Type.
  intros Hb Hr. induction la as [|q la IH]; intros fuel h Hc Hp Hl.
  - destruct Hc as (-> & a & Ha & En & _). destruct fuel; cbn [unlink_loop]; rewrite (pcb_get_some _ _ _ Ha), bind_ok, bool_decide_eq_true_2 by done;
      by rewrite (pcb_get_some _ _ _ Hb), bind_ok.
  - destruct Hc as (-> & a & Ha & Hc). apply not_elem_of_cons in Hp as [Hne Hp]. destruct fuel as [|fuel]; [cbn in Hl; lia|].
    cbn [unlink_loop]. rewrite (pcb_get_some _ _ _ Ha), bind_ok, bool_decide_eq_false_2; [apply IH; (done || cbn in Hl; lia)|].
    intros En. rewrite En in Hc. destruct la as [|x la]; destruct Hc as ([= ->] & _); [done|]. apply Hp. by left.
Qed.

Lemma unlink_absent m p l : forall fuel h, chain udp_next (pcbs m) h l -> p ∉ l -> (length l <= fuel)%nat ->
  unlink_loop fuel p h m = Ok m.
Proof using Type.
  induction l as [|q l IH]; intros fuel h Hc Hp Hl; [cbn in Hc; subst h; by destruct fuel|].
  destruct Hc as (-> & a & Ha & Hc). apply not_elem_of_cons in Hp as [Hne Hp]. destruct fuel as [|fuel]; [cbn in Hl; lia|].
  cbn [unlink_loop]. rewrite (pcb_get_some _ _ _ Ha), bind_ok, bool_decide_eq_false_2; [apply IH; (done || cbn in Hl; lia)|].
  intros En. rewrite En in Hc. destruct l as [|x l]; [done|]. destruct Hc as ([= ->] & _). apply Hp. by left.
Qed.

(** The list without the struct, before the struct is given back. *)
Lemma unlinked_shows m u p b : shows m u -> pcbs m !! p = Some b ->
  exists m', (if bool_decide (udp_pcbs m = Some p) then a ← pcb_get p m; Ok (set_udp_pcbs (udp_next a) m)
              else unlink_loop (pcb_fuel m) p (udp_pcbs m) m) = Ok m' /\
    shows m' (UdpTable (sockets u) (without p (active u)) (last_port u)).
Proof.
  intros Hm Hb. pose proof (shows_fuel _ _ Hm) as Hl. pose proof Hm as [H1 H2 H3 H4 H5].
  destruct (decide (p ∈ active u)) as [Hp|Hp].
  - apply list_elem_of_split in Hp as (la & lb & El). rewrite El in *. apply nodup_split in H2 as Hn. destruct Hn as (N1 & N2 & N3).
    rewrite without_split by done. destruct la as [|r la _] using rev_ind.
    + destruct H1 as (Eh & a & Ha & Hc). rewrite bool_decide_eq_true_2, (pcb_get_some _ _ _ Ha), bind_ok by done.
      eexists. split; [done|]. split; cbn; done.
    + rewrite <- app_assoc in H1, H2, N3, Hl |- *. cbn [app] in *. apply not_elem_of_app in N1 as [N1 Nr]. apply not_elem_of_cons in Nr as [Nr _].
      rewrite bool_decide_eq_false_2, (unlink_loop_ok m p b r lb Hb Nr la); try done.
      * destruct (chain_suffix _ _ _ _ _ H1) as (ar & Har & _). rewrite (pcb_set_some _ _ _ _ Har). eexists. split; [done|]. split; cbn; try done.
        -- by eapply chain_splice.
        -- rewrite fmap_insert, H3. apply insert_id. rewrite <- H3, lookup_fmap, Har. done.
        -- rewrite dom_insert_L. replace ({[r]} ∪ dom (pcbs m)) with (dom (pcbs m)); [done|]. apply elem_of_dom_2 in Har. set_solver.
      * rewrite length_app in Hl. lia.
      * intros Eh. rewrite Eh in H1. destruct la as [|x la]; destruct H1 as ([= ->] & _); [done|]. apply N1. by left.
  - rewrite without_absent by done. exists m. split; [|by split].
    rewrite bool_decide_eq_false_2, (unlink_absent m p (active u)); try done; [lia|].
    intros Eh. rewrite Eh in H1. destruct (active u) as [|x l]; [done|]. destruct H1 as ([= ->] & _). apply Hp. by left.
Qed.

Lemma remove_shows m u p : shows m u -> is_Some (sockets u !! p) ->
  exists m', udp_remove (Some p) m = Ok m' /\ shows m' (UdpTable (delete p (sockets u)) (without p (active u)) (last_port u)).
Proof.
  intros Hm [b' Hb']. destruct (shows_lookup _ _ _ _ Hm Hb') as (b & Hb & _). unfold udp_remove.
  destruct (unlinked_shows m u p b Hm Hb) as (m1 & -> & [H1 H2 H3 H4 H5]). rewrite bind_ok. cbn [sockets active last_port] in *.
  assert (Hd : p ∈ dom (pcbs m1)).
  { apply elem_of_dom. pose proof (f_equal (lookup p) H3) as E. rewrite lookup_fmap, Hb' in E. destruct (pcbs m1 !! p); [by eexists | done]. }
  destruct (pool_free_spec (udp_pool m1) _ p H5 Hd) as (pool & -> & Hpool). rewrite bind_ok. eexists. split; [done|]. split; cbn; try done.
  - apply chain_delete; [done|]. unfold without. rewrite list_elem_of_filter. by intros [? _].
  - by rewrite fmap_delete, H3.
  - by rewrite dom_delete_L.
Qed.

Lemma rebind_loop_ok old new l : forall fuel h m, chain udp_next (pcbs m) h l -> NoDup l -> (length l <= fuel)%nat ->
  rebind_loop fuel old new h m = Ok (set_pcbs (rebound old new l (pcbs m)) m).
Proof using Type.
  induction l as [|p l IH]; intros fuel h m Hc Hnd Hl.
  - cbn in Hc. subst h. replace (rebound old new [] (pcbs m)) with (pcbs m); [by destruct fuel, m|].
    apply map_eq. intros q. rewrite rebound_lookup, bool_decide_eq_false_2 by apply not_elem_of_nil. by destruct (pcbs m !! q).
  - destruct Hc as (-> & a & Ha & Hc). apply NoDup_cons in Hnd as [Hp Hnd]. destruct fuel as [|fuel]; [cbn in Hl; lia|].
    cbn [rebind_loop]. rewrite (pcb_get_some _ _ _ Ha), bind_ok.
    assert (E : (if local_ip a =? old then pcb_set p (with_local_ip new) m else Ok m) = Ok (set_pcbs (<[p := readdressed old new a]> (pcbs m)) m)).
    { unfold readdressed. destruct (local_ip a =? old); [by apply pcb_set_some | by rewrite insert_id by done; destruct m]. }
    rewrite E, bind_ok, IH; [|cbn; by apply chain_insert | done | cbn in Hl; lia]. cbn [pcbs set_pcbs]. f_equal. unfold set_pcbs. cbn. f_equal.
    apply map_eq. intros q. rewrite !rebound_lookup. destruct (decide (p = q)) as [<-|Hne].
    + by rewrite lookup_insert_eq, Ha, bool_decide_eq_false_2, bool_decide_eq_true_2 by (done || by left).
    + rewrite lookup_insert_ne by done. destruct (pcbs m !! q) as [b|]; [|done]. cbn. f_equal.
      by rewrite (bool_decide_ext (q ∈ p :: l) (q ∈ l)) by (rewrite elem_of_cons; naive_solver).
Qed.

Lemma addr_changed_shows m u old new : shows m u ->
  exists m', udp_netif_ip_addr_changed (Some old) (Some new) m = Ok m' /\ shows m' (spec_addr_changed old new u).
Proof.
  intros Hm. unfold udp_netif_ip_addr_changed, spec_addr_changed. destruct (_ || _); [by exists m|].
  pose proof (shows_fuel _ _ Hm). pose proof Hm as [H1 H2 H3 H4 H5].
  rewrite (rebind_loop_ok old new (active u)) by (done || lia). eexists. split; [done|].
  assert (Hr : forall a, udp_next (readdressed old new a) = udp_next a /\ plain (readdressed old new a) = readdressed old new (plain a)).
  { intros a. unfold readdressed. cbn. by destruct (local_ip a =? old). }
  split; cbn; try done.
  - eapply chain_links; [|exact H1]. intros p a _ Ha. rewrite rebound_lookup, Ha. eexists. split; [done|].
    destruct (bool_decide _); [apply Hr | done].
  - apply map_eq. intros p. change (map_imap _ (sockets u)) with (rebound old new (active u) (sockets u)).
    rewrite lookup_fmap, !rebound_lookup, <- H3, lookup_fmap. destruct (pcbs m !! p) as [a|]; [|done]. cbn. f_equal.
    destruct (bool_decide _); [apply Hr | done].
  - replace (dom (rebound old new (active u) (pcbs m))) with (dom (pcbs m)); [done|]. apply set_eq. intros p.
    rewrite !elem_of_dom, rebound_lookup. by destruct (pcbs m !! p).
Qed.

(** *** The receiver *)

(** The walk keeps one struct that is not connected. *)
Definition pick (q : udp_query) : option (Z * udp_pcb) -> list (Z * udp_pcb) -> option (Z * udp_pcb) :=
  foldl (fun acc e =>
    if negb (local_match e.2 q) || is_connected e.2 then acc else
    match acc with
    | None => Some e
    | Some u => if negb (own_address q u) && own_address q e then Some e else Some u
    end).

Lemma pick_ok q es : forall acc, pick q acc es =
  match acc with
  | None => match find (own_address q) (unconnected q es) with Some e => Some e | None => head (unconnected q es) end
  | Some u => if own_address q u then Some u else match find (own_address q) (unconnected q es) with Some e => Some e | None => Some u end
  end.
Proof using Type.
  induction es as [|e es IH]; intros acc; [destruct acc as [u|]; cbn; [by destruct (own_address q u) | done]|].
  change (pick q acc (e :: es)) with (pick q (if negb (local_match e.2 q) || is_connected e.2 then acc else
    match acc with None => Some e | Some u => if negb (own_address q u) && own_address q e then Some e else Some u end) es).
  rewrite IH. unfold unconnected. destruct (local_match e.2 q) eqn:E1, (is_connected e.2) eqn:E2; cbn [negb orb];
    try (by rewrite filter_cons_False by (intros [? ?]; congruence)).
  rewrite filter_cons_True by done. cbn [find head]. destruct acc as [u|].
  - destruct (own_address q u) eqn:Eu; cbn [negb andb]; [by rewrite Eu|].
    destruct (own_address q e) eqn:Ee; [by rewrite Ee | by rewrite Eu].
  - destruct (own_address q e) eqn:Ee; [done|]. by destruct (find _ _).
Qed.

Lemma next_uncon_ok m q p a acc : local_match a q = true ->
  (forall r b, acc = Some (r, b) -> exists c, pcbs m !! r = Some c /\ b = plain c) ->
  next_uncon q p a (fst <$> acc) m = Ok (fst <$> pick q acc [(p, plain a)]).
Proof using Type.
  intros Hl Hacc. unfold next_uncon, pick. cbn [foldl snd]. change (local_match (plain a) q) with (local_match a q).
  change (is_connected (plain a)) with (is_connected a). rewrite Hl. cbn [negb orb]. destruct (is_connected a); [done|].
  destruct acc as [[r b]|]; [|done]. cbn [fmap option_fmap option_map fst]. destruct (Hacc r b eq_refl) as (c & Hc & ->).
  unfold own_address. cbn [snd local_ip with_udp_next]. destruct (q_broadcast q && (q_dest_ip q =? IPADDR_BROADCAST)); [|done].
  rewrite (pcb_get_some _ _ _ Hc), bind_ok. cbn [andb]. by destruct (_ && _).
Qed.

(** The struct goes to the front. *)
Lemma front_ok m u la p lb a : shows m u -> active u = la ++ p :: lb -> pcbs m !! p = Some a ->
  exists m', match last la with
    | Some r => m ← pcb_set r (with_udp_next (udp_next a)) m; m ← pcb_set p (with_udp_next (udp_pcbs m)) m; Ok (set_udp_pcbs (Some p) m, Some p)
    | None => Ok (m, Some p)
    end = Ok (m', Some p) /\ shows m' (UdpTable (sockets u) (p :: without p (active u)) (last_port u)).
Proof.
  intros Hm El Ha. pose proof Hm as [H1 H2 H3 H4 H5]. rewrite El in H1, H2 |- *. pose proof (nodup_split _ _ _ H2) as (N1 & N2 & N3).
  rewrite without_split by done. destruct la as [|r la _] using rev_ind.
  - exists m. split; [done|]. by split.
  - rewrite last_snoc. rewrite <- app_assoc in H1, H2, N3 |- *. cbn [app] in *. apply not_elem_of_app in N1 as [N1 Nr].
    apply not_elem_of_cons in Nr as [Nr _]. destruct (chain_suffix _ _ _ _ _ H1) as (ar & Har & _).
    rewrite (pcb_set_some _ _ _ _ Har), bind_ok, (pcb_set_some _ _ a) by (cbn; by rewrite lookup_insert_ne by done).
    rewrite bind_ok. eexists. split; [done|]. split; cbn; try done.
    + split; [done|]. eexists. rewrite lookup_insert_eq. split; [done|]. apply chain_insert; [by eapply chain_splice|].
      intros Hp. apply elem_of_app in Hp as [Hp|Hp]; [done|]. by apply elem_of_cons in Hp as [Hp|Hp].
    + apply NoDup_cons. split; [|done]. intros Hp. apply elem_of_app in Hp as [Hp|Hp]; [done|]. by apply elem_of_cons in Hp as [Hp|Hp].
    + apply map_eq. intros x. rewrite lookup_fmap, <- H3, lookup_fmap. destruct (decide (p = x)) as [<-|Hx]; [by rewrite lookup_insert_eq, Ha|].
      rewrite lookup_insert_ne by done. destruct (decide (r = x)) as [<-|Hx']; [by rewrite lookup_insert_eq, Har | by rewrite lookup_insert_ne].
    + rewrite !dom_insert_L. replace ({[p]} ∪ ({[r]} ∪ dom (pcbs m))) with (dom (pcbs m)); [done|].
      apply elem_of_dom_2 in Ha, Har. set_solver.
Qed.

Lemma demux_loop_ok q m u : shows m u -> forall l la fuel h acc, active u = la ++ l -> chain udp_next (pcbs m) h l -> (length l <= fuel)%nat ->
  (forall r b, acc = Some (r, b) -> exists c, pcbs m !! r = Some c /\ b = plain c) ->
  exists m', demux_loop fuel q (last la) (fst <$> acc) h m =
      Ok (m', match find (perfect q) (bound (sockets u) l) with Some e => Some e.1 | None => fst <$> pick q acc (bound (sockets u) l) end) /\
    shows m' (match find (perfect q) (bound (sockets u) l) with
              | Some e => UdpTable (sockets u) (e.1 :: without e.1 (active u)) (last_port u)
              | None => u
              end).
Proof.
  intros Hm. induction l as [|p l IH]; intros la fuel h acc El Hc Hl Hacc; [cbn in Hc; subst h; exists m; by destruct fuel|].
  destruct Hc as (-> & a & Ha & Hc). destruct fuel as [|fuel]; [cbn in Hl; lia|]. cbn [demux_loop].
  rewrite (pcb_get_some _ _ _ Ha), bind_ok. cbv zeta.
  rewrite (bound_cons _ p (plain a)) by (by rewrite <- (sh_sockets _ _ Hm), lookup_fmap, Ha).
  cbn [find]. unfold perfect at 1 3. cbn [snd]. change (local_match (plain a) q) with (local_match a q). change (remote_match (plain a) q) with (remote_match a q).
  assert (Hnext : forall acc', (forall r b, acc' = Some (r, b) -> exists c, pcbs m !! r = Some c /\ b = plain c) ->
    pick q acc [(p, plain a)] = acc' -> exists m', demux_loop fuel q (Some p) (fst <$> acc') (udp_next a) m =
      Ok (m', match find (perfect q) (bound (sockets u) l) with Some e => Some e.1 | None => fst <$> pick q acc ((p, plain a) :: bound (sockets u) l) end) /\
    shows m' (match find (perfect q) (bound (sockets u) l) with
              | Some e => UdpTable (sockets u) (e.1 :: without e.1 (active u)) (last_port u)
              | None => u
              end)).
  { intros acc' Hacc' <-. destruct (IH (la ++ [p]) fuel (udp_next a) (pick q acc [(p, plain a)])) as (m' & E & H');
      [by rewrite El, <- app_assoc | done | cbn in Hl; lia | done |]. rewrite last_snoc in E. by exists m'. }
  destruct (local_match a q) eqn:Elm; cbn [andb].
  - rewrite (next_uncon_ok m q p a acc Elm Hacc), bind_ok. destruct (remote_match a q).
    + by apply (front_ok m u la p l a Hm El Ha).
    + apply Hnext; [|done]. intros r b Er. unfold pick in Er. cbn [foldl snd] in Er.
      destruct (_ || _); [by apply Hacc|]. destruct acc as [e|]; [|injection Er as <- <-; by exists a].
      destruct (_ && _); [injection Er as <- <-; by exists a | by apply Hacc].
  - apply Hnext; [done|]. unfold pick. cbn [foldl snd]. change (local_match (plain a) q) with (local_match a q). by rewrite Elm.
Qed.

Lemma demux_shows q m u : shows m u -> exists m', demux q m = Ok (m', (spec_demux q u).2) /\ shows m' (spec_demux q u).1.
Proof.
  intros Hm. pose proof (shows_fuel _ _ Hm).
  destruct (demux_loop_ok q m u Hm (active u) [] (pcb_fuel m) (udp_pcbs m) None) as (m' & E & H'); [done | apply Hm | lia | done|].
  exists m'. unfold demux, spec_demux, fallback, entries. rewrite pick_ok in E. cbn [last fmap option_fmap option_map] in E. rewrite E.
  by destruct (find (perfect q) (bound (sockets u) (active u))).
Qed.

(** Every call refines the call of the table. *)
Lemma call_ok_step m u c : udp_rep m u -> call_ok u c ->
  exists m' u' r, run_call c m = Ok (m', r) /\ udp_step pool_capacity u c u' r /\ udp_rep m' u'.
Proof.
  intros [Hm Hw]%rep_shows Hc.
  assert (Hgoal : exists m' u' r, run_call c m = Ok (m', r) /\ udp_step pool_capacity u c u' r /\ shows m' u').
  { destruct c as [|[p|]|[p|] ip port|p nif|[p|] [ip|] port|[p|]|[p|] f arg|old new|q]; cbn [run_call call_ok] in *.
    - destruct (new_shows m u Hm) as (m' & u' & r & -> & Hs & H'). rewrite bind_ok. by exists m', u', (RPcb r).
    - destruct (remove_shows m u p Hm Hc) as (m' & -> & H'). rewrite bind_ok. by eexists m', _, _.
    - by exists m, u, RUnit.
    - destruct (bind_shows m u p ip port Hm Hw (proj1 Hc)) as (m' & -> & H'). rewrite bind_ok. by eexists m', _, _.
    - by exists m, u, (RErr ERR_ARG).
    - unfold udp_bind_netif. destruct (set_shows m u p (with_netif_idx (from_option netif_get_index NETIF_NO_INDEX nif)) Hm) as (m' & E & H'); [done | done |].
      destruct nif as [n|]; cbn [from_option] in E; rewrite E, bind_ok; by eexists m', _, _.
    - destruct (connect_shows m u p ip port Hm Hw (proj1 Hc)) as (m' & -> & H'). rewrite bind_ok. by eexists m', _, _.
    - by exists m, u, (RErr ERR_ARG).
    - by exists m, u, (RErr ERR_ARG).
    - by exists m, u, (RErr ERR_ARG).
    - destruct (disconnect_shows m u p Hm Hc) as (m' & -> & H'). rewrite bind_ok. by eexists m', _, _.
    - by exists m, u, RUnit.
    - unfold udp_recv. destruct (set_shows m u p (with_recv f arg) Hm) as (m' & -> & H'); [done | done |]. rewrite bind_ok. by eexists m', _, _.
    - by exists m, u, RUnit.
    - destruct (addr_changed_shows m u old new Hm) as (m' & -> & H'). rewrite bind_ok. by eexists m', _, _.
    - destruct (demux_shows q m u Hm) as (m' & -> & H'). rewrite bind_ok. by eexists m', _, _. }
  destruct Hgoal as (m' & u' & r & E & Hs & H'). exists m', u', r. split_and!; try done. apply rep_shows. split; [done|]. by eapply step_wf.
Qed.

End Memory.
