(* ===== verification/UdpSpec.v ===== *)
(** * What UDP promises about its control blocks

    Calls of udp.c one after the other refine the calls of the table, ports are
    given out once, a unicast datagram has one receiver, and the search for a
    free port ends. *)

From S2P Require Import Prelude Def Ip4Addr Alloc Memp Pbuf Ethernet EthArp Chain UdpPcb UdpTable UdpOps.

(** ** Lemmas *)

Section Refinement.
Context {P : Type} `{!PoolAlloc P}.
Implicit Type m : udp_mod P.

(** Calls one after the other, in memory and on the table. *)
Fixpoint run_calls (cs : list udp_call) m : res (udp_mod P * list udp_result) :=
  match cs with
  | [] => Ok (m, [])
  | c :: cs => '(m, r) ← run_call c m; '(m, rs) ← run_calls cs m; Ok (m, r :: rs)
  end.

Lemma calls_ok (ok : udp_table -> udp_call -> Prop) (Q : udp_table -> Prop) : (forall u c, ok u c -> call_ok u c) ->
  (forall cap u c u' r, udp_wf u -> Q u -> ok u c -> udp_step cap u c u' r -> Q u') ->
  forall cs m u, udp_rep m u -> Q u -> allowed ok pool_capacity u cs ->
  exists m' u' rs, run_calls cs m = Ok (m', rs) /\ udp_steps pool_capacity u cs u' rs /\ udp_rep m' u' /\ Q u'.
Proof.
  intros Hok HQ. induction cs as [|c cs IH]; intros m u Hm Hu Ha; [by exists m, u, []|]. destruct Ha as [Hc Ha].
  destruct (call_ok_step m u c Hm (Hok _ _ Hc)) as (m1 & u1 & r & E & Hs & H1).
  destruct (IH m1 u1 H1) as (m2 & u2 & rs & E2 & Hs2 & H2); [by eapply HQ, Hs; [apply Hm | |] | by apply (Ha u1 r)|].
  cbn [run_calls]. rewrite E, bind_ok, E2, bind_ok. exists m2, u2, (r :: rs). split_and!; try apply H2; try done. by exists u1.
Qed.

(** ** Properties *)

(** C11: whatever calls udp.c gets about structs that are in use, they all
    return, with no pointer to something else and no endless walk, and do to the
    linked structs what the table does without links: the same results, the
    same fields and the same order; a new struct is one that nobody uses, and is
    refused only when the pool is used up; and the table stays well formed, a
    struct being on the list exactly when it has a port. *)
Theorem udp_calls_refine cs m u : udp_rep m u -> allowed call_ok pool_capacity u cs ->
  exists m' u' rs, run_calls cs m = Ok (m', rs) /\ udp_steps pool_capacity u cs u' rs /\ udp_rep m' u'.
Proof.
  intros Hm Ha. destruct (calls_ok call_ok (fun _ => True)) with (cs := cs) (m := m) (u := u) as (m' & u' & rs & E & Hs & H' & _); try done.
  by exists m', u', rs.
Qed.

(** C14: a port is given to one receiver: two structs on the list never have the
    same port with addresses to which the same datagram can be sent, whatever is
    bound, connected, received or removed, as long as no interface changes to an
    address to which a struct is bound already. *)
Theorem udp_ports_exclusive cs m u : udp_rep m u -> apart u -> allowed (fun u c => call_ok u c /\ readdress_ok u c) pool_capacity u cs ->
  exists m' u' rs, run_calls cs m = Ok (m', rs) /\ udp_rep m' u' /\ apart u'.
Proof.
  intros Hm Hu Ha. destruct (calls_ok (fun u c => call_ok u c /\ readdress_ok u c) apart) with (cs := cs) (m := m) (u := u) as (m' & u' & rs & E & _ & H' & Hu'); try done.
  - by intros ? ? [? _].
  - intros cap v c v' r Hw Hv [_ Hr]. by apply step_apart.
  - by exists m', u', rs.
Qed.

(** C15: a datagram that is not a broadcast has at most one receiver: the search
    answers a struct exactly when it is bound to the destination, or to any
    address, on the port, accepts the interface, and is not connected to
    somebody other than the sender; it only reorders the list. *)
Theorem udp_unicast_receiver q m u : udp_rep m u -> apart u -> q_broadcast q = false -> 
  exists m' r, demux q m = Ok (m', r) /\
    (forall p, r = Some p <-> exists a, p ∈ active u /\ sockets u !! p = Some a /\ local_match a q = true /\
      (is_connected a = false \/ remote_match a q = true)) /\
    exists u', udp_rep m' u' /\ sockets u' = sockets u /\ active u' ≡ₚ active u.
Proof.
  intros Hm Hu Hq. destruct (call_ok_step m u (CallDemux q) Hm I) as (m' & u' & r & E & [= -> ->] & H').
  apply bind_inv in E as ([m1 r1] & E & [= -> Er]). exists m', r1. split; [done|]. subst r1. split.
  - intros p. by apply unicast_result.
  - exists (spec_demux q u).1. split; [done|]. apply demux_order, Hm.
Qed.

(** C16: as long as fewer structs are in use than there are ports, the search for
    a free one ends with a port of the dynamic range that no struct on the list
    has; otherwise it ends too, with 0 and nothing changed, or with a free port. *)
Theorem udp_new_port_free m u : udp_rep m u ->
  exists port, udp_new_port m = Ok (if port =? 0 then m else set_udp_port port m, port) /\
    (port <> 0 -> 0xc000 <= port <= 0xffff /\ forall p a, p ∈ active u -> sockets u !! p = Some a -> local_port a <> port) /\
    ((size (sockets u) < Z.to_nat 0x4000)%nat -> port <> 0).
Proof.
  intros [Hm Hw]%rep_shows. rewrite (new_port_ok m u Hm (uw_port _ Hw)). destruct (free_port u) as [q|] eqn:Eq.
  - pose proof (free_port_some _ _ Eq) as [Hq Hu]. exists q. rewrite (proj2 (Z.eqb_neq q 0)) by lia. split_and!; try lia; [done|].
    intros _. split; [lia|]. intros p a Hp Ha. unfold port_used in Hu. rewrite exists_bound_false in Hu.
    specialize (Hu p a (proj2 (entries_elem u p a) (conj Hp Ha))). cbn in Hu. by apply Z.eqb_neq in Hu.
  - exists 0. split; [done|]. split; [done|]. intros Hs. apply free_port_none in Eq. pose proof (active_size u Hw). lia.
Qed.

End Refinement.

(** ** Witnesses *)

Module UdpDemo.

(** The pool as the build declares it, at some address, with two structs taken:
    one on port 68 of any address, one on port 5000 of 10.2.0.15. *)
Definition udp_desc : memp_desc := MempDesc 32 4 0x20005000.
Lemma udp_desc_ok : desc_ok udp_desc.
Proof. unfold desc_ok, udp_desc. cbn. lia. Qed.
Definition udp_alloc : PoolAlloc pool := memp_alloc udp_desc udp_desc_ok.
Definition boot_pool : pool := Pool (list_to_map ((fun a => (a, 0)) <$> elems udp_desc)) 0 (StatsMem 0 0 0 0 0).
Definition run_pool (r : res (pool * option Z)) : pool := match r with Ok (p, _) => p | Err _ => boot_pool end.
Definition fresh_pool : pool := match memp_init_pool udp_desc boot_pool with Ok p => p | Err _ => boot_pool end.
Definition two_taken : pool := run_pool (do_memp_malloc_pool (run_pool (do_memp_malloc_pool fresh_pool))).

Definition dhcp : Z := 0x20005060.
Definition chat : Z := 0x20005040.
Definition pcb_on (ip port : Z) : udp_pcb := with_local ip port pcb_zero.
Definition demo_table : udp_table := UdpTable {[dhcp := pcb_on 0 68; chat := pcb_on 0x0f00020a 5000]} [dhcp; chat] 0xc000.
Definition demo_mod : udp_mod pool :=
  UdpMod two_taken {[dhcp := with_udp_next (Some chat) (pcb_on 0 68); chat := pcb_on 0x0f00020a 5000]} (Some dhcp) 0xc000.

Lemma fresh_holds : @pool_holds pool udp_alloc fresh_pool ∅.
Proof.
  destruct (memp_init_pool_rep udp_desc udp_desc_ok boot_pool) as (p & E & R).
  - intros a Ha. unfold boot_pool. cbn [words].
    destruct (list_to_map ((fun a => (a, 0)) <$> elems udp_desc) !! a) as [v|] eqn:Ev; [eauto|].
    exfalso. apply not_elem_of_list_to_map_2 in Ev. apply Ev.
    rewrite <- list_fmap_compose. apply list_elem_of_fmap. by exists a.
  - done.
  - exists (rev (elems udp_desc)). unfold fresh_pool. by rewrite E.
Qed.

Lemma taken_next p U x : @pool_holds pool udp_alloc p U -> (do_memp_malloc_pool p = Ok (run_pool (do_memp_malloc_pool p), Some x)) ->
  @pool_holds pool udp_alloc (run_pool (do_memp_malloc_pool p)) ({[x]} ∪ U).
Proof.
  intros Hp E. destruct (@pool_malloc_spec pool udp_alloc p U Hp) as (p' & r & E' & Hr). change (@pool_malloc pool udp_alloc) with do_memp_malloc_pool in E'.
  rewrite E in E'. injection E' as <- <-. apply Hr.
Qed.

Lemma two_taken_holds : @pool_holds pool udp_alloc two_taken {[dhcp; chat]}.
Proof.
  replace ({[dhcp; chat]} : gset Z) with ({[chat]} ∪ ({[dhcp]} ∪ ∅) : gset Z) by set_solver.
  apply taken_next; [apply taken_next; [exact fresh_holds|]|]; vm_compute; reflexivity.
Qed.

Lemma demo_rep : @udp_rep pool udp_alloc demo_mod demo_table.
Proof.
  split.
  - split; [done|]. eexists. split; [vm_compute; reflexivity|]. split; [done|]. eexists. split; [vm_compute; reflexivity | done].
  - vm_compute. reflexivity.
  - done.
  - replace (dom (pcbs demo_mod)) with ({[dhcp; chat]} : gset Z) by (vm_compute; reflexivity). exact two_taken_holds.
  - assert (Hs : forall p a, sockets demo_table !! p = Some a -> (p = dhcp /\ a = pcb_on 0 68) \/ (p = chat /\ a = pcb_on 0x0f00020a 5000)).
    { intros p a Ha. unfold demo_table in Ha. cbn [sockets] in Ha. apply lookup_insert_Some in Ha as [[<- <-]|[_ Ha]]; [by left|]. apply lookup_singleton_Some in Ha as [<- <-]. by right. }
    split.
    + apply NoDup_cons. split; [by intros ?%list_elem_of_singleton | apply NoDup_singleton].
    + intros p [->|[->|[]%elem_of_nil]%elem_of_cons]%elem_of_cons; by eexists.
    + intros p a [[-> ->]|[-> ->]]%Hs; cbn; rewrite !elem_of_cons; split; auto; intros; lia.
    + by intros p a [[-> ->]|[-> ->]]%Hs.
    + cbn. lia.
Qed.

(** From 10.2.0.2, in front of the interface of ArpSpec.v. *)
Definition demo_nif : netif := Netif 0x0f00020a 0x00ffffff 0x0202000a [0xde; 0xad; 0xbe; 0xef; 0; 1] 6 0x0f 0 1500.
Definition demo_query : udp_query := UdpQuery 67 5000 0x0202000a 0x0f00020a demo_nif demo_nif false.

(** A port that is taken, a new port, a connection, a datagram, a struct that
    is given back and a new one. *)
Definition demo_calls : list udp_call :=
  [CallBind (Some chat) None 68; CallBind (Some chat) (Some 0x0f00020a) 0; CallConnect (Some chat) (Some 0x0202000a) 67; CallDemux demo_query;
   CallRemove (Some dhcp); CallNew].

Ltac next_call := split; [vm_compute; split_and?; (done || by eexists) | let E := fresh in intros ? ? E; vm_compute in E; injection E as -> _].

Lemma demo_allowed : allowed call_ok 4 demo_table demo_calls.
Proof. do 5 next_call. by split. Qed.

Lemma udp_calls_refine_witness : exists m' u' rs,
  @run_calls pool udp_alloc demo_calls demo_mod = Ok (m', rs) /\ udp_steps 4 demo_table demo_calls u' rs /\ @udp_rep pool udp_alloc m' u'.
Proof. apply (@udp_calls_refine pool udp_alloc demo_calls demo_mod demo_table demo_rep demo_allowed). Defined.

Lemma demo_apart : apart demo_table.
Proof.
  intros p q a b Hne Hp Hq Ha Hb Hport. cbn in Hp, Hq. rewrite !elem_of_cons in Hp, Hq.
  destruct Hp as [->|[->|[]%elem_of_nil]], Hq as [->|[->|[]%elem_of_nil]]; try done; vm_compute in Ha, Hb; injection Ha as <-; injection Hb as <-; done.
Qed.

(** The interface of 10.2.0.15 gets the address 10.2.0.16. *)
Definition move_calls : list udp_call := [CallAddrChanged 0x0f00020a 0x1000020a; CallDemux demo_query].

Lemma move_allowed : allowed (fun u c => call_ok u c /\ readdress_ok u c) 4 demo_table move_calls.
Proof.
  split; [split; [done|]|].
  - intros p a Hp Ha. cbn in Hp. rewrite !elem_of_cons in Hp. destruct Hp as [->|[->|[]%elem_of_nil]]; vm_compute in Ha; by injection Ha as <-.
  - by intros u' r _.
Qed.

Lemma udp_ports_exclusive_witness : exists m' u' rs,
  @run_calls pool udp_alloc move_calls demo_mod = Ok (m', rs) /\ @udp_rep pool udp_alloc m' u' /\ apart u'.
Proof. apply (@udp_ports_exclusive pool udp_alloc move_calls demo_mod demo_table demo_rep demo_apart move_allowed). Defined.

Lemma udp_unicast_receiver_witness : exists m' r, @demux pool demo_query demo_mod = Ok (m', r) /\
  (forall p, r = Some p <-> exists a, p ∈ active demo_table /\ sockets demo_table !! p = Some a /\ local_match a demo_query = true /\
    (is_connected a = false \/ remote_match a demo_query = true)) /\
  exists u', @udp_rep pool udp_alloc m' u' /\ sockets u' = sockets demo_table /\ active u' ≡ₚ active demo_table.
Proof. apply (@udp_unicast_receiver pool udp_alloc demo_query demo_mod demo_table demo_rep demo_apart eq_refl). Defined.

Lemma udp_new_port_free_witness : exists port, @udp_new_port pool demo_mod = Ok (if port =? 0 then demo_mod else set_udp_port port demo_mod, port) /\
  (port <> 0 -> 0xc000 <= port <= 0xffff /\ forall p a, p ∈ active demo_table -> sockets demo_table !! p = Some a -> local_port a <> port) /\
  ((size (sockets demo_table) < Z.to_nat 0x4000)%nat -> port <> 0).
Proof. apply (@udp_new_port_free pool udp_alloc demo_mod demo_table demo_rep). Defined.

(** Without the condition on the new address, two structs can end up at the same
    address and port: an address is copied without the check of [udp_bind]. *)
Definition two_homes : udp_table := UdpTable {[dhcp := pcb_on 0x0f00020a 53; chat := pcb_on 0x1000020a 53]} [dhcp; chat] 0xc000.

Lemma readdress_overlaps : let u' := spec_addr_changed 0x0f00020a 0x1000020a two_homes in
  exists a b, sockets u' !! dhcp = Some a /\ sockets u' !! chat = Some b /\ local_port a = local_port b /\ local_ip a = local_ip b.
Proof. eexists _, _. split; [vm_compute; reflexivity|]. split; [vm_compute; reflexivity | done]. Qed.

End UdpDemo.
