(* ===== verification/Udp.v ===== *)
(** * Sending and receiving UDP: src/src/lwip/core/udp.c

    [udp_input] finds the control block a datagram is for and calls its receiver;
    the functions that send put the header in front of the data, in the packet of
    the caller if it has room and in a new one before it if not. *)

From stdpp Require Import gmultiset.
From S2P Require Import Prelude Strings Onescomp Def Chksum Ip4Addr Alloc Memp Mem Pbuf PbufRef PbufAlloc PbufStore Ethernet EthArp Ip4 Icmp UdpPcb.

(** ** Definitions *)

Definition ICMP_DUR_PORT : Z := 3.

(** Offsets in struct udp_hdr. *)
Definition udp_src : Z := 0.
Definition udp_dest : Z := 2.
Definition udp_len : Z := 4.
Definition udp_chksum : Z := 6.

(** The sum over the packet at [p] and its pseudo header. *)
Definition chksum_pseudo_pbuf {P1 P2} (p : ptr) (proto proto_len src dest : Z) (s : store P1 P2) : res Z :=
  l ← chain_segs (chain_fuel (pbufs s)) (pbufs s) (areas s) (Some p); ip_chksum_pseudo l proto proto_len src dest.

Section Udp.
Context {P1 P2 P3 : Type} `{!PoolAlloc P1} `{!PoolAlloc P2} `{!PoolAlloc P3} {X : Type} `{!LinkDriver X}.
Context {K : Type} {pn : Part K (net P1 P2 X)} {pi : Part K ip_mod} {pu : Part K (udp_mod P3)}.
Implicit Type k : K.
Variable custom_free_function : ptr -> store P1 P2 -> res (store P1 P2).
Variable fresh_byte : nat -> Z.
Variable ip4_frag : ptr -> Z -> Z -> K -> res (K * Z).
(** The functions that [udp_recv] registers: the function, its argument, the
    control block, the packet and the source. *)
Variable udp_recv_fn : Z -> option Z -> Z -> ptr -> Z -> Z -> K -> res K.

Definition udp_of k : udp_mod P3 := part k.
Definition set_udp (m : udp_mod P3) k : K := set_part m k.

Notation free_pbuf := (free_pbuf custom_free_function).

(** No control block and for us: the answer, unless it was sent to many. *)
Definition port_unreach (p : ptr) (broadcast : bool) k : res K :=
  k ← (if negb broadcast && negb (ip4_addr_ismulticast (current_iphdr_dest (ip_of k))) then
         '(k, _) ← on_packets (pbuf_header_force (Some p) (current_ip_header_tot_len (ip_of k) + UDP_HLEN)) k;
         icmp_dest_unreach custom_free_function fresh_byte ip4_frag p ICMP_DUR_PORT k
       else Ok k);
  free_pbuf p k.

(** From the datagram that is for us and intact on. *)
Definition udp_deliver (p : ptr) (pcb : option Z) (broadcast : bool) (src : Z) k : res K :=
  '(k, e) ← on_packets (pbuf_remove_header (Some p) UDP_HLEN) k;
  if negb (e =? 0) then Err (AssertFail "pbuf_remove_header failed") else
  match pcb with
  | Some q =>
      a ← pcb_get q (udp_of k);
      match recv a with
      | Some f => udp_recv_fn f (recv_arg a) q p (current_iphdr_src (ip_of k)) src k
      | None => free_pbuf p k
      end
  | None => port_unreach p broadcast k
  end.

Definition udp_input (p : ptr) (inp : Z) k : res K :=
  b ← get p (st_of k);
  if len b <? UDP_HLEN then free_pbuf p k else
  cur ← of_option BadPointer (current_netif (ip_of k));
  nif ← netif_at cur (net_of k);
  let dest_ip := current_iphdr_dest (ip_of k) in
  let broadcast := ip4_addr_isbroadcast dest_ip nif in
  src ← hdr_read16 p udp_src (st_of k);
  dest ← hdr_read16 p udp_dest (st_of k);
  inif ← netif_at inp (net_of k);
  in_np ← of_option BadPointer (current_input_netif (ip_of k));
  in_nif ← netif_at in_np (net_of k);
  '(m, pcb) ← demux (UdpQuery (lwip_htons src) (lwip_htons dest) (current_iphdr_src (ip_of k)) dest_ip inif in_nif broadcast) (udp_of k);
  let k := set_udp m k in
  let for_us := match pcb with Some _ => true | None => ip_addr inif =? dest_ip end in
  if for_us then
    chksum ← hdr_read16 p udp_chksum (st_of k);
    c ← (if negb (chksum =? 0)
         then chksum_pseudo_pbuf p IP_PROTO_UDP (tot_len b) (current_iphdr_src (ip_of k)) dest_ip (st_of k)
         else Ok 0);
    if negb (c =? 0) then free_pbuf p k
    else udp_deliver p pcb broadcast (lwip_htons src) k
  else free_pbuf p k.

(** *** Sending *)

(** [netif_get_by_index] of netif.c. *)
Fixpoint netif_index_loop (idx : Z) (l : list Z) (n : net P1 P2 X) : res (option Z) :=
  match l with
  | [] => Ok None
  | np :: l' => nif ← netif_at np n; if idx =? netif_get_index nif then Ok (Some np) else netif_index_loop idx l' n
  end.
Definition netif_get_by_index (idx : Z) k : res (option Z) :=
  if negb (idx =? NETIF_NO_INDEX) then netif_index_loop idx (netif_list (ip_of k)) (net_of k) else Ok None.

(** The header of the packet [q]. *)
Definition write_udp_hdr (q : ptr) (a : udp_pcb) (src dst dst_port : Z) (s : store P1 P2) : res (store P1 P2) :=
  s ← hdr_write16 q udp_src (lwip_htons (local_port a)) s;
  s ← hdr_write16 q udp_dest (lwip_htons dst_port) s;
  s ← hdr_write16 q udp_chksum 0 s;
  b ← get q s;
  s ← hdr_write16 q udp_len (lwip_htons (tot_len b)) s;
  if Z.land (udp_flags a) UDP_FLAGS_NOCHKSUM =? 0 then
    c ← chksum_pseudo_pbuf q IP_PROTO_UDP (tot_len b) src dst s;
    hdr_write16 q udp_chksum (if c =? 0 then 0xffff else c) s
  else Ok s.

(** The packet that begins with room for the header, [None] without memory. *)
Definition header_pbuf (p : ptr) k : res (K * option ptr) :=
  '(k, e) ← on_packets (pbuf_add_header (Some p) UDP_HLEN) k;
  if negb (e =? 0) then
    '(k, q) ← on_packets (pbuf_alloc custom_free_function fresh_byte PBUF_IP UDP_HLEN PBUF_RAM) k;
    match q with
    | None => Ok (k, None)
    | Some q =>
        b ← get p (st_of k);
        k ← (if negb (tot_len b =? 0) then s ← pbuf_chain (Some q) (Some p) (st_of k); Ok (set_st s k) else Ok k);
        Ok (k, Some q)
    end
  else Ok (k, Some p).

Definition udp_sendto_if_src (pcb : option Z) (p : option ptr) (dst_ip : option Z) (dst_port : Z) (netif src_ip : option Z) k : res (K * Z) :=
  match pcb, p, dst_ip, src_ip, netif with
  | Some pcb, Some p, Some dst, Some src, Some np =>
      a ← pcb_get pcb (udp_of k);
      '(m, err) ← (if local_port a =? 0 then udp_bind (Some pcb) (Some (local_ip a)) (local_port a) (udp_of k) else Ok (udp_of k, ERR_OK));
      let k := set_udp m k in
      if negb (err =? ERR_OK) then Ok (k, err) else
      b ← get p (st_of k);
      if u16 (tot_len b + UDP_HLEN) <? tot_len b then Ok (k, ERR_MEM) else
      '(k, q) ← header_pbuf p k;
      match q with
      | None => Ok (k, ERR_MEM)
      | Some q =>
          c ← get q (st_of k);
          _ ← lwip_assert "check that first pbuf can hold struct udp_hdr" (UDP_HLEN <=? len c);
          a ← pcb_get pcb (udp_of k);
          s ← write_udp_hdr q a src dst dst_port (st_of k);
          '(k, err) ← ip4_output_if_src custom_free_function fresh_byte ip4_frag q (Some src) (Some dst) (pcb_ttl a) (pcb_tos a) IP_PROTO_UDP np (set_st s k);
          k ← (if negb (bool_decide (q = p)) then free_pbuf q k else Ok k);
          Ok (k, err)
      end
  | _, _, _, _, _ => Ok (k, ERR_ARG)
  end.

Definition udp_sendto_if (pcb : option Z) (p : option ptr) (dst_ip : option Z) (dst_port : Z) (netif : option Z) k : res (K * Z) :=
  match pcb, p, dst_ip, netif with
  | Some q, Some _, Some _, Some np =>
      a ← pcb_get q (udp_of k);
      nif ← netif_at np (net_of k);
      if ip4_addr_isany (local_ip a) || ip4_addr_ismulticast (local_ip a)
      then udp_sendto_if_src pcb p dst_ip dst_port netif (Some (ip_addr nif)) k
      else if negb (local_ip a =? ip_addr nif) then Ok (k, ERR_RTE)
      else udp_sendto_if_src pcb p dst_ip dst_port netif (Some (local_ip a)) k
  | _, _, _, _ => Ok (k, ERR_ARG)
  end.

Definition udp_sendto (pcb : option Z) (p : option ptr) (dst_ip : option Z) (dst_port : Z) k : res (K * Z) :=
  match pcb, p, dst_ip with
  | Some q, Some _, Some dst =>
      a ← pcb_get q (udp_of k);
      netif ← (if negb (netif_idx a =? NETIF_NO_INDEX) then netif_get_by_index (netif_idx a) k else ip4_route dst k);
      match netif with
      | None => Ok (k, ERR_RTE)
      | Some _ => udp_sendto_if pcb p dst_ip dst_port netif k
      end
  | _, _, _ => Ok (k, ERR_ARG)
  end.

Definition udp_send (pcb : option Z) (p : option ptr) k : res (K * Z) :=
  match pcb, p with
  | Some q, Some _ => a ← pcb_get q (udp_of k); udp_sendto pcb p (Some (remote_ip a)) (remote_port a) k
  | _, _ => Ok (k, ERR_ARG)
  end.

End Udp.
