(* ===== verification/UdpRecv.v ===== *)
(** * Receiving UDP on a well-formed state

    The class of a state that contains the control blocks, and what [udp_input]
    does with every datagram: it takes it over, as ip4_input asks of a transport,
    and which control block gets which bytes. *)

From stdpp Require Import gmultiset.
From S2P Require Import Prelude Strings Onescomp Def Chksum Ip4Addr Alloc Memp Mem Pbuf PbufRef PbufAlloc PbufStore PbufPool PbufTrim Ethernet EthArp EthArpOps EthArpOut LwipPort ArpSpec EthInput Acd AcdOps Ip4 Icmp Ip4Input HeadMem Ip4Ops IcmpOps Ip4Recv UdpPcb UdpTable UdpOps Udp.

(** ** Specifications *)

(** The query of a datagram with the bytes [m] that has come in on [inif] for the
    interface [nif]. *)
Definition query_of (m : list Z) (src dest : Z) (inif nif : netif) : udp_query :=
  UdpQuery (lwip_htons (word_at m udp_src)) (lwip_htons (word_at m udp_dest)) src dest inif inif (ip4_addr_isbroadcast dest nif).

(** No checksum, or the right one. *)
Definition udp_intact (m : list Z) (src dest : Z) : bool :=
  (word_at m udp_chksum =? 0) || (oc (wsum (pseudo_header src dest IP_PROTO_UDP (length m) ++ m)) =? 65535).

(** A state that contains the control blocks. *)
Class UdpUser (P1 P2 P3 X K : Type) `{!PoolAlloc P1} `{!PoolAlloc P2} `{!PoolAlloc P3} `{!LinkDriver X} {pn : Part K (net P1 P2 X)} {pi : Part K ip_mod}
    {pu : Part K (udp_mod P3)} {U : ArpUser P1 P2 X K} : Prop :=
  { udp_apart_net : Apart pn pu;
    udp_apart_ip : Apart pi pu;
    udp_user_rep : forall k E, user_inv k E -> exists u, udp_rep (@part K (udp_mod P3) pu k) u;
    udp_user_set : forall k E m u, user_inv k E -> udp_rep m u -> user_inv (@set_part K (udp_mod P3) pu m k) E }.

(** ** The class of a state with control blocks *)

Section WithUdp.
Context {P1 P2 P3 : Type} `{!PoolAlloc P1} `{!PoolAlloc P2} {pools : PoolAlloc P3} {X : Type} `{!LinkDriver X}.
Context {K : Type} (pn : Part K (net P1 P2 X)) (pi : Part K ip_mod) (pu : Part K (udp_mod P3)) (A : Apart pn pu) (B : Apart pi pu) (U : ArpUser P1 P2 X K).
Hypothesis blind : forall k E m, @user_inv _ _ _ _ _ _ _ _ U k E -> @user_inv _ _ _ _ _ _ _ _ U (set_part (Part := pu) m k) E.

Definition with_udp : ArpUser P1 P2 X K.
Proof using A U pools.
  refine {| held := @held _ _ _ _ _ _ _ _ U;
            user_inv := fun k E => @user_inv _ _ _ _ _ _ _ _ U k E /\ exists u, udp_rep (@part K (udp_mod P3) pu k) u |}.
  - intros k E [Hk _]. by apply (@user_arp _ _ _ _ _ _ _ _ U).
  - intros k E n E' [Hk Hw] Hn Hnet. split; [by apply (@user_set _ _ _ _ _ _ _ _ U k E)|]. by rewrite apart_left.
Defined.

Lemma with_udp_user : UdpUser P1 P2 P3 X K (U := with_udp).
Proof using B blind.
  split; [done | done | by intros k E [_ Hw] |]. intros k E m u [Hk _] Hw. split; [by apply blind|]. exists u. by rewrite part_set.
Qed.

(** IPv4 and conflict detection do not mind. *)
Lemma with_udp_ip : IpUser P1 P2 X K (U := U) -> IpUser P1 P2 X K (U := with_udp).
Proof using B.
  intros [H1 H2 H3]. split; [done | by intros k E [Hk _]; apply (H2 k E)|]. intros k E m [Hk Hw] Hm. split; [by apply H3|].
  by rewrite (@apart_left _ _ _ _ _ B).
Qed.

Context (pm : Part K acd_mod) (C : Apart pm pu).
Lemma with_udp_acd : AcdUser P1 P2 X K (pm := pm) (U := U) -> AcdUser P1 P2 X K (pm := pm) (U := with_udp).
Proof using C.
  intros [H1 H2 H3]. split; [done | by intros k E [Hk _]; apply (H2 k E)|]. intros k E m [Hk Hw] Hm. split; [by apply H3|].
  by rewrite (@apart_left _ _ _ _ _ C).
Qed.

End WithUdp.

(** ** Lemmas *)

Lemma word_at_app d1 d2 i : 0 <= i -> i + 2 <= length d1 -> word_at (d1 ++ d2) i = word_at d1 i.
Proof. intros Hi Hl. unfold word_at, byte_at. by rewrite !app_nth1 by lia. Qed.

Lemma demux_known q u s : (spec_demux q u).2 = Some s -> exists a, s ∈ active u /\ sockets u !! s = Some a.
Proof.
  unfold spec_demux. destruct (find (perfect q) (entries u)) as [[p a]|] eqn:Ef; cbn [snd fst].
  - intros [= <-]. exists a. apply entries_elem, list_elem_of_In. by apply find_some in Ef as [Hin _].
  - intros E. pose proof (fallback_cases q (entries u)) as Hf. rewrite E in Hf. destruct Hf as (a & Hin & _). exists a. by apply entries_elem.
Qed.

Lemma demux_sockets q u : sockets (spec_demux q u).1 = sockets u.
Proof. unfold spec_demux. by destruct (find _ _). Qed.

Section Sum.
Context {P1 P2 : Type} `{!PoolAlloc P1} `{!PoolAlloc P2}.
Implicit Type s : store P1 P2.
#[local] Set Default Proof Using "Type*".

Lemma chksum_pseudo_ok s E p l proto n src dest : store_ok s E -> packet (pbufs s) (areas s) p l -> is_u8 proto -> is_u16 n -> is_u32 src -> is_u32 dest ->
  chksum_pseudo_pbuf p proto n src dest s = Ok (65535 - oc (wsum (pseudo_header src dest proto n ++ chain_data (areas s) l))).
Proof.
  intros Hs Hp H1 H2 H3 H4. unfold chksum_pseudo_pbuf.
  destruct (chain_segs_ok s E (chain_fuel (pbufs s)) p l Hs Hp) as (segs & -> & Hok & Hb).
  { pose proof (chain_at_fuel _ _ _ (pk_chain _ _ _ _ Hp)). lia. }
  rewrite bind_ok. destruct (chksum_chain_correct segs proto n 0 src dest Hok H1 H2 H3 H4 ltac:(lia)) as (_ & Ec & _).
  unfold ip_chksum_pseudo. by rewrite Ec, Hb.
Qed.

Lemma hdr_read16_ok s E p b l off : store_ok s E -> packet (pbufs s) (areas s) p ((p, b) :: l) -> 0 <= off -> off + 2 <= len b ->
  hdr_read16 p off s = Ok (word_at (chain_data (areas s) ((p, b) :: l)) off).
Proof.
  intros Hs Hp Ho Hl. pose proof (packet_lookup _ _ _ _ Hp) as Hb. pose proof (head_data_length s E p b Hs Hb) as Hlen. unfold hdr_read16.
  rewrite (hdr_read_ok s E p b) by (done || lia). rewrite bind_ok, get16_at by (rewrite ?window_length; lia).
  rewrite word_at_window, Z.add_0_r by lia. rewrite chain_data_cons. by rewrite word_at_app by lia.
Qed.

End Sum.

Section Recv.
Context {P1 P2 P3 : Type} `{!PoolAlloc P1} `{!PoolAlloc P2} `{!PoolAlloc P3} {X : Type} `{!LinkDriver X}.
Context {K : Type} {pn : Part K (net P1 P2 X)} {pi : Part K ip_mod} {pu : Part K (udp_mod P3)}.
Context {U : ArpUser P1 P2 X K} {V : IpUser P1 P2 X K} {W : UdpUser P1 P2 P3 X K}.
Implicit Type k : K.
#[local] Set Default Proof Using "V W".

Lemma udp_set_udp m k : udp_of (set_udp m k) = m.
Proof using Type. apply part_set. Qed.
Lemma net_set_udp m k : net_of (set_udp m k) = net_of k.
Proof. apply udp_apart_net. Qed.
Lemma ip_set_udp m k : ip_of (set_udp m k) = ip_of k.
Proof. apply udp_apart_ip. Qed.
Lemma udp_set_net n k : udp_of (set_net n k) = udp_of k.
Proof. apply udp_apart_net. Qed.
Lemma udp_update_ip f k : udp_of (update_ip f k) = udp_of k.
Proof. apply udp_apart_ip. Qed.
Lemma st_set_udp m k : st_of (set_udp m k) = st_of k.
Proof. unfold st_of. by rewrite net_set_udp. Qed.
Lemma udp_set_st s k : udp_of (set_st s k) = udp_of k.
Proof. apply udp_set_net. Qed.

Lemma own_set_udp k E p b l m u : own k E p b l -> udp_rep m u -> own (set_udp m k) E p b l.
Proof. intros [H1 H2 H3 H4] Hm. split; [by eapply udp_user_set | done | by rewrite st_set_udp | done]. Qed.

Lemma discarded_set_udp k E m k' : discarded (set_udp m k) E k' -> udp_of k' = m.
Proof. intros (s & -> & _). by rewrite udp_set_st, udp_set_udp. Qed.

Variable custom_free_function : ptr -> store P1 P2 -> res (store P1 P2).
Variable fresh_byte : nat -> Z.
Hypothesis fresh_u8 : forall i, is_u8 (fresh_byte i).
Variable ip4_frag : ptr -> Z -> Z -> K -> res (K * Z).
Hypothesis frag_ok : frag_contract ip4_frag.
Variable udp_recv_fn : Z -> option Z -> Z -> ptr -> Z -> Z -> K -> res K.

(** A receiver takes the packet over. *)
Definition recv_contract : Prop :=
  forall f arg s p addr port k E b l, own k ({[+ p +]} ⊎ E) p b l -> exists k', udp_recv_fn f arg s p addr port k = Ok k' /\ user_inv k' E.
Hypothesis recv_ok : recv_contract.

(** What becomes of the datagram [m]: [k1] is the state after the search, with the
    receiver [r]. *)
Definition received_as k1 E (p : ptr) (l : list (ptr * pbuf)) (t : gmap Z udp_pcb) (r : option Z) (m hdr : list Z) (src dest port : Z) (inif nif : netif) k' : Prop :=
  match r with
  | Some s =>
      if udp_intact m src dest then
        exists a, t !! s = Some a /\
          match recv a with
          | Some f => exists k2 b2, own k2 ({[+ p +]} ⊎ E) p b2 l /\ chain_data (areas (st_of k2)) ((p, b2) :: l) = drop 8 m /\
              net_of k2 = set_packets (st_of k2) (net_of k1) /\ ip_of k2 = ip_of k1 /\ udp_of k2 = udp_of k1 /\
              udp_recv_fn f (recv_arg a) s p src port k2 = Ok k'
          | None => discarded k1 E k'
          end
      else discarded k1 E k'
  | None =>
      if (ip_addr inif =? dest) && udp_intact m src dest && negb (ip4_addr_isbroadcast dest nif || ip4_addr_ismulticast dest)
      then exists k2, reported k1 ({[+ p +]} ⊎ E) ICMP_DUR ICMP_DUR_PORT (hdr ++ m) k2 /\ discarded k2 E k'
      else discarded k1 E k'
  end.

Lemma udp_deliver_ok k E p b l o d n cur inp u r m inif nif : delivered k E p b l o d n cur inp -> UDP_HLEN <= len b ->
  chain_data (areas (st_of k)) ((p, b) :: l) = m -> udp_rep (udp_of k) u -> (forall s, r = Some s -> is_Some (sockets u !! s)) ->
  let src := current_iphdr_src (ip_of k) in
  let dest := current_iphdr_dest (ip_of k) in
  let port := lwip_htons (word_at m udp_src) in
  udp_intact m src dest = true -> (r = None -> (ip_addr inif =? dest) = true) ->
  exists k', udp_deliver custom_free_function fresh_byte ip4_frag udp_recv_fn p r (ip4_addr_isbroadcast dest nif) port k = Ok k' /\ user_inv k' E /\
    received_as k E p l (sockets u) r m (window d (o - n) n) src dest port inif nif k'.
Proof using fresh_u8 frag_ok recv_ok V W.
  intros [H1 H2 H3 H4 H5 H6 H7 H8 H9 H10 H11 H12 H13] Hlen Hm Hu Hr src dest port Hint Hfor.
  pose proof (own_inv _ _ _ _ _ H1) as Hk. pose proof (user_whole k _ Hk) as Hs. pose proof (own_lookup _ _ _ _ _ H1) as Hb.
  destruct (own_data _ _ _ _ _ H1) as (Hld & _ & Hlb & _). destruct (header_room_own _ _ _ _ H3 H6) as [Ho Hmax]. unfold SIZEOF_ETH_HDR, UDP_HLEN in *.
  unfold udp_deliver. destruct (own_remove_header k _ p b l 8 H1) as [Erm Hown]; [lia|]. rewrite (proj2 (Z.leb_le 8 (len b))) in Erm by lia.
  unfold UDP_HLEN. rewrite Erm, bind_ok. cbn [negb Z.eqb]. specialize (Hown Hlen).
  set (b2 := grow_head (- (8)) b) in *. set (s2 := set_pbufs _ _) in *. set (k2 := set_st s2 k) in *.
  assert (En : net_of k2 = set_packets s2 (net_of k)) by (unfold k2, set_st; by rewrite net_set_net).
  assert (Ei : ip_of k2 = ip_of k) by (unfold k2, set_st; by rewrite ip_set_net).
  assert (Es : st_of k2 = s2) by apply st_set_st.
  assert (Eu : udp_of k2 = udp_of k) by apply udp_set_st.
  pose proof (shrink_data (areas (st_of k)) p b 8 (so_payload _ _ Hs p b Hb) ltac:(lia)) as Esh. fold b2 in Esh.
  assert (Edata : chain_data (areas (st_of k2)) ((p, b2) :: l) = drop 8 m).
  { rewrite Es. cbn [areas set_pbufs s2]. rewrite <- Hm, !chain_data_cons. change (areas s2) with (areas (st_of k)). rewrite Esh.
    rewrite drop_app_le by lia. done. }
  assert (Hdrop : exists k', free_pbuf custom_free_function p k2 = Ok k' /\ user_inv k' E /\ discarded k E k').
  { destruct (icmp_drop custom_free_function k2 E p (own_inv _ _ _ _ _ Hown)) as (k' & Ef & s' & -> & Hk'). exists (set_st s' k2).
    split; [done|]. split; [done|]. exists s'. split; [unfold k2; by rewrite set_st_set_st | done]. }
  unfold received_as. rewrite Hint. destruct r as [s|].
  - destruct (Hr s eq_refl) as [a Ha]. apply rep_shows in Hu as [Hu _]. destruct (shows_lookup _ _ _ _ Hu Ha) as (c & Hc & ->).
    rewrite Eu, (pcb_get_some _ _ _ Hc), bind_ok.
    assert (Ec : recv c = recv (with_udp_next None c) /\ recv_arg c = recv_arg (with_udp_next None c)) by done. destruct Ec as [-> ->].
    destruct (recv (with_udp_next None c)) as [f|] eqn:Ef.
    + destruct (recv_ok f (recv_arg (with_udp_next None c)) s p (current_iphdr_src (ip_of k2)) port k2 E b2 l Hown) as (k' & E' & Hk').
      exists k'. split; [done|]. split; [done|]. exists (with_udp_next None c). split; [done|]. rewrite Ef. exists k2, b2. split; [done|]. split; [done|].
      split; [by rewrite En, Es|]. split; [done|]. split; [done|]. by rewrite Ei in E'.
    + destruct Hdrop as (k' & Ef' & Hk' & Hd). exists k'. split; [done|]. split; [done|]. exists (with_udp_next None c). split; [done|]. by rewrite Ef.
  - rewrite (Hfor eq_refl). cbn [andb]. unfold port_unreach. rewrite Ei. change (current_iphdr_dest (ip_of k)) with dest. fold dest.
    destruct (ip4_addr_isbroadcast dest nif || ip4_addr_ismulticast dest) eqn:Ebm; cbn [negb].
    { destruct Hdrop as (k' & Ef' & Hk' & Hd). exists k'. split; [|by split]. apply orb_true_iff in Ebm.
      destruct Ebm as [-> | ->]; cbn [negb andb]; rewrite ?andb_false_r, bind_ok; exact Ef'. }
    apply orb_false_iff in Ebm as [-> ->]. cbn [negb andb]. rewrite H13.
    destruct (answer_ok custom_free_function fresh_byte fresh_u8 ip4_frag frag_ok k2 E p b2 l (o + 8) d (n + 8) ICMP_DUR_PORT Hown H2)
      as (k3 & k4 & k' & E1 & E2 & E3 & Hk' & Hrep & Hd).
    { unfold b2, grow_head. cbn [payload with_tot_len with_len with_payload]. rewrite H3. cbn. done. }
    { rewrite Es. exact H4. } { lia. }
    { unfold header_room in *. unfold b2, grow_head, SIZEOF_ETH_HDR in *. cbn [type_internal payload tot_len with_tot_len with_len with_payload].
      rewrite H3 in *. cbn [option_map fst snd]. apply andb_true_iff in H6 as [[H6 _]%andb_true_iff _].
      rewrite H6. cbn [andb]. apply andb_true_iff. rewrite !Z.leb_le. lia. }
    { by unfold ICMP_DUR_PORT. }
    change UDP_HLEN with 8. rewrite E1, bind_ok, E2, bind_ok. exists k'. split; [exact E3|]. split; [done|]. exists k4. split; [|done].
    assert (Ew : window d (o + 8 - (n + 8)) (n + 8) ++ chain_data (areas (st_of k2)) ((p, b2) :: l) = window d (o - n) n ++ m).
    { rewrite Edata. replace (o + 8 - (n + 8)) with (o - n) by lia. rewrite (window_split d (o - n) (n + 8) n) by lia. rewrite <- app_assoc. f_equal.
      replace (o - n + n) with o by lia. replace (n + 8 - n) with 8 by lia.
      assert (Ed : window d o 8 = take 8 m).
      { rewrite <- Hm, chain_data_cons. destruct (so_payload _ _ Hs p b Hb) as (a & o' & d' & Hp & Ha & Ho' & _ & Hd' & _). rewrite H3 in Hp. injection Hp as <- <-.
        rewrite H4 in Ha. injection Ha as <-. rewrite take_app_le by lia. rewrite (payload_data_window _ b p o d) by (done || lia).
        unfold window. rewrite take_take. f_equal. lia. }
      rewrite Ed. apply take_drop. }
    rewrite Ew in Hrep. apply (reported_same k2); [by rewrite En.. | done | | done]. unfold icmp_memory. by rewrite Es.
Qed.

(** The whole of [udp_input]. *)
Lemma udp_input_ok k E p b l o d n cur inp u : delivered k E p b l o d n cur inp -> udp_rep (udp_of k) u ->
  exists nif inif k', netifs (net_of k) !! cur = Some nif /\ netifs (net_of k) !! inp = Some inif /\
    udp_input custom_free_function fresh_byte ip4_frag udp_recv_fn p inp k = Ok k' /\ user_inv k' E /\
    let m := chain_data (areas (st_of k)) ((p, b) :: l) in
    let src := current_iphdr_src (ip_of k) in
    let dest := current_iphdr_dest (ip_of k) in
    let q := query_of m src dest inif nif in
    if len b <? UDP_HLEN then discarded k E k' else
    exists ms, demux q (udp_of k) = Ok (ms, (spec_demux q u).2) /\ udp_rep ms (spec_demux q u).1 /\
      received_as (set_udp ms k) E p l (sockets u) (spec_demux q u).2 m (window d (o - n) n) src dest (lwip_htons (word_at m udp_src)) inif nif k'.
Proof using fresh_u8 frag_ok recv_ok V W.
  intros H Hu. pose proof H as [H1 H2 H3 H4 H5 H6 [inif Hinif] H8 [nif Hnif] H10 H11 H12 H13]. exists nif, inif.
  pose proof (own_inv _ _ _ _ _ H1) as Hk. pose proof (user_whole k _ Hk) as Hs. pose proof (own_lookup _ _ _ _ _ H1) as Hb.
  pose proof (own_packet _ _ _ _ _ H1) as Hp. destruct (own_data _ _ _ _ _ H1) as (_ & _ & Hlb & Htot).
  unfold udp_input. rewrite (get_some _ _ _ Hb), bind_ok.
  destruct (Z.ltb_spec (len b) UDP_HLEN) as [Hlt|Hge].
  { destruct (icmp_drop custom_free_function k E p Hk) as (k' & Ef & Hd). exists k'. split_and!; try done. by destruct Hd as (s & -> & Hk'). }
  unfold UDP_HLEN in Hge. rewrite H8. cbn [of_option]. rewrite bind_ok, (netif_at_some _ _ _ Hnif), bind_ok. cbv zeta.
  set (m := chain_data (areas (st_of k)) ((p, b) :: l)). set (src := current_iphdr_src (ip_of k)). set (dest := current_iphdr_dest (ip_of k)).
  rewrite (hdr_read16_ok _ _ p b l udp_src Hs Hp) by (unfold udp_src; lia). rewrite bind_ok.
  rewrite (hdr_read16_ok _ _ p b l udp_dest Hs Hp) by (unfold udp_dest; lia). rewrite bind_ok.
  rewrite (netif_at_some _ _ _ Hinif), bind_ok, H10. cbn [of_option]. rewrite bind_ok, (netif_at_some _ _ _ Hinif), bind_ok. fold m.
  change (UdpQuery (lwip_htons (word_at m udp_src)) (lwip_htons (word_at m udp_dest)) src dest inif inif (ip4_addr_isbroadcast dest nif)) with (query_of m src dest inif nif).
  set (q := query_of m src dest inif nif).
  destruct (call_ok_step (udp_of k) u (CallDemux q) Hu I) as (ms & u' & r' & Ec0 & [= -> ->] & Hms).
  apply bind_inv in Ec0 as ([ms' r] & Ed & [= -> ->]). rewrite Ed, bind_ok. set (r := (spec_demux q u).2) in *. set (k1 := set_udp ms k).
  assert (Hown : own k1 ({[+ p +]} ⊎ E) p b l) by (by eapply own_set_udp).
  assert (Est : st_of k1 = st_of k) by apply st_set_udp. assert (Enet : net_of k1 = net_of k) by apply net_set_udp. assert (Eip : ip_of k1 = ip_of k) by apply ip_set_udp.
  destruct (icmp_drop custom_free_function k1 E p (own_inv _ _ _ _ _ Hown)) as (k0 & Ef & Hd).
  assert (Hk0 : user_inv k0 E) by (by destruct Hd as (s & -> & ?)).
  assert (Hr : forall s, r = Some s -> is_Some (sockets u !! s)).
  { intros s Es. destruct (demux_known q u s Es) as (a & _ & Ha). by exists a. }
  assert (Hno : (match r with Some _ => true | None => ip_addr inif =? dest end) && udp_intact m src dest = false ->
    received_as k1 E p l (sockets u) r m (window d (o - n) n) src dest (lwip_htons (word_at m udp_src)) inif nif k0).
  { unfold received_as. destruct r as [s|]; cbn [andb]; intros ->; done. }
  destruct (match r with Some _ => true | None => ip_addr inif =? dest end) eqn:Efor.
  2: { exists k0. split_and!; try done. exists ms. split; [done|]. split; [done|]. by apply Hno. }
  rewrite Est, Eip, (hdr_read16_ok _ _ p b l udp_chksum Hs Hp) by (unfold udp_chksum; lia). rewrite bind_ok. fold m.
  fold src. rewrite (chksum_pseudo_ok _ _ p ((p, b) :: l) IP_PROTO_UDP (tot_len b) src dest Hs Hp) by (done || (unfold is_u16; lia) || apply (ip_user_wf k _ Hk)). fold m.
  assert (Hlm : tot_len b = length m).
  { pose proof (packet_length _ _ _ _ Hp) as Hl. fold m in Hl. destruct (packet_cons _ _ _ _ _ _ Hp) as (_ & _ & _ & Ht & _). rewrite total_len_cons in Hl. cbn [snd] in Hl. lia. }
  assert (Hsum : exists c, (if negb (word_at m udp_chksum =? 0) then Ok (65535 - oc (wsum (pseudo_header src dest IP_PROTO_UDP (tot_len b) ++ m))) else Ok 0) = Ok c /\
    (c =? 0) = udp_intact m src dest).
  { rewrite Hlm. unfold udp_intact. destruct (word_at m udp_chksum =? 0); cbn [negb orb]; [by exists 0|]. eexists. split; [reflexivity|].
    apply eq_true_iff_eq. rewrite !Z.eqb_eq. lia. }
  destruct Hsum as (c & Ec & Hc). rewrite Ec, bind_ok, Hc. destruct (udp_intact m src dest) eqn:Eint; cbn [negb].
  2: { exists k0. split_and!; try done. exists ms. split; [done|]. split; [done|]. apply Hno. by rewrite andb_false_r. }
  assert (Hdel : delivered k1 E p b l o d n cur inp).
  { split; rewrite ?Enet, ?Eip, ?Est; try done; by eexists. }
  destruct (udp_deliver_ok k1 E p b l o d n cur inp (spec_demux q u).1 r m inif nif Hdel) as (k' & E' & Hk' & Hrec).
  { unfold UDP_HLEN. lia. } { by rewrite Est. } { unfold k1. by rewrite udp_set_udp. } { by rewrite demux_sockets. } { by rewrite Eip. }
  { intros Er. rewrite Er in Efor. by rewrite Eip. }
  rewrite Eip in E', Hrec. rewrite demux_sockets in Hrec. exists k'. split_and!; try done. by exists ms.
Qed.

(** As a transport for ip4_input. *)
Lemma udp_transport : transport_contract (udp_input custom_free_function fresh_byte ip4_frag udp_recv_fn).
Proof using fresh_u8 frag_ok recv_ok V W.
  intros k E p b l o d n cur inp H. destruct (udp_user_rep k _ (own_inv _ _ _ _ _ (dl_own _ _ _ _ _ _ _ _ _ _ H))) as [u Hu].
  destruct (udp_input_ok k E p b l o d n cur inp u H Hu) as (_ & _ & k' & _ & _ & E' & Hk' & _). by exists k'.
Qed.

End Recv.
