(* ===== verification/UdpSend.v ===== *)
(** * Sending UDP on a well-formed state

    What the functions of Udp.v that send do: the header that is written, in the
    caller's packet or in a pbuf in front of it, and what is on the wire. *)

From stdpp Require Import gmultiset.
From S2P Require Import Prelude Strings Onescomp Def Chksum Ip4Addr Eth Alloc Memp Mem Pbuf PbufRef PbufAlloc PbufStore PbufPool Ethernet EthArp EthArpOps EthArpOut LwipPort ArpSpec Ip4 Icmp HeadMem Ip4Ops IcmpOps Ip4Spec UdpPcb UdpTable UdpOps UdpSpec Udp UdpRecv.

(** ** Specifications *)




(** ** Lemmas *)

(** *** The message *)









(** *** A pbuf in front of a packet *)



Section Store.
Context {P1 P2 : Type} `{!PoolAlloc P1} `{!PoolAlloc P2}.
Implicit Type s : store P1 P2.


End Store.

Section Own.
Context {P1 P2 : Type} `{!PoolAlloc P1} `{!PoolAlloc P2} {X : Type} `{!LinkDriver X}.
Context {K : Type} {pn : Part K (net P1 P2 X)} {pi : Part K ip_mod} {U : ArpUser P1 P2 X K} {V : IpUser P1 P2 X K}.
Implicit Type k : K.
#[local] Set Default Proof Using "V".





Variable custom_free_function : ptr -> store P1 P2 -> res (store P1 P2).
Variable fresh_byte : nat -> Z.
Hypothesis fresh_u8 : forall i, is_u8 (fresh_byte i).




End Own.

(** *** The functions that send *)

Section Send.
Context {P1 P2 P3 : Type} `{!PoolAlloc P1} `{!PoolAlloc P2} `{!PoolAlloc P3} {X : Type} `{!LinkDriver X}.
Context {K : Type} {pn : Part K (net P1 P2 X)} {pi : Part K ip_mod} {pu : Part K (udp_mod P3)}.
Context {U : ArpUser P1 P2 X K} {V : IpUser P1 P2 X K} {W : UdpUser P1 P2 P3 X K}.
Implicit Type k : K.
#[local] Set Default Proof Using "V W".










Variable custom_free_function : ptr -> store P1 P2 -> res (store P1 P2).
Variable fresh_byte : nat -> Z.
Hypothesis fresh_u8 : forall i, is_u8 (fresh_byte i).
Variable ip4_frag : ptr -> Z -> Z -> K -> res (K * Z).
Hypothesis frag_ok : frag_contract ip4_frag.






(** *** Properties *)


End Send.

(** ** Witnesses *)

(** The system of Ip4Spec.v with the control blocks of UdpSpec.v, and 4 bytes from
    port 68 to port 67 of 255.255.255.255. *)
Module UdpSendDemo.
Import ArpSpec.Demo Ip4Spec.Ip4Demo UdpSpec.UdpDemo.











End UdpSendDemo.

Import ArpSpec.Demo Ip4Spec.Ip4Demo UdpSpec.UdpDemo UdpSendDemo.

