(* ===== verification/UdpPath.v ===== *)
(** * From a frame to the receiver

    The receive path of main.c with UDP behind IPv4: a frame in the controller's
    FIFO, the datagram in it, and the function that gets its data. *)

From stdpp Require Import gmultiset.
From S2P Require Import Prelude Strings Onescomp Def Chksum Ip4Addr Eth Alloc Memp Mem Pbuf PbufRef PbufAlloc PbufStore PbufPool PbufTrim Ethernet EthArp EthArpOps EthArpOut LwipPort ArpSpec EthInput Receive Acd AcdOps AcdSpec ArpPath Ip4 Icmp Ip4Input HeadMem Ip4Ops IcmpOps Ip4Recv Ip4Spec IpPath UdpPcb UdpTable UdpOps UdpSpec Udp UdpRecv.

(** ** Definitions *)

(** The control blocks inside the kernel's state. *)
#[export] Instance port_udp P1 P2 P3 Y (H : Part Y (udp_mod P3)) : Part (port P1 P2 Y) (udp_mod P3) := port_stack P1 P2 Y (udp_mod P3) H.

(** ** Specifications *)

(** Who gets the data of the message [m]: the function, its argument and the
    control block. *)
Definition callee (u : udp_table) (q : udp_query) (m : list Z) : option (Z * option Z * Z) :=
  if (UDP_HLEN <=? length m) && udp_intact m (q_src_ip q) (q_dest_ip q) then
    s ← (spec_demux q u).2; a ← sockets u !! s; f ← recv a; Some (f, recv_arg a, s)
  else None.

(** Whether the sender is told that nobody is there. *)
Definition complained (u : udp_table) (q : udp_query) (m : list Z) : bool :=
  (UDP_HLEN <=? length m) && udp_intact m (q_src_ip q) (q_dest_ip q) && bool_decide ((spec_demux q u).2 = None) &&
  (ip_addr (q_inp q) =? q_dest_ip q) && negb (q_broadcast q || ip4_addr_ismulticast (q_dest_ip q)).

(** ** Lemmas *)

Section Frames.
Context {P1 P2 P3 : Type} `{!PoolAlloc P1} `{!PoolAlloc P2} `{!PoolAlloc P3} {Y : Type} {pa : Part Y arp_side} {pm : Part Y acd_mod} {pi : Part Y ip_mod} {pu : Part Y (udp_mod P3)}.
Context {side_udp : Apart pa pu} {ip_udp : Apart pi pu}.
Variable REG : Z -> nat -> Z.
Variable out_buffer : list Z.
Hypothesis out_length : length out_buffer = 1518%nat.
Hypothesis out_bytes : bytes_ok out_buffer.
#[local] Instance driver : LinkDriver mmio := port_link REG out_buffer out_length out_bytes.
Context {U : ArpUser P1 P2 mmio (port P1 P2 Y)} {VA : AcdUser P1 P2 mmio (port P1 P2 Y)} {V : IpUser P1 P2 mmio (port P1 P2 Y)}.
Context {W : UdpUser P1 P2 P3 mmio (port P1 P2 Y)}.
Implicit Type k : port P1 P2 Y.
#[local] Set Default Proof Using "Type*".
Variable custom_free_function : ptr -> store P1 P2 -> res (store P1 P2).
Variable fresh_byte : nat -> Z.
Hypothesis fresh_u8 : forall i, is_u8 (fresh_byte i).
Variable conflict_callback : Z -> Z -> acd_callback_enum_t -> port P1 P2 Y -> res (port P1 P2 Y).
Hypothesis callback_ok : callback_contract conflict_callback.
Variable ip4_frag : ptr -> Z -> Z -> port P1 P2 Y -> res (port P1 P2 Y * Z).
Hypothesis frag_ok : frag_contract ip4_frag.
Variable ip4_reass : ptr -> port P1 P2 Y -> res (port P1 P2 Y * option ptr).
Hypothesis reass_ok : reass_contract ip4_reass.
Variable udp_recv_fn : Z -> option Z -> Z -> ptr -> Z -> Z -> port P1 P2 Y -> res (port P1 P2 Y).
Hypothesis recv_ok : recv_contract udp_recv_fn.
Variable tcp_input : ptr -> Z -> port P1 P2 Y -> res (port P1 P2 Y).
Hypothesis tcp_ok : transport_contract tcp_input.

Notation net := (net_of (pn := port_part P1 P2 Y pa)).
Notation ip := (ip_of (pi := port_ip P1 P2 Y pi)).
Notation udp := (udp_of (pu := port_udp P1 P2 P3 Y pu)).
Notation transport := (Udp.udp_input custom_free_function fresh_byte ip4_frag udp_recv_fn).
Notation pending := (ip_pending REG out_buffer out_length out_bytes).
Notation delivered_as := (received (pa := pa) (pi := pi) REG out_buffer out_length out_bytes).
Notation input := (ip_receive REG out_buffer out_length out_bytes custom_free_function fresh_byte conflict_callback ip4_frag ip4_reass transport tcp_input).

Lemma udp_frame k E np nif in_buffer x u : pending k E np nif in_buffer x -> ip_intact x = true -> is_fragment x 0 = false ->
  byte_at x ip_proto = IP_PROTO_UDP -> header_length x 0 + 4 <= length x -> udp_rep (udp k) u ->
  exists k' r, input np in_buffer k = Ok k' /\ user_inv k' E /\ matched (netifs (net k)) (ip k) (ip_target x) np nif r /\
    match destination x 0 (header_length x 0) (ip_source x) np nif r with
    | None => unheard k k'
    | Some cur => exists cnif k2 p b l o d k3, netifs (net k) !! cur = Some cnif /\ delivered_as k x cur np k2 p b l o d E /\ k' = forget_current k3 /\
        let q := query_of (ip_body x) (ip_source x) (ip_target x) nif cnif in
        if length (ip_body x) <? UDP_HLEN then discarded k2 E k3 else
        exists ms, udp_rep ms (spec_demux q u).1 /\
          received_as udp_recv_fn (set_udp ms k2) E p l (sockets u) (spec_demux q u).2 (ip_body x) (ip_head x) (ip_source x) (ip_target x)
            (lwip_htons (word_at (ip_body x) udp_src)) nif cnif k3
    end.
Proof.
  intros Hpd Hint Hfrag Hproto Hport Hu.
  destruct (pending_cases REG out_buffer out_length out_bytes custom_free_function fresh_byte fresh_u8 conflict_callback callback_ok ip4_frag frag_ok ip4_reass reass_ok
    transport tcp_input (udp_transport custom_free_function fresh_byte fresh_u8 ip4_frag frag_ok udp_recv_fn recv_ok) tcp_ok k E np nif in_buffer x Hpd)
    as (k' & Er & Hk' & Hcase).
  rewrite Hint in Hcase. destruct Hcase as (r & Hm & Hgo). specialize (Hgo ltac:(done)). exists k', r. split; [done|]. split; [done|]. split; [done|].
  destruct (destination _ _ _ _ _ _ _) as [cur|]; [|tauto]. destruct (Hgo Hfrag) as (k2 & p & b & l & o & d & k3 & Hrc & Edis & _ & ->). clear Hgo.
  rewrite Hproto in Edis. change (transport p np k2 = Ok k3) in Edis.
  pose proof Hrc as [Hdl Hbody Hhead Htot Hlen Hsz [U1 U2 U3] Has _ Hip].
  assert (Eu : udp k2 = udp k) by exact (Has _ pu side_udp ip_udp). rewrite <- Eu in Hu.
  destruct (udp_input_ok custom_free_function fresh_byte fresh_u8 ip4_frag frag_ok udp_recv_fn recv_ok k2 E p b l o d (header_length x 0) cur np u Hdl Hu)
    as (cnif & nif2 & k3' & Hc & Hn & E3 & _ & Hout).
  rewrite Edis in E3. injection E3 as <-. rewrite U1 in Hc, Hn. rewrite (pd_netif REG _ _ _ _ _ _ _ _ _ Hpd) in Hn. injection Hn as <-.
  exists cnif, k2, p, b, l, o, d, k3. split; [done|]. split; [done|]. split; [done|]. cbv zeta in *.
  rewrite Hip in Hout. cbn [current_iphdr_src current_iphdr_dest set_current set_current_addrs] in Hout. rewrite Hbody, Hhead in Hout.
  destruct (head_and_body REG _ _ _ custom_free_function _ _ _ _ _ _ _ _ _ _ _ Hrc) as (_ & Hbl & Hh & _ & _).
  assert (El : (len b <? UDP_HLEN) = (length (ip_body x) <? UDP_HLEN)).
  { apply eq_true_iff_eq. rewrite !Z.ltb_lt. unfold UDP_HLEN. lia. }
  rewrite El in Hout. destruct (length (ip_body x) <? UDP_HLEN); [done|]. destruct Hout as (ms & _ & Hms & Hrec). by exists ms.
Qed.

Lemma unheard_udp k k1 m : unheard k k1 -> unheard k (set_udp (pu := port_udp P1 P2 P3 Y pu) m k1).
Proof using Type*. intros H. apply (unheard_net k k1); [done|]. rewrite net_set_udp. by rewrite st_set_udp. Qed.

Lemma discarded_unheard k k2 k3 E : unheard k k2 -> discarded k2 E k3 -> unheard k (forget_current k3) /\ udp (forget_current k3) = udp k2.
Proof.
  intros H (s & -> & _). split; [by apply (unheard_ip REG _ _ _), unheard_st|]. unfold forget_current. by rewrite udp_update_ip, udp_set_st.
Qed.

(** ** Properties *)

(** C10: the data of a UDP datagram reaches the function registered for it. For an
    intact datagram of protocol UDP in the controller's FIFO, not a fragment, for
    whose frame the pool has room, ethernetif_input returns with all invariants
    kept. When an interface accepts it, let the receiver be the control block that
    the search over the table finds for its ports and addresses. If the message
    has at least the 8 bytes of the header, its checksum is zero or right, and the
    receiver has a function, then that function is called with its argument, the
    control block, the source address and port, and a packet that is ours alone
    and holds exactly what follows the UDP header; nothing has been sent, and the
    table is the one after the search. In all other cases without a complaint to
    the sender the packet is freed, and nothing is sent. *)
Theorem udp_datagram_received k E np nif in_buffer x u : pending k E np nif in_buffer x -> ip_intact x = true -> is_fragment x 0 = false ->
  byte_at x ip_proto = IP_PROTO_UDP -> header_length x 0 + 4 <= length x -> udp_rep (udp k) u ->
  exists k' r, input np in_buffer k = Ok k' /\ user_inv k' E /\ matched (netifs (net k)) (ip k) (ip_target x) np nif r /\
    match destination x 0 (header_length x 0) (ip_source x) np nif r with
    | None => unheard k k'
    | Some cur => exists cnif, netifs (net k) !! cur = Some cnif /\
        let m := ip_body x in
        let q := query_of m (ip_source x) (ip_target x) nif cnif in
        match callee u q m with
        | Some (f, arg, s) => exists k1 p b l k2, own k1 ({[+ p +]} ⊎ E) p b l /\ chain_data (areas (st_of k1)) ((p, b) :: l) = drop 8 m /\
            unheard k k1 /\ udp_rep (udp k1) (spec_demux q u).1 /\ udp_recv_fn f arg s p (ip_source x) (q_src q) k1 = Ok k2 /\ k' = forget_current k2
        | None => complained u q m = false -> unheard k k' /\ udp_rep (udp k') (if length m <? UDP_HLEN then u else (spec_demux q u).1)
        end
    end.
Proof.
  intros Hpd Hint Hfrag Hproto Hport Hu. destruct (udp_frame k E np nif in_buffer x u Hpd Hint Hfrag Hproto Hport Hu) as (k' & r & Er & Hk' & Hm & Hcase).
  exists k', r. split; [done|]. split; [done|]. split; [done|]. destruct (destination _ _ _ _ _ _ _) as [cur|]; [|done].
  destruct Hcase as (cnif & k2 & p & b & l & o & d & k3 & Hc & Hrc & -> & Hout). exists cnif. split; [done|]. cbv zeta in *.
  set (q := query_of _ _ _ _ _) in *. pose proof (rc_unheard REG _ _ _ _ _ _ _ _ _ _ _ _ _ _ Hrc) as Hun.
  assert (Eu : udp k2 = udp k) by exact (rc_aside REG _ _ _ _ _ _ _ _ _ _ _ _ _ _ Hrc _ pu side_udp ip_udp).
  unfold callee, complained. change (q_src_ip q) with (ip_source x). change (q_dest_ip q) with (ip_target x). change (q_inp q) with nif.
  change (q_broadcast q) with (ip4_addr_isbroadcast (ip_target x) cnif). rewrite Z.leb_antisym.
  destruct (length (ip_body x) <? UDP_HLEN); cbn [negb andb].
  { intros _. destruct (discarded_unheard _ _ _ _ Hun Hout) as [H1 H2]. split; [done|]. rewrite H2. change (udp_rep (udp k2) u). by rewrite Eu. }
  destruct Hout as (ms & Hms & Hrec). pose proof (unheard_udp k k2 ms Hun) as Hun2.
  assert (Hdrop : discarded (set_udp ms k2) E k3 -> unheard k (forget_current k3) /\ udp_rep (udp (forget_current k3)) (spec_demux q u).1).
  { intros Hd. destruct (discarded_unheard _ _ _ _ Hun2 Hd) as [H1 H2]. split; [done|]. rewrite H2. by rewrite udp_set_udp. }
  unfold received_as in Hrec. destruct (spec_demux q u).2 as [s|] eqn:Es.
  - destruct (udp_intact _ _ _); [|cbn; auto]. destruct Hrec as (a & Ha & Hrec). cbn [mbind option_bind]. rewrite Ha. cbn [mbind option_bind].
    destruct (recv a) as [f|]; cbn [mbind option_bind]; [|auto].
    destruct Hrec as (k4 & b4 & Hown & Hdata & Hn & _ & Hu4 & Ef). exists k4, p, b4, l, k3. split; [done|]. split; [done|].
    split; [by apply (unheard_net k (set_udp ms k2))|]. split; [rewrite Hu4; by rewrite udp_set_udp|]. by split.
  - rewrite bool_decide_eq_true_2 by done.
    assert (Hgo : udp_intact (ip_body x) (ip_source x) (ip_target x) && (ip_addr nif =? ip_target x) &&
       negb (ip4_addr_isbroadcast (ip_target x) cnif || ip4_addr_ismulticast (ip_target x)) = false ->
       unheard k (forget_current k3) /\ udp_rep (udp (forget_current k3)) (spec_demux q u).1).
    { intros Hf. apply Hdrop. destruct (ip_addr nif =? ip_target x), (udp_intact _ _ _), (negb _); done. }
    destruct (udp_intact _ _ _); cbn [mbind option_bind andb] in *; auto.
Qed.


End Frames.

(** ** Witnesses *)

(** The system of IpPath.v with the control blocks of UdpSpec.v, of which the one
    on port 68 has a function registered. *)
Module UdpPathDemo.
Import ArpSpec.Demo ArpPath.PathDemo IpDemo UdpSpec.UdpDemo.

Definition stacked : Type := layers * udp_mod pool.
Definition below : Part stacked layers := part_fst layers (udp_mod pool).
Definition kernel : Type := port pool pool stacked.
Definition stacked_side : Part stacked arp_side := part_compose below layers_side.
Definition stacked_acd : Part stacked acd_mod := part_compose below layers_acd.
Definition stacked_ip : Part stacked ip_mod := part_compose below layers_ip.
Definition stacked_udp : Part stacked (udp_mod pool) := part_snd layers (udp_mod pool).
Definition k_net : Part kernel (net pool pool mmio) := port_part pool pool stacked stacked_side.
Definition k_acd : Part kernel acd_mod := port_acd pool pool stacked stacked_acd.
Definition k_ip : Part kernel ip_mod := port_ip pool pool stacked stacked_ip.
Definition k_udp : Part kernel (udp_mod pool) := port_udp pool pool pool stacked stacked_udp.

Lemma side_acd : Apart stacked_side stacked_acd.
Proof. by split; intros; repeat destruct select (_ * _). Qed.
Lemma side_ip : Apart stacked_side stacked_ip.
Proof. by split; intros; repeat destruct select (_ * _). Qed.
Lemma acd_ip : Apart stacked_acd stacked_ip.
Proof. by split; intros; repeat destruct select (_ * _). Qed.
Lemma udp_side_udp : Apart stacked_side stacked_udp.
Proof. by split; intros; repeat destruct select (_ * _). Qed.
Lemma acd_udp : Apart stacked_acd stacked_udp.
Proof. by split; intros; repeat destruct select (_ * _). Qed.
Lemma udp_ip_udp : Apart stacked_ip stacked_udp.
Proof. by split; intros; repeat destruct select (_ * _). Qed.

Definition net_acd_apart : Apart k_net k_acd := port_apart pool pool stacked acd_mod stacked_side stacked_acd side_acd.
Definition net_ip_apart : Apart k_net k_ip := port_apart pool pool stacked ip_mod stacked_side stacked_ip side_ip.
Definition net_udp_apart : Apart k_net k_udp := port_apart pool pool stacked (udp_mod pool) stacked_side stacked_udp udp_side_udp.
Definition acd_ip_apart : Apart k_acd k_ip := port_stack_apart pool pool stacked acd_mod ip_mod stacked_acd stacked_ip acd_ip.
Definition acd_udp_apart : Apart k_acd k_udp := port_stack_apart pool pool stacked acd_mod (udp_mod pool) stacked_acd stacked_udp acd_udp.
Definition ip_udp_apart : Apart k_ip k_udp := port_stack_apart pool pool stacked ip_mod (udp_mod pool) stacked_ip stacked_udp udp_ip_udp.

(** The control blocks after [udp_recv]. *)
Definition heard : udp_call := CallRecv (Some dhcp) (Some 1) (Some 5).
Definition heard_table : udp_table := (spec_call heard demo_table).1.
Definition heard_mod : udp_mod pool := match @run_call pool udp_alloc heard demo_mod with Ok (m, _) => m | Err _ => demo_mod end.

Lemma heard_rep : @udp_rep pool udp_alloc heard_mod heard_table.
Proof.
  destruct (@call_ok_step pool udp_alloc demo_mod demo_table heard demo_rep ltac:(by eexists)) as (m & u & r & E & Hs & Hr).
  unfold heard_mod, heard_table. rewrite E. change ((u, r) = spec_call heard demo_table) in Hs. by rewrite <- Hs.
Qed.

Section Demo.
Variable x : list Z.
Notation linked := (link_ip x).

Definition arp_user : @ArpUser pool pool mmio kernel witness_pool witness_memp linked k_net :=
  @arp_with_acd pool pool mmio kernel witness_pool witness_memp linked k_net k_acd net_acd_apart.
Definition ip_user : @ArpUser pool pool mmio kernel witness_pool witness_memp linked k_net :=
  @with_ip pool pool witness_pool witness_memp mmio linked kernel k_net k_ip net_ip_apart arp_user.
Definition k_user : @ArpUser pool pool mmio kernel witness_pool witness_memp linked k_net :=
  @with_udp pool pool pool witness_pool witness_memp udp_alloc mmio linked kernel k_net k_udp net_udp_apart ip_user.

Lemma blind_ip k E m : @user_inv _ _ _ _ _ _ _ _ arp_user k E -> @user_inv _ _ _ _ _ _ _ _ arp_user (set_part (Part := k_ip) m k) E.
Proof.
  intros [Hn Hw]. split.
  - by rewrite (@apart_right _ _ _ _ _ net_ip_apart).
  - by rewrite (@apart_right _ _ _ _ _ net_ip_apart), (@apart_right _ _ _ _ _ acd_ip_apart).
Qed.

Lemma blind_udp k E m : @user_inv _ _ _ _ _ _ _ _ ip_user k E -> @user_inv _ _ _ _ _ _ _ _ ip_user (set_part (Part := k_udp) m k) E.
Proof.
  intros [[Hn Hw] Hi]. split; [split|].
  - by rewrite (@apart_right _ _ _ _ _ net_udp_apart).
  - by rewrite (@apart_right _ _ _ _ _ net_udp_apart), (@apart_right _ _ _ _ _ acd_udp_apart).
  - unfold net_of, ip_of in *. by rewrite (@apart_right _ _ _ _ _ net_udp_apart), (@apart_right _ _ _ _ _ ip_udp_apart).
Qed.

Lemma k_udp_user : @UdpUser pool pool pool mmio kernel witness_pool witness_memp udp_alloc linked k_net k_ip k_udp k_user.
Proof. apply (with_udp_user k_net k_ip k_udp net_udp_apart ip_udp_apart ip_user), blind_udp. Qed.

Lemma udp_k_ip_user : @IpUser pool pool mmio kernel witness_pool witness_memp linked k_net k_ip k_user.
Proof. apply (with_udp_ip k_net k_ip k_udp net_udp_apart ip_udp_apart ip_user), with_ip_user, blind_ip. Qed.

Lemma udp_k_acd_user : @AcdUser pool pool mmio kernel witness_pool witness_memp linked k_net k_acd k_user.
Proof.
  apply (with_udp_acd k_net k_udp net_udp_apart ip_user k_acd acd_udp_apart), (with_ip_acd k_net k_ip net_ip_apart arp_user k_acd acd_ip_apart).
  exact (@arp_with_acd_user pool pool mmio kernel witness_pool witness_memp linked k_net k_acd net_acd_apart).
Qed.

Definition udp_kernel : kernel := Port (pbuf_boot heap_fresh) quiet_device true (stack ip_kernel, heard_mod).

Lemma udp_kernel_ok : @user_inv _ _ _ _ _ _ _ _ k_user udp_kernel ∅.
Proof. destruct (ip_kernel_ok x) as [[H1 H2] H3]. split; [split; [split|]; done|]. exists heard_table. exact heard_rep. Qed.

(** No fragments; a transport, and a function behind UDP, that free what they get. *)
Definition no_frag_k (p : ptr) (np a : Z) (k : kernel) : res (kernel * Z) := Ok (k, ERR_MEM).
Definition sink (p : ptr) (np : Z) (k : kernel) : res kernel := @free_pbuf pool pool witness_pool witness_memp mmio kernel k_net no_custom p k.
Definition no_reass (p : ptr) (k : kernel) : res (kernel * option ptr) := k ← sink p 0 k; Ok (k, None).
Definition quiet_client (f np : Z) (c : acd_callback_enum_t) (k : kernel) : res kernel := Ok k.
Definition reader (f : Z) (arg : option Z) (s : Z) (p : ptr) (addr port : Z) (k : kernel) : res kernel := sink p 0 k.

Lemma sink_free k E p : @user_inv _ _ _ _ _ _ _ _ k_user k ({[+ p +]} ⊎ E) -> exists s, sink p 0 k = Ok (@set_st pool pool mmio kernel k_net s k) /\
  @user_inv _ _ _ _ _ _ _ _ k_user (@set_st pool pool mmio kernel k_net s k) E.
Proof.
  intros Hk. destruct (@free_pbuf_ok pool pool witness_pool witness_memp mmio linked kernel k_net k_user no_custom k E p Hk) as (s & Ef & Hk' & _). by exists s.
Qed.

Lemma udp_no_frag_ok : @frag_contract pool pool witness_pool witness_memp mmio linked kernel k_net k_ip k_user no_frag_k.
Proof. intros k E p np a Hk _ _ _. by exists k, ERR_MEM. Qed.

Lemma udp_sink_ok : @transport_contract pool pool witness_pool witness_memp mmio linked kernel k_net k_ip k_user sink.
Proof. intros k E p b l o d n cur inp H. destruct (sink_free k E p (own_inv _ _ _ _ _ (dl_own _ _ _ _ _ _ _ _ _ _ H))) as (s & Ef & Hk). by eexists. Qed.

Lemma udp_no_reass_ok : @reass_contract pool pool witness_pool witness_memp mmio linked kernel k_net k_user no_reass.
Proof.
  intros k E p b l o d H _. destruct (sink_free k E p (own_inv _ _ _ _ _ (da_own _ _ _ _ _ _ _ H))) as (s & Ef & Hk).
  unfold no_reass. rewrite Ef, bind_ok. eexists _, None. split; [reflexivity|]. split; [|exact Hk]. unfold net_of, set_st, set_net. by rewrite part_set.
Qed.

Lemma udp_quiet_client_ok : @callback_contract pool pool witness_pool witness_memp mmio linked kernel k_net k_acd k_user quiet_client.
Proof. intros f np c k E Hk _. exists k. split; [done | by apply kept_refl]. Qed.

Lemma reader_ok : @recv_contract pool pool witness_pool witness_memp mmio linked kernel k_net k_user reader.
Proof. intros f arg s p addr port k E b l H. destruct (sink_free k E p (own_inv _ _ _ _ _ H)) as (s' & Ef & Hk). by eexists. Qed.

Definition demo_receive (np : Z) (buffer : list Z) (k : kernel) : res kernel :=
  @ip_receive pool pool witness_pool witness_memp stacked stacked_side stacked_acd stacked_ip (REG_ip x) uninit uninit_length uninit_bytes
    no_custom noise quiet_client no_frag_k no_reass
    (@Udp.udp_input pool pool pool witness_pool witness_memp mmio linked kernel k_net k_ip k_udp no_custom noise no_frag_k reader) sink np buffer k.

Lemma demo_udp_datagram : frame_pending (REG_ip x) quiet_device -> pending_frame (REG_ip x) quiet_device = ip_frame_demo x -> length x = 46%nat ->
  @ip_pending pool pool witness_pool witness_memp stacked stacked_side (REG_ip x) uninit uninit_length uninit_bytes k_user udp_kernel ∅ 0 demo_if uninit x.
Proof.
  intros Hp Hf Hl. destruct (demo_datagram x Hp Hf Hl) as [_ H2 H3 H4 H5 H6 H7 H8 H9]. split; try done. exact udp_kernel_ok.
Qed.

End Demo.

(** A message of 4 bytes to port 68, and one to port 7. *)
Definition to_dhcp : list Z := from_asker IP_PROTO_UDP ([0; 67; 0; 68; 0; 12; 0; 0] ++ seqZ 65 4).

End UdpPathDemo.

Import ArpSpec.Demo IpDemo UdpSpec.UdpDemo UdpPathDemo.

Lemma udp_datagram_received_witness : exists k' k1 p b l k2, UdpPathDemo.demo_receive to_dhcp 0 uninit udp_kernel = Ok k' /\
  chain_data (areas (@st_of pool pool mmio UdpPathDemo.kernel UdpPathDemo.k_net k1)) ((p, b) :: l) = seqZ 65 4 /\
  reader 1 (Some 5) dhcp p 0x0902000a 67 k1 = Ok k2 /\ k' = @forget_current UdpPathDemo.kernel UdpPathDemo.k_ip k2.
Proof.
  destruct (@udp_datagram_received pool pool pool witness_pool witness_memp udp_alloc stacked stacked_side stacked_acd stacked_ip stacked_udp udp_side_udp udp_ip_udp
    (REG_ip to_dhcp) uninit uninit_length uninit_bytes (UdpPathDemo.k_user to_dhcp) (UdpPathDemo.udp_k_acd_user to_dhcp) (UdpPathDemo.udp_k_ip_user to_dhcp) (k_udp_user to_dhcp)
    no_custom noise noise_u8 UdpPathDemo.quiet_client (UdpPathDemo.udp_quiet_client_ok to_dhcp) UdpPathDemo.no_frag_k (UdpPathDemo.udp_no_frag_ok to_dhcp)
    UdpPathDemo.no_reass (UdpPathDemo.udp_no_reass_ok to_dhcp) reader (reader_ok to_dhcp) UdpPathDemo.sink (UdpPathDemo.udp_sink_ok to_dhcp)
    udp_kernel ∅ 0 demo_if uninit to_dhcp heard_table) as (k' & r & E & _ & Hm & Hcase).
  - apply demo_udp_datagram; by vm_compute.
  - by vm_compute.
  - by vm_compute.
  - by vm_compute.
  - by vm_compute.
  - exact heard_rep.
  - assert (ip_target to_dhcp = ip_addr demo_if) as Et by (by vm_compute). rewrite Et in Hm.
    assert (r = Some 0) as -> by (apply (matched_own _ _ _ _ _ Hm); by vm_compute).
    assert (destination to_dhcp 0 (header_length to_dhcp 0) (ip_source to_dhcp) 0 demo_if (Some 0) = Some 0) as Ed by (by vm_compute).
    rewrite Ed in Hcase. destruct Hcase as (cnif & Hc & Hcase). assert (cnif = demo_if) as -> by (by injection Hc). cbv zeta in Hcase.
    assert (callee heard_table (query_of (ip_body to_dhcp) (ip_source to_dhcp) (ip_target to_dhcp) demo_if demo_if) (ip_body to_dhcp) = Some (1, Some 5, dhcp)) as Ec by (by vm_compute).
    rewrite Ec in Hcase. destruct Hcase as (k1 & p & b & l & k2 & _ & Hdata & _ & _ & Ef & Ek).
    exists k', k1, p, b, l, k2. split; [exact E|]. split; [etransitivity; [exact Hdata | by vm_compute]|]. split; [exact Ef | exact Ek].
Defined.

