(* ===== verification/Http.v ===== *)
(** * The HTTP client: src/src/http_client.c

    The client is a set of callbacks that the stack calls; its state is the
    three static variables. What it calls of lwIP's TCP and DNS interfaces is
    the class [TcpApi]: the operations, and what the client relies on, in terms
    of the connections it owns ([conns]) and the DNS requests that it waits for
    ([dns_waiting]). An operation is only promised to work on a connection that
    the client still owns, so that a use after tcp_close or after the error
    callback cannot be proved safe. *)

From stdpp Require Import gmultiset.
From S2P Require Import Prelude Strings Uart Ip4Addr Alloc Memp Mem Pbuf PbufRef.

(** ** Definitions *)

Definition ERR_INPROGRESS : Z := -5.
Definition TCP_WRITE_FLAG_COPY : Z := 0x01.
Definition HTTP_PORT : Z := 80.

(** The callbacks, for the arguments that are function pointers: the client's,
    and the shell's for its own DNS requests. *)
Inductive callback : Type :=
  http_recv_cb_ptr | http_err_cb_ptr | http_connected_cb_ptr | http_dns_cb_ptr | dns_callback_ptr.

#[export] Instance callback_eq_dec : EqDecision callback.
Proof. solve_decision. Defined.

(** A connection as the client sees it. *)
Inductive conn_state : Type := Fresh | Connecting | Open.
Record conn : Type := Conn { phase : conn_state; on_recv : option callback; on_err : option callback }.

(** From [a] to [a'] the references of the stack and of everybody else, [E], stay
    in order. *)
Definition refs_kept {P1 P2 A : Type} `{!PoolAlloc P1} `{!PoolAlloc P2} (pb : A -> store P1 P2) (refs : A -> gmultiset ptr) (a a' : A) : Prop :=
  forall E, ref_inv (pb a) (E ⊎ refs a) -> ref_inv (pb a') (E ⊎ refs a').

#[export] Instance refs_kept_preorder P1 P2 A `{!PoolAlloc P1} `{!PoolAlloc P2} pb refs : PreOrder (@refs_kept P1 P2 A _ _ pb refs).
Proof. split; [by intros a E|]. intros a b c H1 H2 E HE. by apply H2, H1. Qed.

(** [stack_refs] are the references to pbufs that the stack itself holds. *)
Class TcpApi (P1 P2 A : Type) `{!PoolAlloc P1} `{!PoolAlloc P2} : Type :=
  { pb : A -> store P1 P2;
    set_pb : store P1 P2 -> A -> A;
    conns : A -> gmap Z conn;
    dns_waiting : A -> nat;
    stack_refs : A -> gmultiset ptr;
    tcp_new : A -> res (A * option Z);
    tcp_arg : Z -> A -> res A;
    tcp_sent : Z -> option callback -> A -> res A;
    tcp_recv : Z -> option callback -> A -> res A;
    tcp_err : Z -> option callback -> A -> res A;
    tcp_poll : Z -> option callback -> Z -> A -> res A;
    tcp_connect : Z -> Z -> Z -> callback -> A -> res (A * Z);
    tcp_write : Z -> list Z -> Z -> Z -> A -> res (A * Z);
    tcp_output : Z -> A -> res (A * Z);
    tcp_recved : Z -> Z -> A -> res A;
    tcp_close : Z -> A -> res (A * Z);
    dns_gethostbyname : list Z -> callback -> A -> res (A * Z * Z);
    pb_set : forall s a, pb (set_pb s a) = s /\ conns (set_pb s a) = conns a /\ dns_waiting (set_pb s a) = dns_waiting a /\
      stack_refs (set_pb s a) = stack_refs a;
    tcp_new_spec : forall a, exists a' r, tcp_new a = Ok (a', r) /\ dns_waiting a' = dns_waiting a /\ refs_kept pb stack_refs a a' /\
      match r with
      | None => conns a' = conns a
      | Some x => conns a !! x = None /\ conns a' = <[x := Conn Fresh None None]> (conns a)
      end;
    tcp_arg_spec : forall x a c, conns a !! x = Some c ->
      exists a', tcp_arg x a = Ok a' /\ conns a' = conns a /\ dns_waiting a' = dns_waiting a /\ refs_kept pb stack_refs a a';
    tcp_sent_spec : forall x f a c, conns a !! x = Some c ->
      exists a', tcp_sent x f a = Ok a' /\ conns a' = conns a /\ dns_waiting a' = dns_waiting a /\ refs_kept pb stack_refs a a';
    tcp_poll_spec : forall x f n a c, conns a !! x = Some c ->
      exists a', tcp_poll x f n a = Ok a' /\ conns a' = conns a /\ dns_waiting a' = dns_waiting a /\ refs_kept pb stack_refs a a';
    tcp_recv_spec : forall x f a c, conns a !! x = Some c ->
      exists a', tcp_recv x f a = Ok a' /\ conns a' = <[x := Conn (phase c) f (on_err c)]> (conns a) /\
        dns_waiting a' = dns_waiting a /\ refs_kept pb stack_refs a a';
    tcp_err_spec : forall x f a c, conns a !! x = Some c ->
      exists a', tcp_err x f a = Ok a' /\ conns a' = <[x := Conn (phase c) (on_recv c) f]> (conns a) /\
        dns_waiting a' = dns_waiting a /\ refs_kept pb stack_refs a a';
    tcp_connect_spec : forall x ip port f a c, conns a !! x = Some c -> phase c = Fresh ->
      exists a' e, tcp_connect x ip port f a = Ok (a', e) /\ dns_waiting a' = dns_waiting a /\ refs_kept pb stack_refs a a' /\
        conns a' = (if e =? ERR_OK then <[x := Conn Connecting (on_recv c) (on_err c)]> (conns a) else conns a);
    tcp_write_spec : forall x d n fl a c, conns a !! x = Some c -> phase c = Open -> 0 <= n <= length d ->
      exists a' e, tcp_write x d n fl a = Ok (a', e) /\ conns a' = conns a /\ dns_waiting a' = dns_waiting a /\ refs_kept pb stack_refs a a';
    tcp_output_spec : forall x a c, conns a !! x = Some c -> phase c = Open ->
      exists a' e, tcp_output x a = Ok (a', e) /\ conns a' = conns a /\ dns_waiting a' = dns_waiting a /\ refs_kept pb stack_refs a a';
    tcp_recved_spec : forall x n a c, conns a !! x = Some c -> phase c = Open ->
      exists a', tcp_recved x n a = Ok a' /\ conns a' = conns a /\ dns_waiting a' = dns_waiting a /\ refs_kept pb stack_refs a a';
    tcp_close_spec : forall x a c, conns a !! x = Some c ->
      exists a' e, tcp_close x a = Ok (a', e) /\ conns a' = delete x (conns a) /\ dns_waiting a' = dns_waiting a /\ refs_kept pb stack_refs a a';
    dns_gethostbyname_spec : forall b s f a, cstring b s ->
      exists a' e ip, dns_gethostbyname b f a = Ok (a', e, ip) /\ conns a' = conns a /\
        dns_waiting a' = (if (e =? ERR_INPROGRESS) && bool_decide (f = http_dns_cb_ptr)
                          then S (dns_waiting a) else dns_waiting a) /\
        refs_kept pb stack_refs a a' /\ (e = ERR_OK -> is_u32 ip) }.

Section Client.
Context {P1 P2 A W : Type} `{!PoolAlloc P1} `{!PoolAlloc P2} `{!TcpApi P1 P2 A} `{!Console W}.
Variable custom_free_function : ptr -> store P1 P2 -> res (store P1 P2).

(** The static variables, the stack, the console and the buffer of
    ip4addr_ntoa. *)
Record http : Type := Http
  { http_pcb : option Z;
    http_busy : bool;
    request_buf : list Z;
    api : A;
    con : W;
    ntoa_buf : list Z }.

Definition set_pcb (x : option Z) (h : http) : http := Http x (http_busy h) (request_buf h) (api h) (con h) (ntoa_buf h).
Definition set_busy (b : bool) (h : http) : http := Http (http_pcb h) b (request_buf h) (api h) (con h) (ntoa_buf h).
Definition set_request (b : list Z) (h : http) : http := Http (http_pcb h) (http_busy h) b (api h) (con h) (ntoa_buf h).
Definition set_api (a : A) (h : http) : http := Http (http_pcb h) (http_busy h) (request_buf h) a (con h) (ntoa_buf h).
Definition set_con (w : W) (h : http) : http := Http (http_pcb h) (http_busy h) (request_buf h) (api h) w (ntoa_buf h).
Definition set_ntoa (b : list Z) (h : http) : http := Http (http_pcb h) (http_busy h) (request_buf h) (api h) (con h) b.

(** A call of the stack and one that prints. *)
Definition on_api (f : A -> res A) (h : http) : res http := a ← f (api h); Ok (set_api a h).
Definition on_con (f : W -> res W) (h : http) : res http := w ← f (con h); Ok (set_con w h).
Definition println (s : list Z) : http -> res http := on_con (uart_println s).

Definition http_close_conn (tpcb : Z) (h : http) : res http :=
  h ← on_api (tcp_arg tpcb) h;
  h ← on_api (tcp_sent tpcb None) h;
  h ← on_api (tcp_recv tpcb None) h;
  h ← on_api (tcp_err tpcb None) h;
  h ← on_api (tcp_poll tpcb None 0) h;
  '(a, _) ← tcp_close tpcb (api h);
  println (10 :: lit "[HTTP] Connection closed.") (set_busy false (set_pcb None (set_api a h))).

(** [for (i = 0; i < q->len; i++) uart_putc(data[i]);] *)
Fixpoint put_all (d : list Z) (w : W) : W :=
  match d with [] => w | c :: d' => put_all d' (putc c w) end.

Fixpoint print_chain (fuel : nat) (ps : gmap ptr pbuf) (ar : gmap ptr (list Z)) (q : option ptr) (w : W) : res W :=
  match q with
  | None => Ok w
  | Some q =>
      match fuel with
      | O => Err OutOfFuel
      | S fuel' =>
          b ← deref ps q;
          d ← area_read ar (payload b) 0 (len b);
          print_chain fuel' ps ar (next b) (put_all d w)
      end
  end.

Definition free_packet (p : ptr) (h : http) : res http :=
  '(s, _) ← pbuf_free custom_free_function (Some p) (pb (api h)); Ok (set_api (set_pb s (api h)) h).

Definition http_recv_cb (tpcb : Z) (p : option ptr) (err : Z) (h : http) : res (http * Z) :=
  match p with
  | None => h ← http_close_conn tpcb h; Ok (h, ERR_OK)
  | Some p =>
      if negb (err =? ERR_OK) then h ← free_packet p h; Ok (h, err)
      else
        let s := pb (api h) in
        h ← on_con (print_chain (chain_fuel (pbufs s)) (pbufs s) (areas s) (Some p)) h;
        b ← deref (pbufs s) p;
        h ← on_api (tcp_recved tpcb (tot_len b)) h;
        h ← free_packet p h;
        Ok (h, ERR_OK)
  end.

Definition http_err_cb (err : Z) (h : http) : res http :=
  h ← on_con (uart_print (10 :: lit "[HTTP] Error: ")) h;
  h ← on_con (uart_print_int err) h;
  h ← println (lit "") h;
  Ok (set_busy false (set_pcb None h)).

Definition http_connected_cb (tpcb err : Z) (h : http) : res (http * Z) :=
  if negb (err =? ERR_OK) then
    h ← println (10 :: lit "[HTTP] Connection failed.") h;
    h ← http_close_conn tpcb h;
    Ok (h, err)
  else
    h ← println (lit "[HTTP] Connected. Sending request...") h;
    h ← on_api (tcp_recv tpcb (Some http_recv_cb_ptr)) h;
    h ← on_api (tcp_err tpcb (Some http_err_cb_ptr)) h;
    n ← strlen (request_buf h);
    '(a, write_err) ← tcp_write tpcb (request_buf h) n TCP_WRITE_FLAG_COPY (api h);
    let h := set_api a h in
    if write_err =? ERR_OK then
      '(a, _) ← tcp_output tpcb (api h); Ok (set_api a h, ERR_OK)
    else
      h ← println (lit "[HTTP] Failed to write request.") h;
      h ← http_close_conn tpcb h;
      Ok (h, ERR_OK).

Definition http_dns_cb (ipaddr : option Z) (h : http) : res http :=
  match ipaddr with
  | None => h ← println (lit "[HTTP] DNS resolution failed.") h; Ok (set_busy false h)
  | Some ip =>
      h ← on_con (uart_print (lit "[HTTP] Resolved IP: ")) h;
      '(b, ok) ← ip4addr_ntoa (ntoa_buf h) ip;
      _ ← (if ok : bool then Ok tt else Err BadPointer);
      h ← println b (set_ntoa b h);
      '(a, x) ← tcp_new (api h);
      let h := set_pcb x (set_api a h) in
      match x with
      | None => h ← println (lit "[HTTP] Failed to create TCP PCB.") h; Ok (set_busy false h)
      | Some x =>
          h ← on_api (tcp_arg x) h;
          h ← on_api (tcp_err x (Some http_err_cb_ptr)) h;
          h ← println (lit "[HTTP] Connecting to server...") h;
          '(a, err) ← tcp_connect x ip HTTP_PORT http_connected_cb_ptr (api h);
          let h := set_api a h in
          if negb (err =? ERR_OK) then
            h ← println (lit "[HTTP] tcp_connect error.") h;
            http_close_conn x h
          else Ok h
      end
  end.

(** [strcpy(request_buf + strlen(request_buf), s)] *)
Definition append (s buf : list Z) : res (list Z) := n ← strlen buf; strcpy buf n s.

Definition crlf : list Z := [13; 10].

Definition build_request (hostname path buf : list Z) : res (list Z) :=
  buf ← strcpy buf 0 (lit "GET ");
  buf ← append path buf;
  buf ← append (str " HTTP/1.1" ++ crlf ++ lit "Host: ") buf;
  buf ← append hostname buf;
  append (crlf ++ str "Connection: close" ++ crlf ++ crlf ++ [0]) buf.

Definition http_get (hostname path : list Z) (h : http) : res http :=
  if http_busy h then println (lit "[HTTP] Client is already busy.") h else
  let h := set_busy true h in
  buf ← build_request hostname path (request_buf h);
  let h := set_request buf h in
  h ← on_con (uart_print (lit "[HTTP] Resolving ")) h;
  h ← println hostname h;
  '(a, err, server_ip) ← dns_gethostbyname hostname http_dns_cb_ptr (api h);
  let h := set_api a h in
  if err =? ERR_OK then http_dns_cb (Some server_ip) h
  else if err =? ERR_INPROGRESS then Ok h
  else h ← println (lit "[HTTP] DNS error.") h; Ok (set_busy false h).

Definition http_is_busy (h : http) : bool := http_busy h.

End Client.

Arguments http : clear implicits.

(** *** The client against the stack *)

(** The request for [path] on [hostname]. *)
Definition request_text (hostname path : list Z) : list Z :=
  str "GET " ++ path ++ str " HTTP/1.1" ++ crlf ++ str "Host: " ++ hostname ++ crlf ++
  str "Connection: close" ++ crlf ++ crlf.

Section Events.
Context {P1 P2 A W : Type} `{!PoolAlloc P1} `{!PoolAlloc P2} `{!TcpApi P1 P2 A} `{!Console W}.
Variable custom_free_function : ptr -> store P1 P2 -> res (store P1 P2).

(** The client is busy exactly while the stack owes it something: the answer
    to a DNS request, or the end of its one connection, for which the error
    callback is registered, and once it is open the receive callback too. *)
Definition http_inv (h : http A W) : Prop :=
  length (request_buf h) = 256%nat /\ length (ntoa_buf h) = 16%nat /\
  if http_busy h then
    (exists s, cstring (request_buf h) s) /\
    ((http_pcb h = None /\ conns (api h) = ∅ /\ dns_waiting (api h) = 1%nat) \/
     (exists x c, http_pcb h = Some x /\ conns (api h) = {[x := c]} /\ dns_waiting (api h) = 0%nat /\
        on_err c = Some http_err_cb_ptr /\
        (phase c = Connecting \/ (phase c = Open /\ on_recv c = Some http_recv_cb_ptr))))
  else http_pcb h = None /\ conns (api h) = ∅ /\ dns_waiting (api h) = 0%nat.

(** What can happen: a command of the shell, and the callbacks. *)
Inductive http_event : Type :=
  | EvGet (hostname path : list Z)
  | EvDns (ip : option Z)
  | EvConnected (x : Z)
  | EvData (x : Z) (p : ptr)
  | EvClosed (x : Z)
  | EvError (x err : Z).

(** The packet that is handed over with an event. *)
Definition handed (ev : http_event) : gmultiset ptr := match ev with EvData _ p => {[+ p +]} | _ => ∅ end.

(** All references are the stack's: the client has given everything back. *)
Definition settled (a : A) : Prop := ref_inv (pb a) (stack_refs a).

(** The stack's own step before the call. It keeps the references in order as
    long as the client does, and hands its own over with a packet. *)
Definition stack_move (ev : http_event) (a a' : A) : Prop :=
  (settled a -> ref_inv (pb a') (handed ev ⊎ stack_refs a')) /\
  match ev with
  | EvGet hostname path => a' = a /\
      exists hs ps, cstring hostname hs /\ cstring path ps /\ (length (request_text hs ps) < 256)%nat
  | EvDns ip => dns_waiting a = S (dns_waiting a') /\ conns a' = conns a /\ (forall i, ip = Some i -> is_u32 i)
  | EvConnected x => dns_waiting a' = dns_waiting a /\
      exists c, conns a !! x = Some c /\ phase c = Connecting /\
        conns a' = <[x := Conn Open (on_recv c) (on_err c)]> (conns a)
  | EvData x p => dns_waiting a' = dns_waiting a /\ conns a' = conns a /\
      (exists c, conns a !! x = Some c /\ phase c = Open /\ on_recv c = Some http_recv_cb_ptr) /\
      exists l, packet (pbufs (pb a')) (areas (pb a')) p l
  | EvClosed x => dns_waiting a' = dns_waiting a /\ conns a' = conns a /\
      exists c, conns a !! x = Some c /\ phase c = Open /\ on_recv c = Some http_recv_cb_ptr
  | EvError x err => dns_waiting a' = dns_waiting a /\ -128 <= err < 128 /\
      (exists c, conns a !! x = Some c /\ on_err c = Some http_err_cb_ptr) /\ conns a' = delete x (conns a)
  end.

Definition http_exec (ev : http_event) (h : http A W) : res (http A W) :=
  match ev with
  | EvGet hostname path => http_get hostname path h
  | EvDns ip => http_dns_cb ip h
  | EvConnected x => '(h, _) ← http_connected_cb x ERR_OK h; Ok h
  | EvData x p => '(h, _) ← http_recv_cb custom_free_function x (Some p) ERR_OK h; Ok h
  | EvClosed x => '(h, _) ← http_recv_cb custom_free_function x None ERR_OK h; Ok h
  | EvError _ err => http_err_cb err h
  end.

End Events.

(** ** Lemmas *)

(** *** The request *)

(** A computation that leaves the string [t] in a buffer of [n] bytes, or
    runs over its end. *)
Definition fills (n : nat) (t : list Z) (m : res (list Z)) : Prop :=
  if (length t <? n)%nat then exists buf, m = Ok buf /\ cstring buf t /\ length buf = n else m = Err OutOfBounds.

Lemma fills_bind n t1 t m k : fills n t1 m -> (length t1 <= length t)%nat ->
  (forall buf, cstring buf t1 -> length buf = n -> fills n t (k buf)) -> fills n t (mbind k m).
Proof.
  unfold fills at 1. intros Hm Hl Hk. destruct (Nat.ltb_spec (length t1) n).
  - destruct Hm as (buf & -> & Hc & Hb). rewrite bind_ok. by apply Hk.
  - rewrite Hm. unfold fills. by destruct (Nat.ltb_spec (length t) n); [lia|].
Qed.

Lemma strcpy_fills src s buf s0 b0 : cstring src s -> s0 ++ b0 = buf -> Forall (fun c => c <> 0) s0 ->
  fills (length buf) (s0 ++ s) (strcpy buf (length s0) src).
Proof.
  intros Hs <- H0. unfold fills. rewrite (strcpy_spec _ _ _ _ Hs), !length_app.
  destruct (Nat.ltb_spec (length s0 + length s) (length s0 + length b0)),
    (Z.leb_spec (length s0 + length s + 1) (length s0 + length b0)%nat); try lia; [|done].
  eexists. split; [reflexivity|]. split; [|by rewrite length_inserts, length_app].
  split; [by apply Forall_app; destruct Hs|].
  rewrite list_inserts_splice by (rewrite !length_app; cbn [length]; lia).
  rewrite take_app_length. eexists. by rewrite <- !app_assoc.
Qed.

Lemma append_fills n src s buf s0 : cstring src s -> cstring buf s0 -> length buf = n ->
  fills n (s0 ++ s) (append src buf).
Proof.
  intros Hs Hb <-. unfold append. rewrite (strlen_cstring buf s0 Hb), bind_ok.
  destruct Hb as [Hb [r Er]]. by eapply strcpy_fills.
Qed.

Lemma crlf_cstring s b : cstring b s -> cstring (crlf ++ b) (crlf ++ s).
Proof. intros H. by repeat apply cstring_cons. Qed.

Lemma str_cstring t s b : plain t = true -> cstring b s -> cstring (str t ++ b) (str t ++ s).
Proof.
  intros Ht [Hs [r ->]]. apply lit_cstring in Ht as [Ht _]. split; [by apply Forall_app|].
  exists r. by rewrite app_assoc.
Qed.

(** The five appends build the request or overflow the buffer. *)
Lemma build_request_spec hostname path buf hs ps : cstring hostname hs -> cstring path ps ->
  fills (length buf) (request_text hs ps) (build_request hostname path buf).
Proof.
  intros Hh Hp. unfold build_request.
  assert (Cm : cstring (str " HTTP/1.1" ++ crlf ++ lit "Host: ") (str " HTTP/1.1" ++ crlf ++ str "Host: ")).
  { apply str_cstring; [done|]. by apply crlf_cstring, lit_cstring. }
  assert (Ce : cstring (crlf ++ str "Connection: close" ++ crlf ++ crlf ++ [0]) (crlf ++ str "Connection: close" ++ crlf ++ crlf)).
  { apply crlf_cstring, str_cstring; [done|]. split; [by repeat constructor | by exists []]. }
  assert (Et : request_text hs ps = (((str "GET " ++ ps) ++ str " HTTP/1.1" ++ crlf ++ str "Host: ") ++ hs) ++
    crlf ++ str "Connection: close" ++ crlf ++ crlf).
  { unfold request_text. by rewrite <- !app_assoc. }
  rewrite Et. eapply fills_bind; [apply (strcpy_fills _ _ _ [] buf (lit_cstring "GET " eq_refl)); done | |].
  { rewrite !length_app. cbn [app length]. lia. }
  intros b1 C1 L1. eapply fills_bind; [exact (append_fills _ _ _ _ _ Hp C1 L1) | |].
  { rewrite !length_app. cbn [app length]. lia. }
  intros b2 C2 L2. eapply fills_bind; [exact (append_fills _ _ _ _ _ Cm C2 L2) | |].
  { rewrite !length_app. cbn [app length]. lia. }
  intros b3 C3 L3. eapply fills_bind; [exact (append_fills _ _ _ _ _ Hh C3 L3) | |].
  { rewrite !length_app. cbn [app length]. lia. }
  intros b4 C4 L4. exact (append_fills _ _ _ _ _ Ce C4 L4).
Qed.

Lemma request_fits hs : (length hs <= 58)%nat -> (length (request_text hs (str "/")) < 256)%nat.
Proof.
  intros Hl. unfold request_text. rewrite !length_app. change (length (str "GET ")) with 4%nat.
  change (length (str " HTTP/1.1")) with 9%nat. change (length (str "Host: ")) with 6%nat.
  change (length (str "Connection: close")) with 17%nat. change (length (str "/")) with 1%nat.
  change (length crlf) with 2%nat. lia.
Qed.

(** *** The handlers *)

Lemma put_all_output `{!Console W} d (w : W) : output (put_all d w) = output w ++ d.
Proof.
  revert w. induction d as [|c d IH]; intros w; [by rewrite app_nil_r|].
  cbn [put_all]. by rewrite IH, putc_output, <- app_assoc.
Qed.

Lemma print_chain_prints `{!Console W} ps ar fuel : forall p l, packet ps ar p l -> (length l <= fuel)%nat ->
  prints (W := W) (print_chain fuel ps ar (Some p)) (chain_data ar l).
Proof.
  induction fuel as [|fuel IH]; intros p l Hp Hf w; (destruct l as [|[x b] l]; [by apply packet_nil in Hp|]); [cbn in Hf; lia|].
  apply packet_cons in Hp as (-> & Hx & _ & _ & _ & _ & Hrd & _ & Hn). cbn [print_chain].
  rewrite Hx, bind_ok, Hrd, bind_ok, chain_data_cons. destruct Hn as [[-> ->]|(q & -> & Hq)].
  - exists (put_all (payload_data ar b) w). split; [by destruct fuel|]. by rewrite put_all_output, app_nil_r.
  - destruct (IH q l Hq ltac:(cbn in Hf; lia) (put_all (payload_data ar b) w)) as (w' & -> & Hw). exists w'.
    split; [done|]. by rewrite Hw, put_all_output, app_assoc.
Qed.


Section Handlers.
Context {P1 P2 A W : Type} `{!PoolAlloc P1} `{!PoolAlloc P2} `{!TcpApi P1 P2 A} `{!Console W}.
Implicit Type h : http A W.
#[local] Set Default Proof Using "Type*".

Notation kept a a' := (refs_kept pb stack_refs a a').

(** One call of the stack after the other. *)
Ltac chain_refs := repeat (first [eassumption | etransitivity; [eassumption|]]).

Lemma on_con_prints f l h : prints f l -> exists w, on_con f h = Ok (set_con w h) /\ output w = output (con h) ++ l.
Proof. intros Hf. unfold on_con. destruct (Hf (con h)) as (w & -> & Hw). by exists w. Qed.

Lemma println_line s h : plain s = true -> exists w, println (lit s) h = Ok (set_con w h) /\ output w = output (con h) ++ line s.
Proof. intros Hs. apply on_con_prints. by apply uart_println_lit. Qed.

Lemma println_nl s h : plain s = true ->
  exists w, println (10 :: lit s) h = Ok (set_con w h) /\ output w = output (con h) ++ 10 :: line s.
Proof. intros Hs. apply on_con_prints, (prints_putc_then (uart_println (lit s))), uart_println_lit, Hs. Qed.

(** After closing, the connection is gone and the client is idle. *)
Lemma http_close_conn_spec x c h : conns (api h) !! x = Some c ->
  exists a w, http_close_conn x h = Ok (set_con w (set_busy false (set_pcb None (set_api a h)))) /\
    conns a = delete x (conns (api h)) /\ dns_waiting a = dns_waiting (api h) /\ kept (api h) a /\
    output w = output (con h) ++ 10 :: line "[HTTP] Connection closed.".
Proof.
  intros Hc. unfold http_close_conn, on_api.
  destruct (tcp_arg_spec x _ _ Hc) as (a1 & -> & C1 & D1 & R1). rewrite !bind_ok. cbn [api set_api].
  rewrite <- C1 in Hc. destruct (tcp_sent_spec x None _ _ Hc) as (a2 & -> & C2 & D2 & R2). rewrite !bind_ok. cbn [api set_api].
  rewrite <- C2 in Hc. destruct (tcp_recv_spec x None _ _ Hc) as (a3 & -> & C3 & D3 & R3). rewrite !bind_ok. cbn [api set_api].
  destruct (tcp_err_spec x None a3 (Conn (phase c) None (on_err c))) as (a4 & -> & C4 & D4 & R4).
  { by rewrite C3, lookup_insert_eq. }
  rewrite !bind_ok. cbn [api set_api].
  destruct (tcp_poll_spec x None 0 a4 (Conn (phase c) None None)) as (a5 & -> & C5 & D5 & R5).
  { by rewrite C4, lookup_insert_eq. }
  rewrite !bind_ok. cbn [api set_api].
  destruct (tcp_close_spec x a5 (Conn (phase c) None None)) as (a6 & e & -> & C6 & D6 & R6).
  { by rewrite C5, C4, lookup_insert_eq. }
  rewrite bind_ok. match goal with |- context [println _ ?h1] =>
    destruct (println_nl "[HTTP] Connection closed." h1 eq_refl) as (w & -> & Hw) end.
  exists a6, w. split; [done|]. split; [|split; [congruence | split; [by chain_refs | exact Hw]]].
  by rewrite C6, C5, C4, C3, C2, C1, !delete_insert_eq.
Qed.

Lemma ntoa_prints (buf : list Z) ip : length buf = 16%nat -> is_u32 ip ->
  exists b, ip4addr_ntoa buf ip = Ok (b, true) /\ cstring b (dotted ip) /\ length b = 16%nat.
Proof.
  intros Hb Hi. unfold ip4addr_ntoa, IP4ADDR_STRLEN_MAX. pose proof (ntoa_r_spec ip buf 16 Hi ltac:(lia)) as H.
  pose proof (dotted_length ip Hi). rewrite decide_True in H by lia. change (Z.of_nat 16) with 16 in H. rewrite H.
  eexists. split; [reflexivity|]. split.
  - split; [by apply dotted_no_nul | by eexists].
  - rewrite length_app. cbn [length]. rewrite length_drop. lia.
Qed.

Definition idle h : Prop := http_busy h = false /\ http_pcb h = None /\ conns (api h) = ∅ /\ dns_waiting (api h) = 0%nat.

Lemma idle_inv h : idle h -> length (request_buf h) = 256%nat -> length (ntoa_buf h) = 16%nat -> http_inv h.
Proof. intros (Hb & Hi). unfold http_inv. rewrite Hb. tauto. Qed.

(** The DNS answer: a connection is on its way, or the client is idle again. *)
Lemma http_dns_cb_inv h ip :
  length (request_buf h) = 256%nat -> length (ntoa_buf h) = 16%nat -> (exists s, cstring (request_buf h) s) ->
  http_busy h = true -> http_pcb h = None -> conns (api h) = ∅ -> dns_waiting (api h) = 0%nat ->
  (forall i, ip = Some i -> is_u32 i) ->
  exists h', http_dns_cb ip h = Ok h' /\ http_inv h' /\ (ip = None -> http_busy h' = false) /\
    request_buf h' = request_buf h /\ kept (api h) (api h').
Proof.
  intros Hr Hn Hreq Hb Hp Hc Hd Hip. unfold http_dns_cb. destruct ip as [ip|].
  - destruct (on_con_prints _ _ h (uart_print_lit "[HTTP] Resolved IP: " eq_refl)) as (w1 & -> & _).
    rewrite bind_ok. cbn [ntoa_buf set_con].
    destruct (ntoa_prints (ntoa_buf h) ip Hn (Hip ip eq_refl)) as (b & -> & Hbs & Hbl). rewrite !bind_ok.
    match goal with |- context [println b ?h1] =>
      destruct (on_con_prints (uart_println b) _ h1 (uart_println_prints _ _ Hbs)) as (w2 & E2 & _) end.
    unfold println in *. rewrite E2, bind_ok. clear E2. cbn [api set_con set_ntoa].
    destruct (tcp_new_spec (api h)) as (a1 & x & -> & D1 & R1 & C1). rewrite bind_ok.
    destruct x as [x|].
    + destruct C1 as [_ C1]. rewrite Hc in C1. unfold on_api. cbn [api set_pcb set_api set_con set_ntoa].
      assert (C1x : conns a1 !! x = Some (Conn Fresh None None)) by (by rewrite C1, lookup_insert_eq).
      destruct (tcp_arg_spec x _ _ C1x) as (a2 & -> & C2 & D2 & R2). rewrite !bind_ok. cbn [api set_api].
      rewrite <- C2 in C1x. destruct (tcp_err_spec x (Some http_err_cb_ptr) _ _ C1x) as (a3 & -> & C3 & D3 & R3). rewrite !bind_ok.
      match goal with |- context [on_con (uart_println (lit "[HTTP] Connecting to server...")) ?h1] =>
        destruct (on_con_prints _ _ h1 (uart_println_lit "[HTTP] Connecting to server..." eq_refl)) as (w3 & E3 & _) end.
      rewrite E3, bind_ok. clear E3. cbn [api set_con set_api].
      assert (C3x : conns a3 !! x = Some (Conn Fresh None (Some http_err_cb_ptr))) by (by rewrite C3, lookup_insert_eq).
      destruct (tcp_connect_spec x ip HTTP_PORT http_connected_cb_ptr _ _ C3x eq_refl) as (a4 & e & -> & D4 & R4 & C4).
      rewrite bind_ok. destruct (Z.eqb_spec e ERR_OK) as [->|He]; cbn [negb].
      * eexists. split; [reflexivity|]. split; [|split; [done | split; [done | by chain_refs]]]. split_and!; [done | done|]. cbn. rewrite Hb. split; [done|].
        right. exists x. eexists. split; [done|]. rewrite C4, C3, C2, C1. rewrite !insert_insert_eq.
        split; [done|]. split; [congruence|]. cbn. tauto.
      * match goal with |- context [on_con (uart_println (lit "[HTTP] tcp_connect error.")) ?h1] =>
          destruct (on_con_prints _ _ h1 (uart_println_lit "[HTTP] tcp_connect error." eq_refl)) as (w4 & E4 & _) end.
        rewrite E4, bind_ok. clear E4. rewrite <- C4 in C3x.
        match goal with |- context [http_close_conn x ?h1] => destruct (http_close_conn_spec x _ h1 C3x) as (a5 & w5 & -> & C5 & D5 & R5 & _) end.
        eexists. split; [reflexivity|]. split; [|split; [done | split; [done | by chain_refs]]]. apply idle_inv; try done. split_and!; try done; cbn.
        -- rewrite C5. cbn [api set_con set_api]. rewrite C4, C3, C2, C1, !delete_insert_eq. apply delete_empty.
        -- rewrite D5. cbn [api set_con set_api]. congruence.
    + match goal with |- context [on_con (uart_println (lit "[HTTP] Failed to create TCP PCB.")) ?h1] =>
        destruct (on_con_prints _ _ h1 (uart_println_lit "[HTTP] Failed to create TCP PCB." eq_refl)) as (w3 & E3 & _) end.
      rewrite E3, bind_ok. eexists. split; [reflexivity|]. split; [|split; [done | split; [done | by chain_refs]]]. apply idle_inv; try done.
      split_and!; cbn; congruence.
  - destruct (println_line "[HTTP] DNS resolution failed." h eq_refl) as (w1 & -> & _). rewrite bind_ok.
    eexists. split; [reflexivity|]. split; [|split; [done | split; [done | by chain_refs]]]. apply idle_inv; try done.
Qed.

Lemma http_get_inv h hostname path hs ps : http_inv h -> cstring hostname hs -> cstring path ps ->
  (length (request_text hs ps) < 256)%nat ->
  exists h', http_get hostname path h = Ok h' /\ http_inv h' /\ kept (api h) (api h') /\
    (http_busy h = false -> cstring (request_buf h') (request_text hs ps)).
Proof.
  intros Hi Hh Hp Hlen. unfold http_get. destruct (http_busy h) eqn:Hb.
  { destruct (println_line "[HTTP] Client is already busy." h eq_refl) as (w & -> & _). by exists (set_con w h). }
  unfold http_inv in Hi. rewrite Hb in Hi. destruct Hi as (Hr & Hn & Hpcb & Hc & Hd). cbn [request_buf set_busy].
  pose proof (build_request_spec hostname path (request_buf h) hs ps Hh Hp) as Hf. unfold fills in Hf. rewrite Hr in Hf.
  destruct (Nat.ltb_spec (length (request_text hs ps)) 256); [|lia]. destruct Hf as (buf & -> & Hbuf & Hbl). rewrite bind_ok.
  match goal with |- context [on_con (uart_print (lit "[HTTP] Resolving ")) ?h1] =>
    destruct (on_con_prints _ _ h1 (uart_print_lit "[HTTP] Resolving " eq_refl)) as (w1 & -> & _) end.
  rewrite bind_ok. unfold println. match goal with |- context [on_con (uart_println hostname) ?h1] =>
    destruct (on_con_prints _ _ h1 (uart_println_prints _ _ Hh)) as (w2 & -> & _) end.
  rewrite bind_ok. cbn [api set_con set_request set_busy].
  destruct (dns_gethostbyname_spec hostname hs http_dns_cb_ptr (api h) Hh) as (a1 & e & ip & -> & C1 & D1 & R1 & Hip).
  rewrite bind_ok. destruct (Z.eqb_spec e ERR_OK) as [->|He].
  - match goal with |- context [http_dns_cb (Some ip) ?h1] =>
      destruct (http_dns_cb_inv h1 (Some ip)) as (h' & E & Hi' & _ & Er & R2) end;
      [done | done | by exists (request_text hs ps) | done | done | cbn [api set_api]; congruence
      | cbn [api set_api]; change (ERR_OK =? ERR_INPROGRESS) with false in D1; cbn [andb] in D1; congruence
      | intros i [= <-]; by apply Hip |].
    exists h'. split_and!; [exact E | done | by etransitivity; [exact R1|] |]. intros _. by rewrite Er.
  - rewrite bool_decide_true, andb_true_r in D1 by done. destruct (Z.eqb_spec e ERR_INPROGRESS).
    + eexists. split; [reflexivity|]. split; [|by split; [exact R1|]]. split_and!; [done | done|]. cbn.
      split; [by eexists|]. left. rewrite D1, C1. split_and!; try done. by rewrite Hd.
    + match goal with |- context [on_con (uart_println (lit "[HTTP] DNS error.")) ?h1] =>
        destruct (on_con_prints _ _ h1 (uart_println_lit "[HTTP] DNS error." eq_refl)) as (w4 & -> & _) end.
      rewrite bind_ok. eexists. split; [reflexivity|]. split; [|by split; [exact R1|]]. apply idle_inv; try done.
      split_and!; cbn; congruence.
Qed.

(** A connection that is open. *)
Lemma http_connected_cb_inv h x c :
  length (request_buf h) = 256%nat -> length (ntoa_buf h) = 16%nat -> (exists s, cstring (request_buf h) s) ->
  http_busy h = true -> http_pcb h = Some x -> conns (api h) = {[x := c]} -> phase c = Open ->
  dns_waiting (api h) = 0%nat ->
  exists h' e, http_connected_cb x ERR_OK h = Ok (h', e) /\ http_inv h' /\ kept (api h) (api h').
Proof.
  intros Hr Hn [rs Hreq] Hb Hp Hc Hph Hd. unfold http_connected_cb. rewrite Z.eqb_refl. cbn [negb].
  destruct (println_line "[HTTP] Connected. Sending request..." h eq_refl) as (w & -> & _). rewrite bind_ok.
  assert (Hx : conns (api h) !! x = Some c) by (by rewrite Hc, lookup_singleton_eq).
  unfold on_api. cbn [api set_con].
  destruct (tcp_recv_spec x (Some http_recv_cb_ptr) _ _ Hx) as (a1 & -> & C1 & D1 & R1). rewrite !bind_ok. cbn [api set_api set_con].
  assert (Hx1 : conns a1 !! x = Some (Conn Open (Some http_recv_cb_ptr) (on_err c))) by (by rewrite C1, lookup_insert_eq, Hph).
  destruct (tcp_err_spec x (Some http_err_cb_ptr) _ _ Hx1) as (a2 & -> & C2 & D2 & R2). rewrite !bind_ok.
  set (c2 := Conn Open (Some http_recv_cb_ptr) (Some http_err_cb_ptr)).
  assert (Hc2 : conns a2 = {[x := c2]}) by (rewrite C2, C1, Hc, insert_insert_eq; apply insert_singleton_eq).
  assert (Hx2 : conns a2 !! x = Some c2) by (by rewrite Hc2, lookup_singleton_eq).
  cbn [request_buf set_api set_con]. rewrite (strlen_cstring _ _ Hreq), bind_ok. cbn [api set_api].
  destruct (tcp_write_spec x (request_buf h) (length rs) TCP_WRITE_FLAG_COPY a2 c2 Hx2 eq_refl) as (a3 & e & -> & C3 & D3 & R3).
  { destruct Hreq as [_ [r Er]]. rewrite Er, length_app. lia. }
  rewrite bind_ok. rewrite <- C3 in Hx2. destruct (e =? ERR_OK).
  - destruct (tcp_output_spec x a3 c2 Hx2 eq_refl) as (a4 & e4 & -> & C4 & D4 & R4). rewrite bind_ok.
    eexists _, _. split; [reflexivity|]. split; [|by chain_refs]. split_and!; [done | done|]. cbn. rewrite Hb. split; [by exists rs|].
    right. exists x, c2. split_and!; [done | congruence | congruence | done | by right].
  - match goal with |- context [println _ ?h1] =>
      destruct (println_line "[HTTP] Failed to write request." h1 eq_refl) as (w4 & -> & _) end. rewrite bind_ok.
    match goal with |- context [http_close_conn x ?h1] => destruct (http_close_conn_spec x c2 h1 Hx2) as (a5 & w5 & -> & C5 & D5 & R5 & _) end.
    rewrite bind_ok. eexists _, _. split; [reflexivity|]. split; [|by chain_refs]. apply idle_inv; try done. split_and!; try done; cbn.
    + rewrite C5. cbn. rewrite C3, Hc2. apply delete_singleton_eq.
    + rewrite D5. cbn. congruence.
Qed.

Lemma http_err_cb_idle h err : -128 <= err < 128 ->
  exists w, http_err_cb err h = Ok (set_busy false (set_pcb None (set_con w h))).
Proof.
  intros He. unfold http_err_cb.
  destruct (on_con_prints _ _ h (prints_putc_then (uart_print (lit "[HTTP] Error: ")) _ 10 (uart_print_lit "[HTTP] Error: " eq_refl)))
    as (w1 & E1 & _). change (fun w => uart_print (lit "[HTTP] Error: ") (putc 10 w)) with (uart_print (10 :: lit "[HTTP] Error: ")) in E1.
  rewrite E1, bind_ok. assert (exists l, prints (uart_print_int err) l) as [l Hl].
  { destruct (decide (err < 0)); [exists []; by apply uart_print_int_negative | eexists; apply uart_print_int_prints; lia]. }
  destruct (on_con_prints _ _ (set_con w1 h) Hl) as (w2 & -> & _). rewrite bind_ok.
  destruct (println_line "" (set_con w2 (set_con w1 h)) eq_refl) as (w3 & -> & _). rewrite bind_ok. by exists w3.
Qed.

(** The one connection of a busy client. *)
Lemma busy_conn h x c : http_inv h -> conns (api h) !! x = Some c ->
  http_busy h = true /\ http_pcb h = Some x /\ conns (api h) = {[x := c]} /\ dns_waiting (api h) = 0%nat /\
  exists s, cstring (request_buf h) s.
Proof.
  intros (_ & _ & Hi) Hx. destruct (http_busy h); [|destruct Hi as (_ & Hc & _); by rewrite Hc, lookup_empty in Hx].
  destruct Hi as [Hreq [(_ & Hc & _)|(y & d & Hp & Hc & Hd & _)]]; [by rewrite Hc, lookup_empty in Hx|].
  rewrite Hc in Hx. apply lookup_singleton_Some in Hx as [<- <-]. done.
Qed.

Variable custom_free_function : ptr -> store P1 P2 -> res (store P1 P2).

(** Received data is printed, acknowledged and freed. *)
Lemma http_recv_data h x p E l c : conns (api h) !! x = Some c -> phase c = Open ->
  ref_inv (pb (api h)) (({[+ p +]} ⊎ E) ⊎ stack_refs (api h)) -> packet (pbufs (pb (api h))) (areas (pb (api h))) p l ->
  exists a w, http_recv_cb custom_free_function x (Some p) ERR_OK h = Ok (set_api a (set_con w h), ERR_OK) /\
    conns a = conns (api h) /\ dns_waiting a = dns_waiting (api h) /\ ref_inv (pb a) (E ⊎ stack_refs a) /\
    output w = output (con h) ++ chain_data (areas (pb (api h))) l.
Proof.
  intros Hx Hph Hs Hp. unfold http_recv_cb. rewrite Z.eqb_refl. cbn [negb]. cbv zeta.
  pose proof (chain_at_fuel _ _ _ (pk_chain _ _ _ _ Hp)) as Hf.
  destruct (on_con_prints _ _ h (print_chain_prints _ _ (chain_fuel (pbufs (pb (api h)))) p l Hp ltac:(lia))) as (w & -> & Hw).
  rewrite bind_ok. assert (exists b, deref (pbufs (pb (api h))) p = Ok b) as [b ->].
  { destruct l as [|[y b] l]; [by apply packet_nil in Hp|]. apply packet_cons in Hp as (-> & Hb & _). by exists b. }
  rewrite bind_ok. unfold on_api, free_packet. cbn [api set_con].
  destruct (tcp_recved_spec x (tot_len b) _ _ Hx Hph) as (a1 & -> & C1 & D1 & R1). rewrite !bind_ok. cbn [api set_api].
  apply R1 in Hs. rewrite <- (assoc_L (⊎)) in Hs.
  destruct (pbuf_free_inv custom_free_function (pb a1) _ p Hs) as (s2 & n & -> & Hs2 & _); [multiset_solver|].
  rewrite !bind_ok. destruct (pb_set s2 a1) as (Es & Ec & Ed & Er).
  eexists _, w. split; [reflexivity|]. split_and!; [congruence | congruence | | done]. rewrite Es, Er.
  by replace (({[+ p +]} ⊎ (E ⊎ stack_refs a1)) ∖ {[+ p +]}) with (E ⊎ stack_refs a1) in Hs2 by multiset_solver.
Qed.

Lemma http_event_inv h ev a : http_inv h -> settled (api h) -> stack_move ev (api h) a ->
  exists h', http_exec custom_free_function ev (set_api a h) = Ok h' /\ http_inv h' /\ settled (api h') /\
    match ev with EvClosed _ | EvError _ _ | EvDns None => http_busy h' = false | _ => True end.
Proof.
  intros Hi Hs [Hsett Hm]. pose proof Hi as (Hr & Hn & Hst). specialize (Hsett Hs).
  assert (Hkept : forall a', kept a a' -> handed ev = ∅ -> settled a').
  { intros a' Hk E0. rewrite E0 in Hsett. apply Hk in Hsett. unfold settled. by rewrite (left_id_L ∅ (⊎)) in Hsett. }
  destruct ev as [hostname path|ip|x|x p|x|x err]; cbn [stack_move http_exec] in *.
  - destruct Hm as (-> & hs & ps & Hh & Hp & Hl). assert (Eh : set_api (api h) h = h) by by destruct h.
    rewrite Eh. destruct (http_get_inv h hostname path hs ps Hi Hh Hp Hl) as (h' & E & Hi' & R & _). exists h'. split_and!; [done | done | by apply Hkept | done].
  - destruct Hm as (Hd & Hc & Hip).
    destruct (http_busy h) eqn:Hb; [|destruct Hst as (_ & _ & Hd0); lia].
    destruct Hst as [Hreq [(Hp & Hc0 & Hd1)|(x & c & _ & _ & Hd0 & _)]]; [|lia].
    destruct (http_dns_cb_inv (set_api a h) ip) as (h' & E & Hi' & Hbz & _ & R);
      [done | done | done | done | done | cbn [api set_api]; congruence | cbn [api set_api]; lia | done |].
    exists h'. split_and!; [done | done | by apply Hkept |]. destruct ip; [done | by apply Hbz].
  - destruct Hm as (Hd & c & Hx & Hph & Hc). destruct (busy_conn h x c Hi Hx) as (Hb & Hp & Hcs & Hd0 & Hreq).
    destruct (http_connected_cb_inv (set_api a h) x (Conn Open (on_recv c) (on_err c))) as (h' & e & -> & Hi' & R);
      [done | done | done | done | done | | done | cbn [api set_api]; congruence |].
    { cbn [api set_api]. rewrite Hc, Hcs. apply insert_singleton_eq. }
    rewrite bind_ok. exists h'. split_and!; [done | done | by apply Hkept | done].
  - destruct Hm as (Hd & Hc & (c & Hx & Hph & Hrecv) & l & Hpk). rewrite <- Hc in Hx.
    destruct (http_recv_data (set_api a h) x p ∅ l c Hx Hph) as (a2 & w & -> & C2 & D2 & R2 & _); [by rewrite (right_id_L ∅ (⊎)) | done |].
    rewrite bind_ok. rewrite (left_id_L ∅ (⊎)) in R2. eexists. split; [reflexivity|]. split; [|by split]. split_and!; [done | done|]. cbn [http_busy http_pcb request_buf api set_api set_con] in *.
    by rewrite C2, D2, Hc, Hd.
  - destruct Hm as (Hd & Hc & c & Hx & Hph & Hrecv). destruct (busy_conn h x c Hi Hx) as (Hb & Hp & Hcs & Hd0 & Hreq).
    rewrite <- Hc in Hx. unfold http_recv_cb. destruct (http_close_conn_spec x c (set_api a h) Hx) as (a2 & w & -> & C2 & D2 & R2 & _).
    rewrite !bind_ok. eexists. split; [reflexivity|]. split; [|split; [by apply Hkept | done]]. apply idle_inv; try done. split_and!; try done; cbn [api set_api set_con set_busy set_pcb] in *.
    + rewrite C2, Hc, Hcs. apply delete_singleton_eq.
    + congruence.
  - destruct Hm as (Hd & He & (c & Hx & Herr) & Hc). destruct (busy_conn h x c Hi Hx) as (Hb & Hp & Hcs & Hd0 & Hreq).
    destruct (http_err_cb_idle (set_api a h) err He) as (w & ->). eexists. split; [reflexivity|]. split; [|split; [by apply Hkept | done]].
    apply idle_inv; try done. split_and!; try done; cbn [api set_api set_con set_busy set_pcb] in *.
    + rewrite Hc, Hcs. apply delete_singleton_eq.
    + congruence.
Qed.

End Handlers.

(** ** Properties *)

(** One step of the client: the stack moves and calls it. *)
Definition http_step {P1 P2 A W : Type} `{!PoolAlloc P1} `{!PoolAlloc P2} `{!TcpApi P1 P2 A} `{!Console W}
    (custom_free_function : ptr -> store P1 P2 -> res (store P1 P2)) (h h' : http A W) : Prop :=
  exists ev a, stack_move ev (api h) a /\ http_exec custom_free_function ev (set_api a h) = Ok h'.

(** C25: the client at work. From boot, whatever sequence of commands, DNS
    answers, connects, packets, closes and errors the stack produces, no
    callback faults: no operation is applied to a connection that has been
    closed or has failed, and no buffer overflows. Every packet handed over is
    freed exactly once: after each callback all references to pbufs are the
    stack's own again, none is left with the client and none is given back
    twice. http_is_busy tells exactly whether the stack still owes the client a
    DNS answer or the end of a connection, of which there is at most one; after
    a failed DNS answer, an error or a close it is idle. *)
Theorem http_client_safe {P1 P2 A W : Type} `{!PoolAlloc P1} `{!PoolAlloc P2} `{!TcpApi P1 P2 A} `{!Console W}
    (custom_free_function : ptr -> store P1 P2 -> res (store P1 P2)) (a0 a : A) (w0 : W) (ntoa0 : list Z)
    (h : http A W) (ev : http_event) :
  conns a0 = ∅ -> dns_waiting a0 = 0%nat -> settled a0 -> length ntoa0 = 16%nat ->
  rtc (http_step custom_free_function) (Http None false (replicate 256 0) a0 w0 ntoa0) h ->
  stack_move ev (api h) a ->
  (http_is_busy h = false <-> conns (api h) = ∅ /\ dns_waiting (api h) = 0%nat) /\
  (size (conns (api h)) + dns_waiting (api h) <= 1)%nat /\
  exists h', http_exec custom_free_function ev (set_api a h) = Ok h' /\ ref_inv (pb (api h')) (stack_refs (api h')) /\
    match ev with EvClosed _ | EvError _ _ | EvDns None => http_is_busy h' = false | _ => True end.
Proof.
  intros Hc0 Hd0 Hs0 Hn0 Hrun Hm.
  assert (Hi : http_inv h /\ settled (api h)).
  { assert (Hi0 : http_inv (Http None false (replicate 256 0) a0 w0 ntoa0) /\ settled a0) by (by split_and!).
    change a0 with (api (Http None false (replicate 256 0) a0 w0 ntoa0)) in Hi0 at 2.
    remember (Http None false (replicate 256 0) a0 w0 ntoa0) as h0 eqn:E0. clear E0 Hm Hs0.
    induction Hrun as [|h0 h1 h2 (ev1 & a1 & Hm1 & E1) _ IH]; [done|]. apply IH.
    destruct (http_event_inv custom_free_function h0 ev1 a1 (proj1 Hi0) (proj2 Hi0) Hm1) as (h' & E & Hi' & Hs' & _). split; congruence. }
  destruct Hi as [Hi Hs]. destruct (http_event_inv custom_free_function h ev a Hi Hs Hm) as (h' & E & _ & Hs' & Hev).
  destruct Hi as (_ & _ & Hi). unfold http_is_busy.
  split; [|split; [|by exists h']]; destruct (http_busy h).
  - split; [done|]. intros [Hc Hd]. destruct Hi as [_ [(_ & _ & Hd1)|(x & c & _ & Hc1 & _)]]; [congruence|].
    rewrite Hc in Hc1. symmetry in Hc1. by apply map_non_empty_singleton in Hc1.
  - split; [|done]. intros _. tauto.
  - destruct Hi as [_ [(_ & Hc & Hd)|(x & c & _ & Hc & Hd & _)]]; rewrite Hc, Hd;
      [rewrite map_size_empty | rewrite map_size_singleton]; lia.
  - destruct Hi as (_ & Hc & Hd). rewrite Hc, Hd, map_size_empty. lia.
Qed.

(** The request. An idle client asked for [path] on [hostname] leaves in
    its buffer of 256 bytes exactly the text of the GET request when it fits
    with its NUL, and runs over the end of the buffer otherwise; for the path
    "/" and the at most 58 characters that the shell can pass it fits. *)
Theorem http_get_request {P1 P2 A W : Type} `{!PoolAlloc P1} `{!PoolAlloc P2} `{!TcpApi P1 P2 A} `{!Console W}
    (h : http A W) hostname path hs ps :
  http_inv h -> http_busy h = false -> cstring hostname hs -> cstring path ps ->
  (if (length (request_text hs ps) <? 256)%nat
   then exists h', http_get hostname path h = Ok h' /\ http_inv h' /\ cstring (request_buf h') (request_text hs ps)
   else http_get hostname path h = Err OutOfBounds) /\
  ((length hs <= 58)%nat -> ps = str "/" -> (length (request_text hs ps) < 256)%nat).
Proof.
  intros Hi Hb Hh Hp. split.
  - destruct (Nat.ltb_spec (length (request_text hs ps)) 256).
    + destruct (http_get_inv h hostname path hs ps Hi Hh Hp) as (h' & E & Hi' & _ & Hr); [done|]. exists h'. auto.
    + unfold http_get. rewrite Hb. cbn [request_buf set_busy].
      pose proof (build_request_spec hostname path (request_buf h) hs ps Hh Hp) as Hf. destruct Hi as [Hr _].
      unfold fills in Hf. rewrite Hr in Hf. destruct (Nat.ltb_spec (length (request_text hs ps)) 256); [lia|].
      by rewrite Hf.
  - intros Hl ->. by apply request_fits.
Qed.

(** The response. A packet that arrives on the open connection is printed
    byte by byte, whatever its cuts, is acknowledged to the stack and freed:
    its reference is given up and the connection stays as it is. *)
Theorem http_recv_prints {P1 P2 A W : Type} `{!PoolAlloc P1} `{!PoolAlloc P2} `{!TcpApi P1 P2 A} `{!Console W}
    (custom_free_function : ptr -> store P1 P2 -> res (store P1 P2)) (h : http A W) x p E l c :
  conns (api h) !! x = Some c -> phase c = Open ->
  ref_inv (pb (api h)) (({[+ p +]} ⊎ E) ⊎ stack_refs (api h)) -> packet (pbufs (pb (api h))) (areas (pb (api h))) p l ->
  exists a w, http_recv_cb custom_free_function x (Some p) ERR_OK h = Ok (set_api a (set_con w h), ERR_OK) /\
    conns a = conns (api h) /\ dns_waiting a = dns_waiting (api h) /\ ref_inv (pb a) (E ⊎ stack_refs a) /\
    output w = output (con h) ++ chain_data (areas (pb (api h))) l.
Proof. apply http_recv_data. Qed.

(** ** Witnesses *)

(** A stack with a single connection, number 1, that checks every call: an
    operation on a connection that is not there, or not open, is a fault. *)
Record mini : Type := Mini { m_pb : store pool pool; m_conns : gmap Z conn; m_dns : nat; m_refs : gmultiset ptr }.

Definition mini_conn (x : Z) (a : mini) : res conn := of_option BadPointer (m_conns a !! x).
Definition mini_open (x : Z) (a : mini) : res conn :=
  c ← mini_conn x a; match phase c with Open => Ok c | _ => Err BadPointer end.
Definition mini_set (x : Z) (c : conn) (a : mini) : mini := Mini (m_pb a) (<[x := c]> (m_conns a)) (m_dns a) (m_refs a).

#[local] Instance witness_pool : PoolAlloc pool := memp_alloc pbuf_pool_desc pbuf_pool_desc_ok.

(** What this stack does is plain to see. *)
Ltac mini_ok := split_and?; [reflexivity | try done; by intros E HE ..].

#[local] Program Instance mini_api : @TcpApi pool pool mini witness_pool witness_pool :=
  {| pb := m_pb;
     set_pb s a := Mini s (m_conns a) (m_dns a) (m_refs a);
     conns := m_conns;
     dns_waiting := m_dns;
     stack_refs := m_refs;
     tcp_new a := if decide (m_conns a !! 1 = None) then Ok (mini_set 1 (Conn Fresh None None) a, Some 1) else Ok (a, None);
     tcp_arg x a := _ ← mini_conn x a; Ok a;
     tcp_sent x f a := _ ← mini_conn x a; Ok a;
     tcp_poll x f n a := _ ← mini_conn x a; Ok a;
     tcp_recv x f a := c ← mini_conn x a; Ok (mini_set x (Conn (phase c) f (on_err c)) a);
     tcp_err x f a := c ← mini_conn x a; Ok (mini_set x (Conn (phase c) (on_recv c) f) a);
     tcp_connect x ip port f a := c ← mini_conn x a; Ok (mini_set x (Conn Connecting (on_recv c) (on_err c)) a, ERR_OK);
     tcp_write x d n fl a := _ ← mini_open x a; Ok (a, ERR_OK);
     tcp_output x a := _ ← mini_open x a; Ok (a, ERR_OK);
     tcp_recved x n a := _ ← mini_open x a; Ok a;
     tcp_close x a := _ ← mini_conn x a; Ok (Mini (m_pb a) (delete x (m_conns a)) (m_dns a) (m_refs a), ERR_OK);
     dns_gethostbyname b f a :=
       Ok (Mini (m_pb a) (m_conns a) (if decide (f = http_dns_cb_ptr) then S (m_dns a) else m_dns a) (m_refs a), ERR_INPROGRESS, 0) |}.
Next Obligation. done. Qed.
Next Obligation. intros a. cbv beta. case_decide; eexists _, _; mini_ok. Qed.
Next Obligation. intros x a c Hc. cbv beta. unfold mini_conn. rewrite Hc. eexists. mini_ok. Qed.
Next Obligation. intros x f a c Hc. cbv beta. unfold mini_conn. rewrite Hc. eexists. mini_ok. Qed.
Next Obligation. intros x f n a c Hc. cbv beta. unfold mini_conn. rewrite Hc. eexists. mini_ok. Qed.
Next Obligation. intros x f a c Hc. cbv beta. unfold mini_conn. rewrite Hc. eexists. mini_ok. Qed.
Next Obligation. intros x f a c Hc. cbv beta. unfold mini_conn. rewrite Hc. eexists. mini_ok. Qed.
Next Obligation. intros x ip port f a c Hc _. cbv beta. unfold mini_conn. rewrite Hc. eexists _, _. mini_ok. Qed.
Next Obligation. intros x d n fl a c Hc Hp _. cbv beta. unfold mini_open, mini_conn. rewrite Hc. cbn [of_option]. rewrite bind_ok, Hp. eexists _, _. mini_ok. Qed.
Next Obligation. intros x a c Hc Hp. cbv beta. unfold mini_open, mini_conn. rewrite Hc. cbn [of_option]. rewrite bind_ok, Hp. eexists _, _. mini_ok. Qed.
Next Obligation. intros x n a c Hc Hp. cbv beta. unfold mini_open, mini_conn. rewrite Hc. cbn [of_option]. rewrite bind_ok, Hp. eexists. mini_ok. Qed.
Next Obligation. intros x a c Hc. cbv beta. unfold mini_conn. rewrite Hc. eexists _, _. mini_ok. Qed.
Next Obligation. intros b s f a _. cbv beta. eexists _, _, _. split; [reflexivity|]. split; [done|]. split; [by destruct f | split; [by intros E HE | done]]. Qed.

Definition mini_store : store pool pool :=
  Store ∅ ∅ (boot_pool pbuf_pool_desc) (boot_pool pbuf_pool_desc) heap_fresh false.
Definition mini_boot : mini := Mini mini_store ∅ 0 ∅.
Definition http_boot : http mini (list Z) := Http None false (replicate 256 0) mini_boot [] (replicate 16 0).
Definition no_custom (p : ptr) (s : store pool pool) : res (store pool pool) := Ok s.

(** The moves of this stack before a callback. *)
Definition mini_move (ev : http_event) (a : mini) : mini :=
  match ev with
  | EvDns _ => Mini (m_pb a) (m_conns a) (pred (m_dns a)) (m_refs a)
  | EvConnected x => mini_set x (Conn Open None (Some http_err_cb_ptr)) a
  | EvError x _ => Mini (m_pb a) (delete x (m_conns a)) (m_dns a) (m_refs a)
  | _ => a
  end.
Definition mini_step (ev : http_event) (h : http mini (list Z)) : http mini (list Z) :=
  match http_exec no_custom ev (set_api (mini_move ev (api h)) h) with Ok h' => h' | Err _ => h end.

Lemma mini_settled ev a : handed ev = ∅ -> settled a -> ref_inv (pb (mini_move ev a)) (handed ev ⊎ stack_refs (mini_move ev a)).
Proof. intros -> Hs. rewrite (left_id_L ∅ (⊎)). by destruct ev. Qed.

(** curl example.com: the name is resolved and the connection established. *)
Definition curl1 : http_event := EvGet (lit "example.com") (lit "/").
Definition http1 : http mini (list Z) := mini_step curl1 http_boot.
Definition http2 : http mini (list Z) := mini_step (EvDns (Some 0x22D8B85D)) http1.
Definition http3 : http mini (list Z) := mini_step (EvConnected 1) http2.

Lemma mini_store_inv : @ref_inv pool pool witness_pool witness_pool mini_store ∅.
Proof.
  split; cbn [pbufs mini_store]; try (intros *; rewrite lookup_empty; done).
  - intros x Hx. multiset_solver.
  - exists ∅. split; [|intros a; rewrite lookup_empty; by intros []]. apply boot_pool_rep, pbuf_pool_desc_ok.
  - exists ∅. split; [|intros a; rewrite lookup_empty; by intros []]. apply boot_pool_rep, pbuf_pool_desc_ok.
  - exists [(16000, false)]. split; [exact heap_fresh_rep|]. intros a. rewrite lookup_empty. by intros [].
Qed.

(** A packet "HTTP" in one pbuf of the heap, on the open connection. *)
Definition data_alloc : res (store pool pool * option ptr) :=
  @pbuf_alloc pool pool witness_pool witness_pool no_custom (fun i => nth i (str "HTTP") 0) 0 4 PBUF_RAM mini_store.
Definition data_store : store pool pool := match data_alloc with Ok (s, _) => s | Err _ => mini_store end.
Definition data_pbuf : pbuf := Pbuf None (Some (HeapPtr 8, 0)) 4 4 0x80 0 1 0.
Definition http_data : http mini (list Z) := set_api (Mini data_store (m_conns (api http3)) 0 ∅) http3.

Lemma data_store_inv : @ref_inv pool pool witness_pool witness_pool data_store {[+ HeapPtr 8 +]}.
Proof.
  destruct (@pbuf_alloc_inv pool pool witness_pool witness_pool no_custom (fun i => nth i (str "HTTP") 0) mini_store ∅ 0 4
    PBUF_RAM mini_store_inv ltac:(lia)) as (s' & r & E & Hs & _).
  assert (r = Some (HeapPtr 8) /\ s' = data_store) as [-> ->]; [|by rewrite (right_id_L ∅ (⊎)) in Hs].
  change (data_alloc = Ok (s', r)) in E. unfold data_store. rewrite E.
  split; [|done]. assert (E2 : (r ← data_alloc; Ok r.2) = Ok r) by (rewrite E; done). vm_compute in E2. congruence.
Qed.

Lemma data_packet : packet (pbufs data_store) (areas data_store) (HeapPtr 8) [(HeapPtr 8, data_pbuf)].
Proof. split; [by vm_compute | | by vm_compute]. constructor; [eexists; by vm_compute | done]. Qed.

(** Then the packet comes in. *)
Lemma http_client_safe_witness :
  (http_is_busy http3 = false <-> conns (api http3) = ∅ /\ dns_waiting (api http3) = 0%nat) /\
  (size (conns (api http3)) + dns_waiting (api http3) <= 1)%nat /\
  exists h', http_exec no_custom (EvData 1 (HeapPtr 8)) http_data = Ok h' /\
    @ref_inv pool pool witness_pool witness_pool (pb (api h')) ∅.
Proof.
  destruct (http_client_safe no_custom mini_boot (api http_data) [] (replicate 16 0) http3 (EvData 1 (HeapPtr 8))) as (H1 & H2 & h' & E & Hs & _);
    [done | done | exact mini_store_inv | done | | |].
  - apply (rtc_l _ _ http1).
    { exists curl1, mini_boot. split; [|by vm_compute]. split; [by apply (mini_settled curl1)|]. split; [done|]. exists (str "example.com"), (str "/").
      split; [by apply lit_cstring | split; [by apply lit_cstring | by vm_compute; lia]]. }
    apply (rtc_l _ _ http2).
    { exists (EvDns (Some 0x22D8B85D)), (mini_move (EvDns (Some 0x22D8B85D)) (api http1)). split; [|by vm_compute].
      split; [by apply mini_settled|]. split; [by vm_compute | split; [done|]]. intros i [= <-]. split; by vm_compute. }
    apply (rtc_l _ _ http3); [|apply rtc_refl].
    exists (EvConnected 1), (mini_move (EvConnected 1) (api http2)). split; [|by vm_compute].
    split; [by apply mini_settled|]. split; [by vm_compute|]. exists (Conn Connecting None (Some http_err_cb_ptr)). split_and!; by vm_compute.
  - split; [intros _; change (@ref_inv pool pool witness_pool witness_pool data_store ({[+ HeapPtr 8 +]} ⊎ ∅)); rewrite (right_id_L ∅ (⊎)); exact data_store_inv|]. split; [by vm_compute|]. split; [done|].
    split; [exists (Conn Open (Some http_recv_cb_ptr) (Some http_err_cb_ptr)); split; by vm_compute|]. exists [(HeapPtr 8, data_pbuf)]. exact data_packet.
  - split; [exact H1|]. split; [exact H2|]. exists h'. split; [exact E|].
    assert (m_refs (api h') = ∅) as Er; [|change (@ref_inv pool pool witness_pool witness_pool (pb (api h')) (m_refs (api h'))) in Hs; by rewrite Er in Hs].
    assert (E2 : (h ← http_exec no_custom (EvData 1 (HeapPtr 8)) (set_api (api http_data) http3); Ok (m_refs (api h))) = Ok ∅) by (by vm_compute).
    rewrite E, bind_ok in E2. by injection E2.
Defined.

Lemma http_get_request_witness : exists h',
  http_get (lit "example.com") (lit "/") http_boot = Ok h' /\ cstring (request_buf h') (request_text (str "example.com") (str "/")).
Proof.
  destruct (http_get_request http_boot (lit "example.com") (lit "/") (str "example.com") (str "/")) as [H _];
    [by split_and! | done | by apply lit_cstring | by apply lit_cstring |].
  replace (length (request_text (str "example.com") (str "/")) <? 256)%nat with true in H by by vm_compute.
  destruct H as (h' & E & _ & Hr). exists h'. split; [exact E | exact Hr].
Defined.

Lemma http_recv_prints_witness : exists a w,
  http_recv_cb no_custom 1 (Some (HeapPtr 8)) ERR_OK http_data = Ok (set_api a (set_con w http_data), ERR_OK) /\
  @ref_inv pool pool witness_pool witness_pool (pb a) (∅ ⊎ m_refs a) /\ output w = output (con http_data) ++ str "HTTP".
Proof.
  destruct (http_recv_prints no_custom http_data 1 (HeapPtr 8) ∅ [(HeapPtr 8, data_pbuf)]
    (Conn Open (Some http_recv_cb_ptr) (Some http_err_cb_ptr))) as (a & w & E & _ & _ & Hr & Hw).
  - by vm_compute.
  - done.
  - change (@ref_inv pool pool witness_pool witness_pool data_store (({[+ HeapPtr 8 +]} ⊎ ∅) ⊎ ∅)). rewrite !(right_id_L ∅ (⊎)). exact data_store_inv.
  - exact data_packet.
  - exists a, w. split; [exact E|]. split; [exact Hr|]. etransitivity; [exact Hw|]. by vm_compute.
Defined.
