(* ===== verification/Shell.v ===== *)
(** * The kernel's main program: src/src/main.c

    Boot, the line editor and the command interpreter, over the state of all
    the modules it calls. lwip_poll (LwipPort.v) and the functions that set the
    stack up act on that whole state, through the callbacks among other things;
    they are parameters here, with what the shell needs of them as hypotheses of
    the theorems. What the serial line delivers is a stream: [key n] is what the
    [n]-th pass of the input loop finds. *)

From S2P Require Import Prelude Strings Uart Heap Rtc Ramdisk Eth Ip4Addr Alloc Memp Mem Pbuf PbufRef Http.

(** ** Definitions *)

Definition CMD_MAX : Z := 64.

(** What the shell reads of [zanos_netif]. *)
Record netif_info : Type := NetifInfo
  { nif_name : Z * Z; nif_ip : Z; nif_mask : Z; nif_gw : Z; hwaddr : list Z; hwaddr_len : Z }.

Section Shell.
Context {P1 P2 A W : Type} `{!PoolAlloc P1} `{!PoolAlloc P2} `{!TcpApi P1 P2 A} `{!Console W}.

(** The statics of the kernel's modules, the HTTP client's state with the stack
    and the console among them; [buffer] is the local array of [main]. *)
Record shell : Type := ShellState
  { hc : http A W;
    files : list File;
    dg : diag;
    kheap : Heap.heap;
    regs : gmap Z Z;                  (* timer and SysTick registers *)
    edev : mmio;
    nif : netif_info;
    dns_resolved : bool;
    resolved_ip : Z;
    interrupts_on : bool;
    buffer : list Z }.

Definition set_hc (h : http A W) (s : shell) : shell :=
  ShellState h (files s) (dg s) (kheap s) (regs s) (edev s) (nif s) (dns_resolved s) (resolved_ip s) (interrupts_on s) (buffer s).
Definition set_files (f : list File) (s : shell) : shell :=
  ShellState (hc s) f (dg s) (kheap s) (regs s) (edev s) (nif s) (dns_resolved s) (resolved_ip s) (interrupts_on s) (buffer s).
Definition set_diag (d : diag) (s : shell) : shell :=
  ShellState (hc s) (files s) d (kheap s) (regs s) (edev s) (nif s) (dns_resolved s) (resolved_ip s) (interrupts_on s) (buffer s).
Definition set_kheap (h : Heap.heap) (s : shell) : shell :=
  ShellState (hc s) (files s) (dg s) h (regs s) (edev s) (nif s) (dns_resolved s) (resolved_ip s) (interrupts_on s) (buffer s).
Definition set_regs (r : gmap Z Z) (s : shell) : shell :=
  ShellState (hc s) (files s) (dg s) (kheap s) r (edev s) (nif s) (dns_resolved s) (resolved_ip s) (interrupts_on s) (buffer s).
Definition set_edev (m : mmio) (s : shell) : shell :=
  ShellState (hc s) (files s) (dg s) (kheap s) (regs s) m (nif s) (dns_resolved s) (resolved_ip s) (interrupts_on s) (buffer s).
Definition set_nif (n : netif_info) (s : shell) : shell :=
  ShellState (hc s) (files s) (dg s) (kheap s) (regs s) (edev s) n (dns_resolved s) (resolved_ip s) (interrupts_on s) (buffer s).
Definition set_dns (b : bool) (ip : Z) (s : shell) : shell :=
  ShellState (hc s) (files s) (dg s) (kheap s) (regs s) (edev s) (nif s) b ip (interrupts_on s) (buffer s).
Definition set_interrupts (b : bool) (s : shell) : shell :=
  ShellState (hc s) (files s) (dg s) (kheap s) (regs s) (edev s) (nif s) (dns_resolved s) (resolved_ip s) b (buffer s).
Definition set_buffer (b : list Z) (s : shell) : shell :=
  ShellState (hc s) (files s) (dg s) (kheap s) (regs s) (edev s) (nif s) (dns_resolved s) (resolved_ip s) (interrupts_on s) b.

Definition interrupts_enable : shell -> shell := set_interrupts true.
Definition interrupts_disable : shell -> shell := set_interrupts false.

(** A call that prints. *)
Definition on_console (f : W -> res W) (s : shell) : res shell := h ← on_con f (hc s); Ok (set_hc h s).
Definition print (t : list Z) : shell -> res shell := on_console (uart_print t).
Definition println (t : list Z) : shell -> res shell := on_console (uart_println t).
Definition console_putc (c : Z) : shell -> res shell := on_console (fun w => Ok (putc c w)).
Definition on_http (f : http A W -> res (http A W)) (s : shell) : res shell := h ← f (hc s); Ok (set_hc h s).

(** The callback of the shell's own DNS requests. *)
Definition dns_callback (ipaddr : option Z) (s : shell) : shell :=
  match ipaddr with Some ip => set_dns true ip s | None => set_dns true 0 s end.

Variable lwip_poll : shell -> res shell.
Variable key : nat -> option Z.

(** [while (1)] of [getline]; returns the buffer and the number of passes. *)
Fixpoint getline_loop (fuel : nat) (n : nat) (buf : list Z) (i max : Z) (s : shell) : res (list Z * nat * shell) :=
  match fuel with
  | O => Err OutOfFuel
  | S fuel' =>
      s ← lwip_poll s;
      match key n with
      | None => getline_loop fuel' (S n) buf i max s
      | Some c =>
          if (c =? 13) || (c =? 10) then
            s ← println (lit "") s;
            buf ← buf_set buf i 0;
            Ok (buf, S n, s)
          else if (c =? 127) || (c =? 8) then
            if 0 <? i then
              s ← print ([8; 32; 8] ++ [0]) s;
              getline_loop fuel' (S n) buf (i - 1) max s
            else getline_loop fuel' (S n) buf i max s
          else if i <? max - 1 then
            buf ← buf_set buf i c;
            s ← console_putc c s;
            getline_loop fuel' (S n) buf (i + 1) max s
          else getline_loop fuel' (S n) buf i max s
      end
  end.

Definition getline (fuel n : nat) (buf : list Z) (max : Z) (s : shell) : res (list Z * nat * shell) :=
  getline_loop fuel n buf 0 max s.

(** The counter register when a command reads the clock. *)
Variable tav : Z.
Variable dhcp_supplied_address : shell -> bool.

Definition print_lines (ls : list string) (s : shell) : res shell :=
  foldl (fun r l => s ← r; println (lit l) s) (Ok s) ls.

Definition help_lines : list string :=
  ["Available commands:";
   "  help  - show this message";
   "  hello - greet Fauzan";
   "  info  - kernel info";
   "  clear - clear screen (simulated)";
   "  ls    - list RAM disk files";
   "  cat   - read file contents";
   "  time  - show current RTC time";
   "  host  - resolve domain name";
   "  curl  - fetch HTTP (e.g., curl example.com)"]%string.

(** [uart_println(ip4addr_ntoa(addr))] *)
Definition println_ip (addr : Z) (s : shell) : res shell :=
  '(b, ok) ← ip4addr_ntoa (ntoa_buf (hc s)) addr;
  _ ← (if ok : bool then Ok tt else Err BadPointer);
  println b (set_hc (set_ntoa b (hc s)) s).

Definition cmd_ifconfig (s : shell) : res shell :=
  s ← print (lit "Interface: ") s;
  s ← console_putc (nif_name (nif s)).1 s;
  s ← console_putc (nif_name (nif s)).2 s;
  s ← println (lit "") s;
  s ← print (lit "  IP:      ") s;
  s ← println_ip (nif_ip (nif s)) s;
  s ← print (lit "  Mask:    ") s;
  s ← println_ip (nif_mask (nif s)) s;
  s ← print (lit "  Gateway: ") s;
  s ← println_ip (nif_gw (nif s)) s;
  if dhcp_supplied_address s
  then println (lit "  Status:  IP assigned via DHCP") s
  else println (lit "  Status:  Waiting for DHCP...") s.

(** [while (http_is_busy()) lwip_poll();] *)
Fixpoint wait_http (fuel : nat) (s : shell) : res shell :=
  if http_is_busy (hc s) then
    match fuel with
    | O => Err OutOfFuel
    | S fuel' => s ← lwip_poll s; wait_http fuel' s
    end
  else Ok s.

Definition cmd_curl (fuel : nat) (hostname : list Z) (s : shell) : res shell :=
  s ← on_http (http_get hostname (lit "/")) s;
  wait_http fuel s.

(** [while (!dns_resolved && timeout < 2000000)]; [k] iterations are left. *)
Fixpoint wait_dns (k : nat) (s : shell) : res shell :=
  if dns_resolved s then Ok s else
  match k with
  | O => Ok s
  | S k' => s ← lwip_poll s; wait_dns k' s
  end.

Definition DNS_POLLS : nat := N.to_nat 2000000.

Definition cmd_host (domain : list Z) (s : shell) : res shell :=
  s ← print (lit "Resolving ") s;
  s ← println domain s;
  '(a, err, dns_ip) ← dns_gethostbyname domain dns_callback_ptr (api (hc s));
  let s := set_hc (set_api a (hc s)) s in
  if err =? ERR_OK then
    s ← print (lit "IP: ") s;
    println_ip dns_ip s
  else if err =? ERR_INPROGRESS then
    s ← wait_dns DNS_POLLS (set_dns false (resolved_ip s) s);
    if dns_resolved s then
      if negb (resolved_ip s =? IPADDR_ANY) then
        s ← print (lit "IP: ") s;
        println_ip (resolved_ip s) s
      else println (lit "Failed to resolve.") s
    else println (lit "DNS resolution timed out.") s
  else println (lit "DNS error.") s.

Definition cmd_cat (filename : list Z) (s : shell) : res shell :=
  '(r, b) ← ramdisk_read filename (buffer s) (files s);
  let s := set_buffer b s in
  if r =? 0 then println b s else println (lit "File not found") s.

(** [if (n < 10) console_putc('0'); uart_print_int(n);] *)
Definition print_two (n : Z) (s : shell) : res shell :=
  s ← (if n <? 10 then console_putc 48 s else Ok s);
  on_console (uart_print_int n) s.

Definition cmd_time (s : shell) : res shell :=
  let tm := rtc_get_time tav in
  s ← print (lit "Current time: ") s;
  s ← print_two (tm_hour tm) s;
  s ← print (lit ":") s;
  s ← print_two (tm_min tm) s;
  s ← print (lit ":") s;
  s ← print_two (tm_sec tm) s;
  println (lit "") s.

(** The chain of [strcmp] and [strncmp] tests. *)
Definition is_command (cmd : list Z) (name : string) : res bool := r ← strcmp cmd (lit name); Ok (r =? 0).
Definition has_prefix (cmd : list Z) (name : string) (n : Z) : res bool := r ← strncmp cmd (lit name) n; Ok (r =? 0).

Definition run_command (fuel : nat) (cmd : list Z) (s : shell) : res shell :=
  b ← is_command cmd "help"; if b : bool then print_lines help_lines s else
  b ← is_command cmd "hello"; if b : bool then println (lit "Hello Fauzan!") s else
  b ← has_prefix cmd "curl " 5; if b : bool then cmd_curl fuel (drop 5 cmd) s else
  b ← is_command cmd "info"; if b : bool then println (lit "FauzanOS v0.4 - Minimal ARM64 kernel with RAM disk") s else
  b ← is_command cmd "clear"; if b : bool then println (replicate 5 10 ++ [0]) s else
  b ← is_command cmd "ls"; if b : bool then on_console (ramdisk_ls (files s)) s else
  b ← is_command cmd "ifconfig"; if b : bool then cmd_ifconfig s else
  b ← has_prefix cmd "host " 5; if b : bool then cmd_host (drop 5 cmd) s else
  b ← has_prefix cmd "cat " 4; if b : bool then cmd_cat (drop 4 cmd) s else
  b ← has_prefix cmd "diagnostic" 4; if b : bool then on_console (diag_print (dg s) (kheap s) tav) s else
  b ← is_command cmd "time"; if b : bool then cmd_time s else
  println (lit "Unknown command") s.

(** [while (true)] of [main], [k] commands. *)
Fixpoint shell_loop (k : nat) (fuel : nat) (n : nat) (cmd : list Z) (s : shell) : res (nat * shell) :=
  match k with
  | O => Ok (n, s)
  | S k' =>
      s ← print (lit "> ") s;
      '(cmd, n, s) ← getline fuel n cmd CMD_MAX s;
      c ← buf_get cmd 0;
      s ← (if c =? 0 then Ok s else run_command fuel cmd s);
      shell_loop k' fuel n cmd s
  end.

(** *** Boot *)

(** The functions of lwIP that [main] sets the stack up with. *)
Variables lwip_init netif_add netif_set_default netif_set_up dhcp_start : shell -> res shell.

Definition SYST_RVR : Z := 0xE000E014.
Definition SYST_CVR : Z := 0xE000E018.
Definition SYST_CSR : Z := 0xE000E010.

Definition mac_addr : list Z := [0xDE; 0xAD; 0xBE; 0xEF; 0x01; 0x02].

Definition start_stack (s : shell) : res shell :=
  let s := interrupts_disable s in
  s ← lwip_init s;
  s ← netif_add s;
  s ← netif_set_default s;
  s ← netif_set_up s;
  let f := nif s in
  hw ← memcpy (hwaddr f) 0 mac_addr 6;
  let s := set_nif (NetifInfo (nif_name f) (nif_ip f) (nif_mask f) (nif_gw f) hw 6) s in
  s ← dhcp_start s;
  Ok (interrupts_enable s).

Definition kmalloc_drop (n : Z) (s : shell) : res shell :=
  '(_, h, w) ← kmalloc n (kheap s) (con (hc s));
  Ok (set_kheap h (set_hc (set_con w (hc s)) s)).

Definition demo (s : shell) : res shell :=
  '(_, f, d) ← ramdisk_create (lit "file1") (files s) (dg s);
  let s := set_diag d (set_files f s) in
  '(_, f) ← ramdisk_write (lit "file1") (lit "Hello FauzanOS!") (files s);
  let s := set_files f s in
  '(_, b) ← ramdisk_read (lit "file1") (buffer s) (files s);
  let s := set_buffer b s in
  s ← print (lit "Read from file1: ") s;
  println (buffer s) s.

(** [sheap] is the address of the linker symbol. *)
Definition boot (sheap : Z) (s : shell) : res shell :=
  '(h, w) ← heap_init sheap (8 * 1024) (con (hc s));
  let s := set_kheap h (set_hc (set_con w (hc s)) s) in
  s ← println (lit "HEAP INIT DONE") s;
  s ← println (lit "=== ZanOS v0.4 ===") s;
  let s := set_files (ramdisk_init (files s)) (set_diag diag_init s) in
  let s := set_regs (rtc_init (regs s)).1 s in
  '(m, w) ← eth_init mac_addr (edev s) (con (hc s));
  let s := set_edev m (set_hc (set_con w (hc s)) s) in
  s ← start_stack s;
  s ← println (lit "[LWIP] lwIP Stack Initialized & DHCP Started.") s;
  let s := set_regs (reg_write SYST_CSR 7 (reg_write SYST_CVR 0 (reg_write SYST_RVR (160000 - 1) (regs s)))) s in
  let s := interrupts_enable s in
  s ← println (lit "Interrupts enabled.") s;
  s ← kmalloc_drop 100 s;
  s ← kmalloc_drop 28 s;
  demo s.

(** [main]: boot, then [k] commands. *)
Definition main (sheap : Z) (k fuel : nat) (cmd : list Z) (s : shell) : res (nat * shell) :=
  s ← boot sheap s; shell_loop k fuel 0 cmd s.

End Shell.

Arguments shell : clear implicits.

(** *** What the user sees *)

(** Line editing: the line after a character other than ENTER, and the echo. *)
Definition is_erase (c : Z) : bool := (c =? 127) || (c =? 8).
Definition is_enter (c : Z) : bool := (c =? 13) || (c =? 10).
Definition edit (max : nat) (line : list Z) (c : Z) : list Z :=
  if is_erase c then take (pred (length line)) line
  else if (S (length line) <? max)%nat then line ++ [c] else line.
Definition echo (max : nat) (line : list Z) (c : Z) : list Z :=
  if is_erase c then match line with [] => [] | _ => [8; 32; 8] end
  else if (S (length line) <? max)%nat then [c] else [].

Fixpoint edited (max : nat) (line cs : list Z) : list Z :=
  match cs with [] => line | c :: cs' => edited max (edit max line c) cs' end.
Fixpoint echoed (max : nat) (line cs : list Z) : list Z :=
  match cs with [] => [] | c :: cs' => echo max line c ++ echoed max (edit max line c) cs' end.

(** The characters found in the passes from [n] to before [m]. *)
Definition typed (key : nat -> option Z) (n m : nat) : list Z := omap key (seq n (m - n)).

(** What appears on the screen in some passes: each begins with what the poll
    prints, which is followed by the echo of the character that the pass finds,
    or by a line feed for ENTER. *)
Fixpoint pass_text (max : nat) (line : list Z) (passes : list (list Z * option Z)) : list Z :=
  match passes with
  | [] => []
  | (t, None) :: ps => t ++ pass_text max line ps
  | (t, Some c) :: ps => t ++ (if is_enter c then [10] else echo max line c ++ pass_text max (edit max line c) ps)
  end.

(** The passes from [n] to [m], in which the polls print [ts]. *)
Definition passes (key : nat -> option Z) (ts : list (list Z)) (n m : nat) : list (list Z * option Z) :=
  zip ts (key <$> seq n (S (m - n))).

(** What the shell answers to a line; the commands that use the network are not
    answered from the kernel's own state. *)
Definition two_digits (n : Z) : list Z := (if n <? 10 then [48] else []) ++ dec_string n.
Definition time_text (tav : Z) : list Z :=
  let tm := rtc_get_time tav in
  str "Current time: " ++ two_digits (tm_hour tm) ++ str ":" ++ two_digits (tm_min tm) ++ str ":" ++
  two_digits (tm_sec tm) ++ [10].

Definition help_text : list Z := mjoin (line <$> help_lines).

Definition reply (fs : list File) (d : diag) (h : Heap.heap) (tav : Z) (s : list Z) : option (list Z) :=
  if decide (s = str "help") then Some help_text
  else if decide (s = str "hello") then Some (line "Hello Fauzan!")
  else if decide (take 5 s = str "curl ") then None
  else if decide (s = str "info") then Some (line "FauzanOS v0.4 - Minimal ARM64 kernel with RAM disk")
  else if decide (s = str "clear") then Some (replicate 6 10)
  else if decide (s = str "ls") then Some (line "Files in RAM Disk:" ++ spec_ls (abs fs))
  else if decide (s = str "ifconfig") then None
  else if decide (take 5 s = str "host ") then None
  else if decide (take 4 s = str "cat ") then
    Some (match spec_read (drop 4 s) (abs fs) with
          | Some c => cname (c ++ [0]) ++ [10]
          | None => line "File not found"
          end)
  else if decide (take 4 s = str "diag") then Some (diag_text d h tav)
  else if decide (s = str "time") then Some (time_text tav)
  else Some (line "Unknown command").

Section Spec.
Context {A W : Type} `{!Console W}.
Implicit Type s : shell A W.

Definition screen (s : shell A W) : list Z := output (con (hc s)).
Definition set_w (w : W) (s : shell A W) : shell A W := set_hc (set_con w (hc s)) s.

(** Everything but the stack and the screen. *)
Definition same_kernel (s s' : shell A W) : Prop :=
  files s' = files s /\ dg s' = dg s /\ kheap s' = kheap s /\ buffer s' = buffer s.

(** What the shell needs of polling. From the states [I], which its own writes
    to the screen and to the buffer do not leave, lwip_poll returns to such a
    state; it may print, a text [T] (the stack does, with NETIF_DEBUG), but does
    not touch the kernel's own data. *)
Record poll_returns (I : shell A W -> Prop) (T : list Z -> Prop) (lwip_poll : shell A W -> res (shell A W)) : Prop := PollReturns
  { po_own : forall s w b, I s -> I (set_buffer b (set_w w s));
    po_poll : forall s, I s -> exists s' t, lwip_poll s = Ok s' /\ I s' /\ T t /\ screen s' = screen s ++ t /\ same_kernel s s' }.

(** A function that returns and only appends [l] to the screen. *)
Definition says (f : shell A W -> res (shell A W)) (l : list Z) : Prop :=
  forall s, exists w, f s = Ok (set_w w s) /\ output w = screen s ++ l.

End Spec.

(** ** Lemmas *)

Section SaysSpec.
Context {A W : Type} `{!Console W}.
Implicit Type s : shell A W.
#[local] Set Default Proof Using "Type*".
#[local] Notation says := (says (A := A) (W := W)).

Lemma set_w_set_w w1 w2 s : set_w w2 (set_w w1 s) = set_w w2 s.
Proof. done. Qed.

Lemma on_console_says f l : prints f l -> says (on_console f) l.
Proof.
  intros Hf s. unfold on_console, on_con. destruct (Hf (con (hc s))) as (w & -> & Hw). rewrite !bind_ok. by exists w.
Qed.

Lemma says_bind f g l1 l2 : says f l1 -> says g l2 -> says (fun s => s ← f s; g s) (l1 ++ l2).
Proof.
  intros Hf Hg s. destruct (Hf s) as (w1 & -> & H1). rewrite bind_ok. destruct (Hg (set_w w1 s)) as (w2 & -> & H2).
  exists w2. split; [done|]. rewrite H2. unfold screen. cbn. by rewrite H1, app_assoc.
Qed.

Lemma print_says t : plain t = true -> says (print (lit t)) (str t).
Proof. intros Ht. by apply on_console_says, uart_print_lit. Qed.
Lemma println_says t : plain t = true -> says (println (lit t)) (line t).
Proof. intros Ht. by apply on_console_says, uart_println_lit. Qed.
Lemma print_cstring_says b t : cstring b t -> says (print b) t.
Proof. intros Ht. by apply on_console_says, uart_print_prints. Qed.
Lemma println_cstring_says b t : cstring b t -> says (println b) (t ++ [10]).
Proof. intros Ht. by apply on_console_says, uart_println_prints. Qed.
Lemma putc_says c : says (console_putc c) [c].
Proof. apply on_console_says, prints_putc. Qed.

End SaysSpec.

(** *** The interpreter *)

Lemma is_command_spec cmd s name : cstring cmd s -> plain name = true ->
  is_command cmd name = Ok (bool_decide (s = str name)).
Proof.
  intros Hc Hn. unfold is_command. destruct (strcmp_eq _ _ _ _ Hc (lit_cstring name Hn)) as (r & -> & Hr).
  rewrite bind_ok. f_equal. apply eq_true_iff_eq. by rewrite Z.eqb_eq, bool_decide_eq_true.
Qed.

Lemma has_prefix_spec cmd s name (n : nat) : cstring cmd s -> plain name = true ->
  has_prefix cmd name n = Ok (bool_decide (take n s = take n (str name))).
Proof.
  intros Hc Hn. unfold has_prefix. destruct (strncmp_eq _ _ _ _ n Hc (lit_cstring name Hn)) as (r & -> & Hr).
  rewrite bind_ok. f_equal. apply eq_true_iff_eq. by rewrite Z.eqb_eq, bool_decide_eq_true.
Qed.

Lemma drop_cstring cmd s (n : nat) : cstring cmd s -> (n <= length s)%nat -> cstring (drop n cmd) (drop n s).
Proof.
  intros [Hs [r ->]] Hn. split; [by apply Forall_drop|]. exists r. by rewrite drop_app_le.
Qed.

Lemma cname_app_cstring c r : cstring (c ++ 0 :: r) (cname (c ++ [0])).
Proof.
  induction c as [|x c IH]; cbn [app cname]; [apply cstring_nil|].
  destruct (Z.eqb_spec x 0) as [->|Hx]; [apply cstring_nil | by apply cstring_cons].
Qed.

Lemma same_kernel_trans {A W} (s1 s2 s3 : shell A W) : same_kernel s1 s2 -> same_kernel s2 s3 -> same_kernel s1 s3.
Proof. unfold same_kernel. intros (-> & -> & -> & ->) (-> & -> & -> & ->). done. Qed.

Section Commands.
Context {P1 P2 A W : Type} `{!PoolAlloc P1} `{!PoolAlloc P2} `{!TcpApi P1 P2 A} `{!Console W}.
Implicit Type s : shell A W.
#[local] Set Default Proof Using "Type*".
#[local] Notation says := (says (A := A) (W := W)).

Lemma print_lines_from (f : shell A W -> res (shell A W)) l0 ls :
  says f l0 -> forallb plain ls = true ->
  says (fun s => foldl (fun r l => s ← r; println (lit l) s) (f s) ls) (l0 ++ mjoin (line <$> ls)).
Proof.
  revert f l0. induction ls as [|l ls IH]; intros f l0 Hf Hls; cbn [foldl fmap list_fmap mjoin list_join].
  - by rewrite app_nil_r.
  - cbn [forallb] in Hls. apply andb_true_iff in Hls as [Hl Hls].
    rewrite app_assoc. apply (IH (fun s => s ← f s; println (lit l) s)); [|done].
    apply says_bind; [done | by apply println_says].
Qed.

Lemma print_lines_says ls : forallb plain ls = true -> says (print_lines ls) (mjoin (line <$> ls)).
Proof.
  intros Hls s. unfold print_lines. destruct (print_lines_from Ok [] ls) with s as (w & E & Hw); [| done | by exists w].
  intros s1. exists (con (hc s1)). split; [by destruct s1 as [[]] | by rewrite app_nil_r].
Qed.

Lemma print_two_says n : 0 <= n < 2147483648 -> says (print_two n) (two_digits n).
Proof.
  intros Hn. unfold print_two, two_digits. apply says_bind; [|by apply on_console_says, uart_print_int_prints].
  destruct (n <? 10); [apply putc_says|]. intros s. exists (con (hc s)). split; [by destruct s as [[]] | by rewrite app_nil_r].
Qed.

Lemma cmd_time_says tav : is_u32 tav -> says (cmd_time tav) (time_text tav).
Proof.
  intros Ht. pose proof (rtc_seconds_range tav Ht) as Hs. unfold cmd_time, time_text. cbv zeta.
  assert (Hr : 0 <= tm_hour (rtc_get_time tav) < 24 /\ 0 <= tm_min (rtc_get_time tav) < 60 /\ 0 <= tm_sec (rtc_get_time tav) < 60).
  { unfold rtc_get_time. cbn [tm_hour tm_min tm_sec]. generalize dependent (rtc_get_seconds tav). intros k Hk. lia. }
  repeat (apply says_bind; [first [by apply print_says | apply print_two_says; lia] |]). by apply (println_says "").
Qed.

Lemma ls_says fs : Forall file_wf fs -> says (on_console (ramdisk_ls fs)) (line "Files in RAM Disk:" ++ spec_ls (abs fs)).
Proof.
  intros Hf. apply on_console_says. apply prints_bind; [by apply uart_println_lit | by apply ls_prints].
Qed.

(** The state in which the shell answers: sound files that fit the buffer, and
    counters in range. *)
Definition shell_ok (s : shell A W) : Prop :=
  Forall file_wf (files s) /\ diag_ok (dg s) (kheap s) /\
  forall n c, spec_read n (abs (files s)) = Some c -> (length c < length (buffer s))%nat.

(** A local command changes the screen and the contents of the buffer. *)
Definition same_but_screen (s s' : shell A W) : Prop :=
  exists w b, s' = set_buffer b (set_w w s) /\ length b = length (buffer s).

Lemma says_runs f l s : says f l -> exists s', f s = Ok s' /\ screen s' = screen s ++ l /\ same_but_screen s s'.
Proof.
  intros Hf. destruct (Hf s) as (w & E & Hw). exists (set_w w s). split; [done|]. split; [done|]. exists w, (buffer s). by destruct s.
Qed.

Lemma cmd_cat_spec cmd n s : shell_ok s -> cstring cmd n ->
  exists s', cmd_cat cmd s = Ok s' /\
    screen s' = screen s ++ (match spec_read n (abs (files s)) with
                             | Some c => cname (c ++ [0]) ++ [10]
                             | None => line "File not found"
                             end) /\ same_but_screen s s'.
Proof.
  intros (Hf & _ & Hb) Hn. unfold cmd_cat, ramdisk_read. rewrite (read_refines _ _ _ (buffer s) Hf Hn).
  destruct (spec_read n (abs (files s))) as [c|] eqn:Ec.
  - specialize (Hb n c Ec). rewrite decide_True by done. rewrite !bind_ok. cbn [Z.eqb].
    match goal with |- context [println ?b0 _] => set (b := b0) end. set (s1 := set_buffer b s).
    assert (Hc : cstring b (cname (c ++ [0]))).
    { unfold b. rewrite list_inserts_splice by (rewrite length_app; cbn [length]; lia).
      rewrite take_0, app_nil_l, <- app_assoc. apply cname_app_cstring. }
    destruct (println_cstring_says (A := A) b _ Hc s1) as (w & E & Hw). change (0 =? 0) with true. rewrite E.
    exists (set_w w s1). split; [done|]. split; [exact Hw|]. exists w, b. split; [done|]. unfold b. by rewrite length_inserts.
  - rewrite !bind_ok. change (-1 =? 0) with false.
    destruct (println_says (A := A) "File not found" eq_refl (set_buffer (buffer s) s)) as (w & -> & Hw).
    eexists. split; [done|]. split; [exact Hw|]. by exists w, (buffer s).
Qed.

(** One test of the interpreter against the same test of [reply]. *)
Ltac test_case :=
  match goal with
  | |- (if decide ?P then _ else _) = _ -> _ =>
      destruct (decide P); [rewrite (bool_decide_true P) by done | rewrite (bool_decide_false P) by done]; rewrite bind_ok
  end.

Lemma run_command_local lwip_poll tav dhcp fuel cmd line_ text s :
  cstring cmd line_ -> shell_ok s -> is_u32 tav -> reply (files s) (dg s) (kheap s) tav line_ = Some text ->
  exists s', run_command lwip_poll tav dhcp fuel cmd s = Ok s' /\ screen s' = screen s ++ text /\ same_but_screen s s'.
Proof.
  intros Hc Hs Ht. pose proof Hs as (Hf & Hd & Hb). unfold reply, run_command.
  rewrite !(is_command_spec cmd line_) by done.
  rewrite (has_prefix_spec cmd line_ "curl " 5 Hc eq_refl : has_prefix cmd "curl " 5%Z = _).
  rewrite (has_prefix_spec cmd line_ "host " 5 Hc eq_refl : has_prefix cmd "host " 5%Z = _).
  rewrite (has_prefix_spec cmd line_ "cat " 4 Hc eq_refl : has_prefix cmd "cat " 4%Z = _).
  rewrite (has_prefix_spec cmd line_ "diagnostic" 4 Hc eq_refl : has_prefix cmd "diagnostic" 4%Z = _).
  change (take 5 (str "curl ")) with (str "curl "). change (take 5 (str "host ")) with (str "host ").
  change (take 4 (str "cat ")) with (str "cat "). change (take 4 (str "diagnostic")) with (str "diag").
  test_case. { intros [= <-]. by apply says_runs, print_lines_says. }
  test_case. { intros [= <-]. by apply says_runs, println_says. }
  test_case; [done|].
  test_case. { intros [= <-]. by apply says_runs, println_says. }
  test_case.
  { intros [= <-]. apply says_runs, (println_cstring_says _ (replicate 5 10)).
    split; [by repeat constructor | by exists []]. }
  test_case. { intros [= <-]. by apply says_runs, ls_says. }
  test_case; [done|].
  test_case; [done|].
  test_case.
  { intros [= <-]. apply cmd_cat_spec; [done|]. apply drop_cstring; [done|].
    match goal with H : take 4 line_ = _ |- _ => apply (f_equal length) in H; rewrite length_take in H end.
    change (length (str "cat ")) with 4%nat in *. lia. }
  test_case. { intros [= <-]. by apply says_runs, on_console_says, diag_print_prints. }
  test_case. { intros [= <-]. by apply says_runs, cmd_time_says. }
  intros [= <-]. by apply says_runs, println_says.
Qed.

End Commands.

(** *** The line editor *)

Lemma typed_step key n m : (n < m)%nat ->
  typed key n m = match key n with Some c => c :: typed key (S n) m | None => typed key (S n) m end.
Proof.
  intros H. unfold typed. replace (m - n)%nat with (S (m - S n)) by lia. cbn [seq]. cbn [omap list_omap].
  by destruct (key n).
Qed.

Lemma typed_nil key n : typed key n n = [].
Proof. unfold typed. by rewrite Nat.sub_diag. Qed.

(** The pointer and the buffer represent the line. *)
Lemma edit_length max line c : (length line < max)%nat -> (length (edit max line c) < max)%nat.
Proof.
  intros H. unfold edit. destruct (is_erase c); [rewrite length_take; lia|].
  destruct (Nat.ltb_spec (S (length line)) max); [rewrite length_app; cbn; lia | done].
Qed.

Lemma edited_length max cs : forall line, (length line < max)%nat -> (length (edited max line cs) < max)%nat.
Proof. induction cs as [|c cs IH]; intros line H; [done|]. apply IH. by apply edit_length. Qed.

Section GetlineSpec.
Context {A W : Type} `{!Console W}.
Implicit Type s : shell A W.
#[local] Set Default Proof Using "Type*".
Variable lwip_poll : shell A W -> res (shell A W).
Variable key : nat -> option Z.
Variable I : shell A W -> Prop.
Variable T : list Z -> Prop.
Hypothesis Hpoll : poll_returns I T lwip_poll.

Lemma own_w s w : I s -> I (set_w w s).
Proof. intros Hs. pose proof (po_own _ _ _ Hpoll s w (buffer s) Hs) as H. by destruct s. Qed.

Lemma getline_loop_spec (max : nat) e d : is_enter e = true -> forall n m fuel buf line s,
  (m = n + d)%nat -> key m = Some e -> (forall i c, (n <= i < m)%nat -> key i = Some c -> is_enter c = false) ->
  (d < fuel)%nat -> length buf = max -> (length line < max)%nat -> (exists rest, buf = line ++ rest) -> I s ->
  exists buf' s' ts, getline_loop lwip_poll key fuel n buf (length line) max s = Ok (buf', S m, s') /\
    length buf' = max /\ (exists rest, buf' = edited max line (typed key n m) ++ 0 :: rest) /\
    length ts = S d /\ Forall T ts /\ screen s' = screen s ++ pass_text max line (passes key ts n m) /\ I s' /\ same_kernel s s'.
Proof.
  intros He. induction d as [|d IH]; intros n m fuel buf line s Hm Hkm Hk Hf Hb Hl [rest Hr] HI;
    (destruct fuel as [|fuel]; [lia|]); cbn [getline_loop];
    destruct (po_poll _ _ _ Hpoll s HI) as (s1 & t & -> & HI1 & Ht & Hs1 & Hk1); rewrite bind_ok.
  - assert (m = n) as -> by lia. rewrite Hkm. fold (is_enter e). rewrite He.
    destruct (println_says (A := A) "" eq_refl s1) as (w & -> & Hw). rewrite bind_ok.
    rewrite buf_set_ok by lia. rewrite bind_ok, Nat2Z.id. eexists _, _, [t]. split; [reflexivity|].
    rewrite typed_nil. cbn [edited app]. split; [by rewrite length_insert|].
    assert (Hrest : (0 < length rest)%nat) by (rewrite Hr, length_app in Hb; lia).
    destruct rest as [|r0 rest]; [cbn in Hrest; lia|]. split.
    + exists rest. rewrite Hr. by rewrite insert_app_r_alt, Nat.sub_diag by done.
    + split; [done|]. split; [by constructor|]. split; [|split; [by apply own_w | exact Hk1]].
      change (screen (set_w w s1)) with (output w). rewrite Hw, Hs1. unfold passes. rewrite Nat.sub_diag. cbn [seq fmap list_fmap]. rewrite Hkm.
      cbn [zip zip_with pass_text]. by rewrite He, <- app_assoc.
  - rewrite (typed_step key n m) by lia.
    assert (Hnext : forall buf2 line2 s2, length buf2 = max -> (length line2 < max)%nat -> (exists r, buf2 = line2 ++ r) -> I s2 ->
      exists buf' s' ts, getline_loop lwip_poll key fuel (S n) buf2 (length line2) max s2 = Ok (buf', S m, s') /\
        length buf' = max /\ (exists r, buf' = edited max line2 (typed key (S n) m) ++ 0 :: r) /\
        length ts = S d /\ Forall T ts /\ screen s' = screen s2 ++ pass_text max line2 (passes key ts (S n) m) /\ I s' /\ same_kernel s2 s').
    { intros buf2 line2 s2 H1 H2 H3 H4. apply IH; try done; [lia | intros i c Hi; apply Hk; lia | lia]. }
    clear IH. assert (Epass : forall ts, passes key (t :: ts) n m = (t, key n) :: passes key ts (S n) m).
    { intros ts. unfold passes. by replace (S (m - n)) with (S (S (m - S n))) by lia. }
    destruct (key n) as [c|] eqn:Ekn.
    2: { destruct (Hnext buf line s1 Hb Hl (ex_intro _ rest Hr) HI1) as (b' & s' & ts & E & Hb' & Hd & Hlt & HT & Hsc & HI' & Hsk).
         exists b', s', (t :: ts). split; [exact E|]. split; [done|]. split; [done|]. split; [cbn; lia|]. split; [by constructor|].
         split; [rewrite Epass; cbn [pass_text]; by rewrite Hsc, Hs1, <- app_assoc|]. split; [done | by eapply same_kernel_trans]. }
    fold (is_enter c). rewrite (Hk n c) by (done || lia). fold (is_erase c).
    cbn [edited].
    assert (Hgo : forall buf2 s2, length buf2 = max -> (exists r, buf2 = edit max line c ++ r) ->
      screen s2 = screen s1 ++ echo max line c -> same_kernel s1 s2 -> I s2 ->
      exists buf' s' ts, getline_loop lwip_poll key fuel (S n) buf2 (length (edit max line c)) max s2 = Ok (buf', S m, s') /\
        length buf' = max /\ (exists r, buf' = edited max (edit max line c) (typed key (S n) m) ++ 0 :: r) /\
        length ts = S (S d) /\ Forall T ts /\ screen s' = screen s ++ pass_text max line (passes key ts n m) /\ I s' /\ same_kernel s s').
    { intros buf2 s2 H1 H2 H3 H4 H5. destruct (Hnext buf2 _ s2 H1 (edit_length max line c Hl) H2 H5) as (b' & s' & ts & E & Hb' & Hd & Hlt & HT & Hsc & HI' & Hsk).
      exists b', s', (t :: ts). split; [exact E|]. split; [done|]. split; [done|]. split; [cbn; lia|]. split; [by constructor|].
      split; [rewrite Epass; cbn [pass_text]; rewrite (Hk n c) by (done || lia); by rewrite Hsc, H3, Hs1, <- !app_assoc|].
      split; [done|]. eapply same_kernel_trans; [exact Hk1|]. by eapply same_kernel_trans. }
    clear Hnext. unfold edit, echo in *. destruct (is_erase c).
    + destruct (Z.ltb_spec 0 (length line)).
      * destruct (print_cstring_says (A := A) ([8; 32; 8] ++ [0]) [8; 32; 8]) with s1 as (w & -> & Hw);
          [split; [by repeat constructor | by exists []] |]. rewrite bind_ok.
        replace (Z.of_nat (length line) - 1) with (Z.of_nat (length (take (pred (length line)) line))) by (rewrite length_take; lia).
        destruct line as [|x0 line]; [cbn in *; lia|]. apply Hgo; try done; [|by apply own_w].
        exists (drop (pred (length (x0 :: line))) (x0 :: line) ++ rest). by rewrite app_assoc, take_drop.
      * destruct line as [|x0 line]; [|cbn in *; lia]. apply Hgo; try done; [by exists rest | by rewrite app_nil_r].
    + destruct (Z.ltb_spec (length line) (max - 1)), (Nat.ltb_spec (S (length line)) max); try lia.
      * rewrite buf_set_ok by lia. rewrite bind_ok, Nat2Z.id.
        destruct (putc_says (A := A) c s1) as (w & -> & Hw). rewrite bind_ok.
        replace (Z.of_nat (length line) + 1) with (Z.of_nat (length (line ++ [c]))) by (rewrite length_app; cbn; lia).
        apply Hgo; try done; [by rewrite length_insert | | by apply own_w].
        assert (Hrest : (0 < length rest)%nat) by (rewrite Hr, length_app in Hb; lia).
        destruct rest as [|r0 rest]; [cbn in Hrest; lia|]. exists rest. rewrite Hr.
        by rewrite insert_app_r_alt, Nat.sub_diag, <- app_assoc by done.
      * apply Hgo; try done; [by exists rest | by rewrite app_nil_r].
Qed.

End GetlineSpec.

(** *** Boot *)

Section Boot.
Context {A W : Type} `{!Console W}.
Implicit Type s : shell A W.
#[local] Set Default Proof Using "Type*".

(** A function of the stack: it takes the stack from the states [J] to the states
    [J'] and may print, a text [T] (netif_add and netif_set_default do), but
    leaves the kernel and the size of the hardware address alone. *)
Definition stack_call (J J' : A -> Prop) (T : list Z -> Prop) (f : shell A W -> res (shell A W)) : Prop :=
  forall s, J (api (hc s)) -> exists s' t, f s = Ok s' /\ J' (api (hc s')) /\ T t /\ screen s' = screen s ++ t /\ same_kernel s s' /\
    length (hwaddr (nif s')) = length (hwaddr (nif s)).

Lemma same_kernel_refl s : same_kernel s s.
Proof. by split_and!. Qed.

Lemma start_stack_spec (J : nat -> A -> Prop) T lwip_init netif_add netif_set_default netif_set_up dhcp_start s :
  stack_call (J 0%nat) (J 1%nat) T lwip_init -> stack_call (J 1%nat) (J 2%nat) T netif_add ->
  stack_call (J 2%nat) (J 3%nat) T netif_set_default -> stack_call (J 3%nat) (J 4%nat) T netif_set_up ->
  stack_call (J 4%nat) (J 5%nat) T dhcp_start -> J 0%nat (api (hc s)) -> length (hwaddr (nif s)) = 6%nat ->
  exists s', start_stack lwip_init netif_add netif_set_default netif_set_up dhcp_start s = Ok s' /\
    (exists ts, length ts = 5%nat /\ Forall T ts /\ screen s' = screen s ++ mjoin ts) /\ J 5%nat (api (hc s')) /\ same_kernel s s'.
Proof.
  intros H1 H2 H3 H4 H5 J0 Hw. unfold start_stack.
  destruct (H1 (interrupts_disable s) J0) as (s1 & t1 & -> & J1 & T1 & S1 & K1 & L1). rewrite bind_ok.
  destruct (H2 s1 J1) as (s2 & t2 & -> & J2 & T2 & S2 & K2 & L2). rewrite bind_ok.
  destruct (H3 s2 J2) as (s3 & t3 & -> & J3 & T3 & S3 & K3 & L3). rewrite bind_ok.
  destruct (H4 s3 J3) as (s4 & t4 & -> & J4 & T4 & S4 & K4 & L4). rewrite bind_ok. cbv zeta.
  assert (Hl : length (hwaddr (nif s4)) = 6%nat) by (rewrite L4, L3, L2, L1; exact Hw).
  assert (Ehw : memcpy (hwaddr (nif s4)) 0 mac_addr 6 = Ok (list_inserts 0 mac_addr (hwaddr (nif s4)))).
  { apply (memcpy_in_bounds _ 0 mac_addr 6); [cbn; lia | lia]. }
  rewrite Ehw, bind_ok.
  match goal with |- context [dhcp_start ?x] => destruct (H5 x) as (s5 & t5 & -> & J5 & T5 & S5 & K5 & _); [exact J4|] end. rewrite bind_ok.
  eexists. split; [reflexivity|]. split; [|split; [exact J5|]].
  - exists [t1; t2; t3; t4; t5]. split; [done|]. split; [by repeat constructor|].
    change (screen (interrupts_enable s5)) with (screen s5). rewrite S5.
    match goal with |- screen ?x ++ _ = _ => change (screen x) with (screen s4) end.
    rewrite S4, S3, S2, S1. change (screen (interrupts_disable s)) with (screen s). cbn. by rewrite app_nil_r, <- !app_assoc.
  - eapply same_kernel_trans; [exact K1|]. eapply same_kernel_trans; [exact K2|]. eapply same_kernel_trans; [exact K3|].
    eapply same_kernel_trans; [exact K4|]. exact K5.
Qed.

Lemma kmalloc_drop_spec n s : 0 <= n -> 0 <= heap_ptr (kheap s) -> heap_ptr (kheap s) + n < heap_end (kheap s) < 4294967296 ->
  0 <= Heap.used (kheap s) -> Heap.used (kheap s) + n < 4294967296 ->
  exists w, kmalloc_drop n s = Ok (set_kheap (Heap.Heap (heap_ptr (kheap s) + n) (heap_end (kheap s)) (Heap.used (kheap s) + n)) (set_w w s)) /\
    output w = screen s ++ line "KMALLOC".
Proof.
  intros Hn Hp He Hu Hu2. unfold kmalloc_drop, kmalloc. rewrite !u32_id by solve_u.
  destruct (Z.leb_spec (heap_end (kheap s)) (heap_ptr (kheap s) + n)); [lia|]. cbv zeta.
  destruct (uart_println_lit "KMALLOC" eq_refl (con (hc s))) as (w & -> & Hw). rewrite !bind_ok. by exists w.
Qed.

End Boot.

(** The RAM disk after boot. *)
Definition created_files : list File :=
  match ramdisk_create (lit "file1") (ramdisk_init files_bss) diag_init with Ok (_, f, _) => f | _ => [] end.
Definition boot_files : list File :=
  match ramdisk_write (lit "file1") (lit "Hello FauzanOS!") created_files with Ok (_, f) => f | _ => [] end.

(** The boot messages, before and after those of the stack. *)
Definition boot_head : list Z :=
  line "HEAP INIT" ++ line "HEAP INIT DONE" ++ line "=== ZanOS v0.4 ===" ++
  line "[ETH] Initializing Ethernet Controller..." ++ line "[ETH] Ethernet Initialized.".
Definition boot_tail : list Z :=
  line "[LWIP] lwIP Stack Initialized & DHCP Started." ++ line "Interrupts enabled." ++
  line "KMALLOC" ++ line "KMALLOC" ++ str "Read from file1: " ++ line "Hello FauzanOS!".

Lemma boot_create : ramdisk_create (lit "file1") (ramdisk_init files_bss) diag_init =
  Ok (0, created_files, Diag 0 1).
Proof. by vm_compute. Qed.

Lemma boot_write : ramdisk_write (lit "file1") (lit "Hello FauzanOS!") created_files = Ok (0, boot_files).
Proof. by vm_compute. Qed.

Lemma boot_files_wf : Forall file_wf boot_files.
Proof.
  destruct (create_refines _ _ _ files_bss_wf (lit_cstring "file1" eq_refl)) as (r1 & E1 & _ & H1).
  pose proof boot_create as Ec. unfold ramdisk_create in Ec. rewrite E1, bind_ok in Ec.
  destruct r1 as [f1|]; [|done]. destruct (H1 f1 eq_refl) as [Hf1 _].
  destruct (write_refines f1 _ _ _ _ Hf1 (lit_cstring "file1" eq_refl) (lit_cstring "Hello FauzanOS!" eq_refl)) as (r2 & E2 & _ & H2).
  pose proof boot_write as Ew. assert (created_files = f1) as Ef by congruence. rewrite Ef in Ew. unfold ramdisk_write in Ew. rewrite E2, bind_ok in Ew. destruct r2 as [f2|]; [|done].
  injection Ew as <-. by apply (H2 f2).
Qed.

Lemma boot_files_abs : abs boot_files = Some (str "file1", str "Hello FauzanOS!") :: replicate 15 None.
Proof. by vm_compute. Qed.

Section BootSpec.
Context {A W : Type} `{!Console W}.
Implicit Type s : shell A W.
#[local] Set Default Proof Using "Type*".

Lemma demo_spec s : files s = ramdisk_init files_bss -> dg s = diag_init -> length (buffer s) = 128%nat ->
  exists w b, demo s = Ok (set_w w (set_buffer b (set_files boot_files (set_diag (Diag 0 1) s)))) /\
    length b = 128%nat /\ output w = screen s ++ str "Read from file1: " ++ line "Hello FauzanOS!".
Proof.
  intros Hf Hd Hb. unfold demo. rewrite Hf, Hd, boot_create, bind_ok. cbv zeta. cbn [files set_files set_diag].
  rewrite boot_write, bind_ok. unfold ramdisk_read. cbn [files set_files buffer set_diag].
  rewrite (read_refines _ _ _ (buffer s) boot_files_wf (lit_cstring "file1" eq_refl)), boot_files_abs.
  cbn [spec_read]. rewrite decide_True by done. rewrite decide_True by (rewrite Hb; vm_compute; lia). rewrite !bind_ok.
  set (b := list_inserts 0 (str "Hello FauzanOS!" ++ [0]) (buffer s)).
  assert (Hc : cstring b (str "Hello FauzanOS!")).
  { unfold b. rewrite list_inserts_splice by (rewrite Hb; vm_compute; lia). rewrite take_0, app_nil_l, <- app_assoc.
    split; [by repeat constructor | by eexists]. }
  match goal with |- context [print _ ?s1] => destruct (print_says (A := A) "Read from file1: " eq_refl s1) as (w1 & -> & H1) end.
  rewrite bind_ok. match goal with |- context [println _ ?s1] => destruct (println_cstring_says (A := A) b _ Hc s1) as (w2 & E2 & H2) end.
  exists w2, b. split; [exact E2|]. split; [unfold b; by rewrite length_inserts|].
  rewrite H2. unfold screen at 1. cbn [hc con set_w set_hc set_con]. by rewrite H1, <- app_assoc.
Qed.

Lemma boot_spec (J : nat -> A -> Prop) T lwip_init netif_add netif_set_default netif_set_up dhcp_start sheap s :
  stack_call (J 0%nat) (J 1%nat) T lwip_init -> stack_call (J 1%nat) (J 2%nat) T netif_add ->
  stack_call (J 2%nat) (J 3%nat) T netif_set_default -> stack_call (J 3%nat) (J 4%nat) T netif_set_up ->
  stack_call (J 4%nat) (J 5%nat) T dhcp_start -> J 0%nat (api (hc s)) ->
  files s = files_bss -> length (buffer s) = 128%nat -> length (hwaddr (nif s)) = 6%nat -> 0 < sheap < 4294959000 ->
  exists s', boot lwip_init netif_add netif_set_default netif_set_up dhcp_start sheap s = Ok s' /\
    (exists ts, length ts = 5%nat /\ Forall T ts /\ screen s' = screen s ++ boot_head ++ mjoin ts ++ boot_tail) /\
    J 5%nat (api (hc s')) /\ files s' = boot_files /\ dg s' = Diag 0 1 /\
    kheap s' = Heap.Heap (sheap + 128) (sheap + 8192) 128 /\ length (buffer s') = 128%nat.
Proof.
  intros H1 H2 H3 H4 H5 J0 Hf Hb Hw Hsh. unfold boot, heap_init.
  destruct (uart_println_lit "HEAP INIT" eq_refl (con (hc s))) as (w0 & -> & O0). rewrite !bind_ok.
  change (8 * 1024) with 8192. rewrite !u32_id by solve_u. cbv zeta.
  match goal with |- context [println (lit "HEAP INIT DONE") ?s1] =>
    destruct (println_says (A := A) "HEAP INIT DONE" eq_refl s1) as (w1 & -> & O1) end. rewrite bind_ok.
  match goal with |- context [println (lit "=== ZanOS v0.4 ===") ?s1] =>
    destruct (println_says (A := A) "=== ZanOS v0.4 ===" eq_refl s1) as (w2 & -> & O2) end. rewrite bind_ok.
  match goal with |- context [eth_init mac_addr ?m ?w] =>
    destruct (eth_init_prints 0xDE 0xAD 0xBE 0xEF 0x01 0x02 m w) as (m3 & w3 & E3 & O3) end.
  unfold mac_addr at 1. rewrite E3, bind_ok. clear E3.
  match goal with |- context [start_stack _ _ _ _ _ ?s1] =>
    destruct (start_stack_spec J T _ _ _ _ _ s1 H1 H2 H3 H4 H5) as (s4 & -> & (ts & Hlt & HT & O4) & J5 & (K1 & K2 & K3 & K4)) end;
    [exact J0 | exact Hw |]. rewrite bind_ok.
  cbn [files dg kheap buffer set_edev set_hc set_regs set_files set_diag set_kheap set_w] in K1, K2, K3, K4.
  match goal with |- context [println (lit "[LWIP] lwIP Stack Initialized & DHCP Started.") ?s1] =>
    destruct (println_says (A := A) "[LWIP] lwIP Stack Initialized & DHCP Started." eq_refl s1) as (w5 & -> & O5) end. rewrite bind_ok.
  match goal with |- context [println (lit "Interrupts enabled.") ?s1] =>
    destruct (println_says (A := A) "Interrupts enabled." eq_refl s1) as (w6 & -> & O6) end. rewrite bind_ok.
  match goal with |- context [kmalloc_drop 100 ?s1] => set (s6 := s1) end.
  assert (Hk6 : kheap s6 = Heap.Heap sheap (sheap + 8192) 0) by exact K3.
  destruct (kmalloc_drop_spec 100 s6) as (w7 & -> & O7); try (rewrite Hk6; cbn; lia); [lia|]. rewrite bind_ok.
  match goal with |- context [kmalloc_drop 28 ?s1] => set (s7 := s1) end.
  assert (Hk7 : kheap s7 = Heap.Heap (sheap + 100) (sheap + 8192) 100) by (unfold s7; cbn [kheap set_kheap]; by rewrite Hk6).
  destruct (kmalloc_drop_spec 28 s7) as (w8 & -> & O8); try (rewrite Hk7; cbn; lia); [lia|]. rewrite bind_ok.
  match goal with |- context [demo ?s1] => set (s8 := s1) end.
  destruct (demo_spec s8) as (w9 & b & -> & Hbl & O9); [rewrite <- Hf; exact K1 | exact K2 | by rewrite <- Hb, <- K4 |].
  eexists. split; [reflexivity|]. split_and!; try done.
  - exists ts. split; [done|]. split; [done|]. unfold screen at 1. cbn [hc con set_w set_hc set_con]. rewrite O9. unfold screen at 1. cbn [hc con s8 set_w set_hc set_con set_kheap].
    rewrite O8. unfold screen at 1. cbn [hc con s7 set_w set_hc set_con set_kheap]. rewrite O7.
    unfold screen at 1. cbn [hc con s6 set_w set_hc set_con]. rewrite O6. unfold screen at 1.
    cbn [hc con set_w set_hc set_con interrupts_enable set_interrupts set_regs]. rewrite O5, O4. unfold screen at 1.
    cbn [hc con set_edev set_hc set_con set_regs set_files set_diag set_kheap set_w] in *. rewrite O3, O2. unfold screen at 1.
    cbn [hc con set_hc set_con set_kheap set_w]. rewrite O1. unfold screen at 1. cbn [hc con set_hc set_con set_kheap]. rewrite O0.
    unfold boot_head, boot_tail, screen. by rewrite <- !app_assoc.
  - cbn [kheap set_w set_hc set_buffer set_files set_diag s8 set_kheap]. rewrite Hk7. cbn. f_equal; lia.
Qed.

End BootSpec.

(** *** The commands that use the network *)

Section Network.
Context {P1 P2 A W : Type} `{!PoolAlloc P1} `{!PoolAlloc P2} `{!TcpApi P1 P2 A} `{!Console W}.
Implicit Type s : shell A W.
#[local] Set Default Proof Using "Type*".
Lemma println_ip_spec ip s : is_u32 ip -> length (ntoa_buf (hc s)) = 16%nat ->
  exists s', println_ip ip s = Ok s' /\ screen s' = screen s ++ dotted ip ++ [10].
Proof.
  intros Hi Hn. unfold println_ip. destruct (ntoa_prints (ntoa_buf (hc s)) ip Hn Hi) as (b & -> & Hb & _). rewrite !bind_ok.
  match goal with |- context [println b ?s1] => destruct (println_cstring_says (A := A) b _ Hb s1) as (w & -> & Hw) end.
  eexists. split; [reflexivity|]. exact Hw.
Qed.

Variable lwip_poll : shell A W -> res (shell A W).

(** While the HTTP client is idle, polling returns, prints texts [T] and stores
    only addresses. *)
Definition dns_sane (s : shell A W) : Prop :=
  http_inv (hc s) /\ http_is_busy (hc s) = false /\ is_u32 (resolved_ip s).
Definition poll_dns (T : list Z -> Prop) : Prop := forall s, dns_sane s ->
  exists s' t, lwip_poll s = Ok s' /\ T t /\ screen s' = screen s ++ t /\ dns_sane s'.

(** While the HTTP client is busy, polling makes moves of the client (its
    invariant holds) and [patience] runs out unless it finishes. *)
Definition poll_http (patience : shell A W -> nat) : Prop := forall s, http_inv (hc s) -> settled (api (hc s)) ->
  exists s', lwip_poll s = Ok s' /\ http_inv (hc s') /\ settled (api (hc s')) /\
    (http_is_busy (hc s') = true -> (patience s' < patience s)%nat).

Lemma wait_dns_spec T k : forall s, poll_dns T -> dns_sane s ->
  exists s' ts, wait_dns lwip_poll k s = Ok s' /\ Forall T ts /\ screen s' = screen s ++ mjoin ts /\ dns_sane s'.
Proof.
  assert (Hsame : forall s, dns_sane s -> exists s' ts, Ok s = Ok s' /\ Forall T ts /\ screen s' = screen s ++ mjoin ts /\ dns_sane s').
  { intros s Hs. exists s, []. split; [done|]. split; [done|]. split; [by rewrite app_nil_r | done]. }
  induction k as [|k IH]; intros s Hp Hs; cbn [wait_dns]; (destruct (dns_resolved s); [by apply Hsame|]); [by apply Hsame|].
  destruct (Hp s Hs) as (s1 & t & -> & Ht & H1 & Hs1). rewrite bind_ok. destruct (IH s1 Hp Hs1) as (s2 & ts & -> & Hts & H2 & Hs2).
  exists s2, (t :: ts). split; [done|]. split; [by constructor|]. split; [by rewrite H2, H1, <- app_assoc | done].
Qed.

Lemma wait_http_S fuel s : wait_http lwip_poll (S fuel) s =
  if http_is_busy (hc s) then s ← lwip_poll s; wait_http lwip_poll fuel s else Ok s.
Proof. done. Qed.

Lemma wait_http_spec patience fuel : forall s, poll_http patience -> http_inv (hc s) -> settled (api (hc s)) -> (patience s <= fuel)%nat ->
  exists s', wait_http lwip_poll (S fuel) s = Ok s' /\ http_inv (hc s') /\ http_is_busy (hc s') = false.
Proof.
  induction fuel as [|fuel IH]; intros s Hp Hs Hr Hf; rewrite wait_http_S; (destruct (http_is_busy (hc s)) eqn:Eb; [|by exists s]);
    destruct (Hp s Hs Hr) as (s1 & -> & Hs1 & Hr1 & Hlt); rewrite bind_ok; destruct (http_is_busy (hc s1)) eqn:E1.
  - specialize (Hlt eq_refl). lia.
  - exists s1. cbn [wait_http]. by rewrite E1.
  - apply IH; try done. specialize (Hlt eq_refl). lia.
  - exists s1. by rewrite wait_http_S, E1.
Qed.

End Network.

(** ** Properties *)

(** C39: the line editor. If an ENTER is typed in pass [m], getline returns in
    that pass with the edited line, NUL-terminated, in the buffer, never having
    written outside of it: characters are added while there is room for the
    NUL, backspace and DEL remove the last one. On the screen each pass shows what
    its poll prints, one of the texts [T], and behind it the echo of the character
    it finds: exactly when the character has an effect. Input while the line is
    full is dropped. Of lwip_poll it is assumed that it returns from the states
    [I], to a state [I], and leaves the kernel's own data alone; with a poll that
    prints nothing ([T] is the empty text alone) only the echo is on the screen. *)
Theorem getline_edits {A W : Type} `{!Console W} (I : shell A W -> Prop) (T : list Z -> Prop)
    (lwip_poll : shell A W -> res (shell A W)) (key : nat -> option Z)
    (n m fuel : nat) (buf : list Z) (e : Z) (s : shell A W) :
  poll_returns I T lwip_poll -> I s -> (n <= m)%nat -> key m = Some e -> is_enter e = true ->
  (forall i c, (n <= i < m)%nat -> key i = Some c -> is_enter c = false) ->
  (m - n < fuel)%nat -> (0 < length buf)%nat ->
  exists buf' s' ts, getline lwip_poll key fuel n buf (length buf) s = Ok (buf', S m, s') /\
    length buf' = length buf /\
    (exists rest, buf' = edited (length buf) [] (typed key n m) ++ 0 :: rest) /\
    (length (edited (length buf) [] (typed key n m)) < length buf)%nat /\
    length ts = S (m - n) /\ Forall T ts /\ screen s' = screen s ++ pass_text (length buf) [] (passes key ts n m) /\
    I s' /\ same_kernel s s'.
Proof.
  intros Hp HI Hnm Hk He Hi Hf Hb.
  destruct (getline_loop_spec lwip_poll key I T Hp (length buf) e (m - n) He n m fuel buf [] s)
    as (b & s' & ts & E & Hl & Hr & Hlt & HT & Hs & HI' & Hsk); try done; [lia | by exists buf |].
  exists b, s', ts. split_and!; try done. by apply edited_length.
Qed.

(** C27: the shell answers. From a sound state, a line typed at the prompt that
    is not a network command makes one turn of the main loop print the prompt,
    then pass by pass what the poll prints, one of the texts [T], and the echo,
    and behind the line feed exactly the answer of the abstract interpreter
    [reply] to the edited line (nothing for an empty one); it leaves the files,
    the counters and the stack as they are. Of lwip_poll it is assumed that it
    returns from the states [I], to a state [I], and leaves the kernel's own data
    alone. *)
Theorem shell_answers {P1 P2 A W : Type} `{!PoolAlloc P1} `{!PoolAlloc P2} `{!TcpApi P1 P2 A} `{!Console W}
    (I : shell A W -> Prop) (T : list Z -> Prop) (lwip_poll : shell A W -> res (shell A W)) (key : nat -> option Z) (tav : Z)
    (dhcp : shell A W -> bool) (n m fuel : nat) (cmd : list Z) (e : Z) (text : list Z) (s : shell A W) :
  poll_returns I T lwip_poll -> I s -> (n <= m)%nat -> key m = Some e -> is_enter e = true ->
  (forall i c, (n <= i < m)%nat -> key i = Some c -> is_enter c = false) -> (m - n < fuel)%nat ->
  length cmd = 64%nat -> shell_ok s -> is_u32 tav ->
  let line_ := cname (edited 64 [] (typed key n m) ++ [0]) in
  (if decide (line_ = []) then text = [] else reply (files s) (dg s) (kheap s) tav line_ = Some text) ->
  exists s' ts, shell_loop lwip_poll key tav dhcp 1 fuel n cmd s = Ok (S m, s') /\ length ts = S (m - n) /\ Forall T ts /\
    screen s' = screen s ++ str "> " ++ pass_text 64 [] (passes key ts n m) ++ text /\
    files s' = files s /\ dg s' = dg s /\ kheap s' = kheap s /\ shell_ok s' /\ I s'.
Proof.
  intros Hp HI Hnm Hk He Hi Hf Hl Hs Ht line_ Hr. cbn [shell_loop].
  destruct (print_says (A := A) "> " eq_refl s) as (w & -> & Hw). rewrite bind_ok.
  destruct (getline_loop_spec lwip_poll key I T Hp 64 e (m - n) He n m fuel cmd [] (set_w w s))
    as (b & s1 & ts & E & Hbl & (r & Hb) & Hlt & HT & Hs1 & HI1 & K1); try done; [lia | cbn; lia | by exists cmd | by apply (own_w lwip_poll I T) |].
  unfold getline. change CMD_MAX with (Z.of_nat 64). change 0 with (Z.of_nat (length (@nil Z))). rewrite E, bind_ok.
  assert (Hc : cstring b line_) by (rewrite Hb; apply cname_app_cstring). clearbody line_.
  destruct K1 as (F1 & F2 & F3 & F4). cbn [files dg kheap buffer set_w set_hc] in F1, F2, F3, F4.
  assert (Hs1ok : shell_ok s1) by (unfold shell_ok; rewrite F1, F2, F3, F4; exact Hs).
  assert (Hg : exists c, buf_get b 0 = Ok c /\ (c = 0 <-> line_ = [])).
  { destruct Hc as [Hc [r2 Er]]. rewrite Er. destruct line_ as [|c l]; [by exists 0|].
    apply Forall_cons in Hc as [Hc _]. by exists c. }
  destruct Hg as (c & Hg & Hc0). change (Z.of_nat (length (@nil Z))) with 0. rewrite Hg, bind_ok.
  assert (Hcmd : exists s2, (if c =? 0 then Ok s1 else run_command lwip_poll tav dhcp fuel b s1) = Ok s2 /\
    screen s2 = screen s1 ++ text /\ same_but_screen s1 s2).
  { destruct (Z.eqb_spec c 0) as [->|Hne].
    - rewrite decide_True in Hr by tauto. subst text. exists s1. split; [done|]. split; [by rewrite app_nil_r|].
      exists (con (hc s1)), (buffer s1). by destruct s1 as [[]].
    - rewrite decide_False in Hr by tauto. apply (run_command_local _ _ _ _ _ line_); try done. by rewrite F1, F2, F3. }
  destruct Hcmd as (s2 & -> & Hs2 & (w2 & b2 & E2 & Hb2)). rewrite bind_ok. exists s2, ts. split; [done|]. split; [done|]. split; [done|].
  split; [|rewrite E2; split_and!; try done].
  - rewrite Hs2, Hs1. change (screen (set_w w s)) with (output w). by rewrite Hw, <- !app_assoc.
  - unfold shell_ok. cbn [files dg kheap buffer set_buffer set_w set_hc]. rewrite Hb2. exact Hs1ok.
  - by apply (po_own _ _ _ Hp).
Qed.

(** C40: booting. If the stack's set-up functions return, main reaches its first
    prompt with exactly the boot messages on the screen, and between those of the
    Ethernet driver and the one that says that the stack is initialised the five
    texts that the set-up functions print ([T] says which; netif_add and
    netif_set_default print one); then the demo file is on the RAM disk, one file
    is counted, 128 bytes of the kernel heap are in use, the stack is in the state
    [J 5] that dhcp_start leaves, and the shell answers. It is assumed that each
    set-up function returns from the state the one before has left and does not
    touch the RAM disk, the counters and the kernel heap. *)
Theorem boot_ready {A W : Type} `{!Console W} (J : nat -> A -> Prop) (T : list Z -> Prop)
    (lwip_init netif_add netif_set_default netif_set_up dhcp_start : shell A W -> res (shell A W)) (sheap : Z) (s : shell A W) :
  stack_call (J 0%nat) (J 1%nat) T lwip_init -> stack_call (J 1%nat) (J 2%nat) T netif_add ->
  stack_call (J 2%nat) (J 3%nat) T netif_set_default -> stack_call (J 3%nat) (J 4%nat) T netif_set_up ->
  stack_call (J 4%nat) (J 5%nat) T dhcp_start -> J 0%nat (api (hc s)) ->
  files s = files_bss -> length (buffer s) = 128%nat -> length (hwaddr (nif s)) = 6%nat -> 0 < sheap < 4294959000 ->
  exists s', boot lwip_init netif_add netif_set_default netif_set_up dhcp_start sheap s = Ok s' /\
    (exists ts, length ts = 5%nat /\ Forall T ts /\ screen s' = screen s ++ boot_head ++ mjoin ts ++ boot_tail) /\
    J 5%nat (api (hc s')) /\ abs (files s') = Some (str "file1", str "Hello FauzanOS!") :: replicate 15 None /\
    file_count (dg s') = 1 /\ Heap.used (kheap s') = 128 /\ shell_ok s'.
Proof.
  intros H1 H2 H3 H4 H5 J0 Hf Hb Hw Hsh.
  destruct (boot_spec J T _ _ _ _ _ sheap s H1 H2 H3 H4 H5 J0 Hf Hb Hw Hsh) as (s' & E & Hsc & J5 & Hfs & Hd & Hk & Hbl).
  exists s'. split; [exact E|]. split; [exact Hsc|]. split; [exact J5|]. rewrite Hfs, Hd, Hk. split; [exact boot_files_abs|]. split; [done|]. split; [done|].
  split; [rewrite Hfs; exact boot_files_wf|]. split; [rewrite Hd, Hk; unfold diag_ok; cbn; lia|].
  intros n c. rewrite Hfs, Hbl, boot_files_abs. cbn [spec_read replicate]. case_decide; [|done].
  intros [= <-]. vm_compute. lia.
Qed.

(** The network commands return. curl sends its request without running
    over the buffer for every name that fits a command line, and comes back
    with the client idle if the stack does not stay busy for ever; host comes
    back after at most two million polls and prints, behind the texts of the
    polls, an address or one of its three messages. *)
Theorem network_commands_return {P1 P2 A W : Type} `{!PoolAlloc P1} `{!PoolAlloc P2} `{!TcpApi P1 P2 A} `{!Console W}
    (T : list Z -> Prop) (lwip_poll : shell A W -> res (shell A W)) (patience : shell A W -> nat) (name nm : list Z) (s : shell A W) :
  cstring name nm -> (length nm <= 58)%nat -> http_inv (hc s) -> http_is_busy (hc s) = false -> settled (api (hc s)) ->
  poll_http lwip_poll patience -> poll_dns lwip_poll T -> is_u32 (resolved_ip s) ->
  (exists fuel s', cmd_curl lwip_poll fuel name s = Ok s' /\ http_is_busy (hc s') = false /\ http_inv (hc s')) /\
  exists s' ts answer, cmd_host lwip_poll name s = Ok s' /\ Forall T ts /\
    screen s' = screen s ++ str "Resolving " ++ nm ++ [10] ++ mjoin ts ++ answer /\
    (answer ∈ [line "Failed to resolve."; line "DNS resolution timed out."; line "DNS error."] \/
     exists ip, is_u32 ip /\ answer = str "IP: " ++ dotted ip ++ [10]).
Proof.
  intros Hn Hl Hi Hib Hset Hph Hpd Hip. split.
  - unfold cmd_curl, on_http.
    assert (Hfit : (length (request_text nm (str "/")) < 256)%nat) by by apply request_fits.
    destruct (http_get_inv (hc s) name (lit "/") nm (str "/") Hi Hn (lit_cstring "/" eq_refl) Hfit) as (h' & E & Hi' & Hkept & _).
    assert (Hset' : settled (api h')).
    { unfold settled. rewrite <- (left_id_L ∅ (⊎) (stack_refs _)). apply Hkept. by rewrite (left_id_L ∅ (⊎)). }
    set (s1 := set_hc h' s). destruct (wait_http_spec lwip_poll patience (patience s1) s1 Hph Hi' Hset' ltac:(lia)) as (s2 & E2 & Hi2 & Hb2).
    exists (S (patience s1)), s2. rewrite E, !bind_ok. fold s1. by rewrite E2.
  - pose proof Hi as (_ & Hnt & _). unfold cmd_host.
    destruct (print_says (A := A) "Resolving " eq_refl s) as (w1 & -> & O1). rewrite bind_ok.
    destruct (println_cstring_says (A := A) name nm Hn (set_w w1 s)) as (w2 & -> & O2). rewrite bind_ok.
    change (api (hc (set_w w2 (set_w w1 s)))) with (api (hc s)).
    destruct (dns_gethostbyname_spec name nm dns_callback_ptr (api (hc s)) Hn) as (a & e & ip & -> & Ca & Da & _ & Hipe). rewrite bind_ok. cbv zeta.
    set (s2 := set_hc _ _). assert (S2 : screen s2 = screen s ++ str "Resolving " ++ nm ++ [10]).
    { unfold s2, screen at 1. cbn [hc con set_w set_hc set_con set_api]. rewrite O2. unfold screen at 1.
      cbn [hc con set_w set_hc set_con]. by rewrite O1, <- app_assoc. }
    assert (N2 : length (ntoa_buf (hc s2)) = 16%nat) by exact Hnt.
    assert (I2 : http_inv (hc s2)).
    { destruct Hi as (Hi1 & Hi2 & Hi3). split; [exact Hi1|]. split; [exact Hi2|]. unfold http_is_busy in Hib.
      change (http_busy (hc s2)) with (http_busy (hc s)). rewrite Hib in Hi3 |- *. rewrite bool_decide_false, andb_false_r in Da by done.
      change (http_pcb (hc s2)) with (http_pcb (hc s)). change (api (hc s2)) with a. by rewrite Ca, Da. }
    assert (Hip_line : forall ip ts (s3 : shell A W), Forall T ts -> screen s3 = screen s2 ++ mjoin ts -> length (ntoa_buf (hc s3)) = 16%nat -> is_u32 ip ->
      exists s' ts answer, (s3 ← print (lit "IP: ") s3; println_ip ip s3) = Ok s' /\ Forall T ts /\
        screen s' = screen s ++ str "Resolving " ++ nm ++ [10] ++ mjoin ts ++ answer /\
        (answer ∈ [line "Failed to resolve."; line "DNS resolution timed out."; line "DNS error."] \/
         exists ip, is_u32 ip /\ answer = str "IP: " ++ dotted ip ++ [10])).
    { intros ip0 ts s3 Hts Hs3 Hn3 Hip0. destruct (print_says (A := A) "IP: " eq_refl s3) as (w3 & -> & O3). rewrite bind_ok.
      destruct (println_ip_spec ip0 (set_w w3 s3) Hip0 Hn3) as (s4 & -> & O4). exists s4, ts, (str "IP: " ++ dotted ip0 ++ [10]).
      split; [done|]. split; [done|]. split; [|right; by exists ip0].
      rewrite O4. change (screen (set_w w3 s3)) with (output w3). by rewrite O3, Hs3, S2, <- !app_assoc. }
    assert (Hmsg : forall t ts (s3 : shell A W), plain t = true -> t ∈ ["Failed to resolve."; "DNS resolution timed out."; "DNS error."]%string ->
      Forall T ts -> screen s3 = screen s2 ++ mjoin ts ->
      exists s' ts answer, println (lit t) s3 = Ok s' /\ Forall T ts /\
        screen s' = screen s ++ str "Resolving " ++ nm ++ [10] ++ mjoin ts ++ answer /\
        (answer ∈ [line "Failed to resolve."; line "DNS resolution timed out."; line "DNS error."] \/
         exists ip, is_u32 ip /\ answer = str "IP: " ++ dotted ip ++ [10])).
    { intros t ts s3 Hpl Hin Hts Hs3. destruct (println_says (A := A) t Hpl s3) as (w3 & -> & O3). exists (set_w w3 s3), ts, (line t).
      split; [done|]. split; [done|]. split; [|left; set_solver].
      change (screen (set_w w3 s3)) with (output w3). by rewrite O3, Hs3, S2, <- !app_assoc. }
    assert (Hnone : screen s2 = screen s2 ++ mjoin ([] : list (list Z))) by (by rewrite app_nil_r).
    destruct (Z.eqb_spec e ERR_OK) as [He|_]; [by apply (Hip_line ip [] s2); auto|].
    destruct (e =? ERR_INPROGRESS); [|apply (Hmsg _ [] s2); (done || set_solver)].
    destruct (wait_dns_spec lwip_poll T DNS_POLLS (set_dns false (resolved_ip s2) s2) Hpd) as (s3 & ts & -> & Hts & S3 & ((_ & N3 & _) & _ & Hip3)); [by split_and!|].
    rewrite bind_ok. change (screen (set_dns false (resolved_ip s2) s2)) with (screen s2) in S3.
    destruct (dns_resolved s3); [destruct (negb _)|].
    + assert (Ep : (s ← print (lit "IP: ") s3; println_ip (resolved_ip s) s) = (s ← print (lit "IP: ") s3; println_ip (resolved_ip s3) s)).
      { by destruct (print_says (A := A) "IP: " eq_refl s3) as (w & -> & _). }
      rewrite Ep. by apply (Hip_line _ ts).
    + apply (Hmsg _ ts); (done || set_solver).
    + apply (Hmsg _ ts); (done || set_solver).
Qed.

(** ** Witnesses *)

#[local] Existing Instance mini_api.
#[local] Instance shell_pool : PoolAlloc pool := memp_alloc pbuf_pool_desc pbuf_pool_desc_ok.
#[local] Notation mini_shell := (shell mini (list Z)).

Definition power_on : mini_shell :=
  ShellState http_boot files_bss diag_init (Heap.Heap 0 0 0) ∅ (Mmio ∅ []) (NetifInfo (101, 110) 0 0 0 (replicate 6 0) 0)
    false 0 false (replicate 128 0).

(** Functions of the stack that print nothing, or a message. *)
Definition add_text : list Z := line "netif: added interface en IP addr 0.0.0.0 netmask 0.0.0.0 gw 0.0.0.0".
Definition default_text : list Z := line "netif: setting default interface en".
Definition stack_texts (t : list Z) : Prop := t ∈ [[]; add_text; default_text].
Definition loud (t : string) : mini_shell -> res mini_shell := println (lit t).
Definition loud_add : mini_shell -> res mini_shell := loud "netif: added interface en IP addr 0.0.0.0 netmask 0.0.0.0 gw 0.0.0.0".
Definition loud_default : mini_shell -> res mini_shell := loud "netif: setting default interface en".
Definition any_state : nat -> mini -> Prop := fun _ _ => True.

Lemma ok_call : stack_call (any_state 0) (any_state 0) stack_texts (Ok : mini_shell -> res mini_shell).
Proof. intros s _. exists s, []. rewrite app_nil_r. split_and!; try done. by left. Qed.

Lemma loud_call t : plain t = true -> line t ∈ [add_text; default_text] -> stack_call (any_state 0) (any_state 0) stack_texts (loud t).
Proof.
  intros Hp Ht s _. destruct (println_says (A := mini) t Hp s) as (w & E & Hw). exists (set_w w s), (line t).
  split_and!; try done. by right.
Qed.

(** Polls that print nothing, or a dot. *)
Definition dot_poll : mini_shell -> res mini_shell := console_putc 46.

Lemma ok_poll : poll_returns (fun _ => True) (eq []) (Ok : mini_shell -> res mini_shell).
Proof. split; [done|]. intros s _. exists s, []. rewrite app_nil_r. by split_and!. Qed.

Lemma dot_poll_returns : poll_returns (fun _ => True) (eq [46]) dot_poll.
Proof. split; [done|]. intros s _. destruct (putc_says (A := mini) 46 s) as (w & E & Hw). exists (set_w w s), [46]. by split_and!. Qed.

Definition loud_boot : res mini_shell := boot Ok loud_add loud_default Ok Ok 0x20000100 power_on.
Definition booted : mini_shell := match loud_boot with Ok s => s | Err _ => power_on end.
Definition booted_text : list Z := boot_head ++ add_text ++ default_text ++ boot_tail.

Lemma booted_screen : screen booted = booted_text.
Proof. by vm_compute. Qed.

Lemma boot_ready_witness : exists s', boot Ok loud_add loud_default Ok Ok 0x20000100 power_on = Ok s' /\
  screen s' = boot_head ++ add_text ++ default_text ++ boot_tail /\ shell_ok s'.
Proof.
  destruct (boot_ready any_state stack_texts Ok loud_add loud_default Ok Ok 0x20000100 power_on) as (s' & E & _ & _ & _ & _ & _ & Hok);
    [exact ok_call | by apply loud_call; [|left] | by apply loud_call; [|right; left] | exact ok_call | exact ok_call | done | done | done | done | lia |].
  exists s'. split; [exact E|]. split; [|exact Hok].
  assert (booted = s') as <- by (unfold booted, loud_boot; by rewrite E). exact booted_screen.
Defined.

(** The keys h, i, DEL, o, ENTER, with passes in between that find nothing. *)
Definition keys_ho (n : nat) : option Z := mjoin ([Some 104; None; Some 105; Some 127; None; Some 111; Some 13] !! n).

Lemma getline_edits_witness :
  exists buf' s', getline dot_poll keys_ho 20 0 (replicate 8 0) 8 power_on = Ok (buf', 7%nat, s') /\
    (exists rest, buf' = str "ho" ++ 0 :: rest) /\ screen s' = str ".h..i." ++ [8; 32; 8] ++ str "..o." ++ [10].
Proof.
  destruct (getline_edits (A := mini) (W := list Z) (fun _ => True) (eq [46]) dot_poll keys_ho 0 6 20 (replicate 8 0) 13 power_on)
    as (b & s' & ts & E & _ & Hb & _ & Hl & Ht & Hs & _).
  - exact dot_poll_returns.
  - exact I.
  - lia.
  - done.
  - done.
  - intros i c Hi. do 6 (destruct i as [|i]; [intros [= <-]; done|]). lia.
  - lia.
  - cbn. lia.
  - pose proof (proj2 (replicate_as_Forall [46] 7 ts) (conj Hl Ht)) as <-.
    exists b, s'. split; [exact E|]. split; [exact Hb | exact Hs].
Defined.

(** "cat file1" after boot. *)
Definition keys_cat (n : nat) : option Z := (str "cat file1" ++ [13]) !! n.

Lemma shell_answers_witness :
  exists s', shell_loop Ok keys_cat 0 (fun _ => false) 1 20 0 (replicate 64 0) booted = Ok (10%nat, s') /\
    screen s' = booted_text ++ str "> " ++ line "cat file1" ++ line "Hello FauzanOS!".
Proof.
  assert (Hb : files booted = boot_files /\ shell_ok booted).
  { destruct (boot_spec any_state stack_texts Ok loud_add loud_default Ok Ok 0x20000100 power_on) as (s & E & _ & _ & H2 & H3 & H4 & H5);
      [exact ok_call | by apply loud_call; [|left] | by apply loud_call; [|right; left] | exact ok_call | exact ok_call | done | done | done | done | lia |].
    assert (booted = s) as -> by (unfold booted, loud_boot; by rewrite E). split; [exact H2|].
    split; [rewrite H2; exact boot_files_wf|]. split; [rewrite H3, H4; unfold diag_ok; cbn; lia|].
    intros n c. rewrite H2, H5, boot_files_abs. cbn [spec_read replicate]. case_decide; [|done]. intros [= <-]. vm_compute. lia. }
  destruct Hb as (Hf & Hok).
  destruct (shell_answers (A := mini) (W := list Z) (fun _ => True) (eq []) Ok keys_cat 0 (fun _ => false) 0 9 20 (replicate 64 0) 13
    (line "Hello FauzanOS!") booted) as (s' & ts & E & Hl & Ht & Hs' & _).
  - exact ok_poll.
  - exact I.
  - lia.
  - reflexivity.
  - reflexivity.
  - clear. intros i c Hi. do 9 (destruct i as [|i]; [intros [= <-]; done|]). lia.
  - lia.
  - reflexivity.
  - exact Hok.
  - split; lia.
  - rewrite Hf. clear. by vm_compute.
  - pose proof (proj2 (replicate_as_Forall [] 10 ts) (conj Hl Ht)) as <-.
    exists s'. split; [exact E|]. rewrite Hs', booted_screen. clear. f_equal; by vm_compute.
Defined.

(** A stack that fails every request and every connection at the next poll. *)
Definition fail_poll (s : mini_shell) : res mini_shell :=
  match m_dns (api (hc s)), http_pcb (hc s) with
  | S _, _ => on_http (fun h => http_exec no_custom (EvDns None) (set_api (mini_move (EvDns None) (api h)) h)) s
  | O, Some x => on_http (fun h => http_exec no_custom (EvError x (-13)) (set_api (mini_move (EvError x (-13)) (api h)) h)) s
  | O, None => Ok s
  end.

Lemma fail_poll_http : poll_http fail_poll (fun _ => 0%nat).
Proof.
  intros s Hi Hset. unfold fail_poll, on_http. pose proof Hi as (_ & _ & Hst).
  destruct (m_dns (api (hc s))) as [|k] eqn:Ed; [destruct (http_pcb (hc s)) as [x|] eqn:Ex|].
  - assert (Hc : exists c, conns (api (hc s)) !! x = Some c /\ on_err c = Some http_err_cb_ptr).
    { destruct (http_busy (hc s)); [|destruct Hst; congruence].
      destruct Hst as [_ [(Hp & _)|(y & c & Hp & Hc & _ & He & _)]]; [congruence|].
      exists c. split; [|done]. rewrite Hc. assert (x = y) as -> by congruence. apply lookup_singleton_eq. }
    destruct (http_event_inv no_custom (hc s) (EvError x (-13)) (mini_move (EvError x (-13)) (api (hc s))) Hi Hset) as (h' & -> & Hi' & Hs' & Hb).
    { split; [by apply mini_settled|]. cbn. split_and!; [done | lia | done | exact Hc | done]. }
    rewrite bind_ok. eexists. split; [reflexivity|]. split; [exact Hi'|]. split; [exact Hs'|]. cbn. unfold http_is_busy. by rewrite Hb.
  - exists s. split; [done|]. split; [done|]. split; [done|]. unfold http_is_busy. destruct (http_busy (hc s)); [|done].
    destruct Hst as [_ [(_ & _ & Hd)|(y & c & Hp & _)]]; [|congruence].
    change (m_dns (api (hc s)) = 1%nat) in Hd. congruence.
  - destruct (http_event_inv no_custom (hc s) (EvDns None) (mini_move (EvDns None) (api (hc s))) Hi Hset) as (h' & -> & Hi' & Hs' & Hb).
    { split; [by apply mini_settled|]. cbn. rewrite Ed. by split_and!. }
    rewrite bind_ok. eexists. split; [reflexivity|]. split; [exact Hi'|]. split; [exact Hs'|]. cbn. unfold http_is_busy. by rewrite Hb.
Qed.

Lemma fail_poll_dns : poll_dns fail_poll (eq []).
Proof.
  intros s (Hi & Hb & Hr). pose proof Hi as (_ & _ & Hst). unfold http_is_busy in Hb. rewrite Hb in Hst.
  destruct Hst as (Hp & _ & Hd). change (m_dns (api (hc s)) = 0%nat) in Hd. unfold fail_poll. rewrite Hd, Hp.
  exists s, []. rewrite app_nil_r. by split_and!.
Qed.

Lemma network_commands_return_witness :
  exists fuel s', cmd_curl fail_poll fuel (lit "example.com") power_on = Ok s' /\ http_is_busy (hc s') = false.
Proof.
  destruct (network_commands_return (eq []) fail_poll (fun _ => 0%nat) (lit "example.com") (str "example.com") power_on)
    as ((fuel & s' & E & Hb & _) & _).
  - by apply lit_cstring.
  - vm_compute. lia.
  - by split_and!.
  - done.
  - exact mini_store_inv.
  - exact fail_poll_http.
  - exact fail_poll_dns.
  - split; [by vm_compute | by vm_compute].
  - exists fuel, s'. split; [exact E | exact Hb].
Defined.
